(* ===== verification/_CoqProject ===== *)
-Q . S2P
Prelude.v
PyEnum.v
Graph.v
PyOrder.v
PyDecimal.v
Sql.v
StateMachine.v
DomainState.v
PyStr.v
TaskStore.v
TaskService.v
UnitOfWork.v
Zoom.v
Outbox.v
PyFloat.v
Routing.v
RoutingStore.v
Clock.v
Scheduler.v
Recovery.v
RunExecutor.v
RunControl.v
RunProperties.v
RunSettles.v
PyText.v
Outcomes.v
PyIeee.v
ReviewStore.v
ReviewHandlers.v
VerdictFusion.v
ReviewAggregation.v
WorkStore.v
Gates.v
Completion.v
PlanStore.v
RunBuilder.v
Dispatch.v
Artifacts.v
PreparePlan.v
ConfirmPlan.v
AuditLog.v
PlanValidator.v
JsonText.v
Frame.v
RpcSchema.v
Multiplexer.v
RpcSession.v
RpcServer.v
ModelLoop.v
RoutingPolicy.v
Candidates.v
RoutingEngine.v
RoutedTurn.v
OrgStore.v
Company.v
Employees.v
Conversations.v
Organisation.v
OrgProperties.v
Founding.v
Intake.v
Permissions.v
Budget.v
Matcher.v
ClockOrder.v
Approvals.v
Profiles.v
BackendAuth.v
BackendSessions.v
SemVer.v
Catalog.v
CatalogRequests.v
CatalogProperties.v
CatalogAgents.v
