(* ===== verification/Prelude.v ===== *)
(** * iBreeze: a verification development

    iBreeze runs companies of AI employees on a desktop machine.  Its Python sidecar
    ([src/sidecar/ibreeze]) keeps everything in one SQLite database; every change goes
    through a queue of write transactions, and most services are state machines over rows.
    Beside it stands a FastAPI backend ([src/apps/backend-api]) with the accounts and the
    catalog of agents, models and providers.  This library models the services that decide
    what the two programs may do next, and proves what they promise.

    ** How the parts fit together

    - A client speaks framed JSON to the sidecar.  The RPC server authenticates it,
      validates parameters and results against the contracts, and runs each request as a
      task of its own; calls in the other direction go through the multiplexer.
    - A command arrives with an idempotency key.  The unit of work runs its handler in one
      transaction, stores the answer under the key, appends the events the handler produced
      and one outbox row per event.  Transactions are run one at a time by the write queue.
      The outbox worker later turns pending outbox rows into internal commands.
    - A message of the user in a company's conversation starts a task.  Its plan is
      validated, confirmed by the user and written out as department tasks, employee tasks,
      runs and review specifications; work that waits for other work is dispatched when that
      is accepted, reviews when an artifact is published.
    - Tasks, reviews and runs move along the H.7 transition tables; the services check a
      move in Python and guard the [UPDATE] with the status or the version they read.
    - A run waits in the run queue until a worker claims it, moves it to running in
      transactions of its own, lets the adapter work, files the outcome and releases the item;
      meanwhile the lease is refreshed and the user may cancel.  Each model turn is planned by the routing policy and
      engine over the candidates of the run's snapshot and recorded by the routing
      repository.
    - A restart first runs recovery, which fails what the crash interrupted.
    - Agents, models and providers are maintained in the backend's catalog by
      administrators, whose sessions are families of rotating refresh tokens.

    ** Files

    Foundations:
    - [Prelude]: membership tests, Python's stable [sorted], exceptions as the values [exn],
      [result], the transaction monad [tx] with [tx_inv], boolean case analysis ([bools],
      [andbs]).  [PyEnum]: [enum.StrEnum] as a type class with its laws, dicts.
      [PyOrder]: orderings as three-way comparisons, sort keys.
    - [PyStr], [PyText], [PyFloat], [PyIeee], [PyDecimal], [JsonText]: strings and JSON
      values, [int] and [UUID] on text, float literals and float arithmetic, [decimal], the
      text of JSON.  [Clock], [ClockOrder]: instants as text and the order of such texts.
    - [Graph]: reachability by computation.
    - [Sql]: a table as a type class (a lens into the database with its [CHECK], [UNIQUE]
      and [FOREIGN KEY] constraints), the statements and their laws, with the hint database
      [sql]; [Zoom]: a database as a part of another.  The stores instantiate them.

    State machines and tasks of the sidecar:
    - [StateMachine]: [state_machine.py]; [DomainState]: [domain/tasks/state.py],
      [domain/review/state.py], [domain/__init__.py].
    - [TaskStore], [TaskService]: [task/service.py].
    - [UnitOfWork]: [persistence/idempotency.py], [unit_of_work.py], [write_queue.py],
      [events/store.py] and the writer of [events/outbox.py], over any database of the class
      [EventDb]; [Outbox]: [workers/outbox.py] and the table side of [events/outbox.py].
    - [WorkStore], [Gates], [Completion]: [application/completion_handlers.py] and
      [domain/tasks/commands.py].
    - [PlanValidator]: [orchestration/plan_validator.py]; [PlanStore], [RunBuilder],
      [Dispatch], [PreparePlan], [ConfirmPlan]: [orchestration/run_builder.py],
      [dispatch_strategies.py] and [confirm_plan.py]; [Matcher]: [department_matcher.py].

    Runs and routing:
    - [Scheduler]: [runtime/scheduler.py]; [Recovery]: [runtime/recovery.py] and the run
      event log of [run_executor.py]; [RunExecutor]: the claims, the transactions and the
      worker of [run_executor.py]; [RunControl]: [runtime/service.py]; [RunProperties] and
      [RunSettles] prove what becomes of a run.
    - [Routing]: the pure functions of [routing/types.py], [retry.py], [config.py],
      [context.py], [classifier.py], [health.py] and [ensemble.py]; [RoutingStore]:
      [routing/repository.py]; [Outcomes]: [routing/outcomes.py]; [RoutingPolicy]:
      [routing/policy.py] and [canonical_json.py]; [Candidates]: [routing/candidates.py];
      [RoutingEngine]: [routing/engine.py]; [RoutedTurn]: the routed turn of
      [runtime/transport.py].
    - [ModelLoop]: [runtime/model_loop.py]; [Budget]: [runtime/token_budget.py] and
      [context_engine.py]; [Permissions]: [runtime/permission_gateway.py] and
      [security/rbac.py].

    Reviews, artifacts, approvals, audit:
    - [ReviewStore], [ReviewHandlers]: [domain/review/entities.py], [repository.py],
      [commands.py] and [application/review_handlers.py]; [VerdictFusion],
      [ReviewAggregation]: [domain/review/aggregation.py] and
      [application/review_aggregation.py].
    - [Artifacts]: [artifacts/service.py], [storage.py]; [Approvals]:
      [approvals/service.py]; [AuditLog]: [security/audit.py] and [audit.py].

    The organisation:
    - [OrgStore], [Company], [Employees], [Conversations]: [company.py], [employee.py],
      [conversation.py] and their bodies in [schemas.py]; [Organisation] puts their commands
      together, [OrgProperties], [Founding] and [Intake] prove what they keep and do.
    - [Profiles]: [profile/service.py] and the profile handlers of [public_rpc.py].

    The RPC boundary:
    - [Frame], [RpcSchema], [Multiplexer], [RpcSession], [RpcServer]: [rpc/frame.py],
      [public_contracts.py], [multiplexer.py], [session.py], [production_server.py] and
      [dispatcher.py].

    The backend:
    - [BackendAuth], [BackendSessions]: [auth/service.py], [auth/router.py],
      [users/service.py], [users/router.py], [dependencies.py], [db/session.py].
    - [SemVer], [Catalog], [CatalogRequests], [CatalogProperties], [CatalogAgents]:
      [catalog/service.py], [models.py], [schemas.py], [router.py].

    Above each definition that translates code, a comment [[path:first-last symbol]] names
    the lines; definitions keep the names of the code.

    ** What the theorems show

    The properties of the program are the theorems whose comment begins with a claim number
    (C1, C2, ... in order of importance); everything else is a lemma.
    - State machines and commands: [transition_ok_iff], [execute_at_most_once],
      [lifecycle_refines_spec] (the task service implements an abstract contract).
    - Plans and work: [validate_plan_correct], [has_cycle_correct], [confirm_dispatches],
      [graph_advance_exactly_once], [handlers_follow_gates], [ended_below_completed].
    - Runs: [recover_stale_runs_complete], [runs_live_by_the_table] (whatever comes between
      the steps of a worker), [claimed_runs_settle], [waiting_runs_are_stuck].
    - Routing and model turns: [validated_policy_ok], [plan_sound], [turn_safe],
      [attempts_only_move_forward], [run_safe], [budget_exact].
    - Reviews, artifacts, approvals: [report_submitted_correct], [versions_stay_linear],
      [approvals_decided_once].
    - Organisation: [active_companies_sound] (the invariants of every reachable database),
      [create_company_founds], [archive_safe_final], [versions_checked],
      [history_append_only], [message_intake], [published_versions_frozen],
      [published_profiles_complete].
    - RPC: [dispatch_is_gated], [every_request_is_answered_once], [contracts_are_enforced],
      [frames_roundtrip], [session_answers_every_call].
    - Backend: [refresh_token_once], [sessions_ended], [catalog_frozen],
      [validated_agents_sound].
    - Time: [instants_as_text], which lets texts be compared where instants are meant.

    Theorems over whole histories ([active_companies_sound], [refresh_token_once],
    [catalog_frozen], ...) quantify over every sequence of requests, with any arguments,
    clocks and identifiers, failing requests included.

    ** How the code is modelled

    - Exceptions are values: a Python function is a function to [result], a function on the
      database is a [tx], a state transformer whose state at an exception is the state at
      that point; [atomically] is the transaction, which rolls back.  Transactions of the
      sidecar are never interleaved: the write queue runs them one by one.  In the backend a
      request that raises is rolled back by [get_db_session], except under the idempotency
      middleware, whose session commits what a refused request has written.
    - A table is the list of its rows in rowid order.  Rows have the columns the modelled
      statements read or write; columns that are only stored by code outside the model, or
      always hold a constant or a timestamp nobody reads, are left out.  Every [CHECK],
      [UNIQUE] index and trigger on the kept columns is there, and a failing statement raises
      [IntegrityErr].  Foreign keys are checked by the statement or, where the schema or a
      pragma defers them, at the commit ([OrgStore]).  Tables of other components that only
      foreign keys mention are lists of (id, company) pairs.
    - The clock and fresh ids are arguments ([Env], [Ambient], [now], [clock], [uuid]): the
      [n]-th fresh id of a call is [uuid n], and where a call reads the clock several times
      the [n]-th reading is [now n].  Theorems that need the ids unused say so.
    - An id is text, the canonical form of a UUID as the columns hold it.  A JSON column
      holds a [json] value or what [json.dumps] made of it.
    - A Python [int] is [Z]; SQLite's 64-bit bound is not reached by counters that grow by
      one.  A float is the rational number it denotes, each literal being written out as the
      double it is; arithmetic on floats rounds as IEEE 754 doubles do ([PyIeee]).
    - A [str] is its UTF-8 encoding, counted in code points where Python counts.
      [int(text)] accepts ASCII digits only, where Python also takes other Unicode decimals.
    - Concurrency is a sequence of events: requests of the RPC server and the sessions, the
      answers of models, tools and providers, the commands of several clients.  The worker of
      [RunExecutor] is a program whose every access to the database may find it changed by
      anybody else, or refused by the write queue.
    - What is not code of the program is an argument: digests ([sha256], [hmac_b64],
      [token_hash], [digest]), password hashing, JWTs, Unicode tables ([nfkc], [lower],
      [idna], [decimal]), [repr] and [int] of floats, regular expressions ([fullmatch]),
      [fromisoformat], URL parsing, SQLite's [round] and its comparison of mixed types, the
      size of a text, executables and providers.

    ** Bounds, fuel and termination

    Loops over lists are structural recursions.  Where the code recurses or loops otherwise
    the definition has the code's own bound or a fuel that is proved to be enough:
    - [PlanValidator._has_cycle], the JSON reader and the schema validator take Python's
      recursion limit as an argument and fail as Python does when it is reached; the JSON
      reader's fuel of two steps per character, plus two, always suffices.
    - [ModelLoop.run] ends after [max_turns], a routed turn after the tries of its retry
      table; the chain of versions of an artifact is followed for as many steps as there are
      artifacts, truncating a context takes as many rounds as it has messages, and a paged
      read as many pages as rows.
    - [PyDecimal] prints as many digits as its argument has; [StateMachine] computes
      reachability with as many rounds as a table has states.
    - The code's constants are kept: the delivery batch of 50, the capacity of the write
      queue, 16 MiB frames, 256 requests in flight, three strikes, six attempts of a run,
      twenty families of an account.
    Recovery, scheduling, leasing, founding and the worker are proved to return a result on every
    well-formed database, not only to be right when they do.

    ** What is not modelled

    Socket, process, file, git and network code (the provider gateway, the process
    supervisor, [workspace], [backup], [knowledge]); the ensemble's concurrent provider
    calls and the wire protocols of [runtime/transport.py]; pydantic schemas and generated
    code beyond the request bodies of the modelled services; plan generation, which asks a
    model, and the workflow templates, which are data; the rework
    handlers; what an adapter does with a run, and the polling loop of the executor; the
    coroutine management of the write queue; the calibration arithmetic of [routing/outcomes.py]; encryption and path safety;
    the wiring of [application/lifecycle.py] and [main.py]; of the backend the releases with
    their signatures and bundles, the skills, the compatibility rules, observability and
    every endpoint that only reads. *)

From Stdlib Require Export ZArith Lia.
From stdpp Require Export base list gmap sets strings relations sorting.

#[global] Open Scope Z_scope.
#[global] Open Scope string_scope.
#[global] Open Scope list_scope.

(** ** Membership tests

    Python's [x in (a, b, c)] on tuples, lists, sets and dict keys. *)

Declare Scope py_scope.
Delimit Scope py_scope with py.

Definition mem {A} `{EqDecision A} (x : A) (l : list A) : bool := bool_decide (x ∈ l).

(** A test on the members of a display, from the display. *)
Lemma mem_all {A} `{EqDecision A} (q : A → bool) (x : A) (l : list A) :
  mem x l = true → forallb q l = true → q x = true.
Proof.
  unfold mem. intros Hx%bool_decide_eq_true Hl. rewrite forallb_forall in Hl.
  by apply Hl, list_elem_of_In.
Qed.

Notation "x ∈? l" := (mem x l) (at level 70, no associativity) : py_scope.
Notation "x =? y" := (String.eqb x y) (at level 70, no associativity) : py_scope.
Notation "x =?o y" := (bool_decide (x = y)) (at level 70, no associativity) : py_scope.
#[global] Open Scope py_scope.

(** ** Stable sorting

    Python's [sorted] and SQL's [ORDER BY]: [le] is the order on the keys, and
    elements whose keys are equal keep their order. *)

Section SortBy.
Context {A : Type} (le : A → A → bool).

Definition ordered (a b : A) : Prop := le a b = true.

Fixpoint insort (x : A) (l : list A) : list A :=
  match l with
  | [] => [x]
  | y :: l => if le x y then x :: y :: l else y :: insort x l
  end.

Fixpoint sort_by (l : list A) : list A :=
  match l with
  | [] => []
  | x :: l => insort x (sort_by l)
  end.

Lemma insort_perm x l : insort x l ≡ₚ x :: l.
Proof.
  induction l as [|y l IH]; simpl; [done|]. destruct (le x y); [done|].
  rewrite IH. apply Permutation_swap.
Qed.

Lemma sort_by_perm l : sort_by l ≡ₚ l.
Proof. induction l as [|x l IH]; simpl; [done|]. by rewrite insort_perm, IH. Qed.

Lemma elem_of_sort_by x l : x ∈ sort_by l ↔ x ∈ l.
Proof. by rewrite sort_by_perm. Qed.

Lemma sort_by_nil l : sort_by l = [] ↔ l = [].
Proof.
  split; [|by intros ->]. intros Hs. apply Permutation_nil. by rewrite <-Hs, sort_by_perm.
Qed.

Hypothesis le_total : ∀ a b, le a b = true ∨ le b a = true.

Lemma insort_sorted x l : Sorted ordered l → Sorted ordered (insort x l).
Proof.
  unfold ordered. induction 1 as [|y l Hl IH Hy]; simpl.
  - repeat constructor.
  - destruct (le x y) eqn:Hxy; [repeat constructor; done|].
    constructor; [done|]. assert (le y x = true) by (destruct (le_total x y); congruence).
    destruct l as [|z l]; simpl; [by constructor|].
    destruct (le x z); constructor; [done|by inversion Hy].
Qed.

Lemma sort_by_sorted l : Sorted ordered (sort_by l).
Proof. induction l; simpl; [constructor|by apply insort_sorted]. Qed.

Hypothesis le_trans : ∀ a b c, le a b = true → le b c = true → le a c = true.

Lemma sort_by_strongly_sorted l : StronglySorted ordered (sort_by l).
Proof.
  assert (Transitive ordered) by (intros a b c; apply le_trans).
  apply (Sorted_StronglySorted ordered). apply sort_by_sorted.
Qed.

(** The head of a sorted list is a least element. *)
Lemma sort_by_head_le l x : head (sort_by l) = Some x → ∀ y, y ∈ l → le x y = true.
Proof.
  intros Hx y Hy. pose proof (sort_by_strongly_sorted l) as Hs.
  apply elem_of_sort_by in Hy. destruct (sort_by l) as [|x' l']; [done|].
  injection Hx as ->. apply StronglySorted_cons in Hs as [Hx _].
  rewrite Forall_forall in Hx. apply elem_of_cons in Hy as [->|Hy]; [|by apply Hx].
  by destruct (le_total x x).
Qed.
End SortBy.

Lemma filter_none {A} (f : A → bool) l : Forall (λ x, f x = false) l → List.filter f l = [].
Proof. induction 1 as [|x l Hx _ IH]; simpl; [done|]. by rewrite Hx. Qed.
Lemma filter_all {A} (f : A → bool) l : Forall (λ x, f x = true) l → List.filter f l = l.
Proof. induction 1 as [|x l Hx _ IH]; simpl; [done|]. by rewrite Hx, IH. Qed.
Lemma filter_perm {A} (q : A → bool) l l' : l ≡ₚ l' → List.filter q l ≡ₚ List.filter q l'.
Proof. induction 1; simpl; repeat case_match; eauto using Permutation. Qed.

Lemma forallb_map {A B} (f : A → B) p (l : list A) : forallb p (map f l) = forallb (λ x, p (f x)) l.
Proof. induction l as [|x l IH]; simpl; [done|]. by rewrite IH. Qed.

Lemma forallb_sort_by {A} le (f : A → bool) l : forallb f (sort_by le l) = forallb f l.
Proof.
  apply eq_true_iff_eq. rewrite !forallb_forall.
  split; intros H x Hx%list_elem_of_In; apply H, list_elem_of_In; by apply (elem_of_sort_by le).
Qed.

Lemma nodup_map_inj {A B} (f : A → B) (l : list A) x y :
  NoDup (map f l) → x ∈ l → y ∈ l → f x = f y → x = y.
Proof.
  induction l as [|z l IH]; simpl; [set_solver|]. intros [Hz Hl]%NoDup_cons Hx Hy Heq.
  assert (∀ w, w ∈ l → f w = f z → False) as Hno.
  { intros w Hw Hfw. apply Hz. rewrite <-Hfw. by apply list_elem_of_In, in_map, list_elem_of_In. }
  apply elem_of_cons in Hx as [->|Hx]; apply elem_of_cons in Hy as [->|Hy]; [done|..].
  - by destruct (Hno y Hy).
  - by destruct (Hno x Hx).
  - by apply IH.
Qed.

Lemma size_list_to_set_le `{Countable A} (l : list A) :
  (size (list_to_set l : gset A) ≤ length l)%nat.
Proof.
  induction l as [|x l IH]; simpl; [done|]. rewrite size_union_alt, size_singleton.
  assert (size (list_to_set l ∖ {[x]} : gset A) ≤ size (list_to_set l : gset A))%nat
    by (apply subseteq_size; set_solver). lia.
Qed.

(** ** Strings as byte sequences *)

Lemma app_str_assoc a b c : a +:+ (b +:+ c) = (a +:+ b) +:+ c.
Proof. induction a as [|x a IH]; [done|]. exact (f_equal (String x) IH). Qed.

Lemma app_str_nil_r a : a +:+ "" = a.
Proof. induction a as [|x a IH]; [done|]. exact (f_equal (String x) IH). Qed.

Lemma length_app_str a b : String.length (a +:+ b) = (String.length a + String.length b)%nat.
Proof. induction a as [|x a IH]; [done|]. exact (f_equal S IH). Qed.

(** ** Exceptions and fallible computations *)

(** The exception classes the modelled code raises or catches, with the message
    (the error code) each instance carries. *)
Inductive exn :=
  | ValueError (code : string)
  | RuntimeErr (code : string)
  | TypeErr (what : string)
  | KeyErr (key : string)
  | AttributeErr (name : string)
  | BindErr (what : string)  (** a parameter SQLite cannot bind *)
  | PermissionErr (what : string)
  | IntegrityErr (what : string)
  | StateTransitionErr (entity current target : string)
  | IpcErr (code : string)
  | MethodNotAllowedErr (what : string)
  | FrameErr (what : string)
  | RouteSafetyErr (code : string)
  | RunCancelledErr
  | TaskCancelledErr  (** [asyncio.CancelledError], which is no [Exception] *)
  | ProviderErr (kind : string) (retry_after_ms : option Z) (visible_content : bool).

#[global] Instance exn_eq_dec : EqDecision exn.
Proof. solve_decision. Defined.

Inductive result (A : Type) :=
  | Ok (a : A)
  | Err (e : exn).
Arguments Ok {A} a.
Arguments Err {A} e.

#[global] Instance result_eq_dec {A} `{EqDecision A} : EqDecision (result A).
Proof. solve_decision. Defined.

#[global] Instance result_ret : MRet result := λ A a, Ok a.
#[global] Instance result_bind : MBind result := λ A B f m,
  match m with Ok a => f a | Err e => Err e end.
#[global] Instance result_fmap : FMap result := λ A B f m,
  match m with Ok a => Ok (f a) | Err e => Err e end.

Definition is_ok {A} (m : result A) : bool := match m with Ok _ => true | Err _ => false end.

(** [if not b: raise e] *)
Definition ensure (b : bool) (e : exn) : result unit := if b then Ok tt else Err e.
(** [x = e; if x is None: raise ...] *)
Definition of_option {A} (o : option A) (e : exn) : result A :=
  match o with Some a => Ok a | None => Err e end.

Section Result.
Context {A B : Type}.
Implicit Types (m : result A) (f : A → result B).

Lemma result_bind_ok m f b : m ≫= f = Ok b ↔ ∃ a, m = Ok a ∧ f a = Ok b.
Proof. destruct m; simpl; naive_solver. Qed.

Lemma result_bind_err m f e :
  m ≫= f = Err e ↔ m = Err e ∨ ∃ a, m = Ok a ∧ f a = Err e.
Proof. destruct m; simpl; naive_solver. Qed.

Lemma ensure_ok b e u : ensure b e = Ok u ↔ b = true.
Proof. destruct b, u; simpl; naive_solver. Qed.

Lemma ensure_err b e e' : ensure b e = Err e' ↔ b = false ∧ e = e'.
Proof. destruct b; simpl; naive_solver. Qed.

Lemma of_option_ok (o : option A) e a : of_option o e = Ok a ↔ o = Some a.
Proof. destruct o; simpl; naive_solver. Qed.

Lemma of_option_err (o : option A) e e' : of_option o e = Err e' ↔ o = None ∧ e = e'.
Proof. destruct o; simpl; naive_solver. Qed.
End Result.

(** [[f(x) for x in l]] *)
Fixpoint each {A B} (f : A → result B) (l : list A) : result (list B) :=
  match l with
  | [] => Ok []
  | x :: l => y ← f x; ys ← each f l; Ok (y :: ys)
  end.

Lemma each_ok {A B} (f : A → result B) l ys :
  each f l = Ok ys ↔ Forall2 (λ x y, f x = Ok y) l ys.
Proof.
  split.
  - revert ys. induction l as [|x l IH]; simpl; intros ys H; [injection H as <-; constructor|].
    apply result_bind_ok in H as (y & Hy & H). apply result_bind_ok in H as (ys' & Hys & [= <-]).
    constructor; auto.
  - induction 1 as [|x y l ys Hx _ IH]; simpl; [done|]. by rewrite Hx, IH.
Qed.

(** A list whose every element goes through, goes through. *)
Lemma each_total {A B} (f : A → result B) l :
  (∀ x, x ∈ l → ∃ y, f x = Ok y) → ∃ ys, each f l = Ok ys.
Proof.
  induction l as [|x l IH]; intros Hl; simpl; [eauto|].
  destruct (Hl x) as [y ->]; [by left|]. destruct IH as [ys ->]; [intros z Hz; apply Hl; by right|].
  simpl. eauto.
Qed.

(** [res_inv] takes a hypothesis about a successful computation apart; [res_guards]
    shows that a sequence of guards passes, one goal per guard. *)
Ltac res_inv :=
  repeat match goal with
  | H : (_ ≫= _) = Ok _ |- _ => apply result_bind_ok in H; destruct H as (?&?&H)
  | H : ensure _ _ = Ok _ |- _ => apply ensure_ok in H
  | H : of_option _ _ = Ok _ |- _ => apply of_option_ok in H
  | H : Ok _ = Ok _ |- _ => injection H as H; subst
  | H : Err _ = Ok _ |- _ => discriminate H
  end.
Ltac res_guards :=
  repeat (apply result_bind_ok; exists tt; split); try apply ensure_ok.

#[global] Instance Ok_inj {A} : Inj (=) (=) (@Ok A).
Proof. by injection 1. Qed.

(** ** Transactions

    A handler runs inside one SQLite transaction over a database [S].  It may
    raise after it has written; what it wrote so far is the second component,
    and [atomically] (the [BEGIN IMMEDIATE] / [commit] / [rollback] of the
    write queue) is what discards it. *)
Definition tx (S A : Type) : Type := S → result A * S.

#[global] Instance tx_ret {S} : MRet (tx S) := λ A a s, (Ok a, s).
#[global] Instance tx_bind {S} : MBind (tx S) := λ A B f m s,
  match m s with
  | (Ok a, s') => f a s'
  | (Err e, s') => (Err e, s')
  end.

Definition raise {S A} (e : exn) : tx S A := λ s, (Err e, s).
Definition gets {S A} (f : S → A) : tx S A := λ s, (Ok (f s), s).
Definition modify {S} (f : S → S) : tx S unit := λ s, (Ok tt, f s).
Definition check {S} (b : bool) (e : exn) : tx S unit := if b then mret tt else raise e.
Definition lift {S A} (m : result A) : tx S A := λ s, (m, s).
Definition found {S A} (o : option A) (e : exn) : tx S A := lift (of_option o e).

(** [try: m except Exception ... as e: h(e)]; the handler says which exceptions it is for. *)
Definition catch {S A} (m : tx S A) (h : exn → tx S A) : tx S A := λ s,
  match m s with
  | (Ok a, s') => (Ok a, s')
  | (Err e, s') => h e s'
  end.

Fixpoint for_each {S A B} (f : A → tx S B) (l : list A) : tx S (list B) :=
  match l with
  | [] => mret []
  | x :: l => b ← f x; bs ← for_each f l; mret (b :: bs)
  end.

Definition atomically {S A} (m : tx S A) : tx S A := λ s,
  match m s with
  | (Ok a, s') => (Ok a, s')
  | (Err e, _) => (Err e, s)
  end.

Section Tx.
Context {S A B : Type}.
Implicit Types (m : tx S A) (f : A → tx S B) (s : S).

Lemma tx_bind_ok m f s b s' :
  (m ≫= f) s = (Ok b, s') ↔ ∃ a s1, m s = (Ok a, s1) ∧ f a s1 = (Ok b, s').
Proof. unfold mbind, tx_bind. destruct (m s) as [[a|e] s1]; naive_solver. Qed.

Lemma tx_bind_err m f s e s' :
  (m ≫= f) s = (Err e, s') ↔
    m s = (Err e, s') ∨ ∃ a s1, m s = (Ok a, s1) ∧ f a s1 = (Err e, s').
Proof. unfold mbind, tx_bind. destruct (m s) as [[a|e'] s1]; naive_solver. Qed.

(** Running a bind whose first half is known. *)
Lemma tx_bind_run m f s a s' : m s = (Ok a, s') → (m ≫= f) s = f a s'.
Proof. unfold mbind, tx_bind. by intros ->. Qed.

Lemma tx_bind_run_err m f s e s' : m s = (Err e, s') → (m ≫= f) s = (Err e, s').
Proof. unfold mbind, tx_bind. by intros ->. Qed.

Lemma check_run e s : check true e s = (Ok tt, s).
Proof. done. Qed.

Lemma gets_ok (g : S → A) s a s' : gets g s = (Ok a, s') ↔ a = g s ∧ s' = s.
Proof. unfold gets. naive_solver. Qed.

Lemma modify_ok (g : S → S) s u s' : modify g s = (Ok u, s') ↔ s' = g s.
Proof. unfold modify. destruct u; naive_solver. Qed.

Lemma check_ok b e s u s' : check b e s = (Ok u, s') ↔ b = true ∧ s' = s.
Proof. destruct b, u; unfold check, raise, mret, tx_ret; naive_solver. Qed.

Lemma check_err b e s e' s' : check b e s = (Err e', s') ↔ b = false ∧ e' = e ∧ s' = s.
Proof. destruct b; unfold check, raise, mret, tx_ret; naive_solver. Qed.

Lemma found_ok (o : option A) e s a s' : found o e s = (Ok a, s') ↔ o = Some a ∧ s' = s.
Proof. unfold found, lift. destruct o; simpl; naive_solver. Qed.

Lemma found_err (o : option A) e s e' s' :
  found o e s = (Err e', s') ↔ o = None ∧ e' = e ∧ s' = s.
Proof. unfold found, lift. destruct o; simpl; naive_solver. Qed.

Lemma mret_ok (a a' : A) s s' : (mret a : tx S A) s = (Ok a', s') ↔ a' = a ∧ s' = s.
Proof. unfold mret, tx_ret. naive_solver. Qed.

(** A transaction that raises leaves the database as it found it. *)
Lemma atomically_err m s e s' : atomically m s = (Err e, s') → s' = s.
Proof. unfold atomically. destruct (m s) as [[]]; naive_solver. Qed.

Lemma atomically_ok m s a s' : atomically m s = (Ok a, s') ↔ m s = (Ok a, s').
Proof. unfold atomically. destruct (m s) as [[]]; naive_solver. Qed.
End Tx.

Lemma for_each_length {S A B} (f : A → tx S B) l s bs s' :
  for_each f l s = (Ok bs, s') → length bs = length l.
Proof.
  revert s bs. induction l as [|x l IH]; simpl; intros s bs Hrun.
  - apply mret_ok in Hrun as [-> _]. done.
  - apply tx_bind_ok in Hrun as (b & s1 & _ & Hrun).
    apply tx_bind_ok in Hrun as (bs' & s2 & Hrest & Hrun). apply mret_ok in Hrun as [-> <-].
    simpl. f_equal. by eapply IH.
Qed.

(** [tx_inv] takes a hypothesis about a successful run apart, one bind, guard and
    lookup at a time. *)
Ltac tx_inv1 :=
  match goal with
  | H : (_ ≫= _) _ = (Ok _, _) |- _ =>
      apply tx_bind_ok in H; destruct H as (?&?&?&H)
  | H : check _ _ _ = (Ok _, _) |- _ => apply check_ok in H; destruct H as [? ->]
  | H : found _ _ _ = (Ok _, _) |- _ => apply found_ok in H; destruct H as [? ->]
  | H : gets _ _ = (Ok _, _) |- _ => apply gets_ok in H; destruct H as [-> ->]
  | H : modify _ _ = (Ok _, _) |- _ => apply modify_ok in H; subst
  | H : mret _ _ = (Ok _, _) |- _ => apply mret_ok in H; destruct H as [-> ->]
  | H : raise _ _ = (Ok _, _) |- _ => discriminate H
  end.
Ltac tx_inv := repeat (tx_inv1; simplify_eq/=).

(** [bools] turns boolean connectives and tests into propositions. *)
Ltac bools :=
  repeat match goal with
  | H : _ && _ = true |- _ => apply andb_true_iff in H; destruct H
  | H : _ || _ = false |- _ => apply orb_false_iff in H; destruct H
  | H : negb _ = true |- _ => apply negb_true_iff in H
  | H : negb _ = false |- _ => apply negb_false_iff in H
  | H : (_ =? _)%string = true |- _ => apply String.eqb_eq in H
  | H : (_ =? _)%string = false |- _ => apply String.eqb_neq in H
  | H : bool_decide _ = true |- _ => apply bool_decide_eq_true in H
  | H : bool_decide _ = false |- _ => apply bool_decide_eq_false in H
  | H : mem _ _ = true |- _ => unfold mem in H; apply bool_decide_eq_true in H
  | H : mem _ _ = false |- _ => unfold mem in H; apply bool_decide_eq_false in H
  | H : (_ <=? _) = true |- _ => apply Z.leb_le in H
  | H : (_ <=? _) = false |- _ => apply Z.leb_gt in H
  | H : (_ <? _) = true |- _ => apply Z.ltb_lt in H
  | H : (_ <? _) = false |- _ => apply Z.ltb_ge in H
  end.

(** [andbs] splits boolean conjunctions, in the hypotheses and in the goal,
    without turning the conjuncts into propositions. *)
Ltac andbs :=
  repeat match goal with
  | H : _ && _ = true |- _ => apply andb_true_iff in H; destruct H
  | |- _ && _ = true => apply andb_true_iff; split
  end.

(** [elem_cases H] splits [H : x ∈ [a; b; ...]] into its equations. *)
Ltac elem_cases H :=
  lazymatch type of H with
  | _ ∈ ?l => let l' := eval hnf in l in change l with l' in H
  end;
  lazymatch type of H with
  | _ ∈ [] => exfalso; by apply not_elem_of_nil in H
  | _ ∈ _ :: _ => apply elem_of_cons in H as [H|H]; [|elem_cases H]
  end.
