(* ===== verification/PyEnum.v ===== *)
(** * Python enums and dict literals

    [StrEnum] is the interface every [enum.StrEnum] of the code is used
    through: its members in declaration order, their string values, and the
    laws that make lookup by value the inverse of [value].  [dict_of] is the
    meaning of a dict display: pairs are inserted left to right, a repeated key
    keeps its first position and takes the last value. *)

From S2P Require Import Prelude.

Class StrEnum (A : Type) := {
  enum_eq_dec :: EqDecision A;
  members : list A;
  value : A → string;
  members_complete : ∀ a, a ∈ members;
  value_inj :: Inj (=) (=) value }.

(** Discharges the laws of a concrete enumeration by running through its members. *)
Ltac solve_enum_complete := intros []; repeat constructor.
Ltac solve_enum_inj := intros [] []; first [reflexivity | discriminate].

(** [E(s)]: the member whose value is [s]; [None] is the [ValueError] of the call. *)
Definition of_value {A} `{StrEnum A} (s : string) : option A :=
  List.find (λ a, value a =? s) members.

Section StrEnum.
Context {A : Type} `{StrEnum A}.

Lemma of_value_some s (a : A) : of_value s = Some a ↔ value a = s.
Proof.
  unfold of_value. split.
  - intros [_ Hs]%find_some. by bools.
  - intros <-. destruct (List.find _ _) as [b|] eqn:Hf.
    + apply find_some in Hf as [_ Hb]. bools. f_equal. by apply (inj value).
    + pose proof (find_none _ _ Hf a) as Hn. simpl in Hn.
      rewrite String.eqb_refl in Hn. exfalso. enough (true = false) by done.
      apply Hn, list_elem_of_In, members_complete.
Qed.

(** Every member is found again by its value. *)
Lemma of_value_value (a : A) : of_value (value a) = Some a.
Proof. by apply of_value_some. Qed.

Lemma value_eqb (a b : A) : (value a =? value b) = bool_decide (a = b).
Proof.
  case_bool_decide as Hab; [subst; apply String.eqb_refl|].
  apply String.eqb_neq. intros Hv%(inj value). done.
Qed.
End StrEnum.

(** ** Dict displays *)

Section Dict.
Context {K V : Type} `{EqDecision K}.
Implicit Types (d : list (K * V)) (k : K).

Fixpoint dict_set d k (v : V) : list (K * V) :=
  match d with
  | [] => [(k, v)]
  | (k', v') :: d => if bool_decide (k' = k) then (k', v) :: d else (k', v') :: dict_set d k v
  end.

Definition dict_of (kvs : list (K * V)) : list (K * V) :=
  fold_left (λ d '(k, v), dict_set d k v) kvs [].

Fixpoint dict_get d k : option V :=
  match d with
  | [] => None
  | (k', v) :: d => if bool_decide (k' = k) then Some v else dict_get d k
  end.

(** [d.pop(k, None)] *)
Fixpoint dict_del d k : list (K * V) :=
  match d with
  | [] => []
  | (k', v') :: d => if bool_decide (k' = k) then d else (k', v') :: dict_del d k
  end.

Definition dict_keys d : list K := d.*1.

Lemma dict_get_set d k v k' :
  dict_get (dict_set d k v) k' = if bool_decide (k = k') then Some v else dict_get d k'.
Proof.
  induction d as [|[k1 v1] d IH]; simpl; [done|].
  destruct (decide (k1 = k)) as [->|Hne].
  - rewrite !(bool_decide_true (k = k)) by done. simpl. by destruct (bool_decide (k = k')).
  - rewrite (bool_decide_false (k1 = k)) by done. simpl. rewrite IH.
    repeat case_bool_decide; by simplify_eq.
Qed.

Lemma dict_keys_set d k v k' : k' ∈ dict_keys (dict_set d k v) ↔ k' = k ∨ k' ∈ dict_keys d.
Proof.
  unfold dict_keys. induction d as [|[k1 v1] d IH]; simpl; [set_solver|].
  case_bool_decide; simpl; set_solver.
Qed.

Lemma dict_set_nodup d k v : NoDup (dict_keys d) → NoDup (dict_keys (dict_set d k v)).
Proof.
  unfold dict_keys. induction d as [|[k1 v1] d IH]; simpl; intros Hd.
  - by apply NoDup_singleton.
  - apply NoDup_cons in Hd as [Hk Hd]. case_bool_decide; simpl; [by apply NoDup_cons|].
    apply NoDup_cons; split; [|by auto].
    intros [->|?]%dict_keys_set; done.
Qed.

Lemma dict_of_nodup kvs : NoDup (dict_keys (dict_of kvs)).
Proof.
  unfold dict_of. assert (NoDup (dict_keys ([] : list (K * V)))) as Hnil by constructor.
  revert Hnil. generalize (@nil (K * V)).
  induction kvs as [|[k v] kvs IH]; simpl; intros d Hd; [done|].
  by apply IH, dict_set_nodup.
Qed.

Lemma dict_of_keys kvs k : k ∈ dict_keys (dict_of kvs) ↔ k ∈ kvs.*1.
Proof.
  unfold dict_of. enough (∀ d, k ∈ dict_keys (fold_left (λ d '(k, v), dict_set d k v) kvs d) ↔
    k ∈ dict_keys d ∨ k ∈ kvs.*1) as -> by (unfold dict_keys; set_solver).
  induction kvs as [|[k1 v1] kvs IH]; intros d; simpl; [set_solver|].
  rewrite IH, dict_keys_set. set_solver.
Qed.

(** A display without repeated keys is the dict it spells. *)
Lemma dict_set_new d k v : k ∉ dict_keys d → dict_set d k v = d ++ [(k, v)].
Proof.
  unfold dict_keys. induction d as [|[k1 v1] d IH]; simpl; intros Hk; [done|].
  rewrite bool_decide_false by set_solver. rewrite IH; set_solver.
Qed.

Lemma dict_of_id kvs : NoDup (dict_keys kvs) → dict_of kvs = kvs.
Proof.
  unfold dict_of, dict_keys. intros Hnd.
  enough (∀ d, NoDup (d ++ kvs).*1 → fold_left (λ d '(k, v), dict_set d k v) kvs d = d ++ kvs)
    as Hgen by (by apply (Hgen [])).
  clear Hnd. induction kvs as [|[k v] kvs IH]; intros d Hnd; simpl; [by rewrite app_nil_r|].
  rewrite dict_set_new, IH; rewrite <-?(assoc app); [done|done|].
  rewrite fmap_app in Hnd. simpl in Hnd. apply NoDup_app in Hnd as (_ & Hd & _).
  intros Hk. apply (Hd k Hk). by left.
Qed.

Lemma dict_get_some_elem d k v : dict_get d k = Some v → (k, v) ∈ d.
Proof. induction d as [|[k1 v1] d IH]; simpl; [done|]. case_bool_decide; set_solver. Qed.

Lemma dict_get_elem d k v : NoDup (dict_keys d) → (k, v) ∈ d → dict_get d k = Some v.
Proof.
  unfold dict_keys. induction d as [|[k1 v1] d IH]; simpl; [set_solver|].
  intros [Hk Hd]%NoDup_cons [?|Hin]%elem_of_cons; simplify_eq.
  - by rewrite bool_decide_true.
  - rewrite bool_decide_false; [by apply IH|].
    intros ->. apply Hk, list_elem_of_fmap. by exists (k, v).
Qed.

Lemma dict_get_is_some d k : is_Some (dict_get d k) ↔ k ∈ dict_keys d.
Proof.
  unfold dict_keys. induction d as [|[k1 v1] d IH]; simpl; [split; [by intros []|set_solver]|].
  case_bool_decide; simpl; [|rewrite IH]; set_solver.
Qed.

Lemma dict_set_length d k v :
  length (dict_set d k v) = if bool_decide (k ∈ dict_keys d) then length d else S (length d).
Proof.
  unfold dict_keys. induction d as [|[k1 v1] d IH]; simpl; [done|].
  destruct (decide (k1 = k)) as [->|Hne].
  - rewrite (bool_decide_true (k = k)), bool_decide_true by (done || by left). done.
  - rewrite (bool_decide_false (k1 = k)) by done. simpl. rewrite IH.
    repeat case_bool_decide; try done; exfalso; set_solver.
Qed.

Lemma dict_get_del d k k' :
  NoDup (dict_keys d) → dict_get (dict_del d k) k' = if bool_decide (k = k') then None else dict_get d k'.
Proof.
  unfold dict_keys. induction d as [|[k1 v1] d IH]; simpl; [by case_bool_decide|].
  intros [Hk Hd]%NoDup_cons. destruct (decide (k1 = k)) as [->|Hne].
  - rewrite bool_decide_true by done. case_bool_decide as Hkk; [subst k'|done].
    destruct (dict_get d k) as [v|] eqn:Hg; [|done]. destruct Hk. by eapply dict_get_is_some.
  - rewrite (bool_decide_false (k1 = k)) by done. simpl. rewrite IH by done.
    repeat case_bool_decide; by simplify_eq.
Qed.

Lemma dict_del_sublist d k : dict_keys (dict_del d k) `sublist_of` dict_keys d.
Proof.
  unfold dict_keys. induction d as [|[k1 v1] d IH]; simpl; [done|]. case_bool_decide; simpl.
  - by apply sublist_cons.
  - by apply sublist_skip.
Qed.

Lemma dict_del_nodup d k : NoDup (dict_keys d) → NoDup (dict_keys (dict_del d k)).
Proof. intros Hd. eapply sublist_NoDup; [exact Hd|apply dict_del_sublist]. Qed.
End Dict.

(** [{key(x): x for x in l}], where the keys are distinct. *)
Lemma dict_by_key {K A} `{EqDecision K} (key : A → K) (l : list A) k x :
  NoDup (map key l) →
  dict_get (dict_of (map (λ x, (key x, x)) l)) k = Some x ↔ x ∈ l ∧ key x = k.
Proof.
  intros Hnd.
  assert (dict_keys (map (λ x, (key x, x)) l) = map key l) as Hkeys.
  { unfold dict_keys. clear. induction l as [|x l IH]; [done|]. simpl. f_equal. exact IH. }
  rewrite dict_of_id by by rewrite Hkeys. split.
  - intros Hg%dict_get_some_elem. apply list_elem_of_In, in_map_iff in Hg as (y & [= <- <-] & Hin).
    by rewrite list_elem_of_In.
  - intros [Hin <-]. apply dict_get_elem; [by rewrite Hkeys|].
    apply list_elem_of_In, in_map_iff. exists x. by rewrite <-list_elem_of_In.
Qed.
