(* ===== verification/Graph.v ===== *)
(** * Reachability in finite graphs

    [closure succ n xs] is what [n] rounds of adding successors make of [xs];
    everything in it is reachable, so membership (a computation) proves
    reachability. *)

From S2P Require Import Prelude.

Section Graph.
Context {A : Type} `{EqDecision A} (succ : A → list A).

Definition edge (x y : A) : Prop := y ∈ succ x.

Fixpoint closure (n : nat) (xs : list A) : list A :=
  match n with
  | O => xs
  | S n => closure n (remove_dups (xs ++ concat (map succ xs)))
  end.

Lemma closure_sound n xs y : y ∈ closure n xs → ∃ x, x ∈ xs ∧ rtc edge x y.
Proof.
  revert xs. induction n as [|n IH]; simpl; intros xs Hy; [by exists y|].
  apply IH in Hy as (x & Hx & Hxy).
  apply elem_of_remove_dups, elem_of_app in Hx as [Hx|Hx]; [by exists x|].
  apply list_elem_of_In, in_concat in Hx as (l & Hl & Hx).
  apply in_map_iff in Hl as (z & <- & Hz). exists z. split; [by apply list_elem_of_In|].
  eapply rtc_l; [|done]. by apply list_elem_of_In.
Qed.

Lemma closure_rtc n x y : mem y (closure n [x]) = true → rtc edge x y.
Proof. intros Hy. bools. apply closure_sound in Hy as (x' & Hx & ?). set_solver. Qed.

(** A set that contains [xs] and every successor of its members contains
    everything reachable from [xs]. *)
Lemma closed_rtc (P : A → Prop) x y :
  (∀ a b, P a → edge a b → P b) → P x → rtc edge x y → P y.
Proof. intros HP Hx Hxy. induction Hxy; eauto. Qed.
End Graph.
