(* ===== verification/PyOrder.v ===== *)
(** * Sort keys

    Comparisons, and the ways Python and SQL combine them: tuples and lists compare
    lexicographically, [None] and [NULL] first, [-x] and [DESC] backwards, a [key=]
    function through its values.  [Ordering] is what sorting needs; [Separating] adds
    that only equal keys tie.  The instances build both for a whole key. *)

From S2P Require Import Prelude.

Class Ordering {K} (cmp : K → K → comparison) : Prop := {
  cmp_flip a b : cmp b a = CompOpp (cmp a b);
  cmp_trans a b c : cmp a b ≠ Gt → cmp b c ≠ Gt → cmp a c ≠ Gt }.

#[global] Arguments cmp_flip {K} cmp {_} a b.
#[global] Arguments cmp_trans {K} cmp {_} a b c.

Class Separating {K} (cmp : K → K → comparison) : Prop :=
  cmp_eq a b : cmp a b = Eq → a = b.

Definition leb_of {K} (cmp : K → K → comparison) (a b : K) : bool :=
  match cmp a b with Gt => false | _ => true end.

(** Tuples. *)
Definition lex {K1 K2} (c1 : K1 → K1 → comparison) (c2 : K2 → K2 → comparison)
    (a b : K1 * K2) : comparison :=
  match c1 a.1 b.1 with Eq => c2 a.2 b.2 | r => r end.

Definition on {A K} (key : A → K) (cmp : K → K → comparison) (a b : A) : comparison :=
  cmp (key a) (key b).

Definition backwards {K} (cmp : K → K → comparison) (a b : K) : comparison := cmp b a.

Definition none_first {K} (cmp : K → K → comparison) (a b : option K) : comparison :=
  match a, b with
  | None, None => Eq
  | None, Some _ => Lt
  | Some _, None => Gt
  | Some x, Some y => cmp x y
  end.

(** Lists. *)
Fixpoint lex_list {K} (cmp : K → K → comparison) (a b : list K) : comparison :=
  match a, b with
  | [], [] => Eq
  | [], _ :: _ => Lt
  | _ :: _, [] => Gt
  | x :: a, y :: b => match cmp x y with Eq => lex_list cmp a b | r => r end
  end.

#[global] Typeclasses Opaque lex on backwards none_first lex_list.
#[global] Hint Mode Ordering ! ! : typeclass_instances.
#[global] Hint Mode Separating ! ! : typeclass_instances.

Section Facts.
Context {K} (cmp : K → K → comparison) `{!Ordering cmp}.

Lemma cmp_refl a : cmp a a = Eq.
Proof. pose proof (cmp_flip cmp a a) as H. by destruct (cmp a a). Qed.

Lemma leb_of_iff a b : leb_of cmp a b = true ↔ cmp a b ≠ Gt.
Proof. unfold leb_of. by destruct (cmp a b). Qed.

Lemma leb_of_total a b : leb_of cmp a b = true ∨ leb_of cmp b a = true.
Proof. unfold leb_of. rewrite (cmp_flip cmp a b). destruct (cmp a b); simpl; auto. Qed.

Lemma leb_of_trans a b c : leb_of cmp a b = true → leb_of cmp b c = true → leb_of cmp a c = true.
Proof. rewrite !leb_of_iff. apply (cmp_trans cmp). Qed.

(** Keys that tie compare alike with everything. *)
Lemma cmp_tie a b c : cmp a b = Eq → cmp a c = cmp b c.
Proof.
  intros E. assert (cmp b a = Eq) as E' by by rewrite (cmp_flip cmp a b), E.
  assert (cmp b c ≠ Gt → cmp a c ≠ Gt) as H1 by (apply (cmp_trans cmp a b c); by rewrite E).
  assert (cmp a c ≠ Gt → cmp b c ≠ Gt) as H2 by (apply (cmp_trans cmp b a c); by rewrite E').
  assert (cmp c a ≠ Gt → cmp c b ≠ Gt) as H3 by (intros H; apply (cmp_trans cmp c a b H); by rewrite E).
  assert (cmp c b ≠ Gt → cmp c a ≠ Gt) as H4 by (intros H; apply (cmp_trans cmp c b a H); by rewrite E').
  rewrite (cmp_flip cmp a c), (cmp_flip cmp b c) in H3, H4.
  destruct (cmp a c), (cmp b c); simpl in *; try done; exfalso;
    first [by apply H1|by apply H2|by apply H3|by apply H4].
Qed.

Lemma cmp_tie_r a b c : cmp b c = Eq → cmp a b = cmp a c.
Proof. intros E%(cmp_tie b c a). by rewrite (cmp_flip cmp b a), (cmp_flip cmp c a), E. Qed.

Lemma cmp_lt_trans a b c : cmp a b = Lt → cmp b c ≠ Gt → cmp a c = Lt.
Proof.
  intros Hab Hbc. destruct (cmp a c) eqn:Hac; [|done|].
  - rewrite (cmp_tie a c b Hac) in Hab. by rewrite (cmp_flip cmp c b), Hab in Hbc.
  - destruct (cmp_trans cmp a b c); [by rewrite Hab|done..].
Qed.

Lemma leb_of_antisym `{!Separating cmp} a b : leb_of cmp a b = true → leb_of cmp b a = true → a = b.
Proof.
  unfold leb_of. rewrite (cmp_flip cmp a b). destruct (cmp a b) eqn:E; simpl; try done.
  intros _ _. by apply (cmp_eq (cmp := cmp) a b).
Qed.
End Facts.

#[export] Instance ordering_lex {K1 K2} (c1 : K1 → K1 → comparison) (c2 : K2 → K2 → comparison) :
  Ordering c1 → Ordering c2 → Ordering (lex c1 c2).
Proof.
  intros O1 O2. split.
  - intros [a1 a2] [b1 b2]. unfold lex. simpl. rewrite (cmp_flip c1 a1 b1), (cmp_flip c2 a2 b2).
    by destruct (c1 a1 b1).
  - intros [a1 a2] [b1 b2] [d1 d2]. unfold lex. simpl. intros H1 H2.
    destruct (c1 a1 b1) eqn:E1; [| |done].
    + rewrite (cmp_tie c1 _ _ _ E1). destruct (c1 b1 d1); [by eapply (cmp_trans c2)|done..].
    + rewrite (cmp_lt_trans c1 _ _ _ E1); [done|]. by destruct (c1 b1 d1).
Qed.

#[export] Instance separating_lex {K1 K2} (c1 : K1 → K1 → comparison) (c2 : K2 → K2 → comparison) :
  Separating c1 → Separating c2 → Separating (lex c1 c2).
Proof.
  intros S1 S2 [a1 a2] [b1 b2]. unfold lex. simpl. destruct (c1 a1 b1) eqn:E; [|done..].
  apply S1 in E as ->. by intros ->%S2.
Qed.

#[export] Instance ordering_on {A K} (key : A → K) (cmp : K → K → comparison) :
  Ordering cmp → Ordering (on key cmp).
Proof. intros O. split; [exact (λ a b, cmp_flip cmp _ _)|exact (λ a b c, cmp_trans cmp _ _ _)]. Qed.

#[export] Instance ordering_backwards {K} (cmp : K → K → comparison) :
  Ordering cmp → Ordering (backwards cmp).
Proof.
  intros O. split; [exact (λ a b, cmp_flip cmp _ _)|].
  intros a b c H1 H2. exact (cmp_trans cmp c b a H2 H1).
Qed.

#[export] Instance separating_backwards {K} (cmp : K → K → comparison) :
  Separating cmp → Separating (backwards cmp).
Proof. intros S a b E. symmetry. by apply S. Qed.

#[export] Instance ordering_none_first {K} (cmp : K → K → comparison) :
  Ordering cmp → Ordering (none_first cmp).
Proof.
  intros O. split.
  - intros [a|] [b|]; simpl; auto using cmp_flip.
  - intros [a|] [b|] [c|]; simpl; try done. by apply cmp_trans.
Qed.

#[export] Instance separating_none_first {K} (cmp : K → K → comparison) :
  Separating cmp → Separating (none_first cmp).
Proof. intros S [a|] [b|]; simpl; try done. by intros ->%S. Qed.

#[export] Instance ordering_list {K} (cmp : K → K → comparison) :
  Ordering cmp → Ordering (lex_list cmp).
Proof.
  intros O. split.
  - induction a as [|x a IH]; intros [|y b]; simpl; [done..|].
    rewrite (cmp_flip cmp x y), IH. by destruct (cmp x y).
  - induction a as [|x a IH]; intros [|y b] [|z c]; simpl; try done. intros H1 H2.
    destruct (cmp x y) eqn:E; [| |done].
    + rewrite (cmp_tie cmp _ _ _ E). destruct (cmp y z); [by eapply IH|done..].
    + rewrite (cmp_lt_trans cmp _ _ _ E); [done|]. by destruct (cmp y z).
Qed.

#[export] Instance separating_list {K} (cmp : K → K → comparison) :
  Separating cmp → Separating (lex_list cmp).
Proof.
  intros S a. induction a as [|x a IH]; intros [|y b]; simpl; try done.
  destruct (cmp x y) eqn:E; [|done..]. apply S in E as ->. by intros ->%IH.
Qed.

#[export] Instance ordering_Z : Ordering Z.compare.
Proof. split; [apply Z.compare_antisym|]. intros a b c. rewrite !Z.compare_le_iff. lia. Qed.
#[export] Instance separating_Z : Separating Z.compare.
Proof. by intros a b ->%Z.compare_eq_iff. Qed.

#[export] Instance ordering_N : Ordering N.compare.
Proof. split; [apply N.compare_antisym|]. intros a b c. rewrite !N.compare_le_iff. lia. Qed.
#[export] Instance separating_N : Separating N.compare.
Proof. by intros a b ->%N.compare_eq_iff. Qed.

(** Strings compare like the lists of their bytes. *)
Lemma string_compare_list s t :
  String.compare s t =
  lex_list N.compare (map Ascii.N_of_ascii (String.list_ascii_of_string s))
                     (map Ascii.N_of_ascii (String.list_ascii_of_string t)).
Proof.
  revert t. induction s as [|c s IH]; intros [|d t]; simpl; [done..|].
  unfold Ascii.compare. by rewrite IH.
Qed.

#[export] Instance ordering_string : Ordering String.compare.
Proof.
  split; [intros a b; apply String.compare_antisym|].
  intros a b c. rewrite !string_compare_list. apply (cmp_trans (lex_list N.compare)).
Qed.
#[export] Instance separating_string : Separating String.compare.
Proof. intros a b. apply String.compare_eq_iff. Qed.

Lemma string_leb_of a b : String.leb a b = leb_of String.compare a b.
Proof. unfold String.leb, leb_of. by destruct (String.compare a b). Qed.

(** ** Sorting by a key *)

Section Sorting.
Context {A : Type} (cmp : A → A → comparison) `{!Ordering cmp}.

Definition sort_key (l : list A) : list A := sort_by (leb_of cmp) l.

Lemma sort_key_sorted l : StronglySorted (ordered (leb_of cmp)) (sort_key l).
Proof. exact (sort_by_strongly_sorted _ (leb_of_total cmp) (leb_of_trans cmp) l). Qed.

Lemma sort_key_head l x y : head (sort_key l) = Some x → y ∈ l → cmp x y ≠ Gt.
Proof.
  intros Hx Hy. apply leb_of_iff.
  exact (sort_by_head_le _ (leb_of_total cmp) (leb_of_trans cmp) _ _ Hx _ Hy).
Qed.

(** Where only equal elements tie, sorting does not depend on the order it starts from. *)
Lemma sort_key_canonical l l' :
  (∀ x y, x ∈ l → y ∈ l → cmp x y = Eq → x = y) → l ≡ₚ l' → sort_key l = sort_key l'.
Proof.
  intros Htie Hp. apply (StronglySorted_unique_strong (ordered (leb_of cmp))).
  - intros x y Hx%elem_of_sort_by Hy%elem_of_sort_by Hxy Hyx. apply Htie; [done|by rewrite Hp|].
    unfold ordered, leb_of in *. rewrite (cmp_flip cmp x y) in Hyx. by destruct (cmp x y).
  - apply sort_key_sorted.
  - apply sort_key_sorted.
  - unfold sort_key. by rewrite !sort_by_perm.
Qed.
End Sorting.

(** A key that tells elements apart. *)
Lemma separating_on {A K} (key : A → K) (cmp : K → K → comparison) :
  Separating cmp → (∀ x y, key x = key y → x = y) → Separating (on key cmp).
Proof. intros S Hinj a b E. by apply Hinj, S. Qed.
