(* ===== verification/PyDecimal.v ===== *)
(** * Decimal arithmetic

    Python's [decimal] in its default context: 28 digits, [ROUND_HALF_EVEN].  A
    finite [Decimal] is a coefficient and an exponent.  The sign of a zero and the
    exponent of an exact quotient, which no modelled code looks at, are not kept as
    Python keeps them; the bounds on exponents (a million digits) are not reached. *)

From S2P Require Import Prelude PyOrder.

#[local] Open Scope Z_scope.

Record decimal := Dec { coef : Z; expo : Z }.

#[global] Instance decimal_eq_dec : EqDecision decimal.
Proof. solve_decision. Defined.

Definition PREC : Z := 28.

(** The number of decimal digits of [n], at least 1. *)
Fixpoint digits_fuel (fuel : nat) (n : Z) : Z :=
  match fuel with
  | O => 1
  | S fuel => if (n <? 10)%Z then 1 else 1 + digits_fuel fuel (n / 10)
  end.
Definition digits (n : Z) : Z := digits_fuel (Z.to_nat (Z.log2 n)) n.

(** [n / d] to the nearest integer, for [0 ≤ n] and [0 < d]. *)
Definition div_half_even (n d : Z) : Z :=
  let q := n / d in let r := n mod d in
  if (2 * r <? d)%Z then q
  else if (d <? 2 * r)%Z then q + 1
  else if Z.even q then q else q + 1.
Definition div_half_up (n d : Z) : Z :=
  let q := n / d in if (2 * (n mod d) <? d)%Z then q else q + 1.

(** Rounding to the precision of the context. *)
Definition dfix (x : decimal) : decimal :=
  let c := Z.abs (coef x) in
  if (digits c <=? PREC)%Z then x
  else
    let k := digits c - PREC in
    Dec (Z.sgn (coef x) * div_half_even c (10 ^ k)) (expo x + k).

(** The coefficient of [x] at an exponent that is not larger than its own. *)
Definition scaled (e : Z) (x : decimal) : Z := coef x * 10 ^ (expo x - e).

Definition dadd (x y : decimal) : decimal :=
  let e := Z.min (expo x) (expo y) in dfix (Dec (scaled e x + scaled e y) e).
Definition dmul (x y : decimal) : decimal := dfix (Dec (coef x * coef y) (expo x + expo y)).
Definition dneg (x : decimal) : decimal := dfix (Dec (- coef x) (expo x)).
Definition dsub (x y : decimal) : decimal :=
  dadd x (Dec (- coef y) (expo y)).

(** [x / y]: one digit more than the precision, the last one made odd-ish when the
    division is not exact so that the rounding sees it. *)
Definition ddiv (x y : decimal) : result decimal :=
  if (coef y =? 0)%Z then Err (ValueError "DivisionByZero")
  else
    let a := Z.abs (coef x) in let b := Z.abs (coef y) in
    let shift := digits b - digits a + PREC + 1 in
    let num := a * 10 ^ Z.max 0 shift in
    let den := b * 10 ^ Z.max 0 (- shift) in
    let q := num / den in
    let q := if (num mod den =? 0)%Z then q else if (q mod 5 =? 0)%Z then q + 1 else q in
    Ok (dfix (Dec (Z.sgn (coef x) * Z.sgn (coef y) * q) (expo x - expo y - shift))).

Definition dleb (x y : decimal) : bool :=
  let e := Z.min (expo x) (expo y) in (scaled e x <=? scaled e y)%Z.
Definition dltb (x y : decimal) : bool := negb (dleb y x).
Definition deqb (x y : decimal) : bool := dleb x y && dleb y x.

(** [min(a, x)] and [max(a, x)] of Python keep the first argument on a tie. *)
Definition dmin (a x : decimal) : decimal := if dltb x a then x else a.
Definition dmax (a x : decimal) : decimal := if dltb a x then x else a.

(** [x.quantize(Decimal("1E-p"), rounding=ROUND_HALF_UP)] *)
Definition quantize_half_up (p : Z) (x : decimal) : result decimal :=
  let c := Z.abs (coef x) in
  let q := if (- p <=? expo x)%Z then c * 10 ^ (expo x + p) else div_half_up c (10 ^ (- p - expo x)) in
  if (PREC <? digits q)%Z then Err (ValueError "InvalidOperation")
  else Ok (Dec (Z.sgn (coef x) * q) (- p)).

Definition dZ (n : Z) : decimal := Dec n 0.
Definition D0 : decimal := dZ 0.
Definition D1 : decimal := dZ 1.

Example d_third : ddiv D1 (dZ 3) = Ok (Dec 3333333333333333333333333333 (-28)).
Proof. vm_compute. reflexivity. Qed.
Example d_two_thirds : ddiv (dZ 2) (dZ 3) = Ok (Dec 6666666666666666666666666667 (-28)).
Proof. vm_compute. reflexivity. Qed.
Example d_sub_third : dsub D1 (Dec 3333333333333333333333333333 (-28)) = Dec 6666666666666666666666666667 (-28).
Proof. vm_compute. reflexivity. Qed.
Example d_round : quantize_half_up 8 (Dec 123456785 (-9)) = Ok (Dec 12345679 (-8)).
Proof. vm_compute. reflexivity. Qed.

(** ** Digits *)

Lemma digits_fuel_spec fuel n :
  0 < n → n < 2 ^ Z.of_nat (S fuel) → 1 ≤ digits_fuel fuel n ∧
  10 ^ (digits_fuel fuel n - 1) ≤ n < 10 ^ digits_fuel fuel n.
Proof.
  revert n. induction fuel as [|fuel IH]; intros n Hn Hf; cbn [digits_fuel].
  - change (2 ^ Z.of_nat 1) with 2 in Hf. change (10 ^ (1 - 1)) with 1. lia.
  - destruct (Z.ltb_spec n 10) as [Hs|Hs]; [change (10 ^ (1 - 1)) with 1; lia|].
    pose proof (Z.div_mod n 10 ltac:(lia)). pose proof (Z.mod_pos_bound n 10 ltac:(lia)).
    rewrite Nat2Z.inj_succ, Z.pow_succ_r in Hf by lia.
    destruct (IH (n / 10)) as (H1 & H2 & H3); [lia..|].
    set (d := digits_fuel fuel (n / 10)) in *.
    replace (1 + d - 1) with (Z.succ (d - 1)) by lia. rewrite (Z.add_comm 1 d).
    rewrite Z.pow_succ_r, Z.pow_add_r by lia. lia.
Qed.

Lemma digits_spec n : 0 < n → 1 ≤ digits n ∧ 10 ^ (digits n - 1) ≤ n < 10 ^ digits n.
Proof.
  intros Hn. apply digits_fuel_spec; [done|].
  pose proof (Z.log2_nonneg n). rewrite Nat2Z.inj_succ, Z2Nat.id by done.
  by apply Z.log2_spec.
Qed.

Lemma digits_le n p : 0 < p → 0 ≤ n → digits n ≤ p ↔ n < 10 ^ p.
Proof.
  intros Hp Hn. destruct (decide (n = 0)) as [->|].
  { split; [intros _; by apply Z.pow_pos_nonneg; lia|intros _; change (digits 0) with 1; lia]. }
  destruct (digits_spec n) as (H1 & H2 & H3); [lia|]. split; intros H.
  - assert (10 ^ digits n ≤ 10 ^ p) by (apply Z.pow_le_mono_r; lia). lia.
  - destruct (Z.le_gt_cases (digits n) p); [done|].
    assert (10 ^ p ≤ 10 ^ (digits n - 1)) by (apply Z.pow_le_mono_r; lia). lia.
Qed.

(** ** The order of values *)

Lemma pow10_pos e : 0 ≤ e → 0 < 10 ^ e.
Proof. intros. by apply Z.pow_pos_nonneg. Qed.

Lemma scaled_down e e' x :
  e' ≤ e → e ≤ expo x → scaled e' x = scaled e x * 10 ^ (e - e').
Proof.
  intros. unfold scaled. rewrite <-Z.mul_assoc, <-Z.pow_add_r by lia. do 2 f_equal. lia.
Qed.

Lemma dleb_iff e x y : e ≤ expo x → e ≤ expo y → dleb x y = true ↔ scaled e x ≤ scaled e y.
Proof.
  intros Hx Hy. unfold dleb. rewrite Z.leb_le.
  rewrite (scaled_down (Z.min (expo x) (expo y)) e x) by lia.
  rewrite (scaled_down (Z.min (expo x) (expo y)) e y) by lia.
  apply Z.mul_le_mono_pos_r, pow10_pos. lia.
Qed.

(** [dle_at e] states orders of values as orders of coefficients. *)
Ltac dle_at e :=
  repeat match goal with
  | H : dleb ?x ?y = true |- _ => apply (dleb_iff e x y) in H; [|simpl; lia..]
  | |- dleb ?x ?y = true => apply (dleb_iff e x y); [simpl; lia..|]
  end.

Lemma dleb_refl x : dleb x x = true.
Proof. unfold dleb. apply Z.leb_refl. Qed.

Lemma dleb_trans x y z : dleb x y = true → dleb y z = true → dleb x z = true.
Proof.
  intros. set (e := Z.min (expo x) (Z.min (expo y) (expo z))).
  dle_at e. lia.
Qed.

Lemma dleb_total x y : dleb x y = true ∨ dleb y x = true.
Proof. unfold dleb. rewrite (Z.min_comm (expo y)). rewrite !Z.leb_le. lia. Qed.

Lemma dltb_dleb x y : dltb x y = true → dleb x y = true.
Proof. unfold dltb. destruct (dleb_total x y) as [->| ->]; done. Qed.

Lemma dmin_le a x : dleb (dmin a x) a = true ∧ dleb (dmin a x) x = true.
Proof.
  unfold dmin. destruct (dltb x a) eqn:H; [split; [by apply dltb_dleb|apply dleb_refl]|].
  split; [apply dleb_refl|]. by apply negb_false_iff in H.
Qed.

Lemma dmax_ge a x : dleb a (dmax a x) = true ∧ dleb x (dmax a x) = true.
Proof.
  unfold dmax. destruct (dltb a x) eqn:H; [split; [by apply dltb_dleb|apply dleb_refl]|].
  split; [apply dleb_refl|]. by apply negb_false_iff in H.
Qed.

Lemma dmin_glb a b x : dleb b a = true → dleb b x = true → dleb b (dmin a x) = true.
Proof. unfold dmin. by destruct (dltb x a). Qed.

Lemma dmax_lub a b x : dleb a b = true → dleb x b = true → dleb (dmax a x) b = true.
Proof. unfold dmax. by destruct (dltb a x). Qed.

Definition between (a b x : decimal) : Prop := dleb a x = true ∧ dleb x b = true.

(** [min(1, max(0, x))] *)
Lemma clamp_between a b x : dleb a b = true → between a b (dmin b (dmax a x)).
Proof.
  intros H. split; [|apply dmin_le]. apply dmin_glb; [done|]. apply dmax_ge.
Qed.

Lemma nonneg_iff x : dleb D0 x = true ↔ 0 ≤ coef x.
Proof.
  unfold dleb, scaled. rewrite Z.leb_le. change (coef D0) with 0. rewrite Z.mul_0_l.
  pose proof (pow10_pos (expo x - Z.min (expo D0) (expo x)) ltac:(lia)). nia.
Qed.

(** ** Rounding is monotone

    A number that [PREC] digits can write bounds the rounding of what it bounds. *)

Lemma half_even_near n d : 0 ≤ n → 0 < d →
  2 * (div_half_even n d * d) ≤ 2 * n + d ∧ 2 * n ≤ 2 * (div_half_even n d * d) + d ∧
  (n mod d = 0 → div_half_even n d = n / d).
Proof.
  intros Hn Hd. unfold div_half_even.
  pose proof (Z.div_mod n d ltac:(lia)). pose proof (Z.mod_pos_bound n d Hd).
  destruct (Z.ltb_spec (2 * (n mod d)) d); [split_and!; try done; nia|].
  destruct (Z.ltb_spec d (2 * (n mod d))); [split_and!; try lia; nia|].
  destruct (Z.even (n / d)); split_and!; try lia; nia.
Qed.

Lemma half_up_near n d : 0 ≤ n → 0 < d →
  2 * (div_half_up n d * d) ≤ 2 * n + d ∧ 2 * n ≤ 2 * (div_half_up n d * d) + d.
Proof.
  intros Hn Hd. unfold div_half_up.
  pose proof (Z.div_mod n d ltac:(lia)). pose proof (Z.mod_pos_bound n d Hd).
  destruct (Z.ltb_spec (2 * (n mod d)) d); split; nia.
Qed.

Lemma near_le q n d m : 0 < d → 2 * (q * d) ≤ 2 * n + d → n ≤ m * d → q ≤ m.
Proof. intros. destruct (Z.le_gt_cases q m); [done|]. nia. Qed.

Lemma near_nonneg q n d : 0 < d → 0 ≤ n → 2 * n ≤ 2 * (q * d) + d → 0 ≤ q.
Proof. intros. destruct (Z.le_gt_cases 0 q); [done|]. nia. Qed.

Lemma dfix_small x : Z.abs (coef x) < 10 ^ PREC → dfix x = x.
Proof.
  intros H. unfold dfix. apply (digits_le _ PREC) in H; [|done|lia].
  by destruct (Z.leb_spec (digits (Z.abs (coef x))) PREC); [|lia].
Qed.

Lemma dfix_nonneg x : dleb D0 x = true → dleb D0 (dfix x) = true.
Proof.
  rewrite !nonneg_iff. intros H. unfold dfix. destruct (_ <=? _) eqn:Hd; [done|]. cbn [coef].
  apply Z.leb_gt in Hd.
  pose proof (pow10_pos (digits (Z.abs (coef x)) - PREC) ltac:(lia)) as Hp.
  destruct (half_even_near (Z.abs (coef x)) _ ltac:(lia) Hp) as (_ & H2 & _).
  apply near_nonneg in H2; [|lia..]. nia.
Qed.

Lemma dfix_le x k :
  0 ≤ coef x → 0 ≤ coef k < 10 ^ PREC → dleb x k = true → dleb (dfix x) k = true.
Proof.
  intros Hx Hk Hle. unfold dfix. destruct (_ <=? _) eqn:Hd; [done|]. apply Z.leb_gt in Hd.
  rewrite Z.abs_eq in * by done. set (n := digits (coef x) - PREC) in *.
  assert (0 < coef x) as Hpos.
  { destruct (decide (coef x = 0)) as [H0|]; [|lia]. rewrite H0 in Hd. by vm_compute in Hd. }
  rewrite Z.sgn_pos, Z.mul_1_l by done.
  pose proof (pow10_pos n ltac:(unfold n; lia)) as Hp.
  destruct (half_even_near (coef x) (10 ^ n) ltac:(lia) Hp) as (Hn & _ & _).
  set (q := div_half_even _ _) in *.
  destruct (Z.le_gt_cases (expo x + n) (expo k)) as [He|He].
  - dle_at (expo x + n). unfold scaled in *. simpl.
    rewrite Z.sub_diag, Z.mul_1_r. apply (near_le q (coef x) (10 ^ n)); [done..|].
    dle_at (expo x). unfold scaled in Hle. rewrite Z.sub_diag, Z.mul_1_r in Hle.
    etrans; [exact Hle|]. rewrite <-Z.mul_assoc, <-Z.pow_add_r by lia.
    apply Z.eq_le_incl. do 2 f_equal. lia.
  - exfalso. destruct (digits_spec (coef x)) as (_ & H2 & _); [lia|].
    set (e := Z.min (expo x) (expo k)).
    apply (dleb_iff e) in Hle; [|lia..]. unfold scaled in Hle.
    assert (10 ^ PREC * 10 ^ (expo k - e) ≤ coef x * 10 ^ (expo x - e)).
    { etrans; [|by apply Z.mul_le_mono_nonneg_r; [apply Z.pow_nonneg|exact H2]].
      rewrite <-!Z.pow_add_r by (unfold PREC in *; lia). apply Z.pow_le_mono_r; [lia|]. lia. }
    assert (coef k * 10 ^ (expo k - e) < 10 ^ PREC * 10 ^ (expo k - e)); [|lia].
    apply Z.mul_lt_mono_pos_r; [apply pow10_pos; lia|lia].
Qed.

Lemma dfix_ge x k :
  0 ≤ coef k < 10 ^ PREC → dleb k x = true → dleb k (dfix x) = true.
Proof.
  intros Hk Hle. unfold dfix. destruct (_ <=? _) eqn:Hd; [done|]. apply Z.leb_gt in Hd.
  assert (0 ≤ coef x) as Hx.
  { apply nonneg_iff. eapply dleb_trans; [|exact Hle]. apply nonneg_iff. lia. }
  rewrite Z.abs_eq in * by done. set (n := digits (coef x) - PREC) in *.
  assert (0 < coef x) as Hpos.
  { destruct (decide (coef x = 0)) as [H0|]; [|lia]. rewrite H0 in Hd. by vm_compute in Hd. }
  rewrite Z.sgn_pos, Z.mul_1_l by done.
  pose proof (pow10_pos n ltac:(unfold n; lia)) as Hp.
  destruct (half_even_near (coef x) (10 ^ n) ltac:(lia) Hp) as (_ & Hn & _).
  set (q := div_half_even _ _) in *.
  assert (∀ m, m * 10 ^ n ≤ coef x → m ≤ q) as Hq.
  { intros m Hm. destruct (Z.le_gt_cases m q); [done|]. nia. }
  destruct (Z.le_gt_cases (expo x + n) (expo k)) as [He|He].
  - dle_at (expo x + n). unfold scaled in *. simpl. rewrite Z.sub_diag, Z.mul_1_r. apply Hq.
    dle_at (expo x). unfold scaled in Hle. rewrite Z.sub_diag, Z.mul_1_r in Hle.
    etrans; [|exact Hle]. rewrite <-Z.mul_assoc, <-Z.pow_add_r by lia.
    apply Z.eq_le_incl. do 2 f_equal. lia.
  - destruct (digits_spec (coef x)) as (_ & H2 & _); [lia|].
    assert (10 ^ (PREC - 1) ≤ q) as Hq27.
    { apply Hq. rewrite <-Z.pow_add_r by (subst n; unfold PREC in *; lia).
      by replace (PREC - 1 + n) with (digits (coef x) - 1) by (subst n; lia). }
    dle_at (expo k). unfold scaled. simpl. rewrite Z.sub_diag, Z.mul_1_r.
    transitivity (10 ^ PREC); [lia|].
    transitivity (10 ^ (PREC - 1) * 10 ^ (expo x + n - expo k)).
    + rewrite <-Z.pow_add_r by (unfold PREC; lia). apply Z.pow_le_mono_r; lia.
    + apply Z.mul_le_mono_nonneg_r; [apply Z.pow_nonneg; lia|done].
Qed.

Lemma dfix_nonpos x : coef x ≤ 0 → coef (dfix x) ≤ 0.
Proof.
  intros H. unfold dfix. destruct (_ <=? _) eqn:Hd; [done|]. cbn [coef].
  apply Z.leb_gt in Hd.
  pose proof (pow10_pos (digits (Z.abs (coef x)) - PREC) ltac:(lia)) as Hp.
  destruct (half_even_near (Z.abs (coef x)) _ ltac:(lia) Hp) as (_ & H2 & _).
  apply near_nonneg in H2; [|lia..]. nia.
Qed.

Definition writable (k : decimal) : Prop := 0 ≤ coef k < 10 ^ PREC.

(** Sums and products of bounded numbers are bounded by the exact sum and product of
    their bounds, where the context can write them. *)
Lemma dadd_between x y a b c :
  between D0 a x → between D0 b y → writable c →
  dleb (Dec (scaled (Z.min (expo a) (expo b)) a + scaled (Z.min (expo a) (expo b)) b)
            (Z.min (expo a) (expo b))) c = true →
  between D0 c (dadd x y).
Proof.
  intros [Hx Hxa] [Hy Hyb] Hc Habc. apply nonneg_iff in Hx, Hy. unfold dadd.
  set (e := Z.min (expo x) (expo y)).
  assert (0 ≤ scaled e x ∧ 0 ≤ scaled e y) as [??].
  { unfold scaled. pose proof (pow10_pos (expo x - e)). pose proof (pow10_pos (expo y - e)).
    split; apply Z.mul_nonneg_nonneg; lia. }
  split; [apply dfix_nonneg, nonneg_iff; simpl; lia|].
  apply dfix_le; [simpl; lia|done|]. eapply dleb_trans; [|exact Habc].
  set (ab := Z.min (expo a) (expo b)). set (f := Z.min e ab).
  apply (dleb_iff f); [simpl; lia..|].
  apply (dleb_iff f) in Hxa, Hyb; [|lia..].
  assert (∀ z u v, z ≤ expo u → z ≤ expo v → f ≤ z →
    scaled f (Dec (scaled z u + scaled z v) z) = scaled f u + scaled f v) as Hs.
  { intros z u v Hu Hv Hf. rewrite (scaled_down z f u), (scaled_down z f v) by done.
    unfold scaled at 1. cbn [coef expo]. lia. }
  rewrite !Hs by lia. lia.
Qed.

Lemma dmul_between x y a b c :
  between D0 a x → between D0 b y → writable c →
  dleb (Dec (coef a * coef b) (expo a + expo b)) c = true →
  between D0 c (dmul x y).
Proof.
  intros [Hx Hxa] [Hy Hyb] Hc Habc. apply nonneg_iff in Hx, Hy. unfold dmul.
  split; [apply dfix_nonneg, nonneg_iff; simpl; lia|].
  apply dfix_le; [simpl; lia|done|]. eapply dleb_trans; [|exact Habc].
  set (e := Z.min (expo x) (expo a)). set (f := Z.min (expo y) (expo b)).
  apply (dleb_iff (e + f)); [simpl; lia..|].
  apply (dleb_iff e) in Hxa; [|lia..]. apply (dleb_iff f) in Hyb; [|lia..].
  assert (∀ u v, e ≤ expo u → f ≤ expo v →
    scaled (e + f) (Dec (coef u * coef v) (expo u + expo v)) = scaled e u * scaled f v) as Hs.
  { intros u v Hu Hv. unfold scaled. cbn [coef expo].
    replace (expo u + expo v - (e + f)) with ((expo u - e) + (expo v - f)) by lia.
    rewrite Z.pow_add_r by lia. lia. }
  rewrite !Hs by lia. apply Z.mul_le_mono_nonneg; [|done| |done];
    unfold scaled; (apply Z.mul_nonneg_nonneg; [done|apply Z.pow_nonneg; lia]).
Qed.

(** Subtracting from a writable number does not exceed it; adding to one does not fall below. *)
Lemma dsub_le x y : writable x → dleb D0 y = true → dleb (dsub x y) x = true.
Proof.
  intros Hx Hy%nonneg_iff. unfold dsub, dadd. cbn [expo].
  set (e := Z.min (expo x) (expo y)). set (z := Dec _ e).
  assert (dleb z x = true) as Hz.
  { apply (dleb_iff e); [simpl; lia..|]. unfold scaled at 1. cbn [coef expo z].
    unfold scaled at 2. cbn [coef expo]. pose proof (pow10_pos (expo y - e) ltac:(lia)).
    rewrite Z.sub_diag, Z.mul_1_r. nia. }
  destruct (Z.le_gt_cases 0 (coef z)); [by apply dfix_le|].
  apply (dleb_trans _ D0); [|by apply nonneg_iff, Hx].
  pose proof (dfix_nonpos z ltac:(lia)) as Hn. unfold dleb, scaled.
  apply Z.leb_le. change (coef D0) with 0. rewrite Z.mul_0_l.
  pose proof (pow10_pos (expo (dfix z) - Z.min (expo (dfix z)) (expo D0)) ltac:(lia)). nia.
Qed.

Lemma dadd_ge x y : writable x → dleb D0 y = true → dleb x (dadd x y) = true.
Proof.
  intros Hx Hy%nonneg_iff. unfold dadd. apply dfix_ge; [done|].
  set (e := Z.min (expo x) (expo y)). apply (dleb_iff e); [simpl; lia..|].
  unfold scaled at 2. cbn [coef expo]. rewrite Z.sub_diag, Z.mul_1_r.
  assert (0 ≤ scaled e y); [|lia]. apply Z.mul_nonneg_nonneg; [done|apply Z.pow_nonneg; lia].
Qed.

Lemma ddiv_nonneg x y : 0 ≤ coef x → 0 < coef y → ∃ d, ddiv x y = Ok d ∧ dleb D0 d = true.
Proof.
  intros Hx Hy. unfold ddiv. destruct (Z.eqb_spec (coef y) 0); [lia|].
  eexists. split; [done|]. apply dfix_nonneg, nonneg_iff. cbn [coef].
  rewrite !Z.abs_eq by lia. set (num := coef x * _). set (den := coef y * _).
  assert (0 < den) by (apply Z.mul_pos_pos; [done|apply pow10_pos; lia]).
  assert (0 ≤ num) by (apply Z.mul_nonneg_nonneg; [done|apply Z.pow_nonneg; lia]).
  pose proof (Z.div_pos num den ltac:(lia) ltac:(lia)).
  apply Z.mul_nonneg_nonneg; [apply Z.mul_nonneg_nonneg; apply Z.sgn_nonneg; lia|].
  destruct (num mod den =? 0); [done|]. destruct (_ =? 0); lia.
Qed.

(** A quotient of a number by one at least as large lies between 0 and 1. *)
Lemma ddiv_le_1 x y d :
  0 ≤ coef x → 0 < coef y → dleb x y = true → ddiv x y = Ok d → between D0 D1 d.
Proof.
  intros Hx Hy Hle. unfold ddiv. destruct (Z.eqb_spec (coef y) 0); [lia|].
  rewrite !Z.abs_eq by lia. set (s := digits (coef y) - digits (coef x) + PREC + 1).
  set (num := coef x * _). set (den := coef y * _). set (E := expo x - expo y - s).
  assert (0 < den) by (apply Z.mul_pos_pos; [done|apply pow10_pos; lia]).
  assert (0 ≤ num) by (apply Z.mul_nonneg_nonneg; [done|apply Z.pow_nonneg; lia]).
  set (q := if num mod den =? 0 then _ else _).
  assert (0 ≤ q ∧ (q - 1) * den < num) as [Hq Hqn].
  { pose proof (Z.div_pos num den ltac:(lia) ltac:(lia)).
    pose proof (Z.div_mod num den ltac:(lia)). pose proof (Z.mod_pos_bound num den ltac:(lia)).
    subst q. destruct (Z.eqb_spec (num mod den) 0); [|destruct (_ =? 0)]; split; nia. }
  intros [= <-]. rewrite (Z.sgn_pos (coef y)) by done. rewrite Z.mul_1_r.
  destruct (decide (coef x = 0)) as [Hz|Hz].
  { rewrite Hz. change (Z.sgn 0 * q) with 0. rewrite dfix_small by done.
    split; [by apply nonneg_iff|]. unfold dleb, scaled. rewrite Z.leb_le. cbn [coef D1 dZ].
    rewrite Z.mul_0_l, Z.mul_1_l. apply Z.pow_nonneg. lia. }
  rewrite Z.sgn_pos, Z.mul_1_l by lia.
  split; [apply dfix_nonneg, nonneg_iff; simpl; lia|].
  apply dfix_le; [simpl; lia|by vm_compute|].
  destruct (digits_spec (coef x)) as (_ & Hdx & _); [lia|].
  destruct (digits_spec (coef y)) as (_ & _ & Hdy); [lia|].
  set (e := Z.min (expo x) (expo y)). dle_at e. unfold scaled in Hle.
  assert (E ≤ 0) as HE.
  { destruct (Z.le_gt_cases E 0); [done|exfalso].
    assert (10 ^ digits (coef y) * 10 ^ (expo y - e) ≤ coef x * 10 ^ (expo x - e)); [|
      pose proof (pow10_pos (expo y - e) ltac:(lia)); nia].
    etrans; [|apply Z.mul_le_mono_nonneg_r; [apply Z.pow_nonneg; lia|exact Hdx]].
    rewrite <-!Z.pow_add_r; [apply Z.pow_le_mono_r; [lia|]|..];
      try (pose proof (proj1 (digits_spec (coef x) ltac:(lia)));
           pose proof (proj1 (digits_spec (coef y) ltac:(lia)))); unfold PREC in *; lia. }
  apply (dleb_iff E); [simpl; lia..|]. unfold scaled. cbn [coef expo D1 dZ].
  rewrite Z.sub_diag, Z.mul_1_r, Z.mul_1_l.
  destruct (Z.le_gt_cases q (10 ^ (0 - E))); [done|exfalso].
  assert (10 ^ (0 - E) * den < num) by nia.
  assert (num ≤ 10 ^ (0 - E) * den); [|lia].
  apply (Z.mul_le_mono_pos_r _ _ (10 ^ (expo x - e + Z.max 0 (- s)))); [apply pow10_pos; lia|].
  unfold num, den.
  replace (coef x * 10 ^ Z.max 0 s * 10 ^ (expo x - e + Z.max 0 (- s)))
    with (coef x * 10 ^ (expo x - e) * 10 ^ (Z.max 0 s + Z.max 0 (- s)))
    by (rewrite !Z.pow_add_r by lia; lia).
  replace (10 ^ (0 - E) * (coef y * 10 ^ Z.max 0 (- s)) * 10 ^ (expo x - e + Z.max 0 (- s)))
    with (coef y * 10 ^ (expo y - e) * 10 ^ (Z.max 0 s + Z.max 0 (- s))).
  - apply Z.mul_le_mono_nonneg_r; [apply Z.pow_nonneg; lia|done].
  - transitivity (coef y * (10 ^ (0 - E) * (10 ^ Z.max 0 (- s) * 10 ^ (expo x - e + Z.max 0 (- s))))); [|lia].
    rewrite <-!Z.mul_assoc, <-!Z.pow_add_r by lia. do 2 f_equal. lia.
Qed.

(** Quantizing a number between 0 and 1 succeeds and stays there. *)
Lemma quantize_between p x :
  0 ≤ p < PREC → between D0 D1 x → ∃ d, quantize_half_up p x = Ok d ∧ between D0 D1 d ∧ expo d = - p.
Proof.
  intros Hp [Hx H1]. apply nonneg_iff in Hx. unfold quantize_half_up. rewrite Z.abs_eq by done.
  set (q := if (- p <=? expo x) then _ else _).
  assert (0 ≤ q ≤ 10 ^ p) as Hq.
  { subst q. destruct (Z.leb_spec (- p) (expo x)) as [He|He].
    - split; [apply Z.mul_nonneg_nonneg; [done|apply Z.pow_nonneg; lia]|].
      apply (dleb_iff (- p)) in H1; [|simpl; lia..]. unfold scaled in H1. cbn [coef expo D1 dZ] in H1.
      by rewrite Z.mul_1_l, !Z.sub_opp_r, Z.add_0_l in H1.
    - pose proof (pow10_pos (- p - expo x) ltac:(lia)) as Hd.
      destruct (half_up_near (coef x) (10 ^ (- p - expo x)) Hx Hd) as [Hu Hl].
      split; [by eapply near_nonneg|]. eapply near_le; [done..|].
      apply (dleb_iff (expo x)) in H1; [|simpl; lia..]. unfold scaled in H1.
      cbn [coef expo D1 dZ] in H1. rewrite Z.sub_diag, Z.mul_1_r, Z.mul_1_l in H1.
      rewrite <-Z.pow_add_r by lia. by replace (p + (- p - expo x)) with (0 - expo x) by lia. }
  assert (10 ^ p < 10 ^ PREC) by (apply Z.pow_lt_mono_r; lia).
  destruct (Z.ltb_spec PREC (digits q)) as [Hd|Hd].
  { apply Z.lt_nge in Hd. destruct Hd. apply digits_le; unfold PREC in *; lia. }
  eexists. split; [done|]. split; [|done].
  assert (0 ≤ Z.sgn (coef x) * q ≤ 10 ^ p) by (destruct (Z.sgn_spec (coef x)) as [[? ->]|[[? ->]|[? ->]]]; nia).
  split; [apply nonneg_iff; simpl; lia|].
  apply (dleb_iff (- p)); [simpl; lia..|]. unfold scaled. cbn [coef expo D1 dZ].
  rewrite Z.sub_diag, Z.mul_1_r, Z.mul_1_l. replace (0 - - p) with p by lia. lia.
Qed.

(** What [quantize] returns fits the context. *)
Lemma quantize_small p x d : quantize_half_up p x = Ok d → Z.abs (coef d) < 10 ^ PREC.
Proof.
  unfold quantize_half_up. set (q := if (- p <=? expo x) then _ else _).
  assert (0 ≤ q) as Hq.
  { subst q. destruct (Z.leb_spec (- p) (expo x)) as [He|He].
    - apply Z.mul_nonneg_nonneg; [lia|apply Z.pow_nonneg; lia].
    - pose proof (pow10_pos (- p - expo x) ltac:(lia)) as Hd.
      destruct (half_up_near (Z.abs (coef x)) (10 ^ (- p - expo x)) ltac:(lia) Hd) as [_ Hl].
      by eapply near_nonneg; [| |exact Hl]; [|lia]. }
  destruct (Z.ltb_spec PREC (digits q)) as [|Hd]; [done|]. intros [= <-]. cbn [coef].
  apply digits_le in Hd; [|done..]. rewrite Z.abs_mul, (Z.abs_eq q) by done.
  assert (Z.abs (Z.sgn (coef x)) ≤ 1) by (destruct (coef x); simpl; lia). nia.
Qed.

(** ** Decimals as sort keys *)

Definition dcompare (x y : decimal) : comparison :=
  let e := Z.min (expo x) (expo y) in Z.compare (scaled e x) (scaled e y).

Lemma dleb_compare x y : dleb x y = leb_of dcompare x y.
Proof. unfold dleb, leb_of, dcompare, Z.leb. by destruct (Z.compare _ _). Qed.

#[export] Instance ordering_decimal : Ordering dcompare.
Proof.
  split.
  - intros x y. unfold dcompare. rewrite (Z.min_comm (expo y)). apply Z.compare_antisym.
  - intros x y z. rewrite <-!leb_of_iff, <-!dleb_compare. apply dleb_trans.
Qed.
