(* ===== verification/Sql.v ===== *)
(** * SQL tables

    What the services use of SQLite, over a database type [DB] of the client's
    choosing.  [Table DB R] is the interface of a table: a lens into the
    database, the row constraints of its [CREATE TABLE] ([CHECK], [UNIQUE],
    [FOREIGN KEY]) and the lens laws.  A statement either applies to every row
    it selects or, when a constraint fails, to none ([IntegrityErr]); [update]
    and [delete_rows] return the row count the code tests.  [update] checks [CHECK]
    and [UNIQUE]: the one column of a foreign key a modelled [UPDATE] writes, the
    verifier of a review issue, is looked up by the code first.  Rows are kept in
    rowid order, which is the order an unordered [SELECT] lists them in. *)

From S2P Require Import Prelude.

(** [column = ?] in SQL, where nothing equals [NULL]. *)
Definition sql_eq (a b : option string) : bool :=
  match a, b with Some x, Some y => x =? y | _, _ => false end.

Class Table (DB R : Type) := {
  table_name : string;
  rows : DB → list R;
  set_rows : list R → DB → DB;
  row_ok : R → bool;            (** the [CHECK] constraints *)
  clash : R → R → bool;         (** two rows a [UNIQUE] constraint forbids together *)
  refs_ok : DB → R → bool;      (** the [FOREIGN KEY] constraints *)
  rows_set_rows l db : rows (set_rows l db) = l;
  set_rows_rows db : set_rows (rows db) db = db;
  set_rows_set_rows l l' db : set_rows l (set_rows l' db) = set_rows l db }.

Section Sql.
Context {DB R : Type} `{!Table DB R}.
Implicit Types (p : R → bool) (f : R → R) (l : list R) (db : DB).

(** No row clashes with a later one. *)
Fixpoint no_clash l : bool :=
  match l with
  | [] => true
  | r :: l => negb (existsb (clash r) l) && no_clash l
  end.

(** The constraints every committed table satisfies. *)
Definition table_ok db : bool := forallb row_ok (rows db) && no_clash (rows db).

Definition where_ p l : list R := List.filter p l.

Definition select p : tx DB (list R) := gets (λ db, where_ p (rows db)).
Definition select_one p : tx DB (option R) := gets (λ db, List.find p (rows db)).

Definition updated p f l : list R := map (λ r, if p r then f r else r) l.

Definition update p f : tx DB Z := λ db,
  let new := updated p f (rows db) in
  let changed := map f (where_ p (rows db)) in
  if forallb row_ok changed && no_clash new
  then (Ok (Z.of_nat (length changed)), set_rows new db)
  else (Err (IntegrityErr table_name), db).

Definition insert_row (r : R) : tx DB unit := λ db,
  let new := rows db ++ [r] in
  let db' := set_rows new db in
  if row_ok r && no_clash new && refs_ok db' r
  then (Ok tt, db')
  else (Err (IntegrityErr table_name), db).

Definition delete_rows p : tx DB Z := λ db,
  (Ok (Z.of_nat (length (where_ p (rows db)))),
   set_rows (where_ (λ r, negb (p r)) (rows db)) db).

(** ** Laws *)

Lemma table_rows_ok db : table_ok db = true → forallb row_ok (rows db) = true.
Proof. unfold table_ok. by intros [? _]%andb_true_iff. Qed.

Lemma table_no_clash db : table_ok db = true → no_clash (rows db) = true.
Proof. unfold table_ok. by intros [_ ?]%andb_true_iff. Qed.

Lemma table_ok_row db r : table_ok db = true → r ∈ rows db → row_ok r = true.
Proof.
  intros Hdb%table_rows_ok Hr. rewrite forallb_forall in Hdb. by apply Hdb, list_elem_of_In.
Qed.

Lemma update_ok p f db n db' :
  update p f db = (Ok n, db') ↔
    forallb row_ok (map f (where_ p (rows db))) = true ∧
    no_clash (updated p f (rows db)) = true ∧
    n = Z.of_nat (length (where_ p (rows db))) ∧
    db' = set_rows (updated p f (rows db)) db.
Proof.
  unfold update. rewrite length_map. split.
  - destruct (_ && _) eqn:Hb; [|done]. intros [= <- <-]. by bools.
  - intros (H1 & H2 & -> & ->). by rewrite H1, H2.
Qed.

Lemma update_err p f db e db' :
  update p f db = (Err e, db') → db' = db ∧ e = IntegrityErr table_name.
Proof. unfold update. destruct (_ && _); naive_solver. Qed.

Lemma insert_ok r db u db' :
  insert_row r db = (Ok u, db') ↔
    row_ok r = true ∧ no_clash (rows db ++ [r]) = true ∧ refs_ok db' r = true ∧
    db' = set_rows (rows db ++ [r]) db.
Proof.
  unfold insert_row. destruct u. split.
  - destruct (_ && _) eqn:Hb; [|done]. intros [= <-]. by bools.
  - intros (H1 & H2 & H3 & ->). by rewrite H1, H2, H3.
Qed.

Lemma insert_err r db e db' :
  insert_row r db = (Err e, db') → db' = db ∧ e = IntegrityErr table_name.
Proof. unfold insert_row. destruct (_ && _); naive_solver. Qed.

Lemma select_ok p db l db' : select p db = (Ok l, db') ↔ l = where_ p (rows db) ∧ db' = db.
Proof. unfold select, select_one, gets. naive_solver. Qed.

Lemma select_one_ok p db o db' :
  select_one p db = (Ok o, db') ↔ o = List.find p (rows db) ∧ db' = db.
Proof. unfold select, select_one, gets. naive_solver. Qed.

Lemma elem_where p l r : r ∈ where_ p l ↔ r ∈ l ∧ p r = true.
Proof. unfold where_. by rewrite !list_elem_of_In, filter_In. Qed.

Lemma where_nil p l : where_ p l = [] ↔ ∀ r, r ∈ l → p r = false.
Proof.
  split.
  - intros Hw r Hr. apply not_true_iff_false. intros Hp.
    assert (r ∈ where_ p l) as Hin by by apply elem_where.
    rewrite Hw in Hin. by apply not_elem_of_nil in Hin.
  - intros Hnone. destruct (where_ p l) as [|r w] eqn:Hw; [done|].
    assert (r ∈ where_ p l) as [Hr Hp]%elem_where by (rewrite Hw; by left).
    by rewrite Hnone in Hp.
Qed.

Lemma find_where p l : List.find p l = head (where_ p l).
Proof. induction l as [|r l IH]; simpl; [done|]. by destruct (p r). Qed.

Lemma find_app_some p l l' r : List.find p l = Some r → List.find p (l ++ l') = Some r.
Proof. induction l as [|x l IH]; simpl; [done|]. by destruct (p x). Qed.

Lemma updated_id p f l : (∀ r, r ∈ l → p r = true → f r = r) → updated p f l = l.
Proof.
  induction l as [|r l IH]; simpl; intros Hf; [done|].
  rewrite IH by (intros; apply Hf; set_solver).
  destruct (p r) eqn:Hp; [|done]. rewrite Hf; set_solver.
Qed.

Lemma elem_updated p f l r :
  r ∈ updated p f l ↔ (r ∈ l ∧ p r = false) ∨ ∃ r', r' ∈ l ∧ p r' = true ∧ r = f r'.
Proof.
  unfold updated. rewrite list_elem_of_In, in_map_iff. split.
  - intros (x & <- & Hx%list_elem_of_In). destruct (p x) eqn:Hp; [right|left]; eauto.
  - intros [[Hr Hp]|(x & Hx & Hp & ->)].
    + exists r. rewrite Hp. by rewrite <-list_elem_of_In.
    + exists x. rewrite Hp. by rewrite <-list_elem_of_In.
Qed.

(** An update that keeps the key columns cannot make rows clash. *)
Lemma no_clash_updated p f l :
  (∀ r r', clash (f r) r' = clash r r') → (∀ r r', clash r (f r') = clash r r') →
  no_clash (updated p f l) = no_clash l.
Proof.
  intros H1 H2. induction l as [|r l IH]; simpl; [done|]. rewrite IH. f_equal. f_equal.
  clear IH. induction l as [|r' l IH]; simpl; [done|]. rewrite IH. f_equal.
  destruct (p r), (p r'); by rewrite ?H1, ?H2.
Qed.

(** More generally, one that only forgets clashes. *)
Lemma no_clash_updated_le p f l :
  (∀ a b, p a = true → clash (f a) b = true → clash a b = true) →
  (∀ a b, p b = true → clash a (f b) = true → clash a b = true) →
  no_clash l = true → no_clash (updated p f l) = true.
Proof.
  intros H1 H2. induction l as [|x l IH]; [done|]. simpl. intros Hl. bools.
  rewrite IH, andb_true_r by done. apply negb_true_iff, not_true_iff_false.
  intros (y & Hy & Hxy)%existsb_exists. apply not_true_iff_false in H. apply H, existsb_exists.
  unfold updated in Hy. apply in_map_iff in Hy as (z & <- & Hz). exists z. split; [done|].
  destruct (p x) eqn:Hx; destruct (p z) eqn:Hpz; eauto.
Qed.

Lemma no_clash_filter p l : no_clash l = true → no_clash (List.filter p l) = true.
Proof.
  induction l as [|b l IH]; [done|]. simpl. intros [Hn Hc]%andb_true_iff. specialize (IH Hc).
  destruct (p b); [|done]. simpl. rewrite IH, andb_true_r. apply negb_true_iff, not_true_iff_false.
  intros (y & [Hy _]%filter_In & Hy')%existsb_exists. apply negb_true_iff, not_true_iff_false in Hn.
  apply Hn, existsb_exists. eauto.
Qed.

Lemma no_clash_app_cons l r : no_clash (l ++ [r]) = true → no_clash l = true.
Proof.
  induction l as [|r' l IH]; simpl; [done|]. rewrite existsb_app. intros Hl. bools.
  apply andb_true_iff; split; [|by apply IH]. by apply negb_true_iff.
Qed.

Lemma no_clash_snoc l r :
  no_clash l = true → (∀ x, x ∈ l → clash x r = false) → no_clash (l ++ [r]) = true.
Proof.
  induction l as [|x l IH]; simpl; intros Hl Hr; [done|]. bools.
  rewrite existsb_app, H. simpl. rewrite (Hr x) by set_solver. simpl.
  apply IH; [done|]. intros y Hy. apply Hr. set_solver.
Qed.

Lemma no_clash_last l r : no_clash (l ++ [r]) = true → ∀ x, x ∈ l → clash x r = false.
Proof.
  induction l as [|y l IH]; simpl; intros Hl x Hx; [by apply not_elem_of_nil in Hx|]. bools.
  rewrite existsb_app in H. bools. simpl in *. bools. apply elem_of_cons in Hx as [->|Hx]; [done|by apply IH].
Qed.

Lemma insert_clash x r db :
  x ∈ rows db → clash x r = true → insert_row r db = (Err (IntegrityErr table_name), db).
Proof.
  intros Hx Hc. unfold insert_row.
  assert (no_clash (rows db ++ [r]) = false) as ->; [|by rewrite andb_false_r].
  induction (rows db) as [|y l IH]; [set_solver|]. simpl.
  apply elem_of_cons in Hx as [->|Hx]; [|by rewrite IH, andb_false_r].
  rewrite existsb_app. simpl. by rewrite Hc, orb_true_r.
Qed.

(** Rows at different positions do not clash, the earlier one being first. *)
Lemma no_clash_lookup l i j a b :
  no_clash l = true → l !! i = Some a → l !! j = Some b → (i < j)%nat → clash a b = false.
Proof.
  revert i j. induction l as [|r l IH]; intros i j Hl Ha Hb Hij; [done|].
  simpl in Hl. bools. destruct i as [|i], j as [|j]; [lia| |lia|].
  - injection Ha as ->. simpl in Hb. apply not_true_iff_false. intros Hc.
    apply not_true_iff_false in H. apply H, existsb_exists. exists b.
    split; [by eapply list_elem_of_In, list_elem_of_lookup_2|done].
  - eapply (IH i j); [done..|lia].
Qed.

(** At most one row satisfies a predicate whose rows clash pairwise, so a
    statement keyed on it counts 0 or 1. *)
Lemma where_unique p l :
  no_clash l = true → (∀ r r', p r = true → p r' = true → clash r r' = true) →
  where_ p l = [] ∨ ∃ r, where_ p l = [r] ∧ r ∈ l ∧ p r = true.
Proof.
  intros Hl Hp. induction l as [|r l IH]; simpl; [by left|].
  simpl in Hl. bools. destruct (p r) eqn:Hr.
  - right. exists r. destruct (IH ltac:(done)) as [->|(r' & _ & Hin & Hr')]; [set_solver|].
    exfalso. assert (existsb (clash r) l = true) as Hc; [|congruence].
    apply existsb_exists. exists r'. split; [by apply list_elem_of_In|auto].
  - destruct IH as [->|(r' & -> & ? & ?)]; [done|by left|right]. exists r'. set_solver.
Qed.

Lemma find_unique p l r :
  no_clash l = true → (∀ a b, p a = true → p b = true → clash a b = true) →
  r ∈ l → p r = true → List.find p l = Some r ∧ where_ p l = [r].
Proof.
  intros Hl Hp Hr Hpr. rewrite find_where.
  destruct (where_unique p l Hl Hp) as [Hn|(r' & Hw & _ & Hr')].
  - assert (r ∈ where_ p l) as Hin by by apply elem_where. rewrite Hn in Hin. set_solver.
  - assert (r ∈ where_ p l) as Hin by by apply elem_where. rewrite Hw in Hin.
    apply list_elem_of_singleton in Hin as ->. by rewrite Hw.
Qed.

Lemma unique_row p l r r' :
  no_clash l = true → (∀ a b, p a = true → p b = true → clash a b = true) →
  r ∈ l → p r = true → r' ∈ l → p r' = true → r = r'.
Proof.
  intros Hl Hp Hr Hpr Hr' Hpr'. destruct (find_unique p l r) as [H1 _]; [done..|].
  destruct (find_unique p l r') as [H2 _]; [done..|]. congruence.
Qed.

Lemma updated_ext p q f l :
  (∀ r, r ∈ l → p r = q r) → updated p f l = updated q f l.
Proof.
  induction l as [|r l IH]; simpl; intros Hpq; [done|].
  rewrite IH by (intros; apply Hpq; set_solver). by rewrite (Hpq r) by set_solver.
Qed.

(** The workhorse: [UPDATE ... WHERE key AND guard] on a row known to be there
    and to satisfy the guard. *)
Lemma update_found p q f db r :
  table_ok db = true → (∀ a b, p a = true → p b = true → clash a b = true) →
  (∀ a b, clash (f a) b = clash a b) → (∀ a b, clash a (f b) = clash a b) →
  r ∈ rows db → p r = true → q r = true →
  update (λ x, p x && q x) f db =
    if row_ok (f r) then (Ok 1, set_rows (updated p f (rows db)) db)
    else (Err (IntegrityErr table_name), db).
Proof.
  intros Hdb Hp Hf1 Hf2 Hr Hpr Hqr. unfold table_ok in Hdb. bools.
  destruct (find_unique p (rows db) r) as [_ Hw]; [done..|].
  assert (∀ x, x ∈ rows db → p x && q x = p x) as Hpq.
  { intros x Hx. destruct (p x) eqn:Hpx; [|done].
    assert (x ∈ where_ p (rows db)) as Hin by by apply elem_where. rewrite Hw in Hin.
    apply list_elem_of_singleton in Hin as ->. by rewrite Hqr. }
  unfold update. rewrite (updated_ext (λ x, p x && q x) p f) by done.
  assert (where_ (λ x, p x && q x) (rows db) = [r]) as ->.
  { rewrite <-Hw. unfold where_. apply List.filter_ext_in.
    intros x Hx. apply Hpq. by apply list_elem_of_In. }
  rewrite no_clash_updated by done. simpl. rewrite H0, !andb_true_r. done.
Qed.

Lemma update_ext p q f db : (∀ r, p r = q r) → update p f db = update q f db.
Proof.
  intros Hpq. unfold update, where_. rewrite (updated_ext p q f) by auto.
  by rewrite (List.filter_ext p q).
Qed.

Lemma update_found' p f db r :
  table_ok db = true → (∀ a b, p a = true → p b = true → clash a b = true) →
  (∀ a b, clash (f a) b = clash a b) → (∀ a b, clash a (f b) = clash a b) →
  r ∈ rows db → p r = true →
  update p f db =
    if row_ok (f r) then (Ok 1, set_rows (updated p f (rows db)) db)
    else (Err (IntegrityErr table_name), db).
Proof.
  intros. rewrite <-(update_found p (λ _, true) f db r) by done.
  apply update_ext. intros x. by rewrite andb_true_r.
Qed.

(** A change of the only row that [p] selects, wherever it is. *)
Lemma where_single_split p f l r :
  where_ p l = [r] → ∃ l1 l2, l = l1 ++ r :: l2 ∧ updated p f l = l1 ++ f r :: l2.
Proof.
  induction l as [|x l IH]; simpl; [done|]. destruct (p x) eqn:Hx.
  - intros [= -> Hw]. exists [], l. split; [done|]. simpl. f_equal. apply updated_id.
    intros y Hy Hp. by rewrite (proj1 (where_nil p l) Hw) in Hp.
  - intros (l1 & l2 & -> & Hu)%IH. exists (x :: l1), l2. simpl. split; [done|]. by f_equal.
Qed.

Lemma where_single_updated p f l r :
  where_ p l = [r] → p (f r) = true → where_ p (updated p f l) = [f r].
Proof.
  intros Hw Hp. induction l as [|x l IH]; simpl in *; [done|]. destruct (p x) eqn:Hx.
  - injection Hw as -> Hw. rewrite Hp. f_equal. rewrite updated_id; [done|].
    intros y Hy Hpy. by rewrite (proj1 (where_nil p l) Hw) in Hpy.
  - rewrite Hx. auto.
Qed.

(** How many rows a condition selects after such a change. *)
Lemma count_updated p q f l r :
  where_ p l = [r] →
  (length (where_ q (updated p f l)) + (if q r then 1 else 0) =
   length (where_ q l) + (if q (f r) then 1 else 0))%nat.
Proof.
  intros (l1 & l2 & -> & ->)%(where_single_split p f). unfold where_. rewrite !List.filter_app.
  simpl. destruct (q r), (q (f r)); rewrite !length_app; simpl; lia.
Qed.

(** What the keyed row and the others look like afterwards. *)
Lemma find_updated p f l r :
  List.find p l = Some r → (∀ x, p x = true → p (f x) = true) →
  List.find p (updated p f l) = Some (f r).
Proof.
  intros Hr Hf. induction l as [|x l IH]; simpl in *; [done|].
  destruct (p x) eqn:Hx.
  - injection Hr as ->. by rewrite Hf.
  - rewrite Hx. auto.
Qed.

Lemma find_updated_other p q f l :
  (∀ x, p x = true → q x = false ∧ q (f x) = false) →
  List.find q (updated p f l) = List.find q l.
Proof.
  intros Hpq. induction l as [|x l IH]; simpl; [done|]. destruct (p x) eqn:Hx.
  - by destruct (Hpq x Hx) as [-> ->].
  - by rewrite IH.
Qed.

Lemma table_ok_updated p f db :
  table_ok db = true → (∀ a b, clash (f a) b = clash a b) → (∀ a b, clash a (f b) = clash a b) →
  (∀ r, r ∈ rows db → p r = true → row_ok (f r) = true) →
  table_ok (set_rows (updated p f (rows db)) db) = true.
Proof.
  intros Hdb H1 H2 Hf. unfold table_ok in *. bools.
  rewrite rows_set_rows, no_clash_updated by done. rewrite H0, andb_true_r.
  apply forallb_forall. intros x Hx%list_elem_of_In.
  apply elem_updated in Hx as [[Hx _]|(y & Hy & Hp & ->)]; [|by apply Hf].
  rewrite forallb_forall in H. by apply H, list_elem_of_In.
Qed.

Lemma table_ok_changed p f db db' :
  rows db' = updated p f (rows db) →
  table_ok db = true → (∀ a b, clash (f a) b = clash a b) → (∀ a b, clash a (f b) = clash a b) →
  (∀ r, row_ok r = true → row_ok (f r) = true) → table_ok db' = true.
Proof.
  intros Hrows Hdb H1 H2 Hf. unfold table_ok in *. bools. rewrite forallb_forall in H.
  rewrite Hrows, no_clash_updated by done. rewrite H0, andb_true_r.
  apply forallb_forall. intros x Hx%list_elem_of_In.
  apply elem_updated in Hx as [[Hx _]|(y & Hy & Hp & ->)]; [|apply Hf];
    by apply H, list_elem_of_In.
Qed.

(** An accepted update or insert leaves the table well formed. *)
Lemma update_table_ok p f db n db' :
  update p f db = (Ok n, db') → forallb row_ok (rows db) = true → table_ok db' = true.
Proof.
  intros (Hok & Hcl & _ & ->)%update_ok Hdb. unfold table_ok. rewrite rows_set_rows.
  rewrite Hcl, andb_true_r. apply forallb_forall. intros r Hr%list_elem_of_In.
  rewrite forallb_forall in Hok, Hdb. apply elem_updated in Hr as [[Hr _]|(x & Hx & Hp & ->)].
  - by apply Hdb, list_elem_of_In.
  - apply Hok, in_map, filter_In. by rewrite <-list_elem_of_In.
Qed.

Lemma insert_table_ok r db u db' :
  insert_row r db = (Ok u, db') → forallb row_ok (rows db) = true → table_ok db' = true.
Proof.
  intros (Hok & Hcl & _ & ->)%insert_ok Hdb. unfold table_ok.
  rewrite rows_set_rows, Hcl, forallb_app, Hdb. simpl. by rewrite Hok.
Qed.

(** An update that cannot break a constraint goes through. *)
Lemma update_total p f db :
  table_ok db = true → (∀ a b, clash (f a) b = clash a b) → (∀ a b, clash a (f b) = clash a b) →
  (∀ r, r ∈ rows db → p r = true → row_ok (f r) = true) →
  update p f db = (Ok (Z.of_nat (length (where_ p (rows db)))), set_rows (updated p f (rows db)) db).
Proof.
  intros Hdb H1 H2 Hf. apply update_ok. unfold table_ok in Hdb. bools.
  split_and!; [|by rewrite no_clash_updated|done..].
  apply forallb_forall. intros x (y & <- & Hy)%in_map_iff. apply filter_In in Hy as [Hy Hp].
  apply Hf; [by apply list_elem_of_In|done].
Qed.

(** Two passes of the same change are one. *)
Lemma updated_updated p q f l :
  (∀ x, p x = true → q (f x) = false) →
  updated q f (updated p f l) = updated (λ x, p x || q x) f l.
Proof.
  intros Hpq. unfold updated. rewrite map_map. apply map_ext. intros x.
  destruct (p x) eqn:Hp; simpl; [by rewrite Hpq|done].
Qed.

(** A statement keyed on a [UNIQUE] key changes nothing or exactly one row. *)
Lemma update_keyed p f db n db' :
  table_ok db = true → (∀ a b, p a = true → p b = true → clash a b = true) →
  update p f db = (Ok n, db') →
  table_ok db' = true ∧ db' = set_rows (updated p f (rows db)) db ∧
    ((n = 0 ∧ db' = db ∧ ∀ r, r ∈ rows db → p r = false) ∨
     (n = 1 ∧ ∃ r, r ∈ rows db ∧ p r = true ∧ where_ p (rows db) = [r])).
Proof.
  intros Hdb Hp Hu. pose proof Hdb as Hdb'. unfold table_ok in Hdb'. bools.
  split; [by eapply update_table_ok|]. apply update_ok in Hu as (_ & _ & -> & ->).
  split; [done|]. destruct (where_unique p (rows db)) as [Hw|(r & Hw & Hr & Hpr)]; [done..| |].
  - left. assert (Hnone := proj1 (where_nil _ _) Hw).
    rewrite Hw, updated_id, set_rows_rows; [done|].
    intros r Hr Hpr. by rewrite Hnone in Hpr.
  - right. rewrite Hw. split; [done|]. by exists r.
Qed.

End Sql.

Create HintDb sql.
#[export] Hint Resolve table_rows_ok table_no_clash table_ok_row : sql.
#[export] Hint Resolve update_table_ok insert_table_ok : sql.

(** ** Conflict clauses and handlers *)

(** [try: m except IntegrityError: raise h] *)
Definition except_integrity {S A} (m : tx S A) (h : S → exn) : tx S A := λ s,
  match m s with
  | (Err (IntegrityErr _), s') => (Err (h s'), s')
  | other => other
  end.

(** [try: m except IntegrityError: ...]: whether [m] went through. *)
Definition try_integrity {S A} (m : tx S A) : tx S bool := λ s,
  match m s with
  | (Ok _, s') => (Ok true, s')
  | (Err (IntegrityErr _), s') => (Ok false, s')
  | (Err e, s') => (Err e, s')
  end.

(** [INSERT OR IGNORE]: a [UNIQUE] or [CHECK] violation skips the row, a foreign
    key violation still raises. *)
Definition insert_or_ignore {R} `{!Table DB R} (r : R) : tx DB Z := λ db,
  if row_ok r && negb (existsb (λ x, clash x r) (rows db))
  then match insert_row r db with
       | (Ok _, db') => (Ok 1, db')
       | (Err e, db') => (Err e, db')
       end
  else (Ok 0, db).

(** [INSERT ... ON CONFLICT(key) DO UPDATE]: [merge] the stored row with the
    [excluded] one when there is one with its key. *)
Definition upsert {R} `{!Table DB R} (r : R) (merge : R → R) : tx DB unit :=
  present ← gets (λ db, existsb (λ x, clash x r) (rows db));
  if (present : bool) then update (λ x, clash x r) merge;; mret tt else insert_row r.

Lemma except_integrity_ok {S A} (m : tx S A) h s a s' :
  except_integrity m h s = (Ok a, s') → m s = (Ok a, s').
Proof. unfold except_integrity. destruct (m s) as [[|[]]]; naive_solver. Qed.

Lemma except_integrity_run {S A} (m : tx S A) h s a s' :
  m s = (Ok a, s') → except_integrity m h s = (Ok a, s').
Proof. unfold except_integrity. by intros ->. Qed.

(** A refused row leaves no trace; an accepted one is the last row. *)
Lemma insert_or_ignore_ok {R} `{!Table DB R} (r : R) (db db' : DB) n :
  insert_or_ignore r db = (Ok n, db') →
  (n = 0 ∧ db' = db) ∨ (n = 1 ∧ rows db' = rows db ++ [r]).
Proof.
  unfold insert_or_ignore. destruct (_ && _); [|naive_solver].
  destruct (insert_row r db) as [[u|e] db''] eqn:Hi; [|naive_solver].
  apply insert_ok in Hi as (_ & _ & _ & ->). intros [= <- <-]. right.
  by rewrite rows_set_rows.
Qed.

Lemma insert_or_ignore_inv {R} `{!Table DB R} (r : R) (db db' : DB) n :
  table_ok (R := R) db = true → insert_or_ignore r db = (Ok n, db') →
  table_ok (R := R) db' = true ∧
  (db' = db ∧ (row_ok r = false ∨ existsb (λ x, clash x r) (rows db) = true) ∨
   db' = set_rows (rows db ++ [r]) db ∧ row_ok r = true ∧ existsb (λ x, clash x r) (rows db) = false).
Proof.
  unfold insert_or_ignore. intros Hok. destruct (row_ok r) eqn:Hr; simpl; [|naive_solver].
  destruct (existsb _ _) eqn:He; simpl; [naive_solver|].
  destruct (insert_row r db) as [[u|e] db''] eqn:Hi; [|done]. intros [= <- <-].
  split; [by eapply insert_table_ok, table_rows_ok|]. right.
  apply insert_ok in Hi as (_ & _ & _ & ->). auto.
Qed.

Lemma upsert_rows {R} `{!Table DB R} (r : R) merge (db db' : DB) u :
  upsert r merge db = (Ok u, db') → ∃ l, db' = set_rows l db.
Proof.
  unfold upsert. intros H. apply tx_bind_ok in H as (b & ? & [-> ->]%gets_ok & H).
  destruct (existsb _ _).
  - apply tx_bind_ok in H as (n & ? & (_ & _ & _ & ->)%update_ok & [_ ->]%mret_ok). eauto.
  - apply insert_ok in H as (_ & _ & _ & ->). eauto.
Qed.

(** What [INSERT ... ON CONFLICT DO UPDATE] leaves: the merged row when the key was
    there, the new row when it was not, and every other key as it was. *)
Lemma upsert_ok {R} `{!Table DB R} (r : R) merge (db db' : DB) u :
  table_ok (R := R) db = true →
  (∀ a b c : R, clash a c = true → clash b c = true → clash a b = true) →
  (∀ a c : R, clash (merge a) c = clash a c) → (∀ a c : R, clash a (merge c) = clash a c) →
  clash r r = true → (∀ a b : R, clash a b = clash b a) →
  upsert r merge db = (Ok u, db') →
  table_ok db' = true ∧
  where_ (λ x, clash x r) (rows db') =
    match List.find (λ x, clash x r) (rows db) with Some old => [merge old] | None => [r] end ∧
  ∀ x, clash x r = false → x ∈ rows db' ↔ x ∈ rows db.
Proof.
  intros Hok Htr Hm1 Hm2 Hrr Hsym Hrun. unfold upsert in Hrun.
  apply tx_bind_ok in Hrun as (b & ? & [-> ->]%gets_ok & Hrun). rewrite find_where.
  destruct (existsb _ _) eqn:He.
  - apply tx_bind_ok in Hrun as (n & ? & Hu & [_ ->]%mret_ok).
    assert (∀ a b, clash a r = true → clash b r = true → clash a b = true) as Hp
      by (intros; by eapply Htr).
    destruct (update_keyed _ _ _ _ _ Hok Hp Hu) as (Hok' & -> & Hcase).
    destruct Hcase as [(_ & _ & Hnone)|(_ & o & Ho & Hor & Hw)].
    { apply existsb_exists in He as (o & Ho%list_elem_of_In & Hor). by rewrite Hnone in Hor. }
    split; [done|]. rewrite Hw, rows_set_rows. simpl. split.
    + clear -Hw Hm1. revert Hw. generalize (rows db) as l. unfold where_, updated.
      induction l as [|x l IH]; simpl; [done|]. destruct (clash x r) eqn:Hx; simpl.
      * rewrite Hm1, Hx. intros [= -> Hl]. f_equal. revert Hl. clear -Hm1.
        induction l as [|y l IH]; simpl; [done|]. destruct (clash y r) eqn:Hy; [done|].
        rewrite Hy. done.
      * rewrite Hx. done.
    + intros x Hxr. rewrite elem_updated. split; [|by left].
      intros [[Hx _]|(y & _ & Hy & ->)]; [done|]. by rewrite Hm1, Hy in Hxr.
  - unfold table_ok in Hok. bools. assert (∀ x, x ∈ rows db → clash x r = false) as Hnone.
    { intros x Hx. apply not_true_iff_false. intros Hxr. apply not_true_iff_false in He.
      apply He, existsb_exists. exists x. by rewrite <-list_elem_of_In. }
    assert (Hw := proj2 (where_nil _ _) Hnone).
    rewrite Hw. simpl. split; [by eapply insert_table_ok|].
    apply insert_ok in Hrun as (_ & _ & _ & ->). rewrite rows_set_rows. split.
    + unfold where_ in *. by rewrite List.filter_app, Hw; simpl; rewrite Hrr.
    + intros x Hxr. rewrite elem_of_app, list_elem_of_singleton. split; [|by left].
      intros [Hx| ->]; [done|by rewrite Hrr in Hxr].
Qed.

(** A compare-and-swap: an update of the row with key [id] if [guard] still holds of
    it, which the update itself ends. *)
Lemma swap_wins {R} `{!Table DB R} (key : R → string) (guard : R → bool) f id (db db' : DB) n :
  table_ok (R := R) db = true →
  (∀ a b, key a = key b → clash a b = true) →
  (∀ a, key (f a) = key a) → (∀ a, guard a = true → guard (f a) = false) →
  let p := λ a, (key a =? id) && guard a in
  update p f db = (Ok n, db') →
  n = 0 ∧ db' = db ∧ (∀ r, List.find (λ a, key a =? id) (rows db) = Some r → guard r = false) ∨
  n = 1 ∧ (∃ r, List.find (λ a, key a =? id) (rows db) = Some r ∧ guard r = true ∧
     List.find (λ a, key a =? id) (rows db') = Some (f r) ∧
     rows db' = updated (λ a, key a =? id) f (rows db)) ∧
  ∀ g, update p g db' = (Ok 0, db').
Proof.
  intros Hok Hkey Hfk Hfs p Hu.
  assert (∀ a b, p a = true → p b = true → clash a b = true) as Hp.
  { unfold p. intros a b Ha Hb. bools. apply Hkey. congruence. }
  destruct (update_keyed _ _ _ _ _ Hok Hp Hu) as (Hok' & Hdb' & Hcase).
  destruct Hcase as [(-> & -> & Hnone)|(-> & r & Hr & Hpr & _)].
  { left. split_and!; [done..|]. intros r [Hr%list_elem_of_In Hid]%find_some.
    specialize (Hnone r Hr). unfold p in Hnone. by rewrite Hid in Hnone. }
  right. split; [done|]. assert (Hcl := table_no_clash _ Hok).
  unfold p in Hpr. apply andb_true_iff in Hpr as [Hrid Hg]. apply String.eqb_eq in Hrid.
  assert (∀ x, (key x =? id) = true → x ∈ rows db → x = r) as Hone.
  { intros x Hx Hxr. eapply (unique_row (λ a, key a =? id) (rows db)); try done.
    - intros a b Ha Hb. apply Hkey. bools. congruence.
    - by apply String.eqb_eq. }
  assert (updated p f (rows db) = updated (λ a, key a =? id) f (rows db)) as Hup.
  { apply updated_ext. intros x Hx. unfold p. destruct (key x =? id) eqn:Hxk; [|done].
    by rewrite (Hone x). }
  split.
  - exists r. destruct (find_unique (λ a, key a =? id) (rows db) r) as [Hf _];
      [done| |done|by apply String.eqb_eq|].
    { intros a b Ha Hb. apply Hkey. bools. congruence. }
    split_and!; [done..| |by rewrite Hdb', rows_set_rows].
    rewrite Hdb', rows_set_rows, Hup. apply find_updated; [done|]. intros x. by rewrite Hfk.
  - intros g. assert (∀ x, x ∈ rows db' → p x = false) as Hnone.
    { intros x Hx. rewrite Hdb', rows_set_rows in Hx.
      apply elem_updated in Hx as [[_ Hx]|(y & _ & Hy & ->)]; [done|].
      unfold p in *. apply andb_true_iff in Hy as [_ Hy].
      apply andb_false_iff. right. by apply Hfs. }
    apply update_ok. rewrite (proj2 (where_nil p (rows db')) Hnone).
    rewrite updated_id by (intros x Hx; by rewrite Hnone). rewrite set_rows_rows.
    by apply table_no_clash in Hok'.
Qed.

(** ** ORDER BY

    [sort_by] with ties in rowid order. *)

(** Text columns compare byte by byte. *)
Definition text_le (a b : string) : bool := String.leb a b.
Definition text_lt (a b : string) : bool := String.ltb a b.

Lemma text_le_total a b : text_le a b = true ∨ text_le b a = true.
Proof.
  unfold text_le, String.leb. rewrite (String.compare_antisym b a).
  destruct (String.compare a b); simpl; auto.
Qed.

(** [LIMIT n], which a negative number lifts. *)
Definition limited {A} (n : Z) (l : list A) : list A := if (n <? 0)%Z then l else take (Z.to_nat n) l.

(** [update] and friends inside [tx_inv]. *)
Ltac sql_inv1 :=
  match goal with
  | H : select _ _ = (Ok _, _) |- _ => apply select_ok in H; destruct H as [-> ->]
  | H : select_one _ _ = (Ok _, _) |- _ => apply select_one_ok in H; destruct H as [-> ->]
  end.
Ltac sql_inv := repeat (first [sql_inv1 | tx_inv1]; simplify_eq/=).
