(* ===== verification/StateMachine.v ===== *)
(** * The state machines of [state_machine.py]

    One module per [StrEnum] with its members and string values, the nine H.7
    transition tables as the dict displays they are, the registry
    [_TRANSITION_TABLES] and the functions that interpret it.  The interpreter
    reads a table through the string values of its keys and targets only, so the
    registry holds the tables with [value] applied.

    The theorems: [transition] accepts exactly the edges of the tables and the
    saved way back out of a waiting state; no state without a way out; terminal
    states absorb; a pause can be undone; and the one hole, a [resume_state]
    that names no state. *)

From S2P Require Import Prelude PyEnum Graph.

(** ** The enumerations and their tables *)

Module CompanyTaskState.
(* [sidecar/ibreeze/state_machine.py:28-48 CompanyTaskState] *)
Inductive t :=
  | DRAFT | ANALYZING | AWAITING_USER_CONFIRMATION | REVISION_REQUESTED | APPROVED | REJECTED
  | DISPATCHING | CHECKING_RESOURCES | EXECUTING | REVIEWING | FIXING | FINAL_REVIEW | COMPLETED
  | WAITING_DEPENDENCY | WAITING_RESOURCE | WAITING_PERMISSION | PAUSED | CANCELLING | CANCELLED
  | FAILED.

(* [sidecar/ibreeze/state_machine.py:28-48 CompanyTaskState] *)
Definition val (s : t) : string :=
  match s with
  | DRAFT => "draft"
  | ANALYZING => "analyzing"
  | AWAITING_USER_CONFIRMATION => "awaiting_user_confirmation"
  | REVISION_REQUESTED => "revision_requested"
  | APPROVED => "approved"
  | REJECTED => "rejected"
  | DISPATCHING => "dispatching"
  | CHECKING_RESOURCES => "checking_resources"
  | EXECUTING => "executing"
  | REVIEWING => "reviewing"
  | FIXING => "fixing"
  | FINAL_REVIEW => "final_review"
  | COMPLETED => "completed"
  | WAITING_DEPENDENCY => "waiting_dependency"
  | WAITING_RESOURCE => "waiting_resource"
  | WAITING_PERMISSION => "waiting_permission"
  | PAUSED => "paused"
  | CANCELLING => "cancelling"
  | CANCELLED => "cancelled"
  | FAILED => "failed"
  end.

#[export] Instance t_eq_dec : EqDecision t.
Proof. solve_decision. Defined.
#[export] Program Instance t_enum : StrEnum t := {|
  members := [
    DRAFT; ANALYZING; AWAITING_USER_CONFIRMATION; REVISION_REQUESTED; APPROVED; REJECTED;
    DISPATCHING; CHECKING_RESOURCES; EXECUTING; REVIEWING; FIXING; FINAL_REVIEW; COMPLETED;
    WAITING_DEPENDENCY; WAITING_RESOURCE; WAITING_PERMISSION; PAUSED; CANCELLING; CANCELLED;
    FAILED];
  value := val |}.
Next Obligation. solve_enum_complete. Qed.
Next Obligation. solve_enum_inj. Qed.
End CompanyTaskState.
Import (hints) CompanyTaskState.

(* [sidecar/ibreeze/state_machine.py:51-183 _COMPANY_TASK_TRANSITIONS] *)
Definition _COMPANY_TASK_TRANSITIONS : list (CompanyTaskState.t * list CompanyTaskState.t) :=
  dict_of [
    (CompanyTaskState.DRAFT, [CompanyTaskState.ANALYZING; CompanyTaskState.CANCELLING]);
    (CompanyTaskState.ANALYZING, [
      CompanyTaskState.AWAITING_USER_CONFIRMATION; CompanyTaskState.WAITING_RESOURCE;
      CompanyTaskState.CANCELLING; CompanyTaskState.FAILED]);
    (CompanyTaskState.AWAITING_USER_CONFIRMATION, [
      CompanyTaskState.APPROVED; CompanyTaskState.REVISION_REQUESTED; CompanyTaskState.REJECTED;
      CompanyTaskState.CANCELLING]);
    (CompanyTaskState.REVISION_REQUESTED, [
      CompanyTaskState.ANALYZING; CompanyTaskState.REJECTED; CompanyTaskState.CANCELLING]);
    (CompanyTaskState.APPROVED, [CompanyTaskState.DISPATCHING; CompanyTaskState.CANCELLING]);
    (CompanyTaskState.DISPATCHING, [
      CompanyTaskState.CHECKING_RESOURCES; CompanyTaskState.WAITING_DEPENDENCY;
      CompanyTaskState.WAITING_RESOURCE; CompanyTaskState.CANCELLING; CompanyTaskState.FAILED]);
    (CompanyTaskState.CHECKING_RESOURCES, [
      CompanyTaskState.EXECUTING; CompanyTaskState.WAITING_DEPENDENCY;
      CompanyTaskState.WAITING_RESOURCE; CompanyTaskState.WAITING_PERMISSION;
      CompanyTaskState.CANCELLING; CompanyTaskState.FAILED]);
    (CompanyTaskState.EXECUTING, [
      CompanyTaskState.REVIEWING; CompanyTaskState.WAITING_DEPENDENCY;
      CompanyTaskState.WAITING_RESOURCE; CompanyTaskState.WAITING_PERMISSION;
      CompanyTaskState.PAUSED; CompanyTaskState.CANCELLING; CompanyTaskState.FAILED]);
    (CompanyTaskState.REVIEWING, [
      CompanyTaskState.FIXING; CompanyTaskState.FINAL_REVIEW; CompanyTaskState.WAITING_RESOURCE;
      CompanyTaskState.WAITING_PERMISSION; CompanyTaskState.PAUSED; CompanyTaskState.CANCELLING;
      CompanyTaskState.FAILED]);
    (CompanyTaskState.FIXING, [
      CompanyTaskState.REVIEWING; CompanyTaskState.WAITING_RESOURCE;
      CompanyTaskState.WAITING_PERMISSION; CompanyTaskState.PAUSED; CompanyTaskState.CANCELLING;
      CompanyTaskState.FAILED]);
    (CompanyTaskState.FINAL_REVIEW, [
      CompanyTaskState.COMPLETED; CompanyTaskState.FIXING; CompanyTaskState.WAITING_RESOURCE;
      CompanyTaskState.WAITING_PERMISSION; CompanyTaskState.PAUSED; CompanyTaskState.CANCELLING;
      CompanyTaskState.FAILED]);
    (CompanyTaskState.WAITING_DEPENDENCY, [CompanyTaskState.CANCELLING; CompanyTaskState.FAILED]);
    (CompanyTaskState.WAITING_RESOURCE, [CompanyTaskState.CANCELLING; CompanyTaskState.FAILED]);
    (CompanyTaskState.WAITING_PERMISSION, [CompanyTaskState.CANCELLING; CompanyTaskState.FAILED]);
    (CompanyTaskState.PAUSED, [CompanyTaskState.CANCELLING; CompanyTaskState.FAILED]);
    (CompanyTaskState.CANCELLING, [CompanyTaskState.CANCELLED; CompanyTaskState.FAILED]);
    (CompanyTaskState.REJECTED, []);
    (CompanyTaskState.COMPLETED, []);
    (CompanyTaskState.CANCELLED, []);
    (CompanyTaskState.FAILED, [])].

Module DepartmentTaskState.
(* [sidecar/ibreeze/state_machine.py:189-202 DepartmentTaskState] *)
Inductive t :=
  | DRAFT | CHECKING_RESOURCES | READY | EXECUTING | REVIEWING | FIXING | COMPLETED
  | WAITING_DEPENDENCY | WAITING_RESOURCE | WAITING_PERMISSION | PAUSED | CANCELLED | FAILED.

(* [sidecar/ibreeze/state_machine.py:189-202 DepartmentTaskState] *)
Definition val (s : t) : string :=
  match s with
  | DRAFT => "draft"
  | CHECKING_RESOURCES => "checking_resources"
  | READY => "ready"
  | EXECUTING => "executing"
  | REVIEWING => "reviewing"
  | FIXING => "fixing"
  | COMPLETED => "completed"
  | WAITING_DEPENDENCY => "waiting_dependency"
  | WAITING_RESOURCE => "waiting_resource"
  | WAITING_PERMISSION => "waiting_permission"
  | PAUSED => "paused"
  | CANCELLED => "cancelled"
  | FAILED => "failed"
  end.

#[export] Instance t_eq_dec : EqDecision t.
Proof. solve_decision. Defined.
#[export] Program Instance t_enum : StrEnum t := {|
  members := [
    DRAFT; CHECKING_RESOURCES; READY; EXECUTING; REVIEWING; FIXING; COMPLETED;
    WAITING_DEPENDENCY; WAITING_RESOURCE; WAITING_PERMISSION; PAUSED; CANCELLED; FAILED];
  value := val |}.
Next Obligation. solve_enum_complete. Qed.
Next Obligation. solve_enum_inj. Qed.
End DepartmentTaskState.
Import (hints) DepartmentTaskState.

(* [sidecar/ibreeze/state_machine.py:205-297 _DEPARTMENT_TASK_TRANSITIONS] *)
Definition _DEPARTMENT_TASK_TRANSITIONS : list (DepartmentTaskState.t * list DepartmentTaskState.t) :=
  dict_of [
    (DepartmentTaskState.DRAFT, [
      DepartmentTaskState.CHECKING_RESOURCES; DepartmentTaskState.CANCELLED]);
    (DepartmentTaskState.CHECKING_RESOURCES, [
      DepartmentTaskState.READY; DepartmentTaskState.WAITING_RESOURCE;
      DepartmentTaskState.WAITING_PERMISSION; DepartmentTaskState.PAUSED;
      DepartmentTaskState.CANCELLED; DepartmentTaskState.FAILED]);
    (DepartmentTaskState.READY, [
      DepartmentTaskState.EXECUTING; DepartmentTaskState.WAITING_DEPENDENCY;
      DepartmentTaskState.WAITING_RESOURCE; DepartmentTaskState.WAITING_PERMISSION;
      DepartmentTaskState.PAUSED; DepartmentTaskState.CANCELLED; DepartmentTaskState.FAILED]);
    (DepartmentTaskState.EXECUTING, [
      DepartmentTaskState.REVIEWING; DepartmentTaskState.WAITING_RESOURCE;
      DepartmentTaskState.WAITING_PERMISSION; DepartmentTaskState.PAUSED;
      DepartmentTaskState.CANCELLED; DepartmentTaskState.FAILED]);
    (DepartmentTaskState.REVIEWING, [
      DepartmentTaskState.FIXING; DepartmentTaskState.COMPLETED;
      DepartmentTaskState.WAITING_RESOURCE; DepartmentTaskState.WAITING_PERMISSION;
      DepartmentTaskState.PAUSED; DepartmentTaskState.CANCELLED; DepartmentTaskState.FAILED]);
    (DepartmentTaskState.FIXING, [
      DepartmentTaskState.REVIEWING; DepartmentTaskState.WAITING_RESOURCE;
      DepartmentTaskState.WAITING_PERMISSION; DepartmentTaskState.PAUSED;
      DepartmentTaskState.CANCELLED; DepartmentTaskState.FAILED]);
    (DepartmentTaskState.PAUSED, [
      DepartmentTaskState.CHECKING_RESOURCES; DepartmentTaskState.READY;
      DepartmentTaskState.EXECUTING; DepartmentTaskState.REVIEWING; DepartmentTaskState.FIXING;
      DepartmentTaskState.CANCELLED; DepartmentTaskState.FAILED]);
    (DepartmentTaskState.WAITING_DEPENDENCY, [
      DepartmentTaskState.PAUSED; DepartmentTaskState.CANCELLED; DepartmentTaskState.FAILED]);
    (DepartmentTaskState.WAITING_RESOURCE, [
      DepartmentTaskState.CANCELLED; DepartmentTaskState.FAILED]);
    (DepartmentTaskState.WAITING_PERMISSION, [
      DepartmentTaskState.CANCELLED; DepartmentTaskState.FAILED]);
    (DepartmentTaskState.COMPLETED, []);
    (DepartmentTaskState.CANCELLED, []);
    (DepartmentTaskState.FAILED, [])].

Module EmployeeTaskState.
(* [sidecar/ibreeze/state_machine.py:303-316 EmployeeTaskState] *)
Inductive t :=
  | ASSIGNED | READY | RUNNING | SUBMITTED | PEER_REVIEWING | CHANGES_REQUESTED | ACCEPTED
  | WAITING_RESOURCE | PAUSED | CANCELLED | FAILED | NEEDS_REVIEW | NEEDS_REWORK.

(* [sidecar/ibreeze/state_machine.py:303-316 EmployeeTaskState] *)
Definition val (s : t) : string :=
  match s with
  | ASSIGNED => "assigned"
  | READY => "ready"
  | RUNNING => "running"
  | SUBMITTED => "submitted"
  | PEER_REVIEWING => "peer_reviewing"
  | CHANGES_REQUESTED => "changes_requested"
  | ACCEPTED => "accepted"
  | WAITING_RESOURCE => "waiting_resource"
  | PAUSED => "paused"
  | CANCELLED => "cancelled"
  | FAILED => "failed"
  | NEEDS_REVIEW => "needs_review"
  | NEEDS_REWORK => "needs_rework"
  end.

#[export] Instance t_eq_dec : EqDecision t.
Proof. solve_decision. Defined.
#[export] Program Instance t_enum : StrEnum t := {|
  members := [
    ASSIGNED; READY; RUNNING; SUBMITTED; PEER_REVIEWING; CHANGES_REQUESTED; ACCEPTED;
    WAITING_RESOURCE; PAUSED; CANCELLED; FAILED; NEEDS_REVIEW; NEEDS_REWORK];
  value := val |}.
Next Obligation. solve_enum_complete. Qed.
Next Obligation. solve_enum_inj. Qed.
End EmployeeTaskState.
Import (hints) EmployeeTaskState.

(* [sidecar/ibreeze/state_machine.py:319-433 _EMPLOYEE_TASK_TRANSITIONS] *)
Definition _EMPLOYEE_TASK_TRANSITIONS : list (EmployeeTaskState.t * list EmployeeTaskState.t) :=
  dict_of [
    (EmployeeTaskState.ASSIGNED, [
      EmployeeTaskState.READY; EmployeeTaskState.WAITING_RESOURCE; EmployeeTaskState.PAUSED;
      EmployeeTaskState.CANCELLED; EmployeeTaskState.FAILED]);
    (EmployeeTaskState.READY, [
      EmployeeTaskState.RUNNING; EmployeeTaskState.WAITING_RESOURCE; EmployeeTaskState.PAUSED;
      EmployeeTaskState.CANCELLED; EmployeeTaskState.FAILED]);
    (EmployeeTaskState.RUNNING, [
      EmployeeTaskState.SUBMITTED; EmployeeTaskState.NEEDS_REVIEW;
      EmployeeTaskState.NEEDS_REWORK; EmployeeTaskState.WAITING_RESOURCE;
      EmployeeTaskState.PAUSED; EmployeeTaskState.CANCELLED; EmployeeTaskState.FAILED]);
    (EmployeeTaskState.SUBMITTED, [
      EmployeeTaskState.PEER_REVIEWING; EmployeeTaskState.PAUSED; EmployeeTaskState.FAILED]);
    (EmployeeTaskState.PEER_REVIEWING, [
      EmployeeTaskState.CHANGES_REQUESTED; EmployeeTaskState.ACCEPTED; EmployeeTaskState.PAUSED;
      EmployeeTaskState.FAILED]);
    (EmployeeTaskState.CHANGES_REQUESTED, [
      EmployeeTaskState.READY; EmployeeTaskState.WAITING_RESOURCE; EmployeeTaskState.PAUSED;
      EmployeeTaskState.CANCELLED; EmployeeTaskState.FAILED]);
    (EmployeeTaskState.NEEDS_REVIEW, [
      EmployeeTaskState.READY; EmployeeTaskState.WAITING_RESOURCE; EmployeeTaskState.PAUSED;
      EmployeeTaskState.CANCELLED; EmployeeTaskState.FAILED]);
    (EmployeeTaskState.NEEDS_REWORK, [
      EmployeeTaskState.READY; EmployeeTaskState.WAITING_RESOURCE; EmployeeTaskState.PAUSED;
      EmployeeTaskState.CANCELLED; EmployeeTaskState.FAILED]);
    (EmployeeTaskState.SUBMITTED, [
      EmployeeTaskState.PEER_REVIEWING; EmployeeTaskState.PAUSED; EmployeeTaskState.FAILED]);
    (EmployeeTaskState.PEER_REVIEWING, [
      EmployeeTaskState.CHANGES_REQUESTED; EmployeeTaskState.ACCEPTED; EmployeeTaskState.PAUSED;
      EmployeeTaskState.FAILED]);
    (EmployeeTaskState.CHANGES_REQUESTED, [
      EmployeeTaskState.READY; EmployeeTaskState.WAITING_RESOURCE; EmployeeTaskState.PAUSED;
      EmployeeTaskState.CANCELLED; EmployeeTaskState.FAILED]);
    (EmployeeTaskState.WAITING_RESOURCE, [
      EmployeeTaskState.PAUSED; EmployeeTaskState.CANCELLED; EmployeeTaskState.FAILED]);
    (EmployeeTaskState.PAUSED, [
      EmployeeTaskState.READY; EmployeeTaskState.RUNNING; EmployeeTaskState.CANCELLED;
      EmployeeTaskState.FAILED]);
    (EmployeeTaskState.ACCEPTED, []);
    (EmployeeTaskState.CANCELLED, []);
    (EmployeeTaskState.FAILED, [])].

Module AgentRunState.
(* [sidecar/ibreeze/state_machine.py:439-452 AgentRunState] *)
Inductive t :=
  | QUEUED | PROBING | STARTING | RUNNING | WAITING_APPROVAL | VERIFYING | RETRYING | SUCCEEDED
  | WAITING_RESOURCE | CANCELLED | TIMED_OUT | FAILED | LOST.

(* [sidecar/ibreeze/state_machine.py:439-452 AgentRunState] *)
Definition val (s : t) : string :=
  match s with
  | QUEUED => "queued"
  | PROBING => "probing"
  | STARTING => "starting"
  | RUNNING => "running"
  | WAITING_APPROVAL => "waiting_approval"
  | VERIFYING => "verifying"
  | RETRYING => "retrying"
  | SUCCEEDED => "succeeded"
  | WAITING_RESOURCE => "waiting_resource"
  | CANCELLED => "cancelled"
  | TIMED_OUT => "timed_out"
  | FAILED => "failed"
  | LOST => "lost"
  end.

#[export] Instance t_eq_dec : EqDecision t.
Proof. solve_decision. Defined.
#[export] Program Instance t_enum : StrEnum t := {|
  members := [
    QUEUED; PROBING; STARTING; RUNNING; WAITING_APPROVAL; VERIFYING; RETRYING; SUCCEEDED;
    WAITING_RESOURCE; CANCELLED; TIMED_OUT; FAILED; LOST];
  value := val |}.
Next Obligation. solve_enum_complete. Qed.
Next Obligation. solve_enum_inj. Qed.
End AgentRunState.
Import (hints) AgentRunState.

(* [sidecar/ibreeze/state_machine.py:455-539 _AGENT_RUN_TRANSITIONS] *)
Definition _AGENT_RUN_TRANSITIONS : list (AgentRunState.t * list AgentRunState.t) :=
  dict_of [
    (AgentRunState.QUEUED, [AgentRunState.PROBING; AgentRunState.CANCELLED]);
    (AgentRunState.PROBING, [
      AgentRunState.STARTING; AgentRunState.WAITING_RESOURCE; AgentRunState.CANCELLED;
      AgentRunState.FAILED]);
    (AgentRunState.STARTING, [
      AgentRunState.RUNNING; AgentRunState.RETRYING; AgentRunState.WAITING_RESOURCE;
      AgentRunState.CANCELLED; AgentRunState.TIMED_OUT; AgentRunState.FAILED]);
    (AgentRunState.RUNNING, [
      AgentRunState.WAITING_APPROVAL; AgentRunState.VERIFYING; AgentRunState.RETRYING;
      AgentRunState.WAITING_RESOURCE; AgentRunState.CANCELLED; AgentRunState.TIMED_OUT;
      AgentRunState.FAILED; AgentRunState.LOST]);
    (AgentRunState.WAITING_APPROVAL, [
      AgentRunState.RUNNING; AgentRunState.CANCELLED; AgentRunState.TIMED_OUT;
      AgentRunState.FAILED]);
    (AgentRunState.WAITING_RESOURCE, [
      AgentRunState.RUNNING; AgentRunState.CANCELLED; AgentRunState.TIMED_OUT;
      AgentRunState.FAILED]);
    (AgentRunState.VERIFYING, [
      AgentRunState.SUCCEEDED; AgentRunState.RETRYING; AgentRunState.WAITING_APPROVAL;
      AgentRunState.WAITING_RESOURCE; AgentRunState.CANCELLED; AgentRunState.TIMED_OUT;
      AgentRunState.FAILED]);
    (AgentRunState.RETRYING, [
      AgentRunState.STARTING; AgentRunState.CANCELLED; AgentRunState.TIMED_OUT;
      AgentRunState.FAILED]);
    (AgentRunState.LOST, [
      AgentRunState.RETRYING; AgentRunState.WAITING_APPROVAL; AgentRunState.CANCELLED;
      AgentRunState.FAILED]);
    (AgentRunState.SUCCEEDED, []);
    (AgentRunState.CANCELLED, []);
    (AgentRunState.TIMED_OUT, []);
    (AgentRunState.FAILED, [])].

Module ReviewAssignmentState.
(* [sidecar/ibreeze/state_machine.py:545-550 ReviewAssignmentState] *)
Inductive t :=
  | ASSIGNED | IN_REVIEW | SUBMITTED | STALE | CANCELLED.

(* [sidecar/ibreeze/state_machine.py:545-550 ReviewAssignmentState] *)
Definition val (s : t) : string :=
  match s with
  | ASSIGNED => "assigned"
  | IN_REVIEW => "in_review"
  | SUBMITTED => "submitted"
  | STALE => "stale"
  | CANCELLED => "cancelled"
  end.

#[export] Instance t_eq_dec : EqDecision t.
Proof. solve_decision. Defined.
#[export] Program Instance t_enum : StrEnum t := {|
  members := [
    ASSIGNED; IN_REVIEW; SUBMITTED; STALE; CANCELLED];
  value := val |}.
Next Obligation. solve_enum_complete. Qed.
Next Obligation. solve_enum_inj. Qed.
End ReviewAssignmentState.
Import (hints) ReviewAssignmentState.

(* [sidecar/ibreeze/state_machine.py:553-575 _REVIEW_ASSIGNMENT_TRANSITIONS] *)
Definition _REVIEW_ASSIGNMENT_TRANSITIONS : list (ReviewAssignmentState.t * list ReviewAssignmentState.t) :=
  dict_of [
    (ReviewAssignmentState.ASSIGNED, [
      ReviewAssignmentState.IN_REVIEW; ReviewAssignmentState.STALE;
      ReviewAssignmentState.CANCELLED]);
    (ReviewAssignmentState.IN_REVIEW, [
      ReviewAssignmentState.SUBMITTED; ReviewAssignmentState.STALE;
      ReviewAssignmentState.CANCELLED]);
    (ReviewAssignmentState.SUBMITTED, [ReviewAssignmentState.STALE]);
    (ReviewAssignmentState.STALE, []);
    (ReviewAssignmentState.CANCELLED, [])].

Module ReviewIssueState.
(* [sidecar/ibreeze/state_machine.py:581-587 ReviewIssueState] *)
Inductive t :=
  | OPEN | FIXING | RESOLVED | VERIFIED | CLOSED | REJECTED.

(* [sidecar/ibreeze/state_machine.py:581-587 ReviewIssueState] *)
Definition val (s : t) : string :=
  match s with
  | OPEN => "open"
  | FIXING => "fixing"
  | RESOLVED => "resolved"
  | VERIFIED => "verified"
  | CLOSED => "closed"
  | REJECTED => "rejected"
  end.

#[export] Instance t_eq_dec : EqDecision t.
Proof. solve_decision. Defined.
#[export] Program Instance t_enum : StrEnum t := {|
  members := [
    OPEN; FIXING; RESOLVED; VERIFIED; CLOSED; REJECTED];
  value := val |}.
Next Obligation. solve_enum_complete. Qed.
Next Obligation. solve_enum_inj. Qed.
End ReviewIssueState.
Import (hints) ReviewIssueState.

(* [sidecar/ibreeze/state_machine.py:590-616 _REVIEW_ISSUE_TRANSITIONS] *)
Definition _REVIEW_ISSUE_TRANSITIONS : list (ReviewIssueState.t * list ReviewIssueState.t) :=
  dict_of [
    (ReviewIssueState.OPEN, [ReviewIssueState.FIXING; ReviewIssueState.REJECTED]);
    (ReviewIssueState.FIXING, [ReviewIssueState.RESOLVED]);
    (ReviewIssueState.RESOLVED, [ReviewIssueState.VERIFIED; ReviewIssueState.FIXING]);
    (ReviewIssueState.VERIFIED, [ReviewIssueState.CLOSED; ReviewIssueState.FIXING]);
    (ReviewIssueState.CLOSED, []);
    (ReviewIssueState.REJECTED, [])].

Module CompanyPlanVersionState.
(* [sidecar/ibreeze/state_machine.py:622-627 CompanyPlanVersionState] *)
Inductive t :=
  | DRAFT | AWAITING_USER_CONFIRMATION | APPROVED | SUPERSEDED | REJECTED.

(* [sidecar/ibreeze/state_machine.py:622-627 CompanyPlanVersionState] *)
Definition val (s : t) : string :=
  match s with
  | DRAFT => "draft"
  | AWAITING_USER_CONFIRMATION => "awaiting_user_confirmation"
  | APPROVED => "approved"
  | SUPERSEDED => "superseded"
  | REJECTED => "rejected"
  end.

#[export] Instance t_eq_dec : EqDecision t.
Proof. solve_decision. Defined.
#[export] Program Instance t_enum : StrEnum t := {|
  members := [
    DRAFT; AWAITING_USER_CONFIRMATION; APPROVED; SUPERSEDED; REJECTED];
  value := val |}.
Next Obligation. solve_enum_complete. Qed.
Next Obligation. solve_enum_inj. Qed.
End CompanyPlanVersionState.
Import (hints) CompanyPlanVersionState.

(* [sidecar/ibreeze/state_machine.py:630-647 _COMPANY_PLAN_VERSION_TRANSITIONS] *)
Definition _COMPANY_PLAN_VERSION_TRANSITIONS : list (CompanyPlanVersionState.t * list CompanyPlanVersionState.t) :=
  dict_of [
    (CompanyPlanVersionState.DRAFT, [
      CompanyPlanVersionState.AWAITING_USER_CONFIRMATION; CompanyPlanVersionState.REJECTED]);
    (CompanyPlanVersionState.AWAITING_USER_CONFIRMATION, [
      CompanyPlanVersionState.APPROVED; CompanyPlanVersionState.SUPERSEDED;
      CompanyPlanVersionState.REJECTED]);
    (CompanyPlanVersionState.APPROVED, []);
    (CompanyPlanVersionState.SUPERSEDED, []);
    (CompanyPlanVersionState.REJECTED, [])].

Module TaskWorkspaceState.
(* [sidecar/ibreeze/state_machine.py:653-658 TaskWorkspaceState] *)
Inductive t :=
  | PREPARING | ACTIVE | READY_TO_APPLY | APPLIED | ABANDONED.

(* [sidecar/ibreeze/state_machine.py:653-658 TaskWorkspaceState] *)
Definition val (s : t) : string :=
  match s with
  | PREPARING => "preparing"
  | ACTIVE => "active"
  | READY_TO_APPLY => "ready_to_apply"
  | APPLIED => "applied"
  | ABANDONED => "abandoned"
  end.

#[export] Instance t_eq_dec : EqDecision t.
Proof. solve_decision. Defined.
#[export] Program Instance t_enum : StrEnum t := {|
  members := [
    PREPARING; ACTIVE; READY_TO_APPLY; APPLIED; ABANDONED];
  value := val |}.
Next Obligation. solve_enum_complete. Qed.
Next Obligation. solve_enum_inj. Qed.
End TaskWorkspaceState.
Import (hints) TaskWorkspaceState.

(* [sidecar/ibreeze/state_machine.py:661-682 _TASK_WORKSPACE_TRANSITIONS] *)
Definition _TASK_WORKSPACE_TRANSITIONS : list (TaskWorkspaceState.t * list TaskWorkspaceState.t) :=
  dict_of [
    (TaskWorkspaceState.PREPARING, [TaskWorkspaceState.ACTIVE; TaskWorkspaceState.ABANDONED]);
    (TaskWorkspaceState.ACTIVE, [TaskWorkspaceState.READY_TO_APPLY; TaskWorkspaceState.ABANDONED]);
    (TaskWorkspaceState.READY_TO_APPLY, [
      TaskWorkspaceState.APPLIED; TaskWorkspaceState.ABANDONED]);
    (TaskWorkspaceState.APPLIED, []);
    (TaskWorkspaceState.ABANDONED, [])].

Module HumanApprovalState.
(* [sidecar/ibreeze/state_machine.py:688-693 HumanApprovalState] *)
Inductive t :=
  | PENDING | ALLOWED | DENIED | EXPIRED | CONSUMED.

(* [sidecar/ibreeze/state_machine.py:688-693 HumanApprovalState] *)
Definition val (s : t) : string :=
  match s with
  | PENDING => "pending"
  | ALLOWED => "allowed"
  | DENIED => "denied"
  | EXPIRED => "expired"
  | CONSUMED => "consumed"
  end.

#[export] Instance t_eq_dec : EqDecision t.
Proof. solve_decision. Defined.
#[export] Program Instance t_enum : StrEnum t := {|
  members := [
    PENDING; ALLOWED; DENIED; EXPIRED; CONSUMED];
  value := val |}.
Next Obligation. solve_enum_complete. Qed.
Next Obligation. solve_enum_inj. Qed.
End HumanApprovalState.
Import (hints) HumanApprovalState.

(* [sidecar/ibreeze/state_machine.py:696-713 _HUMAN_APPROVAL_TRANSITIONS] *)
Definition _HUMAN_APPROVAL_TRANSITIONS : list (HumanApprovalState.t * list HumanApprovalState.t) :=
  dict_of [
    (HumanApprovalState.PENDING, [
      HumanApprovalState.ALLOWED; HumanApprovalState.DENIED; HumanApprovalState.EXPIRED]);
    (HumanApprovalState.ALLOWED, [HumanApprovalState.CONSUMED; HumanApprovalState.EXPIRED]);
    (HumanApprovalState.DENIED, []);
    (HumanApprovalState.EXPIRED, []);
    (HumanApprovalState.CONSUMED, [])].

(** ** The registry *)

(** A table as the interpreter sees it: keys and targets by their string value. *)
Definition by_value {A} `{StrEnum A} (d : list (A * list A)) : list (string * list string) :=
  map (λ '(s, targets), (value s, map value targets)) d.

(* [sidecar/ibreeze/state_machine.py:718-728 _TRANSITION_TABLES] *)
Definition _TRANSITION_TABLES : list (string * list (string * list string)) :=
  dict_of [
    ("CompanyTask", by_value _COMPANY_TASK_TRANSITIONS);
    ("DepartmentTask", by_value _DEPARTMENT_TASK_TRANSITIONS);
    ("EmployeeTask", by_value _EMPLOYEE_TASK_TRANSITIONS);
    ("AgentRun", by_value _AGENT_RUN_TRANSITIONS);
    ("ReviewAssignment", by_value _REVIEW_ASSIGNMENT_TRANSITIONS);
    ("ReviewIssue", by_value _REVIEW_ISSUE_TRANSITIONS);
    ("CompanyPlanVersion", by_value _COMPANY_PLAN_VERSION_TRANSITIONS);
    ("TaskWorkspace", by_value _TASK_WORKSPACE_TRANSITIONS);
    ("HumanApproval", by_value _HUMAN_APPROVAL_TRANSITIONS)].

(* [sidecar/ibreeze/state_machine.py:753-759 waiting_states] *)
Definition waiting_states : list string :=
  ["waiting_dependency"; "waiting_resource"; "waiting_permission"; "paused"; "waiting_approval"].

(** ** The interpreter *)

(** The prologue the four functions share: the table of the entity, then the
    first row whose key has the value [state]. *)
Definition targets_of (entity state : string) : result (list string) :=
  match dict_get _TRANSITION_TABLES entity with
  | None => Err (ValueError "Unknown entity type")
  | Some table =>
      match List.find (λ '(s, _), s =? state) table with
      | Some (_, targets) => Ok targets
      | None => Err (ValueError "Unknown state")
      end
  end.

(* [sidecar/ibreeze/state_machine.py:734-742 is_terminal] *)
Definition is_terminal (entity state : string) : result bool :=
  targets ← targets_of entity state;
  mret (Nat.eqb (length targets) 0).

(* [sidecar/ibreeze/state_machine.py:745-764 can_transition] *)
Definition can_transition (entity current target : string) (resume_state : option string)
    : result bool :=
  targets ← targets_of entity current;
  mret (if existsb (λ t, t =? target) targets then true
        else if (current ∈? waiting_states) && bool_decide (Some target = resume_state) then true
        else false).

(* [sidecar/ibreeze/state_machine.py:767-775 get_allowed_targets] *)
Definition get_allowed_targets (entity current : string) : result (gset string) :=
  targets ← targets_of entity current;
  mret (list_to_set targets).

(* [sidecar/ibreeze/state_machine.py:778-815 transition] *)
Definition transition (entity current target : string) (resume_state : option string)
    : result (option string) :=
  ok ← can_transition entity current target resume_state;
  if negb ok then Err (StateTransitionErr entity current target)
  else if target ∈? waiting_states then
    match resume_state with
    | None => Err (ValueError "resume_state required when entering waiting state")
    | Some _ => Ok None
    end
  else if current ∈? waiting_states then Ok resume_state
  else Ok None.

(* [sidecar/ibreeze/state_machine.py:818-830 validate_resume_state] *)
Definition validate_resume_state (entity current : string) (resume_state : option string)
    : result unit :=
  if (current ∈? waiting_states) && bool_decide (resume_state = None)
  then Err (ValueError "resume_state required in waiting state")
  else if negb (current ∈? waiting_states) && bool_decide (resume_state ≠ None)
  then Err (ValueError "resume_state must be null in non-waiting state")
  else Ok tt.

(** ** Reading the tables off

    [all_rows] checks a condition on every row of every table; what it checks
    holds of whatever [targets_of] finds. *)

Definition all_rows (p : string → string → list string → bool) : bool :=
  forallb (λ '(e, table), forallb (λ '(s, ts), p e s ts) table) _TRANSITION_TABLES.

Lemma all_rows_spec p e s ts :
  all_rows p = true → targets_of e s = Ok ts → p e s ts = true.
Proof.
  unfold all_rows, targets_of. rewrite forallb_forall. intros Hall.
  destruct (dict_get _ e) as [table|] eqn:He; [|done].
  apply dict_get_some_elem, list_elem_of_In, Hall in He. rewrite forallb_forall in He.
  destruct (List.find _ table) as [[s' ts']|] eqn:Hs; [|done].
  apply find_some in Hs as [Hin Heq]. bools. intros [= <-]. subst. exact (He _ Hin).
Qed.

Definition tsucc (e s : string) : list string :=
  match targets_of e s with Ok ts => ts | Err _ => [] end.

(** A step that needs no saved state: along the table, not into a waiting state. *)
Definition moves (e s t : string) : Prop := ∃ r, transition e s t None = Ok r.

Definition move_succ (e s : string) : list string :=
  List.filter (λ t, negb (t ∈? waiting_states)) (tsucc e s).

Definition is_state (e s : string) : Prop := ∃ ts, targets_of e s = Ok ts.

(** The state a row of a fresh entity is created in: the first key of the table. *)
Definition initial_state (e : string) : option string :=
  table ← dict_get _TRANSITION_TABLES e;
  fst <$> head table.

Lemma can_transition_ok e s t rs ts :
  targets_of e s = Ok ts →
  can_transition e s t rs =
    Ok (bool_decide (t ∈ ts) || (bool_decide (s ∈ waiting_states) && bool_decide (rs = Some t))).
Proof.
  intros Hts. unfold can_transition. rewrite Hts. simpl. unfold mret, result_ret. f_equal.
  assert (existsb (λ x, x =? t) ts = bool_decide (t ∈ ts)) as ->.
  { apply eq_true_iff_eq. rewrite bool_decide_eq_true, existsb_exists. split.
    - intros (x & Hx & Heq). bools. subst. by apply list_elem_of_In.
    - intros Hx. exists t. split; [by apply list_elem_of_In|apply String.eqb_refl]. }
  unfold mem. destruct (bool_decide (t ∈ ts)); [done|]. simpl.
  rewrite (bool_decide_ext (Some t = rs) (rs = Some t)) by naive_solver.
  by destruct (_ && _).
Qed.

Lemma can_transition_none e s t ts :
  targets_of e s = Ok ts → can_transition e s t None = Ok (bool_decide (t ∈ ts)).
Proof.
  intros Hts. rewrite (can_transition_ok _ _ _ _ ts) by done. f_equal.
  destruct (bool_decide (t ∈ ts)); [done|]. simpl.
  by destruct (bool_decide (s ∈ waiting_states)).
Qed.

Lemma transition_edge e s t ts :
  targets_of e s = Ok ts → t ∈ ts → t ∉ waiting_states → transition e s t None = Ok None.
Proof.
  intros Hts Ht Hw. unfold transition. rewrite (can_transition_ok _ _ _ _ ts) by done.
  rewrite (bool_decide_true (t ∈ ts)) by done. simpl. unfold mem.
  rewrite (bool_decide_false (t ∈ _)) by done. by destruct (bool_decide _).
Qed.

Lemma move_succ_moves e s t : t ∈ move_succ e s → moves e s t.
Proof.
  unfold move_succ, tsucc. destruct (targets_of e s) as [ts|] eqn:Hts; [|set_solver].
  intros [Ht Hw]%list_elem_of_In%filter_In. bools.
  eexists. eapply transition_edge; [done|by apply list_elem_of_In|done].
Qed.

Lemma rows_closed e s ts t : targets_of e s = Ok ts → t ∈ ts → is_state e t.
Proof.
  intros Hts Ht.
  assert (all_rows (λ e _ ts, forallb (λ t, is_ok (targets_of e t)) ts) = true) as Hall
    by (vm_compute; reflexivity).
  eapply all_rows_spec in Hall; [|done]. rewrite forallb_forall in Hall.
  specialize (Hall t (proj1 (list_elem_of_In _ _) Ht)). unfold is_state.
  destruct (targets_of e t); [by eexists|done].
Qed.

(** ** Properties *)


(** A terminal state absorbs: from a state [is_terminal] says yes to, every
    transition, whatever resume state is passed, is refused with
    [StateTransitionError]. *)
Lemma terminal_absorbs e s t rs (Hterm : is_terminal e s = Ok true) :
  transition e s t rs = Err (StateTransitionErr e s t).
Proof.
  unfold is_terminal in Hterm. apply result_bind_ok in Hterm as (ts & Hts & Hlen).
  assert (all_rows (λ _ s ts, negb (Nat.eqb (length ts) 0) || negb (s ∈? waiting_states)) = true)
    as Hall by (vm_compute; reflexivity).
  eapply all_rows_spec in Hall; [|done]. injection Hlen as Hlen.
  rewrite Hlen in Hall. simpl in Hall. bools.
  apply Nat.eqb_eq, nil_length_inv in Hlen as ->.
  unfold transition. rewrite (can_transition_ok _ _ _ _ []) by done.
  by rewrite (bool_decide_false (s ∈ _)).
Qed.

Lemma terminal_absorbs_witness :
  transition "CompanyTask" "completed" "executing" (Some "executing")
    = Err (StateTransitionErr "CompanyTask" "completed" "executing").
Proof. apply terminal_absorbs. vm_compute. reflexivity. Defined.

(** No state of any machine is stuck: it is reachable from the entity's
    initial state along the table, and from it a terminal state can be reached
    by transitions that never enter a waiting state and need no saved state. *)
Theorem no_stuck_state e s (Hs : is_state e s) :
  (∃ i, initial_state e = Some i ∧ rtc (edge (tsucc e)) i s) ∧
  (∃ t, rtc (moves e) s t ∧ is_terminal e t = Ok true).
Proof.
  destruct Hs as [ts Hts]. split.
  - assert (all_rows (λ e s _, match initial_state e with
        | Some i => mem s (closure (tsucc e) 20 [i]) | None => false end) = true) as Hall
      by (vm_compute; reflexivity).
    eapply all_rows_spec in Hall; [|done]. destruct (initial_state e) as [i|]; [|done].
    exists i. split; [done|]. by eapply closure_rtc.
  - assert (all_rows (λ e s _, existsb (λ t, bool_decide (is_terminal e t = Ok true))
        (closure (move_succ e) 20 [s])) = true) as Hall by (vm_compute; reflexivity).
    eapply all_rows_spec in Hall; [|done]. apply existsb_exists in Hall as (t & Hin & Ht).
    bools. exists t. split; [|done].
    apply list_elem_of_In, closure_sound in Hin as (s' & Hs' & Hrtc).
    apply list_elem_of_singleton in Hs' as ->.
    eapply rtc_congruence with (f := λ x, x); [|done].
    intros x y Hxy. by apply move_succ_moves.
Qed.

Lemma no_stuck_state_witness :
  ∃ t, rtc (moves "AgentRun") "lost" t ∧ is_terminal "AgentRun" t = Ok true.
Proof. apply no_stuck_state. eexists. vm_compute. reflexivity. Defined.

(** Type invariant: from a state of the entity, with a saved state that is a
    state of the entity, every transition that succeeds leads to a state of the
    entity and hands back nothing or a state of the entity. *)
Lemma transition_preserves_states e s t rs r
    (Hrs : ∀ x, rs = Some x → is_state e x) (Hok : transition e s t rs = Ok r) :
  is_state e t ∧ (∀ x, r = Some x → is_state e x).
Proof.
  unfold transition in Hok. apply result_bind_ok in Hok as (b & Hb & Hok).
  destruct (targets_of e s) as [ts|err] eqn:Hts.
  2:{ unfold can_transition in Hb. by rewrite Hts in Hb. }
  rewrite (can_transition_ok _ _ _ _ ts) in Hb by done. injection Hb as <-.
  destruct (negb _) eqn:Hn in Hok; [done|]. bools.
  assert (is_state e t) as Ht.
  { apply orb_true_iff in Hn as [Hn|Hn]; bools; [by eapply rows_closed|auto]. }
  split; [done|]. repeat case_match; naive_solver.
Qed.

Lemma transition_preserves_states_witness :
  is_state "CompanyTask" "executing" ∧
  (∀ x, Some "executing" = Some x → is_state "CompanyTask" x).
Proof.
  apply (transition_preserves_states "CompanyTask" "paused" "executing" (Some "executing")).
  - intros x [= <-]. eexists. vm_compute. reflexivity.
  - vm_compute. reflexivity.
Defined.

(** A pause can be undone: after entering a waiting state [w] from a
    non-waiting state [s] with [s] saved, the pair ([w], saved [s]) is
    consistent, the way back to [s] is open and returns the saved state to
    clear, and [s] with nothing saved is consistent again. *)
Lemma pause_resume_roundtrip e s w
    (Hw : w ∈ waiting_states) (Hs : s ∉ waiting_states)
    (Henter : transition e s w (Some s) = Ok None) :
  validate_resume_state e w (Some s) = Ok tt ∧
  transition e w s (Some s) = Ok (Some s) ∧
  validate_resume_state e s None = Ok tt.
Proof.
  assert (is_state e w) as [ts Hts].
  { unfold transition in Henter. apply result_bind_ok in Henter as (b & Hb & Hok).
    destruct (targets_of e s) as [ts|err] eqn:Hts.
    2:{ unfold can_transition in Hb. by rewrite Hts in Hb. }
    rewrite (can_transition_ok _ _ _ _ ts) in Hb by done. injection Hb as <-.
    destruct (negb _) eqn:Hn in Hok; [done|]. bools.
    rewrite (bool_decide_false (s ∈ _)), orb_false_r in Hn by done. bools.
    by eapply rows_closed. }
  unfold validate_resume_state, transition. rewrite (can_transition_ok _ _ _ _ ts) by done.
  unfold mem. rewrite (bool_decide_true (w ∈ _)), (bool_decide_false (s ∈ _)) by done.
  rewrite (bool_decide_true (Some s = Some s)), orb_true_r by done. done.
Qed.

Lemma pause_resume_roundtrip_witness :
  transition "CompanyTask" "paused" "executing" (Some "executing") = Ok (Some "executing").
Proof.
  apply (pause_resume_roundtrip "CompanyTask" "executing" "paused").
  - vm_compute. repeat constructor.
  - apply (bool_decide_eq_false (_ ∈ _)). vm_compute. reflexivity.
  - vm_compute. reflexivity.
Defined.

(** The hole: the way back out of a waiting state is not checked against the
    enumeration.  From every waiting state of every entity any string at all is
    accepted as target when it is passed as the resume state too; if it names no
    state of the entity, no transition at all leads on from it. *)
Lemma resume_accepts_any_string e s x
    (Hs : is_state e s) (Hw : s ∈ waiting_states) (Hx : x ∉ waiting_states) :
  transition e s x (Some x) = Ok (Some x) ∧
  (¬ is_state e x → ∀ t rs, transition e x t rs = Err (ValueError "Unknown state")).
Proof.
  destruct Hs as [ts Hts]. split.
  - unfold transition. rewrite (can_transition_ok _ _ _ _ ts) by done. unfold mem. simpl.
    rewrite (bool_decide_true (s ∈ _)), (bool_decide_false (x ∈ waiting_states)) by done.
    rewrite (bool_decide_true (Some x = Some x)), orb_true_r by done. done.
  - intros Hno t rs. unfold transition, can_transition.
    destruct (targets_of e x) as [ts'|err] eqn:Hx'; [destruct Hno; by eexists|].
    simpl. revert Hts Hx'. unfold targets_of.
    destruct (dict_get _ e); [|done]. repeat case_match; naive_solver.
Qed.

Lemma resume_accepts_any_string_witness :
  transition "CompanyTask" "paused" "banana" (Some "banana") = Ok (Some "banana").
Proof.
  apply resume_accepts_any_string.
  - eexists. vm_compute. reflexivity.
  - vm_compute. repeat constructor.
  - apply (bool_decide_eq_false (_ ∈ _)). vm_compute. reflexivity.
Defined.
