(* ===== verification/DomainState.v ===== *)
(** * The domain layer's tables and the event registry

    [domain/tasks/state.py] and [domain/review/state.py] hold a second copy of
    five of the transition tables, this time over plain strings;
    [domain/__init__.py] registers the domain events.  The theorems compare the
    second copies with [StateMachine] (the review tables agree edge for edge,
    the task tables do not) and show the event registry total and consistent. *)

From S2P Require Import Prelude PyEnum Graph StateMachine.

(** [frozenset((src, tgt) for src, targets in table.items() for tgt in targets)] *)
Definition all_edges (table : list (string * list string)) : list (string * string) :=
  concat (map (λ '(src, targets), map (pair src) targets) table).

(** ** domain/tasks/state.py *)

(* [sidecar/ibreeze/domain/tasks/state.py:5-18 EMPLOYEE_TASK_TRANSITIONS] *)
Definition EMPLOYEE_TASK_TRANSITIONS : list (string * list string) :=
  dict_of [
    ("assigned", ["ready"; "waiting_resource"; "cancelled"; "failed"]);
    ("ready", ["running"; "waiting_resource"; "cancelled"; "failed"]);
    ("running", ["submitted"; "waiting_resource"; "cancelled"; "failed"]);
    ("submitted", ["peer_reviewing"; "changes_requested"; "cancelled"; "failed"]);
    ("peer_reviewing", ["accepted"; "changes_requested"; "cancelled"; "failed"]);
    ("changes_requested", ["ready"]);
    ("waiting_resource", ["assigned"; "ready"; "running"]);
    ("accepted", []);
    ("cancelled", []);
    ("failed", [])].

(* [sidecar/ibreeze/domain/tasks/state.py:20-62 DEPARTMENT_TASK_TRANSITIONS] *)
Definition DEPARTMENT_TASK_TRANSITIONS : list (string * list string) :=
  dict_of [
    ("draft", ["checking_resources"; "cancelled"; "failed"]);
    ("checking_resources", [
      "ready"; "waiting_dependency"; "waiting_resource"; "waiting_permission"; "cancelled";
      "failed"]);
    ("ready", [
      "executing"; "waiting_dependency"; "waiting_resource"; "waiting_permission"; "cancelled";
      "failed"]);
    ("executing", [
      "reviewing"; "waiting_dependency"; "waiting_resource"; "waiting_permission"; "cancelled";
      "failed"]);
    ("reviewing", ["completed"; "fixing"; "cancelled"; "failed"]);
    ("fixing", ["reviewing"; "cancelled"; "failed"]);
    ("waiting_dependency", ["checking_resources"; "ready"; "executing"]);
    ("waiting_resource", ["checking_resources"; "ready"; "executing"]);
    ("waiting_permission", ["checking_resources"; "ready"; "executing"]);
    ("completed", []);
    ("cancelled", []);
    ("failed", [])].

(* [sidecar/ibreeze/domain/tasks/state.py:64-131 COMPANY_TASK_TRANSITIONS] *)
Definition COMPANY_TASK_TRANSITIONS : list (string * list string) :=
  dict_of [
    ("draft", ["analyzing"; "cancelled"; "failed"]);
    ("analyzing", [
      "awaiting_user_confirmation"; "waiting_resource"; "revision_requested"; "cancelled";
      "failed"]);
    ("awaiting_user_confirmation", [
      "approved"; "revision_requested"; "rejected"; "cancelled"; "failed"]);
    ("revision_requested", ["analyzing"; "cancelled"; "failed"]);
    ("rejected", []);
    ("approved", ["dispatching"; "cancelled"; "failed"]);
    ("dispatching", [
      "checking_resources"; "waiting_dependency"; "waiting_resource"; "waiting_permission";
      "cancelled"; "failed"]);
    ("checking_resources", [
      "executing"; "waiting_dependency"; "waiting_resource"; "waiting_permission"; "cancelled";
      "failed"]);
    ("executing", [
      "reviewing"; "waiting_dependency"; "waiting_resource"; "waiting_permission"; "paused";
      "cancelled"; "failed"]);
    ("reviewing", ["final_review"; "fixing"; "cancelled"; "failed"]);
    ("fixing", ["reviewing"; "cancelled"; "failed"]);
    ("final_review", ["completed"; "cancelled"; "failed"]);
    ("waiting_dependency", [
      "checking_resources"; "executing"; "reviewing"; "cancelled"; "failed"]);
    ("waiting_resource", ["checking_resources"; "executing"; "reviewing"; "cancelled"; "failed"]);
    ("waiting_permission", [
      "checking_resources"; "executing"; "reviewing"; "cancelled"; "failed"]);
    ("paused", ["executing"; "cancelled"; "failed"]);
    ("cancelling", ["cancelled"; "failed"]);
    ("completed", []);
    ("cancelled", []);
    ("failed", [])].

(* [sidecar/ibreeze/domain/tasks/state.py:133-135 EMPLOYEE_TASK_ALL_EDGES] *)
Definition EMPLOYEE_TASK_ALL_EDGES : list (string * string) := all_edges EMPLOYEE_TASK_TRANSITIONS.

(* [sidecar/ibreeze/domain/tasks/state.py:137-139 DEPARTMENT_TASK_ALL_EDGES] *)
Definition DEPARTMENT_TASK_ALL_EDGES : list (string * string) := all_edges DEPARTMENT_TASK_TRANSITIONS.

(* [sidecar/ibreeze/domain/tasks/state.py:141-143 COMPANY_TASK_ALL_EDGES] *)
Definition COMPANY_TASK_ALL_EDGES : list (string * string) := all_edges COMPANY_TASK_TRANSITIONS.


(** ** domain/review/state.py *)

(* [sidecar/ibreeze/domain/review/state.py:5-13 ASSIGNMENT_TRANSITIONS] *)
Definition ASSIGNMENT_TRANSITIONS : list (string * list string) :=
  dict_of [
    ("assigned", ["in_review"; "stale"; "cancelled"]);
    ("in_review", ["submitted"; "stale"; "cancelled"]);
    ("submitted", ["stale"]);
    ("stale", []);
    ("cancelled", [])].

(* [sidecar/ibreeze/domain/review/state.py:15-24 ISSUE_TRANSITIONS] *)
Definition ISSUE_TRANSITIONS : list (string * list string) :=
  dict_of [
    ("open", ["fixing"; "rejected"]);
    ("fixing", ["resolved"]);
    ("resolved", ["verified"; "fixing"]);
    ("verified", ["closed"; "fixing"]);
    ("closed", []);
    ("rejected", [])].

(* [sidecar/ibreeze/domain/review/state.py:26-28 ASSIGNMENT_ALL_EDGES] *)
Definition ASSIGNMENT_ALL_EDGES : list (string * string) := all_edges ASSIGNMENT_TRANSITIONS.

(* [sidecar/ibreeze/domain/review/state.py:30-30 ISSUE_ALL_EDGES] *)
Definition ISSUE_ALL_EDGES : list (string * string) := all_edges ISSUE_TRANSITIONS.


(** ** domain/__init__.py *)

Module DomainEventType.
(* [sidecar/ibreeze/domain/__init__.py:15-77 DomainEventType] *)
Inductive t :=
  | COMPANY_CREATED | COMPANY_RENAMED | COMPANY_UPDATED | COMPANY_ARCHIVED | DEPARTMENT_CREATED
  | DEPARTMENT_UPDATED | DEPARTMENT_LEADER_CHANGED | EMPLOYEE_CREATED | EMPLOYEE_UPDATED
  | EMPLOYEE_STATUS_CHANGED | EMPLOYEE_TRANSFERRED | COMPANY_TASK_CREATED
  | COMPANY_TASK_REVISION_REQUESTED | COMPANY_TASK_ANALYSIS_REQUESTED | COMPANY_TASK_ANALYZED
  | COMPANY_TASK_AWAITING_CONFIRMATION | COMPANY_TASK_APPROVED | COMPANY_TASK_DISPATCHED
  | COMPANY_TASK_COMPLETED | COMPANY_TASK_CANCELLED | COMPANY_TASK_FAILED | COMPANY_TASK_PAUSED
  | COMPANY_TASK_RESUMED | CONVERSATION_USER_MESSAGE_SUBMITTED
  | CONVERSATION_EMPLOYEE_MESSAGE_SUBMITTED | PLAN_GENERATED | PLAN_AWAITING_CONFIRMATION
  | PLAN_APPROVED | PLAN_REJECTED | PLAN_SUPERSEDED | REVIEW_ASSIGNMENT_CREATED | REVIEW_STARTED
  | REVIEW_SUBMITTED | REVIEW_ISSUE_CREATED | REVIEW_ISSUE_RESOLVED | RUN_PROBING | RUN_STARTED
  | RUN_COMPLETED | RUN_FAILED | RUN_CANCELLED | RUN_TIMED_OUT | RUN_LOST.

(* [sidecar/ibreeze/domain/__init__.py:15-77 DomainEventType] *)
Definition val (s : t) : string :=
  match s with
  | COMPANY_CREATED => "company.created"
  | COMPANY_RENAMED => "company.renamed"
  | COMPANY_UPDATED => "company.updated"
  | COMPANY_ARCHIVED => "company.archived"
  | DEPARTMENT_CREATED => "department.created"
  | DEPARTMENT_UPDATED => "department.updated"
  | DEPARTMENT_LEADER_CHANGED => "department.leader_changed"
  | EMPLOYEE_CREATED => "employee.created"
  | EMPLOYEE_UPDATED => "employee.updated"
  | EMPLOYEE_STATUS_CHANGED => "employee.status_changed"
  | EMPLOYEE_TRANSFERRED => "employee.transferred"
  | COMPANY_TASK_CREATED => "company_task.created"
  | COMPANY_TASK_REVISION_REQUESTED => "company_task.revision_requested"
  | COMPANY_TASK_ANALYSIS_REQUESTED => "company_task.analysis.requested"
  | COMPANY_TASK_ANALYZED => "company_task.analyzed"
  | COMPANY_TASK_AWAITING_CONFIRMATION => "company_task.awaiting_confirmation"
  | COMPANY_TASK_APPROVED => "company_task.approved"
  | COMPANY_TASK_DISPATCHED => "company_task.dispatched"
  | COMPANY_TASK_COMPLETED => "company_task.completed"
  | COMPANY_TASK_CANCELLED => "company_task.cancelled"
  | COMPANY_TASK_FAILED => "company_task.failed"
  | COMPANY_TASK_PAUSED => "company_task.paused"
  | COMPANY_TASK_RESUMED => "company_task.resumed"
  | CONVERSATION_USER_MESSAGE_SUBMITTED => "conversation.user_message_submitted"
  | CONVERSATION_EMPLOYEE_MESSAGE_SUBMITTED => "conversation.employee_message_submitted"
  | PLAN_GENERATED => "plan.generated"
  | PLAN_AWAITING_CONFIRMATION => "plan.awaiting_confirmation"
  | PLAN_APPROVED => "plan.approved"
  | PLAN_REJECTED => "plan.rejected"
  | PLAN_SUPERSEDED => "plan.superseded"
  | REVIEW_ASSIGNMENT_CREATED => "review.assignment_created"
  | REVIEW_STARTED => "review.started"
  | REVIEW_SUBMITTED => "review.submitted"
  | REVIEW_ISSUE_CREATED => "review.issue_created"
  | REVIEW_ISSUE_RESOLVED => "review.issue_resolved"
  | RUN_PROBING => "run.probing"
  | RUN_STARTED => "run.started"
  | RUN_COMPLETED => "run.completed"
  | RUN_FAILED => "run.failed"
  | RUN_CANCELLED => "run.cancelled"
  | RUN_TIMED_OUT => "run.timed_out"
  | RUN_LOST => "run.lost"
  end.

#[export] Instance t_eq_dec : EqDecision t.
Proof. solve_decision. Defined.
#[export] Program Instance t_enum : StrEnum t := {|
  members := [
    COMPANY_CREATED; COMPANY_RENAMED; COMPANY_UPDATED; COMPANY_ARCHIVED; DEPARTMENT_CREATED;
    DEPARTMENT_UPDATED; DEPARTMENT_LEADER_CHANGED; EMPLOYEE_CREATED; EMPLOYEE_UPDATED;
    EMPLOYEE_STATUS_CHANGED; EMPLOYEE_TRANSFERRED; COMPANY_TASK_CREATED;
    COMPANY_TASK_REVISION_REQUESTED; COMPANY_TASK_ANALYSIS_REQUESTED; COMPANY_TASK_ANALYZED;
    COMPANY_TASK_AWAITING_CONFIRMATION; COMPANY_TASK_APPROVED; COMPANY_TASK_DISPATCHED;
    COMPANY_TASK_COMPLETED; COMPANY_TASK_CANCELLED; COMPANY_TASK_FAILED; COMPANY_TASK_PAUSED;
    COMPANY_TASK_RESUMED; CONVERSATION_USER_MESSAGE_SUBMITTED;
    CONVERSATION_EMPLOYEE_MESSAGE_SUBMITTED; PLAN_GENERATED; PLAN_AWAITING_CONFIRMATION;
    PLAN_APPROVED; PLAN_REJECTED; PLAN_SUPERSEDED; REVIEW_ASSIGNMENT_CREATED; REVIEW_STARTED;
    REVIEW_SUBMITTED; REVIEW_ISSUE_CREATED; REVIEW_ISSUE_RESOLVED; RUN_PROBING; RUN_STARTED;
    RUN_COMPLETED; RUN_FAILED; RUN_CANCELLED; RUN_TIMED_OUT; RUN_LOST];
  value := val |}.
Next Obligation. solve_enum_complete. Qed.
Next Obligation. solve_enum_inj. Qed.
End DomainEventType.
Import (hints) DomainEventType.

(* [sidecar/ibreeze/domain/__init__.py:80-87 DomainEventSpec] *)
Record DomainEventSpec := {
  event_type : DomainEventType.t;
  aggregate_type : string;
  description : string;
  version : Z }.

(** The dataclass constructor: [version] defaults to 1. *)
Definition mk_spec (e : DomainEventType.t) (aggregate description : string) : DomainEventSpec :=
  {| event_type := e; aggregate_type := aggregate; description := description; version := 1 |}.

(* [sidecar/ibreeze/domain/__init__.py:91-147 EVENT_REGISTRY] *)
Definition EVENT_REGISTRY : list (DomainEventType.t * DomainEventSpec) :=
  dict_of [
    (DomainEventType.COMPANY_CREATED,
      mk_spec DomainEventType.COMPANY_CREATED "company" "公司创建");
    (DomainEventType.COMPANY_RENAMED,
      mk_spec DomainEventType.COMPANY_RENAMED "company" "公司改名");
    (DomainEventType.COMPANY_UPDATED,
      mk_spec DomainEventType.COMPANY_UPDATED "company" "公司信息更新");
    (DomainEventType.COMPANY_ARCHIVED,
      mk_spec DomainEventType.COMPANY_ARCHIVED "company" "公司归档");
    (DomainEventType.DEPARTMENT_CREATED,
      mk_spec DomainEventType.DEPARTMENT_CREATED "department" "部门创建");
    (DomainEventType.DEPARTMENT_UPDATED,
      mk_spec DomainEventType.DEPARTMENT_UPDATED "department" "部门信息更新");
    (DomainEventType.DEPARTMENT_LEADER_CHANGED,
      mk_spec DomainEventType.DEPARTMENT_LEADER_CHANGED "department" "部门负责人变更");
    (DomainEventType.EMPLOYEE_CREATED,
      mk_spec DomainEventType.EMPLOYEE_CREATED "employee" "职员创建");
    (DomainEventType.EMPLOYEE_UPDATED,
      mk_spec DomainEventType.EMPLOYEE_UPDATED "employee" "职员信息更新");
    (DomainEventType.EMPLOYEE_STATUS_CHANGED,
      mk_spec DomainEventType.EMPLOYEE_STATUS_CHANGED "employee" "职员状态变更");
    (DomainEventType.EMPLOYEE_TRANSFERRED,
      mk_spec DomainEventType.EMPLOYEE_TRANSFERRED "employee" "职员调岗");
    (DomainEventType.COMPANY_TASK_CREATED,
      mk_spec DomainEventType.COMPANY_TASK_CREATED "company_task" "公司任务创建");
    (DomainEventType.COMPANY_TASK_REVISION_REQUESTED,
      mk_spec DomainEventType.COMPANY_TASK_REVISION_REQUESTED "company_task" "公司任务修订请求");
    (DomainEventType.COMPANY_TASK_ANALYSIS_REQUESTED,
      mk_spec DomainEventType.COMPANY_TASK_ANALYSIS_REQUESTED "company_task" "公司任务分析请求");
    (DomainEventType.COMPANY_TASK_ANALYZED,
      mk_spec DomainEventType.COMPANY_TASK_ANALYZED "company_task" "公司任务分析完成");
    (DomainEventType.COMPANY_TASK_AWAITING_CONFIRMATION,
      mk_spec DomainEventType.COMPANY_TASK_AWAITING_CONFIRMATION "company_task" "公司任务等待确认");
    (DomainEventType.COMPANY_TASK_APPROVED,
      mk_spec DomainEventType.COMPANY_TASK_APPROVED "company_task" "公司任务已批准");
    (DomainEventType.COMPANY_TASK_DISPATCHED,
      mk_spec DomainEventType.COMPANY_TASK_DISPATCHED "company_task" "公司任务已分派");
    (DomainEventType.COMPANY_TASK_COMPLETED,
      mk_spec DomainEventType.COMPANY_TASK_COMPLETED "company_task" "公司任务已完成");
    (DomainEventType.COMPANY_TASK_CANCELLED,
      mk_spec DomainEventType.COMPANY_TASK_CANCELLED "company_task" "公司任务已取消");
    (DomainEventType.COMPANY_TASK_FAILED,
      mk_spec DomainEventType.COMPANY_TASK_FAILED "company_task" "公司任务已失败");
    (DomainEventType.COMPANY_TASK_PAUSED,
      mk_spec DomainEventType.COMPANY_TASK_PAUSED "company_task" "公司任务已暂停");
    (DomainEventType.COMPANY_TASK_RESUMED,
      mk_spec DomainEventType.COMPANY_TASK_RESUMED "company_task" "公司任务已恢复");
    (DomainEventType.CONVERSATION_USER_MESSAGE_SUBMITTED,
      mk_spec DomainEventType.CONVERSATION_USER_MESSAGE_SUBMITTED "conversation" "用户消息提交");
    (DomainEventType.CONVERSATION_EMPLOYEE_MESSAGE_SUBMITTED,
      mk_spec DomainEventType.CONVERSATION_EMPLOYEE_MESSAGE_SUBMITTED "conversation" "职员消息提交");
    (DomainEventType.PLAN_GENERATED,
      mk_spec DomainEventType.PLAN_GENERATED "company_plan" "计划已生成");
    (DomainEventType.PLAN_AWAITING_CONFIRMATION,
      mk_spec DomainEventType.PLAN_AWAITING_CONFIRMATION "company_plan" "计划等待确认");
    (DomainEventType.PLAN_APPROVED,
      mk_spec DomainEventType.PLAN_APPROVED "company_plan" "计划已批准");
    (DomainEventType.PLAN_REJECTED,
      mk_spec DomainEventType.PLAN_REJECTED "company_plan" "计划已拒绝");
    (DomainEventType.PLAN_SUPERSEDED,
      mk_spec DomainEventType.PLAN_SUPERSEDED "company_plan" "计划已替代");
    (DomainEventType.REVIEW_ASSIGNMENT_CREATED,
      mk_spec DomainEventType.REVIEW_ASSIGNMENT_CREATED "review" "审查分配已创建");
    (DomainEventType.REVIEW_STARTED,
      mk_spec DomainEventType.REVIEW_STARTED "review" "审查已开始");
    (DomainEventType.REVIEW_SUBMITTED,
      mk_spec DomainEventType.REVIEW_SUBMITTED "review" "审查已提交");
    (DomainEventType.REVIEW_ISSUE_CREATED,
      mk_spec DomainEventType.REVIEW_ISSUE_CREATED "review" "审查问题已创建");
    (DomainEventType.REVIEW_ISSUE_RESOLVED,
      mk_spec DomainEventType.REVIEW_ISSUE_RESOLVED "review" "审查问题已解决");
    (DomainEventType.RUN_PROBING,
      mk_spec DomainEventType.RUN_PROBING "agent_run" "运行探测");
    (DomainEventType.RUN_STARTED,
      mk_spec DomainEventType.RUN_STARTED "agent_run" "运行开始");
    (DomainEventType.RUN_COMPLETED,
      mk_spec DomainEventType.RUN_COMPLETED "agent_run" "运行完成");
    (DomainEventType.RUN_FAILED,
      mk_spec DomainEventType.RUN_FAILED "agent_run" "运行失败");
    (DomainEventType.RUN_CANCELLED,
      mk_spec DomainEventType.RUN_CANCELLED "agent_run" "运行取消");
    (DomainEventType.RUN_TIMED_OUT,
      mk_spec DomainEventType.RUN_TIMED_OUT "agent_run" "运行超时");
    (DomainEventType.RUN_LOST,
      mk_spec DomainEventType.RUN_LOST "agent_run" "运行丢失")].


(* [sidecar/ibreeze/domain/__init__.py:150-156 get_event_spec] *)
Definition get_event_spec (event_type : string) : option DomainEventSpec :=
  match of_value event_type with
  | Some key => dict_get EVENT_REGISTRY key
  | None => None
  end.

(* [sidecar/ibreeze/domain/__init__.py:159-163 list_event_types] *)
Definition list_event_types (aggregate : option string) : list DomainEventSpec :=
  match aggregate with
  | None => map snd EVENT_REGISTRY
  | Some a => List.filter (λ spec, aggregate_type spec =? a) (map snd EVENT_REGISTRY)
  end.

(** ** Comparing tables *)

Definition h7_edges (entity : string) : list (string * string) :=
  match dict_get _TRANSITION_TABLES entity with Some t => all_edges t | None => [] end.

Definition next (table : list (string * list string)) (s : string) : list string :=
  match dict_get table s with Some ts => ts | None => [] end.

Definition same_edges (l l' : list (string * string)) : bool :=
  forallb (λ e, mem e l') l && forallb (λ e, mem e l) l'.

Lemma same_edges_spec l l' e : same_edges l l' = true → e ∈ l ↔ e ∈ l'.
Proof.
  unfold same_edges. intros Hs. bools. rewrite !forallb_forall in *.
  rewrite (list_elem_of_In l), (list_elem_of_In l').
  split; intros He; [apply H in He|apply H0 in He]; bools; by apply list_elem_of_In.
Qed.

Lemma elem_all_edges table s t :
  (s, t) ∈ all_edges table ↔ ∃ ts, (s, ts) ∈ table ∧ t ∈ ts.
Proof.
  unfold all_edges. rewrite list_elem_of_In, in_concat. split.
  - intros (l & Hl & Hin). apply in_map_iff in Hl as ([s' ts] & <- & Hrow).
    apply in_map_iff in Hin as (t' & [= <- <-] & Hin). exists ts.
    by rewrite !list_elem_of_In.
  - intros (ts & Hrow & Hin). exists (map (pair s) ts). split.
    + apply in_map_iff. exists (s, ts). by rewrite <-list_elem_of_In.
    + by apply in_map, list_elem_of_In.
Qed.

(** An H.7 edge is an allowed transition that needs no saved state. *)
Lemma h7_edges_can e s t :
  is_Some (dict_get _TRANSITION_TABLES e) →
  (s, t) ∈ h7_edges e ↔ can_transition e s t None = Ok true.
Proof.
  intros [table He]. unfold h7_edges. rewrite He, elem_all_edges.
  assert (forallb (λ kt, bool_decide (NoDup (kt.2).*1)) _TRANSITION_TABLES = true) as Hnd
    by (vm_compute; reflexivity).
  rewrite forallb_forall in Hnd.
  pose proof (Hnd _ (proj1 (list_elem_of_In _ _) (dict_get_some_elem _ _ _ He))) as Hk.
  bools. simpl in Hk. split.
  - intros (ts & Hrow & Ht). assert (targets_of e s = Ok ts) as Hts.
    { unfold targets_of. rewrite He.
      destruct (List.find _ table) as [[s' ts']|] eqn:Hf.
      - apply find_some in Hf as [Hin Hs]. bools. subst. f_equal.
        apply list_elem_of_In in Hin. apply (dict_get_elem _ _ _ Hk) in Hin, Hrow. congruence.
      - pose proof (find_none _ _ Hf (s, ts) (proj1 (list_elem_of_In _ _) Hrow)) as Hn.
        simpl in Hn. by rewrite String.eqb_refl in Hn. }
    rewrite (can_transition_none _ _ _ ts) by done. by rewrite bool_decide_true.
  - intros Hc. destruct (targets_of e s) as [ts|err] eqn:Hts.
    2:{ unfold can_transition in Hc. by rewrite Hts in Hc. }
    rewrite (can_transition_none _ _ _ ts) in Hc by done. injection Hc as Hc. bools.
    exists ts. split; [|done]. unfold targets_of in Hts. rewrite He in Hts.
    destruct (List.find _ table) as [[s' ts']|] eqn:Hf; [|done].
    apply find_some in Hf as [Hin Hs]. bools. simplify_eq. by apply list_elem_of_In.
Qed.

(** ** Properties *)

(** The review tables of the domain layer are the H.7 tables: an assignment
    or issue edge is in [ASSIGNMENT_ALL_EDGES] / [ISSUE_ALL_EDGES] exactly when
    [can_transition] allows it with no saved state. *)
Lemma review_tables_agree s t :
  ((s, t) ∈ ASSIGNMENT_ALL_EDGES ↔ can_transition "ReviewAssignment" s t None = Ok true) ∧
  ((s, t) ∈ ISSUE_ALL_EDGES ↔ can_transition "ReviewIssue" s t None = Ok true).
Proof.
  split; (rewrite <-h7_edges_can by (vm_compute; eauto));
    apply same_edges_spec; vm_compute; reflexivity.
Qed.

(** The company-task tables diverge on cancellation.  In H.7 every
    non-terminal state but [cancelling] itself leads to [cancelling] and none
    but [cancelling] leads to [cancelled]; in [COMPANY_TASK_TRANSITIONS]
    [cancelling] is a key no path from [draft] (nor from any other state)
    reaches, and every non-terminal state leads straight to [cancelled]. *)
Lemma company_cancellation_diverges s :
  is_state "CompanyTask" s → is_terminal "CompanyTask" s = Ok false →
  (s ≠ "cancelling" →
     can_transition "CompanyTask" s "cancelling" None = Ok true ∧
     can_transition "CompanyTask" s "cancelled" None = Ok false ∧
     "cancelled" ∈ next COMPANY_TASK_TRANSITIONS s) ∧
  (∀ t, rtc (edge (next COMPANY_TASK_TRANSITIONS)) s t → t = "cancelling" → s = "cancelling").
Proof.
  intros [ts Hts] Hterm. split.
  - intros Hne.
    assert (all_rows (λ e s ts, negb (e =? "CompanyTask") || Nat.eqb (length ts) 0 ||
      (s =? "cancelling") || (mem "cancelling" ts && negb (mem "cancelled" ts) &&
         mem "cancelled" (next COMPANY_TASK_TRANSITIONS s))) = true) as Hall
      by (vm_compute; reflexivity).
    eapply all_rows_spec in Hall; [|done].
    unfold is_terminal in Hterm. rewrite Hts in Hterm. injection Hterm as Hlen.
    rewrite Hlen, (proj2 (String.eqb_neq s "cancelling") Hne) in Hall. simpl in Hall. bools.
    rewrite !(can_transition_none _ _ _ ts) by done.
    by rewrite (bool_decide_true ("cancelling" ∈ ts)), (bool_decide_false ("cancelled" ∈ ts)).
  - intros t Hrtc ->. apply rtc_inv_r in Hrtc as [->|(x & _ & Hx)]; [done|].
    exfalso. revert Hx. unfold edge, next.
    destruct (dict_get _ x) as [ts'|] eqn:Hx; [|set_solver].
    apply dict_get_some_elem, list_elem_of_In in Hx. intros Hin.
    assert (forallb (λ row, negb (mem "cancelling" row.2)) COMPANY_TASK_TRANSITIONS = true)
      as Hall by (vm_compute; reflexivity).
    rewrite forallb_forall in Hall. apply Hall in Hx. by bools.
Qed.

Lemma company_cancellation_diverges_witness :
  can_transition "CompanyTask" "executing" "cancelling" None = Ok true ∧
  can_transition "CompanyTask" "executing" "cancelled" None = Ok false ∧
  "cancelled" ∈ next COMPANY_TASK_TRANSITIONS "executing".
Proof.
  apply (company_cancellation_diverges "executing").
  - eexists. vm_compute. reflexivity.
  - vm_compute. reflexivity.
  - discriminate.
Defined.

(** The event registry is total and consistent: every member of
    [DomainEventType] has exactly one entry, filed under its own type at version
    1; looking an event up by its name finds that entry, and a name that is no
    member's value finds nothing. *)
Lemma event_registry_total :
  (∀ e, ∃ spec, dict_get EVENT_REGISTRY e = Some spec ∧ event_type spec = e ∧
     version spec = 1 ∧ get_event_spec (value e) = Some spec) ∧
  NoDup (dict_keys EVENT_REGISTRY) ∧
  (∀ name, get_event_spec name = None ↔ ∀ e : DomainEventType.t, value e ≠ name).
Proof.
  assert (∀ e, ∃ spec, dict_get EVENT_REGISTRY e = Some spec ∧ event_type spec = e ∧
            version spec = 1) as Htotal.
  { intros e. destruct (dict_get EVENT_REGISTRY e) as [spec|] eqn:He.
    - exists spec. split; [done|]. destruct e; vm_compute in He; injection He as <-; done.
    - destruct e; vm_compute in He; discriminate. }
  split; [|split].
  - intros e. destruct (Htotal e) as (spec & He & ? & ?). exists spec.
    unfold get_event_spec. by rewrite of_value_value.
  - apply dict_of_nodup.
  - intros name. unfold get_event_spec. destruct (of_value name) as [e|] eqn:Hn.
    + destruct (Htotal e) as (spec & -> & _). apply of_value_some in Hn.
      split; [done|]. intros Hno. by destruct (Hno e).
    + split; [|done]. intros _ e He. apply of_value_some in He. congruence.
Qed.

(** [list_event_types] without a filter lists one entry per event type in
    declaration order, and the filtered lists partition it: an entry is listed
    under the aggregate it names and under no other. *)
Lemma list_event_types_partition :
  map event_type (list_event_types None) = members ∧
  (∀ a spec, spec ∈ list_event_types (Some a) ↔
     spec ∈ list_event_types None ∧ aggregate_type spec = a).
Proof.
  split; [vm_compute; reflexivity|]. intros a spec. unfold list_event_types.
  rewrite list_elem_of_In, filter_In, <-list_elem_of_In. by rewrite String.eqb_eq.
Qed.

(** The documented name format [{aggregate_type}.{action}] holds of every
    event but those of plans and runs: [plan.*] is filed under [company_plan]
    and [run.*] under [agent_run]. *)
Lemma event_name_format e spec :
  dict_get EVENT_REGISTRY e = Some spec →
  String.prefix (String.append (aggregate_type spec) ".") (value e) =
    negb (String.prefix "plan." (value e) || String.prefix "run." (value e)).
Proof.
  intros Hin%dict_get_some_elem%list_elem_of_In.
  assert (forallb (λ '(e, spec), Bool.eqb
      (String.prefix (String.append (aggregate_type spec) ".") (value e))
      (negb (String.prefix "plan." (value e) || String.prefix "run." (value e))))
    EVENT_REGISTRY = true) as Hall by (vm_compute; reflexivity).
  rewrite forallb_forall in Hall. apply Hall in Hin. by apply Bool.eqb_prop.
Qed.

Lemma event_name_format_witness :
  String.prefix "company_plan." "plan.approved" = false.
Proof.
  exact (event_name_format DomainEventType.PLAN_APPROVED _ eq_refl).
Defined.
