(* ===== verification/PyStr.v ===== *)
(** * Python strings and JSON values

    A [str] is its UTF-8 encoding; [chars] splits it into code points, so that
    [len], slicing and [strip] count what Python counts.  [json] is the type of
    the values [json.loads] returns. *)

From S2P Require Import Prelude.

(** A UTF-8 continuation byte, 10xxxxxx. *)
Definition continuation (c : Ascii.ascii) : bool :=
  match c with Ascii.Ascii _ _ _ _ _ _ b6 b7 => b7 && negb b6 end.

Fixpoint chars (s : string) : list string :=
  match s with
  | EmptyString => []
  | String c s =>
      match chars s with
      | String c' t :: cs =>
          if continuation c' then String c (String c' t) :: cs
          else String c EmptyString :: String c' t :: cs
      | cs => String c EmptyString :: cs
      end
  end.

Definition unchars (l : list string) : string := String.concat "" l.

(** [len(s)] *)
Definition py_len (s : string) : Z := Z.of_nat (length (chars s)).

Definition byte (n : nat) : Ascii.ascii := Ascii.ascii_of_nat n.
Definition bytes (l : list nat) : string := String.string_of_list_ascii (map byte l).

(** The code points [str.isspace] accepts. *)
Definition whitespace : list string :=
  map bytes
    ([[9]; [10]; [11]; [12]; [13]; [28]; [29]; [30]; [31]; [32]; [194; 133]; [194; 160];
      [225; 154; 128]; [226; 128; 168]; [226; 128; 169]; [226; 128; 175]; [226; 129; 159];
      [227; 128; 128]]%nat ++
     map (λ n, [226; 128; 128 + n]%nat) (seq 0 11)).

Definition is_space (c : string) : bool := c ∈? whitespace.

Fixpoint drop_spaces (l : list string) : list string :=
  match l with
  | c :: l' => if is_space c then drop_spaces l' else l
  | [] => []
  end.

(** [s.strip()] *)
Definition strip (s : string) : string :=
  unchars (rev (drop_spaces (rev (drop_spaces (chars s))))).

(** [s[:n]] for [n >= 0] *)
Definition py_take (n : Z) (s : string) : string := unchars (take (Z.to_nat n) (chars s)).

(** [s.startswith(p)] *)
Definition starts_with (p s : string) : bool := String.prefix p s.

Lemma unchars_cons c l : unchars (c :: l) = String.append c (unchars l).
Proof.
  unfold unchars. destruct l; simpl; [|done].
  induction c as [|a c IH]; [done|]. change (String a c = String a (String.append c "")). by f_equal.
Qed.

Lemma unchars_chars s : unchars (chars s) = s.
Proof.
  induction s as [|c s IH]; [done|]. simpl.
  destruct (chars s) as [|[|c' t] cs] eqn:E.
  - rewrite unchars_cons, IH. done.
  - rewrite unchars_cons, IH. done.
  - destruct (continuation c').
    + by rewrite <-IH, !unchars_cons.
    + rewrite unchars_cons, IH. done.
Qed.

Lemma py_len_nonneg s : (0 ≤ py_len s)%Z.
Proof. unfold py_len. lia. Qed.

(** ** JSON values *)

Inductive json :=
  | JNull
  | JBool (b : bool)
  | JInt (n : Z)
  | JFloat (text : string)
  | JStr (s : string)
  | JList (l : list json)
  | JObj (fields : list (string * json)).

(** Induction with a hypothesis for every member. *)
Section JsonInd.
Context (P : json → Prop).
Hypothesis Hnull : P JNull.
Hypothesis Hbool : ∀ b, P (JBool b).
Hypothesis Hint : ∀ n, P (JInt n).
Hypothesis Hfloat : ∀ t, P (JFloat t).
Hypothesis Hstr : ∀ s, P (JStr s).
Hypothesis Hlist : ∀ l, Forall P l → P (JList l).
Hypothesis Hobj : ∀ l, Forall (λ kv, P kv.2) l → P (JObj l).

Fixpoint json_rect' (j : json) : P j :=
  match j with
  | JNull => Hnull
  | JBool b => Hbool b
  | JInt n => Hint n
  | JFloat t => Hfloat t
  | JStr s => Hstr s
  | JList l => Hlist l
      ((fix go (l : list json) : Forall P l :=
          match l with [] => Forall_nil_2 P | j :: l => Forall_cons_2 P j l (json_rect' j) (go l) end) l)
  | JObj l => Hobj l
      ((fix go (l : list (string * json)) : Forall (λ kv, P kv.2) l :=
          match l with
          | [] => Forall_nil_2 _
          | kv :: l => Forall_cons_2 _ kv l (json_rect' kv.2) (go l)
          end) l)
  end.
End JsonInd.

(** Equality of JSON values is decidable. *)
Definition member_dec (d : ∀ a b : json, {a = b} + {a ≠ b}) (p q : string * json) : {p = q} + {p ≠ q}.
Proof.
  destruct p as [k v], q as [k' v']. destruct (decide (k = k')) as [->|]; [|right; congruence].
  destruct (d v v') as [->|]; [by left|right; congruence].
Defined.
Definition json_dec : ∀ a b : json, {a = b} + {a ≠ b}.
Proof.
  fix go 1. intros a b. destruct a, b; try (right; discriminate).
  - by left.
  - destruct (decide (b0 = b)); [left|right]; congruence.
  - destruct (decide (n = n0)); [left|right]; congruence.
  - destruct (decide (text = text0)); [left|right]; congruence.
  - destruct (decide (s = s0)); [left|right]; congruence.
  - destruct (List.list_eq_dec go l l0); [left|right]; congruence.
  - destruct (List.list_eq_dec (member_dec go) fields fields0); [left|right]; congruence.
Defined.
#[global] Instance json_eq_dec : EqDecision json := json_dec.

(** [bool(value)] *)
Definition json_truthy (j : json) : bool :=
  match j with
  | JNull => false
  | JBool b => b
  | JInt n => negb (n =? 0)%Z
  | JFloat t => negb (t ∈? ["0.0"; "-0.0"])
  | JStr s => negb (s =? "")
  | JList l => match l with [] => false | _ => true end
  | JObj l => match l with [] => false | _ => true end
  end.

(** [d.get(key)] on an object's fields. *)
Fixpoint field (l : list (string * json)) (k : string) : json :=
  match l with
  | [] => JNull
  | (k', v) :: l => if k' =? k then v else field l k
  end.

(** [json.dumps(..., sort_keys=True)] of an object, as JSON data; the keys compare by
    code point, which is how their encodings compare. *)
Definition sorted_obj (l : list (string * json)) : json :=
  JObj (sort_by (λ a b, String.leb a.1 b.1) l).

(** Text that is kept as it came, or that [json.dumps] made of a value. *)
Inductive text := Dumped (j : json) | Raw (s : string).

(** [bool(text)]: what [json.dumps] returns is never empty. *)
Definition text_truthy (t : text) : bool :=
  match t with Dumped _ => true | Raw s => negb (s =? "") end.

(** [str(j)], which shows a list or a dict by its [repr]. *)
Definition py_str (repr : json → string) (j : json) : string :=
  match j with
  | JNull => "None"
  | JBool b => if b then "True" else "False"
  | JInt n => pretty.pretty n
  | JFloat t => t
  | JStr s => s
  | JList _ | JObj _ => repr j
  end.

(** [d.get(key, dflt)] *)
Definition field_or (l : list (string * json)) (k : string) (dflt : json) : json :=
  if k ∈? l.*1 then field l k else dflt.

(** [d[key]] *)
Definition item (d : list (string * json)) (key : string) : result json :=
  if key ∈? d.*1 then Ok (field d key) else Err (KeyErr key).

(** [for x in j] *)
Definition iterate (j : json) : result (list json) :=
  match j with
  | JList l => Ok l
  | JStr s => Ok (map JStr (chars s))
  | JObj d => Ok (map JStr (d.*1))
  | _ => Err (TypeErr "not iterable")
  end.

(** [j.get(key, dflt)], which only an object has. *)
Definition attr_get (j : json) (key : string) (dflt : json) : result json :=
  match j with JObj d => Ok (field_or d key dflt) | _ => Err (AttributeErr "get") end.

(** What can be a member of a set or the key of a dict. *)
Definition hashable (j : json) : bool := match j with JList _ | JObj _ => false | _ => true end.

(** A value bound to a [TEXT NOT NULL] column. *)
Definition sql_text (j : json) : result string :=
  match j with
  | JStr s | JFloat s => Ok s
  | JInt n => Ok (pretty.pretty n)
  | JBool b => Ok (if b then "1" else "0")
  | JNull => Err (IntegrityErr "NOT NULL")
  | JList _ | JObj _ => Err (BindErr "type is not supported")
  end.

(** [list(dict.fromkeys(l))]: the first occurrences. *)
Fixpoint unique {A} `{EqDecision A} (l : list A) : list A :=
  match l with [] => [] | x :: l => x :: List.filter (λ y, negb (bool_decide (y = x))) (unique l) end.

Lemma elem_of_unique {A} `{EqDecision A} (x : A) l : x ∈ unique l ↔ x ∈ l.
Proof.
  induction l as [|y l IH]; [done|]. simpl. rewrite !elem_of_cons, list_elem_of_In, filter_In, <-list_elem_of_In, IH.
  destruct (decide (x = y)) as [->|Hne]; [naive_solver|]. rewrite bool_decide_eq_false_2 by done. naive_solver.
Qed.
