(* ===== verification/TaskStore.v ===== *)
(** * The task tables

    The rows of the task tables of [001_initial.sql] with their columns and
    constraints, and the database the task services run over.  [agent_runs] and
    [artifacts] are only listed by these services: of their rows the columns the
    queries name are fields and the rest is kept as stored. *)

From S2P Require Import Prelude PyStr Sql.

Record CompanyTask := {
  ct_id : string;
  ct_company_id : string;
  ct_supersedes_task_id : option string;
  ct_company_conversation_id : string;
  ct_user_message_event_id : string;
  ct_title : string;
  ct_status : string;
  ct_resume_state : option string;
  ct_active_plan_id : option string;
  ct_created_at : string;
  ct_updated_at : string;
  ct_completed_at : option string;
  ct_ceo_confirmed_at : option string;
  ct_version : Z }.

Record PlanVersion := {
  pv_id : string;
  pv_company_task_id : string;
  pv_company_id : string;
  pv_version_number : Z;
  pv_canonical_json : json;
  pv_content_sha256 : string;
  pv_generated_by_run_id : string;
  pv_status : string;
  pv_created_at : string;
  pv_confirmed_at : option string }.

Record DepartmentTask := {
  dt_id : string;
  dt_company_id : string;
  dt_company_task_id : string;
  dt_department_id : string;
  dt_stage_key : string;
  dt_objective : string;
  dt_deliverables_json : json;
  dt_acceptance_criteria_json : json;
  dt_status : string;
  dt_resume_state : option string;
  dt_created_at : string;
  dt_updated_at : string;
  dt_completed_at : option string;
  dt_version : Z }.

Record TaskDependency := {
  dep_company_id : string;
  dep_company_task_id : string;
  dep_department_task_id : string;
  dep_depends_on_task_id : string }.

Record EmployeeTask := {
  et_id : string;
  et_company_id : string;
  et_department_task_id : string;
  et_employee_id : string;
  et_task_kind : string;
  et_objective : string;
  et_acceptance_criteria_json : json;
  et_status : string;
  et_resume_state : option string;
  et_created_at : string;
  et_updated_at : string;
  et_version : Z }.

Record Employee := {
  em_id : string;
  em_company_id : string;
  em_display_name : string }.

Record Evidence := {
  ev_id : string;
  ev_company_id : string;
  ev_company_task_id : string;
  ev_created_at : string;
  ev_columns : list (string * option string) }.

Record DB := {
  company_tasks : list CompanyTask;
  company_plan_versions : list PlanVersion;
  department_tasks : list DepartmentTask;
  department_task_dependencies : list TaskDependency;
  employee_tasks : list EmployeeTask;
  employees : list Employee;
  agent_runs : list Evidence;
  artifacts : list Evidence }.

(** ** CHECK constraints *)

Definition null_or_in (o : option string) (l : list string) : bool :=
  match o with None => true | Some s => s ∈? l end.

(** [(status IN waiting AND resume_state IS NOT NULL) OR
     (status NOT IN waiting AND resume_state IS NULL)] *)
Definition resume_consistent (waiting : list string) (status : string)
    (resume : option string) : bool :=
  if status ∈? waiting then negb (resume =?o None) else resume =?o None.

Lemma resume_consistent_saved waiting status s :
  (status ∈? waiting) = true → resume_consistent waiting status (Some s) = true.
Proof. unfold resume_consistent. intros ->. apply negb_true_iff. by apply bool_decide_eq_false. Qed.

Lemma resume_consistent_clear waiting status :
  (status ∈? waiting) = false → resume_consistent waiting status None = true.
Proof. unfold resume_consistent. intros ->. by apply bool_decide_eq_true. Qed.

Lemma resume_consistent_left waiting status s :
  (status ∈? waiting) = false → resume_consistent waiting status (Some s) = false.
Proof. unfold resume_consistent. intros ->. by apply bool_decide_eq_false. Qed.

Definition task_waiting : list string :=
  ["waiting_dependency"; "waiting_resource"; "waiting_permission"; "paused"].

Definition company_task_statuses : list string :=
  ["draft"; "analyzing"; "awaiting_user_confirmation"; "approved"; "revision_requested";
   "rejected"; "dispatching"; "checking_resources"; "executing"; "reviewing"; "fixing";
   "final_review"; "completed"; "waiting_dependency"; "waiting_resource";
   "waiting_permission"; "paused"; "cancelling"; "cancelled"; "failed"].

(** What [resume_state] may hold. *)
Definition resume_states : list string :=
  ["analyzing"; "dispatching"; "checking_resources"; "executing"; "reviewing"; "fixing";
   "final_review"].

Definition company_task_ok (t : CompanyTask) : bool :=
  (ct_status t ∈? company_task_statuses) &&
  null_or_in (ct_resume_state t) resume_states &&
  resume_consistent task_waiting (ct_status t) (ct_resume_state t) &&
  negb (ct_supersedes_task_id t =?o Some (ct_id t)).

Definition plan_version_ok (p : PlanVersion) : bool :=
  (pv_status p ∈? ["draft"; "awaiting_user_confirmation"; "approved"; "superseded"; "rejected"])
  && Nat.eqb (String.length (pv_content_sha256 p)) 64.

Definition department_task_ok (t : DepartmentTask) : bool :=
  (dt_status t ∈? ["draft"; "checking_resources"; "ready"; "executing"; "reviewing"; "fixing";
     "completed"; "waiting_dependency"; "waiting_resource"; "waiting_permission"; "paused";
     "cancelled"; "failed"]) &&
  null_or_in (dt_resume_state t)
    ["checking_resources"; "ready"; "executing"; "reviewing"; "fixing"] &&
  resume_consistent task_waiting (dt_status t) (dt_resume_state t).

Definition employee_task_ok (t : EmployeeTask) : bool :=
  (et_task_kind t ∈? ["standard"; "merge"]) &&
  (et_status t ∈? ["assigned"; "ready"; "running"; "submitted"; "peer_reviewing";
     "changes_requested"; "accepted"; "needs_review"; "needs_rework"; "waiting_resource";
     "paused"; "cancelled"; "failed"]) &&
  null_or_in (et_resume_state t) ["assigned"; "ready"; "running"; "changes_requested"] &&
  resume_consistent ["waiting_resource"; "paused"] (et_status t) (et_resume_state t).

(** ** Tables *)

(** Discharges the lens laws of a table. *)
Ltac solve_lens := intros; repeat match goal with db : DB |- _ => destruct db end; reflexivity.

#[export] Program Instance company_tasks_table : Table DB CompanyTask := {|
  table_name := "company_tasks";
  rows := company_tasks;
  set_rows l db := {|
    company_tasks := l; company_plan_versions := company_plan_versions db;
    department_tasks := department_tasks db;
    department_task_dependencies := department_task_dependencies db;
    employee_tasks := employee_tasks db; employees := employees db;
    agent_runs := agent_runs db; artifacts := artifacts db |};
  row_ok := company_task_ok;
  clash a b := ct_id a =? ct_id b;
  refs_ok db t := true |}.
Solve All Obligations with solve_lens.

#[export] Program Instance company_plan_versions_table : Table DB PlanVersion := {|
  table_name := "company_plan_versions";
  rows := company_plan_versions;
  set_rows l db := {|
    company_tasks := company_tasks db; company_plan_versions := l;
    department_tasks := department_tasks db;
    department_task_dependencies := department_task_dependencies db;
    employee_tasks := employee_tasks db; employees := employees db;
    agent_runs := agent_runs db; artifacts := artifacts db |};
  row_ok := plan_version_ok;
  clash a b := (pv_id a =? pv_id b) ||
    ((pv_company_task_id a =? pv_company_task_id b) &&
     (pv_version_number a =? pv_version_number b)%Z);
  refs_ok db p := existsb (λ t, (ct_id t =? pv_company_task_id p) &&
    (ct_company_id t =? pv_company_id p)) (company_tasks db) |}.
Solve All Obligations with solve_lens.

#[export] Program Instance department_tasks_table : Table DB DepartmentTask := {|
  table_name := "department_tasks";
  rows := department_tasks;
  set_rows l db := {|
    company_tasks := company_tasks db; company_plan_versions := company_plan_versions db;
    department_tasks := l;
    department_task_dependencies := department_task_dependencies db;
    employee_tasks := employee_tasks db; employees := employees db;
    agent_runs := agent_runs db; artifacts := artifacts db |};
  row_ok := department_task_ok;
  clash a b := (dt_id a =? dt_id b) ||
    ((dt_company_task_id a =? dt_company_task_id b) && (dt_stage_key a =? dt_stage_key b));
  refs_ok db t := existsb (λ c, (ct_id c =? dt_company_task_id t) &&
    (ct_company_id c =? dt_company_id t)) (company_tasks db) |}.
Solve All Obligations with solve_lens.

#[export] Program Instance dependencies_table : Table DB TaskDependency := {|
  table_name := "department_task_dependencies";
  rows := department_task_dependencies;
  set_rows l db := {|
    company_tasks := company_tasks db; company_plan_versions := company_plan_versions db;
    department_tasks := department_tasks db;
    department_task_dependencies := l;
    employee_tasks := employee_tasks db; employees := employees db;
    agent_runs := agent_runs db; artifacts := artifacts db |};
  row_ok d := negb (dep_department_task_id d =? dep_depends_on_task_id d);
  clash a b := (dep_department_task_id a =? dep_department_task_id b) &&
    (dep_depends_on_task_id a =? dep_depends_on_task_id b);
  refs_ok db d := forallb (λ x, existsb (λ t, (dt_id t =? x) &&
    (dt_company_task_id t =? dep_company_task_id d) && (dt_company_id t =? dep_company_id d))
      (department_tasks db)) [dep_department_task_id d; dep_depends_on_task_id d] |}.
Solve All Obligations with solve_lens.

#[export] Program Instance employee_tasks_table : Table DB EmployeeTask := {|
  table_name := "employee_tasks";
  rows := employee_tasks;
  set_rows l db := {|
    company_tasks := company_tasks db; company_plan_versions := company_plan_versions db;
    department_tasks := department_tasks db;
    department_task_dependencies := department_task_dependencies db;
    employee_tasks := l; employees := employees db;
    agent_runs := agent_runs db; artifacts := artifacts db |};
  row_ok := employee_task_ok;
  clash a b := et_id a =? et_id b;
  refs_ok db t :=
    existsb (λ d, (dt_id d =? et_department_task_id t) && (dt_company_id d =? et_company_id t))
      (department_tasks db) &&
    existsb (λ e, (em_id e =? et_employee_id t) && (em_company_id e =? et_company_id t))
      (employees db) |}.
Solve All Obligations with solve_lens.

(** What every committed database satisfies. *)
Record db_ok (db : DB) : Prop := {
  db_tasks_ok : table_ok (R := CompanyTask) db = true;
  db_plans_ok : table_ok (R := PlanVersion) db = true;
  db_departments_ok : table_ok (R := DepartmentTask) db = true;
  db_dependencies_ok : table_ok (R := TaskDependency) db = true;
  db_employee_tasks_ok : table_ok (R := EmployeeTask) db = true }.
