(* ===== verification/TaskService.v ===== *)
(** * The task lifecycle service ([task/service.py])

    Every operation of the service over [TaskStore], with the clock reading and
    the fresh id it draws as arguments.  [Spec] states what the seven lifecycle
    operations promise as a function on a task's status and saved state;
    [lifecycle_refines_spec] shows the SQL implements it, on every branch, and
    the later theorems relate it to H.7. *)

From S2P Require Import Prelude PyStr Sql TaskStore.
From S2P Require StateMachine.

Definition NOT_FOUND := ValueError "RESOURCE_NOT_FOUND".
Definition INVALID := ValueError "STATE_TRANSITION_INVALID".
Definition CONFLICT := ValueError "OPTIMISTIC_LOCK_CONFLICT".

(** A result dict whose values are strings. *)
Definition reply := list (string * string).

(** [WHERE id=? AND company_id=?] *)
Definition task_key (company_id task_id : string) (t : CompanyTask) : bool :=
  (ct_id t =? task_id) && (ct_company_id t =? company_id).
Definition plan_key (company_id plan_id : string) (p : PlanVersion) : bool :=
  (pv_id p =? plan_id) && (pv_company_id p =? company_id).
Definition plans_of (company_id task_id status : string) (p : PlanVersion) : bool :=
  (pv_company_task_id p =? task_id) && (pv_company_id p =? company_id) && (pv_status p =? status).

(** [SET status=?, resume_state=?, updated_at=?, completed_at=?, version=version+1] *)
Definition set_task (status : string) (resume : option string) (now : string)
    (completed : option string) (t : CompanyTask) : CompanyTask := {|
  ct_id := ct_id t; ct_company_id := ct_company_id t;
  ct_supersedes_task_id := ct_supersedes_task_id t;
  ct_company_conversation_id := ct_company_conversation_id t;
  ct_user_message_event_id := ct_user_message_event_id t; ct_title := ct_title t;
  ct_status := status; ct_resume_state := resume; ct_active_plan_id := ct_active_plan_id t;
  ct_created_at := ct_created_at t; ct_updated_at := now; ct_completed_at := completed;
  ct_ceo_confirmed_at := ct_ceo_confirmed_at t; ct_version := ct_version t + 1 |}.

(** [SET status=?, updated_at=?, version=version+1], the other columns kept. *)
Definition set_status (status now : string) (t : CompanyTask) : CompanyTask :=
  set_task status (ct_resume_state t) now (ct_completed_at t) t.

(** [SET status=?, confirmed_at=?] *)
Definition set_plan (status : string) (confirmed : option string) (p : PlanVersion)
    : PlanVersion := {|
  pv_id := pv_id p; pv_company_task_id := pv_company_task_id p;
  pv_company_id := pv_company_id p; pv_version_number := pv_version_number p;
  pv_canonical_json := pv_canonical_json p; pv_content_sha256 := pv_content_sha256 p;
  pv_generated_by_run_id := pv_generated_by_run_id p; pv_status := status;
  pv_created_at := pv_created_at p; pv_confirmed_at := confirmed |}.
Definition set_plan_status (status : string) (p : PlanVersion) : PlanVersion :=
  set_plan status (pv_confirmed_at p) p.

(** [task = SELECT ...; if task is None: raise ValueError("RESOURCE_NOT_FOUND")] *)
Definition the_task (company_id task_id : string) : tx DB CompanyTask :=
  task ← select_one (task_key company_id task_id);
  found task NOT_FOUND.

(** [cursor = UPDATE company_tasks ... AND guard; if cursor.rowcount != 1: raise ...] *)
Definition update_task (company_id task_id : string) (guard : CompanyTask → bool)
    (f : CompanyTask → CompanyTask) : tx DB unit :=
  rowcount ← update (λ t, task_key company_id task_id t && guard t) f;
  check (rowcount =? 1)%Z CONFLICT.

(** ** Operations *)

(* [sidecar/ibreeze/task/service.py:22-78 submit_plan_for_review] *)
Definition submit_plan_for_review (now company_id task_id employee_id : string) : tx DB reply :=
  task ← the_task company_id task_id;
  check (ct_status task ∈? ["analyzing"; "draft"]) INVALID;;
  plans ← select (plans_of company_id task_id "draft");
  plan ← found (head (sort_by (λ a b, (pv_version_number b <=? pv_version_number a)%Z) plans))
           (ValueError "NO_DRAFT_PLAN");
  rowcount ← update (λ p, plan_key company_id (pv_id plan) p && (pv_status p =? "draft"))
               (set_plan_status "awaiting_user_confirmation");
  check (rowcount =? 1)%Z CONFLICT;;
  update_task company_id task_id (λ t, ct_status t ∈? ["analyzing"; "draft"])
    (set_status "awaiting_user_confirmation" now);;
  mret [("task_id", task_id); ("plan_version_id", pv_id plan);
        ("status", "awaiting_user_confirmation")].

(* [sidecar/ibreeze/task/service.py:81-134 confirm_plan] *)
Definition confirm_plan (now company_id task_id employee_id : string) : tx DB reply :=
  task ← the_task company_id task_id;
  check (ct_status task =? "awaiting_user_confirmation") INVALID;;
  plan ← select_one (plans_of company_id task_id "awaiting_user_confirmation");
  plan ← found plan (ValueError "NO_AWAITING_PLAN");
  update (plan_key company_id (pv_id plan)) (set_plan "approved" (Some now));;
  update_task company_id task_id (λ t, ct_status t =? "awaiting_user_confirmation")
    (set_status "approved" now);;
  mret [("task_id", task_id); ("plan_version_id", pv_id plan); ("status", "approved")].

(** [if plan is not None: UPDATE company_plan_versions SET status=?] *)
Definition close_plan (company_id : string) (plan : option PlanVersion) (status : string)
    : tx DB unit :=
  match plan with
  | Some p => update (plan_key company_id (pv_id p)) (set_plan_status status);; mret tt
  | None => mret tt
  end.

(* [sidecar/ibreeze/task/service.py:137-190 request_plan_revision] *)
Definition request_plan_revision (now company_id task_id employee_id reason : string)
    : tx DB reply :=
  task ← the_task company_id task_id;
  check (ct_status task =? "awaiting_user_confirmation") INVALID;;
  plan ← select_one (plans_of company_id task_id "awaiting_user_confirmation");
  close_plan company_id plan "superseded";;
  update_task company_id task_id (λ t, ct_status t =? "awaiting_user_confirmation")
    (set_status "revision_requested" now);;
  mret [("task_id", task_id); ("status", "revision_requested"); ("reason", reason)].

(* [sidecar/ibreeze/task/service.py:193-246 reject_plan] *)
Definition reject_plan (now company_id task_id employee_id reason : string) : tx DB reply :=
  task ← the_task company_id task_id;
  check (ct_status task =? "awaiting_user_confirmation") INVALID;;
  plan ← select_one (plans_of company_id task_id "awaiting_user_confirmation");
  close_plan company_id plan "rejected";;
  update_task company_id task_id (λ t, ct_status t =? "awaiting_user_confirmation")
    (λ t, set_task "rejected" (ct_resume_state t) now (Some now) t);;
  mret [("task_id", task_id); ("status", "rejected"); ("reason", reason)].

(* [sidecar/ibreeze/task/service.py:249-286 pause_task] *)
Definition pause_task (now company_id task_id employee_id : string) : tx DB reply :=
  task ← the_task company_id task_id;
  check (ct_status task ∈? ["executing"; "reviewing"; "fixing"]) INVALID;;
  let resume_state := ct_status task in
  update_task company_id task_id (λ t, ct_status t ∈? ["executing"; "reviewing"; "fixing"])
    (λ t, set_task "paused" (Some resume_state) now (ct_completed_at t) t);;
  mret [("task_id", task_id); ("status", "paused"); ("resume_state", resume_state)].

(** Python's [x or default] on an optional string. *)
Definition or_default (x : option string) (default : string) : string :=
  match x with
  | Some s => if s =? "" then default else s
  | None => default
  end.

(* [sidecar/ibreeze/task/service.py:289-325 resume_task] *)
Definition resume_task (now company_id task_id employee_id : string) : tx DB reply :=
  task ← the_task company_id task_id;
  check (ct_status task =? "paused") INVALID;;
  let resume_to := or_default (ct_resume_state task) "executing" in
  update_task company_id task_id (λ t, ct_status t =? "paused")
    (λ t, set_task resume_to None now (ct_completed_at t) t);;
  mret [("task_id", task_id); ("status", resume_to)].

(* [sidecar/ibreeze/task/service.py:328-366 cancel_task] *)
Definition cancel_task (now company_id task_id employee_id reason : string) : tx DB reply :=
  task ← the_task company_id task_id;
  check (negb (ct_status task ∈? ["completed"; "cancelled"; "failed"])) INVALID;;
  update_task company_id task_id
    (λ t, negb (ct_status t ∈? ["completed"; "cancelled"; "failed"]))
    (set_status "cancelling" now);;
  mret [("task_id", task_id); ("status", "cancelling"); ("reason", reason)].

(* [sidecar/ibreeze/task/service.py:369-381 get_company_task] *)
Definition get_company_task (company_id task_id : string) : tx DB (option CompanyTask) :=
  select_one (task_key company_id task_id).

(** [ORDER BY created_at DESC, id DESC] *)
Definition newest_first (a b : CompanyTask) : bool :=
  if ct_created_at a =? ct_created_at b then text_le (ct_id b) (ct_id a)
  else text_le (ct_created_at b) (ct_created_at a).

(* [sidecar/ibreeze/task/service.py:384-406 list_company_tasks] *)
Definition list_company_tasks (company_id : string) (status : option string)
    : tx DB (list CompanyTask) :=
  l ← select (λ t, (ct_company_id t =? company_id) &&
        match status with Some s => ct_status t =? s | None => true end);
  mret (sort_by newest_first l).

Record TaskGraph := {
  tg_task_id : string;
  tg_status : string;
  tg_department_tasks : list (string * string * string * string);
  tg_dependencies : list (string * string) }.

(* [sidecar/ibreeze/task/service.py:409-445 get_task_graph] *)
Definition get_task_graph (company_id task_id : string) : tx DB TaskGraph :=
  task ← the_task company_id task_id;
  dept_tasks ← select (λ t, (dt_company_task_id t =? task_id) && (dt_company_id t =? company_id));
  dependencies ← select (λ d, (dep_company_task_id d =? task_id) &&
                              (dep_company_id d =? company_id));
  mret {|
    tg_task_id := task_id;
    tg_status := ct_status task;
    tg_department_tasks :=
      map (λ t, (dt_id t, dt_department_id t, dt_status t, dt_stage_key t)) dept_tasks;
    tg_dependencies :=
      map (λ d, (dep_department_task_id d, dep_depends_on_task_id d)) dependencies |}.

Definition evidence_of (company_id task_id : string) (l : list Evidence) : list Evidence :=
  sort_by (λ a b, text_le (ev_created_at b) (ev_created_at a))
    (where_ (λ e, (ev_company_task_id e =? task_id) && (ev_company_id e =? company_id)) l).

(* [sidecar/ibreeze/task/service.py:448-474 get_task_evidence] *)
Definition get_task_evidence (company_id task_id : string)
    : tx DB (string * list Evidence * list Evidence) :=
  runs ← gets (λ db, evidence_of company_id task_id (agent_runs db));
  artifacts ← gets (λ db, evidence_of company_id task_id (artifacts db));
  mret (task_id, runs, artifacts).

(** [WHERE id=? AND company_id=?] on [department_tasks] *)
Definition department_key (company_id dept_task_id : string) (t : DepartmentTask) : bool :=
  (dt_id t =? dept_task_id) && (dt_company_id t =? company_id).

Record ResourceCheck := {
  rc_department_task_id : string;
  rc_department_id : string;
  rc_status : string;
  rc_assigned_employees : list (string * string);
  rc_has_resources : bool }.

(* [sidecar/ibreeze/task/service.py:477-508 check_department_resources] *)
Definition check_department_resources (company_id dept_task_id : string) : tx DB ResourceCheck :=
  dept_task ← select_one (department_key company_id dept_task_id);
  dept_task ← found dept_task NOT_FOUND;
  l ← select (λ t, (et_department_task_id t =? dept_task_id) &&
        (et_company_id t =? company_id) && negb (et_status t ∈? ["cancelled"; "failed"]));
  let assigned := map (λ t, (et_employee_id t, et_status t)) l in
  mret {|
    rc_department_task_id := dept_task_id;
    rc_department_id := dt_department_id dept_task;
    rc_status := dt_status dept_task;
    rc_assigned_employees := assigned;
    rc_has_resources := Nat.ltb 0 (length assigned) |}.

(** [SET status='cancelled', updated_at=?] *)
Definition cancel_employee_task (now : string) (t : EmployeeTask) : EmployeeTask := {|
  et_id := et_id t; et_company_id := et_company_id t;
  et_department_task_id := et_department_task_id t; et_employee_id := et_employee_id t;
  et_task_kind := et_task_kind t; et_objective := et_objective t;
  et_acceptance_criteria_json := et_acceptance_criteria_json t; et_status := "cancelled";
  et_resume_state := et_resume_state t; et_created_at := et_created_at t;
  et_updated_at := now; et_version := et_version t |}.

(** The row [replace_employee] inserts. *)
Definition successor (now new_id company_id dept_task_id new_employee_id : string)
    (task : EmployeeTask) : EmployeeTask := {|
  et_id := new_id; et_company_id := company_id; et_department_task_id := dept_task_id;
  et_employee_id := new_employee_id; et_task_kind := et_task_kind task;
  et_objective := et_objective task;
  et_acceptance_criteria_json := et_acceptance_criteria_json task;
  et_status := "assigned"; et_resume_state := None; et_created_at := now;
  et_updated_at := now; et_version := 1 |}.

(* [sidecar/ibreeze/task/service.py:511-567 replace_employee] *)
Definition replace_employee (now new_id company_id dept_task_id old_employee_id
    new_employee_id : string) : tx DB reply :=
  task ← select_one (R := EmployeeTask) (λ t, (et_department_task_id t =? dept_task_id) &&
           (et_company_id t =? company_id) && (et_employee_id t =? old_employee_id));
  task ← found task NOT_FOUND;
  insert_row (successor now new_id company_id dept_task_id new_employee_id task);;
  update (λ t, (et_id t =? et_id task) && (et_company_id t =? company_id))
    (cancel_employee_task now);;
  mret [("old_employee_id", old_employee_id); ("new_employee_id", new_employee_id);
        ("new_task_id", new_id)].

Record DepartmentReport := {
  dr_department_task_id : string;
  dr_company_task_id : string;
  dr_department_id : string;
  dr_status : string;
  dr_objective : string;
  dr_employee_tasks : list (EmployeeTask * option string) }.

(* [sidecar/ibreeze/task/service.py:570-603 get_department_task_report] *)
Definition get_department_task_report (company_id dept_task_id : string)
    : tx DB DepartmentReport :=
  dept_task ← select_one (department_key company_id dept_task_id);
  dept_task ← found dept_task NOT_FOUND;
  people ← gets employees;
  l ← select (λ t, (et_department_task_id t =? dept_task_id) && (et_company_id t =? company_id));
  let employee_name t := em_display_name <$> List.find (λ e, (em_id e =? et_employee_id t) &&
    (em_company_id e =? et_company_id t)) people in
  mret {|
    dr_department_task_id := dept_task_id;
    dr_company_task_id := dt_company_task_id dept_task;
    dr_department_id := dt_department_id dept_task;
    dr_status := dt_status dept_task;
    dr_objective := dt_objective dept_task;
    dr_employee_tasks := map (λ t, (t, employee_name t))
      (sort_by (λ a b, text_le (et_created_at a) (et_created_at b)) l) |}.

(** ** The contract *)

Module Spec.
(** The lifecycle operations, as the RPC layer names them. *)
Inductive op :=
  | Submit | Confirm | RequestRevision (reason : string) | Reject (reason : string)
  | Pause | Resume | Cancel (reason : string).

Definition run (o : op) (now company_id task_id employee_id : string) : tx DB reply :=
  match o with
  | Submit => submit_plan_for_review now company_id task_id employee_id
  | Confirm => confirm_plan now company_id task_id employee_id
  | RequestRevision reason => request_plan_revision now company_id task_id employee_id reason
  | Reject reason => reject_plan now company_id task_id employee_id reason
  | Pause => pause_task now company_id task_id employee_id
  | Resume => resume_task now company_id task_id employee_id
  | Cancel reason => cancel_task now company_id task_id employee_id reason
  end.

(** What an operation makes of a task in status [s] with saved state [rs], given
    whether the task has a draft plan and a plan awaiting confirmation. *)
Definition next_state (o : op) (s : string) (rs : option string) (draft awaiting : bool)
    : result (string * option string) :=
  let when (b : bool) e r := if b then r else Err e in
  match o with
  | Submit => when (s ∈? ["analyzing"; "draft"]) INVALID
      (when draft (ValueError "NO_DRAFT_PLAN") (Ok ("awaiting_user_confirmation", None)))
  | Confirm => when (s =? "awaiting_user_confirmation") INVALID
      (when awaiting (ValueError "NO_AWAITING_PLAN") (Ok ("approved", None)))
  | RequestRevision _ => when (s =? "awaiting_user_confirmation") INVALID
      (Ok ("revision_requested", None))
  | Reject _ => when (s =? "awaiting_user_confirmation") INVALID (Ok ("rejected", None))
  | Pause => when (s ∈? ["executing"; "reviewing"; "fixing"]) INVALID (Ok ("paused", Some s))
  | Resume => when (s =? "paused") INVALID
      match rs with Some s' => Ok (s', None) | None => Err INVALID end
  | Cancel _ => when (negb (s ∈? ["completed"; "cancelled"; "failed"])) INVALID
      (when (negb (s ∈? task_waiting)) (IntegrityErr "company_tasks") (Ok ("cancelling", None)))
  end.
End Spec.

(** ** Lemmas *)

Section Lemmas.
Context (company_id task_id : string) (db : DB) (Hdb : db_ok db).
Implicit Types (t : CompanyTask) (f : CompanyTask → CompanyTask) (p : PlanVersion).

Definition task_at (db : DB) (company_id task_id : string) : option CompanyTask :=
  List.find (task_key company_id task_id) (company_tasks db).
Definition has_plan (db : DB) (company_id task_id status : string) : bool :=
  existsb (plans_of company_id task_id status) (company_plan_versions db).

Lemma the_task_run :
  the_task company_id task_id db =
    match task_at db company_id task_id with
    | Some t => (Ok t, db)
    | None => (Err NOT_FOUND, db)
    end.
Proof. unfold the_task, select_one, mbind, tx_bind, gets, found, lift. simpl.
  unfold task_at. by destruct (List.find _ _). Qed.

Lemma task_at_elem t :
  task_at db company_id task_id = Some t →
  t ∈ company_tasks db ∧ ct_id t = task_id ∧ ct_company_id t = company_id ∧
  company_task_ok t = true.
Proof.
  intros [Hin Hk]%find_some. apply list_elem_of_In in Hin. unfold task_key in Hk. bools.
  repeat split; [done..|]. by apply (table_ok_row db t (db_tasks_ok _ Hdb)).
Qed.

Definition keeps_key f : Prop := ∀ t, ct_id (f t) = ct_id t ∧ ct_company_id (f t) = ct_company_id t.

Lemma keeps_key_set_task status resume now completed :
  keeps_key (λ t, set_task (status t) (resume t) now (completed t) t).
Proof. by intros t. Qed.

Lemma task_keys_clash t t' :
  task_key company_id task_id t = true → task_key company_id task_id t' = true →
  (ct_id t =? ct_id t') = true.
Proof. unfold task_key. intros. bools. apply String.eqb_eq. congruence. Qed.

Lemma plan_keys_clash plan_id p p' :
  plan_key company_id plan_id p = true → plan_key company_id plan_id p' = true →
  clash p p' = true.
Proof.
  unfold plan_key. intros. bools. simpl. apply orb_true_iff. left. apply String.eqb_eq. congruence.
Qed.

(** The task update every operation ends with. *)
Lemma update_task_run guard f t :
  task_at db company_id task_id = Some t → guard t = true → keeps_key f →
  update_task company_id task_id guard f db =
    if company_task_ok (f t)
    then (Ok tt, set_rows (updated (task_key company_id task_id) f (company_tasks db)) db)
    else (Err (IntegrityErr "company_tasks"), db).
Proof.
  intros Ht Hg Hf. destruct (find_some _ _ Ht) as [Hin Hk].
  unfold update_task, mbind, tx_bind.
  rewrite (update_found (task_key company_id task_id) guard f db t).
  - simpl. by destruct (company_task_ok (f t)).
  - by apply db_tasks_ok.
  - apply task_keys_clash.
  - intros a b. simpl. by rewrite (proj1 (Hf a)).
  - intros a b. simpl. by rewrite (proj1 (Hf b)).
  - by apply list_elem_of_In.
  - done.
  - done.
Qed.

Lemma update_task_db_ok f t :
  task_at db company_id task_id = Some t → keeps_key f → company_task_ok (f t) = true →
  db_ok (set_rows (updated (task_key company_id task_id) f (company_tasks db)) db).
Proof.
  intros Ht Hf Hok. destruct Hdb. constructor; try done.
  refine (table_ok_updated (R := CompanyTask) (task_key company_id task_id) f db _ _ _ _);
    simpl; [done|..].
  - intros a b. by rewrite (proj1 (Hf a)).
  - intros a b. by rewrite (proj1 (Hf b)).
  - intros r Hr Hk. unfold table_ok in db_tasks_ok. bools.
    destruct (find_unique (task_key company_id task_id) (company_tasks db) r) as [Hr' _];
      [done|apply task_keys_clash|done|done|].
    unfold task_at in Ht. by simplify_eq.
Qed.

(** A plan update that keeps the key columns goes through and leaves the task
    tables alone. *)
Lemma update_plan_run guard status confirmed p :
  p ∈ company_plan_versions db → pv_company_id p = company_id → guard p = true →
  plan_version_ok (set_plan status (confirmed p) p) = true →
  ∃ db1, update (λ x, plan_key company_id (pv_id p) x && guard x)
           (λ x, set_plan status (confirmed x) x) db = (Ok 1, db1) ∧
    db_ok db1 ∧
    db1 = set_rows (updated (plan_key company_id (pv_id p))
                      (λ x, set_plan status (confirmed x) x) (company_plan_versions db)) db.
Proof.
  intros Hp Hc Hg Hok. eexists. split; [|split; [|reflexivity]].
  - rewrite (update_found (plan_key company_id (pv_id p)) guard _ db p); simpl.
    + by rewrite Hok.
    + by apply db_plans_ok.
    + apply plan_keys_clash.
    + done.
    + done.
    + done.
    + unfold plan_key. rewrite Hc, !String.eqb_refl. done.
    + done.
  - destruct Hdb. constructor; try done.
    refine (table_ok_updated (R := PlanVersion) (plan_key company_id (pv_id p)) _ db _ _ _ _);
    simpl; [done..|].
    intros r Hr Hk. unfold plan_version_ok in *. simpl in *. bools.
    apply andb_true_iff; split; [by apply bool_decide_eq_true|].
    unfold table_ok in db_plans_ok. bools.
    rewrite forallb_forall in H1. apply list_elem_of_In, H1 in Hr. simpl in Hr.
    unfold plan_version_ok in Hr. by bools.
Qed.
End Lemmas.

(** [db'] is [db] after the task's row moved to [(status, resume)]: the version
    is bumped, every other task is untouched, the constraints still hold. *)
Definition moved (db db' : DB) (company_id task_id status : string) (resume : option string)
    : Prop :=
  db_ok db' ∧
  (∃ t t', task_at db company_id task_id = Some t ∧ task_at db' company_id task_id = Some t' ∧
     ct_status t' = status ∧ ct_resume_state t' = resume ∧
     ct_version t' = ct_version t + 1) ∧
  (∀ c i, i ≠ task_id → task_at db' c i = task_at db c i).

Lemma update_task_moved company_id task_id db guard now s rs completed t :
  db_ok db → task_at db company_id task_id = Some t → guard t = true →
  company_task_ok (set_task s (rs t) now (completed t) t) = true →
  ∃ db', update_task company_id task_id guard
           (λ t, set_task s (rs t) now (completed t) t) db = (Ok tt, db') ∧
    moved db db' company_id task_id s (rs t).
Proof.
  intros Hdb Ht Hg Hok.
  assert (keeps_key (λ t, set_task s (rs t) now (completed t) t)) as Hf by done.
  eexists. split; [|split; [|split]].
  - rewrite (update_task_run _ _ _ Hdb _ _ t) by done. by rewrite Hok.
  - by apply update_task_db_ok with t.
  - exists t, (set_task s (rs t) now (completed t) t). split; [done|]. split; [|done].
    unfold task_at. simpl. apply (find_updated _ (λ t, set_task s (rs t) now (completed t) t));
      done.
  - intros c i Hi. unfold task_at. simpl. apply find_updated_other. intros x Hx.
    unfold task_key in *. simpl. bools. subst.
    by rewrite (proj2 (String.eqb_neq (ct_id x) i) (not_eq_sym Hi)).
Qed.

Lemma moved_from db db1 db' company_id task_id status resume :
  company_tasks db1 = company_tasks db →
  moved db1 db' company_id task_id status resume → moved db db' company_id task_id status resume.
Proof. unfold moved, task_at. by intros ->. Qed.

(** A task in a non-waiting status stays well formed in any other. *)
Lemma set_task_ok s t now completed :
  company_task_ok t = true → (ct_status t ∈? task_waiting) = false →
  (s ∈? company_task_statuses) = true → (s ∈? task_waiting) = false →
  company_task_ok (set_task s (ct_resume_state t) now completed t) = true.
Proof.
  unfold company_task_ok, resume_consistent. simpl. intros Ht Hw Hs Hs'.
  rewrite Hw in Ht. rewrite Hs'. by andbs.
Qed.

Lemma waiting_resume t :
  company_task_ok t = true → (ct_status t ∈? task_waiting) = true →
  ∃ s, ct_resume_state t = Some s ∧ (s ∈? company_task_statuses) = true ∧
    (s ∈? task_waiting) = false ∧ s ≠ "" ∧ s ∈ resume_states.
Proof.
  unfold company_task_ok, resume_consistent. intros Ht Hw. rewrite Hw in Ht. andbs.
  destruct (ct_resume_state t) as [s|]; [|done]. exists s. split; [done|].
  assert (forallb (λ s, (s ∈? company_task_statuses) && negb (s ∈? task_waiting) &&
    negb (s =? "")) resume_states = true) as Hall by (vm_compute; reflexivity).
  rewrite forallb_forall in Hall. simpl in H2. bools.
  specialize (Hall s (proj1 (list_elem_of_In _ _) H2)). andbs.
  repeat split; [done|by apply negb_true_iff| |done]. by bools.
Qed.

Lemma set_task_resume_ok s t now completed :
  company_task_ok t = true → (ct_status t ∈? task_waiting) = true →
  ct_resume_state t = Some s →
  company_task_ok (set_task s None now completed t) = true.
Proof.
  intros Ht Hw Hs. destruct (waiting_resume t) as (s' & Hs' & H1 & H2 & _); [done..|].
  rewrite Hs in Hs'. injection Hs' as <-.
  unfold company_task_ok, resume_consistent in *. simpl. rewrite H2.
  by andbs.
Qed.

(** An operation behaves as the contract says: it fails with the contract's
    error and no trace, or succeeds and moves the task. *)
Definition meets (out : result reply * DB) (db : DB) (company_id task_id : string)
    (expected : result (string * option string)) : Prop :=
  match expected with
  | Err e => out = (Err e, db)
  | Ok (s, rs) => ∃ r db', out = (Ok r, db') ∧ moved db db' company_id task_id s rs
  end.

(** The common tail: update the task, answer. *)
Lemma tail_meets company_id task_id db db1 guard now s rs completed t (r : reply) :
  db_ok db1 → company_tasks db1 = company_tasks db →
  task_at db company_id task_id = Some t → guard t = true →
  company_task_ok (set_task s (rs t) now (completed t) t) = true →
  ∃ r' db', (update_task company_id task_id guard (λ t, set_task s (rs t) now (completed t) t);;
             mret r : tx DB reply) db1 = (Ok r', db') ∧ moved db db' company_id task_id s (rs t).
Proof.
  intros Hdb1 Heq Ht Hg Hok.
  destruct (update_task_moved company_id task_id db1 guard now s rs completed t)
    as (db' & Hrun & Hm); [done| |done|done|].
  { unfold task_at in *. by rewrite Heq. }
  exists r, db'. split; [by rewrite (tx_bind_run _ _ _ tt db')|]. by eapply moved_from.
Qed.

Section Operations.
Context (now company_id task_id employee_id : string) (db : DB) (Hdb : db_ok db).
Context (t : CompanyTask) (Ht : task_at db company_id task_id = Some t).

Abbreviation meets m e := (meets m db company_id task_id e).
Abbreviation draft := (has_plan db company_id task_id "draft").
Abbreviation awaiting := (has_plan db company_id task_id "awaiting_user_confirmation").

Lemma the_task_found : the_task company_id task_id db = (Ok t, db).
Proof. rewrite the_task_run. by rewrite Ht. Qed.

(** Every operation reads the task and tests its status; past the test: *)
Ltac past_guard Hs :=
  rewrite (tx_bind_run _ _ _ _ _ the_task_found); simpl;
  match goal with
  | |- context [check ?b _] => destruct b eqn:Hs; [|done]
  end;
  rewrite (tx_bind_run _ _ _ _ _ (check_run _ _)).

Lemma t_ok : company_task_ok t = true.
Proof. by eapply task_at_elem. Qed.

(** A status outside the waiting ones, from a test on it. *)
Lemma not_waiting_in l :
  (ct_status t ∈? l) = true → forallb (λ s, negb (s ∈? task_waiting)) l = true →
  (ct_status t ∈? task_waiting) = false.
Proof.
  intros Hin Hl. apply negb_true_iff. by apply (mem_all (λ s, negb (s ∈? task_waiting)) _ l).
Qed.

Lemma not_waiting_eq s :
  ct_status t = s → (s ∈? task_waiting) = false → (ct_status t ∈? task_waiting) = false.
Proof. by intros ->. Qed.

Lemma has_plan_select status :
  select_one (plans_of company_id task_id status) db =
    (Ok (List.find (plans_of company_id task_id status) (company_plan_versions db)), db).
Proof. done. Qed.

Lemma has_plan_find status :
  has_plan db company_id task_id status =
    match List.find (plans_of company_id task_id status) (company_plan_versions db) with
    | Some _ => true | None => false end.
Proof.
  unfold has_plan. induction (company_plan_versions db) as [|p l IH]; simpl; [done|].
  by destruct (plans_of company_id task_id status p).
Qed.

(** The plan update of an operation, on a plan picked by [plans_of]. *)
Lemma plan_step guard status' confirmed p status :
  p ∈ company_plan_versions db → plans_of company_id task_id status p = true →
  guard p = true → plan_version_ok (set_plan status' (confirmed p) p) = true →
  ∃ db1, update (λ x, plan_key company_id (pv_id p) x && guard x)
           (λ x, set_plan status' (confirmed x) x) db = (Ok 1, db1) ∧
    db_ok db1 ∧ company_tasks db1 = company_tasks db.
Proof.
  intros Hp Hk Hg Hok. unfold plans_of in Hk. bools.
  destruct (update_plan_run company_id db Hdb guard status' confirmed p)
    as (db1 & Hrun & Hdb1 & ->); [done..|]. eexists. by split_and!.
Qed.

Lemma plan_ok_status p status status' confirmed :
  p ∈ company_plan_versions db →
  (status' ∈? ["draft"; "awaiting_user_confirmation"; "approved"; "superseded"; "rejected"])
    = true →
  plans_of company_id task_id status p = true →
  plan_version_ok (set_plan status' confirmed p) = true.
Proof.
  intros Hp Hs _. pose proof (table_ok_row db p (db_plans_ok _ Hdb) Hp) as Hok. simpl in Hok.
  unfold plan_version_ok in *. simpl. by andbs.
Qed.

Lemma pause_meets :
  meets (pause_task now company_id task_id employee_id db)
    (Spec.next_state Spec.Pause (ct_status t) (ct_resume_state t) draft awaiting).
Proof.
  unfold pause_task. past_guard Hs.
  pose proof t_ok as Hok. assert (Hw := not_waiting_in _ Hs eq_refl).
  eapply (tail_meets _ _ db db _ _ "paused" (λ _, Some (ct_status t)) ct_completed_at t);
    [done..|].
  unfold company_task_ok in *. andbs; [done| |by apply resume_consistent_saved|done].
  by apply (mem_all (λ s, mem s resume_states) _ _ Hs).
Qed.

Lemma resume_meets :
  meets (resume_task now company_id task_id employee_id db)
    (Spec.next_state Spec.Resume (ct_status t) (ct_resume_state t) draft awaiting).
Proof.
  unfold resume_task. past_guard Hs.
  assert ((ct_status t ∈? task_waiting) = true) as Hw by (bools; by rewrite Hs).
  destruct (waiting_resume t t_ok Hw) as (s & Hrs & _ & _ & Hne & _). rewrite Hrs. simpl.
  rewrite (proj2 (String.eqb_neq s "") Hne).
  eapply (tail_meets _ _ db db _ _ s (λ _, None) ct_completed_at t); [done..|].
  apply set_task_resume_ok; [apply t_ok|done|done].
Qed.

Lemma cancel_meets reason :
  meets (cancel_task now company_id task_id employee_id reason db)
    (Spec.next_state (Spec.Cancel reason) (ct_status t) (ct_resume_state t) draft awaiting).
Proof.
  unfold cancel_task. past_guard Hs.
  destruct (ct_status t ∈? task_waiting) eqn:Hw; simpl.
  - apply tx_bind_run_err. rewrite (update_task_run _ _ _ Hdb _ _ t) by done.
    destruct (waiting_resume t t_ok Hw) as (s & Hrs & _).
    unfold company_task_ok. simpl. rewrite Hrs, resume_consistent_left by done.
    by rewrite andb_false_r.
  - pose proof t_ok as Hok. assert (ct_resume_state t = None) as Hrs.
    { unfold company_task_ok, resume_consistent in Hok. rewrite Hw in Hok. by bools. }
    rewrite <-Hrs.
    eapply (tail_meets _ _ db db _ _ "cancelling" ct_resume_state ct_completed_at t); [done..|].
    by apply set_task_ok.
Qed.

Lemma not_waiting_resume : (ct_status t ∈? task_waiting) = false → ct_resume_state t = None.
Proof.
  intros Hw. pose proof t_ok as Hok.
  unfold company_task_ok, resume_consistent in Hok. rewrite Hw in Hok. by bools.
Qed.

Lemma submit_meets :
  meets (submit_plan_for_review now company_id task_id employee_id db)
    (Spec.next_state Spec.Submit (ct_status t) (ct_resume_state t) draft awaiting).
Proof.
  unfold submit_plan_for_review. past_guard Hs.
  assert (Hw := not_waiting_in _ Hs eq_refl). rewrite has_plan_find, find_where.
  erewrite (tx_bind_run (select _)) by reflexivity. simpl.
  set (le := λ a b : PlanVersion, _).
  set (l := where_ (plans_of company_id task_id "draft") (company_plan_versions db)).
  destruct (head (sort_by le l)) as [p|] eqn:Hp.
  - erewrite (tx_bind_run (found _ _)) by reflexivity.
    assert (p ∈ l) as Hin.
    { rewrite <-(sort_by_perm le l). destruct (sort_by le l); simplify_eq/=. set_solver. }
    destruct (head l) eqn:Hl; [|by destruct l; set_solver].
    apply elem_where in Hin as [Hin Hk]. 
    destruct (plan_step (λ p, pv_status p =? "draft") "awaiting_user_confirmation"
      pv_confirmed_at p "draft") as (db1 & Hrun & Hdb1 & Heq);
      [done..|unfold plans_of in Hk; by bools; apply String.eqb_eq|
       by eapply plan_ok_status|].
    erewrite (tx_bind_run (update _ _)) by exact Hrun.
    rewrite (tx_bind_run (check _ _) _ _ tt db1) by done.
    rewrite <-(not_waiting_resume Hw).
    eapply (tail_meets _ _ db db1 _ _ _ ct_resume_state ct_completed_at t); [done..|].
    apply set_task_ok; [apply t_ok|done..].
  - assert (l = []) as Hl.
    { apply Permutation_nil. rewrite <-(sort_by_perm le l).
      by destruct (sort_by le l). }
    unfold l in *. by rewrite Hl.
Qed.
(** The plan steps without a guard of their own. *)
Lemma plan_step_unguarded status' confirmed p status :
  p ∈ company_plan_versions db → plans_of company_id task_id status p = true →
  (status' ∈? ["draft"; "awaiting_user_confirmation"; "approved"; "superseded"; "rejected"])
    = true →
  ∃ db1, update (plan_key company_id (pv_id p)) (λ x, set_plan status' (confirmed x) x) db
           = (Ok 1, db1) ∧ db_ok db1 ∧ company_tasks db1 = company_tasks db.
Proof.
  intros Hp Hk Hs.
  destruct (plan_step (λ _, true) status' confirmed p status) as (db1 & Hrun & ?);
    [done..|by eapply plan_ok_status|].
  exists db1. split; [|done]. rewrite <-Hrun. apply update_ext. intros x. by rewrite andb_true_r.
Qed.

Lemma close_plan_run plan status :
  List.find (plans_of company_id task_id "awaiting_user_confirmation")
    (company_plan_versions db) = plan →
  (status ∈? ["draft"; "awaiting_user_confirmation"; "approved"; "superseded"; "rejected"])
    = true →
  ∃ db1, close_plan company_id plan status db = (Ok tt, db1) ∧ db_ok db1 ∧
    company_tasks db1 = company_tasks db.
Proof.
  intros Hp Hs. destruct plan as [p|]; [|by exists db].
  apply find_some in Hp as [Hin%list_elem_of_In Hk].
  destruct (plan_step_unguarded status pv_confirmed_at p "awaiting_user_confirmation")
    as (db1 & Hrun & ?); [done..|].
  exists db1. split; [|done]. simpl. by erewrite tx_bind_run by exact Hrun.
Qed.

Lemma confirm_meets :
  meets (confirm_plan now company_id task_id employee_id db)
    (Spec.next_state Spec.Confirm (ct_status t) (ct_resume_state t) draft awaiting).
Proof.
  unfold confirm_plan. past_guard Hs.
  assert (Hw := not_waiting_eq _ (proj1 (String.eqb_eq _ _) Hs) eq_refl).
  rewrite has_plan_find, (tx_bind_run _ _ _ _ _ (has_plan_select _)).
  destruct (List.find _ (company_plan_versions db)) as [p|] eqn:Hp; [|done].
  apply find_some in Hp as [Hin%list_elem_of_In Hk].
  destruct (plan_step_unguarded "approved" (λ _, Some now) p "awaiting_user_confirmation")
    as (db1 & Hrun & Hdb1 & Heq); [done..|].
  erewrite (tx_bind_run (found _ _)) by reflexivity.
  erewrite (tx_bind_run (update _ _)) by exact Hrun.
  rewrite <-(not_waiting_resume Hw).
  eapply (tail_meets _ _ db db1 _ _ _ ct_resume_state ct_completed_at t); [done..|].
  apply set_task_ok; [apply t_ok|done..].
Qed.

Lemma revision_meets reason :
  meets (request_plan_revision now company_id task_id employee_id reason db)
    (Spec.next_state (Spec.RequestRevision reason) (ct_status t) (ct_resume_state t)
       draft awaiting).
Proof.
  unfold request_plan_revision. past_guard Hs.
  assert (Hw := not_waiting_eq _ (proj1 (String.eqb_eq _ _) Hs) eq_refl).
  rewrite (tx_bind_run _ _ _ _ _ (has_plan_select _)).
  destruct (close_plan_run _ "superseded" eq_refl) as (db1 & Hrun & Hdb1 & Heq); [done|].
  rewrite (tx_bind_run _ _ _ _ _ Hrun), <-(not_waiting_resume Hw).
  eapply (tail_meets _ _ db db1 _ _ _ ct_resume_state ct_completed_at t); [done..|].
  apply set_task_ok; [apply t_ok|done..].
Qed.

Lemma reject_meets reason :
  meets (reject_plan now company_id task_id employee_id reason db)
    (Spec.next_state (Spec.Reject reason) (ct_status t) (ct_resume_state t) draft awaiting).
Proof.
  unfold reject_plan. past_guard Hs.
  assert (Hw := not_waiting_eq _ (proj1 (String.eqb_eq _ _) Hs) eq_refl).
  rewrite (tx_bind_run _ _ _ _ _ (has_plan_select _)).
  destruct (close_plan_run _ "rejected" eq_refl) as (db1 & Hrun & Hdb1 & Heq); [done|].
  rewrite (tx_bind_run _ _ _ _ _ Hrun), <-(not_waiting_resume Hw).
  eapply (tail_meets _ _ db db1 _ _ _ ct_resume_state (λ _, Some now) t); [done..|].
  apply (set_task_ok _ _ _ (Some now)); [apply t_ok|done..].
Qed.

Lemma run_meets o :
  meets (Spec.run o now company_id task_id employee_id db)
    (Spec.next_state o (ct_status t) (ct_resume_state t) draft awaiting).
Proof.
  destruct o; [apply submit_meets|apply confirm_meets|apply revision_meets|apply reject_meets|
    apply pause_meets|apply resume_meets|apply cancel_meets].
Qed.
End Operations.

Lemma run_unknown o now company_id task_id employee_id db :
  task_at db company_id task_id = None →
  Spec.run o now company_id task_id employee_id db = (Err NOT_FOUND, db).
Proof.
  intros Ht.
  assert (the_task company_id task_id db = (Err NOT_FOUND, db)) as Hno
    by (rewrite the_task_run; by rewrite Ht).
  destruct o; simpl; by apply tx_bind_run_err.
Qed.

(** A move of the contract that is an H.7 transition or one of the shortcuts. *)
Definition legal_move (s : string) (rs : option string) (s' : string) (rs' : option string)
    : Prop :=
  (s = "draft" ∧ s' = "awaiting_user_confirmation") ∨
  (s ∈ ["rejected"; "cancelling"] ∧ s' = "cancelling") ∨
  ∃ res, StateMachine.transition "CompanyTask" s s'
           (if s' ∈? task_waiting then rs' else rs) = Ok res.

Lemma next_state_legal o s rs draft awaiting s' rs' :
  s ∈ company_task_statuses →
  (∀ x, rs = Some x → x ∈ resume_states) →
  Spec.next_state o s rs draft awaiting = Ok (s', rs') → legal_move s rs s' rs'.
Proof.
  intros Hs Hrs Hn. unfold company_task_statuses in Hs. unfold legal_move.
  destruct o; simpl in Hn.
  - destruct (s ∈? _) eqn:E, draft; simplify_eq. bools. elem_cases E; subst; [|by left].
    right; right; eexists; vm_compute; reflexivity.
  - destruct (s =? _) eqn:E, awaiting; simplify_eq. bools. subst.
    right; right; eexists; vm_compute; reflexivity.
  - destruct (s =? _) eqn:E; simplify_eq. bools. subst.
    right; right; eexists; vm_compute; reflexivity.
  - destruct (s =? _) eqn:E; simplify_eq. bools. subst.
    right; right; eexists; vm_compute; reflexivity.
  - destruct (s ∈? _) eqn:E; simplify_eq. bools.
    elem_cases E; subst; right; right; eexists; vm_compute; reflexivity.
  - destruct (s =? _) eqn:E, rs as [x|]; simplify_eq. bools. subst.
    specialize (Hrs s' eq_refl).
    elem_cases Hrs; subst; right; right; eexists; vm_compute; reflexivity.
  - destruct (negb (s ∈? _)) eqn:E, (negb (s ∈? task_waiting)) eqn:E'; simplify_eq.
    elem_cases Hs; subst; first
      [discriminate | right; right; eexists; vm_compute; reflexivity |
       right; left; split; [repeat constructor|done]].
Qed.

(** ** Properties *)

(** C3. Refinement: on a committed database each of the seven lifecycle
    operations implements the contract on every branch.  An unknown task is
    [RESOURCE_NOT_FOUND]; a known one either fails with the contract's error,
    leaving the database exactly as it was, or moves to the contract's status
    and saved state with its version bumped, every other task untouched and
    every constraint still holding.  In particular [OPTIMISTIC_LOCK_CONFLICT] is
    never raised inside the single-writer transaction. *)
Theorem lifecycle_refines_spec o now company_id task_id employee_id db
    (Hdb : db_ok db) :
  match task_at db company_id task_id with
  | None => Spec.run o now company_id task_id employee_id db = (Err NOT_FOUND, db)
  | Some t =>
      meets (Spec.run o now company_id task_id employee_id db) db company_id task_id
        (Spec.next_state o (ct_status t) (ct_resume_state t)
           (has_plan db company_id task_id "draft")
           (has_plan db company_id task_id "awaiting_user_confirmation"))
  end.
Proof.
  destruct (task_at db company_id task_id) as [t|] eqn:Ht;
    [by apply run_meets|by apply run_unknown].
Qed.

(** A database with one task, for the witnesses. *)
Definition demo_task (status : string) (resume : option string) : CompanyTask := {|
  ct_id := "t1"; ct_company_id := "c1"; ct_supersedes_task_id := None;
  ct_company_conversation_id := "v1"; ct_user_message_event_id := "e1"; ct_title := "demo";
  ct_status := status; ct_resume_state := resume; ct_active_plan_id := None;
  ct_created_at := "2025-01-01"; ct_updated_at := "2025-01-01"; ct_completed_at := None;
  ct_ceo_confirmed_at := None; ct_version := 1 |}.
Definition demo_employee_task (status : string) (resume : option string) : EmployeeTask := {|
  et_id := "x1"; et_company_id := "c1"; et_department_task_id := "d1"; et_employee_id := "p1";
  et_task_kind := "standard"; et_objective := "build"; et_acceptance_criteria_json := JList [];
  et_status := status; et_resume_state := resume; et_created_at := "2025-01-01";
  et_updated_at := "2025-01-01"; et_version := 1 |}.
Definition demo_department_task : DepartmentTask := {|
  dt_id := "d1"; dt_company_id := "c1"; dt_company_task_id := "t1"; dt_department_id := "dep1";
  dt_stage_key := "s1"; dt_objective := "build"; dt_deliverables_json := JList [];
  dt_acceptance_criteria_json := JList []; dt_status := "executing"; dt_resume_state := None;
  dt_created_at := "2025-01-01"; dt_updated_at := "2025-01-01"; dt_completed_at := None;
  dt_version := 1 |}.
Definition demo_db (t : CompanyTask) (e : EmployeeTask) : DB := {|
  company_tasks := [t]; company_plan_versions := []; department_tasks := [demo_department_task];
  department_task_dependencies := []; employee_tasks := [e];
  employees := [{| em_id := "p1"; em_company_id := "c1"; em_display_name := "Ann" |};
                {| em_id := "p2"; em_company_id := "c1"; em_display_name := "Bob" |}];
  agent_runs := []; artifacts := [] |}.
Definition demo (status : string) (resume : option string) : DB :=
  demo_db (demo_task status resume) (demo_employee_task "running" None).

Lemma lifecycle_refines_spec_witness :
  Spec.run Spec.Pause "now" "c1" "t2" "p1" (demo "executing" None)
    = (Err NOT_FOUND, demo "executing" None).
Proof.
  apply (lifecycle_refines_spec Spec.Pause "now" "c1" "t2" "p1" (demo "executing" None)).
  constructor; vm_compute; reflexivity.
Defined.

(** The lifecycle follows H.7: whenever an operation succeeds, the move it
    made is one [transition] accepts, with the saved state of the waiting row on
    the waiting side, except for two shortcuts of the service: submitting a plan
    straight from [draft], and cancelling a task that is [rejected] or already
    [cancelling]. *)
Lemma lifecycle_follows_h7 o now company_id task_id employee_id db r db'
    (Hdb : db_ok db)
    (Hrun : Spec.run o now company_id task_id employee_id db = (Ok r, db')) :
  ∃ t t', task_at db company_id task_id = Some t ∧ task_at db' company_id task_id = Some t' ∧
    legal_move (ct_status t) (ct_resume_state t) (ct_status t') (ct_resume_state t').
Proof.
  destruct (task_at db company_id task_id) as [t|] eqn:Ht.
  2:{ by rewrite run_unknown in Hrun. }
  pose proof (run_meets now company_id task_id employee_id db Hdb t Ht o) as Hm.
  rewrite Hrun in Hm. pose proof (t_ok _ _ _ Hdb t Ht) as Hok.
  destruct (Spec.next_state _ _ _ _ _) as [[s rs]|e] eqn:Hn; [|discriminate Hm].
  destruct Hm as (r' & db'' & [= <- <-] & _ & (t0 & t' & Ht0 & Ht' & Hs & Hrs & _) & _).
  assert (t0 = t) as -> by congruence. clear Ht0. exists t, t'. split; [done|]. split; [done|].
  rewrite Hs, Hrs. eapply next_state_legal; [| |done].
  - unfold company_task_ok in Hok. by bools.
  - intros x Hx. unfold company_task_ok in Hok. rewrite Hx in Hok. andbs. simpl in *. by bools.
Qed.

Lemma lifecycle_follows_h7_witness :
  ∃ t t', task_at (demo "executing" None) "c1" "t1" = Some t ∧
    task_at (Spec.run Spec.Pause "now" "c1" "t1" "p1" (demo "executing" None)).2 "c1" "t1"
      = Some t' ∧
    legal_move (ct_status t) (ct_resume_state t) (ct_status t') (ct_resume_state t').
Proof.
  eapply (lifecycle_follows_h7 Spec.Pause "now" "c1" "t1" "p1" (demo "executing" None)).
  - constructor; vm_compute; reflexivity.
  - vm_compute. reflexivity.
Defined.

(** Pausing and resuming round-trips: a task the service pauses can be
    resumed at any later time, and ends in the status it was paused in with
    nothing saved, two versions on. *)
Lemma pause_then_resume now later company_id task_id employee_id db r db1 t
    (Hdb : db_ok db) (Ht : task_at db company_id task_id = Some t)
    (Hpause : pause_task now company_id task_id employee_id db = (Ok r, db1)) :
  ∃ db2 t2, resume_task later company_id task_id employee_id db1
      = (Ok [("task_id", task_id); ("status", ct_status t)], db2) ∧
    task_at db2 company_id task_id = Some t2 ∧ db_ok db2 ∧
    ct_status t2 = ct_status t ∧ ct_resume_state t2 = None ∧ ct_version t2 = ct_version t + 2.
Proof.
  pose proof (pause_meets now company_id task_id employee_id db Hdb t Ht) as Hp. simpl in Hp.
  destruct (ct_status t ∈? _) eqn:Hs; simpl in Hp; [|congruence].
  destruct Hp as (r' & db' & Hrun & Hdb1 & (t0 & t1 & Ht0 & Ht1 & Hs1 & Hr1 & Hv1) & _).
  assert (t0 = t) as -> by congruence. assert (db' = db1) as -> by congruence.
  pose proof (resume_meets later company_id task_id employee_id db1 Hdb1 t1 Ht1) as Hr.
  rewrite Hs1, Hr1 in Hr. destruct Hr as (r2 & db2 & Hrun2 & Hdb2 & (t1' & t2 & ? & ? & ? & ? & ?) & _).
  assert (t1' = t1) as -> by congruence. exists db2, t2. split; [|split_and!; try done; lia].
  rewrite Hrun2. f_equal. f_equal. revert Hrun2. unfold resume_task.
  rewrite (tx_bind_run _ _ _ _ _ (the_task_found company_id task_id db1 t1 Ht1)).
  rewrite Hs1, Hr1. rewrite (tx_bind_run _ _ _ _ _ (check_run _ _)).
  assert (or_default (Some (ct_status t)) "executing" = ct_status t) as ->.
  { simpl. destruct (ct_status t =? "") eqn:He; [|done]. bools. elem_cases Hs; congruence. }
  intros Hrun2. by tx_inv.
Qed.

Lemma pause_then_resume_witness :
  ∃ db2 t2, resume_task "later" "c1" "t1" "p1"
      (pause_task "now" "c1" "t1" "p1" (demo "reviewing" None)).2
      = (Ok [("task_id", "t1"); ("status", "reviewing")], db2) ∧
    task_at db2 "c1" "t1" = Some t2 ∧ db_ok db2 ∧
    ct_status t2 = "reviewing" ∧ ct_resume_state t2 = None ∧ ct_version t2 = 1 + 2.
Proof.
  eapply (pause_then_resume "now" "later" "c1" "t1" "p1" (demo "reviewing" None) _ _
    (demo_task "reviewing" None)).
  - constructor; vm_compute; reflexivity.
  - vm_compute. reflexivity.
  - vm_compute. reflexivity.
Defined.

(** The defect: a task that is paused or waiting cannot be cancelled.  H.7
    allows the move to [cancelling], but [cancel_task] keeps [resume_state],
    which the table's [CHECK] forbids outside the waiting statuses, so the
    statement fails and nothing changes. *)
Lemma cancel_waiting_task_fails now company_id task_id employee_id reason db t
    (Hdb : db_ok db) (Ht : task_at db company_id task_id = Some t)
    (Hw : ct_status t ∈ task_waiting) :
  StateMachine.can_transition "CompanyTask" (ct_status t) "cancelling" None = Ok true ∧
  cancel_task now company_id task_id employee_id reason db
    = (Err (IntegrityErr "company_tasks"), db).
Proof.
  split.
  - elem_cases Hw; rewrite Hw; vm_compute; reflexivity.
  - pose proof (cancel_meets now company_id task_id employee_id db Hdb t Ht reason) as Hc.
    simpl in Hc. assert ((ct_status t ∈? task_waiting) = true) as Hwb
      by by apply bool_decide_eq_true.
    rewrite Hwb in Hc. destruct (ct_status t ∈? ["completed"; _; _]) eqn:Hterm; [|done].
    apply (mem_all (λ s, negb (s ∈? task_waiting))) in Hterm; [|done].
    by rewrite Hwb in Hterm.
Qed.

Lemma cancel_waiting_task_fails_witness :
  cancel_task "now" "c1" "t1" "p1" "stop" (demo "paused" (Some "executing"))
    = (Err (IntegrityErr "company_tasks"), demo "paused" (Some "executing")).
Proof.
  apply (cancel_waiting_task_fails "now" "c1" "t1" "p1" "stop" _
    (demo_task "paused" (Some "executing"))).
  - constructor; vm_compute; reflexivity.
  - vm_compute. reflexivity.
  - vm_compute. repeat constructor.
Defined.

(** [list_company_tasks] lists exactly the company's tasks (of the given
    status), each as often as it is stored, newest first, and changes
    nothing. *)
Lemma list_company_tasks_spec company_id status db :
  ∃ l, list_company_tasks company_id status db = (Ok l, db) ∧
    Sorted (ordered newest_first) l ∧
    l ≡ₚ List.filter (λ t, (ct_company_id t =? company_id) &&
           match status with Some s => ct_status t =? s | None => true end) (company_tasks db).
Proof.
  eexists. split; [reflexivity|]. split; [|apply sort_by_perm].
  apply sort_by_sorted. intros a b. unfold newest_first.
  rewrite (String.eqb_sym (ct_created_at b)). destruct (_ =? _); apply text_le_total.
Qed.

Definition employee_key (company_id task_id : string) (t : EmployeeTask) : bool :=
  (et_id t =? task_id) && (et_company_id t =? company_id).

Lemma employee_keys_clash company_id task_id a b :
  employee_key company_id task_id a = true → employee_key company_id task_id b = true →
  clash a b = true.
Proof. unfold employee_key. intros. bools. simpl. apply String.eqb_eq. congruence. Qed.

(** Cancelling keeps the saved state, which only a task without one survives. *)
Lemma cancelled_row_ok now t :
  employee_task_ok t = true →
  employee_task_ok (cancel_employee_task now t) =
    negb (et_status t ∈? ["waiting_resource"; "paused"]).
Proof.
  unfold employee_task_ok. intros Hok. repeat apply andb_true_iff in Hok as [Hok ?]. simpl.
  rewrite Hok, H0. simpl. unfold resume_consistent in H.
  destruct (et_status t ∈? ["waiting_resource"; "paused"]); simpl.
  - destruct (et_resume_state t); [|done]. by rewrite resume_consistent_left.
  - bools. rewrite H. by rewrite resume_consistent_clear.
Qed.

Lemma insert_successor db fresh :
  db_ok db → employee_task_ok fresh = true →
  (∀ t, t ∈ employee_tasks db → et_id t ≠ et_id fresh) → refs_ok db fresh = true →
  let db1 := set_rows (R := EmployeeTask) (employee_tasks db ++ [fresh]) db in
  insert_row fresh db = (Ok tt, db1) ∧ db_ok db1.
Proof.
  intros Hdb Hok Hfresh Hrefs db1. pose proof (db_employee_tasks_ok _ Hdb) as Het.
  assert (insert_row fresh db = (Ok tt, db1)) as Hins.
  { apply insert_ok. split_and!; [done| |done|done].
    apply no_clash_snoc; [exact (table_no_clash _ Het)|].
    intros x Hx. simpl. by apply String.eqb_neq, Hfresh. }
  split; [done|]. destruct Hdb. constructor; try done.
  exact (insert_table_ok fresh db _ _ Hins (table_rows_ok _ Het)).
Qed.

(** Replacing an employee.  With a fresh id and an existing successor, the
    transaction adds the old task's work as a new [assigned] task of the
    successor and marks the old one [cancelled], whatever terminal or running
    status it had and without a version bump; but when the old task is paused or
    waiting, whose [resume_state] the statement keeps, the [CHECK] rejects it
    and the whole transaction is rolled back. *)
Theorem replace_employee_outcome now new_id company_id dept_task_id old_id new_employee_id db task
    (Hdb : db_ok db)
    (Htask : List.find (λ t, (et_department_task_id t =? dept_task_id) &&
       (et_company_id t =? company_id) && (et_employee_id t =? old_id)) (employee_tasks db)
       = Some task)
    (Hfresh : ∀ t, t ∈ employee_tasks db → et_id t ≠ new_id)
    (Hrefs : refs_ok db (successor now new_id company_id dept_task_id new_employee_id task)
       = true) :
  let out := atomically
    (replace_employee now new_id company_id dept_task_id old_id new_employee_id) db in
  if et_status task ∈? ["waiting_resource"; "paused"]
  then out = (Err (IntegrityErr "employee_tasks"), db)
  else ∃ r db', out = (Ok r, db') ∧ db_ok db' ∧
    employee_tasks db' =
      updated (employee_key company_id (et_id task)) (cancel_employee_task now)
        (employee_tasks db) ++
      [successor now new_id company_id dept_task_id new_employee_id task].
Proof.
  set (fresh := successor _ _ _ _ _ _) in *. set (key := employee_key company_id (et_id task)).
  destruct (find_some _ _ Htask) as [Hin%list_elem_of_In Hk].
  assert (key task = true) as Hkey.
  { unfold key, employee_key. rewrite String.eqb_refl. by andbs. }
  pose proof (table_ok_row db task (db_employee_tasks_ok _ Hdb) Hin) as Hok. simpl in Hok.
  destruct (insert_successor db fresh) as [Hins Hdb1]; [done| |done|done|].
  { unfold employee_task_ok in *. simpl. by andbs. }
  set (db1 := set_rows (R := EmployeeTask) _ _) in *.
  assert (task ∈ employee_tasks db1) as Hin1 by (simpl; set_solver).
  pose proof (update_found' (R := EmployeeTask) key (cancel_employee_task now) db1 task
    (db_employee_tasks_ok _ Hdb1) (employee_keys_clash _ _) (λ _ _, eq_refl) (λ _ _, eq_refl)
    Hin1 Hkey) as Hupd.
  simpl in Hupd. rewrite cancelled_row_ok in Hupd by done.
  unfold replace_employee, atomically.
  erewrite (tx_bind_run (select_one _)) by (unfold select_one, gets; simpl; by rewrite Htask).
  erewrite (tx_bind_run (found _ _)) by reflexivity.
  rewrite (tx_bind_run _ _ _ _ _ Hins).
  destruct (et_status task ∈? ["waiting_resource"; "paused"]) eqn:Hs.
  - by erewrite (tx_bind_run_err (update _ _)) by exact Hupd.
  - erewrite (tx_bind_run (update _ _)) by exact Hupd.
    eexists _, _. split; [reflexivity|]. split.
    + pose proof (update_table_ok (R := EmployeeTask) _ _ _ _ _ Hupd
        (table_rows_ok _ (db_employee_tasks_ok _ Hdb1))) as Het.
      destruct Hdb1. by constructor.
    + simpl. unfold updated. rewrite map_app. simpl. unfold key at 2, employee_key. simpl.
      rewrite (proj2 (String.eqb_neq new_id (et_id task))); [done|].
      intros Heq. by destruct (Hfresh task Hin).
Qed.

Lemma replace_employee_outcome_witness :
  atomically (replace_employee "now" "x2" "c1" "d1" "p1" "p2")
    (demo_db (demo_task "executing" None) (demo_employee_task "paused" (Some "running")))
  = (Err (IntegrityErr "employee_tasks"),
     demo_db (demo_task "executing" None) (demo_employee_task "paused" (Some "running"))).
Proof.
  apply (replace_employee_outcome "now" "x2" "c1" "d1" "p1" "p2"
    (demo_db (demo_task "executing" None) (demo_employee_task "paused" (Some "running")))
    (demo_employee_task "paused" (Some "running"))).
  - constructor; vm_compute; reflexivity.
  - vm_compute. reflexivity.
  - simpl. intros t Ht. apply list_elem_of_singleton in Ht as ->. discriminate.
  - vm_compute. reflexivity.
Defined.
