(* ===== verification/UnitOfWork.v ===== *)
(** * Idempotent commands: unit of work, event store, outbox, write queue

    [persistence/idempotency.py], [persistence/unit_of_work.py],
    [events/store.py], [events/outbox.py] and [persistence/write_queue.py], over
    any database that implements [EventDb]: the idempotency, event and outbox
    tables, written independently of one another.

    A JSON text column holds [text]: what [json.dumps] made of a value, or a
    string stored as it came.  [parse_raw] is [json.loads] on the latter.

    The theorems: a command is executed at most once per idempotency key and its
    answer replayed; a failing command leaves no trace; every event of a
    successful command and its outbox row are committed with it; the write queue
    runs envelopes one at a time, atomically, in order, within its capacity. *)

From S2P Require Import Prelude PyEnum PyStr Sql.

Record IdemRow := {
  idempotency_key : string;
  request_sha256 : string;
  idem_status : string;
  response_json : option text;
  error_code : option string;
  idem_created_at : string;
  expires_at : string }.

(* [sidecar/ibreeze/persistence/types.py:28-37 DomainEventRecord] *)
Record DomainEventRecord := {
  event_id : string;
  event_type : string;
  aggregate_type : string;
  aggregate_id : string;
  aggregate_version : Z;
  company_id : option string;
  payload_json : json;
  trace_id : string }.

(* [sidecar/ibreeze/persistence/types.py:66-70 OutboxRecord] *)
Record OutboxRecord := {
  topic : string;
  outbox_payload : json;
  domain_event_id : option string }.

(** A row of [domain_events]; the row sequence is the position in the table. *)
Record EventRow := {
  ev_event : DomainEventRecord;
  ev_occurred_at : string }.

Record OutboxRow := {
  ob_id : string;
  ob_domain_event_id : string;
  ob_topic : string;
  ob_payload : text;
  ob_status : string;
  ob_attempts : Z;
  ob_next_attempt_at : string;
  ob_last_error : option string;
  ob_created_at : string;
  ob_delivered_at : option string }.

(** The three tables the unit of work writes, each independent of the others. *)
Class EventDb (DB : Type) := {
  idem_table :: Table DB IdemRow;
  event_table :: Table DB EventRow;
  outbox_table :: Table DB OutboxRow;
  idem_clash (a b : IdemRow) : clash a b = (idempotency_key a =? idempotency_key b);
  outbox_clash (a b : OutboxRow) : clash a b = (ob_id a =? ob_id b);
  idem_refs (db : DB) (r : IdemRow) : refs_ok db r = true;
  idem_event (l : list EventRow) (db : DB) :
    rows (R := IdemRow) (set_rows l db) = rows db;
  idem_outbox (l : list OutboxRow) (db : DB) :
    rows (R := IdemRow) (set_rows l db) = rows db;
  event_outbox (l : list OutboxRow) (db : DB) :
    rows (R := EventRow) (set_rows l db) = rows db;
  event_idem (l : list IdemRow) (db : DB) :
    rows (R := EventRow) (set_rows l db) = rows db;
  outbox_idem (l : list IdemRow) (db : DB) :
    rows (R := OutboxRow) (set_rows l db) = rows db;
  outbox_event (l : list EventRow) (db : DB) :
    rows (R := OutboxRow) (set_rows l db) = rows db }.

(** The readings of the clock and the fresh identifiers a transaction draws. *)
Record Ambient := {
  now_text : string;          (** [strftime("%Y-%m-%dT%H:%M:%SZ")] *)
  expiry_text : Z → string;   (** the same, so many days from now *)
  now_ms : string;            (** SQLite's [strftime('%Y-%m-%dT%H:%M:%fZ','now')] *)
  now_sql : string;           (** SQLite's [datetime('now')] *)
  uuid4 : nat → string        (** the n-th fresh UUID *) }.

Section UnitOfWork.
Context {DB : Type} `{!EventDb DB} (env : Ambient) (parse_raw : string → result json).

Definition by_key (k : string) (r : IdemRow) : bool := idempotency_key r =? k.

(** ** persistence/idempotency.py *)

(** [{"response": ...}] or [{"error": ...}] *)
Inductive Cached := CachedResponse (t : text) | CachedError (code : option string).

(* [sidecar/ibreeze/persistence/idempotency.py:13-36 lookup] *)
Definition lookup (key : option string) (sha : string) : tx DB (option Cached) :=
  match key with
  | None => mret None
  | Some key =>
      row ← select_one (by_key key);
      match row with
      | None => mret None
      | Some row =>
          check (request_sha256 row =? sha) (RuntimeErr "IDEMPOTENCY_CONFLICT");;
          match idem_status row =? "completed", response_json row with
          | true, Some t =>
              if text_truthy t then mret (Some (CachedResponse t)) else mret None
          | _, _ =>
              if idem_status row =? "failed" then mret (Some (CachedError (error_code row)))
              else if idem_status row =? "processing"
              then raise (RuntimeErr "IDEMPOTENCY_CONFLICT")
              else mret None
          end
      end
  end.

(** The row [claim] inserts. *)
Definition claim_row (key sha : string) (ttl_days : Z) : IdemRow := {|
  idempotency_key := key; request_sha256 := sha; idem_status := "processing";
  response_json := None; error_code := None; idem_created_at := now_text env;
  expires_at := expiry_text env ttl_days |}.

(** A [UNIQUE] failure is [False]; any other constraint error propagates. *)
(* [sidecar/ibreeze/persistence/idempotency.py:38-60 claim] *)
Definition claim (key sha : string) (ttl_days : Z) : tx DB bool := λ db,
  let r := claim_row key sha ttl_days in
  if existsb (λ x, clash x r) (rows db) then (Ok false, db)
  else match insert_row r db with
       | (Ok _, db') => (Ok true, db')
       | (Err e, db') => (Err e, db')
       end.

Definition set_completed (t : text) (r : IdemRow) : IdemRow := {|
  idempotency_key := idempotency_key r; request_sha256 := request_sha256 r;
  idem_status := "completed"; response_json := Some t; error_code := error_code r;
  idem_created_at := idem_created_at r; expires_at := expires_at r |}.
Definition set_failed (code : string) (r : IdemRow) : IdemRow := {|
  idempotency_key := idempotency_key r; request_sha256 := request_sha256 r;
  idem_status := "failed"; response_json := response_json r; error_code := Some code;
  idem_created_at := idem_created_at r; expires_at := expires_at r |}.

(* [sidecar/ibreeze/persistence/idempotency.py:62-79 complete] *)
Definition complete (key : string) (response : option text) (error : option string)
    : tx DB unit :=
  match response, error with
  | Some t, _ => update (by_key key) (set_completed t);; mret tt
  | None, Some code => update (by_key key) (set_failed code);; mret tt
  | None, None => mret tt
  end.

(** ** events/store.py, events/outbox.py *)

(** [company_id] is [NOT NULL]: a record without one is refused by the table's
    constraint, which the implementation of [EventDb] states. *)
(* [sidecar/ibreeze/events/store.py:7-29 append_all] *)
Definition append_all (events : list DomainEventRecord) : tx DB unit :=
  for_each (λ e, insert_row {| ev_event := e; ev_occurred_at := now_ms env |}) events;; mret tt.

Definition outbox_row (n : nat) (event : string) (tp : string) (payload : json) : OutboxRow := {|
  ob_id := uuid4 env n; ob_domain_event_id := event; ob_topic := tp;
  ob_payload := Dumped payload; ob_status := "pending"; ob_attempts := 0;
  ob_next_attempt_at := now_text env; ob_last_error := None; ob_created_at := now_ms env;
  ob_delivered_at := None |}.

(* [sidecar/ibreeze/events/outbox.py:32-52 enqueue_all] *)
Fixpoint enqueue_all (n : nat) (records : list OutboxRecord) : tx DB unit :=
  match records with
  | [] => mret tt
  | r :: records =>
      id ← found (domain_event_id r) (ValueError "OUTBOX_EVENT_REQUIRED");
      insert_row (outbox_row n id (topic r) (outbox_payload r));;
      enqueue_all (S n) records
  end.

(* [sidecar/ibreeze/events/outbox.py:54-73 enqueue_from_events] *)
Fixpoint enqueue_from_events (n : nat) (events : list DomainEventRecord) (tp : string)
    : tx DB unit :=
  match events with
  | [] => mret tt
  | e :: events =>
      insert_row (outbox_row n (event_id e) tp (payload_json e));;
      enqueue_from_events (S n) events tp
  end.

(** ** persistence/unit_of_work.py *)

(** A response is JSON data or a string, which is stored as it is. *)
Inductive Response := RJson (j : json) | RStr (s : string).

Definition response_text (r : Response) : text :=
  match r with RJson j => Dumped j | RStr s => Raw s end.

(* [sidecar/ibreeze/persistence/unit_of_work.py:18-22 CommandResult] *)
Record CommandResult := {
  response : Response;
  events : list DomainEventRecord;
  outbox : list OutboxRecord }.

(** [json.loads] of a stored answer. *)
Definition loads (t : text) : result Response :=
  match t with
  | Dumped j => Ok (RJson j)
  | Raw s => RJson <$> parse_raw s
  end.

(** What an error code is worth to [RuntimeError(...)]. *)
Definition code_text (c : option string) : string := default "None" c.

(** [effective_key] is falsy when [None] or empty. *)
Definition effective (key : option string) : option string :=
  match key with
  | Some k => if k =? "" then None else Some k
  | None => None
  end.

(* [sidecar/ibreeze/persistence/unit_of_work.py:38-74 execute] *)
Definition execute (in_transaction : bool) (key : option string) (sha : string)
    (command : tx DB CommandResult) (ttl_days : Z) : tx DB Response :=
  check in_transaction (RuntimeErr "WRITE_QUEUE_REQUIRED");;
  let run :=
    result ← command;
    append_all (events result);;
    enqueue_all 0 (outbox result);;
    match effective key with
    | Some k => complete k (Some (response_text (response result))) None
    | None => mret tt
    end;;
    mret (response result) in
  match effective key with
  | None => run
  | Some k =>
      cached ← lookup (Some k) sha;
      match cached with
      | Some (CachedResponse t) => lift (loads t)
      | Some (CachedError code) => raise (RuntimeErr (code_text code))
      | None =>
          claimed ← claim k sha ttl_days;
          check claimed (RuntimeErr "IDEMPOTENCY_CLAIM_FAILED");;
          run
      end
  end.
End UnitOfWork.

(** ** Lemmas *)

Section Lemmas.
Context {DB : Type} `{!EventDb DB}.
Implicit Types (db : DB) (env : Ambient).

Lemma lookup_run k sha db :
  ∃ o, (lookup (Some k) sha db = (o, db)) ∧
  (List.find (by_key k) (rows (R := IdemRow) db) = None → o = Ok None) ∧
  (∀ row, List.find (by_key k) (rows db) = Some row →
     (request_sha256 row ≠ sha → o = Err (RuntimeErr "IDEMPOTENCY_CONFLICT")) ∧
     (request_sha256 row = sha → idem_status row = "completed" → ∀ t,
        response_json row = Some t →
        o = Ok (if text_truthy t then Some (CachedResponse t) else None))).
Proof.
  unfold lookup, select_one, mbind, tx_bind, gets. simpl.
  destruct (List.find (by_key k) (rows db)) as [row|] eqn:Hrow.
  - unfold check. destruct (request_sha256 row =? sha) eqn:Hsha; bools.
    + unfold mret, tx_ret. simpl.
      destruct (idem_status row =? "completed") eqn:Hs; bools.
      * destruct (response_json row) as [t|] eqn:Ht.
        -- exists (Ok (if text_truthy t then Some (CachedResponse t) else None)).
           split; [by destruct (text_truthy t)|]. naive_solver.
        -- rewrite Hs. simpl. eexists. split; [reflexivity|]. naive_solver.
      * destruct (idem_status row =? "failed"); [eexists; split; [reflexivity|]; naive_solver|].
        destruct (idem_status row =? "processing");
          (eexists; split; [reflexivity|]; naive_solver).
    + eexists. split; [reflexivity|]. split; [done|]. intros ? [= <-]. naive_solver.
  - eexists. split; [reflexivity|]. naive_solver.
Qed.

Lemma append_all_ok env evs db u db' :
  append_all env evs db = (Ok u, db') →
  rows (R := EventRow) db' =
    rows db ++ map (λ e, {| ev_event := e; ev_occurred_at := now_ms env |}) evs ∧
  rows (R := IdemRow) db' = rows db ∧ rows (R := OutboxRow) db' = rows db.
Proof.
  unfold append_all. revert db. induction evs as [|e evs IH]; intros db Hrun; simpl in Hrun.
  - tx_inv. by rewrite app_nil_r.
  - apply tx_bind_ok in Hrun as (l & db1 & Hrun & Hret).
    apply tx_bind_ok in Hrun as ([] & db2 & Hins & Hrun).
    apply tx_bind_ok in Hrun as (l2 & db3 & Hrun & Hret2). tx_inv.
    apply insert_ok in Hins as (_ & _ & _ & ->).
    destruct (IH (set_rows (rows db ++ [{| ev_event := e; ev_occurred_at := now_ms env |}]) db))
      as (H1 & H2 & H3).
    { by rewrite (tx_bind_run _ _ _ _ _ Hrun). }
    rewrite H1, H2, H3, rows_set_rows, idem_event, outbox_event. split_and!; [|done..].
    by rewrite <-app_assoc.
Qed.

(** The outbox rows a list of records becomes. *)
Fixpoint outbox_rows env (n : nat) (l : list OutboxRecord) : list OutboxRow :=
  match l with
  | [] => []
  | r :: l =>
      outbox_row env n (default "" (domain_event_id r)) (topic r) (outbox_payload r)
        :: outbox_rows env (S n) l
  end.

Lemma enqueue_all_ok env n l db u db' :
  enqueue_all env n l db = (Ok u, db') →
  rows (R := OutboxRow) db' = rows db ++ outbox_rows env n l ∧
  rows (R := IdemRow) db' = rows db ∧ rows (R := EventRow) db' = rows db ∧
  Forall (λ r, domain_event_id r ≠ None) l.
Proof.
  revert n db. induction l as [|r l IH]; intros n db Hrun; simpl in Hrun.
  - tx_inv. by rewrite app_nil_r.
  - apply tx_bind_ok in Hrun as (id & db1 & Hid & Hrun).
    apply found_ok in Hid as [Hid ->].
    apply tx_bind_ok in Hrun as ([] & db2 & Hins & Hrun).
    apply insert_ok in Hins as (_ & _ & _ & ->). apply IH in Hrun as (H1 & H2 & H3 & H4).
    rewrite H1, H2, H3, rows_set_rows, idem_outbox, event_outbox. simpl. rewrite Hid. simpl.
    split_and!; [by rewrite <-app_assoc|done..|]. constructor; [by rewrite Hid|done].
Qed.
End Lemmas.

Section Execute.
Context {DB : Type} `{!EventDb DB} (parse_raw : string → result json).
Context (env : Ambient) (k sha : string) (command : tx DB CommandResult) (ttl : Z) (db : DB).
Hypothesis Hk : k ≠ "".
(** The command writes its own tables, not the idempotency ledger. *)
Hypothesis Hframe : ∀ d r d', command d = (Ok r, d') → rows (R := IdemRow) d' = rows d.

Lemma effective_some : effective (Some k) = Some k.
Proof. unfold effective. destruct (k =? "") eqn:E; [by bools|done]. Qed.

Lemma find_none_clash :
  List.find (by_key k) (rows db) = None →
  existsb (λ x, clash x (claim_row env k sha ttl)) (rows db) = false.
Proof.
  intros Hf. apply not_true_iff_false. intros (x & Hx & Hc)%existsb_exists.
  rewrite idem_clash in Hc. simpl in Hc. pose proof (find_none _ _ Hf x Hx) as Hn.
  unfold by_key in Hn. congruence.
Qed.

Lemma claim_run :
  claim env k sha ttl db =
    (if existsb (by_key k) (rows db) then (Ok false, db)
     else match insert_row (claim_row env k sha ttl) db with
          | (Ok _, db') => (Ok true, db')
          | (Err e, db') => (Err e, db')
          end).
Proof.
  unfold claim.
  assert (existsb (λ x, clash x (claim_row env k sha ttl)) (rows db)
          = existsb (by_key k) (rows db)) as ->; [|done].
  induction (rows (R := IdemRow) db) as [|x l IH]; simpl; [done|].
  by rewrite IH, idem_clash.
Qed.

(** A successful execution is a replay of a completed row or a fresh run that
    claims the key, runs the command, files its events and completes the row. *)
Lemma execute_ok_cases r db1 :
  execute env parse_raw true (Some k) sha command ttl db = (Ok r, db1) →
  (∃ row t, List.find (by_key k) (rows db) = Some row ∧ request_sha256 row = sha ∧
     idem_status row = "completed" ∧ response_json row = Some t ∧ text_truthy t = true ∧
     loads parse_raw t = Ok r ∧ db1 = db) ∨
  (List.find (by_key k) (rows (R := IdemRow) db) = None ∧
   ∃ res db0 dbc dbe dbo,
     insert_row (claim_row env k sha ttl) db = (Ok tt, db0) ∧
     command db0 = (Ok res, dbc) ∧
     append_all env (events res) dbc = (Ok tt, dbe) ∧
     enqueue_all env 0 (outbox res) dbe = (Ok tt, dbo) ∧
     db1 = set_rows (updated (by_key k) (set_completed (response_text (response res)))
             (rows dbo)) dbo ∧
     r = response res).
Proof.
  unfold execute. rewrite effective_some. intros Hrun.
  apply tx_bind_ok in Hrun as ([] & d & Hc & Hrun). apply check_ok in Hc as [_ ->].
  apply tx_bind_ok in Hrun as (cached & d & Hl & Hrun).
  destruct (lookup_run k sha db) as (o & Hlook & Hnone & Hsome).
  rewrite Hlook in Hl. injection Hl as -> <-.
  destruct cached as [[t|code]|]; [| |].
  - left. destruct (List.find (by_key k) (rows db)) as [row|] eqn:Hrow; [|by discriminate Hnone].
    destruct (Hsome row eq_refl) as [Hne Heq].
    destruct (decide (request_sha256 row = sha)) as [Hsha|Hsha]; [|by discriminate Hne].
    injection Hrun as Hload Hd. exists row, t.
    revert Hlook. unfold lookup, select_one, mbind, tx_bind, gets. simpl. rewrite Hrow.
    unfold check. rewrite (proj2 (String.eqb_eq _ _) Hsha). unfold mret, tx_ret. simpl.
    destruct (idem_status row =? "completed") eqn:Hs.
    + destruct (response_json row) as [t'|] eqn:Ht.
      * destruct (text_truthy t') eqn:Htr; [|done]. bools. intros [= ->]. by split_and!.
      * repeat case_match; naive_solver.
    + repeat case_match; naive_solver.
  - discriminate Hrun.
  - right. apply tx_bind_ok in Hrun as (claimed & db0 & Hcl & Hrun).
    apply tx_bind_ok in Hrun as ([] & d & Hc & Hrun). apply check_ok in Hc as [-> ->].
    rewrite claim_run in Hcl. destruct (existsb (by_key k) (rows db)) eqn:Hex; [done|].
    destruct (insert_row _ db) as [[[]|e] d] eqn:Hins; [|done]. injection Hcl as ->.
    assert (List.find (by_key k) (rows (R := IdemRow) db) = None) as Hfn.
    { destruct (List.find _ _) as [row|] eqn:Hf; [|done]. apply find_some in Hf as [H1 H2].
      assert (existsb (by_key k) (rows db) = true) by (apply existsb_exists; eauto). congruence. }
    split; [done|].
    apply tx_bind_ok in Hrun as (res & dbc & Hcmd & Hrun).
    apply tx_bind_ok in Hrun as ([] & dbe & Hev & Hrun).
    apply tx_bind_ok in Hrun as ([] & dbo & Hob & Hrun).
    apply tx_bind_ok in Hrun as ([] & d & Hcomp & Hrun). apply mret_ok in Hrun as [-> ->].
    simpl in Hcomp. apply tx_bind_ok in Hcomp as (n & d' & Hup & Hret).
    apply mret_ok in Hret as [_ ->].
    apply update_ok in Hup as (_ & _ & _ & ->).
    by exists res, db0, dbc, dbe, dbo.
Qed.

(** The ledger row after a fresh run. *)
Lemma fresh_run_ledger res db0 dbc dbe dbo :
  List.find (by_key k) (rows (R := IdemRow) db) = None →
  insert_row (claim_row env k sha ttl) db = (Ok tt, db0) →
  command db0 = (Ok res, dbc) →
  append_all env (events res) dbc = (Ok tt, dbe) →
  enqueue_all env 0 (outbox res) dbe = (Ok tt, dbo) →
  List.find (by_key k)
    (updated (by_key k) (set_completed (response_text (response res))) (rows dbo))
  = Some (set_completed (response_text (response res)) (claim_row env k sha ttl)).
Proof.
  intros Hnone Hins Hcmd Hev Hob.
  apply append_all_ok in Hev as (_ & Hev & _). apply enqueue_all_ok in Hob as (_ & Hob & _).
  apply Hframe in Hcmd. apply insert_ok in Hins as (_ & _ & _ & ->).
  apply find_updated; [|done]. rewrite Hob, Hev, Hcmd, rows_set_rows, find_where.
  unfold where_. rewrite List.filter_app. simpl. unfold by_key at 2. simpl.
  rewrite String.eqb_refl.
  assert (List.filter (by_key k) (rows db) = []) as ->; [|done].
  pose proof (find_where (by_key k) (rows db)) as Hw. rewrite Hnone in Hw.
  unfold where_ in Hw. by destruct (List.filter _ _).
Qed.
End Execute.

(** ** Properties *)

(** What replaying an answer yields: JSON data comes back as it was; a string
    was stored undumped, so it is parsed as JSON text, and an empty one reads as
    no answer at all. *)
Definition replayed (parse_raw : string → result json) (r : Response) : result Response :=
  match r with
  | RJson j => Ok (RJson j)
  | RStr s => if s =? "" then Err (RuntimeErr "IDEMPOTENCY_CLAIM_FAILED") else RJson <$> parse_raw s
  end.

(** C2. A command runs at most once per idempotency key.  After a successful
    execution under a key, any later execution with the same key and request
    hash, whatever its command, clock and lifetime, leaves the database as it is
    and only replays the first answer; with another request hash it is refused
    as a conflict.  (The row's [expires_at] is never consulted.) *)
Theorem execute_at_most_once {DB} `{!EventDb DB} parse_raw env k sha command ttl (db db1 : DB) r
    env2 command2 ttl2
    (Hk : k ≠ "")
    (Hframe : ∀ d r d', command d = (Ok r, d') → rows (R := IdemRow) d' = rows d)
    (Hrun : execute env parse_raw true (Some k) sha command ttl db = (Ok r, db1)) :
  execute env2 parse_raw true (Some k) sha command2 ttl2 db1 = (replayed parse_raw r, db1) ∧
  (∀ sha2, sha2 ≠ sha → execute env2 parse_raw true (Some k) sha2 command2 ttl2 db1
     = (Err (RuntimeErr "IDEMPOTENCY_CONFLICT"), db1)).
Proof.
  assert (∃ row t, List.find (by_key k) (rows (R := IdemRow) db1) = Some row ∧
    request_sha256 row = sha ∧ idem_status row = "completed" ∧ response_json row = Some t ∧
    (if text_truthy t then loads parse_raw t
     else Err (RuntimeErr "IDEMPOTENCY_CLAIM_FAILED")) = replayed parse_raw r)
    as (row & t & Hrow & Hsha & Hst & Ht & Hrep).
  { apply execute_ok_cases in Hrun as [(row & t & ? & ? & ? & ? & Htr & Hl & ->)|
      (Hnone & res & db0 & dbc & dbe & dbo & Hins & Hcmd & Hev & Hob & -> & ->)]; [| |done].
    - exists row, t. rewrite Htr. split_and!; try done.
      destruct t as [j|s]; simpl in *; [by injection Hl as <-|].
      rewrite Hl. by destruct (parse_raw s); [injection Hl as <-|].
    - eexists _, _. rewrite rows_set_rows. split; [by eapply fresh_run_ledger|].
      split_and!; [done..|]. simpl. destruct (response res) as [j|s]; simpl; [done|].
      by destruct (s =? ""). }
  unfold execute. rewrite !effective_some by done. split.
  - rewrite (tx_bind_run _ _ _ _ _ (check_run _ _)).
    destruct (lookup_run k sha db1) as (o & Hlook & _ & Hsome).
    destruct (Hsome row Hrow) as [_ Heq]. rewrite (Heq Hsha Hst t Ht) in Hlook.
    rewrite (tx_bind_run _ _ _ _ _ Hlook). destruct (text_truthy t) eqn:Htr.
    + unfold lift. by rewrite Hrep.
    + rewrite <-Hrep. erewrite (tx_bind_run (claim _ _ _ _)).
      2:{ rewrite claim_run. assert (existsb (by_key k) (rows db1) = true) as ->; [|done].
          apply find_some in Hrow. apply existsb_exists. eauto. }
      done.
  - intros sha2 Hne. rewrite (tx_bind_run _ _ _ _ _ (check_run _ _)).
    destruct (lookup_run k sha2 db1) as (o & Hlook & _ & Hsome).
    destruct (Hsome row Hrow) as [Hc _]. rewrite Hc in Hlook by congruence.
    by rewrite (tx_bind_run_err _ _ _ _ _ Hlook).
Qed.

(** What a fresh successful execution commits: the command's own writes, then
    every event it produced, in order, and one pending, never-attempted outbox
    row per outbox record, each tied to its event, all in the transaction that
    completes the ledger row with the answer. *)
Lemma execute_commits_events {DB} `{!EventDb DB} parse_raw env k sha command ttl (db db1 : DB) r
    (Hk : k ≠ "")
    (Hframe : ∀ d r d', command d = (Ok r, d') → rows (R := IdemRow) d' = rows d)
    (Hfresh : List.find (by_key k) (rows (R := IdemRow) db) = None)
    (Hrun : execute env parse_raw true (Some k) sha command ttl db = (Ok r, db1)) :
  ∃ db0 dbc res, command db0 = (Ok res, dbc) ∧ r = response res ∧
    rows (R := EventRow) db0 = rows db ∧
    rows (R := EventRow) db1 = rows dbc ++
      map (λ e, {| ev_event := e; ev_occurred_at := now_ms env |}) (events res) ∧
    rows (R := OutboxRow) db1 = rows dbc ++ outbox_rows env 0 (outbox res) ∧
    Forall (λ o, ob_status o = "pending" ∧ ob_attempts o = 0) (outbox_rows env 0 (outbox res)) ∧
    List.find (by_key k) (rows db1) =
      Some (set_completed (response_text r) (claim_row env k sha ttl)).
Proof.
  apply execute_ok_cases in Hrun as [(row & t & Hrow & _)|
    (_ & res & db0 & dbc & dbe & dbo & Hins & Hcmd & Hev & Hob & -> & ->)];
    [congruence| |done].
  exists db0, dbc, res. rewrite rows_set_rows, event_idem, outbox_idem.
  pose proof (append_all_ok _ _ _ _ _ Hev) as (He1 & He2 & He3).
  pose proof (enqueue_all_ok _ _ _ _ _ _ Hob) as (Ho1 & Ho2 & Ho3 & _).
  split_and!; [done|done| |by rewrite Ho3|by rewrite Ho1, He3| |by eapply fresh_run_ledger].
  - apply insert_ok in Hins as (_ & _ & _ & ->). apply event_idem.
  - clear. generalize 0%nat. induction (outbox res) as [|o l IH]; intros n; simpl; constructor;
      [done|apply IH].
Qed.

(** ** persistence/write_queue.py

    An envelope's [execute] runs against the connection; [cancelled] says
    whether its caller had given up by the time the worker reached it. *)

Section WriteQueue.
Context {DB A : Type}.

(* [sidecar/ibreeze/persistence/write_queue.py:17-36 WriteEnvelope] *)
Record WriteEnvelope := {
  command_name : string;
  envelope_trace_id : string;
  deadline_at : Z;
  envelope_execute : tx DB A;
  future_cancelled : bool }.

(* [sidecar/ibreeze/persistence/write_queue.py:35-36 is_expired] *)
Definition is_expired (e : WriteEnvelope) (now : Z) : bool := (now >? deadline_at e)%Z.

(* [sidecar/ibreeze/persistence/write_queue.py:39-48 WriteQueue] *)
Record WriteQueue := {
  capacity : Z;
  queue : list WriteEnvelope;
  running : bool }.

(* [sidecar/ibreeze/persistence/write_queue.py:50-69 submit] *)
Definition submit (e : WriteEnvelope) (q : WriteQueue) : result WriteQueue :=
  if negb (running q) then Err (RuntimeErr "LOCAL_WRITE_QUEUE_STOPPED")
  else if (capacity q <=? Z.of_nat (length (queue q)))%Z
  then Err (RuntimeErr "LOCAL_WRITE_BACKPRESSURE")
  else Ok {| capacity := capacity q; queue := queue q ++ [e]; running := running q |}.

(* [sidecar/ibreeze/persistence/write_queue.py:87-89 depth] *)
Definition depth (q : WriteQueue) : Z := Z.of_nat (length (queue q)).

(** What the caller's future holds afterwards: nothing when it was cancelled. *)
Definition answer : Type := option (result A).

(** One turn of the worker's loop on an envelope taken at time [now]. *)
(* [sidecar/ibreeze/persistence/write_queue.py:114-139 _run] *)
Definition run_envelope (e : WriteEnvelope) (now : Z) (db : DB) : answer * DB :=
  if future_cancelled e then (None, db)
  else if is_expired e now then (Some (Err (RuntimeErr "IPC_DEADLINE_EXCEEDED")), db)
  else match envelope_execute e db with
       | (Ok r, db') => (Some (Ok r), db')
       | (Err err, _) => (Some (Err err), db)
       end.

(** The worker: envelopes in queue order, each at the time it is reached. *)
(* [sidecar/ibreeze/persistence/write_queue.py:105-141 _run] *)
Fixpoint run_queue (l : list (WriteEnvelope * Z)) (db : DB) : list answer * DB :=
  match l with
  | [] => ([], db)
  | (e, now) :: l =>
      let '(a, db) := run_envelope e now db in
      let '(answers, db) := run_queue l db in
      (a :: answers, db)
  end.

(** A queue as submissions made it. *)
Fixpoint submit_all (l : list WriteEnvelope) (q : WriteQueue) : list (result unit) * WriteQueue :=
  match l with
  | [] => ([], q)
  | e :: l =>
      match submit e q with
      | Ok q' => let '(rs, q'') := submit_all l q' in (Ok tt :: rs, q'')
      | Err err => let '(rs, q'') := submit_all l q in (Err err :: rs, q'')
      end
  end.
End WriteQueue.
Arguments WriteEnvelope : clear implicits.
Arguments WriteQueue : clear implicits.

Lemma run_envelope_live {DB A} (e : WriteEnvelope DB A) now db :
  future_cancelled e = false → is_expired e now = false →
  run_envelope e now db = (Some (atomically (envelope_execute e) db).1,
                           (atomically (envelope_execute e) db).2).
Proof.
  unfold run_envelope, atomically. intros -> ->. by destruct (envelope_execute e db) as [[]].
Qed.

Lemma run_envelope_skipped {DB A} (e : WriteEnvelope DB A) now db :
  negb (future_cancelled e) && negb (is_expired e now) = false →
  ∃ a, run_envelope e now db = (a, db).
Proof.
  unfold run_envelope. destruct (future_cancelled e); [eauto|].
  destruct (is_expired e now); simpl; [eauto|done].
Qed.

(** The write queue is serializable: the database the worker leaves is the
    one reached by running, atomically and in queue order, exactly the envelopes
    that were neither cancelled nor past their deadline; a transaction that
    raises contributes nothing, and its caller gets its exception. *)
Lemma write_queue_serial {DB A} (l : list (WriteEnvelope DB A * Z)) (db : DB) :
  (run_queue l db).2 =
    foldl (λ db e, (atomically (envelope_execute e.1) db).2) db
      (List.filter (λ e, negb (future_cancelled e.1) && negb (is_expired e.1 e.2)) l) ∧
  length (run_queue l db).1 = length l ∧
  (∀ n e now, l !! n = Some (e, now) → future_cancelled e = false →
     is_expired e now = false →
     ∃ before, (run_queue l db).1 !! n = Some (Some (atomically (envelope_execute e) before).1)).
Proof.
  revert db. induction l as [|[e now] l IH]; intros db; simpl; [done|].
  destruct (negb (future_cancelled e) && negb (is_expired e now)) eqn:Hlive.
  - apply andb_true_iff in Hlive as [Hc Hx]. rewrite run_envelope_live by by bools. simpl.
    set (d := (atomically (envelope_execute e) db).2). specialize (IH d).
    destruct (run_queue l d) as [answers d']. destruct IH as (IH1 & IH2 & IH3). simpl in *.
    split_and!; [done|by rewrite IH2|]. intros [|n] e' now' Hn Hc' Hx'; simpl in *; [|by eauto].
    injection Hn as <- <-. by exists db.
  - destruct (run_envelope_skipped e now db Hlive) as [a ->]. specialize (IH db).
    destruct (run_queue l db) as [answers d']. destruct IH as (IH1 & IH2 & IH3). simpl in *.
    split_and!; [done|by rewrite IH2|]. intros [|n] e' now' Hn Hc' Hx'; simpl in *; [|by eauto].
    injection Hn as <- <-. by rewrite Hc', Hx' in Hlive.
Qed.

(** The queue never holds more than its capacity, whatever is submitted: a
    submission to a full queue is refused with [LOCAL_WRITE_BACKPRESSURE] and one
    to a stopped queue with [LOCAL_WRITE_QUEUE_STOPPED], leaving it as it was. *)
Theorem write_queue_bounded {DB A} (l : list (WriteEnvelope DB A)) (q : WriteQueue DB A) rs q'
    (Hq : (depth q ≤ capacity q)%Z) (Hrun : submit_all l q = (rs, q')) :
  (depth q' ≤ capacity q')%Z ∧ capacity q' = capacity q ∧
  (running q = true → length (queue q') = (length (queue q) +
     length (List.filter is_ok rs))%nat) ∧
  (running q = false → q' = q ∧ Forall (λ r, r = Err (RuntimeErr "LOCAL_WRITE_QUEUE_STOPPED")) rs).
Proof.
  revert q rs q' Hq Hrun. induction l as [|e l IH]; intros q rs q' Hq Hrun; simpl in Hrun.
  { injection Hrun as <- <-. split_and!; [done|done|simpl; lia|done]. }
  unfold submit in Hrun. destruct (running q) eqn:Hr; simpl in Hrun.
  - destruct (capacity q <=? Z.of_nat (length (queue q)))%Z eqn:Hfull.
    + destruct (submit_all l q) as [rs' q''] eqn:Hs. injection Hrun as <- <-.
      destruct (IH q rs' q'' Hq Hs) as (H1 & H2 & H3 & _). split_and!; [done|done|auto|congruence].
    + match type of Hrun with context [submit_all l ?x] => set (q1 := x) in *;
        destruct (submit_all l q1) as [rs' q''] eqn:Hs end.
      injection Hrun as <- <-. bools.
      destruct (IH q1 rs' q'') as (H1 & H2 & H3 & _); [|done|].
      { unfold depth, q1. simpl. rewrite length_app. simpl. lia. }
      split_and!; [done|done| |congruence]. intros _. rewrite H3 by done.
      unfold q1. simpl. rewrite length_app. simpl. lia.
  - destruct (submit_all l q) as [rs' q''] eqn:Hs. injection Hrun as <- <-.
    destruct (IH q rs' q'' Hq Hs) as (H1 & H2 & _ & H4).
    split_and!; [done|done|congruence|]. intros _. destruct (H4 Hr) as [-> ?].
    split; [done|by constructor].
Qed.

(** ** A database, for the witnesses *)

Module Demo.

Record DemoDB := {
  demo_idem : list IdemRow;
  demo_events : list EventRow;
  demo_outbox : list OutboxRow }.

#[export] Program Instance demo_idem_table : Table DemoDB IdemRow := {|
  table_name := "idempotency"; rows := demo_idem;
  set_rows l db := {| demo_idem := l; demo_events := demo_events db;
                      demo_outbox := demo_outbox db |};
  row_ok r := idem_status r ∈? ["processing"; "completed"; "failed"];
  clash a b := idempotency_key a =? idempotency_key b;
  refs_ok db r := true |}.
Solve All Obligations with intros; repeat match goal with d : DemoDB |- _ => destruct d end; done.

#[export] Program Instance demo_event_table : Table DemoDB EventRow := {|
  table_name := "domain_events"; rows := demo_events;
  set_rows l db := {| demo_idem := demo_idem db; demo_events := l;
                      demo_outbox := demo_outbox db |};
  row_ok r := negb (company_id (ev_event r) =?o None);
  clash a b := event_id (ev_event a) =? event_id (ev_event b);
  refs_ok db r := true |}.
Solve All Obligations with intros; repeat match goal with d : DemoDB |- _ => destruct d end; done.

#[export] Program Instance demo_outbox_table : Table DemoDB OutboxRow := {|
  table_name := "outbox_events"; rows := demo_outbox;
  set_rows l db := {| demo_idem := demo_idem db; demo_events := demo_events db;
                      demo_outbox := l |};
  row_ok r := ob_status r ∈? ["pending"; "processing"; "delivered"; "failed"];
  clash a b := ob_id a =? ob_id b;
  refs_ok db r := existsb (λ e, event_id (ev_event e) =? ob_domain_event_id r) (demo_events db) |}.
Solve All Obligations with intros; repeat match goal with d : DemoDB |- _ => destruct d end; done.

#[export] Program Instance demo_event_db : EventDb DemoDB := {|
  idem_table := demo_idem_table; event_table := demo_event_table;
  outbox_table := demo_outbox_table |}.
Solve All Obligations with intros; done.
End Demo.
Import Demo.

Definition demo_env : Ambient := {|
  now_text := "2025-01-02T00:00:00Z"; expiry_text _ := "2025-02-01T00:00:00Z";
  now_ms := "2025-01-02T00:00:00.000Z"; now_sql := "2025-01-02 00:00:00";
  uuid4 n := pretty.pretty n |}.
Definition demo_event : DomainEventRecord := {|
  event_id := "e1"; event_type := "run.queued"; aggregate_type := "run"; aggregate_id := "r1";
  aggregate_version := 1; company_id := Some "c1"; payload_json := JObj []; trace_id := "t" |}.
Definition demo_command : tx DemoDB CommandResult := λ db,
  (Ok {| response := RJson (JBool true); events := [demo_event];
         outbox := [{| topic := "run.queued"; outbox_payload := JObj [];
                       domain_event_id := Some "e1" |}] |}, db).
Definition empty_db : DemoDB := {| demo_idem := []; demo_events := []; demo_outbox := [] |}.
Definition no_parse (s : string) : result json := Err (ValueError s).
Definition demo_done : DemoDB :=
  (execute demo_env no_parse true (Some "k") "h" demo_command 30 empty_db).2.

Lemma execute_at_most_once_witness :
  execute demo_env no_parse true (Some "k") "h" demo_command 1 demo_done
    = (Ok (RJson (JBool true)), demo_done).
Proof.
  apply (execute_at_most_once no_parse demo_env "k" "h" demo_command 30 empty_db demo_done
    (RJson (JBool true)) demo_env demo_command 1).
  - discriminate.
  - intros d r d' [= _ <-]. reflexivity.
  - vm_compute. reflexivity.
Defined.

Lemma execute_commits_events_witness :
  ∃ db0 dbc res, demo_command db0 = (Ok res, dbc) ∧ RJson (JBool true) = response res ∧
    rows (R := EventRow) db0 = rows empty_db ∧
    rows (R := EventRow) demo_done = rows dbc ++
      map (λ e, {| ev_event := e; ev_occurred_at := now_ms demo_env |}) (events res) ∧
    rows (R := OutboxRow) demo_done = rows dbc ++ outbox_rows demo_env 0 (outbox res) ∧
    Forall (λ o, ob_status o = "pending" ∧ ob_attempts o = 0) (outbox_rows demo_env 0 (outbox res)) ∧
    List.find (by_key "k") (rows demo_done) =
      Some (set_completed (response_text (RJson (JBool true))) (claim_row demo_env "k" "h" 30)).
Proof.
  refine (@execute_commits_events DemoDB demo_event_db no_parse demo_env "k" "h" demo_command 30
    empty_db demo_done (RJson (JBool true)) _ _ _ _).
  - discriminate.
  - intros d r d' [= _ <-]. reflexivity.
  - reflexivity.
  - vm_compute. reflexivity.
Defined.

Definition demo_envelope (b : bool) : WriteEnvelope DemoDB Z := {|
  command_name := "demo"; envelope_trace_id := "t"; deadline_at := 10;
  envelope_execute := λ db, (Ok 1, db); future_cancelled := b |}.

Lemma write_queue_bounded_witness :
  (depth (submit_all [demo_envelope false; demo_envelope false]
     {| capacity := 1; queue := []; running := true |}).2 ≤ 1)%Z.
Proof.
  eapply (write_queue_bounded [demo_envelope false; demo_envelope false]
    {| capacity := 1; queue := []; running := true |}).
  - vm_compute. discriminate.
  - vm_compute. reflexivity.
Defined.
