(* ===== verification/Zoom.v ===== *)
(** * Databases within databases

    A lens from a database into a part of it, what it makes of a transaction over the
    part ([zoom]), and the tables of the part as tables of the whole.  A service that adds
    tables of its own to those of another one keeps the other's database as a field. *)

From S2P Require Import Prelude Sql UnitOfWork.

Class Lens (DB S : Type) := {
  view : DB → S;
  put : S → DB → DB;
  view_put s db : view (put s db) = s;
  put_view db : put (view db) db = db;
  put_put s s' db : put s (put s' db) = put s db }.

Section Zoom.
Context {DB S : Type} `{!Lens DB S}.

Definition zoom {A} (m : tx S A) : tx DB A := λ db,
  let '(r, s) := m (view db) in (r, put s db).

Lemma zoom_run {A} (m : tx S A) db r s : m (view db) = (r, s) → zoom m db = (r, put s db).
Proof. unfold zoom. by intros ->. Qed.

Lemma zoom_ok {A} (m : tx S A) db r db' :
  zoom m db = (r, db') ↔ ∃ s, m (view db) = (r, s) ∧ db' = put s db.
Proof. unfold zoom. destruct (m (view db)) as [r' s]. naive_solver. Qed.

(** A table of the part. *)
Program Definition lens_table {R} `{!Table S R} : Table DB R := {|
  table_name := table_name;
  rows db := rows (view db);
  set_rows l db := put (set_rows l (view db)) db;
  row_ok := row_ok;
  clash := clash;
  refs_ok db r := refs_ok (view db) r |}.
Next Obligation. intros. cbn. by rewrite view_put, rows_set_rows. Qed.
Next Obligation. intros. cbn. by rewrite set_rows_rows, put_view. Qed.
Next Obligation. intros. cbn. by rewrite view_put, set_rows_set_rows, put_put. Qed.

Program Definition lens_event_db `{!EventDb S} : EventDb DB := {|
  idem_table := lens_table; event_table := lens_table; outbox_table := lens_table |}.
Next Obligation. intros. apply idem_clash. Qed.
Next Obligation. intros. apply outbox_clash. Qed.
Next Obligation. intros. apply idem_refs. Qed.
Next Obligation. intros. cbn. by rewrite view_put, idem_event. Qed.
Next Obligation. intros. cbn. by rewrite view_put, idem_outbox. Qed.
Next Obligation. intros. cbn. by rewrite view_put, event_outbox. Qed.
Next Obligation. intros. cbn. by rewrite view_put, event_idem. Qed.
Next Obligation. intros. cbn. by rewrite view_put, outbox_idem. Qed.
Next Obligation. intros. cbn. by rewrite view_put, outbox_event. Qed.
End Zoom.

(** [EXISTS (SELECT 1 FROM table x WHERE ...)] *)
Notation "'EXISTS' x 'IN' l ',' p" := (existsb (λ x, p) l)
  (at level 200, x name, l at level 99, p at level 200, right associativity) : bool_scope.

(** In a table, a condition on the one row with a key. *)
Lemma exists_key {DB R} `{!Table DB R} (p q : R → bool) l r :
  no_clash l = true → (∀ a b, p a = true → p b = true → clash a b = true) →
  r ∈ l → p r = true → existsb (λ x, p x && q x) l = q r.
Proof.
  intros Hl Hp Hr Hpr. apply eq_true_iff_eq. rewrite existsb_exists. split.
  - intros (x & Hx%list_elem_of_In & Hb). bools.
    by rewrite (unique_row p l r x Hl Hp Hr Hpr Hx).
  - intros Hq. exists r. rewrite <-list_elem_of_In, Hpr. done.
Qed.

Lemma existsb_elem {A} (p : A → bool) l : existsb p l = true ↔ ∃ x, x ∈ l ∧ p x = true.
Proof.
  rewrite existsb_exists. by setoid_rewrite <-list_elem_of_In.
Qed.

Lemma existsb_none {A} (p : A → bool) l : existsb p l = false ↔ ∀ x, x ∈ l → p x = false.
Proof.
  rewrite <-not_true_iff_false, existsb_elem. split.
  - intros H x Hx. apply not_true_iff_false. eauto.
  - intros H (x & Hx & Hp). by rewrite H in Hp.
Qed.

Lemma existsb_ext {A} (p q : A → bool) l : (∀ x, x ∈ l → p x = q x) → existsb p l = existsb q l.
Proof.
  induction l as [|x l IH]; intros H; simpl; [done|]. rewrite IH by (intros; apply H; by right).
  by rewrite (H x) by left.
Qed.

Lemma existsb_map {A B} (f : A → B) (p : B → bool) l : existsb p (map f l) = existsb (λ x, p (f x)) l.
Proof. induction l as [|x l IH]; simpl; [done|]. by rewrite IH. Qed.

Lemma existsb_and {A} (b : bool) (p : A → bool) l : existsb (λ x, b && p x) l = b && existsb p l.
Proof. destruct b; simpl; [done|]. by induction l. Qed.

Lemma elem_of_mem {A} `{EqDecision A} (x : A) l : x ∈ l → x ∈? l = true.
Proof. apply bool_decide_eq_true_2. Qed.
Lemma not_elem_of_mem {A} `{EqDecision A} (x : A) l : x ∉ l → x ∈? l = false.
Proof. apply bool_decide_eq_false_2. Qed.
