(* ===== verification/Outbox.v ===== *)
(** * The outbox worker ([workers/outbox.py], the tables of [events/outbox.py])

    [deliver] is the transaction the worker submits to the write queue; the
    internal command bus is the argument [dispatch].  The theorems: a batch that
    commits settles each of its rows exactly once and touches no other; and one
    event whose command keeps failing blocks every batch it is in. *)

From S2P Require Import Prelude PyEnum PyStr Sql UnitOfWork.

(* [sidecar/ibreeze/events/outbox.py:9-18 EVENT_COMMAND_MAP] *)
Definition EVENT_COMMAND_MAP : list (string * string) :=
  dict_of [
    ("run.completed", "EvaluateEmployeeSubmission");
    ("review.submitted", "EvaluateEmployeeAcceptance");
    ("review.issue_changed", "EvaluateAffectedTask");
    ("employee_task.status_changed", "EvaluateDepartmentReadiness");
    ("employee_task.graph_advance", "AdvanceEmployeeTaskGraph");
    ("department_task.status_changed", "EvaluateCompanyReadiness")].

(* [sidecar/ibreeze/events/outbox.py:20-28 EVENT_TO_STATE_TRIGGER] *)
Definition EVENT_TO_STATE_TRIGGER : list (string * list string) :=
  dict_of [
    ("run.completed", ["succeeded"]);
    ("review.issue_changed", ["closed"]);
    ("employee_task.status_changed", ["accepted"]);
    ("employee_task.graph_advance", ["accepted"]);
    ("department_task.status_changed", ["completed"])].

(* [sidecar/ibreeze/workers/outbox.py:16-16 _BATCH_SIZE] *)
Definition _BATCH_SIZE : nat := 50.

(* [sidecar/ibreeze/workers/outbox.py:17-26 _PROJECTION_ONLY_TOPICS] *)
Definition _PROJECTION_ONLY_TOPICS : list string :=
  ["run.queued"; "run.started"; "run.failed"; "run.cancelled"; "review.assigned";
   "company_task.status_changed"].

Section Worker.
Context {DB : Type} `{!EventDb DB} (parse_raw : string → result json).
(** [command_bus.dispatch(command_name, payload, connection=conn)]; [None] is a
    worker without a bus. *)
Context (dispatch : option (string → json → tx DB unit)).

(** [SET status=?, last_error / delivered_at, attempts=attempts+1] *)
Definition settle_row (status : string) (err : option string) (delivered : option string)
    (r : OutboxRow) : OutboxRow := {|
  ob_id := ob_id r; ob_domain_event_id := ob_domain_event_id r; ob_topic := ob_topic r;
  ob_payload := ob_payload r; ob_status := status; ob_attempts := ob_attempts r + 1;
  ob_next_attempt_at := ob_next_attempt_at r;
  ob_last_error := match err with Some e => Some e | None => ob_last_error r end;
  ob_created_at := ob_created_at r;
  ob_delivered_at := match delivered with Some t => Some t | None => ob_delivered_at r end |}.

Definition by_id (id : string) (r : OutboxRow) : bool := ob_id r =? id.
Definition pending (r : OutboxRow) : bool := ob_status r =? "pending".

Definition mark_delivered (now id : string) : tx DB unit :=
  update (λ r, by_id id r && pending r) (settle_row "delivered" None (Some now));; mret tt.
Definition mark_failed (id err : string) : tx DB unit :=
  update (λ r, by_id id r && pending r) (settle_row "failed" (Some err) None);; mret tt.
(** The statement for an unknown topic has no status guard. *)
Definition mark_unknown (id tp : string) : tx DB unit :=
  update (by_id id)
    (settle_row "failed" (Some (String.append "UNKNOWN_OUTBOX_TOPIC:" tp)) None);; mret tt.

(** [json.loads(row["payload_json"])] *)
Definition load_payload (t : text) : result json :=
  match t with Dumped j => Ok j | Raw s => parse_raw s end.

(** [payload.get("to_state") not in trigger_states]: a payload that is no object
    has no [get], and a list or an object is not hashable. *)
Definition outside_trigger (payload : json) (states : list string) : result bool :=
  match payload with
  | JObj fields =>
      match dict_get fields "to_state" with
      | Some (JStr s) => Ok (negb (s ∈? states))
      | Some (JList _) | Some (JObj _) => Err (TypeErr "unhashable type")
      | _ => Ok true
      end
  | _ => Err (TypeErr "payload has no attribute get")
  end.

(** One row of the batch; the result says whether it counts as processed.  The
    topic column is text, so the malformed-row branch cannot be taken. *)
(* [sidecar/ibreeze/workers/outbox.py:60-123 deliver_row] *)
Definition deliver_row (now : string) (row : OutboxRow) : tx DB bool :=
  let id := ob_id row in
  match dict_get EVENT_COMMAND_MAP (ob_topic row) with
  | None =>
      if ob_topic row ∈? _PROJECTION_ONLY_TOPICS
      then mark_delivered now id;; mret true
      else mark_unknown id (ob_topic row);; mret false
  | Some command_name =>
      match load_payload (ob_payload row) with
      | Err _ => mark_failed id "MALFORMED_OUTBOX_PAYLOAD";; mret false
      | Ok payload =>
          skip ← match dict_get EVENT_TO_STATE_TRIGGER (ob_topic row) with
                 | Some states => lift (outside_trigger payload states)
                 | None => mret false
                 end;
          if (skip : bool) then mark_delivered now id;; mret true
          else
            bus ← found dispatch (RuntimeErr "INTERNAL_COMMAND_BUS_UNAVAILABLE");
            bus command_name payload;;
            mark_delivered now id;;
            mret true
      end
  end.

(** [WHERE status='pending' AND next_attempt_at <= ? ORDER BY created_at LIMIT ?] *)
Definition batch (now : string) (l : list OutboxRow) : list OutboxRow :=
  take _BATCH_SIZE
    (sort_by (λ a b, text_le (ob_created_at a) (ob_created_at b))
       (where_ (λ r, pending r && text_le (ob_next_attempt_at r) now) l)).

(* [sidecar/ibreeze/workers/outbox.py:47-124 _deliver] *)
Definition deliver (now : string) : tx DB Z :=
  l ← gets (λ db, batch now (rows db));
  done ← for_each (deliver_row now) l;
  mret (Z.of_nat (length (List.filter (λ b : bool, b) done))).

(** The worker submits [deliver] to the write queue and logs what it raises. *)
(* [sidecar/ibreeze/workers/outbox.py:41-132 work] *)
Definition work (now : string) (db : DB) : DB := (atomically (deliver now) db).2.
End Worker.

(** ** Lemmas *)

(** The row after its turn. *)
Definition settled (r r' : OutboxRow) : Prop :=
  ob_id r' = ob_id r ∧ ob_topic r' = ob_topic r ∧ ob_payload r' = ob_payload r ∧
  ob_attempts r' = ob_attempts r + 1 ∧ ob_status r' ∈ ["delivered"; "failed"].

Section Lemmas.
Context {DB : Type} `{!EventDb DB} (parse_raw : string → result json).
Context (dispatch : option (string → json → tx DB unit)).
(** A command may enqueue further rows, but leaves the rows there are alone. *)
Hypothesis Hdispatch : ∀ bus name p d u d', dispatch = Some bus →
  bus name p d = (Ok u, d') → no_clash (rows (R := OutboxRow) d) = true →
  no_clash (rows (R := OutboxRow) d') = true ∧
  ∃ new, rows (R := OutboxRow) d' = rows d ++ new.

Lemma no_clash_ids (l : list OutboxRow) i j a b :
  no_clash l = true → l !! i = Some a → l !! j = Some b → i ≠ j → ob_id a ≠ ob_id b.
Proof.
  intros Hl Ha Hb Hij Heq. destruct (decide (i < j)%nat) as [Hlt|Hge].
  - pose proof (no_clash_lookup l i j a b Hl Ha Hb Hlt) as Hc.
    rewrite outbox_clash in Hc. bools. done.
  - pose proof (no_clash_lookup l j i b a Hl Hb Ha ltac:(lia)) as Hc.
    rewrite outbox_clash in Hc. bools. by rewrite Heq in Hc.
Qed.

Lemma lookup_updated p (f : OutboxRow → OutboxRow) (l : list OutboxRow) i :
  updated p f l !! i = (λ r, if p r then f r else r) <$> l !! i.
Proof. apply list_lookup_fmap. Qed.

(** One settling statement on the row at position [i]. *)
Lemma settle_lookup p st err del d n d' i row :
  update p (settle_row st err del) d = (Ok n, d') →
  no_clash (rows (R := OutboxRow) d) = true →
  (∀ r, p r = true → ob_id r = ob_id row) → p row = true → st ∈ ["delivered"; "failed"] →
  rows d !! i = Some row →
  no_clash (rows (R := OutboxRow) d') = true ∧
  (∀ j r, j ≠ i → rows d !! j = Some r → rows d' !! j = Some r) ∧
  ∃ r', rows d' !! i = Some r' ∧ settled row r'.
Proof.
  intros (Hok & Hcl & _ & ->)%update_ok Hd Hp Hrow Hst Hi. rewrite rows_set_rows.
  split; [done|]. split.
  - intros j r Hj Hr. rewrite lookup_updated, Hr. simpl. destruct (p r) eqn:Hpr; [|done].
    exfalso. eapply (no_clash_ids (rows d) j i r row); [done..|by apply Hp].
  - exists (settle_row st err del row). rewrite lookup_updated, Hi. simpl. rewrite Hrow.
    split; [done|]. by split_and!.
Qed.

Lemma deliver_row_ok now row d b d' i :
  deliver_row parse_raw dispatch now row d = (Ok b, d') →
  no_clash (rows (R := OutboxRow) d) = true → ob_status row = "pending" →
  rows d !! i = Some row →
  no_clash (rows (R := OutboxRow) d') = true ∧
  (∀ j r, j ≠ i → rows d !! j = Some r → rows d' !! j = Some r) ∧
  ∃ r', rows d' !! i = Some r' ∧ settled row r'.
Proof.
  intros Hrun Hd Hpend Hi.
  assert (∀ st err del d d' n, update (λ r, by_id (ob_id row) r && pending r)
      (settle_row st err del) d = (Ok n, d') → no_clash (rows (R := OutboxRow) d) = true →
      st ∈ ["delivered"; "failed"] → rows d !! i = Some row →
      no_clash (rows (R := OutboxRow) d') = true ∧
      (∀ j r, j ≠ i → rows d !! j = Some r → rows d' !! j = Some r) ∧
      ∃ r', rows d' !! i = Some r' ∧ settled row r') as Hguarded.
  { intros st err del d0 d1 n Hup H1 H2 H3. eapply settle_lookup; [done|done| | |done|done].
    - unfold by_id. intros r Hr. by bools.
    - unfold by_id, pending. by rewrite Hpend, String.eqb_refl. }
  unfold deliver_row in Hrun.
  destruct (dict_get EVENT_COMMAND_MAP (ob_topic row)) as [command|].
  - destruct (load_payload parse_raw (ob_payload row)) as [payload|e].
    + apply tx_bind_ok in Hrun as (skip & d1 & Hskip & Hrun).
      assert (d1 = d) as -> by (destruct (dict_get EVENT_TO_STATE_TRIGGER _);
        [unfold lift in Hskip; by injection Hskip|by tx_inv]).
      destruct skip.
      * unfold mark_delivered in Hrun. tx_inv. eapply Hguarded; [done|done|set_solver|done].
      * apply tx_bind_ok in Hrun as (bus & d1 & Hbus & Hrun). apply found_ok in Hbus as [Hbus ->].
        apply tx_bind_ok in Hrun as (u & d2 & Hdis & Hrun).
        destruct (Hdispatch bus command payload d u d2 Hbus Hdis Hd) as [Hd2 [new Hnew]].
        unfold mark_delivered in Hrun. tx_inv.
        assert (rows d2 !! i = Some row) as Hi2 by (rewrite Hnew; by apply lookup_app_l_Some).
        edestruct Hguarded as (H1 & H2 & H3); [done|done|set_solver|done|].
        split; [done|]. split; [|done]. intros j r Hj Hr. apply H2; [done|].
        rewrite Hnew. by apply lookup_app_l_Some.
    + unfold mark_failed in Hrun. tx_inv. eapply Hguarded; [done|done|set_solver|done].
  - destruct (ob_topic row ∈? _).
    + unfold mark_delivered in Hrun. tx_inv. eapply Hguarded; [done|done|set_solver|done].
    + unfold mark_unknown in Hrun. tx_inv. eapply settle_lookup; [done|done| | |set_solver|done].
      * unfold by_id. intros r Hr. by bools.
      * unfold by_id. apply String.eqb_refl.
Qed.
Lemma deliver_rows_ok now bl : ∀ d bs d',
  for_each (deliver_row parse_raw dispatch now) bl d = (Ok bs, d') →
  no_clash (rows (R := OutboxRow) d) = true →
  (∀ row, row ∈ bl → ob_status row = "pending" ∧ row ∈ rows d) →
  NoDup (map ob_id bl) →
  ∀ i r, rows d !! i = Some r →
    (r ∈ bl → ∃ r', rows d' !! i = Some r' ∧ settled r r') ∧
    (r ∉ bl → rows d' !! i = Some r).
Proof.
  induction bl as [|row bl IH]; intros d bs d' Hrun Hd Hbl Hnd i r Hi; simpl in Hrun.
  { tx_inv. split; [set_solver|done]. }
  apply tx_bind_ok in Hrun as (b & d1 & Hrow & Hrun).
  apply tx_bind_ok in Hrun as (bs' & d2 & Hrest & Hret). apply mret_ok in Hret as [_ ->].
  destruct (Hbl row) as [Hpend Hin]; [set_solver|].
  apply list_elem_of_lookup_1 in Hin as [k Hk].
  destruct (deliver_row_ok now row d b d1 k Hrow Hd Hpend Hk) as (Hd1 & Hother & r1 & Hr1 & Hset).
  simpl in Hnd. apply NoDup_cons in Hnd as [Hnotin Hnd].
  assert (∀ row', row' ∈ bl → ob_status row' = "pending" ∧ row' ∈ rows d1) as Hbl'.
  { intros row' Hr'. destruct (Hbl row') as [Hp' Hin']; [set_solver|]. split; [done|].
    apply list_elem_of_lookup_1 in Hin' as [j Hj].
    apply list_elem_of_lookup_2 with j, Hother; [|done]. intros ->.
    simplify_eq. apply Hnotin. apply list_elem_of_In, in_map. by apply list_elem_of_In. }
  specialize (IH d1 bs' d2 Hrest Hd1 Hbl' Hnd). destruct (decide (i = k)) as [->|Hne].
  - simplify_eq. destruct (IH k r1 Hr1) as [_ Hsame]. split; [|set_solver].
    intros _. exists r1. split; [|done]. apply Hsame. intros Hr.
    apply Hnotin. destruct Hset as [<- _]. apply list_elem_of_In, in_map.
    by apply list_elem_of_In.
  - destruct (IH i r (Hother i r Hne Hi)) as [H1 H2]. split; [|set_solver].
    intros [->|Hr]%elem_of_cons; [|by apply H1]. destruct Hne.
    assert (i = k) as ->; [|done]. destruct (decide (i = k)) as [|Hne]; [done|].
    exfalso. by eapply (no_clash_ids (rows d) i k).
Qed.

(** The batch picks pending rows of the table, each once. *)
Lemma batch_rows now (d : DB) row :
  row ∈ batch now (rows d) → ob_status row = "pending" ∧ row ∈ rows d.
Proof.
  unfold batch. intros Hrow. apply elem_of_take in Hrow as (j & Hj & _).
  apply list_elem_of_lookup_2, elem_of_sort_by, elem_where in Hj as [Hin Hp].
  unfold pending in Hp. by bools.
Qed.

Lemma no_clash_nodup_ids (l : list OutboxRow) : no_clash l = true → NoDup (map ob_id l).
Proof.
  induction l as [|r l IH]; simpl; intros Hl; [constructor|]. bools. constructor; [|by apply IH].
  intros Hin. apply list_elem_of_In, in_map_iff in Hin as (x & Hx & Hin).
  apply not_true_iff_false in H. apply H, existsb_exists. exists x. split; [done|].
  rewrite outbox_clash. by apply String.eqb_eq.
Qed.

Lemma sublist_nodup_map (l k : list OutboxRow) :
  l `sublist_of` k → NoDup (map ob_id k) → NoDup (map ob_id l).
Proof.
  intros Hs Hk. apply (sublist_NoDup _ _ Hk). clear Hk. induction Hs; simpl; by constructor.
Qed.

Lemma batch_nodup now (d : DB) :
  no_clash (rows (R := OutboxRow) d) = true → NoDup (map ob_id (batch now (rows d))).
Proof.
  intros Hd%no_clash_nodup_ids. unfold batch.
  eapply sublist_nodup_map; [apply sublist_take|].
  assert (map ob_id (sort_by (λ a b, text_le (ob_created_at a) (ob_created_at b))
      (where_ (λ r, pending r && text_le (ob_next_attempt_at r) now) (rows d))) ≡ₚ
    map ob_id (where_ (λ r, pending r && text_le (ob_next_attempt_at r) now) (rows d))) as ->
    by apply Permutation_map, sort_by_perm.
  eapply sublist_nodup_map; [|done]. unfold where_.
  generalize (rows (R := OutboxRow) d). clear. intros l. induction l as [|r l IH]; simpl;
    [constructor|]. destruct (_ && _); by constructor.
Qed.
End Lemmas.

(** ** Properties *)

(** A delivery transaction that commits settles its batch exactly once.  The
    batch is at most 50 rows, all pending and due; each of them ends [delivered]
    or [failed] with one more attempt, its identity, topic and payload kept;
    every other row of the table is exactly as it was, and the count reported is
    at most the size of the batch. *)
Lemma deliver_settles_batch {DB} `{!EventDb DB} parse_raw dispatch now (db db' : DB) n
    (Hdispatch : ∀ bus name p d u d', dispatch = Some bus →
       bus name p d = (Ok u, d') → no_clash (rows (R := OutboxRow) d) = true →
       no_clash (rows (R := OutboxRow) d') = true ∧
       ∃ new, rows (R := OutboxRow) d' = rows d ++ new)
    (Hdb : no_clash (rows (R := OutboxRow) db) = true)
    (Hrun : deliver parse_raw dispatch now db = (Ok n, db')) :
  let picked := batch now (rows db) in
  (length picked ≤ 50)%nat ∧ (0 ≤ n ≤ Z.of_nat (length picked))%Z ∧
  (∀ r, r ∈ picked → ob_status r = "pending" ∧ text_le (ob_next_attempt_at r) now = true) ∧
  (∀ i r, rows db !! i = Some r →
     (r ∈ picked → ∃ r', rows db' !! i = Some r' ∧ settled r r') ∧
     (r ∉ picked → rows db' !! i = Some r)).
Proof.
  unfold deliver in Hrun. apply tx_bind_ok in Hrun as (l & d & Hl & Hrun).
  apply gets_ok in Hl as [-> ->].
  apply tx_bind_ok in Hrun as (bs & d & Hrun & Hret). apply mret_ok in Hret as [-> ->].
  simpl. split_and!.
  - unfold batch, _BATCH_SIZE. rewrite length_take. lia.
  - lia.
  - rewrite <-(for_each_length _ _ _ _ _ Hrun).
    pose proof (List.filter_length_le (λ b : bool, b) bs). lia.
  - intros r Hr. split; [by eapply batch_rows|]. unfold batch in Hr.
    apply elem_of_take in Hr as (j & Hj & _).
    apply list_elem_of_lookup_2, elem_of_sort_by, elem_where in Hj as [_ Hp]. by bools.
  - intros i r Hi. eapply (deliver_rows_ok parse_raw dispatch Hdispatch); [done|done| | |done].
    + apply batch_rows.
    + by apply batch_nodup.
Qed.

(** One poisonous event blocks the queue.  If a row the batch picks carries a
    command event that passes its trigger and whose dispatch always raises, the
    worker's transaction raises and is rolled back: no row is settled, no
    attempt counted, so every later poll that picks the row fails the same
    way. *)
Lemma poison_event_blocks_batch {DB} `{!EventDb DB} parse_raw bus now (db : DB)
    row name payload
    (Hpicked : row ∈ batch now (rows (R := OutboxRow) db))
    (Hcommand : dict_get EVENT_COMMAND_MAP (ob_topic row) = Some name)
    (Hpayload : load_payload parse_raw (ob_payload row) = Ok payload)
    (Htrigger : ∀ states, dict_get EVENT_TO_STATE_TRIGGER (ob_topic row) = Some states →
       outside_trigger payload states = Ok false)
    (Hraises : ∀ d, ∃ e d', bus name payload d = (Err e, d')) :
  (∃ e, (atomically (deliver parse_raw (Some bus) now) db).1 = Err e) ∧
  work parse_raw (Some bus) now db = db.
Proof.
  assert (∀ d, ∃ e d', deliver_row parse_raw (Some bus) now row d = (Err e, d')) as Hrow.
  { intros d. unfold deliver_row. rewrite Hcommand, Hpayload.
    destruct (Hraises d) as (e & d' & He). exists e, d'.
    assert (match dict_get EVENT_TO_STATE_TRIGGER (ob_topic row) with
            | Some states => lift (outside_trigger payload states)
            | None => mret false end d = (Ok false, d)) as Hskip.
    { destruct (dict_get EVENT_TO_STATE_TRIGGER _) as [states|] eqn:E; [|done].
      unfold lift. by rewrite (Htrigger _ eq_refl). }
    rewrite (tx_bind_run _ _ _ _ _ Hskip). simpl.
    erewrite (tx_bind_run (found _ _)) by reflexivity. by apply tx_bind_run_err. }
  assert (∀ bl d, row ∈ bl → ∃ e d',
    for_each (deliver_row parse_raw (Some bus) now) bl d = (Err e, d')) as Hall.
  { intros bl. induction bl as [|r bl IH]; intros d Hin; [set_solver|]. simpl.
    destruct (deliver_row parse_raw (Some bus) now r d) as [[b|e] d1] eqn:Hr.
    - rewrite (tx_bind_run _ _ _ _ _ Hr). apply elem_of_cons in Hin as [->|Hin].
      + destruct (Hrow d) as (e & d' & He). congruence.
      + destruct (IH d1 Hin) as (e & d' & He). exists e, d'. by rewrite (tx_bind_run_err _ _ _ _ _ He).
    - exists e, d1. by rewrite (tx_bind_run_err _ _ _ _ _ Hr). }
  destruct (Hall _ db Hpicked) as (e & d' & He).
  assert (deliver parse_raw (Some bus) now db = (Err e, d')) as Hdel.
  { unfold deliver. erewrite (tx_bind_run (gets _)) by reflexivity. by apply tx_bind_run_err. }
  unfold work, atomically. rewrite Hdel. split; [by exists e|done].
Qed.

(** ** Witnesses *)

Import UnitOfWork.Demo.

Lemma deliver_settles_batch_witness :
  (length (batch "2025-01-03T00:00:00Z" (demo_outbox demo_done)) ≤ 50)%nat.
Proof.
  refine (proj1 (@deliver_settles_batch DemoDB demo_event_db no_parse None
    "2025-01-03T00:00:00Z" demo_done
    (deliver no_parse None "2025-01-03T00:00:00Z" demo_done).2 1 _ _ _)).
  - discriminate.
  - vm_compute. reflexivity.
  - vm_compute. reflexivity.
Defined.

Definition poison_row : OutboxRow := {|
  ob_id := "o1"; ob_domain_event_id := "e1"; ob_topic := "review.submitted";
  ob_payload := Dumped (JObj []); ob_status := "pending"; ob_attempts := 0;
  ob_next_attempt_at := "2025-01-01T00:00:00Z"; ob_last_error := None;
  ob_created_at := "2025-01-01T00:00:00Z"; ob_delivered_at := None |}.
Definition poison_db : DemoDB :=
  {| demo_idem := []; demo_events := []; demo_outbox := [poison_row] |}.

Lemma poison_event_blocks_batch_witness :
  work no_parse (Some (λ _ _ d, (Err (ValueError "RESOURCE_NOT_FOUND"), d)))
    "2025-01-02T00:00:00Z" poison_db = poison_db.
Proof.
  apply (poison_event_blocks_batch no_parse
    (λ _ _ d, (Err (ValueError "RESOURCE_NOT_FOUND"), d)) "2025-01-02T00:00:00Z" poison_db
    poison_row "EvaluateEmployeeAcceptance" (JObj [])).
  - vm_compute. repeat constructor.
  - vm_compute. reflexivity.
  - reflexivity.
  - vm_compute. discriminate.
  - intros d. eauto.
Defined.
