(* ===== verification/PyFloat.v ===== *)
(** * Floats

    A finite Python float is represented by the rational number it denotes;
    a float literal is the double nearest to it, written out exactly. *)

From Stdlib Require QArith.
From S2P Require Import Prelude.

Definition float : Type := QArith_base.Q.
Definition dbl (n : Z) (d : positive) : float := QArith_base.Qmake n d.

Definition fle (a b : float) : bool := QArith_base.Qle_bool a b.
Definition flt (a b : float) : bool := negb (fle b a).

(** The literals of the code. *)
Definition f0_30 : float := dbl 5404319552844595 18014398509481984.
Definition f0_40 : float := dbl 3602879701896397 9007199254740992.
Definition f0_50 : float := dbl 1 2.
Definition f0_55 : float := dbl 2476979795053773 4503599627370496.
Definition f0_60 : float := dbl 5404319552844595 9007199254740992.
Definition f0_70 : float := dbl 3152519739159347 4503599627370496.
Definition f0_75 : float := dbl 3 4.
Definition f0_85 : float := dbl 7656119366529843 9007199254740992.
Definition f0_90 : float := dbl 8106479329266893 9007199254740992.
Definition f0_95 : float := dbl 4278419646001971 4503599627370496.
Definition f0 : float := dbl 0 1.
Definition f1 : float := dbl 1 1.

Lemma fle_iff a b : fle a b = true ↔ QArith_base.Qle a b.
Proof. apply QArith_base.Qle_bool_iff. Qed.

Lemma fle_refl a : fle a a = true.
Proof. apply fle_iff, QArith_base.Qle_refl. Qed.

Lemma fle_trans a b c : fle a b = true → fle b c = true → fle a c = true.
Proof. rewrite !fle_iff. apply QArith_base.Qle_trans. Qed.

Lemma fle_total a b : fle a b = true ∨ fle b a = true.
Proof. rewrite !fle_iff. destruct (QArith_base.Qlt_le_dec a b); [left|by right].
  by apply QArith_base.Qlt_le_weak. Qed.

Lemma flt_irrefl a : flt a a = false.
Proof. unfold flt. by rewrite fle_refl. Qed.
