(* ===== verification/Routing.v ===== *)
(** * Routing: failure kinds, retry directives, rollout, classifier, health

    [routing/types.py], [retry.py], [config.py], [classifier.py], [health.py]
    and the gates of [ensemble.py].  Clock readings are microseconds since the
    epoch.

    The theorems: retry directives and the health ledger agree on what benches
    and what strikes; the rollout stage never widens a requested mode; the tier
    the classifier returns is the one its rules dictate; a deployment that keeps
    failing is benched by the third strike and for a bounded time. *)

From S2P Require Import Prelude PyEnum PyFloat.

(** ** types.py *)

Module RoutingMode.
(* [sidecar/ibreeze/routing/types.py:7-10 RoutingMode] *)
Inductive t := FIXED | SMART_SINGLE | SELECTIVE_ENSEMBLE.

(* [sidecar/ibreeze/routing/types.py:7-10 RoutingMode] *)
Definition val (m : t) : string :=
  match m with
  | FIXED => "fixed"
  | SMART_SINGLE => "smart_single"
  | SELECTIVE_ENSEMBLE => "selective_ensemble"
  end.

#[export] Instance t_eq_dec : EqDecision t.
Proof. solve_decision. Defined.
#[export] Program Instance t_enum : StrEnum t := {|
  members := [FIXED; SMART_SINGLE; SELECTIVE_ENSEMBLE];
  value := val |}.
Next Obligation. solve_enum_complete. Qed.
Next Obligation. solve_enum_inj. Qed.
End RoutingMode.
Import (hints) RoutingMode.

Module RouteRole.
(* [sidecar/ibreeze/routing/types.py:13-17 RouteRole] *)
Inductive t := SINGLE | PROPOSER | AGGREGATOR | FALLBACK.

(* [sidecar/ibreeze/routing/types.py:13-17 RouteRole] *)
Definition val (r : t) : string :=
  match r with
  | SINGLE => "single"
  | PROPOSER => "proposer"
  | AGGREGATOR => "aggregator"
  | FALLBACK => "fallback"
  end.

#[export] Instance t_eq_dec : EqDecision t.
Proof. solve_decision. Defined.
#[export] Program Instance t_enum : StrEnum t := {|
  members := [SINGLE; PROPOSER; AGGREGATOR; FALLBACK];
  value := val |}.
Next Obligation. solve_enum_complete. Qed.
Next Obligation. solve_enum_inj. Qed.
End RouteRole.
Import (hints) RouteRole.

Module ProviderFailureKind.
(* [sidecar/ibreeze/routing/types.py:20-32 ProviderFailureKind] *)
Inductive t :=
  | RATE_LIMITED | PROVIDER_OVERLOADED | TRANSPORT_TRANSIENT | TIMEOUT | CONTEXT_OVERFLOW
  | AUTH_INVALID | MODEL_NOT_FOUND | UNSUPPORTED_CAPABILITY | INSUFFICIENT_CREDITS
  | BAD_REQUEST | POLICY_REFUSAL | INVALID_RESPONSE.

(* [sidecar/ibreeze/routing/types.py:20-32 ProviderFailureKind] *)
Definition val (k : t) : string :=
  match k with
  | RATE_LIMITED => "RATE_LIMITED"
  | PROVIDER_OVERLOADED => "PROVIDER_OVERLOADED"
  | TRANSPORT_TRANSIENT => "TRANSPORT_TRANSIENT"
  | TIMEOUT => "TIMEOUT"
  | CONTEXT_OVERFLOW => "CONTEXT_OVERFLOW"
  | AUTH_INVALID => "AUTH_INVALID"
  | MODEL_NOT_FOUND => "MODEL_NOT_FOUND"
  | UNSUPPORTED_CAPABILITY => "UNSUPPORTED_CAPABILITY"
  | INSUFFICIENT_CREDITS => "INSUFFICIENT_CREDITS"
  | BAD_REQUEST => "BAD_REQUEST"
  | POLICY_REFUSAL => "POLICY_REFUSAL"
  | INVALID_RESPONSE => "INVALID_RESPONSE"
  end.

#[export] Instance t_eq_dec : EqDecision t.
Proof. solve_decision. Defined.
#[export] Program Instance t_enum : StrEnum t := {|
  members := [
    RATE_LIMITED; PROVIDER_OVERLOADED; TRANSPORT_TRANSIENT; TIMEOUT; CONTEXT_OVERFLOW;
    AUTH_INVALID; MODEL_NOT_FOUND; UNSUPPORTED_CAPABILITY; INSUFFICIENT_CREDITS;
    BAD_REQUEST; POLICY_REFUSAL; INVALID_RESPONSE];
  value := val |}.
Next Obligation. solve_enum_complete. Qed.
Next Obligation. solve_enum_inj. Qed.
End ProviderFailureKind.
Import (hints) ProviderFailureKind.

(** ** retry.py *)

Inductive Fallback := any | larger_context | different_credential_or_provider | none.

(* [sidecar/ibreeze/routing/retry.py:11-18 RetryDirective] *)
Record RetryDirective := {
  retry_same : bool;
  max_same_retries : Z;
  fallback_allowed : bool;
  fallback_constraint : Fallback;
  bench_immediately : bool;
  health_strike : bool }.

(** The dataclass constructor, positionally. *)
Definition directive (retry : bool) (n : Z) (fb : bool) (c : Fallback) (bench strike : bool)
    : RetryDirective := {|
  retry_same := retry; max_same_retries := n; fallback_allowed := fb;
  fallback_constraint := c; bench_immediately := bench; health_strike := strike |}.

(* [sidecar/ibreeze/routing/retry.py:21-34 _DIRECTIVES] *)
Definition _DIRECTIVES : list (ProviderFailureKind.t * RetryDirective) :=
  dict_of [
    (ProviderFailureKind.RATE_LIMITED, directive true 1 true any true true);
    (ProviderFailureKind.PROVIDER_OVERLOADED, directive true 1 true any false true);
    (ProviderFailureKind.TRANSPORT_TRANSIENT, directive true 2 true any false true);
    (ProviderFailureKind.TIMEOUT, directive true 1 true any false true);
    (ProviderFailureKind.CONTEXT_OVERFLOW, directive false 0 true larger_context false false);
    (ProviderFailureKind.AUTH_INVALID,
      directive false 0 true different_credential_or_provider false false);
    (ProviderFailureKind.MODEL_NOT_FOUND, directive false 0 true any true true);
    (ProviderFailureKind.UNSUPPORTED_CAPABILITY, directive false 0 true any true true);
    (ProviderFailureKind.INSUFFICIENT_CREDITS,
      directive false 0 true different_credential_or_provider true true);
    (ProviderFailureKind.BAD_REQUEST, directive false 0 false none false false);
    (ProviderFailureKind.POLICY_REFUSAL, directive false 0 false none false false);
    (ProviderFailureKind.INVALID_RESPONSE, directive true 1 true any false true)].

(** The argument is a member or a string; a string names a member or raises. *)
(* [sidecar/ibreeze/routing/retry.py:37-39 retry_directive] *)
Definition retry_directive (kind : ProviderFailureKind.t + string) : result RetryDirective :=
  v ← match kind with
      | inl k => Ok k
      | inr s => of_option (of_value s) (ValueError "ProviderFailureKind")
      end;
  of_option (dict_get _DIRECTIVES v) (KeyErr (value v)).

(** ** config.py *)

(* [sidecar/ibreeze/routing/config.py:10-10 _STAGES] *)
Definition _STAGES : list string :=
  ["observe"; "shadow"; "smart_single"; "selective_ensemble"; "learning_candidate"].

(* [sidecar/ibreeze/routing/config.py:14-16 RoutingRolloutConfig] *)
Record RoutingRolloutConfig := { stage : string }.

(** [raw] is what [os.getenv("IBREEZE_ROUTING_STAGE")] returns. *)
(* [sidecar/ibreeze/routing/config.py:18-26 from_env] *)
Definition from_env (raw : option string) : RoutingRolloutConfig :=
  match raw with
  | None => {| stage := "observe" |}
  | Some raw =>
      if raw =? "" then {| stage := "observe" |}
      else if negb (raw ∈? _STAGES) then {| stage := "observe" |}
      else {| stage := raw |}
  end.

(* [sidecar/ibreeze/routing/config.py:28-29 allows_smart_single] *)
Definition allows_smart_single (self : RoutingRolloutConfig) (input_origin : string) : bool :=
  (stage self ∈? ["smart_single"; "selective_ensemble"; "learning_candidate"]) &&
  (input_origin =? "production").

(* [sidecar/ibreeze/routing/config.py:31-32 allows_ensemble] *)
Definition allows_ensemble (self : RoutingRolloutConfig) (input_origin : string) : bool :=
  (stage self ∈? ["selective_ensemble"; "learning_candidate"]) &&
  (input_origin ∈? ["production"; "evaluation"]).

(* [sidecar/ibreeze/routing/config.py:34-48 effective_mode] *)
Definition effective_mode (self : RoutingRolloutConfig) (requested_mode input_origin : string)
    : result string :=
  if negb (input_origin ∈? ["production"; "evaluation"])
  then Err (ValueError "ROUTING_INPUT_ORIGIN_INVALID")
  else if negb (requested_mode ∈? ["fixed"; "smart_single"; "selective_ensemble"])
  then Ok "fixed"
  else if stage self =? "observe" then Ok "fixed"
  else if stage self =? "shadow" then
    Ok (if input_origin =? "evaluation" then requested_mode else "fixed")
  else if (requested_mode =? "selective_ensemble") && negb (allows_ensemble self input_origin)
  then Ok "smart_single"
  else if (requested_mode =? "smart_single") && negb (allows_smart_single self input_origin)
  then Ok "fixed"
  else Ok requested_mode.

(** The process-wide snapshot [_STARTUP_CONFIG] as state. *)
(* [sidecar/ibreeze/routing/config.py:51-60 startup_config] *)
Definition startup_config (env : option string) (cached : option RoutingRolloutConfig)
    : RoutingRolloutConfig * option RoutingRolloutConfig :=
  match cached with
  | None => let c := from_env env in (c, Some c)
  | Some c => (c, Some c)
  end.

(* [sidecar/ibreeze/routing/config.py:63-66 reset_startup_config_for_tests] *)
Definition reset_startup_config_for_tests (cached : option RoutingRolloutConfig)
    : option RoutingRolloutConfig := None.

(** ** context.py: the features *)

(* [sidecar/ibreeze/routing/context.py:19-44 RoutingContext] *)
Record RoutingContext := {
  route_decision_id : string;
  run_id : string;
  turn_index : Z;
  run_purpose : string;
  artifact_type : option string;
  required_capability_tags : list string;
  message_char_count : Z;
  estimated_input_tokens : Z;
  context_window_tokens : Z;
  context_pressure : float;
  contains_code : bool;
  contains_structured_schema : bool;
  attachment_types : list string;
  tool_count : Z;
  prior_tool_failures : Z;
  provider_failures : Z;
  verification_failures : Z;
  open_blocker_high_count : Z;
  previous_tier : option string;
  previous_confidence : option float;
  operator_forced_mode : option string;
  input_origin : string;
  token_estimator : string;
  contains_review_signal : bool }.

(** ** classifier.py *)

(* [sidecar/ibreeze/routing/classifier.py:10-15 TierDecision] *)
Record TierDecision := {
  required_tier : string;
  confidence : float;
  rules : list string;
  policy_trail : list (string * Z) }.

(** The closure's two variables, [tier] and [rules]. *)
Definition cls : Type := Z * list string.

(* [sidecar/ibreeze/routing/classifier.py:25-29 raise_to] *)
Definition raise_to (level : Z) (rule : string) (st : cls) : cls :=
  ((if (level >? st.1)%Z then level else st.1), st.2 ++ [rule]).

(** [if c: raise_to(level, rule)] *)
Definition raise_if (c : bool) (level : Z) (rule : string) (st : cls) : cls :=
  if c then raise_to level rule st else st.

(** [old = tier; tier = min(3, tier + 1); ...] *)
(* [sidecar/ibreeze/routing/classifier.py:45-50 failure_history] *)
Definition failure_history (c : bool) (st : cls) : cls :=
  if c then
    let old := st.1 in
    let tier := Z.min 3 (st.1 + 1) in
    let rules := st.2 ++ ["failure_history"] in
    (tier, if (tier =? old)%Z then rules ++ ["failure_history_capped"] else rules)
  else st.

(** [f"C{tier}"] *)
Definition tier_name (tier : Z) : string := String.append "C" (pretty.pretty tier).

(** [x and x not in {...}] on the operator's override. *)
Definition operator_conflict (m : option string) : bool :=
  match m with
  | Some m => negb (m =? "") && negb (m ∈? ["force_fixed"; "force_single"; "force_ensemble"])
  | None => false
  end.

(** The tier and the rules before the operator's override is looked at. *)
(* [sidecar/ibreeze/routing/classifier.py:22-54 classify_tier] *)
Definition classify_tier (context : RoutingContext) : cls :=
  let c := context in
  let st := (0, []) in
  let st := raise_if ((message_char_count c >=? 4000)%Z || (estimated_input_tokens c >=? 8000)%Z)
              1 "message_size" st in
  let st := raise_if (contains_code c && contains_review_signal c)
              2 "code_review_or_verification" st in
  let st := raise_if (contains_structured_schema c) 2 "structured_schema" st in
  let st := raise_if (run_purpose c ∈? ["company_plan"; "review"; "verification"; "summary"])
              2 "workflow_review" st in
  let st := raise_if (run_purpose c ∈? ["repair"; "merge"]) 3 "repair_or_merge" st in
  let st := raise_if (fle f0_75 (context_pressure c)) 2 "context_pressure" st in
  let st := raise_if (fle f0_90 (context_pressure c)) 3 "context_pressure_critical" st in
  let st := failure_history ((prior_tool_failures c >=? 1)%Z || (provider_failures c >=? 2)%Z) st in
  let st := raise_if (verification_failures c >=? 1)%Z 3 "verification_failure" st in
  raise_if (open_blocker_high_count c >=? 1)%Z 3 "open_blocker_high" st.

(* [sidecar/ibreeze/routing/classifier.py:21-61 classify] *)
Definition classify (context : RoutingContext) : TierDecision :=
  let '(tier, rules) := classify_tier context in
  let confidence :=
    if Nat.eqb (length rules) 0 then f0_60
    else if Nat.eqb (length rules) 1 then f0_70 else f0_85 in
  let '(confidence, rules) :=
    if operator_conflict (operator_forced_mode context)
    then (f0_40, rules ++ ["operator_conflict"]) else (confidence, rules) in
  {| required_tier := tier_name tier; confidence := confidence; rules := rules;
     policy_trail := map (λ rule, (rule, tier)) rules |}.

(** ** ensemble.py: the gates *)

(* [sidecar/ibreeze/routing/ensemble.py:118-121 default_quorum] *)
Definition default_quorum (proposer_count : Z) : result Z :=
  if ((proposer_count <? 2) || (proposer_count >? 4))%Z
  then Err (ValueError "ROUTING_ENSEMBLE_PROPOSER_COUNT_INVALID")
  else of_option (dict_get [(2, 2); (3, 2); (4, 3)] proposer_count) (KeyErr "proposer_count").

(** [required_tier or previous_tier] *)
Definition tier_or (required previous : option string) : option string :=
  match required with
  | Some t => if t =? "" then previous else Some t
  | None => previous
  end.

(* [sidecar/ibreeze/routing/ensemble.py:124-159 should_ensemble] *)
Definition should_ensemble (context : RoutingContext) (confidence : float)
    (proposer_count : Z) (aggregator_available : bool)
    (estimated_input_tokens aggregator_context_window : option Z) (max_proposers : Z)
    (proposer_provider_count : Z) (vision_proposer_count : option Z)
    (aggregator_supports_vision force_ensemble : bool) (required_tier : option string) : bool :=
  if negb aggregator_available || (proposer_count <? 2)%Z then false
  else if negb (Nat.eqb (length (attachment_types context)) 0) &&
          (negb aggregator_supports_vision ||
           match vision_proposer_count with Some n => (n <? 2)%Z | None => false end) then false
  else if (provider_failures context >=? 2)%Z && (proposer_provider_count <? 2)%Z &&
          negb force_ensemble then false
  else
    let triggered :=
      force_ensemble
      || (verification_failures context >=? 1)%Z
      || (open_blocker_high_count context >=? 1)%Z
      || ((provider_failures context >=? 2)%Z && (proposer_provider_count >=? 2)%Z)
      || (bool_decide (tier_or required_tier (previous_tier context) = Some "C3")
          && flt confidence f0_70)
      || (bool_decide (tier_or required_tier (previous_tier context) = Some "C2")
          && flt confidence f0_55) in
    if negb triggered then false
    else match estimated_input_tokens, aggregator_context_window with
         | Some est, Some window =>
             let upper_bound := (est + 2000 + max_proposers * 24000)%Z in
             negb (window <? upper_bound)%Z
         | _, _ => true
         end.

(** ** health.py *)

Definition seconds (n : Z) : Z := n * 1000000.

(* [sidecar/ibreeze/routing/health.py:14-22 HealthState] *)
Record HealthState := {
  availability_state : string;
  consecutive_strikes : Z;
  benched_until : option Z;
  last_failure_kind : option ProviderFailureKind.t;
  last_failure_at : option Z;
  last_success_at : option Z;
  version : Z }.

(** [HealthState()] *)
Definition fresh_health : HealthState := {|
  availability_state := "ready"; consecutive_strikes := 0; benched_until := None;
  last_failure_kind := None; last_failure_at := None; last_success_at := None; version := 1 |}.

(* [sidecar/ibreeze/routing/health.py:24-26 is_eligible] *)
Definition is_eligible (self : HealthState) (now : Z) : bool :=
  (availability_state self =? "ready") &&
  match benched_until self with None => true | Some t => (t <=? now)%Z end.

(* [sidecar/ibreeze/routing/health.py:119-119 _NO_STRIKE] *)
Definition _NO_STRIKE : list ProviderFailureKind.t :=
  [ProviderFailureKind.CONTEXT_OVERFLOW; ProviderFailureKind.BAD_REQUEST;
   ProviderFailureKind.POLICY_REFUSAL].
(* [sidecar/ibreeze/routing/health.py:120-120 _CREDENTIAL_FAILURES] *)
Definition _CREDENTIAL_FAILURES : list ProviderFailureKind.t := [ProviderFailureKind.AUTH_INVALID].
(* [sidecar/ibreeze/routing/health.py:121-126 _IMMEDIATE_BENCH] *)
Definition _IMMEDIATE_BENCH : list ProviderFailureKind.t :=
  [ProviderFailureKind.RATE_LIMITED; ProviderFailureKind.MODEL_NOT_FOUND;
   ProviderFailureKind.UNSUPPORTED_CAPABILITY; ProviderFailureKind.INSUFFICIENT_CREDITS].

(** The bench window in seconds. *)
(* [sidecar/ibreeze/routing/health.py:144-150 bench_duration] *)
Definition bench_duration (kind : ProviderFailureKind.t) (retry_after_seconds : option Z) : Z :=
  if kind =?o ProviderFailureKind.RATE_LIMITED
  then Z.min 900 (Z.max 1 (default 30 retry_after_seconds))
  else 30.

(* [sidecar/ibreeze/routing/health.py:129-156 apply_failure] *)
Definition apply_failure (state : HealthState) (kind : ProviderFailureKind.t) (now : Z)
    (retry_after_seconds : option Z) : HealthState :=
  if kind ∈? _CREDENTIAL_FAILURES then {|
    availability_state := "credential_invalid";
    consecutive_strikes := consecutive_strikes state; benched_until := benched_until state;
    last_failure_kind := Some kind; last_failure_at := Some now;
    last_success_at := last_success_at state; version := version state + 1 |}
  else if kind ∈? _NO_STRIKE then {|
    availability_state := availability_state state;
    consecutive_strikes := consecutive_strikes state; benched_until := benched_until state;
    last_failure_kind := Some kind; last_failure_at := Some now;
    last_success_at := last_success_at state; version := version state + 1 |}
  else
    let strikes := consecutive_strikes state + 1 in
    let duration := bench_duration kind retry_after_seconds in
    let benched :=
      if (kind ∈? _IMMEDIATE_BENCH) || (strikes >=? 3)%Z
      then Some (now + seconds duration) else benched_until state in {|
    availability_state := availability_state state;
    consecutive_strikes := strikes; benched_until := benched;
    last_failure_kind := Some kind; last_failure_at := Some now;
    last_success_at := last_success_at state; version := version state + 1 |}.

(* [sidecar/ibreeze/routing/health.py:159-167 apply_success] *)
Definition apply_success (state : HealthState) (now : Z) : HealthState := {|
  availability_state := "ready"; consecutive_strikes := 0; benched_until := None;
  last_failure_kind := last_failure_kind state; last_failure_at := last_failure_at state;
  last_success_at := Some now; version := version state + 1 |}.

(* [sidecar/ibreeze/routing/health.py:170-174 cleanup_expired] *)
Definition cleanup_expired (state : HealthState) (now : Z) : HealthState :=
  match benched_until state with
  | Some t =>
      if (t <=? now)%Z && (availability_state state =? "ready") then {|
        availability_state := availability_state state;
        consecutive_strikes := consecutive_strikes state; benched_until := None;
        last_failure_kind := last_failure_kind state; last_failure_at := last_failure_at state;
        last_success_at := last_success_at state; version := version state + 1 |}
      else state
  | None => state
  end.

(** ** Lemmas *)

Lemma raise_if_tier c level rule st :
  (raise_if c level rule st).1 = if c then Z.max st.1 level else st.1.
Proof.
  unfold raise_if, raise_to. destruct c; [|done]. simpl.
  destruct (level >? st.1)%Z eqn:E; lia.
Qed.

Lemma raise_if_rules c level rule st :
  (raise_if c level rule st).2 = st.2 ++ if c then [rule] else [].
Proof. unfold raise_if, raise_to. destruct c; simpl; [done|by rewrite app_nil_r]. Qed.

Lemma failure_history_tier c st :
  (failure_history c st).1 = if c then Z.min 3 (st.1 + 1) else st.1.
Proof. unfold failure_history. by destruct c. Qed.

Lemma failure_history_rules c st :
  (failure_history c st).2 = [] → c = false ∧ st.2 = [].
Proof.
  unfold failure_history. destruct c; simpl; [|done].
  destruct (_ =? _)%Z; intros H; by apply app_eq_nil in H as [? ?].
Qed.

(** A rule's level when it fires. *)
Definition lvl (b : bool) (n : Z) : Z := if b then n else 0.

(** The tier the rules dictate. *)
Definition dictated_tier (c : RoutingContext) : Z :=
  let signals :=
    foldl Z.max 0 [
      lvl ((message_char_count c >=? 4000) || (estimated_input_tokens c >=? 8000))%Z 1;
      lvl (contains_code c && contains_review_signal c) 2;
      lvl (contains_structured_schema c) 2;
      lvl (run_purpose c ∈? ["company_plan"; "review"; "verification"; "summary"]) 2;
      lvl (run_purpose c ∈? ["repair"; "merge"]) 3;
      lvl (fle f0_75 (context_pressure c)) 2;
      lvl (fle f0_90 (context_pressure c)) 3] in
  let escalated :=
    if ((prior_tool_failures c >=? 1) || (provider_failures c >=? 2))%Z
    then Z.min 3 (signals + 1) else signals in
  if ((verification_failures c >=? 1) || (open_blocker_high_count c >=? 1))%Z
  then 3 else escalated.

Lemma raise_if_lvl c n rule st :
  (0 ≤ st.1)%Z → (0 ≤ n)%Z →
  (raise_if c n rule st).1 = Z.max st.1 (lvl c n) ∧ (0 ≤ (raise_if c n rule st).1)%Z.
Proof. rewrite raise_if_tier. unfold lvl. destruct c; lia. Qed.

Lemma raise_chain (l : list (bool * Z * string)) st :
  (0 ≤ st.1)%Z → Forall (λ x, 0 ≤ x.1.2)%Z l →
  (foldl (λ st x, raise_if x.1.1 x.1.2 x.2 st) st l).1
    = foldl Z.max st.1 (map (λ x, lvl x.1.1 x.1.2) l).
Proof.
  revert st. induction l as [|[[c n] r] l IH]; simpl; intros st Hst Hl; [done|].
  apply Forall_cons in Hl as [Hn Hl]. simpl in Hn.
  destruct (raise_if_lvl c n r st) as [H1 H2]; [done..|]. by rewrite IH, H1.
Qed.

Lemma foldl_max_bounds l x :
  (0 ≤ x ≤ 3)%Z → Forall (λ n, 0 ≤ n ≤ 3)%Z l → (0 ≤ foldl Z.max x l ≤ 3)%Z.
Proof.
  revert x. induction l as [|n l IH]; simpl; intros x Hx Hl; [done|].
  apply Forall_cons in Hl as [Hn Hl]. apply IH; [lia|done].
Qed.

Lemma lvl_bounds b n : (0 ≤ n ≤ 3)%Z → (0 ≤ lvl b n ≤ 3)%Z.
Proof. unfold lvl. destruct b; lia. Qed.

Lemma classify_tier_dictated c : (classify_tier c).1 = dictated_tier c.
Proof.
  unfold classify_tier, dictated_tier. rewrite !raise_if_tier, failure_history_tier.
  set (st := raise_if _ 3 "context_pressure_critical" _).
  assert (st.1 = foldl Z.max 0 [
      lvl ((message_char_count c >=? 4000) || (estimated_input_tokens c >=? 8000))%Z 1;
      lvl (contains_code c && contains_review_signal c) 2;
      lvl (contains_structured_schema c) 2;
      lvl (run_purpose c ∈? ["company_plan"; "review"; "verification"; "summary"]) 2;
      lvl (run_purpose c ∈? ["repair"; "merge"]) 3;
      lvl (fle f0_75 (context_pressure c)) 2;
      lvl (fle f0_90 (context_pressure c)) 3]) as Hst.
  { exact (raise_chain [
      (((message_char_count c >=? 4000) || (estimated_input_tokens c >=? 8000))%Z, 1, _);
      (contains_code c && contains_review_signal c, 2, _);
      (contains_structured_schema c, 2, _);
      (run_purpose c ∈? ["company_plan"; "review"; "verification"; "summary"], 2, _);
      (run_purpose c ∈? ["repair"; "merge"], 3, _);
      (fle f0_75 (context_pressure c), 2, _);
      (fle f0_90 (context_pressure c), 3, _)] (0, []) ltac:(done)
      ltac:(repeat constructor; simpl; lia)). }
  assert (0 ≤ st.1 ≤ 3)%Z as Hb.
  { rewrite Hst. apply foldl_max_bounds; [lia|]. repeat constructor; apply lvl_bounds; lia. }
  rewrite <-Hst. clear Hst. clearbody st. generalize dependent (st.1). intros n Hb.
  repeat match goal with |- context [(?a >=? ?b)%Z] => destruct (a >=? b)%Z end; simpl; lia.
Qed.

Lemma dictated_tier_bounds c : (0 ≤ dictated_tier c ≤ 3)%Z.
Proof.
  unfold dictated_tier.
  assert (∀ l, Forall (λ n, 0 ≤ n ≤ 3)%Z l → 0 ≤ foldl Z.max 0 l ≤ 3)%Z as Hb
    by (intros; by apply foldl_max_bounds).
  match goal with |- context [foldl Z.max 0 ?l] =>
    assert (0 ≤ foldl Z.max 0 l ≤ 3)%Z;
    [apply Hb; repeat constructor; apply lvl_bounds; lia|generalize dependent (foldl Z.max 0 l)]
  end.
  intros.
  repeat match goal with |- context [if ?b then _ else _] => destruct b end; lia.
Qed.

(** A tier above C0 has fired at least one rule. *)
Lemma classify_tier_rules c : (classify_tier c).2 = [] → (classify_tier c).1 = 0.
Proof.
  rewrite classify_tier_dictated. unfold classify_tier.
  rewrite !raise_if_rules. intros H.
  repeat match goal with H : _ ++ _ = [] |- _ => apply app_eq_nil in H as [H ?] end.
  apply failure_history_rules in H as [Hf H]. rewrite !raise_if_rules in H.
  repeat match goal with H : _ ++ _ = [] |- _ => apply app_eq_nil in H as [H ?] end.
  unfold dictated_tier. rewrite Hf.
  repeat match goal with H : (if ?b then [_] else []) = [] |- _ =>
    destruct b eqn:?; [discriminate H|clear H] end.
  done.
Qed.

Lemma tier_name_cases n : (0 ≤ n ≤ 3)%Z → tier_name n ∈ ["C0"; "C1"; "C2"; "C3"].
Proof.
  intros Hn. assert (n = 0 ∨ n = 1 ∨ n = 2 ∨ n = 3)%Z as Hc by lia.
  destruct Hc as [->|[->|[->| ->]]]; vm_compute; repeat constructor.
Qed.

(** ** Properties *)

(** The classifier computes the tier its rules dictate: the highest level
    among the signals present, one more (capped at C3) after tool or provider
    failures, C3 after a verification failure or with an open blocker; it is one
    of C0 to C3 and every trail entry carries it. *)
Lemma classify_tier_correct c :
  required_tier (classify c) = tier_name (dictated_tier c) ∧
  required_tier (classify c) ∈ ["C0"; "C1"; "C2"; "C3"] ∧
  (∀ rule tier, (rule, tier) ∈ policy_trail (classify c) → tier = dictated_tier c).
Proof.
  unfold classify. pose proof (classify_tier_dictated c) as Ht.
  destruct (classify_tier c) as [tier rs]. simpl in Ht. subst tier.
  destruct (operator_conflict _); simpl.
  - split_and!; [done|apply tier_name_cases, dictated_tier_bounds|].
    intros rule tier. rewrite list_elem_of_In, in_map_iff. naive_solver.
  - split_and!; [done|apply tier_name_cases, dictated_tier_bounds|].
    intros rule tier. rewrite list_elem_of_In, in_map_iff. naive_solver.
Qed.

Lemma classify_confidence c :
  confidence (classify c) =
    if operator_conflict (operator_forced_mode c) then f0_40
    else match (classify_tier c).2 with [] => f0_60 | [_] => f0_70 | _ => f0_85 end.
Proof.
  unfold classify. destruct (classify_tier c) as [tier rs]. simpl.
  destruct (operator_conflict _); simpl; [done|]. by destruct rs as [|? [|? ?]].
Qed.

(** The two confidence triggers of the ensemble gate are dead for what the
    classifier produces: with its own tier and confidence, and no conflicting
    operator override, [should_ensemble] says yes only on a forced ensemble, a
    verification failure, an open blocker or repeated provider failures. *)
Lemma ensemble_needs_hard_signal c proposer_count aggregator est window max_proposers
    providers vision sv force
    (Hconflict : operator_conflict (operator_forced_mode c) = false)
    (Hyes : should_ensemble c (confidence (classify c)) proposer_count aggregator est window
       max_proposers providers vision sv force (Some (required_tier (classify c))) = true) :
  (force = true ∨ 1 ≤ verification_failures c ∨ 1 ≤ open_blocker_high_count c ∨
   (2 ≤ provider_failures c ∧ 2 ≤ providers))%Z.
Proof.
  assert (tier_or (Some (required_tier (classify c))) (previous_tier c)
          = Some (required_tier (classify c))) as Htier.
  { simpl. destruct (classify_tier_correct c) as (_ & Hc & _).
    destruct (_ =? "") eqn:E; [|done]. bools. rewrite E in Hc. elem_cases Hc; discriminate. }
  assert (required_tier (classify c) ≠ "C0" → fle f0_70 (confidence (classify c)) = true) as Hconf.
  { intros Hne. rewrite classify_confidence, Hconflict.
    destruct (classify_tier c).2 as [|? [|? ?]] eqn:Hr; [|vm_compute; reflexivity..].
    exfalso. apply Hne. destruct (classify_tier_correct c) as (-> & _).
    rewrite <-classify_tier_dictated, classify_tier_rules by done. done. }
  unfold should_ensemble in Hyes. rewrite Htier in Hyes.
  repeat (case_match; [discriminate Hyes|]). clear Hyes.
  match goal with H : negb _ = false |- _ => apply negb_false_iff in H; rename H into Htrig end.
  repeat apply orb_true_iff in Htrig as [Htrig|Htrig]; [by left|..]; right.
  all: try (bools; lia).
  all: apply andb_true_iff in Htrig as [Ht Hf]; bools; injection Ht as Ht;
    rewrite Ht in Hconf; unfold flt in Hf; exfalso.
  - rewrite Hconf in Hf by done. discriminate.
  - rewrite (fle_trans f0_55 f0_70) in Hf; [discriminate|done|by apply Hconf].
Qed.

(** A context for the witnesses. *)
Definition demo_context (purpose : string) (verification : Z) : RoutingContext := {|
  route_decision_id := "d"; run_id := "r"; turn_index := 1; run_purpose := purpose;
  artifact_type := None; required_capability_tags := []; message_char_count := 10;
  estimated_input_tokens := 5; context_window_tokens := 8000; context_pressure := f0;
  contains_code := false; contains_structured_schema := false; attachment_types := [];
  tool_count := 0; prior_tool_failures := 0; provider_failures := 0;
  verification_failures := verification; open_blocker_high_count := 0; previous_tier := None;
  previous_confidence := None; operator_forced_mode := None; input_origin := "production";
  token_estimator := "fallback_bytes_v1"; contains_review_signal := false |}.

Lemma ensemble_needs_hard_signal_witness :
  (false = true ∨ 1 ≤ 1 ∨ 1 ≤ 0 ∨ (2 ≤ 0 ∧ 2 ≤ 2))%Z.
Proof.
  apply (ensemble_needs_hard_signal (demo_context "review" 1) 2 true (Some 10) (Some 100000)
    3 2 None true false); vm_compute; reflexivity.
Defined.

(** When the gate opens an ensemble, it is one that can run: an aggregator,
    at least two proposers, images only with an aggregator that sees them and
    not fewer than two proposers known to see, and an aggregator window that
    holds the prompt, 2000 tokens and 24000 for every proposer. *)
Theorem ensemble_gate_safe c conf proposer_count aggregator est window max_proposers
    providers vision sv force tier
    (Hyes : should_ensemble c conf proposer_count aggregator est window max_proposers
       providers vision sv force tier = true) :
  aggregator = true ∧ (2 ≤ proposer_count)%Z ∧
  (attachment_types c ≠ [] → sv = true ∧ ∀ n, vision = Some n → (2 ≤ n)%Z) ∧
  (∀ e w, est = Some e → window = Some w → (e + 2000 + max_proposers * 24000 ≤ w)%Z).
Proof.
  unfold should_ensemble in Hyes. destruct (negb aggregator || _) eqn:H1; [done|].
  destruct (negb (Nat.eqb _ _) && _) eqn:H2; [done|].
  destruct (_ && negb force) eqn:H3; [done|]. destruct (negb (force || _ || _ || _ || _ || _)); [done|].
  bools. split_and!; [done|lia| |].
  - intros Hatt. destruct (attachment_types c); [done|]. simpl in H2. bools. split; [done|].
    intros n ->. bools. lia.
  - intros e w -> ->. bools. lia.
Qed.

Lemma ensemble_gate_safe_witness :
  true = true ∧ (2 ≤ 3)%Z ∧
  (attachment_types (demo_context "review" 1) ≠ [] → true = true ∧
     ∀ n, Some 2 = Some n → (2 ≤ n)%Z) ∧
  (∀ e w, Some 10 = Some e → Some 100000 = Some w → (e + 2000 + 3 * 24000 ≤ w)%Z).
Proof. apply (ensemble_gate_safe (demo_context "review" 1) f0_85 3 true (Some 10) (Some 100000)
    3 2 (Some 2) true false None). vm_compute. reflexivity. Defined.

(** The failures the ledger counts. *)
Definition striking (k : ProviderFailureKind.t) : bool :=
  negb (k ∈? _CREDENTIAL_FAILURES) && negb (k ∈? _NO_STRIKE).

(** The retry table and the health ledger agree.  For every failure kind,
    in every state: the kind has a directive; the directive's [health_strike] is
    exactly a strike in the ledger; its [bench_immediately] benches the
    deployment at once, for 1 to 900 seconds; a kind that neither strikes nor
    benches leaves the strikes and the bench alone; and a kind that may be
    retried in place allows at least one retry, others none. *)
Lemma retry_and_health_agree k state now retry_after :
  ∃ d, retry_directive (inl k) = Ok d ∧ retry_directive (inr (value k)) = Ok d ∧
  consecutive_strikes (apply_failure state k now retry_after)
    = consecutive_strikes state + (if health_strike d then 1 else 0) ∧
  (bench_immediately d = true → ∃ n, (1 ≤ n ≤ 900)%Z ∧
     benched_until (apply_failure state k now retry_after) = Some (now + seconds n)) ∧
  (health_strike d = false → bench_immediately d = false ∧
     benched_until (apply_failure state k now retry_after) = benched_until state) ∧
  (0 <? max_same_retries d)%Z = retry_same d ∧
  (fallback_allowed d = false ↔ fallback_constraint d = none).
Proof.
  destruct (dict_get _DIRECTIVES k) as [d|] eqn:Hd; [|by destruct k].
  assert (retry_directive (inl k) = Ok d) as H1
    by (unfold retry_directive, mbind, result_bind; by rewrite Hd).
  assert (retry_directive (inr (value k)) = Ok d) as H2
    by (unfold retry_directive, mbind, result_bind; rewrite of_value_value;
        cbn -[dict_get _DIRECTIVES value]; by rewrite Hd).
  exists d. split_and!; [done|done|..]; clear H1 H2.
  - destruct k; injection Hd as <-; simpl; lia.
  - destruct k; injection Hd as <-; simpl; try done; intros _; eexists; (split; [|reflexivity]).
    all: unfold bench_duration; simpl; lia.
  - destruct k; injection Hd as <-; simpl; try done.
  - by destruct k; injection Hd as <-.
  - by destruct k; injection Hd as <-.
Qed.

(** One failure after another. *)
Definition apply_failures (state : HealthState)
    (l : list (ProviderFailureKind.t * Z * option Z)) : HealthState :=
  foldl (λ s f, apply_failure s f.1.1 f.1.2 f.2) state l.

Lemma striking_failure state k now ra :
  striking k = true →
  apply_failure state k now ra = {|
    availability_state := availability_state state;
    consecutive_strikes := consecutive_strikes state + 1;
    benched_until := if (k ∈? _IMMEDIATE_BENCH) || (consecutive_strikes state + 1 >=? 3)%Z
                     then Some (now + seconds (bench_duration k ra)) else benched_until state;
    last_failure_kind := Some k; last_failure_at := Some now;
    last_success_at := last_success_at state; version := version state + 1 |}.
Proof.
  unfold striking, apply_failure.
  by destruct (k ∈? _CREDENTIAL_FAILURES), (k ∈? _NO_STRIKE).
Qed.

Lemma bench_duration_bounds k ra : (1 ≤ bench_duration k ra ≤ 900)%Z.
Proof. unfold bench_duration. case_bool_decide; lia. Qed.

(** The third strike benches, and the bench ends.  After two or more
    striking failures from any state with a non-negative count, one more at time
    [now] makes the deployment ineligible for at least a second and at most 900;
    from then on it is eligible again if its credential is still good; and one
    success clears strikes and bench for good. *)
Lemma third_strike_benches state fs k now ra
    (Hstrikes : (0 ≤ consecutive_strikes state)%Z)
    (Hfs : forallb (λ f, striking f.1.1) fs = true) (Hlen : (2 ≤ length fs)%nat)
    (Hk : striking k = true) :
  let s := apply_failure (apply_failures state fs) k now ra in
  (∀ t, (now ≤ t < now + seconds 1)%Z → is_eligible s t = false) ∧
  (availability_state state = "ready" → ∀ t, (now + seconds 900 ≤ t)%Z → is_eligible s t = true) ∧
  (∀ t t', is_eligible (apply_success s t) t' = true).
Proof.
  assert (∀ state, consecutive_strikes (apply_failures state fs)
            = consecutive_strikes state + Z.of_nat (length fs) ∧
          availability_state (apply_failures state fs) = availability_state state) as Hrun.
  { clear Hlen Hstrikes. induction fs as [|[[k' t'] ra'] fs IH]; simpl; intros st; [split; [lia|done]|].
    simpl in Hfs. bools. unfold apply_failures in *. simpl.
    destruct (IH H0 (apply_failure st k' t' ra')) as [-> ->].
    rewrite striking_failure by done. simpl. split; [lia|done]. }
  destruct (Hrun state) as [Hn Ha]. pose proof (bench_duration_bounds k ra) as Hd.
  simpl. rewrite striking_failure, Hn by done. unfold is_eligible, seconds in *. simpl.
  assert ((consecutive_strikes state + Z.of_nat (length fs) + 1 >=? 3)%Z = true) as -> by lia.
  rewrite orb_true_r, Ha. split_and!; [| |done].
  - intros t Ht. apply andb_false_iff. right. apply Z.leb_gt. lia.
  - intros -> t Ht. simpl. apply Z.leb_le. lia.
Qed.

Lemma third_strike_benches_witness :
  is_eligible (apply_failure (apply_failures fresh_health
      [(ProviderFailureKind.TIMEOUT, 0, None); (ProviderFailureKind.TIMEOUT, 1, None)])
    ProviderFailureKind.TIMEOUT 2 None) 3 = false.
Proof.
  apply (third_strike_benches fresh_health
      [(ProviderFailureKind.TIMEOUT, 0, None); (ProviderFailureKind.TIMEOUT, 1, None)]
      ProviderFailureKind.TIMEOUT 2 None); [done|reflexivity|simpl; lia|reflexivity|].
  vm_compute. split; [discriminate|reflexivity].
Defined.

Definition mode_rank (m : string) : Z :=
  if m =? "selective_ensemble" then 2 else if m =? "smart_single" then 1 else 0.

(** The rollout stage only ever narrows.  Whatever the environment holds,
    the mode that takes effect is one of the three modes and ranks no higher
    than the requested one; in the default and [observe] stages it is [fixed];
    and in the [shadow] stage production traffic is [fixed]. *)
Lemma effective_mode_narrows env requested origin m
    (Hok : effective_mode (from_env env) requested origin = Ok m) :
  m ∈ ["fixed"; "smart_single"; "selective_ensemble"] ∧
  (mode_rank m ≤ mode_rank requested)%Z ∧
  (stage (from_env env) = "observe" → m = "fixed") ∧
  (stage (from_env env) = "shadow" → origin = "production" → m = "fixed").
Proof.
  unfold effective_mode in Hok.
  destruct (negb (origin ∈? _)) eqn:Ho; [done|].
  destruct (negb (requested ∈? _)) eqn:Hr.
  { injection Hok as <-. split_and!; try done; [repeat constructor|].
    unfold mode_rank at 2. repeat case_match; vm_compute; discriminate. }
  bools. destruct (stage _ =? "observe") eqn:E1.
  { injection Hok as <-. split_and!; try done; [repeat constructor|].
    elem_cases Hr; subst; vm_compute; discriminate. }
  destruct (stage _ =? "shadow") eqn:E2.
  { bools. injection Hok as <-. split_and!.
    - destruct (origin =? _); [done|repeat constructor].
    - destruct (origin =? _); [lia|]. elem_cases Hr; subst; vm_compute; discriminate.
    - intros Hs. congruence.
    - intros _ ->. done. }
  bools. split_and!; [| |congruence|congruence].
  - repeat case_match; injection Hok as <-; first [done|repeat constructor; fail|set_solver].
  - elem_cases Hr; subst; simpl in Hok; repeat case_match; simplify_eq; vm_compute; discriminate.
Qed.

Lemma effective_mode_narrows_witness :
  "fixed" ∈ ["fixed"; "smart_single"; "selective_ensemble"] ∧
  (mode_rank "fixed" ≤ mode_rank "selective_ensemble")%Z ∧
  (stage (from_env None) = "observe" → "fixed" = "fixed") ∧
  (stage (from_env None) = "shadow" → "production" = "production" → "fixed" = "fixed").
Proof.
  apply (effective_mode_narrows None "selective_ensemble" "production").
  vm_compute. reflexivity.
Defined.

(** One request slips past its gate.  At stage [smart_single] evaluation
    traffic may not use [smart_single] (asking for it yields [fixed]), but asking
    for the wider [selective_ensemble] yields [smart_single]. *)
Lemma ensemble_request_bypasses_single_gate :
  let c := from_env (Some "smart_single") in
  allows_smart_single c "evaluation" = false ∧
  effective_mode c "smart_single" "evaluation" = Ok "fixed" ∧
  effective_mode c "selective_ensemble" "evaluation" = Ok "smart_single".
Proof. repeat split. Qed.
