(* ===== verification/RoutingStore.v ===== *)
(** * The routing repository ([routing/repository.py], [routing/outcomes.py])

    The five routing tables of [006_intelligent_routing.sql] with their
    constraints and triggers, and the repository's methods as transactions.

    The theorems: decisions and attempts only move forward along their status
    tables, each at most once from a given status; a physical request is bound to
    one attempt and once; recording an outcome is idempotent; an upsert of health
    or override keeps one row per key and bumps its version. *)

From S2P Require Import Prelude PyEnum PyFloat PyStr Sql Routing.
Import (hints) RoutingMode RouteRole ProviderFailureKind.

Record Decision := {
  rd_id : string;
  rd_company_id : string;
  rd_run_id : string;
  rd_turn_index : Z;
  rd_execution_snapshot_id : string;
  rd_routing_mode : string;
  rd_classifier_version : string;
  rd_input_fingerprint : string;
  rd_required_tier : string;
  rd_confidence : float;
  rd_selected_kind : string;
  rd_selected_bindings : list (list (string * json));
  rd_aggregator_candidate_id : option string;
  rd_policy_trail : list (list (string * json));
  rd_status : string;
  rd_created_at : string;
  rd_completed_at : option string }.

Record Attempt := {
  at_id : string;
  at_route_decision_id : string;
  at_company_id : string;
  at_run_id : string;
  at_execution_snapshot_id : string;
  at_attempt_sequence : Z;
  at_role : string;
  at_candidate_id : string;
  at_provider_release_id : string;
  at_model_binding_id : string;
  at_credential_ref_sha256 : string;
  at_request_id : option string;
  at_status : string;
  at_failure_kind : option string;
  at_http_status : option Z;
  at_created_at : string;
  at_accepted_at : option string;
  at_started_at : option string;
  at_completed_at : option string;
  at_latency_ms : option Z;
  at_input_tokens : option Z;
  at_output_tokens : option Z;
  at_total_tokens : option Z;
  at_candidate_truncated : Z }.

Record Outcome := {
  oc_id : string;
  oc_route_decision_id : string;
  oc_company_id : string;
  oc_outcome_type : string;
  oc_source_id : string;
  oc_score : float;
  oc_label : string;
  oc_occurred_at : string }.

Record Health := {
  dh_company_id : string;
  dh_provider_release_id : string;
  dh_model_binding_id : string;
  dh_credential_ref_sha256 : string;
  dh_availability_state : string;
  dh_consecutive_strikes : Z;
  dh_benched_until : option string;
  dh_last_failure_kind : option string;
  dh_last_failure_at : option string;
  dh_last_success_at : option string;
  dh_version : Z;
  dh_updated_at : string }.

Record RunControl := {
  rc_company_id : string;
  rc_run_id : string;
  rc_override_mode : option string;
  rc_version : Z;
  rc_updated_at : string }.

Record DB := {
  route_decisions : list Decision;
  route_attempts : list Attempt;
  route_outcomes : list Outcome;
  deployment_health : list Health;
  routing_run_controls : list RunControl;
  runs : list (string * string);        (** [agent_runs]: id, company *)
  snapshots : list (string * string) }. (** [execution_snapshots]: id, company *)

(** ** Constraints *)

Definition len64 (s : string) : bool := (py_len s =? 64)%Z.
Definition opt_all {A} (p : A → bool) (o : option A) : bool :=
  match o with Some a => p a | None => true end.
Definition null_or (o : option string) (l : list string) : bool := opt_all (λ s, s ∈? l) o.
Definition nonneg (n : Z) : bool := (0 <=? n)%Z.

Definition decision_ok (d : Decision) : bool :=
  (0 <? rd_turn_index d)%Z &&
  (rd_routing_mode d ∈? ["fixed"; "smart_single"; "selective_ensemble"]) &&
  len64 (rd_input_fingerprint d) &&
  (rd_required_tier d ∈? ["C0"; "C1"; "C2"; "C3"]) &&
  fle f0 (rd_confidence d) && fle (rd_confidence d) f1 &&
  (rd_selected_kind d ∈? ["single"; "ensemble"]) &&
  (rd_status d ∈? ["planned"; "executing"; "succeeded"; "failed"; "cancelled"]).

Definition attempt_ok (a : Attempt) : bool :=
  (0 <? at_attempt_sequence a)%Z &&
  (at_role a ∈? ["single"; "proposer"; "aggregator"; "fallback"]) &&
  len64 (at_credential_ref_sha256 a) &&
  (at_status a ∈? ["created"; "accepted"; "streaming"; "succeeded"; "failed"; "cancelled";
     "timed_out"]) &&
  opt_all (λ k, k ∈? map value (members (A := ProviderFailureKind.t))) (at_failure_kind a) &&
  opt_all (λ n, (100 <=? n)%Z && (n <=? 599)%Z) (at_http_status a) &&
  opt_all nonneg (at_latency_ms a) && opt_all nonneg (at_input_tokens a) &&
  opt_all nonneg (at_output_tokens a) && opt_all nonneg (at_total_tokens a) &&
  (at_candidate_truncated a ∈? [0; 1]%Z).

Definition same_request (a b : Attempt) : bool :=
  match at_request_id a, at_request_id b with
  | Some r, Some r' => r =? r'
  | _, _ => false
  end.
Definition same_sequence (a b : Attempt) : bool :=
  (at_route_decision_id a =? at_route_decision_id b) &&
  (at_attempt_sequence a =? at_attempt_sequence b)%Z.

Definition is_str (j : json) (s : string) : bool :=
  match j with JStr t => t =? s | _ => false end.

(** The trigger [route_attempt_parent_guard]. *)
Definition parent_guard (db : DB) (a : Attempt) : bool :=
  match List.find (λ d, rd_id d =? at_route_decision_id a) (route_decisions db) with
  | Some d =>
      (rd_company_id d =? at_company_id a) && (rd_run_id d =? at_run_id a) &&
      (rd_execution_snapshot_id d =? at_execution_snapshot_id a) &&
      existsb (λ b, is_str (field b "candidate_id") (at_candidate_id a) &&
                    is_str (field b "role") (at_role a)) (rd_selected_bindings d)
  | None => false
  end.

(** ** Tables *)

Ltac solve_lens := intros; repeat match goal with db : DB |- _ => destruct db end; reflexivity.

#[export] Program Instance decisions_table : Table DB Decision := {|
  table_name := "route_decisions"; rows := route_decisions;
  set_rows l db := {| route_decisions := l; route_attempts := route_attempts db;
    route_outcomes := route_outcomes db; deployment_health := deployment_health db;
    routing_run_controls := routing_run_controls db; runs := runs db;
    snapshots := snapshots db |};
  row_ok := decision_ok;
  clash a b := (rd_id a =? rd_id b) ||
    ((rd_run_id a =? rd_run_id b) && (rd_turn_index a =? rd_turn_index b)%Z);
  refs_ok db d := ((rd_run_id d, rd_company_id d) ∈? runs db) &&
    ((rd_execution_snapshot_id d, rd_company_id d) ∈? snapshots db) |}.
Solve All Obligations with solve_lens.

#[export] Program Instance attempts_table : Table DB Attempt := {|
  table_name := "route_attempts"; rows := route_attempts;
  set_rows l db := {| route_decisions := route_decisions db; route_attempts := l;
    route_outcomes := route_outcomes db; deployment_health := deployment_health db;
    routing_run_controls := routing_run_controls db; runs := runs db;
    snapshots := snapshots db |};
  row_ok := attempt_ok;
  clash a b := (at_id a =? at_id b) || same_sequence a b || same_request a b;
  refs_ok db a := parent_guard db a && ((at_run_id a, at_company_id a) ∈? runs db) &&
    ((at_execution_snapshot_id a, at_company_id a) ∈? snapshots db) |}.
Solve All Obligations with solve_lens.

#[export] Program Instance outcomes_table : Table DB Outcome := {|
  table_name := "route_outcomes"; rows := route_outcomes;
  set_rows l db := {| route_decisions := route_decisions db; route_attempts := route_attempts db;
    route_outcomes := l; deployment_health := deployment_health db;
    routing_run_controls := routing_run_controls db; runs := runs db;
    snapshots := snapshots db |};
  row_ok o := (oc_outcome_type o ∈?
      ["tool_result"; "verification"; "artifact"; "review"; "task_terminal"]) &&
    fle f0 (oc_score o) && fle (oc_score o) f1;
  clash a b := (oc_id a =? oc_id b) ||
    ((oc_route_decision_id a =? oc_route_decision_id b) &&
     (oc_outcome_type a =? oc_outcome_type b) && (oc_source_id a =? oc_source_id b));
  refs_ok db o := existsb (λ d, (rd_id d =? oc_route_decision_id o) &&
    (rd_company_id d =? oc_company_id o)) (route_decisions db) |}.
Solve All Obligations with solve_lens.

#[export] Program Instance health_table : Table DB Health := {|
  table_name := "deployment_health"; rows := deployment_health;
  set_rows l db := {| route_decisions := route_decisions db; route_attempts := route_attempts db;
    route_outcomes := route_outcomes db; deployment_health := l;
    routing_run_controls := routing_run_controls db; runs := runs db;
    snapshots := snapshots db |};
  row_ok h := len64 (dh_credential_ref_sha256 h) &&
    (dh_availability_state h ∈? ["ready"; "credential_invalid"]) &&
    (0 <=? dh_consecutive_strikes h)%Z && (0 <? dh_version h)%Z;
  clash a b := (dh_company_id a =? dh_company_id b) &&
    (dh_provider_release_id a =? dh_provider_release_id b) &&
    (dh_model_binding_id a =? dh_model_binding_id b) &&
    (dh_credential_ref_sha256 a =? dh_credential_ref_sha256 b);
  refs_ok db h := true |}.
Solve All Obligations with solve_lens.

#[export] Program Instance controls_table : Table DB RunControl := {|
  table_name := "routing_run_controls"; rows := routing_run_controls;
  set_rows l db := {| route_decisions := route_decisions db; route_attempts := route_attempts db;
    route_outcomes := route_outcomes db; deployment_health := deployment_health db;
    routing_run_controls := l; runs := runs db; snapshots := snapshots db |};
  row_ok c := null_or (rc_override_mode c) ["force_fixed"; "force_single"; "force_ensemble"] &&
    (0 <? rc_version c)%Z;
  clash a b := (rc_company_id a =? rc_company_id b) && (rc_run_id a =? rc_run_id b);
  refs_ok db c := (rc_run_id c, rc_company_id c) ∈? runs db |}.
Solve All Obligations with solve_lens.

(** ** The repository *)

(* [sidecar/ibreeze/routing/repository.py:24-88 create_decision] *)
Definition create_decision (now decision_id company_id run_id : string) (turn_index : Z)
    (execution_snapshot_id : string) (routing_mode : RoutingMode.t)
    (classifier_version input_fingerprint required_tier : string) (confidence : float)
    (selected_kind : string) (selected_bindings policy_trail : list (list (string * json)))
    (aggregator_candidate_id : option string) : tx DB (list (string * json)) :=
  check (fle f0 confidence && fle confidence f1 && (py_len input_fingerprint =? 64)%Z)
    (ValueError "ROUTE_DECISION_INVALID");;
  check (required_tier ∈? ["C0"; "C1"; "C2"; "C3"]) (ValueError "ROUTE_DECISION_TIER_INVALID");;
  check ((selected_kind ∈? ["single"; "ensemble"]) && negb (Nat.eqb (length selected_bindings) 0))
    (ValueError "ROUTE_SELECTION_INVALID");;
  check (forallb (λ item, json_truthy (field item "candidate_id") && json_truthy (field item "role"))
           selected_bindings) (ValueError "ROUTE_SELECTION_INVALID");;
  except_integrity (insert_row {|
      rd_id := decision_id; rd_company_id := company_id; rd_run_id := run_id;
      rd_turn_index := turn_index; rd_execution_snapshot_id := execution_snapshot_id;
      rd_routing_mode := value routing_mode; rd_classifier_version := classifier_version;
      rd_input_fingerprint := input_fingerprint; rd_required_tier := required_tier;
      rd_confidence := confidence; rd_selected_kind := selected_kind;
      rd_selected_bindings := selected_bindings;
      rd_aggregator_candidate_id := aggregator_candidate_id; rd_policy_trail := policy_trail;
      rd_status := "planned"; rd_created_at := now; rd_completed_at := None |})
    (λ _, ValueError "ROUTE_DECISION_EXISTS");;
  mret [("id", JStr decision_id); ("company_id", JStr company_id);
        ("run_id", JStr run_id); ("turn_index", JInt turn_index);
        ("routing_mode", JStr (value routing_mode)); ("status", JStr "planned");
        ("created_at", JStr now)].

(* [sidecar/ibreeze/routing/repository.py:97-103 allowed_targets] *)
Definition decision_targets : list (string * list string) :=
  dict_of [
    ("planned", ["executing"; "failed"; "cancelled"]);
    ("executing", ["succeeded"; "failed"; "cancelled"]);
    ("succeeded", []);
    ("failed", []);
    ("cancelled", [])].

Definition set_decision (status now : string) (d : Decision) : Decision := {|
  rd_id := rd_id d; rd_company_id := rd_company_id d; rd_run_id := rd_run_id d;
  rd_turn_index := rd_turn_index d; rd_execution_snapshot_id := rd_execution_snapshot_id d;
  rd_routing_mode := rd_routing_mode d; rd_classifier_version := rd_classifier_version d;
  rd_input_fingerprint := rd_input_fingerprint d; rd_required_tier := rd_required_tier d;
  rd_confidence := rd_confidence d; rd_selected_kind := rd_selected_kind d;
  rd_selected_bindings := rd_selected_bindings d;
  rd_aggregator_candidate_id := rd_aggregator_candidate_id d;
  rd_policy_trail := rd_policy_trail d; rd_status := status; rd_created_at := rd_created_at d;
  rd_completed_at := if status ∈? ["succeeded"; "failed"; "cancelled"] then Some now
                     else rd_completed_at d |}.

(* [sidecar/ibreeze/routing/repository.py:90-114 transition_decision] *)
Definition transition_decision (now decision_id expected_status target_status : string)
    : tx DB bool :=
  targets ← found (dict_get decision_targets expected_status)
    (ValueError "ROUTE_DECISION_STATUS_INVALID");
  check (target_status ∈? targets) (ValueError "ROUTE_DECISION_TRANSITION_INVALID");;
  rowcount ← update (λ d, (rd_id d =? decision_id) && (rd_status d =? expected_status))
    (set_decision target_status now);
  mret (rowcount =? 1)%Z.

(* [sidecar/ibreeze/routing/repository.py:116-166 create_attempt] *)
Definition create_attempt (now attempt_id route_decision_id company_id run_id
    execution_snapshot_id : string) (attempt_sequence : Z) (role : RouteRole.t)
    (candidate_id provider_release_id model_binding_id credential_ref_sha256 : string)
    (request_id : option string) : tx DB (list (string * string)) :=
  check ((1 <=? attempt_sequence)%Z && (py_len credential_ref_sha256 =? 64)%Z)
    (ValueError "ROUTE_ATTEMPT_INVALID");;
  let row := {|
    at_id := attempt_id; at_route_decision_id := route_decision_id; at_company_id := company_id;
    at_run_id := run_id; at_execution_snapshot_id := execution_snapshot_id;
    at_attempt_sequence := attempt_sequence; at_role := value role;
    at_candidate_id := candidate_id; at_provider_release_id := provider_release_id;
    at_model_binding_id := model_binding_id;
    at_credential_ref_sha256 := credential_ref_sha256; at_request_id := request_id;
    at_status := "created"; at_failure_kind := None; at_http_status := None;
    at_created_at := now; at_accepted_at := None; at_started_at := None;
    at_completed_at := None; at_latency_ms := None; at_input_tokens := None;
    at_output_tokens := None; at_total_tokens := None; at_candidate_truncated := 0 |} in
  except_integrity (insert_row row)
    (λ db, ValueError
      (if negb (parent_guard db row) then "ROUTE_ATTEMPT_INVALID"
       else if existsb (λ a, same_request a row) (route_attempts db)
       then "ROUTE_ATTEMPT_REQUEST_EXISTS"
       else if existsb (λ a, same_sequence a row) (route_attempts db)
       then "ROUTE_ATTEMPT_SEQUENCE_EXISTS"
       else "ROUTE_ATTEMPT_INVALID"));;
  mret [("id", attempt_id); ("status", "created"); ("created_at", now)].

(* [sidecar/ibreeze/routing/repository.py:183-191 allowed_targets] *)
Definition attempt_targets : list (string * list string) :=
  dict_of [
    ("created", ["accepted"; "failed"; "cancelled"; "timed_out"]);
    ("accepted", ["streaming"; "succeeded"; "failed"; "cancelled"; "timed_out"]);
    ("streaming", ["succeeded"; "failed"; "cancelled"; "timed_out"]);
    ("succeeded", []);
    ("failed", []);
    ("cancelled", []);
    ("timed_out", [])].

(** The usage figures a transition may report. *)
Record Usage := {
  u_latency_ms : option Z;
  u_input_tokens : option Z;
  u_output_tokens : option Z;
  u_total_tokens : option Z;
  u_candidate_truncated : option bool }.

(** [COALESCE(new, old)] *)
Definition coalesce {A} (new old : option A) : option A :=
  match new with Some a => Some a | None => old end.

Definition set_attempt (status now : string) (failure_kind : option ProviderFailureKind.t)
    (http_status : option Z) (u : Usage) (a : Attempt) : Attempt := {|
  at_id := at_id a; at_route_decision_id := at_route_decision_id a;
  at_company_id := at_company_id a; at_run_id := at_run_id a;
  at_execution_snapshot_id := at_execution_snapshot_id a;
  at_attempt_sequence := at_attempt_sequence a; at_role := at_role a;
  at_candidate_id := at_candidate_id a; at_provider_release_id := at_provider_release_id a;
  at_model_binding_id := at_model_binding_id a;
  at_credential_ref_sha256 := at_credential_ref_sha256 a; at_request_id := at_request_id a;
  at_status := status; at_failure_kind := value <$> failure_kind; at_http_status := http_status;
  at_created_at := at_created_at a;
  at_accepted_at := if status =? "accepted" then coalesce (at_accepted_at a) (Some now)
                    else at_accepted_at a;
  at_started_at := if status =? "streaming" then coalesce (at_started_at a) (Some now)
                   else at_started_at a;
  at_completed_at := if status ∈? ["succeeded"; "failed"; "cancelled"; "timed_out"]
                     then Some now else at_completed_at a;
  at_latency_ms := coalesce (u_latency_ms u) (at_latency_ms a);
  at_input_tokens := coalesce (u_input_tokens u) (at_input_tokens a);
  at_output_tokens := coalesce (u_output_tokens u) (at_output_tokens a);
  at_total_tokens := coalesce (u_total_tokens u) (at_total_tokens a);
  at_candidate_truncated :=
    match u_candidate_truncated u with
    | Some b => if b then 1 else 0
    | None => at_candidate_truncated a
    end |}.

(* [sidecar/ibreeze/routing/repository.py:168-230 transition_attempt] *)
Definition transition_attempt (now attempt_id expected_status target_status : string)
    (failure_kind : option ProviderFailureKind.t) (http_status : option Z) (u : Usage)
    : tx DB bool :=
  targets ← found (dict_get attempt_targets expected_status)
    (ValueError "ROUTE_ATTEMPT_STATUS_INVALID");
  check (target_status ∈? targets) (ValueError "ROUTE_ATTEMPT_TRANSITION_INVALID");;
  check (opt_all nonneg (u_latency_ms u) && opt_all nonneg (u_input_tokens u) &&
         opt_all nonneg (u_output_tokens u) && opt_all nonneg (u_total_tokens u))
    (ValueError "ROUTE_ATTEMPT_USAGE_INVALID");;
  rowcount ← update (λ a, (at_id a =? attempt_id) && (at_status a =? expected_status))
    (set_attempt target_status now failure_kind http_status u);
  mret (rowcount =? 1)%Z.

Definition set_request (request_id : string) (a : Attempt) : Attempt := {|
  at_id := at_id a; at_route_decision_id := at_route_decision_id a;
  at_company_id := at_company_id a; at_run_id := at_run_id a;
  at_execution_snapshot_id := at_execution_snapshot_id a;
  at_attempt_sequence := at_attempt_sequence a; at_role := at_role a;
  at_candidate_id := at_candidate_id a; at_provider_release_id := at_provider_release_id a;
  at_model_binding_id := at_model_binding_id a;
  at_credential_ref_sha256 := at_credential_ref_sha256 a; at_request_id := Some request_id;
  at_status := at_status a; at_failure_kind := at_failure_kind a;
  at_http_status := at_http_status a; at_created_at := at_created_at a;
  at_accepted_at := at_accepted_at a; at_started_at := at_started_at a;
  at_completed_at := at_completed_at a; at_latency_ms := at_latency_ms a;
  at_input_tokens := at_input_tokens a; at_output_tokens := at_output_tokens a;
  at_total_tokens := at_total_tokens a; at_candidate_truncated := at_candidate_truncated a |}.

(* [sidecar/ibreeze/routing/repository.py:232-251 bind_attempt_request] *)
Definition bind_attempt_request (attempt_id request_id : string) : tx DB bool :=
  check (negb (request_id =? "")) (ValueError "ROUTE_ATTEMPT_REQUEST_INVALID");;
  rowcount ← except_integrity
    (update (λ a, (at_id a =? attempt_id) && (at_request_id a =?o None)) (set_request request_id))
    (λ _, ValueError "ROUTE_ATTEMPT_REQUEST_EXISTS");
  mret (rowcount =? 1)%Z.

(* [sidecar/ibreeze/routing/repository.py:253-272 record_outcome] *)
Definition record_outcome (now outcome_id route_decision_id company_id outcome_type
    source_id : string) (score : float) (label : string) : tx DB bool :=
  check (fle f0 score && fle score f1) (ValueError "ROUTE_OUTCOME_SCORE_INVALID");;
  rowcount ← insert_or_ignore {|
    oc_id := outcome_id; oc_route_decision_id := route_decision_id;
    oc_company_id := company_id; oc_outcome_type := outcome_type; oc_source_id := source_id;
    oc_score := score; oc_label := label; oc_occurred_at := now |};
  mret (rowcount =? 1)%Z.

Definition merge_health (new old : Health) : Health := {|
  dh_company_id := dh_company_id old; dh_provider_release_id := dh_provider_release_id old;
  dh_model_binding_id := dh_model_binding_id old;
  dh_credential_ref_sha256 := dh_credential_ref_sha256 old;
  dh_availability_state := dh_availability_state new;
  dh_consecutive_strikes := dh_consecutive_strikes new;
  dh_benched_until := dh_benched_until new; dh_last_failure_kind := dh_last_failure_kind new;
  dh_last_failure_at := dh_last_failure_at new; dh_last_success_at := dh_last_success_at new;
  dh_version := dh_version old + 1; dh_updated_at := dh_updated_at new |}.

(* [sidecar/ibreeze/routing/repository.py:274-319 upsert_health] *)
Definition upsert_health (now company_id provider_release_id model_binding_id
    credential_ref_sha256 availability_state : string) (consecutive_strikes : Z)
    (benched_until : option string) (last_failure_kind : option ProviderFailureKind.t)
    (last_failure_at last_success_at : option string) : tx DB unit :=
  check ((availability_state ∈? ["ready"; "credential_invalid"]) && (0 <=? consecutive_strikes)%Z)
    (ValueError "DEPLOYMENT_HEALTH_INVALID");;
  let new := {|
    dh_company_id := company_id; dh_provider_release_id := provider_release_id;
    dh_model_binding_id := model_binding_id;
    dh_credential_ref_sha256 := credential_ref_sha256;
    dh_availability_state := availability_state;
    dh_consecutive_strikes := consecutive_strikes; dh_benched_until := benched_until;
    dh_last_failure_kind := value <$> last_failure_kind; dh_last_failure_at := last_failure_at;
    dh_last_success_at := last_success_at; dh_version := 1; dh_updated_at := now |} in
  upsert new (merge_health new).

(* [sidecar/ibreeze/routing/repository.py:321-330 set_override] *)
Definition set_override (now company_id run_id : string) (override_mode : option string)
    : tx DB unit :=
  check (null_or override_mode ["force_fixed"; "force_single"; "force_ensemble"])
    (ValueError "ROUTING_OVERRIDE_INVALID");;
  upsert {| rc_company_id := company_id; rc_run_id := run_id; rc_override_mode := override_mode;
            rc_version := 1; rc_updated_at := now |}
    (λ old, {| rc_company_id := rc_company_id old; rc_run_id := rc_run_id old;
               rc_override_mode := override_mode; rc_version := rc_version old + 1;
               rc_updated_at := now |}).

(** ** Attempt histories

    The operations on [route_attempts], run one transaction after the other; one
    that raises is rolled back and the caller goes on. *)

Inductive attempt_op :=
  | TransitionOp (now attempt_id expected target : string)
      (failure_kind : option ProviderFailureKind.t) (http_status : option Z) (u : Usage)
  | BindOp (attempt_id request_id : string)
  | CreateOp (now attempt_id route_decision_id company_id run_id snapshot_id : string)
      (attempt_sequence : Z) (role : RouteRole.t)
      (candidate_id provider_release_id model_binding_id credential_ref_sha256 : string)
      (request_id : option string).

Definition apply_op (op : attempt_op) (db : DB) : DB :=
  match op with
  | TransitionOp now a e t k h u => (atomically (transition_attempt now a e t k h u) db).2
  | BindOp a r => (atomically (bind_attempt_request a r) db).2
  | CreateOp now a d c r s n role cand rel bind cred req =>
      (atomically (create_attempt now a d c r s n role cand rel bind cred req) db).2
  end.

Definition apply_ops (ops : list attempt_op) (db : DB) : DB :=
  fold_left (λ db op, apply_op op db) ops db.

#[local] Opaque attempt_targets decision_targets.

(** One step of the attempt's status table. *)
Definition attempt_edge (s t : string) : Prop :=
  ∃ ts, dict_get attempt_targets s = Some ts ∧ t ∈ ts.

(** A column that is [NULL] until it is written, and then final. *)
Definition write_once {A} (old new : option A) : Prop := old = None ∨ new = old.

(** What a later row of an attempt owes to an earlier one. *)
Record evolves (a b : Attempt) : Prop := {
  evolves_identity :
    (at_id b, at_route_decision_id b, at_company_id b, at_run_id b, at_execution_snapshot_id b,
     at_attempt_sequence b, at_role b, at_candidate_id b, at_provider_release_id b,
     at_model_binding_id b, at_credential_ref_sha256 b, at_created_at b) =
    (at_id a, at_route_decision_id a, at_company_id a, at_run_id a, at_execution_snapshot_id a,
     at_attempt_sequence a, at_role a, at_candidate_id a, at_provider_release_id a,
     at_model_binding_id a, at_credential_ref_sha256 a, at_created_at a);
  evolves_status : rtc attempt_edge (at_status a) (at_status b);
  evolves_request : write_once (at_request_id a) (at_request_id b);
  evolves_accepted : write_once (at_accepted_at a) (at_accepted_at b);
  evolves_started : write_once (at_started_at a) (at_started_at b);
  evolves_final : dict_get attempt_targets (at_status a) = Some [] →
    (at_status b, at_failure_kind b, at_http_status b, at_completed_at b, at_latency_ms b,
     at_input_tokens b, at_output_tokens b, at_total_tokens b, at_candidate_truncated b) =
    (at_status a, at_failure_kind a, at_http_status a, at_completed_at a, at_latency_ms a,
     at_input_tokens a, at_output_tokens a, at_total_tokens a, at_candidate_truncated a) }.

Lemma write_once_trans {A} (x y z : option A) :
  write_once x y → write_once y z → write_once x z.
Proof. unfold write_once. intros [->| ->] [->| ->]; auto. Qed.

Lemma evolves_refl a : evolves a a.
Proof. split; try done; by right. Qed.

Lemma evolves_trans a b c : evolves a b → evolves b c → evolves a c.
Proof.
  intros [I1 S1 R1 A1 B1 F1] [I2 S2 R2 A2 B2 F2]. split.
  - congruence.
  - by etrans.
  - by eapply write_once_trans.
  - by eapply write_once_trans.
  - by eapply write_once_trans.
  - intros Ha. pose proof (F1 Ha) as Hb.
    assert (at_status b = at_status a) as Hs by congruence. rewrite <-Hs in Ha.
    rewrite (F2 Ha). exact Hb.
Qed.

Lemma evolves_transition a now t k h u :
  attempt_edge (at_status a) t → evolves a (set_attempt t now k h u a).
Proof.
  intros He. split; simpl; try done.
  - by apply rtc_once.
  - by right.
  - destruct (t =? "accepted"); [|by right]. destruct (at_accepted_at a); [by right|by left].
  - destruct (t =? "streaming"); [|by right]. destruct (at_started_at a); [by right|by left].
  - destruct He as (ts & Hts & Ht). intros Hfin.
    pose proof (eq_trans (eq_sym Hts) Hfin) as Heq. injection Heq as ->.
    by apply not_elem_of_nil in Ht.
Qed.

Lemma evolves_bind a r : at_request_id a = None → evolves a (set_request r a).
Proof. intros Ha. split; simpl; try done; try (by right). by left. Qed.

Lemma attempt_key id (g : Attempt → bool) a b :
  (at_id a =? id) && g a = true → (at_id b =? id) && g b = true → clash a b = true.
Proof.
  intros [Ha _]%andb_true_iff [Hb _]%andb_true_iff. bools. simpl.
  by rewrite Ha, Hb, String.eqb_refl.
Qed.

Lemma atomically_ok_inv {S A} (m : tx S A) s :
  (∃ a, m s = (Ok a, (atomically m s).2)) ∨ (atomically m s).2 = s.
Proof. unfold atomically. destruct (m s) as [[a|e] s']; [left|right]; simpl; eauto. Qed.

(** A keyed update that evolves the rows it touches. *)
Lemma evolves_update p f (db db' : DB) n :
  table_ok (R := Attempt) db = true →
  (∀ a b, p a = true → p b = true → clash a b = true) →
  (∀ a, p a = true → evolves a (f a)) →
  update p f db = (Ok n, db') →
  table_ok (R := Attempt) db' = true ∧
    ∀ a, a ∈ route_attempts db → ∃ b, b ∈ route_attempts db' ∧ evolves a b.
Proof.
  intros Hok Hp Hf Hu. destruct (update_keyed _ _ _ _ _ Hok Hp Hu) as (Hok' & -> & _).
  split; [done|]. intros a Ha. change (route_attempts _) with (updated p f (route_attempts db)).
  destruct (p a) eqn:Hpa.
  - exists (f a). split; [|by apply Hf]. apply elem_updated. right. by exists a.
  - exists a. split; [|apply evolves_refl]. apply elem_updated. by left.
Qed.

Lemma evolves_step op db :
  table_ok (R := Attempt) db = true →
  table_ok (R := Attempt) (apply_op op db) = true ∧
    ∀ a, a ∈ route_attempts db → ∃ b, b ∈ route_attempts (apply_op op db) ∧ evolves a b.
Proof.
  intros Hok. assert (∀ db', db' = db → table_ok (R := Attempt) db' = true ∧
    ∀ a, a ∈ route_attempts db → ∃ b, b ∈ route_attempts db' ∧ evolves a b) as Hsame.
  { intros ? ->. split; [done|]. eauto using evolves_refl. }
  destruct op as [now a e t k h u|a r|now a d c r s n role cand rel bind cred req]; simpl;
    lazymatch goal with |- context [atomically ?m ?s] =>
      destruct (atomically_ok_inv m s) as [[x Hrun]|Hsk]; [|by apply Hsame];
      destruct (atomically m s) as [y db'] end; simpl in *.
  - unfold transition_attempt in Hrun. tx_inv. clear Hsame.
    match goal with Hu : update _ _ _ = _ |- _ =>
      refine (evolves_update _ _ _ _ _ Hok (attempt_key _ _) _ Hu) end.
    intros b Hb. bools. apply evolves_transition. subst e. by eexists.
  - unfold bind_attempt_request in Hrun. tx_inv.
    match goal with Hu : _ = (Ok _, _) |- _ => apply except_integrity_ok in Hu;
      refine (evolves_update _ _ _ _ _ Hok (attempt_key _ _) _ Hu) end.
    intros b Hb. bools. by apply evolves_bind.
  - unfold create_attempt in Hrun. tx_inv.
    match goal with Hu : _ = (Ok _, _) |- _ => apply except_integrity_ok in Hu; rename Hu into Hrun end.
    pose proof Hok as Hok'. unfold table_ok in Hok'. bools.
    split; [by eapply insert_table_ok|]. apply insert_ok in Hrun as (_ & _ & _ & ->).
    intros b Hb. exists b. split; [|apply evolves_refl]. simpl. set_solver.
Qed.

(** C30. Whatever transactions the repository runs on the attempts, in any order and
    with any arguments, an attempt on record stays on record: its identity columns
    never change, its status only moves along the status table, a bound request and
    the accepted and started times are final once written, and a terminal attempt
    keeps its status, failure, usage and completion time for ever. *)
Theorem attempts_only_move_forward (ops : list attempt_op) (db : DB) (a : Attempt) :
  table_ok (R := Attempt) db = true → a ∈ route_attempts db →
  ∃ b, b ∈ route_attempts (apply_ops ops db) ∧ evolves a b.
Proof.
  unfold apply_ops. intros Hok. revert db Hok a.
  induction ops as [|op ops IH]; intros db Hok a Ha; [by exists a; split; [|apply evolves_refl]|].
  destruct (evolves_step op db Hok) as [Hok' Hstep]. destruct (Hstep a Ha) as (b & Hb & Hab).
  destruct (IH (apply_op op db) Hok' b Hb) as (c & Hc & Hbc).
  exists c. split; [done|by eapply evolves_trans].
Qed.

(** ** Decisions *)

Lemma decision_key id (g : Decision → bool) a b :
  (rd_id a =? id) && g a = true → (rd_id b =? id) && g b = true → clash a b = true.
Proof.
  intros [Ha _]%andb_true_iff [Hb _]%andb_true_iff. bools. simpl.
  by rewrite Ha, Hb, String.eqb_refl.
Qed.

(** No status of a table is its own target. *)
Definition irreflexive_targets (d : list (string * list string)) : bool :=
  forallb (λ '(e, ts), negb (e ∈? ts)) d.

Lemma target_differs d e ts :
  irreflexive_targets d = true → dict_get d e = Some ts → (e ∈? ts) = false.
Proof.
  unfold irreflexive_targets. rewrite forallb_forall. intros Hd He%dict_get_some_elem.
  apply list_elem_of_In in He. by apply Hd, negb_true_iff in He.
Qed.

(** A status move is a compare-and-swap.  When [transition_decision] returns
    [True] the decision was in the expected status and is now in the target; of two
    callers that expect the same status only one wins: whatever target the second
    one asks for, it gets [False] or an error and the winner's row stands. *)
Lemma decision_transition_wins_once now id e t db db' :
  table_ok (R := Decision) db = true →
  transition_decision now id e t db = (Ok true, db') →
  (∃ d, List.find (λ d, rd_id d =? id) (route_decisions db) = Some d ∧ rd_status d = e ∧
     List.find (λ d, rd_id d =? id) (route_decisions db') = Some (set_decision t now d)) ∧
  ∀ now' t', (transition_decision now' id e t' db').1 ≠ Ok true ∧
             (transition_decision now' id e t' db').2 = db'.
Proof.
  intros Hok Hrun. unfold transition_decision in Hrun.
  apply tx_bind_ok in Hrun as (ts & ? & [Hts ->]%found_ok & Hrun).
  apply tx_bind_ok in Hrun as (? & ? & [Ht ->]%check_ok & Hrun).
  apply tx_bind_ok in Hrun as (n & ? & Hu & [Hwon ->]%mret_ok).
  symmetry in Hwon. apply Z.eqb_eq in Hwon.
  eapply (swap_wins rd_id (λ d, rd_status d =? e)) in Hu; [|done|..].
  - destruct Hu as [[? _]|(_ & (d & Hd & Hst & Hd' & _) & Hlose)]; [lia|].
    split; [exists d; by bools|]. intros now' t'. unfold transition_decision. rewrite Hts.
    rewrite (tx_bind_run _ _ _ ts x0) by done. destruct (t' ∈? ts); [|done].
    rewrite (tx_bind_run _ _ _ tt x0) by done. by rewrite (tx_bind_run _ _ _ _ _ (Hlose _)).
  - intros a b Hab. simpl. by rewrite Hab, String.eqb_refl.
  - done.
  - intros a _. simpl. apply String.eqb_neq. intros ->.
    by rewrite (target_differs decision_targets e ts) in Ht.
Qed.

(** ** Outcomes and health *)

(** A source on record is not recorded again. *)
Lemma record_outcome_replay now id d c ty src score label db db' :
  record_outcome now id d c ty src score label db = (Ok true, db') →
  ∀ now' id' c' score' label', fle f0 score' && fle score' f1 = true →
    record_outcome now' id' d c' ty src score' label' db' = (Ok false, db').
Proof.
  intros Hrun now' id' c' score' label' Hs'. unfold record_outcome in *.
  apply tx_bind_ok in Hrun as (? & ? & [Hs ->]%check_ok & Hrun).
  apply tx_bind_ok in Hrun as (n & ? & Hi & [Hn ->]%mret_ok).
  symmetry in Hn. apply Z.eqb_eq in Hn as ->. rewrite Hs'.
  rewrite (tx_bind_run _ _ _ tt _) by done.
  rewrite (tx_bind_run _ _ _ 0 x0); [done|].
  apply insert_or_ignore_ok in Hi as [[? _]|[_ Hrows]]; [lia|].
  unfold insert_or_ignore. rewrite Hrows, existsb_app. simpl.
  rewrite !String.eqb_refl. simpl. by rewrite !orb_true_r, andb_false_r.
Qed.

(** Recording an outcome is idempotent: once [record_outcome] has returned
    [True] for a decision, outcome type and source, recording the same source again
    — under another id, time, score or label — returns [False] and changes nothing.
    An outcome type the schema does not know is dropped the same way, silently. *)
Lemma record_outcome_idempotent now id d c ty src score label db db' :
  record_outcome now id d c ty src score label db = (Ok true, db') →
  (∀ now' id' score' label', fle f0 score' && fle score' f1 = true →
     record_outcome now' id' d c ty src score' label' db' = (Ok false, db')) ∧
  (∀ ty', (ty' ∈? ["tool_result"; "verification"; "artifact"; "review"; "task_terminal"]) = false →
     record_outcome now id d c ty' src score label db = (Ok false, db)).
Proof.
  intros Hrun. split; [intros; by eapply record_outcome_replay|].
  unfold record_outcome in *. apply tx_bind_ok in Hrun as (? & ? & [Hs ->]%check_ok & Hrun).
  intros ty' Hty. rewrite Hs. rewrite (tx_bind_run _ _ _ tt _) by done.
  rewrite (tx_bind_run _ _ _ 0 db); [done|].
  unfold insert_or_ignore. simpl row_ok. simpl. by rewrite Hty.
Qed.

(** The key of a deployment. *)
Definition deployment_is (company release binding credential : string) (h : Health) : bool :=
  (dh_company_id h =? company) && (dh_provider_release_id h =? release) &&
  (dh_model_binding_id h =? binding) && (dh_credential_ref_sha256 h =? credential).

Ltac eqb_solve :=
  intros; bools; repeat (apply andb_true_iff; split); apply String.eqb_eq; congruence.

(** [upsert_health] leaves exactly one row for the deployment, holding the state
    it was given, at the version after the stored one (the first is 1), and does not
    touch any other deployment. *)
Lemma upsert_health_versions now c rel bind cred avail strikes benched kind failed succeeded db db' :
  table_ok (R := Health) db = true →
  upsert_health now c rel bind cred avail strikes benched kind failed succeeded db = (Ok tt, db') →
  (∃ h, where_ (deployment_is c rel bind cred) (deployment_health db') = [h] ∧
     (dh_availability_state h, dh_consecutive_strikes h, dh_benched_until h,
      dh_last_failure_kind h, dh_last_failure_at h, dh_last_success_at h, dh_updated_at h) =
     (avail, strikes, benched, value <$> kind, failed, succeeded, now) ∧
     dh_version h = match List.find (deployment_is c rel bind cred) (deployment_health db) with
                    | Some old => dh_version old + 1
                    | None => 1
                    end) ∧
  ∀ x, x ∈ deployment_health db → deployment_is c rel bind cred x = false →
       x ∈ deployment_health db'.
Proof.
  intros Hok Hrun. unfold upsert_health in Hrun.
  apply tx_bind_ok in Hrun as (? & ? & [_ ->]%check_ok & Hrun).
  apply upsert_ok in Hrun as (_ & Hw & Hother); [|done|..].
  - split; [|intros h Hh Hk; by apply Hother]. simpl in Hw. unfold deployment_is.
    destruct (List.find _ _); eexists; (split; [exact Hw|done]).
  - simpl. eqb_solve.
  - done.
  - done.
  - simpl. by rewrite !String.eqb_refl.
  - intros a b. simpl. rewrite (String.eqb_sym (dh_company_id a)),
      (String.eqb_sym (dh_provider_release_id a)), (String.eqb_sym (dh_model_binding_id a)).
    by rewrite (String.eqb_sym (dh_credential_ref_sha256 a)).
Qed.

(** ** A database the theorems run on *)

Module Demo.
Definition cred : string := "0123456789abcdef0123456789abcdef0123456789abcdef0123456789abcdef".
Definition binding : list (string * json) := [("candidate_id", JStr "cand"); ("role", JStr "single")].
Definition db0 : DB := {|
  route_decisions := []; route_attempts := []; route_outcomes := []; deployment_health := [];
  routing_run_controls := []; runs := [("run", "co")]; snapshots := [("snap", "co")] |}.
Definition no_usage : Usage := {|
  u_latency_ms := None; u_input_tokens := None; u_output_tokens := None; u_total_tokens := None;
  u_candidate_truncated := None |}.
Definition db1 : DB :=
  (create_decision "t0" "dec" "co" "run" 1 "snap" RoutingMode.SMART_SINGLE "v1" cred "C1" f1
     "single" [binding] [] None db0).2.
Definition db2 : DB :=
  (create_attempt "t1" "att" "dec" "co" "run" "snap" 1 RouteRole.SINGLE "cand" "rel" "mb" cred
     None db1).2.
Definition db3 : DB := (transition_decision "t2" "dec" "planned" "executing" db2).2.
Definition db4 : DB := (record_outcome "t3" "o1" "dec" "co" "review" "src" f1 "review_passed" db3).2.
Definition attempt0 : Attempt := default (Build_Attempt "" "" "" "" "" 0 "" "" "" "" "" None ""
  None None "" None None None None None None None 0) (head (route_attempts db2)).
Definition ops : list attempt_op :=
  [BindOp "att" "req-1"; BindOp "att" "req-2";
   TransitionOp "t5" "att" "created" "accepted" None None no_usage;
   TransitionOp "t6" "att" "accepted" "succeeded" None (Some 200) no_usage;
   TransitionOp "t7" "att" "accepted" "failed" (Some ProviderFailureKind.TIMEOUT) None no_usage].
End Demo.

Lemma attempts_only_move_forward_witness :
  at_status Demo.attempt0 = "created" ∧
  map (λ a, (at_status a, at_request_id a)) (route_attempts (apply_ops Demo.ops Demo.db2)) =
    [("succeeded", Some "req-1")] ∧
  ∃ b, b ∈ route_attempts (apply_ops Demo.ops Demo.db2) ∧ evolves Demo.attempt0 b.
Proof.
  split; [by vm_compute|]. split; [by vm_compute|].
  apply (attempts_only_move_forward Demo.ops Demo.db2 Demo.attempt0); [by vm_compute|].
  vm_compute. by left.
Defined.

Lemma decision_transition_wins_once_witness :
  (transition_decision "t9" "dec" "planned" "cancelled" Demo.db3).1 ≠ Ok true.
Proof.
  apply (decision_transition_wins_once "t2" "dec" "planned" "executing" Demo.db2 Demo.db3);
    by vm_compute.
Defined.

Lemma record_outcome_idempotent_witness :
  record_outcome "t9" "o2" "dec" "co" "review" "src" f0 "review_failed" Demo.db4 =
    (Ok false, Demo.db4).
Proof.
  apply (record_outcome_idempotent "t3" "o1" "dec" "co" "review" "src" f1 "review_passed" Demo.db3);
    by vm_compute.
Defined.

Lemma upsert_health_versions_witness :
  let db' := (upsert_health "t1" "co" "rel" "mb" Demo.cred "ready" 2 None None None None
                Demo.db0).2 in
  let db'' := (upsert_health "t2" "co" "rel" "mb" Demo.cred "credential_invalid" 0 None None None
                None db').2 in
  map dh_version (deployment_health db'') = [2] ∧
  ∃ h, where_ (deployment_is "co" "rel" "mb" Demo.cred) (deployment_health db'') = [h] ∧
    dh_version h = 2.
Proof.
  intros db' db''. split; [by vm_compute|].
  destruct (upsert_health_versions "t2" "co" "rel" "mb" Demo.cred "credential_invalid" 0 None None
    None None db' db'') as [(h & Hw & _ & Hv) _]; [by vm_compute..|].
  exists h. split; [exact Hw|]. rewrite Hv. by vm_compute.
Defined.
