(* ===== verification/Clock.v ===== *)
(** * Instants and their two text forms

    The code keeps instants as text: [datetime.isoformat] with microseconds on the
    Python side, SQLite's [datetime(...)] on the SQL side.  An instant is a number of
    microseconds since the epoch (UTC); both renderings are executable, fixed-width,
    and share the calendar date, so comparing them as text is comparing dates first. *)

From S2P Require Import Prelude Sql.

Definition US_PER_DAY : Z := 86400000000.

(** The civil date of a day number (proleptic Gregorian calendar). *)
Definition civil (days : Z) : Z * Z * Z :=
  let z := days + 719468 in
  let era := z / 146097 in
  let doe := z - era * 146097 in
  let yoe := (doe - doe / 1460 + doe / 36524 - doe / 146096) / 365 in
  let doy := doe - (365 * yoe + yoe / 4 - yoe / 100) in
  let mp := (5 * doy + 2) / 153 in
  let d := doy - (153 * mp + 2) / 5 + 1 in
  let m := if (mp <? 10)%Z then mp + 3 else mp - 9 in
  (yoe + era * 400 + (if (m <=? 2)%Z then 1 else 0), m, d).

(** [n] in [w] decimal digits. *)
Fixpoint pad (w : nat) (n : Z) : string :=
  match w with
  | O => ""
  | S w => pad w (n / 10) +:+ String (Ascii.ascii_of_nat (48 + Z.to_nat (n mod 10))) ""
  end.

Definition date_text (us : Z) : string :=
  let '(y, m, d) := civil (us / US_PER_DAY) in pad 4 y +:+ "-" +:+ pad 2 m +:+ "-" +:+ pad 2 d.
Definition time_text (us : Z) : string :=
  let s := (us mod US_PER_DAY) / 1000000 in
  pad 2 (s / 3600) +:+ ":" +:+ pad 2 (s / 60 mod 60) +:+ ":" +:+ pad 2 (s mod 60).

(** [datetime.now(UTC).isoformat(timespec="microseconds").replace("+00:00", "Z")] *)
(* [sidecar/ibreeze/runtime/service.py:18-19 _now] *)
Definition iso_text (us : Z) : string :=
  date_text us +:+ "T" +:+ time_text us +:+ "." +:+ pad 6 (us mod 1000000) +:+ "Z".

(** What SQLite's [datetime(iso_text us, '+s seconds')] denotes: its clock counts
    milliseconds, rounded to nearest, and the text form drops the fraction. *)
Definition sqlite_add (us s : Z) : Z := ((us + 500) / 1000) * 1000 + s * 1000000.
Definition sqlite_text (us : Z) : string := date_text us +:+ " " +:+ time_text us.

Example epoch : iso_text 0 = "1970-01-01T00:00:00.000000Z".
Proof. reflexivity. Qed.
Example leap_day : iso_text 1709210096123456 = "2024-02-29T12:34:56.123456Z".
Proof. reflexivity. Qed.
Example sqlite_plus : sqlite_text (sqlite_add 1709250999999600 300) = "2024-03-01 00:01:40".
Proof. reflexivity. Qed.

Lemma pad_length w n : String.length (pad w n) = w.
Proof. revert n. induction w; intros n; simpl; [done|]. rewrite length_app_str, IHw. simpl. lia. Qed.

Lemma date_length us : String.length (date_text us) = 10%nat.
Proof.
  unfold date_text. destruct (civil _) as [[y m] d].
  rewrite !length_app_str, !pad_length. reflexivity.
Qed.

(** Comparing texts whose first parts have the same width. *)
Lemma compare_app a b x y : String.length a = String.length b →
  String.compare (a +:+ x) (b +:+ y) =
    match String.compare a b with Eq => String.compare x y | c => c end.
Proof.
  revert b. induction a as [|c a IH]; intros [|c' b]; simpl; try done.
  intros [= Hab]. destruct (Ascii.compare c c'); [by apply IH|done..].
Qed.

(** An ISO text is below a SQLite text exactly when its date is: on the same date
    the ISO text is the greater one, whatever the times of day. *)
Lemma iso_lt_sqlite t e : text_lt (iso_text t) (sqlite_text e) = text_lt (date_text t) (date_text e).
Proof.
  unfold text_lt, String.ltb, iso_text, sqlite_text.
  rewrite compare_app by by rewrite !date_length.
  destruct (String.compare (date_text t) (date_text e)); done.
Qed.

Lemma text_lt_irrefl s : text_lt s s = false.
Proof.
  unfold text_lt, String.ltb. assert (String.compare s s = Eq) as ->; [|done].
  induction s as [|c s IH]; simpl; [done|]. unfold Ascii.compare. by rewrite N.compare_refl.
Qed.
