(* ===== verification/Scheduler.v ===== *)
(** * The run queue ([runtime/scheduler.py])

    The queue, its leases and the per-company fairness clock, with the tables'
    constraints, and the scheduler's six operations as transactions.  Columns no
    operation reads or writes are left out.

    The theorems: [dequeue_next] picks a least ready item and serves a company
    again only when no other one waits; a queue item is leased to at most one
    holder and only while it is ready; a lease heartbeat succeeds exactly when the
    calendar date of the expiry is still ahead, so never on the day of the expiry. *)

From S2P Require Import Prelude PyOrder PyStr Sql Clock UnitOfWork.

Record QueueItem := {
  q_id : string;
  q_company_id : string;
  q_work_item_type : string;
  q_work_item_id : string;
  q_job_id : string;
  q_run_id : option string;
  q_priority : Z;
  q_status : string;
  q_queued_at : string;
  q_leased_at : option string }.

Record Lease := {
  l_id : string;
  l_queue_id : string;
  l_job_id : string;
  l_run_id : option string;
  l_employee_id : option string;
  l_company_id : string;
  l_conversation_id : option string;
  l_acquired_at : string;
  l_heartbeat_at : string;
  l_expires_at : string }.

Record Fairness := {
  f_company_id : string;
  f_last_dispatched_at : string }.

(** The columns of a run that no statement changes. *)
Record RunJob := {
  rj_company_task_id : string;
  rj_department_task_id : option string;
  rj_employee_task_id : option string;
  rj_work_item_id : string;
  rj_employee_id : string;
  rj_conversation_id : string;
  rj_run_purpose : string;
  rj_adapter_type : string;
  rj_created_at : string }.

Record Run := {
  r_id : string;
  r_company_id : string;
  r_job : RunJob;
  r_status : string;
  r_resume_state : option string;
  r_attempt : Z;
  r_started_at : option string;
  r_completed_at : option string;
  r_exit_code : option Z;
  r_failure_code : option string;
  r_process : option (Z * Z * string);   (** pid, group and start, [NULL] together *)
  r_updated_at : string;
  r_version : Z }.

Record RunEvent := {
  re_run_id : string;
  re_event_id : string;
  re_sequence : Z;
  re_event_type : string;
  re_payload : json;
  re_trace_id : string;
  re_occurred_at : string }.

Record DB := {
  queue : list QueueItem;
  leases : list Lease;
  fairness : list Fairness;
  agent_runs : list Run;
  run_events : list RunEvent;
  domain_events : list EventRow;
  outbox_events : list OutboxRow;
  companies : list string;
  employees : list (string * string);        (** id, company *)
  conversations : list (string * string) }.  (** id, company *)

(** ** Constraints *)

Definition opt_eq (a b : option string) : bool :=
  match a, b with Some x, Some y => x =? y | _, _ => false end.
Definition is_null {A} (o : option A) : bool := match o with None => true | Some _ => false end.

Definition active (q : QueueItem) : bool := q_status q ∈? ["ready"; "leased"].

Definition queue_ok (q : QueueItem) : bool :=
  (q_work_item_type q ∈? ["interactive_turn"; "company_plan"; "employee_task"; "review";
     "verification"; "repair"; "merge"; "summary"; "knowledge_index"]) &&
  (q_priority q ∈? [0; 10; 20; 30]%Z) &&
  (q_status q ∈? ["ready"; "leased"; "completed"; "cancelled"]) &&
  (if q_work_item_type q =? "knowledge_index" then is_null (q_run_id q)
   else negb (is_null (q_run_id q))).

(** [PRIMARY KEY], two [UNIQUE] columns and [uq_runtime_queue_active_work_item]. *)
Definition queue_clash (a b : QueueItem) : bool :=
  (q_id a =? q_id b) || (q_job_id a =? q_job_id b) || opt_eq (q_run_id a) (q_run_id b) ||
  (active a && active b && (q_work_item_type a =? q_work_item_type b) &&
   (q_work_item_id a =? q_work_item_id b)).

Definition lease_ok (l : Lease) : bool :=
  (is_null (l_run_id l) && is_null (l_employee_id l) && is_null (l_conversation_id l)) ||
  (negb (is_null (l_run_id l)) && negb (is_null (l_employee_id l)) &&
   negb (is_null (l_conversation_id l))).

Definition lease_clash (a b : Lease) : bool :=
  (l_id a =? l_id b) || (l_queue_id a =? l_queue_id b) || (l_job_id a =? l_job_id b) ||
  opt_eq (l_run_id a) (l_run_id b).

Definition null_or_ref (o : option string) (company : string) (l : list (string * string)) : bool :=
  match o with None => true | Some i => (i, company) ∈? l end.

Definition lease_refs (db : DB) (l : Lease) : bool :=
  existsb (λ q, (q_id q =? l_queue_id l) && (q_job_id q =? l_job_id l) &&
                (q_company_id q =? l_company_id l)) (queue db) &&
  (l_company_id l ∈? companies db) &&
  null_or_ref (l_run_id l) (l_company_id l) (map (λ r, (r_id r, r_company_id r)) (agent_runs db)) &&
  null_or_ref (l_employee_id l) (l_company_id l) (employees db) &&
  null_or_ref (l_conversation_id l) (l_company_id l) (conversations db).

Definition job_ok (j : RunJob) : bool :=
  (rj_run_purpose j ∈? ["interactive_turn"; "company_plan"; "task_execution"; "review"; "verification";
     "repair"; "merge"; "summary"]) &&
  (rj_adapter_type j ∈? ["codex_cli"; "claude_code"; "opencode"; "api_model"]) &&
  (if rj_run_purpose j ∈? ["task_execution"; "merge"]
   then negb (is_null (rj_department_task_id j)) && opt_eq (rj_employee_task_id j) (Some (rj_work_item_id j))
   else if rj_run_purpose j ∈? ["company_plan"; "summary"]
   then is_null (rj_department_task_id j) && is_null (rj_employee_task_id j) &&
        (rj_work_item_id j =? rj_company_task_id j)
   else if rj_run_purpose j =? "interactive_turn"
   then is_null (rj_department_task_id j) && is_null (rj_employee_task_id j) &&
        (rj_work_item_id j =? rj_conversation_id j)
   else true).
Definition run_ok (r : Run) : bool :=
  job_ok (r_job r) && (1 <=? r_attempt r)%Z && (r_attempt r <=? 6)%Z &&
  (r_status r ∈? ["queued"; "probing"; "starting"; "running"; "waiting_approval"; "verifying";
     "retrying"; "succeeded"; "waiting_resource"; "cancelled"; "timed_out"; "failed"; "lost"]) &&
  (if r_status r ∈? ["waiting_approval"; "waiting_resource"]
   then match r_resume_state r with
        | Some s => s ∈? ["probing"; "starting"; "running"; "verifying"; "retrying"]
        | None => false
        end
   else is_null (r_resume_state r)) &&
  match r_process r with Some (pid, pgid, _) => (0 <? pid)%Z && (0 <? pgid)%Z | None => true end.

Ltac solve_lens := intros; repeat match goal with db : DB |- _ => destruct db end; reflexivity.

#[export] Program Instance queue_table : Table DB QueueItem := {|
  table_name := "runtime_queue"; rows := queue;
  set_rows l db := {| queue := l; leases := leases db; fairness := fairness db;
    agent_runs := agent_runs db; run_events := run_events db; domain_events := domain_events db;
    outbox_events := outbox_events db; companies := companies db; employees := employees db;
    conversations := conversations db |};
  row_ok := queue_ok; clash := queue_clash;
  refs_ok db q := q_company_id q ∈? companies db |}.
Solve All Obligations with solve_lens.

#[export] Program Instance leases_table : Table DB Lease := {|
  table_name := "runtime_leases"; rows := leases;
  set_rows l db := {| queue := queue db; leases := l; fairness := fairness db;
    agent_runs := agent_runs db; run_events := run_events db; domain_events := domain_events db;
    outbox_events := outbox_events db; companies := companies db; employees := employees db;
    conversations := conversations db |};
  row_ok := lease_ok; clash := lease_clash; refs_ok := lease_refs |}.
Solve All Obligations with solve_lens.

#[export] Program Instance fairness_table : Table DB Fairness := {|
  table_name := "runtime_company_fairness"; rows := fairness;
  set_rows l db := {| queue := queue db; leases := leases db; fairness := l;
    agent_runs := agent_runs db; run_events := run_events db; domain_events := domain_events db;
    outbox_events := outbox_events db; companies := companies db; employees := employees db;
    conversations := conversations db |};
  row_ok _ := true; clash a b := f_company_id a =? f_company_id b;
  refs_ok db f := f_company_id f ∈? companies db |}.
Solve All Obligations with solve_lens.

#[export] Program Instance runs_table : Table DB Run := {|
  table_name := "agent_runs"; rows := agent_runs;
  set_rows l db := {| queue := queue db; leases := leases db; fairness := fairness db;
    agent_runs := l; run_events := run_events db; domain_events := domain_events db;
    outbox_events := outbox_events db; companies := companies db; employees := employees db;
    conversations := conversations db |};
  row_ok := run_ok; clash a b := r_id a =? r_id b; refs_ok _ _ := true |}.
Solve All Obligations with solve_lens.

#[export] Program Instance run_events_table : Table DB RunEvent := {|
  table_name := "agent_run_events"; rows := run_events;
  set_rows l db := {| queue := queue db; leases := leases db; fairness := fairness db;
    agent_runs := agent_runs db; run_events := l; domain_events := domain_events db;
    outbox_events := outbox_events db; companies := companies db; employees := employees db;
    conversations := conversations db |};
  row_ok e := (0 <? re_sequence e)%Z;
  clash a b := (re_event_id a =? re_event_id b) ||
    ((re_run_id a =? re_run_id b) && (re_sequence a =? re_sequence b)%Z);
  refs_ok db e := re_run_id e ∈? map r_id (agent_runs db) |}.
Solve All Obligations with solve_lens.

#[export] Program Instance domain_events_table : Table DB EventRow := {|
  table_name := "domain_events"; rows := domain_events;
  set_rows l db := {| queue := queue db; leases := leases db; fairness := fairness db;
    agent_runs := agent_runs db; run_events := run_events db; domain_events := l;
    outbox_events := outbox_events db; companies := companies db; employees := employees db;
    conversations := conversations db |};
  row_ok e := negb (is_null (company_id (ev_event e)));
  clash a b := event_id (ev_event a) =? event_id (ev_event b);
  refs_ok db e := match company_id (ev_event e) with
                  | Some c => c ∈? companies db | None => false end |}.
Solve All Obligations with solve_lens.

#[export] Program Instance outbox_events_table : Table DB OutboxRow := {|
  table_name := "outbox_events"; rows := outbox_events;
  set_rows l db := {| queue := queue db; leases := leases db; fairness := fairness db;
    agent_runs := agent_runs db; run_events := run_events db; domain_events := domain_events db;
    outbox_events := l; companies := companies db; employees := employees db;
    conversations := conversations db |};
  row_ok o := ob_status o ∈? ["pending"; "processing"; "delivered"; "failed"];
  clash a b := ob_id a =? ob_id b;
  refs_ok db o := ob_domain_event_id o ∈? map (λ e, event_id (ev_event e)) (domain_events db) |}.
Solve All Obligations with solve_lens.

(** ** Operations *)

(** The clock reading and the fresh identifiers of a call; [now] in microseconds. *)
Record Env := {
  now : Z;
  uuid : nat → string }.
(* [sidecar/ibreeze/runtime/scheduler.py:18-19 _now] *)
Definition _now (env : Env) : string := iso_text (now env).

(* [sidecar/ibreeze/runtime/scheduler.py:22-42 enqueue] *)
Definition enqueue (env : Env) (company_id run_id work_item_type work_item_id job_id : string)
    (priority : Z) : tx DB string :=
  insert_row {| q_id := uuid env 0; q_company_id := company_id;
    q_work_item_type := work_item_type; q_work_item_id := work_item_id; q_job_id := job_id;
    q_run_id := Some run_id; q_priority := priority; q_status := "ready";
    q_queued_at := _now env; q_leased_at := None |};;
  mret (uuid env 0).

(** The [LEFT JOIN] with the fairness table. *)
Definition last_dispatched (db : DB) (company : string) : option string :=
  f_last_dispatched_at <$> List.find (λ f, f_company_id f =? company) (fairness db).

(** [ASC NULLS FIRST], then [priority ASC], then [queued_at ASC]. *)
Definition null_first_compare : option string → option string → comparison :=
  none_first String.compare.
Definition queue_key (db : DB) (q : QueueItem) : option string * (Z * string) :=
  (last_dispatched db (q_company_id q), (q_priority q, q_queued_at q)).
Definition before_cmp (db : DB) : QueueItem → QueueItem → comparison :=
  on (queue_key db) (lex null_first_compare (lex Z.compare String.compare)).
Definition before (db : DB) (a b : QueueItem) : bool := leb_of (before_cmp db) a b.

Definition ready (q : QueueItem) : bool := q_status q =? "ready".

(* [sidecar/ibreeze/runtime/scheduler.py:45-63 dequeue_next] *)
Definition dequeue_next : tx DB (option (QueueItem * option string)) :=
  gets (λ db, q ← head (sort_by (before db) (where_ ready (queue db)));
              Some (q, last_dispatched db (q_company_id q))).

(** [x or None] on a string *)
Definition or_none (s : string) : option string := if s =? "" then None else Some s.

Definition set_leased (now : string) (q : QueueItem) : QueueItem := {|
  q_id := q_id q; q_company_id := q_company_id q; q_work_item_type := q_work_item_type q;
  q_work_item_id := q_work_item_id q; q_job_id := q_job_id q; q_run_id := q_run_id q;
  q_priority := q_priority q; q_status := "leased"; q_queued_at := q_queued_at q;
  q_leased_at := Some now |}.
Definition set_queue_status (s : string) (q : QueueItem) : QueueItem := {|
  q_id := q_id q; q_company_id := q_company_id q; q_work_item_type := q_work_item_type q;
  q_work_item_id := q_work_item_id q; q_job_id := q_job_id q; q_run_id := q_run_id q;
  q_priority := q_priority q; q_status := s; q_queued_at := q_queued_at q;
  q_leased_at := q_leased_at q |}.

(** A negative [ttl] makes SQLite's modifier malformed, [datetime] [NULL] and the
    column's [NOT NULL] fail. *)
Definition insert_lease (ttl : Z) (l : Lease) : tx DB unit :=
  if (ttl <? 0)%Z then raise (IntegrityErr "runtime_leases") else insert_row l.

(* [sidecar/ibreeze/runtime/scheduler.py:66-122 acquire_lease] *)
Definition acquire_lease (env : Env) (queue_id job_id run_id employee_id company_id
    conversation_id : string) (ttl_seconds : Z) : tx DB (option string) :=
  let lease_id := uuid env 0 in
  queue ← select_one (λ q, q_id q =? queue_id);
  match queue with
  | None => mret None
  | Some q =>
      if negb (q_status q =? "ready") || negb (q_job_id q =? job_id) ||
         negb (q_company_id q =? company_id)
      then mret None
      else
        inserted ← try_integrity (insert_lease ttl_seconds {|
          l_id := lease_id; l_queue_id := queue_id; l_job_id := job_id;
          l_run_id := or_none run_id; l_employee_id := or_none employee_id;
          l_company_id := company_id; l_conversation_id := or_none conversation_id;
          l_acquired_at := _now env; l_heartbeat_at := _now env;
          l_expires_at := sqlite_text (sqlite_add (now env) ttl_seconds) |});
        if negb inserted then mret None
        else
          rowcount ← update (λ q, (q_id q =? queue_id) && (q_status q =? "ready"))
            (set_leased (_now env));
          if negb (rowcount =? 1)%Z
          then delete_rows (λ l, l_id l =? lease_id);; mret None
          else mret (Some lease_id)
  end.

Definition set_heartbeat (now : string) (l : Lease) : Lease := {|
  l_id := l_id l; l_queue_id := l_queue_id l; l_job_id := l_job_id l; l_run_id := l_run_id l;
  l_employee_id := l_employee_id l; l_company_id := l_company_id l;
  l_conversation_id := l_conversation_id l; l_acquired_at := l_acquired_at l;
  l_heartbeat_at := now; l_expires_at := l_expires_at l |}.

(* [sidecar/ibreeze/runtime/scheduler.py:125-134 heartbeat_lease] *)
Definition heartbeat_lease (env : Env) (lease_id : string) : tx DB bool :=
  rowcount ← update (λ l, (l_id l =? lease_id) && text_lt (_now env) (l_expires_at l))
    (set_heartbeat (_now env));
  mret (rowcount =? 1)%Z.

Definition set_refreshed (now expires : string) (l : Lease) : Lease := {|
  l_id := l_id l; l_queue_id := l_queue_id l; l_job_id := l_job_id l; l_run_id := l_run_id l;
  l_employee_id := l_employee_id l; l_company_id := l_company_id l;
  l_conversation_id := l_conversation_id l; l_acquired_at := l_acquired_at l;
  l_heartbeat_at := now; l_expires_at := expires |}.

(** One beat of the executor's heartbeat loop. *)
(* [sidecar/ibreeze/runtime/run_executor.py:586-593 refresh] *)
Definition refresh (env : Env) (lease_id : string) : tx DB unit :=
  update (λ l, (l_id l =? lease_id) && text_lt (_now env) (l_expires_at l))
    (set_refreshed (_now env) (sqlite_text (sqlite_add (now env) 300)));;
  mret tt.

(* [sidecar/ibreeze/runtime/scheduler.py:137-150 release_lease] *)
Definition release_lease (lease_id : string) : tx DB unit :=
  row ← select_one (λ l, l_id l =? lease_id);
  match row with
  | Some l => update (λ q, q_id q =? l_queue_id l) (set_queue_status "completed");; mret tt
  | None => mret tt
  end;;
  delete_rows (λ l, l_id l =? lease_id);;
  mret tt.

(* [sidecar/ibreeze/runtime/scheduler.py:153-162 update_fairness] *)
Definition update_fairness (env : Env) (company_id : string) : tx DB unit :=
  upsert {| f_company_id := company_id; f_last_dispatched_at := _now env |}
    (λ f, {| f_company_id := f_company_id f; f_last_dispatched_at := _now env |}).

(** ** Dequeue order *)

#[local] Instance ordering_null_first : Ordering null_first_compare.
Proof. unfold null_first_compare. apply _. Qed.
#[local] Instance separating_null_first : Separating null_first_compare.
Proof. unfold null_first_compare. apply _. Qed.
#[local] Instance ordering_before db : Ordering (before_cmp db).
Proof. unfold before_cmp. apply _. Qed.

Lemma before_total db a b : before db a b = true ∨ before db b a = true.
Proof. apply leb_of_total, _. Qed.

Lemma before_trans db a b c :
  before db a b = true → before db b c = true → before db a c = true.
Proof. apply leb_of_trans, _. Qed.

Lemma dequeue_ok db o db' :
  dequeue_next db = (Ok o, db') → db' = db ∧
  match o with
  | None => ∀ q, q ∈ queue db → ready q = false
  | Some (q, last) => q ∈ queue db ∧ ready q = true ∧ last = last_dispatched db (q_company_id q) ∧
      ∀ q', q' ∈ queue db → ready q' = true → before db q q' = true
  end.
Proof.
  unfold dequeue_next, gets. intros [= <- <-]. split; [done|].
  destruct (head _) as [q|] eqn:Hh; simpl.
  - assert (q ∈ where_ ready (queue db)) as [Hq Hr]%elem_where.
    { apply (elem_of_sort_by (before db)). destruct (sort_by _ _); [done|].
      injection Hh as ->. by left. }
    split_and!; [done..|]. intros q' Hq' Hr'.
    apply (sort_by_head_le (before db) (before_total db) (before_trans db) _ _ Hh).
    by apply elem_where.
  - intros q Hq. destruct (ready q) eqn:Hr; [|done].
    assert (q ∈ sort_by (before db) (where_ ready (queue db))) as Hin
      by by apply elem_of_sort_by, elem_where.
    destruct (sort_by _ _); [by apply not_elem_of_nil in Hin|done].
Qed.

(** [dequeue_next] never raises and changes nothing; it answers [None] only when
    no item is ready, and otherwise a ready item that no ready item precedes: its
    company was never dispatched or was dispatched longest ago, and within that it
    has the smallest priority number and then the earliest queueing time. *)
Theorem dequeue_next_least db :
  ∃ o, dequeue_next db = (Ok o, db) ∧
  match o with
  | None => ∀ q, q ∈ queue db → q_status q ≠ "ready"
  | Some (q, _) => q ∈ queue db ∧ q_status q = "ready" ∧
      ∀ q', q' ∈ queue db → q_status q' = "ready" →
        let d := last_dispatched db (q_company_id q) in
        let d' := last_dispatched db (q_company_id q') in
        null_first_compare d d' = Lt ∨
        (d = d' ∧ q_priority q < q_priority q') ∨
        (d = d' ∧ q_priority q = q_priority q' ∧ text_le (q_queued_at q) (q_queued_at q') = true)
  end.
Proof.
  destruct (dequeue_next db) as [[o|e] db'] eqn:Hrun; [|done].
  destruct (dequeue_ok _ _ _ Hrun) as [-> Ho]. exists o. split; [done|].
  destruct o as [[q last]|].
  - destruct Ho as (Hq & Hr & _ & Hmin). apply String.eqb_eq in Hr. split_and!; [done..|].
    intros q' Hq' Hr' d d'. apply String.eqb_eq in Hr'. specialize (Hmin q' Hq' Hr').
    apply leb_of_iff in Hmin. unfold before_cmp, on, queue_key, lex in Hmin. simpl in Hmin.
    fold d d' in Hmin. destruct (null_first_compare d d') eqn:Hd; [right|by left|done].
    apply (cmp_eq (cmp := null_first_compare)) in Hd.
    destruct (Z.compare_spec (q_priority q) (q_priority q')); [right|left|]; try done.
    split_and!; [done..|]. unfold text_le. rewrite string_leb_of. by apply leb_of_iff.
  - intros q Hq Hr. specialize (Ho q Hq). unfold ready in Ho. by rewrite Hr in Ho.
Qed.

(** The key of the fairness table is a company. *)
Lemma fairness_key :
  (∀ a b c : Fairness, clash a c = true → clash b c = true → clash a b = true) ∧
  (∀ a : Fairness, clash a a = true) ∧ (∀ a b : Fairness, clash a b = clash b a).
Proof.
  split_and!; simpl; intros; [|apply String.eqb_refl|apply String.eqb_sym].
  bools. apply String.eqb_eq. congruence.
Qed.

(** Fairness: right after a company has been dispatched, with a clock reading
    later than every other recorded one, [dequeue_next] serves that company again only
    if no other company has ready work. *)
Lemma dequeue_round_robin env c db db1 q last db2 :
  table_ok (R := Fairness) db = true →
  (∀ f, f ∈ fairness db → text_lt (f_last_dispatched_at f) (_now env) = true) →
  update_fairness env c db = (Ok tt, db1) →
  dequeue_next db1 = (Ok (Some (q, last)), db2) → q_company_id q = c →
  ∀ q', q' ∈ queue db → q_status q' = "ready" → q_company_id q' = c.
Proof.
  intros Hok Hlate Hup Hdq Hc q' Hq' Hr'. unfold update_fairness in Hup.
  set (t := _now env) in *. clearbody t.
  assert (queue db1 = queue db) as Hqueue.
  { unfold upsert in Hup.
    apply tx_bind_ok in Hup as (b & ? & [-> ->]%gets_ok & Hup). destruct (existsb _ _).
    - apply tx_bind_ok in Hup as (n & ? & Hu & [_ ->]%mret_ok).
      apply update_ok in Hu as (_ & _ & _ & ->). done.
    - by apply insert_ok in Hup as (_ & _ & _ & ->). }
  apply upsert_ok in Hup as (_ & Hw & Hother); [|done|try done; try apply fairness_key..].
  apply dequeue_ok in Hdq as (_ & Hq & Hr & _ & Hmin).
  assert (last_dispatched db1 c = Some t) as Hlast.
  { unfold last_dispatched. rewrite find_where. simpl in Hw. rewrite Hw.
    by destruct (List.find _ _). }
  apply String.eqb_eq in Hr'. specialize (Hmin q'). rewrite Hqueue in Hmin.
  specialize (Hmin Hq' Hr'). apply leb_of_iff in Hmin.
  unfold before_cmp, on, queue_key, lex in Hmin. simpl in Hmin. rewrite Hc, Hlast in Hmin.
  destruct (decide (q_company_id q' = c)) as [|Hne]; [done|exfalso].
  unfold last_dispatched in Hmin.
  destruct (List.find _ (fairness db1)) as [f|] eqn:Hf; simpl in Hmin; [|done].
  apply find_some in Hf as [Hf%list_elem_of_In Hfc]. bools.
  assert (text_lt (f_last_dispatched_at f) t = true) as Hlt.
  { apply Hlate. apply (Hother f); [simpl; apply String.eqb_neq; congruence|done]. }
  unfold text_lt, String.ltb in Hlt. rewrite String.compare_antisym in Hmin.
  by destruct (String.compare (f_last_dispatched_at f) t).
Qed.

(** ** Leases *)

Lemma queue_key_unique id (g : QueueItem → bool) a b :
  (q_id a =? id) && g a = true → (q_id b =? id) && g b = true → clash a b = true.
Proof.
  intros [Ha _]%andb_true_iff [Hb _]%andb_true_iff. bools. simpl. unfold queue_clash.
  by rewrite Ha, Hb, String.eqb_refl.
Qed.

Lemma lease_key_unique id (g : Lease → bool) a b :
  (l_id a =? id) && g a = true → (l_id b =? id) && g b = true → clash a b = true.
Proof.
  intros [Ha _]%andb_true_iff [Hb _]%andb_true_iff. bools. simpl. unfold lease_clash.
  by rewrite Ha, Hb, String.eqb_refl.
Qed.

Lemma try_integrity_ok {S A} (m : tx S A) s b s' :
  try_integrity m s = (Ok b, s') →
  (b = true ∧ ∃ a, m s = (Ok a, s')) ∨ (b = false ∧ ∃ e, m s = (Err e, s')).
Proof. unfold try_integrity. destruct (m s) as [[a|[]] s1]; naive_solver. Qed.

Lemma insert_lease_ok ttl l db u db' :
  insert_lease ttl l db = (Ok u, db') →
  (0 <= ttl)%Z ∧ insert_row l db = (Ok u, db').
Proof. unfold insert_lease. destruct (ttl <? 0)%Z eqn:Ht; [done|]. bools. intros. by split; [lia|]. Qed.

Lemma insert_lease_err ttl l db e db' :
  insert_lease ttl l db = (Err e, db') → db' = db ∧ ∃ w, e = IntegrityErr w.
Proof.
  unfold insert_lease. destruct (ttl <? 0)%Z; [unfold raise; naive_solver|].
  intros [-> ->]%insert_err. eauto.
Qed.

Lemma queue_update_leases f p (db db' : DB) n :
  update (R := QueueItem) p f db = (Ok n, db') → leases db' = leases db.
Proof. by intros (_ & _ & _ & ->)%update_ok. Qed.

(** Leasing keeps the keys and cannot make two rows clash: a leased item is as
    active as a ready one. *)
Lemma lease_update_runs env id q (db : DB) :
  table_ok (R := QueueItem) db = true → q ∈ queue db → q_id q = id → ready q = true →
  update (λ q, (q_id q =? id) && (q_status q =? "ready")) (set_leased (_now env)) db =
    (Ok 1, set_rows (updated (λ q, (q_id q =? id) && (q_status q =? "ready"))
                       (set_leased (_now env)) (queue db)) db).
Proof.
  intros Hok Hq <- Hr. pose proof Hok as Hok'. unfold table_ok in Hok'.
  apply andb_true_iff in Hok' as [Hrows Hcl].
  assert (where_ (λ x, (q_id x =? q_id q) && (q_status x =? "ready")) (rows db) = [q]) as Hw.
  { apply (find_unique _ (rows db) q Hcl (queue_key_unique _ _)); [done|].
    by rewrite String.eqb_refl. }
  apply update_ok. rewrite Hw. split_and!; [| |done..].
  - simpl. rewrite forallb_forall in Hrows. apply list_elem_of_In in Hq.
    specialize (Hrows q Hq). simpl in Hrows. unfold queue_ok in *.
    apply andb_true_iff in Hrows as [Hrows H4]. apply andb_true_iff in Hrows as [Hrows _].
    apply andb_true_iff in Hrows as [H1 H2]. simpl. by rewrite H1, H2, H4.
  - assert (∀ x, (q_id x =? q_id q) && (q_status x =? "ready") = true → active x = true) as Hra.
    { intros x [_ Hx]%andb_true_iff. unfold active. bools. by rewrite Hx. }
    apply no_clash_updated_le; [| |done]; intros a b Hp%Hra; simpl; unfold queue_clash; simpl;
      by rewrite Hp.
Qed.

(** The lease an [acquire_lease] call asks for. *)
Definition lease_for (env : Env) (queue_id job_id run_id employee_id company_id conversation_id
    : string) (ttl : Z) : Lease := {|
  l_id := uuid env 0; l_queue_id := queue_id; l_job_id := job_id;
  l_run_id := or_none run_id; l_employee_id := or_none employee_id;
  l_company_id := company_id; l_conversation_id := or_none conversation_id;
  l_acquired_at := _now env; l_heartbeat_at := _now env;
  l_expires_at := sqlite_text (sqlite_add (now env) ttl) |}.

Definition leasable (job_id company_id : string) (q : QueueItem) : bool :=
  (q_status q =? "ready") && (q_job_id q =? job_id) && (q_company_id q =? company_id).

(** [acquire_lease] in one equation. *)
Lemma acquire_lease_run env qid job run emp co conv ttl (db : DB) :
  table_ok (R := QueueItem) db = true →
  acquire_lease env qid job run emp co conv ttl db =
    match List.find (λ q, q_id q =? qid) (queue db) with
    | Some q =>
        if leasable job co q then
          match insert_lease ttl (lease_for env qid job run emp co conv ttl) db with
          | (Ok _, db1) =>
              (Ok (Some (uuid env 0)),
               set_rows (updated (λ q, (q_id q =? qid) && (q_status q =? "ready"))
                           (set_leased (_now env)) (queue db)) db1)
          | (Err _, _) => (Ok None, db)
          end
        else (Ok None, db)
    | None => (Ok None, db)
    end.
Proof.
  intros Hok. unfold acquire_lease.
  rewrite (tx_bind_run _ _ db (List.find (λ q, q_id q =? qid) (queue db)) db) by done.
  destruct (List.find _ _) as [q|] eqn:Hq; [|done].
  apply find_some in Hq as [Hq%list_elem_of_In Hid]. bools. unfold leasable.
  destruct (q_status q =? "ready") eqn:Hs; simpl; [|done].
  destruct (q_job_id q =? job); simpl; [|done].
  destruct (q_company_id q =? co); simpl; [|done].
  fold (lease_for env qid job run emp co conv ttl).
  destruct (insert_lease ttl (lease_for env qid job run emp co conv ttl) db) as [[u|e] db1] eqn:Hi.
  - rewrite (tx_bind_run _ _ db true db1) by (unfold try_integrity; by rewrite Hi). simpl.
    assert (queue db1 = queue db) as Hq1.
    { apply insert_lease_ok in Hi as [_ (_ & _ & _ & ->)%insert_ok]. done. }
    assert (table_ok (R := QueueItem) db1 = true) as Hok1.
    { unfold table_ok in *. simpl in *. by rewrite Hq1. }
    rewrite <-Hq1 in Hq. pose proof (lease_update_runs env qid q db1 Hok1 Hq Hid Hs) as Hu.
    rewrite (tx_bind_run _ _ _ _ _ Hu), Hq1. done.
  - apply insert_lease_err in Hi as Hi'. destruct Hi' as [-> [w ->]].
    by rewrite (tx_bind_run _ _ db false db) by (unfold try_integrity; by rewrite Hi).
Qed.

(** Leases are exclusive.  [acquire_lease] never raises; when it grants a lease the
    item was ready, belonged to the given job and company, and is now [leased] with
    the lease on record; from then on every other request for the item, whoever makes
    it, gets [None] and changes nothing. *)
Lemma acquire_lease_exclusive env qid job run emp co conv ttl db r db' :
  table_ok (R := QueueItem) db = true →
  acquire_lease env qid job run emp co conv ttl db = (r, db') →
  (∃ o, r = Ok o) ∧
  ∀ lid, r = Ok (Some lid) →
    (∃ q, List.find (λ q, q_id q =? qid) (queue db) = Some q ∧ leasable job co q = true ∧
       List.find (λ q, q_id q =? qid) (queue db') = Some (set_leased (_now env) q)) ∧
    leases db' = leases db ++ [lease_for env qid job run emp co conv ttl] ∧
    ∀ env' job' run' emp' co' conv' ttl',
      acquire_lease env' qid job' run' emp' co' conv' ttl' db' = (Ok None, db').
Proof.
  intros Hok Hrun. rewrite acquire_lease_run in Hrun by done.
  destruct (List.find _ (queue db)) as [q|] eqn:Hq; [|simplify_eq; naive_solver].
  destruct (leasable job co q) eqn:Hl; [|simplify_eq; naive_solver].
  destruct (insert_lease _ _ db) as [[u|e] db1] eqn:Hi; [|simplify_eq; naive_solver].
  injection Hrun as <- <-. split; [by eexists|]. intros lid [= <-].
  apply insert_lease_ok in Hi as [_ (_ & _ & _ & ->)%insert_ok].
  pose proof Hq as [Hin%list_elem_of_In Hid]%find_some. apply String.eqb_eq in Hid.
  assert (ready q = true) as Hr by (unfold leasable in Hl; by andbs).
  pose proof (lease_update_runs env qid q db Hok Hin Hid Hr) as Hu.
  assert (table_ok (R := QueueItem) (set_rows (updated (λ q, (q_id q =? qid) &&
    (q_status q =? "ready")) (set_leased (_now env)) (queue db)) db) = true) as Hok'.
  { eapply update_table_ok; [exact Hu|]. unfold table_ok in Hok. by bools. }
  assert (List.find (λ q, q_id q =? qid) (updated (λ q, (q_id q =? qid) &&
    (q_status q =? "ready")) (set_leased (_now env)) (queue db)) =
      Some (set_leased (_now env) q)) as Hq'.
  { clear -Hq Hr. revert Hq. unfold updated. induction (queue db) as [|x l IH]; [done|]. simpl.
    destruct (q_id x =? qid) eqn:Hx; simpl; [|rewrite ?Hx; exact IH].
    intros [= ->]. unfold ready in Hr. rewrite Hr. simpl. by rewrite Hx. }
  split; [by exists q|]. split; [done|]. intros. rewrite acquire_lease_run by exact Hok'.
  simpl. rewrite Hq'. done.
Qed.

(** A heartbeat compares the ISO text of the clock with the SQLite text of the
    expiry.  On a lease whose expiry the scheduler or the executor wrote, for the
    instant [e], it succeeds exactly when the calendar date of the clock is before the
    date of [e]: on the day of the expiry every heartbeat answers [False] and every
    beat of the executor's loop leaves the lease as it was, however far away the
    expiry is. *)
Theorem heartbeat_compares_dates env l e db :
  table_ok (R := Lease) db = true → l ∈ leases db → l_expires_at l = sqlite_text e →
  (heartbeat_lease env (l_id l) db).1 = Ok (text_lt (date_text (now env)) (date_text e)) ∧
  (date_text (now env) = date_text e →
     heartbeat_lease env (l_id l) db = (Ok false, db) ∧ refresh env (l_id l) db = (Ok tt, db)).
Proof.
  intros Hok Hl He.
  assert (text_lt (_now env) (l_expires_at l) = text_lt (date_text (now env)) (date_text e)) as Hlt.
  { rewrite He. apply iso_lt_sqlite. }
  set (p := λ x, (l_id x =? l_id l) && text_lt (_now env) (l_expires_at x)).
  assert (∀ x, x ∈ leases db → p x = true → x = l) as Hone.
  { intros x Hx [Hid _]%andb_true_iff. unfold table_ok in Hok. apply andb_true_iff in Hok as [_ Hcl].
    apply (unique_row (λ x, l_id x =? l_id l) (rows db)); try done; [|apply String.eqb_refl].
    intros a b Ha Hb. apply (lease_key_unique (l_id l) (λ _, true)); by rewrite andb_true_r. }
  assert (text_lt (date_text (now env)) (date_text e) = false → ∀ f, update p f db = (Ok 0, db)) as Hno.
  { intros Hd f. assert (∀ x, x ∈ leases db → p x = false) as Hnone.
    { intros x Hx. destruct (p x) eqn:Hp; [|done]. pose proof (Hone x Hx Hp) as ->.
      apply andb_true_iff in Hp as [_ Hp]. congruence. }
    assert (where_ p (rows db) = []) as Hw.
    { destruct (where_ p (rows db)) as [|x w] eqn:Hw; [done|].
      assert (x ∈ where_ p (rows db)) as [Hx Hp]%elem_where by (rewrite Hw; by left).
      by rewrite Hnone in Hp. }
    apply update_ok. rewrite Hw, updated_id, set_rows_rows; [|intros x Hx; by rewrite Hnone].
    unfold table_ok in Hok. bools. done. }
  split.
  - unfold heartbeat_lease. fold p. destruct (text_lt (date_text (now env)) (date_text e)) eqn:Hd.
    + pose proof (update_found (λ x, l_id x =? l_id l)
        (λ x, text_lt (_now env) (l_expires_at x)) (set_heartbeat (_now env)) db l Hok) as Hu.
      rewrite (tx_bind_run _ _ _ 1
        (set_rows (updated (λ x, l_id x =? l_id l) (set_heartbeat (_now env)) (leases db)) db));
        [done|]. unfold p. rewrite Hu; [|try done..|exact Hl|apply String.eqb_refl|exact Hlt].
      * pose proof (table_ok_row db l Hok Hl) as Hrow. unfold set_heartbeat. simpl in *.
        unfold lease_ok in *. simpl. by rewrite Hrow.
      * intros a b Ha Hb. apply (lease_key_unique (l_id l) (λ _, true)); by rewrite andb_true_r.
    + by rewrite (tx_bind_run _ _ _ _ _ (Hno eq_refl _)).
  - intros Hday. assert (text_lt (date_text (now env)) (date_text e) = false) as Hd
      by (rewrite Hday; apply text_lt_irrefl).
    unfold heartbeat_lease, refresh. fold p. by rewrite !(tx_bind_run _ _ _ _ _ (Hno Hd _)).
Qed.

(** ** A database the theorems run on *)

Module Demo.
Definition job : RunJob := {|
  rj_company_task_id := "ct"; rj_department_task_id := Some "dt"; rj_employee_task_id := Some "et";
  rj_work_item_id := "et"; rj_employee_id := "emp"; rj_conversation_id := "conv";
  rj_run_purpose := "task_execution"; rj_adapter_type := "api_model"; rj_created_at := "t" |}.
Definition run (id company status : string) : Run := {|
  r_id := id; r_company_id := company; r_job := job; r_status := status; r_resume_state := None;
  r_attempt := 1; r_started_at := None; r_completed_at := None; r_exit_code := None;
  r_failure_code := None; r_process := None; r_updated_at := "t"; r_version := 1 |}.
Definition db0 : DB := {|
  queue := []; leases := []; fairness := [];
  agent_runs := [run "run1" "co1" "queued"; run "run2" "co2" "running"; run "run3" "co1" "succeeded"];
  run_events := []; domain_events := []; outbox_events := []; companies := ["co1"; "co2"];
  employees := [("emp", "co1")]; conversations := [("conv", "co1")] |}.
(** noon on 2024-02-29, in microseconds *)
Definition noon : Z := 1709208000000000.
Definition env (offset_s : Z) (tag : string) : Env := {|
  now := noon + offset_s * 1000000;
  uuid n := tag +:+ pad 4 (Z.of_nat n) |}.
Definition db1 : DB :=
  (enqueue (env 0 "a") "co1" "run1" "employee_task" "task1" "job1" 10 db0).2.
Definition db2 : DB :=
  (enqueue (env 1 "b") "co2" "run2" "review" "task2" "job2" 0 db1).2.
Definition db3 : DB := (update_fairness (env 2 "c") "co2" db2).2.
Definition db4 : DB :=
  (acquire_lease (env 3 "lease") "a0000" "job1" "run1" "emp" "co1" "conv" 300 db3).2.
End Demo.

Lemma dequeue_round_robin_witness :
  (dequeue_next Demo.db3).1 = Ok (Some (default (Build_QueueItem "" "" "" "" "" None 0 "" "" None)
      (head (queue Demo.db3)), None)) ∧
  (let db' := (update_fairness (Demo.env 5 "d") "co1" Demo.db1).2 in
   ∀ q', q' ∈ queue Demo.db1 → q_status q' = "ready" → q_company_id q' = "co1").
Proof.
  split; [by vm_compute|]. intros db'.
  destruct (dequeue_next db') as [[[[q last]|]|] db2] eqn:Hd; [|by vm_compute in Hd..].
  apply (dequeue_round_robin (Demo.env 5 "d") "co1" Demo.db1 db' q last db2).
  - by vm_compute.
  - intros f Hf. by apply not_elem_of_nil in Hf.
  - by vm_compute.
  - exact Hd.
  - vm_compute in Hd. injection Hd as <- <- <-. reflexivity.
Defined.

Lemma acquire_lease_exclusive_witness :
  map l_id (leases Demo.db4) = ["lease0000"] ∧
  acquire_lease (Demo.env 9 "other") "a0000" "job1" "run1" "emp" "co1" "conv" 60 Demo.db4 =
    (Ok None, Demo.db4).
Proof.
  split; [by vm_compute|].
  destruct (acquire_lease_exclusive (Demo.env 3 "lease") "a0000" "job1" "run1" "emp" "co1" "conv" 300
    Demo.db3 (Ok (Some "lease0000")) Demo.db4) as [_ H]; [by vm_compute..|].
  by apply (H "lease0000").
Defined.

Lemma heartbeat_compares_dates_witness :
  heartbeat_lease (Demo.env 13 "x") "lease0000" Demo.db4 = (Ok false, Demo.db4) ∧
  map l_expires_at (leases Demo.db4) = ["2024-02-29 12:05:03"].
Proof.
  split; [|by vm_compute].
  set (l := lease_for (Demo.env 3 "lease") "a0000" "job1" "run1" "emp" "co1" "conv" 300).
  assert (leases Demo.db4 = [l]) as Hl by by vm_compute.
  apply (heartbeat_compares_dates (Demo.env 13 "x") l (sqlite_add (now (Demo.env 3 "")) 300) Demo.db4).
  - by vm_compute.
  - rewrite Hl. by left.
  - reflexivity.
  - by vm_compute.
Defined.
