(* ===== verification/Recovery.v ===== *)
(** * Crash recovery ([runtime/recovery.py])

    What a restarted sidecar does before it accepts work: fail the runs the crash
    interrupted (with their queue items, leases and events), reconcile routing
    decisions and attempts, and drop expired health rows, over the scheduler's and the
    routing repository's tables side by side.

    The theorems: recovery never raises on a well-formed database, leaves no run,
    attempt or decision in an interrupted state, touches nothing that had finished,
    records one event per failed run, and is idempotent. *)

From S2P Require Import Prelude PyStr Sql Clock UnitOfWork Scheduler.
From S2P Require RoutingStore.
Import (hints) RoutingStore.

(** ** The run's event log ([runtime/run_executor.py]) *)

(** [COALESCE(MAX(sequence) + 1, 1)] over the run's events *)
Definition next_sequence (run_id : string) (l : list RunEvent) : Z :=
  match where_ (λ e, re_run_id e =? run_id) l with
  | [] => 1
  | e :: l => foldr Z.max (re_sequence e) (map re_sequence l) + 1
  end.

Definition has_keys (keys : list string) (payload : list (string * json)) : bool :=
  forallb (λ k, k ∈? map fst payload) keys.

Definition canonical_keys : list string :=
  ["company_id"; "aggregate_id"; "version"; "from_state"; "to_state"].

Definition pick (keys : list string) (payload : list (string * json)) : list (string * json) :=
  map (λ k, (k, field payload k)) keys.

(** [int(value)]; the callers pass an [int]. *)
Definition to_int (j : json) : result Z :=
  match j with JInt n => Ok n | JBool b => Ok (if b then 1 else 0) | _ => Err (TypeErr "int") end.

(** [n] is the first fresh identifier the call draws: the event id, two trace ids and
    the outbox id. *)
(* [sidecar/ibreeze/runtime/run_executor.py:628-704 _write_event] *)
Definition write_event (env : Env) (n : nat) (company run_id event_type : string)
    (payload : list (string * json)) : tx DB unit :=
  let event := uuid env n in
  sequence ← gets (λ db, next_sequence run_id (run_events db));
  insert_row {| re_run_id := run_id; re_event_id := event; re_sequence := sequence;
    re_event_type := event_type; re_payload := sorted_obj payload; re_trace_id := uuid env (n + 1);
    re_occurred_at := _now env |};;
  if event_type ∈? ["run.queued"; "run.started"; "run.failed"; "run.cancelled"; "run.completed"]
  then
    check (has_keys canonical_keys payload) (ValueError "RUN_EVENT_INVALID");;
    let completed := event_type =? "run.completed" in
    check (negb completed || has_keys ["status"; "evidence_artifact_ids"] payload)
      (ValueError "RUN_COMPLETED_EVENT_INVALID");;
    let canonical := sorted_obj (pick canonical_keys payload ++
      (if completed then pick ["status"; "evidence_artifact_ids"] payload else [])) in
    version ← lift (to_int (field payload "version"));
    insert_row {| ev_event := {| event_id := event; event_type := event_type;
        aggregate_type := "agent_run"; aggregate_id := run_id; aggregate_version := version;
        company_id := Some company; payload_json := canonical; trace_id := uuid env (n + 2) |};
      ev_occurred_at := _now env |};;
    insert_row {| ob_id := uuid env (n + 3); ob_domain_event_id := event; ob_topic := event_type;
      ob_payload := Dumped canonical; ob_status := "pending"; ob_attempts := 0;
      ob_next_attempt_at := _now env; ob_last_error := None; ob_created_at := _now env;
      ob_delivered_at := None |}
  else mret tt.

(** ** Interrupted runs *)

(* [sidecar/ibreeze/runtime/recovery.py:14-15 _STALE_STATUSES] *)
Definition _STALE_STATUSES : list string :=
  ["queued"; "probing"; "starting"; "running"; "verifying"; "retrying"].
(* [sidecar/ibreeze/runtime/recovery.py:17-17 _RECOVERY_MESSAGE_PREFIX] *)
Definition _RECOVERY_MESSAGE_PREFIX : string := "Crash recovery".

Definition failure_text (status : string) : string :=
  _RECOVERY_MESSAGE_PREFIX +:+ ": run was '" +:+ status +:+ "' at crash time".

Definition stale (r : Run) : bool := r_status r ∈? _STALE_STATUSES.

Definition fail_run (now : string) (status : string) (r : Run) : Run := {|
  r_id := r_id r; r_company_id := r_company_id r; r_job := r_job r; r_status := "failed";
  r_resume_state := r_resume_state r; r_attempt := r_attempt r; r_started_at := r_started_at r;
  r_completed_at := Some now; r_exit_code := r_exit_code r; r_failure_code := Some (failure_text status);
  r_process := None; r_updated_at := now; r_version := r_version r + 1 |}.

Definition same_run (r x : Run) : bool :=
  (r_id x =? r_id r) && ((r_company_id x =? r_company_id r) && (r_status x =? r_status r) &&
  (r_version x =? r_version r)%Z).

Definition for_run (run company : string) (q : QueueItem) : bool :=
  bool_decide (q_run_id q = Some run) && (q_company_id q =? company).
Definition lease_for_run (run company : string) (l : Lease) : bool :=
  bool_decide (l_run_id l = Some run) && (l_company_id l =? company).

Definition failed_payload (r : Run) : list (string * json) :=
  [("company_id", JStr (r_company_id r)); ("aggregate_id", JStr (r_id r));
   ("version", JInt (r_version r + 1)); ("from_state", JStr (r_status r));
   ("to_state", JStr "failed"); ("failure_code", JStr (failure_text (r_status r)))].

(** The body of the loop, for the [i]-th stale run. *)
(* [sidecar/ibreeze/runtime/recovery.py:41-99 recover_stale_runs (loop body)] *)
Definition recover_run (env : Env) (i : nat) (run : Run) : tx DB bool :=
  rowcount ← update (same_run run) (fail_run (_now env) (r_status run));
  if negb (rowcount =? 1)%Z then mret false
  else
    update (λ q, for_run (r_id run) (r_company_id run) q && active q)
      (set_queue_status "cancelled");;
    delete_rows (lease_for_run (r_id run) (r_company_id run));;
    known ← gets (λ db, r_company_id run ∈? companies db);
    (if (known : bool)
     then write_event env (4 * i) (r_company_id run) (r_id run) "run.failed" (failed_payload run)
     else mret tt);;
    mret true.

Fixpoint recover_runs (env : Env) (i : nat) (l : list Run) : tx DB Z :=
  match l with
  | [] => mret 0
  | run :: l =>
      b ← recover_run env i run;
      n ← recover_runs env (S i) l;
      mret ((if (b : bool) then 1 else 0) + n)
  end.

(** [{"recovered": ..., "checked": ...}] *)
(* [sidecar/ibreeze/runtime/recovery.py:24-101 recover_stale_runs] *)
Definition recover_stale_runs (env : Env) : tx DB (Z * Z) :=
  stale_runs ← select stale;
  recovered ← recover_runs env 0 stale_runs;
  mret (recovered, Z.of_nat (length stale_runs)).

(** ** Running one recovery step *)

(** The tables recovery writes, well formed. *)
Record wf (db : DB) : Prop := {
  wf_runs : table_ok (R := Run) db = true;
  wf_queue : table_ok (R := QueueItem) db = true;
  wf_events : table_ok (R := RunEvent) db = true;
  wf_domain : table_ok (R := EventRow) db = true;
  wf_outbox : table_ok (R := OutboxRow) db = true }.

(** No identifier from the [n]-th on is in use. *)
Record fresh (env : Env) (n : nat) (db : DB) : Prop := {
  fresh_events m : (n ≤ m)%nat → uuid env m ∉ map re_event_id (run_events db);
  fresh_domain m : (n ≤ m)%nat → uuid env m ∉ map (λ e, event_id (ev_event e)) (domain_events db);
  fresh_outbox m : (n ≤ m)%nat → uuid env m ∉ map ob_id (outbox_events db) }.

Lemma foldr_max_le x l y : y ∈ x :: l → (y <= foldr Z.max x l)%Z.
Proof.
  revert y. induction l as [|z l IH]; intros y Hy; simpl.
  - apply list_elem_of_singleton in Hy as ->. lia.
  - apply elem_of_cons in Hy as [->|[->|Hy]%elem_of_cons].
    + specialize (IH x ltac:(by left)). lia.
    + lia.
    + specialize (IH y ltac:(by right)). lia.
Qed.

Lemma next_sequence_above run l e :
  e ∈ l → re_run_id e = run → (re_sequence e < next_sequence run l)%Z.
Proof.
  intros He Hr. assert (e ∈ where_ (λ e, re_run_id e =? run) l) as Hin.
  { apply elem_where. by rewrite Hr, String.eqb_refl. }
  unfold next_sequence. destruct (where_ _ _) as [|x w]; [by apply not_elem_of_nil in Hin|].
  assert (re_sequence e ∈ re_sequence x :: map re_sequence w) as Hle%foldr_max_le; [|lia].
  apply elem_of_cons in Hin as [->|Hin]; [by left|right].
  apply list_elem_of_fmap. by exists e.
Qed.

Lemma next_sequence_pos run l : forallb (λ e, (0 <? re_sequence e)%Z) l = true →
  (0 < next_sequence run l)%Z.
Proof.
  intros Hl. rewrite forallb_forall in Hl. unfold next_sequence.
  destruct (where_ _ _) as [|x w] eqn:Hw; [lia|].
  assert (x ∈ where_ (λ e, re_run_id e =? run) l) as [Hx _]%elem_where by (rewrite Hw; by left).
  apply list_elem_of_In, Hl in Hx. apply Z.ltb_lt in Hx.
  pose proof (foldr_max_le (re_sequence x) (map re_sequence w) (re_sequence x) ltac:(by left)). lia.
Qed.

(** An insert of a row with a new key. *)
Lemma insert_fresh {R} `{!Table DB R} (r : R) (db : DB) :
  table_ok db = true → row_ok r = true → (∀ x, x ∈ rows db → clash x r = false) →
  refs_ok (set_rows (rows db ++ [r]) db) r = true →
  insert_row r db = (Ok tt, set_rows (rows db ++ [r]) db).
Proof.
  intros Hok Hr Hc Hf. apply insert_ok. unfold table_ok in Hok. bools.
  split_and!; [done|by apply no_clash_snoc|done..].
Qed.

(** What the payload of an event must say. *)
Definition payload_ok (type : string) (payload : list (string * json)) : Prop :=
  has_keys canonical_keys payload = true ∧
  (type = "run.completed" → has_keys ["status"; "evidence_artifact_ids"] payload = true).

Definition canonical_payload (type : string) (payload : list (string * json)) : json :=
  sorted_obj (pick canonical_keys payload ++
    (if type =? "run.completed" then pick ["status"; "evidence_artifact_ids"] payload else [])).

Definition event_row (env : Env) (n : nat) (company id type : string) (payload : list (string * json)) (v : Z)
    : EventRow := {|
  ev_event := {| event_id := uuid env n; event_type := type; aggregate_type := "agent_run"; aggregate_id := id;
    aggregate_version := v; company_id := Some company; payload_json := canonical_payload type payload;
    trace_id := uuid env (n + 2) |};
  ev_occurred_at := _now env |}.

(** What the [run.failed] event adds to the three event tables. *)
Definition failed_event (env : Env) (n : nat) (r : Run) : EventRow :=
  event_row env n (r_company_id r) (r_id r) "run.failed" (failed_payload r) (r_version r + 1).

Record logged (env : Env) (n : nat) (r : Run) (db db' : DB) : Prop := {
  logged_events : ∃ e, run_events db' = run_events db ++ [e] ∧ re_event_id e = uuid env n ∧
    re_run_id e = r_id r;
  logged_domain : domain_events db' = domain_events db ++ [failed_event env n r];
  logged_outbox : ∃ o, outbox_events db' = outbox_events db ++ [o] ∧ ob_id o = uuid env (n + 3) ∧
    ob_domain_event_id o = uuid env n ∧ ob_topic o = "run.failed";
  logged_rest : (agent_runs db', queue db', leases db', companies db', fairness db') =
    (agent_runs db, queue db, leases db, companies db, fairness db) }.

Lemma clash_event_free env n db x (e : RunEvent) :
  fresh env n db → x ∈ run_events db → re_event_id e = uuid env n →
  re_sequence e = next_sequence (re_run_id e) (run_events db) → clash x e = false.
Proof.
  intros Hfr Hx He Hs. simpl. apply orb_false_iff. split.
  - apply String.eqb_neq. rewrite He. intros Heq. apply (fresh_events _ _ _ Hfr n); [done|].
    rewrite <-Heq. apply list_elem_of_fmap. by exists x.
  - destruct (re_run_id x =? re_run_id e) eqn:Hr; [|done]. bools. simpl.
    apply Z.eqb_neq. pose proof (next_sequence_above _ _ _ Hx Hr). lia.
Qed.

(** The event tables after an event: the log of the runs has grown by it, and so have the domain
    events and the outbox if it is one of those that are published. *)
Record written (env : Env) (n : nat) (id type : string) (row : EventRow) (db db' : DB) : Prop := {
  written_event : ∃ e, run_events db' = run_events db ++ [e] ∧ re_event_id e = uuid env n ∧ re_run_id e = id;
  written_published : ∃ evs obs,
    domain_events db' = domain_events db ++ evs ∧ outbox_events db' = outbox_events db ++ obs ∧
    if type ∈? ["run.queued"; "run.started"; "run.failed"; "run.cancelled"; "run.completed"]
    then evs = [row] ∧ ∃ o, obs = [o] ∧ ob_id o = uuid env (n + 3) ∧ ob_domain_event_id o = uuid env n ∧ ob_topic o = type
    else evs = [] ∧ obs = [];
  written_rest : (agent_runs db', queue db', leases db', companies db', fairness db') =
    (agent_runs db, queue db, leases db, companies db, fairness db) }.

Lemma write_event_runs env n company id type payload v db :
  wf db → fresh env n db → id ∈ map r_id (agent_runs db) → company ∈ companies db →
  payload_ok type payload → field payload "version" = JInt v →
  ∃ db', write_event env n company id type payload db = (Ok tt, db') ∧
    written env n id type (event_row env n company id type payload v) db db' ∧ wf db'.
Proof.
  intros Hwf Hfr Hrun Hco [Hkeys Hcomp] Hv. unfold write_event.
  rewrite (tx_bind_run _ _ db _ db) by reflexivity.
  set (e := Build_RunEvent _ _ _ _ _ _ _).
  assert (insert_row e db = (Ok tt, set_rows (rows db ++ [e]) db)) as Hi1.
  { apply insert_fresh; [apply Hwf| | |].
    - simpl. apply Z.ltb_lt, next_sequence_pos. exact (table_rows_ok (R := RunEvent) db (wf_events _ Hwf)).
    - intros x Hx. by apply (clash_event_free env n db).
    - simpl. by apply bool_decide_eq_true. }
  rewrite (tx_bind_run _ _ _ _ _ Hi1). set (db1 := set_rows (rows db ++ [e]) db).
  assert (wf db1) as Hwf1.
  { destruct Hwf as [W1 W2 W3 W4 W5]. split; try done. exact (insert_table_ok e db tt db1 Hi1 (table_rows_ok _ W3)). }
  destruct (type ∈? _) eqn:Hpub; cycle 1.
  { exists db1. split; [done|]. split; [|done]. split; [by exists e| |done].
    exists [], []. rewrite !app_nil_r, Hpub. by split_and!. }
  rewrite (tx_bind_run _ _ db1 tt db1) by (unfold check; by rewrite Hkeys). cbv zeta.
  rewrite (tx_bind_run _ _ db1 tt db1); cycle 1.
  { destruct (type =? "run.completed") eqn:Et; [|done]. apply String.eqb_eq in Et. unfold check. by rewrite Hcomp. }
  rewrite Hv, (tx_bind_run _ _ db1 v db1) by reflexivity.
  set (ev := event_row env n company id type payload v). fold (canonical_payload type payload).
  assert (insert_row ev db1 = (Ok tt, set_rows (rows db1 ++ [ev]) db1)) as Hi2.
  { apply insert_fresh; [exact (wf_domain _ Hwf1)|done| |simpl; by apply bool_decide_eq_true].
    intros x Hx. simpl. apply String.eqb_neq. intros Heq. apply (fresh_domain _ _ _ Hfr n); [done|].
    rewrite <-Heq. apply list_elem_of_fmap. by exists x. }
  fold ev. rewrite (tx_bind_run _ _ _ _ _ Hi2). set (db2 := set_rows (rows db1 ++ [ev]) db1).
  set (o := Build_OutboxRow _ _ _ _ _ _ _ _ _ _).
  assert (insert_row o db2 = (Ok tt, set_rows (rows db2 ++ [o]) db2)) as Hi3.
  { apply insert_fresh; [exact (wf_outbox _ Hwf1)|done| |].
    - intros x Hx. simpl. apply String.eqb_neq. intros Heq. apply (fresh_outbox _ _ _ Hfr (n + 3)); [lia|].
      rewrite <-Heq. apply list_elem_of_fmap. by exists x.
    - simpl. apply bool_decide_eq_true. rewrite map_app. apply elem_of_app. right. by apply list_elem_of_singleton. }
  rewrite Hi3. eexists. split; [done|]. split.
  - split; [by exists e| |done]. exists [ev], [o]. rewrite Hpub. split_and!; try done. by exists o.
  - destruct Hwf1 as [W1 W2 W3 W4 W5]. split; [exact W1|exact W2|exact W3|..].
    + exact (insert_table_ok _ db1 tt db2 Hi2 (table_rows_ok _ W4)).
    + exact (insert_table_ok o db2 tt _ Hi3 (table_rows_ok _ W5)).
Qed.

Lemma write_failed_runs env n r db :
  wf db → fresh env n db → r_id r ∈ map r_id (agent_runs db) → r_company_id r ∈ companies db →
  ∃ db', write_event env n (r_company_id r) (r_id r) "run.failed" (failed_payload r) db = (Ok tt, db') ∧
    logged env n r db db' ∧ wf db'.
Proof.
  intros Hwf Hfr Hrun Hco.
  destruct (write_event_runs env n (r_company_id r) (r_id r) "run.failed" (failed_payload r) (r_version r + 1) db)
    as (db' & H & [We (evs & obs & E1 & E2 & -> & o & -> & Ho) Wr] & Hwf'); [done..|].
  exists db'. split; [done|]. split; [|done]. split; [done|exact E1|by exists o|done].
Qed.

(** The sequence of identifiers is without repetition and the event tables grow by
    the ones drawn, so the later ones stay fresh. *)
Lemma logged_fresh env n r db db' :
  (∀ i j, uuid env i = uuid env j → i = j) →
  fresh env n db → logged env n r db db' → fresh env (n + 4) db'.
Proof.
  intros Hinj [F1 F2 F3] [(e & E1 & He & _) E2 (o & E3 & Ho & _) _].
  split; intros m Hm; rewrite ?E1, ?E2, ?E3, map_app; intros [Hin|Hin%list_elem_of_singleton]%elem_of_app.
  - apply (F1 m); [lia|done].
  - rewrite He in Hin. apply Hinj in Hin. lia.
  - apply (F2 m); [lia|done].
  - simpl in Hin. apply Hinj in Hin. lia.
  - apply (F3 m); [lia|done].
  - rewrite Ho in Hin. apply Hinj in Hin. lia.
Qed.

(** One stale run, recovered. *)
Record recovered (env : Env) (n : nat) (r : Run) (db db' : DB) : Prop := {
  rec_runs : agent_runs db' = updated (same_run r) (fail_run (_now env) (r_status r)) (agent_runs db);
  rec_queue : queue db' = updated (λ q, for_run (r_id r) (r_company_id r) q && active q)
                (set_queue_status "cancelled") (queue db);
  rec_leases : leases db' = where_ (λ l, negb (lease_for_run (r_id r) (r_company_id r) l)) (leases db);
  rec_domain : domain_events db' = domain_events db ++
    (if r_company_id r ∈? companies db then [failed_event env n r] else []);
  rec_companies : companies db' = companies db }.

Lemma cancel_queue_runs run co db :
  table_ok (R := QueueItem) db = true →
  ∃ k, update (λ q, for_run run co q && active q) (set_queue_status "cancelled") db =
    (Ok k, set_rows (updated (λ q, for_run run co q && active q)
             (set_queue_status "cancelled") (queue db)) db).
Proof.
  intros Hok. eexists. apply update_ok. unfold table_ok in Hok.
  apply andb_true_iff in Hok as [Hrows Hcl]. split_and!; [| |done..].
  - rewrite forallb_forall in *. intros x (y & <- & Hy)%in_map_iff.
    apply filter_In in Hy as [Hy _]. specialize (Hrows y Hy). simpl in *. unfold queue_ok in *.
    andbs; done.
  - apply no_clash_updated_le; [| |done]; intros a b _; simpl; unfold queue_clash; simpl;
      change (active (set_queue_status "cancelled" ?x)) with false;
      rewrite ?andb_false_r, ?orb_false_r; intros ->; done.
Qed.

Lemma stale_resume_null r : run_ok r = true → stale r = true → r_resume_state r = None.
Proof.
  unfold run_ok, stale. intros Hok Hst. andbs.
  assert ((r_status r ∈? ["waiting_approval"; "waiting_resource"]) = false) as Hw.
  { by apply negb_true_iff,
      (mem_all (λ s, negb (s ∈? ["waiting_approval"; "waiting_resource"])) _ _ Hst). }
  match goal with H : context [r_resume_state r] |- _ => rewrite Hw in H end.
  by destruct (r_resume_state r).
Qed.

Lemma recover_run_runs env i r db :
  wf db → fresh env (4 * i) db → (∀ i j, uuid env i = uuid env j → i = j) →
  r ∈ agent_runs db → stale r = true →
  ∃ db', recover_run env i r db = (Ok true, db') ∧ recovered env (4 * i) r db db' ∧
    wf db' ∧ fresh env (4 * S i) db'.
Proof.
  intros Hwf Hfr Hinj Hr Hst. pose proof Hwf as [W1 W2 W3 W4 W5].
  assert (update (same_run r) (fail_run (_now env) (r_status r)) db =
    (Ok 1, set_rows (updated (same_run r) (fail_run (_now env) (r_status r)) (agent_runs db)) db)) as Hu.
  { apply update_ok. assert (where_ (same_run r) (rows db) = [r]) as ->.
    { apply (find_unique _ _ _ (table_no_clash _ W1)); [|done|].
      - intros a b [Ha _]%andb_true_iff [Hb _]%andb_true_iff. bools. simpl.
        apply String.eqb_eq. congruence.
      - unfold same_run. by rewrite !String.eqb_refl, Z.eqb_refl. }
    pose proof (table_ok_row _ _ W1 Hr) as Hrow. pose proof (stale_resume_null _ Hrow Hst) as Hres.
    split_and!; [|rewrite no_clash_updated by done; by apply table_no_clash|done..].
    simpl. rewrite andb_true_r. simpl in Hrow. unfold run_ok in Hrow |- *. simpl. rewrite Hres. by andbs. }
  unfold recover_run. rewrite (tx_bind_run _ _ _ _ _ Hu).
  change (negb (1 =? 1)%Z) with false. cbv iota.
  set (db1 := set_rows (updated (same_run r) _ _) db).
  assert (table_ok (R := Run) db1 = true) as Hok1.
  { eauto with sql. }
  destruct (cancel_queue_runs (r_id r) (r_company_id r) db1 W2) as [k Hq].
  rewrite (tx_bind_run _ _ _ _ _ Hq). set (db2 := set_rows (R := QueueItem) _ db1) in *.
  assert (table_ok (R := QueueItem) db2 = true) as Hok2.
  { eauto with sql. }
  set (db3 := set_rows (R := Lease)
    (where_ (λ l, negb (lease_for_run (r_id r) (r_company_id r) l)) (leases db2)) db2).
  rewrite (tx_bind_run _ _ db2 (Z.of_nat (length (where_ (lease_for_run (r_id r) (r_company_id r))
    (leases db2)))) db3) by reflexivity.
  rewrite (tx_bind_run _ _ db3 (r_company_id r ∈? companies db) db3) by reflexivity.
  assert (wf db3) as Hwf3 by (split; [exact Hok1|exact Hok2|done..]).
  assert (fresh env (4 * i) db3) as Hfr3 by (destruct Hfr; split; done).
  destruct (r_company_id r ∈? companies db) eqn:Hco.
  - destruct (write_failed_runs env (4 * i) r db3) as (db4 & Hw & Hlog & Hwf4); [done..| | |].
    + unfold db3, db2, db1. simpl. apply list_elem_of_fmap.
      exists (fail_run (_now env) (r_status r) r). split; [done|].
      apply elem_updated. right. exists r. split_and!; [done| |done].
      unfold same_run. by rewrite !String.eqb_refl, Z.eqb_refl.
    + by apply bool_decide_eq_true in Hco.
    + rewrite (tx_bind_run _ _ _ _ _ Hw). exists db4. split; [done|]. split; [|split; [done|]].
      * destruct Hlog as [_ L2 _ [= L4 L5 L6 L7 L8]]. split; rewrite ?L2, ?L4, ?L5, ?L6, ?L7; try done.
        by rewrite Hco.
      * replace (4 * S i)%nat with (4 * i + 4)%nat by lia. by eapply logged_fresh.
  - rewrite (tx_bind_run _ _ db3 tt db3) by done. exists db3. split; [done|].
    split; [|split; [done|]].
    + split; try done. by rewrite Hco, app_nil_r.
    + destruct Hfr as [F1 F2 F3]. split; intros m Hm; [apply F1|apply F2|apply F3]; lia.
Qed.

(** The loop over the stale runs. *)
Definition failed_now (env : Env) (x : Run) : Run := fail_run (_now env) (r_status x) x.

Definition known_runs (db : DB) (l : list Run) : list Run :=
  where_ (λ r, r_company_id r ∈? companies db) l.

Record recovered_all (env : Env) (l : list Run) (db db' : DB) : Prop := {
  all_runs : agent_runs db' =
    updated (λ x, existsb (λ r, same_run r x) l) (failed_now env) (agent_runs db);
  all_queue q' : q' ∈ queue db' ↔ ∃ q, q ∈ queue db ∧
    q' = if existsb (λ r, for_run (r_id r) (r_company_id r) q) l && active q
         then set_queue_status "cancelled" q else q;
  all_leases l' : l' ∈ leases db' ↔ l' ∈ leases db ∧
    ∀ r, r ∈ l → lease_for_run (r_id r) (r_company_id r) l' = false;
  all_domain : ∃ evs, domain_events db' = domain_events db ++ evs ∧
    map (λ e, (event_type (ev_event e), aggregate_id (ev_event e), aggregate_version (ev_event e),
               company_id (ev_event e))) evs =
    map (λ r, ("run.failed", r_id r, r_version r + 1, Some (r_company_id r))) (known_runs db l);
  all_companies : companies db' = companies db }.

Lemma stale_failed now s x : stale (fail_run now s x) = false.
Proof. reflexivity. Qed.

Lemma same_run_stale r x : same_run r x = true → stale x = stale r.
Proof. unfold same_run, stale. intros H. bools. congruence. Qed.

Lemma existsb_cons_updated env r l rows :
  Forall (λ r, stale r = true) (r :: l) →
  updated (λ x, existsb (λ r, same_run r x) l) (failed_now env)
    (updated (same_run r) (fail_run (_now env) (r_status r)) rows) =
  updated (λ x, existsb (λ r, same_run r x) (r :: l)) (failed_now env) rows.
Proof.
  intros [Hr Hl]%Forall_cons. unfold updated. rewrite map_map. apply map_ext. intros x. simpl.
  destruct (same_run r x) eqn:Hx; simpl; [|done].
  assert (existsb (λ r, same_run r (fail_run (_now env) (r_status r) x)) l = false) as Hno.
  { apply not_true_iff_false. intros (r' & Hr' & Hs)%existsb_exists.
    apply same_run_stale in Hs. rewrite stale_failed in Hs.
    rewrite List.Forall_forall in Hl. by rewrite Hl in Hs. }
  assert (r_status r = r_status x) as Hst by (unfold same_run in Hx; by bools).
  unfold failed_now. rewrite Hst. destruct (existsb _ l) eqn:He; [|done]. exfalso.
  apply existsb_exists in He as (r' & Hr' & Hs). apply same_run_stale in Hs.
  rewrite stale_failed in Hs. rewrite List.Forall_forall in Hl. by rewrite Hl in Hs.
Qed.

Lemma recover_runs_ok env l : ∀ i db,
  wf db → fresh env (4 * i) db → (∀ i j, uuid env i = uuid env j → i = j) →
  (∀ r, r ∈ l → r ∈ agent_runs db) → Forall (λ r, stale r = true) l → NoDup (map r_id l) →
  ∃ db', recover_runs env i l db = (Ok (Z.of_nat (length l)), db') ∧ recovered_all env l db db'.
Proof.
  induction l as [|r l IH]; intros i db Hwf Hfr Hinj Hsub Hst Hnd.
  - exists db. split; [done|]. split; [| |set_solver| |done].
    + by rewrite updated_id.
    + intros q'. simpl. naive_solver.
    + exists []. by rewrite app_nil_r.
  - pose proof Hst as [Hr Hst']%Forall_cons. simpl in Hnd. apply NoDup_cons in Hnd as [Hni Hnd].
    destruct (recover_run_runs env i r db) as (db1 & Hrun & [R1 R2 R3 R4 R5] & Hwf1 & Hfr1);
      [done..|by apply Hsub; left|done|].
    destruct (IH (S i) db1) as (db' & Hrest & [A1 A2 A3 A4 A5]); [done..| |done|done|].
    { intros r' Hr'. rewrite R1. apply elem_updated. left. split; [apply Hsub; by right|].
      unfold same_run. apply andb_false_iff. left. apply String.eqb_neq. intros Heq.
      apply Hni. rewrite <-Heq. apply list_elem_of_fmap. by exists r'. }
    exists db'. simpl. rewrite (tx_bind_run _ _ _ _ _ Hrun), (tx_bind_run _ _ _ _ _ Hrest).
    split; [unfold mret, tx_ret; do 2 f_equal; lia|]. split.
    + by rewrite A1, R1, existsb_cons_updated.
    + intros q'. rewrite A2. setoid_rewrite R2. split.
      * intros (q & Hq & ->). apply elem_updated in Hq as [[Hq Hf]|(q0 & Hq & Hf & ->)].
        -- exists q. split; [done|]. simpl. destruct (for_run _ _ q); simpl in *; [|done].
           by rewrite Hf, !andb_false_r.
        -- exists q0. split; [done|]. apply andb_true_iff in Hf as [Hf Ha]. simpl.
           rewrite Hf, Ha. simpl. by rewrite andb_false_r.
      * intros (q & Hq & ->). simpl. destruct (for_run (r_id r) (r_company_id r) q && active q) eqn:Hf.
        -- exists (set_queue_status "cancelled" q). split; [apply elem_updated; right; by exists q|].
           apply andb_true_iff in Hf as [-> ->]. simpl. by rewrite andb_false_r.
        -- exists q. split; [apply elem_updated; by left|].
           destruct (for_run _ _ q); simpl in *; [|done]. by rewrite Hf, !andb_false_r.
    + intros x. rewrite A3, R3, elem_where, negb_true_iff. set_solver.
    + destruct A4 as (evs & -> & Hevs). rewrite R4.
      exists ((if r_company_id r ∈? companies db then [failed_event env (4 * i) r] else []) ++ evs).
      split; [by rewrite app_assoc|]. rewrite map_app, Hevs. unfold known_runs, where_. simpl.
      rewrite R5. by destruct (r_company_id r ∈? companies db).
    + by rewrite A5.
Qed.

Lemma stale_selected (l rows : list Run) :
  (∀ x, x ∈ rows → (x ∈ l ↔ stale x = true)) → (∀ r, r ∈ l → stale r = true) →
  ∀ x, x ∈ rows → existsb (λ r, same_run r x) l = stale x.
Proof.
  intros Hl Hst x Hx. destruct (stale x) eqn:Hs.
  - apply existsb_exists. exists x. split; [by apply list_elem_of_In, Hl|].
    unfold same_run. by rewrite !String.eqb_refl, Z.eqb_refl.
  - apply not_true_iff_false. intros (r & Hr%list_elem_of_In & Heq)%existsb_exists.
    apply same_run_stale in Heq. rewrite (Hst r Hr) in Heq. congruence.
Qed.

Lemma recover_stale_runs_run env db :
  wf db → fresh env 0 db → (∀ i j, uuid env i = uuid env j → i = j) →
  let l := where_ stale (agent_runs db) in
  ∃ db', recover_stale_runs env db = (Ok (Z.of_nat (length l), Z.of_nat (length l)), db') ∧
    recovered_all env l db db' ∧
    agent_runs db' = map (λ x, if stale x then failed_now env x else x) (agent_runs db).
Proof.
  intros Hwf Hfr Hinj l.
  assert (∀ r, r ∈ l → r ∈ agent_runs db ∧ stale r = true) as Hl.
  { intros r Hr. by apply elem_where in Hr. }
  assert (NoDup (map r_id l)) as Hnd.
  { pose proof (wf_runs _ Hwf) as Hok. unfold table_ok in Hok. apply andb_true_iff in Hok as [_ Hcl].
    unfold l. clear -Hcl. simpl in Hcl. revert Hcl.
    induction (agent_runs db) as [|x rs IH]; simpl; intros Hcl; [constructor|].
    apply andb_true_iff in Hcl as [Hx Hcl]. destruct (stale x); simpl; [|by apply IH].
    apply NoDup_cons. split; [|by apply IH]. intros Hin. apply list_elem_of_fmap in Hin as (y & Hy & Hin).
    apply elem_where in Hin as [Hin _]. apply negb_true_iff, not_true_iff_false in Hx.
    apply Hx, existsb_exists. exists y. split; [by apply list_elem_of_In|]. by apply String.eqb_eq. }
  destruct (recover_runs_ok env l 0 db) as (db' & Hrun & Hall); try done.
  { intros r Hr. by apply Hl. }
  { apply list.Forall_forall. intros r Hr. by apply Hl. }
  exists db'. split; [|split; [done|]].
  - unfold recover_stale_runs. rewrite (tx_bind_run _ _ db l db) by done.
    by rewrite (tx_bind_run _ _ _ _ _ Hrun).
  - rewrite (all_runs _ _ _ _ Hall). apply (updated_ext _ stale). intros x Hx.
    apply (stale_selected l (agent_runs db)); [|by intros; apply Hl|done].
    intros y Hy. unfold l. rewrite elem_where. naive_solver.
Qed.

(** C4. On a well-formed database and with unused identifiers, [recover_stale_runs]
    never raises and fails every interrupted run, and only those: each stale run
    becomes [failed], every other row of [agent_runs] is untouched; no queue item of a
    stale run stays ready or leased and no lease of one survives, while other items and
    leases stand; exactly one [run.failed] event per stale run of a known company is
    appended, carrying the new version.  A second recovery finds nothing to do. *)
Theorem recover_stale_runs_complete env db :
  wf db → fresh env 0 db → (∀ i j, uuid env i = uuid env j → i = j) →
  let l := where_ stale (agent_runs db) in
  let of_stale run_id company := ∃ r, r ∈ l ∧ run_id = Some (r_id r) ∧ company = r_company_id r in
  ∃ db', recover_stale_runs env db = (Ok (Z.of_nat (length l), Z.of_nat (length l)), db') ∧
    agent_runs db' = map (λ x, if stale x then failed_now env x else x) (agent_runs db) ∧
    (∀ q, q ∈ queue db' → of_stale (q_run_id q) (q_company_id q) → active q = false) ∧
    (∀ q, q ∈ queue db → ¬ of_stale (q_run_id q) (q_company_id q) → q ∈ queue db') ∧
    (∀ x, x ∈ leases db' ↔ x ∈ leases db ∧ ¬ of_stale (l_run_id x) (l_company_id x)) ∧
    (∃ evs, domain_events db' = domain_events db ++ evs ∧
       map (λ e, (event_type (ev_event e), aggregate_id (ev_event e),
                  aggregate_version (ev_event e), company_id (ev_event e))) evs =
       map (λ r, ("run.failed", r_id r, r_version r + 1, Some (r_company_id r))) (known_runs db l)) ∧
    recover_stale_runs env db' = (Ok (0, 0), db').
Proof.
  intros Hwf Hfr Hinj l of_stale.
  destruct (recover_stale_runs_run env db Hwf Hfr Hinj) as (db' & Hrun & [A1 A2 A3 A4 A5] & Hruns).
  fold l in Hrun, A1, A2, A3, A4.
  assert (∀ run co r, r ∈ l → run = Some (r_id r) → co = r_company_id r → of_stale run co) as Hof
    by (intros; by exists r).
  assert (∀ q, existsb (λ r, for_run (r_id r) (r_company_id r) q) l = true ↔
    of_stale (q_run_id q) (q_company_id q)) as Hq.
  { intros q. rewrite existsb_exists. unfold of_stale, for_run. setoid_rewrite andb_true_iff.
    setoid_rewrite bool_decide_eq_true. setoid_rewrite String.eqb_eq.
    setoid_rewrite list_elem_of_In. done. }
  exists db'. split_and!; [done..| | | |done|].
  - intros q' (q & Hin & ->)%A2 Hos. destruct (existsb _ l && active q) eqn:He; [done|].
    apply Hq in Hos. rewrite Hos in He. done.
  - intros q Hin Hno. apply A2. exists q. split; [done|].
    destruct (existsb _ l) eqn:He; [|done]. by apply Hq in He.
  - intros x. rewrite A3. split; intros [Hx Hno]; (split; [done|]).
    + intros (r & Hr & E1 & E2). specialize (Hno r Hr). unfold lease_for_run in Hno.
      rewrite E1, E2, String.eqb_refl in Hno. by rewrite bool_decide_true in Hno.
    + intros r Hr. apply not_true_iff_false. intros [E1%bool_decide_eq_true E2%String.eqb_eq]%andb_true_iff.
      apply Hno. by exists r.
  - assert (where_ stale (agent_runs db') = []) as Hnone.
    { rewrite Hruns. unfold where_. clear. induction (agent_runs db) as [|x rs IH]; [done|].
      simpl. destruct (stale x) eqn:Hx; [|by rewrite Hx]. exact IH. }
    unfold recover_stale_runs. rewrite (tx_bind_run _ _ db' [] db') by (unfold select, gets; simpl; by rewrite Hnone).
    done.
Qed.

(** ** Expired health rows *)

Module RS := RoutingStore.

(** [benched_until <= ?] is false on [NULL]. *)
Definition expired (now : string) (h : RS.Health) : bool :=
  (RS.dh_availability_state h =? "ready") &&
  match RS.dh_benched_until h with Some t => text_le t now | None => false end.

(* [sidecar/ibreeze/runtime/recovery.py:104-119 cleanup_expired_health] *)
Definition cleanup_expired_health (env : Env) (now : option string) : tx RS.DB Z :=
  let effective_now := match now with
                       | Some s => if s =? "" then _now env else s
                       | None => _now env
                       end in
  delete_rows (expired effective_now).

(** ** Interrupted routing *)

Definition open_attempt (a : RS.Attempt) : bool :=
  RS.at_status a ∈? ["created"; "accepted"; "streaming"].

Definition fail_attempt (now : string) (a : RS.Attempt) : RS.Attempt := {|
  RS.at_id := RS.at_id a; RS.at_route_decision_id := RS.at_route_decision_id a;
  RS.at_company_id := RS.at_company_id a; RS.at_run_id := RS.at_run_id a;
  RS.at_execution_snapshot_id := RS.at_execution_snapshot_id a;
  RS.at_attempt_sequence := RS.at_attempt_sequence a; RS.at_role := RS.at_role a;
  RS.at_candidate_id := RS.at_candidate_id a;
  RS.at_provider_release_id := RS.at_provider_release_id a;
  RS.at_model_binding_id := RS.at_model_binding_id a;
  RS.at_credential_ref_sha256 := RS.at_credential_ref_sha256 a;
  RS.at_request_id := RS.at_request_id a; RS.at_status := "failed";
  RS.at_failure_kind := Some "TRANSPORT_TRANSIENT"; RS.at_http_status := RS.at_http_status a;
  RS.at_created_at := RS.at_created_at a; RS.at_accepted_at := RS.at_accepted_at a;
  RS.at_started_at := RS.at_started_at a; RS.at_completed_at := Some now;
  RS.at_latency_ms := RS.at_latency_ms a; RS.at_input_tokens := RS.at_input_tokens a;
  RS.at_output_tokens := RS.at_output_tokens a; RS.at_total_tokens := RS.at_total_tokens a;
  RS.at_candidate_truncated := RS.at_candidate_truncated a |}.

(** The loop over the open attempts: how many were failed and how many kept. *)
Fixpoint fail_attempts (now : string) (active : list string) (l : list RS.Attempt)
    : tx RS.DB (Z * Z) :=
  match l with
  | [] => mret (0, 0)
  | row :: l =>
      if RS.at_id row ∈? active then
        '(failed, kept) ← fail_attempts now active l;
        mret (failed, kept + 1)
      else
        n ← update (λ a, (RS.at_id a =? RS.at_id row) && open_attempt a) (fail_attempt now);
        '(failed, kept) ← fail_attempts now active l;
        mret (n + failed, kept)
  end.

(** An open attempt of the decision that the trusted session still runs. *)
Definition still_active (active : list string) (decision_id : string) (db : RS.DB) : bool :=
  negb (Nat.eqb (length active) 0) &&
  existsb (λ a, (RS.at_route_decision_id a =? decision_id) && open_attempt a &&
                (RS.at_id a ∈? active)) (RS.route_attempts db).

(** The loop over the executing decisions. *)
Fixpoint fail_executing (now : string) (active : list string) (l : list RS.Decision)
    : tx RS.DB Z :=
  match l with
  | [] => mret 0
  | row :: l =>
      keep ← gets (still_active active (RS.rd_id row));
      n ← (if (keep : bool) then mret 0
           else update (λ d, (RS.rd_id d =? RS.rd_id row) && (RS.rd_status d =? "executing"))
                  (RS.set_decision "failed" now));
      rest ← fail_executing now active l;
      mret (n + rest)
  end.

Record Reconciled := {
  failed_attempts : Z;
  preserved_attempts : Z;
  failed_planned_decisions : Z;
  failed_executing_decisions : Z }.

(* [sidecar/ibreeze/runtime/recovery.py:122-204 reconcile_interrupted_routing] *)
Definition reconcile_interrupted_routing (env : Env) (active : list string) : tx RS.DB Reconciled :=
  let now := _now env in
  attempts ← select open_attempt;
  '(failed, preserved) ← fail_attempts now active attempts;
  planned ← update (λ d, RS.rd_status d =? "planned") (RS.set_decision "failed" now);
  executing ← select (λ d, RS.rd_status d =? "executing");
  failed_executing ← fail_executing now active executing;
  mret {| failed_attempts := failed; preserved_attempts := preserved;
          failed_planned_decisions := planned; failed_executing_decisions := failed_executing |}.

(** ** The startup transaction *)

(** Both groups of tables are one database file. *)
Record Startup := { sched : DB; routing : RS.DB }.

Definition on_sched {A} (m : tx DB A) : tx Startup A := λ s,
  let '(r, db) := m (sched s) in (r, {| sched := db; routing := routing s |}).
Definition on_routing {A} (m : tx RS.DB A) : tx Startup A := λ s,
  let '(r, db) := m (routing s) in (r, {| sched := sched s; routing := db |}).

(* [sidecar/ibreeze/runtime/recovery.py:207-213 reconcile_startup_state] *)
Definition reconcile_startup_state (env1 env2 env3 : Env) : tx Startup ((Z * Z) * Reconciled * Z) :=
  runs ← on_sched (recover_stale_runs env1);
  routing ← on_routing (reconcile_interrupted_routing env2 []);
  health ← on_routing (cleanup_expired_health env3 None);
  mret (runs, routing, health).

(** ** What reconciliation leaves *)

Lemma updated_false {R} `{!Table DB' R} (p : R → bool) f l :
  (∀ x, x ∈ l → p x = false) → updated p f l = l.
Proof. intros Hp. apply updated_id. intros x Hx Hpx. by rewrite Hp in Hpx. Qed.

Lemma fail_attempt_ok now a : RS.attempt_ok a = true → RS.attempt_ok (fail_attempt now a) = true.
Proof. unfold RS.attempt_ok. intros H. andbs; try done; by simpl. Qed.

(** The attempts the loop over [l] fails. *)
Definition to_fail (active : list string) (l : list RS.Attempt) (a : RS.Attempt) : bool :=
  existsb (λ row, (RS.at_id a =? RS.at_id row) && negb (RS.at_id row ∈? active)) l &&
  open_attempt a.

Lemma fail_attempts_ok now active l : ∀ db,
  table_ok (R := RS.Attempt) db = true →
  ∃ n k, fail_attempts now active l db =
    (Ok (n, k), set_rows (updated (to_fail active l) (fail_attempt now) (RS.route_attempts db)) db).
Proof.
  induction l as [|row l IH]; intros db Hok; cbn [fail_attempts].
  - exists 0, 0. rewrite updated_false by done. by destruct db.
  - destruct (RS.at_id row ∈? active) eqn:Hact.
    + destruct (IH db Hok) as (n & k & Hrun). exists n, (k + 1).
      rewrite (tx_bind_run _ _ _ _ _ Hrun). unfold mret, tx_ret. do 2 f_equal.
      apply updated_ext. intros a _. unfold to_fail. simpl. by rewrite Hact, andb_false_r.
    + set (p := λ a, (RS.at_id a =? RS.at_id row) && open_attempt a).
      assert (update p (fail_attempt now) db = (Ok (Z.of_nat (length (where_ p (RS.route_attempts db)))),
        set_rows (updated p (fail_attempt now) (RS.route_attempts db)) db)) as Hu.
      { refine (update_total p (fail_attempt now) db Hok _ _ _); [done..|].
        intros a Ha _. apply fail_attempt_ok.
        exact (table_ok_row db a Hok Ha). }
      set (db1 := set_rows (updated p (fail_attempt now) (RS.route_attempts db)) db) in *.
      assert (table_ok (R := RS.Attempt) db1 = true) as Hok1.
      { eauto with sql. }
      destruct (IH db1 Hok1) as (n & k & Hrun). eexists _, k.
      rewrite (tx_bind_run _ _ _ _ _ Hu), (tx_bind_run _ _ _ _ _ Hrun).
      unfold mret, tx_ret. f_equal. unfold db1. simpl. f_equal.
      rewrite updated_updated.
      * apply updated_ext. intros a _. unfold p, to_fail. simpl. rewrite Hact. simpl.
        rewrite andb_true_r. by destruct (RS.at_id a =? RS.at_id row), (open_attempt a), (existsb _ l).
      * intros a _. unfold to_fail. by rewrite andb_false_r.
Qed.

Lemma set_decision_failed_ok now d :
  RS.decision_ok d = true → RS.decision_ok (RS.set_decision "failed" now d) = true.
Proof. unfold RS.decision_ok. intros H. andbs; try done; by simpl. Qed.

(** An update of decisions to [failed] goes through and leaves the attempts alone. *)
Lemma fail_decisions_run p now db :
  table_ok (R := RS.Decision) db = true →
  let db' := set_rows (updated p (RS.set_decision "failed" now) (RS.route_decisions db)) db in
  update p (RS.set_decision "failed" now) db =
    (Ok (Z.of_nat (length (where_ p (RS.route_decisions db)))), db') ∧
  table_ok (R := RS.Decision) db' = true.
Proof.
  intros Hok db'. assert (update p (RS.set_decision "failed" now) db =
    (Ok (Z.of_nat (length (where_ p (RS.route_decisions db)))), db')) as Hu.
  { refine (update_total p _ db Hok _ _ _); [done..|].
    intros d Hd _. apply set_decision_failed_ok. exact (table_ok_row db d Hok Hd). }
  split; [exact Hu|]. eauto with sql.
Qed.

Definition executing (d : RS.Decision) : bool := RS.rd_status d =? "executing".
Definition planned (d : RS.Decision) : bool := RS.rd_status d =? "planned".

(** The decisions the loop over [l] fails. *)
Definition to_fail_decision (active : list string) (db : RS.DB) (l : list RS.Decision)
    (d : RS.Decision) : bool :=
  existsb (λ row, (RS.rd_id d =? RS.rd_id row) && negb (still_active active (RS.rd_id row) db)) l &&
  executing d.

Lemma still_active_attempts active id db db' :
  RS.route_attempts db' = RS.route_attempts db → still_active active id db' = still_active active id db.
Proof. unfold still_active. by intros ->. Qed.

Lemma fail_executing_ok now active l : ∀ db,
  table_ok (R := RS.Decision) db = true →
  ∃ n, fail_executing now active l db =
    (Ok n, set_rows (updated (to_fail_decision active db l) (RS.set_decision "failed" now)
             (RS.route_decisions db)) db) ∧
    ((∀ row, row ∈ l → still_active active (RS.rd_id row) db = true) → n = 0).
Proof.
  induction l as [|row l IH]; intros db Hok; cbn [fail_executing].
  - exists 0. split; [|done]. rewrite updated_false by done. by destruct db.
  - rewrite (tx_bind_run _ _ db (still_active active (RS.rd_id row) db) db) by done.
    destruct (still_active active (RS.rd_id row) db) eqn:Hact.
    + destruct (IH db Hok) as (n & Hrun & Hn). exists n.
      rewrite (tx_bind_run _ _ db 0 db) by done. rewrite (tx_bind_run _ _ _ _ _ Hrun).
      split; [|intros Hall; apply Hn; intros; apply Hall; by right].
      unfold mret, tx_ret. do 2 f_equal. apply updated_ext. intros d _. unfold to_fail_decision.
      simpl. by rewrite Hact, andb_false_r.
    + set (p := λ d, (RS.rd_id d =? RS.rd_id row) && (RS.rd_status d =? "executing")).
      destruct (fail_decisions_run p now db Hok) as [Hu Hok1].
      set (db1 := set_rows (updated p _ _) db) in *.
      destruct (IH db1 Hok1) as (n & Hrun & _). eexists.
      rewrite (tx_bind_run _ _ _ _ _ Hu), (tx_bind_run _ _ _ _ _ Hrun). split.
      * unfold mret, tx_ret. f_equal. unfold db1 at 2. cbn [set_rows RS.decisions_table]. simpl.
        f_equal. rewrite updated_updated.
        -- apply updated_ext. intros d _. unfold p, to_fail_decision, executing. simpl.
           rewrite Hact, andb_true_r.
           change (still_active active ?i db1) with (still_active active i db).
           by destruct (RS.rd_id d =? RS.rd_id row), (RS.rd_status d =? "executing"), (existsb _ l).
        -- intros d _. unfold to_fail_decision, executing. simpl. by rewrite andb_false_r.
      * intros Hall. rewrite Hall in Hact by by left. done.
Qed.

Lemma fail_attempts_kept now active l db :
  (∀ a, a ∈ l → (RS.at_id a ∈? active) = true) →
  fail_attempts now active l db = (Ok (0, Z.of_nat (length l)), db).
Proof.
  revert db. induction l as [|row l IH]; intros db Hl; cbn [fail_attempts]; [done|].
  rewrite (Hl row) by by left.
  rewrite (tx_bind_run _ _ db (0, Z.of_nat (length l)) db) by (apply IH; intros; apply Hl; by right).
  unfold mret, tx_ret. simpl length. do 3 f_equal. lia.
Qed.

(** The tables after reconciliation, row by row. *)
Definition reconcile_attempt (now : string) (active : list string) (a : RS.Attempt) : RS.Attempt :=
  if open_attempt a && negb (RS.at_id a ∈? active) then fail_attempt now a else a.

Definition reconcile_decision (now : string) (active : list string) (db : RS.DB) (d : RS.Decision)
    : RS.Decision :=
  if planned d || (executing d && negb (still_active active (RS.rd_id d) db))
  then RS.set_decision "failed" now d else d.

Lemma still_active_reconciled now active id db db' :
  RS.route_attempts db' = map (reconcile_attempt now active) (RS.route_attempts db) →
  still_active active id db' = still_active active id db.
Proof.
  unfold still_active. intros ->. f_equal. induction (RS.route_attempts db) as [|a l IH]; [done|].
  simpl. rewrite IH. f_equal. unfold reconcile_attempt.
  destruct (open_attempt a) eqn:Ho; simpl; [|by rewrite Ho].
  destruct (RS.at_id a ∈? active) eqn:Ha; simpl; [by rewrite Ho, Ha|].
  by rewrite Ha, !andb_false_r.
Qed.

Lemma to_fail_self active db a :
  a ∈ RS.route_attempts db →
  to_fail active (where_ open_attempt (RS.route_attempts db)) a =
    open_attempt a && negb (RS.at_id a ∈? active).
Proof.
  intros Ha. unfold to_fail. destruct (open_attempt a) eqn:Ho; [|by rewrite andb_false_r].
  rewrite andb_true_r. apply eq_true_iff_eq. rewrite existsb_exists. simpl. split.
  - intros (row & _ & [->%String.eqb_eq Hn]%andb_true_iff). done.
  - intros Hn. exists a. rewrite String.eqb_refl, Hn. split; [|done].
    apply list_elem_of_In, elem_where. done.
Qed.

Lemma to_fail_decision_self active db d :
  d ∈ RS.route_decisions db →
  to_fail_decision active db (where_ executing (RS.route_decisions db)) d =
    executing d && negb (still_active active (RS.rd_id d) db).
Proof.
  intros Hd. unfold to_fail_decision. destruct (executing d) eqn:He; [|by rewrite andb_false_r].
  rewrite andb_true_r. apply eq_true_iff_eq. rewrite existsb_exists. simpl. split.
  - intros (row & _ & [->%String.eqb_eq Hn]%andb_true_iff). done.
  - intros Hn. exists d. rewrite String.eqb_refl, Hn. split; [|done].
    apply list_elem_of_In, elem_where. done.
Qed.

Lemma reconcile_run env active db :
  table_ok (R := RS.Attempt) db = true → table_ok (R := RS.Decision) db = true →
  ∃ r db', reconcile_interrupted_routing env active db = (Ok r, db') ∧
    RS.route_attempts db' = map (reconcile_attempt (_now env) active) (RS.route_attempts db) ∧
    RS.route_decisions db' = map (reconcile_decision (_now env) active db) (RS.route_decisions db) ∧
    (RS.route_outcomes db', RS.deployment_health db') = (RS.route_outcomes db, RS.deployment_health db) ∧
    ((∀ a, a ∈ RS.route_attempts db → open_attempt a = true → (RS.at_id a ∈? active) = true) →
     (∀ d, d ∈ RS.route_decisions db → planned d = false ∧
        (executing d = true → still_active active (RS.rd_id d) db = true)) →
     (failed_attempts r, failed_planned_decisions r, failed_executing_decisions r) = (0, 0, 0) ∧
     db' = db).
Proof.
  intros Hoka Hokd. unfold reconcile_interrupted_routing.
  set (l := where_ open_attempt (RS.route_attempts db)).
  rewrite (tx_bind_run _ _ db l db) by done.
  destruct (fail_attempts_ok (_now env) active l db Hoka) as (n & k & Hfa).
  set (db1 := set_rows (updated (to_fail active l) _ _) db) in *.
  rewrite (tx_bind_run _ _ _ _ _ Hfa). cbv iota beta.
  destruct (fail_decisions_run planned (_now env) db1 Hokd) as [Hfp Hok2].
  set (db2 := set_rows (updated planned _ _) db1) in *.
  change (λ d, RS.rd_status d =? "planned") with planned.
  rewrite (tx_bind_run _ _ _ _ _ Hfp).
  set (ex := where_ executing (RS.route_decisions db2)).
  rewrite (tx_bind_run _ _ db2 ex db2) by done.
  destruct (fail_executing_ok (_now env) active ex db2 Hok2) as (m & Hfe & Hm).
  rewrite (tx_bind_run _ _ _ _ _ Hfe).
  assert (RS.route_attempts db2 = map (reconcile_attempt (_now env) active) (RS.route_attempts db)) as Ha.
  { unfold db2, db1. simpl. unfold updated. apply map_ext_in. intros a Hin%list_elem_of_In.
    unfold reconcile_attempt, l. by rewrite to_fail_self. }
  assert (∀ i, still_active active i db2 = still_active active i db) as Hst.
  { intros i. by eapply still_active_reconciled. }
  eexists _, _. split; [done|]. split; [exact Ha|]. split; [|split; [done|]].
  - cbn [set_rows RS.decisions_table RS.route_decisions].
    rewrite (updated_ext _ (λ d, executing d && negb (still_active active (RS.rd_id d) db))).
    + unfold db2. cbn [set_rows RS.decisions_table RS.route_decisions].
      rewrite updated_updated; [done|]. by intros d _.
    + intros d Hd. unfold ex. by rewrite to_fail_decision_self, Hst.
  - intros Hquiet Hd. cbn [failed_attempts failed_planned_decisions failed_executing_decisions].
    assert (db1 = db ∧ n = 0) as [E1 ->].
    { rewrite (fail_attempts_kept _ active l db) in Hfa.
      + injection Hfa as <- _ <-. done.
      + intros a [Hin Ho]%elem_where. by apply Hquiet. }
    assert (db2 = db) as E2.
    { unfold db2. rewrite E1, updated_false; [by destruct db|]. intros d Hin. by apply Hd. }
    rewrite E1, (proj2 (where_nil planned (RS.route_decisions db))) by (intros d Hin; by apply Hd).
    assert (∀ row, row ∈ ex → still_active active (RS.rd_id row) db2 = true) as Hall.
    { intros row [Hin He]%elem_where. rewrite Hst. rewrite E2 in Hin. by apply Hd. }
    rewrite (Hm Hall). split; [done|]. rewrite updated_false; [rewrite E2; by destruct db|].
    intros d _. unfold to_fail_decision. apply andb_false_iff. left.
    apply not_true_iff_false. intros (row & Hrow%list_elem_of_In & [_ Hn]%andb_true_iff)%existsb_exists.
    by rewrite Hall in Hn.
Qed.

(** [reconcile_interrupted_routing] never raises on well-formed tables.  It fails every
    open attempt outside the trusted active set, every planned decision, and every
    executing decision without an active attempt; it leaves every other row alone, so
    whatever had finished stays as it was, and with no active set nothing is left open.
    Running it again, with the same active set, changes nothing and reports no failures. *)
Lemma reconcile_routing_complete env env' active db :
  table_ok (R := RS.Attempt) db = true → table_ok (R := RS.Decision) db = true →
  ∃ r db', reconcile_interrupted_routing env active db = (Ok r, db') ∧
    RS.route_attempts db' = map (reconcile_attempt (_now env) active) (RS.route_attempts db) ∧
    RS.route_decisions db' = map (reconcile_decision (_now env) active db) (RS.route_decisions db) ∧
    (active = [] → (∀ a, a ∈ RS.route_attempts db' → open_attempt a = false) ∧
       ∀ d, d ∈ RS.route_decisions db' → planned d = false ∧ executing d = false) ∧
    ∃ r', reconcile_interrupted_routing env' active db' = (Ok r', db') ∧
      (failed_attempts r', failed_planned_decisions r', failed_executing_decisions r') = (0, 0, 0).
Proof.
  intros Hoka Hokd. destruct (reconcile_run env active db Hoka Hokd) as (r & db' & Hrun & Ha & Hd & _).
  exists r, db'. split_and!; [done..| |].
  - intros ->. split.
    + intros a Hin. rewrite Ha in Hin. apply list_elem_of_fmap in Hin as (x & -> & _).
      unfold reconcile_attempt. destruct (open_attempt x) eqn:Ho; simpl; [done|exact Ho].
    + intros d Hin. rewrite Hd in Hin. apply list_elem_of_fmap in Hin as (x & -> & _).
      unfold reconcile_decision. destruct (planned x) eqn:Hp; simpl; [done|].
      destruct (executing x) eqn:He; simpl; done.
  - assert (table_ok (R := RS.Attempt) db' = true) as Hoka'.
    { refine (table_ok_changed _ (fail_attempt (_now env)) db db' Ha Hoka _ _ _); [done..|].
      apply fail_attempt_ok. }
    assert (table_ok (R := RS.Decision) db' = true) as Hokd'.
    { refine (table_ok_changed _ (RS.set_decision "failed" (_now env)) db db' Hd Hokd _ _ _);
        [done..|]. apply set_decision_failed_ok. }
    destruct (reconcile_run env' active db' Hoka' Hokd') as (r' & db'' & Hrun' & _ & _ & _ & Hquiet).
    destruct Hquiet as [Hz ->]; [| |by exists r'].
    + intros a Hin Ho. rewrite Ha in Hin. apply list_elem_of_fmap in Hin as (x & -> & _).
      unfold reconcile_attempt in *. destruct (open_attempt x) eqn:Hx; simpl in *; [|congruence].
      destruct (RS.at_id x ∈? active) eqn:Hact; simpl in *; done.
    + intros d Hin. rewrite (still_active_reconciled (_now env) active _ db db') by done.
      rewrite Hd in Hin. apply list_elem_of_fmap in Hin as (x & -> & _).
      unfold reconcile_decision. destruct (planned x) eqn:Hp; simpl; [done|].
      destruct (executing x) eqn:He; simpl; [|by rewrite He].
      destruct (still_active active (RS.rd_id x) db) eqn:Hs; simpl; [|done]. by rewrite Hs.
Qed.

(** The startup transaction never raises on a well-formed database and leaves it
    clean: no run is in an interrupted state, no attempt open, no decision planned or
    executing, and the health rows left are exactly those that are not both [ready]
    and past their bench, so an active bench or an invalid credential survives. *)
Lemma startup_leaves_clean_state env1 env2 env3 s :
  wf (sched s) → fresh env1 0 (sched s) → (∀ i j, uuid env1 i = uuid env1 j → i = j) →
  table_ok (R := RS.Attempt) (routing s) = true → table_ok (R := RS.Decision) (routing s) = true →
  ∃ r s', reconcile_startup_state env1 env2 env3 s = (Ok r, s') ∧
    (∀ x, x ∈ agent_runs (sched s') → stale x = false) ∧
    (∀ a, a ∈ RS.route_attempts (routing s') → open_attempt a = false) ∧
    (∀ d, d ∈ RS.route_decisions (routing s') → planned d = false ∧ executing d = false) ∧
    RS.deployment_health (routing s') =
      where_ (λ h, negb (expired (_now env3) h)) (RS.deployment_health (routing s)) ∧
    ∀ h, h ∈ RS.deployment_health (routing s) →
      RS.dh_availability_state h = "credential_invalid" → h ∈ RS.deployment_health (routing s').
Proof.
  intros Hwf Hfr Hinj Hoka Hokd.
  destruct (recover_stale_runs_run env1 (sched s) Hwf Hfr Hinj) as (db1 & Hrun & _ & Hruns).
  destruct (reconcile_run env2 [] (routing s) Hoka Hokd) as (r & db2 & Hrec & Ha & Hd & [= _ Hh] & _).
  unfold reconcile_startup_state. eexists _, _. split.
  { rewrite (tx_bind_run _ _ s _ {| sched := db1; routing := routing s |})
      by (unfold on_sched; rewrite Hrun; done).
    rewrite (tx_bind_run _ _ _ r {| sched := db1; routing := db2 |})
      by (unfold on_routing; cbn [routing sched]; rewrite Hrec; done).
    reflexivity. }
  split_and!.
  - intros x Hx. cbn in Hx. rewrite Hruns in Hx. apply list_elem_of_fmap in Hx as (y & -> & _).
    destruct (stale y) eqn:Hy; [done|exact Hy].
  - intros a Hin. cbn in Hin. rewrite Ha in Hin. apply list_elem_of_fmap in Hin as (x & -> & _).
    unfold reconcile_attempt. destruct (open_attempt x) eqn:Ho; simpl; [done|exact Ho].
  - intros d Hin. cbn in Hin. rewrite Hd in Hin. apply list_elem_of_fmap in Hin as (x & -> & _).
    unfold reconcile_decision. destruct (planned x) eqn:Hp; simpl; [done|].
    destruct (executing x) eqn:He; simpl; done.
  - cbn. by rewrite Hh.
  - intros h Hin Hs. cbn. rewrite Hh. apply elem_where. split; [done|].
    unfold expired. by rewrite Hs.
Qed.

(** ** A database the theorems run on *)

Module Demo.
Fixpoint tally (n : nat) : string := match n with O => "id" | S n => "x" +:+ tally n end.
Definition env : Env := {| now := Scheduler.Demo.noon; uuid := tally |}.
(** one queued run with a leased item, one running in another company, one finished *)
Definition db : Scheduler.DB := Scheduler.Demo.db4.
(** an executing decision with an accepted attempt, and a benched deployment *)
Definition routing_db : RS.DB :=
  let m :=
    RS.transition_attempt "t4" "att" "created" "accepted" None None RS.Demo.no_usage;;
    RS.upsert_health "t5" "co" "rel" "mb" RS.Demo.cred "ready" 3 (Some "2024-01-01T00:00:00Z")
      None None None in
  (m RS.Demo.db3).2.
Definition startup : Startup := {| sched := db; routing := routing_db |}.
End Demo.

Lemma tally_length n : String.length (Demo.tally n) = (n + 2)%nat.
Proof.
  induction n as [|n IH]; [done|].
  change (S (String.length (Demo.tally n)) = S (n + 2)). by rewrite IH.
Qed.

Lemma tally_inj i j : uuid Demo.env i = uuid Demo.env j → i = j.
Proof.
  intros H. apply (f_equal String.length) in H. change (uuid Demo.env) with Demo.tally in H.
  rewrite !tally_length in H. lia.
Qed.

Lemma demo_wf : wf Demo.db.
Proof. split; by vm_compute. Qed.

Lemma demo_fresh : fresh Demo.env 0 Demo.db.
Proof. split; intros m _ Hin; by apply not_elem_of_nil in Hin. Qed.

Lemma recover_stale_runs_complete_witness :
  map (λ r, (r_id r, r_status r, r_version r)) (agent_runs (recover_stale_runs Demo.env Demo.db).2) =
    [("run1", "failed", 2); ("run2", "failed", 2); ("run3", "succeeded", 1)] ∧
  ∃ db', recover_stale_runs Demo.env Demo.db = (Ok (2, 2), db') ∧ leases db' = [].
Proof.
  split; [by vm_compute|].
  destruct (recover_stale_runs_complete Demo.env Demo.db demo_wf demo_fresh tally_inj)
    as (db' & Hrun & _). exists db'.
  assert (length (where_ stale (agent_runs Demo.db)) = 2%nat) as Hlen by by vm_compute.
  rewrite Hlen in Hrun. split; [exact Hrun|].
  assert (leases (recover_stale_runs Demo.env Demo.db).2 = []) as Hl by by vm_compute.
  by rewrite Hrun in Hl.
Defined.

Lemma reconcile_routing_complete_witness :
  map RS.at_status (RS.route_attempts Demo.routing_db) = ["accepted"] ∧
  ∃ r db', reconcile_interrupted_routing Demo.env [] Demo.routing_db = (Ok r, db') ∧
    ∀ a, a ∈ RS.route_attempts db' → open_attempt a = false.
Proof.
  split; [by vm_compute|].
  destruct (reconcile_routing_complete Demo.env Demo.env [] Demo.routing_db)
    as (r & db' & Hrun & _ & _ & Hopen & _); [by vm_compute..|].
  exists r, db'. split; [exact Hrun|]. by apply Hopen.
Defined.

Lemma startup_leaves_clean_state_witness :
  ∃ r s', reconcile_startup_state Demo.env Demo.env Demo.env Demo.startup = (Ok r, s') ∧
    ∀ x, x ∈ agent_runs (sched s') → stale x = false.
Proof.
  destruct (startup_leaves_clean_state Demo.env Demo.env Demo.env Demo.startup demo_wf demo_fresh
    tally_inj) as (r & s' & Hrun & Hst & _); [by vm_compute..|].
  exists r, s'. split; [exact Hrun|exact Hst].
Defined.
