(* ===== verification/RunExecutor.v ===== *)
(** * The run executor ([runtime/run_executor.py])

    A worker claims the next run of the queue, moves it to running, lets the adapter work,
    files how it ended and releases the queue item.  Each step is one transaction of the
    write queue; between two of them, and while the adapter works, the rest of the program
    goes on.  The service is a program over any database that holds the scheduler's tables
    beside those of the employee tasks. *)

From S2P Require Import Prelude PyEnum PyOrder PyStr Sql Clock UnitOfWork Zoom Scheduler Recovery.

#[local] Open Scope string_scope.

(* [sidecar/ibreeze/runtime/run_executor.py:26-26 _TERMINAL_RUN] *)
Definition _TERMINAL_RUN : list string := ["succeeded"; "cancelled"; "timed_out"; "failed"; "lost"].

(* [sidecar/ibreeze/runtime/run_executor.py:27-34 _RESOURCE_WAIT_FAILURES] *)
Definition _RESOURCE_WAIT_FAILURES : list string :=
  ["MODEL_CAPABILITY_UNAVAILABLE"; "ROUTING_HEALTH_UNAVAILABLE"; "CREDENTIAL_MISSING"; "CREDENTIAL_NOT_READY"].

(** [str(error)], of the exceptions whose text is a code. *)
Definition error_text (e : exn) : string :=
  match e with
  | ValueError c | RuntimeErr c | TypeErr c | AttributeErr c | BindErr c | PermissionErr c | IntegrityErr c
  | IpcErr c | MethodNotAllowedErr c | FrameErr c | RouteSafetyErr c => c
  | KeyErr k => "'" +:+ k +:+ "'"
  | StateTransitionErr _ _ _ | RunCancelledErr | TaskCancelledErr | ProviderErr _ _ _ => ""
  end.

(* [sidecar/ibreeze/runtime/run_executor.py:37-40 _resource_wait_failure_code] *)
Definition _resource_wait_failure_code (error : exn) : option string :=
  let code := error_text error in if code ∈? _RESOURCE_WAIT_FAILURES then Some code else None.

(* [sidecar/ibreeze/runtime/run_executor.py:86-95 ClaimedRun] *)
Record ClaimedRun := {
  cl_queue_id : string;
  cl_lease_id : string;
  cl_job_id : string;
  cl_run_id : string;
  cl_company_id : string;
  cl_employee_id : string;
  cl_conversation_id : string;
  cl_employee_task_id : option string }.

(** [which] is [shutil.which(name) is not None]. *)
(* [sidecar/ibreeze/runtime/run_executor.py:707-726 _probe_adapter] *)
Definition _probe_adapter (which : string → bool) (adapter_type : string) : bool :=
  match dict_get [("codex_cli", "codex"); ("claude_code", "claude"); ("opencode", "opencode");
                  ("agent_cli", "codex")] adapter_type with
  | None => adapter_type =? "api_model"
  | Some executable => which executable
  end.

(** What the adapters return. *)
Record ProcessResult := {
  pr_exit_code : option Z;
  pr_status : option string;
  pr_timed_out : bool }.

(** ** Claiming *)

(** The join of the queue items that are ready with their runs. *)
Definition claimable (db : DB) : list (QueueItem * Run) :=
  flat_map (λ q, map (pair q) (where_ (λ r, bool_decide (q_run_id q = Some (r_id r)) &&
                                            (r_company_id r =? q_company_id q)) (agent_runs db)))
    (where_ ready (queue db)).

Definition claim_key (db : DB) (c : QueueItem * Run) : option string * (Z * (string * string)) :=
  (last_dispatched db (q_company_id c.1), (q_priority c.1, (q_queued_at c.1, q_id c.1))).
Definition claim_cmp (db : DB) : QueueItem * Run → QueueItem * Run → comparison :=
  on (claim_key db) (lex null_first_compare (lex Z.compare (lex String.compare String.compare))).
Definition claim_before (db : DB) (a b : QueueItem * Run) : bool := leb_of (claim_cmp db) a b.

(** [str(x) if x else None] *)
Definition truthy_or_none (o : option string) : option string :=
  match o with Some s => or_none s | None => None end.

(* [sidecar/ibreeze/runtime/run_executor.py:128-192 _claim_next] *)
Definition claim_next (env : Env) : tx DB (option ClaimedRun) :=
  row ← gets (λ db, head (sort_by (claim_before db) (claimable db)));
  match row with
  | None => mret None
  | Some (q, r) =>
      let j := r_job r in
      updated ← update (λ x, (q_id x =? q_id q) && (q_status x =? "ready")) (set_leased (_now env));
      if negb (updated =? 1)%Z then mret None else
      let lease_id := uuid env 0 in
      insert_row {| l_id := lease_id; l_queue_id := q_id q; l_job_id := q_job_id q; l_run_id := q_run_id q;
        l_employee_id := Some (rj_employee_id j); l_company_id := q_company_id q;
        l_conversation_id := Some (rj_conversation_id j); l_acquired_at := _now env; l_heartbeat_at := _now env;
        l_expires_at := sqlite_text (sqlite_add (now env) 300) |};;
      update_fairness env (q_company_id q);;
      mret (Some {| cl_queue_id := q_id q; cl_lease_id := lease_id; cl_job_id := q_job_id q; cl_run_id := r_id r;
        cl_company_id := q_company_id q; cl_employee_id := rj_employee_id j;
        cl_conversation_id := rj_conversation_id j;
        cl_employee_task_id := truthy_or_none (rj_employee_task_id j) |})
  end.

(** ** The transactions on a claimed run *)

Definition the_run (c : ClaimedRun) (r : Run) : bool :=
  (r_id r =? cl_run_id c) && (r_company_id r =? cl_company_id c).

Definition at_state (c : ClaimedRun) (status : string) (version : Z) (r : Run) : bool :=
  the_run c r && (r_status r =? status) && (r_version r =? version)%Z.

Definition moved_run (to_state : string) (started_at : option string) (now : string) (r : Run) : Run := {|
  r_id := r_id r; r_company_id := r_company_id r; r_job := r_job r; r_status := to_state;
  r_resume_state := r_resume_state r; r_attempt := r_attempt r;
  r_started_at := match r_started_at r with Some t => Some t | None => started_at end;
  r_completed_at := r_completed_at r; r_exit_code := r_exit_code r; r_failure_code := r_failure_code r;
  r_process := r_process r; r_updated_at := now; r_version := r_version r + 1 |}.

(** The fields every run event has. *)
Definition run_payload (c : ClaimedRun) (version : Z) (from_state to_state : string) : list (string * json) :=
  [("company_id", JStr (cl_company_id c)); ("aggregate_id", JStr (cl_run_id c)); ("version", JInt version);
   ("from_state", JStr from_state); ("to_state", JStr to_state)].

Definition run_event (env : Env) (c : ClaimedRun) (event_type : string) (payload : list (string * json)) : tx DB unit :=
  write_event env 0 (cl_company_id c) (cl_run_id c) event_type payload.

Definition opt_json (o : option string) : json := match o with Some s => JStr s | None => JNull end.

Definition ended_run (status : string) (exit_code : Z) (failure_code : option string) (now : string) (r : Run) : Run := {|
  r_id := r_id r; r_company_id := r_company_id r; r_job := r_job r; r_status := status;
  r_resume_state := r_resume_state r; r_attempt := r_attempt r; r_started_at := r_started_at r;
  r_completed_at := Some now; r_exit_code := Some exit_code; r_failure_code := failure_code;
  r_process := r_process r; r_updated_at := now; r_version := r_version r + 1 |}.

(** How the result of the adapter ends the run. *)
Record Ending := { en_status : string; en_exit_code : Z; en_failure : option string; en_event : string }.
(* [sidecar/ibreeze/runtime/run_executor.py:438-442 complete] *)
Definition ending (result : ProcessResult) : Ending :=
  let process_status := default "" (pr_status result) in
  let timed_out := pr_timed_out result || (process_status =? "timed_out") in
  let cancelled := process_status =? "cancelled" in
  let exit_code := default (-1) (pr_exit_code result) in
  let success := (exit_code =? 0)%Z && negb timed_out && negb cancelled in
  {| en_status := if timed_out then "timed_out" else if cancelled then "cancelled"
                  else if success then "succeeded" else "failed";
     en_exit_code := exit_code;
     en_failure := if success then None else if timed_out then Some "RUN_TIMED_OUT"
                   else if cancelled then Some "RUN_CANCELLED" else Some "AGENT_FAILED";
     en_event := if success then "run.completed" else if cancelled then "run.cancelled" else "run.failed" |}.

(* [sidecar/ibreeze/runtime/run_executor.py:436-484 _complete_claimed] *)
Definition complete_claimed (env : Env) (c : ClaimedRun) (expected_version : Z) (result : ProcessResult) : tx DB unit :=
  let e := ending result in
  rowcount ← update (at_state c "running" expected_version)
    (ended_run (en_status e) (en_exit_code e) (en_failure e) (_now env));
  if negb (rowcount =? 1)%Z then mret tt else
  run_event env c (en_event e) (run_payload c (expected_version + 1) "running" (en_status e) ++
    [("status", JStr (en_status e)); ("evidence_artifact_ids", JList []); ("exit_code", JInt (en_exit_code e));
     ("failure_code", opt_json (en_failure e))]).

Definition failed_run (failure_code now : string) (r : Run) : Run := {|
  r_id := r_id r; r_company_id := r_company_id r; r_job := r_job r; r_status := "failed";
  r_resume_state := r_resume_state r; r_attempt := r_attempt r; r_started_at := r_started_at r;
  r_completed_at := Some now; r_exit_code := r_exit_code r; r_failure_code := Some failure_code;
  r_process := r_process r; r_updated_at := now; r_version := r_version r + 1 |}.

(* [sidecar/ibreeze/runtime/run_executor.py:486-523 _fail_claimed] *)
Definition fail_claimed (env : Env) (c : ClaimedRun) (failure_code : string) : tx DB unit :=
  row ← select_one (the_run c);
  match row with
  | None => mret tt
  | Some r =>
      if r_status r ∈? _TERMINAL_RUN then mret tt else
      rowcount ← update (at_state c (r_status r) (r_version r)) (failed_run failure_code (_now env));
      if negb (rowcount =? 1)%Z then mret tt else
      run_event env c "run.failed" (run_payload c (r_version r + 1) (r_status r) "failed" ++
        [("failure_code", JStr failure_code)])
  end.

Definition waiting_run (failure_code now : string) (r : Run) : Run := {|
  r_id := r_id r; r_company_id := r_company_id r; r_job := r_job r; r_status := "waiting_resource";
  r_resume_state := Some "running"; r_attempt := r_attempt r; r_started_at := r_started_at r;
  r_completed_at := None; r_exit_code := None; r_failure_code := Some failure_code;
  r_process := r_process r; r_updated_at := now; r_version := r_version r + 1 |}.

(* [sidecar/ibreeze/runtime/run_executor.py:525-565 _wait_resource_claimed] *)
Definition wait_resource_claimed (env : Env) (c : ClaimedRun) (failure_code : string) : tx DB unit :=
  row ← select_one (the_run c);
  match row with
  | None => mret tt
  | Some r =>
      if r_status r ∈? _TERMINAL_RUN then mret tt else
      rowcount ← update (at_state c (r_status r) (r_version r)) (waiting_run failure_code (_now env));
      if negb (rowcount =? 1)%Z then mret tt else
      run_event env c "run.waiting_resource" (run_payload c (r_version r + 1) (r_status r) "waiting_resource" ++
        [("resume_state", JStr "running"); ("failure_code", JStr failure_code)])
  end.

(** [CASE WHEN status='cancelled' THEN 'cancelled' ELSE 'completed' END] *)
Definition released (q : QueueItem) : QueueItem :=
  set_queue_status (if q_status q =? "cancelled" then "cancelled" else "completed") q.

(* [sidecar/ibreeze/runtime/run_executor.py:567-577 _release_claimed] *)
Definition release_claimed (c : ClaimedRun) : tx DB unit :=
  update (λ q, q_id q =? cl_queue_id c) released;;
  delete_rows (λ l, l_id l =? cl_lease_id c);;
  mret tt.

(** ** The service *)

Section Service.
(** The database, with the versions of the employee tasks in it; the command bus, which
    starts an employee task; the executables there are. *)
Context {D : Type} `{!Lens D DB} (task_version : D → string → string → option Z)
  (bus : option (string → string → Z → tx D unit)) (which : string → bool).

(* [sidecar/ibreeze/runtime/run_executor.py:391-410 _transition] *)
Definition start_task (c : ClaimedRun) (to_state : string) : tx D unit :=
  match (to_state =? "running"), cl_employee_task_id c with
  | true, Some task =>
      dispatch ← found bus (RuntimeErr "INTERNAL_COMMAND_BUS_UNAVAILABLE");
      row ← gets (λ d, task_version d task (cl_company_id c));
      version ← found row (ValueError "EMPLOYEE_TASK_NOT_FOUND");
      dispatch (cl_company_id c) task version
  | _, _ => mret tt
  end.

(* [sidecar/ibreeze/runtime/run_executor.py:374-434 _transition] *)
Definition transition (env : Env) (c : ClaimedRun) (from_state to_state : string) (expected_version : Z)
    (started_at : option string) (extra : list (string * json)) : tx D bool :=
  start_task c to_state;;
  rowcount ← zoom (update (at_state c from_state expected_version) (moved_run to_state started_at (_now env)));
  if negb (rowcount =? 1)%Z then mret false else
  zoom (run_event env c (if to_state =? "running" then "run.started" else "run." +:+ to_state)
    (run_payload c (expected_version + 1) from_state to_state ++
     extra ++ match started_at with Some t => [("started_at", JStr t)] | None => [] end));;
  mret true.

(** What goes on around the worker: [meanwhile n] is what other transactions have done to the
    database before the worker's [n]-th access to it, [refuse n] the exception with which the
    write queue refuses that access, and [env_of n] the clock and the identifiers it draws. *)
Context (meanwhile : nat → D → D) (refuse : nat → option exn) (env_of : nat → Env).

Record Worker := { turn : nat; base : D }.

Definition access {A} (m : Env → tx D A) : tx Worker A := λ w,
  let d := meanwhile (turn w) (base w) in
  match refuse (turn w) with
  | Some e => (Err e, {| turn := S (turn w); base := d |})
  | None => let '(r, d') := atomically (m (env_of (turn w))) d in (r, {| turn := S (turn w); base := d' |})
  end.
(** A read of the pool, which the write queue has no part in. *)
Definition query {A} (f : D → A) : tx Worker A := λ w,
  let d := meanwhile (turn w) (base w) in (Ok (f d), {| turn := S (turn w); base := d |}).

(** [work] is what the adapter makes of the run: it loads the snapshot and runs the process
    or calls the model.  The specification of a run is JSON that loads, and its adapter is one of
    those there are, by [CHECK]s of [agent_runs]; so reading them raises nothing, and the branch of
    an unknown adapter, which would load the snapshot as well, is never taken. *)
Context (work : Run → D → result ProcessResult).

Definition fail_with (c : ClaimedRun) (code : string) : tx Worker unit :=
  access (λ env, zoom (fail_claimed env c code)).

(** [queued] to [probing] to [starting] to [running]; a run that is running already goes on.
    [None] is a step somebody else was faster with. *)
(* [sidecar/ibreeze/runtime/run_executor.py:219-236 _execute_claimed] *)
Definition start_run (c : ClaimedRun) (run : Run) : tx Worker (option Z) :=
  let v := r_version run in
  if r_status run =? "queued" then
    probing ← access (λ env, transition env c "queued" "probing" v None
                [("adapter_type", JStr (rj_adapter_type (r_job run)))]);
    if negb (probing : bool) then mret None else
    starting ← access (λ env, transition env c "probing" "starting" (v + 1) None []);
    if negb (starting : bool) then mret None else
    running ← access (λ env, transition env c "starting" "running" (v + 2) (Some (_now env)) []);
    mret (if (running : bool) then Some (v + 3) else None)
  else mret (if r_status run =? "running" then Some v else None).

(* [sidecar/ibreeze/runtime/run_executor.py:201-262 _execute_claimed] *)
Definition attempt_run (c : ClaimedRun) : tx Worker unit :=
  row ← query (λ d, List.find (the_run c) (agent_runs (view d)));
  match row with
  | None => mret tt
  | Some run =>
      let adapter_type := rj_adapter_type (r_job run) in
      if r_status run ∈? _TERMINAL_RUN then mret tt
      else if negb (_probe_adapter which adapter_type) then fail_with c "ADAPTER_UNAVAILABLE"
      else
        version ← start_run c run;
        match version with
        | None => mret tt
        | Some v =>
            if adapter_type ∈? ["agent_cli"; "codex_cli"; "claude_code"; "opencode"; "api_model"] then
              done_ ← query (work run);
              result ← lift done_;
              access (λ env, zoom (complete_claimed env c v result))
            else fail_with c "UNKNOWN_ADAPTER_TYPE"
        end
  end.

(** The [except] clauses: a cancelled worker kills the process and ends, a cancelled run is
    left as it is, a missing resource makes the run wait, anything else fails it. *)
(* [sidecar/ibreeze/runtime/run_executor.py:263-283 _execute_claimed] *)
Definition recover_from (c : ClaimedRun) (e : exn) : tx Worker unit :=
  match e with
  | TaskCancelledErr => raise TaskCancelledErr
  | RunCancelledErr => mret tt
  | _ => match _resource_wait_failure_code e with
         | Some code => access (λ env, zoom (wait_resource_claimed env c code))
         | None => fail_with c "EXECUTION_ERROR"
         end
  end.

(** [finally]: an exception of the release replaces the one that is under way. *)
Definition finally_release (c : ClaimedRun) (m : tx Worker unit) : tx Worker unit := λ w,
  let '(r, w1) := m w in
  match access (λ _, zoom (release_claimed c)) w1 with
  | (Ok _, w2) => (r, w2)
  | (Err e, w2) => (Err e, w2)
  end.

(* [sidecar/ibreeze/runtime/run_executor.py:194-287 _execute_claimed] *)
Definition execute_claimed (c : ClaimedRun) : tx Worker unit :=
  finally_release c (λ w,
    match attempt_run c w with
    | (Ok u, w1) => (Ok u, w1)
    | (Err e, w1) => recover_from c e w1
    end).

(** Whether there was a run to execute. *)
(* [sidecar/ibreeze/runtime/run_executor.py:120-126 work] *)
Definition work_once : tx Worker Z :=
  claimed ← access (λ env, zoom (claim_next env));
  match claimed with
  | None => mret 0
  | Some c => execute_claimed c;; mret 1
  end.
End Service.
