(* ===== verification/RunControl.v ===== *)
(** * Run control ([runtime/service.py])

    Cancelling and resuming a run, the status of the queue and the lists of runs and their
    events, over the scheduler's tables.  What stops a running adapter is handed in: whether
    cancelling the model request works, whether there is a session with the supervisor, and the
    text of the exception with which killing the process fails. *)

From S2P Require Import Prelude PyOrder PyStr Sql Clock UnitOfWork Scheduler Recovery.
From S2P Require StateMachine.

#[local] Open Scope string_scope.

Definition run_of (company run_id : string) (r : Run) : bool := (r_id r =? run_id) && (r_company_id r =? company).

(** [needle in s] *)
Fixpoint contains (needle s : string) : bool :=
  String.prefix needle s || match s with "" => false | String _ s => contains needle s end.

Definition ENDED : list string := ["succeeded"; "cancelled"; "timed_out"; "failed"; "lost"].
Definition WORKING : list string := ["running"; "probing"; "starting"].

(** ** Cancelling *)

Record Stopping := {
  cancel_model_run : bool;             (** it raises nothing *)
  has_session : bool;
  kill : option string }.              (** the text of its exception *)

(* [sidecar/ibreeze/runtime/service.py:200-214 cancel_run] *)
Definition stop_adapter (s : Stopping) (r : Run) : result unit :=
  let working := r_status r ∈? WORKING in
  if working && (rj_adapter_type (r_job r) =? "api_model") then
    ensure (cancel_model_run s) (ValueError "MODEL_CANCEL_FAILED")
  else if working && has_session s then
    match kill s with
    | Some text => ensure (contains "RESOURCE_NOT_FOUND" text) (ValueError "PROCESS_CANCEL_FAILED")
    | None => Ok tt
    end
  else Ok tt.

Definition cancelled_run (now : string) (r : Run) : Run := {|
  r_id := r_id r; r_company_id := r_company_id r; r_job := r_job r; r_status := "cancelled";
  r_resume_state := r_resume_state r; r_attempt := r_attempt r; r_started_at := r_started_at r;
  r_completed_at := r_completed_at r; r_exit_code := r_exit_code r; r_failure_code := r_failure_code r;
  r_process := r_process r; r_updated_at := now; r_version := r_version r + 1 |}.

(** Draws the event, two traces and the outbox row. *)
(* [sidecar/ibreeze/runtime/service.py:179-277 cancel_run] *)
Definition cancel_run (env : Env) (stopping : Stopping) (company run_id : string) : tx DB (string * string) :=
  row ← select_one (run_of company run_id);
  run ← found row (ValueError "RESOURCE_NOT_FOUND");
  check (negb (r_status run ∈? ENDED)) (ValueError "STATE_TRANSITION_INVALID");;
  lift (stop_adapter stopping run);;
  rowcount ← update (λ r, run_of company run_id r &&
                          (negb (r_status r ∈? ENDED) && (r_version r =? r_version run)%Z)) (cancelled_run (_now env));
  check (rowcount =? 1)%Z (ValueError "OPTIMISTIC_LOCK_CONFLICT");;
  update (for_run run_id company) (set_queue_status "cancelled");;
  let payload := sorted_obj [("company_id", JStr company); ("aggregate_id", JStr run_id);
    ("version", JInt (r_version run + 1)); ("from_state", JStr (r_status run)); ("to_state", JStr "cancelled")] in
  sequence ← gets (λ db, next_sequence run_id (run_events db));
  insert_row {| re_run_id := run_id; re_event_id := uuid env 0; re_sequence := sequence;
    re_event_type := "run.cancelled"; re_payload := payload; re_trace_id := uuid env 1;
    re_occurred_at := _now env |};;
  insert_row {| ev_event := {| event_id := uuid env 0; event_type := "run.cancelled"; aggregate_type := "agent_run";
      aggregate_id := run_id; aggregate_version := r_version run + 1; company_id := Some company;
      payload_json := payload; trace_id := uuid env 2 |}; ev_occurred_at := _now env |};;
  insert_row {| ob_id := uuid env 3; ob_domain_event_id := uuid env 0; ob_topic := "run.cancelled";
    ob_payload := Dumped payload; ob_status := "pending"; ob_attempts := 0; ob_next_attempt_at := _now env;
    ob_last_error := None; ob_created_at := _now env; ob_delivered_at := None |};;
  mret (run_id, "cancelled").

(** ** Resuming *)

Definition resumed_run (now : string) (r : Run) : Run := {|
  r_id := r_id r; r_company_id := r_company_id r; r_job := r_job r; r_status := "running";
  r_resume_state := None; r_attempt := r_attempt r + 1; r_started_at := r_started_at r;
  r_completed_at := r_completed_at r; r_exit_code := r_exit_code r; r_failure_code := r_failure_code r;
  r_process := r_process r; r_updated_at := now; r_version := r_version r + 1 |}.

Definition WAITING : list string := ["waiting_approval"; "waiting_resource"].

(* [sidecar/ibreeze/runtime/service.py:319-332 resume_run] *)
Definition queue_type (run_purpose : string) : string :=
  let t := if run_purpose =? "task_execution" then "employee_task" else run_purpose in
  if t ∈? ["interactive_turn"; "company_plan"; "employee_task"; "review"; "verification"; "repair"; "merge"; "summary"]
  then t else "employee_task".

(** Draws the queue item, its job, the event and its trace. *)
(* [sidecar/ibreeze/runtime/service.py:280-359 resume_run] *)
Definition resume_run (env : Env) (company run_id : string) : tx DB (string * string) :=
  row ← select_one (run_of company run_id);
  run ← found row (ValueError "RESOURCE_NOT_FOUND");
  check (r_status run ∈? WAITING) (ValueError "STATE_TRANSITION_INVALID");;
  let resume_to := match r_resume_state run with
                   | Some s => if s =? "" then "running" else s
                   | None => "running"
                   end in
  lift (StateMachine.transition "AgentRun" (r_status run) "running" None);;
  check (r_attempt run <? 6)%Z (ValueError "RUN_ATTEMPT_LIMIT_EXCEEDED");;
  rowcount ← update (λ r, run_of company run_id r &&
                          ((r_status r ∈? WAITING) && (r_version r =? r_version run)%Z)) (resumed_run (_now env));
  check (rowcount =? 1)%Z (ValueError "OPTIMISTIC_LOCK_CONFLICT");;
  insert_row {| q_id := uuid env 0; q_company_id := company; q_work_item_type := queue_type (rj_run_purpose (r_job run));
    q_work_item_id := rj_work_item_id (r_job run); q_job_id := uuid env 1; q_run_id := Some run_id; q_priority := 0;
    q_status := "ready"; q_queued_at := _now env; q_leased_at := None |};;
  let payload := sorted_obj [("company_id", JStr company); ("aggregate_id", JStr run_id);
    ("version", JInt (r_version run + 1)); ("from_state", JStr (r_status run)); ("to_state", JStr "running");
    ("resume_state", JStr resume_to)] in
  sequence ← gets (λ db, next_sequence run_id (run_events db));
  insert_row {| re_run_id := run_id; re_event_id := uuid env 2; re_sequence := sequence;
    re_event_type := "run.started"; re_payload := payload; re_trace_id := uuid env 3;
    re_occurred_at := _now env |};;
  mret (run_id, "running").

(** ** Reading *)

(** Queue depth and active runs of a company; the status is always healthy. *)
(* [sidecar/ibreeze/runtime/service.py:86-105 get_runtime_status] *)
Definition get_runtime_status (company : string) : tx DB (Z * Z) :=
  gets (λ db, (Z.of_nat (length (where_ (λ q, q_company_id q =? company) (queue db))),
               Z.of_nat (length (where_ (λ r, (r_company_id r =? company) && (r_status r =? "running"))
                 (agent_runs db))))).

(** [ORDER BY created_at DESC, id DESC] *)
Definition newest_cmp : Run → Run → comparison :=
  on (λ r, (rj_created_at (r_job r), r_id r)) (lex (flip String.compare) (flip String.compare)).

(* [sidecar/ibreeze/runtime/service.py:108-137 list_agent_runs] *)
Definition list_agent_runs (company : string) (task_id status : option string) (limit : Z) : tx DB (list Run) :=
  check ((1 <=? limit)%Z && (limit <=? 100)%Z) (ValueError "LIMIT_INVALID");;
  gets (λ db, take (Z.to_nat limit) (sort_by (leb_of newest_cmp)
    (where_ (λ r, (r_company_id r =? company) &&
       match task_id with Some t => rj_company_task_id (r_job r) =? t | None => true end &&
       match status with Some s => r_status r =? s | None => true end) (agent_runs db)))).

(* [sidecar/ibreeze/runtime/service.py:140-152 get_agent_run] *)
Definition get_agent_run (company run_id : string) : tx DB (option Run) := select_one (run_of company run_id).

(* [sidecar/ibreeze/runtime/service.py:155-176 list_run_events] *)
Definition list_run_events (company run_id : string) : tx DB (list RunEvent) :=
  row ← select_one (run_of company run_id);
  check (negb (row =?o None)) (ValueError "RESOURCE_NOT_FOUND");;
  gets (λ db, sort_by (λ a b, (re_sequence a <=? re_sequence b)%Z)
    (where_ (λ e, re_run_id e =? run_id) (run_events db))).
