(* ===== verification/RunProperties.v ===== *)
(** * What the life of a run is

    The executor ([RunExecutor]) and the run control ([RunControl]) together: whatever they do,
    and whatever is done in between, the event log of every run tells its history; and a run
    that waits can be neither cancelled nor resumed nor claimed. *)

From S2P Require Import Prelude PyEnum PyOrder PyStr Sql Clock UnitOfWork Zoom Scheduler Recovery RunExecutor RunControl.
From S2P Require StateMachine.


(** ** Histories *)

(** The edges of H.7 for runs, and the moves the executor makes beside them. *)
Definition beyond_H7 : list (string * string) :=
  [("queued", "failed"); ("running", "succeeded"); ("queued", "waiting_resource");
   ("retrying", "waiting_resource"); ("waiting_approval", "waiting_resource");
   ("waiting_resource", "waiting_resource")].
Definition allowed (s t : string) : bool :=
  bool_decide (StateMachine.can_transition "AgentRun" s t None = Ok true) || ((s, t) ∈? beyond_H7).

Definition ended (s : string) : bool := s ∈? _TERMINAL_RUN.

(** An event that reports a move to version [v]. *)
Definition reports (e : RunEvent) (v : Z) (s t : string) : Prop :=
  ∃ payload, re_payload e = sorted_obj payload ∧ field payload "version" = JInt v ∧
    field payload "from_state" = JStr s ∧ field payload "to_state" = JStr t.

(** The events are one move after the other, from one status and version to another. *)
Fixpoint chain (s : string) (v : Z) (l : list RunEvent) (t : string) (w : Z) : Prop :=
  match l with
  | [] => s = t ∧ v = w
  | e :: l => ∃ u, ended s = false ∧ allowed s u = true ∧ reports e (v + 1) s u ∧ chain u (v + 1) l t w
  end.

Definition of_run (id : string) (e : RunEvent) : bool := re_run_id e =? id.

Record life (new : list RunEvent) (r r' : Run) : Prop := {
  life_id : r_id r' = r_id r;
  life_company : r_company_id r' = r_company_id r;
  life_job : r_job r' = r_job r;
  life_chain : chain (r_status r) (r_version r) (where_ (of_run (r_id r)) new) (r_status r') (r_version r');
  life_still : where_ (of_run (r_id r)) new = [] → r' = r }.

(** From one database to a later one: no run is lost, and the events in between that are about
    a run are its life in between. *)
Definition lived (db db' : DB) : Prop :=
  table_ok (R := Run) db' = true ∧
  ∃ new old more, run_events db' = run_events db ++ new ∧ agent_runs db' = old ++ more ∧
    Forall2 (life new) (agent_runs db) old.
Definition follows (db db' : DB) : Prop := table_ok (R := Run) db = true → lived db db'.

Lemma chain_app s v l u m t w k : chain s v l u k → chain u k m t w → chain s v (l ++ m) t w.
Proof.
  revert s v. induction l as [|e l IH]; intros s v; simpl; [by intros [-> ->]|].
  intros (x & H1 & H2 & H3 & H) Hm. exists x. eauto.
Qed.

Lemma chain_ended s v l t w : chain s v l t w → ended s = true → l = [].
Proof. destruct l as [|e l]; [done|]. intros (u & H & _) E. congruence. Qed.

Lemma where_app' {A} (p : A → bool) l m : List.filter p (l ++ m) = List.filter p l ++ List.filter p m.
Proof. apply List.filter_app. Qed.

Lemma life_trans new new' r r1 r2 : life new r r1 → life new' r1 r2 → life (new ++ new') r r2.
Proof.
  intros [I1 C1 J1 H1 S1] [I2 C2 J2 H2 S2]. rewrite I1 in H2, S2. split; try congruence.
  - unfold where_. rewrite where_app'. by eapply chain_app.
  - unfold where_. rewrite where_app'. intros [E1 E2]%app_eq_nil. rewrite S2 by done. by apply S1.
Qed.

Lemma life_refl r : life [] r r.
Proof. by split. Qed.

#[export] Instance follows_preorder : PreOrder follows.
Proof.
  split.
  - intros db Hok. split; [done|]. exists [], (agent_runs db), []. rewrite !app_nil_r. split_and!; [done..|].
    induction (agent_runs db); constructor; [apply life_refl|done].
  - intros a b c Hab Hbc Ha. destruct (Hab Ha) as (Hb & new & old & more & E1 & E2 & F1).
    destruct (Hbc Hb) as (Hc & new' & old' & more' & E3 & E4 & F2). split; [done|].
    rewrite E2 in F2. apply Forall2_app_inv_l in F2 as (o1 & o2 & F2 & F3 & ->).
    exists (new ++ new'), o1, (o2 ++ more'). rewrite E3, E1, E4. split_and!; [by rewrite app_assoc|by rewrite app_assoc|].
    clear -F1 F2. revert o1 F2. induction F1 as [|r r1 l l1 H F1 IH]; intros o1 F2; inversion F2; subst; constructor.
    + by eapply life_trans.
    + by apply IH.
Qed.

Lemma follows_same db db' : agent_runs db' = agent_runs db → run_events db' = run_events db → follows db db'.
Proof.
  intros E1 E2 Hok. destruct (follows_preorder.(PreOrder_Reflexive) db Hok) as (_ & new & old & more & H1 & H2 & F).
  split; [unfold table_ok in *; simpl in *; by rewrite E1|]. exists new, old, more. by rewrite E1, E2.
Qed.

(** ** One move *)

Record moves (f : Run → Run) (r : Run) : Prop := {
  mv_id : r_id (f r) = r_id r;
  mv_company : r_company_id (f r) = r_company_id r;
  mv_job : r_job (f r) = r_job r;
  mv_version : r_version (f r) = r_version r + 1;
  mv_open : ended (r_status r) = false;
  mv_edge : allowed (r_status r) (r_status (f r)) = true }.

(** The update of the one run with a key, followed by the event that reports it. *)
Lemma follows_move (p : Run → bool) f id db db1 db2 e :
  (∀ r, p r = true → r_id r = id) → update p f db = (Ok 1, db1) →
  (∀ r, r ∈ agent_runs db → p r = true → moves f r ∧ reports e (r_version r + 1) (r_status r) (r_status (f r))) →
  agent_runs db2 = agent_runs db1 → run_events db2 = run_events db ++ [e] → re_run_id e = id →
  follows db db2.
Proof.
  intros Hp Hu Hm E1 E2 He Hok. pose proof (update_table_ok _ _ _ _ _ Hu (table_rows_ok _ Hok)) as Hok1.
  split; [unfold table_ok in *; simpl in *; by rewrite E1|].
  apply update_ok in Hu as (_ & _ & Hn & ->). simpl in *.
  exists [e], (updated p f (agent_runs db)), []. rewrite app_nil_r. split_and!; [done|by rewrite E1|].
  assert (∀ r r', r ∈ agent_runs db → r' ∈ agent_runs db → r_id r = id → p r' = true → r = r') as Huniq.
  { intros r r' Hr Hr' Hid Hp'. apply (unique_row (λ x, r_id x =? id) (rows db)); try done; try apply String.eqb_eq; auto.
    - by apply table_no_clash.
    - intros a b Ha Hb. bools. simpl. apply String.eqb_eq. congruence. }
  assert (∃ r0, r0 ∈ agent_runs db ∧ p r0 = true) as (r0 & Hr0 & Hp0).
  { destruct (where_ p (agent_runs db)) as [|r0 w] eqn:Hw; [simpl in Hn; lia|].
    exists r0. apply elem_where. rewrite Hw. by left. }
  unfold updated. apply Forall2_fmap_r, Forall_Forall2_diag, list.Forall_forall. intros r Hr. cbn.
  assert (where_ (of_run (r_id r)) [e] = if id =? r_id r then [e] else []) as Hw.
  { unfold where_, of_run. simpl. rewrite He. by destruct (id =? r_id r). }
  destruct (id =? r_id r) eqn:Hid.
  - apply String.eqb_eq in Hid. pose proof (Huniq r r0 Hr Hr0 (eq_sym Hid) Hp0) as ->. rewrite Hp0.
    destruct (Hm r0 Hr0 Hp0) as [[M1 M2 M3 M4 M5 M6] Hrep]. split; rewrite ?Hw; try done. simpl. rewrite M4. eauto 10.
  - destruct (p r) eqn:Hpr; [apply Hp in Hpr; rewrite Hpr, String.eqb_refl in Hid; done|]. split; by rewrite ?Hw.
Qed.

Lemma run_event_written env n company id type payload db u db' :
  write_event env n company id type payload db = (Ok u, db') →
  agent_runs db' = agent_runs db ∧ queue db' = queue db ∧ leases db' = leases db ∧
  ∃ e, run_events db' = run_events db ++ [e] ∧ re_run_id e = id ∧ re_event_type e = type ∧
    re_payload e = sorted_obj payload.
Proof.
  unfold write_event. intros H. tx_inv. rename select (insert_row _ _ = _) into Hi.
  apply insert_ok in Hi as (_ & _ & _ & ->). cbv zeta in H. destruct (type ∈? _).
  - apply tx_bind_ok in H as (u1 & d1 & [_ ->]%check_ok & H). apply tx_bind_ok in H as (u2 & d2 & [_ ->]%check_ok & H).
    apply tx_bind_ok in H as (v & d3 & Hv & H). unfold lift in Hv. injection Hv as _ <-.
    apply tx_bind_ok in H as (u3 & d4 & (_ & _ & _ & ->)%insert_ok & (_ & _ & _ & ->)%insert_ok).
    split_and!; [done..|]. eexists. by split_and!.
  - apply mret_ok in H as [_ ->]. split_and!; [done..|]. eexists. by split_and!.
Qed.

(** ** The executor's transactions *)

(** A transaction that commits nothing or follows. *)
Lemma follows_atomically {A} (m : tx DB A) db :
  (∀ a db', m db = (Ok a, db') → follows db db') → follows db (atomically m db).2.
Proof.
  intros H. unfold atomically. destruct (m db) as [[a|e] db'] eqn:E; simpl; [by eapply H|reflexivity].
Qed.

Lemma claim_next_same env db o db' : claim_next env db = (Ok o, db') →
  agent_runs db' = agent_runs db ∧ run_events db' = run_events db.
Proof.
  unfold claim_next. intros H. apply tx_bind_ok in H as (row & d & [-> ->]%gets_ok & H).
  destruct (head _) as [[q r]|]; [|by apply mret_ok in H as [_ ->]].
  apply tx_bind_ok in H as (n & d1 & (_ & _ & -> & ->)%update_ok & H). destruct (negb _); [by apply mret_ok in H as [_ ->]|].
  cbv zeta in H. apply tx_bind_ok in H as (u & d2 & (_ & _ & _ & ->)%insert_ok & H).
  apply tx_bind_ok in H as (u2 & d3 & H3 & [_ ->]%mret_ok). unfold update_fairness, upsert in H3.
  apply tx_bind_ok in H3 as (b & d4 & [-> ->]%gets_ok & H3). destruct (existsb _ _).
  - by apply tx_bind_ok in H3 as (? & ? & (_ & _ & -> & ->)%update_ok & [_ ->]%mret_ok).
  - by apply insert_ok in H3 as (_ & _ & _ & ->).
Qed.

Lemma release_same c db u db' : release_claimed c db = (Ok u, db') →
  agent_runs db' = agent_runs db ∧ run_events db' = run_events db.
Proof.
  unfold release_claimed. intros H. apply tx_bind_ok in H as (n & d1 & (_ & _ & _ & ->)%update_ok & H).
  apply tx_bind_ok in H as (k & d2 & Hd & [_ ->]%mret_ok). by injection Hd as _ <-.
Qed.

(** What a transaction that moves the claimed run has done. *)
Lemma move_follows env c ty more p f s t v db db1 u db' :
  update p f db = (Ok 1, db1) → (∀ r, p r = true → the_run c r = true ∧ r_status r = s ∧ r_version r = v) →
  (∀ r, p r = true → moves f r ∧ r_status (f r) = t) →
  run_event env c ty (run_payload c (v + 1) s t ++ more) db1 = (Ok u, db') → follows db db'.
Proof.
  intros Hu Hp Hm (E1 & _ & _ & e & E2 & He & _ & Hpl)%run_event_written.
  apply (follows_move p f (cl_run_id c) db db1 db' e); [|done| |done| |done].
  - intros r (Hr & _)%Hp. unfold the_run in Hr. by bools.
  - intros r _ Hr. destruct (Hp r Hr) as (_ & <- & <-). destruct (Hm r Hr) as [Hmv <-]. split; [done|].
    eexists. split; [exact Hpl|]. done.
  - rewrite E2. by apply update_ok in Hu as (_ & _ & _ & ->).
Qed.

Lemma at_state_spec c s v r : at_state c s v r = true → the_run c r = true ∧ r_status r = s ∧ r_version r = v.
Proof. unfold at_state. intros H. bools. split_and!; try done. by apply Z.eqb_eq. Qed.

Lemma ending_allowed result : allowed "running" (en_status (ending result)) = true.
Proof. unfold ending. cbn [en_status]. by repeat case_match; vm_compute. Qed.

(** From every status that is not the end, a run may fail or wait. *)
Lemma open_status_allowed r : run_ok r = true → ended (r_status r) = false →
  allowed (r_status r) "failed" = true ∧ allowed (r_status r) "waiting_resource" = true.
Proof.
  unfold run_ok. intros Hok He. andbs.
  match goal with H : (r_status r ∈? ?l) = true |- _ =>
    pose proof (mem_all (λ s, ended s || allowed s "failed" && allowed s "waiting_resource") (r_status r) l H) as Hall end.
  cbv beta in Hall. rewrite He in Hall. specialize (Hall ltac:(by vm_compute)). simpl in Hall. by andbs.
Qed.

(** The row was no longer there: nothing has happened. *)
Lemma follows_lost (p : Run → bool) f id db n db1 :
  (∀ r, p r = true → r_id r = id) → update p f db = (Ok n, db1) → (n =? 1)%Z = false → follows db db1.
Proof.
  intros Hp (_ & _ & Hn & ->)%update_ok Hne Hok. apply Z.eqb_neq in Hne.
  assert (where_ p (rows db) = []) as Hw.
  { destruct (where_unique p (rows db) (table_no_clash _ Hok)) as [Hw|(r & Hw & _)]; [|done|rewrite Hw in Hn; simpl in Hn; lia].
    intros a b Ha%Hp Hb%Hp. simpl. apply String.eqb_eq. congruence. }
  assert (updated p f (rows db) = rows db) as ->.
  { apply updated_id. intros r Hr Hpr. pose proof (proj1 (where_nil p _) Hw r Hr). congruence. }
  rewrite set_rows_rows. by apply follows_preorder.
Qed.

Lemma at_state_id c s v r : at_state c s v r = true → r_id r = cl_run_id c.
Proof. intros (H & _)%at_state_spec. unfold the_run in H. by bools. Qed.

Lemma complete_follows env c v result db u db' :
  complete_claimed env c v result db = (Ok u, db') → follows db db'.
Proof.
  unfold complete_claimed. intros H. apply tx_bind_ok in H as (n & db1 & Hu & H). destruct (n =? 1)%Z eqn:Hn; cbn [negb] in H.
  - apply Z.eqb_eq in Hn as ->. eapply move_follows; [exact Hu|apply at_state_spec| |exact H].
    intros r (_ & Hs & _)%at_state_spec. split; [|done]. split; try done; [by rewrite Hs|].
    rewrite Hs. apply ending_allowed.
  - apply mret_ok in H as [_ ->]. eapply follows_lost; [apply at_state_id|done..].
Qed.

(** The two transactions that move the run from the state they find it in. *)
Lemma found_follows env c ty t more (f : Run → Run) db :
  (∀ r, r_id (f r) = r_id r ∧ r_company_id (f r) = r_company_id r ∧ r_job (f r) = r_job r ∧
        r_version (f r) = r_version r + 1 ∧ r_status (f r) = t) →
  (∀ r, run_ok r = true → ended (r_status r) = false → allowed (r_status r) t = true) →
  ∀ u db',
  (row ← select_one (the_run c);
   match row with
   | None => mret tt
   | Some r =>
       if r_status r ∈? _TERMINAL_RUN then mret tt else
       rowcount ← update (at_state c (r_status r) (r_version r)) f;
       if negb (rowcount =? 1)%Z then mret tt else
       run_event env c ty (run_payload c (r_version r + 1) (r_status r) t ++ more)
   end) db = (Ok u, db') → follows db db'.
Proof.
  intros Hf Ha u db' H. apply tx_bind_ok in H as (row & d & [-> ->]%select_one_ok & H).
  destruct (List.find _ _) as [r|] eqn:Hfind; [|by apply mret_ok in H as [_ ->]; apply follows_preorder].
  destruct (r_status r ∈? _TERMINAL_RUN) eqn:He; [by apply mret_ok in H as [_ ->]; apply follows_preorder|].
  apply tx_bind_ok in H as (n & db1 & Hu & H). destruct (n =? 1)%Z eqn:Hn; cbn [negb] in H.
  - apply Z.eqb_eq in Hn as ->. intros Hok. pose proof (table_ok_row db r Hok) as Hrow.
    apply find_some in Hfind as [Hin%list_elem_of_In _].
    refine (move_follows env c ty more _ f (r_status r) t (r_version r) db db1 u db' Hu (at_state_spec _ _ _) _ H Hok).
    intros x (_ & Hs & _)%at_state_spec. destruct (Hf x) as (F1 & F2 & F3 & F4 & F5). split; [|done].
    split; try done; [by rewrite Hs|]. rewrite Hs, F5. apply Ha; [by apply Hrow|done].
  - apply mret_ok in H as [_ ->]. eapply follows_lost; [apply at_state_id|done..].
Qed.

Lemma fail_follows env c code db u db' : fail_claimed env c code db = (Ok u, db') → follows db db'.
Proof. apply (found_follows env c); [done|]. intros r H1 H2. by apply open_status_allowed. Qed.

Lemma wait_follows env c code db u db' : wait_resource_claimed env c code db = (Ok u, db') → follows db db'.
Proof. apply (found_follows env c); [done|]. intros r H1 H2. by apply open_status_allowed. Qed.

(** ** The worker among others *)

Section Worker.
Context {D : Type} `{!Lens D DB} (task_version : D → string → string → option Z)
  (bus : option (string → string → Z → tx D unit)) (which : string → bool)
  (meanwhile : nat → D → D) (refuse : nat → option exn) (env_of : nat → Env)
  (work : Run → D → result ProcessResult).

(** Everybody else leaves the runs to those who move them, and so does the start of a task. *)
Hypothesis others_follow : ∀ n d, follows (view d) (view (meanwhile n d)).
Hypothesis bus_leaves_runs : ∀ dispatch company task version d u d', bus = Some dispatch →
  dispatch company task version d = (Ok u, d') →
  agent_runs (view d') = agent_runs (view d) ∧ run_events (view d') = run_events (view d).

Definition tame {A} (m : tx (Worker (D := D)) A) : Prop := ∀ w, follows (view (base w)) (view (base (m w).2)).

Lemma tame_ret {A} (a : A) : tame (mret a).
Proof. intros w. reflexivity. Qed.
Lemma tame_raise {A} e : tame (raise (A := A) e).
Proof. intros w. reflexivity. Qed.
Lemma tame_bind {A B} (m : tx Worker A) (k : A → tx Worker B) : tame m → (∀ a, tame (k a)) → tame (m ≫= k).
Proof.
  intros Hm Hk w. unfold mbind, tx_bind. specialize (Hm w). destruct (m w) as [[a|e] w1]; [|done].
  simpl in Hm. etrans; [exact Hm|apply Hk].
Qed.
Lemma tame_lift {A} (r : result A) : tame (lift r).
Proof. intros w. reflexivity. Qed.

Lemma tame_query {A} (f : D → A) : tame (query meanwhile f).
Proof. intros w. apply others_follow. Qed.

Lemma tame_access {A} (m : Env → tx D A) :
  (∀ env d a d', m env d = (Ok a, d') → follows (view d) (view d')) → tame (access meanwhile refuse env_of m).
Proof.
  intros H w. unfold access. set (d := meanwhile _ _). transitivity (view d); [apply others_follow|].
  destruct (refuse _); [reflexivity|]. unfold atomically.
  destruct (m _ d) as [[a|e] d'] eqn:E; simpl; [by eapply H|reflexivity].
Qed.

Lemma zoom_follows {A} (m : tx DB A) d a d' :
  (∀ db a db', m db = (Ok a, db') → follows db db') → zoom m d = (Ok a, d') → follows (view d) (view d').
Proof. intros H (s & Hm & ->)%zoom_ok. rewrite view_put. by eapply H. Qed.

(** The steps the worker makes from queued to running. *)
Definition first_moves : list (string * string) :=
  [("queued", "probing"); ("probing", "starting"); ("starting", "running")].

Lemma transition_follows env c s t v started extra d b d' : (s, t) ∈ first_moves →
  transition task_version bus env c s t v started extra d = (Ok b, d') → follows (view d) (view d').
Proof.
  intros Hst H. unfold transition in H. apply tx_bind_ok in H as (u & d1 & H1 & H).
  assert (follows (view d) (view d1)) as H1'.
  { unfold start_task in H1. destruct (t =? "running"), (cl_employee_task_id c); try (apply mret_ok in H1 as [_ ->]; reflexivity).
    apply tx_bind_ok in H1 as (dispatch & ? & [Hb ->]%found_ok & H1).
    apply tx_bind_ok in H1 as (row & ? & [-> ->]%gets_ok & H1).
    apply tx_bind_ok in H1 as (ver & ? & [_ ->]%found_ok & H1).
    apply (bus_leaves_runs dispatch) in H1 as [E1 E2]; [|done]. by apply follows_same. }
  transitivity (view d1); [exact H1'|]. clear H1 H1'.
  apply tx_bind_ok in H as (n & d2 & (db1 & Hu & ->)%zoom_ok & H). destruct (n =? 1)%Z eqn:Hn; cbn [negb] in H.
  - apply Z.eqb_eq in Hn as ->. apply tx_bind_ok in H as (u2 & d3 & (db2 & He & ->)%zoom_ok & [_ ->]%mret_ok).
    rewrite view_put in He |- *. eapply move_follows; [exact Hu|apply at_state_spec| |exact He].
    intros r (_ & Hs & _)%at_state_spec. split; [|done].
    assert (ended s = false ∧ allowed s t = true) as [E1 E2].
    { elem_cases Hst; injection Hst as -> ->; by vm_compute. }
    by split; rewrite ?Hs.
  - apply mret_ok in H as [_ ->]. rewrite view_put. eapply follows_lost; [apply at_state_id|done..].
Qed.

Lemma tame_fail c code : tame (fail_with meanwhile refuse env_of c code).
Proof. apply tame_access. intros env d a d'. apply zoom_follows, fail_follows. Qed.

Lemma tame_start c run : tame (start_run task_version bus meanwhile refuse env_of c run).
Proof.
  unfold start_run. destruct (r_status run =? "queued"); [|apply tame_ret].
  repeat (apply tame_bind; [apply tame_access; intros; eapply transition_follows; [|done]; unfold first_moves; set_solver|];
    intros []; cbn [negb]; try apply tame_ret).
Qed.

Lemma tame_attempt c : tame (attempt_run task_version bus which meanwhile refuse env_of work c).
Proof.
  unfold attempt_run. apply tame_bind; [apply tame_query|]. intros [run|]; [|apply tame_ret].
  destruct (_ ∈? _); [apply tame_ret|]. destruct (negb _); [apply tame_fail|].
  apply tame_bind; [apply tame_start|]. intros [v|]; [|apply tame_ret]. destruct (_ ∈? _); [|apply tame_fail].
  apply tame_bind; [apply tame_query|]. intros o. apply tame_bind; [apply tame_lift|]. intros res.
  apply tame_access. intros env d a d'. apply zoom_follows. intros db x db'. apply complete_follows.
Qed.

Lemma tame_recover c e : tame (recover_from meanwhile refuse env_of c e).
Proof.
  assert (tame (match _resource_wait_failure_code e with
    | Some code => access meanwhile refuse env_of (λ env, zoom (wait_resource_claimed env c code))
    | None => fail_with meanwhile refuse env_of c "EXECUTION_ERROR" end)) as H.
  { destruct (_resource_wait_failure_code e); [|apply tame_fail].
    apply tame_access. intros env d a d'. apply zoom_follows, wait_follows. }
  destruct e; first [exact H|apply tame_ret|apply tame_raise].
Qed.

Lemma tame_execute c : tame (execute_claimed task_version bus which meanwhile refuse env_of work c).
Proof.
  assert (tame (access meanwhile refuse env_of (λ _, zoom (release_claimed c)))) as Hrel.
  { apply tame_access. intros env d a d'. apply zoom_follows. intros db x db' [E1 E2]%release_same. by apply follows_same. }
  intros w. unfold execute_claimed, finally_release. pose proof (tame_attempt c w) as Ha.
  destruct (attempt_run _ _ _ _ _ _ _ _ w) as [[u|e] w1]; simpl in Ha |- *.
  - specialize (Hrel w1). destruct (access _ _ _ _ w1) as [[|] w2]; (etrans; [exact Ha|exact Hrel]).
  - pose proof (tame_recover c e w1) as Hc. destruct (recover_from _ _ _ _ _ w1) as [r w2]. simpl in Hc.
    specialize (Hrel w2). destruct (access _ _ _ _ w2) as [[|] w3]; (etrans; [exact Ha|etrans; [exact Hc|exact Hrel]]).
Qed.

Lemma tame_work : tame (work_once task_version bus which meanwhile refuse env_of work).
Proof.
  unfold work_once. apply tame_bind.
  - apply tame_access. intros env d a d'. apply zoom_follows. intros db x db' [E1 E2]%claim_next_same. by apply follows_same.
  - intros [c|]; [|apply tame_ret]. apply tame_bind; [apply tame_execute|intros; apply tame_ret].
Qed.
End Worker.

(** ** Run control *)

Lemma run_of_id company id r : run_of company id r = true → r_id r = id.
Proof. unfold run_of. intros H. by bools. Qed.

Lemma run_of_key company id a b : run_of company id a = true → run_of company id b = true → clash (DB := DB) a b = true.
Proof. intros Ha%run_of_id Hb%run_of_id. simpl. apply String.eqb_eq. congruence. Qed.

Lemma same_run_of company id db a b : table_ok (R := Run) db = true → a ∈ agent_runs db → b ∈ agent_runs db →
  run_of company id a = true → run_of company id b = true → a = b.
Proof.
  intros Hok Ha Hb H1 H2. apply (unique_row (run_of company id) (rows db)); try done; [by apply table_no_clash|].
  apply run_of_key.
Qed.

Lemma cancel_follows env stopping company id db o db' : cancel_run env stopping company id db = (Ok o, db') → follows db db'.
Proof.
  intros H. unfold cancel_run in H. cbv zeta in H.
  apply tx_bind_ok in H as (row & d & [-> ->]%select_one_ok & H).
  apply tx_bind_ok in H as (run & d & [Hrun ->]%found_ok & H).
  apply tx_bind_ok in H as (u1 & d & [Hopen ->]%check_ok & H).
  apply tx_bind_ok in H as (u2 & d & Hl & H). unfold lift in Hl. injection Hl as _ <-.
  apply tx_bind_ok in H as (n & db1 & Hu & H). apply tx_bind_ok in H as (u3 & d & [Hn ->]%check_ok & H).
  apply Z.eqb_eq in Hn as ->. pose proof Hu as (_ & _ & _ & ->)%update_ok.
  apply tx_bind_ok in H as (k & db2 & (_ & _ & _ & ->)%update_ok & H).
  apply tx_bind_ok in H as (sq & d & [-> ->]%gets_ok & H).
  apply tx_bind_ok in H as (u4 & db3 & (_ & _ & _ & ->)%insert_ok & H).
  apply tx_bind_ok in H as (u5 & db4 & (_ & _ & _ & ->)%insert_ok & H).
  apply tx_bind_ok in H as (u6 & db5 & (_ & _ & _ & ->)%insert_ok & [_ ->]%mret_ok).
  intros Hok. apply find_some in Hrun as [Hin%list_elem_of_In Hrun]. pose proof (table_ok_row db run Hok Hin) as Hrow.
  match goal with |- lived _ ?d => refine (follows_move _ _ id db _ d _ _ Hu _ eq_refl eq_refl eq_refl Hok) end.
  - intros r [Hr _]%andb_true_iff. by eapply run_of_id.
  - intros r Hr [Hof [He Hv]%andb_true_iff]%andb_true_iff. apply negb_true_iff in He.
    pose proof (same_run_of _ _ _ _ _ Hok Hr Hin Hof Hrun) as ->. split; [|by eexists].
    split; try done. simpl in Hrow |- *. unfold run_ok in Hrow. andbs.
    match goal with H : (r_status run ∈? ?l) = true |- _ =>
      pose proof (mem_all (λ s, ended s || allowed s "cancelled") (r_status run) l H) as Hall end.
    cbv beta in Hall. change (ended (r_status run)) with (r_status run ∈? ENDED) in Hall.
    rewrite He in Hall. by apply Hall; vm_compute.
Qed.

Lemma resume_follows env company id db o db' : resume_run env company id db = (Ok o, db') → follows db db'.
Proof.
  intros H. unfold resume_run in H. cbv zeta in H.
  apply tx_bind_ok in H as (row & d & [-> ->]%select_one_ok & H).
  apply tx_bind_ok in H as (run & d & [Hrun ->]%found_ok & H).
  apply tx_bind_ok in H as (u1 & d & [Hw ->]%check_ok & H).
  apply tx_bind_ok in H as (u2 & d & Hl & H). unfold lift in Hl. injection Hl as _ <-.
  apply tx_bind_ok in H as (u3 & d & [_ ->]%check_ok & H).
  apply tx_bind_ok in H as (n & db1 & Hu & H). apply tx_bind_ok in H as (u4 & d & [Hn ->]%check_ok & H).
  apply Z.eqb_eq in Hn as ->. pose proof Hu as (_ & _ & _ & ->)%update_ok.
  apply tx_bind_ok in H as (u5 & db2 & (_ & _ & _ & ->)%insert_ok & H).
  apply tx_bind_ok in H as (sq & d & [-> ->]%gets_ok & H).
  apply tx_bind_ok in H as (u6 & db3 & (_ & _ & _ & ->)%insert_ok & [_ ->]%mret_ok).
  intros Hok. apply find_some in Hrun as [Hin%list_elem_of_In Hrun].
  match goal with |- lived _ ?d => refine (follows_move _ _ id db _ d _ _ Hu _ eq_refl eq_refl eq_refl Hok) end.
  - intros r [Hr _]%andb_true_iff. by eapply run_of_id.
  - intros r Hr [Hof [He Hv]%andb_true_iff]%andb_true_iff.
    pose proof (same_run_of _ _ _ _ _ Hok Hr Hin Hof Hrun) as ->. split; [|by eexists].
    split; try done; simpl.
    + exact (proj1 (negb_true_iff _) (mem_all (λ s, negb (ended s)) _ _ He eq_refl)).
    + exact (mem_all (λ s, allowed s "running") _ _ He eq_refl).
Qed.

(** ** Runs that wait *)

Section Waiting.
Context (env : Env) (company id : string) (db : DB) (run : Run).
Hypothesis Hok : table_ok (R := Run) db = true.
Hypothesis Hin : run ∈ agent_runs db.
Hypothesis Hof : run_of company id run = true.
Hypothesis Hw : (r_status run ∈? WAITING) = true.

Lemma waiting_found : select_one (run_of company id) db = (Ok (Some run), db).
Proof.
  destruct (find_unique _ _ _ (table_no_clash _ Hok) (run_of_key company id) Hin Hof) as [Hfind _].
  unfold select_one, gets. by rewrite Hfind.
Qed.

(** Cancelling keeps what the run would go on with, which its new status must not have. *)
Lemma waiting_run_cancel stopping :
  cancel_run env stopping company id db = (Err (IntegrityErr "agent_runs"), db).
Proof.
  pose proof (proj1 (negb_true_iff _) (mem_all (λ s, negb (s ∈? ENDED)) _ _ Hw eq_refl)) as He.
  pose proof (proj1 (negb_true_iff _) (mem_all (λ s, negb (s ∈? WORKING)) _ _ Hw eq_refl)) as Hwk.
  unfold cancel_run. rewrite (tx_bind_run _ _ _ _ _ waiting_found).
  rewrite (tx_bind_run _ _ db run db) by done. rewrite He. cbn [negb].
  rewrite (tx_bind_run _ _ db tt db) by done.
  assert (stop_adapter stopping run = Ok tt) as -> by (unfold stop_adapter; by rewrite Hwk).
  rewrite (tx_bind_run _ _ db tt db) by done. apply tx_bind_run_err.
  rewrite (update_found _ _ _ _ run Hok (run_of_key company id)); try done; [|by rewrite He, Z.eqb_refl].
  assert (row_ok (DB := DB) (cancelled_run (_now env) run) = false) as ->; [|done].
  pose proof (table_ok_row db run Hok Hin) as Hrow. simpl in Hrow |- *. unfold run_ok in *. simpl. andbs.
  unfold WAITING in Hw. rewrite Hw in *. destruct (r_resume_state run); [|done]. by rewrite ?andb_false_r.
Qed.

(** Resuming queues the run again, while its old queue item is still there. *)
Lemma waiting_run_resume q :
  q ∈ queue db → q_run_id q = Some id → ∃ e d, resume_run env company id db = (Err e, d).
Proof.
  intros Hqin Hqid. unfold resume_run. rewrite (tx_bind_run _ _ _ _ _ waiting_found).
  rewrite (tx_bind_run _ _ db run db) by done. rewrite Hw. rewrite (tx_bind_run _ _ db tt db) by done. cbv zeta.
  assert (StateMachine.transition "AgentRun" (r_status run) "running" None = Ok None) as ->.
  { exact (bool_decide_unpack _ (proj2 (Is_true_true _) (mem_all
      (λ s, bool_decide (StateMachine.transition "AgentRun" s "running" None = Ok None)) _ _ Hw eq_refl))). }
  rewrite (tx_bind_run _ _ db None db) by done.
  destruct (r_attempt run <? 6)%Z eqn:Hatt; [|by eexists _, _; apply tx_bind_run_err].
  rewrite (tx_bind_run _ _ db tt db) by done. apply Z.ltb_lt in Hatt.
  pose proof (table_ok_row db run Hok Hin) as Hrow.
  assert (row_ok (DB := DB) (resumed_run (_now env) run) = true) as Hnew.
  { simpl in Hrow |- *. unfold run_ok in *. simpl. andbs; try done.
    - apply Z.leb_le. match goal with H : (1 <=? _)%Z = true |- _ => apply Z.leb_le in H; lia end.
    - apply Z.leb_le. lia. }
  eexists _, _. erewrite tx_bind_run; cycle 1.
  { rewrite (update_found _ _ _ _ run Hok (run_of_key company id)), Hnew; try done. by rewrite Hw, Z.eqb_refl. }
  rewrite (tx_bind_run _ _ _ tt _) by done. apply tx_bind_run_err, (insert_clash q); [done|].
  simpl. unfold queue_clash. rewrite Hqid. simpl. by rewrite String.eqb_refl, !orb_true_r.
Qed.

(** A queue item that is not ready is not claimed, and there is one item for a run. *)
Lemma waiting_run_claim q c db' :
  table_ok (R := QueueItem) db = true → q ∈ queue db → q_run_id q = Some id → q_status q ≠ "ready" →
  claim_next env db = (Ok (Some c), db') → cl_run_id c ≠ id.
Proof.
  intros Hq Hqin Hqid Hqs H Hc. unfold claim_next in H. apply tx_bind_ok in H as (row & d & [-> ->]%gets_ok & H).
  destruct (head _) as [[q' r]|] eqn:Hh; [|by apply mret_ok in H as [? _]].
  assert ((q', r) ∈ claimable db) as Hcl.
  { apply (elem_of_sort_by (claim_before db)). destruct (sort_by _ _); [done|]. injection Hh as ->. left. }
  apply tx_bind_ok in H as (n & d1 & _ & H). destruct (negb _); [by apply mret_ok in H as [? _]|]. cbv zeta in H.
  apply tx_bind_ok in H as (u & d2 & _ & H). apply tx_bind_ok in H as (u2 & d3 & _ & [Hce _]%mret_ok).
  injection Hce as ->. simpl in Hc. unfold claimable in Hcl.
  apply list_elem_of_In, in_flat_map in Hcl as (q0 & Hq0%list_elem_of_In & Hpair%list_elem_of_In).
  apply list_elem_of_fmap in Hpair as (r0 & [= -> ->] & Hr). apply elem_where in Hr as [_ Hr].
  apply elem_where in Hq0 as [Hq0 Hready]. apply andb_true_iff in Hr as [Hr%bool_decide_eq_true _].
  assert (q0 = q) as ->.
  { apply (unique_row (λ x, bool_decide (q_run_id x = Some id)) (rows db)); try done; [by apply table_no_clash| | |].
    - intros a b Ha%bool_decide_eq_true Hb%bool_decide_eq_true. simpl. unfold queue_clash.
      rewrite Ha, Hb. simpl. by rewrite String.eqb_refl, !orb_true_r.
    - apply bool_decide_eq_true. by rewrite Hr, Hc.
    - by apply bool_decide_eq_true. }
  unfold ready in Hready. by apply String.eqb_eq in Hready.
Qed.
End Waiting.


(** C5. The event log of a run is its history.  Whatever a worker does with the runs it claims -
    however its steps are interleaved with anything that keeps to this rule itself, whichever of
    them the write queue refuses, and however the adapter ends - and whatever is cancelled or
    resumed, no run is lost, a run that has ended never changes again, and the events added to
    the log of a run are moves along permitted edges, one after the other and one for each
    version, from the status it had to the status it has. *)
Theorem runs_live_by_the_table {D} `{!Lens D DB} task_version bus which meanwhile refuse env_of work
    (w : Worker (D := D)) :
  (∀ n d, follows (view d) (view (meanwhile n d))) →
  (∀ dispatch company task version d u d', bus = Some dispatch →
     dispatch company task version d = (Ok u, d') →
     agent_runs (view d') = agent_runs (view d) ∧ run_events (view d') = run_events (view d)) →
  table_ok (R := Run) (view (base w)) = true →
  let db := view (base w) in
  let '(_, w') := work_once task_version bus which meanwhile refuse env_of work w in
  lived db (view (base w')) ∧
  (∀ env stopping company id, lived db (atomically (cancel_run env stopping company id) db).2) ∧
  (∀ env company id, lived db (atomically (resume_run env company id) db).2).
Proof.
  intros Hm Hb Hok db. pose proof (tame_work task_version bus which meanwhile refuse env_of work Hm Hb w Hok) as Hw.
  destruct (work_once _ _ _ _ _ _ _ w) as [r w']. split_and!; [exact Hw| |].
  - intros env stopping company id. apply follows_atomically; [|done]. intros a d. apply cancel_follows.
  - intros env company id. apply follows_atomically; [|done]. intros a d. apply resume_follows.
Qed.

(** ** Examples *)

Module Demo.
Definition with_status (status : string) (r : Run) : Run := {|
  r_id := r_id r; r_company_id := r_company_id r; r_job := r_job r; r_status := status;
  r_resume_state := if status ∈? WAITING then Some "running" else None; r_attempt := r_attempt r;
  r_started_at := r_started_at r; r_completed_at := r_completed_at r; r_exit_code := r_exit_code r;
  r_failure_code := r_failure_code r; r_process := r_process r; r_updated_at := r_updated_at r;
  r_version := r_version r |}.
Definition item (status : string) : QueueItem := {|
  q_id := "q1"; q_company_id := "co1"; q_work_item_type := "employee_task"; q_work_item_id := "et"; q_job_id := "job1";
  q_run_id := Some "run1"; q_priority := 10; q_status := status; q_queued_at := "t"; q_leased_at := None |}.
Definition db (run_status queue_status : string) : DB := {|
  queue := [item queue_status]; leases := []; fairness := [];
  agent_runs := [with_status run_status (Scheduler.Demo.run "run1" "co1" "queued"); Scheduler.Demo.run "run2" "co2" "running"];
  run_events := []; domain_events := []; outbox_events := []; companies := ["co1"; "co2"];
  employees := [("emp", "co1")]; conversations := [("conv", "co1")] |}.

#[export] Instance whole : Lens DB DB.
Proof. by refine {| view db := db; put s _ := s |}. Defined.

Definition bus : option (string → string → Z → tx DB unit) := Some (λ _ _ _, mret tt).

(** A worker whose model exits with [code], or cannot be reached. *)
Definition worker (outcome : result ProcessResult) : tx (Worker (D := DB)) Z :=
  work_once (λ _ _ _, Some 1%Z) bus (λ _, true) (λ _ d, d) (λ _, None)
    (λ n, Scheduler.Demo.env (Z.of_nat n) (pad 2 (Z.of_nat n) +:+ "-")) (λ _ _, outcome).
Definition start : Worker := {| turn := 0; base := db "queued" "ready" |}.
Definition exited (code : Z) : result ProcessResult :=
  Ok {| pr_exit_code := Some code; pr_status := None; pr_timed_out := false |}.

Definition states (w : Worker (D := DB)) : list (string * string * Z) * list (string * Z) * list string :=
  (map (λ r, (r_id r, r_status r, r_version r)) (agent_runs (base w)),
   map (λ e, (re_event_type e, re_sequence e)) (run_events (base w)), map q_status (queue (base w))).
End Demo.

Example a_run_succeeds : Demo.states (Demo.worker (Demo.exited 0) Demo.start).2 =
  ([("run1", "succeeded", 5%Z); ("run2", "running", 1%Z)],
   [("run.probing", 1%Z); ("run.starting", 2%Z); ("run.started", 3%Z); ("run.completed", 4%Z)], ["completed"]).
Proof. by vm_compute. Qed.
Example a_run_waits : Demo.states (Demo.worker (Err (ValueError "CREDENTIAL_MISSING")) Demo.start).2 =
  ([("run1", "waiting_resource", 5%Z); ("run2", "running", 1%Z)],
   [("run.probing", 1%Z); ("run.starting", 2%Z); ("run.started", 3%Z); ("run.waiting_resource", 4%Z)], ["completed"]).
Proof. by vm_compute. Qed.


Lemma runs_live_by_the_table_witness :
  let db := Demo.db "queued" "ready" in
  lived db (base (Demo.worker (Demo.exited 0) Demo.start).2) ∧
  ∀ env stopping, lived db (atomically (cancel_run env stopping "co1" "run1") db).2.
Proof.
  intros db.
  pose proof (runs_live_by_the_table (D := DB) (Lens0 := Demo.whole) (λ _ _ _, Some 1%Z) Demo.bus (λ _, true) (λ _ d, d) (λ _, None)
    (λ n, Scheduler.Demo.env (Z.of_nat n) (pad 2 (Z.of_nat n) +:+ "-")) (λ _ _, Demo.exited 0) Demo.start) as H.
  cbv zeta in H. unfold Demo.worker. destruct (work_once _ _ _ _ _ _ _ _) as [r w'].
  destruct H as (H1 & H2 & _).
  - done.
  - by intros dispatch company task version d u d' [= <-] [_ ->]%mret_ok.
  - by vm_compute.
  - split; [exact H1|]. intros env stopping. apply H2.
Defined.
