(* ===== verification/RunSettles.v ===== *)
(** * An undisturbed worker settles its run

    With nobody in between and nothing refused, [execute_claimed] goes through: whatever the
    adapter does, the run ends or is put off, and its queue item and its lease are released. *)

From S2P Require Import Prelude PyEnum PyOrder PyStr Sql Clock UnitOfWork Zoom Scheduler Recovery RunExecutor RunControl RunProperties.

(** The tables are sound, the company of the claim is known, and nothing that the accesses from
    the [n]-th on draw is in use. *)
Record sound (env_of : nat → Env) (c : ClaimedRun) (n : nat) (db : DB) : Prop := {
  sd_wf : wf db;
  sd_fresh m : (n ≤ m)%nat → fresh (env_of m) 0 db;
  sd_company : cl_company_id c ∈ companies db }.

(** No two draws are the same. *)
Definition ids_differ (env_of : nat → Env) : Prop :=
  ∀ m i m' i', uuid (env_of m) i = uuid (env_of m') i' → m = m' ∧ i = i'.

(** Nobody has stopped the worker or the run. *)
Definition plain (e : exn) : bool := match e with TaskCancelledErr | RunCancelledErr => false | _ => true end.

(** The claimed run is in a state, at a version. *)
Definition run_at (c : ClaimedRun) (s : string) (v : Z) (db : DB) : Prop :=
  ∃ r, r ∈ agent_runs db ∧ at_state c s v r = true.

Definition live (s : string) : bool := s ∈? ["queued"; "probing"; "starting"; "running"].

Section Settles.
Context (env_of : nat → Env) (c : ClaimedRun).
Hypothesis Hids : ids_differ env_of.
Notation sound := (sound env_of c).

Lemma sound_later n m db : (n ≤ m)%nat → sound n db → sound m db.
Proof. intros Hm [H1 H2 H3]. split; [done| |done]. intros k Hk. apply H2. lia. Qed.

(** ** One move *)

Lemma run_event_runs n type payload v db :
  sound n db → cl_run_id c ∈ map r_id (agent_runs db) → payload_ok type payload → field payload "version" = JInt v →
  ∃ db', run_event (env_of n) c type payload db = (Ok tt, db') ∧
    agent_runs db' = agent_runs db ∧ sound (S n) db'.
Proof.
  intros [Hwf Hfr Hco] Hrun Hpl Hv.
  destruct (write_event_runs (env_of n) 0 (cl_company_id c) (cl_run_id c) type payload v db) as (db' & H & Hw & Hwf'); try done.
  { by apply Hfr. }
  destruct Hw as [(e & E1 & He & _) (evs & obs & E2 & E3 & Hp) [= Er Eq El Ec Ef]].
  exists db'. split_and!; try done. split; [done| |by rewrite Ec].
  intros m Hm. destruct (Hfr m ltac:(lia)) as [F1 F2 F3].
  assert (∀ i j, uuid (env_of n) i ≠ uuid (env_of m) j) as Hother.
  { intros i j Heq. apply Hids in Heq as [-> _]. lia. }
  split; intros i Hi; rewrite ?E1, ?E2, ?E3, map_app; intros [Hold|Hnew]%elem_of_app.
  - by apply (F1 i).
  - apply list_elem_of_singleton in Hnew. rewrite He in Hnew. by apply (Hother 0%nat i).
  - by apply (F2 i).
  - case_match; [|by destruct Hp as [-> _]; apply not_elem_of_nil in Hnew].
    destruct Hp as [-> _]. apply list_elem_of_singleton in Hnew. by apply (Hother 0%nat i).
  - by apply (F3 i).
  - case_match; [|by destruct Hp as [_ ->]; apply not_elem_of_nil in Hnew].
    destruct Hp as (_ & o & -> & Ho & _). apply list_elem_of_singleton in Hnew. rewrite Ho in Hnew.
    by apply (Hother 3%nat i).
Qed.

Lemma the_run_key a b : the_run c a = true → the_run c b = true → clash (DB := DB) a b = true.
Proof. unfold the_run. intros Ha Hb. bools. simpl. apply String.eqb_eq. congruence. Qed.

(** A move of the claimed run, and the event that tells of it. *)
Lemma move_runs n s v (f : Run → Run) t db :
  sound n db → run_at c s v db →
  (∀ r, r_id (f r) = r_id r ∧ r_company_id (f r) = r_company_id r ∧ r_status (f r) = t ∧ r_version (f r) = r_version r + 1) →
  (∀ r, run_ok r = true → r_status r = s → run_ok (f r) = true) →
  ∃ db1, update (at_state c s v) f db = (Ok 1, db1) ∧
    ∀ type payload w, payload_ok type payload → field payload "version" = JInt w →
    ∃ db2, run_event (env_of n) c type payload db1 = (Ok tt, db2) ∧ sound (S n) db2 ∧ run_at c t (v + 1) db2.
Proof.
  intros Hs (r & Hr & Hat) Hf Hok. pose proof (at_state_spec c s v r Hat) as (Hthe & Hst & Hv).
  pose proof Hs as [Hwf Hfr Hco].
  assert (update (at_state c s v) f db = (Ok 1, set_rows (updated (the_run c) f (rows db)) db)) as Hu.
  { transitivity (update (λ x, the_run c x && ((r_status x =? s) && (r_version x =? v)%Z)) f db).
    { apply update_ext. intros x. unfold at_state. by rewrite andb_assoc. }
    rewrite (update_found _ _ _ _ r (wf_runs _ Hwf) the_run_key); try done.
    - simpl. by rewrite (Hok r (table_ok_row db r (wf_runs _ Hwf) Hr) Hst).
    - intros a b. simpl. by rewrite (proj1 (Hf a)).
    - intros a b. simpl. by rewrite (proj1 (Hf b)).
    - rewrite Hst, Hv, String.eqb_refl. by rewrite Z.eqb_refl. }
  eexists. split; [exact Hu|]. set (db1 := set_rows _ db).
  destruct (Hf r) as (F1 & F2 & F3 & F4).
  assert (f r ∈ agent_runs db1) as Hin.
  { simpl. unfold updated. apply list_elem_of_fmap. exists r. by rewrite Hthe. }
  assert (the_run c (f r) = true) as Hthe' by (unfold the_run in *; by rewrite F1, F2).
  assert (sound n db1) as Hs1.
  { split; [|by intros m Hm; destruct (Hfr m Hm); split|done]. destruct Hwf as [W1 W2 W3 W4 W5]. split; try done.
    exact (update_table_ok _ _ _ _ _ Hu (table_rows_ok _ W1)). }
  intros type payload w Hpl Hw.
  destruct (run_event_runs n type payload w db1 Hs1) as (db2 & H & Er & Hs2); [|done..|].
  { apply list_elem_of_fmap. exists (f r). split; [|done]. unfold the_run in Hthe'. by bools. }
  exists db2. split_and!; try done. exists (f r). rewrite Er. split; [done|].
  unfold at_state. rewrite Hthe', F3, F4, Hv, String.eqb_refl. apply Z.eqb_refl.
Qed.

Lemma live_open s : live s = true → ended s = false.
Proof. intros H. exact (proj1 (negb_true_iff _) (mem_all (λ s, negb (ended s)) s _ H eq_refl)). Qed.

(** The event of a move goes through. *)
Ltac tell_event Hev :=
  match goal with |- context [run_event _ _ ?ty ?payload _] =>
    edestruct (Hev ty payload) as (db2 & H & Hh);
      [split; [reflexivity|first [done|intros _; reflexivity]]|reflexivity|exists db2; split; [exact H|exact Hh]] end.

(** A run that is under way, moved on or ended. *)
Lemma run_ok_on r r' : run_ok r = true → live (r_status r) = true →
  r_job r' = r_job r → r_attempt r' = r_attempt r → r_resume_state r' = r_resume_state r → r_process r' = r_process r →
  live (r_status r') || ended (r_status r') = true → run_ok r' = true.
Proof.
  unfold run_ok. intros Hok Hl -> -> -> -> Hl'. andbs; try done.
  - unfold live, ended in Hl'. apply orb_true_iff in Hl' as [Hm|Hm];
      match goal with |- (_ ∈? ?l) = true => exact (mem_all (λ s, s ∈? l) _ _ Hm eq_refl) end.
  - assert ((r_status r ∈? ["waiting_approval"; "waiting_resource"]) = false) as E.
    { exact (proj1 (negb_true_iff _) (mem_all (λ s, negb (s ∈? ["waiting_approval"; "waiting_resource"])) _ _ Hl eq_refl)). }
    assert ((r_status r' ∈? ["waiting_approval"; "waiting_resource"]) = false) as ->.
    { apply orb_true_iff in Hl' as [Hm|Hm];
        exact (proj1 (negb_true_iff _) (mem_all (λ s, negb (s ∈? ["waiting_approval"; "waiting_resource"])) _ _ Hm eq_refl)). }
    match goal with H : (if _ then _ else _) = true |- _ => by rewrite E in H end.
Qed.

Lemma run_ok_wait r code now : run_ok r = true → run_ok (waiting_run code now r) = true.
Proof. unfold run_ok. intros Hok. simpl. by andbs. Qed.

(** What a step leaves behind for the next one. *)
Definition holds (n : nat) (s : string) (v : Z) (db : DB) : Prop := sound n db ∧ run_at c s v db.

Lemma ending_ended result : ended (en_status (ending result)) = true.
Proof. unfold ending. cbn [en_status]. by repeat case_match. Qed.

Lemma complete_runs n v result db : sound n db → run_at c "running" v db →
  ∃ db', complete_claimed (env_of n) c v result db = (Ok tt, db') ∧ holds (S n) (en_status (ending result)) (v + 1) db'.
Proof.
  intros Hs Hr. pose proof (ending_ended result) as He.
  destruct (move_runs n "running" v (ended_run (en_status (ending result)) (en_exit_code (ending result))
    (en_failure (ending result)) (_now (env_of n))) (en_status (ending result)) db Hs Hr) as (db1 & Hu & Hev).
  { done. }
  { intros r Hok Hst. apply (run_ok_on r); rewrite ?Hst; try done. cbn [r_status ended_run]. by rewrite He, orb_true_r. }
  unfold complete_claimed. rewrite (tx_bind_run _ _ _ _ _ Hu). cbn [negb Z.eqb Pos.eqb].
  tell_event Hev.
Qed.

(** The transactions that move the run from the state they find it in. *)
Lemma found_runs n s v t ty more (f : Run → Run) db :
  sound n db → run_at c s v db → ended s = false → ty ≠ "run.completed" →
  (∀ r, r_id (f r) = r_id r ∧ r_company_id (f r) = r_company_id r ∧ r_status (f r) = t ∧ r_version (f r) = r_version r + 1) →
  (∀ r, run_ok r = true → r_status r = s → run_ok (f r) = true) →
  ∃ db', (row ← select_one (the_run c);
   match row with
   | None => mret tt
   | Some r =>
       if r_status r ∈? _TERMINAL_RUN then mret tt else
       rowcount ← update (at_state c (r_status r) (r_version r)) f;
       if negb (rowcount =? 1)%Z then mret tt else
       run_event (env_of n) c ty (run_payload c (r_version r + 1) (r_status r) t ++ more)
   end) db = (Ok tt, db') ∧ holds (S n) t (v + 1) db'.
Proof.
  intros Hs Hr He Hty Hf Hok. destruct (move_runs n s v f t db Hs Hr Hf Hok) as (db1 & Hu & Hev).
  destruct Hr as (r & Hr & (Hthe & <- & <-)%at_state_spec).
  destruct (find_unique _ _ _ (table_no_clash _ (wf_runs _ (sd_wf _ _ _ _ Hs))) the_run_key Hr Hthe) as [Hfind _].
  unfold select_one. rewrite (tx_bind_run _ _ db (Some r) db) by (unfold gets; by rewrite Hfind).
  unfold ended in He. rewrite He, (tx_bind_run _ _ _ _ _ Hu). cbn [negb Z.eqb Pos.eqb].
  tell_event Hev.
Qed.

Lemma fail_runs n s v code db : sound n db → run_at c s v db → live s = true →
  ∃ db', fail_claimed (env_of n) c code db = (Ok tt, db') ∧ holds (S n) "failed" (v + 1) db'.
Proof.
  intros Hs Hr Hl. apply (found_runs n s); try done; [by apply live_open|].
  intros r Hok Hst. apply (run_ok_on r); rewrite ?Hst; done.
Qed.

Lemma wait_runs n s v code db : sound n db → run_at c s v db → live s = true →
  ∃ db', wait_resource_claimed (env_of n) c code db = (Ok tt, db') ∧ holds (S n) "waiting_resource" (v + 1) db'.
Proof.
  intros Hs Hr Hl. apply (found_runs n s); try done; [by apply live_open|]. intros r Hok _. by apply run_ok_wait.
Qed.

(** The release leaves the queue item settled and takes the lease. *)
Lemma release_runs db : wf db → ∃ db', release_claimed c db = (Ok tt, db') ∧ agent_runs db' = agent_runs db ∧
  (∀ q, q ∈ queue db' → q_id q = cl_queue_id c → q_status q ∈ ["completed"; "cancelled"]) ∧
  (∀ l, l ∈ leases db' → l_id l ≠ cl_lease_id c).
Proof.
  intros Hwf. unfold release_claimed. pose proof (wf_queue _ Hwf) as Hq. unfold table_ok in Hq.
  apply andb_true_iff in Hq as [Hrows Hcl].
  assert (∃ n, update (λ q, q_id q =? cl_queue_id c) released db =
    (Ok n, set_rows (updated (λ q, q_id q =? cl_queue_id c) released (queue db)) db)) as [n Hu].
  { eexists. apply update_ok. split_and!; [| |done..].
    - rewrite forallb_forall in *. intros x (y & <- & Hy)%in_map_iff. apply filter_In in Hy as [Hy _].
      specialize (Hrows y Hy). simpl in *. unfold queue_ok, released in *. simpl. andbs; try done. by destruct (q_status y =? "cancelled")%string.
    - assert (∀ x, active (released x) = false) as Hrel by (intros x; unfold active, released; simpl; by case_match).
      apply no_clash_updated_le; [| |done]; intros a b _; simpl; unfold queue_clash; rewrite Hrel;
        rewrite ?andb_false_r, ?orb_false_r; simpl; intros ->; done. }
  rewrite (tx_bind_run _ _ _ _ _ Hu). eexists. split; [reflexivity|]. split_and!; [done| |].
  - intros q Hin Hid. apply elem_updated in Hin as [[_ Hne]|(q' & _ & _ & ->)].
    + by rewrite Hid, String.eqb_refl in Hne.
    + unfold released. simpl. case_match; [right; left|left].
  - intros l [_ Hne]%elem_where. simpl in Hne. by apply String.eqb_neq, negb_true_iff.
Qed.

(** ** The worker *)

Section Worker.
Context {D : Type} `{!Lens D DB} (task_version : D → string → string → option Z)
  (bus : option (string → string → Z → tx D unit)) (which : string → bool) (work : Run → D → result ProcessResult).

(** The start of a task writes no run, uses no identifier of the worker's, and does not stop it;
    nor does the adapter. *)
Hypothesis bus_apart : ∀ n dispatch company task version d, bus = Some dispatch →
  match dispatch company task version d with
  | (Ok _, d') => agent_runs (view d') = agent_runs (view d) ∧ (sound n (view d) → sound n (view d'))
  | (Err e, _) => plain e = true
  end.
Hypothesis work_plain : ∀ run d e, work run d = Err e → plain e = true.

(** An outcome of the worker: a result, or an exception while the run is still under way. *)
Definition outcome {A} (P : A → Worker (D := D) → Prop) (x : result A * Worker) : Prop :=
  match x with
  | (Ok a, w) => P a w
  | (Err e, w) => plain e = true ∧ ∃ s v, live s = true ∧ holds (turn w) s v (view (base w))
  end.

Lemma outcome_bind {A B} P (Q : B → Worker → Prop) (m : tx Worker A) k w :
  outcome P (m w) → (∀ a w', P a w' → outcome Q (k a w')) → outcome Q ((m ≫= k) w).
Proof. unfold mbind, tx_bind. destruct (m w) as [[a|e] w']; [|done]. intros H Hk. by apply Hk. Qed.

Notation access := (access (λ _ d, d) (λ _, None) env_of).

(** What a transaction does, the worker sees; after an exception it goes on where it was. *)
Lemma access_outcome {A} (m : Env → tx D A) (w : Worker) s v (P : A → nat → DB → Prop) :
  live s = true → holds (turn w) s v (view (base w)) →
  match m (env_of (turn w)) (base w) with
  | (Ok a, d') => P a (S (turn w)) (view d')
  | (Err e, _) => plain e = true
  end → outcome (λ a w', P a (turn w') (view (base w'))) (access m w).
Proof.
  intros Hl [Hs Hr] H. unfold RunExecutor.access, atomically. destruct (m _ _) as [[a|e] d']; [done|].
  split; [done|]. exists s, v. split; [done|]. split; [|done]. apply (sound_later (turn w)); [simpl; lia|done].
Qed.

Lemma start_task_apart n t (d : D) :
  match start_task task_version bus c t d with
  | (Ok _, d') => agent_runs (view d') = agent_runs (view d) ∧ (sound n (view d) → sound n (view d'))
  | (Err e, _) => plain e = true
  end.
Proof.
  unfold start_task. destruct (t =? "running"); [|done]. destruct (cl_employee_task_id c) as [task|]; [|done].
  unfold found. destruct bus as [dispatch|] eqn:Hb; [|done]. unfold mbind, tx_bind, gets. simpl.
  destruct (task_version _ _ _) as [v|]; [|done]. simpl. by apply bus_apart.
Qed.

Lemma transition_runs n s t v started extra (d : D) : (s, t) ∈ first_moves → holds n s v (view d) →
  match transition task_version bus (env_of n) c s t v started extra d with
  | (Ok b, d') => b = true ∧ holds (S n) t (v + 1) (view d')
  | (Err e, _) => plain e = true
  end.
Proof.
  intros Hst [Hs Hr].
  assert (live s = true ∧ live t = true) as [Hls Hlt] by (elem_cases Hst; by injection Hst as -> ->).
  unfold transition. unfold mbind at 1, tx_bind at 1.
  pose proof (start_task_apart n t d) as Ha. destruct (start_task _ _ _ _ d) as [[u|e] d1]; [|done].
  destruct Ha as [Er Hs1]. specialize (Hs1 Hs).
  destruct (move_runs n s v (moved_run t started (_now (env_of n))) t (view d1) Hs1) as (db1 & Hu & Hev).
  { unfold run_at. by rewrite Er. }
  { done. }
  { intros r Hok Hrs. apply (run_ok_on r); rewrite ?Hrs; try done. cbn [r_status moved_run]. by rewrite Hlt. }
  rewrite (tx_bind_run _ _ _ _ _ (zoom_run _ _ _ _ Hu)). cbn [negb Z.eqb Pos.eqb].
  match goal with |- context [run_event _ _ ?ty ?payload] =>
    edestruct (Hev ty payload) as (db2 & H & Hh); [split; [reflexivity|]|reflexivity|] end.
  { intros Hty. exfalso. elem_cases Hst; injection Hst as -> ->; done. }
  erewrite tx_bind_run; [|apply zoom_run; rewrite view_put; exact H]. cbn. by rewrite view_put.
Qed.

Lemma transition_outcome s t v started extra w : (s, t) ∈ first_moves → holds (turn w) s v (view (base w)) →
  outcome (λ b w', b = true ∧ holds (turn w') t (v + 1) (view (base w')))
    (access (λ env, transition task_version bus env c s t v (started env) extra) w).
Proof.
  intros Hst Hh. apply (access_outcome _ w s v (λ b n db, b = true ∧ holds n t (v + 1) db)); [|done|].
  - elem_cases Hst; by injection Hst as -> ->.
  - by apply (transition_runs (turn w)).
Qed.

(** The run is over, or put off. *)
Definition settled (s : string) : bool := ended s || (s =? "waiting_resource").
Definition settles (w : Worker (D := D)) : Prop :=
  ∃ s v, settled s = true ∧ holds (turn w) s v (view (base w)).

Lemma start_outcome run w : (r_status run ∈? ["queued"; "running"]) = true → at_state c (r_status run) (r_version run) run = true →
  holds (turn w) (r_status run) (r_version run) (view (base w)) →
  outcome (λ o w', ∃ v, o = Some v ∧ holds (turn w') "running" v (view (base w')))
    (start_run task_version bus (λ _ d, d) (λ _, None) env_of c run w).
Proof.
  intros Hst Hat Hh. unfold start_run. destruct (r_status run =? "queued") eqn:Eq.
  - apply String.eqb_eq in Eq as Eq'. rewrite Eq' in Hh. clear Hst Hat.
    eapply outcome_bind; [apply (transition_outcome "queued" "probing" _ (λ _, None)); [by left|exact Hh]|].
    intros b w1 [-> H1]. cbn [negb].
    eapply outcome_bind; [apply (transition_outcome "probing" "starting" _ (λ _, None)); [right; by left|exact H1]|].
    intros b w2 [-> H2]. cbn [negb].
    eapply outcome_bind; [apply (transition_outcome "starting" "running" (r_version run + 2) (λ env, Some (_now env)));
      [right; right; by left|by rewrite <-Z.add_assoc in H2]|].
    intros b w3 [-> H3]. exists (r_version run + 3). split; [done|]. by rewrite <-!Z.add_assoc in H3.
  - destruct (r_status run =? "running") eqn:Er; cycle 1.
    { pose proof (mem_all (λ s, (s =? "queued") || (s =? "running")) _ _ Hst eq_refl) as H. cbv beta in H.
      by rewrite Eq, Er in H. }
    apply String.eqb_eq in Er. rewrite Er in Hh. by exists (r_version run).
Qed.

Lemma fail_outcome code w s v : live s = true → holds (turn w) s v (view (base w)) →
  outcome (λ _, settles) (fail_with (λ _ d, d) (λ _, None) env_of c code w).
Proof.
  intros Hl Hh. eapply (access_outcome _ w s v (λ _ n db, ∃ s v, settled s = true ∧ holds n s v db)); [done|done|].
  destruct Hh as [Hs Hr]. destruct (fail_runs (turn w) s v code (view (base w)) Hs Hr Hl) as (db' & H & Hh).
  rewrite (zoom_run _ _ _ _ H); cbn; rewrite view_put. by exists "failed", (v + 1).
Qed.

Lemma attempt_outcome w run : run ∈ agent_runs (view (base w)) → the_run c run = true →
  (r_status run ∈? ["queued"; "running"]) || ended (r_status run) = true → sound (turn w) (view (base w)) →
  outcome (λ _, settles) (attempt_run task_version bus which (λ _ d, d) (λ _, None) env_of work c w).
Proof.
  intros Hin Hthe Hst Hs. set (w0 := {| turn := S (turn w); base := base w |}).
  assert (holds (turn w0) (r_status run) (r_version run) (view (base w0))) as Hh.
  { split; [by apply (sound_later (turn w)); [simpl; lia|]|]. exists run. split; [done|]. unfold at_state.
    by rewrite Hthe, String.eqb_refl, Z.eqb_refl. }
  assert (attempt_run task_version bus which (λ _ d, d) (λ _, None) env_of work c w =
    (let adapter_type := rj_adapter_type (r_job run) in
      if r_status run ∈? _TERMINAL_RUN then mret tt
      else if negb (_probe_adapter which adapter_type) then fail_with (λ _ d, d) (λ _, None) env_of c "ADAPTER_UNAVAILABLE"
      else
        version ← start_run task_version bus (λ _ d, d) (λ _, None) env_of c run;
        match version with
        | None => mret tt
        | Some v =>
            if adapter_type ∈? ["agent_cli"; "codex_cli"; "claude_code"; "opencode"; "api_model"] then
              done_ ← query (λ _ d, d) (work run);
              result ← lift done_;
              access (λ env, zoom (complete_claimed env c v result))
            else fail_with (λ _ d, d) (λ _, None) env_of c "UNKNOWN_ADAPTER_TYPE"
        end) w0) as ->.
  { destruct (find_unique _ _ _ (table_no_clash _ (wf_runs _ (sd_wf _ _ _ _ Hs))) the_run_key Hin Hthe) as [Hfind _].
    unfold attempt_run. unfold mbind at 1, tx_bind at 1, query at 1.
    by rewrite (Hfind : List.find (the_run c) (agent_runs (view (base w))) = Some run). }
  cbv zeta. change (r_status run ∈? _TERMINAL_RUN) with (ended (r_status run)).
  destruct (ended (r_status run)) eqn:He.
  { exists (r_status run), (r_version run). split; [|done]. unfold settled. by rewrite He. }
  rewrite orb_false_r in Hst.
  assert (live (r_status run) = true) as Hl by exact (mem_all live _ _ Hst eq_refl).
  destruct (negb _); [by eapply fail_outcome|].
  eapply outcome_bind; [apply start_outcome; [done| |exact Hh]|].
  { unfold at_state. by rewrite Hthe, String.eqb_refl, Z.eqb_refl. }
  intros o w1 (v & -> & H1). destruct (rj_adapter_type (r_job run) ∈? _); [|by apply (fail_outcome _ w1 "running" v)].
  destruct H1 as [Hs1 Hr1]. unfold query. unfold mbind at 1, tx_bind at 1. unfold lift, mbind at 1, tx_bind at 1.
  destruct (work run (base w1)) as [res|e] eqn:Hwork.
  - set (w2 := {| turn := S (turn w1); base := base w1 |}).
    assert (holds (turn w2) "running" v (view (base w2))) as Hh2.
    { split; [by apply (sound_later (turn w1)); [simpl; lia|]|done]. }
    eapply (access_outcome _ w2 "running" v (λ _ n db, ∃ s v, settled s = true ∧ holds n s v db)); [done|exact Hh2|].
    destruct Hh2 as [Hs2 Hr2]. destruct (complete_runs (turn w2) v res _ Hs2 Hr2) as (db' & H & Hend).
    rewrite (zoom_run _ _ _ _ H); cbn; rewrite view_put. exists (en_status (ending res)), (v + 1). split; [|done].
    unfold settled. by rewrite ending_ended.
  - split; [by eapply work_plain|]. exists "running", v. split; [done|].
    split; [apply (sound_later (turn w1)); [simpl; lia|done]|done].
Qed.

(** Every plain exception ends in a run that failed or waits. *)
Lemma recover_outcome w e s v : plain e = true → live s = true → holds (turn w) s v (view (base w)) →
  ∃ w', recover_from (λ _ d, d) (λ _, None) env_of c e w = (Ok tt, w') ∧ settles w'.
Proof.
  intros Hp Hl [Hs Hr].
  assert (∃ w', match _resource_wait_failure_code e with
    | Some code => access (λ env, zoom (wait_resource_claimed env c code)) w
    | None => fail_with (λ _ d, d) (λ _, None) env_of c "EXECUTION_ERROR" w
    end = (Ok tt, w') ∧ settles w') as (w' & H & Hw).
  { unfold fail_with, RunExecutor.access, atomically. destruct (_resource_wait_failure_code e) as [code|].
    - destruct (wait_runs (turn w) s v code _ Hs Hr Hl) as (db' & H & Hh). rewrite (zoom_run _ _ _ _ H).
      eexists. split; [done|]. exists "waiting_resource", (v + 1). simpl. by rewrite view_put.
    - destruct (fail_runs (turn w) s v "EXECUTION_ERROR" _ Hs Hr Hl) as (db' & H & Hh). rewrite (zoom_run _ _ _ _ H).
      eexists. split; [done|]. exists "failed", (v + 1). simpl. by rewrite view_put. }
  exists w'. split; [|done]. rewrite <-H. unfold recover_from. destruct e; try done; by destruct (_resource_wait_failure_code _).
Qed.

Lemma execute_settles w run : run ∈ agent_runs (view (base w)) → the_run c run = true →
  (r_status run ∈? ["queued"; "running"]) || ended (r_status run) = true → sound (turn w) (view (base w)) →
  ∃ w', execute_claimed task_version bus which (λ _ d, d) (λ _, None) env_of work c w = (Ok tt, w') ∧
    (∃ s v, settled s = true ∧ run_at c s v (view (base w'))) ∧
    (∀ q, q ∈ queue (view (base w')) → q_id q = cl_queue_id c → q_status q ∈ ["completed"; "cancelled"]) ∧
    (∀ l, l ∈ leases (view (base w')) → l_id l ≠ cl_lease_id c).
Proof.
  intros Hin Hthe Hst Hs. pose proof (attempt_outcome w run Hin Hthe Hst Hs) as Ha.
  assert (∃ w1, (match attempt_run task_version bus which (λ _ d, d) (λ _, None) env_of work c w with
    | (Ok u, w1) => (Ok u, w1)
    | (Err e, w1) => recover_from (λ _ d, d) (λ _, None) env_of c e w1
    end) = (Ok tt, w1) ∧ settles w1) as (w1 & H1 & s & v & Hset & [Hs1 Hr1]).
  { destruct (attempt_run _ _ _ _ _ _ _ _ w) as [[[]|e] w1]; [by exists w1|].
    destruct Ha as (Hp & s & v & Hl & Hh). by eapply recover_outcome. }
  unfold execute_claimed, finally_release. rewrite H1. unfold RunExecutor.access, atomically.
  destruct (release_runs (view (base w1)) (sd_wf _ _ _ _ Hs1)) as (db' & H & Er & Hq & Hl). rewrite (zoom_run _ _ _ _ H).
  eexists. split; [reflexivity|]. cbn. rewrite view_put. split_and!; [|done..]. exists s, v. split; [done|].
  unfold run_at. by rewrite Er.
Qed.
End Worker.
End Settles.

(** C6. An undisturbed worker settles the run it has claimed.  When nobody comes in between, the
    write queue takes every step and nobody stops the worker or the run, then [execute_claimed]
    returns, whatever the adapter does - it may exit with any code, time out or raise any other
    exception - and whether or not the task can be started: the run has ended or waits for a
    resource, its queue item is completed or cancelled, and the lease is gone. *)
Theorem claimed_runs_settle {D} `{!Lens D DB} env_of c task_version
    (bus : option (string → string → Z → tx D unit)) which work (w : Worker (D := D)) run :
  ids_differ env_of →
  (∀ n dispatch company task version d, bus = Some dispatch →
     match dispatch company task version d with
     | (Ok _, d') => agent_runs (view d') = agent_runs (view d) ∧ (sound env_of c n (view d) → sound env_of c n (view d'))
     | (Err e, _) => plain e = true
     end) →
  (∀ run d e, work run d = Err e → plain e = true) →
  sound env_of c (turn w) (view (base w)) →
  run ∈ agent_runs (view (base w)) → the_run c run = true →
  (r_status run ∈? ["queued"; "running"]) || ended (r_status run) = true →
  ∃ w', execute_claimed task_version bus which (λ _ d, d) (λ _, None) env_of work c w = (Ok tt, w') ∧
    (∃ r, r ∈ agent_runs (view (base w')) ∧ the_run c r = true ∧
       (ended (r_status r) = true ∨ r_status r = "waiting_resource")) ∧
    (∀ q, q ∈ queue (view (base w')) → q_id q = cl_queue_id c → q_status q ∈ ["completed"; "cancelled"]) ∧
    (∀ l, l ∈ leases (view (base w')) → l_id l ≠ cl_lease_id c).
Proof.
  intros Hids Hbus Hwork Hs Hin Hthe Hst.
  destruct (execute_settles env_of c Hids task_version bus which work Hbus Hwork w run Hin Hthe Hst Hs)
    as (w' & H & (s & v & Hset & r & Hr & Hat) & Hq & Hl).
  exists w'. split_and!; try done. exists r. apply at_state_spec in Hat as (Hthe' & <- & _). split_and!; try done.
  apply orb_true_iff in Hset as [He|Hw]; [by left|right; by apply String.eqb_eq].
Qed.

(** ** Examples *)

#[local] Existing Instance RunProperties.Demo.whole.

Module Example.
Fixpoint draw (m i : nat) : string := match m with O => Recovery.Demo.tally i | S m => "a" +:+ draw m i end.
Definition env_of (m : nat) : Env := {| now := Scheduler.Demo.noon + Z.of_nat m * 1000000; uuid := draw m |}.
Definition claim : ClaimedRun := {|
  cl_queue_id := "q1"; cl_lease_id := "l1"; cl_job_id := "job1"; cl_run_id := "run1"; cl_company_id := "co1";
  cl_employee_id := "emp"; cl_conversation_id := "conv"; cl_employee_task_id := Some "et" |}.
Definition start : Worker := {| turn := 0; base := RunProperties.Demo.db "queued" "leased" |}.
End Example.

Lemma draws_differ : ids_differ Example.env_of.
Proof.
  intros m i. change (∀ m' i', Example.draw m i = Example.draw m' i' → m = m' ∧ i = i'). induction m as [|m IH]; intros [|m'] i' H.
  - split; [done|]. by apply tally_inj.
  - by destruct i.
  - by destruct i'.
  - injection H as H. by apply IH in H as [-> ->].
Qed.

Lemma claimed_runs_settle_witness :
  let outcome := Err (ValueError "CREDENTIAL_MISSING") in
  ∃ w', execute_claimed (λ _ _ _, None) RunProperties.Demo.bus (λ _, true) (λ _ d, d) (λ _, None) Example.env_of
      (λ _ _, outcome) Example.claim Example.start = (Ok tt, w') ∧
    (∃ r, r ∈ agent_runs (base w') ∧ r_id r = "run1" ∧ (ended (r_status r) = true ∨ r_status r = "waiting_resource")) ∧
    ∀ q, q ∈ queue (base w') → q_id q = "q1" → q_status q ∈ ["completed"; "cancelled"].
Proof.
  intros outcome.
  destruct (claimed_runs_settle Example.env_of Example.claim (λ _ _ _, None) RunProperties.Demo.bus (λ _, true)
    (λ _ _, outcome) Example.start (RunProperties.Demo.with_status "queued" (Scheduler.Demo.run "run1" "co1" "queued")))
    as (w' & H & (r & Hr & Hthe & Hs) & Hq & _).
  - exact draws_differ.
  - by intros n dispatch company task version d [= <-].
  - by intros run d e [= <-].
  - split; [split; by vm_compute|intros m _; split; intros i _ []%not_elem_of_nil|by left].
  - by left.
  - done.
  - done.
  - exists w'. split; [exact H|]. split; [|exact Hq]. exists r. split; [exact Hr|].
    split; [|exact Hs]. unfold the_run in Hthe. apply andb_true_iff in Hthe as [Hid _]. by apply String.eqb_eq in Hid.
Defined.
