(* ===== verification/PyText.v ===== *)
(** * Python text: replacing, splitting, [int(s, base)] and [uuid.UUID(s)]

    [int] and [UUID] on text, as the standard library defines them, for ASCII
    digits (the other Unicode decimal digits [int] accepts are left out). *)

From Stdlib Require Import Ascii.
From S2P Require Import Prelude PyStr.
#[local] Open Scope string_scope.

(** [s.replace(sub, "")] for a non-empty [sub]: [skip] characters of a match remain. *)
Fixpoint remove_from (skip : nat) (sub s : string) : string :=
  match s with
  | EmptyString => EmptyString
  | String c s' =>
      match skip with
      | S k => remove_from k sub s'
      | O => if String.prefix sub s then remove_from (String.length sub - 1) sub s'
             else String c (remove_from 0 sub s')
      end
  end.
Definition remove_all (sub s : string) : string := remove_from 0 sub s.

(** [s.split(sep)] for a one-byte separator *)
Fixpoint split_on (sep : Ascii.ascii) (s : string) : list string :=
  match s with
  | EmptyString => [EmptyString]
  | String c s =>
      if Ascii.eqb c sep then EmptyString :: split_on sep s
      else match split_on sep s with
           | w :: ws => String c w :: ws
           | [] => [String c EmptyString]
           end
  end.

Definition COLON : Ascii.ascii := ":"%char.

(** [s.strip(set)] on bytes *)
Fixpoint drop_set (set : list Ascii.ascii) (l : list Ascii.ascii) : list Ascii.ascii :=
  match l with
  | c :: l' => if existsb (Ascii.eqb c) set then drop_set set l' else l
  | [] => []
  end.
Definition strip_set (set s : string) : string :=
  let set := String.list_ascii_of_string set in
  String.string_of_list_ascii
    (rev (drop_set set (rev (drop_set set (String.list_ascii_of_string s))))).

(** ** [int(s, base)] *)

Definition digit_value (c : Ascii.ascii) : option Z :=
  let n := Z.of_N (Ascii.N_of_ascii c) in
  if (48 <=? n)%Z && (n <=? 57)%Z then Some (n - 48)
  else if (97 <=? n)%Z && (n <=? 122)%Z then Some (n - 87)
  else if (65 <=? n)%Z && (n <=? 90)%Z then Some (n - 55)
  else None.

Definition digit (base : Z) (c : Ascii.ascii) : option Z :=
  d ← digit_value c; if (d <? base)%Z then Some d else None.

(** Digits with single underscores between them; [after] is true right after a digit. *)
Fixpoint digits (base acc : Z) (after : bool) (s : string) : option Z :=
  match s with
  | EmptyString => if after then Some acc else None
  | String c s =>
      if Ascii.eqb c "_"%char then if after then
        match s with EmptyString => None | _ => digits base acc false s end else None
      else d ← digit base c; digits base (acc * base + d) true s
  end.

(** The sign, then for base 16 an optional [0x], which one underscore may follow. *)
Definition prefixed (base : Z) (s : string) : option Z :=
  if (base =? 16)%Z && (String.prefix "0x" s || String.prefix "0X" s)
  then match String.substring 2 (String.length s - 2) s with
       | String "_"%char rest => digits base 0 false rest
       | rest => digits base 0 false rest
       end
  else digits base 0 false s.

Definition py_int (base : Z) (s : string) : option Z :=
  match strip s with
  | String "+"%char rest => prefixed base rest
  | String "-"%char rest => Z.opp <$> prefixed base rest
  | rest => prefixed base rest
  end.

(** ** [uuid.UUID(s)] *)

(** [None] is the [ValueError]. *)
Definition py_uuid (s : string) : option Z :=
  let hex := remove_all "-" (strip_set "{}" (remove_all "uuid:" (remove_all "urn:" s))) in
  if (py_len hex =? 32)%Z
  then n ← py_int 16 hex;
       if (0 <=? n)%Z && (n <? 2 ^ 128)%Z then Some n else None
  else None.

Definition is_uuid (s : string) : bool := match py_uuid s with Some _ => true | None => false end.

Example int_ok : map (py_int 10) ["12"; " -7 "; "1_000"; "1__0"; "_1"; "x"; ""] =
  [Some 12; Some (-7); Some 1000; None; None; None; None].
Proof. reflexivity. Qed.
Example uuid_ok : map is_uuid ["12345678-1234-5678-1234-567812345678";
    "{12345678123456781234567812345678}"; "urn:uuid:12345678-1234-5678-1234-567812345678";
    "1234"; "run:3"] = [true; true; true; false; false].
Proof. vm_compute. reflexivity. Qed.

(** [int(j)]; [int_of_float] is [int] on floats. *)
Definition py_to_int (int_of_float : string → result Z) (j : json) : result Z :=
  match j with
  | JInt n => Ok n
  | JBool b => Ok (if b then 1%Z else 0%Z)
  | JFloat t => int_of_float t
  | JStr s => of_option (py_int 10 s) (ValueError "invalid literal for int()")
  | _ => Err (TypeErr "int() argument")
  end.
