(* ===== verification/Outcomes.v ===== *)
(** * Outcome projection ([routing/outcomes.py])

    How a review, verification or task result becomes a score of a routing
    decision.  The theorem: a projected outcome is recorded at most once per source, with
    the score its event maps to, and an unstable source id is refused before
    anything is written. *)

From S2P Require Import Prelude PyEnum PyFloat PyStr PyText Sql RoutingStore.

(** The score is kept as the float [append] stores. *)
(* [sidecar/ibreeze/routing/outcomes.py:12-18 RouteOutcome] *)
Record RouteOutcome := {
  ro_route_decision_id : string;
  ro_outcome_type : string;
  ro_source_id : string;
  ro_score : float;
  ro_label : string }.

(* [sidecar/ibreeze/routing/outcomes.py:73-91 outcome_for] *)
Definition outcome_for (event : string) (has_blocker : bool) : result (float * string) :=
  let mapping := dict_of [
    ("tool_verified", (f1, "tool_verified"));
    ("tool_rejected", (f0, "tool_rejected"));
    ("verification_passed", (f1, "verification_passed"));
    ("verification_failed", (f0, "verification_failed"));
    ("review_passed", (f1, "review_passed"));
    ("review_needs_changes", (f0_40, "review_needs_changes"));
    ("review_failed", (f0, "review_failed"));
    ("task_succeeded", (f1, "task_succeeded"));
    ("task_failed", (f0, "task_failed"));
    ("task_timed_out", (f0, "task_failed"))] in
  if (event =? "review_passed") && has_blocker then Ok (f0, "review_failed")
  else of_option (dict_get mapping event) (ValueError "ROUTE_OUTCOME_EVENT_INVALID").

(* [sidecar/ibreeze/routing/outcomes.py:101-116 _is_stable_source_id] *)
Definition _is_stable_source_id (source_id : string) : bool :=
  if (source_id =? "") || starts_with "random:" source_id then false
  else if is_uuid source_id then true
  else match split_on COLON source_id with
       | [a; b] =>
           if a =? "" then false
           else is_uuid a && match py_int 10 b with Some n => (0 <? n)%Z | None => false end
       | _ => false
       end.

(* [sidecar/ibreeze/routing/outcomes.py:94-98 project_outcome] *)
Definition project_outcome (route_decision_id outcome_type source_id event : string)
    (has_blocker : bool) : result RouteOutcome :=
  ensure (_is_stable_source_id source_id) (ValueError "ROUTE_OUTCOME_SOURCE_INVALID");;
  '(score, label) ← outcome_for event has_blocker;
  mret {| ro_route_decision_id := route_decision_id; ro_outcome_type := outcome_type;
          ro_source_id := source_id; ro_score := score; ro_label := label |}.

(* [sidecar/ibreeze/routing/outcomes.py:36-57 RouteOutcomeProjector.append] *)
Definition append (now route_decision_id company_id outcome_type source_id event : string)
    (has_blocker : bool) : tx DB bool :=
  outcome ← lift (project_outcome route_decision_id outcome_type source_id event has_blocker);
  record_outcome now (route_decision_id +:+ ":" +:+ outcome_type +:+ ":" +:+ source_id)
    (ro_route_decision_id outcome) company_id (ro_outcome_type outcome) (ro_source_id outcome)
    (ro_score outcome) (ro_label outcome).

(** The scores are probabilities, whatever the event. *)
Lemma outcome_for_bounds event b score label :
  outcome_for event b = Ok (score, label) → fle f0 score && fle score f1 = true.
Proof.
  unfold outcome_for. destruct (_ && _); [by intros [= <- <-]|].
  intros H%of_option_ok. apply dict_get_some_elem, list_elem_of_In in H.
  match type of H with In _ ?l =>
    assert (forallb (λ '(_, (s, _)), fle f0 s && fle s f1) l = true) as Hl by reflexivity end.
  rewrite forallb_forall in Hl. exact (Hl _ H).
Qed.

Lemma append_run now d c ty src event b db :
  append now d c ty src event b db =
    if _is_stable_source_id src then
      match outcome_for event b with
      | Ok (score, label) =>
          record_outcome now (d +:+ ":" +:+ ty +:+ ":" +:+ src) d c ty src score label db
      | Err e => (Err e, db)
      end
    else (Err (ValueError "ROUTE_OUTCOME_SOURCE_INVALID"), db).
Proof.
  unfold append, project_outcome, mbind, tx_bind, lift. destruct (_is_stable_source_id src); [|done].
  cbn. by destruct (outcome_for event b) as [[]|].
Qed.

(** Replaying an event is harmless: [append] refuses an unstable source id (empty,
    [random:...], or neither a UUID nor [<uuid>:<positive>]) and an unknown event
    before it writes; and once it has recorded an outcome for a decision, type and
    source, appending any event for the same three again returns [False] (or refuses the
    event) and changes nothing, even when the verdict has changed since. *)
Lemma append_replay_safe now d c ty src event b db r db' :
  append now d c ty src event b db = (r, db') →
  (_is_stable_source_id src = false →
     r = Err (ValueError "ROUTE_OUTCOME_SOURCE_INVALID") ∧ db' = db) ∧
  (r = Ok true → ∀ now' event' b', (append now' d c ty src event' b' db').1 ≠ Ok true ∧
     (append now' d c ty src event' b' db').2 = db').
Proof.
  rewrite append_run. intros Hrun. split.
  - intros Hsrc. rewrite Hsrc in Hrun. by injection Hrun as <- <-.
  - intros -> now' event' b'. rewrite append_run.
    destruct (_is_stable_source_id src); [|done].
    destruct (outcome_for event b) as [[score label]|e]; [|done].
    destruct (outcome_for event' b') as [[score' label']|e'] eqn:Hof; [|done].
    apply outcome_for_bounds in Hof.
    by rewrite (record_outcome_replay _ _ _ _ _ _ _ _ _ _ Hrun).
Qed.

Lemma append_replay_safe_witness :
  let src := "12345678-1234-5678-1234-567812345678" in
  let db := (append "t" "dec" "co" "review" src "review_passed" false Demo.db3).2 in
  map (λ o, (oc_source_id o, oc_label o)) (route_outcomes db) = [(src, "review_passed")] ∧
  (append "t2" "dec" "co" "review" src "review_failed" true db).2 = db.
Proof.
  intros src db. split; [by vm_compute|].
  apply (append_replay_safe "t" "dec" "co" "review" src "review_passed" false Demo.db3 (Ok true) db);
    by vm_compute.
Defined.
