(* ===== verification/PyIeee.v ===== *)
(** * Float arithmetic

    The operations on the floats of PyFloat: the exact result rounded to the nearest
    double, ties to even, and [round] to a number of decimals.  Results stay below the
    largest double, so nothing overflows; gradual underflow is part of the rounding.

    Rounding is monotone and leaves doubles alone ([rnd_mono], [rnd_exact]); with these
    an inequality between exact values carries over to what the code computes. *)

From Stdlib Require Import QArith Qreduction Qpower Qabs Lqa.
From S2P Require Import Prelude PyFloat PyDecimal.
#[local] Open Scope Q_scope.

Definition two_to (e : Z) : Q := Qpower 2 e.

(** The nearest integer, ties to even. *)
Definition nearest (q : Q) : Z := div_half_even (Qnum q) (Zpos (Qden q)).

(** The [k] with [2^k <= q < 2^(k+1)]. *)
Definition qlog2 (q : Q) : Z :=
  let k := (Z.log2 (Qnum q) - Z.log2 (Zpos (Qden q)))%Z in
  if Qle_bool (two_to k) q then k else (k - 1)%Z.

Definition EMIN : Z := -1074.
Definition expo_of (q : Q) : Z := Z.max EMIN (qlog2 q - 52).
Definition rnd_pos (q : Q) : Q :=
  let e := expo_of q in inject_Z (nearest (q / two_to e)) * two_to e.

(** The double nearest to [q]. *)
Definition rnd (q : Q) : float :=
  Qred (if Qle_bool q 0 then (if Qle_bool 0 q then 0 else - rnd_pos (- q)) else rnd_pos q).

Definition fadd (a b : float) : float := rnd (a + b).
Definition fsub (a b : float) : float := rnd (a - b).
Definition fmul (a b : float) : float := rnd (a * b).
Definition fdiv (a b : float) : float := rnd (a / b).
Definition fmax (a b : float) : float := if flt a b then b else a.
Definition fmin (a b : float) : float := if flt b a then b else a.

(** [round(x, 3)] *)
Definition round3 (x : float) : float :=
  let k := nearest (Qabs.Qabs x * 1000) in
  rnd (if Qle_bool 0 x then inject_Z k / 1000 else inject_Z (- k) / 1000).

(** ** Powers of two *)

Lemma two_to_pos e : 0 < two_to e.
Proof. apply Qpower_0_lt. reflexivity. Qed.

Lemma two_to_add e f : two_to (e + f) == two_to e * two_to f.
Proof. apply Qpower_plus. discriminate. Qed.

Lemma two_to_Z k : (0 <= k)%Z -> two_to k == inject_Z (2 ^ k).
Proof.
  intros Hk. unfold two_to. change 2 with (inject_Z 2).
  rewrite <- (Z2Nat.id k Hk). generalize (Z.to_nat k). intros n. rewrite <- Zpower_Qpower by lia.
  reflexivity.
Qed.

Lemma two_to_mono e f : (e <= f)%Z -> two_to e <= two_to f.
Proof.
  intros H. replace f with (e + (f - e))%Z by lia. rewrite two_to_add.
  rewrite <- (Qmult_1_r (two_to e)) at 1. apply Qmult_le_l; [apply two_to_pos|].
  rewrite two_to_Z by lia. change 1 with (inject_Z 1). rewrite <- Zle_Qle.
  pose proof (Z.pow_pos_nonneg 2 (f - e) ltac:(lia) ltac:(lia)). lia.
Qed.

Lemma two_to_lt_inv e f : two_to e < two_to f -> (e < f)%Z.
Proof.
  intros H. destruct (Z.lt_ge_cases e f) as [?|Hge]; [done|].
  apply two_to_mono in Hge. by destruct (Qlt_not_le _ _ H).
Qed.

(** ** The nearest integer *)

Lemma div_half_even_mono n d n' d' : (0 < d)%Z -> (0 < d')%Z -> (n * d' <= n' * d)%Z ->
  (div_half_even n d <= div_half_even n' d')%Z.
Proof.
  intros Hd Hd' Hle. unfold div_half_even.
  pose proof (Z.div_mod n d ltac:(lia)) as E. pose proof (Z.mod_pos_bound n d Hd) as B.
  pose proof (Z.div_mod n' d' ltac:(lia)) as E'. pose proof (Z.mod_pos_bound n' d' Hd') as B'.
  set (q := (n / d)%Z) in *. set (r := (n mod d)%Z) in *.
  set (q' := (n' / d')%Z) in *. set (r' := (n' mod d')%Z) in *. clearbody q r q' r'.
  assert (q <= q')%Z as Hq.
  { destruct (Z.le_gt_cases q q') as [?|Hgt]; [done|exfalso].
    assert ((q' + 1) * (d * d') <= q * (d * d'))%Z by (apply Z.mul_le_mono_nonneg_r; nia).
    assert (0 <= r * d')%Z by nia. assert (r' * d < d' * d)%Z by nia. nia. }
  destruct (Z.eq_dec q q') as [->|Hne].
  - assert (r * d' <= r' * d)%Z as Hr by nia.
    destruct (Z.ltb_spec (2 * r) d), (Z.ltb_spec (2 * r') d'), (Z.ltb_spec d (2 * r)),
      (Z.ltb_spec d' (2 * r')); try lia; try nia; destruct (Z.even q'); lia || nia.
  - destruct (2 * r <? d)%Z, (2 * r' <? d')%Z, (d <? 2 * r)%Z, (d' <? 2 * r')%Z,
      (Z.even q), (Z.even q'); lia.
Qed.

Lemma nearest_mono p q : p <= q -> (nearest p <= nearest q)%Z.
Proof. intros H. unfold Qle in H. apply div_half_even_mono; lia. Qed.

Lemma div_half_even_exact k d : (0 < d)%Z -> div_half_even (k * d) d = k.
Proof.
  intros Hd. unfold div_half_even. rewrite Z.div_mul, Z.mod_mul by lia.
  destruct (Z.ltb_spec (2 * 0) d); [done|lia].
Qed.

Lemma nearest_Z q k : q == inject_Z k -> nearest q = k.
Proof.
  intros H. unfold Qeq in H. cbn in H. unfold nearest. rewrite Z.mul_1_r in H. rewrite H.
  apply div_half_even_exact. lia.
Qed.

#[export] Instance nearest_proper : Proper (Qeq ==> eq) nearest.
Proof.
  intros p q H. apply Z.le_antisymm; apply nearest_mono; rewrite H; apply Qle_refl.
Qed.

(** ** Exponents *)

Lemma qlog2_spec q : 0 < q -> two_to (qlog2 q) <= q /\ q < two_to (qlog2 q + 1).
Proof.
  destruct q as [n d]. intros Hq. assert (0 < n)%Z as Hn by (unfold Qlt in Hq; simpl in Hq; lia).
  pose proof (Z.log2_spec n Hn) as [Hn1 Hn2]. pose proof (Z.log2_spec (Zpos d) ltac:(lia)) as [Hd1 Hd2].
  pose proof (Z.log2_nonneg n) as Ln. pose proof (Z.log2_nonneg (Zpos d)) as Ld.
  set (a := Z.log2 n) in *. set (b := Z.log2 (Zpos d)) in *.
  assert (Hnd : n # d == inject_Z n / inject_Z (Zpos d)) by apply Qmake_Qdiv.
  assert (0 < inject_Z (Zpos d)) as Hdp by (change 0 with (inject_Z 0); rewrite <- Zlt_Qlt; lia).
  assert (Hlow : two_to (a - b - 1) <= n # d).
  { rewrite Hnd. apply Qle_shift_div_l; [done|].
    apply Qle_trans with (two_to (a - b - 1) * two_to (Z.succ b)).
    - apply Qmult_le_l; [apply two_to_pos|]. rewrite two_to_Z by lia. rewrite <- Zle_Qle. lia.
    - rewrite <- two_to_add. replace (a - b - 1 + Z.succ b)%Z with a by lia.
      rewrite two_to_Z by lia. rewrite <- Zle_Qle. lia. }
  assert (Hhigh : n # d < two_to (a - b + 1)).
  { rewrite Hnd. apply Qlt_shift_div_r; [done|].
    apply Qlt_le_trans with (two_to (Z.succ a)).
    - rewrite two_to_Z by lia. rewrite <- Zlt_Qlt. lia.
    - replace (Z.succ a) with (a - b + 1 + b)%Z by lia. rewrite two_to_add.
      apply Qmult_le_l; [apply two_to_pos|]. rewrite two_to_Z by lia. rewrite <- Zle_Qle. lia. }
  unfold qlog2. simpl Qnum. simpl Qden. fold a b. destruct (Qle_bool _ _) eqn:Hle.
  - apply Qle_bool_iff in Hle. auto.
  - split; [done|]. replace (a - b - 1 + 1)%Z with (a - b)%Z by lia.
    apply Qnot_le_lt. intros H. apply Qle_bool_iff in H. congruence.
Qed.

Lemma qlog2_mono p q : 0 < p -> p <= q -> (qlog2 p <= qlog2 q)%Z.
Proof.
  intros Hp Hpq. destruct (qlog2_spec p Hp) as [H1 _].
  destruct (qlog2_spec q) as [_ H2]; [by eapply Qlt_le_trans|].
  apply Z.lt_succ_r, two_to_lt_inv. unfold Z.succ.
  eapply Qle_lt_trans; [exact H1|]. by eapply Qle_lt_trans.
Qed.

#[export] Instance two_to_eq_proper : Proper (eq ==> Qeq) two_to.
Proof. by intros e f ->. Qed.

(** A double: an integer of at most 53 bits, at an exponent that is not too small. *)
Definition is_double (q : Q) : Prop :=
  exists m e, (0 <= m <= 2 ^ 53)%Z /\ (EMIN <= e)%Z /\ Qabs q == inject_Z m * two_to e.

Lemma scale_le q r e : q <= r * two_to e -> q / two_to e <= r.
Proof. intros H. apply Qle_shift_div_r; [apply two_to_pos|done]. Qed.
Lemma scale_ge q r e : r * two_to e <= q -> r <= q / two_to e.
Proof. intros H. apply Qle_shift_div_l; [apply two_to_pos|done]. Qed.

Lemma scaled_bound q : 0 < q -> (nearest (q / two_to (expo_of q)) <= 2 ^ 53)%Z.
Proof.
  intros Hq. destruct (qlog2_spec q Hq) as [_ H].
  rewrite <- (nearest_Z (inject_Z (2 ^ 53)) (2 ^ 53)) by done. apply nearest_mono, scale_le.
  apply Qlt_le_weak in H. eapply Qle_trans; [exact H|]. rewrite <- two_to_Z, <- two_to_add by lia.
  apply two_to_mono. unfold expo_of. lia.
Qed.

Lemma scaled_large q : 0 < q -> (EMIN < expo_of q)%Z -> (2 ^ 52 <= nearest (q / two_to (expo_of q)))%Z.
Proof.
  intros Hq He. destruct (qlog2_spec q Hq) as [H _].
  rewrite <- (nearest_Z (inject_Z (2 ^ 52)) (2 ^ 52)) by done. apply nearest_mono, scale_ge.
  rewrite <- two_to_Z, <- two_to_add by lia. eapply Qle_trans; [|exact H].
  apply two_to_mono. unfold expo_of in *. lia.
Qed.

Lemma scaled_nonneg q e : 0 <= q -> (0 <= nearest (q / two_to e))%Z.
Proof.
  intros Hq. rewrite <- (nearest_Z 0 0) by done. apply nearest_mono, scale_ge.
  by rewrite Qmult_0_l.
Qed.

Lemma rnd_pos_double q : 0 < q -> is_double (rnd_pos q) /\ 0 <= rnd_pos q.
Proof.
  intros Hq. assert (0 <= rnd_pos q) as H0.
  { unfold rnd_pos. apply Qmult_le_0_compat; [|apply Qlt_le_weak, two_to_pos].
    change 0 with (inject_Z 0). rewrite <- Zle_Qle. apply scaled_nonneg. by apply Qlt_le_weak. }
  split; [|done]. exists (nearest (q / two_to (expo_of q))), (expo_of q).
  split; [split; [apply scaled_nonneg; by apply Qlt_le_weak|by apply scaled_bound]|].
  split; [unfold expo_of; lia|]. rewrite Qabs_pos; [reflexivity|done].
Qed.

Lemma rnd_pos_mono p q : 0 < p -> p <= q -> rnd_pos p <= rnd_pos q.
Proof.
  intros Hp Hpq. assert (0 < q) as Hq by by eapply Qlt_le_trans.
  pose proof (qlog2_mono p q Hp Hpq) as Hl.
  unfold rnd_pos. destruct (Z.eq_dec (expo_of p) (expo_of q)) as [->|Hne].
  - apply Qmult_le_compat_r; [|apply Qlt_le_weak, two_to_pos]. rewrite <- Zle_Qle.
    apply nearest_mono, scale_le. unfold Qdiv.
    rewrite <- Qmult_assoc, (Qmult_comm (/ _)), Qmult_inv_r, Qmult_1_r; [done|].
    intros H. pose proof (two_to_pos (expo_of q)). rewrite H in H0. by apply Qlt_irrefl in H0.
  - assert (expo_of p + 1 <= expo_of q)%Z as He by (unfold expo_of in *; lia).
    assert (EMIN < expo_of q)%Z as Hq' by (unfold expo_of in *; lia).
    pose proof (scaled_bound p Hp) as Hb. pose proof (scaled_large q Hq Hq') as Hlg.
    apply Qle_trans with (inject_Z (2 ^ 52) * two_to (expo_of q)).
    + apply Qle_trans with (inject_Z (2 ^ 53) * two_to (expo_of p)).
      * apply Qmult_le_compat_r; [|apply Qlt_le_weak, two_to_pos]. rewrite <- Zle_Qle. done.
      * rewrite <- !two_to_Z, <- !two_to_add by lia. apply two_to_mono. lia.
    + apply Qmult_le_compat_r; [|apply Qlt_le_weak, two_to_pos]. rewrite <- Zle_Qle. done.
Qed.

Lemma rnd_pos_exact q : 0 < q -> is_double q -> rnd_pos q == q.
Proof.
  intros Hq (m & e & Hm & He & Hd). rewrite Qabs_pos in Hd by by apply Qlt_le_weak.
  destruct (qlog2_spec q Hq) as [Hlo Hhi]. unfold rnd_pos.
  assert (∃ k, q == inject_Z k * two_to (expo_of q)) as [k Hk].
  { destruct (Z.le_gt_cases (expo_of q) e) as [Hle|Hgt].
    - exists (m * 2 ^ (e - expo_of q))%Z. rewrite inject_Z_mult, <- two_to_Z by lia.
      rewrite <- Qmult_assoc, <- two_to_add. by replace (e - expo_of q + expo_of q)%Z with e by lia.
    - assert (expo_of q = qlog2 q - 52)%Z as Heq by (unfold expo_of in *; lia).
      assert (q <= two_to (53 + e)) as Hqe.
      { rewrite Hd, two_to_add. apply Qmult_le_compat_r; [|apply Qlt_le_weak, two_to_pos].
        rewrite two_to_Z by lia. rewrite <- Zle_Qle. apply Hm. }
      assert (qlog2 q < 53 + e + 1)%Z as Hl.
      { apply two_to_lt_inv. eapply Qle_lt_trans; [exact Hlo|]. eapply Qle_lt_trans; [exact Hqe|].
        rewrite (two_to_add (53 + e) 1). rewrite <- (Qmult_1_r (two_to (53 + e))) at 1.
        apply Qmult_lt_l; [apply two_to_pos|reflexivity]. }
      assert (expo_of q = e + 1)%Z as -> by lia.
      exists (2 ^ 52)%Z. rewrite <- two_to_Z, <- two_to_add by lia. apply Qle_antisym.
      + eapply Qle_trans; [exact Hqe|]. apply two_to_mono. lia.
      + eapply Qle_trans; [|exact Hlo]. apply two_to_mono. lia. }
  pose proof (two_to_pos (expo_of q)) as Hp. set (t := two_to (expo_of q)) in *. clearbody t.
  rewrite (nearest_Z _ k); [by symmetry|]. rewrite Hk.
  unfold Qdiv. rewrite <- Qmult_assoc, Qmult_inv_r, Qmult_1_r; [done|].
  intros H. rewrite H in Hp. by apply Qlt_irrefl in Hp.
Qed.

(** ** Rounding *)

Lemma rnd_cases (P : Q -> Q -> Prop) :
  Proper (eq ==> Qeq ==> iff) P ->
  (forall q, q == 0 -> P q 0) -> (forall q, 0 < q -> P q (rnd_pos q)) ->
  (forall q, q < 0 -> P q (- rnd_pos (- q))) -> forall q, P q (rnd q).
Proof.
  intros HP Hz Hp Hn q. unfold rnd.
  destruct (Qle_bool q 0) eqn:H1; [destruct (Qle_bool 0 q) eqn:H2|].
  - apply Qle_bool_iff in H1, H2. rewrite Qred_correct. apply Hz. by apply Qle_antisym.
  - rewrite Qred_correct. apply Hn. apply Qnot_le_lt. intros H%Qle_bool_iff. congruence.
  - rewrite Qred_correct. apply Hp. apply Qnot_le_lt. intros H%Qle_bool_iff. congruence.
Qed.

Lemma rnd_nonneg q : 0 <= q -> 0 <= rnd q.
Proof.
  revert q. apply (rnd_cases (λ q r, 0 <= q -> 0 <= r)).
  - by intros q ? <- r r' ->.
  - intros _ _ _. apply Qle_refl.
  - intros q Hq _. by apply rnd_pos_double.
  - intros q Hq H. by apply Qlt_not_le in H.
Qed.

Lemma rnd_nonpos q : q <= 0 -> rnd q <= 0.
Proof.
  revert q. apply (rnd_cases (λ q r, q <= 0 -> r <= 0)).
  - by intros q ? <- r r' ->.
  - intros _ _ _. apply Qle_refl.
  - intros q Hq H. by apply Qlt_not_le in H.
  - intros q Hq _. assert (0 < - q) as Hn by lra.
    destruct (rnd_pos_double _ Hn) as [_ H]. lra.
Qed.

Lemma rnd_of_pos q : 0 < q -> rnd q == rnd_pos q.
Proof.
  intros Hq. unfold rnd. destruct (Qle_bool q 0) eqn:H; [|apply Qred_correct].
  apply Qle_bool_iff in H. by apply Qlt_not_le in H.
Qed.

Lemma rnd_of_neg q : q < 0 -> rnd q == - rnd_pos (- q).
Proof.
  intros Hq. unfold rnd. destruct (Qle_bool q 0) eqn:H; [destruct (Qle_bool 0 q) eqn:H'|].
  - apply Qle_bool_iff in H'. by apply Qlt_not_le in H'.
  - apply Qred_correct.
  - exfalso. apply Qlt_le_weak, Qle_bool_iff in Hq. congruence.
Qed.

Lemma rnd_mono p q : p <= q -> rnd p <= rnd q.
Proof.
  intros Hpq. destruct (Qlt_le_dec 0 p) as [Hp|Hp].
  - rewrite !rnd_of_pos; [by apply rnd_pos_mono|by eapply Qlt_le_trans|done].
  - destruct (Qlt_le_dec q 0) as [Hq|Hq].
    + rewrite !rnd_of_neg by lra. apply Qopp_le_compat, rnd_pos_mono; lra.
    + eapply Qle_trans; [by apply rnd_nonpos|by apply rnd_nonneg].
Qed.

#[export] Instance rnd_proper : Proper (Qeq ==> Qeq) rnd.
Proof. intros p q H. apply Qle_antisym; apply rnd_mono; rewrite H; apply Qle_refl. Qed.

Lemma is_double_opp q : is_double q -> is_double (- q).
Proof. intros (m & e & H). exists m, e. by rewrite Qabs_opp. Qed.

Lemma rnd_double q : is_double (rnd q).
Proof.
  revert q. apply (rnd_cases (λ q r, is_double r)).
  - intros q ? <- r r' Hr. split; intros (m & e & H1 & H2 & H3); exists m, e;
      (split; [done|split; [done|]]); [by rewrite <- Hr|by rewrite Hr].
  - intros _ _. exists 0%Z, 0%Z. split; [lia|]. split; [unfold EMIN; lia|]. reflexivity.
  - intros q Hq. by apply rnd_pos_double.
  - intros q Hq. apply is_double_opp, rnd_pos_double. lra.
Qed.

Lemma rnd_exact q : is_double q -> rnd q == q.
Proof.
  revert q. apply (rnd_cases (λ q r, is_double q -> r == q)).
  - by intros q ? <- r r' ->.
  - intros q Hq _. by symmetry.
  - intros q Hq Hd. by apply rnd_pos_exact.
  - intros q Hq Hd. rewrite rnd_pos_exact; [ring|lra|by apply is_double_opp].
Qed.

(** What lies between doubles stays there. *)
Lemma rnd_between a b q : is_double a -> is_double b -> a <= q -> q <= b -> a <= rnd q /\ rnd q <= b.
Proof.
  intros Ha Hb H1 H2. split.
  - rewrite <- (rnd_exact a Ha). by apply rnd_mono.
  - rewrite <- (rnd_exact b Hb). by apply rnd_mono.
Qed.

Lemma double_0 : is_double 0.
Proof. exists 0%Z, 0%Z. split; [lia|]. split; [unfold EMIN; lia|reflexivity]. Qed.
Lemma double_1 : is_double 1.
Proof. exists 1%Z, 0%Z. split; [lia|]. split; [unfold EMIN; lia|reflexivity]. Qed.

(** ** [round] *)

Lemma round3_nonneg x : 0 <= x -> round3 x = rnd (inject_Z (nearest (x * 1000)) / 1000).
Proof.
  intros Hx. unfold round3. destruct (Qle_bool 0 x) eqn:H.
  - by rewrite Qabs_pos.
  - apply Qle_bool_iff in Hx. congruence.
Qed.

Lemma round3_mono x y : 0 <= x -> x <= y -> round3 x <= round3 y.
Proof.
  intros Hx Hxy. rewrite !round3_nonneg by (done || by eapply Qle_trans).
  apply rnd_mono. apply Qmult_le_compat_r; [|discriminate]. rewrite <- Zle_Qle. apply nearest_mono.
  by apply Qmult_le_compat_r.
Qed.

Lemma round3_le x k : 0 <= x -> x <= inject_Z k / 1000 -> round3 x <= rnd (inject_Z k / 1000).
Proof.
  intros Hx Hk. rewrite round3_nonneg by done. apply rnd_mono, Qmult_le_compat_r; [|discriminate].
  rewrite <- Zle_Qle. rewrite <- (nearest_Z (inject_Z k) k) by done. apply nearest_mono.
  apply (Qmult_le_compat_r _ _ 1000) in Hk; [|discriminate].
  eapply Qle_trans; [exact Hk|]. field_simplify. apply Qle_refl.
Qed.

Lemma round3_ge x k : 0 <= x -> inject_Z k / 1000 <= x -> rnd (inject_Z k / 1000) <= round3 x.
Proof.
  intros Hx Hk. rewrite round3_nonneg by done. apply rnd_mono, Qmult_le_compat_r; [|discriminate].
  rewrite <- Zle_Qle. rewrite <- (nearest_Z (inject_Z k) k) by done. apply nearest_mono.
  apply (Qmult_le_compat_r _ _ 1000) in Hk; [|discriminate].
  eapply Qle_trans; [|exact Hk]. field_simplify. apply Qle_refl.
Qed.

(** Addition and its companions on the literals. *)
Example float_sum : fadd (rnd (1 # 10)) (rnd (2 # 10)) = rnd (30000000000000004 # 100000000000000000).
Proof. vm_compute. reflexivity. Qed.
Example f0_70_is : rnd (7 # 10) = f0_70.
Proof. vm_compute. reflexivity. Qed.
Example f0_30_is : rnd (3 # 10) = f0_30.
Proof. vm_compute. reflexivity. Qed.
Example round3_down : round3 (rnd (2675 # 1000000)) = rnd (3 # 1000).
Proof. vm_compute. reflexivity. Qed.
