(* ===== verification/ReviewStore.v ===== *)
(** * Reviews: tables, entities and repository

    [domain/review/entities.py] and [domain/review/repository.py] over the review
    tables of the schema with their constraints.  A [UUID] is its canonical text, which
    is what every id column holds.  [evidence_refs_json] is JSON by its [CHECK]. *)

From S2P Require Import Prelude PyEnum PyStr PyFloat Sql DomainState UnitOfWork.
From S2P Require RoutingStore.

Module RS := RoutingStore.

(** ** Rows *)

Record AssignmentRow := {
  as_id : string;
  as_company_id : string;
  as_artifact_id : string;
  as_reviewer_employee_id : string;
  as_review_round : Z;
  as_reviewed_sha256 : string;
  as_status : string;
  as_assigned_at : string;
  as_submitted_at : option string;
  as_version : Z }.

Record ReportRow := {
  rp_id : string;
  rp_company_id : string;
  rp_assignment_id : string;
  rp_reviewer_run_id : string;
  rp_reviewed_artifact_id : string;
  rp_reviewed_sha256 : string;
  rp_verdict : string;
  rp_report_artifact_id : string;
  rp_created_at : string;
  rp_version : Z }.

Record IssueRow := {
  is_id : string;
  is_company_id : string;
  is_review_report_id : string;
  is_severity : string;
  is_category : string;
  is_description : string;
  is_expected : string;
  is_actual : string;
  is_suggested_fix : string;
  is_evidence_refs : json;
  is_status : string;
  is_assignee : option string;
  is_verifier : option string;
  is_rejection_reason : option string;
  is_superseded_by : option string;
  is_created_at : string;
  is_updated_at : string;
  is_version : Z }.

Record EvidenceRow := {
  ev_id : string;
  ev_company_id : string;
  ev_issue_id : string;
  ev_evidence : json;
  ev_created_at : string }.

Record Artifact := {
  ar_id : string;
  ar_company_id : string;
  ar_company_task_id : string;
  ar_artifact_type : string;
  ar_object_sha256 : string;
  ar_is_current : Z;
  ar_created_by_type : string;
  ar_created_by_run_id : option string;
  ar_logical_name : string;
  ar_object_size : Z;
  ar_media_type : string;
  ar_metadata : json;
  ar_supersedes_artifact_id : option string;
  ar_created_at : string }.

Record Employee := {
  em_id : string;
  em_company_id : string;
  em_status : string;
  em_department_id : string;
  em_base_profile_version_id : string }.

Record ReviewRun := {
  rn_id : string;
  rn_company_id : string;
  rn_employee_id : string;
  rn_run_purpose : string;
  rn_status : string;
  rn_company_task_id : string;
  rn_department_task_id : option string;
  rn_employee_task_id : option string;
  rn_work_item_id : string;
  rn_conversation_id : string;
  rn_availability_snapshot_id : string;
  rn_execution_snapshot_id : string;
  rn_adapter_type : string;
  rn_run_spec : json;
  rn_attempt : Z;
  rn_created_at : string }.

(** What the aggregation keeps: the score of every report, the record of every reviewer,
    the verdict on every artifact; and what a deliverable asks of its reviews. *)

Record ScoreRow := {
  sc_report_id : string;
  sc_assignment_id : string;
  sc_artifact_id : string;
  sc_company_id : string;
  sc_reviewer_employee_id : string;
  sc_verdict : string;
  sc_severity_max : string;
  sc_issue_count : Z;
  sc_weight : float;
  sc_accuracy_contribution : option float;
  sc_credited : Z;
  sc_scored_at : string }.

Record StatsRow := {
  st_company_id : string;
  st_reviewer_employee_id : string;
  st_reviews_completed : Z;
  st_reviews_with_issues : Z;
  st_accuracy : float;
  st_sample_count : Z;
  st_last_review_at : string }.

Record VerdictRow := {
  vd_company_id : string;
  vd_artifact_id : string;
  vd_artifact_sha256 : string;
  vd_verdict : string;
  vd_confidence : float;
  vd_hard_veto_triggered : Z;
  vd_rerun_exhausted : Z;
  vd_score : json;
  vd_updated_at : string }.

Record SpecRow := {
  sp_id : string;
  sp_company_id : string;
  sp_company_task_id : string;
  sp_artifact_type : string;
  sp_review_rounds : Z;
  sp_confidence_threshold : float;
  sp_department_task_id : string;
  sp_review_strategy : string;
  sp_contributor_employee_ids : json;
  sp_reviewer_employee_ids : json }.

Record Ledger := {
  review_report_scores : list ScoreRow;
  reviewer_stats : list StatsRow;
  review_verdicts : list VerdictRow;
  deliverable_review_specs : list SpecRow }.

Record DB := {
  review_assignments : list AssignmentRow;
  review_reports : list ReportRow;
  review_issues : list IssueRow;
  resolution_evidence : list EvidenceRow;
  idem_rows : list IdemRow;
  event_rows : list EventRow;
  outbox_rows : list OutboxRow;
  routing : RS.DB;
  artifacts : list Artifact;
  artifact_contributors : list (string * string * string);   (** artifact, company, employee *)
  employees : list Employee;
  agent_runs : list ReviewRun;
  companies : list string;
  ledger : Ledger }.


(** ** Constraints *)

Definition opt_in (o : option string) (l : list string) : bool :=
  match o with Some s => s ∈? l | None => true end.

Definition employee_refs (db : DB) : list (string * string) :=
  map (λ e, (em_id e, em_company_id e)) (employees db).
Definition artifact_refs (db : DB) : list (string * string) :=
  map (λ a, (ar_id a, ar_company_id a)) (artifacts db).

Definition assignment_ok (a : AssignmentRow) : bool :=
  (0 <? as_review_round a)%Z && (py_len (as_reviewed_sha256 a) =? 64)%Z &&
  (as_status a ∈? ["assigned"; "in_review"; "submitted"; "stale"; "cancelled"]).
Definition assignment_clash (a b : AssignmentRow) : bool :=
  (as_id a =? as_id b) ||
  ((as_artifact_id a =? as_artifact_id b) &&
   (as_reviewer_employee_id a =? as_reviewer_employee_id b) &&
   (as_review_round a =? as_review_round b)%Z).
Definition assignment_refs (db : DB) (a : AssignmentRow) : bool :=
  ((as_artifact_id a, as_company_id a) ∈? artifact_refs db) &&
  ((as_reviewer_employee_id a, as_company_id a) ∈? employee_refs db).

Definition report_ok (r : ReportRow) : bool :=
  (py_len (rp_reviewed_sha256 r) =? 64)%Z && (rp_verdict r ∈? ["pass"; "needs_changes"; "failed"]).
Definition report_clash (a b : ReportRow) : bool :=
  (rp_id a =? rp_id b) || (rp_assignment_id a =? rp_assignment_id b).
Definition report_refs (db : DB) (r : ReportRow) : bool :=
  ((rp_assignment_id r, rp_company_id r) ∈?
     map (λ a, (as_id a, as_company_id a)) (review_assignments db)) &&
  ((rp_reviewer_run_id r, rp_company_id r) ∈?
     map (λ r, (rn_id r, rn_company_id r)) (agent_runs db)) &&
  ((rp_reviewed_artifact_id r, rp_company_id r) ∈? artifact_refs db) &&
  ((rp_report_artifact_id r, rp_company_id r) ∈? artifact_refs db).

Definition issue_ok (i : IssueRow) : bool :=
  (is_severity i ∈? ["blocker"; "high"; "medium"; "low"]) &&
  (is_status i ∈? ["open"; "fixing"; "resolved"; "verified"; "closed"; "rejected"]) &&
  (negb (is_status i =? "rejected") ||
   ((is_severity i ∈? ["medium"; "low"]) && negb (is_rejection_reason i =?o None))).
Definition opt_ref (o : option string) (company : string) (l : list (string * string)) : bool :=
  match o with Some e => (e, company) ∈? l | None => true end.
Definition issue_refs (db : DB) (i : IssueRow) : bool :=
  ((is_review_report_id i, is_company_id i) ∈?
     map (λ r, (rp_id r, rp_company_id r)) (review_reports db)) &&
  opt_ref (is_assignee i) (is_company_id i) (employee_refs db) &&
  opt_ref (is_verifier i) (is_company_id i) (employee_refs db) &&
  opt_ref (is_superseded_by i) (is_company_id i) (artifact_refs db).

Ltac solve_lens := intros; repeat match goal with db : DB |- _ => destruct db end; reflexivity.

#[export] Program Instance assignments_table : Table DB AssignmentRow := {|
  table_name := "review_assignments"; rows := review_assignments;
  set_rows l db := {|
    review_assignments := l; review_reports := review_reports db;
    review_issues := review_issues db; resolution_evidence := resolution_evidence db;
    idem_rows := idem_rows db; event_rows := event_rows db; outbox_rows := outbox_rows db;
    routing := routing db; artifacts := artifacts db;
    artifact_contributors := artifact_contributors db; employees := employees db;
    agent_runs := agent_runs db; companies := companies db;
    ledger := ledger db |};
  row_ok := assignment_ok;
  clash := assignment_clash;
  refs_ok := assignment_refs |}.
Solve All Obligations with solve_lens.

#[export] Program Instance reports_table : Table DB ReportRow := {|
  table_name := "review_reports"; rows := review_reports;
  set_rows l db := {|
    review_assignments := review_assignments db; review_reports := l;
    review_issues := review_issues db; resolution_evidence := resolution_evidence db;
    idem_rows := idem_rows db; event_rows := event_rows db; outbox_rows := outbox_rows db;
    routing := routing db; artifacts := artifacts db;
    artifact_contributors := artifact_contributors db; employees := employees db;
    agent_runs := agent_runs db; companies := companies db;
    ledger := ledger db |};
  row_ok := report_ok;
  clash := report_clash;
  refs_ok := report_refs |}.
Solve All Obligations with solve_lens.

#[export] Program Instance issues_table : Table DB IssueRow := {|
  table_name := "review_issues"; rows := review_issues;
  set_rows l db := {|
    review_assignments := review_assignments db; review_reports := review_reports db;
    review_issues := l; resolution_evidence := resolution_evidence db;
    idem_rows := idem_rows db; event_rows := event_rows db; outbox_rows := outbox_rows db;
    routing := routing db; artifacts := artifacts db;
    artifact_contributors := artifact_contributors db; employees := employees db;
    agent_runs := agent_runs db; companies := companies db;
    ledger := ledger db |};
  row_ok := issue_ok;
  clash := λ a b, is_id a =? is_id b;
  refs_ok := issue_refs |}.
Solve All Obligations with solve_lens.

#[export] Program Instance evidence_table : Table DB EvidenceRow := {|
  table_name := "resolution_evidence"; rows := resolution_evidence;
  set_rows l db := {|
    review_assignments := review_assignments db; review_reports := review_reports db;
    review_issues := review_issues db; resolution_evidence := l; idem_rows := idem_rows db;
    event_rows := event_rows db; outbox_rows := outbox_rows db; routing := routing db;
    artifacts := artifacts db; artifact_contributors := artifact_contributors db;
    employees := employees db; agent_runs := agent_runs db; companies := companies db;
    ledger := ledger db |};
  row_ok := λ _, true;
  clash := λ a b, ev_id a =? ev_id b;
  refs_ok := λ db e, existsb (λ i, (is_id i =? ev_issue_id e) && (is_company_id i =? ev_company_id e))
    (review_issues db) |}.
Solve All Obligations with solve_lens.

#[export] Program Instance idem_rows_table : Table DB IdemRow := {|
  table_name := "idempotency_records"; rows := idem_rows;
  set_rows l db := {|
    review_assignments := review_assignments db; review_reports := review_reports db;
    review_issues := review_issues db; resolution_evidence := resolution_evidence db;
    idem_rows := l; event_rows := event_rows db; outbox_rows := outbox_rows db;
    routing := routing db; artifacts := artifacts db;
    artifact_contributors := artifact_contributors db; employees := employees db;
    agent_runs := agent_runs db; companies := companies db;
    ledger := ledger db |};
  row_ok := λ r, idem_status r ∈? ["processing"; "completed"; "failed"];
  clash := λ a b, idempotency_key a =? idempotency_key b;
  refs_ok := λ _ _, true |}.
Solve All Obligations with solve_lens.

#[export] Program Instance event_rows_table : Table DB EventRow := {|
  table_name := "domain_events"; rows := event_rows;
  set_rows l db := {|
    review_assignments := review_assignments db; review_reports := review_reports db;
    review_issues := review_issues db; resolution_evidence := resolution_evidence db;
    idem_rows := idem_rows db; event_rows := l; outbox_rows := outbox_rows db;
    routing := routing db; artifacts := artifacts db;
    artifact_contributors := artifact_contributors db; employees := employees db;
    agent_runs := agent_runs db; companies := companies db;
    ledger := ledger db |};
  row_ok := λ e, negb (company_id (ev_event e) =?o None);
  clash := λ a b, event_id (ev_event a) =? event_id (ev_event b);
  refs_ok := λ db e, opt_in (company_id (ev_event e)) (companies db) |}.
Solve All Obligations with solve_lens.

#[export] Program Instance outbox_rows_table : Table DB OutboxRow := {|
  table_name := "outbox_events"; rows := outbox_rows;
  set_rows l db := {|
    review_assignments := review_assignments db; review_reports := review_reports db;
    review_issues := review_issues db; resolution_evidence := resolution_evidence db;
    idem_rows := idem_rows db; event_rows := event_rows db; outbox_rows := l;
    routing := routing db; artifacts := artifacts db;
    artifact_contributors := artifact_contributors db; employees := employees db;
    agent_runs := agent_runs db; companies := companies db;
    ledger := ledger db |};
  row_ok := λ o, ob_status o ∈? ["pending"; "processing"; "delivered"; "failed"];
  clash := λ a b, ob_id a =? ob_id b;
  refs_ok := λ db o, ob_domain_event_id o ∈? map (λ e, event_id (ev_event e)) (event_rows db) |}.
Solve All Obligations with solve_lens.


#[export] Program Instance review_event_db : EventDb DB := {|
  idem_table := idem_rows_table; event_table := event_rows_table;
  outbox_table := outbox_rows_table |}.
Solve All Obligations with intros; done.

(** The routing tables of the same database. *)
Definition on_routing {A} (m : tx RS.DB A) : tx DB A := λ db,
  let '(r, routing') := m (routing db) in
  (r, {|
    review_assignments := review_assignments db; review_reports := review_reports db;
    review_issues := review_issues db; resolution_evidence := resolution_evidence db;
    idem_rows := idem_rows db; event_rows := event_rows db; outbox_rows := outbox_rows db;
    routing := routing'; artifacts := artifacts db;
    artifact_contributors := artifact_contributors db; employees := employees db;
    agent_runs := agent_runs db; companies := companies db;
    ledger := ledger db |}).

(** ** domain/review/entities.py *)

(* [sidecar/ibreeze/domain/review/entities.py:8-16 ReviewAssignment] *)
Record ReviewAssignment := {
  ra_id : string;
  ra_company_id : string;
  ra_artifact_id : string;
  ra_artifact_sha256 : string;
  ra_reviewer_employee_id : string;
  ra_state : string;
  ra_version : Z }.

(* [sidecar/ibreeze/domain/review/entities.py:19-28 ReviewReport] *)
Record ReviewReport := {
  rr_id : string;
  rr_company_id : string;
  rr_assignment_id : string;
  rr_reviewer_run_id : string;
  rr_reviewed_artifact_id : string;
  rr_reviewed_sha256 : string;
  rr_verdict : string;
  rr_version : Z }.

(* [sidecar/ibreeze/domain/review/entities.py:31-52 ReviewIssue] *)
Record ReviewIssue := {
  ri_id : string;
  ri_company_id : string;
  ri_severity : string;
  ri_category : string;
  ri_state : string;
  ri_version : Z;
  ri_assignee_employee_id : option string;
  ri_evidence_refs : list json;
  ri_verifier_employee_id : option string;
  ri_rejection_reason : option string }.

(** ** domain/review/repository.py *)

Section Repository.
Context (env : Ambient).

Definition assignment_of (r : AssignmentRow) : ReviewAssignment := {|
  ra_id := as_id r; ra_company_id := as_company_id r; ra_artifact_id := as_artifact_id r;
  ra_artifact_sha256 := as_reviewed_sha256 r;
  ra_reviewer_employee_id := as_reviewer_employee_id r; ra_state := as_status r;
  ra_version := as_version r |}.

(* [sidecar/ibreeze/domain/review/repository.py:120-144 lock_assignment] *)
Definition lock_assignment (assignment_id company_id : string) : tx DB ReviewAssignment :=
  row ← select_one (λ a, (as_id a =? assignment_id) && (as_company_id a =? company_id));
  row ← found row (ValueError "RESOURCE_NOT_FOUND");
  mret (assignment_of row).

(** [tuple(json.loads(text or "[]"))] of valid JSON text *)
Definition json_tuple (j : json) : result (list json) :=
  match j with
  | JList l => Ok l
  | JObj fields => Ok (map (λ kv, JStr kv.1) fields)
  | JStr s => Ok (map JStr (chars s))
  | _ => Err (TypeErr "not iterable")
  end.

(** [except (TypeError, ValueError)] *)
Definition evidence_refs_of (j : json) : result (list json) :=
  match json_tuple j with
  | Ok l => Ok l
  | Err _ => Err (ValueError "REVIEW_ISSUE_EVIDENCE_INVALID")
  end.

(** [UUID(x) if x else None] *)
Definition truthy_id (o : option string) : option string :=
  match o with Some s => if s =? "" then None else Some s | None => None end.

(* [sidecar/ibreeze/domain/review/repository.py:146-178 lock_issue] *)
Definition lock_issue (issue_id company_id : string) : tx DB ReviewIssue :=
  row ← select_one (λ i, (is_id i =? issue_id) && (is_company_id i =? company_id));
  row ← found row (ValueError "RESOURCE_NOT_FOUND");
  evidence_refs ← lift (evidence_refs_of (is_evidence_refs row));
  mret {| ri_id := is_id row; ri_company_id := is_company_id row;
          ri_severity := is_severity row; ri_category := is_category row;
          ri_state := is_status row; ri_version := is_version row;
          ri_assignee_employee_id := truthy_id (is_assignee row);
          ri_evidence_refs := evidence_refs;
          ri_verifier_employee_id := truthy_id (is_verifier row);
          ri_rejection_reason := is_rejection_reason row |}.

Definition set_assignment_state (target : string) (a : AssignmentRow) : AssignmentRow := {|
  as_id := as_id a; as_company_id := as_company_id a; as_artifact_id := as_artifact_id a;
  as_reviewer_employee_id := as_reviewer_employee_id a; as_review_round := as_review_round a;
  as_reviewed_sha256 := as_reviewed_sha256 a; as_status := target;
  as_assigned_at := as_assigned_at a;
  as_submitted_at := if target =? "submitted" then Some (now_ms env) else as_submitted_at a;
  as_version := as_version a + 1 |}.

Definition assignment_key (id company : string) (version : Z) (a : AssignmentRow) : bool :=
  (as_id a =? id) && ((as_company_id a =? company) && (as_version a =? version)%Z).

(* [sidecar/ibreeze/domain/review/repository.py:180-215 transition] *)
Definition transition (assignment : ReviewAssignment) (target_state : string)
    : tx DB ReviewAssignment :=
  let allowed := default [] (dict_get ASSIGNMENT_TRANSITIONS (ra_state assignment)) in
  check (target_state ∈? allowed) (ValueError "STATE_TRANSITION_INVALID");;
  rowcount ← update
    (assignment_key (ra_id assignment) (ra_company_id assignment) (ra_version assignment))
    (set_assignment_state target_state);
  check (rowcount =? 1)%Z (ValueError "OPTIMISTIC_LOCK_CONFLICT");;
  mret {| ra_id := ra_id assignment; ra_company_id := ra_company_id assignment;
          ra_artifact_id := ra_artifact_id assignment;
          ra_artifact_sha256 := ra_artifact_sha256 assignment;
          ra_reviewer_employee_id := ra_reviewer_employee_id assignment;
          ra_state := target_state; ra_version := ra_version assignment + 1 |}.

Definition active_employee (id company : string) (db : DB) : bool :=
  existsb (λ e, (em_id e =? id) && (em_company_id e =? company) && (em_status e =? "active"))
    (employees db).

Definition set_issue (status : string) (verifier : option string) (reason : option string)
    (i : IssueRow) : IssueRow := {|
  is_id := is_id i; is_company_id := is_company_id i;
  is_review_report_id := is_review_report_id i; is_severity := is_severity i;
  is_category := is_category i; is_description := is_description i;
  is_expected := is_expected i; is_actual := is_actual i;
  is_suggested_fix := is_suggested_fix i; is_evidence_refs := is_evidence_refs i;
  is_status := status; is_assignee := is_assignee i;
  is_verifier := if status =? "verified" then verifier else is_verifier i;
  is_rejection_reason := if status =? "rejected" then reason else is_rejection_reason i;
  is_superseded_by := is_superseded_by i; is_created_at := is_created_at i; is_updated_at := now_sql env; is_version := is_version i + 1 |}.

Definition issue_key (id company : string) (version : Z) (i : IssueRow) : bool :=
  (is_id i =? id) && ((is_company_id i =? company) && (is_version i =? version)%Z).

(** [(rejection_reason or "").strip()] *)
Definition stripped_reason (o : option string) : string := strip (default "" o).

(* [sidecar/ibreeze/domain/review/repository.py:217-277 transition_issue] *)
Definition transition_issue (issue : ReviewIssue) (target_state : string)
    (verifier_employee_id rejection_reason : option string) : tx DB ReviewIssue :=
  let allowed := default [] (dict_get ISSUE_TRANSITIONS (ri_state issue)) in
  check (target_state ∈? allowed) (ValueError "STATE_TRANSITION_INVALID");;
  check (negb ((target_state =? "rejected") && (ri_severity issue ∈? ["blocker"; "high"])))
    (ValueError "BLOCKER_HIGH_CANNOT_BE_REJECTED");;
  let reason := stripped_reason rejection_reason in
  check (negb (target_state =? "rejected") || (negb (reason =? "") && (py_len reason <=? 2000)%Z))
    (ValueError "REJECTION_REASON_REQUIRED");;
  (if target_state =? "verified" then
     verifier ← found verifier_employee_id (ValueError "VERIFIER_REQUIRED");
     ok ← gets (active_employee verifier (ri_company_id issue));
     check ok (ValueError "VERIFIER_NOT_AVAILABLE")
   else check (verifier_employee_id =?o None) (ValueError "VERIFIER_NOT_ALLOWED"));;
  rowcount ← update (issue_key (ri_id issue) (ri_company_id issue) (ri_version issue))
    (set_issue target_state verifier_employee_id (Some reason));
  check (rowcount =? 1)%Z (ValueError "OPTIMISTIC_LOCK_CONFLICT");;
  mret {| ri_id := ri_id issue; ri_company_id := ri_company_id issue;
          ri_severity := ri_severity issue; ri_category := ri_category issue;
          ri_state := target_state; ri_version := ri_version issue + 1;
          ri_assignee_employee_id := ri_assignee_employee_id issue;
          ri_evidence_refs := ri_evidence_refs issue;
          ri_verifier_employee_id := if target_state =? "verified" then verifier_employee_id
                                     else ri_verifier_employee_id issue;
          ri_rejection_reason := if target_state =? "rejected" then Some reason
                                 else ri_rejection_reason issue |}.

Definition hex_digits : list string :=
  ["0"; "1"; "2"; "3"; "4"; "5"; "6"; "7"; "8"; "9"; "a"; "b"; "c"; "d"; "e"; "f"].
Definition is_sha256 (s : string) : bool :=
  (py_len s =? 64)%Z && forallb (λ c, c ∈? hex_digits) (chars s).

(** [n] is the first fresh identifier of the call. *)
(* [sidecar/ibreeze/domain/review/repository.py:279-367 resolve_issue_with_evidence] *)
Definition resolve_issue_with_evidence (n : nat) (issue : ReviewIssue)
    (resolution_artifact_sha256 fix_run_id retest_result_id resolution_summary : string)
    (expected_version : Z) : tx DB ReviewIssue :=
  let company := ri_company_id issue in
  check (ri_state issue =? "fixing") (ValueError "STATE_TRANSITION_INVALID");;
  check (ri_version issue =? expected_version)%Z (ValueError "OPTIMISTIC_LOCK_CONFLICT");;
  check (is_sha256 resolution_artifact_sha256) (ValueError "RESOLUTION_ARTIFACT_HASH_INVALID");;
  check ((1 <=? py_len resolution_summary)%Z && (py_len resolution_summary <=? 20000)%Z)
    (ValueError "RESOLUTION_SUMMARY_INVALID");;
  artifact ← gets (λ db, existsb (λ a, (ar_company_id a =? company) &&
    (ar_object_sha256 a =? resolution_artifact_sha256) && (ar_is_current a =? 1)%Z) (artifacts db));
  check artifact (ValueError "RESOLUTION_ARTIFACT_NOT_FOUND");;
  run ← gets (λ db, existsb (λ r, (rn_id r =? fix_run_id) && (rn_company_id r =? company) &&
    (rn_run_purpose r =? "repair") && (rn_status r =? "succeeded")) (agent_runs db));
  check run (ValueError "FIX_RUN_NOT_COMPLETE");;
  retest ← gets (λ db, existsb (λ a, (ar_id a =? retest_result_id) && (ar_company_id a =? company) &&
    (ar_artifact_type a =? "test_result") && (ar_is_current a =? 1)%Z) (artifacts db));
  check retest (ValueError "RETEST_RESULT_NOT_FOUND");;
  insert_row {| ev_id := uuid4 env n; ev_company_id := company; ev_issue_id := ri_id issue;
    ev_evidence := JObj [
      ("fix_run_id", JStr fix_run_id); ("issue_id", JStr (ri_id issue));
      ("resolution_artifact_sha256", JStr resolution_artifact_sha256);
      ("resolution_summary", JStr resolution_summary);
      ("retest_result_id", JStr retest_result_id)];
    ev_created_at := now_sql env |};;
  rowcount ← update (λ i, issue_key (ri_id issue) company expected_version i &&
                          (is_status i =? "fixing"))
    (set_issue "resolved" None None);
  check (rowcount =? 1)%Z (ValueError "OPTIMISTIC_LOCK_CONFLICT");;
  mret {| ri_id := ri_id issue; ri_company_id := company; ri_severity := ri_severity issue;
          ri_category := ri_category issue; ri_state := "resolved";
          ri_version := expected_version + 1;
          ri_assignee_employee_id := ri_assignee_employee_id issue;
          ri_evidence_refs := ri_evidence_refs issue;
          ri_verifier_employee_id := ri_verifier_employee_id issue;
          ri_rejection_reason := ri_rejection_reason issue |}.

(** An issue as the handlers pass it on. *)
Record IssueInput := {
  ii_severity : string;
  ii_category : string;
  ii_description : string;
  ii_expected : string;
  ii_actual : string;
  ii_suggested_fix : string;
  ii_evidence_refs : list string;
  ii_assignee_employee_id : option string }.

(* [sidecar/ibreeze/domain/review/repository.py:369-407 create_report] *)
Definition create_report (n : nat) (company_id assignment_id reviewer_run_id reviewed_artifact_id
    reviewed_sha256 verdict report_artifact_id : string) : tx DB ReviewReport :=
  let report_id := uuid4 env n in
  insert_row {| rp_id := report_id; rp_company_id := company_id; rp_assignment_id := assignment_id;
    rp_reviewer_run_id := reviewer_run_id; rp_reviewed_artifact_id := reviewed_artifact_id;
    rp_reviewed_sha256 := reviewed_sha256; rp_verdict := verdict;
    rp_report_artifact_id := report_artifact_id; rp_created_at := now_ms env; rp_version := 1 |};;
  mret {| rr_id := report_id; rr_company_id := company_id; rr_assignment_id := assignment_id;
          rr_reviewer_run_id := reviewer_run_id;
          rr_reviewed_artifact_id := reviewed_artifact_id;
          rr_reviewed_sha256 := reviewed_sha256; rr_verdict := verdict; rr_version := 1 |}.

Definition issue_row (id company report : string) (iss : IssueInput) : IssueRow := {|
  is_id := id; is_company_id := company; is_review_report_id := report;
  is_severity := ii_severity iss; is_category := ii_category iss;
  is_description := ii_description iss; is_expected := ii_expected iss;
  is_actual := ii_actual iss; is_suggested_fix := ii_suggested_fix iss;
  is_evidence_refs := JList (map JStr (ii_evidence_refs iss)); is_status := "open";
  is_assignee := truthy_id (ii_assignee_employee_id iss); is_verifier := None;
  is_rejection_reason := None; is_superseded_by := None; is_created_at := now_sql env; is_updated_at := now_sql env;
  is_version := 1 |}.

(* [sidecar/ibreeze/domain/review/repository.py:409-457 create_issues] *)
Fixpoint create_issues (n : nat) (company_id report_id : string) (issues : list IssueInput)
    : tx DB (list ReviewIssue) :=
  match issues with
  | [] => mret []
  | iss :: issues =>
      let issue_id := uuid4 env n in
      insert_row (issue_row issue_id company_id report_id iss);;
      rest ← create_issues (S n) company_id report_id issues;
      mret ({| ri_id := issue_id; ri_company_id := company_id; ri_severity := ii_severity iss;
               ri_category := ii_category iss; ri_state := "open"; ri_version := 1;
               ri_assignee_employee_id := truthy_id (ii_assignee_employee_id iss);
               ri_evidence_refs := map JStr (ii_evidence_refs iss);
               ri_verifier_employee_id := None; ri_rejection_reason := None |} :: rest)
  end.

(* [sidecar/ibreeze/domain/review/repository.py:459-483 stale_assignments_for_hash] *)
Definition stale_assignments_for_hash (artifact_sha256 : string) : tx DB (list ReviewAssignment) :=
  rows ← select (λ a, (as_reviewed_sha256 a =? artifact_sha256) &&
                      negb (as_status a ∈? ["stale"; "cancelled"]));
  mret (map assignment_of rows).

(** The report joined with its assignment. *)
Definition rerun_source (review_id company_id : string) (db : DB) : option AssignmentRow :=
  r ← List.find (λ r, (rp_id r =? review_id) && (rp_company_id r =? company_id)) (review_reports db);
  List.find (λ a, as_id a =? rp_assignment_id r) (review_assignments db).

Definition is_contributor (artifact company employee : string) (db : DB) : bool :=
  existsb (λ c, (c.1.1 =? artifact) && (c.1.2 =? company) && (c.2 =? employee))
    (artifact_contributors db).

(** Draws [n] for the assignment, [n + 1] for the event and [n + 2] for the trace. *)
(* [sidecar/ibreeze/domain/review/repository.py:14-118 create_rerun_assignment] *)
Definition create_rerun_assignment (n : nat) (company_id review_id : string)
    : tx DB (ReviewAssignment * DomainEventRecord * OutboxRecord) :=
  row ← gets (rerun_source review_id company_id);
  row ← found row (ValueError "RESOURCE_NOT_FOUND");
  artifact ← gets (λ db, List.find (λ a, (ar_id a =? as_artifact_id row) &&
    (ar_company_id a =? company_id)) (artifacts db));
  artifact ← found artifact (ValueError "REVIEW_STALE_ARTIFACT");
  check (ar_is_current artifact =? 1)%Z (ValueError "REVIEW_STALE_ARTIFACT");;
  check (ar_object_sha256 artifact =? as_reviewed_sha256 row) (ValueError "REVIEW_HASH_MISMATCH");;
  reviewer ← gets (active_employee (as_reviewer_employee_id row) company_id);
  check reviewer (ValueError "REVIEWER_NOT_AVAILABLE");;
  contributor ← gets (is_contributor (as_artifact_id row) company_id (as_reviewer_employee_id row));
  check (negb contributor) (ValueError "REVIEWER_CANNOT_BE_CONTRIBUTOR");;
  let assignment_id := uuid4 env n in
  insert_row {| as_id := assignment_id; as_company_id := company_id;
    as_artifact_id := as_artifact_id row; as_reviewer_employee_id := as_reviewer_employee_id row;
    as_review_round := as_review_round row + 1; as_reviewed_sha256 := as_reviewed_sha256 row;
    as_status := "assigned"; as_assigned_at := now_ms env; as_submitted_at := None;
    as_version := 1 |};;
  let payload := sorted_obj [
    ("company_id", JStr company_id); ("aggregate_id", JStr assignment_id); ("version", JInt 1);
    ("assignment_id", JStr assignment_id);
    ("reviewer_employee_id", JStr (as_reviewer_employee_id row))] in
  let event_id := uuid4 env (n + 1) in
  mret ({| ra_id := assignment_id; ra_company_id := company_id;
           ra_artifact_id := as_artifact_id row;
           ra_artifact_sha256 := as_reviewed_sha256 row;
           ra_reviewer_employee_id := as_reviewer_employee_id row; ra_state := "assigned";
           ra_version := 1 |},
        {| event_id := event_id; event_type := "review.assigned";
           aggregate_type := "review_assignment"; aggregate_id := assignment_id;
           aggregate_version := 1; company_id := Some company_id; payload_json := payload;
           trace_id := uuid4 env (n + 2) |},
        {| topic := "review.assigned"; outbox_payload := payload;
           domain_event_id := Some event_id |}).
End Repository.

(** ** Lemmas *)

Section Lemmas.
Context (env : Ambient).
Implicit Types db : DB.

Lemma assignment_same_key a b : as_id a = as_id b → assignment_clash a b = true.
Proof. unfold assignment_clash. intros ->. by rewrite String.eqb_refl. Qed.

(** A successful [transition] wins the swap on the version it read. *)
Lemma transition_ok a t db a' db' :
  table_ok (R := AssignmentRow) db = true →
  transition env a t db = (Ok a', db') →
  (t ∈? default [] (dict_get ASSIGNMENT_TRANSITIONS (ra_state a))) = true ∧
  a' = {| ra_id := ra_id a; ra_company_id := ra_company_id a; ra_artifact_id := ra_artifact_id a;
          ra_artifact_sha256 := ra_artifact_sha256 a;
          ra_reviewer_employee_id := ra_reviewer_employee_id a; ra_state := t;
          ra_version := ra_version a + 1 |} ∧
  (∃ row, List.find (λ x, as_id x =? ra_id a) (review_assignments db) = Some row ∧
     as_company_id row = ra_company_id a ∧ as_version row = ra_version a ∧
     List.find (λ x, as_id x =? ra_id a) (review_assignments db') =
       Some (set_assignment_state env t row) ∧
     db' = set_rows (updated (λ x, as_id x =? ra_id a) (set_assignment_state env t)
             (review_assignments db)) db) ∧
  ∀ g, update (assignment_key (ra_id a) (ra_company_id a) (ra_version a)) g db' = (Ok 0, db').
Proof.
  intros Hok Hrun. unfold transition in Hrun.
  apply tx_bind_ok in Hrun as (? & ? & [Ht ->]%check_ok & Hrun).
  apply tx_bind_ok in Hrun as (n & db1 & Hu & Hrun).
  apply tx_bind_ok in Hrun as (? & ? & [Hn ->]%check_ok & [-> ->]%mret_ok).
  apply Z.eqb_eq in Hn as ->. split; [done|]. split; [done|].
  pose proof Hu as Hdb. apply update_ok in Hdb as (_ & _ & _ & Hdb).
  apply (swap_wins as_id (λ x, (as_company_id x =? ra_company_id a) &&
    (as_version x =? ra_version a)%Z)) in Hu; [|done|..].
  - destruct Hu as [[? _]|(_ & (row & Hf & Hg & Hf' & Hrows) & Hlose)]; [lia|].
    apply andb_true_iff in Hg as [Hc%String.eqb_eq Hv%Z.eqb_eq]. split; [|exact Hlose].
    exists row. split_and!; [done..|]. rewrite Hdb in Hrows. rewrite rows_set_rows in Hrows.
    simpl in Hrows. rewrite Hdb. by rewrite <-Hrows.
  - intros u w. apply assignment_same_key.
  - done.
  - intros u [_ Hv]%andb_true_iff. simpl. apply andb_false_iff. right.
    apply Z.eqb_eq in Hv. apply Z.eqb_neq. lia.
Qed.

Lemma lock_assignment_ok id c db a db' :
  lock_assignment id c db = (Ok a, db') →
  db' = db ∧ ∃ row, List.find (λ a, (as_id a =? id) && (as_company_id a =? c))
    (review_assignments db) = Some row ∧ a = assignment_of row.
Proof.
  unfold lock_assignment. intros Hrun.
  apply tx_bind_ok in Hrun as (o & ? & [-> ->]%select_one_ok & Hrun).
  apply tx_bind_ok in Hrun as (row & ? & [Hf ->]%found_ok & [-> ->]%mret_ok). eauto.
Qed.

(** With unique ids, the row found by id and company is the row found by id. *)
Lemma find_key_guard {R} `{!Table DB R} (key : R → string) (g : R → bool) id db r :
  table_ok (R := R) db = true → (∀ a b, key a = key b → clash a b = true) →
  List.find (λ a, (key a =? id) && g a) (rows db) = Some r →
  List.find (λ a, key a =? id) (rows db) = Some r ∧ g r = true ∧ key r = id ∧ r ∈ rows db.
Proof.
  intros Hok Hkey [Hr%list_elem_of_In [Hid Hg]%andb_true_iff]%find_some.
  unfold table_ok in Hok. apply andb_true_iff in Hok as [_ Hcl].
  destruct (find_unique (λ a, key a =? id) (rows db) r) as [Hf _]; [done| |done..|].
  - intros a b Ha Hb. apply Hkey. bools. congruence.
  - apply String.eqb_eq in Hid. done.
Qed.

Lemma lock_issue_ok id c db i db' :
  lock_issue id c db = (Ok i, db') →
  db' = db ∧ ∃ row, List.find (λ i, (is_id i =? id) && (is_company_id i =? c))
    (review_issues db) = Some row ∧
    (ri_id i, ri_company_id i, ri_severity i, ri_state i, ri_version i) =
    (is_id row, is_company_id row, is_severity row, is_status row, is_version row) ∧
    is_ok (evidence_refs_of (is_evidence_refs row)) = true.
Proof.
  unfold lock_issue. intros Hrun.
  apply tx_bind_ok in Hrun as (o & ? & [-> ->]%select_one_ok & Hrun).
  apply tx_bind_ok in Hrun as (row & ? & [Hf ->]%found_ok & Hrun).
  apply tx_bind_ok in Hrun as (refs & ? & Hrefs & [-> ->]%mret_ok).
  unfold lift in Hrefs. injection Hrefs as Hrefs ->. split; [done|]. exists row.
  by rewrite Hrefs.
Qed.

Lemma lock_issue_run id c db row :
  List.find (λ i, (is_id i =? id) && (is_company_id i =? c)) (review_issues db) = Some row →
  is_ok (evidence_refs_of (is_evidence_refs row)) = true →
  ∃ i, lock_issue id c db = (Ok i, db) ∧ ri_version i = is_version row.
Proof.
  intros Hf Hr. unfold lock_issue. rewrite (tx_bind_run _ _ db (Some row) db)
    by (unfold select_one, gets; simpl; by rewrite Hf).
  rewrite (tx_bind_run _ _ db row db) by done.
  destruct (evidence_refs_of (is_evidence_refs row)) as [refs|]; [|done].
  rewrite (tx_bind_run _ _ db refs db) by done. by eexists.
Qed.

(** What a successful issue update did, for both repository operations. *)
Record issue_moved (target : string) (verifier reason : option string) (i i' : ReviewIssue)
    (db db' : DB) : Prop := {
  moved_result : (ri_id i', ri_company_id i', ri_severity i', ri_state i', ri_version i') =
    (ri_id i, ri_company_id i, ri_severity i, target, ri_version i + 1);
  moved_row : ∃ row, List.find (λ x, is_id x =? ri_id i) (review_issues db) = Some row ∧
    is_version row = ri_version i ∧ is_company_id row = ri_company_id i ∧
    List.find (λ x, is_id x =? ri_id i) (review_issues db') =
      Some (set_issue env target verifier reason row);
  moved_rows : review_issues db' =
    updated (λ x, is_id x =? ri_id i) (set_issue env target verifier reason) (review_issues db) }.

Lemma transition_issue_ok i t v reason db i' db' :
  table_ok (R := IssueRow) db = true →
  transition_issue env i t v reason db = (Ok i', db') →
  (t ∈? default [] (dict_get ISSUE_TRANSITIONS (ri_state i))) = true ∧
  (t = "rejected" → (ri_severity i ∈? ["blocker"; "high"]) = false ∧
     stripped_reason reason ≠ "" ∧ (py_len (stripped_reason reason) <= 2000)%Z) ∧
  (t = "verified" → ∃ e, v = Some e ∧ active_employee e (ri_company_id i) db = true) ∧
  issue_moved t v (Some (stripped_reason reason)) i i' db db'.
Proof.
  intros Hok Hrun. unfold transition_issue in Hrun.
  apply tx_bind_ok in Hrun as (? & ? & [Ht ->]%check_ok & Hrun).
  apply tx_bind_ok in Hrun as (? & ? & [Hsev ->]%check_ok & Hrun).
  apply tx_bind_ok in Hrun as (? & ? & [Hreason ->]%check_ok & Hrun).
  apply tx_bind_ok in Hrun as (? & db0 & Hver & Hrun).
  apply tx_bind_ok in Hrun as (n & db1 & Hu & Hrun).
  apply tx_bind_ok in Hrun as (? & ? & [Hn ->]%check_ok & [-> ->]%mret_ok).
  apply Z.eqb_eq in Hn as ->.
  assert (db0 = db ∧ (t = "verified" → ∃ e, v = Some e ∧
    active_employee e (ri_company_id i) db = true)) as [-> Hverifier].
  { destruct (t =? "verified") eqn:Hv; bools.
    - apply tx_bind_ok in Hver as (e & ? & [He ->]%found_ok & Hver).
      apply tx_bind_ok in Hver as (ok & ? & [-> ->]%gets_ok & [Hact ->]%check_ok). eauto.
    - apply check_ok in Hver as [_ ->]. done. }
  split; [done|]. split; [|split; [done|]].
  - intros ->. simpl in *. apply negb_true_iff in Hsev.
    apply andb_true_iff in Hreason as [H1%negb_true_iff H2].
    split_and!; [done|by apply String.eqb_neq|by apply Z.leb_le].
  - apply (swap_wins is_id (λ x, (is_company_id x =? ri_company_id i) &&
      (is_version x =? ri_version i)%Z)) in Hu; [|done|..].
    + destruct Hu as [[? _]|(_ & (row & Hf & Hg & Hf' & Hrows) & _)]; [lia|].
      apply andb_true_iff in Hg as [Hc%String.eqb_eq Hv%Z.eqb_eq].
      split; [done| |exact Hrows]. exists row. split_and!; [exact Hf|done|done|exact Hf'].
    + intros u w. simpl. intros ->. apply String.eqb_refl.
    + done.
    + intros u [_ Hv]%andb_true_iff. simpl. apply andb_false_iff. right.
      apply Z.eqb_eq in Hv. apply Z.eqb_neq. lia.
Qed.

Lemma resolve_ok n i sha run retest summary v db i' db' :
  table_ok (R := IssueRow) db = true →
  resolve_issue_with_evidence env n i sha run retest summary v db = (Ok i', db') →
  ri_state i = "fixing" ∧ ri_version i = v ∧ is_sha256 sha = true ∧
  existsb (λ a, (ar_company_id a =? ri_company_id i) && (ar_object_sha256 a =? sha) &&
    (ar_is_current a =? 1)%Z) (artifacts db) = true ∧
  existsb (λ r, (rn_id r =? run) && (rn_company_id r =? ri_company_id i) &&
    (rn_run_purpose r =? "repair") && (rn_status r =? "succeeded")) (agent_runs db) = true ∧
  existsb (λ a, (ar_id a =? retest) && (ar_company_id a =? ri_company_id i) &&
    (ar_artifact_type a =? "test_result") && (ar_is_current a =? 1)%Z) (artifacts db) = true ∧
  (∃ e, resolution_evidence db' = resolution_evidence db ++ [e] ∧ ev_issue_id e = ri_id i ∧
     ev_company_id e = ri_company_id i ∧ ev_evidence e = JObj [
       ("fix_run_id", JStr run); ("issue_id", JStr (ri_id i));
       ("resolution_artifact_sha256", JStr sha); ("resolution_summary", JStr summary);
       ("retest_result_id", JStr retest)]) ∧
  issue_moved "resolved" None None i i' db db'.
Proof.
  intros Hok Hrun. unfold resolve_issue_with_evidence in Hrun.
  apply tx_bind_ok in Hrun as (? & ? & [Hst%String.eqb_eq ->]%check_ok & Hrun).
  apply tx_bind_ok in Hrun as (? & ? & [Hv%Z.eqb_eq ->]%check_ok & Hrun).
  apply tx_bind_ok in Hrun as (? & ? & [Hsha ->]%check_ok & Hrun).
  apply tx_bind_ok in Hrun as (? & ? & [_ ->]%check_ok & Hrun).
  apply tx_bind_ok in Hrun as (b1 & ? & [-> ->]%gets_ok & Hrun).
  apply tx_bind_ok in Hrun as (? & ? & [H1 ->]%check_ok & Hrun).
  apply tx_bind_ok in Hrun as (b2 & ? & [-> ->]%gets_ok & Hrun).
  apply tx_bind_ok in Hrun as (? & ? & [H2 ->]%check_ok & Hrun).
  apply tx_bind_ok in Hrun as (b3 & ? & [-> ->]%gets_ok & Hrun).
  apply tx_bind_ok in Hrun as (? & ? & [H3 ->]%check_ok & Hrun).
  apply tx_bind_ok in Hrun as (? & db0 & Hi & Hrun).
  apply tx_bind_ok in Hrun as (k & db1 & Hu & Hrun).
  apply tx_bind_ok in Hrun as (? & ? & [Hk ->]%check_ok & [-> ->]%mret_ok).
  apply Z.eqb_eq in Hk as ->. split_and!; [done..| |].
  - apply insert_ok in Hi as (_ & _ & _ & ->). pose proof Hu as (_ & _ & _ & ->)%update_ok.
    eexists. split; [reflexivity|done].
  - assert (review_issues db0 = review_issues db ∧ table_ok (R := IssueRow) db0 = true) as [E0 Hok0].
    { apply insert_ok in Hi as (_ & _ & _ & ->). done. }
    rewrite (update_ext _ (λ x, (is_id x =? ri_id i) && ((is_company_id x =? ri_company_id i) &&
      (is_version x =? v)%Z && (is_status x =? "fixing")))) in Hu
      by (intros u; unfold issue_key; by rewrite !andb_assoc).
    apply (swap_wins is_id (λ x, (is_company_id x =? ri_company_id i) &&
      (is_version x =? v)%Z && (is_status x =? "fixing"))) in Hu; [|done|..].
    + destruct Hu as [[? _]|(_ & (row & Hf & Hg & Hf' & Hrows) & _)]; [lia|].
      apply andb_true_iff in Hg as [[Hc%String.eqb_eq Hver%Z.eqb_eq]%andb_true_iff _].
      simpl in Hf, Hf', Hrows. rewrite E0 in Hf, Hrows.
      split; [by rewrite <-Hv| |exact Hrows]. exists row. rewrite Hv.
      split_and!; [exact Hf|done|done|exact Hf'].
    + intros u w. simpl. intros ->. apply String.eqb_refl.
    + done.
    + intros u [[_ Hx]%andb_true_iff _]%andb_true_iff. simpl. apply andb_false_iff. left.
      apply andb_false_iff. right. apply Z.eqb_eq in Hx. apply Z.eqb_neq. lia.
Qed.
End Lemmas.
