(* ===== verification/ReviewHandlers.v ===== *)
(** * Review command handlers ([application/review_handlers.py])

    The commands of [domain/review/commands.py] and their handlers: each one is a
    transaction that the unit of work runs at most once per idempotency key.  The
    aggregation service a submit may call is a constructor argument in the code and an
    argument here.

    The theorems: a submit files exactly one report, its issues, its transition and
    its event, only from a started review and only when every guard holds; every
    handler on an issue moves it one step along the issue table and bumps its version,
    so of two callers with the same version one loses; blockers are never rejected; a
    resolution is bound to evidence; a rerun opens the next round. *)

From S2P Require Import Prelude PyEnum PyStr PyFloat Sql DomainState UnitOfWork ReviewStore.
From S2P Require Outcomes.

(** ** domain/review/commands.py *)

(* [sidecar/ibreeze/domain/review/commands.py:8-12 StartReview] *)
Record StartReview := {
  sr_company_id : string;
  sr_assignment_id : string;
  sr_expected_version : Z }.

(* [sidecar/ibreeze/domain/review/commands.py:15-35 ReviewIssueInput] *)
Record ReviewIssueInput := {
  in_client_issue_id : string;
  in_severity : string;
  in_category : string;
  in_description : string;
  in_expected : string;
  in_actual : string;
  in_evidence_refs : list string;
  in_suggested_fix : string;
  in_assignee_employee_id : option string }.

(* [sidecar/ibreeze/domain/review/commands.py:38-48 SubmitReview] *)
Record SubmitReview := {
  sb_company_id : string;
  sb_assignment_id : string;
  sb_reviewer_run_id : string;
  sb_reviewed_artifact_id : string;
  sb_reviewed_sha256 : string;
  sb_report_artifact_id : string;
  sb_verdict : string;
  sb_issues : list ReviewIssueInput;
  sb_expected_assignment_version : Z }.

(* [sidecar/ibreeze/domain/review/commands.py:51-54 RerunReview] *)
Record RerunReview := {
  rv_company_id : string;
  rv_review_id : string }.

(* [sidecar/ibreeze/domain/review/commands.py:57-61 StartIssueFix] *)
Record StartIssueFix := {
  sf_company_id : string;
  sf_issue_id : string;
  sf_expected_version : Z }.

(* [sidecar/ibreeze/domain/review/commands.py:64-72 ResolveIssue] *)
Record ResolveIssue := {
  rs_company_id : string;
  rs_issue_id : string;
  rs_resolution_artifact_sha256 : string;
  rs_fix_run_id : string;
  rs_retest_result_id : string;
  rs_resolution_summary : string;
  rs_expected_version : Z }.

(* [sidecar/ibreeze/domain/review/commands.py:75-80 VerifyIssue] *)
Record VerifyIssue := {
  vi_company_id : string;
  vi_issue_id : string;
  vi_verifier_employee_id : string;
  vi_expected_version : Z }.

(* [sidecar/ibreeze/domain/review/commands.py:83-87 CloseIssue] *)
Record CloseIssue := {
  ci_company_id : string;
  ci_issue_id : string;
  ci_expected_version : Z }.

(* [sidecar/ibreeze/domain/review/commands.py:90-95 RejectIssue] *)
Record RejectIssue := {
  rj_company_id : string;
  rj_issue_id : string;
  rj_rejection_reason : string;
  rj_expected_version : Z }.

(** What [on_report_submitted] hands back. *)
Record AggregationOutcome := {
  rerun_event : option DomainEventRecord;
  rerun_outbox : option OutboxRecord }.

(** [routing_now] is the clock reading of the routing repository. *)
Section Handlers.
Context (env : Ambient) (routing_now : string).

(** Draws [n] for the event and [n + 1] for its trace. *)
(* [sidecar/ibreeze/application/review_handlers.py:36-53 _event] *)
Definition _event (n : nat) (etype atype aid : string) (version : Z) (company : option string)
    (payload : list (string * json)) : DomainEventRecord := {|
  event_id := uuid4 env n; event_type := etype; aggregate_type := atype; aggregate_id := aid;
  aggregate_version := version; company_id := company; payload_json := sorted_obj payload;
  trace_id := uuid4 env (n + 1) |}.

(* [sidecar/ibreeze/application/review_handlers.py:56-61 _outbox] *)
Definition _outbox (tp : string) (event : DomainEventRecord) : OutboxRecord := {|
  topic := tp; outbox_payload := payload_json event; domain_event_id := Some (event_id event) |}.

Definition opt_str (o : option string) : json :=
  match o with Some s => JStr s | None => JNull end.

(* [sidecar/ibreeze/application/review_handlers.py:64-78 _issue_event_payload] *)
Definition _issue_event_payload (previous result : ReviewIssue) : list (string * json) := [
  ("company_id", JStr (ri_company_id result)); ("aggregate_id", JStr (ri_id result));
  ("version", JInt (ri_version result)); ("issue_id", JStr (ri_id result));
  ("from_state", JStr (ri_state previous)); ("to_state", JStr (ri_state result));
  ("severity", JStr (ri_severity result));
  ("assignee_employee_id", opt_str (ri_assignee_employee_id result));
  ("verifier_employee_id", opt_str (ri_verifier_employee_id result));
  ("rejection_reason", opt_str (ri_rejection_reason result));
  ("evidence_refs", JList (ri_evidence_refs result))].

(** [ORDER BY turn_index DESC, id DESC] *)
Definition later_decision (a b : RS.Decision) : bool :=
  (RS.rd_turn_index b <? RS.rd_turn_index a)%Z ||
  ((RS.rd_turn_index b =? RS.rd_turn_index a)%Z && text_le (RS.rd_id b) (RS.rd_id a)).

(* [sidecar/ibreeze/application/review_handlers.py:81-111 _project_review_outcome] *)
Definition _project_review_outcome (request : SubmitReview) (report_id : string) : tx DB unit :=
  row ← gets (λ db, head (sort_by later_decision
    (where_ (λ d, (RS.rd_company_id d =? sb_company_id request) &&
                  (RS.rd_run_id d =? sb_reviewer_run_id request)) (RS.route_decisions (routing db)))));
  match row with
  | None => mret tt
  | Some row =>
      match dict_get (dict_of [("pass", "review_passed"); ("needs_changes", "review_needs_changes");
                               ("failed", "review_failed")]) (sb_verdict request) with
      | None => mret tt
      | Some event =>
          on_routing (Outcomes.append routing_now (RS.rd_id row) (sb_company_id request) "review"
            report_id event (existsb (λ i, in_severity i =? "blocker") (sb_issues request)));;
          mret tt
      end
  end.

(** ** The guards of a submit *)

Definition artifact_by_id (id : string) (db : DB) : option Artifact :=
  List.find (λ a, ar_id a =? id) (artifacts db).

(** The assignee, the presence of evidence, then each piece of evidence. *)
Fixpoint check_issues (company : string) (issues : list ReviewIssueInput) : tx DB unit :=
  match issues with
  | [] => mret tt
  | i :: issues =>
      assignee_ok ← gets (λ db, match in_assignee_employee_id i with
                                | Some e => active_employee e company db
                                | None => true
                                end);
      check assignee_ok (ValueError "REVIEW_ISSUE_ASSIGNEE_INVALID");;
      check (negb (Nat.eqb (length (in_evidence_refs i)) 0))
        (ValueError "REVIEW_ISSUE_EVIDENCE_REQUIRED");;
      evidence_ok ← gets (λ db, forallb (λ ref, existsb (λ a, (ar_id a =? ref) &&
        (ar_company_id a =? company)) (artifacts db)) (in_evidence_refs i));
      check evidence_ok (ValueError "REVIEW_ISSUE_EVIDENCE_NOT_FOUND");;
      check_issues company issues
  end.

(* [sidecar/ibreeze/application/review_handlers.py:114-208 SubmitReviewGuards.validate] *)
Definition validate (assignment : ReviewAssignment) (request : SubmitReview) : tx DB unit :=
  let company := sb_company_id request in
  check (ra_company_id assignment =? company) (ValueError "COMPANY_SCOPE_MISMATCH");;
  check (ra_state assignment ∈? ["assigned"; "in_review"]) (ValueError "STATE_TRANSITION_INVALID");;
  check (sb_expected_assignment_version request =? ra_version assignment)%Z
    (ValueError "OPTIMISTIC_LOCK_CONFLICT");;
  check (sb_reviewed_artifact_id request =? ra_artifact_id assignment)
    (ValueError "REVIEW_ARTIFACT_MISMATCH");;
  check (sb_reviewed_sha256 request =? ra_artifact_sha256 assignment)
    (ValueError "REVIEW_HASH_MISMATCH");;
  run ← gets (λ db, List.find (λ r, rn_id r =? sb_reviewer_run_id request) (agent_runs db));
  run ← found run (ValueError "REVIEW_RUN_SCOPE_MISMATCH");
  check (rn_company_id run =? company) (ValueError "REVIEW_RUN_SCOPE_MISMATCH");;
  check ((rn_run_purpose run =? "review") &&
         (rn_employee_id run =? ra_reviewer_employee_id assignment))
    (ValueError "REVIEW_RUN_BINDING_MISMATCH");;
  check (rn_status run =? "succeeded") (ValueError "REVIEW_RUN_NOT_COMPLETE");;
  artifact ← gets (artifact_by_id (sb_reviewed_artifact_id request));
  check (match artifact with
         | Some a => (ar_company_id a =? company) && (ar_is_current a =? 1)%Z &&
                     (ar_object_sha256 a =? sb_reviewed_sha256 request)
         | None => false
         end) (ValueError "REVIEWED_ARTIFACT_NOT_CURRENT");;
  report_artifact ← gets (artifact_by_id (sb_report_artifact_id request));
  check (match report_artifact with
         | Some a => (ar_company_id a =? company) && (ar_artifact_type a =? "review_report") &&
                     (ar_created_by_type a =? "agent") &&
                     (ar_created_by_run_id a =?o Some (sb_reviewer_run_id request))
         | None => false
         end) (ValueError "REVIEW_REPORT_ARTIFACT_MISMATCH");;
  contributor ← gets (is_contributor (ra_artifact_id assignment) (ra_company_id assignment)
                       (ra_reviewer_employee_id assignment));
  check (negb contributor) (ValueError "REVIEW_SELF_ASSIGNMENT");;
  check_issues company (sb_issues request);;
  let no_issues := Nat.eqb (length (sb_issues request)) 0 in
  check (negb (sb_verdict request =? "pass") || no_issues) (ValueError "VERDICT_PASS_WITH_ISSUES");;
  check (negb (sb_verdict request =? "needs_changes") || negb no_issues)
    (ValueError "VERDICT_NEEDS_CHANGES_WITHOUT_ISSUES");;
  check (negb (sb_verdict request =? "failed") ||
         existsb (λ i, (in_severity i =? "blocker") && (in_category i =? "review_execution"))
           (sb_issues request))
    (ValueError "VERDICT_FAILED_MISSING_BLOCKER_REVIEW_EXECUTION").

(** ** The commands *)

(* [sidecar/ibreeze/application/review_handlers.py:211-228 StartReviewHandler.handle] *)
Definition start_review (request : StartReview) : tx DB CommandResult :=
  assignment ← lock_assignment (sr_assignment_id request) (sr_company_id request);
  check (ra_version assignment =? sr_expected_version request)%Z
    (ValueError "OPTIMISTIC_LOCK_CONFLICT");;
  result ← transition env assignment "in_review";
  mret {| response := RJson (JObj [("id", JStr (ra_id result)); ("status", JStr (ra_state result))]);
          events := []; outbox := [] |}.

Definition issue_data (i : ReviewIssueInput) : IssueInput := {|
  ii_severity := in_severity i; ii_category := in_category i;
  ii_description := in_description i; ii_expected := in_expected i; ii_actual := in_actual i;
  ii_suggested_fix := in_suggested_fix i; ii_evidence_refs := in_evidence_refs i;
  ii_assignee_employee_id := in_assignee_employee_id i |}.

(** Draws 0 for the report, the next ones for the issues and the two after those for
    the event. *)
(* [sidecar/ibreeze/application/review_handlers.py:231-311 SubmitReviewHandler.handle] *)
Definition submit_review (aggregation : option (ReviewAssignment → tx DB AggregationOutcome))
    (request : SubmitReview) : tx DB CommandResult :=
  let company := sb_company_id request in
  assignment ← lock_assignment (sb_assignment_id request) company;
  validate assignment request;;
  report ← create_report env 0 company (sb_assignment_id request) (sb_reviewer_run_id request)
    (sb_reviewed_artifact_id request) (sb_reviewed_sha256 request) (sb_verdict request)
    (sb_report_artifact_id request);
  create_issues env 1 company (rr_id report) (map issue_data (sb_issues request));;
  _project_review_outcome request (rr_id report);;
  result ← transition env assignment "submitted";
  outcome ← match aggregation with
            | Some on_report_submitted => on_report_submitted result
            | None => mret {| rerun_event := None; rerun_outbox := None |}
            end;
  let payload := [
    ("company_id", JStr company); ("aggregate_id", JStr (ra_id result));
    ("version", JInt (ra_version result)); ("assignment_id", JStr (ra_id result));
    ("reviewer_employee_id", JStr (ra_reviewer_employee_id result));
    ("verdict", JStr (sb_verdict request))] in
  let event := _event (1 + length (sb_issues request)) "review.submitted" "review_assignment"
    (ra_id result) (ra_version result) (Some company) payload in
  let rerun := match rerun_event outcome, rerun_outbox outcome with
               | Some e, Some o => ([e], [o])
               | _, _ => ([], [])
               end in
  mret {| response := RJson (JObj [("review_id", JStr (rr_id report))]);
          events := event :: rerun.1;
          outbox := _outbox "review.submitted" event :: rerun.2 |}.

(* [sidecar/ibreeze/application/review_handlers.py:314-328 RerunReviewHandler.handle] *)
Definition rerun_review (request : RerunReview) : tx DB CommandResult :=
  '(_, event, ob) ← create_rerun_assignment env 0 (rv_company_id request) (rv_review_id request);
  mret {| response := RJson (JObj [("status", JStr "queued")]); events := [event]; outbox := [ob] |}.

(** The event and the answer every issue handler ends with. *)
Definition issue_changed (n : nat) (previous result : ReviewIssue) (r : json) : CommandResult :=
  let event := _event n "review.issue_changed" "review_issue" (ri_id result) (ri_version result)
    (Some (ri_company_id result)) (_issue_event_payload previous result) in
  {| response := RJson r; events := [event]; outbox := [_outbox "review.issue_changed" event] |}.

Definition SUCCESS : json := JObj [("success", JBool true)].
Definition id_state (i : ReviewIssue) : json :=
  JObj [("id", JStr (ri_id i)); ("state", JStr (ri_state i))].

(* [sidecar/ibreeze/application/review_handlers.py:331-357 StartIssueFixHandler.handle] *)
Definition start_issue_fix (request : StartIssueFix) : tx DB CommandResult :=
  issue ← lock_issue (sf_issue_id request) (sf_company_id request);
  check (ri_version issue =? sf_expected_version request)%Z (ValueError "OPTIMISTIC_LOCK_CONFLICT");;
  result ← transition_issue env issue "fixing" None None;
  mret (issue_changed 0 issue result SUCCESS).

(* [sidecar/ibreeze/application/review_handlers.py:360-394 ResolveIssueHandler.handle] *)
Definition resolve_issue (request : ResolveIssue) : tx DB CommandResult :=
  issue ← lock_issue (rs_issue_id request) (rs_company_id request);
  check (ri_version issue =? rs_expected_version request)%Z (ValueError "OPTIMISTIC_LOCK_CONFLICT");;
  result ← resolve_issue_with_evidence env 0 issue (rs_resolution_artifact_sha256 request)
    (rs_fix_run_id request) (rs_retest_result_id request) (rs_resolution_summary request)
    (rs_expected_version request);
  mret (issue_changed 1 issue result SUCCESS).

(* [sidecar/ibreeze/application/review_handlers.py:397-428 VerifyIssueHandler.handle] *)
Definition verify_issue (request : VerifyIssue) : tx DB CommandResult :=
  issue ← lock_issue (vi_issue_id request) (vi_company_id request);
  check (ri_version issue =? vi_expected_version request)%Z (ValueError "OPTIMISTIC_LOCK_CONFLICT");;
  result ← transition_issue env issue "verified" (Some (vi_verifier_employee_id request)) None;
  mret (issue_changed 0 issue result (id_state result)).

(* [sidecar/ibreeze/application/review_handlers.py:431-457 CloseIssueHandler.handle] *)
Definition close_issue (request : CloseIssue) : tx DB CommandResult :=
  issue ← lock_issue (ci_issue_id request) (ci_company_id request);
  check (ri_version issue =? ci_expected_version request)%Z (ValueError "OPTIMISTIC_LOCK_CONFLICT");;
  result ← transition_issue env issue "closed" None None;
  mret (issue_changed 0 issue result (id_state result)).

(* [sidecar/ibreeze/application/review_handlers.py:460-491 RejectIssueHandler.handle] *)
Definition reject_issue (request : RejectIssue) : tx DB CommandResult :=
  issue ← lock_issue (rj_issue_id request) (rj_company_id request);
  check (ri_version issue =? rj_expected_version request)%Z (ValueError "OPTIMISTIC_LOCK_CONFLICT");;
  result ← transition_issue env issue "rejected" None (Some (rj_rejection_reason request));
  mret (issue_changed 0 issue result (id_state result)).
End Handlers.

(** ** Issue commands *)

Inductive issue_op :=
  | StartFixOp (r : StartIssueFix)
  | ResolveOp (r : ResolveIssue)
  | VerifyOp (r : VerifyIssue)
  | CloseOp (r : CloseIssue)
  | RejectOp (r : RejectIssue).

Definition run_issue_op (env : Ambient) (op : issue_op) : tx DB CommandResult :=
  match op with
  | StartFixOp r => start_issue_fix env r
  | ResolveOp r => resolve_issue env r
  | VerifyOp r => verify_issue env r
  | CloseOp r => close_issue env r
  | RejectOp r => reject_issue env r
  end.

Definition op_company (op : issue_op) : string :=
  match op with
  | StartFixOp r => sf_company_id r | ResolveOp r => rs_company_id r
  | VerifyOp r => vi_company_id r | CloseOp r => ci_company_id r | RejectOp r => rj_company_id r
  end.
Definition op_issue (op : issue_op) : string :=
  match op with
  | StartFixOp r => sf_issue_id r | ResolveOp r => rs_issue_id r
  | VerifyOp r => vi_issue_id r | CloseOp r => ci_issue_id r | RejectOp r => rj_issue_id r
  end.
Definition op_version (op : issue_op) : Z :=
  match op with
  | StartFixOp r => sf_expected_version r | ResolveOp r => rs_expected_version r
  | VerifyOp r => vi_expected_version r | CloseOp r => ci_expected_version r
  | RejectOp r => rj_expected_version r
  end.
Definition op_target (op : issue_op) : string :=
  match op with
  | StartFixOp _ => "fixing" | ResolveOp _ => "resolved" | VerifyOp _ => "verified"
  | CloseOp _ => "closed" | RejectOp _ => "rejected"
  end.
(** The verifier and the reason the update may write. *)
Definition op_verifier (op : issue_op) : option string :=
  match op with VerifyOp r => Some (vi_verifier_employee_id r) | _ => None end.
Definition op_reason (op : issue_op) : option string :=
  match op with
  | ResolveOp _ => None
  | RejectOp r => Some (stripped_reason (Some (rj_rejection_reason r)))
  | _ => Some (stripped_reason None)
  end.

(** A step of the issue table. *)
Definition issue_edge (s t : string) : bool := t ∈? default [] (dict_get ISSUE_TRANSITIONS s).

(** Every issue handler, when it succeeds, is one locked move of one issue. *)
Lemma issue_op_ok env op db res db' :
  table_ok (R := IssueRow) db = true →
  run_issue_op env op db = (Ok res, db') →
  ∃ row i i' n, List.find (λ i, (is_id i =? op_issue op) && (is_company_id i =? op_company op))
      (review_issues db) = Some row ∧
    (ri_id i, ri_company_id i, ri_severity i, ri_state i, ri_version i) =
      (is_id row, is_company_id row, is_severity row, is_status row, is_version row) ∧
    is_ok (evidence_refs_of (is_evidence_refs row)) = true ∧
    is_version row = op_version op ∧ issue_edge (is_status row) (op_target op) = true ∧
    (op_target op = "rejected" → (is_severity row ∈? ["blocker"; "high"]) = false) ∧
    issue_moved env (op_target op) (op_verifier op) (op_reason op) i i' db db' ∧
    ∃ j, res = issue_changed env n i i' j.
Proof.
  intros Hok Hrun. destruct op as [r|r|r|r|r]; simpl in *;
    [unfold start_issue_fix in Hrun|unfold resolve_issue in Hrun|unfold verify_issue in Hrun|
     unfold close_issue in Hrun|unfold reject_issue in Hrun];
    (apply tx_bind_ok in Hrun as (i & ? & Hl & Hrun);
     apply lock_issue_ok in Hl as (-> & row & Hf & Hi & Hev);
     apply tx_bind_ok in Hrun as (? & ? & [Hv%Z.eqb_eq ->]%check_ok & Hrun);
     apply tx_bind_ok in Hrun as (i' & ? & Ht & [-> ->]%mret_ok);
     pose proof Hi as [= E1 E2 E3 E4 E5]; exists row, i, i').
  2: { apply resolve_ok in Ht as (Hst & _ & _ & _ & _ & _ & _ & Hmv); [|done].
       exists 1%nat. split_and!; [done|done|done|congruence| |done|done|by eexists].
       rewrite <-E4, Hst. done. }
  all: apply transition_issue_ok in Ht as (Hedge & Hrej & _ & Hmv); [|done]; exists 0%nat;
    split_and!; [done|done|done|congruence|unfold issue_edge; by rewrite <-E4|
      first [done|rewrite <-E3; intros _; by apply Hrej]|exact Hmv|by eexists].
Qed.

(** Issues follow their lifecycle under optimistic locking.  When a fix, resolve,
    verify, close or reject succeeds, the issue was at the caller's version and the
    move is an edge of [ISSUE_TRANSITIONS]; the row keeps its severity, report and
    company, takes the target status and the next version; no other issue changes; a
    blocker or high issue is never the one rejected; and exactly one
    [review.issue_changed] event and its outbox row are returned, at the new version. *)
Lemma issue_ops_follow_lifecycle env op db res db' :
  table_ok (R := IssueRow) db = true → run_issue_op env op db = (Ok res, db') →
  (∃ row row', List.find (λ i, is_id i =? op_issue op) (review_issues db) = Some row ∧
     List.find (λ i, is_id i =? op_issue op) (review_issues db') = Some row' ∧
     is_version row = op_version op ∧ is_version row' = op_version op + 1 ∧
     issue_edge (is_status row) (is_status row') = true ∧ is_status row' = op_target op ∧
     (is_company_id row', is_severity row', is_review_report_id row', is_evidence_refs row') =
       (is_company_id row, is_severity row, is_review_report_id row, is_evidence_refs row) ∧
     (is_status row' = "rejected" → (is_severity row ∈? ["blocker"; "high"]) = false)) ∧
  (∀ x, is_id x ≠ op_issue op → x ∈ review_issues db' ↔ x ∈ review_issues db) ∧
  ∃ e, events res = [e] ∧ event_type e = "review.issue_changed" ∧
    aggregate_id e = op_issue op ∧ aggregate_version e = op_version op + 1 ∧
    outbox res = [{| topic := "review.issue_changed"; outbox_payload := payload_json e;
                     domain_event_id := Some (event_id e) |}].
Proof.
  intros Hok Hrun. destruct (issue_op_ok _ _ _ _ _ Hok Hrun)
    as (row & i & i' & n & Hf & Hi & _ & Hv & Hedge & Hrej & [Hres Hmv Hrows] & j & ->).
  assert (∀ a b : IssueRow, is_id a = is_id b → clash a b = true) as Hkey.
  { intros a b. simpl. intros ->. apply String.eqb_refl. }
  destruct (find_key_guard is_id (λ i, is_company_id i =? op_company op) _ _ _ Hok Hkey Hf)
    as (Hf1 & _ & Hid & _). clear Hf.
  injection Hi as E1 E2 E3 E4 E5. injection Hres as R1 R2 R3 R4 R5.
  rewrite E1, Hid in Hmv, Hrows. destruct Hmv as (row2 & Hf2 & _ & _ & Hf').
  change (rows db) with (review_issues db) in Hf1.
  rewrite Hf1 in Hf2. injection Hf2 as <-. split; [|split].
  - exists row, (set_issue env (op_target op) (op_verifier op) (op_reason op) row).
    split_and!; try done. simpl. congruence.
  - intros x Hx. rewrite Hrows, elem_updated. split.
    + intros [[Hin _]|(y & _ & Hy & ->)]; [done|]. by apply String.eqb_eq in Hy.
    + intros Hin. left. split; [done|]. by apply String.eqb_neq.
  - eexists. split; [reflexivity|]. simpl. split_and!; [done|congruence|congruence|done].
Qed.

(** A command that names a version the issue is not at. *)
Lemma issue_op_stale env op db row :
  List.find (λ i, (is_id i =? op_issue op) && (is_company_id i =? op_company op))
    (review_issues db) = Some row →
  is_ok (evidence_refs_of (is_evidence_refs row)) = true → is_version row ≠ op_version op →
  run_issue_op env op db = (Err (ValueError "OPTIMISTIC_LOCK_CONFLICT"), db).
Proof.
  intros Hf Hev Hv. destruct (lock_issue_run _ _ _ _ Hf Hev) as (i & Hl & Hi).
  destruct op as [r|r|r|r|r]; simpl in *;
    [unfold start_issue_fix|unfold resolve_issue|unfold verify_issue|unfold close_issue|
     unfold reject_issue];
    rewrite (tx_bind_run _ _ _ _ _ Hl), Hi, (proj2 (Z.eqb_neq _ _) Hv); done.
Qed.

(** No lost updates on issues: after a handler has succeeded, every handler that
    was handed the same version of the same issue — the same command again or a
    different one — answers [OPTIMISTIC_LOCK_CONFLICT] and changes nothing. *)
Lemma issue_ops_optimistic env env' op op' db res db' :
  table_ok (R := IssueRow) db = true → run_issue_op env op db = (Ok res, db') →
  op_issue op' = op_issue op → op_company op' = op_company op → op_version op' = op_version op →
  run_issue_op env' op' db' = (Err (ValueError "OPTIMISTIC_LOCK_CONFLICT"), db').
Proof.
  intros Hok Hrun Hi Hc Hv. destruct (issue_op_ok _ _ _ _ _ Hok Hrun)
    as (row & i & i' & n & Hf & E & Hev & Hrv & _ & _ & [_ _ Hrows] & _).
  injection E as E1 E2 E3 E4 E5.
  apply (issue_op_stale env' op' db' (set_issue env (op_target op) (op_verifier op) (op_reason op) row)).
  - rewrite Hi, Hc, Hrows. apply find_some in Hf as Hf'. destruct Hf' as [_ [Hid Hco]%andb_true_iff].
    apply String.eqb_eq in Hid. rewrite E1, Hid.
    clear -Hf Hok.
    assert (∀ l, (∀ x, x ∈ l → x ∈ review_issues db) →
      List.find (λ i, (is_id i =? op_issue op) && (is_company_id i =? op_company op)) l = Some row →
      List.find (λ i, (is_id i =? op_issue op) && (is_company_id i =? op_company op))
        (updated (λ x, is_id x =? op_issue op)
           (set_issue env (op_target op) (op_verifier op) (op_reason op)) l) =
      Some (set_issue env (op_target op) (op_verifier op) (op_reason op) row)) as H; [|by apply H].
    clear Hf. induction l as [|x l IH]; simpl; intros Hsub Hf; [done|].
    destruct (is_id x =? op_issue op) eqn:Hx; simpl; rewrite Hx; simpl in *.
    + destruct (is_company_id x =? op_company op); [by injection Hf as ->|].
      apply IH; [|done]. intros; apply Hsub; by right.
    + apply IH; [|done]. intros; apply Hsub; by right.
  - exact Hev.
  - simpl. rewrite Hv, <-Hrv. lia.
Qed.

(** ** Submitting a review *)

Lemma check_issues_ok company l db u db' :
  check_issues company l db = (Ok u, db') → db' = db ∧
  Forall (λ i, in_evidence_refs i ≠ [] ∧
    (∀ e, in_assignee_employee_id i = Some e → active_employee e company db = true)) l.
Proof.
  revert u. induction l as [|i l IH]; intros u Hrun; simpl in Hrun; [by apply mret_ok in Hrun as [_ ->]|].
  apply tx_bind_ok in Hrun as (b & ? & [-> ->]%gets_ok & Hrun).
  apply tx_bind_ok in Hrun as (? & ? & [Ha ->]%check_ok & Hrun).
  apply tx_bind_ok in Hrun as (? & ? & [He ->]%check_ok & Hrun).
  apply tx_bind_ok in Hrun as (b & ? & [-> ->]%gets_ok & Hrun).
  apply tx_bind_ok in Hrun as (? & ? & [_ ->]%check_ok & Hrun).
  apply IH in Hrun as [-> Hl]. split; [done|]. constructor; [|done]. split.
  - intros Hn. by rewrite Hn in He.
  - intros e Hin. by rewrite Hin in Ha.
Qed.

(** The verdict and the issues fit together. *)
Definition verdict_fits (request : SubmitReview) : Prop :=
  (sb_verdict request = "pass" → sb_issues request = []) ∧
  (sb_verdict request = "needs_changes" → sb_issues request ≠ []) ∧
  (sb_verdict request = "failed" → ∃ i, i ∈ sb_issues request ∧
     in_severity i = "blocker" ∧ in_category i = "review_execution").

Lemma validate_ok a r db u db' :
  validate a r db = (Ok u, db') → db' = db ∧
  ra_version a = sb_expected_assignment_version r ∧ ra_artifact_id a = sb_reviewed_artifact_id r ∧
  ra_artifact_sha256 a = sb_reviewed_sha256 r ∧
  (∃ run, run ∈ agent_runs db ∧ rn_id run = sb_reviewer_run_id r ∧
     rn_company_id run = sb_company_id r ∧ rn_employee_id run = ra_reviewer_employee_id a ∧
     rn_run_purpose run = "review" ∧ rn_status run = "succeeded") ∧
  (∃ x, x ∈ artifacts db ∧ ar_id x = sb_reviewed_artifact_id r ∧ ar_is_current x = 1 ∧
     ar_object_sha256 x = sb_reviewed_sha256 r) ∧
  is_contributor (ra_artifact_id a) (ra_company_id a) (ra_reviewer_employee_id a) db = false ∧
  verdict_fits r.
Proof.
  unfold validate. intros Hrun.
  apply tx_bind_ok in Hrun as (? & ? & [_ ->]%check_ok & Hrun).
  apply tx_bind_ok in Hrun as (? & ? & [_ ->]%check_ok & Hrun).
  apply tx_bind_ok in Hrun as (? & ? & [Hv%Z.eqb_eq ->]%check_ok & Hrun).
  apply tx_bind_ok in Hrun as (? & ? & [Ha%String.eqb_eq ->]%check_ok & Hrun).
  apply tx_bind_ok in Hrun as (? & ? & [Hs%String.eqb_eq ->]%check_ok & Hrun).
  apply tx_bind_ok in Hrun as (o & ? & [-> ->]%gets_ok & Hrun).
  apply tx_bind_ok in Hrun as (run & ? & [Hf ->]%found_ok & Hrun).
  apply find_some in Hf as [Hin%list_elem_of_In Hid%String.eqb_eq].
  apply tx_bind_ok in Hrun as (? & ? & [Hc%String.eqb_eq ->]%check_ok & Hrun).
  apply tx_bind_ok in Hrun as (? & ? & [Hb ->]%check_ok & Hrun).
  apply andb_true_iff in Hb as [Hp%String.eqb_eq He%String.eqb_eq].
  apply tx_bind_ok in Hrun as (? & ? & [Hst%String.eqb_eq ->]%check_ok & Hrun).
  apply tx_bind_ok in Hrun as (o & ? & [-> ->]%gets_ok & Hrun).
  apply tx_bind_ok in Hrun as (? & ? & [Hart ->]%check_ok & Hrun).
  apply tx_bind_ok in Hrun as (o & ? & [-> ->]%gets_ok & Hrun).
  apply tx_bind_ok in Hrun as (? & ? & [_ ->]%check_ok & Hrun).
  apply tx_bind_ok in Hrun as (o & ? & [-> ->]%gets_ok & Hrun).
  apply tx_bind_ok in Hrun as (? & ? & [Hcon%negb_true_iff ->]%check_ok & Hrun).
  apply tx_bind_ok in Hrun as (? & ? & [-> _]%check_issues_ok & Hrun).
  apply tx_bind_ok in Hrun as (? & ? & [H1 ->]%check_ok & Hrun).
  apply tx_bind_ok in Hrun as (? & ? & [H2 ->]%check_ok & [H3 ->]%check_ok).
  split_and!; try done.
  - by exists run.
  - destruct (artifact_by_id _ db) as [art|] eqn:Hx; [|done].
    apply find_some in Hx as [Hx%list_elem_of_In Hxid%String.eqb_eq].
    apply andb_true_iff in Hart as [[_ Hcur%Z.eqb_eq]%andb_true_iff Hsha%String.eqb_eq].
    by exists art.
  - unfold verdict_fits. split_and!.
    + intros Hp'. rewrite Hp' in H1. simpl in H1. by destruct (sb_issues r).
    + intros Hp' Hnil. by rewrite Hp', Hnil in H2.
    + intros Hp'. rewrite Hp' in H3. simpl in H3.
      apply existsb_exists in H3 as (i & Hi%list_elem_of_In & Hic). bools. by exists i.
Qed.

Lemma create_issues_ok env c rep l : ∀ n db iss db',
  create_issues env n c rep l db = (Ok iss, db') →
  (∃ new, review_issues db' = review_issues db ++ new ∧
    map (λ i, (is_severity i, is_category i, is_status i, is_review_report_id i, is_version i)) new =
    map (λ i, (ii_severity i, ii_category i, "open", rep, 1)) l) ∧
  (review_assignments db', review_reports db', routing db', artifacts db', agent_runs db') =
  (review_assignments db, review_reports db, routing db, artifacts db, agent_runs db).
Proof.
  induction l as [|i l IH]; intros n db iss db' Hrun; simpl in Hrun.
  - apply mret_ok in Hrun as [_ ->]. split; [exists []; by rewrite app_nil_r|done].
  - apply tx_bind_ok in Hrun as (? & db1 & Hi & Hrun).
    apply tx_bind_ok in Hrun as (rest & ? & Hrest & [_ ->]%mret_ok).
    apply insert_ok in Hi as (_ & _ & _ & ->).
    apply IH in Hrest as [(new & Hnew & Hmap) Hfix]. split; [|by rewrite Hfix].
    exists (issue_row env (uuid4 env n) c rep i :: new). rewrite Hnew. simpl. rewrite Hmap.
    split; [by rewrite <-app_assoc|done].
Qed.

Lemma project_ok now r rep db u db' :
  _project_review_outcome now r rep db = (Ok u, db') →
  (review_assignments db', review_reports db', review_issues db') =
  (review_assignments db, review_reports db, review_issues db).
Proof.
  unfold _project_review_outcome. intros Hrun.
  apply tx_bind_ok in Hrun as (o & ? & [-> ->]%gets_ok & Hrun).
  destruct (head _) as [d|]; [|by apply mret_ok in Hrun as [_ ->]].
  destruct (dict_get _ _) as [ev|]; [|by apply mret_ok in Hrun as [_ ->]].
  apply tx_bind_ok in Hrun as (b & db1 & Ho & [_ ->]%mret_ok).
  unfold on_routing in Ho. destruct (Outcomes.append _ _ _ _ _ _ _ _) as [x y].
  by injection Ho as _ <-.
Qed.

Lemma submitted_from s :
  ("submitted" ∈? default [] (dict_get ASSIGNMENT_TRANSITIONS s)) = true → s = "in_review".
Proof.
  destruct (dict_get ASSIGNMENT_TRANSITIONS s) as [ts|] eqn:Hts; [|done]. simpl. intros Ht.
  apply dict_get_some_elem, list_elem_of_In in Hts.
  assert (forallb (λ '(s, ts), negb ("submitted" ∈? ts) || (s =? "in_review"))
    ASSIGNMENT_TRANSITIONS = true) as Hall by reflexivity.
  rewrite forallb_forall in Hall. specialize (Hall _ Hts). simpl in Hall. rewrite Ht in Hall.
  by apply String.eqb_eq.
Qed.

(** The steps of a successful submit without an aggregation service. *)
Lemma submit_ok env now request db res db' :
  table_ok (R := AssignmentRow) db = true →
  submit_review env now None request db = (Ok res, db') →
  ∃ row report new, 
    List.find (λ a, as_id a =? sb_assignment_id request) (review_assignments db) = Some row ∧
    as_status row = "in_review" ∧ as_version row = sb_expected_assignment_version request ∧
    as_company_id row = sb_company_id request ∧
    validate (assignment_of row) request db = (Ok tt, db) ∧
    List.find (λ a, as_id a =? sb_assignment_id request) (review_assignments db') =
      Some (set_assignment_state env "submitted" row) ∧
    review_reports db' = review_reports db ++ [report] ∧
    (rp_id report, rp_assignment_id report, rp_verdict report, rp_reviewed_sha256 report,
     rp_reviewer_run_id report) =
      (uuid4 env 0, sb_assignment_id request, sb_verdict request, sb_reviewed_sha256 request,
       sb_reviewer_run_id request) ∧
    review_issues db' = review_issues db ++ new ∧
    map (λ i, (is_severity i, is_category i, is_status i, is_review_report_id i, is_version i)) new =
      map (λ i, (in_severity i, in_category i, "open", uuid4 env 0, 1)) (sb_issues request) ∧
    ∃ e, events res = [e] ∧ event_type e = "review.submitted" ∧
      aggregate_id e = sb_assignment_id request ∧ aggregate_version e = as_version row + 1 ∧
      outbox res = [_outbox "review.submitted" e].
Proof.
  intros Hok. unfold submit_review. intros Hrun.
  apply tx_bind_ok in Hrun as (a & ? & Hl & Hrun).
  apply lock_assignment_ok in Hl as (-> & row & Hf & ->).
  apply tx_bind_ok in Hrun as ([] & db0 & Hv & Hrun). pose proof Hv as (-> & Hver & _)%validate_ok.
  apply tx_bind_ok in Hrun as (rep & db1 & Hr & Hrun).
  unfold create_report in Hr. apply tx_bind_ok in Hr as (? & ? & Hi & [-> ->]%mret_ok).
  pose proof Hi as (_ & _ & _ & E1)%insert_ok.
  apply tx_bind_ok in Hrun as (iss & db2 & Hcr & Hrun).
  apply create_issues_ok in Hcr as [(new & Hnew & Hmap) E2].
  apply tx_bind_ok in Hrun as (? & db3 & E3%project_ok & Hrun).
  apply tx_bind_ok in Hrun as (res' & db4 & Ht & Hrun).
  apply tx_bind_ok in Hrun as (o & ? & [-> ->]%mret_ok & [-> ->]%mret_ok).
  injection E2 as E21 E22 _ _ _. injection E3 as E31 E32 E33.
  assert (review_assignments db3 = review_assignments db) as Has by (by rewrite E31, E21, E1).
  assert (table_ok (R := AssignmentRow) db3 = true) as Hok3.
  { unfold table_ok in *. change (rows db3) with (review_assignments db3). by rewrite Has. }
  apply transition_ok in Ht as (Hedge & -> & (row' & Hf1 & Hc1 & Hv1 & Hf2 & Hdb4) & _); [|done].
  destruct (find_key_guard as_id (λ a, as_company_id a =? sb_company_id request) _ _ _ Hok
    assignment_same_key Hf) as (Hf0 & Hco & Hid & _).
  change (rows db) with (review_assignments db) in Hf0. apply submitted_from in Hedge. simpl in Hf1, Hf2, Hc1, Hv1, Hedge.
  rewrite Has, Hid, Hf0 in Hf1. injection Hf1 as <-. rewrite Hid in Hf2.
  match type of E1 with _ = set_rows (_ ++ [?r]) _ => exists row, r, new end.
  split_and!; [done|done|done|by apply String.eqb_eq|done|done| |reflexivity| |
    by rewrite Hmap, map_map|].
  - rewrite Hdb4. cbn. by rewrite E32, E22, E1.
  - rewrite Hdb4. cbn. by rewrite E33, Hnew, E1.
  - eexists. split_and!; [reflexivity|done|done| |done]. done.
Qed.

(** A submit that succeeds is complete and consistent: the review had been started
    and is at the caller's version; afterwards it is [submitted] at the next version,
    with exactly one new report carrying the verdict and exactly the given issues, all
    open and attached to it; the reviewed artifact was current with the reviewed hash,
    the reviewer's run had succeeded and the reviewer did not contribute to the artifact;
    a pass has no issues, [needs_changes] has some and [failed] has a blocker about the
    review itself; and one [review.submitted] event goes out at the new version. *)
Lemma submit_review_complete env now request db res db' :
  table_ok (R := AssignmentRow) db = true →
  submit_review env now None request db = (Ok res, db') →
  (∃ row, List.find (λ a, as_id a =? sb_assignment_id request) (review_assignments db) = Some row ∧
     as_status row = "in_review" ∧ as_version row = sb_expected_assignment_version request ∧
     List.find (λ a, as_id a =? sb_assignment_id request) (review_assignments db') =
       Some (set_assignment_state env "submitted" row) ∧
     is_contributor (as_artifact_id row) (as_company_id row) (as_reviewer_employee_id row) db = false ∧
     (∃ run, run ∈ agent_runs db ∧ rn_id run = sb_reviewer_run_id request ∧
        rn_employee_id run = as_reviewer_employee_id row ∧ rn_status run = "succeeded") ∧
     (∃ art, art ∈ artifacts db ∧ ar_id art = as_artifact_id row ∧ ar_is_current art = 1 ∧
        ar_object_sha256 art = as_reviewed_sha256 row) ∧
     ∃ e, events res = [e] ∧ event_type e = "review.submitted" ∧
       aggregate_version e = as_version row + 1 ∧ outbox res = [_outbox "review.submitted" e]) ∧
  (∃ report new, review_reports db' = review_reports db ++ [report] ∧
     rp_verdict report = sb_verdict request ∧ rp_assignment_id report = sb_assignment_id request ∧
     review_issues db' = review_issues db ++ new ∧
     map (λ i, (is_severity i, is_category i, is_status i, is_review_report_id i, is_version i)) new =
       map (λ i, (in_severity i, in_category i, "open", rp_id report, 1)) (sb_issues request)) ∧
  verdict_fits request.
Proof.
  intros Hok Hrun. destruct (submit_ok _ _ _ _ _ _ Hok Hrun)
    as (row & rep & new & Hf & Hst & Hv & Hc & Hval & Hf' & Hrep & E & Hnew & Hmap & e & He).
  apply validate_ok in Hval as (_ & _ & Ha & Hs & (run & Hrin & Hrid & _ & Hre & _ & Hrs)
    & (art & Hain & Haid & Hcur & Hsha) & Hcon & Hfit).
  injection E as E1 E2 E3 E4 E5. split; [|split; [|done]].
  - exists row. simpl in *. split_and!; try done.
    + by exists run.
    + exists art. split_and!; congruence.
    + exists e. naive_solver.
  - exists rep, new. split_and!; try done. by rewrite E1.
Qed.

(** The guards of a submit admit a review that is only [assigned], but the assignment
    table has no edge from there to [submitted]: whatever the request, the verdict and
    the aggregation service, submitting a review that was never started fails. *)
Lemma submit_unstarted_fails env now aggregation request db row :
  List.find (λ a, (as_id a =? sb_assignment_id request) && (as_company_id a =? sb_company_id request))
    (review_assignments db) = Some row →
  as_status row = "assigned" →
  ∃ e, (submit_review env now aggregation request db).1 = Err e.
Proof.
  intros Hf Hst. destruct (submit_review env now aggregation request db) as [[res|e] db'] eqn:Hrun;
    [exfalso|by exists e].
  unfold submit_review in Hrun. apply tx_bind_ok in Hrun as (a & ? & Hl & Hrun).
  apply lock_assignment_ok in Hl as (-> & row' & Hf' & ->). rewrite Hf in Hf'. injection Hf' as <-.
  apply tx_bind_ok in Hrun as (? & db0 & _ & Hrun).
  apply tx_bind_ok in Hrun as (? & db1 & _ & Hrun).
  apply tx_bind_ok in Hrun as (? & db2 & _ & Hrun).
  apply tx_bind_ok in Hrun as (? & db3 & _ & Hrun).
  apply tx_bind_ok in Hrun as (? & db4 & Ht & _).
  unfold transition in Ht. apply tx_bind_ok in Ht as (? & ? & [Ht _]%check_ok & _).
  apply submitted_from in Ht. simpl in Ht. congruence.
Qed.

(** A resolution is bound to evidence: when [resolve] succeeds the issue was being
    fixed, the summary's hash names a current artifact of the company, the fix run is a
    succeeded repair, the retest is a current test result, and exactly one evidence row
    naming all of them is on record for the issue. *)
Theorem resolve_binds_evidence env request db res db' :
  table_ok (R := IssueRow) db = true → resolve_issue env request db = (Ok res, db') →
  let company := rs_company_id request in
  (∃ a, a ∈ artifacts db ∧ ar_company_id a = company ∧ ar_is_current a = 1 ∧
     ar_object_sha256 a = rs_resolution_artifact_sha256 request) ∧
  (∃ r, r ∈ agent_runs db ∧ rn_id r = rs_fix_run_id request ∧ rn_company_id r = company ∧
     rn_run_purpose r = "repair" ∧ rn_status r = "succeeded") ∧
  (∃ a, a ∈ artifacts db ∧ ar_id a = rs_retest_result_id request ∧ ar_company_id a = company ∧
     ar_artifact_type a = "test_result" ∧ ar_is_current a = 1) ∧
  ∃ e, resolution_evidence db' = resolution_evidence db ++ [e] ∧
    ev_issue_id e = rs_issue_id request ∧ ev_company_id e = company ∧
    ev_evidence e = JObj [
      ("fix_run_id", JStr (rs_fix_run_id request)); ("issue_id", JStr (rs_issue_id request));
      ("resolution_artifact_sha256", JStr (rs_resolution_artifact_sha256 request));
      ("resolution_summary", JStr (rs_resolution_summary request));
      ("retest_result_id", JStr (rs_retest_result_id request))].
Proof.
  intros Hok Hrun company. unfold resolve_issue in Hrun.
  apply tx_bind_ok in Hrun as (i & ? & Hl & Hrun).
  apply lock_issue_ok in Hl as (-> & row & Hf & [= E1 E2 E3 E4 E5] & _).
  apply find_some in Hf as [_ [Hid%String.eqb_eq Hco%String.eqb_eq]%andb_true_iff].
  apply tx_bind_ok in Hrun as (? & ? & [_ ->]%check_ok & Hrun).
  apply tx_bind_ok in Hrun as (i' & ? & Ht & [_ ->]%mret_ok).
  apply resolve_ok in Ht as (_ & _ & _ & H1 & H2 & H3 & (e & He & Hei & Hec & Hev) & _); [|done].
  rewrite E1, Hid in *. rewrite E2, Hco in *.
  apply existsb_exists in H1 as (a & Ha%list_elem_of_In & Hb1).
  apply existsb_exists in H2 as (r & Hr%list_elem_of_In & Hb2).
  apply existsb_exists in H3 as (t & Ht%list_elem_of_In & Hb3).
  repeat (apply andb_true_iff in Hb1 as [Hb1 ?]); repeat (apply andb_true_iff in Hb2 as [Hb2 ?]);
    repeat (apply andb_true_iff in Hb3 as [Hb3 ?]).
  repeat match goal with
  | H : (_ =? _) = true |- _ => apply String.eqb_eq in H
  | H : (_ =? _)%Z = true |- _ => apply Z.eqb_eq in H
  end.
  split_and!; [by exists a|by exists r|by exists t|by exists e].
Qed.

(** What a rerun is allowed on: the assignment of the report, the artifact it reviewed,
    and the guards on them. *)
Record rerun_allowed (company review : string) (db : DB) (row : AssignmentRow) (art : Artifact)
    : Prop := {
  rerun_row_found : rerun_source review company db = Some row;
  rerun_artifact : List.find (λ a, (ar_id a =? as_artifact_id row) &&
    (ar_company_id a =? company)) (artifacts db) = Some art;
  rerun_current : (ar_is_current art =? 1)%Z = true;
  rerun_hash : (ar_object_sha256 art =? as_reviewed_sha256 row) = true;
  rerun_reviewer : active_employee (as_reviewer_employee_id row) company db = true;
  rerun_no_contributor :
    is_contributor (as_artifact_id row) company (as_reviewer_employee_id row) db = false }.

Definition next_round (env : Ambient) (n : nat) (company : string) (row : AssignmentRow) : AssignmentRow := {|
  as_id := uuid4 env n; as_company_id := company; as_artifact_id := as_artifact_id row;
  as_reviewer_employee_id := as_reviewer_employee_id row;
  as_review_round := as_review_round row + 1; as_reviewed_sha256 := as_reviewed_sha256 row;
  as_status := "assigned"; as_assigned_at := now_ms env; as_submitted_at := None;
  as_version := 1 |}.

Lemma create_rerun_ok env n company review db asg ev ob db' :
  create_rerun_assignment env n company review db = (Ok (asg, ev, ob), db') →
  ∃ row art, rerun_allowed company review db row art ∧
    insert_row (next_round env n company row) db = (Ok tt, db') ∧
    event_type ev = "review.assigned" ∧ aggregate_id ev = uuid4 env n.
Proof.
  intros Hc. unfold create_rerun_assignment in Hc.
  apply tx_bind_ok in Hc as (o & ? & [-> ->]%gets_ok & Hc).
  apply tx_bind_ok in Hc as (row & ? & [H1 ->]%found_ok & Hc).
  apply tx_bind_ok in Hc as (o & ? & [-> ->]%gets_ok & Hc).
  apply tx_bind_ok in Hc as (art & ? & [H2 ->]%found_ok & Hc).
  apply tx_bind_ok in Hc as (? & ? & [H3 ->]%check_ok & Hc).
  apply tx_bind_ok in Hc as (? & ? & [H4 ->]%check_ok & Hc).
  apply tx_bind_ok in Hc as (o & ? & [-> ->]%gets_ok & Hc).
  apply tx_bind_ok in Hc as (? & ? & [H5 ->]%check_ok & Hc).
  apply tx_bind_ok in Hc as (o & ? & [-> ->]%gets_ok & Hc).
  apply tx_bind_ok in Hc as (? & ? & [H6%negb_true_iff ->]%check_ok & Hc).
  apply tx_bind_ok in Hc as ([] & ? & Hi & [[= -> -> ->] ->]%mret_ok).
  exists row, art. split; [by split|]. split; [done|by split].
Qed.

(** A refused rerun leaves no trace. *)
Lemma create_rerun_err env n company review db e db' :
  create_rerun_assignment env n company review db = (Err e, db') → db' = db.
Proof.
  intros H. unfold create_rerun_assignment in H.
  repeat (apply tx_bind_err in H as [H|(? & ? & H' & H)];
    [solve [discriminate H|by apply found_err in H as (_ & _ & ->)|by apply check_err in H as (_ & _ & ->)
           |by apply insert_err in H as [-> _]]|
     first [apply gets_ok in H' as [-> ->]|apply found_ok in H' as [_ ->]
           |apply check_ok in H' as [_ ->]|idtac]]).
  discriminate H.
Qed.

Lemma rerun_review_ok env request db res db' :
  rerun_review env request db = (Ok res, db') →
  ∃ row art, rerun_allowed (rv_company_id request) (rv_review_id request) db row art ∧
    insert_row (next_round env 0 (rv_company_id request) row) db = (Ok tt, db') ∧
    ∃ e, events res = [e] ∧ event_type e = "review.assigned" ∧ aggregate_id e = uuid4 env 0.
Proof.
  intros Hrun.
  apply tx_bind_ok in Hrun as ([[asg ev] ob] & ? & Hc & [-> ->]%mret_ok).
  apply create_rerun_ok in Hc as (row & art & H1 & H2 & H3). exists row, art.
  split; [done|]. split; [done|by eexists].
Qed.

(** An allowed rerun stands and falls with its insert. *)
Lemma rerun_review_refused env request db row art e :
  rerun_allowed (rv_company_id request) (rv_review_id request) db row art →
  insert_row (next_round env 0 (rv_company_id request) row) db = (Err e, db) →
  rerun_review env request db = (Err e, db).
Proof.
  intros [H1 H2 H3 H4 H5 H6] Hins. unfold rerun_review. apply tx_bind_run_err.
  unfold create_rerun_assignment.
  erewrite tx_bind_run by reflexivity. rewrite H1. erewrite tx_bind_run by reflexivity.
  erewrite tx_bind_run by reflexivity. rewrite H2. erewrite tx_bind_run by reflexivity.
  rewrite H3, H4. do 2 erewrite tx_bind_run by reflexivity.
  erewrite tx_bind_run by reflexivity. rewrite H5. erewrite tx_bind_run by reflexivity.
  erewrite tx_bind_run by reflexivity. rewrite H6. erewrite tx_bind_run by reflexivity.
  exact (tx_bind_run_err _ _ _ _ _ Hins).
Qed.

(** A rerun opens the next round, once: when it succeeds the reviewed artifact is
    still current with the reviewed hash, the reviewer is active and not a
    contributor, and one fresh assignment for the same artifact and reviewer is added
    at the following round with its [review.assigned] event, the old report and
    assignment standing; asking again for a rerun of the same report is refused by
    the round's uniqueness and changes nothing. *)
Lemma rerun_opens_next_round env env' request db res db' :
  rerun_review env request db = (Ok res, db') →
  (∃ row fresh, rerun_source (rv_review_id request) (rv_company_id request) db = Some row ∧
     review_assignments db' = review_assignments db ++ [fresh] ∧
     (as_artifact_id fresh, as_reviewer_employee_id fresh, as_reviewed_sha256 fresh,
      as_review_round fresh, as_status fresh, as_version fresh) =
     (as_artifact_id row, as_reviewer_employee_id row, as_reviewed_sha256 row,
      as_review_round row + 1, "assigned", 1) ∧
     active_employee (as_reviewer_employee_id row) (rv_company_id request) db = true ∧
     is_contributor (as_artifact_id row) (rv_company_id request) (as_reviewer_employee_id row) db
       = false ∧
     (∃ art, art ∈ artifacts db ∧ ar_id art = as_artifact_id row ∧ ar_is_current art = 1 ∧
        ar_object_sha256 art = as_reviewed_sha256 row) ∧
     ∃ e, events res = [e] ∧ event_type e = "review.assigned" ∧ aggregate_id e = as_id fresh) ∧
  review_reports db' = review_reports db ∧
  rerun_review env' request db' = (Err (IntegrityErr "review_assignments"), db').
Proof.
  intros (row & art & Hall & Hi & He)%rerun_review_ok. pose proof Hall as [H1 H2 H3 H4 H5 H6].
  apply insert_ok in Hi as (_ & _ & _ & ->).
  set (fresh := next_round env 0 (rv_company_id request) row).
  apply find_some in H2 as H2'. destruct H2' as [Hart [Hid%String.eqb_eq _]%andb_true_iff].
  split; [|split; [done|]].
  - exists row, fresh. split_and!; [done..| |done].
    exists art. apply list_elem_of_In in Hart.
    split_and!; [done|done|by apply Z.eqb_eq|by apply String.eqb_eq].
  - apply (rerun_review_refused _ _ _ row art).
    + split; try done. revert H1. unfold rerun_source.
      change (review_reports (set_rows _ _)) with (review_reports db).
      destruct (List.find _ (review_reports db)) as [rep|]; [|done]. simpl.
      intros Hf. by apply find_app_some.
    + refine (insert_clash (R := AssignmentRow) fresh _ _ _ _);
        [rewrite rows_set_rows; set_solver|].
      simpl. unfold assignment_clash. simpl.
      by rewrite !String.eqb_refl, Z.eqb_refl, orb_true_r.
Qed.

(** Starting a review is a compare-and-swap on the version: a start that succeeds
    found the review [assigned] at the caller's version and left it [in_review] at the
    next, every other assignment untouched; a second start with the same version, by
    anyone, fails and changes nothing. *)
Lemma start_review_once env env' request db res db' :
  table_ok (R := AssignmentRow) db = true → start_review env request db = (Ok res, db') →
  (∃ row, List.find (λ a, as_id a =? sr_assignment_id request) (review_assignments db) = Some row ∧
     as_status row = "assigned" ∧ as_version row = sr_expected_version request ∧
     List.find (λ a, as_id a =? sr_assignment_id request) (review_assignments db') =
       Some (set_assignment_state env "in_review" row)) ∧
  (∀ x, as_id x ≠ sr_assignment_id request → x ∈ review_assignments db' ↔ x ∈ review_assignments db) ∧
  start_review env' request db' = (Err (ValueError "OPTIMISTIC_LOCK_CONFLICT"), db').
Proof.
  intros Hok Hrun. unfold start_review in Hrun. apply tx_bind_ok in Hrun as (a & ? & Hl & Hrun).
  apply lock_assignment_ok in Hl as (-> & row & Hf & ->).
  apply tx_bind_ok in Hrun as (? & ? & [Hv%Z.eqb_eq ->]%check_ok & Hrun).
  apply tx_bind_ok in Hrun as (a' & db1 & Ht & [_ ->]%mret_ok).
  apply transition_ok in Ht as (Hedge & _ & (row' & Hf1 & _ & _ & Hf2 & Hdb) & _); [|done].
  destruct (find_key_guard as_id (λ a, as_company_id a =? sr_company_id request) _ _ _ Hok
    assignment_same_key Hf) as (Hf0 & Hco & Hid & _).
  change (rows db) with (review_assignments db) in Hf0. simpl in Hf1, Hf2, Hv.
  rewrite Hid, Hf0 in Hf1. injection Hf1 as <-. rewrite Hid in Hf2. split; [|split].
  - exists row. split_and!; [done| |done|done].
    assert (forallb (λ '(s, ts), negb ("in_review" ∈? ts) || (s =? "assigned"))
      ASSIGNMENT_TRANSITIONS = true) as Hall by reflexivity.
    change (ra_state (assignment_of row)) with (as_status row) in Hedge.
    destruct (dict_get ASSIGNMENT_TRANSITIONS (as_status row)) as [ts|] eqn:Hts; [|done].
    apply dict_get_some_elem, list_elem_of_In in Hts. rewrite forallb_forall in Hall.
    specialize (Hall _ Hts). simpl in Hedge, Hall. rewrite Hedge in Hall. by apply String.eqb_eq.
  - intros u Hu. rewrite Hdb. cbn [set_rows assignments_table review_assignments].
    rewrite elem_updated. change (ra_id (assignment_of row)) with (as_id row). rewrite Hid. split.
    + intros [[Hin _]|(y & _ & Hy & ->)]; [done|]. by apply String.eqb_eq in Hy.
    + intros Hin. left. split; [done|]. by apply String.eqb_neq.
  - unfold start_review.
    rewrite (tx_bind_run _ _ db1 (assignment_of (set_assignment_state env "in_review" row)) db1).
    + simpl. rewrite Hv. assert ((sr_expected_version request + 1 =? sr_expected_version request)%Z
        = false) as -> by (apply Z.eqb_neq; lia). done.
    + unfold lock_assignment. rewrite (tx_bind_run _ _ db1 (Some (set_assignment_state env "in_review" row)) db1).
      * done.
      * unfold select_one, gets. do 2 f_equal. rewrite Hdb.
        cbn [set_rows assignments_table review_assignments rows].
        change (ra_id (assignment_of row)) with (as_id row). rewrite Hid. clear -Hf.
        induction (review_assignments db) as [|x l IH]; simpl in *; [done|].
        destruct (as_id x =? sr_assignment_id request) eqn:Hx; simpl; rewrite Hx; simpl in *; [|by apply IH].
        destruct (as_company_id x =? sr_company_id request); [by injection Hf as ->|by apply IH].
Qed.

(** ** A database the theorems run on *)

Module Demo.
Definition sha : string := "0123456789abcdef0123456789abcdef0123456789abcdef0123456789abcdef".
Definition env (tag : string) : Ambient := {|
  now_text := "2025-01-02T00:00:00Z"; expiry_text _ := "2025-02-01T00:00:00Z";
  now_ms := "2025-01-02T00:00:00.000Z"; now_sql := "2025-01-02 00:00:00";
  uuid4 n := tag +:+ pretty.pretty n |}.
Definition artifact (id type by_type : string) (run : option string) : Artifact := {|
  ar_id := id; ar_company_id := "co"; ar_company_task_id := "task"; ar_artifact_type := type; ar_object_sha256 := sha;
  ar_is_current := 1; ar_created_by_type := by_type; ar_created_by_run_id := run; ar_logical_name := id;
  ar_object_size := 1; ar_media_type := "text/plain"; ar_metadata := JObj [];
  ar_supersedes_artifact_id := None; ar_created_at := "t" |}.
Definition employee (id : string) : Employee := {|
  em_id := id; em_company_id := "co"; em_status := "active"; em_department_id := "dep";
  em_base_profile_version_id := "prof" |}.
Definition run (id employee purpose : string) : ReviewRun := {|
  rn_id := id; rn_company_id := "co"; rn_employee_id := employee; rn_run_purpose := purpose;
  rn_status := "succeeded"; rn_company_task_id := "task"; rn_department_task_id := None;
  rn_employee_task_id := None; rn_work_item_id := id; rn_conversation_id := "conv";
  rn_availability_snapshot_id := "av"; rn_execution_snapshot_id := "ex"; rn_adapter_type := "api_model";
  rn_run_spec := JObj []; rn_attempt := 1; rn_created_at := "t" |}.
Definition db0 : DB := {|
  review_assignments := [{|
    as_id := "as"; as_company_id := "co"; as_artifact_id := "doc"; as_reviewer_employee_id := "rev";
    as_review_round := 1; as_reviewed_sha256 := sha; as_status := "assigned"; as_assigned_at := "t";
    as_submitted_at := None; as_version := 1 |}];
  review_reports := []; review_issues := []; resolution_evidence := []; idem_rows := [];
  event_rows := []; outbox_rows := []; routing := RS.Demo.db0;
  artifacts := [artifact "doc" "document" "user" None;
    artifact "rep" "review_report" "agent" (Some "run"); artifact "test" "test_result" "user" None];
  artifact_contributors := [("doc", "co", "author")];
  employees := [employee "rev"; employee "author"];
  agent_runs := [run "run" "rev" "review"; run "fix" "author" "repair"];
  companies := ["co"];
  ledger := {| review_report_scores := []; reviewer_stats := []; review_verdicts := [];
    deliverable_review_specs := [{|
      sp_id := "spec"; sp_company_id := "co"; sp_company_task_id := "task";
      sp_artifact_type := "document"; sp_review_rounds := 2; sp_confidence_threshold := f0_70;
      sp_department_task_id := "dt"; sp_review_strategy := "independent_drafts";
      sp_contributor_employee_ids := JList [JStr "author"]; sp_reviewer_employee_ids := JList [JStr "rev"] |}] |} |}.
Definition start : StartReview := {|
  sr_company_id := "co"; sr_assignment_id := "as"; sr_expected_version := 1 |}.
Definition issue : ReviewIssueInput := {|
  in_client_issue_id := "c1"; in_severity := "high"; in_category := "functional";
  in_description := "d"; in_expected := "e"; in_actual := "a"; in_evidence_refs := ["doc"];
  in_suggested_fix := "f"; in_assignee_employee_id := Some "author" |}.
Definition submit (version : Z) : SubmitReview := {|
  sb_company_id := "co"; sb_assignment_id := "as"; sb_reviewer_run_id := "run";
  sb_reviewed_artifact_id := "doc"; sb_reviewed_sha256 := sha; sb_report_artifact_id := "rep";
  sb_verdict := "needs_changes"; sb_issues := [issue]; sb_expected_assignment_version := version |}.
Definition db1 : DB := (start_review (env "a") start db0).2.
Definition run2 := submit_review (env "b") "t" None (submit 2) db1.
Definition db2 : DB := run2.2.
Definition fix_it : StartIssueFix := {|
  sf_company_id := "co"; sf_issue_id := "b1"; sf_expected_version := 1 |}.
Definition reject_it : RejectIssue := {|
  rj_company_id := "co"; rj_issue_id := "b1"; rj_rejection_reason := "no"; rj_expected_version := 1 |}.
Definition db3 : DB := (start_issue_fix (env "c") fix_it db2).2.
Definition resolve : ResolveIssue := {|
  rs_company_id := "co"; rs_issue_id := "b1"; rs_resolution_artifact_sha256 := sha;
  rs_fix_run_id := "fix"; rs_retest_result_id := "test"; rs_resolution_summary := "done";
  rs_expected_version := 2 |}.
Definition db4 : DB := (resolve_issue (env "d") resolve db3).2.
Definition rerun : RerunReview := {| rv_company_id := "co"; rv_review_id := "b0" |}.
Definition db5 : DB := (rerun_review (env "e") rerun db4).2.
Definition result_of (m : result CommandResult * DB) : CommandResult :=
  match m.1 with Ok r => r | Err _ => {| response := RStr ""; events := []; outbox := [] |} end.
End Demo.

Lemma start_review_once_witness :
  map as_status (review_assignments Demo.db1) = ["in_review"] ∧
  start_review (Demo.env "z") Demo.start Demo.db1 =
    (Err (ValueError "OPTIMISTIC_LOCK_CONFLICT"), Demo.db1).
Proof.
  split; [by vm_compute|].
  apply (start_review_once (Demo.env "a") (Demo.env "z") Demo.start Demo.db0
    (Demo.result_of (start_review (Demo.env "a") Demo.start Demo.db0)) Demo.db1); by vm_compute.
Defined.

Lemma submit_review_complete_witness :
  map rp_verdict (review_reports Demo.db2) = ["needs_changes"] ∧
  map is_id (review_issues Demo.db2) = ["b1"] ∧ verdict_fits (Demo.submit 2).
Proof.
  split; [by vm_compute|]. split; [by vm_compute|].
  apply (submit_review_complete (Demo.env "b") "t" (Demo.submit 2) Demo.db1
    (Demo.result_of Demo.run2) Demo.db2); by vm_compute.
Defined.

Lemma submit_unstarted_fails_witness :
  ∃ e, (submit_review (Demo.env "b") "t" None (Demo.submit 1) Demo.db0).1 = Err e.
Proof.
  apply (submit_unstarted_fails (Demo.env "b") "t" None (Demo.submit 1) Demo.db0
    (default (Build_AssignmentRow "" "" "" "" 0 "" "" "" None 0) (head (review_assignments Demo.db0))));
    by vm_compute.
Defined.

Lemma issue_ops_follow_lifecycle_witness :
  map is_status (review_issues Demo.db3) = ["fixing"] ∧
  ∀ x, is_id x ≠ "b1" → x ∈ review_issues Demo.db3 ↔ x ∈ review_issues Demo.db2.
Proof.
  split; [by vm_compute|].
  apply (issue_ops_follow_lifecycle (Demo.env "c") (StartFixOp Demo.fix_it) Demo.db2
    (Demo.result_of (start_issue_fix (Demo.env "c") Demo.fix_it Demo.db2)) Demo.db3); by vm_compute.
Defined.

Lemma issue_ops_optimistic_witness :
  reject_issue (Demo.env "z") Demo.reject_it Demo.db3 =
    (Err (ValueError "OPTIMISTIC_LOCK_CONFLICT"), Demo.db3).
Proof.
  apply (issue_ops_optimistic (Demo.env "c") (Demo.env "z") (StartFixOp Demo.fix_it)
    (RejectOp Demo.reject_it) Demo.db2
    (Demo.result_of (start_issue_fix (Demo.env "c") Demo.fix_it Demo.db2)) Demo.db3); by vm_compute.
Defined.

Lemma resolve_binds_evidence_witness :
  ∃ e, resolution_evidence Demo.db4 = resolution_evidence Demo.db3 ++ [e] ∧ ev_issue_id e = "b1".
Proof.
  destruct (resolve_binds_evidence (Demo.env "d") Demo.resolve Demo.db3
    (Demo.result_of (resolve_issue (Demo.env "d") Demo.resolve Demo.db3)) Demo.db4)
    as (_ & _ & _ & e & He & Hi & _); [by vm_compute..|].
  exists e. split; [exact He|exact Hi].
Defined.

Lemma rerun_opens_next_round_witness :
  map as_review_round (review_assignments Demo.db5) = [1; 2] ∧
  rerun_review (Demo.env "z") Demo.rerun Demo.db5 =
    (Err (IntegrityErr "review_assignments"), Demo.db5).
Proof.
  split; [by vm_compute|].
  apply (rerun_opens_next_round (Demo.env "e") (Demo.env "z") Demo.rerun Demo.db4
    (Demo.result_of (rerun_review (Demo.env "e") Demo.rerun Demo.db4)) Demo.db5); by vm_compute.
Defined.
