(* ===== verification/VerdictFusion.v ===== *)
(** * Verdict fusion

    [domain/review/aggregation.py]: the weight of a reviewer, the fusion of the verdicts
    on an artifact, and what is to happen next.  Floats are computed as the code
    computes them, roundings included (PyIeee).

    The theorems: weights stay within their clamps, confidences between 0 and 1; a veto is
    never outvoted; another passing review never lowers the confidence; and every outcome of
    the decision has the condition that the code documents. *)

From Stdlib Require Import QArith Lqa.
From S2P Require Import Prelude PyFloat PyIeee.

(* [sidecar/ibreeze/domain/review/aggregation.py:23-23 _MIN_ACCURACY] *)
Definition _MIN_ACCURACY : float := f0_30.
(* [sidecar/ibreeze/domain/review/aggregation.py:24-24 _MAX_ACCURACY] *)
Definition _MAX_ACCURACY : float := f0_95.
(* [sidecar/ibreeze/domain/review/aggregation.py:25-25 _DEFAULT_WEIGHT] *)
Definition _DEFAULT_WEIGHT : float := f0_50.

(* [sidecar/ibreeze/domain/review/aggregation.py:28-34 ReportScore] *)
Record ReportScore := { rs_report_id : string; rs_verdict : string; rs_weight : float }.

(* [sidecar/ibreeze/domain/review/aggregation.py:37-43 FusedVerdict] *)
Record FusedVerdict := { fv_verdict : string; fv_confidence : float; fv_hard_veto : bool }.

(** [stats] are an accuracy and a sample count. *)
(* [sidecar/ibreeze/domain/review/aggregation.py:46-61 compute_weight] *)
Definition compute_weight (stats : option (float * Z)) : float :=
  match stats with
  | None => _DEFAULT_WEIGHT
  | Some (accuracy, sample_count) =>
      if (sample_count <? 5)%Z then _DEFAULT_WEIGHT
      else round3 (fmax _MIN_ACCURACY (fmin _MAX_ACCURACY accuracy))
  end.

(** [p_fail] after the loop over the scores. *)
Definition p_fail (scores : list ReportScore) : float :=
  fold_left (λ p s, fmul p (fsub f1 (rs_weight s))) scores f1.

(* [sidecar/ibreeze/domain/review/aggregation.py:64-77 fuse_verdicts] *)
Definition fuse_verdicts (scores : list ReportScore) (open_blocker_high_issues : Z) : FusedVerdict :=
  if (0 <? open_blocker_high_issues)%Z || existsb (λ s, negb (rs_verdict s =? "pass")) scores
  then {| fv_verdict := "needs_changes"; fv_confidence := f1; fv_hard_veto := true |}
  else {| fv_verdict := "pass"; fv_confidence := round3 (fsub f1 (p_fail scores));
          fv_hard_veto := false |}.

(* [sidecar/ibreeze/domain/review/aggregation.py:81-83 confidence_ok] *)
Definition confidence_ok (verdict : FusedVerdict) (threshold : float) : bool :=
  fv_hard_veto verdict || fle threshold (fv_confidence verdict).

(* [sidecar/ibreeze/domain/review/aggregation.py:86-114 rerun_decision] *)
Definition rerun_decision (verdict : FusedVerdict) (current_round review_rounds pending_current_round : Z)
    (threshold : float) : string :=
  if fv_hard_veto verdict then "blocked"
  else if (0 <? pending_current_round)%Z then "wait_quorum"
  else if confidence_ok verdict threshold then "pass"
  else if (review_rounds <=? current_round)%Z then "exhausted"
  else "rerun".

(** ** Weights and confidences *)

Definition unit_interval (x : float) : Prop := (0 <= x)%Q ∧ (x <= 1)%Q.

Lemma fmin_le a b : (fmin a b <= a)%Q ∧ (fmin a b <= b)%Q.
Proof.
  unfold fmin, flt. destruct (fle a b) eqn:H; simpl.
  - apply fle_iff in H. split; [apply Qle_refl|done].
  - split; [|apply Qle_refl]. destruct (fle_total a b) as [?|H']; [congruence|by apply fle_iff].
Qed.

Lemma fmax_between lo hi x : (lo <= hi)%Q → (x <= hi)%Q → (lo <= fmax lo x)%Q ∧ (fmax lo x <= hi)%Q.
Proof.
  intros Hlh Hx. unfold fmax, flt. destruct (fle x lo) eqn:H; simpl; [by split; [apply Qle_refl|]|].
  split; [|done]. destruct (fle_total x lo) as [?|H']; [congruence|by apply fle_iff].
Qed.

Lemma accuracy_between x : (f0_30 <= fmax _MIN_ACCURACY (fmin _MAX_ACCURACY x))%Q ∧
  (fmax _MIN_ACCURACY (fmin _MAX_ACCURACY x) <= f0_95)%Q.
Proof. apply fmax_between; [discriminate|]. apply (fmin_le _MAX_ACCURACY x). Qed.

Lemma weight_between stats : (f0_30 <= compute_weight stats)%Q ∧ (compute_weight stats <= f0_95)%Q.
Proof.
  destruct stats as [[a n]|]; [|split; discriminate].
  unfold compute_weight. destruct (n <? 5)%Z; [split; discriminate|].
  destruct (accuracy_between a) as [H1 H2]. set (x := fmax _ _) in *.
  assert (0 <= x)%Q as H0 by (eapply Qle_trans; [|exact H1]; discriminate). split.
  - eapply Qle_trans; [|apply (round3_mono f0_30 x); [discriminate|exact H1]]. by apply Qle_bool_iff.
  - eapply Qle_trans; [apply (round3_mono x f0_95); [exact H0|exact H2]|]. by apply Qle_bool_iff.
Qed.

Lemma fsub_unit x : unit_interval x → unit_interval (fsub f1 x).
Proof.
  intros [H1 H2]. apply rnd_between; [apply double_0|apply double_1|..]; unfold f1, dbl; lra.
Qed.

Lemma fmul_unit x y : unit_interval x → unit_interval y → unit_interval (fmul x y).
Proof.
  intros [H1 H2] [H3 H4]. apply rnd_between; [apply double_0|apply double_1|..].
  - by apply Qmult_le_0_compat.
  - eapply Qle_trans; [apply (Qmult_le_compat_r x 1 y)|]; [done..|]. by rewrite Qmult_1_l.
Qed.

Lemma unit_0 : unit_interval f0.
Proof. split; discriminate. Qed.
Lemma unit_1 : unit_interval f1.
Proof. split; discriminate. Qed.

(** An accuracy blended with a new observation. *)
Lemma blend_unit x y : unit_interval x → unit_interval y → unit_interval (fadd (fmul f0_70 x) (fmul f0_30 y)).
Proof.
  intros [X0 X1] [Y0 Y1].
  assert (∀ k z, (0 <= k)%Q → is_double k → (0 <= z)%Q → (z <= 1)%Q →
    (0 <= fmul k z)%Q ∧ (fmul k z <= k)%Q) as Hk.
  { intros k z Hk0 Hk Hz0 Hz1. apply rnd_between; [apply double_0|done|by apply Qmult_le_0_compat|].
    rewrite Qmult_comm. eapply Qle_trans; [apply (Qmult_le_compat_r z 1 k)|]; [done..|].
    rewrite Qmult_1_l. apply Qle_refl. }
  destruct (Hk f0_70 x) as [A0 A1]; [done|rewrite <-f0_70_is; apply rnd_double|done..|].
  destruct (Hk f0_30 y) as [B0 B1]; [done|rewrite <-f0_30_is; apply rnd_double|done..|].
  apply rnd_between; [apply double_0|apply double_1|..].
  - rewrite <-(Qplus_0_l 0). by apply Qplus_le_compat.
  - eapply Qle_trans; [apply Qplus_le_compat; [exact A1|exact B1]|]. by compute.
Qed.

Definition weighted (scores : list ReportScore) : Prop := Forall (λ s, unit_interval (rs_weight s)) scores.

Lemma p_fail_snoc scores s : p_fail (scores ++ [s]) = fmul (p_fail scores) (fsub f1 (rs_weight s)).
Proof. unfold p_fail. by rewrite fold_left_app. Qed.

Lemma p_fail_ok scores : weighted scores → unit_interval (p_fail scores) ∧ is_double (p_fail scores).
Proof.
  induction scores as [|s scores IH] using rev_ind; intros Hw.
  - split; [by split; discriminate|apply double_1].
  - apply Forall_app in Hw as [Hw [Hs _]%Forall_cons]. destruct (IH Hw) as [Hp _]. rewrite p_fail_snoc.
    split; [by apply fmul_unit; [|apply fsub_unit]|apply rnd_double].
Qed.

Lemma round3_unit x : unit_interval x → unit_interval (round3 x).
Proof.
  intros [H1 H2]. split.
  - eapply Qle_trans; [|apply (round3_mono 0); [apply Qle_refl|exact H1]]. by apply Qle_bool_iff.
  - eapply Qle_trans; [apply (round3_mono _ 1); [exact H1|exact H2]|]. by apply Qle_bool_iff.
Qed.

Lemma confidence_between scores : weighted scores → unit_interval (round3 (fsub f1 (p_fail scores))).
Proof. intros Hw. destruct (p_fail_ok _ Hw) as [Hp _]. by apply round3_unit, fsub_unit. Qed.

Lemma p_fail_more scores s : weighted (scores ++ [s]) → (p_fail (scores ++ [s]) <= p_fail scores)%Q.
Proof.
  intros [Hw [Hs _]%Forall_cons]%Forall_app. destruct (p_fail_ok _ Hw) as [[H0 _] Hd].
  rewrite p_fail_snoc. rewrite <-(rnd_exact _ Hd) at 2. apply rnd_mono.
  destruct (fsub_unit _ Hs) as [H1 H2]. rewrite Qmult_comm.
  eapply Qle_trans; [apply (Qmult_le_compat_r _ 1); done|]. rewrite Qmult_1_l. apply Qle_refl.
Qed.

Lemma confidence_more scores s : weighted (scores ++ [s]) →
  (round3 (fsub f1 (p_fail scores)) <= round3 (fsub f1 (p_fail (scores ++ [s]))))%Q.
Proof.
  intros Hw. pose proof (p_fail_more _ _ Hw) as Hp. apply Forall_app in Hw as [Hw _].
  destruct (p_fail_ok _ Hw) as [Hu _]. apply round3_mono; [by apply fsub_unit|].
  apply rnd_mono. unfold f1, dbl. lra.
Qed.

(** ** The theorems *)

Definition vetoed (scores : list ReportScore) (open : Z) : Prop :=
  (0 < open)%Z ∨ ∃ s, s ∈ scores ∧ rs_verdict s ≠ "pass".

Lemma fuse_cases scores open :
  vetoed scores open ∧
    fuse_verdicts scores open = {| fv_verdict := "needs_changes"; fv_confidence := f1; fv_hard_veto := true |} ∨
  ¬ vetoed scores open ∧
    fuse_verdicts scores open = {| fv_verdict := "pass";
      fv_confidence := round3 (fsub f1 (p_fail scores)); fv_hard_veto := false |}.
Proof.
  unfold fuse_verdicts, vetoed. destruct (_ || _) eqn:H.
  - left. split; [|done]. apply orb_true_iff in H as [H|H]; [left; by apply Z.ltb_lt|right].
    apply existsb_exists in H as (s & Hin & Hs). exists s. split; [by apply list_elem_of_In|].
    intros Heq. by rewrite Heq in Hs.
  - right. split; [|done]. apply orb_false_iff in H as [H1 H2]. apply Z.ltb_ge in H1.
    intros [?|(s & Hin & Hs)]; [lia|]. rewrite <-not_true_iff_false in H2. apply H2, existsb_exists.
    exists s. split; [by apply list_elem_of_In|]. by apply negb_true_iff, String.eqb_neq.
Qed.

(** Fusing verdicts: a single report that is not a pass, or a single open blocker or
    high issue, vetoes whatever the others say, with confidence 1; with no veto the
    verdict is a pass with a confidence between 0 and 1, which one more passing report
    with any weight never lowers.  The weights are those of [compute_weight]. *)
Lemma fuse_verdicts_sound (scores : list ReportScore) (open : Z) (stats : string → option (float * Z)) :
  (∀ s, s ∈ scores → rs_weight s = compute_weight (stats (rs_report_id s))) →
  let fused := fuse_verdicts scores open in
  (fv_hard_veto fused = true ↔ vetoed scores open) ∧
  (fv_verdict fused = if fv_hard_veto fused then "needs_changes" else "pass") ∧
  (fv_hard_veto fused = true → fv_confidence fused = f1) ∧
  unit_interval (fv_confidence fused) ∧
  ∀ s, rs_verdict s = "pass" → rs_weight s = compute_weight (stats (rs_report_id s)) →
    let more := fuse_verdicts (scores ++ [s]) open in
    fv_hard_veto more = fv_hard_veto fused ∧ (fv_confidence fused <= fv_confidence more)%Q.
Proof.
  intros Hw. assert (∀ x, unit_interval (compute_weight x)) as Hunit.
  { intros x. destruct (weight_between x) as [H1 H2]. split.
    - eapply Qle_trans; [|exact H1]. discriminate.
    - eapply Qle_trans; [exact H2|]. discriminate. }
  assert (weighted scores) as Hws.
  { apply Forall_forall. intros s Hs. rewrite Hw by done. apply Hunit. }
  cbv zeta. split_and!.
  - destruct (fuse_cases scores open) as [[? ->]|[? ->]]; simpl; [tauto|]. by split; [|intros].
  - by destruct (fuse_cases scores open) as [[_ ->]|[_ ->]].
  - by destruct (fuse_cases scores open) as [[_ ->]|[_ ->]].
  - destruct (fuse_cases scores open) as [[_ ->]|[_ ->]]; simpl; [split; discriminate|].
    by apply confidence_between.
  - intros s Hpass Hs.
    assert (vetoed (scores ++ [s]) open ↔ vetoed scores open) as Hv.
    { unfold vetoed. split; (intros [?|(x & Hx & ?)]; [by left|right]; exists x; split; [|done]).
      - apply elem_of_app in Hx as [?|Hx]; [done|]. apply list_elem_of_singleton in Hx as ->. done.
      - apply elem_of_app. by left. }
    destruct (fuse_cases scores open) as [[H ->]|[H ->]],
      (fuse_cases (scores ++ [s]) open) as [[H' ->]|[H' ->]]; simpl; try tauto.
    + split; [done|apply Qle_refl].
    + split; [done|]. apply confidence_more, Forall_app. split; [done|]. constructor; [|done].
      by rewrite Hs.
Qed.

(** One equivalence per outcome, once the outcome is known. *)
Ltac by_outcome := split_and!; (split; [intros Heq; first [discriminate Heq|tauto]|tauto]).

(** What comes next, for every outcome: a veto blocks; reviewers still at work are
    waited for; then a sufficient confidence passes; an insufficient one starts a round
    exactly while rounds are left. *)
Lemma rerun_decision_correct scores open current_round review_rounds pending threshold :
  let fused := fuse_verdicts scores open in
  let decision := rerun_decision fused current_round review_rounds pending threshold in
  (decision = "blocked" ↔ vetoed scores open) ∧
  (decision = "wait_quorum" ↔ ¬ vetoed scores open ∧ (0 < pending)%Z) ∧
  (decision = "pass" ↔ ¬ vetoed scores open ∧ (pending ≤ 0)%Z ∧
     (threshold <= fv_confidence fused)%Q) ∧
  (decision = "exhausted" ↔ ¬ vetoed scores open ∧ (pending ≤ 0)%Z ∧
     (fv_confidence fused < threshold)%Q ∧ (review_rounds ≤ current_round)%Z) ∧
  (decision = "rerun" ↔ ¬ vetoed scores open ∧ (pending ≤ 0)%Z ∧
     (fv_confidence fused < threshold)%Q ∧ (current_round < review_rounds)%Z).
Proof.
  cbv zeta. unfold rerun_decision, confidence_ok.
  destruct (fuse_cases scores open) as [[H ->]|[H ->]]; cbn [fv_hard_veto fv_confidence].
  { split_and!; split; try done; tauto. }
  set (confidence := round3 _). clearbody confidence. rewrite orb_false_l.
  assert (fle threshold confidence = true ↔ (threshold <= confidence)%Q) as Hle by apply fle_iff.
  assert (fle threshold confidence = false ↔ (confidence < threshold)%Q) as Hlt.
  { rewrite <-not_true_iff_false, Hle. split; [apply Qnot_le_lt|apply Qlt_not_le]. }
  destruct (Z.ltb_spec 0 pending) as [Hp|Hp].
  { assert (¬ (pending ≤ 0)%Z) by lia. by_outcome. }
  assert (¬ (0 < pending)%Z) by lia. destruct (fle threshold confidence) eqn:He.
  { pose proof (proj1 Hle eq_refl) as Hc. pose proof (Qle_not_lt _ _ Hc). by_outcome. }
  pose proof (proj1 Hlt eq_refl) as Hc. pose proof (Qlt_not_le _ _ Hc).
  destruct (Z.leb_spec review_rounds current_round).
  - assert (¬ (current_round < review_rounds)%Z) by lia. by_outcome.
  - assert (¬ (review_rounds ≤ current_round)%Z) by lia. by_outcome.
Qed.

(** ** Concrete fusions *)

(** Two new reviewers pass together, one alone does not; four reviewers with a good
    record are nearly certain. *)
Example two_cold_reviewers :
  let s id := {| rs_report_id := id; rs_verdict := "pass"; rs_weight := compute_weight None |} in
  rerun_decision (fuse_verdicts [s "a"] 0) 1 2 0 f0_70 = "rerun" ∧
  rerun_decision (fuse_verdicts [s "a"; s "b"] 0) 1 2 0 f0_70 = "pass" ∧
  fv_confidence (fuse_verdicts [s "a"; s "b"] 0) = f0_75.
Proof. vm_compute. auto. Qed.

Lemma fuse_verdicts_sound_witness :
  let scores := [{| rs_report_id := "a"; rs_verdict := "pass"; rs_weight := compute_weight (Some (f0_85, 7%Z)) |}] in
  unit_interval (fv_confidence (fuse_verdicts scores 0)).
Proof.
  cbv zeta. apply (fuse_verdicts_sound _ 0 (λ _, Some (f0_85, 7%Z))).
  intros s Hs. apply list_elem_of_singleton in Hs as ->. reflexivity.
Defined.
