(* ===== verification/ReviewAggregation.v ===== *)
(** * Review aggregation

    [application/review_aggregation.py]: what a submitted review sets off inside the
    same transaction.  Its report is scored, the verdicts on the artifact are fused
    (VerdictFusion), the fused verdict is stored, and then either the reviewers are
    credited or another round begins.

    [round] of SQLite and [repr] of a float are arguments.  A query that joins
    reports with their assignments reads [joined]; the rows of a query without an [ORDER
    BY] come in the order of the table, those of the window query in the order of its
    partitions. *)

From S2P Require Import Prelude PyEnum PyOrder PyStr PyFloat PyIeee Sql DomainState.
From S2P Require Import UnitOfWork ReviewStore ReviewHandlers VerdictFusion.

(** ** The ledger *)

Definition with_ledger (f : Ledger → Ledger) (db : DB) : DB := {|
  review_assignments := review_assignments db; review_reports := review_reports db;
  review_issues := review_issues db; resolution_evidence := resolution_evidence db;
  idem_rows := idem_rows db; event_rows := event_rows db; outbox_rows := outbox_rows db;
  routing := routing db; artifacts := artifacts db;
  artifact_contributors := artifact_contributors db; employees := employees db;
  agent_runs := agent_runs db; companies := companies db; ledger := f (ledger db) |}.

Definition scores (db : DB) : list ScoreRow := review_report_scores (ledger db).
Definition stats (db : DB) : list StatsRow := reviewer_stats (ledger db).
Definition verdicts (db : DB) : list VerdictRow := review_verdicts (ledger db).
Definition specs (db : DB) : list SpecRow := deliverable_review_specs (ledger db).

Ltac solve_ledger := intros; repeat match goal with
  | db : DB |- _ => destruct db | l : Ledger |- _ => destruct l end; reflexivity.

#[export] Program Instance scores_table : Table DB ScoreRow := {|
  table_name := "review_report_scores"; rows := scores;
  set_rows l := with_ledger (λ g, {| review_report_scores := l; reviewer_stats := reviewer_stats g;
    review_verdicts := review_verdicts g; deliverable_review_specs := deliverable_review_specs g |});
  row_ok s := sc_verdict s ∈? ["pass"; "needs_changes"; "failed"];
  clash a b := sc_report_id a =? sc_report_id b;
  refs_ok db s :=
    ((sc_report_id s, sc_company_id s) ∈? map (λ r, (rp_id r, rp_company_id r)) (review_reports db)) &&
    ((sc_assignment_id s, sc_company_id s) ∈?
       map (λ a, (as_id a, as_company_id a)) (review_assignments db)) &&
    ((sc_artifact_id s, sc_company_id s) ∈? artifact_refs db) &&
    ((sc_reviewer_employee_id s, sc_company_id s) ∈? employee_refs db) |}.
Solve All Obligations with solve_ledger.

#[export] Program Instance stats_table : Table DB StatsRow := {|
  table_name := "reviewer_stats"; rows := stats;
  set_rows l := with_ledger (λ g, {| review_report_scores := review_report_scores g; reviewer_stats := l;
    review_verdicts := review_verdicts g; deliverable_review_specs := deliverable_review_specs g |});
  row_ok _ := true;
  clash a b := (st_company_id a =? st_company_id b) &&
               (st_reviewer_employee_id a =? st_reviewer_employee_id b);
  refs_ok db s := (st_reviewer_employee_id s, st_company_id s) ∈? employee_refs db |}.
Solve All Obligations with solve_ledger.

#[export] Program Instance verdicts_table : Table DB VerdictRow := {|
  table_name := "review_verdicts"; rows := verdicts;
  set_rows l := with_ledger (λ g, {| review_report_scores := review_report_scores g;
    reviewer_stats := reviewer_stats g; review_verdicts := l;
    deliverable_review_specs := deliverable_review_specs g |});
  row_ok v := vd_verdict v ∈? ["pass"; "needs_changes"; "failed"];
  clash a b := (vd_company_id a =? vd_company_id b) && (vd_artifact_id a =? vd_artifact_id b);
  refs_ok db v := (vd_artifact_id v, vd_company_id v) ∈? artifact_refs db |}.
Solve All Obligations with solve_ledger.

(** ** Queries *)

(** [review_reports rr JOIN review_assignments ra ON ra.id = rr.assignment_id] *)
Definition joined (db : DB) : list (ReportRow * AssignmentRow) :=
  omap (λ r, a ← List.find (λ a, as_id a =? rp_assignment_id r) (review_assignments db); Some (r, a))
    (review_reports db).

(** Joined with [artifacts]: current, of the reviewed hash, and submitted. *)
Definition counts (db : DB) (a : AssignmentRow) : bool :=
  match List.find (λ x, ar_id x =? as_artifact_id a) (artifacts db) with
  | Some x => (ar_is_current x =? 1)%Z && (as_reviewed_sha256 a =? ar_object_sha256 x) &&
              (as_status a =? "submitted")
  | None => false
  end.

(** The first row of every partition. *)
Fixpoint first_rows {A} (key : A → string) (seen : list string) (l : list A) : list A :=
  match l with
  | [] => []
  | x :: l => if key x ∈? seen then first_rows key seen l
              else x :: first_rows key (key x :: seen) l
  end.

(** By reviewer, the latest round first, and in it the latest report. *)
Definition latest_cmp : ReportRow * AssignmentRow → ReportRow * AssignmentRow → comparison :=
  on (λ p, (as_reviewer_employee_id p.2, (as_review_round p.2, rp_created_at p.1)))
    (lex String.compare (lex (backwards Z.compare) (backwards String.compare))).

Definition stats_of (company_id reviewer_id : string) (db : DB) : option StatsRow :=
  List.find (λ s, (st_company_id s =? company_id) && (st_reviewer_employee_id s =? reviewer_id)) (stats db).

(* [sidecar/ibreeze/application/review_aggregation.py:157-164 _reviewer_stats] *)
Definition _reviewer_stats (company_id reviewer_id : string) (db : DB) : option (float * Z) :=
  s ← stats_of company_id reviewer_id db; Some (st_accuracy s, st_sample_count s).

(** The reports the fusion may count, before the latest of each reviewer is taken. *)
Definition counted (company_id artifact_id : string) (db : DB) : list (ReportRow * AssignmentRow) :=
  List.filter (λ p, (rp_company_id p.1 =? company_id) && (as_artifact_id p.2 =? artifact_id) &&
                    counts db p.2) (joined db).

(* [sidecar/ibreeze/application/review_aggregation.py:166-199 _load_scores] *)
Definition _load_scores (company_id artifact_id : string) (db : DB) : list ReportScore :=
  map (λ p, {| rs_report_id := rp_id p.1; rs_verdict := rp_verdict p.1;
               rs_weight := compute_weight
                 (Some (default (f0, 0%Z) (_reviewer_stats (rp_company_id p.1) (as_reviewer_employee_id p.2) db))) |})
    (first_rows (λ p, as_reviewer_employee_id p.2) [] (sort_key latest_cmp (counted company_id artifact_id db))).

(* [sidecar/ibreeze/application/review_aggregation.py:201-217 _open_blocker_high_count] *)
Definition _open_blocker_high_count (company_id artifact_id : string) (db : DB) : Z :=
  Z.of_nat (length (List.filter (λ i,
    (is_company_id i =? company_id) && (is_severity i ∈? ["blocker"; "high"]) &&
    negb (is_status i ∈? ["closed"; "rejected"]) && (is_superseded_by i =?o None) &&
    match List.find (λ p, rp_id p.1 =? is_review_report_id i) (joined db) with
    | Some p => (as_artifact_id p.2 =? artifact_id) && counts db p.2
    | None => false
    end) (review_issues db))).

(* [sidecar/ibreeze/application/review_aggregation.py:34-34 _DEFAULT_ROUNDS] *)
Definition _DEFAULT_ROUNDS : Z := 2.
(* [sidecar/ibreeze/application/review_aggregation.py:35-35 _DEFAULT_THRESHOLD] *)
Definition _DEFAULT_THRESHOLD : float := f0_70.

(* [sidecar/ibreeze/application/review_aggregation.py:221-239 _spec] *)
Definition _spec (company_id artifact_id : string) (db : DB) : Z * float :=
  default (_DEFAULT_ROUNDS, _DEFAULT_THRESHOLD) (
    a ← List.find (λ a, (ar_id a =? artifact_id) && (ar_company_id a =? company_id)) (artifacts db);
    s ← List.find (λ s, (sp_company_id s =? company_id) &&
          (sp_company_task_id s =? ar_company_task_id a) &&
          (sp_artifact_type s =? ar_artifact_type a)) (specs db);
    Some (sp_review_rounds s, sp_confidence_threshold s)).

Definition rounds_of (company_id artifact_id : string) (db : DB) : list AssignmentRow :=
  where_ (λ a, (as_company_id a =? company_id) && (as_artifact_id a =? artifact_id)) (review_assignments db).

Definition max_round (l : list AssignmentRow) : Z := foldr (λ a n, Z.max (as_review_round a) n) 0 l.

(** The rounds are positive. *)
(* [sidecar/ibreeze/application/review_aggregation.py:241-252 _round_state] *)
Definition _round_state (company_id artifact_id : string) (db : DB) : Z * Z :=
  match rounds_of company_id artifact_id db with
  | [] => (1, 0)
  | l => let current_round := max_round l in
         (current_round, Z.of_nat (length (List.filter (λ a, (as_review_round a =? current_round)%Z &&
                           (as_status a ∈? ["assigned"; "in_review"])) l)))
  end.

(** [MAX(CASE severity ...)], 0 without issues. *)
Definition severity_rank (s : string) : Z :=
  if s =? "blocker" then 4 else if s =? "high" then 3 else if s =? "medium" then 2 else 1.
Definition max_rank (l : list IssueRow) : Z := foldr (λ i n, Z.max (severity_rank (is_severity i)) n) 0 l.

(* [sidecar/ibreeze/application/review_aggregation.py:33-33 _SEVERITY_LABEL] *)
Definition _SEVERITY_LABEL : list (Z * string) :=
  [(4, "blocker"); (3, "high"); (2, "medium"); (1, "low")].

(** ** The service *)

Section Service.
Context (env : Ambient) (sql_round : float → Z → float) (repr_float : float → string).

(* [sidecar/ibreeze/application/review_aggregation.py:107-153 _record_score] *)
Definition _record_score (company_id : string) (assignment : ReviewAssignment) : tx DB unit :=
  row ← gets (λ db, head (sort_key (on (λ p, rp_created_at p.1) (backwards String.compare))
    (List.filter (λ p, (rp_assignment_id p.1 =? ra_id assignment) && (rp_company_id p.1 =? company_id))
      (joined db))));
  match row with
  | None => mret tt
  | Some (rr, ra) =>
      exists_ ← select_one (λ s, sc_report_id s =? rp_id rr);
      match exists_ with
      | Some _ => mret tt
      | None =>
          issues ← select (λ i, (is_review_report_id i =? rp_id rr) && (is_company_id i =? company_id));
          reviewer ← gets (_reviewer_stats company_id (as_reviewer_employee_id ra));
          insert_or_ignore {|
            sc_report_id := rp_id rr; sc_assignment_id := ra_id assignment;
            sc_artifact_id := ra_artifact_id assignment; sc_company_id := company_id;
            sc_reviewer_employee_id := as_reviewer_employee_id ra; sc_verdict := rp_verdict rr;
            sc_severity_max := default "low" (dict_get _SEVERITY_LABEL (max_rank issues));
            sc_issue_count := Z.of_nat (length issues); sc_weight := compute_weight reviewer;
            sc_accuracy_contribution := None; sc_credited := 0; sc_scored_at := now_sql env |};;
          mret tt
      end
  end.

Definition bit (b : bool) : Z := if b then 1 else 0.

(* [sidecar/ibreeze/application/review_aggregation.py:256-301 _upsert_verdict] *)
Definition _upsert_verdict (company_id artifact_id artifact_sha256 : string) (fused : FusedVerdict)
    (decision : string) (review_rounds : Z) : tx DB unit :=
  let row := {|
    vd_company_id := company_id; vd_artifact_id := artifact_id; vd_artifact_sha256 := artifact_sha256;
    vd_verdict := fv_verdict fused; vd_confidence := fv_confidence fused;
    vd_hard_veto_triggered := bit (fv_hard_veto fused);
    vd_rerun_exhausted := bit (decision =? "exhausted");
    vd_score := JObj [("confidence", JFloat (repr_float (fv_confidence fused)));
                      ("decision", JStr decision); ("hard_veto", JBool (fv_hard_veto fused));
                      ("review_rounds", JInt review_rounds); ("verdict", JStr (fv_verdict fused))];
    vd_updated_at := now_sql env |} in
  upsert row (λ _, row).

Definition set_stats (contribution : float) (with_issues : Z) (s : StatsRow) : StatsRow := {|
  st_company_id := st_company_id s; st_reviewer_employee_id := st_reviewer_employee_id s;
  st_reviews_completed := st_reviews_completed s + 1;
  st_reviews_with_issues := st_reviews_with_issues s + with_issues;
  st_accuracy := sql_round (fadd (fmul f0_70 (st_accuracy s)) (fmul f0_30 contribution)) 3;
  st_sample_count := st_sample_count s + 1; st_last_review_at := now_sql env |}.

Definition set_credited (contribution : float) (s : ScoreRow) : ScoreRow := {|
  sc_report_id := sc_report_id s; sc_assignment_id := sc_assignment_id s;
  sc_artifact_id := sc_artifact_id s; sc_company_id := sc_company_id s;
  sc_reviewer_employee_id := sc_reviewer_employee_id s; sc_verdict := sc_verdict s;
  sc_severity_max := sc_severity_max s; sc_issue_count := sc_issue_count s;
  sc_weight := sc_weight s; sc_accuracy_contribution := Some contribution; sc_credited := 1;
  sc_scored_at := sc_scored_at s |}.

Definition new_stats (company_id reviewer : string) : StatsRow := {|
  st_company_id := company_id; st_reviewer_employee_id := reviewer; st_reviews_completed := 0;
  st_reviews_with_issues := 0; st_accuracy := f0; st_sample_count := 0;
  st_last_review_at := now_sql env |}.

(** The body of the loop of [_finalize_scores]. *)
(* [sidecar/ibreeze/application/review_aggregation.py:319-345 _finalize_scores] *)
Definition credit (company_id verdict : string) (row : ScoreRow) : tx DB unit :=
  let contribution := if sc_verdict row =? verdict then f1 else f0 in
  insert_or_ignore (new_stats company_id (sc_reviewer_employee_id row));;
  update (λ s, (st_company_id s =? company_id) &&
               (st_reviewer_employee_id s =? sc_reviewer_employee_id row))
    (set_stats contribution (bit (0 <? sc_issue_count row)%Z));;
  update (λ s, sc_report_id s =? sc_report_id row) (set_credited contribution);;
  mret tt.

(* [sidecar/ibreeze/application/review_aggregation.py:303-345 _finalize_scores] *)
Definition _finalize_scores (company_id artifact_id : string) (fused : FusedVerdict) : tx DB unit :=
  rows ← select (λ s, (sc_company_id s =? company_id) && (sc_artifact_id s =? artifact_id) &&
                      (sc_credited s =? 0)%Z);
  for_each (credit company_id (fv_verdict fused)) rows;;
  mret tt.

Definition exhaust (v : VerdictRow) : VerdictRow := {|
  vd_company_id := vd_company_id v; vd_artifact_id := vd_artifact_id v;
  vd_artifact_sha256 := vd_artifact_sha256 v; vd_verdict := vd_verdict v;
  vd_confidence := vd_confidence v; vd_hard_veto_triggered := vd_hard_veto_triggered v;
  vd_rerun_exhausted := 1; vd_score := vd_score v; vd_updated_at := vd_updated_at v |}.

Definition no_rerun : AggregationOutcome := {| rerun_event := None; rerun_outbox := None |}.

(** The reports of an artifact by round, the latest first. *)
Definition rerun_sources (company_id artifact_id : string) (db : DB) : list (ReportRow * AssignmentRow) :=
  sort_key (on (λ p, (as_review_round p.2, rp_created_at p.1))
      (lex (backwards Z.compare) (backwards String.compare)))
    (List.filter (λ p, (rp_company_id p.1 =? company_id) && (as_artifact_id p.2 =? artifact_id) &&
                       (as_status p.2 =? "submitted")) (joined db)).

(** [n] is the first fresh identifier of the call. *)
(* [sidecar/ibreeze/application/review_aggregation.py:347-386 _create_auto_rerun] *)
Definition _create_auto_rerun (n : nat) (company_id artifact_id : string) : tx DB AggregationOutcome :=
  row ← gets (λ db, head (rerun_sources company_id artifact_id db));
  match row with
  | None => mret no_rerun
  | Some (rr, _) =>
      catch ('(_, event, ob) ← create_rerun_assignment env n company_id (rp_id rr);
             mret {| rerun_event := Some event; rerun_outbox := Some ob |}) (λ e,
        match e with
        | ValueError _ =>
            update (λ v, (vd_company_id v =? company_id) && (vd_artifact_id v =? artifact_id)) exhaust;;
            mret no_rerun
        | _ => raise e
        end)
  end.

(* [sidecar/ibreeze/application/review_aggregation.py:59-103 on_report_submitted] *)
Definition on_report_submitted (n : nat) (company_id : string) (assignment : ReviewAssignment)
    : tx DB AggregationOutcome :=
  let artifact := ra_artifact_id assignment in
  _record_score company_id assignment;;
  scores ← gets (_load_scores company_id artifact);
  open_blockers ← gets (_open_blocker_high_count company_id artifact);
  let fused := fuse_verdicts scores open_blockers in
  '(rounds, threshold) ← gets (_spec company_id artifact);
  '(current_round, pending) ← gets (_round_state company_id artifact);
  let decision := rerun_decision fused current_round rounds pending threshold in
  _upsert_verdict company_id artifact (ra_artifact_sha256 assignment) fused decision rounds;;
  (if decision ∈? ["pass"; "exhausted"] then _finalize_scores company_id artifact fused else mret tt);;
  (if decision =? "rerun" then _create_auto_rerun n company_id artifact else mret no_rerun).
End Service.

(** ** The ledger stays balanced *)

Section Balance.
Context (env : Ambient) (sql_round : float → Z → float) (repr_float : float → string).

Definition credited_to (c r : string) (s : ScoreRow) : bool :=
  (sc_company_id s =? c) && (sc_reviewer_employee_id s =? r) && (sc_credited s =? 1)%Z.
Definition found_issues (s : ScoreRow) : bool := (0 <? sc_issue_count s)%Z.
Definition n_credited (c r : string) (db : DB) : Z := Z.of_nat (length (where_ (credited_to c r) (scores db))).
Definition n_with_issues (c r : string) (db : DB) : Z :=
  Z.of_nat (length (where_ (λ s, credited_to c r s && found_issues s) (scores db))).

(** The record of a reviewer counts the reviews that were credited to them, no more and no
    less. *)
Definition tallies (c r : string) (db : DB) : Prop :=
  match stats_of c r db with
  | Some s => st_sample_count s = n_credited c r db ∧ st_reviews_completed s = n_credited c r db ∧
              st_reviews_with_issues s = n_with_issues c r db
  | None => n_credited c r db = 0
  end.
Definition balanced (db : DB) : Prop := ∀ c r, tallies c r db.

Record ledger_ok (db : DB) : Prop := {
  lo_scores : table_ok (R := ScoreRow) db = true;
  lo_stats : table_ok (R := StatsRow) db = true;
  lo_verdicts : table_ok (R := VerdictRow) db = true;
  lo_credited s : s ∈ scores db → sc_credited s = 0 ∨ sc_credited s = 1;
  lo_balanced : balanced db }.

Definition stats_key (c r : string) (s : StatsRow) : bool :=
  (st_company_id s =? c) && (st_reviewer_employee_id s =? r).

Lemma stats_key_same c r a b : stats_key c r a = true → stats_key c r b = true →
  clash (Table := stats_table) a b = true.
Proof.
  unfold stats_key. rewrite !andb_true_iff, !String.eqb_eq. simpl.
  intros [-> ->] [-> ->]. by rewrite !String.eqb_refl.
Qed.

Lemma stats_clash c r s : clash (Table := stats_table) s (new_stats env c r) = stats_key c r s.
Proof. done. Qed.

(** The list of records once there is one for [r]. *)
Definition with_record (c r : string) (l : list StatsRow) : list StatsRow :=
  if existsb (stats_key c r) l then l else l ++ [new_stats env c r].

(** Crediting a review is two changes: the record of its reviewer and its own row. *)
Lemma credit_run c v row db u db' :
  ledger_ok db → credit env sql_round c v row db = (Ok u, db') →
  let contribution := if sc_verdict row =? v then f1 else f0 in
  let r := sc_reviewer_employee_id row in
  db' = with_ledger (λ g, {|
    review_report_scores := updated (λ s, sc_report_id s =? sc_report_id row) (set_credited contribution)
      (review_report_scores g);
    reviewer_stats := updated (stats_key c r)
      (set_stats env sql_round contribution (bit (0 <? sc_issue_count row)%Z))
      (with_record c r (reviewer_stats g));
    review_verdicts := review_verdicts g; deliverable_review_specs := deliverable_review_specs g |}) db ∧
  table_ok (R := ScoreRow) db' = true ∧ table_ok (R := StatsRow) db' = true.
Proof.
  intros [Hsc Hst Hvd _ _] Hrun. unfold credit in Hrun. cbv zeta in *.
  apply tx_bind_ok in Hrun as (n & db1 & H1 & Hrun).
  apply tx_bind_ok in Hrun as (n2 & db2 & H2 & Hrun).
  apply tx_bind_ok in Hrun as (n3 & db3 & H3 & [-> ->]%mret_ok).
  apply insert_or_ignore_inv in H1 as (Hst1 & Hdb1); [|done].
  assert (db1 = set_rows (Table := stats_table) (with_record c (sc_reviewer_employee_id row) (stats db)) db) as E1.
  { unfold with_record. change (existsb (λ x, clash x (new_stats env c (sc_reviewer_employee_id row))) (rows db))
      with (existsb (stats_key c (sc_reviewer_employee_id row)) (stats db)) in Hdb1.
    destruct Hdb1 as [[-> [?| ->]]|(-> & _ & ->)]; [done| |done]. symmetry. exact (set_rows_rows (Table := stats_table) db). }
  pose proof H2 as H2'. apply update_keyed in H2' as (Hst2 & E2 & _); [|done|apply stats_key_same].
  pose proof H3 as H3'. apply update_table_ok in H3'.
  2: { rewrite E2, E1. by apply table_rows_ok. }
  apply update_ok in H3 as (_ & _ & _ & E3). split; [|split; [done|]].
  - rewrite E3, E2, E1. by destruct db as [? ? ? ? ? ? ? ? ? ? ? ? ? []].
  - rewrite E3. exact Hst2.
Qed.

Lemma find_with_record c r c' r' l :
  List.find (stats_key c' r') (with_record c r l) =
  match List.find (stats_key c' r') l with
  | Some s => Some s
  | None => if (c =? c') && (r =? r') then Some (new_stats env c r) else None
  end.
Proof.
  unfold with_record. destruct (existsb (stats_key c r) l) eqn:He.
  - destruct (List.find _ l) eqn:Hf; [done|]. destruct (_ && _) eqn:Hk; [|done].
    apply andb_true_iff in Hk as [->%String.eqb_eq ->%String.eqb_eq].
    apply existsb_exists in He as (s & Hin & Hs). by rewrite (find_none _ _ Hf s Hin) in Hs.
  - induction l as [|x l IH]; simpl in *.
    + unfold stats_key at 1. simpl. by destruct (_ && _).
    + apply orb_false_iff in He as [_ He]. destruct (stats_key c' r' x); [done|auto].
Qed.

Lemma score_row_where db row : ledger_ok db → row ∈ scores db →
  where_ (λ s, sc_report_id s =? sc_report_id row) (scores db) = [row].
Proof.
  intros [Hsc _ _ _ _] Hin. apply find_unique; [by apply table_no_clash in Hsc| |done|apply String.eqb_refl].
  intros a b Ha%String.eqb_eq Hb%String.eqb_eq. simpl. by rewrite Ha, Hb, String.eqb_refl.
Qed.

Lemma credit_ok c v row db u db' :
  ledger_ok db → row ∈ scores db → sc_credited row = 0 → sc_company_id row = c →
  credit env sql_round c v row db = (Ok u, db') →
  ledger_ok db' ∧
  ∃ l g, db' = with_ledger (λ _, g) db ∧ stats db' = l ∧
    scores db' = updated (λ s, sc_report_id s =? sc_report_id row)
      (set_credited (if sc_verdict row =? v then f1 else f0)) (scores db) ∧
    review_verdicts g = verdicts db ∧ deliverable_review_specs g = specs db.
Proof.
  intros Hok Hin H0 Hc Hrun. pose proof (score_row_where _ _ Hok Hin) as Hw.
  apply credit_run in Hrun as (Hdb & H1 & H2); [|done].
  set (contribution := if sc_verdict row =? v then f1 else f0) in *. set (r := sc_reviewer_employee_id row) in *.
  assert (scores db' = updated (λ s, sc_report_id s =? sc_report_id row) (set_credited contribution)
    (scores db)) as Hscores by by rewrite Hdb.
  split; [|rewrite Hdb; unfold with_ledger; do 2 eexists; split; [reflexivity|]; auto].
  destruct Hok as [_ _ Hvd Hcr Hbal]. split; [done|done|by rewrite Hdb| |].
  { intros s. rewrite Hscores. intros [[Hs _]|(s' & _ & _ & ->)]%elem_updated; [auto|by right]. }
  assert (∀ q, q row = false → length (where_ q (scores db')) =
    (length (where_ q (scores db)) + (if q (set_credited contribution row) then 1 else 0))%nat) as Hcount.
  { intros q Hq. rewrite Hscores. pose proof (count_updated _ q (set_credited contribution) _ _ Hw) as H.
    rewrite Hq in H. lia. }
  assert (∀ c' r', credited_to c' r' row = false) as Hno.
  { intros c' r'. unfold credited_to. rewrite H0. by rewrite andb_false_r. }
  assert (∀ c' r', credited_to c' r' (set_credited contribution row) = (c =? c') && (r =? r')) as Hyes.
  { intros c' r'. unfold credited_to. simpl. by rewrite Hc, andb_true_r. }
  set (same := λ c' r', (c =? c') && (r =? r')).
  assert (∀ c' r', n_credited c' r' db' = (n_credited c' r' db + bit (same c' r'))%Z) as N1.
  { intros c' r'. unfold n_credited. rewrite Hcount, Hyes by done. fold (same c' r'). unfold bit. destruct (same c' r'); lia. }
  assert (∀ c' r', n_with_issues c' r' db' =
    (n_with_issues c' r' db + bit (same c' r' && found_issues row))%Z) as N2.
  { intros c' r'. unfold n_with_issues. rewrite Hcount by by rewrite Hno. rewrite Hyes. fold (same c' r').
    change (found_issues (set_credited contribution row)) with (found_issues row).
    unfold bit. destruct (same c' r' && found_issues row); lia. }
  intros c' r'. unfold tallies. rewrite N1, N2. specialize (Hbal c' r'). unfold tallies in Hbal.
  unfold stats_of in *. change (λ s, (st_company_id s =? c') && (st_reviewer_employee_id s =? r'))
    with (stats_key c' r') in *.
  assert (stats db' = updated (stats_key c r)
    (set_stats env sql_round contribution (bit (0 <? sc_issue_count row)%Z))
    (with_record c r (stats db))) as -> by by rewrite Hdb.
  destruct (same c' r') eqn:Hk; unfold same in Hk.
  - apply andb_true_iff in Hk as [->%String.eqb_eq ->%String.eqb_eq].
    pose proof (find_with_record c' r' c' r' (stats db)) as Hf. rewrite !String.eqb_refl in Hf. simpl in Hf.
    assert (∃ s, List.find (stats_key c' r') (with_record c' r' (stats db)) = Some s ∧
      st_sample_count s = n_credited c' r' db ∧ st_reviews_completed s = n_credited c' r' db ∧
      st_reviews_with_issues s = n_with_issues c' r' db) as (s & Hs & T1 & T2 & T3).
    { destruct (List.find (stats_key c' r') (stats db)) as [s|]; [by exists s|].
      eexists. split; [exact Hf|]. simpl. rewrite Hbal. split; [done|]. split; [done|].
      unfold n_with_issues, n_credited in *. enough (where_ (λ s, credited_to c' r' s && found_issues s)
        (scores db) = []) as -> by done.
      apply where_nil. intros x Hx. assert (where_ (credited_to c' r') (scores db) = []) as Hn
        by (destruct (where_ (credited_to c' r') (scores db)); [done|simpl in Hbal; lia]).
      by rewrite (proj1 (where_nil _ _) Hn x Hx). }
    rewrite (find_updated _ _ _ s Hs); [|done]. simpl. rewrite T1, T2, T3. unfold found_issues. auto.
  - rewrite find_updated_other.
    + rewrite find_with_record, Hk, Z.add_0_r. simpl. rewrite Z.add_0_r.
      by destruct (List.find (stats_key c' r') (stats db)).
    + intros x Hx. assert (stats_key c' r' x = false) as Hx'; [|split; exact Hx'].
      unfold stats_key in *. apply andb_true_iff in Hx as [->%String.eqb_eq ->%String.eqb_eq]. done.
Qed.

(** Only the ledger of [db'] is another one, and in it the verdicts and specs are the
    same. *)
Record ledger_step (db db' : DB) : Prop := {
  ls_frame : ∃ g, db' = with_ledger (λ _, g) db;
  ls_verdicts : verdicts db' = verdicts db;
  ls_specs : specs db' = specs db }.

Lemma ledger_step_refl db : ledger_step db db.
Proof. split; [|done|done]. exists (ledger db). by destruct db. Qed.

Lemma ledger_step_trans db1 db2 db3 : ledger_step db1 db2 → ledger_step db2 db3 → ledger_step db1 db3.
Proof.
  intros [[g1 ->] H1 H2] [[g2 ->] H3 H4]. split; [by exists g2|by rewrite H3|by rewrite H4].
Qed.

Lemma score_unique db s t : ledger_ok db → s ∈ scores db → t ∈ scores db →
  sc_report_id s = sc_report_id t → s = t.
Proof.
  intros Hok Hs Ht Heq. pose proof (score_row_where _ _ Hok Ht) as Hw.
  assert (s ∈ where_ (λ x, sc_report_id x =? sc_report_id t) (scores db)) as Hin.
  { apply elem_where. by rewrite Heq, String.eqb_refl. }
  rewrite Hw in Hin. by apply list_elem_of_singleton in Hin.
Qed.

Definition contribution (v : string) (s : ScoreRow) : float := if sc_verdict s =? v then f1 else f0.

(** The rows of [l] credited. *)
Definition settled (v : string) (l : list ScoreRow) (s : ScoreRow) : ScoreRow :=
  if sc_report_id s ∈? map sc_report_id l then set_credited (contribution v s) s else s.

Lemma settled_id v l s : sc_report_id (settled v l s) = sc_report_id s.
Proof. unfold settled. by destruct (_ ∈? _). Qed.

(** What crediting one review preserves, crediting several does. *)
Definition credit_keeps (I : DB → Prop) : Prop := ∀ c v row db u db',
  ledger_ok db → I db → credit env sql_round c v row db = (Ok u, db') → I db'.

Lemma credits_ok c v l db us db' :
  ledger_ok db → (∀ s, s ∈ l → s ∈ scores db ∧ sc_credited s = 0 ∧ sc_company_id s = c) →
  NoDup (map sc_report_id l) →
  for_each (credit env sql_round c v) l db = (Ok us, db') →
  ledger_ok db' ∧ ledger_step db db' ∧ scores db' = map (settled v l) (scores db) ∧
  ∀ I, credit_keeps I → I db → I db'.
Proof.
  revert db us. induction l as [|row l IH]; intros db us Hok Hl Hnd Hrun; cbn [for_each] in Hrun.
  { apply mret_ok in Hrun as [_ ->]. split; [done|]. split; [apply ledger_step_refl|].
    split; [symmetry; by apply map_id|done]. }
  apply NoDup_cons in Hnd as [Hrow Hnd].
  apply tx_bind_ok in Hrun as (u & db1 & H1 & Hrun).
  apply tx_bind_ok in Hrun as (us' & db2 & H2 & [_ ->]%mret_ok).
  destruct (Hl row) as (Hin & H0 & Hc); [left|].
  destruct (credit_ok _ _ _ _ _ _ Hok Hin H0 Hc H1) as (Hok1 & l1 & g & Hdb1 & _ & Hs1 & Hv & Hsp).
  assert (ledger_step db db1) as Hst by (split; [by exists g|rewrite Hdb1; exact Hv|rewrite Hdb1; exact Hsp]).
  apply IH in H2 as (Hok2 & Hst2 & Hs2 & HI); [|done| |done].
  - split; [done|]. split; [by eapply ledger_step_trans|].
    split; [|intros I Hkeep Hdb; by apply HI, (Hkeep _ _ _ _ _ _ Hok Hdb H1)]. rewrite Hs2, Hs1. unfold updated.
    rewrite map_map. apply map_ext_in. intros s Hs%list_elem_of_In. unfold settled. simpl.
    destruct (String.eqb_spec (sc_report_id s) (sc_report_id row)) as [Heq|Hne].
    + assert (s = row) as -> by by apply (score_unique db). cbn [set_credited sc_report_id].
      unfold mem at 1. rewrite bool_decide_false by done.
      unfold mem. rewrite bool_decide_true; [done|]. by left.
    + unfold mem. rewrite (bool_decide_ext (_ ∈ _ :: _) (sc_report_id s ∈ map sc_report_id l)); [done|].
      rewrite elem_of_cons. naive_solver.
  - intros s Hs. destruct (Hl s) as (Hin' & ? & ?); [by right|]. split; [|done]. rewrite Hs1.
    apply elem_updated. left. split; [done|]. apply String.eqb_neq. intros Heq. apply Hrow.
    rewrite <-Heq. by apply list_elem_of_In, in_map, list_elem_of_In.
Qed.

(** What a final fusion leaves of a score. *)
Definition finalized (c artifact v : string) (s : ScoreRow) : ScoreRow :=
  if (sc_company_id s =? c) && (sc_artifact_id s =? artifact) && (sc_credited s =? 0)%Z
  then set_credited (contribution v s) s else s.

Lemma finalize_ok c artifact fused db u db' :
  ledger_ok db → _finalize_scores env sql_round c artifact fused db = (Ok u, db') →
  ledger_ok db' ∧ ledger_step db db' ∧
  scores db' = map (finalized c artifact (fv_verdict fused)) (scores db) ∧
  ∀ I, credit_keeps I → I db → I db'.
Proof.
  intros Hok Hrun. unfold _finalize_scores in Hrun.
  apply tx_bind_ok in Hrun as (l & ? & [Hl ->]%select_ok & Hrun).
  apply tx_bind_ok in Hrun as (us & db1 & Hrun & [_ ->]%mret_ok).
  assert (∀ s, s ∈ l ↔ s ∈ scores db ∧ (sc_company_id s =? c) && (sc_artifact_id s =? artifact) &&
    (sc_credited s =? 0)%Z = true) as Hin by (intros s; rewrite Hl; by rewrite (elem_where _ (scores db))).
  apply credits_ok in Hrun as (H1 & H2 & H3 & H4); [|done|..].
  - split; [done|]. split; [done|]. split; [|done]. rewrite H3. apply map_ext_in. intros s Hs%list_elem_of_In.
    unfold settled, finalized. assert (sc_report_id s ∈ map sc_report_id l ↔ s ∈ l) as Hmem.
    { split; [|intros; by apply list_elem_of_In, in_map, list_elem_of_In].
      intros Hm. apply list_elem_of_In, in_map_iff in Hm as (t & Heq & Ht%list_elem_of_In).
      assert (s = t) as ->; [|done]. by apply (score_unique db s t Hok Hs (proj1 (proj1 (Hin t) Ht))). }
    unfold mem. destruct (_ && _ && _) eqn:Hb.
    + rewrite bool_decide_true; [done|]. by apply Hmem, Hin.
    + rewrite bool_decide_false; [done|]. rewrite Hmem, Hin. rewrite Hb. naive_solver.
  - intros s [? Hb]%Hin. apply andb_true_iff in Hb as [Hb ?%Z.eqb_eq].
    apply andb_true_iff in Hb as [?%String.eqb_eq _]. done.
  - rewrite Hl. pose proof (lo_scores _ Hok) as Hsc%table_no_clash. clear -Hsc. cbn [rows scores_table] in *.
    induction (scores db) as [|s l IH]; simpl in *; [constructor|].
    apply andb_true_iff in Hsc as [Hs Hsc]. destruct (_ && _ && _); [|auto]. simpl.
    constructor; [|auto]. intros Hm. apply list_elem_of_In, in_map_iff in Hm as (t & Heq & Ht).
    apply filter_In in Ht as [Ht _]. apply negb_true_iff in Hs. rewrite <-not_true_iff_false in Hs.
    apply Hs, existsb_exists. exists t. split; [done|]. rewrite Heq. apply String.eqb_refl.
Qed.
End Balance.

(** ** The steps of a submit *)

Section Steps.
Context (env : Ambient) (sql_round : float → Z → float) (repr_float : float → string).

Record review_db_ok (db : DB) : Prop := {
  ro_assignments : table_ok (R := AssignmentRow) db = true;
  ro_reports : table_ok (R := ReportRow) db = true;
  ro_refs r : r ∈ review_reports db → report_refs db r = true;
  ro_ledger : ledger_ok db }.

Lemma uncredited_snoc (q : ScoreRow → bool) db db' s :
  scores db' = scores db ++ [s] → q s = false → where_ q (scores db') = where_ q (scores db).
Proof.
  intros -> Hq. unfold where_. rewrite List.filter_app. simpl. by rewrite Hq, app_nil_r.
Qed.

(** A submit scores its report, unless that has been done. *)
Lemma record_ok c a db u db' :
  ledger_ok db → _record_score env c a db = (Ok u, db') →
  ledger_ok db' ∧ ledger_step db db' ∧ stats db' = stats db ∧
  (scores db' = scores db ∨ ∃ s, scores db' = scores db ++ [s] ∧ sc_credited s = 0 ∧
     sc_company_id s = c ∧ sc_artifact_id s = ra_artifact_id a).
Proof.
  intros Hok Hrun. unfold _record_score in Hrun.
  assert (db' = db → ledger_ok db' ∧ ledger_step db db' ∧ stats db' = stats db ∧
    (scores db' = scores db ∨ ∃ s, scores db' = scores db ++ [s] ∧ sc_credited s = 0 ∧
       sc_company_id s = c ∧ sc_artifact_id s = ra_artifact_id a)) as Hsame.
  { intros ->. split; [done|]. split; [apply ledger_step_refl|]. auto. }
  apply tx_bind_ok in Hrun as (row & ? & [-> ->]%gets_ok & Hrun).
  destruct (head _) as [[rr ra]|]; [|by apply mret_ok in Hrun as [_ ->]; apply Hsame].
  apply tx_bind_ok in Hrun as (o & ? & [-> ->]%select_one_ok & Hrun).
  destruct (List.find _ _); [by apply mret_ok in Hrun as [_ ->]; apply Hsame|].
  apply tx_bind_ok in Hrun as (issues & ? & [-> ->]%select_ok & Hrun).
  apply tx_bind_ok in Hrun as (reviewer & ? & [-> ->]%gets_ok & Hrun).
  apply tx_bind_ok in Hrun as (n & db1 & Hi & [_ ->]%mret_ok).
  set (s := Build_ScoreRow _ _ _ _ _ _ _ _ _ _ _ _) in Hi.
  apply insert_or_ignore_inv in Hi as (Hsc & [[-> _]|(Hdb & _ & _)]); [by apply Hsame| |by destruct Hok].
  assert (scores db1 = scores db ++ [s]) as Hs by by rewrite Hdb.
  assert (stats db1 = stats db) as Hst by by rewrite Hdb.
  destruct Hok as [_ H2 H3 H4 H5]. split; [split|split; [|split; [done|]]].
  - done.
  - by rewrite Hdb.
  - by rewrite Hdb.
  - intros t. rewrite Hs. intros [Ht|Ht%list_elem_of_singleton]%elem_of_app; [auto|].
    rewrite Ht. by left.
  - intros c' r'. specialize (H5 c' r'). unfold tallies, stats_of, n_credited, n_with_issues in *.
    rewrite Hst, !(uncredited_snoc _ _ _ _ Hs); [done|..]; unfold credited_to; simpl; by rewrite andb_false_r.
  - rewrite Hdb. split; [|done|done]. unfold with_ledger. by eexists.
  - right. exists s. auto.
Qed.

(** The verdict a submit leaves. *)
Lemma verdict_ok c a sha fused decision rounds db u db' :
  ledger_ok db → _upsert_verdict env repr_float c a sha fused decision rounds db = (Ok u, db') →
  ledger_ok db' ∧ (∃ l, db' = set_rows (Table := verdicts_table) l db) ∧
  ∃ row, where_ (λ v, (vd_company_id v =? c) && (vd_artifact_id v =? a)) (verdicts db') = [row] ∧
    vd_verdict row = fv_verdict fused ∧ vd_confidence row = fv_confidence fused ∧
    vd_hard_veto_triggered row = bit (fv_hard_veto fused) ∧
    vd_rerun_exhausted row = bit (decision =? "exhausted").
Proof.
  intros Hok Hrun. unfold _upsert_verdict in Hrun. set (row := Build_VerdictRow _ _ _ _ _ _ _ _ _) in Hrun.
  pose proof (upsert_rows _ _ _ _ _ Hrun) as [l Hl].
  assert (∀ x : VerdictRow, clash x row = (vd_company_id x =? c) && (vd_artifact_id x =? a)) as Hkey by done.
  unfold upsert in Hrun. apply tx_bind_ok in Hrun as (b & ? & [-> ->]%gets_ok & Hrun).
  pose proof (lo_verdicts _ Hok) as Hvd.
  assert (table_ok (R := VerdictRow) db' = true ∧
    where_ (λ v, (vd_company_id v =? c) && (vd_artifact_id v =? a)) (verdicts db') = [row]) as [H1 H2].
  { destruct (existsb _ _) eqn:He.
    - apply tx_bind_ok in Hrun as (n & db1 & Hu & [_ <-]%mret_ok).
      apply existsb_exists in He as (old & Hin & Hold). rewrite Hkey in Hold.
      assert (∀ x y : VerdictRow, clash x row = true → clash y row = true → clash x y = true) as Hsame.
      { intros x y. rewrite !Hkey, !andb_true_iff, !String.eqb_eq. simpl. intros [-> ->] [-> ->].
        by rewrite !String.eqb_refl. }
      destruct (update_keyed _ _ _ _ _ Hvd Hsame Hu) as (Hok' & Hdb' & _). split; [done|].
      assert (verdicts db' = updated (λ x, clash x row) (λ _, row) (verdicts db)) as -> by by rewrite Hdb'.
      destruct (find_unique (λ x, clash x row) (verdicts db) old) as [_ Hw]; [by apply table_no_clash in Hvd|done| |done|].
      { by apply list_elem_of_In. }
      apply (where_single_updated _ (λ _, row) _ _ Hw). rewrite Hkey. simpl. by rewrite !String.eqb_refl.
    - assert (Hins := Hrun). apply insert_table_ok in Hins; [|by apply table_rows_ok]. split; [done|].
      apply insert_ok in Hrun as (_ & _ & _ & ->).
      change (verdicts (set_rows (rows db ++ [row]) db)) with (verdicts db ++ [row]).
      unfold where_. rewrite List.filter_app. simpl. rewrite !String.eqb_refl. simpl.
      enough (List.filter (λ v, (vd_company_id v =? c) && (vd_artifact_id v =? a)) (verdicts db) = [])
        as -> by done.
      apply where_nil. intros x Hx. rewrite <-Hkey. apply not_true_iff_false.
      intros Hc. apply not_true_iff_false in He. apply He, existsb_exists. exists x.
      split; [by apply list_elem_of_In|done]. }
  split; [|split; [by exists l|by exists row]].
  destruct Hok as [? ? ? ? H5]. rewrite Hl in *. by split.
Qed.

Lemma max_round_ge l a : a ∈ l → (as_review_round a ≤ max_round l)%Z.
Proof.
  induction l as [|b l IH]; [by intros ?%elem_of_nil|]. intros [->|Ha]%elem_of_cons; simpl; [lia|].
  specialize (IH Ha). lia.
Qed.

(** A report with its assignment, as the join pairs them. *)
Lemma joined_ok db rr ra : review_db_ok db → (rr, ra) ∈ joined db →
  rr ∈ review_reports db ∧ ra ∈ review_assignments db ∧ as_id ra = rp_assignment_id rr ∧
  as_company_id ra = rp_company_id rr ∧
  rerun_source (rp_id rr) (rp_company_id rr) db = Some ra.
Proof.
  intros [Has Hrp Hrefs _] Hin. unfold joined in Hin.
  apply list_elem_of_omap in Hin as (rr' & Hrr & Hf).
  destruct (List.find _ _) as [ra'|] eqn:Hfind; [|done]. injection Hf as -> ->.
  pose proof Hfind as Hfind'. apply find_some in Hfind' as [Hra%list_elem_of_In Hid%String.eqb_eq].
  split_and!; [done..| |].
  - specialize (Hrefs rr Hrr). unfold report_refs in Hrefs.
    rewrite !andb_true_iff in Hrefs. destruct Hrefs as [[[Hrefs _] _] _].
    unfold mem in Hrefs. apply bool_decide_eq_true in Hrefs.
    apply list_elem_of_In, in_map_iff in Hrefs as (a & [= Ha1 Ha2] & Ha%list_elem_of_In).
    enough (ra = a) as -> by done.
    apply (unique_row (λ x, as_id x =? rp_assignment_id rr) (review_assignments db));
      [by apply table_no_clash in Has| |done|by apply String.eqb_eq|done|by apply String.eqb_eq].
    intros x y Hx%String.eqb_eq Hy%String.eqb_eq. apply assignment_same_key. congruence.
  - unfold rerun_source.
    destruct (find_unique (λ r, (rp_id r =? rp_id rr) && (rp_company_id r =? rp_company_id rr))
      (review_reports db) rr) as [-> _]; [by apply table_no_clash in Hrp| |done|by rewrite !String.eqb_refl|].
    { intros x y [Hx%String.eqb_eq _]%andb_true_iff [Hy%String.eqb_eq _]%andb_true_iff. simpl.
      unfold report_clash. by rewrite Hx, Hy, String.eqb_refl. }
    exact Hfind.
Qed.

(** An automatic rerun adds the next round of a submitted review of the artifact, or it
    marks the verdict as exhausted. *)
Lemma auto_rerun_ok n c artifact db o db' :
  review_db_ok db → _create_auto_rerun env n c artifact db = (Ok o, db') →
  (rerun_event o = None ∧ rerun_outbox o = None ∧
     (rerun_sources c artifact db = [] ∧ db' = db ∨
      rerun_sources c artifact db ≠ [] ∧ db' = set_rows (Table := verdicts_table) (updated (λ v, (vd_company_id v =? c) &&
              (vd_artifact_id v =? artifact)) exhaust (verdicts db)) db)) ∨
  ∃ row e ob, row ∈ rounds_of c artifact db ∧ as_status row = "submitted" ∧
    o = {| rerun_event := Some e; rerun_outbox := Some ob |} ∧ event_type e = "review.assigned" ∧
    insert_row (next_round env n c row) db = (Ok tt, db').
Proof.
  intros Hok Hrun. unfold _create_auto_rerun in Hrun.
  apply tx_bind_ok in Hrun as (row & ? & [-> ->]%gets_ok & Hrun).
  destruct (rerun_sources c artifact db) as [|[rr ra] l] eqn:Hs; simpl in Hrun.
  { apply mret_ok in Hrun as [-> ->]. left. auto. }
  assert ((rr, ra) ∈ joined db ∧ rp_company_id rr = c ∧ as_artifact_id ra = artifact ∧
    as_status ra = "submitted") as (Hin & Hc & Ha & Hst).
  { assert ((rr, ra) ∈ rerun_sources c artifact db) as H by (rewrite Hs; left).
    unfold rerun_sources, sort_key in H. apply elem_of_sort_by, list_elem_of_In, filter_In in H as [H Hb].
    rewrite !andb_true_iff, !String.eqb_eq in Hb. destruct Hb as [[? ?] ?].
    split; [by apply list_elem_of_In|done]. }
  destruct (joined_ok _ _ _ Hok Hin) as (_ & Hra & _ & Hco & Hsrc). rewrite Hc in *.
  unfold catch in Hrun. destruct (create_rerun_assignment env n c (rp_id rr) db)
    as [[[[asg ev] ob]|e] db1] eqn:Hcr.
  - unfold mbind, tx_bind in Hrun. rewrite Hcr in Hrun. injection Hrun as <- <-. right.
    apply create_rerun_ok in Hcr as (row & art & Hall & Hins & Hev & _).
    pose proof (rerun_row_found _ _ _ _ _ Hall) as Hrow. rewrite Hsrc in Hrow. injection Hrow as <-.
    exists ra, ev, ob. split_and!; try done.
    apply elem_where. split; [done|]. by rewrite Hco, Ha, !String.eqb_refl.
  - pose proof (create_rerun_err _ _ _ _ _ _ _ Hcr) as ->.
    unfold mbind, tx_bind in Hrun. rewrite Hcr in Hrun. destruct e; try done.
    destruct (update _ _ db) as [[m|e] db2] eqn:Hu; [|done]. injection Hrun as <- <-. left.
    apply update_ok in Hu as (_ & _ & _ & ->). split; [done|]. split; [done|]. right. by split.
Qed.

(** A database that differs in the ledger is read the same. *)
Lemma ledger_frame db db' : (∃ g, db' = with_ledger (λ _, g) db) →
  review_assignments db' = review_assignments db ∧ review_reports db' = review_reports db ∧
  artifacts db' = artifacts db ∧ (∀ r, report_refs db' r = report_refs db r) ∧
  ∀ c a, rounds_of c a db' = rounds_of c a db ∧ _round_state c a db' = _round_state c a db ∧
         rerun_sources c a db' = rerun_sources c a db.
Proof. by intros [g ->]. Qed.

Lemma frame_of_step db db' : ledger_step db db' → ∃ g, db' = with_ledger (λ _, g) db.
Proof. apply ls_frame. Qed.

Lemma review_db_ledger db db' :
  review_db_ok db → (∃ g, db' = with_ledger (λ _, g) db) → ledger_ok db' → review_db_ok db'.
Proof. intros [H1 H2 H3 _] [g ->] Hl. split; [exact H1|exact H2|exact H3|exact Hl]. Qed.

Lemma spec_step c a db db' : ledger_step db db' → _spec c a db' = _spec c a db.
Proof. intros [[g ->] _ Hs]. unfold _spec. rewrite Hs. reflexivity. Qed.

(** One more assignment. *)
Lemma review_db_assign db (row : AssignmentRow) db' :
  review_db_ok db → insert_row row db = (Ok tt, db') → review_db_ok db'.
Proof.
  intros [H1 H2 H3 [L1 L2 L3 L4 L5]] Hins. pose proof (insert_table_ok _ _ _ _ Hins) as Hok'.
  apply insert_ok in Hins as (_ & _ & _ & ->). split; [|exact H2| |split; [exact L1|exact L2|exact L3|exact L4|exact L5]].
  - apply Hok'. by apply table_rows_ok.
  - intros r Hr. specialize (H3 r Hr). unfold report_refs in *. rewrite !andb_true_iff in *.
    destruct H3 as [[[Ha Hb] Hc] Hd]. split_and!; try done. unfold mem in *.
    apply bool_decide_eq_true in Ha. apply bool_decide_eq_true. simpl. rewrite map_app.
    apply elem_of_app. by left.
Qed.

(** What a submitted report sets off. *)
Record aftermath (n : nat) (c : string) (a : ReviewAssignment) (db db1 db' : DB) (o : AggregationOutcome)
    (fused : FusedVerdict) (decision : string) : Prop := {
  am_scored : _record_score env c a db = (Ok tt, db1);
  am_fused : fused = fuse_verdicts (_load_scores c (ra_artifact_id a) db1)
                                   (_open_blocker_high_count c (ra_artifact_id a) db1);
  am_decision : decision = rerun_decision fused (_round_state c (ra_artifact_id a) db).1
    (_spec c (ra_artifact_id a) db).1 (_round_state c (ra_artifact_id a) db).2
    (_spec c (ra_artifact_id a) db).2;
  am_verdict : ∃ v, where_ (λ v, (vd_company_id v =? c) && (vd_artifact_id v =? ra_artifact_id a))
      (verdicts db') = [v] ∧
    vd_verdict v = fv_verdict fused ∧ vd_confidence v = fv_confidence fused ∧
    vd_hard_veto_triggered v = bit (fv_hard_veto fused) ∧
    (vd_rerun_exhausted v = 1 ↔ decision = "exhausted" ∨
       decision = "rerun" ∧ rerun_event o = None ∧ rerun_sources c (ra_artifact_id a) db ≠ []);
  am_credit : if decision ∈? ["pass"; "exhausted"]
    then scores db' = map (finalized c (ra_artifact_id a) (fv_verdict fused)) (scores db1)
    else scores db' = scores db1 ∧ stats db' = stats db;
  am_stats J : credit_keeps env sql_round (λ db, J (stats db)) → J (stats db) → J (stats db');
  am_rerun : review_assignments db' = review_assignments db ∧ rerun_event o = None ∨
    decision = "rerun" ∧ ∃ row e, row ∈ rounds_of c (ra_artifact_id a) db ∧ as_status row = "submitted" ∧
      review_assignments db' = review_assignments db ++ [next_round env n c row] ∧
      rerun_event o = Some e ∧ (as_review_round row + 1 ≤ (_spec c (ra_artifact_id a) db).1)%Z }.

Lemma rerun_decision_rounds fused current rounds pending threshold :
  rerun_decision fused current rounds pending threshold = "rerun" → (current < rounds)%Z.
Proof.
  unfold rerun_decision. destruct (fv_hard_veto fused); [done|]. destruct (0 <? pending)%Z; [done|].
  destruct (confidence_ok fused threshold); [done|]. by destruct (Z.leb_spec rounds current).
Qed.

Lemma round_of_row c artifact db row : row ∈ rounds_of c artifact db →
  (as_review_round row ≤ (_round_state c artifact db).1)%Z.
Proof.
  intros Hr. pose proof (max_round_ge _ _ Hr) as H. unfold _round_state.
  destruct (rounds_of c artifact db); [by apply elem_of_nil in Hr|exact H].
Qed.

Lemma verdict_exhausted c artifact db db' v :
  verdicts db' = updated (λ v, (vd_company_id v =? c) && (vd_artifact_id v =? artifact)) exhaust (verdicts db) →
  where_ (λ v, (vd_company_id v =? c) && (vd_artifact_id v =? artifact)) (verdicts db) = [v] →
  where_ (λ v, (vd_company_id v =? c) && (vd_artifact_id v =? artifact)) (verdicts db') = [exhaust v].
Proof.
  intros -> Hw. apply where_single_updated; [done|]. simpl.
  assert (v ∈ where_ (λ v, (vd_company_id v =? c) && (vd_artifact_id v =? artifact)) (verdicts db)) as Hv
    by (rewrite Hw; left).
  by apply elem_where in Hv as [_ ?].
Qed.

(** The last step: the reviewers credited, a rerun, or nothing. *)
Lemma settle_step n c artifact fused decision db o db' :
  review_db_ok db →
  (u ← (if decision ∈? ["pass"; "exhausted"] then _finalize_scores env sql_round c artifact fused else mret tt);
   if decision =? "rerun" then _create_auto_rerun env n c artifact else mret no_rerun) db = (Ok o, db') →
  review_db_ok db' ∧
  (∀ J, credit_keeps env sql_round (λ db, J (stats db)) → J (stats db) → J (stats db')) ∧
  (if decision ∈? ["pass"; "exhausted"] then
     scores db' = map (finalized c artifact (fv_verdict fused)) (scores db)
   else scores db' = scores db ∧ stats db' = stats db) ∧
  (rerun_event o = None ∧ review_assignments db' = review_assignments db ∧
     (verdicts db' = verdicts db ∧ (decision = "rerun" → rerun_sources c artifact db = []) ∨
      decision = "rerun" ∧ rerun_sources c artifact db ≠ [] ∧ verdicts db' = updated (λ v, (vd_company_id v =? c) &&
              (vd_artifact_id v =? artifact)) exhaust (verdicts db)) ∨
   decision = "rerun" ∧ verdicts db' = verdicts db ∧ ∃ row e, row ∈ rounds_of c artifact db ∧
     as_status row = "submitted" ∧ rerun_event o = Some e ∧
     review_assignments db' = review_assignments db ++ [next_round env n c row]).
Proof.
  intros Hok Hrun. apply tx_bind_ok in Hrun as (u & db1 & H1 & H2).
  destruct (decision ∈? ["pass"; "exhausted"]) eqn:Hfin.
  - assert (decision ≠ "rerun") as Hne by by intros ->.
    rewrite (proj2 (String.eqb_neq _ _) Hne) in H2. apply mret_ok in H2 as [-> ->].
    apply finalize_ok in H1 as (Hl & Hst & Hs & HI); [|apply Hok].
    pose proof (frame_of_step _ _ Hst) as Hfr. pose proof (ledger_frame _ _ Hfr) as (Ha & _).
    split; [by eapply review_db_ledger|]. split; [intros J; apply (HI (λ db, J (stats db)))|].
    split; [done|]. left. split; [done|]. split; [done|]. left. split; [by destruct Hst|done].
  - apply mret_ok in H1 as [_ ->]. destruct (String.eqb_spec decision "rerun") as [->|Hne].
    2: { apply mret_ok in H2 as [-> ->]. do 3 (split; [done|]). left. do 2 (split; [done|]). by left. }
    pose proof H2 as Hrun. apply auto_rerun_ok in Hrun as [(Ho & _ & [[Hs ->]|[Hs ->]])|Hcase].
    + do 3 (split; [done|]). left. do 2 (split; [done|]). by left.
    + split; [|do 2 (split; [done|]); left; do 2 (split; [done|]); by right].
      apply (review_db_ledger db); [done|by eexists|]. destruct Hok as [_ _ _ [L1 L2 L3 L4 L5]].
      split; [exact L1|exact L2| |exact L4|exact L5].
      refine (table_ok_updated (Table0 := verdicts_table) _ _ db L3 _ _ _); [done|done|].
      intros v Hv _. exact (table_ok_row _ _ L3 Hv).
    + destruct Hcase as (row & e & ob & Hrow & Hsub & -> & _ & Hins).
      split; [by eapply review_db_assign|]. apply insert_ok in Hins as (_ & _ & _ & ->).
      do 2 (split; [done|]). right. split; [done|]. split; [done|]. exists row, e. auto.
    + done.
Qed.

Lemma bit_1 b : bit b = 1 ↔ b = true.
Proof. by destruct b. Qed.

Lemma submitted_ok n c a db o db' :
  review_db_ok db → on_report_submitted env sql_round repr_float n c a db = (Ok o, db') →
  review_db_ok db' ∧ ∃ db1 fused decision, aftermath n c a db db1 db' o fused decision.
Proof.
  intros Hok Hrun. unfold on_report_submitted in Hrun. cbv zeta in Hrun.
  set (artifact := ra_artifact_id a) in *.
  apply tx_bind_ok in Hrun as (u & db1 & Hrec & Hrun). destruct u.
  pose proof Hrec as Hrec'. apply record_ok in Hrec' as (Hl1 & Hst1 & Hstats1 & _); [|apply Hok].
  pose proof (frame_of_step _ _ Hst1) as Hfr1. pose proof (review_db_ledger _ _ Hok Hfr1 Hl1) as Hok1.
  destruct (ledger_frame _ _ Hfr1) as (Ha1 & _ & _ & _ & Hq1). destruct (Hq1 c artifact) as (Hr1 & Hrs1 & Hsrc1).
  apply tx_bind_ok in Hrun as (l & ? & [-> ->]%gets_ok & Hrun).
  apply tx_bind_ok in Hrun as (k & ? & [-> ->]%gets_ok & Hrun).
  set (fused := fuse_verdicts _ _) in *.
  apply tx_bind_ok in Hrun as ([rounds threshold] & ? & [Hspec ->]%gets_ok & Hrun).
  apply tx_bind_ok in Hrun as ([current pending] & ? & [Hround ->]%gets_ok & Hrun).
  rewrite (spec_step _ _ _ _ Hst1) in Hspec. rewrite Hrs1 in Hround.
  set (decision := rerun_decision _ _ _ _ _) in *.
  apply tx_bind_ok in Hrun as (u & db2 & Hv & Hrun).
  apply verdict_ok in Hv as (Hl2 & [lv Hdb2] & v & Hw & V1 & V2 & V3 & V4); [|done].
  assert (review_db_ok db2) as Hok2.
  { eapply review_db_ledger; [exact Hok1| |done]. rewrite Hdb2. by eexists. }
  apply settle_step in Hrun as (Hok' & HJ & Hcredit & Hrerun); [|done].
  assert (scores db2 = scores db1 ∧ stats db2 = stats db ∧ review_assignments db2 = review_assignments db ∧
    rounds_of c artifact db2 = rounds_of c artifact db ∧
    rerun_sources c artifact db2 = rerun_sources c artifact db) as (E1 & E2 & E3 & E4 & E5).
  { rewrite Hdb2, <-Hstats1, <-Ha1, <-Hr1, <-Hsrc1. done. }
  rewrite E2 in HJ. rewrite E1, E2 in Hcredit. rewrite E3, E4, E5 in Hrerun.
  split; [done|]. exists db1, fused, decision. split.
  - done.
  - done.
  - fold artifact. by rewrite <-Hspec, <-Hround.
  - destruct Hrerun as [(Ho & _ & [[Hvd Hno]|(Hd & Hs & Hvd)])|(Hd & Hvd & _ & e & _ & _ & Ho & _)].
    + exists v. rewrite Hvd. split_and!; [done..|]. rewrite V4, bit_1, String.eqb_eq. naive_solver.
    + exists (exhaust v). split; [by eapply verdict_exhausted|]. split_and!; [done..|].
      split; [|done]. intros _. right. auto.
    + exists v. rewrite Hvd. split_and!; [done..|]. rewrite V4, bit_1, String.eqb_eq. naive_solver.
  - done.
  - done.
  - destruct Hrerun as [(Ho & Ha & _)|(Hd & _ & row & e & Hrow & Hsub & Ho & Ha)]; [by left|right].
    split; [done|]. exists row, e. split_and!; try done. fold artifact. rewrite <-Hspec. simpl.
    apply rerun_decision_rounds in Hd. pose proof (round_of_row _ _ _ _ Hrow) as Hle.
    rewrite <-Hround in Hle. simpl in Hle. lia.
Qed.

(** C29. What a submitted report sets off, when nothing raises.  The report is scored; the
    fused verdict on the artifact, with its confidence and veto, becomes the artifact's
    only verdict.  A pass or an exhausted review credits every open score of the artifact
    against that verdict; any other decision leaves every reviewer's record alone.  Only a
    rerun adds an assignment: one, for a submitted review of the artifact, at the next
    round, never past the number of rounds asked for; a rerun that was not possible marks
    the verdict as exhausted. *)
Theorem report_submitted_correct n c a db o db' :
  review_db_ok db → on_report_submitted env sql_round repr_float n c a db = (Ok o, db') →
  ∃ db1 fused decision, aftermath n c a db db1 db' o fused decision.
Proof. intros Hok Hrun. by apply submitted_ok in Hrun as [_ ?]. Qed.

(** The ledger stays balanced: after any submitted report, the sample count and the
    reviews completed of every reviewer are the number of scores credited to them, their
    reviews with issues those of them that found an issue, and a reviewer without a
    record has none; and the constraints of the ledger's tables hold. *)
Lemma ledger_stays_balanced n c a db o db' :
  review_db_ok db → on_report_submitted env sql_round repr_float n c a db = (Ok o, db') →
  ledger_ok db'.
Proof. intros Hok Hrun. apply submitted_ok in Hrun as [H _]; [|done]. apply H. Qed.

(** ** Accuracies *)

Hypothesis sql_round_unit : ∀ x, unit_interval x → unit_interval (sql_round x 3).

Definition accurate (s : StatsRow) : Prop := unit_interval (st_accuracy s).


Lemma credit_accurate c v row db u db' :
  ledger_ok db → Forall accurate (stats db) → credit env sql_round c v row db = (Ok u, db') →
  Forall accurate (stats db').
Proof.
  intros Hok Hall Hrun. apply credit_run in Hrun as [-> _]; [|done].
  change (stats (with_ledger _ db)) with (updated (stats_key c (sc_reviewer_employee_id row))
    (set_stats env sql_round (if sc_verdict row =? v then f1 else f0) (bit (0 <? sc_issue_count row)%Z))
    (with_record env c (sc_reviewer_employee_id row) (stats db))).
  assert (Forall accurate (with_record env c (sc_reviewer_employee_id row) (stats db))) as Hrec.
  { unfold with_record. destruct (existsb _ _); [done|]. apply Forall_app. split; [done|].
    constructor; [|done]. exact unit_0. }
  rewrite Forall_forall in Hrec. apply Forall_forall. intros s [[Hs _]|(s' & Hs & _ & ->)]%elem_updated; [auto|].
  apply sql_round_unit, blend_unit; [by apply Hrec|]. destruct (_ =? _); [exact unit_1|exact unit_0].
Qed.

(** Accuracies stay between 0 and 1: if they were before a report is submitted they are
    afterwards, whatever was credited, for a database whose [round] to three digits does not
    leave that interval. *)
Lemma accuracies_stay_bounded n c a db o db' :
  review_db_ok db → Forall accurate (stats db) →
  on_report_submitted env sql_round repr_float n c a db = (Ok o, db') →
  Forall accurate (stats db').
Proof.
  intros Hok Hall Hrun. apply submitted_ok in Hrun as (_ & db1 & fused & decision & Ham); [|done].
  apply (am_stats _ _ _ _ _ _ _ _ _ Ham (Forall accurate)); [|done].
  intros c' v row d u d' ???. by eapply credit_accurate.
Qed.
End Steps.

(** ** What a rerun can change *)

Section FirstRows.
Context {A : Type} (key : A → string).

Lemma first_rows_elem seen l k :
  k ∈ map key (first_rows key seen l) ↔ k ∈ map key l ∧ k ∉ seen.
Proof.
  revert seen. induction l as [|x l IH]; intros seen; simpl; [set_solver|].
  unfold mem. destruct (bool_decide_reflect (key x ∈ seen)) as [Hs|Hs]; simpl.
  - rewrite IH, elem_of_cons. naive_solver.
  - rewrite !elem_of_cons, IH. rewrite not_elem_of_cons. destruct (decide (k = key x)); naive_solver.
Qed.

Lemma first_rows_nodup seen l : NoDup (map key (first_rows key seen l)).
Proof.
  revert seen. induction l as [|x l IH]; intros seen; simpl; [constructor|].
  destruct (_ ∈? _); [done|]. simpl. constructor; [|done].
  rewrite first_rows_elem. intros [_ Hn]. apply Hn. left.
Qed.

Lemma first_rows_sublist seen l : first_rows key seen l `sublist_of` l.
Proof.
  revert seen. induction l as [|x l IH]; intros seen; simpl; [done|].
  destruct (_ ∈? _); [by apply sublist_cons|by apply sublist_skip].
Qed.

(** From a list sorted by its keys first, the keys in order. *)
Lemma first_rows_keys l l' :
  StronglySorted (λ x y, String.compare (key x) (key y) ≠ Gt) l →
  StronglySorted (λ x y, String.compare (key x) (key y) ≠ Gt) l' →
  (∀ k, k ∈ map key l ↔ k ∈ map key l') →
  map key (first_rows key [] l) = map key (first_rows key [] l').
Proof.
  intros Hl Hl' Hk.
  assert (∀ l, StronglySorted (λ x y, String.compare (key x) (key y) ≠ Gt) l →
    StronglySorted (λ a b, String.compare a b ≠ Gt) (map key (first_rows key [] l))) as Hsorted.
  { clear. intros l Hl. pose proof (first_rows_sublist [] l) as Hsub.
    revert Hl. induction Hsub as [|x l1 l2 Hsub IH|x l1 l2 Hsub IH]; simpl; intros Hl; [constructor|..];
      apply StronglySorted_cons in Hl as [Hx Hl]; [|by apply IH].
    constructor; [by apply IH|]. rewrite Forall_forall in Hx. apply Forall_forall. intros k Hk.
    apply list_elem_of_In, in_map_iff in Hk as (y & <- & Hy%list_elem_of_In). apply Hx.
    by eapply elem_of_sublist. }
  apply (StronglySorted_unique_strong (λ a b, String.compare a b ≠ Gt)).
  - intros a b _ _ Hab Hba. apply (cmp_eq (cmp := String.compare)). rewrite (cmp_flip String.compare b a) in *.
    by destruct (String.compare b a).
  - by apply Hsorted.
  - by apply Hsorted.
  - apply NoDup_Permutation; [apply first_rows_nodup..|]. intros k. rewrite !first_rows_elem, Hk. done.
Qed.
End FirstRows.

#[local] Instance ordering_latest : Ordering latest_cmp.
Proof. unfold latest_cmp. apply _. Qed.

(** The weight of a reviewer, and the reviewers whose reports count. *)
Definition weight_of (c r : string) (db : DB) : float :=
  compute_weight (Some (default (f0, 0%Z) (_reviewer_stats c r db))).
Definition reviewers (c artifact : string) (db : DB) : list string :=
  map (λ p, as_reviewer_employee_id p.2) (counted c artifact db).

Lemma weights_by_reviewer c artifact db :
  map rs_weight (_load_scores c artifact db) =
  map (λ r, weight_of c r db) (map (λ p, as_reviewer_employee_id p.2)
    (first_rows (λ p, as_reviewer_employee_id p.2) [] (sort_key latest_cmp (counted c artifact db)))).
Proof.
  unfold _load_scores. rewrite !map_map. apply map_ext_in. intros p Hp%list_elem_of_In. cbn [rs_weight].
  assert (p ∈ counted c artifact db) as Hin%list_elem_of_In.
  { apply (elem_of_sort_by (leb_of latest_cmp)). eapply elem_of_sublist; [exact Hp|apply first_rows_sublist]. }
  apply filter_In in Hin as [_ Hb]. apply andb_true_iff in Hb as [Hb _].
  apply andb_true_iff in Hb as [->%String.eqb_eq _]. done.
Qed.

Lemma latest_by_reviewer l : StronglySorted
  (λ x y, String.compare (as_reviewer_employee_id x.2) (as_reviewer_employee_id y.2) ≠ Gt)
  (sort_key latest_cmp l).
Proof.
  pose proof (sort_key_sorted latest_cmp l) as H. induction H as [|x l' H IH Hx]; constructor; [done|].
  eapply Forall_impl; [exact Hx|]. intros y Hy%leb_of_iff Hgt. apply Hy.
  unfold latest_cmp, on, lex. simpl. by rewrite Hgt.
Qed.

Lemma p_fail_weights l l' : map rs_weight l = map rs_weight l' → p_fail l = p_fail l'.
Proof.
  unfold p_fail. generalize f1 at 2 4. revert l'.
  induction l as [|s l IH]; intros [|s' l'] p; simpl; try done. intros [= Hs Hl]. rewrite Hs. by apply IH.
Qed.

(** A rerun gives a reviewer another chance to object, and nothing else: as long as no
    report or issue vetoes and the records of the reviewers stand, the confidence
    depends only on who has reviewed, however often.  The round that an automatic rerun
    opens goes to a reviewer who already counts, so a confidence that was too low stays
    too low. *)
Lemma rereview_keeps_confidence c artifact db db' :
  stats db' = stats db → (∀ r, r ∈ reviewers c artifact db' ↔ r ∈ reviewers c artifact db) →
  let fused db := fuse_verdicts (_load_scores c artifact db) (_open_blocker_high_count c artifact db) in
  fv_hard_veto (fused db) = false → fv_hard_veto (fused db') = false →
  fv_confidence (fused db') = fv_confidence (fused db).
Proof.
  intros Hst Hr fused H1 H2.
  assert (p_fail (_load_scores c artifact db') = p_fail (_load_scores c artifact db)) as Hp.
  { apply p_fail_weights. rewrite !weights_by_reviewer.
    rewrite (first_rows_keys _ (sort_key latest_cmp (counted c artifact db'))
      (sort_key latest_cmp (counted c artifact db))).
    - apply map_ext. intros r. unfold weight_of, _reviewer_stats, stats_of. by rewrite Hst.
    - apply latest_by_reviewer.
    - apply latest_by_reviewer.
    - intros k. assert (∀ db, k ∈ map (λ p, as_reviewer_employee_id p.2)
        (sort_key latest_cmp (counted c artifact db)) ↔ k ∈ reviewers c artifact db) as Hk;
        [|rewrite !Hk; apply Hr].
      intros d. unfold reviewers, sort_key. by rewrite sort_by_perm. }
  unfold fused in *.
  destruct (fuse_cases (_load_scores c artifact db) (_open_blocker_high_count c artifact db)) as [[_ E]|[_ E]];
    rewrite E in *; [done|].
  destruct (fuse_cases (_load_scores c artifact db') (_open_blocker_high_count c artifact db')) as [[_ E']|[_ E']];
    rewrite E' in *; [done|]. simpl. by rewrite Hp.
Qed.

(** ** A submit with its aggregation *)

Module AggregationDemo.
Definition round_sql (x : float) (_ : Z) : float := round3 x.
Definition repr (_ : float) : string := "0.5".
Definition pass : SubmitReview := {|
  sb_company_id := "co"; sb_assignment_id := "as"; sb_reviewer_run_id := "run";
  sb_reviewed_artifact_id := "doc"; sb_reviewed_sha256 := Demo.sha; sb_report_artifact_id := "rep";
  sb_verdict := "pass"; sb_issues := []; sb_expected_assignment_version := 2 |}.
Definition aggregate (tag : string) : ReviewAssignment → tx DB AggregationOutcome :=
  on_report_submitted (Demo.env tag) round_sql repr 3 "co".
(** The report stored, without and with the aggregation. *)
Definition db2 : DB := (submit_review (Demo.env "b") "t" None pass Demo.db1).2.
Definition assignment : ReviewAssignment := {|
  ra_id := "as"; ra_company_id := "co"; ra_artifact_id := "doc"; ra_artifact_sha256 := Demo.sha;
  ra_reviewer_employee_id := "rev"; ra_state := "submitted"; ra_version := 3 |}.
Definition after : result AggregationOutcome * DB := aggregate "b" assignment db2.
Definition outcome : AggregationOutcome := match after.1 with Ok o => o | Err _ => no_rerun end.
End AggregationDemo.

(** One passing review of a new reviewer is not enough: the same reviewer gets the next
    round, and the handler sends both events. *)
Example demo_rerun :
  map as_review_round (review_assignments AggregationDemo.after.2) = [1; 2] ∧
  map vd_confidence (verdicts AggregationDemo.after.2) = [f0_50] ∧
  (λ r, map event_type (events r)) <$>
    (submit_review (Demo.env "b") "t" (Some (AggregationDemo.aggregate "b")) AggregationDemo.pass Demo.db1).1
  = Ok ["review.submitted"; "review.assigned"].
Proof. vm_compute. auto. Qed.

Lemma demo_ok : review_db_ok AggregationDemo.db2.
Proof.
  split; [by vm_compute..| |].
  - intros r Hr. assert (forallb (report_refs AggregationDemo.db2) (review_reports AggregationDemo.db2) = true)
      as Hall by by vm_compute.
    rewrite forallb_forall in Hall. by apply Hall, list_elem_of_In.
  - split; [by vm_compute..| |by intros c r].
    intros s Hs. by apply elem_of_nil in Hs.
Qed.

Lemma demo_after : AggregationDemo.after = (Ok AggregationDemo.outcome, AggregationDemo.after.2).
Proof. by vm_compute. Qed.

Lemma report_submitted_correct_witness :
  ∃ db1 fused decision, aftermath (Demo.env "b") AggregationDemo.round_sql 3 "co"
    AggregationDemo.assignment AggregationDemo.db2 db1 AggregationDemo.after.2 AggregationDemo.outcome
    fused decision.
Proof. exact (report_submitted_correct (Demo.env "b") AggregationDemo.round_sql AggregationDemo.repr 3 "co"
    AggregationDemo.assignment AggregationDemo.db2 AggregationDemo.outcome AggregationDemo.after.2 demo_ok demo_after). Defined.

Lemma ledger_stays_balanced_witness : ledger_ok AggregationDemo.after.2.
Proof. exact (ledger_stays_balanced (Demo.env "b") AggregationDemo.round_sql AggregationDemo.repr 3 "co"
    AggregationDemo.assignment AggregationDemo.db2 AggregationDemo.outcome AggregationDemo.after.2 demo_ok demo_after). Defined.

Lemma accuracies_stay_bounded_witness : Forall accurate (stats AggregationDemo.after.2).
Proof.
  apply (accuracies_stay_bounded (Demo.env "b") AggregationDemo.round_sql AggregationDemo.repr
    (λ x Hx, round3_unit x Hx) 3 "co" AggregationDemo.assignment AggregationDemo.db2
    AggregationDemo.outcome AggregationDemo.after.2 demo_ok); [|exact demo_after].
  constructor.
Defined.

Lemma rereview_keeps_confidence_witness :
  let fused db := fuse_verdicts (_load_scores "co" "doc" db) (_open_blocker_high_count "co" "doc" db) in
  fv_confidence (fused AggregationDemo.after.2) = fv_confidence (fused AggregationDemo.db2).
Proof.
  apply (rereview_keeps_confidence "co" "doc" AggregationDemo.db2 AggregationDemo.after.2).
  - by vm_compute.
  - intros r. by vm_compute.
  - by vm_compute.
  - by vm_compute.
Defined.
