(* ===== verification/WorkStore.v ===== *)
(** * The tables behind task completion

    The review tables, with their artifacts and runs, beside the task tables and the
    tables that the completion gates and the rework commands add to them. *)

From S2P Require Import Prelude PyStr Sql UnitOfWork Zoom.
From S2P Require TaskStore.
From S2P Require ReviewStore.

Module TS := TaskStore.
Module RV := ReviewStore.

(** ** Rows *)

Record Verification := {
  ve_id : string;
  ve_company_id : string;
  ve_artifact_id : string;
  ve_status : string }.

Record Deliverable := {
  de_id : string;
  de_company_id : string;
  de_department_task_id : string;
  de_published_at : option string }.

Record Workspace := {
  tw_id : string;
  tw_company_id : string;
  tw_company_task_id : string;
  tw_workspace_grant_id : string;
  tw_repository_root : string;
  tw_status : string }.

Record ReworkAttempt := {
  rw_id : string;
  rw_company_id : string;
  rw_company_task_id : string;
  rw_department_task_id : option string;
  rw_attempt_no : Z;
  rw_status : string;
  rw_created_at : string;
  rw_completed_at : option string;
  rw_version : Z }.

Record ReworkIssue := {
  ri_company_id : string;
  ri_rework_attempt_id : string;
  ri_review_issue_id : string }.

(** What the gates read of an approval. *)
Record Approval := {
  ha_id : string;
  ha_company_id : string;
  ha_run_id : string;
  ha_status : string }.

Record DB := {
  reviews : RV.DB;
  company_tasks : list TS.CompanyTask;
  department_tasks : list TS.DepartmentTask;
  employee_tasks : list TS.EmployeeTask;
  verifications : list Verification;
  human_approvals : list Approval;
  department_task_deliverables : list Deliverable;
  task_workspaces : list Workspace;
  rework_attempts : list ReworkAttempt;
  rework_attempt_issues : list ReworkIssue }.

Definition artifacts (db : DB) : list RV.Artifact := RV.artifacts (reviews db).
Definition agent_runs (db : DB) : list RV.ReviewRun := RV.agent_runs (reviews db).
Definition review_assignments (db : DB) : list RV.AssignmentRow := RV.review_assignments (reviews db).
Definition review_reports (db : DB) : list RV.ReportRow := RV.review_reports (reviews db).
Definition review_issues (db : DB) : list RV.IssueRow := RV.review_issues (reviews db).

Ltac solve_lens := intros; repeat match goal with db : DB |- _ => destruct db end; reflexivity.

#[export] Program Instance reviews_lens : Lens DB RV.DB := {|
  view := reviews;
  put r db := {|
    reviews := r; company_tasks := company_tasks db; department_tasks := department_tasks db;
    employee_tasks := employee_tasks db; verifications := verifications db;
    human_approvals := human_approvals db;
    department_task_deliverables := department_task_deliverables db;
    task_workspaces := task_workspaces db; rework_attempts := rework_attempts db;
    rework_attempt_issues := rework_attempt_issues db |} |}.
Solve All Obligations with solve_lens.

#[export] Instance work_event_db : EventDb DB := @lens_event_db DB RV.DB reviews_lens RV.review_event_db.

(** ** Constraints *)

(** The artifact types the schema admits. *)
Definition schema_artifact_types : list string :=
  ["source_code_patch"; "document"; "test_case"; "test_result"; "review_report"; "execution_report";
   "department_report"; "final_report"; "log"; "diff"; "checkpoint"; "transcript"; "diagnostic";
   "imported_file"; "merge_report"; "git_bundle"; "manifest"].

#[export] Program Instance company_tasks_table : Table DB TS.CompanyTask := {|
  table_name := "company_tasks"; rows := company_tasks;
  set_rows l db := {|
    reviews := reviews db; company_tasks := l; department_tasks := department_tasks db;
    employee_tasks := employee_tasks db; verifications := verifications db;
    human_approvals := human_approvals db;
    department_task_deliverables := department_task_deliverables db;
    task_workspaces := task_workspaces db; rework_attempts := rework_attempts db;
    rework_attempt_issues := rework_attempt_issues db |};
  row_ok := TS.company_task_ok;
  clash a b := TS.ct_id a =? TS.ct_id b;
  refs_ok _ _ := true |}.
Solve All Obligations with solve_lens.

#[export] Program Instance department_tasks_table : Table DB TS.DepartmentTask := {|
  table_name := "department_tasks"; rows := department_tasks;
  set_rows l db := {|
    reviews := reviews db; company_tasks := company_tasks db; department_tasks := l;
    employee_tasks := employee_tasks db; verifications := verifications db;
    human_approvals := human_approvals db;
    department_task_deliverables := department_task_deliverables db;
    task_workspaces := task_workspaces db; rework_attempts := rework_attempts db;
    rework_attempt_issues := rework_attempt_issues db |};
  row_ok := TS.department_task_ok;
  clash a b := (TS.dt_id a =? TS.dt_id b) ||
    ((TS.dt_company_task_id a =? TS.dt_company_task_id b) && (TS.dt_stage_key a =? TS.dt_stage_key b));
  refs_ok db t := existsb (λ c, (TS.ct_id c =? TS.dt_company_task_id t) &&
    (TS.ct_company_id c =? TS.dt_company_id t)) (company_tasks db) |}.
Solve All Obligations with solve_lens.

#[export] Program Instance employee_tasks_table : Table DB TS.EmployeeTask := {|
  table_name := "employee_tasks"; rows := employee_tasks;
  set_rows l db := {|
    reviews := reviews db; company_tasks := company_tasks db;
    department_tasks := department_tasks db; employee_tasks := l;
    verifications := verifications db; human_approvals := human_approvals db;
    department_task_deliverables := department_task_deliverables db;
    task_workspaces := task_workspaces db; rework_attempts := rework_attempts db;
    rework_attempt_issues := rework_attempt_issues db |};
  row_ok := TS.employee_task_ok;
  clash a b := TS.et_id a =? TS.et_id b;
  refs_ok db t :=
    existsb (λ d, (TS.dt_id d =? TS.et_department_task_id t) && (TS.dt_company_id d =? TS.et_company_id t))
      (department_tasks db) &&
    existsb (λ e, (RV.em_id e =? TS.et_employee_id t) && (RV.em_company_id e =? TS.et_company_id t))
      (RV.employees (reviews db)) |}.
Solve All Obligations with solve_lens.

Definition rework_done (status : string) : bool := status ∈? ["completed"; "cancelled"; "failed"].

(** The primary key, [ux_rework_attempt_scope_no] and [ux_rework_attempt_active_scope]. *)
Definition same_scope (a b : ReworkAttempt) : bool :=
  (rw_company_id a =? rw_company_id b) && (rw_company_task_id a =? rw_company_task_id b) &&
  (default "" (rw_department_task_id a) =? default "" (rw_department_task_id b)).
Definition rework_active (a : ReworkAttempt) : bool := rw_status a ∈? ["planned"; "running"].
Definition rework_clash (a b : ReworkAttempt) : bool :=
  (rw_id a =? rw_id b) || (same_scope a b &&
    ((rw_attempt_no a =? rw_attempt_no b)%Z || rework_active a && rework_active b)).

(** The trigger that forbids updates of finished attempts is not part of the table: the
    only statement that updates an attempt, in [Rework], finds it unfinished. *)
#[export] Program Instance rework_attempts_table : Table DB ReworkAttempt := {|
  table_name := "rework_attempts"; rows := rework_attempts;
  set_rows l db := {|
    reviews := reviews db; company_tasks := company_tasks db;
    department_tasks := department_tasks db; employee_tasks := employee_tasks db;
    verifications := verifications db; human_approvals := human_approvals db;
    department_task_deliverables := department_task_deliverables db;
    task_workspaces := task_workspaces db; rework_attempts := l;
    rework_attempt_issues := rework_attempt_issues db |};
  row_ok a := (1 <=? rw_attempt_no a)%Z && (1 <=? rw_version a)%Z &&
    (rw_status a ∈? ["planned"; "running"; "completed"; "cancelled"; "failed"]) &&
    Bool.eqb (rework_done (rw_status a)) (negb (rw_completed_at a =?o None));
  clash := rework_clash;
  refs_ok db a :=
    existsb (λ c, (TS.ct_id c =? rw_company_task_id a) && (TS.ct_company_id c =? rw_company_id a))
      (company_tasks db) &&
    match rw_department_task_id a with
    | Some d => existsb (λ t, (TS.dt_id t =? d) && (TS.dt_company_id t =? rw_company_id a)) (department_tasks db)
    | None => true
    end |}.
Solve All Obligations with solve_lens.

#[export] Program Instance rework_issues_table : Table DB ReworkIssue := {|
  table_name := "rework_attempt_issues"; rows := rework_attempt_issues;
  set_rows l db := {|
    reviews := reviews db; company_tasks := company_tasks db;
    department_tasks := department_tasks db; employee_tasks := employee_tasks db;
    verifications := verifications db; human_approvals := human_approvals db;
    department_task_deliverables := department_task_deliverables db;
    task_workspaces := task_workspaces db; rework_attempts := rework_attempts db;
    rework_attempt_issues := l |};
  row_ok _ := true;
  clash a b := (ri_rework_attempt_id a =? ri_rework_attempt_id b) &&
               (ri_review_issue_id a =? ri_review_issue_id b);
  refs_ok db r :=
    existsb (λ a, (rw_id a =? ri_rework_attempt_id r) && (rw_company_id a =? ri_company_id r))
      (rework_attempts db) &&
    existsb (λ i, (RV.is_id i =? ri_review_issue_id r) && (RV.is_company_id i =? ri_company_id r))
      (review_issues db) |}.
Solve All Obligations with solve_lens.

(** What every committed database satisfies of the task tables: their constraints, and
    that the parent of every task is there. *)
Record tasks_ok (db : DB) : Prop := {
  ok_company : table_ok (R := TS.CompanyTask) db = true;
  ok_department : table_ok (R := TS.DepartmentTask) db = true;
  ok_employee : table_ok (R := TS.EmployeeTask) db = true;
  ok_parent et : et ∈ employee_tasks db → ∃ dt, dt ∈ department_tasks db ∧
    TS.dt_id dt = TS.et_department_task_id et ∧ TS.dt_company_id dt = TS.et_company_id et;
  ok_root dt : dt ∈ department_tasks db → ∃ ct, ct ∈ company_tasks db ∧
    TS.ct_id ct = TS.dt_company_task_id dt ∧ TS.ct_company_id ct = TS.dt_company_id dt }.

(** Two tasks with everything they need to end, and a third that lacks it. *)
Module Demo.
Definition artifact (id type : string) : RV.Artifact := {|
  RV.ar_id := id; RV.ar_company_id := "co"; RV.ar_company_task_id := "ct"; RV.ar_artifact_type := type;
  RV.ar_object_sha256 := "sha"; RV.ar_is_current := 1; RV.ar_created_by_type := "user";
  RV.ar_created_by_run_id := None; RV.ar_logical_name := id; RV.ar_object_size := 1;
  RV.ar_media_type := "text/plain"; RV.ar_metadata := JObj []; RV.ar_supersedes_artifact_id := None;
  RV.ar_created_at := "t" |}.
Definition review_tables (l : list RV.Artifact) : RV.DB := {|
  RV.review_assignments := []; RV.review_reports := []; RV.review_issues := [];
  RV.resolution_evidence := []; RV.idem_rows := []; RV.event_rows := []; RV.outbox_rows := [];
  RV.routing := RV.RS.Demo.db0; RV.artifacts := l; RV.artifact_contributors := [("doc", "co", "emp")];
  RV.employees := []; RV.agent_runs := []; RV.companies := ["co"];
  RV.ledger := {| RV.review_report_scores := []; RV.reviewer_stats := []; RV.review_verdicts := [];
                  RV.deliverable_review_specs := [] |} |}.
Definition company_task (status : string) : TS.CompanyTask := {|
  TS.ct_id := "ct"; TS.ct_company_id := "co"; TS.ct_supersedes_task_id := None;
  TS.ct_company_conversation_id := "v1"; TS.ct_user_message_event_id := "e1"; TS.ct_title := "demo";
  TS.ct_status := status; TS.ct_resume_state := None; TS.ct_active_plan_id := None;
  TS.ct_created_at := "t"; TS.ct_updated_at := "t"; TS.ct_completed_at := None;
  TS.ct_ceo_confirmed_at := Some "t"; TS.ct_version := 1 |}.
Definition department_task (status : string) : TS.DepartmentTask := {|
  TS.dt_id := "dt"; TS.dt_company_id := "co"; TS.dt_company_task_id := "ct"; TS.dt_department_id := "dep1";
  TS.dt_stage_key := "s1"; TS.dt_objective := "build"; TS.dt_deliverables_json := JList [];
  TS.dt_acceptance_criteria_json := JList []; TS.dt_status := status; TS.dt_resume_state := None;
  TS.dt_created_at := "t"; TS.dt_updated_at := "t"; TS.dt_completed_at := None; TS.dt_version := 1 |}.
Definition employee_task (status : string) : TS.EmployeeTask := {|
  TS.et_id := "et"; TS.et_company_id := "co"; TS.et_department_task_id := "dt"; TS.et_employee_id := "emp";
  TS.et_task_kind := "standard"; TS.et_objective := "build"; TS.et_acceptance_criteria_json := JList [];
  TS.et_status := status; TS.et_resume_state := None; TS.et_created_at := "t"; TS.et_updated_at := "t";
  TS.et_version := 1 |}.
Definition passed (artifact : string) : Verification := {|
  ve_id := artifact; ve_company_id := "co"; ve_artifact_id := artifact; ve_status := "passed" |}.
Definition all_artifacts : list RV.Artifact :=
  [artifact "doc" "document"; artifact "run" "execution_report"; artifact "dep" "department_report";
   artifact "end" "final_report"].
Definition db (arts : list RV.Artifact) (et dt ct : string) : DB := {|
  reviews := review_tables arts; company_tasks := [company_task ct]; department_tasks := [department_task dt];
  employee_tasks := [employee_task et]; verifications := map (λ a, passed (RV.ar_id a)) arts;
  human_approvals := []; department_task_deliverables := []; task_workspaces := [];
  rework_attempts := []; rework_attempt_issues := [] |}.
Lemma db_ok arts et dt ct :
  table_ok (R := TS.CompanyTask) (db arts et dt ct) = true →
  table_ok (R := TS.DepartmentTask) (db arts et dt ct) = true →
  table_ok (R := TS.EmployeeTask) (db arts et dt ct) = true → tasks_ok (db arts et dt ct).
Proof.
  intros ? ? ?. split; try done.
  - intros x ->%list_elem_of_singleton. exists (department_task dt). split; [by left|done].
  - intros x ->%list_elem_of_singleton. exists (company_task ct). split; [by left|done].
Qed.
End Demo.
