(* ===== verification/Gates.v ===== *)
(** * Completion gates ([application/completion_handlers.py])

    What blocks the acceptance of an employee task and the completion of a department or
    a company task: the queries of the three gates, as nested [EXISTS] over the tables they
    join.

    The theorems: a gate opens exactly when what it promises holds of the task, its
    artifacts, their reviews and issues, and its runs and approvals; and one of the
    conditions of the company gate can never block. *)

From S2P Require Import Prelude Sql Zoom WorkStore.

Section Gates.
Context (task_id company_id : string).
Implicit Types (db : DB).

(** ** Conditions the queries share *)

Definition the_employee_task (et : TS.EmployeeTask) : bool :=
  (TS.et_id et =? task_id) && (TS.et_company_id et =? company_id).
Definition the_department_task (dt : TS.DepartmentTask) : bool :=
  (TS.dt_id dt =? task_id) && (TS.dt_company_id dt =? company_id).
Definition the_company_task (ct : TS.CompanyTask) : bool :=
  (TS.ct_id ct =? task_id) && (TS.ct_company_id ct =? company_id).

Definition parent_of (et : TS.EmployeeTask) (dt : TS.DepartmentTask) : bool :=
  (TS.dt_id dt =? TS.et_department_task_id et) && (TS.dt_company_id dt =? TS.et_company_id et).
Definition artifact_of (dt : TS.DepartmentTask) (a : RV.Artifact) : bool :=
  (RV.ar_company_task_id a =? TS.dt_company_task_id dt) && (RV.ar_company_id a =? TS.dt_company_id dt).
Definition current (a : RV.Artifact) : bool := (RV.ar_is_current a =? 1)%Z.
Definition of_type (types : list string) (a : RV.Artifact) : bool := RV.ar_artifact_type a ∈? types.

(** An artifact without a passed verification. *)
Definition unverified db (a : RV.Artifact) : bool :=
  negb (EXISTS v IN verifications db, (ve_artifact_id v =? RV.ar_id a) &&
    (ve_company_id v =? RV.ar_company_id a) && (ve_status v =? "passed")).

(** The assignments and artifacts of an employee task. *)
Definition own_employee_review db (ra : RV.AssignmentRow) (a : RV.Artifact) : bool :=
  EXISTS dt IN department_tasks db, EXISTS et IN employee_tasks db,
    the_employee_task et && parent_of et dt && artifact_of dt a.
Definition own_department_review db (ra : RV.AssignmentRow) (a : RV.Artifact) : bool :=
  (RV.ar_company_id a =? RV.as_company_id ra) &&
  EXISTS dt IN department_tasks db, the_department_task dt && artifact_of dt a.
Definition own_company_review (ra : RV.AssignmentRow) (a : RV.Artifact) : bool :=
  (RV.ar_company_task_id a =? task_id) && (RV.ar_company_id a =? company_id).

Definition withdrawn (ra : RV.AssignmentRow) : bool := RV.as_status ra ∈? ["stale"; "cancelled"].

(** A report on the current version of an artifact [on] selects that is no pass. *)
Definition failing_report (on : RV.AssignmentRow → RV.Artifact → bool) db : bool :=
  EXISTS rr IN review_reports db, EXISTS ra IN review_assignments db, EXISTS a IN artifacts db,
    (RV.as_id ra =? RV.rp_assignment_id rr) && (RV.ar_id a =? RV.as_artifact_id ra) && on ra a &&
    current a && negb (withdrawn ra) && (RV.rp_reviewed_sha256 rr =? RV.ar_object_sha256 a) &&
    negb (RV.rp_verdict rr =? "pass").

(** An open blocker or high issue of such a report. *)
Definition blocking_issue (on : RV.AssignmentRow → RV.Artifact → bool) db : bool :=
  EXISTS ri IN review_issues db, EXISTS rr IN review_reports db, EXISTS ra IN review_assignments db,
  EXISTS a IN artifacts db,
    (RV.rp_id rr =? RV.is_review_report_id ri) && (RV.as_id ra =? RV.rp_assignment_id rr) &&
    (RV.ar_id a =? RV.as_artifact_id ra) && on ra a && current a && negb (withdrawn ra) &&
    (RV.rp_reviewed_sha256 rr =? RV.ar_object_sha256 a) &&
    (RV.is_severity ri ∈? ["blocker"; "high"]) && negb (RV.is_status ri ∈? ["closed"; "rejected"]) &&
    (RV.is_superseded_by ri =?o None).

(** A run that waits or works, or an approval that is asked for or given. *)
Definition busy (mine : RV.ReviewRun → bool) db : bool :=
  (EXISTS ar IN agent_runs db, mine ar && (RV.rn_status ar ∈? ["queued"; "running"])) ||
  (EXISTS ar IN agent_runs db, EXISTS ha IN human_approvals db,
     mine ar && (ha_run_id ha =? RV.rn_id ar) && (ha_company_id ha =? RV.rn_company_id ar) &&
     (ha_status ha ∈? ["pending"; "allowed"])).

(** The blockers whose query finds something. *)
Definition reasons (l : list (string * bool)) : list string := map fst (List.filter snd l).

(** ** The employee gate *)

(* [sidecar/ibreeze/application/completion_handlers.py:108-118 EmployeeGate._missing_required_artifact] *)
Definition missing_required_artifact db : bool :=
  negb (EXISTS et IN employee_tasks db, EXISTS dt IN department_tasks db, EXISTS a IN artifacts db,
    the_employee_task et && parent_of et dt && (artifact_of dt a && current a)).

(* [sidecar/ibreeze/application/completion_handlers.py:120-135 EmployeeGate._employee_not_contributor] *)
Definition employee_not_contributor db : bool :=
  EXISTS et IN employee_tasks db, EXISTS dt IN department_tasks db,
    the_employee_task et && parent_of et dt &&
    negb (EXISTS ac IN RV.artifact_contributors (reviews db), EXISTS a IN artifacts db,
      (RV.ar_id a =? ac.1.1) && (ac.2 =? TS.et_employee_id et) &&
      (RV.ar_company_id a =? TS.et_company_id et) &&
      (RV.ar_company_task_id a =? TS.dt_company_task_id dt) && current a).

(* [sidecar/ibreeze/application/completion_handlers.py:137-153 EmployeeGate._verification_not_passed] *)
Definition verification_not_passed db : bool :=
  EXISTS et IN employee_tasks db, EXISTS dt IN department_tasks db, EXISTS a IN artifacts db,
    the_employee_task et && parent_of et dt && (artifact_of dt a && current a && unverified db a).

(* [sidecar/ibreeze/application/completion_handlers.py:155-168 EmployeeGate._review_not_submitted] *)
Definition review_not_submitted db : bool :=
  EXISTS ra IN review_assignments db, EXISTS a IN artifacts db,
    (RV.ar_id a =? RV.as_artifact_id ra) && own_employee_review db ra a && current a &&
    (RV.as_reviewed_sha256 ra =? RV.ar_object_sha256 a) &&
    negb (RV.as_status ra ∈? ["submitted"; "stale"; "cancelled"]).

(* [sidecar/ibreeze/application/completion_handlers.py:170-185 EmployeeGate._review_not_passed] *)
Definition review_not_passed db : bool := failing_report (own_employee_review db) db.

(* [sidecar/ibreeze/application/completion_handlers.py:187-205 EmployeeGate._blocking_issue_open] *)
Definition blocking_issue_open db : bool := blocking_issue (own_employee_review db) db.

(* [sidecar/ibreeze/application/completion_handlers.py:207-218 EmployeeGate._execution_report_missing] *)
Definition execution_report_missing db : bool :=
  EXISTS et IN employee_tasks db, EXISTS dt IN department_tasks db,
    the_employee_task et && parent_of et dt &&
    negb (EXISTS a IN artifacts db, artifact_of dt a && of_type ["execution_report"] a && current a).

Definition run_of_employee_task (et : TS.EmployeeTask) (ar : RV.ReviewRun) : bool :=
  sql_eq (RV.rn_employee_task_id ar) (Some (TS.et_id et)) && (RV.rn_company_id ar =? TS.et_company_id et).

(* [sidecar/ibreeze/application/completion_handlers.py:220-242 EmployeeGate._active_run_or_approval] *)
Definition employee_active db : bool :=
  EXISTS et IN employee_tasks db, EXISTS dt IN department_tasks db,
    the_employee_task et && parent_of et dt && busy (run_of_employee_task et) db.

(* [sidecar/ibreeze/application/completion_handlers.py:88-106 EmployeeGate.blockers] *)
Definition employee_blockers db : list string := reasons [
  ("missing_required_artifact", missing_required_artifact db);
  ("employee_not_contributor", employee_not_contributor db);
  ("verification_not_passed", verification_not_passed db);
  ("review_not_submitted", review_not_submitted db);
  ("review_not_passed", review_not_passed db);
  ("blocking_issue_open", blocking_issue_open db);
  ("execution_report_missing", execution_report_missing db);
  ("active_run_or_approval", employee_active db)].

(** ** The department gate *)

(* [sidecar/ibreeze/application/completion_handlers.py:266-274 DepartmentGate._required_employee_tasks_not_accepted] *)
Definition required_employee_tasks_not_accepted db : bool :=
  EXISTS et IN employee_tasks db, (TS.et_department_task_id et =? task_id) &&
    (TS.et_company_id et =? company_id) && negb (TS.et_status et ∈? ["accepted"; "cancelled"]).

(* [sidecar/ibreeze/application/completion_handlers.py:276-285 DepartmentGate._merge_task_not_accepted] *)
Definition merge_task_not_accepted db : bool :=
  EXISTS et IN employee_tasks db, (TS.et_department_task_id et =? task_id) &&
    (TS.et_company_id et =? company_id) && (TS.et_task_kind et =? "merge") &&
    negb (TS.et_status et =? "accepted").

(** Its query joins artifacts by the company task alone. *)
(* [sidecar/ibreeze/application/completion_handlers.py:287-297 DepartmentGate._department_report_missing] *)
Definition department_report_missing db : bool :=
  EXISTS dt IN department_tasks db, the_department_task dt &&
    negb (EXISTS a IN artifacts db, (RV.ar_company_task_id a =? TS.dt_company_task_id dt) &&
            of_type ["department_report"] a && current a).

(* [sidecar/ibreeze/application/completion_handlers.py:299-315 DepartmentGate._department_review_not_passed] *)
Definition department_review_not_passed db : bool :=
  failing_report (λ ra a, own_department_review db ra a && of_type ["department_report"] a) db.

(* [sidecar/ibreeze/application/completion_handlers.py:317-335 DepartmentGate._blocking_issues_open] *)
Definition department_issues_open db : bool := blocking_issue (own_department_review db) db.

(* [sidecar/ibreeze/application/completion_handlers.py:337-354 DepartmentGate._verification_not_passed] *)
Definition tests_not_passed db : bool :=
  EXISTS dt IN department_tasks db, EXISTS a IN artifacts db,
    the_department_task dt && (artifact_of dt a && current a && of_type ["test_case"; "test_result"] a &&
    unverified db a).

(* [sidecar/ibreeze/application/completion_handlers.py:356-364 DepartmentGate._downstream_deliverables_not_published] *)
Definition downstream_deliverables_not_published db : bool :=
  EXISTS d IN department_task_deliverables db, (de_department_task_id d =? task_id) &&
    (de_company_id d =? company_id) && (de_published_at d =?o None).

Definition run_of_company_task (task company : string) (ar : RV.ReviewRun) : bool :=
  (RV.rn_company_task_id ar =? task) && (RV.rn_company_id ar =? company).

(* [sidecar/ibreeze/application/completion_handlers.py:366-387 DepartmentGate._active_run_or_approval] *)
Definition department_active db : bool :=
  EXISTS dt IN department_tasks db, the_department_task dt &&
    busy (run_of_company_task (TS.dt_company_task_id dt) (TS.dt_company_id dt)) db.

(* [sidecar/ibreeze/application/completion_handlers.py:246-264 DepartmentGate.blockers] *)
Definition department_blockers db : list string := reasons [
  ("required_employee_tasks_not_accepted", required_employee_tasks_not_accepted db);
  ("merge_task_not_accepted", merge_task_not_accepted db);
  ("department_report_missing", department_report_missing db);
  ("department_review_not_passed", department_review_not_passed db);
  ("blocking_issues_open", department_issues_open db);
  ("verification_not_passed", tests_not_passed db);
  ("downstream_deliverables_not_published", downstream_deliverables_not_published db);
  ("active_run_or_approval", department_active db)].

(** ** The company gate *)

(* [sidecar/ibreeze/application/completion_handlers.py:411-419 CompanyGate._required_department_tasks_not_completed] *)
Definition required_department_tasks_not_completed db : bool :=
  EXISTS dt IN department_tasks db, (TS.dt_company_task_id dt =? task_id) &&
    (TS.dt_company_id dt =? company_id) && negb (TS.dt_status dt ∈? ["completed"; "cancelled"]).

(* [sidecar/ibreeze/application/completion_handlers.py:421-435 CompanyGate._department_reviews_not_passed] *)
Definition department_reviews_not_passed db : bool :=
  failing_report (λ ra a, own_company_review ra a && of_type ["department_report"] a) db.

(* [sidecar/ibreeze/application/completion_handlers.py:437-451 CompanyGate._cross_department_review_not_passed] *)
Definition cross_department_review_not_passed db : bool :=
  failing_report (λ ra a, own_company_review ra a &&
                          of_type ["consolidated_review"; "cross_department_review"] a) db.

(* [sidecar/ibreeze/application/completion_handlers.py:453-469 CompanyGate._blocking_issues_open] *)
Definition company_issues_open db : bool := blocking_issue own_company_review db.

(* [sidecar/ibreeze/application/completion_handlers.py:471-482 CompanyGate._final_report_missing] *)
Definition final_report_missing db : bool :=
  EXISTS ct IN company_tasks db, the_company_task ct &&
    negb (EXISTS a IN artifacts db, (RV.ar_company_task_id a =? TS.ct_id ct) &&
            (RV.ar_company_id a =? TS.ct_company_id ct) && of_type ["final_report"] a && current a).

(* [sidecar/ibreeze/application/completion_handlers.py:484-492 CompanyGate._ceo_confirmation_missing] *)
Definition ceo_confirmation_missing db : bool :=
  EXISTS ct IN company_tasks db, the_company_task ct && (TS.ct_ceo_confirmed_at ct =?o None).

(* [sidecar/ibreeze/application/completion_handlers.py:494-503 CompanyGate._workspace_not_ready] *)
Definition workspace_not_ready db : bool :=
  EXISTS ct IN company_tasks db, EXISTS w IN task_workspaces db,
    the_company_task ct && ((tw_company_task_id w =? TS.ct_id ct) && (tw_company_id w =? TS.ct_company_id ct) &&
    negb (tw_status w ∈? ["ready_to_apply"; "applied"; "abandoned"])).

(* [sidecar/ibreeze/application/completion_handlers.py:505-526 CompanyGate._active_run_or_approval] *)
Definition company_active db : bool :=
  EXISTS ct IN company_tasks db, the_company_task ct &&
    busy (run_of_company_task (TS.ct_id ct) (TS.ct_company_id ct)) db.

(* [sidecar/ibreeze/application/completion_handlers.py:391-409 CompanyGate.blockers] *)
Definition company_blockers db : list string := reasons [
  ("required_department_tasks_not_completed", required_department_tasks_not_completed db);
  ("department_reviews_not_passed", department_reviews_not_passed db);
  ("cross_department_review_not_passed", cross_department_review_not_passed db);
  ("blocking_issues_open", company_issues_open db);
  ("final_report_missing", final_report_missing db);
  ("ceo_confirmation_missing", ceo_confirmation_missing db);
  ("workspace_not_ready", workspace_not_ready db);
  ("active_run_or_approval", company_active db)].
End Gates.

(** ** What the gates promise *)

Section Promises.
Context (db : DB).

Definition current_artifact (task company : string) (a : RV.Artifact) : Prop :=
  a ∈ artifacts db ∧ RV.ar_company_task_id a = task ∧ RV.ar_company_id a = company ∧ RV.ar_is_current a = 1%Z.

(** A report, on the present version of the artifact, of a review nobody withdrew. *)
Definition counts (a : RV.Artifact) (ra : RV.AssignmentRow) (rr : RV.ReportRow) : Prop :=
  a ∈ artifacts db ∧ RV.ar_is_current a = 1%Z ∧
  ra ∈ review_assignments db ∧ RV.as_artifact_id ra = RV.ar_id a ∧ RV.as_status ra ∉ ["stale"; "cancelled"] ∧
  rr ∈ review_reports db ∧ RV.rp_assignment_id rr = RV.as_id ra ∧
  RV.rp_reviewed_sha256 rr = RV.ar_object_sha256 a.

Definition all_pass (on : RV.AssignmentRow → RV.Artifact → Prop) : Prop := ∀ a ra rr,
  counts a ra rr → on ra a → RV.rp_verdict rr = "pass".

Definition none_blocking (on : RV.AssignmentRow → RV.Artifact → Prop) : Prop := ∀ a ra rr ri,
  counts a ra rr → on ra a → ri ∈ review_issues db → RV.is_review_report_id ri = RV.rp_id rr →
  RV.is_severity ri ∈ ["blocker"; "high"] →
  RV.is_status ri ∈ ["closed"; "rejected"] ∨ RV.is_superseded_by ri ≠ None.

Definition verified (a : RV.Artifact) : Prop := ∃ v, v ∈ verifications db ∧
  ve_artifact_id v = RV.ar_id a ∧ ve_company_id v = RV.ar_company_id a ∧ ve_status v = "passed".

(** No run waits or works, and nothing is left to be approved or carried out. *)
Definition quiet (mine : RV.ReviewRun → Prop) : Prop := ∀ ar, ar ∈ agent_runs db → mine ar →
  RV.rn_status ar ∉ ["queued"; "running"] ∧
  ∀ ha, ha ∈ human_approvals db → ha_run_id ha = RV.rn_id ar → ha_company_id ha = RV.rn_company_id ar →
    ha_status ha ∉ ["pending"; "allowed"].

Record employee_ready (et : TS.EmployeeTask) (dt : TS.DepartmentTask) : Prop := {
  er_artifact : ∃ a, current_artifact (TS.dt_company_task_id dt) (TS.dt_company_id dt) a;
  er_contributor : ∃ a ac, current_artifact (TS.dt_company_task_id dt) (TS.dt_company_id dt) a ∧
    ac ∈ RV.artifact_contributors (reviews db) ∧ ac.1.1 = RV.ar_id a ∧ ac.2 = TS.et_employee_id et;
  er_verified a : current_artifact (TS.dt_company_task_id dt) (TS.dt_company_id dt) a → verified a;
  er_submitted a ra : current_artifact (TS.dt_company_task_id dt) (TS.dt_company_id dt) a →
    ra ∈ review_assignments db → RV.as_artifact_id ra = RV.ar_id a →
    RV.as_reviewed_sha256 ra = RV.ar_object_sha256 a →
    RV.as_status ra ∈ ["submitted"; "stale"; "cancelled"];
  er_passed : all_pass (λ _, current_artifact (TS.dt_company_task_id dt) (TS.dt_company_id dt));
  er_unblocked : none_blocking (λ _, current_artifact (TS.dt_company_task_id dt) (TS.dt_company_id dt));
  er_report : ∃ a, current_artifact (TS.dt_company_task_id dt) (TS.dt_company_id dt) a ∧
    RV.ar_artifact_type a = "execution_report";
  er_quiet : quiet (λ ar, RV.rn_employee_task_id ar = Some (TS.et_id et) ∧
                          RV.rn_company_id ar = TS.et_company_id et) }.

Record department_ready (dt : TS.DepartmentTask) : Prop := {
  dr_accepted et : et ∈ employee_tasks db → TS.et_department_task_id et = TS.dt_id dt →
    TS.et_company_id et = TS.dt_company_id dt → TS.et_status et ∈ ["accepted"; "cancelled"];
  dr_merged et : et ∈ employee_tasks db → TS.et_department_task_id et = TS.dt_id dt →
    TS.et_company_id et = TS.dt_company_id dt → TS.et_task_kind et = "merge" → TS.et_status et = "accepted";
  dr_report : ∃ a, a ∈ artifacts db ∧ RV.ar_company_task_id a = TS.dt_company_task_id dt ∧
    RV.ar_artifact_type a = "department_report" ∧ RV.ar_is_current a = 1%Z;
  dr_passed : all_pass (λ ra a, RV.ar_company_id a = RV.as_company_id ra ∧
    current_artifact (TS.dt_company_task_id dt) (TS.dt_company_id dt) a ∧
    RV.ar_artifact_type a = "department_report");
  dr_unblocked : none_blocking (λ ra a, RV.ar_company_id a = RV.as_company_id ra ∧
    current_artifact (TS.dt_company_task_id dt) (TS.dt_company_id dt) a);
  dr_tested a : current_artifact (TS.dt_company_task_id dt) (TS.dt_company_id dt) a →
    RV.ar_artifact_type a ∈ ["test_case"; "test_result"] → verified a;
  dr_published d : d ∈ department_task_deliverables db → de_department_task_id d = TS.dt_id dt →
    de_company_id d = TS.dt_company_id dt → de_published_at d ≠ None;
  dr_quiet : quiet (λ ar, RV.rn_company_task_id ar = TS.dt_company_task_id dt ∧
                          RV.rn_company_id ar = TS.dt_company_id dt) }.

Record company_ready (ct : TS.CompanyTask) : Prop := {
  cr_completed dt : dt ∈ department_tasks db → TS.dt_company_task_id dt = TS.ct_id ct →
    TS.dt_company_id dt = TS.ct_company_id ct → TS.dt_status dt ∈ ["completed"; "cancelled"];
  cr_passed : all_pass (λ _ a, current_artifact (TS.ct_id ct) (TS.ct_company_id ct) a ∧
    RV.ar_artifact_type a ∈ ["department_report"; "consolidated_review"; "cross_department_review"]);
  cr_unblocked : none_blocking (λ _, current_artifact (TS.ct_id ct) (TS.ct_company_id ct));
  cr_report : ∃ a, current_artifact (TS.ct_id ct) (TS.ct_company_id ct) a ∧
    RV.ar_artifact_type a = "final_report";
  cr_confirmed : TS.ct_ceo_confirmed_at ct ≠ None;
  cr_workspace w : w ∈ task_workspaces db → tw_company_task_id w = TS.ct_id ct →
    tw_company_id w = TS.ct_company_id ct → tw_status w ∈ ["ready_to_apply"; "applied"; "abandoned"];
  cr_quiet : quiet (λ ar, RV.rn_company_task_id ar = TS.ct_id ct ∧ RV.rn_company_id ar = TS.ct_company_id ct) }.

(** ** The conditions, one by one *)

Lemma reasons_nil l : reasons l = [] ↔ Forall (λ x : string * bool, x.2 = false) l.
Proof.
  unfold reasons. induction l as [|[n b] l IH]; simpl; [by split|].
  rewrite Forall_cons, <-IH. simpl. destruct b; simpl; naive_solver.
Qed.

Lemma failing_report_iff on :
  failing_report on db = false ↔ all_pass (λ ra a, on ra a = true).
Proof.
  unfold failing_report, all_pass, counts. setoid_rewrite existsb_none. setoid_rewrite existsb_none.
  setoid_rewrite existsb_none. split.
  - intros H a ra rr (Ha & Hc & Hra & Haa & Hst & Hrr & Hrp & Hsha) Hon.
    specialize (H rr Hrr ra Hra a Ha). unfold current, withdrawn in H.
    rewrite Hrp, Haa, Hon, Hc, Hsha, !String.eqb_refl in H. apply not_elem_of_mem in Hst.
    rewrite Hst in H. simpl in H. by apply negb_false_iff, String.eqb_eq in H.
  - intros H rr Hrr ra Hra a Ha. apply not_true_iff_false. unfold current, withdrawn. intros Hb. bools.
    assert (RV.rp_verdict rr = "pass"); [|congruence].
    apply (H a ra rr); [|done]. split_and!; try done. by apply Z.eqb_eq.
Qed.

Lemma blocking_issue_iff on :
  blocking_issue on db = false ↔ none_blocking (λ ra a, on ra a = true).
Proof.
  unfold blocking_issue, none_blocking, counts. setoid_rewrite existsb_none. setoid_rewrite existsb_none.
  setoid_rewrite existsb_none. setoid_rewrite existsb_none. split.
  - intros H a ra rr ri (Ha & Hc & Hra & Haa & Hst & Hrr & Hrp & Hsha) Hon Hri Hir Hsev.
    specialize (H ri Hri rr Hrr ra Hra a Ha). unfold current, withdrawn in H.
    rewrite Hrp, Haa, Hon, Hc, Hsha, Hir, !String.eqb_refl in H. apply not_elem_of_mem in Hst.
    apply elem_of_mem in Hsev. rewrite Hst, Hsev in H. simpl in H.
    apply andb_false_iff in H as [H|H]; [left|right]; [by bools|]. by apply bool_decide_eq_false in H.
  - intros H ri Hri rr Hrr ra Hra a Ha. apply not_true_iff_false. unfold current, withdrawn. intros Hb. bools.
    destruct (H a ra rr ri) as [?|?]; try done. split_and!; try done. by apply Z.eqb_eq.
Qed.

Lemma busy_iff mine : busy mine db = false ↔ quiet (λ ar, mine ar = true).
Proof.
  unfold busy, quiet. rewrite orb_false_iff, !existsb_none. setoid_rewrite existsb_none. split.
  - intros [H1 H2] ar Har Hm. specialize (H1 ar Har). rewrite Hm in H1. simpl in H1. split; [by bools|].
    intros ha Hha Hr Hc. specialize (H2 ar Har ha Hha). rewrite Hm, Hr, Hc, !String.eqb_refl in H2.
    simpl in H2. by bools.
  - intros H. split.
    + intros ar Har. apply not_true_iff_false. intros Hb. bools. by destruct (H ar Har) as [? _].
    + intros ar Har ha Hha. apply not_true_iff_false. intros Hb. bools.
      destruct (H ar Har) as [_ Hq]; [done|]. by apply (Hq ha).
Qed.

Lemma unverified_iff a : unverified db a = false ↔ verified a.
Proof.
  unfold unverified, verified. rewrite negb_false_iff, existsb_elem. split; intros (v & Hv & H); exists v.
  - by bools.
  - destruct H as (-> & -> & ->). by rewrite !String.eqb_refl.
Qed.
End Promises.

Section Employee.
Context (db : DB) (et : TS.EmployeeTask) (dt : TS.DepartmentTask).
Hypothesis Hok : tasks_ok db.
Hypothesis Het : et ∈ employee_tasks db.
Hypothesis Hdt : dt ∈ department_tasks db.
Hypothesis Hparent : parent_of et dt = true.

Local Notation task := (TS.et_id et).
Local Notation company := (TS.et_company_id et).

Lemma employee_clash a b :
  the_employee_task task company a = true → the_employee_task task company b = true → clash a b = true.
Proof. unfold the_employee_task. simpl. intros. bools. apply String.eqb_eq. congruence. Qed.

Lemma parent_clash e a b : parent_of e a = true → parent_of e b = true → clash a b = true.
Proof. unfold parent_of. simpl. intros. bools. apply orb_true_iff. left. apply String.eqb_eq. congruence. Qed.

Lemma the_employee : the_employee_task task company et = true.
Proof. unfold the_employee_task. by rewrite !String.eqb_refl. Qed.

Lemma employee_join (X : TS.EmployeeTask → TS.DepartmentTask → bool) :
  (EXISTS et' IN employee_tasks db, EXISTS dt' IN department_tasks db,
     the_employee_task task company et' && parent_of et' dt' && X et' dt') = X et dt.
Proof.
  erewrite existsb_ext; [|intros x _; erewrite existsb_ext; [apply existsb_and|]; intros y _; symmetry; apply andb_assoc].
  pose proof (table_no_clash (R := TS.EmployeeTask) db (ok_employee _ Hok)) as He.
  pose proof (table_no_clash (R := TS.DepartmentTask) db (ok_department _ Hok)) as Hd.
  etrans; [apply (exists_key _ _ _ et He employee_clash Het the_employee)|].
  apply (exists_key _ _ _ dt Hd (parent_clash et) Hdt Hparent).
Qed.

Lemma employee_join_list {A} (l : list A) (X : TS.EmployeeTask → TS.DepartmentTask → A → bool) :
  (EXISTS et' IN employee_tasks db, EXISTS dt' IN department_tasks db, EXISTS a IN l,
     the_employee_task task company et' && parent_of et' dt' && X et' dt' a) = existsb (X et dt) l.
Proof.
  rewrite <-(employee_join (λ e d, existsb (X e d) l)).
  apply existsb_ext. intros e _. apply existsb_ext. intros d _. apply existsb_and.
Qed.

Lemma own_employee_iff ra a : a ∈ artifacts db → RV.ar_is_current a = 1%Z →
  own_employee_review task company db ra a = true ↔
  current_artifact db (TS.dt_company_task_id dt) (TS.dt_company_id dt) a.
Proof.
  intros Ha Hc. unfold own_employee_review.
  assert ((EXISTS dt' IN department_tasks db, EXISTS et' IN employee_tasks db,
      the_employee_task task company et' && parent_of et' dt' && artifact_of dt' a) = artifact_of dt a) as ->.
  { apply eq_true_iff_eq. rewrite <-(employee_join (λ _ d, artifact_of d a)).
    setoid_rewrite existsb_elem. setoid_rewrite existsb_elem. naive_solver. }
  unfold artifact_of, current_artifact. split; intros H; [by bools|].
  destruct H as (_ & -> & -> & _). by rewrite !String.eqb_refl.
Qed.

Lemma artifact_current a : a ∈ artifacts db →
  artifact_of dt a && current a = true ↔
  current_artifact db (TS.dt_company_task_id dt) (TS.dt_company_id dt) a.
Proof.
  unfold artifact_of, current, current_artifact. rewrite !andb_true_iff, !String.eqb_eq, Z.eqb_eq. naive_solver.
Qed.

Lemma all_pass_ext on on' :
  (∀ ra a, a ∈ artifacts db → RV.ar_is_current a = 1%Z → on ra a ↔ on' ra a) →
  all_pass db on ↔ all_pass db on'.
Proof.
  intros H. unfold all_pass. split; intros Hp a ra rr (Ha & Hc & Hr) Hon; apply (Hp a ra rr); try done;
    by apply H.
Qed.

Lemma none_blocking_ext on on' :
  (∀ ra a, a ∈ artifacts db → RV.ar_is_current a = 1%Z → on ra a ↔ on' ra a) →
  none_blocking db on ↔ none_blocking db on'.
Proof.
  intros H. unfold none_blocking. split; intros Hp a ra rr ri (Ha & Hc & Hr) Hon; apply (Hp a ra rr ri); try done;
    by apply H.
Qed.

Lemma quiet_ext mine mine' : (∀ ar, mine ar ↔ mine' ar) → quiet db mine ↔ quiet db mine'.
Proof. intros H. unfold quiet. by setoid_rewrite H. Qed.

Lemma sql_eq_some o s : sql_eq o (Some s) = true ↔ o = Some s.
Proof. destruct o; simpl; [|done]. rewrite String.eqb_eq. naive_solver. Qed.

Lemma parent_company : TS.dt_company_id dt = company.
Proof. unfold parent_of in Hparent. by bools. Qed.

Lemma employee_gate_iff : employee_blockers task company db = [] ↔ employee_ready db et dt.
Proof.
  unfold employee_blockers. rewrite reasons_nil, !Forall_cons, Forall_nil. cbn [snd].
  unfold missing_required_artifact, employee_not_contributor, verification_not_passed, review_not_submitted,
    review_not_passed, blocking_issue_open, execution_report_missing, employee_active.
  rewrite !employee_join_list, !employee_join, !negb_false_iff, failing_report_iff, blocking_issue_iff, busy_iff.
  rewrite (all_pass_ext _ _ own_employee_iff), (none_blocking_ext _ _ own_employee_iff).
  rewrite !existsb_elem, !existsb_none. setoid_rewrite existsb_none. setoid_rewrite existsb_elem.
  rewrite (quiet_ext _ (λ ar, RV.rn_employee_task_id ar = Some (TS.et_id et) ∧
                              RV.rn_company_id ar = TS.et_company_id et)).
  2: { intros ar. unfold run_of_employee_task. by rewrite andb_true_iff, sql_eq_some, String.eqb_eq. }
  assert ((∃ x, x ∈ artifacts db ∧ artifact_of dt x && current x = true) ↔
    ∃ a, current_artifact db (TS.dt_company_task_id dt) (TS.dt_company_id dt) a) as ->.
  { split; [intros (a & Ha & H)|intros (a & H)]; exists a; [by apply artifact_current|].
    pose proof H as [Ha _]. split; [done|]. by apply artifact_current. }
  split.
  - intros (H1 & H2 & H3 & H4 & H5 & H6 & H7 & H8 & _). split; try done.
    + destruct H2 as ([[i c] e] & Hac & a & Ha & Hb). exists a, (i, c, e). bools. cbn in *.
      split_and!; try done. unfold current_artifact. rewrite parent_company.
      split_and!; try done. by apply Z.eqb_eq.
    + intros a Ha. pose proof Ha as [Hin _]. apply unverified_iff. specialize (H3 a Hin).
      apply artifact_current in Ha; [|done]. by rewrite Ha in H3.
    + intros a ra Ha Hra Haa Hsha. pose proof Ha as (Hin & _ & _ & Hc). specialize (H4 ra Hra a Hin).
      apply own_employee_iff with (ra := ra) in Ha; [|done..]. unfold current in H4.
      rewrite Haa, Hsha, Ha, Hc, !String.eqb_refl in H4. simpl in H4. by bools.
    + destruct H7 as (a & Ha & Hb). exists a. apply andb_true_iff in Hb as [Hb Hc].
      apply andb_true_iff in Hb as [Hb Ht]. split; [by apply artifact_current; [|rewrite Hb]|].
      unfold of_type in Ht. bools. by apply list_elem_of_singleton.
  - intros [H1 (a2 & ac & Ha2 & Hac & E1 & E2) H3 H4 H5 H6 (a7 & Ha7 & Ht7) H8].
    split_and!; try done.
    + exists ac. split; [done|]. exists a2. destruct Ha2 as (Hin & Ht & Hc & Hcur). split; [done|].
      unfold current. rewrite E1, E2, Ht, Hc, Hcur, parent_company, !String.eqb_refl. done.
    + intros a Ha. destruct (artifact_of dt a && current a) eqn:E; simpl; [|done].
      apply artifact_current in E; [|done]. by apply unverified_iff, H3.
    + intros ra Hra a Ha. apply not_true_iff_false. intros Hb. andbs.
      match goal with H : negb _ = true |- _ => apply negb_true_iff in H; apply bool_decide_eq_false in H; apply H end.
      apply (H4 a ra); try done; [|by bools..].
      eapply own_employee_iff; [done| |done]. by apply Z.eqb_eq.
    + exists a7. pose proof Ha7 as [Hin _]. split; [done|]. apply artifact_current in Ha7; [|done].
      apply andb_true_iff in Ha7 as [-> ->]. unfold of_type. rewrite Ht7. done.
Qed.
End Employee.

Section Department.
Context (db : DB) (dt : TS.DepartmentTask).
Hypothesis Hok : tasks_ok db.
Hypothesis Hdt : dt ∈ department_tasks db.

Local Notation task := (TS.dt_id dt).
Local Notation company := (TS.dt_company_id dt).

Lemma department_join (X : TS.DepartmentTask → bool) :
  (EXISTS dt' IN department_tasks db, the_department_task task company dt' && X dt') = X dt.
Proof.
  pose proof (table_no_clash (R := TS.DepartmentTask) db (ok_department _ Hok)) as Hd.
  apply (exists_key _ _ _ dt Hd); [|done|by unfold the_department_task; rewrite !String.eqb_refl].
  intros a b Ha Hb. unfold the_department_task in *. bools. simpl. apply orb_true_iff. left.
  apply String.eqb_eq. congruence.
Qed.

Lemma department_join_list {A} (l : list A) (X : TS.DepartmentTask → A → bool) :
  (EXISTS dt' IN department_tasks db, EXISTS a IN l, the_department_task task company dt' && X dt' a) =
  existsb (X dt) l.
Proof. rewrite <-(department_join (λ d, existsb (X d) l)). apply existsb_ext. intros d _. apply existsb_and. Qed.

Lemma own_department_iff ra a : a ∈ artifacts db → RV.ar_is_current a = 1%Z →
  own_department_review task company db ra a = true ↔
  RV.ar_company_id a = RV.as_company_id ra ∧
  current_artifact db (TS.dt_company_task_id dt) (TS.dt_company_id dt) a.
Proof.
  intros Ha Hc. unfold own_department_review. rewrite department_join.
  unfold artifact_of, current_artifact. rewrite !andb_true_iff, !String.eqb_eq. naive_solver.
Qed.

Lemma department_gate_iff : department_blockers task company db = [] ↔ department_ready db dt.
Proof.
  unfold department_blockers. rewrite reasons_nil, !Forall_cons, Forall_nil. cbn [snd].
  unfold required_employee_tasks_not_accepted, merge_task_not_accepted, department_report_missing,
    department_review_not_passed, department_issues_open, tests_not_passed,
    downstream_deliverables_not_published, department_active.
  rewrite !department_join_list, !department_join, !negb_false_iff, failing_report_iff, blocking_issue_iff, busy_iff.
  rewrite (none_blocking_ext _ _ _ own_department_iff), !existsb_elem, !existsb_none.
  rewrite (all_pass_ext _ _ (λ ra a, RV.ar_company_id a = RV.as_company_id ra ∧
    current_artifact db (TS.dt_company_task_id dt) (TS.dt_company_id dt) a ∧
    RV.ar_artifact_type a = "department_report")).
  2: { intros ra a Ha Hc. unfold of_type. rewrite andb_true_iff, own_department_iff by done.
       unfold mem. rewrite bool_decide_eq_true, list_elem_of_singleton. tauto. }
  rewrite (quiet_ext _ _ (λ ar, RV.rn_company_task_id ar = TS.dt_company_task_id dt ∧
                                RV.rn_company_id ar = TS.dt_company_id dt)).
  2: { intros ar. unfold run_of_company_task. by rewrite andb_true_iff, !String.eqb_eq. }
  split.
  - intros (H1 & H2 & H3 & H4 & H5 & H6 & H7 & H8 & _). split; try done.
    + intros et He Hp Hc. specialize (H1 et He). rewrite Hp, Hc, !String.eqb_refl in H1. simpl in H1. by bools.
    + intros et He Hp Hc Hm. specialize (H2 et He). rewrite Hp, Hc, Hm, !String.eqb_refl in H2. simpl in H2. by bools.
    + destruct H3 as (a & Ha & Hb). exists a. unfold of_type, current in Hb.
      apply andb_true_iff in Hb as [Hb Hc]. apply Z.eqb_eq in Hc. bools.
      split_and!; try done. by apply list_elem_of_singleton.
    + intros a (Ha & Ht & Hc & Hcur) Hty. apply unverified_iff. specialize (H6 a Ha). unfold artifact_of, of_type, current in H6.
      apply elem_of_mem in Hty. rewrite Ht, Hc, Hcur, Hty, !String.eqb_refl in H6. done.
    + intros d Hd Hp Hc. specialize (H7 d Hd). rewrite Hp, Hc, !String.eqb_refl in H7. simpl in H7. by bools.
  - intros [H1 H2 (a3 & Ha3 & Ht3 & Hy3 & Hc3) H4 H5 H6 H7 H8]. split_and!; try done.
    + intros et He. apply not_true_iff_false. intros Hb. bools. match goal with H : TS.et_status _ ∉ _ |- _ => by apply H, H1 end.
    + intros et He. apply not_true_iff_false. intros Hb. bools.
      match goal with H : TS.et_status et ≠ _ |- _ => by apply H, H2 end.
    + exists a3. split; [done|]. unfold of_type, current. by rewrite Ht3, Hy3, Hc3, String.eqb_refl.
    + intros a Ha. apply not_true_iff_false. intros Hb. apply andb_true_iff in Hb as [Hb Hu].
      apply andb_true_iff in Hb as [Hb Hty]. unfold of_type, artifact_of, current in *. andbs.
      apply not_false_iff_true in Hu. apply Hu, unverified_iff, H6; [|by bools].
      split_and!; [done|by apply String.eqb_eq..|by apply Z.eqb_eq].
    + intros d Hd. apply not_true_iff_false. intros Hb. bools. by apply (H7 d).
Qed.
End Department.

Section Company.
Context (db : DB) (ct : TS.CompanyTask).
Hypothesis Hok : tasks_ok db.
Hypothesis Hct : ct ∈ company_tasks db.

Local Notation task := (TS.ct_id ct).
Local Notation company := (TS.ct_company_id ct).

Lemma company_join (X : TS.CompanyTask → bool) :
  (EXISTS ct' IN company_tasks db, the_company_task task company ct' && X ct') = X ct.
Proof.
  pose proof (table_no_clash (R := TS.CompanyTask) db (ok_company _ Hok)) as Hd.
  apply (exists_key _ _ _ ct Hd); [|done|by unfold the_company_task; rewrite !String.eqb_refl].
  intros a b Ha Hb. unfold the_company_task in *. bools. simpl. apply String.eqb_eq. congruence.
Qed.

Lemma company_join_list {A} (l : list A) (X : TS.CompanyTask → A → bool) :
  (EXISTS ct' IN company_tasks db, EXISTS a IN l, the_company_task task company ct' && X ct' a) =
  existsb (X ct) l.
Proof. rewrite <-(company_join (λ d, existsb (X d) l)). apply existsb_ext. intros d _. apply existsb_and. Qed.

Lemma own_company_iff (types : list string) ra a : a ∈ artifacts db → RV.ar_is_current a = 1%Z →
  own_company_review task company ra a && of_type types a = true ↔
  current_artifact db task company a ∧ RV.ar_artifact_type a ∈ types.
Proof.
  intros Ha Hc. unfold own_company_review, of_type, mem, current_artifact.
  rewrite !andb_true_iff, !String.eqb_eq, bool_decide_eq_true. naive_solver.
Qed.

Lemma all_pass_types (l1 l2 : list string) :
  all_pass db (λ _ a, current_artifact db task company a ∧ RV.ar_artifact_type a ∈ l1) ∧
  all_pass db (λ _ a, current_artifact db task company a ∧ RV.ar_artifact_type a ∈ l2) ↔
  all_pass db (λ _ a, current_artifact db task company a ∧ RV.ar_artifact_type a ∈ l1 ++ l2).
Proof.
  unfold all_pass. split.
  - intros [H1 H2] a ra rr Hc [Ha [Ht|Ht]%elem_of_app]; [by apply (H1 a ra rr)|by apply (H2 a ra rr)].
  - intros H. split; intros a ra rr Hc [Ha Ht]; apply (H a ra rr); try done; split; try done; set_solver.
Qed.

Lemma company_gate_iff : company_blockers task company db = [] ↔ company_ready db ct.
Proof.
  unfold company_blockers. rewrite reasons_nil, !Forall_cons, Forall_nil. cbn [snd].
  unfold required_department_tasks_not_completed, department_reviews_not_passed,
    cross_department_review_not_passed, company_issues_open, final_report_missing,
    ceo_confirmation_missing, workspace_not_ready, company_active.
  rewrite company_join_list, !company_join, negb_false_iff, !failing_report_iff, blocking_issue_iff, busy_iff.
  rewrite (all_pass_ext _ _ _ (own_company_iff ["department_report"])),
    (all_pass_ext _ _ _ (own_company_iff ["consolidated_review"; "cross_department_review"])).
  rewrite (none_blocking_ext _ _ (λ _ a, current_artifact db task company a)).
  2: { intros ra a Ha Hc. unfold own_company_review, current_artifact. rewrite andb_true_iff, !String.eqb_eq. naive_solver. }
  rewrite (quiet_ext _ _ (λ ar, RV.rn_company_task_id ar = task ∧ RV.rn_company_id ar = company)).
  2: { intros ar. unfold run_of_company_task. by rewrite andb_true_iff, !String.eqb_eq. }
  rewrite existsb_elem, !existsb_none. split.
  - intros (H1 & H2 & H3 & H4 & H5 & H6 & H7 & H8 & _). split; try done.
    + intros dt Hd Hp Hc. specialize (H1 dt Hd). rewrite Hp, Hc, !String.eqb_refl in H1. simpl in H1. by bools.
    + by apply (all_pass_types ["department_report"] ["consolidated_review"; "cross_department_review"]).
    + destruct H5 as (a & Ha & Hb). exists a. unfold of_type, current in Hb.
      apply andb_true_iff in Hb as [Hb Hc]. apply Z.eqb_eq in Hc. bools.
      split; [done|]. by apply list_elem_of_singleton.
    + by apply bool_decide_eq_false in H6.
    + intros w Hw Hp Hc. specialize (H7 w Hw). rewrite Hp, Hc, !String.eqb_refl in H7. simpl in H7. by bools.
  - intros [H1 H2 H3 (a & Ha & Hty) H5 H6 H7].
    apply (all_pass_types ["department_report"] ["consolidated_review"; "cross_department_review"]) in H2 as [H2 H2'].
    split_and!; try done.
    + intros dt Hd. apply not_true_iff_false. intros Hb. bools. match goal with H : TS.dt_status _ ∉ _ |- _ => by apply H, H1 end.
    + destruct Ha as (Ha & Ht & Hc & Hcur). exists a. split; [done|]. unfold of_type, current.
      by rewrite Ht, Hty, Hc, Hcur, !String.eqb_refl.
    + by apply bool_decide_eq_false.
    + intros w Hw. apply not_true_iff_false. intros Hb. bools. match goal with H : tw_status _ ∉ _ |- _ => by apply H, H6 end.
Qed.
End Company.

(** The gates say what they promise.  An employee task has no blockers exactly when its
    company task has a current artifact, one the employee contributed to and an execution
    report, all its current artifacts are verified, every review of one that nobody withdrew is
    submitted and passes without an open blocker or high issue, and no run or approval of
    the task is under way; likewise for a department task, with its employee tasks
    accepted or cancelled, and for a company task, with its department tasks completed or
    cancelled. *)
Lemma gates_correct db : tasks_ok db →
  (∀ et dt, et ∈ employee_tasks db → dt ∈ department_tasks db → parent_of et dt = true →
     employee_blockers (TS.et_id et) (TS.et_company_id et) db = [] ↔ employee_ready db et dt) ∧
  (∀ dt, dt ∈ department_tasks db →
     department_blockers (TS.dt_id dt) (TS.dt_company_id dt) db = [] ↔ department_ready db dt) ∧
  (∀ ct, ct ∈ company_tasks db →
     company_blockers (TS.ct_id ct) (TS.ct_company_id ct) db = [] ↔ company_ready db ct).
Proof.
  intros Hok. split; [|split].
  - intros et dt. by apply employee_gate_iff.
  - intros dt. by apply department_gate_iff.
  - intros ct. by apply company_gate_iff.
Qed.

Lemma gates_correct_witness :
  let ready := Demo.db Demo.all_artifacts "submitted" "executing" "executing" in
  let bare := Demo.db [] "submitted" "executing" "executing" in
  employee_ready ready (Demo.employee_task "submitted") (Demo.department_task "executing") ∧
  employee_blockers "et" "co" bare =
    ["missing_required_artifact"; "employee_not_contributor"; "execution_report_missing"] ∧
  ¬ company_ready bare (Demo.company_task "executing").
Proof.
  intros ready bare. split; [|split; [by vm_compute|]].
  - apply (gates_correct ready); [by apply Demo.db_ok|by left..|done|by vm_compute].
  - intros H%(gates_correct bare); [by vm_compute in H|by apply Demo.db_ok|by left].
Defined.

(** No artifact the schema admits is a cross-department review, so that condition of the
    company gate never blocks. *)
Lemma cross_department_review_dead task company db :
  (∀ a, a ∈ artifacts db → RV.ar_artifact_type a ∈ schema_artifact_types) →
  cross_department_review_not_passed task company db = false.
Proof.
  intros Hall. apply failing_report_iff. intros a ra rr (Ha & _) Hon. exfalso.
  unfold of_type in Hon. andbs. specialize (Hall a Ha).
  assert (forallb (λ t, negb (t ∈? ["consolidated_review"; "cross_department_review"])) schema_artifact_types = true)
    as Hno by reflexivity.
  rewrite forallb_forall in Hno. apply list_elem_of_In, Hno, negb_true_iff in Hall. congruence.
Qed.
