(* ===== verification/Completion.v ===== *)
(** * Completion commands ([application/completion_handlers.py])

    The five handlers that move a task towards its end: start, submit and accept an
    employee task, complete a department task, complete a company task.  Each is the
    command its handler gives to the unit of work.

    The theorems: what every handler does on every outcome; a task is accepted or
    completed only when its gate is open; a task below a completed one has ended, whatever
    handlers run; and acceptance looks neither at the status of the task nor at the version
    the caller expects. *)

From S2P Require Import Prelude PyStr Sql UnitOfWork Zoom WorkStore Gates.
From S2P Require Import PyOrder.
From S2P Require RoutingStore.
From S2P Require Outcomes.
From S2P Require ReviewHandlers.

(** ** domain/tasks/commands.py *)

(* [sidecar/ibreeze/domain/tasks/commands.py:7-11 AcceptEmployeeTask] *)
Record AcceptEmployeeTask := {
  ae_company_id : string;
  ae_task_id : string;
  ae_expected_version : Z }.

(* [sidecar/ibreeze/domain/tasks/commands.py:14-19 SubmitEmployeeTask] *)
Record SubmitEmployeeTask := {
  se_company_id : string;
  se_task_id : string;
  se_run_id : string;
  se_expected_version : Z }.

(* [sidecar/ibreeze/domain/tasks/commands.py:22-26 StartEmployeeTask] *)
Record StartEmployeeTask := {
  ss_company_id : string;
  ss_task_id : string;
  ss_expected_version : Z }.

(* [sidecar/ibreeze/domain/tasks/commands.py:29-33 CompleteDepartmentTask] *)
Record CompleteDepartmentTask := {
  cd_company_id : string;
  cd_task_id : string;
  cd_expected_version : Z }.

(* [sidecar/ibreeze/domain/tasks/commands.py:36-40 CompleteCompanyTask] *)
Record CompleteCompanyTask := {
  cc_company_id : string;
  cc_task_id : string;
  cc_expected_version : Z }.

(** [routing_now] is the clock reading of the routing repository. *)
Section Handlers.
Context (env : Ambient) (routing_now : string).

(** Draws 0 for the event and 1 for its trace. *)
(* [sidecar/ibreeze/application/completion_handlers.py:31-50 _event] *)
Definition _event (etype atype task company : string) (version : Z) (from_state to_state : string)
    : DomainEventRecord := {|
  event_id := uuid4 env 0; event_type := etype; aggregate_type := atype; aggregate_id := task;
  aggregate_version := version; company_id := Some company;
  payload_json := sorted_obj [
    ("company_id", JStr company); ("aggregate_id", JStr task); ("version", JInt version);
    ("from_state", JStr from_state); ("to_state", JStr to_state)];
  trace_id := uuid4 env 1 |}.

(** Its payload argument is not used. *)
(* [sidecar/ibreeze/application/completion_handlers.py:53-54 _outbox] *)
Definition _outbox (tp : string) (event : DomainEventRecord) : OutboxRecord := {|
  topic := tp; outbox_payload := payload_json event; domain_event_id := Some (event_id event) |}.

(** The decisions of the runs [mine] selects, the latest first. *)
Definition decisions (mine : RV.ReviewRun → bool) (company : string) (db : DB) : list RV.RS.Decision :=
  sort_by ReviewHandlers.later_decision
    (List.filter (λ d, (RV.RS.rd_company_id d =? company) &&
       EXISTS ar IN agent_runs db, (RV.rn_id ar =? RV.RS.rd_run_id d) &&
         (RV.rn_company_id ar =? RV.RS.rd_company_id d) && mine ar)
      (RV.RS.route_decisions (RV.routing (reviews db)))).

(** [mine] compares the task column of a run, which the callers choose. *)
(* [sidecar/ibreeze/application/completion_handlers.py:57-84 _project_task_outcome] *)
Definition _project_task_outcome (company task : string) (mine : RV.ReviewRun → bool) : tx DB unit :=
  row ← gets (λ db, head (decisions mine company db));
  match row with
  | None => mret tt
  | Some d =>
      zoom (RV.on_routing (Outcomes.append routing_now (RV.RS.rd_id d) company "task_terminal" task
              "task_succeeded" false));;
      mret tt
  end.

(** [",".join(blockers)] *)
Definition gate_blocked (blockers : list string) : exn :=
  ValueError ("COMPLETION_GATE_BLOCKED:" +:+ String.concat "," blockers).

Definition id_status (task status : string) : Response :=
  RJson (JObj [("id", JStr task); ("status", JStr status)]).

(** *** Employee tasks *)

Definition set_employee (status : string) (updated_at : option string) (t : TS.EmployeeTask) : TS.EmployeeTask := {|
  TS.et_id := TS.et_id t; TS.et_company_id := TS.et_company_id t;
  TS.et_department_task_id := TS.et_department_task_id t; TS.et_employee_id := TS.et_employee_id t;
  TS.et_task_kind := TS.et_task_kind t; TS.et_objective := TS.et_objective t;
  TS.et_acceptance_criteria_json := TS.et_acceptance_criteria_json t; TS.et_status := status;
  TS.et_resume_state := TS.et_resume_state t; TS.et_created_at := TS.et_created_at t;
  TS.et_updated_at := default (TS.et_updated_at t) updated_at; TS.et_version := TS.et_version t + 1 |}.

(* [sidecar/ibreeze/application/completion_handlers.py:590-599 AcceptEmployeeTaskHandler._lock_task] *)
Definition lock_employee (task company : string) : tx DB TS.EmployeeTask :=
  row ← select_one (the_employee_task task company);
  found row (ValueError "RESOURCE_NOT_FOUND").

Definition employee_changed (task company : string) (version : Z) (from_state to_state : string)
    (more : list (string * json)) : CommandResult :=
  let event := _event "employee_task.status_changed" "employee_task" task company version from_state to_state in
  {| response := id_status task to_state; events := [event];
     outbox := _outbox "employee_task.status_changed" event ::
       match more with
       | [] => []
       | _ => [{| topic := "employee_task.graph_advance"; outbox_payload := sorted_obj more;
                  domain_event_id := Some (event_id event) |}]
       end |}.

(* [sidecar/ibreeze/application/completion_handlers.py:529-588 AcceptEmployeeTaskHandler.handle] *)
Definition accept_employee_task (request : AcceptEmployeeTask) : tx DB CommandResult :=
  let task_id := ae_task_id request in
  let company := ae_company_id request in
  task ← lock_employee task_id company;
  blockers ← gets (employee_blockers task_id company);
  check (Nat.eqb (length blockers) 0) (gate_blocked blockers);;
  rowcount ← update (λ t, the_employee_task task_id company t && (TS.et_version t =? TS.et_version task)%Z)
    (set_employee "accepted" None);
  check (rowcount =? 1)%Z (ValueError "OPTIMISTIC_LOCK_CONFLICT");;
  mret (employee_changed task_id company (TS.et_version task + 1) (TS.et_status task) "accepted" [
    ("company_id", JStr company); ("aggregate_id", JStr task_id);
    ("version", JInt (TS.et_version task + 1)); ("to_state", JStr "accepted"); ("task_id", JStr task_id)]).

(* [sidecar/ibreeze/application/completion_handlers.py:602-654 StartEmployeeTaskHandler.handle] *)
Definition start_employee_task (request : StartEmployeeTask) : tx DB CommandResult :=
  let task_id := ss_task_id request in
  let company := ss_company_id request in
  task ← lock_employee task_id company;
  if TS.et_status task =? "running"
  then mret {| response := id_status task_id "running"; events := []; outbox := [] |}
  else
    check ((TS.et_status task ∈? ["assigned"; "ready"]) &&
           (TS.et_version task =? ss_expected_version request)%Z) (ValueError "OPTIMISTIC_LOCK_CONFLICT");;
    rowcount ← update (λ t, the_employee_task task_id company t &&
        ((TS.et_status t ∈? ["assigned"; "ready"]) && (TS.et_version t =? TS.et_version task)%Z))
      (set_employee "running" (Some (now_ms env)));
    check (rowcount =? 1)%Z (ValueError "OPTIMISTIC_LOCK_CONFLICT");;
    mret (employee_changed task_id company (TS.et_version task + 1) (TS.et_status task) "running" []).

(* [sidecar/ibreeze/application/completion_handlers.py:657-728 SubmitEmployeeTaskHandler.handle] *)
Definition submit_employee_task (request : SubmitEmployeeTask) : tx DB CommandResult :=
  let task_id := se_task_id request in
  let company := se_company_id request in
  task ← lock_employee task_id company;
  if TS.et_status task ∈? ["submitted"; "peer_reviewing"; "accepted"]
  then mret {| response := id_status task_id (TS.et_status task); events := []; outbox := [] |}
  else
    check ((TS.et_status task =? "running") && (TS.et_version task =? se_expected_version request)%Z)
      (ValueError "OPTIMISTIC_LOCK_CONFLICT");;
    rowcount ← update (λ t, the_employee_task task_id company t &&
        ((TS.et_status t =? "running") && (TS.et_version t =? TS.et_version task)%Z))
      (set_employee "submitted" (Some (now_ms env)));
    check (rowcount =? 1)%Z (ValueError "OPTIMISTIC_LOCK_CONFLICT");;
    mret (employee_changed task_id company (TS.et_version task + 1) "running" "submitted" []).

(** *** Department and company tasks *)

Definition set_department (status : string) (t : TS.DepartmentTask) : TS.DepartmentTask := {|
  TS.dt_id := TS.dt_id t; TS.dt_company_id := TS.dt_company_id t;
  TS.dt_company_task_id := TS.dt_company_task_id t; TS.dt_department_id := TS.dt_department_id t;
  TS.dt_stage_key := TS.dt_stage_key t; TS.dt_objective := TS.dt_objective t;
  TS.dt_deliverables_json := TS.dt_deliverables_json t;
  TS.dt_acceptance_criteria_json := TS.dt_acceptance_criteria_json t; TS.dt_status := status;
  TS.dt_resume_state := TS.dt_resume_state t; TS.dt_created_at := TS.dt_created_at t;
  TS.dt_updated_at := TS.dt_updated_at t; TS.dt_completed_at := TS.dt_completed_at t;
  TS.dt_version := TS.dt_version t + 1 |}.

Definition set_company (status : string) (t : TS.CompanyTask) : TS.CompanyTask := {|
  TS.ct_id := TS.ct_id t; TS.ct_company_id := TS.ct_company_id t;
  TS.ct_supersedes_task_id := TS.ct_supersedes_task_id t;
  TS.ct_company_conversation_id := TS.ct_company_conversation_id t;
  TS.ct_user_message_event_id := TS.ct_user_message_event_id t; TS.ct_title := TS.ct_title t;
  TS.ct_status := status; TS.ct_resume_state := TS.ct_resume_state t;
  TS.ct_active_plan_id := TS.ct_active_plan_id t; TS.ct_created_at := TS.ct_created_at t;
  TS.ct_updated_at := TS.ct_updated_at t; TS.ct_completed_at := TS.ct_completed_at t;
  TS.ct_ceo_confirmed_at := TS.ct_ceo_confirmed_at t; TS.ct_version := TS.ct_version t + 1 |}.

(* [sidecar/ibreeze/application/completion_handlers.py:781-790 CompleteDepartmentTaskHandler._lock_task] *)
Definition lock_department (task company : string) : tx DB TS.DepartmentTask :=
  row ← select_one (the_department_task task company);
  found row (ValueError "RESOURCE_NOT_FOUND").

(* [sidecar/ibreeze/application/completion_handlers.py:848-857 CompleteCompanyTaskHandler._lock_task] *)
Definition lock_company (task company : string) : tx DB TS.CompanyTask :=
  row ← select_one (the_company_task task company);
  found row (ValueError "RESOURCE_NOT_FOUND").

Definition task_changed (kind task company : string) (version : Z) (from_state to_state : string) : CommandResult :=
  let tp := kind +:+ ".status_changed" in
  let event := _event tp kind task company version from_state to_state in
  {| response := id_status task to_state; events := [event]; outbox := [_outbox tp event] |}.

(* [sidecar/ibreeze/application/completion_handlers.py:731-779 CompleteDepartmentTaskHandler.handle] *)
Definition complete_department_task (request : CompleteDepartmentTask) : tx DB CommandResult :=
  let task_id := cd_task_id request in
  let company := cd_company_id request in
  task ← lock_department task_id company;
  blockers ← gets (department_blockers task_id company);
  check (Nat.eqb (length blockers) 0) (gate_blocked blockers);;
  rowcount ← update (λ t, the_department_task task_id company t && (TS.dt_version t =? TS.dt_version task)%Z)
    (set_department "completed");
  check (rowcount =? 1)%Z (ValueError "OPTIMISTIC_LOCK_CONFLICT");;
  _project_task_outcome company task_id (λ ar, sql_eq (RV.rn_department_task_id ar) (Some task_id));;
  mret (task_changed "department_task" task_id company (TS.dt_version task + 1) (TS.dt_status task) "completed").

(* [sidecar/ibreeze/application/completion_handlers.py:793-846 CompleteCompanyTaskHandler.handle] *)
Definition complete_company_task (request : CompleteCompanyTask) : tx DB CommandResult :=
  let task_id := cc_task_id request in
  let company := cc_company_id request in
  task ← lock_company task_id company;
  blockers ← gets (company_blockers task_id company);
  check (Nat.eqb (length blockers) 0) (gate_blocked blockers);;
  rowcount ← update (λ t, the_company_task task_id company t && (TS.ct_version t =? TS.ct_version task)%Z)
    (set_company "completed");
  check (rowcount =? 1)%Z (ValueError "OPTIMISTIC_LOCK_CONFLICT");;
  _project_task_outcome company task_id (λ ar, RV.rn_company_task_id ar =? task_id);;
  mret (task_changed "company_task" task_id company (TS.ct_version task + 1) (TS.ct_status task) "completed").
End Handlers.

(** ** What the statements do *)

Lemma employee_key_clash task company (a b : TS.EmployeeTask) :
  the_employee_task task company a = true → the_employee_task task company b = true → clash a b = true.
Proof. unfold the_employee_task. simpl. intros. bools. apply String.eqb_eq. congruence. Qed.
Lemma department_key_clash task company (a b : TS.DepartmentTask) :
  the_department_task task company a = true → the_department_task task company b = true → clash a b = true.
Proof.
  unfold the_department_task. simpl. intros. bools. apply orb_true_iff. left. apply String.eqb_eq. congruence.
Qed.
Lemma company_key_clash task company (a b : TS.CompanyTask) :
  the_company_task task company a = true → the_company_task task company b = true → clash a b = true.
Proof. unfold the_company_task. simpl. intros. bools. apply String.eqb_eq. congruence. Qed.

(** The new status is no waiting one: the row is admitted when nothing waits to be resumed. *)
Lemma employee_row_ok status u t :
  TS.employee_task_ok t = true → status ∈ ["running"; "submitted"; "accepted"] →
  row_ok (DB := DB) (set_employee status u t) = (TS.et_resume_state t =?o None).
Proof.
  unfold row_ok. simpl. unfold TS.employee_task_ok. simpl. intros H Hs. bools.
  repeat match goal with H : ?b = true |- context [?b] => rewrite H end.
  repeat match goal with H : ?x ∈ ?l |- context [?x ∈? ?l] => rewrite (elem_of_mem x l H) end.
  unfold TS.resume_consistent. destruct (TS.et_resume_state t); elem_cases Hs; subst; done.
Qed.

Lemma department_row_ok t :
  TS.department_task_ok t = true →
  row_ok (DB := DB) (set_department "completed" t) = (TS.dt_resume_state t =?o None).
Proof.
  unfold row_ok. simpl. unfold TS.department_task_ok. simpl. intros H. bools.
  unfold TS.resume_consistent. destruct (TS.dt_resume_state t); simpl in *; [|done].
  by rewrite andb_false_r.
Qed.

Lemma company_row_ok t :
  TS.company_task_ok t = true →
  row_ok (DB := DB) (set_company "completed" t) = (TS.ct_resume_state t =?o None).
Proof.
  unfold row_ok. simpl. unfold TS.company_task_ok. simpl. intros H. andbs.
  match goal with H : negb _ = true |- _ => rewrite H end.
  unfold TS.resume_consistent. destruct (TS.ct_resume_state t); simpl in *; [|done].
  by rewrite andb_false_r.
Qed.

(** The database with one task changed. *)
Definition with_employee (task company : string) (f : TS.EmployeeTask → TS.EmployeeTask) (db : DB) : DB :=
  set_rows (updated (the_employee_task task company) f (employee_tasks db)) db.
Definition with_department (task company : string) (f : TS.DepartmentTask → TS.DepartmentTask) (db : DB) : DB :=
  set_rows (updated (the_department_task task company) f (department_tasks db)) db.
Definition with_company (task company : string) (f : TS.CompanyTask → TS.CompanyTask) (db : DB) : DB :=
  set_rows (updated (the_company_task task company) f (company_tasks db)) db.

Section Statements.
Context (db : DB) (task company : string).
Hypothesis Hok : tasks_ok db.

Lemma found_employee et : List.find (the_employee_task task company) (employee_tasks db) = Some et →
  et ∈ employee_tasks db ∧ TS.et_id et = task ∧ TS.et_company_id et = company ∧
  TS.employee_task_ok et = true.
Proof.
  intros [Hin Hk]%List.find_some. apply list_elem_of_In in Hin. unfold the_employee_task in Hk. bools.
  split_and!; try done. exact (table_ok_row (R := TS.EmployeeTask) db et (ok_employee _ Hok) Hin).
Qed.

Lemma found_department dt : List.find (the_department_task task company) (department_tasks db) = Some dt →
  dt ∈ department_tasks db ∧ TS.dt_id dt = task ∧ TS.dt_company_id dt = company ∧
  TS.department_task_ok dt = true.
Proof.
  intros [Hin Hk]%List.find_some. apply list_elem_of_In in Hin. unfold the_department_task in Hk. bools.
  split_and!; try done. exact (table_ok_row (R := TS.DepartmentTask) db dt (ok_department _ Hok) Hin).
Qed.

Lemma found_company ct : List.find (the_company_task task company) (company_tasks db) = Some ct →
  ct ∈ company_tasks db ∧ TS.ct_id ct = task ∧ TS.ct_company_id ct = company ∧
  TS.company_task_ok ct = true.
Proof.
  intros [Hin Hk]%List.find_some. apply list_elem_of_In in Hin. unfold the_company_task in Hk. bools.
  split_and!; try done. exact (table_ok_row (R := TS.CompanyTask) db ct (ok_company _ Hok) Hin).
Qed.

Lemma update_employee et q status u :
  List.find (the_employee_task task company) (employee_tasks db) = Some et → q et = true →
  status ∈ ["running"; "submitted"; "accepted"] →
  update (λ t, the_employee_task task company t && q t) (set_employee status u) db =
    if TS.et_resume_state et =?o None
    then (Ok 1%Z, with_employee task company (set_employee status u) db)
    else (Err (IntegrityErr "employee_tasks"), db).
Proof.
  intros Hf Hq Hs. pose proof (found_employee et Hf) as (Hin & _ & _ & Hrow).
  apply List.find_some in Hf as [_ Hk]. rewrite <-(employee_row_ok status u et Hrow Hs).
  apply (update_found (R := TS.EmployeeTask) (the_employee_task task company) q (set_employee status u) db et (ok_employee _ Hok)); try done.
  apply employee_key_clash.
Qed.

Lemma update_department dt q :
  List.find (the_department_task task company) (department_tasks db) = Some dt → q dt = true →
  update (λ t, the_department_task task company t && q t) (set_department "completed") db =
    if TS.dt_resume_state dt =?o None
    then (Ok 1%Z, with_department task company (set_department "completed") db)
    else (Err (IntegrityErr "department_tasks"), db).
Proof.
  intros Hf Hq. pose proof (found_department dt Hf) as (Hin & _ & _ & Hrow).
  apply List.find_some in Hf as [_ Hk]. rewrite <-(department_row_ok dt Hrow).
  apply (update_found (R := TS.DepartmentTask) (the_department_task task company) q (set_department "completed") db dt (ok_department _ Hok)); try done.
  apply department_key_clash.
Qed.

Lemma update_company ct q :
  List.find (the_company_task task company) (company_tasks db) = Some ct → q ct = true →
  update (λ t, the_company_task task company t && q t) (set_company "completed") db =
    if TS.ct_resume_state ct =?o None
    then (Ok 1%Z, with_company task company (set_company "completed") db)
    else (Err (IntegrityErr "company_tasks"), db).
Proof.
  intros Hf Hq. pose proof (found_company ct Hf) as (Hin & _ & _ & Hrow).
  apply List.find_some in Hf as [_ Hk]. rewrite <-(company_row_ok ct Hrow).
  apply (update_found (R := TS.CompanyTask) (the_company_task task company) q (set_company "completed") db ct (ok_company _ Hok)); try done.
  apply company_key_clash.
Qed.
End Statements.

(** ** What every handler does *)

Definition blocked (blockers : list string) : bool := negb (Nat.eqb (length blockers) 0).

Section Outcomes.
Context (env : Ambient) (routing_now : string) (db : DB).
Hypothesis Hok : tasks_ok db.

(** The outcome of accepting an employee task. *)
Definition accepting (task company : string) : result CommandResult * DB :=
  match List.find (the_employee_task task company) (employee_tasks db) with
  | None => (Err (ValueError "RESOURCE_NOT_FOUND"), db)
  | Some et =>
      let blockers := employee_blockers task company db in
      if blocked blockers then (Err (gate_blocked blockers), db)
      else if TS.et_resume_state et =?o None then
        (Ok (employee_changed env task company (TS.et_version et + 1) (TS.et_status et) "accepted" [
           ("company_id", JStr company); ("aggregate_id", JStr task);
           ("version", JInt (TS.et_version et + 1)); ("to_state", JStr "accepted"); ("task_id", JStr task)]),
         with_employee task company (set_employee "accepted" None) db)
      else (Err (IntegrityErr "employee_tasks"), db)
  end.

Lemma accept_run r :
  accept_employee_task env r db = accepting (ae_task_id r) (ae_company_id r).
Proof.
  unfold accept_employee_task, accepting, lock_employee, select_one, gets, found, lift, mbind, tx_bind.
  change (rows (R := TS.EmployeeTask) db) with (employee_tasks db).
  destruct (List.find _ _) as [et|] eqn:Hf; [|done]. cbn [of_option]. unfold check, blocked.
  destruct (Nat.eqb _ 0); [|done]. cbn [negb]. unfold mret, tx_ret.
  rewrite (update_employee db _ _ Hok et) by (done || apply Z.eqb_refl || set_solver).
  by destruct (TS.et_resume_state et =?o None).
Qed.

Definition starting (task company : string) (expected : Z) : result CommandResult * DB :=
  match List.find (the_employee_task task company) (employee_tasks db) with
  | None => (Err (ValueError "RESOURCE_NOT_FOUND"), db)
  | Some et =>
      if TS.et_status et =? "running" then
        (Ok {| response := id_status task "running"; events := []; outbox := [] |}, db)
      else if (TS.et_status et ∈? ["assigned"; "ready"]) && (TS.et_version et =? expected)%Z then
        (Ok (employee_changed env task company (TS.et_version et + 1) (TS.et_status et) "running" []),
         with_employee task company (set_employee "running" (Some (now_ms env))) db)
      else (Err (ValueError "OPTIMISTIC_LOCK_CONFLICT"), db)
  end.

Lemma no_resume et : TS.employee_task_ok et = true → (TS.et_status et ∈? ["waiting_resource"; "paused"]) = false →
  TS.et_resume_state et =?o None = true.
Proof.
  unfold TS.employee_task_ok, TS.resume_consistent. intros H Hw. andbs.
  by match goal with H : (if _ then _ else _) = true |- _ => rewrite Hw in H end.
Qed.

Lemma start_run r :
  start_employee_task env r db = starting (ss_task_id r) (ss_company_id r) (ss_expected_version r).
Proof.
  unfold start_employee_task, starting, lock_employee, select_one, gets, found, lift, mbind, tx_bind.
  change (rows (R := TS.EmployeeTask) db) with (employee_tasks db).
  destruct (List.find _ _) as [et|] eqn:Hf; [|done]. cbn [of_option].
  destruct (TS.et_status et =? "running"); [done|].
  destruct (_ && _) eqn:Hg; unfold check; [|done]. unfold mret, tx_ret.
  apply andb_true_iff in Hg as [Hs Hv].
  rewrite (update_employee db _ _ Hok et); [|done|by rewrite Hs, Z.eqb_refl|set_solver].
  rewrite no_resume; [done| |].
  - by eapply found_employee.
  - unfold mem in Hs. apply bool_decide_eq_true in Hs. by elem_cases Hs; rewrite Hs.
Qed.

Definition submitting (task company : string) (expected : Z) : result CommandResult * DB :=
  match List.find (the_employee_task task company) (employee_tasks db) with
  | None => (Err (ValueError "RESOURCE_NOT_FOUND"), db)
  | Some et =>
      if TS.et_status et ∈? ["submitted"; "peer_reviewing"; "accepted"] then
        (Ok {| response := id_status task (TS.et_status et); events := []; outbox := [] |}, db)
      else if (TS.et_status et =? "running") && (TS.et_version et =? expected)%Z then
        (Ok (employee_changed env task company (TS.et_version et + 1) "running" "submitted" []),
         with_employee task company (set_employee "submitted" (Some (now_ms env))) db)
      else (Err (ValueError "OPTIMISTIC_LOCK_CONFLICT"), db)
  end.

Lemma submit_run r :
  submit_employee_task env r db = submitting (se_task_id r) (se_company_id r) (se_expected_version r).
Proof.
  unfold submit_employee_task, submitting, lock_employee, select_one, gets, found, lift, mbind, tx_bind.
  change (rows (R := TS.EmployeeTask) db) with (employee_tasks db).
  destruct (List.find _ _) as [et|] eqn:Hf; [|done]. cbn [of_option].
  destruct (TS.et_status et ∈? _); [done|].
  destruct (_ && _) eqn:Hg; unfold check; [|done]. unfold mret, tx_ret.
  apply andb_true_iff in Hg as [Hs Hv].
  rewrite (update_employee db _ _ Hok et); [|done|by rewrite Hs, Z.eqb_refl|set_solver].
  rewrite no_resume; [done| |].
  - by eapply found_employee.
  - apply String.eqb_eq in Hs. by rewrite Hs.
Qed.

(** The same database with other routing tables. *)
Definition routed (rt : RV.RS.DB) (d : DB) : DB := (zoom (RV.on_routing (λ _, (Ok tt, rt))) d).2.

Lemma project_frame company task mine d r d' :
  _project_task_outcome routing_now company task mine d = (r, d') → ∃ rt, d' = routed rt d.
Proof.
  unfold _project_task_outcome, gets, mbind, tx_bind, zoom, RV.on_routing, routed, mret, tx_ret.
  assert (d = routed (RV.routing (reviews d)) d) as Hsame by by destruct d as [[]].
  destruct (head _) as [dec|]; [|intros [= _ <-]; eauto].
  destruct (Outcomes.append _ _ _ _ _ _ _ _) as [[b|e] rt]; intros [= _ <-]; eauto.
Qed.

(** A task id that names its source once and for all is recorded without an error. *)
Lemma project_total company task mine d : Outcomes._is_stable_source_id task = true →
  (∀ e, (_project_task_outcome routing_now company task mine d).1 = Err e → ∃ t, e = IntegrityErr t).
Proof.
  unfold _project_task_outcome, gets, mbind, tx_bind, zoom, RV.on_routing, mret, tx_ret. intros Hs e.
  destruct (head _) as [dec|]; [|done]. rewrite Outcomes.append_run, Hs.
  destruct (Outcomes.outcome_for "task_succeeded" false) as [[score label]|] eqn:Ho; [|by vm_compute in Ho].
  apply Outcomes.outcome_for_bounds in Ho.
  unfold RoutingStore.record_outcome, insert_or_ignore, mbind, tx_bind, check, mret, tx_ret.
  rewrite Ho. set (o := RoutingStore.Build_Outcome _ _ _ _ _ _ _ _). cbn -[insert_row row_ok rows].
  destruct (row_ok o && _); [|done]. destruct (insert_row o _) as [[] ?] eqn:Hi; [done|]. intros [= <-].
  apply insert_err in Hi as [_ ->]. eauto.
Qed.

Definition completing_department (task company : string) : result CommandResult * DB :=
  match List.find (the_department_task task company) (department_tasks db) with
  | None => (Err (ValueError "RESOURCE_NOT_FOUND"), db)
  | Some dt =>
      let blockers := department_blockers task company db in
      if blocked blockers then (Err (gate_blocked blockers), db)
      else if TS.dt_resume_state dt =?o None then
        (_project_task_outcome routing_now company task (λ ar, sql_eq (RV.rn_department_task_id ar) (Some task));;
         mret (task_changed env "department_task" task company (TS.dt_version dt + 1) (TS.dt_status dt) "completed"))
        (with_department task company (set_department "completed") db)
      else (Err (IntegrityErr "department_tasks"), db)
  end.

Lemma complete_department_run r :
  complete_department_task env routing_now r db = completing_department (cd_task_id r) (cd_company_id r).
Proof.
  unfold complete_department_task, completing_department, lock_department, select_one, gets, found, lift, mbind, tx_bind.
  change (rows (R := TS.DepartmentTask) db) with (department_tasks db).
  destruct (List.find _ _) as [dt|] eqn:Hf; [|done]. cbn [of_option]. unfold check, blocked.
  destruct (Nat.eqb _ 0); [|done]. cbn [negb]. unfold mret, tx_ret.
  rewrite (update_department db _ _ Hok dt) by (done || apply Z.eqb_refl).
  by destruct (TS.dt_resume_state dt =?o None).
Qed.

Definition completing_company (task company : string) : result CommandResult * DB :=
  match List.find (the_company_task task company) (company_tasks db) with
  | None => (Err (ValueError "RESOURCE_NOT_FOUND"), db)
  | Some ct =>
      let blockers := company_blockers task company db in
      if blocked blockers then (Err (gate_blocked blockers), db)
      else if TS.ct_resume_state ct =?o None then
        (_project_task_outcome routing_now company task (λ ar, RV.rn_company_task_id ar =? task);;
         mret (task_changed env "company_task" task company (TS.ct_version ct + 1) (TS.ct_status ct) "completed"))
        (with_company task company (set_company "completed") db)
      else (Err (IntegrityErr "company_tasks"), db)
  end.

Lemma complete_company_run r :
  complete_company_task env routing_now r db = completing_company (cc_task_id r) (cc_company_id r).
Proof.
  unfold complete_company_task, completing_company, lock_company, select_one, gets, found, lift, mbind, tx_bind.
  change (rows (R := TS.CompanyTask) db) with (company_tasks db).
  destruct (List.find _ _) as [ct|] eqn:Hf; [|done]. cbn [of_option]. unfold check, blocked.
  destruct (Nat.eqb _ 0); [|done]. cbn [negb]. unfold mret, tx_ret.
  rewrite (update_company db _ _ Hok ct) by (done || apply Z.eqb_refl).
  by destruct (TS.ct_resume_state ct =?o None).
Qed.
End Outcomes.

(** ** Invariants *)

Inductive op :=
  | Start (r : StartEmployeeTask)
  | Submit (r : SubmitEmployeeTask)
  | Accept (r : AcceptEmployeeTask)
  | CompleteDepartment (r : CompleteDepartmentTask)
  | CompleteCompany (r : CompleteCompanyTask).

Definition run_op (env : Ambient) (routing_now : string) (o : op) : tx DB CommandResult :=
  match o with
  | Start r => start_employee_task env r
  | Submit r => submit_employee_task env r
  | Accept r => accept_employee_task env r
  | CompleteDepartment r => complete_department_task env routing_now r
  | CompleteCompany r => complete_company_task env routing_now r
  end.

(** What a handler does to the database, whatever it answers. *)
Inductive step (db : DB) : DB → Prop :=
  | step_none : step db db
  | step_employee et status u : et ∈ employee_tasks db → TS.et_resume_state et = None →
      status ∈ ["running"; "submitted"; "accepted"] →
      (status = "accepted" ∨ TS.et_status et ∈ ["assigned"; "ready"; "running"]) →
      step db (with_employee (TS.et_id et) (TS.et_company_id et) (set_employee status u) db)
  | step_department dt rt : dt ∈ department_tasks db → TS.dt_resume_state dt = None → department_ready db dt →
      step db (routed rt (with_department (TS.dt_id dt) (TS.dt_company_id dt) (set_department "completed") db))
  | step_company ct rt : ct ∈ company_tasks db → TS.ct_resume_state ct = None → company_ready db ct →
      step db (routed rt (with_company (TS.ct_id ct) (TS.ct_company_id ct) (set_company "completed") db)).

Lemma blocked_nil l : blocked l = false → l = [].
Proof. unfold blocked. by destruct l. Qed.

Lemma is_none_iff {A} `{EqDecision A} (o : option A) : o =?o None = true ↔ o = None.
Proof. apply bool_decide_eq_true. Qed.

Lemma op_step env now o db res db' :
  tasks_ok db → run_op env now o db = (res, db') → step db db'.
Proof.
  intros Hok. destruct o as [r|r|r|r|r]; simpl.
  - rewrite start_run by done. unfold starting.
    destruct (List.find _ _) as [et|] eqn:Hf; [|by intros [= _ <-]; constructor].
    destruct (found_employee _ _ _ Hok _ Hf) as (Hin & <- & <- & Hrow).
    destruct (_ =? _); [by intros [= _ <-]; constructor|].
    destruct (_ && _) eqn:Hg; intros [= _ <-]; [|constructor]. apply andb_true_iff in Hg as [Hs _].
    unfold mem in Hs. apply bool_decide_eq_true in Hs. constructor; [done| |set_solver|right; set_solver].
    apply is_none_iff, no_resume; [done|]. by elem_cases Hs; rewrite Hs.
  - rewrite submit_run by done. unfold submitting.
    destruct (List.find _ _) as [et|] eqn:Hf; [|by intros [= _ <-]; constructor].
    destruct (found_employee _ _ _ Hok _ Hf) as (Hin & <- & <- & Hrow).
    destruct (_ ∈? _); [by intros [= _ <-]; constructor|].
    destruct (_ && _) eqn:Hg; intros [= _ <-]; [|constructor]. apply andb_true_iff in Hg as [Hs _].
    apply String.eqb_eq in Hs. constructor; [done| |set_solver|right; rewrite Hs; set_solver].
    apply is_none_iff, no_resume; [done|]. by rewrite Hs.
  - rewrite accept_run by done. unfold accepting.
    destruct (List.find _ _) as [et|] eqn:Hf; [|by intros [= _ <-]; constructor].
    destruct (found_employee _ _ _ Hok _ Hf) as (Hin & <- & <- & Hrow).
    destruct (blocked _); [by intros [= _ <-]; constructor|].
    destruct (_ =?o None) eqn:Hr; intros [= _ <-]; [|constructor]. apply is_none_iff in Hr.
    constructor; [done..|set_solver|by left].
  - rewrite complete_department_run by done. unfold completing_department.
    destruct (List.find _ _) as [dt|] eqn:Hf; [|by intros [= _ <-]; constructor].
    destruct (found_department _ _ _ Hok _ Hf) as (Hin & <- & <- & Hrow).
    destruct (blocked _) eqn:Hb; [by intros [= _ <-]; constructor|]. apply blocked_nil in Hb.
    destruct (_ =?o None) eqn:Hr; [|intros [= _ <-]; constructor]. apply is_none_iff in Hr.
    unfold mbind, tx_bind. destruct (_project_task_outcome _ _ _ _ _) as [[u|e] d] eqn:Hp;
      intros [= _ <-]; apply project_frame in Hp as [rt ->]; constructor; try done;
      by apply department_gate_iff.
  - rewrite complete_company_run by done. unfold completing_company.
    destruct (List.find _ _) as [ct|] eqn:Hf; [|by intros [= _ <-]; constructor].
    destruct (found_company _ _ _ Hok _ Hf) as (Hin & <- & <- & Hrow).
    destruct (blocked _) eqn:Hb; [by intros [= _ <-]; constructor|]. apply blocked_nil in Hb.
    destruct (_ =?o None) eqn:Hr; [|intros [= _ <-]; constructor]. apply is_none_iff in Hr.
    unfold mbind, tx_bind. destruct (_project_task_outcome _ _ _ _ _) as [[u|e] d] eqn:Hp;
      intros [= _ <-]; apply project_frame in Hp as [rt ->]; constructor; try done;
      by apply company_gate_iff.
Qed.

(** What lies below a task that is completed has ended. *)
Record tree_ok (db : DB) : Prop := {
  tr_department dt et : dt ∈ department_tasks db → TS.dt_status dt = "completed" →
    et ∈ employee_tasks db → TS.et_department_task_id et = TS.dt_id dt → TS.et_company_id et = TS.dt_company_id dt →
    TS.et_status et ∈ ["accepted"; "cancelled"];
  tr_company ct dt : ct ∈ company_tasks db → TS.ct_status ct = "completed" →
    dt ∈ department_tasks db → TS.dt_company_task_id dt = TS.ct_id ct → TS.dt_company_id dt = TS.ct_company_id ct →
    TS.dt_status dt ∈ ["completed"; "cancelled"] }.

Lemma routed_tasks rt db :
  company_tasks (routed rt db) = company_tasks db ∧ department_tasks (routed rt db) = department_tasks db ∧
  employee_tasks (routed rt db) = employee_tasks db.
Proof. by destruct db as [[]]. Qed.

Lemma tasks_ok_rows db db' :
  company_tasks db' = company_tasks db → department_tasks db' = department_tasks db →
  employee_tasks db' = employee_tasks db → tasks_ok db → tasks_ok db'.
Proof.
  intros E1 E2 E3 [H1 H2 H3 H4 H5]. split; rewrite ?E1, ?E2, ?E3; try done.
  - unfold table_ok in *. change (rows db') with (company_tasks db'). by rewrite E1.
  - unfold table_ok in *. change (rows db') with (department_tasks db'). by rewrite E2.
  - unfold table_ok in *. change (rows db') with (employee_tasks db'). by rewrite E3.
Qed.

Lemma tree_ok_rows db db' :
  company_tasks db' = company_tasks db → department_tasks db' = department_tasks db →
  employee_tasks db' = employee_tasks db → tree_ok db → tree_ok db'.
Proof. intros E1 E2 E3 [H1 H2]. by split; rewrite ?E1, ?E2, ?E3. Qed.

(** The task with the key, or one of the others. *)
Lemma updated_key {DB R} `{!Table DB R} (p : R → bool) f l (r x : R) :
  no_clash l = true → (∀ a b, p a = true → p b = true → clash a b = true) →
  r ∈ l → p r = true → x ∈ updated p f l → (x ∈ l ∧ p x = false) ∨ x = f r.
Proof.
  intros Hl Hp Hr Hpr [[Hx Hpx]|(y & Hy & Hpy & ->)]%elem_updated; [by left|right].
  by rewrite (unique_row p l r y).
Qed.

Lemma with_employee_ok db et status u :
  tasks_ok db → et ∈ employee_tasks db → TS.et_resume_state et = None →
  status ∈ ["running"; "submitted"; "accepted"] →
  tasks_ok (with_employee (TS.et_id et) (TS.et_company_id et) (set_employee status u) db).
Proof.
  intros [H1 H2 H3 H4 H5] Het Hr Hst. split; try done.
  - refine (table_ok_updated (R := TS.EmployeeTask) (the_employee_task _ _) (set_employee status u) db H3 _ _ _); try done.
    intros x Hx Hk. rewrite employee_row_ok; [|exact (table_ok_row (R := TS.EmployeeTask) db x H3 Hx)|done].
    apply is_none_iff. rewrite <-Hr. f_equal.
    apply (unique_row (DB := DB) _ _ _ _ (table_no_clash (R := TS.EmployeeTask) db H3) (employee_key_clash _ _) Hx Hk Het).
    apply the_employee.
  - intros x. cbn. intros [[Hx _]|(y & Hy & _ & ->)]%elem_updated; [by apply H4|exact (H4 y Hy)].
Qed.

Lemma with_department_ok db dt :
  tasks_ok db → dt ∈ department_tasks db → TS.dt_resume_state dt = None →
  tasks_ok (with_department (TS.dt_id dt) (TS.dt_company_id dt) (set_department "completed") db).
Proof.
  intros [H1 H2 H3 H4 H5] Hdt Hr. split; try done.
  - refine (table_ok_updated (R := TS.DepartmentTask) (the_department_task _ _) (set_department "completed") db H2 _ _ _);
      try done.
    intros x Hx Hk. rewrite department_row_ok; [|exact (table_ok_row (R := TS.DepartmentTask) db x H2 Hx)].
    apply is_none_iff. rewrite <-Hr. f_equal.
    apply (unique_row (DB := DB) _ _ _ _ (table_no_clash (R := TS.DepartmentTask) db H2) (department_key_clash _ _) Hx Hk Hdt).
    unfold the_department_task. by rewrite !String.eqb_refl.
  - intros x Hx. destruct (H4 x Hx) as (d & Hd & Hi & Hc). cbn.
    destruct (the_department_task (TS.dt_id dt) (TS.dt_company_id dt) d) eqn:Hk.
    + exists (set_department "completed" d). split; [|done]. apply elem_updated. right. by exists d.
    + exists d. split; [|done]. apply elem_updated. by left.
  - intros x. cbn. intros [[Hx _]|(y & Hy & _ & ->)]%elem_updated; [by apply H5|exact (H5 y Hy)].
Qed.

Lemma with_company_ok db ct :
  tasks_ok db → ct ∈ company_tasks db → TS.ct_resume_state ct = None →
  tasks_ok (with_company (TS.ct_id ct) (TS.ct_company_id ct) (set_company "completed") db).
Proof.
  intros [H1 H2 H3 H4 H5] Hct Hr. split; try done.
  - refine (table_ok_updated (R := TS.CompanyTask) (the_company_task _ _) (set_company "completed") db H1 _ _ _);
      try done.
    intros x Hx Hk. rewrite company_row_ok; [|exact (table_ok_row (R := TS.CompanyTask) db x H1 Hx)].
    apply is_none_iff. rewrite <-Hr. f_equal.
    apply (unique_row (DB := DB) _ _ _ _ (table_no_clash (R := TS.CompanyTask) db H1) (company_key_clash _ _) Hx Hk Hct).
    unfold the_company_task. by rewrite !String.eqb_refl.
  - intros x Hx. destruct (H5 x Hx) as (d & Hd & Hi & Hc). cbn.
    destruct (the_company_task (TS.ct_id ct) (TS.ct_company_id ct) d) eqn:Hk.
    + exists (set_company "completed" d). split; [|done]. apply elem_updated. right. by exists d.
    + exists d. split; [|done]. apply elem_updated. by left.
Qed.

Lemma step_tasks_ok db db' : tasks_ok db → step db db' → tasks_ok db'.
Proof.
  intros Hok [|et status u Het Hr Hst _|dt rt Hdt Hr _|ct rt Hct Hr _]; [done|by apply with_employee_ok|..].
  - eapply tasks_ok_rows; [apply routed_tasks..|by apply with_department_ok].
  - eapply tasks_ok_rows; [apply routed_tasks..|by apply with_company_ok].
Qed.

(** A task that has ended below a completed one is not started again. *)
Lemma step_tree_ok db db' : tasks_ok db → tree_ok db → step db db' → tree_ok db'.
Proof.
  intros Hok Htree Hs. pose proof Htree as [T1 T2].
  destruct Hs as [|et status u Het Hr Hst Hfrom|dt rt Hdt Hr Hready|ct rt Hct Hr Hready]; [done|..].
  - split; [|done]. intros d x Hd Hc. cbn. intros Hx Hp Hco.
    apply (updated_key (DB := DB) _ _ _ et) in Hx as [[Hx _]| ->];
      [by apply (T1 d x)| |exact (table_no_clash (R := TS.EmployeeTask) db (ok_employee _ Hok))
      |apply employee_key_clash|done|apply the_employee].
    simpl in *. destruct Hfrom as [->|Hfrom]; [left|].
    pose proof (T1 d et Hd Hc Het Hp Hco) as Hend. exfalso. elem_cases Hend; rewrite Hend in Hfrom; by elem_cases Hfrom.
  - eapply tree_ok_rows; [apply routed_tasks..|]. split.
    + intros d x. cbn. intros Hd Hc Hx Hp Hco.
      apply (updated_key (DB := DB) _ _ _ dt) in Hd as [[Hd _]| ->];
        [by apply (T1 d x)| |exact (table_no_clash (R := TS.DepartmentTask) db (ok_department _ Hok))
        |apply department_key_clash|done|unfold the_department_task; by rewrite !String.eqb_refl].
      by apply (dr_accepted _ _ Hready).
    + intros c d. cbn. intros Hc Hst Hd Hp Hco.
      apply elem_updated in Hd as [[Hd _]|(y & Hy & _ & ->)]; [by apply (T2 c d)|left].
  - eapply tree_ok_rows; [apply routed_tasks..|]. split; [done|].
    intros c d. cbn. intros Hc Hst Hd Hp Hco.
    apply (updated_key (DB := DB) _ _ _ ct) in Hc as [[Hc _]| ->];
      [by apply (T2 c d)| |exact (table_no_clash (R := TS.CompanyTask) db (ok_company _ Hok))
      |apply company_key_clash|done|unfold the_company_task; by rewrite !String.eqb_refl].
    by apply (cr_completed _ _ Hready).
Qed.

(** Handlers run one after the other, whatever each of them answers. *)
Definition run_ops (now : string) (l : list (Ambient * op)) (db : DB) : DB :=
  fold_left (λ db eo, (run_op eo.1 now eo.2 db).2) l db.

(** C9. Nothing ends before what lies below it.  Whatever completion commands run, in
    whatever order and with whatever outcomes: if every employee task of a completed
    department task was accepted or cancelled before, and every department task of a completed
    company task completed or cancelled, it still is; and the constraints of the task
    tables hold. *)
Theorem ended_below_completed now l db :
  tasks_ok db → tree_ok db → tasks_ok (run_ops now l db) ∧ tree_ok (run_ops now l db).
Proof.
  revert db. induction l as [|[env o] l IH]; intros db Hok Htree; [done|]. simpl.
  destruct (run_op env now o db) as [res db'] eqn:Hrun. apply op_step in Hrun; [|done].
  apply IH; [by eapply step_tasks_ok|by eapply step_tree_ok].
Qed.

(** ** Properties *)

Lemma blocked_iff l : blocked l = true ↔ l ≠ [].
Proof. unfold blocked. destruct l; simpl; naive_solver. Qed.

Lemma find_employee db et : tasks_ok db → et ∈ employee_tasks db →
  List.find (the_employee_task (TS.et_id et) (TS.et_company_id et)) (employee_tasks db) = Some et.
Proof.
  intros Hok Het. refine (proj1 (find_unique (DB := DB) _ _ _ (table_no_clash (R := TS.EmployeeTask) db (ok_employee _ Hok)) (employee_key_clash _ _) Het _)).
  apply the_employee.
Qed.
Lemma find_department db dt : tasks_ok db → dt ∈ department_tasks db →
  List.find (the_department_task (TS.dt_id dt) (TS.dt_company_id dt)) (department_tasks db) = Some dt.
Proof.
  intros Hok Hdt. refine (proj1 (find_unique (DB := DB) _ _ _ (table_no_clash (R := TS.DepartmentTask) db (ok_department _ Hok)) (department_key_clash _ _) Hdt _)).
  unfold the_department_task. by rewrite !String.eqb_refl.
Qed.
Lemma find_company db ct : tasks_ok db → ct ∈ company_tasks db →
  List.find (the_company_task (TS.ct_id ct) (TS.ct_company_id ct)) (company_tasks db) = Some ct.
Proof.
  intros Hok Hct. refine (proj1 (find_unique (DB := DB) _ _ _ (table_no_clash (R := TS.CompanyTask) db (ok_company _ Hok)) (company_key_clash _ _) Hct _)).
  unfold the_company_task. by rewrite !String.eqb_refl.
Qed.

Section Follow.
Context (env : Ambient) (now : string) (db : DB).
Hypothesis Hok : tasks_ok db.

(** C13. Handlers follow their gates.  Accepting an employee task succeeds exactly when its
    gate is open and it does not wait to be resumed, and then sets its status and version
    and announces both; otherwise the command fails and changes nothing.  Completing a
    department or a company task whose gate is closed, or that waits, fails and changes
    nothing; otherwise it changes the task, projects the outcome of its latest routed run
    and announces the change. *)
Theorem handlers_follow_gates :
  (∀ r et dt, et ∈ employee_tasks db → dt ∈ department_tasks db → parent_of et dt = true →
     ae_task_id r = TS.et_id et → ae_company_id r = TS.et_company_id et →
     ((TS.et_resume_state et ≠ None ∨ ¬ employee_ready db et dt) ∧
        ∃ e, accept_employee_task env r db = (Err e, db)) ∨
     (TS.et_resume_state et = None ∧ employee_ready db et dt ∧
        accept_employee_task env r db =
        (Ok (employee_changed env (TS.et_id et) (TS.et_company_id et) (TS.et_version et + 1) (TS.et_status et) "accepted" [
           ("company_id", JStr (TS.et_company_id et)); ("aggregate_id", JStr (TS.et_id et));
           ("version", JInt (TS.et_version et + 1)); ("to_state", JStr "accepted"); ("task_id", JStr (TS.et_id et))]),
         with_employee (TS.et_id et) (TS.et_company_id et) (set_employee "accepted" None) db))) ∧
  (∀ r dt, dt ∈ department_tasks db → cd_task_id r = TS.dt_id dt → cd_company_id r = TS.dt_company_id dt →
     ((TS.dt_resume_state dt ≠ None ∨ ¬ department_ready db dt) ∧
        ∃ e, complete_department_task env now r db = (Err e, db)) ∨
     (TS.dt_resume_state dt = None ∧ department_ready db dt ∧
        complete_department_task env now r db =
        (_project_task_outcome now (TS.dt_company_id dt) (TS.dt_id dt)
           (λ ar, sql_eq (RV.rn_department_task_id ar) (Some (TS.dt_id dt)));;
         mret (task_changed env "department_task" (TS.dt_id dt) (TS.dt_company_id dt) (TS.dt_version dt + 1)
                 (TS.dt_status dt) "completed"))
          (with_department (TS.dt_id dt) (TS.dt_company_id dt) (set_department "completed") db))) ∧
  (∀ r ct, ct ∈ company_tasks db → cc_task_id r = TS.ct_id ct → cc_company_id r = TS.ct_company_id ct →
     ((TS.ct_resume_state ct ≠ None ∨ ¬ company_ready db ct) ∧
        ∃ e, complete_company_task env now r db = (Err e, db)) ∨
     (TS.ct_resume_state ct = None ∧ company_ready db ct ∧
        complete_company_task env now r db =
        (_project_task_outcome now (TS.ct_company_id ct) (TS.ct_id ct)
           (λ ar, RV.rn_company_task_id ar =? TS.ct_id ct);;
         mret (task_changed env "company_task" (TS.ct_id ct) (TS.ct_company_id ct) (TS.ct_version ct + 1)
                 (TS.ct_status ct) "completed"))
          (with_company (TS.ct_id ct) (TS.ct_company_id ct) (set_company "completed") db))).
Proof.
  split; [|split].
  - intros r et dt Het Hdt Hp Ht Hc. rewrite accept_run by done. unfold accepting.
    rewrite Ht, Hc, find_employee by done. pose proof (employee_gate_iff db et dt Hok Het Hdt Hp) as Hg.
    destruct (blocked _) eqn:Hb; [apply blocked_iff in Hb|apply blocked_nil in Hb].
    + left. split; [right; tauto|eauto].
    + destruct (_ =?o None) eqn:Hr; [right|left].
      * apply is_none_iff in Hr. tauto.
      * split; [left; by rewrite <-is_none_iff, Hr|eauto].
  - intros r dt Hdt Ht Hc. rewrite complete_department_run by done. unfold completing_department.
    rewrite Ht, Hc, find_department by done. pose proof (department_gate_iff db dt Hok Hdt) as Hg.
    destruct (blocked _) eqn:Hb; [apply blocked_iff in Hb|apply blocked_nil in Hb].
    + left. split; [right; tauto|eauto].
    + destruct (_ =?o None) eqn:Hr; [right|left].
      * apply is_none_iff in Hr. tauto.
      * split; [left; by rewrite <-is_none_iff, Hr|eauto].
  - intros r ct Hct Ht Hc. rewrite complete_company_run by done. unfold completing_company.
    rewrite Ht, Hc, find_company by done. pose proof (company_gate_iff db ct Hok Hct) as Hg.
    destruct (blocked _) eqn:Hb; [apply blocked_iff in Hb|apply blocked_nil in Hb].
    + left. split; [right; tauto|eauto].
    + destruct (_ =?o None) eqn:Hr; [right|left].
      * apply is_none_iff in Hr. tauto.
      * split; [left; by rewrite <-is_none_iff, Hr|eauto].
Qed.
End Follow.

Section StartSubmit.
Context (db : DB) (et : TS.EmployeeTask).
Hypotheses (Hok : tasks_ok db) (Het : et ∈ employee_tasks db).

Lemma find_changed db' status u : List.find (the_employee_task (TS.et_id et) (TS.et_company_id et)) (employee_tasks db') =
    Some et →
  List.find (the_employee_task (TS.et_id et) (TS.et_company_id et))
    (employee_tasks (with_employee (TS.et_id et) (TS.et_company_id et) (set_employee status u) db')) =
  Some (set_employee status u et).
Proof. intros Hf. apply (find_updated (R := TS.EmployeeTask) _ _ _ _ Hf). done. Qed.

(** The task after a command. *)
Definition moved (status now : string) (t : TS.EmployeeTask) (d : DB) : DB :=
  with_employee (TS.et_id t) (TS.et_company_id t) (set_employee status (Some now)) d.

Definition nothing_new (status : string) : CommandResult :=
  {| response := id_status (TS.et_id et) status; events := []; outbox := [] |}.

(** An employee task is started and submitted once.  From assigned or ready, the start
    at its version makes it running, and every later start, at any version, answers the
    same, without an event, and changes nothing; it is submitted only once it runs, at the
    version the start has left, and every later submission again answers without changing
    anything, while starting it is then a conflict. *)
Lemma start_submit_once rs su env1 env2 env3 :
  TS.et_status et ∈ ["assigned"; "ready"] →
  ss_task_id rs = TS.et_id et → ss_company_id rs = TS.et_company_id et → ss_expected_version rs = TS.et_version et →
  se_task_id su = TS.et_id et → se_company_id su = TS.et_company_id et → se_expected_version su = (TS.et_version et + 1)%Z →
  let db1 := moved "running" (now_ms env1) et db in
  let db2 := moved "submitted" (now_ms env2) et db1 in
  start_employee_task env1 rs db =
    (Ok (employee_changed env1 (TS.et_id et) (TS.et_company_id et) (TS.et_version et + 1) (TS.et_status et) "running" []), db1) ∧
  submit_employee_task env2 su db = (Err (ValueError "OPTIMISTIC_LOCK_CONFLICT"), db) ∧
  start_employee_task env3 rs db1 = (Ok (nothing_new "running"), db1) ∧
  submit_employee_task env2 su db1 =
    (Ok (employee_changed env2 (TS.et_id et) (TS.et_company_id et) (TS.et_version et + 2) "running" "submitted" []), db2) ∧
  submit_employee_task env3 su db2 = (Ok (nothing_new "submitted"), db2) ∧
  start_employee_task env3 rs db2 = (Err (ValueError "OPTIMISTIC_LOCK_CONFLICT"), db2).
Proof.
  intros Hst H1 H2 H3 H4 H5 H6 db1 db2. pose proof (find_employee db et Hok Het) as Hf0.
  pose proof (found_employee _ _ _ Hok _ Hf0) as (_ & _ & _ & Hrow).
  assert (TS.et_resume_state et = None) as Hr.
  { apply is_none_iff, no_resume; [done|]. by elem_cases Hst; rewrite Hst. }
  assert (tasks_ok db1) as Hok1 by (apply with_employee_ok; [done..|set_solver]).
  pose proof (find_changed db "running" (Some (now_ms env1)) Hf0) as Hf1. fold (moved "running" (now_ms env1) et db) db1 in Hf1.
  set (et1 := set_employee "running" (Some (now_ms env1)) et) in *.
  assert (et1 ∈ employee_tasks db1) as Het1 by (eapply (found_employee _ _ _ Hok1), Hf1).
  assert (List.find (the_employee_task (TS.et_id et) (TS.et_company_id et)) (employee_tasks db2) =
    Some (set_employee "submitted" (Some (now_ms env2)) et1)) as Hf2
    by (apply (find_updated (R := TS.EmployeeTask) _ _ _ _ Hf1); done).
  assert (tasks_ok db2) as Hok2 by (apply (with_employee_ok db1 et1); [done..|set_solver]).
  rewrite !start_run, !submit_run by done. unfold starting, submitting.
  rewrite H1, H2, H3, H4, H5, H6, Hf0, Hf1, Hf2. cbn [et1 set_employee TS.et_status TS.et_version].
  rewrite !Z.eqb_refl. replace (TS.et_version et + 1 + 1)%Z with (TS.et_version et + 2)%Z by lia.
  by elem_cases Hst; rewrite Hst.
Qed.
End StartSubmit.

(** ** The handlers on a small database *)

Module Demo.
Import WorkStore.Demo.
Definition env : Ambient := ReviewHandlers.Demo.env "z".
Definition ready : DB := db all_artifacts "submitted" "executing" "executing".
Definition accept : AcceptEmployeeTask := {| ae_company_id := "co"; ae_task_id := "et"; ae_expected_version := 1 |}.
Definition finish_department : CompleteDepartmentTask :=
  {| cd_company_id := "co"; cd_task_id := "dt"; cd_expected_version := 1 |}.
Definition finish_company : CompleteCompanyTask :=
  {| cc_company_id := "co"; cc_task_id := "ct"; cc_expected_version := 1 |}.
Definition statuses (d : DB) : list string :=
  map TS.et_status (employee_tasks d) ++ map TS.dt_status (department_tasks d) ++ map TS.ct_status (company_tasks d).
End Demo.

Lemma handlers_follow_gates_witness :
  Demo.statuses (accept_employee_task Demo.env Demo.accept Demo.ready).2 = ["accepted"; "executing"; "executing"] ∧
  (TS.et_resume_state (WorkStore.Demo.employee_task "submitted") = None ∧
   employee_ready Demo.ready (WorkStore.Demo.employee_task "submitted") (WorkStore.Demo.department_task "executing")).
Proof.
  split; [by vm_compute|].
  destruct (handlers_follow_gates Demo.env "now" Demo.ready) as [H _]; [by apply WorkStore.Demo.db_ok|].
  destruct (H Demo.accept (WorkStore.Demo.employee_task "submitted") (WorkStore.Demo.department_task "executing"))
    as [(_ & e & He)|(Hr & Hready & _)]; [by left|by left|done..| |done].
  by vm_compute in He.
Defined.

(** Bottom up the tasks end; in any other order the gates stay closed. *)
Lemma ended_below_completed_witness :
  let bottom_up := run_ops "now" [(Demo.env, Accept Demo.accept);
    (Demo.env, CompleteDepartment Demo.finish_department); (Demo.env, CompleteCompany Demo.finish_company)] Demo.ready in
  let top_down := run_ops "now" [(Demo.env, CompleteCompany Demo.finish_company);
    (Demo.env, CompleteDepartment Demo.finish_department); (Demo.env, Accept Demo.accept)] Demo.ready in
  Demo.statuses bottom_up = ["accepted"; "completed"; "completed"] ∧
  Demo.statuses top_down = ["accepted"; "executing"; "executing"] ∧
  tree_ok bottom_up.
Proof.
  intros bottom_up top_down. split_and!; [by vm_compute..|].
  apply ended_below_completed; [by apply WorkStore.Demo.db_ok|].
  split; [intros ? ? ->%list_elem_of_singleton|intros ? ? ->%list_elem_of_singleton]; done.
Defined.

Lemma start_submit_once_witness :
  let db := WorkStore.Demo.db [] "ready" "executing" "executing" in
  let start := {| ss_company_id := "co"; ss_task_id := "et"; ss_expected_version := 1 |} in
  let db1 := (start_employee_task Demo.env start db).2 in
  Demo.statuses db1 = ["running"; "executing"; "executing"] ∧
  start_employee_task Demo.env start db1 = (Ok (nothing_new (WorkStore.Demo.employee_task "ready") "running"), db1).
Proof.
  intros db start db1. split; [by vm_compute|].
  apply (start_submit_once db (WorkStore.Demo.employee_task "ready") (WorkStore.Demo.db_ok [] "ready" "executing" "executing" eq_refl eq_refl eq_refl)
    (proj2 (list_elem_of_singleton _ _) eq_refl) start
    {| se_company_id := "co"; se_task_id := "et"; se_run_id := "r"; se_expected_version := 2 |}
    Demo.env Demo.env Demo.env); [set_solver|done..].
Defined.

(** A task that was cancelled is accepted, whatever version the caller expects. *)
Example cancelled_task_accepted :
  let '(r, db) := accept_employee_task Demo.env {| ae_company_id := "co"; ae_task_id := "et"; ae_expected_version := 7 |}
    (WorkStore.Demo.db WorkStore.Demo.all_artifacts "cancelled" "completed" "completed") in
  (∃ out, r = Ok out) ∧ Demo.statuses db = ["accepted"; "completed"; "completed"].
Proof. vm_compute. split; [by eexists|done]. Qed.
