(* ===== verification/PlanStore.v ===== *)
(** * The tables behind plan confirmation and dispatch

    The task and review tables (WorkStore) beside those a run is built from: the plans,
    the dependencies of tasks, the frozen dispatch specifications, the two snapshots, the
    run queue, and what dispatch only reads.  [uuids] counts the identifiers drawn so far.

    A JSON column holds its value.  The columns of a table that nothing here reads or
    writes are left out. *)

From S2P Require Import Prelude PyStr Sql UnitOfWork Zoom WorkStore.
From S2P Require Scheduler.

(** ** Rows *)

Record EmployeeDependency := {
  ed_employee_task_id : string;
  ed_depends_on_task_id : string;
  ed_company_id : string;
  ed_created_at : string }.

Record DispatchSpec := {
  ds_employee_task_id : string;
  ds_company_id : string;
  ds_company_task_id : string;
  ds_department_task_id : string;
  ds_employee_id : string;
  ds_profile_version_id : string;
  ds_catalog_release_id : string;
  ds_runtime_binding : json;
  ds_routing_policy : json;
  ds_required_capability_tags : json;
  ds_adapter_type : string;
  ds_model_id : string;
  ds_task_workspace_id : string;
  ds_company_revision_id : string;
  ds_department_revision_id : string;
  ds_conversation_id : string;
  ds_workspace_repository_root : string;
  ds_workspace_grant_id : string;
  ds_created_at : string }.

Record AvailabilitySnapshot := {
  av_id : string;
  av_company_id : string;
  av_company_task_id : string;
  av_department_task_id : string;
  av_work_item_type : string;
  av_work_item_id : string;
  av_employee_id : string;
  av_base_profile_version_id : string;
  av_prospective_execution_sha256 : string;
  av_catalog_release_id : string;
  av_checks : json;
  av_overall_status : string;
  av_checked_at : string;
  av_expires_at : string }.

Record ExecutionSnapshot := {
  ex_id : string;
  ex_company_id : string;
  ex_company_task_id : string;
  ex_department_id : string;
  ex_department_task_id : string;
  ex_employee_task_id : string;
  ex_employee_id : string;
  ex_task_workspace_id : string;
  ex_snapshot_purpose : string;
  ex_work_item_id : string;
  ex_company_revision_id : string;
  ex_department_revision_id : string;
  ex_base_profile_version_id : string;
  ex_catalog_release_id : string;
  ex_runtime_binding : json;
  ex_content_sha256 : string;
  ex_routing_policy : json;
  ex_routing_policy_sha256 : option string;
  ex_routing_classifier_version : option string;
  ex_candidate_bindings : option json;
  ex_candidate_bindings_sha256 : option string;
  ex_created_at : string }.

(** What dispatch only reads. *)

Record Profile := { pf_id : string; pf_company_id : string; pf_status : string }.

Record ProfileVersion := {
  vr_id : string;
  vr_profile_id : string;
  vr_status : string;
  vr_profile_type : string;
  vr_runtime_binding : json;
  vr_routing_policy : json;
  vr_capability_tags : json;
  vr_catalog_release_id : string }.

Record Department := {
  dp_id : string;
  dp_company_id : string;
  dp_status : string;
  dp_current_revision_id : string }.

Record CatalogResource := {
  cr_release_id : string;
  cr_resource_type : string;
  cr_resource_id : string;
  cr_content : json }.

Record Grant := { wg_id : string; wg_company_id : string; wg_status : string }.

Record References := {
  base_profiles : list Profile;
  profile_versions : list ProfileVersion;
  departments : list Department;
  company_revision_of : list (string * string);                  (** company, current revision *)
  company_revisions : list (string * string);                    (** id, company *)
  department_revisions : list (string * string * string);        (** id, department, company *)
  conversations : list (string * string);                        (** id, company *)
  catalog_releases : list (string * string * string);            (** id, status, downloaded at *)
  catalog_resources : list CatalogResource;
  workspace_grants : list Grant }.

Record DB := {
  work : WorkStore.DB;
  plan_versions : list TS.PlanVersion;
  task_dependencies : list TS.TaskDependency;
  employee_task_dependencies : list EmployeeDependency;
  dispatch_specs : list DispatchSpec;
  availability_snapshots : list AvailabilitySnapshot;
  execution_snapshots : list ExecutionSnapshot;
  runtime_queue : list Scheduler.QueueItem;
  refs : References;
  uuids : nat }.

(** ** The other stores within this one *)

Ltac solve_plan := intros; repeat match goal with
  | db : DB |- _ => destruct db
  | db : WorkStore.DB |- _ => destruct db
  | db : RV.DB |- _ => destruct db
  | l : RV.Ledger |- _ => destruct l
  end; reflexivity.

#[export] Program Instance work_lens : Lens DB WorkStore.DB := {|
  view := work;
  put w db := {|
    work := w; plan_versions := plan_versions db; task_dependencies := task_dependencies db;
    employee_task_dependencies := employee_task_dependencies db; dispatch_specs := dispatch_specs db;
    availability_snapshots := availability_snapshots db;
    execution_snapshots := execution_snapshots db; runtime_queue := runtime_queue db;
    refs := refs db; uuids := uuids db |} |}.
Solve All Obligations with solve_plan.

Definition reviews_of (db : DB) : RV.DB := reviews (work db).
Definition with_reviews (r : RV.DB) (db : DB) : DB := put (put r (work db)) db.

#[export] Program Instance plan_reviews_lens : Lens DB RV.DB := {| view := reviews_of; put := with_reviews |}.
Solve All Obligations with solve_plan.

#[export] Instance plan_company_tasks : Table DB TS.CompanyTask := lens_table (Lens0 := work_lens).
#[export] Instance plan_employee_tasks : Table DB TS.EmployeeTask := lens_table (Lens0 := work_lens).
#[export] Instance plan_assignments : Table DB RV.AssignmentRow :=
  @lens_table DB RV.DB plan_reviews_lens RV.AssignmentRow RV.assignments_table.
#[export] Instance plan_event_db : EventDb DB := @lens_event_db DB RV.DB plan_reviews_lens RV.review_event_db.

Definition task_ref (id company : string) (db : DB) : bool :=
  (id, company) ∈? map (λ t, (TS.ct_id t, TS.ct_company_id t)) (company_tasks (work db)).
Definition department_task_ref (id company : string) (db : DB) : bool :=
  (id, company) ∈? map (λ t, (TS.dt_id t, TS.dt_company_id t)) (department_tasks (work db)).
Definition employee_task_ref (id company : string) (db : DB) : bool :=
  (id, company) ∈? map (λ t, (TS.et_id t, TS.et_company_id t)) (employee_tasks (work db)).
Definition employee_ref (id company : string) (db : DB) : bool :=
  (id, company) ∈? RV.employee_refs (reviews_of db).
Definition department_ref (id company : string) (db : DB) : bool :=
  (id, company) ∈? map (λ d, (dp_id d, dp_company_id d)) (departments (refs db)).
Definition version_ref (id : string) (db : DB) : bool := id ∈? map vr_id (profile_versions (refs db)).
Definition release_ref (id : string) (db : DB) : bool := id ∈? map (λ r, r.1.1) (catalog_releases (refs db)).

(** ** Constraints *)

#[export] Program Instance plan_department_tasks : Table DB TS.DepartmentTask := {|
  table_name := "department_tasks";
  rows db := department_tasks (work db);
  set_rows l db := put (set_rows l (work db)) db;
  row_ok := TS.department_task_ok;
  clash := clash (DB := WorkStore.DB);
  refs_ok db t := refs_ok (work db) t && department_ref (TS.dt_department_id t) (TS.dt_company_id t) db |}.
Solve All Obligations with solve_plan.

#[export] Program Instance plan_versions_table : Table DB TS.PlanVersion := {|
  table_name := "company_plan_versions"; rows := plan_versions;
  set_rows l db := {|
    work := work db; plan_versions := l; task_dependencies := task_dependencies db;
    employee_task_dependencies := employee_task_dependencies db; dispatch_specs := dispatch_specs db;
    availability_snapshots := availability_snapshots db;
    execution_snapshots := execution_snapshots db; runtime_queue := runtime_queue db;
    refs := refs db; uuids := uuids db |};
  row_ok := TS.plan_version_ok;
  clash a b := (TS.pv_id a =? TS.pv_id b) ||
    ((TS.pv_company_task_id a =? TS.pv_company_task_id b) && (TS.pv_version_number a =? TS.pv_version_number b)%Z);
  refs_ok db p := task_ref (TS.pv_company_task_id p) (TS.pv_company_id p) db |}.
Solve All Obligations with solve_plan.

#[export] Program Instance task_dependencies_table : Table DB TS.TaskDependency := {|
  table_name := "department_task_dependencies"; rows := task_dependencies;
  set_rows l db := {|
    work := work db; plan_versions := plan_versions db; task_dependencies := l;
    employee_task_dependencies := employee_task_dependencies db; dispatch_specs := dispatch_specs db;
    availability_snapshots := availability_snapshots db;
    execution_snapshots := execution_snapshots db; runtime_queue := runtime_queue db;
    refs := refs db; uuids := uuids db |};
  row_ok d := negb (TS.dep_department_task_id d =? TS.dep_depends_on_task_id d);
  clash a b := (TS.dep_department_task_id a =? TS.dep_department_task_id b) &&
               (TS.dep_depends_on_task_id a =? TS.dep_depends_on_task_id b);
  refs_ok db d :=
    let known id := existsb (λ t, (TS.dt_id t =? id) && (TS.dt_company_task_id t =? TS.dep_company_task_id d) &&
                              (TS.dt_company_id t =? TS.dep_company_id d)) (department_tasks (work db)) in
    known (TS.dep_department_task_id d) && known (TS.dep_depends_on_task_id d) |}.
Solve All Obligations with solve_plan.

#[export] Program Instance employee_dependencies_table : Table DB EmployeeDependency := {|
  table_name := "employee_task_dependencies"; rows := employee_task_dependencies;
  set_rows l db := {|
    work := work db; plan_versions := plan_versions db; task_dependencies := task_dependencies db;
    employee_task_dependencies := l; dispatch_specs := dispatch_specs db;
    availability_snapshots := availability_snapshots db;
    execution_snapshots := execution_snapshots db; runtime_queue := runtime_queue db;
    refs := refs db; uuids := uuids db |};
  row_ok _ := true;
  clash a b := (ed_employee_task_id a =? ed_employee_task_id b) &&
               (ed_depends_on_task_id a =? ed_depends_on_task_id b);
  refs_ok db d := employee_task_ref (ed_employee_task_id d) (ed_company_id d) db &&
                  employee_task_ref (ed_depends_on_task_id d) (ed_company_id d) db |}.
Solve All Obligations with solve_plan.

#[export] Program Instance dispatch_specs_table : Table DB DispatchSpec := {|
  table_name := "employee_task_dispatch_specs"; rows := dispatch_specs;
  set_rows l db := {|
    work := work db; plan_versions := plan_versions db; task_dependencies := task_dependencies db;
    employee_task_dependencies := employee_task_dependencies db; dispatch_specs := l;
    availability_snapshots := availability_snapshots db;
    execution_snapshots := execution_snapshots db; runtime_queue := runtime_queue db;
    refs := refs db; uuids := uuids db |};
  row_ok _ := true;
  clash a b := ds_employee_task_id a =? ds_employee_task_id b;
  refs_ok db d := employee_task_ref (ds_employee_task_id d) (ds_company_id d) db |}.
Solve All Obligations with solve_plan.

Definition run_purposes : list string :=
  ["interactive_turn"; "company_plan"; "task_execution"; "review"; "verification"; "repair"; "merge"; "summary"].

#[export] Program Instance availability_table : Table DB AvailabilitySnapshot := {|
  table_name := "employee_availability_snapshots"; rows := availability_snapshots;
  set_rows l db := {|
    work := work db; plan_versions := plan_versions db; task_dependencies := task_dependencies db;
    employee_task_dependencies := employee_task_dependencies db; dispatch_specs := dispatch_specs db;
    availability_snapshots := l; execution_snapshots := execution_snapshots db;
    runtime_queue := runtime_queue db; refs := refs db; uuids := uuids db |};
  row_ok a := (av_work_item_type a ∈? run_purposes) &&
    (py_len (av_prospective_execution_sha256 a) =? 64)%Z &&
    (av_overall_status a ∈? ["available"; "unavailable"]);
  clash a b := av_id a =? av_id b;
  refs_ok db a :=
    version_ref (av_base_profile_version_id a) db && release_ref (av_catalog_release_id a) db &&
    task_ref (av_company_task_id a) (av_company_id a) db &&
    department_task_ref (av_department_task_id a) (av_company_id a) db &&
    employee_ref (av_employee_id a) (av_company_id a) db |}.
Solve All Obligations with solve_plan.

Definition sha_or_null (o : option string) : bool :=
  match o with Some s => (py_len s =? 64)%Z | None => true end.

#[export] Program Instance execution_table : Table DB ExecutionSnapshot := {|
  table_name := "execution_snapshots"; rows := execution_snapshots;
  set_rows l db := {|
    work := work db; plan_versions := plan_versions db; task_dependencies := task_dependencies db;
    employee_task_dependencies := employee_task_dependencies db; dispatch_specs := dispatch_specs db;
    availability_snapshots := availability_snapshots db; execution_snapshots := l;
    runtime_queue := runtime_queue db; refs := refs db; uuids := uuids db |};
  row_ok e := (ex_snapshot_purpose e ∈? run_purposes) && (py_len (ex_content_sha256 e) =? 64)%Z &&
    sha_or_null (ex_routing_policy_sha256 e) && sha_or_null (ex_candidate_bindings_sha256 e);
  clash a b := (ex_id a =? ex_id b) ||
    ((ex_snapshot_purpose a =? ex_snapshot_purpose b) && (ex_work_item_id a =? ex_work_item_id b) &&
     (ex_employee_id a =? ex_employee_id b) && (ex_content_sha256 a =? ex_content_sha256 b));
  refs_ok db e :=
    version_ref (ex_base_profile_version_id e) db && release_ref (ex_catalog_release_id e) db &&
    task_ref (ex_company_task_id e) (ex_company_id e) db &&
    department_ref (ex_department_id e) (ex_company_id e) db &&
    department_task_ref (ex_department_task_id e) (ex_company_id e) db &&
    employee_task_ref (ex_employee_task_id e) (ex_company_id e) db &&
    employee_ref (ex_employee_id e) (ex_company_id e) db &&
    existsb (λ w, (tw_id w =? ex_task_workspace_id e) && (tw_company_task_id w =? ex_company_task_id e) &&
                  (tw_company_id w =? ex_company_id e)) (task_workspaces (work db)) &&
    ((ex_company_revision_id e, ex_company_id e) ∈? company_revisions (refs db)) &&
    ((ex_department_revision_id e, ex_department_id e, ex_company_id e) ∈? department_revisions (refs db)) |}.
Solve All Obligations with solve_plan.

#[export] Program Instance plan_queue_table : Table DB Scheduler.QueueItem := {|
  table_name := "runtime_queue"; rows := runtime_queue;
  set_rows l db := {|
    work := work db; plan_versions := plan_versions db; task_dependencies := task_dependencies db;
    employee_task_dependencies := employee_task_dependencies db; dispatch_specs := dispatch_specs db;
    availability_snapshots := availability_snapshots db;
    execution_snapshots := execution_snapshots db; runtime_queue := l; refs := refs db;
    uuids := uuids db |};
  row_ok := Scheduler.queue_ok; clash := Scheduler.queue_clash;
  refs_ok db q := Scheduler.q_company_id q ∈? RV.companies (reviews_of db) |}.
Solve All Obligations with solve_plan.

Definition run_purpose_ok (r : RV.ReviewRun) : bool :=
  let task := RV.rn_work_item_id r in
  let no_task := (RV.rn_department_task_id r =?o None) && (RV.rn_employee_task_id r =?o None) in
  ((RV.rn_run_purpose r ∈? ["task_execution"; "merge"]) &&
     negb (RV.rn_department_task_id r =?o None) && (RV.rn_employee_task_id r =?o Some task)) ||
  ((RV.rn_run_purpose r ∈? ["company_plan"; "summary"]) && no_task && (task =? RV.rn_company_task_id r)) ||
  ((RV.rn_run_purpose r =? "interactive_turn") && no_task && (task =? RV.rn_conversation_id r)) ||
  (RV.rn_run_purpose r ∈? ["review"; "verification"; "repair"]).

#[export] Program Instance plan_runs_table : Table DB RV.ReviewRun := {|
  table_name := "agent_runs";
  rows db := RV.agent_runs (reviews_of db);
  set_rows l db := with_reviews {|
    RV.review_assignments := RV.review_assignments (reviews_of db);
    RV.review_reports := RV.review_reports (reviews_of db);
    RV.review_issues := RV.review_issues (reviews_of db);
    RV.resolution_evidence := RV.resolution_evidence (reviews_of db);
    RV.idem_rows := RV.idem_rows (reviews_of db); RV.event_rows := RV.event_rows (reviews_of db);
    RV.outbox_rows := RV.outbox_rows (reviews_of db); RV.routing := RV.routing (reviews_of db);
    RV.artifacts := RV.artifacts (reviews_of db);
    RV.artifact_contributors := RV.artifact_contributors (reviews_of db);
    RV.employees := RV.employees (reviews_of db); RV.agent_runs := l;
    RV.companies := RV.companies (reviews_of db); RV.ledger := RV.ledger (reviews_of db) |} db;
  row_ok r := (RV.rn_run_purpose r ∈? run_purposes) && run_purpose_ok r &&
    (RV.rn_adapter_type r ∈? ["codex_cli"; "claude_code"; "opencode"; "api_model"]) &&
    (RV.rn_status r ∈? ["queued"; "probing"; "starting"; "running"; "waiting_approval"; "verifying";
       "retrying"; "succeeded"; "waiting_resource"; "cancelled"; "timed_out"; "failed"; "lost"]) &&
    (1 <=? RV.rn_attempt r)%Z && (RV.rn_attempt r <=? 6)%Z;
  clash a b := RV.rn_id a =? RV.rn_id b;
  refs_ok db r :=
    let company := RV.rn_company_id r in
    task_ref (RV.rn_company_task_id r) company db &&
    match RV.rn_department_task_id r with Some d => department_task_ref d company db | None => true end &&
    match RV.rn_employee_task_id r with Some t => employee_task_ref t company db | None => true end &&
    employee_ref (RV.rn_employee_id r) company db &&
    ((RV.rn_conversation_id r, company) ∈? conversations (refs db)) &&
    ((RV.rn_availability_snapshot_id r, company) ∈?
       map (λ a, (av_id a, av_company_id a)) (availability_snapshots db)) &&
    ((RV.rn_execution_snapshot_id r, company) ∈?
       map (λ e, (ex_id e, ex_company_id e)) (execution_snapshots db)) |}.
Solve All Obligations with solve_plan.

Definition with_review_tables (arts : list RV.Artifact) (ledger : RV.Ledger) (r : RV.DB) : RV.DB := {|
  RV.review_assignments := RV.review_assignments r; RV.review_reports := RV.review_reports r;
  RV.review_issues := RV.review_issues r; RV.resolution_evidence := RV.resolution_evidence r;
  RV.idem_rows := RV.idem_rows r; RV.event_rows := RV.event_rows r; RV.outbox_rows := RV.outbox_rows r;
  RV.routing := RV.routing r; RV.artifacts := arts;
  RV.artifact_contributors := RV.artifact_contributors r; RV.employees := RV.employees r;
  RV.agent_runs := RV.agent_runs r; RV.companies := RV.companies r; RV.ledger := ledger |}.

#[export] Program Instance plan_artifacts_table : Table DB RV.Artifact := {|
  table_name := "artifacts";
  rows db := RV.artifacts (reviews_of db);
  set_rows l db := with_reviews (with_review_tables l (RV.ledger (reviews_of db)) (reviews_of db)) db;
  row_ok a := (RV.ar_artifact_type a ∈? schema_artifact_types) &&
    (py_len (RV.ar_object_sha256 a) =? 64)%Z && (0 <=? RV.ar_object_size a)%Z &&
    (RV.ar_is_current a ∈? [0; 1]%Z) && (RV.ar_created_by_type a ∈? ["user"; "agent"; "system"]) &&
    Bool.eqb (RV.ar_created_by_type a =? "agent") (negb (RV.ar_created_by_run_id a =?o None));
  clash a b := RV.ar_id a =? RV.ar_id b;
  refs_ok db a := task_ref (RV.ar_company_task_id a) (RV.ar_company_id a) db &&
    RV.opt_ref (RV.ar_supersedes_artifact_id a) (RV.ar_company_id a) (RV.artifact_refs (reviews_of db)) &&
    RV.opt_ref (RV.ar_created_by_run_id a) (RV.ar_company_id a)
      (map (λ r, (RV.rn_id r, RV.rn_company_id r)) (RV.agent_runs (reviews_of db))) |}.
Solve All Obligations with solve_plan.

#[export] Program Instance plan_contributors_table : Table DB (string * string * string) := {|
  table_name := "artifact_contributors";
  rows db := RV.artifact_contributors (reviews_of db);
  set_rows l db := with_reviews {|
    RV.review_assignments := RV.review_assignments (reviews_of db);
    RV.review_reports := RV.review_reports (reviews_of db);
    RV.review_issues := RV.review_issues (reviews_of db);
    RV.resolution_evidence := RV.resolution_evidence (reviews_of db);
    RV.idem_rows := RV.idem_rows (reviews_of db); RV.event_rows := RV.event_rows (reviews_of db);
    RV.outbox_rows := RV.outbox_rows (reviews_of db); RV.routing := RV.routing (reviews_of db);
    RV.artifacts := RV.artifacts (reviews_of db); RV.artifact_contributors := l;
    RV.employees := RV.employees (reviews_of db); RV.agent_runs := RV.agent_runs (reviews_of db);
    RV.companies := RV.companies (reviews_of db); RV.ledger := RV.ledger (reviews_of db) |} db;
  row_ok _ := true;
  clash a b := (a.1.1 =? b.1.1) && (a.2 =? b.2);
  refs_ok db c := ((c.1.1, c.1.2) ∈? RV.artifact_refs (reviews_of db)) && employee_ref c.2 c.1.2 db |}.
Solve All Obligations with solve_plan.

#[export] Instance plan_issues : Table DB RV.IssueRow :=
  @lens_table DB RV.DB plan_reviews_lens RV.IssueRow RV.issues_table.

(** A fresh identifier. *)
Definition draw (uuid4 : nat → string) : tx DB string := λ db,
  (Ok (uuid4 (uuids db)), {|
    work := work db; plan_versions := plan_versions db; task_dependencies := task_dependencies db;
    employee_task_dependencies := employee_task_dependencies db; dispatch_specs := dispatch_specs db;
    availability_snapshots := availability_snapshots db;
    execution_snapshots := execution_snapshots db; runtime_queue := runtime_queue db;
    refs := refs db; uuids := S (uuids db) |}).

(** A company with two employees of one department, everything a run refers to and, of a
    company task, one department task with the employee tasks given. *)
Module Demo.
Definition sha : string := "0123456789abcdef0123456789abcdef0123456789abcdef0123456789abcdef".
Definition uuid4 (n : nat) : string := "u" +:+ pretty.pretty n.
Definition employee (id : string) : RV.Employee := {|
  RV.em_id := id; RV.em_company_id := "co"; RV.em_status := "active"; RV.em_department_id := "dep1";
  RV.em_base_profile_version_id := "pv" |}.
Definition artifact (id type : string) : RV.Artifact := {|
  RV.ar_id := id; RV.ar_company_id := "co"; RV.ar_company_task_id := "ct"; RV.ar_artifact_type := type;
  RV.ar_object_sha256 := sha; RV.ar_is_current := 1; RV.ar_created_by_type := "user";
  RV.ar_created_by_run_id := None; RV.ar_logical_name := id; RV.ar_object_size := 1;
  RV.ar_media_type := "text/plain"; RV.ar_metadata := JObj []; RV.ar_supersedes_artifact_id := None;
  RV.ar_created_at := "t" |}.
Definition review_spec : RV.SpecRow := {|
  RV.sp_id := "spec"; RV.sp_company_id := "co"; RV.sp_company_task_id := "ct"; RV.sp_artifact_type := "document";
  RV.sp_review_rounds := 2; RV.sp_confidence_threshold := PyFloat.f0_70; RV.sp_department_task_id := "dt";
  RV.sp_review_strategy := "sequential_refinement";
  RV.sp_contributor_employee_ids := JList [JStr "emp"];
  RV.sp_reviewer_employee_ids := JList [JStr "emp"; JStr "rev"; JStr "gone"] |}.
Definition review_tables (l : list RV.Artifact) : RV.DB := {|
  RV.review_assignments := []; RV.review_reports := []; RV.review_issues := [];
  RV.resolution_evidence := []; RV.idem_rows := []; RV.event_rows := []; RV.outbox_rows := [];
  RV.routing := RV.RS.Demo.db0; RV.artifacts := l; RV.artifact_contributors := [];
  RV.employees := [employee "emp"; employee "rev"]; RV.agent_runs := []; RV.companies := ["co"];
  RV.ledger := {| RV.review_report_scores := []; RV.reviewer_stats := []; RV.review_verdicts := [];
                  RV.deliverable_review_specs := [review_spec] |} |}.
Definition task (id status : string) (resume : option string) : TS.EmployeeTask := {|
  TS.et_id := id; TS.et_company_id := "co"; TS.et_department_task_id := "dt"; TS.et_employee_id := "emp";
  TS.et_task_kind := "standard"; TS.et_objective := "build"; TS.et_acceptance_criteria_json := JList [];
  TS.et_status := status; TS.et_resume_state := resume; TS.et_created_at := "t"; TS.et_updated_at := "t";
  TS.et_version := 1 |}.
Definition workspace : Workspace := {|
  tw_id := "ws"; tw_company_id := "co"; tw_company_task_id := "ct"; tw_workspace_grant_id := "wg";
  tw_repository_root := "/repo"; tw_status := "active" |}.
Definition version (tags : list string) : ProfileVersion := {|
  vr_id := "pv"; vr_profile_id := "pf"; vr_status := "published"; vr_profile_type := "agent_cli";
  vr_runtime_binding := JObj [("agent_cli", JStr "codex_cli")]; vr_routing_policy := JObj [];
  vr_capability_tags := JList (map JStr tags); vr_catalog_release_id := "rel" |}.
Definition references (tags : list string) : References := {|
  base_profiles := [{| pf_id := "pf"; pf_company_id := "co"; pf_status := "active" |}];
  profile_versions := [version tags];
  departments := [{| dp_id := "dep1"; dp_company_id := "co"; dp_status := "active"; dp_current_revision_id := "dr" |}];
  company_revision_of := [("co", "cr")]; company_revisions := [("cr", "co")];
  department_revisions := [("dr", "dep1", "co")]; conversations := [("v1", "co")];
  catalog_releases := [("rel", "active", "t")]; catalog_resources := [];
  workspace_grants := [{| wg_id := "wg"; wg_company_id := "co"; wg_status := "active" |}] |}.
Definition work_tables (ct : string) (dts : list TS.DepartmentTask) (ets : list TS.EmployeeTask)
    (arts : list RV.Artifact) : WorkStore.DB := {|
  reviews := review_tables arts; company_tasks := [WorkStore.Demo.company_task ct];
  department_tasks := dts; employee_tasks := ets; verifications := []; human_approvals := [];
  department_task_deliverables := []; task_workspaces := [workspace]; rework_attempts := [];
  rework_attempt_issues := [] |}.
Definition spec (task : string) : DispatchSpec := {|
  ds_employee_task_id := task; ds_company_id := "co"; ds_company_task_id := "ct"; ds_department_task_id := "dt";
  ds_employee_id := "emp"; ds_profile_version_id := "pv"; ds_catalog_release_id := "rel";
  ds_runtime_binding := JObj [("agent_cli", JStr "codex_cli")]; ds_routing_policy := JObj [];
  ds_required_capability_tags := JList [JStr "python"]; ds_adapter_type := "codex_cli";
  ds_model_id := "codex_cli"; ds_task_workspace_id := "ws"; ds_company_revision_id := "cr";
  ds_department_revision_id := "dr"; ds_conversation_id := "v1"; ds_workspace_repository_root := "/repo";
  ds_workspace_grant_id := "wg"; ds_created_at := "t" |}.
Definition edge (task on : string) : EmployeeDependency := {|
  ed_employee_task_id := task; ed_depends_on_task_id := on; ed_company_id := "co"; ed_created_at := "t" |}.
(** A chain of three segments, the first of them [first]. *)
Definition chain (first : string) (tags : list string) : DB := {|
  work := work_tables "executing" [WorkStore.Demo.department_task "executing"]
    [task "s1" first None; task "s2" "waiting_resource" (Some "assigned");
     task "s3" "waiting_resource" (Some "assigned")] [artifact "doc" "document"];
  plan_versions := []; task_dependencies := [];
  employee_task_dependencies := [edge "s2" "s1"; edge "s3" "s2"];
  dispatch_specs := [spec "s2"; spec "s3"]; availability_snapshots := []; execution_snapshots := [];
  runtime_queue := []; refs := references tags; uuids := 0 |}.
End Demo.
