(* ===== verification/RunBuilder.v ===== *)
(** * Building a run ([orchestration/run_builder.py])

    The rows every dispatched run consists of: its availability snapshot, its execution
    snapshot, the queued run and its entry in the run queue.  [sha256] is the digest of the
    text [json.dumps] makes of a value. *)

From S2P Require Import Prelude PyStr Sql UnitOfWork Zoom WorkStore PlanStore.
From S2P Require Scheduler.

(* [sidecar/ibreeze/orchestration/run_builder.py:23-54 RunSpec] *)
Record RunSpec := {
  rs_company_id : string;
  rs_company_task_id : string;
  rs_department_task_id : string;
  rs_department_id : string;
  rs_employee_task_id : string;
  rs_employee_id : string;
  rs_conversation_id : string;
  rs_task_workspace_id : string;
  rs_workspace_repository_root : string;
  rs_workspace_grant_id : string;
  rs_company_revision_id : string;
  rs_department_revision_id : string;
  rs_profile_version_id : string;
  rs_catalog_release_id : string;
  rs_runtime_binding : json;
  rs_adapter_type : string;
  rs_model_id : string;
  rs_objective : string;
  rs_availability_expires_at : string;
  rs_run_purpose : string;
  rs_priority : Z;
  rs_checks : json;
  rs_now : option string;
  rs_routing_policy : json;
  rs_routing_policy_sha256 : option string;
  rs_routing_classifier_version : option string;
  rs_candidate_bindings : option json;
  rs_candidate_bindings_sha256 : option string;
  rs_profile_type : string;
  rs_required_capability_tags : list string }.

Record BuiltRun := {
  br_run_id : string;
  br_job_id : string;
  br_avail_snap_id : string;
  br_exec_snap_id : string;
  br_spec_sha256 : string }.

(** [s or default] *)
Definition text_or (o : option string) (def : string) : string :=
  match o with Some s => if s =? "" then def else s | None => def end.

(** A value that is no object counts as the empty one. *)
Definition binding_of (j : json) : list (string * json) := match j with JObj d => d | _ => [] end.

(** The candidates of a run: company, employee, catalog release, profile type, runtime
    binding and routing policy give the canonical bindings, their digest and the mode. *)
Definition Resolver : Type :=
  string → string → string → string → list (string * json) → json →
  list CatalogResource → result (json * string * string).

Section RunBuilder.
Context (uuid4 : nat → string) (now_iso : string) (sha256 : json → string).
Context (resolve_candidate_bindings : Resolver).

Definition run_spec (s : RunSpec) : json :=
  let binding := binding_of (rs_runtime_binding s) in
  sorted_obj ([
    ("prompt", JStr (rs_objective s)); ("model_id", JStr (rs_model_id s));
    ("workspace", JStr (rs_workspace_repository_root s));
    ("workspace_grant_id", JStr (rs_workspace_grant_id s));
    ("agent_key", field binding "agent_cli");
    ("credential_ref", field_or binding "credential_ref" (JStr ""));
    ("provider_release_id", field_or binding "provider_release_id" (JStr ""));
    ("model_binding_id", field_or binding "model_binding_id" (JStr ""));
    ("provider_protocol", field_or binding "provider_protocol" (JStr ""));
    ("run_purpose", JStr (rs_run_purpose s)); ("adapter_type", JStr (rs_adapter_type s));
    ("required_capability_tags", JList (map JStr (rs_required_capability_tags s)))] ++
    (if rs_adapter_type s =? "api_model" then [("model", JStr (rs_model_id s))] else [])).

(** What the execution snapshot keeps of the candidates, and their digest. *)
Definition candidates_for (s : RunSpec) (db : DB) : result (option json * option string) :=
  if (rs_profile_type s =? "api_model") && (rs_candidate_bindings s =?o None) then
    '(bindings, digest, _) ← resolve_candidate_bindings (rs_company_id s) (rs_employee_id s)
      (rs_catalog_release_id s) (rs_profile_type s) (binding_of (rs_runtime_binding s))
      (rs_routing_policy s) (catalog_resources (refs db));
    Ok (Some bindings, Some digest)
  else Ok (rs_candidate_bindings s, rs_candidate_bindings_sha256 s).

Definition avail_row (s : RunSpec) (id : string) : AvailabilitySnapshot := {|
  av_id := id; av_company_id := rs_company_id s; av_company_task_id := rs_company_task_id s;
  av_department_task_id := rs_department_task_id s; av_work_item_type := rs_run_purpose s;
  av_work_item_id := rs_employee_task_id s; av_employee_id := rs_employee_id s;
  av_base_profile_version_id := rs_profile_version_id s;
  av_prospective_execution_sha256 := sha256 (run_spec s);
  av_catalog_release_id := rs_catalog_release_id s;
  av_checks := JObj [("checks", rs_checks s); ("overall", JStr "available")];
  av_overall_status := "available"; av_checked_at := text_or (rs_now s) now_iso;
  av_expires_at := rs_availability_expires_at s |}.

Definition exec_row (s : RunSpec) (id : string) (candidates : option json) (digest : option string)
    : ExecutionSnapshot := {|
  ex_id := id; ex_company_id := rs_company_id s; ex_company_task_id := rs_company_task_id s;
  ex_department_id := rs_department_id s; ex_department_task_id := rs_department_task_id s;
  ex_employee_task_id := rs_employee_task_id s; ex_employee_id := rs_employee_id s;
  ex_task_workspace_id := rs_task_workspace_id s; ex_snapshot_purpose := rs_run_purpose s;
  ex_work_item_id := rs_employee_task_id s; ex_company_revision_id := rs_company_revision_id s;
  ex_department_revision_id := rs_department_revision_id s;
  ex_base_profile_version_id := rs_profile_version_id s;
  ex_catalog_release_id := rs_catalog_release_id s;
  ex_runtime_binding := JObj (binding_of (rs_runtime_binding s));
  ex_content_sha256 := sha256 (run_spec s); ex_routing_policy := rs_routing_policy s;
  ex_routing_policy_sha256 := rs_routing_policy_sha256 s;
  ex_routing_classifier_version :=
    match rs_routing_classifier_version s with
    | Some v => if v =? "" then if rs_profile_type s =? "api_model" then Some "rules-v1" else None else Some v
    | None => if rs_profile_type s =? "api_model" then Some "rules-v1" else None
    end;
  ex_candidate_bindings := candidates; ex_candidate_bindings_sha256 := digest;
  ex_created_at := text_or (rs_now s) now_iso |}.

Definition run_row (s : RunSpec) (id avail exec : string) : RV.ReviewRun := {|
  RV.rn_id := id; RV.rn_company_id := rs_company_id s; RV.rn_employee_id := rs_employee_id s;
  RV.rn_run_purpose := rs_run_purpose s; RV.rn_status := "queued";
  RV.rn_company_task_id := rs_company_task_id s;
  RV.rn_department_task_id := Some (rs_department_task_id s);
  RV.rn_employee_task_id := Some (rs_employee_task_id s); RV.rn_work_item_id := rs_employee_task_id s;
  RV.rn_conversation_id := rs_conversation_id s; RV.rn_availability_snapshot_id := avail;
  RV.rn_execution_snapshot_id := exec; RV.rn_adapter_type := rs_adapter_type s;
  RV.rn_run_spec := run_spec s; RV.rn_attempt := 1; RV.rn_created_at := text_or (rs_now s) now_iso |}.

Definition queue_row (s : RunSpec) (id job run : string) : Scheduler.QueueItem := {|
  Scheduler.q_id := id; Scheduler.q_company_id := rs_company_id s;
  Scheduler.q_work_item_type := "employee_task"; Scheduler.q_work_item_id := rs_employee_task_id s;
  Scheduler.q_job_id := job; Scheduler.q_run_id := Some run; Scheduler.q_priority := rs_priority s;
  Scheduler.q_status := "ready"; Scheduler.q_queued_at := text_or (rs_now s) now_iso;
  Scheduler.q_leased_at := None |}.

(* [sidecar/ibreeze/orchestration/run_builder.py:63-243 build_run] *)
Definition build_run (s : RunSpec) : tx DB BuiltRun :=
  run_id ← draw uuid4;
  job_id ← draw uuid4;
  avail_snap_id ← draw uuid4;
  exec_snap_id ← draw uuid4;
  candidates ← gets (candidates_for s);
  '(candidate_json, candidate_hash) ← lift candidates;
  insert_row (avail_row s avail_snap_id);;
  insert_row (exec_row s exec_snap_id candidate_json candidate_hash);;
  insert_row (run_row s run_id avail_snap_id exec_snap_id);;
  queue_id ← draw uuid4;
  insert_row (queue_row s queue_id job_id run_id);;
  mret {| br_run_id := run_id; br_job_id := job_id; br_avail_snap_id := avail_snap_id;
          br_exec_snap_id := exec_snap_id; br_spec_sha256 := sha256 (run_spec s) |}.

(** ** What it adds *)

Definition appended {D R} `{!Table D R} (r : R) (d : D) : D := set_rows (rows d ++ [r]) d.

Definition drawn (n : nat) (db : DB) : DB := {|
  work := work db; plan_versions := plan_versions db; task_dependencies := task_dependencies db;
  employee_task_dependencies := employee_task_dependencies db; dispatch_specs := dispatch_specs db;
  availability_snapshots := availability_snapshots db;
  execution_snapshots := execution_snapshots db; runtime_queue := runtime_queue db;
  refs := refs db; uuids := n + uuids db |}.

(** The rows of the run whose first identifier is the [n]-th. *)
Definition with_run (s : RunSpec) (candidates : option json) (digest : option string) (db : DB) : DB :=
  let id k := uuid4 (k + uuids db)%nat in
  drawn 5 (appended (queue_row s (id 4%nat) (id 1%nat) (id 0%nat))
    (appended (run_row s (id 0%nat) (id 2%nat) (id 3%nat))
       (appended (exec_row s (id 3%nat) candidates digest) (appended (avail_row s (id 2%nat)) db)))).

Lemma insert_appended {D R} `{!Table D R} (r : R) (d d' : D) u :
  insert_row r d = (Ok u, d') → d' = appended r d ∧ row_ok r = true ∧ no_clash (rows d ++ [r]) = true.
Proof. by intros (? & ? & _ & ->)%insert_ok. Qed.

Lemma insert_or_ignore_appended {D R} `{!Table D R} (r : R) (d d' : D) n :
  insert_or_ignore r d = (Ok n, d') → d' = d ∨ d' = appended r d.
Proof.
  unfold insert_or_ignore. destruct (_ && _); [|intros [= _ <-]; by left].
  destruct (insert_row r d) as [[u|e] d1] eqn:Hi; [|done]. intros [= _ <-].
  apply insert_appended in Hi as [-> _]. by right.
Qed.

Lemma draw_ok db i db' : draw uuid4 db = (Ok i, db') ↔ i = uuid4 (uuids db) ∧ db' = drawn 1 db.
Proof. unfold draw, drawn. split; [intros [= <- <-]; done|intros [-> ->]; done]. Qed.

Lemma build_run_ok s db b db' : build_run s db = (Ok b, db') →
  ∃ candidates digest, candidates_for s db = Ok (candidates, digest) ∧
    db' = with_run s candidates digest db ∧ br_run_id b = uuid4 (uuids db) ∧
    br_spec_sha256 b = sha256 (run_spec s) ∧
    no_clash (runtime_queue db') = true ∧ no_clash (RV.agent_runs (reviews_of db')) = true.
Proof.
  unfold build_run. intros Hrun.
  do 4 (apply tx_bind_ok in Hrun as (? & ? & [-> ->]%draw_ok & Hrun)).
  apply tx_bind_ok in Hrun as (? & ? & [-> ->]%gets_ok & Hrun).
  apply tx_bind_ok in Hrun as ([c d] & ? & Hc & Hrun). unfold lift in Hc. injection Hc as Hc <-.
  do 2 (apply tx_bind_ok in Hrun as ([] & ? & [-> _]%insert_appended & Hrun)).
  apply tx_bind_ok in Hrun as ([] & ? & (-> & _ & Hruns)%insert_appended & Hrun).
  apply tx_bind_ok in Hrun as (? & ? & [-> ->]%draw_ok & Hrun).
  apply tx_bind_ok in Hrun as ([] & ? & (-> & _ & Hqueue)%insert_appended & [-> ->]%mret_ok).
  exists c, d. split_and!; [exact Hc|by destruct db as [[[]]]|done|done|exact Hqueue|exact Hruns].
Qed.

(** Whether a run can be built does not depend on the identifiers already drawn by others,
    and building one changes nothing but the four tables. *)
Lemma with_run_frame s c d db : let db' := with_run s c d db in
  company_tasks (work db') = company_tasks (work db) ∧
  department_tasks (work db') = department_tasks (work db) ∧
  employee_tasks (work db') = employee_tasks (work db) ∧
  task_workspaces (work db') = task_workspaces (work db) ∧
  employee_task_dependencies db' = employee_task_dependencies db ∧
  dispatch_specs db' = dispatch_specs db ∧ refs db' = refs db ∧
  RV.employees (reviews_of db') = RV.employees (reviews_of db) ∧
  uuids db' = (5 + uuids db)%nat ∧
  RV.agent_runs (reviews_of db') = RV.agent_runs (reviews_of db) ++
    [run_row s (uuid4 (uuids db)) (uuid4 (2 + uuids db)) (uuid4 (3 + uuids db))] ∧
  runtime_queue db' = runtime_queue db ++
    [queue_row s (uuid4 (4 + uuids db)) (uuid4 (1 + uuids db)) (uuid4 (uuids db))].
Proof. by destruct db as [[[]]]. Qed.
End RunBuilder.
