(* ===== verification/Dispatch.v ===== *)
(** * Dispatch after confirmation ([orchestration/dispatch_strategies.py])

    What goes on when a deliverable is published or an employee task accepted: reviewers
    are assigned to the artifact, and the segments that waited for the task are dispatched.
    Both work in the transaction of their caller.  [repr] is Python's, [sha256] the digest
    of a text; rows without an [ORDER BY] come in the order of the table.

    The theorems: the segments that go out are exactly the waiting ones whose dependencies
    are all accepted, each once, a second pass over the result does nothing; what goes out
    found everything its frozen specification names still alive; and a reviewer gets an
    assignment for an artifact at most once, never for work of their own. *)

From S2P Require Import Prelude PyStr Sql UnitOfWork Zoom WorkStore PlanStore RunBuilder.
From S2P Require Scheduler.

Section Dispatch.
Context (uuid4 : nat → string) (now expires_at : string) (sha256 : json → string).
Context (repr : json → string) (resolve_candidate_bindings : Resolver).

Definition status_word (ok : bool) : string := if ok then "available" else "unavailable".

Definition availability (check : string) (ok : bool) (detail : string) : json :=
  JObj [("check", JStr check); ("status", JStr (status_word ok)); ("detail", JStr detail)].

(** [tuple(sorted(set(l)))] of strings *)
Definition sorted_set (l : list string) : list string := sort_by String.leb (remove_dups l).

(** The strings among the members of a JSON array; nothing, if it is no array. *)
Definition strings_of (j : json) : list string :=
  match j with JList l => omap (λ x, match x with JStr s => Some s | _ => None end) l | _ => [] end.

(* [sidecar/ibreeze/orchestration/dispatch_strategies.py:43-65 _parse_frozen_capability_tags] *)
Definition _parse_frozen_capability_tags (raw : json) : option (list string) :=
  match raw with
  | JList items =>
      if forallb (λ j, match j with JStr s => negb (strip s =? "") && (s =? strip s) | _ => false end) items
      then Some (sorted_set (strings_of raw)) else None
  | _ => None
  end.

(** ** Reviews of a published artifact *)

(** [json.loads] makes a set of hashable members only. *)
Definition contributor_set (j : json) : option (list json) :=
  match iterate j with
  | Ok l => if forallb (λ x, match x with JList _ | JObj _ => false | _ => true end) l then Some l else None
  | Err _ => None
  end.

Definition first_round (company artifact reviewer sha id : string) : RV.AssignmentRow := {|
  RV.as_id := id; RV.as_company_id := company; RV.as_artifact_id := artifact;
  RV.as_reviewer_employee_id := reviewer; RV.as_review_round := 1; RV.as_reviewed_sha256 := sha;
  RV.as_status := "assigned"; RV.as_assigned_at := now; RV.as_submitted_at := None; RV.as_version := 1 |}.

Definition assigned_event (company assignment reviewer event trace : string) : EventRow := {|
  ev_event := {|
    event_id := event; event_type := "review.assigned"; aggregate_type := "review_assignment";
    aggregate_id := assignment; aggregate_version := 1; company_id := Some company;
    payload_json := sorted_obj [
      ("company_id", JStr company); ("aggregate_id", JStr assignment); ("version", JInt 1);
      ("assignment_id", JStr assignment); ("reviewer_employee_id", JStr reviewer)];
    trace_id := trace |};
  ev_occurred_at := now |}.

Definition assigned_outbox (payload : json) (event id : string) : OutboxRow := {|
  ob_id := id; ob_domain_event_id := event; ob_topic := "review.assigned"; ob_payload := Dumped payload;
  ob_status := "pending"; ob_attempts := 0; ob_next_attempt_at := now; ob_last_error := None;
  ob_created_at := now; ob_delivered_at := None |}.

(** Whether the reviewer may be assigned to the artifact. *)
Definition may_review (company artifact reviewer : string) (contributors : list json) (db : DB) : bool :=
  negb (JStr reviewer ∈? contributors) &&
  existsb (λ e, (RV.em_id e =? reviewer) && (RV.em_company_id e =? company) && (RV.em_status e =? "active"))
    (RV.employees (reviews_of db)) &&
  negb (RV.is_contributor artifact company reviewer (reviews_of db)).

(* [sidecar/ibreeze/orchestration/dispatch_strategies.py:119-178 maybe_dispatch_deliverable_reviews (loop body)] *)
Definition dispatch_review (company artifact sha : string) (contributors : list json) (reviewer : string)
    : tx DB (list (string * string)) :=
  allowed ← gets (may_review company artifact reviewer contributors);
  if negb allowed then mret [] else
  assignment_id ← draw uuid4;
  rowcount ← insert_or_ignore (first_round company artifact reviewer sha assignment_id);
  if negb (rowcount =? 1)%Z then mret [] else
  event_id ← draw uuid4;
  trace ← draw uuid4;
  let event := assigned_event company assignment_id reviewer event_id trace in
  insert_row event;;
  outbox_id ← draw uuid4;
  insert_row (assigned_outbox (payload_json (ev_event event)) event_id outbox_id);;
  mret [(assignment_id, reviewer)].

(** The assignments it has created, with their reviewers. *)
(* [sidecar/ibreeze/orchestration/dispatch_strategies.py:68-179 maybe_dispatch_deliverable_reviews] *)
Definition maybe_dispatch_deliverable_reviews (company task artifact type : string) (is_current : bool)
    : tx DB (list (string * string)) :=
  if negb is_current then mret [] else
  spec ← gets (λ db, List.find (λ s, (RV.sp_company_id s =? company) &&
    (RV.sp_company_task_id s =? task) && (RV.sp_artifact_type s =? type))
    (RV.deliverable_review_specs (RV.ledger (reviews_of db))));
  match spec with
  | None => mret []
  | Some spec =>
      match RV.sp_reviewer_employee_ids spec, contributor_set (RV.sp_contributor_employee_ids spec) with
      | JList reviewers, Some contributors =>
          row ← gets (λ db, List.find (λ a, (RV.ar_id a =? artifact) && (RV.ar_company_id a =? company) &&
            (RV.ar_is_current a =? 1)%Z) (RV.artifacts (reviews_of db)));
          match row with
          | None => mret []
          | Some row =>
              created ← for_each (λ r, dispatch_review company artifact (RV.ar_object_sha256 row)
                contributors (py_str repr r)) reviewers;
              mret (concat created)
          end
      | _, _ => mret []
      end
  end.

(** ** Segments that wait for an accepted task *)

(** What the probe reads of the employee, the profile version pinned and its profile. *)
Definition probed (employee version company : string) (db : DB)
    : option (RV.Employee * option ProfileVersion * option Profile) :=
  e ← List.find (λ e, (RV.em_id e =? employee) && (RV.em_company_id e =? company)) (RV.employees (reviews_of db));
  let v := List.find (λ v, vr_id v =? version) (profile_versions (refs db)) in
  Some (e, v, v' ← v; List.find (λ p, (pf_id p =? vr_profile_id v') && (pf_company_id p =? RV.em_company_id e))
                        (base_profiles (refs db))).

Definition opt_text (o : option string) : string := match o with Some s => s | None => "None" end.
Definition is_text (o : option string) (s : string) : bool := o =?o Some s.

(** The workspace with the status of its grant. *)
Definition workspace_of (workspace company : string) (db : DB) : option (Workspace * option string) :=
  w ← List.find (λ w, (tw_id w =? workspace) && (tw_company_id w =? company)) (task_workspaces (work db));
  Some (w, wg_status <$> List.find (λ g, (wg_id g =? tw_workspace_grant_id w) && (wg_company_id g =? tw_company_id w))
                           (workspace_grants (refs db))).

(** Of an employee that is gone, the details of the profile cannot be read. *)
(* [sidecar/ibreeze/orchestration/dispatch_strategies.py:353-493 _lazy_availability_checks] *)
Definition _lazy_availability_checks (company employee department version release : string)
    (required_tags : list string) (workspace grant : string) (db : DB) : result (list json * bool) :=
  match probed employee version company db with
  | None => Err (TypeErr "'NoneType' object is not subscriptable")
  | Some (e, v, p) =>
      let employee_ok := RV.em_status e =? "active" in
      let department_ok := RV.em_department_id e =? department in
      let profile_ok := is_text (vr_id <$> v) version && is_text (vr_status <$> v) "published" &&
                        is_text (pf_status <$> p) "active" in
      let required := List.filter (λ s, negb (strip s =? "")) required_tags in
      let tags := match v with Some v => strings_of (vr_capability_tags v) | None => [] end in
      let missing := sorted_set (List.filter (λ s, negb (s ∈? tags)) required) in
      let capability_ok := match missing with [] => true | _ => false end in
      let catalog_ok := is_text (vr_catalog_release_id <$> v) release in
      let w := workspace_of workspace company db in
      let workspace_ok := match w with
        | Some (w, g) => (tw_status w =? "active") && (tw_workspace_grant_id w =? grant) && is_text g "active"
        | None => false
        end in
      Ok ([
        availability "employee_status" employee_ok (RV.em_status e);
        availability "department_membership" department_ok (RV.em_department_id e);
        availability "profile_version" profile_ok (text_or (vr_status <$> v) "missing");
        availability "capability_tags" capability_ok
          (if capability_ok then String.concat "," (sorted_set required)
           else "missing:" +:+ String.concat "," missing);
        availability "catalog_release" catalog_ok (text_or (vr_catalog_release_id <$> v) "missing");
        availability "workspace_grant" workspace_ok
          (match w with Some (w, g) => tw_status w +:+ ":" +:+ opt_text g | None => "missing" end)],
        employee_ok && department_ok && profile_ok && capability_ok && catalog_ok && workspace_ok)
  end.

(* [sidecar/ibreeze/orchestration/dispatch_strategies.py:329-350 _dispatch_spec_for] *)
Definition _dispatch_spec_for (company task : string) (db : DB) : option (DispatchSpec * TS.DepartmentTask) :=
  s ← List.find (λ s, (ds_employee_task_id s =? task) && (ds_company_id s =? company)) (dispatch_specs db);
  d ← List.find (λ d, (TS.dt_id d =? ds_department_task_id s) && (TS.dt_company_id d =? ds_company_id s))
        (department_tasks (work db));
  Some (s, d).

Definition set_task (status : string) (t : TS.EmployeeTask) : TS.EmployeeTask := {|
  TS.et_id := TS.et_id t; TS.et_company_id := TS.et_company_id t;
  TS.et_department_task_id := TS.et_department_task_id t; TS.et_employee_id := TS.et_employee_id t;
  TS.et_task_kind := TS.et_task_kind t; TS.et_objective := TS.et_objective t;
  TS.et_acceptance_criteria_json := TS.et_acceptance_criteria_json t; TS.et_status := status;
  TS.et_resume_state := None; TS.et_created_at := TS.et_created_at t; TS.et_updated_at := now;
  TS.et_version := TS.et_version t + 1 |}.

Definition waiting (task company : string) (t : TS.EmployeeTask) : bool :=
  (TS.et_id t =? task) && (TS.et_company_id t =? company) && (TS.et_status t =? "waiting_resource").

(** The tasks that depend on the accepted one and wait. *)
Definition dependents (company accepted : string) (db : DB) : list string :=
  map ed_employee_task_id (List.filter (λ d, (ed_depends_on_task_id d =? accepted) &&
    (ed_company_id d =? company) && existsb (waiting (ed_employee_task_id d) (ed_company_id d))
      (employee_tasks (work db))) (employee_task_dependencies db)).

(** The tasks it depends on that are not accepted. *)
Definition pending (company task : string) (db : DB) : list EmployeeDependency :=
  List.filter (λ d, (ed_employee_task_id d =? task) && (ed_company_id d =? company) &&
    negb (existsb (λ t, (TS.et_id t =? ed_depends_on_task_id d) && (TS.et_company_id t =? ed_company_id d) &&
                        (TS.et_status t =? "accepted")) (employee_tasks (work db))))
    (employee_task_dependencies db).

Definition spec_of (company task : string) (s : DispatchSpec) (d : TS.DepartmentTask) (tags : list string)
    (checks : list json) : RunSpec := {|
  rs_company_id := company; rs_company_task_id := ds_company_task_id s;
  rs_department_task_id := ds_department_task_id s; rs_department_id := TS.dt_department_id d;
  rs_employee_task_id := task; rs_employee_id := ds_employee_id s;
  rs_conversation_id := ds_conversation_id s; rs_task_workspace_id := ds_task_workspace_id s;
  rs_workspace_repository_root := ds_workspace_repository_root s;
  rs_workspace_grant_id := ds_workspace_grant_id s;
  rs_company_revision_id := ds_company_revision_id s;
  rs_department_revision_id := ds_department_revision_id s;
  rs_profile_version_id := ds_profile_version_id s; rs_catalog_release_id := ds_catalog_release_id s;
  rs_runtime_binding := ds_runtime_binding s; rs_adapter_type := ds_adapter_type s;
  rs_model_id := ds_model_id s; rs_objective := TS.dt_objective d;
  rs_availability_expires_at := expires_at; rs_run_purpose := "task_execution"; rs_priority := 0;
  rs_checks := JList checks; rs_now := Some now; rs_routing_policy := ds_routing_policy s;
  rs_routing_policy_sha256 := Some (sha256 (ds_routing_policy s)); rs_routing_classifier_version := None;
  rs_candidate_bindings := None; rs_candidate_bindings_sha256 := None;
  rs_profile_type := if ds_adapter_type s =? "api_model" then "api_model" else "agent_cli";
  rs_required_capability_tags := tags |}.

(** The tags, the checks and whether all of them passed. *)
Definition probe (company : string) (s : DispatchSpec) (d : TS.DepartmentTask) (db : DB)
    : result (list string * list json * bool) :=
  match _parse_frozen_capability_tags (ds_required_capability_tags s) with
  | None => Ok ([], [availability "dispatch_spec" false "INVALID_CAPABILITY_TAGS"], false)
  | Some tags =>
      '(checks, available) ← _lazy_availability_checks company (ds_employee_id s) (TS.dt_department_id d)
        (ds_profile_version_id s) (ds_catalog_release_id s) tags (ds_task_workspace_id s)
        (ds_workspace_grant_id s) db;
      Ok (tags, checks, available)
  end.

(** The tasks dispatched and those failed. *)
(* [sidecar/ibreeze/orchestration/dispatch_strategies.py:217-325 advance_employee_task_graph (loop body)] *)
Definition advance_one (company task : string) : tx DB (list string * list string) :=
  blocked ← gets (pending company task);
  if negb (Nat.eqb (length blocked) 0) then mret ([], []) else
  row ← gets (_dispatch_spec_for company task);
  match row with
  | None => mret ([], [])
  | Some (s, d) =>
      probed ← gets (probe company s d);
      '(tags, checks, available) ← lift probed;
      if negb available then
        rowcount ← update (waiting task company) (set_task "failed");
        mret ([], if (rowcount =? 1)%Z then [task] else [])
      else
        rowcount ← update (waiting task company) (set_task "assigned");
        if negb (rowcount =? 1)%Z then mret ([], []) else
        build_run uuid4 now sha256 resolve_candidate_bindings (spec_of company task s d tags checks);;
        mret ([task], [])
  end.

(* [sidecar/ibreeze/orchestration/dispatch_strategies.py:182-326 advance_employee_task_graph] *)
Definition advance_employee_task_graph (company accepted : string) : tx DB (list string * list string) :=
  tasks ← gets (dependents company accepted);
  results ← for_each (advance_one company) tasks;
  mret (concat (map fst results), concat (map snd results)).
End Dispatch.

(** ** Lemmas *)

Section Advance.
Context (uuid4 : nat → string) (now expires_at : string) (sha256 : json → string).
Context (resolve_candidate_bindings : Resolver) (company : string).
Implicit Types db : DB.

Notation advance_one := (advance_one uuid4 now expires_at sha256 resolve_candidate_bindings company).

(** What becomes of a waiting segment: nothing yet, or whether everything its frozen
    specification names is still there. *)
Definition verdict (task : string) db : option bool :=
  match pending company task db, _dispatch_spec_for company task db with
  | [], Some (s, d) => match probe company s d db with Ok (_, _, ok) => Some ok | Err _ => Some false end
  | _, _ => None
  end.

Definition with_tasks (f : TS.EmployeeTask → TS.EmployeeTask) (task : string) db : DB :=
  set_rows (updated (waiting task company) f (employee_tasks (work db))) db.

(** The run of a segment and its queue entry. *)
Definition dispatched_as db (task : string) (rq : RV.ReviewRun * Scheduler.QueueItem) : Prop :=
  ∃ s d tags checks n, _dispatch_spec_for company task db = Some (s, d) ∧
    probe company s d db = Ok (tags, checks, true) ∧
    let spec := spec_of now expires_at sha256 company task s d tags checks in
    rq = (run_row now spec (uuid4 n) (uuid4 (2 + n)) (uuid4 (3 + n)),
          queue_row now spec (uuid4 (4 + n)) (uuid4 (1 + n)) (uuid4 n)).

Lemma task_row_ok status t : TS.employee_task_ok t = true → status ∈ ["assigned"; "failed"] →
  row_ok (DB := DB) (set_task now status t) = true.
Proof.
  unfold row_ok. simpl. unfold TS.employee_task_ok. intros H Hs. andbs. simpl.
  all: first [done|by elem_cases Hs; rewrite Hs].
Qed.

Lemma waiting_clash task (a b : TS.EmployeeTask) :
  waiting task company a = true → waiting task company b = true → clash (DB := DB) a b = true.
Proof. unfold waiting. simpl. intros. bools. apply String.eqb_eq. congruence. Qed.

(** The waiting row is updated, and it is the only one. *)
Lemma update_waiting status task t db :
  table_ok (R := TS.EmployeeTask) db = true → status ∈ ["assigned"; "failed"] →
  t ∈ employee_tasks (work db) → waiting task company t = true →
  update (waiting task company) (set_task now status) db = (Ok 1%Z, with_tasks (set_task now status) task db).
Proof.
  intros Hok Hs Ht Hw.
  rewrite (update_ext _ (λ x, waiting task company x && true)) by (intros; by rewrite andb_true_r).
  rewrite (update_found (R := TS.EmployeeTask) (waiting task company) (λ _, true) (set_task now status) db t Hok);
    try done; [|apply waiting_clash].
  rewrite task_row_ok; [done|exact (table_ok_row (R := TS.EmployeeTask) db t Hok Ht)|done].
Qed.

Lemma advance_one_ok task t db res db' :
  table_ok (R := TS.EmployeeTask) db = true → t ∈ employee_tasks (work db) → waiting task company t = true →
  advance_one task db = (Ok res, db') →
  (verdict task db = None ∧ res = ([], []) ∧ db' = db) ∨
  (verdict task db = Some false ∧ res = ([], [task]) ∧ db' = with_tasks (set_task now "failed") task db) ∨
  (verdict task db = Some true ∧ res = ([task], []) ∧ ∃ s d tags checks candidates digest,
     _dispatch_spec_for company task db = Some (s, d) ∧ probe company s d db = Ok (tags, checks, true) ∧
     db' = with_run uuid4 now sha256 (spec_of now expires_at sha256 company task s d tags checks) candidates digest
             (with_tasks (set_task now "assigned") task db)).
Proof.
  intros Hok Ht Hw Hrun. unfold Dispatch.advance_one in Hrun. unfold verdict.
  apply tx_bind_ok in Hrun as (? & ? & [-> ->]%gets_ok & Hrun).
  destruct (pending company task db) as [|x l]; [|apply mret_ok in Hrun as [-> ->]; by left]. simpl in Hrun.
  apply tx_bind_ok in Hrun as (? & ? & [-> ->]%gets_ok & Hrun).
  destruct (_dispatch_spec_for company task db) as [[s d]|] eqn:Hs; [|apply mret_ok in Hrun as [-> ->]; by left].
  apply tx_bind_ok in Hrun as (? & ? & [-> ->]%gets_ok & Hrun).
  apply tx_bind_ok in Hrun as ([[tags checks] ok] & ? & Hp & Hrun). unfold lift in Hp. injection Hp as Hp <-.
  rewrite Hp. right. destruct ok; simpl in Hrun; [right|left].
  - apply tx_bind_ok in Hrun as (n & db1 & Hu & Hrun).
    rewrite (update_waiting _ _ t) in Hu by (done || set_solver). injection Hu as <- <-. simpl in Hrun.
    apply tx_bind_ok in Hrun as (b & db2 & Hb & [-> ->]%mret_ok).
    apply build_run_ok in Hb as (c & g & _ & -> & _). split; [done|]. split; [done|].
    by exists s, d, tags, checks, c, g.
  - apply tx_bind_ok in Hrun as (n & db1 & Hu & [-> ->]%mret_ok).
    rewrite (update_waiting _ _ t) in Hu by (done || set_solver). by injection Hu as <- <-.
Qed.

Lemma advance_one_idle task db : verdict task db = None → advance_one task db = (Ok ([], []), db).
Proof.
  unfold verdict, Dispatch.advance_one, gets, mbind, tx_bind.
  destruct (pending company task db); [|done]. simpl.
  destruct (_dispatch_spec_for company task db) as [[s d]|]; [|done].
  by destruct (probe company s d db) as [[[? ?] ?]|].
Qed.

Lemma idle_loop todo db : (∀ x, x ∈ todo → verdict x db = None) →
  ∃ rs, for_each advance_one todo db = (Ok rs, db) ∧ concat (map fst rs) = [] ∧ concat (map snd rs) = [].
Proof.
  induction todo as [|x todo IH]; intros Hall; simpl; [by exists []|].
  destruct IH as (rs & Hrs & H1 & H2); [intros; apply Hall; by right|].
  unfold mbind, tx_bind, mret, tx_ret. rewrite advance_one_idle by (apply Hall; by left). rewrite Hrs.
  by exists (([], []) :: rs).
Qed.

(** What the verdict on every segment depends on, apart from which tasks are accepted. *)
Record same_base db0 db : Prop := {
  sb_dependencies : employee_task_dependencies db = employee_task_dependencies db0;
  sb_specs : dispatch_specs db = dispatch_specs db0;
  sb_departments : department_tasks (work db) = department_tasks (work db0);
  sb_workspaces : task_workspaces (work db) = task_workspaces (work db0);
  sb_employees : RV.employees (reviews_of db) = RV.employees (reviews_of db0);
  sb_refs : refs db = refs db0 }.

(** A waiting task of [todo] settles as the verdict has it. *)
Definition settle (todo : list string) db (t : TS.EmployeeTask) : TS.EmployeeTask :=
  if (TS.et_company_id t =? company) && (TS.et_status t =? "waiting_resource") && (TS.et_id t ∈? todo) then
    match verdict (TS.et_id t) db with
    | Some true => set_task now "assigned" t
    | Some false => set_task now "failed" t
    | None => t
    end
  else t.

Lemma settle_same todo db t :
  TS.et_id (settle todo db t) = TS.et_id t ∧ TS.et_company_id (settle todo db t) = TS.et_company_id t ∧
  (TS.et_status (settle todo db t) =? "accepted") = (TS.et_status t =? "accepted").
Proof.
  unfold settle. destruct (_ && _) eqn:Hb; [|done]. bools.
  destruct (verdict _ db) as [[]|]; [..|done]; split_and!; try done; simpl;
    match goal with H : TS.et_status t = _ |- _ => by rewrite H end.
Qed.

Lemma verdict_same db0 db todo task :
  same_base db0 db → employee_tasks (work db) = map (settle todo db0) (employee_tasks (work db0)) →
  verdict task db = verdict task db0.
Proof.
  intros [H1 H2 H3 H4 H5 H6] Hrows. unfold verdict, pending, _dispatch_spec_for. rewrite H1, H2, H3, Hrows.
  assert (∀ p, (∀ t, p (settle todo db0 t) = p t) →
    existsb p (map (settle todo db0) (employee_tasks (work db0))) = existsb p (employee_tasks (work db0))) as He.
  { intros p Hp. rewrite existsb_map. apply existsb_ext. intros t _. apply Hp. }
  match goal with |- context [List.filter ?f _] => set (p := f) end.
  match goal with |- _ = match List.filter ?f _ with _ => _ end => set (q := f) end.
  assert (List.filter p (employee_task_dependencies db0) = List.filter q (employee_task_dependencies db0)) as ->.
  { apply List.filter_ext. intros d. unfold p, q. f_equal. f_equal. apply He. intros t.
    destruct (settle_same todo db0 t) as (-> & -> & ->). done. }
  destruct (List.filter q _); [|done].
  destruct (List.find _ _) as [s|]; [|done]. cbn [mbind option_bind].
  destruct (List.find _ _) as [d|]; [|done]. cbn [mbind option_bind].
  unfold probe, _lazy_availability_checks, probed, workspace_of. by rewrite H4, H5, H6.
Qed.
Record progress db0 (todo : list string) db : Prop := {
  pg_base : same_base db0 db;
  pg_tasks : employee_tasks (work db) = map (settle todo db0) (employee_tasks (work db0));
  pg_runs : ∃ pairs, RV.agent_runs (reviews_of db) = RV.agent_runs (reviews_of db0) ++ map fst pairs ∧
    runtime_queue db = runtime_queue db0 ++ map snd pairs ∧
    Forall2 (dispatched_as db0) (filter (λ x, verdict x db0 = Some true) todo) pairs }.

Lemma settle_waiting todo db0 x t :
  waiting x company (settle todo db0 t) = true → settle todo db0 t = t.
Proof.
  unfold settle. destruct (_ && _); [|done]. destruct (verdict _ _) as [[]|]; [..|done];
    unfold waiting; simpl; rewrite ?andb_false_r; done.
Qed.

Lemma settle_fresh todo db0 x t : x ∉ todo → waiting x company t = true → settle todo db0 t = t.
Proof.
  unfold waiting, settle. intros Hx Hw. bools. subst.
  by rewrite (not_elem_of_mem (TS.et_id t) todo Hx), andb_false_r.
Qed.

Lemma settle_snoc todo db0 x t :
  settle (todo ++ [x]) db0 t =
    if waiting x company t then
      match verdict x db0 with
      | Some true => set_task now "assigned" t | Some false => set_task now "failed" t | None => t
      end
    else settle todo db0 t.
Proof.
  unfold settle, waiting. destruct (TS.et_company_id t =? company) eqn:Hc; simpl; [|by rewrite andb_false_r].
  destruct (TS.et_status t =? "waiting_resource") eqn:Hs; simpl; [|by rewrite andb_false_r].
  rewrite !andb_true_r. destruct (TS.et_id t =? x) eqn:Hx.
  - apply String.eqb_eq in Hx as <-. by rewrite elem_of_mem by set_solver.
  - apply String.eqb_neq in Hx. destruct (TS.et_id t ∈? todo) eqn:Hm; bools.
    + by rewrite elem_of_mem by set_solver.
    + by rewrite not_elem_of_mem by set_solver.
Qed.

(** The update of one waiting task, on the tasks settled so far. *)
Lemma updated_settled todo db0 x f l :
  x ∉ todo →
  (∀ t, t ∈ l → waiting x company t = true →
     f t = match verdict x db0 with
           | Some true => set_task now "assigned" t | Some false => set_task now "failed" t | None => t
           end) →
  updated (waiting x company) f (map (settle todo db0) l) = map (settle (todo ++ [x]) db0) l.
Proof.
  intros Hx Hf. unfold updated. rewrite map_map. apply List.map_ext_in. intros t Ht%list_elem_of_In.
  rewrite settle_snoc. destruct (waiting x company t) eqn:Hw.
  - rewrite (settle_fresh _ _ x) by done. rewrite Hw. by apply Hf.
  - destruct (waiting x company (settle todo db0 t)) eqn:Hw'; [|done].
    by rewrite (settle_waiting _ _ _ _ Hw'), Hw in Hw'.
Qed.

Lemma settled_ok todo db0 db : table_ok (R := TS.EmployeeTask) db0 = true →
  employee_tasks (work db) = map (settle todo db0) (employee_tasks (work db0)) →
  table_ok (R := TS.EmployeeTask) db = true.
Proof.
  intros Hok Hrows. unfold table_ok in *. change (rows db) with (employee_tasks (work db)).
  change (rows db0) with (employee_tasks (work db0)) in Hok. rewrite Hrows.
  apply andb_true_iff in Hok as [Hr Hc]. apply andb_true_iff. split.
  - rewrite forallb_map. apply forallb_forall. intros t Ht. rewrite forallb_forall in Hr.
    specialize (Hr t Ht). unfold settle. destruct (_ && _); [|done].
    destruct (verdict _ _) as [[]|]; [..|done]; apply task_row_ok; (done || set_solver).
  - assert (map (settle todo db0) (employee_tasks (work db0)) =
      updated (λ _, true) (settle todo db0) (employee_tasks (work db0))) as -> by done.
    rewrite (no_clash_updated (DB := DB)); [done|..]; intros a b; simpl.
    + by destruct (settle_same todo db0 a) as (-> & _).
    + by destruct (settle_same todo db0 b) as (-> & _).
Qed.
Lemma same_base_tasks db0 f x db : same_base db0 db → same_base db0 (with_tasks f x db).
Proof. intros []. by destruct db as [[[]]]. Qed.

Lemma same_base_run db0 s c g db : same_base db0 db → same_base db0 (with_run uuid4 now sha256 s c g db).
Proof. intros []. by destruct db as [[[]]]. Qed.

Lemma advance_step db0 todo x t res db db' :
  table_ok (R := TS.EmployeeTask) db0 = true → x ∉ todo →
  t ∈ employee_tasks (work db0) → waiting x company t = true →
  progress db0 todo db → advance_one x db = (Ok res, db') →
  progress db0 (todo ++ [x]) db' ∧
  res = match verdict x db0 with Some true => ([x], []) | Some false => ([], [x]) | None => ([], []) end.
Proof.
  intros Hok Hx Ht Hw [Hbase Htasks (pairs & Hr & Hq & Hp)] Hrun.
  pose proof (settled_ok todo db0 db Hok Htasks) as Hok'.
  assert (t ∈ employee_tasks (work db)) as Ht'.
  { rewrite Htasks, <-(settle_fresh todo db0 x t Hx Hw). apply list_elem_of_In, in_map, list_elem_of_In, Ht. }
  pose proof (verdict_same db0 db todo x Hbase Htasks) as Hv.
  apply (advance_one_ok x t) in Hrun; [|done..]. rewrite Hv in Hrun.
  assert (∀ f, employee_tasks (work (with_tasks f x db)) =
    updated (waiting x company) f (map (settle todo db0) (employee_tasks (work db0)))) as Hwt
    by by intros; rewrite <-Htasks.
  destruct Hrun as [(Hn & -> & ->)|[(Hn & -> & ->)|(Hn & -> & s & d & tags & checks & c & g & Hs & Hprobe & ->)]];
    rewrite Hn; (split; [|done]); split.
  - done.
  - rewrite Htasks, <-(updated_settled todo db0 x (λ t, t)); [|done|by rewrite Hn].
    unfold updated. rewrite List.map_map. apply List.map_ext. intros y. by case_match.
  - exists pairs. rewrite filter_app, filter_cons_False, filter_nil, app_nil_r by (rewrite Hn; congruence). done.
  - by apply same_base_tasks.
  - rewrite Hwt. apply updated_settled; [done|]. by rewrite Hn.
  - exists pairs. rewrite filter_app, filter_cons_False, filter_nil, app_nil_r by (rewrite Hn; congruence).
    by destruct db as [[[]]].
  - by apply same_base_run, same_base_tasks.
  - destruct (with_run_frame uuid4 now sha256 (spec_of now expires_at sha256 company x s d tags checks) c g
      (with_tasks (set_task now "assigned") x db)) as (_ & _ & -> & _).
    rewrite Hwt. apply updated_settled; [done|]. by rewrite Hn.
  - destruct (with_run_frame uuid4 now sha256 (spec_of now expires_at sha256 company x s d tags checks) c g
      (with_tasks (set_task now "assigned") x db)) as (_ & _ & _ & _ & _ & _ & _ & _ & _ & -> & ->).
    eexists (pairs ++ [(_, _)]). rewrite !map_app, filter_app, filter_cons_True, filter_nil by done.
    split; [|split].
    + change (RV.agent_runs (reviews_of (with_tasks (set_task now "assigned") x db))) with (RV.agent_runs (reviews_of db)).
      rewrite Hr, <-app_assoc. reflexivity.
    + change (runtime_queue (with_tasks (set_task now "assigned") x db)) with (runtime_queue db).
      rewrite Hq, <-app_assoc. reflexivity.
    + apply Forall2_app; [done|]. constructor; [|constructor].
      exists s, d, tags, checks, (uuids db). split; [|split; [|done]].
      * unfold _dispatch_spec_for in *. destruct Hbase as [_ Hsp Hde _ _ _]. by rewrite <-Hsp, <-Hde.
      * unfold probe, _lazy_availability_checks, probed, workspace_of in *. destruct Hbase as [_ _ _ Hws Hem Href].
        by rewrite <-Hws, <-Hem, <-Href.
Qed.
Lemma advance_loop db0 todo : table_ok (R := TS.EmployeeTask) db0 = true →
  ∀ done db rs db', NoDup (done ++ todo) →
  (∀ x, x ∈ todo → ∃ t, t ∈ employee_tasks (work db0) ∧ waiting x company t = true) →
  progress db0 done db → for_each advance_one todo db = (Ok rs, db') →
  progress db0 (done ++ todo) db' ∧
  concat (map fst rs) = filter (λ x, verdict x db0 = Some true) todo ∧
  concat (map snd rs) = filter (λ x, verdict x db0 = Some false) todo.
Proof.
  intros Hok. induction todo as [|x todo IH]; intros done db rs db' Hnd Hall Hpr Hrun.
  - apply mret_ok in Hrun as [-> ->]. by rewrite app_nil_r.
  - simpl in Hrun. apply tx_bind_ok in Hrun as (res & db1 & Hx & Hrun).
    apply tx_bind_ok in Hrun as (rs' & db2 & Hrest & [-> ->]%mret_ok).
    destruct (Hall x) as (t & Ht & Hw); [by left|].
    assert (x ∉ done) as Hxd by (apply NoDup_app in Hnd as (_ & Hd & _); intros Hin; apply (Hd x Hin); by left).
    destruct (advance_step db0 done x t res db db1) as [Hpr' ->]; [done..|].
    rewrite cons_middle, app_assoc in Hnd.
    destruct (IH (done ++ [x]) db1 rs' db2 Hnd) as (Hend & H1 & H2); [intros; apply Hall; by right|done..|].
    rewrite <-app_assoc in Hend. simpl. rewrite H1, H2. split; [exact Hend|].
    rewrite !filter_cons. destruct (verdict x db0) as [[]|]; simpl; by repeat case_decide.
Qed.

Lemma progress_start db : progress db [] db.
Proof.
  split; [done| |].
  - rewrite <-(map_id (employee_tasks (work db))) at 1. apply List.map_ext. intros t.
    unfold settle. rewrite not_elem_of_mem by apply not_elem_of_nil. by rewrite andb_false_r.
  - exists []. simpl. by rewrite !app_nil_r.
Qed.

Lemma dependents_nodup accepted db : table_ok (R := EmployeeDependency) db = true →
  NoDup (dependents company accepted db).
Proof.
  intros Hok%table_no_clash. change (rows db) with (employee_task_dependencies db) in Hok. unfold dependents.
  induction (employee_task_dependencies db) as [|d l IH]; simpl; [constructor|].
  simpl in Hok. apply andb_true_iff in Hok as [Hd Hl]. specialize (IH Hl).
  destruct (_ && _) eqn:Hb; [|done]. simpl. constructor; [|done].
  intros (d' & Heq & Hin%list_elem_of_In)%list_elem_of_In%in_map_iff.
  apply list_elem_of_In, filter_In in Hin as [Hin Hb']. bools.
  apply not_true_iff_false in Hd. apply Hd, existsb_exists. exists d'. split; [done|].
  simpl. rewrite Heq, String.eqb_refl. simpl. apply String.eqb_eq. congruence.
Qed.

(** What still waits for an accepted task after it was delivered is not settled. *)
Lemma settled_dependents accepted db db' x :
  same_base db db' →
  employee_tasks (work db') = map (settle (dependents company accepted db) db) (employee_tasks (work db)) →
  x ∈ dependents company accepted db' → verdict x db = None.
Proof.
  intros Hbase Htasks Hx. unfold dependents in Hx. rewrite (sb_dependencies _ _ Hbase), Htasks in Hx.
  apply list_elem_of_In, in_map_iff in Hx as (d & <- & Hd). apply filter_In in Hd as [Hin Hd].
  apply andb_true_iff in Hd as [Hd Hex]. rewrite existsb_map in Hex.
  apply existsb_elem in Hex as (t & Ht & Hw). pose proof Hd as [Ha Hc%String.eqb_eq]%andb_true_iff.
  rewrite Hc in Hw. pose proof (settle_waiting _ _ _ _ Hw) as Hs. rewrite Hs in Hw.
  assert (ed_employee_task_id d ∈ dependents company accepted db) as Hdep.
  { unfold dependents. apply list_elem_of_In, in_map_iff. exists d. split; [done|]. apply filter_In.
    split; [done|]. rewrite Hd. apply existsb_elem. exists t. by rewrite Hc. }
  pose proof Hw as Hw'. unfold waiting in Hw'. bools. unfold settle in Hs.
  assert (TS.et_id t = ed_employee_task_id d) as Hid by done.
  rewrite Hid, elem_of_mem in Hs by done.
  replace (TS.et_company_id t =? company) with true in Hs by (symmetry; by apply String.eqb_eq).
  replace (TS.et_status t =? "waiting_resource") with true in Hs by (symmetry; by apply String.eqb_eq).
  simpl in Hs. destruct (verdict _ db) as [[]|]; [..|done]; exfalso;
    apply (f_equal TS.et_status) in Hs; simpl in Hs; congruence.
Qed.

Lemma dependents_wait accepted db x : x ∈ dependents company accepted db →
  ∃ t, t ∈ employee_tasks (work db) ∧ waiting x company t = true.
Proof.
  unfold dependents. intros (d & <- & Hd)%list_elem_of_In%in_map_iff. apply filter_In in Hd as [_ Hd].
  apply andb_true_iff in Hd as [Hd (t & Ht & Hw)%existsb_elem].
  apply andb_true_iff in Hd as [_ Hc%String.eqb_eq]. rewrite Hc in Hw. eauto.
Qed.
End Advance.

(** ** Properties *)

Section Properties.
Context (uuid4 : nat → string) (now expires_at : string) (sha256 : json → string).
Context (repr : json → string) (resolve_candidate_bindings : Resolver).
Notation advance := (advance_employee_task_graph uuid4 now expires_at sha256 resolve_candidate_bindings).

(** Everything the frozen specification of a segment names is there and as it was. *)
Record live (company : string) (s : DispatchSpec) (d : TS.DepartmentTask) (db : DB) : Prop := {
  lv_employee : ∃ e, e ∈ RV.employees (reviews_of db) ∧ RV.em_id e = ds_employee_id s ∧
    RV.em_company_id e = company ∧ RV.em_status e = "active" ∧ RV.em_department_id e = TS.dt_department_id d;
  lv_profile : ∃ v p tags, v ∈ profile_versions (refs db) ∧ vr_id v = ds_profile_version_id s ∧
    vr_status v = "published" ∧ vr_catalog_release_id v = ds_catalog_release_id s ∧
    p ∈ base_profiles (refs db) ∧ pf_id p = vr_profile_id v ∧ pf_company_id p = company ∧ pf_status p = "active" ∧
    _parse_frozen_capability_tags (ds_required_capability_tags s) = Some tags ∧
    ∀ g, g ∈ tags → g ∈ strings_of (vr_capability_tags v);
  lv_workspace : ∃ w g, w ∈ task_workspaces (work db) ∧ tw_id w = ds_task_workspace_id s ∧
    tw_company_id w = company ∧ tw_status w = "active" ∧ tw_workspace_grant_id w = ds_workspace_grant_id s ∧
    g ∈ workspace_grants (refs db) ∧ wg_id g = ds_workspace_grant_id s ∧ wg_company_id g = company ∧
    wg_status g = "active" }.

Lemma find_key {A} (p : A → bool) l x : List.find p l = Some x → x ∈ l ∧ p x = true.
Proof. intros [H1 H2]%List.find_some. by rewrite list_elem_of_In. Qed.

Lemma is_text_iff o s : is_text o s = true ↔ o = Some s.
Proof. apply bool_decide_eq_true. Qed.

Lemma sorted_set_elem x l : x ∈ sorted_set l ↔ x ∈ l.
Proof. unfold sorted_set. by rewrite elem_of_sort_by, elem_of_remove_dups. Qed.

Lemma parse_tags_ok raw tags g : _parse_frozen_capability_tags raw = Some tags → g ∈ tags → (strip g =? "") = false.
Proof.
  destruct raw as [| | | | |items|]; try done. unfold _parse_frozen_capability_tags.
  destruct (forallb _ _) eqn:Hf; [|done]. intros [= <-]. rewrite sorted_set_elem. simpl.
  rewrite list_elem_of_omap. intros (j & Hj & Hg). rewrite forallb_forall in Hf.
  specialize (Hf j (proj1 (list_elem_of_In _ _) Hj)). destruct j; try done. injection Hg as ->. apply andb_true_iff in Hf as [Hf _]. by apply negb_true_iff in Hf.
Qed.

Lemma probe_live company s d db tags checks :
  probe company s d db = Ok (tags, checks, true) → live company s d db.
Proof.
  unfold probe. destruct (_parse_frozen_capability_tags _) as [tags'|] eqn:Htags; [|done].
  destruct (_lazy_availability_checks _ _ _ _ _ _ _ _ _) as [[c ok]|] eqn:Hc; [|done].
  intros [= -> _ ->]. unfold _lazy_availability_checks in Hc.
  destruct (probed _ _ _ _) as [[[e v] p]|] eqn:Hp; [|done]. injection Hc as _ Hok.
  unfold probed in Hp. destruct (List.find _ (RV.employees _)) as [e'|] eqn:He; [|done].
  injection Hp as -> Hv Hpf. apply find_key in He as [He Hek]. andbs.
  repeat match goal with H : is_text _ _ = true |- _ => apply is_text_iff in H end.
  bools. destruct v as [v|]; [|done]. simpl in *.
  rewrite Hv in Hpf. apply find_key in Hv as [Hv Hvk]. destruct p as [p|]; [|done]. apply find_key in Hpf as [Hpf Hpk]. simpl in *.
  destruct (workspace_of _ _ _) as [[w g]|] eqn:Hw; [|done].
  unfold workspace_of in Hw. destruct (List.find _ (task_workspaces _)) as [w'|] eqn:Hfw; [|done].
  injection Hw as -> Hg. apply find_key in Hfw as [Hfw Hwk]. bools.
  match goal with H : is_text g _ = true |- _ => apply is_text_iff in H; subst g end.
  destruct (List.find _ (workspace_grants _)) as [g|] eqn:Hfg; [|done]. apply find_key in Hfg as [Hfg Hgk]. bools.
  split.
  - exists e. by split_and!.
  - exists v, p, tags. split_and!; try congruence; [done..|].
    intros x Hx. destruct (decide (x ∈ strings_of (vr_capability_tags v))) as [|Hno]; [done|exfalso].
    match goal with H : context [sorted_set ?m] |- _ => destruct (sorted_set m) eqn:Hm; [|done] end.
    apply (not_elem_of_nil x). rewrite <-Hm, sorted_set_elem. apply list_elem_of_In, filter_In.
    rewrite filter_In, <-list_elem_of_In, (parse_tags_ok _ _ _ Htags Hx), (not_elem_of_mem _ _ Hno). done.
  - exists w, g. simpl in *. split_and!; congruence || done.
Qed.

Lemma verdict_live company task db : verdict company task db = Some true →
  (∀ e, e ∈ employee_task_dependencies db → ed_employee_task_id e = task → ed_company_id e = company →
     ∃ t, t ∈ employee_tasks (work db) ∧ TS.et_id t = ed_depends_on_task_id e ∧ TS.et_company_id t = company ∧
          TS.et_status t = "accepted") ∧
  ∃ s d, _dispatch_spec_for company task db = Some (s, d) ∧ live company s d db.
Proof.
  unfold verdict. destruct (pending company task db) as [|x l] eqn:Hpend; [|done].
  destruct (_dispatch_spec_for company task db) as [[s d]|]; [|done].
  destruct (probe company s d db) as [[[tags checks] ok]|] eqn:Hp; [|done]. intros [= ->]. split.
  - intros e He Ht Hc. unfold pending in Hpend.
    destruct (existsb (λ t, (TS.et_id t =? ed_depends_on_task_id e) && (TS.et_company_id t =? ed_company_id e) &&
      (TS.et_status t =? "accepted")) (employee_tasks (work db))) eqn:Hex.
    + apply existsb_elem in Hex as (t & Hin & Hb). bools. exists t. by split_and!; [| |congruence|].
    + exfalso. assert (e ∈ ([] : list EmployeeDependency)) as []%not_elem_of_nil. rewrite <-Hpend.
      apply list_elem_of_In, filter_In. rewrite <-list_elem_of_In, Hex, Ht, Hc, !String.eqb_refl. done.
  - exists s, d. split; [done|]. by eapply probe_live.
Qed.

(** Only segments that are ready are dispatched: every task a dispatched segment depends
    on is accepted, and its employee, department, profile version, catalog release, required
    capabilities, workspace and grant are still those frozen at confirmation, and in
    service. *)
Lemma dispatched_segments_live company accepted db dispatched failed db' x :
  table_ok (R := TS.EmployeeTask) db = true → table_ok (R := EmployeeDependency) db = true →
  advance company accepted db = (Ok (dispatched, failed), db') → x ∈ dispatched →
  (∀ e, e ∈ employee_task_dependencies db → ed_employee_task_id e = x → ed_company_id e = company →
     ∃ t, t ∈ employee_tasks (work db) ∧ TS.et_id t = ed_depends_on_task_id e ∧ TS.et_company_id t = company ∧
          TS.et_status t = "accepted") ∧
  ∃ s d, _dispatch_spec_for company x db = Some (s, d) ∧ live company s d db.
Proof.
  intros Ht Hd Hrun Hx. apply verdict_live. unfold advance_employee_task_graph in Hrun.
  apply tx_bind_ok in Hrun as (? & ? & [-> ->]%gets_ok & Hrun).
  apply tx_bind_ok in Hrun as (rs & db1 & Hloop & [[= -> ->] ->]%mret_ok).
  destruct (advance_loop uuid4 now expires_at sha256 resolve_candidate_bindings company db
    (dependents company accepted db) Ht [] db rs db1) as (_ & H1 & _);
    [by apply dependents_nodup|intros y; apply dependents_wait|apply progress_start|done|].
  rewrite H1 in Hx. by apply list_elem_of_filter in Hx as [Hx _].
Qed.

(** C10. Dispatch after an accepted task.  When a delivery of the graph event succeeds, the
    segments it dispatches are exactly those that depended on the accepted task, waited,
    have all their upstream tasks accepted and a frozen specification that still holds; the
    ones whose specification no longer holds fail; every other task is untouched.  Each
    dispatched segment gets exactly one run and one ready queue entry, both built from its
    frozen specification.  A second delivery of the event does nothing. *)
Theorem graph_advance_exactly_once company accepted db dispatched failed db' :
  table_ok (R := TS.EmployeeTask) db = true → table_ok (R := EmployeeDependency) db = true →
  advance company accepted db = (Ok (dispatched, failed), db') →
  let todo := dependents company accepted db in
  dispatched = filter (λ x, verdict company x db = Some true) todo ∧
  failed = filter (λ x, verdict company x db = Some false) todo ∧
  employee_tasks (work db') = map (settle now company todo db) (employee_tasks (work db)) ∧
  (∃ pairs, RV.agent_runs (reviews_of db') = RV.agent_runs (reviews_of db) ++ map fst pairs ∧
     runtime_queue db' = runtime_queue db ++ map snd pairs ∧
     Forall2 (dispatched_as uuid4 now expires_at sha256 company db) dispatched pairs) ∧
  advance company accepted db' = (Ok ([], []), db').
Proof.
  intros Ht Hd Hrun todo. unfold advance_employee_task_graph in Hrun.
  apply tx_bind_ok in Hrun as (? & ? & [-> ->]%gets_ok & Hrun). fold todo in Hrun.
  apply tx_bind_ok in Hrun as (rs & db1 & Hloop & [[= -> ->] ->]%mret_ok).
  pose proof (dependents_nodup company accepted db Hd) as Hnd. fold todo in Hnd.
  destruct (advance_loop uuid4 now expires_at sha256 resolve_candidate_bindings company db todo Ht [] db rs db1)
    as ([Hbase Htasks Hruns] & H1 & H2);
    [done|intros x; apply dependents_wait|apply progress_start|done|].
  simpl in Htasks, Hruns. rewrite H1, H2. split_and!; [done..|exact Hruns|].
  destruct (idle_loop uuid4 now expires_at sha256 resolve_candidate_bindings company
    (dependents company accepted db1) db1) as (rs' & Hrs' & H3 & H4).
  { intros x Hx. rewrite (verdict_same now company db db1 todo x Hbase Htasks).
    by apply (settled_dependents now company accepted db db1 x Hbase Htasks). }
  unfold advance_employee_task_graph, gets, mbind, tx_bind, mret, tx_ret. rewrite Hrs'. by rewrite H3, H4.
Qed.
End Properties.

(** ** Reviews of a published artifact *)

Section Reviews.
Context (uuid4 : nat → string) (now : string) (company artifact sha : string) (contributors : list json).
Implicit Types db : DB.

Notation dispatch_review := (dispatch_review uuid4 now company artifact sha contributors).

(** No assignment has an identifier yet to be drawn, and no two draws agree. *)
Record fresh_ids db : Prop := {
  fi_inj m n : uuid4 m = uuid4 n → m = n;
  fi_new a n : a ∈ RV.review_assignments (reviews_of db) → (uuids db ≤ n)%nat → RV.as_id a ≠ uuid4 n }.

Definition has_review (reviewer : string) db : bool :=
  EXISTS a IN RV.review_assignments (reviews_of db),
    (RV.as_artifact_id a =? artifact) && (RV.as_reviewer_employee_id a =? reviewer) && (RV.as_review_round a =? 1)%Z.

(** The rows of the review assigned with the [n]-th identifier. *)
Definition review_row (reviewer : string) (n : nat) : RV.AssignmentRow :=
  first_round now company artifact reviewer sha (uuid4 n).
Definition review_event (reviewer : string) (n : nat) : EventRow :=
  assigned_event now company (uuid4 n) reviewer (uuid4 (1 + n)) (uuid4 (2 + n)).
Definition review_outbox (reviewer : string) (n : nat) : OutboxRow :=
  assigned_outbox now (payload_json (ev_event (review_event reviewer n))) (uuid4 (1 + n)) (uuid4 (3 + n)).

Definition with_review (reviewer : string) db : DB :=
  let n := uuids db in
  drawn 4 (appended (review_outbox reviewer n) (appended (review_event reviewer n)
    (appended (review_row reviewer n) db))).

Lemma dispatch_review_ok r db c db' :
  table_ok (R := RV.AssignmentRow) db = true → fresh_ids db → py_len sha = 64%Z →
  dispatch_review r db = (Ok c, db') →
  (may_review company artifact r contributors db = false ∧ c = [] ∧ db' = db) ∨
  (may_review company artifact r contributors db = true ∧
    ((has_review r db = true ∧ c = [] ∧ db' = drawn 1 db) ∨
     (has_review r db = false ∧ c = [(uuid4 (uuids db), r)] ∧ db' = with_review r db ∧
      table_ok (R := RV.AssignmentRow) db' = true))).
Proof.
  intros Hok [Hinj Hnew] Hsha Hrun. unfold Dispatch.dispatch_review in Hrun.
  apply tx_bind_ok in Hrun as (? & ? & [-> ->]%gets_ok & Hrun).
  destruct (may_review _ _ _ _ db); simpl in Hrun; [right|apply mret_ok in Hrun as [-> ->]; by left].
  split; [done|]. apply tx_bind_ok in Hrun as (? & ? & [-> ->]%draw_ok & Hrun).
  apply tx_bind_ok in Hrun as (n & db1 & Hi & Hrun).
  assert (table_ok (R := RV.AssignmentRow) (drawn 1 db) = true) as Hok1 by by destruct db as [[[]]].
  pose proof (insert_or_ignore_ok _ _ _ _ Hi) as Hn.
  pose proof (insert_or_ignore_inv _ _ _ _ Hok1 Hi) as [Hok' Hinv].
  assert (row_ok (DB := DB) (review_row r (uuids db)) = true) as Hrow.
  { unfold row_ok. cbn. unfold RV.assignment_ok. cbn. by rewrite Hsha. }
  assert (existsb (λ x, clash (DB := DB) x (review_row r (uuids db))) (RV.review_assignments (reviews_of db)) =
          has_review r db) as Hclash.
  { apply existsb_ext. intros a Ha. cbn. unfold RV.assignment_clash. cbn.
    assert ((RV.as_id a =? uuid4 (uuids db)) = false) as ->; [|done].
    apply String.eqb_neq, Hnew; [done|lia]. }
  change (rows (drawn 1 db)) with (RV.review_assignments (reviews_of db)) in Hinv.
  unfold review_row in Hrow, Hclash. rewrite Hrow, Hclash in Hinv.
  destruct Hinv as [(-> & [?|Hhas])|(-> & _ & Hhas)]; [done|left|right].
  - destruct Hn as [(-> & _)|(_ & Hrows)]; [|].
    + simpl in Hrun. apply mret_ok in Hrun as [-> ->]. done.
    + apply (f_equal length) in Hrows. rewrite length_app in Hrows. cbn [length] in Hrows. lia.
  - destruct Hn as [(-> & Heq)|(-> & _)].
    + apply (f_equal (λ d, length (rows (R := RV.AssignmentRow) d))) in Heq.
      rewrite rows_set_rows, length_app in Heq. cbn [length] in Heq.
      change (rows (drawn 1 db)) with (RV.review_assignments (reviews_of db)) in Heq. lia.
    + simpl in Hrun. do 2 (apply tx_bind_ok in Hrun as (? & ? & [-> ->]%draw_ok & Hrun)).
      apply tx_bind_ok in Hrun as ([] & ? & [-> _]%insert_appended & Hrun).
      apply tx_bind_ok in Hrun as (? & ? & [-> ->]%draw_ok & Hrun).
      apply tx_bind_ok in Hrun as ([] & ? & [-> _]%insert_appended & [-> ->]%mret_ok).
      destruct db as [[[]]]. by split_and!.
Qed.
Record reviewed db0 (items : list (string * nat)) db : Prop := {
  rd_employees : RV.employees (reviews_of db) = RV.employees (reviews_of db0);
  rd_contributors : RV.artifact_contributors (reviews_of db) = RV.artifact_contributors (reviews_of db0);
  rd_artifacts : RV.artifacts (reviews_of db) = RV.artifacts (reviews_of db0);
  rd_ledger : RV.ledger (reviews_of db) = RV.ledger (reviews_of db0);
  rd_rows : RV.review_assignments (reviews_of db) =
    RV.review_assignments (reviews_of db0) ++ map (λ i, review_row i.1 i.2) items;
  rd_events : RV.event_rows (reviews_of db) =
    RV.event_rows (reviews_of db0) ++ map (λ i, review_event i.1 i.2) items;
  rd_outbox : RV.outbox_rows (reviews_of db) =
    RV.outbox_rows (reviews_of db0) ++ map (λ i, review_outbox i.1 i.2) items;
  rd_ok : table_ok (R := RV.AssignmentRow) db = true;
  rd_fresh : fresh_ids db;
  rd_allowed : Forall (λ i, may_review company artifact i.1 contributors db0 = true ∧
                            has_review i.1 db0 = false) items }.

Lemma may_review_same db0 items db r : reviewed db0 items db →
  may_review company artifact r contributors db = may_review company artifact r contributors db0.
Proof. intros []. unfold may_review, RV.is_contributor. by rewrite rd_employees0, rd_contributors0. Qed.

Lemma has_review_grows db0 items db r : reviewed db0 items db →
  has_review r db = has_review r db0 || existsb (λ i, i.1 =? r) items.
Proof.
  intros []. unfold has_review. rewrite rd_rows0, existsb_app, existsb_map. f_equal.
  apply existsb_ext. intros [r' n] _. simpl. by rewrite String.eqb_refl, andb_true_r.
Qed.

Lemma fresh_drawn k db : fresh_ids db → fresh_ids (drawn k db).
Proof. intros [Hi Hn]. split; [done|]. intros a n Ha Hle. apply Hn; [done|]. simpl in Hle. lia. Qed.

Lemma fresh_review r db : fresh_ids db → fresh_ids (with_review r db).
Proof.
  intros [Hi Hn]. split; [done|]. intros a n Ha Hle.
  assert (a ∈ RV.review_assignments (reviews_of db) ++ [review_row r (uuids db)]) as [Ha'|Ha']%elem_of_app
    by by destruct db as [[[]]].
  - apply Hn; [done|]. destruct db as [[[]]]; simpl in *; lia.
  - apply list_elem_of_singleton in Ha' as ->. simpl. intros Heq%Hi. destruct db as [[[]]]; simpl in *; lia.
Qed.

Lemma reviewed_drawn db0 items db k : reviewed db0 items db → reviewed db0 items (drawn k db).
Proof. intros []. by split; try done; apply fresh_drawn. Qed.

Lemma reviewed_step db0 items r db c db' : py_len sha = 64%Z →
  reviewed db0 items db → dispatch_review r db = (Ok c, db') →
  ∃ more, reviewed db0 (items ++ more) db' ∧ c = map (λ i, (uuid4 i.2, i.1)) more ∧
    (may_review company artifact r contributors db0 = true → has_review r db' = true) ∧
    Forall (λ i, i.1 = r) more.
Proof.
  intros Hsha Hpr Hrun. pose proof (may_review_same db0 items db r Hpr) as Hmay.
  pose proof (has_review_grows db0 items db r Hpr) as Hhas.
  apply dispatch_review_ok in Hrun; [|apply Hpr..|done]. rewrite Hmay in Hrun.
  destruct Hrun as [(Hno & -> & ->)|(Hm & [(Hh & -> & ->)|(Hh & -> & -> & Hok)])].
  - exists []. rewrite app_nil_r. split_and!; [done..|congruence|done].
  - exists []. rewrite app_nil_r. split_and!; [by apply reviewed_drawn|done| |done]. by intros _.
  - exists [(r, uuids db)]. split_and!; [|done| |by repeat constructor].
    + destruct Hpr. rewrite Hhas in Hh. apply orb_false_iff in Hh as [Hh0 _].
      split; [by destruct db as [[[]]]..| | | |exact Hok|by apply fresh_review|].
      * rewrite map_app, app_assoc, <-rd_rows0. by destruct db as [[[]]].
      * rewrite map_app, app_assoc, <-rd_events0. by destruct db as [[[]]].
      * rewrite map_app, app_assoc, <-rd_outbox0. by destruct db as [[[]]].
      * apply Forall_app. by repeat constructor.
    + intros _. unfold has_review.
      assert (RV.review_assignments (reviews_of (with_review r db)) =
        RV.review_assignments (reviews_of db) ++ [review_row r (uuids db)]) as -> by by destruct db as [[[]]].
      rewrite existsb_app. simpl. by rewrite !String.eqb_refl, orb_true_r.
Qed.
Lemma reviews_loop db0 l : py_len sha = 64%Z → ∀ items db rs db',
  reviewed db0 items db → for_each dispatch_review l db = (Ok rs, db') →
  ∃ more, reviewed db0 (items ++ more) db' ∧ concat rs = map (λ i, (uuid4 i.2, i.1)) more ∧
    (∀ r, r ∈ l → may_review company artifact r contributors db0 = true → has_review r db' = true) ∧
    Forall (λ i, i.1 ∈ l) more.
Proof.
  intros Hsha. induction l as [|r l IH]; intros items db rs db' Hpr Hrun.
  - apply mret_ok in Hrun as [-> ->]. exists []. rewrite app_nil_r. split_and!; [done..|set_solver|done].
  - simpl in Hrun. apply tx_bind_ok in Hrun as (c & db1 & Hr & Hrun).
    apply tx_bind_ok in Hrun as (rs' & db2 & Hl & [-> ->]%mret_ok).
    apply (reviewed_step db0 items r) in Hr as (m1 & Hpr1 & -> & Hhas & Hm1); [|done..].
    apply (IH _ _ _ _ Hpr1) in Hl as (m2 & Hpr2 & Hc & Hall & Hm2).
    exists (m1 ++ m2). rewrite app_assoc. split_and!; [done|simpl; by rewrite Hc, map_app| |].
    + intros r' [->|Hr']%elem_of_cons Hm; [|by apply Hall].
      rewrite (has_review_grows db0 _ _ _ Hpr2), existsb_app.
      pose proof (Hhas Hm) as Hh. rewrite (has_review_grows db0 _ _ _ Hpr1) in Hh.
      apply orb_true_iff in Hh as [Hh|Hh]; rewrite Hh; simpl; [done|by rewrite !orb_true_r].
    + apply Forall_app. split; eapply Forall_impl; [exact Hm1| |exact Hm2|]; simpl; [|intros; by right].
      intros [? ?] ->. by left.
Qed.

Lemma dispatch_replay r db :
  (may_review company artifact r contributors db = true → has_review r db = true) →
  ∃ k, dispatch_review r db = (Ok [], drawn k db).
Proof.
  intros Hhas. unfold Dispatch.dispatch_review, gets, mbind, tx_bind, draw.
  destruct (may_review _ _ _ _ db); simpl; [|exists 0%nat; by destruct db].
  specialize (Hhas eq_refl). exists 1%nat. unfold insert_or_ignore.
  match goal with |- context [existsb ?p ?l] => assert (existsb p l = true) as -> end; [|by rewrite andb_false_r].
  apply existsb_elem in Hhas as (a & Ha & Hh). apply existsb_elem. exists a. split; [exact Ha|].
  cbn. unfold RV.assignment_clash. cbn. bools. subst. rewrite !String.eqb_refl. simpl.
  match goal with H : (RV.as_review_round a =? 1)%Z = true |- _ => rewrite H end. by rewrite orb_true_r.
Qed.

Lemma replay_loop l : ∀ db,
  (∀ r, r ∈ l → may_review company artifact r contributors db = true → has_review r db = true) →
  ∃ rs k, for_each dispatch_review l db = (Ok rs, drawn k db) ∧ concat rs = [].
Proof.
  induction l as [|r l IH]; intros db Hall; simpl; [exists [], 0%nat; by destruct db|].
  destruct (dispatch_replay r db) as (k & Hr); [apply Hall; by left|].
  destruct (IH (drawn k db)) as (rs & k' & Hl & Hc); [intros r' Hr'; apply (Hall r'); by right|].
  unfold mbind, tx_bind, mret, tx_ret. rewrite Hr, Hl. exists ([] :: rs), (k' + k)%nat.
  split; [|done]. destruct db. unfold drawn. simpl. do 2 f_equal. lia.
Qed.
End Reviews.

Section ReviewProperties.
Context (uuid4 : nat → string) (now : string) (repr : json → string).
Notation maybe_dispatch := (maybe_dispatch_deliverable_reviews uuid4 now repr).

(** What a published artifact is to be reviewed by: its hash, the contributors frozen with
    the deliverable and the reviewers, in order. *)
Definition review_plan (company task artifact type : string) (db : DB)
    : option (string * list json * list string) :=
  s ← List.find (λ s, (RV.sp_company_id s =? company) && (RV.sp_company_task_id s =? task) &&
        (RV.sp_artifact_type s =? type)) (RV.deliverable_review_specs (RV.ledger (reviews_of db)));
  reviewers ← match RV.sp_reviewer_employee_ids s with JList l => Some l | _ => None end;
  contributors ← contributor_set (RV.sp_contributor_employee_ids s);
  a ← List.find (λ a, (RV.ar_id a =? artifact) && (RV.ar_company_id a =? company) &&
        (RV.ar_is_current a =? 1)%Z) (RV.artifacts (reviews_of db));
  Some (RV.ar_object_sha256 a, contributors, map (py_str repr) reviewers).

Lemma for_each_map {S A B C} (f : A → B) (g : B → tx S C) l s :
  for_each (λ a, g (f a)) l s = for_each g (map f l) s.
Proof.
  revert s. induction l as [|a l IH]; intros s; [done|]. simpl. unfold mbind, tx_bind.
  destruct (g (f a) s) as [[c|e] s1]; [|done]. by rewrite IH.
Qed.

Lemma maybe_dispatch_run company task artifact type db :
  maybe_dispatch company task artifact type true db =
    match review_plan company task artifact type db with
    | None => (Ok [], db)
    | Some (sha, contributors, reviewers) =>
        (created ← for_each (dispatch_review uuid4 now company artifact sha contributors) reviewers;
         mret (concat created)) db
    end.
Proof.
  unfold maybe_dispatch_deliverable_reviews, review_plan, gets. cbn [negb]. unfold mbind at 1, tx_bind at 1.
  destruct (List.find _ (RV.deliverable_review_specs _)) as [s|]; [|done]. cbn [mbind option_bind].
  destruct (RV.sp_reviewer_employee_ids s) as [| | | | |l|]; try done. cbn [mbind option_bind].
  destruct (contributor_set _) as [cs|]; [|done]. cbn [mbind option_bind].
  unfold mbind at 1, tx_bind at 1.
  destruct (List.find _ (RV.artifacts _)) as [a|]; [|done]. cbn [mbind option_bind].
  unfold mbind, tx_bind. by rewrite for_each_map.
Qed.

(** Reviews of a published artifact.  When an artifact is published, round-one reviews
    are created for it and nothing else: each of a reviewer its deliverable names, active,
    and no contributor, neither frozen with the deliverable nor recorded of the artifact;
    each of the artifact's present hash, with its event and outbox message.  Every such
    reviewer has one afterwards, and publishing again creates none. *)
Lemma reviews_dispatched_once company task artifact type db created db' :
  table_ok (R := RV.AssignmentRow) db = true → fresh_ids uuid4 db →
  (∀ a, a ∈ RV.artifacts (reviews_of db) → py_len (RV.ar_object_sha256 a) = 64%Z) →
  maybe_dispatch company task artifact type true db = (Ok created, db') →
  match review_plan company task artifact type db with
  | None => created = [] ∧ db' = db
  | Some (sha, contributors, reviewers) =>
      ∃ items, created = map (λ i, (uuid4 i.2, i.1)) items ∧
        reviewed uuid4 now company artifact sha contributors db items db' ∧
        Forall (λ i, i.1 ∈ reviewers) items ∧
        (∀ r, r ∈ reviewers → may_review company artifact r contributors db = true →
           has_review artifact r db' = true) ∧
        ∃ k, maybe_dispatch company task artifact type true db' = (Ok [], drawn k db')
  end.
Proof.
  intros Hok Hfresh Hsha Hrun. rewrite maybe_dispatch_run in Hrun.
  destruct (review_plan company task artifact type db) as [[[sha contributors] reviewers]|] eqn:Hp;
    [|by injection Hrun as <- <-].
  assert (py_len sha = 64%Z) as Hlen.
  { unfold review_plan in Hp. destruct (List.find _ (RV.deliverable_review_specs _)) as [s|]; [|done].
    simpl in Hp. destruct (RV.sp_reviewer_employee_ids s); try done. simpl in Hp.
    destruct (contributor_set _); [|done]. simpl in Hp.
    destruct (List.find _ (RV.artifacts _)) as [a|] eqn:Ha; [|done]. injection Hp as <- _ _.
    apply Hsha. apply List.find_some in Ha as [Ha _]. by apply list_elem_of_In. }
  apply tx_bind_ok in Hrun as (rs & db1 & Hloop & [-> ->]%mret_ok).
  apply (reviews_loop uuid4 now company artifact sha contributors db reviewers Hlen []) in Hloop
    as (items & Hpr & -> & Hall & Hin); [|by split; rewrite ?app_nil_r]. simpl in Hpr.
  exists items. split_and!; [done..|].
  rewrite maybe_dispatch_run.
  assert (review_plan company task artifact type db1 = Some (sha, contributors, reviewers)) as ->
    by (rewrite <-Hp; unfold review_plan; by rewrite (rd_ledger _ _ _ _ _ _ _ _ _ Hpr), (rd_artifacts _ _ _ _ _ _ _ _ _ Hpr)).
  destruct (replay_loop uuid4 now company artifact sha contributors reviewers db1) as (rs' & k & Hr & Hc).
  - intros r Hr Hm. apply Hall; [done|]. by rewrite <-(may_review_same _ _ _ _ _ _ _ _ _ r Hpr).
  - exists k. unfold mbind, tx_bind, mret, tx_ret. by rewrite Hr, Hc.
Qed.
End ReviewProperties.

(** ** The demonstration company *)

Module Demo.
Import PlanStore.Demo.
Definition no_candidates : Resolver := λ _ _ _ _ _ _ _, Err (ValueError "ROUTING_POLICY_INVALID").
Definition advance (accepted : string) : tx DB (list string * list string) :=
  advance_employee_task_graph uuid4 "now" "soon" (λ _, sha) no_candidates "co" accepted.
Definition publish : tx DB (list (string * string)) :=
  maybe_dispatch_deliverable_reviews uuid4 "now" (λ _, "") "co" "ct" "doc" "document" true.
Definition statuses (db : DB) : list string := map TS.et_status (employee_tasks (work db)).
End Demo.

(** The second segment goes out when the first is accepted, the third waits; without the
    capability the second fails; and before the first is accepted nothing happens. *)
Lemma graph_advance_exactly_once_witness :
  let after := Demo.advance "s1" (PlanStore.Demo.chain "accepted" ["python"]) in
  after.1 = Ok (["s2"], []) ∧
  Demo.statuses after.2 = ["accepted"; "assigned"; "waiting_resource"] ∧
  Demo.statuses (Demo.advance "s1" (PlanStore.Demo.chain "accepted" [])).2 = ["accepted"; "failed"; "waiting_resource"] ∧
  Demo.statuses (Demo.advance "s1" (PlanStore.Demo.chain "running" ["python"])).2 =
    ["running"; "waiting_resource"; "waiting_resource"] ∧
  Demo.advance "s1" after.2 = (Ok ([], []), after.2).
Proof.
  intros after. split_and!; [by vm_compute..|].
  apply (graph_advance_exactly_once PlanStore.Demo.uuid4 "now" "soon" (λ _, PlanStore.Demo.sha) Demo.no_candidates
    "co" "s1" (PlanStore.Demo.chain "accepted" ["python"]) ["s2"] [] after.2); by vm_compute.
Defined.

Lemma dispatched_segments_live_witness :
  let after := Demo.advance "s1" (PlanStore.Demo.chain "accepted" ["python"]) in
  ∃ s d, _dispatch_spec_for "co" "s2" (PlanStore.Demo.chain "accepted" ["python"]) = Some (s, d) ∧
    live "co" s d (PlanStore.Demo.chain "accepted" ["python"]).
Proof.
  intros after.
  apply (dispatched_segments_live PlanStore.Demo.uuid4 "now" "soon" (λ _, PlanStore.Demo.sha) Demo.no_candidates
    "co" "s1" (PlanStore.Demo.chain "accepted" ["python"]) ["s2"] [] after.2 "s2"); [by vm_compute..|by left].
Defined.

Lemma demo_uuids_fresh db : RV.review_assignments (reviews_of db) = [] → fresh_ids PlanStore.Demo.uuid4 db.
Proof.
  intros Hnil. split; [|intros a n Ha; rewrite Hnil in Ha; by apply not_elem_of_nil in Ha].
  unfold PlanStore.Demo.uuid4. intros m n Heq. simpl in Heq. injection Heq as Heq.
  exact (inj pretty.pretty _ _ Heq).
Qed.

(** Of a contributor, a colleague and somebody unknown, the colleague reviews. *)
Lemma reviews_dispatched_once_witness :
  let after := Demo.publish (PlanStore.Demo.chain "running" []) in
  after.1 = Ok [("u0", "rev")] ∧
  ∃ k, Demo.publish after.2 = (Ok [], drawn k after.2).
Proof.
  intros after. split; [by vm_compute|].
  destruct (reviews_dispatched_once PlanStore.Demo.uuid4 "now" (λ _, "") "co" "ct" "doc" "document"
    (PlanStore.Demo.chain "running" []) [("u0", "rev")] after.2) as (items & _ & _ & _ & _ & Hk);
    [by vm_compute|by apply demo_uuids_fresh|by intros a ->%list_elem_of_singleton|by vm_compute|exact Hk].
Defined.
