(* ===== verification/Artifacts.v ===== *)
(** * Artifacts ([artifacts/service.py], [artifacts/storage.py] and [application/public_rpc.py])

    Artifacts are rows that name their content by its digest: creating one, superseding one
    by another, which makes the reviews of the old one stale, following the chain of
    versions, the content behind a digest; and the public command that creates an artifact
    and has it reviewed (Dispatch).

    The content store is the map from digests to contents that its directory is; the file
    operations behind it are not modelled.  [sha256] is the digest of a content, a string
    of bytes.

    The theorems: what creating an artifact changes; that a version supersedes only an
    older one, which is no longer current, whatever is created, so that the chain of
    versions ends; that an artifact with an open review issue cannot be superseded; and
    that content read back is the content written. *)

From S2P Require Import Prelude PyEnum PyOrder PyStr Sql UnitOfWork Zoom WorkStore PlanStore RunBuilder Dispatch.

Record NewArtifact := {
  na_company_task_id : string;
  na_artifact_type : string;
  na_content : string;
  na_filename : string;
  na_mime_type : string;
  na_created_by_employee_id : string;
  na_supersedes_artifact_id : option string }.

(** The dict the creation returns; an artifact that was already there is [deduplicated]. *)
Record Published := {
  pu_id : string;
  pu_content_sha256 : string;
  pu_deduplicated : bool;
  pu_superseded : bool }.

Definition set_current (n : Z) (a : RV.Artifact) : RV.Artifact := {|
  RV.ar_id := RV.ar_id a; RV.ar_company_id := RV.ar_company_id a;
  RV.ar_company_task_id := RV.ar_company_task_id a; RV.ar_artifact_type := RV.ar_artifact_type a;
  RV.ar_object_sha256 := RV.ar_object_sha256 a; RV.ar_is_current := n;
  RV.ar_created_by_type := RV.ar_created_by_type a; RV.ar_created_by_run_id := RV.ar_created_by_run_id a;
  RV.ar_logical_name := RV.ar_logical_name a; RV.ar_object_size := RV.ar_object_size a;
  RV.ar_media_type := RV.ar_media_type a; RV.ar_metadata := RV.ar_metadata a;
  RV.ar_supersedes_artifact_id := RV.ar_supersedes_artifact_id a; RV.ar_created_at := RV.ar_created_at a |}.

Definition set_stale (a : RV.AssignmentRow) : RV.AssignmentRow := {|
  RV.as_id := RV.as_id a; RV.as_company_id := RV.as_company_id a; RV.as_artifact_id := RV.as_artifact_id a;
  RV.as_reviewer_employee_id := RV.as_reviewer_employee_id a; RV.as_review_round := RV.as_review_round a;
  RV.as_reviewed_sha256 := RV.as_reviewed_sha256 a; RV.as_status := "stale";
  RV.as_assigned_at := RV.as_assigned_at a; RV.as_submitted_at := RV.as_submitted_at a;
  RV.as_version := RV.as_version a |}.

Definition set_superseded_by (id : string) (i : RV.IssueRow) : RV.IssueRow := {|
  RV.is_id := RV.is_id i; RV.is_company_id := RV.is_company_id i;
  RV.is_review_report_id := RV.is_review_report_id i; RV.is_severity := RV.is_severity i;
  RV.is_category := RV.is_category i; RV.is_description := RV.is_description i;
  RV.is_expected := RV.is_expected i; RV.is_actual := RV.is_actual i;
  RV.is_suggested_fix := RV.is_suggested_fix i; RV.is_evidence_refs := RV.is_evidence_refs i;
  RV.is_status := RV.is_status i; RV.is_assignee := RV.is_assignee i; RV.is_verifier := RV.is_verifier i;
  RV.is_rejection_reason := RV.is_rejection_reason i; RV.is_superseded_by := Some id;
  RV.is_created_at := RV.is_created_at i; RV.is_updated_at := RV.is_updated_at i;
  RV.is_version := RV.is_version i |}.

Definition the_artifact (company id : string) (a : RV.Artifact) : bool :=
  (RV.ar_id a =? id) && (RV.ar_company_id a =? company).

(** The reviews of the digest that count. *)
Definition counts_for (company sha : string) (a : RV.AssignmentRow) : bool :=
  (RV.as_company_id a =? company) && (RV.as_reviewed_sha256 a =? sha) &&
  negb (RV.as_status a ∈? ["stale"; "cancelled"]).

(** The issues of the company that a review of the digest has raised, not superseded yet. *)
Definition raised_on (company sha : string) (db : DB) (i : RV.IssueRow) : bool :=
  let r := reviews_of db in
  (RV.is_company_id i =? company) &&
  EXISTS ri IN RV.review_issues r, (RV.is_id ri =? RV.is_id i) && (RV.is_superseded_by ri =?o None) &&
    EXISTS rr IN RV.review_reports r, (RV.rp_id rr =? RV.is_review_report_id ri) &&
      EXISTS ra IN RV.review_assignments r,
        (RV.as_id ra =? RV.rp_assignment_id rr) && (RV.as_reviewed_sha256 ra =? sha).

(** The [UPDATE] sets the foreign key [superseded_by_artifact_id], which is checked at
    once for every row it changes. *)
(* [sidecar/ibreeze/artifacts/service.py:82-93 create_artifact] *)
Definition supersede_issues (company sha artifact : string) : tx DB unit :=
  db ← gets (λ db, db);
  let found := where_ (raised_on company sha db) (RV.review_issues (reviews_of db)) in
  update (raised_on company sha db) (set_superseded_by artifact);;
  check (match found with [] => true | _ => (artifact, company) ∈? RV.artifact_refs (reviews_of db) end)
    (IntegrityErr "review_issues").

Section Artifacts.
Context (uuid4 : nat → string) (now : string) (sha256 : string → string) (repr : json → string).

(* [sidecar/ibreeze/artifacts/service.py:57-93 create_artifact] *)
Definition supersede (company old artifact : string) : tx DB unit :=
  update (the_artifact company old) (set_current 0);;
  row ← select_one (the_artifact company old);
  match row with
  | None => mret tt
  | Some row =>
      let sha := RV.ar_object_sha256 row in
      if sha =? "" then mret tt else
      update (counts_for company sha) set_stale;;
      supersede_issues company sha artifact
  end.

(** The trigger [artifacts_supersede_is_current] runs before the row is there. *)
Definition insert_artifact (a : RV.Artifact) : tx DB unit :=
  match RV.ar_supersedes_artifact_id a with
  | Some old => update (the_artifact (RV.ar_company_id a) old) (set_current 0);; mret tt
  | None => mret tt
  end;;
  insert_row a.

Definition artifact_row (company id sha : string) (n : NewArtifact) : RV.Artifact := {|
  RV.ar_id := id; RV.ar_company_id := company; RV.ar_company_task_id := na_company_task_id n;
  RV.ar_artifact_type := na_artifact_type n; RV.ar_object_sha256 := sha; RV.ar_is_current := 1;
  RV.ar_created_by_type := "user"; RV.ar_created_by_run_id := None; RV.ar_logical_name := na_filename n;
  RV.ar_object_size := Z.of_nat (String.length (na_content n)); RV.ar_media_type := na_mime_type n;
  RV.ar_metadata := JObj []; RV.ar_supersedes_artifact_id := na_supersedes_artifact_id n;
  RV.ar_created_at := now |}.

(** The part that both ways to create an artifact share; [sha] is the digest of the content. *)
(* [sidecar/ibreeze/artifacts/service.py:44-131 create_artifact] *)
Definition create_row (company sha : string) (n : NewArtifact) : tx DB Published :=
  id ← draw uuid4;
  existing ← select_one (λ a, (RV.ar_company_id a =? company) && (RV.ar_object_sha256 a =? sha));
  match existing with
  | Some a => mret {| pu_id := RV.ar_id a; pu_content_sha256 := sha; pu_deduplicated := true; pu_superseded := false |}
  | None =>
      match na_supersedes_artifact_id n with
      | Some old => if old =? "" then mret tt else supersede company old id
      | None => mret tt
      end;;
      insert_artifact (artifact_row company id sha n);;
      insert_row (id, company, na_created_by_employee_id n);;
      mret {| pu_id := id; pu_content_sha256 := sha; pu_deduplicated := false;
              pu_superseded := negb (na_supersedes_artifact_id n =?o None) |}
  end.

(* [sidecar/ibreeze/artifacts/service.py:27-55 create_artifact] *)
Definition create_artifact (company : string) (n : NewArtifact) : tx DB Published :=
  create_row company (sha256 (na_content n)) n.

(** ** The content store *)

Definition Store : Type := list (string * string).

(* [sidecar/ibreeze/artifacts/storage.py:24-64 ArtifactStorage.write] *)
Definition cas_write (content : string) (s : Store) : Store * string :=
  let sha := sha256 content in
  if sha ∈? dict_keys s then (s, sha) else (dict_set s sha content, sha).

(* [sidecar/ibreeze/artifacts/storage.py:66-72 ArtifactStorage.read] *)
Definition cas_read (sha : string) (s : Store) : option string := dict_get s sha.

(* [sidecar/ibreeze/artifacts/storage.py:74-76 ArtifactStorage.exists] *)
Definition cas_exists (sha : string) (s : Store) : bool := sha ∈? dict_keys s.

Definition with_path (n : NewArtifact) : NewArtifact := {|
  na_company_task_id := na_company_task_id n; na_artifact_type := na_artifact_type n;
  na_content := na_content n; na_filename := na_filename n; na_mime_type := "application/octet-stream";
  na_created_by_employee_id := na_created_by_employee_id n;
  na_supersedes_artifact_id := na_supersedes_artifact_id n |}.

(** The content is written whatever becomes of the row. *)
(* [sidecar/ibreeze/artifacts/service.py:219-327 create_artifact_with_manifest] *)
Definition create_artifact_with_manifest (company : string) (n : NewArtifact) (s : Store) (db : DB)
    : Store * (result Published * DB) :=
  let '(s', sha) := cas_write (na_content n) s in (s', create_row company sha (with_path n) db).

(** ** Reads *)

(* [sidecar/ibreeze/artifacts/service.py:134-145 get_artifact] *)
Definition get_artifact (company id : string) (db : DB) : option RV.Artifact :=
  List.find (the_artifact company id) (RV.artifacts (reviews_of db)).

(* [sidecar/ibreeze/artifacts/service.py:199-216 get_artifact_content] *)
Definition get_artifact_content (company id : string) (s : Store) (db : DB) : option string :=
  a ← get_artifact company id db; cas_read (RV.ar_object_sha256 a) s.

Definition newest_first (a b : RV.Artifact) : bool :=
  String.ltb (RV.ar_created_at b) (RV.ar_created_at a) ||
  ((RV.ar_created_at a =? RV.ar_created_at b) && text_le (RV.ar_id b) (RV.ar_id a)).

Definition is_or_any (o : option string) (s : string) : bool := match o with Some t => t =? s | None => true end.

(* [sidecar/ibreeze/artifacts/service.py:148-177 list_artifacts] *)
Definition list_artifacts (company : string) (task type : option string) (limit : Z) (db : DB) : list RV.Artifact :=
  limited limit (sort_by newest_first (List.filter (λ a, (RV.ar_company_id a =? company) &&
    is_or_any task (RV.ar_company_task_id a) && is_or_any type (RV.ar_artifact_type a))
    (RV.artifacts (reviews_of db)))).

(** The loop asks for one version after another, [fuel] times at most. *)
(* [sidecar/ibreeze/artifacts/service.py:180-196 get_artifact_version_chain] *)
Fixpoint get_artifact_version_chain (fuel : nat) (company id : string) (db : DB) : option (list RV.Artifact) :=
  match fuel with
  | O => None
  | S fuel =>
      match get_artifact company id db with
      | None => Some []
      | Some a =>
          match RV.ar_supersedes_artifact_id a with
          | None => Some [a]
          | Some old => cons a <$> get_artifact_version_chain fuel company old db
          end
      end
  end.

(** ** The public command *)

(** The identifier of the artifact. *)
(* [sidecar/ibreeze/application/public_rpc.py:849-879 _artifact_create] *)
Definition _artifact_create (company : string) (n : NewArtifact) : tx DB string :=
  p ← create_artifact company n;
  (if negb (pu_id p =? "") && negb (pu_deduplicated p)
   then maybe_dispatch_deliverable_reviews uuid4 now repr company (na_company_task_id n) (pu_id p)
          (na_artifact_type n) true;; mret tt
   else mret tt);;
  mret (pu_id p).
End Artifacts.

(** ** What creating an artifact changes *)

Lemma artifact_key company id (a b : RV.Artifact) :
  the_artifact company id a = true → the_artifact company id b = true → clash (DB := DB) a b = true.
Proof. unfold the_artifact. intros. bools. simpl. apply String.eqb_eq. congruence. Qed.

Lemma retire_table_ok company id db :
  table_ok (R := RV.Artifact) db = true →
  table_ok (R := RV.Artifact) (set_rows (updated (the_artifact company id) (set_current 0) (rows db)) db) = true.
Proof.
  intros Hok. apply table_ok_updated; [done..|]. intros a Ha _.
  pose proof (table_ok_row _ _ Hok Ha) as Hrow. revert Hrow. simpl. by intros; andbs.
Qed.

(** Both tables as the old version leaves them. *)
Definition retired (company old : string) (db : DB) : DB :=
  set_rows (updated (the_artifact company old) (set_current 0) (RV.artifacts (reviews_of db))) db.
Definition staled (company sha : string) (db : DB) : DB :=
  set_rows (updated (counts_for company sha) set_stale (RV.review_assignments (reviews_of db))) db.

Definition without_old (company : string) (old : option string) (db : DB) : DB :=
  match old with
  | Some old =>
      match get_artifact company old db with
      | Some a => if old =? "" then retired company old db
                  else staled company (RV.ar_object_sha256 a) (retired company old db)
      | None => retired company old db
      end
  | None => db
  end.

(** Superseding ends at once when a review has raised an issue on the old version: the
    issue is to name a version that is not there yet. *)
Lemma supersede_issues_ok company sha artifact db u db' :
  (artifact, company) ∉ RV.artifact_refs (reviews_of db) →
  supersede_issues company sha artifact db = (Ok u, db') →
  db' = db ∧ where_ (raised_on company sha db) (RV.review_issues (reviews_of db)) = [].
Proof.
  intros Hnew Hrun. unfold supersede_issues in Hrun.
  apply tx_bind_ok in Hrun as (? & ? & [-> ->]%gets_ok & Hrun).
  apply tx_bind_ok in Hrun as (n & db1 & Hu & Hrun). apply check_ok in Hrun as [Hc ->].
  destruct (where_ _ (RV.review_issues _)) eqn:Hw; [|by rewrite not_elem_of_mem in Hc].
  split; [|done]. apply update_ok in Hu as (_ & _ & _ & ->).
  rewrite updated_id; [apply set_rows_rows|]. intros i Hi Hp.
  exfalso. apply (not_elem_of_nil i). rewrite <-Hw. by apply elem_where.
Qed.

Lemma find_updated_artifact company id l :
  List.find (the_artifact company id) (updated (R := RV.Artifact) (the_artifact company id) (set_current 0) l) =
  set_current 0 <$> List.find (the_artifact company id) l.
Proof.
  induction l as [|a l IH]; [done|]. simpl. destruct (the_artifact company id a) eqn:Ha.
  - replace (the_artifact company id (set_current 0 a)) with true by done. done.
  - by rewrite Ha.
Qed.

(** Going stale keeps who reviewed what. *)
Lemma raised_on_staled company sha company' sha' db i :
  raised_on company sha (staled company' sha' db) i = raised_on company sha db i.
Proof.
  unfold raised_on. f_equal.
  assert (∀ f : RV.AssignmentRow → bool, (∀ a, f (set_stale a) = f a) →
    existsb f (RV.review_assignments (reviews_of (staled company' sha' db))) =
    existsb f (RV.review_assignments (reviews_of db))) as Hsame.
  { intros f Hf. replace (RV.review_assignments (reviews_of (staled company' sha' db))) with
      (updated (R := RV.AssignmentRow) (counts_for company' sha') set_stale (RV.review_assignments (reviews_of db)))
      by by destruct db as [[[]]].
    unfold updated. rewrite existsb_map. apply existsb_ext. intros a _. by destruct (counts_for _ _ a). }
  replace (RV.review_issues (reviews_of (staled company' sha' db))) with (RV.review_issues (reviews_of db))
    by by destruct db as [[[]]].
  replace (RV.review_reports (reviews_of (staled company' sha' db))) with (RV.review_reports (reviews_of db))
    by by destruct db as [[[]]].
  apply existsb_ext. intros ri _. f_equal. apply existsb_ext. intros rr _. f_equal. by apply Hsame.
Qed.

Lemma raised_on_retired company sha company' old db i :
  raised_on company sha (retired company' old db) i = raised_on company sha db i.
Proof. by destruct db as [[[]]]. Qed.

Lemma artifacts_retired company old db : RV.artifacts (reviews_of (retired company old db)) =
  updated (R := RV.Artifact) (the_artifact company old) (set_current 0) (RV.artifacts (reviews_of db)).
Proof. by destruct db as [[[]]]. Qed.

Lemma artifact_refs_retired company old db :
  RV.artifact_refs (reviews_of (retired company old db)) = RV.artifact_refs (reviews_of db).
Proof.
  unfold RV.artifact_refs. rewrite artifacts_retired. unfold updated. rewrite map_map. apply map_ext.
  intros a. by destruct (the_artifact company old a).
Qed.

Lemma supersede_ok company old artifact db u db' :
  table_ok (R := RV.Artifact) db = true → (artifact, company) ∉ RV.artifact_refs (reviews_of db) →
  (old =? "") = false → supersede company old artifact db = (Ok u, db') →
  db' = without_old company (Some old) db ∧
  ∀ a, get_artifact company old db = Some a →
    where_ (raised_on company (RV.ar_object_sha256 a) db) (RV.review_issues (reviews_of db)) = [].
Proof.
  intros Hok Hnew Hold Hrun. unfold supersede in Hrun.
  apply tx_bind_ok in Hrun as (n & db1 & Hu & Hrun). apply update_ok in Hu as (_ & _ & _ & ->).
  apply tx_bind_ok in Hrun as (o & ? & Hs & Hrun). apply select_one_ok in Hs as [-> ->].
  rewrite rows_set_rows in Hrun. change (set_rows _ db) with (retired company old db) in Hrun.
  change (rows db) with (RV.artifacts (reviews_of db)) in Hrun.
  rewrite find_updated_artifact in Hrun. unfold without_old. rewrite Hold.
  change (List.find (the_artifact company old) (RV.artifacts (reviews_of db))) with (get_artifact company old db) in Hrun.
  destruct (get_artifact company old db) as [a|] eqn:Ha; simpl in Hrun; [|by apply mret_ok in Hrun as [_ ->]].
  destruct (RV.ar_object_sha256 a =? "") eqn:Hsha.
  { exfalso. bools. apply find_some in Ha as [Hin%list_elem_of_In _].
    pose proof (table_ok_row _ _ Hok Hin) as Hrow. simpl in Hrow. bools.
    repeat match goal with H : (py_len _ =? 64)%Z = true |- _ => rewrite Hsha in H; done end. }
  apply tx_bind_ok in Hrun as (n' & db1 & Hu & Hrun). apply update_ok in Hu as (_ & _ & _ & ->).
  change (rows (retired company old db)) with (RV.review_assignments (reviews_of (retired company old db))) in Hrun.
  change (set_rows _ (retired company old db)) with (staled company (RV.ar_object_sha256 a) (retired company old db)) in Hrun.
  apply supersede_issues_ok in Hrun as [-> Hnone].
  - split; [done|]. intros ? [= <-].
    replace (RV.review_issues (reviews_of (staled _ _ (retired company old db)))) with (RV.review_issues (reviews_of db))
      in Hnone by by destruct db as [[[]]].
    rewrite <-Hnone. unfold where_. apply List.filter_ext. intros i. by rewrite raised_on_staled, raised_on_retired.
  - replace (RV.artifact_refs (reviews_of (staled _ _ (retired company old db)))) with
      (RV.artifact_refs (reviews_of (retired company old db))) by by destruct db as [[[]]].
    by rewrite artifact_refs_retired.
Qed.

(** The rows of a new artifact. *)
Definition with_artifact (now company id sha : string) (n : NewArtifact) (db : DB) : DB :=
  appended (id, company, na_created_by_employee_id n) (appended (artifact_row now company id sha n)
    (without_old company (na_supersedes_artifact_id n) db)).

Section Created.
Context (uuid4 : nat → string) (now : string) (sha256 : string → string).
Implicit Types db : DB.

(** Superseding twice is superseding once. *)
Lemma retired_twice company old db : retired company old (retired company old db) = retired company old db.
Proof.
  unfold retired at 1. rewrite artifacts_retired.
  unfold retired. rewrite set_rows_set_rows. f_equal.
  unfold updated. rewrite map_map. apply map_ext. intros a.
  destruct (the_artifact company old a) eqn:Ha; [|by rewrite Ha].
  replace (the_artifact company old (set_current 0 a)) with true by done. done.
Qed.

Lemma retired_staled company old company' sha db :
  retired company old (staled company' sha db) = staled company' sha (retired company old db).
Proof. by destruct db as [[[]]]. Qed.

Lemma without_old_retired company old db :
  retired company old (without_old company (Some old) db) = without_old company (Some old) db.
Proof.
  unfold without_old. destruct (get_artifact company old db); [|apply retired_twice].
  destruct (old =? ""); [apply retired_twice|by rewrite retired_staled, retired_twice].
Qed.

Lemma updated_ids company old l :
  map RV.ar_id (updated (R := RV.Artifact) (the_artifact company old) (set_current 0) l) = map RV.ar_id l.
Proof. unfold updated. rewrite map_map. apply map_ext. intros a. by destruct (the_artifact company old a). Qed.

Lemma supersede_ids company old artifact db u db' : supersede company old artifact db = (Ok u, db') →
  map RV.ar_id (RV.artifacts (reviews_of db')) = map RV.ar_id (RV.artifacts (reviews_of db)).
Proof.
  intros Hrun. unfold supersede in Hrun.
  apply tx_bind_ok in Hrun as (n & db1 & Hu & Hrun). apply update_ok in Hu as (_ & _ & _ & ->).
  apply tx_bind_ok in Hrun as (o & ? & Hs & Hrun). apply select_one_ok in Hs as [_ ->].
  change (set_rows _ db) with (retired company old db) in Hrun.
  rewrite <-(updated_ids company old (RV.artifacts (reviews_of db))), <-artifacts_retired.
  destruct o as [a|]; [|by apply mret_ok in Hrun as [_ ->]].
  destruct (RV.ar_object_sha256 a =? ""); [by apply mret_ok in Hrun as [_ ->]|].
  apply tx_bind_ok in Hrun as (n' & db1 & Hu & Hrun). apply update_ok in Hu as (_ & _ & _ & ->).
  unfold supersede_issues in Hrun. apply tx_bind_ok in Hrun as (? & ? & [-> ->]%gets_ok & Hrun).
  apply tx_bind_ok in Hrun as (n'' & db1 & Hu & Hrun). apply check_ok in Hrun as [_ ->].
  apply update_ok in Hu as (_ & _ & _ & ->). clear. generalize (retired company old db). clear.
  intros d. by destruct d as [[[]]].
Qed.

Lemma artifacts_without_old company o db : RV.artifacts (reviews_of (without_old company o db)) =
  match o with
  | Some old => updated (R := RV.Artifact) (the_artifact company old) (set_current 0) (RV.artifacts (reviews_of db))
  | None => RV.artifacts (reviews_of db)
  end.
Proof.
  destruct o as [old|]; [|done]. rewrite <-artifacts_retired. unfold without_old.
  destruct (get_artifact company old db); [|done]. destruct (old =? ""); [done|].
  generalize (retired company old db). intros d. by destruct d as [[[]]].
Qed.

Lemma artifact_refs_without_old company o db :
  RV.artifact_refs (reviews_of (without_old company o db)) = RV.artifact_refs (reviews_of db).
Proof.
  unfold RV.artifact_refs. rewrite artifacts_without_old. destruct o as [old|]; [|done].
  unfold updated. rewrite map_map. apply map_ext. intros a. by destruct (the_artifact company old a).
Qed.

Lemma rows_without_old_ok company o db : table_ok (R := RV.Artifact) db = true →
  forallb (row_ok (DB := DB)) (RV.artifacts (reviews_of (without_old company o db))) = true.
Proof.
  intros Hok. rewrite artifacts_without_old. destruct o as [old|]; [|by apply table_rows_ok in Hok].
  apply (retire_table_ok company old), table_rows_ok in Hok. by rewrite rows_set_rows in Hok.
Qed.

(** What the trigger leaves to do after the old version was dealt with. *)
Lemma insert_artifact_ok a db u db' : insert_artifact a db = (Ok u, db') →
  let before := match RV.ar_supersedes_artifact_id a with
                | Some old => retired (RV.ar_company_id a) old db | None => db end in
  db' = appended a before ∧ row_ok (DB := DB) a = true ∧ refs_ok db' a = true ∧
  no_clash (DB := DB) (RV.artifacts (reviews_of before) ++ [a]) = true.
Proof.
  intros Hrun. unfold insert_artifact in Hrun. apply tx_bind_ok in Hrun as ([] & db1 & Htrig & Hins).
  assert (db1 = match RV.ar_supersedes_artifact_id a with
                | Some old => retired (RV.ar_company_id a) old db | None => db end) as <-.
  { destruct (RV.ar_supersedes_artifact_id a) as [old|]; [|by apply mret_ok in Htrig as [_ ->]].
    apply tx_bind_ok in Htrig as (n & ? & Hu & [_ ->]%mret_ok). by apply update_ok in Hu as (_ & _ & _ & ->). }
  apply insert_ok in Hins as (Hrow & Hcl & Hrefs & ->). by split_and!.
Qed.

Lemma create_row_ok company sha n db p db' :
  table_ok (R := RV.Artifact) db = true →
  create_row uuid4 now company sha n db = (Ok p, db') →
  let id := uuid4 (uuids db) in
  (∃ a, a ∈ RV.artifacts (reviews_of db) ∧ RV.ar_company_id a = company ∧ RV.ar_object_sha256 a = sha ∧
     p = {| pu_id := RV.ar_id a; pu_content_sha256 := sha; pu_deduplicated := true; pu_superseded := false |} ∧
     db' = drawn 1 db) ∨
  ((∀ a, a ∈ RV.artifacts (reviews_of db) → RV.ar_company_id a = company → RV.ar_object_sha256 a ≠ sha) ∧
   (∀ a, a ∈ RV.artifacts (reviews_of db) → RV.ar_id a ≠ id) ∧
   p = {| pu_id := id; pu_content_sha256 := sha; pu_deduplicated := false;
          pu_superseded := negb (na_supersedes_artifact_id n =?o None) |} ∧
   db' = with_artifact now company id sha n (drawn 1 db) ∧
   table_ok (R := RV.Artifact) db' = true ∧
   ∀ old, na_supersedes_artifact_id n = Some old → old ≠ id → ∃ a, get_artifact company old db = Some a ∧
     (old ≠ "" → where_ (raised_on company (RV.ar_object_sha256 a) db) (RV.review_issues (reviews_of db)) = [])).
Proof.
  intros Hok Hrun id. unfold create_row in Hrun.
  apply tx_bind_ok in Hrun as (? & ? & [-> ->]%draw_ok & Hrun). fold id in Hrun.
  apply tx_bind_ok in Hrun as (o & ? & Hs & Hrun). apply select_one_ok in Hs as [-> ->].
  change (rows (drawn 1 db)) with (RV.artifacts (reviews_of db)) in Hrun.
  destruct (List.find _ _) as [a|] eqn:Hfind.
  { left. apply mret_ok in Hrun as [-> ->]. apply find_some in Hfind as [Hin%list_elem_of_In Ha]. bools.
    exists a. by split_and!. }
  right. assert (∀ a, a ∈ RV.artifacts (reviews_of db) → RV.ar_company_id a = company → RV.ar_object_sha256 a ≠ sha) as Hno.
  { intros a Ha%list_elem_of_In Hc Hs. eapply find_none in Hfind; [|exact Ha]. by rewrite Hc, Hs, !String.eqb_refl in Hfind. }
  apply tx_bind_ok in Hrun as (u & db1 & Hold & Hrun).
  apply tx_bind_ok in Hrun as ([] & db2 & Hins & Hrun).
  apply tx_bind_ok in Hrun as ([] & ? & [-> _]%insert_appended & [-> ->]%mret_ok).
  apply insert_artifact_ok in Hins. set (row := artifact_row now company id sha n) in Hins.
  destruct Hins as (-> & Hrow & Hrefs & Hcl). simpl RV.ar_supersedes_artifact_id in *. simpl RV.ar_company_id in *.
  set (before := match na_supersedes_artifact_id n with Some old => retired company old db1 | None => db1 end) in *.
  assert (map RV.ar_id (RV.artifacts (reviews_of before)) = map RV.ar_id (RV.artifacts (reviews_of db))) as Hids.
  { unfold before. destruct (na_supersedes_artifact_id n) as [old|]; [|by apply mret_ok in Hold as [_ ->]].
    rewrite artifacts_retired, updated_ids. destruct (old =? ""); [by apply mret_ok in Hold as [_ ->]|].
    by apply supersede_ids in Hold. }
  assert (∀ a, a ∈ RV.artifacts (reviews_of db) → RV.ar_id a ≠ id) as Hnew.
  { intros a Ha Heq. apply (list_elem_of_fmap_2 RV.ar_id) in Ha. change (RV.ar_id <$> _) with
      (map RV.ar_id (RV.artifacts (reviews_of db))) in Ha. rewrite <-Hids in Ha.
    apply list_elem_of_fmap in Ha as (b & Hb & Hin).
    pose proof (no_clash_last _ _ Hcl _ Hin) as Hne. simpl in Hne. bools. congruence. }
  assert (before = without_old company (na_supersedes_artifact_id n) (drawn 1 db) ∧
    ∀ old a, na_supersedes_artifact_id n = Some old → old ≠ "" → get_artifact company old db = Some a →
      where_ (raised_on company (RV.ar_object_sha256 a) db) (RV.review_issues (reviews_of db)) = []) as [Hbefore Hnone].
  { unfold before. destruct (na_supersedes_artifact_id n) as [old|]; [|by apply mret_ok in Hold as [_ ->]].
    destruct (old =? "") eqn:Ho.
    - apply mret_ok in Hold as [_ ->]. split.
      + unfold without_old. rewrite Ho. by destruct (get_artifact _ _ _).
      + intros ? ? [= <-] Hne. by bools.
    - apply supersede_ok in Hold as [-> Hwh]; [|by destruct db as [[[]]]| |done].
      + split; [apply without_old_retired|]. intros ? a [= <-] _ Hget. specialize (Hwh a Hget).
        by destruct db as [[[]]].
      + change (RV.artifact_refs (reviews_of (drawn 1 db))) with (RV.artifact_refs (reviews_of db)).
        intros (a & [= Heq _] & Ha)%list_elem_of_fmap. by eapply Hnew. }
  split_and!; [done|done|done|by rewrite Hbefore| |].
  - assert (RV.artifacts (reviews_of (appended (id, company, na_created_by_employee_id n) (appended row before))) =
      RV.artifacts (reviews_of before) ++ [row]) as Harts by (clear; generalize before; intros d; by destruct d as [[[]]]).
    unfold table_ok. change (rows (R := RV.Artifact) ?d) with (RV.artifacts (reviews_of d)).
    rewrite Harts, Hcl, forallb_app, andb_true_r. cbn [forallb]. rewrite Hrow, andb_true_r, Hbefore.
    apply rows_without_old_ok. by destruct db as [[[]]].
  - intros old Hold' Hne.
    assert (Hin : RV.opt_ref (Some old) company (RV.artifact_refs (reviews_of (appended row before))) = true).
    { rewrite <-Hold'. clear -Hrefs. revert Hrefs. generalize before. intros d Hrefs. unfold refs_ok in Hrefs.
      cbn [plan_artifacts_table] in Hrefs. apply andb_true_iff in Hrefs as [Hrefs _].
      by apply andb_true_iff in Hrefs as [_ Hrefs]. }
    assert (RV.artifact_refs (reviews_of (appended row before)) = RV.artifact_refs (reviews_of db) ++ [(id, company)])
      as Harts.
    { transitivity (RV.artifact_refs (reviews_of before) ++ [(id, company)]).
      - generalize before. clear. intros d. unfold RV.artifact_refs. destruct d as [[[]]]. cbn. by rewrite map_app.
      - f_equal. rewrite Hbefore, artifact_refs_without_old. by destruct db as [[[]]]. }
    rewrite Harts in Hin. unfold RV.opt_ref in Hin. bools.
    apply elem_of_app in Hin as [Hin|[= ?]%list_elem_of_singleton]; [|done].
    apply list_elem_of_fmap in Hin as (a & [= -> ->] & Ha).
    assert (∃ b, get_artifact (RV.ar_company_id a) (RV.ar_id a) db = Some b) as [b Hb].
    { unfold get_artifact. destruct (List.find (the_artifact _ _) _) eqn:Hf; [by eexists|]. apply list_elem_of_In in Ha.
      eapply find_none in Hf; [|exact Ha]. unfold the_artifact in Hf. by rewrite !String.eqb_refl in Hf. }
    exists b. split; [done|]. intros Hne'. by eapply Hnone.
Qed.
End Created.

(** ** Versions *)

(** Whatever supersedes an artifact came after it, and the old one is not current. *)
Definition versions_ok (l : list RV.Artifact) : Prop :=
  ∀ l1 a l2 old, l = l1 ++ a :: l2 → RV.ar_supersedes_artifact_id a = Some old →
    ∃ b, b ∈ l1 ∧ the_artifact (RV.ar_company_id a) old b = true ∧ RV.ar_is_current b = 0%Z.

Lemma updated_split company old l l1 a l2 :
  updated (R := RV.Artifact) (the_artifact company old) (set_current 0) l = l1 ++ a :: l2 →
  ∃ k1 b k2, l = k1 ++ b :: k2 ∧ l1 = updated (R := RV.Artifact) (the_artifact company old) (set_current 0) k1 ∧
    (a = b ∨ a = set_current 0 b).
Proof.
  intros Heq. unfold updated in *. apply List.map_eq_app in Heq as (k1 & k & -> & <- & Hk).
  apply List.map_eq_cons in Hk as (b & k2 & -> & <- & _). exists k1, b, k2.
  split_and!; [done..|]. destruct (the_artifact company old b); [by right|by left].
Qed.

Lemma versions_updated company old l : versions_ok l →
  versions_ok (updated (R := RV.Artifact) (the_artifact company old) (set_current 0) l).
Proof.
  intros Hl l1 a l2 old' Heq Hold. apply updated_split in Heq as (k1 & b & k2 & -> & -> & Hab).
  destruct (Hl k1 b k2 old' eq_refl) as (c & Hc & Hk & Hcur); [by destruct Hab as [->| ->]|].
  assert (RV.ar_company_id a = RV.ar_company_id b) as ->
    by (by destruct Hab as [->| ->]).
  exists (if the_artifact company old c then set_current 0 c else c). split_and!.
  - unfold updated. apply list_elem_of_In, in_map_iff. exists c. split; [done|by apply list_elem_of_In].
  - by destruct (the_artifact company old c).
  - by destruct (the_artifact company old c).
Qed.

Lemma versions_snoc l a : versions_ok l →
  (∀ old, RV.ar_supersedes_artifact_id a = Some old →
     ∃ b, b ∈ l ∧ the_artifact (RV.ar_company_id a) old b = true ∧ RV.ar_is_current b = 0%Z) →
  versions_ok (l ++ [a]).
Proof.
  intros Hl Ha l1 b l2 old Heq Hold. destruct l2 as [|c l2] using rev_ind.
  - apply app_inj_tail in Heq as [-> ->]. by apply Ha.
  - clear IHl2. rewrite app_comm_cons, app_assoc in Heq. apply app_inj_tail in Heq as [-> _]. by eapply Hl.
Qed.

Section Versions.
Context (uuid4 : nat → string) (now : string) (sha256 : string → string) (repr : json → string).
Implicit Types db : DB.

Lemma artifacts_with_artifact company id sha n db :
  RV.artifacts (reviews_of (with_artifact now company id sha n db)) =
  RV.artifacts (reviews_of (without_old company (na_supersedes_artifact_id n) db)) ++ [artifact_row now company id sha n].
Proof. unfold with_artifact. generalize (without_old company (na_supersedes_artifact_id n) db). intros d. by destruct d as [[[]]]. Qed.

Lemma create_row_versions company sha n db p db' :
  table_ok (R := RV.Artifact) db = true → versions_ok (RV.artifacts (reviews_of db)) →
  na_supersedes_artifact_id n ≠ Some (uuid4 (uuids db)) →
  create_row uuid4 now company sha n db = (Ok p, db') →
  table_ok (R := RV.Artifact) db' = true ∧ versions_ok (RV.artifacts (reviews_of db')).
Proof.
  intros Hok Hv Hguess Hrun.
  apply create_row_ok in Hrun as [(a & _ & _ & _ & _ & ->)|(_ & _ & _ & -> & Hok' & Hold)]; [|  |done].
  - split; [by destruct db as [[[]]]|exact Hv].
  - split; [done|]. rewrite artifacts_with_artifact, artifacts_without_old.
    change (RV.artifacts (reviews_of (drawn 1 db))) with (RV.artifacts (reviews_of db)).
    apply versions_snoc.
    + destruct (na_supersedes_artifact_id n); [by apply versions_updated|done].
    + simpl. intros old Hn. rewrite Hn. destruct (Hold old Hn) as (b & Hb & _); [congruence|].
      apply find_some in Hb as [Hin Hb]. exists (set_current 0 b). split_and!; [|done..].
      unfold updated. apply list_elem_of_In, in_map_iff. exists b. by rewrite Hb.
Qed.

Lemma dispatch_keeps_artifacts company task artifact type cur db c db' :
  maybe_dispatch_deliverable_reviews uuid4 now repr company task artifact type cur db = (Ok c, db') →
  RV.artifacts (reviews_of db') = RV.artifacts (reviews_of db).
Proof.
  intros Hrun. destruct cur; [|by apply mret_ok in Hrun as [_ ->]].
  rewrite maybe_dispatch_run in Hrun. destruct (review_plan _ _ _ _ _ _) as [[[sha contributors] reviewers]|]; [|by simplify_eq].
  apply tx_bind_ok in Hrun as (created & db1 & Hl & [_ ->]%mret_ok). revert db created Hl.
  induction reviewers as [|r l IH]; intros db created Hl; [by apply mret_ok in Hl as [_ ->]|].
  simpl in Hl. apply tx_bind_ok in Hl as (x & db2 & Hr & Hl). apply tx_bind_ok in Hl as (xs & db3 & Hl & [_ ->]%mret_ok).
  rewrite (IH _ _ Hl). clear IH Hl. unfold dispatch_review in Hr.
  apply tx_bind_ok in Hr as (? & ? & [-> ->]%gets_ok & Hr).
  destruct (negb _); [by apply mret_ok in Hr as [_ ->]|].
  apply tx_bind_ok in Hr as (? & ? & [-> ->]%draw_ok & Hr).
  apply tx_bind_ok in Hr as (n & db4 & Hi & Hr).
  assert (RV.artifacts (reviews_of db4) = RV.artifacts (reviews_of db)) as <-.
  { apply insert_or_ignore_appended in Hi as [->| ->]; [done|by destruct db as [[[]]]]. }
  destruct (negb _); [by apply mret_ok in Hr as [_ ->]|].
  do 2 (apply tx_bind_ok in Hr as (? & ? & [-> ->]%draw_ok & Hr)).
  apply tx_bind_ok in Hr as ([] & ? & [-> _]%insert_appended & Hr).
  apply tx_bind_ok in Hr as (? & ? & [-> ->]%draw_ok & Hr).
  apply tx_bind_ok in Hr as ([] & ? & [-> _]%insert_appended & [_ ->]%mret_ok).
  by destruct db4 as [[[]]].
Qed.

(** Each version is found before the one that supersedes it. *)
Lemma chain_ends company db : table_ok (R := RV.Artifact) db = true → versions_ok (RV.artifacts (reviews_of db)) →
  ∀ k l1 a l2 id, (length l1 < k)%nat → RV.artifacts (reviews_of db) = l1 ++ a :: l2 →
  get_artifact company id db = Some a → the_artifact company id a = true →
  (∃ chain, get_artifact_version_chain k company id db = Some (a :: chain) ∧
    Forall (λ b, RV.ar_is_current b = 0%Z) chain).
Proof.
  intros Hok Hv. induction k as [|k IH]; intros l1 a l2 id Hk Hl Hget Hid; [lia|].
  simpl. rewrite Hget. destruct (RV.ar_supersedes_artifact_id a) as [old|] eqn:Hold; [|by exists []].
  destruct (Hv l1 a l2 old Hl Hold) as (b & Hb & Hkey & Hcur).
  assert (RV.ar_company_id a = company) as Hc by (unfold the_artifact in Hid; by bools). rewrite Hc in Hkey.
  assert (Hgetb : get_artifact company old db = Some b).
  { unfold get_artifact. change (RV.artifacts (reviews_of db)) with (rows (R := RV.Artifact) db).
    apply (find_unique (DB := DB)); [by apply table_no_clash|intros; by eapply artifact_key| |done].
    change (b ∈ RV.artifacts (reviews_of db)). rewrite Hl. apply elem_of_app. by left. }
  apply list_elem_of_split in Hb as (k1 & k2 & ->).
  destruct (IH k1 b (k2 ++ a :: l2) old) as (chain & Hch & Hall); [|by rewrite Hl, <-app_assoc|done..|].
  { rewrite length_app in Hk. simpl in Hk. lia. }
  exists (b :: chain). by rewrite Hch; split; [|constructor].
Qed.

(** C33. Versions stay linear.  From tables in which a version supersedes only an older one
    that is no longer current, creating an artifact (new or not, superseding or not, with
    the reviews it sets off) leads to such tables again, as long as the caller does not
    name the identifier that is yet to be drawn; and in them the loop that follows the
    versions of any artifact ends, with every version but the first no longer current. *)
Theorem versions_stay_linear company n db id db' :
  table_ok (R := RV.Artifact) db = true → versions_ok (RV.artifacts (reviews_of db)) →
  na_supersedes_artifact_id n ≠ Some (uuid4 (uuids db)) →
  _artifact_create uuid4 now sha256 repr company n db = (Ok id, db') →
  table_ok (R := RV.Artifact) db' = true ∧ versions_ok (RV.artifacts (reviews_of db')) ∧
  ∀ company' id', ∃ chain,
    get_artifact_version_chain (S (length (RV.artifacts (reviews_of db')))) company' id' db' = Some chain ∧
    Forall (λ b, RV.ar_is_current b = 0%Z) (tail chain).
Proof.
  intros Hok Hv Hguess Hrun. unfold _artifact_create in Hrun.
  apply tx_bind_ok in Hrun as (p & db1 & Hc & Hrun). apply tx_bind_ok in Hrun as ([] & db2 & Hd & [-> ->]%mret_ok).
  apply create_row_versions in Hc as [Hok1 Hv1]; [|done..].
  assert (Hsame : RV.artifacts (reviews_of db2) = RV.artifacts (reviews_of db1)).
  { destruct (_ && _); [|by apply mret_ok in Hd as [_ ->]].
    apply tx_bind_ok in Hd as (c & ? & Hd & [_ ->]%mret_ok). by apply dispatch_keeps_artifacts in Hd. }
  assert (table_ok (R := RV.Artifact) db2 = true) as Hok2.
  { unfold table_ok in *. change (rows (R := RV.Artifact) ?d) with (RV.artifacts (reviews_of d)) in *. by rewrite Hsame. }
  rewrite <-Hsame in Hv1. split_and!; [done..|]. intros company' id'.
  destruct (get_artifact company' id' db2) as [a|] eqn:Ha.
  - pose proof Ha as Hf. apply find_some in Hf as [Hin%list_elem_of_In Hid].
    apply list_elem_of_split in Hin as (l1 & l2 & Hl).
    destruct (chain_ends company' db2 Hok2 Hv1 (S (length (RV.artifacts (reviews_of db2)))) l1 a l2 id')
      as (chain & Hch & Hall); [rewrite Hl, length_app; lia|done..|]. by exists (a :: chain).
  - exists []. simpl. by rewrite Ha.
Qed.
End Versions.

(** ** Creating, superseding, reading back *)

Section Contents.
Context (uuid4 : nat → string) (now : string) (sha256 : string → string).
Implicit Types db : DB.

(** Creating an artifact.  When content of the company with the same digest is there,
    the answer is the artifact that has it, and nothing changes.  Otherwise one artifact,
    current, and its contributor are added; what it supersedes is of the company and no
    longer current, and every review of the old content that counted becomes stale;
    nothing else changes. *)
Lemma artifact_created company n db p db' :
  table_ok (R := RV.Artifact) db = true →
  create_artifact uuid4 now sha256 company n db = (Ok p, db') →
  let id := uuid4 (uuids db) in let sha := sha256 (na_content n) in
  (∃ a, a ∈ RV.artifacts (reviews_of db) ∧ RV.ar_company_id a = company ∧ RV.ar_object_sha256 a = sha ∧
     p = {| pu_id := RV.ar_id a; pu_content_sha256 := sha; pu_deduplicated := true; pu_superseded := false |} ∧
     db' = drawn 1 db) ∨
  ((∀ a, a ∈ RV.artifacts (reviews_of db) → RV.ar_company_id a = company → RV.ar_object_sha256 a ≠ sha) ∧
   p = {| pu_id := id; pu_content_sha256 := sha; pu_deduplicated := false;
          pu_superseded := negb (na_supersedes_artifact_id n =?o None) |} ∧
   db' = with_artifact now company id sha n (drawn 1 db) ∧
   ∀ old, na_supersedes_artifact_id n = Some old → old ≠ id → old ≠ "" → ∃ a, get_artifact company old db = Some a ∧
     RV.review_assignments (reviews_of db') =
       updated (counts_for company (RV.ar_object_sha256 a)) set_stale (RV.review_assignments (reviews_of db)) ∧
     ∀ r, r ∈ RV.review_assignments (reviews_of db') → RV.as_company_id r = company →
       RV.as_reviewed_sha256 r = RV.ar_object_sha256 a → RV.as_status r ∈ ["stale"; "cancelled"]).
Proof.
  intros Hok Hrun id sha. apply create_row_ok in Hrun as [H|(H1 & _ & H3 & H4 & _ & H6)]; [by left| |done].
  right. split_and!; [done..|]. intros old Hn Hne Hne'. destruct (H6 old Hn Hne) as (a & Ha & _).
  exists a. assert (RV.review_assignments (reviews_of db') =
    updated (counts_for company (RV.ar_object_sha256 a)) set_stale (RV.review_assignments (reviews_of db))) as Hrows.
  { rewrite H4. unfold with_artifact, without_old. rewrite Hn. simpl.
    change (get_artifact company old (drawn 1 db)) with (get_artifact company old db). rewrite Ha.
    apply String.eqb_neq in Hne'. rewrite Hne'. by destruct db as [[[]]]. }
  split_and!; [done..|]. intros r Hr Hc Hs. rewrite Hrows in Hr.
  apply elem_updated in Hr as [[_ Hr]|(y & _ & _ & ->)]; [|by left].
  unfold counts_for in Hr. rewrite Hc, Hs, !String.eqb_refl in Hr. simpl in Hr. by bools.
Qed.

(** A reviewed version stays.  An artifact on whose content a review has raised an issue
    of the company cannot be superseded by new content: the creation fails, since the issue
    is to name the new version before that is there. *)
Lemma reviewed_version_stays company n db old a i :
  table_ok (R := RV.Artifact) db = true →
  na_supersedes_artifact_id n = Some old → old ≠ "" → old ≠ uuid4 (uuids db) → get_artifact company old db = Some a →
  i ∈ RV.review_issues (reviews_of db) → raised_on company (RV.ar_object_sha256 a) db i = true →
  (∀ b, b ∈ RV.artifacts (reviews_of db) → RV.ar_company_id b = company → RV.ar_object_sha256 b ≠ sha256 (na_content n)) →
  ∃ e, (create_artifact uuid4 now sha256 company n db).1 = Err e.
Proof.
  intros Hok Hn Hne Hid Ha Hi Hr Hnew. destruct (create_artifact _ _ _ _ _ _) as [[p|e] db'] eqn:Hrun; [|by exists e].
  exfalso. apply create_row_ok in Hrun as [(b & Hb & Hc & Hs & _)|(_ & _ & _ & _ & _ & Hold)]; [by eapply Hnew| |done].
  destruct (Hold old Hn Hid) as (b & Hb & Hnone). rewrite Ha in Hb. injection Hb as <-.
  apply (not_elem_of_nil i). rewrite <-(Hnone Hne). by apply elem_where.
Qed.

(** Every content is under its digest. *)
Definition store_ok (s : Store) : Prop := NoDup (dict_keys s) ∧ ∀ sha c, (sha, c) ∈ s → sha = sha256 c.

Lemma cas_write_ok content s : store_ok s → (∀ c, c ∈ s.*2 → sha256 c = sha256 content → c = content) →
  let '(s', sha) := cas_write sha256 content s in
  sha = sha256 content ∧ store_ok s' ∧ cas_read sha s' = Some content ∧
  ∀ sha', sha' ≠ sha → cas_read sha' s' = cas_read sha' s.
Proof.
  intros [Hnd Hs] Hcol. unfold cas_write, cas_read. destruct (sha256 content ∈? dict_keys s) eqn:Hin.
  - bools. split_and!; [done|done| |done]. apply dict_get_is_some in Hin as [c Hc].
    rewrite Hc. f_equal. apply dict_get_some_elem in Hc. apply Hcol; [|by apply Hs in Hc].
    apply list_elem_of_fmap. by exists (sha256 content, c).
  - split_and!; [done| | |].
    + split; [by apply dict_set_nodup|]. intros sha c Hc.
      apply dict_get_elem in Hc; [|by apply dict_set_nodup]. rewrite dict_get_set in Hc.
      case_bool_decide; [by simplify_eq|]. by apply Hs, dict_get_some_elem.
    + by rewrite dict_get_set, bool_decide_true.
    + intros sha' Hne. rewrite dict_get_set. by rewrite bool_decide_false.
Qed.

(** Content round trip.  Whatever is created with its content can be read back under the
    identifier that was returned, whether it was there before or not, as long as no other
    stored content has its digest; and what was stored before is still there. *)
Lemma content_roundtrip company n s db s' p db' :
  table_ok (R := RV.Artifact) db = true → store_ok s →
  (∀ c, c ∈ s.*2 → sha256 c = sha256 (na_content n) → c = na_content n) →
  create_artifact_with_manifest uuid4 now sha256 company n s db = (s', (Ok p, db')) →
  get_artifact_content company (pu_id p) s' db' = Some (na_content n) ∧ store_ok s' ∧
  ∀ sha c, cas_read sha s = Some c → cas_read sha s' = Some c.
Proof.
  intros Hok Hs Hcol Hrun. unfold create_artifact_with_manifest in Hrun.
  destruct (cas_write sha256 (na_content n) s) as [s1 sha] eqn:Hw. injection Hrun as -> Hrun.
  pose proof (cas_write_ok (na_content n) s Hs Hcol) as Hwok. rewrite Hw in Hwok. destruct Hwok as (-> & Hs' & Hread & Hother).
  split_and!; [|done|].
  2:{ intros sha c Hc. destruct (decide (sha = sha256 (na_content n))) as [->|Hne]; [|by rewrite Hother].
      rewrite Hread. f_equal. unfold cas_read in Hc. apply dict_get_some_elem in Hc. symmetry. apply Hcol.
      - apply list_elem_of_fmap. by exists (sha256 (na_content n), c).
      - destruct Hs as [_ Hs]. by apply Hs in Hc. }
  unfold get_artifact_content, get_artifact.
  assert (∀ a, table_ok (R := RV.Artifact) db' = true → a ∈ RV.artifacts (reviews_of db') → RV.ar_id a = pu_id p →
    RV.ar_company_id a = company → RV.ar_object_sha256 a = sha256 (na_content n) →
    (a ← List.find (the_artifact company (pu_id p)) (RV.artifacts (reviews_of db')); cas_read (RV.ar_object_sha256 a) s') =
      Some (na_content n)) as Hfound.
  { intros a Hok' Hin Hid Hc Hsha. assert (the_artifact company (pu_id p) a = true) as Hkey
      by (unfold the_artifact; by rewrite Hid, Hc, !String.eqb_refl).
    change (RV.artifacts (reviews_of db')) with (rows (R := RV.Artifact) db').
    destruct (find_unique (DB := DB) (the_artifact company (pu_id p)) (rows (R := RV.Artifact) db') a) as [-> _];
      [by apply table_no_clash|intros; by eapply artifact_key|done..|]. simpl. by rewrite Hsha. }
  apply create_row_ok in Hrun as [(a & Hin & Hc & Hsha & -> & ->)|(_ & _ & -> & -> & Hok' & _)]; [| |done].
  - apply (Hfound a); try done.
  - apply (Hfound (artifact_row now company (uuid4 (uuids db)) (sha256 (na_content n)) (with_path n))); try done.
    rewrite artifacts_with_artifact. apply elem_of_app. right. by left.
Qed.
End Contents.

(** A document under review, with or without an issue, and a new version of it. *)
Module Demo.
Import PlanStore.Demo.
Definition sha' : string := "fedcba9876543210fedcba9876543210fedcba9876543210fedcba9876543210".
Definition digest (content : string) : string := if content =? "old" then sha else sha'.
Definition assignment : RV.AssignmentRow := {|
  RV.as_id := "ra"; RV.as_company_id := "co"; RV.as_artifact_id := "doc"; RV.as_reviewer_employee_id := "rev";
  RV.as_review_round := 1; RV.as_reviewed_sha256 := sha; RV.as_status := "submitted"; RV.as_assigned_at := "t";
  RV.as_submitted_at := Some "t"; RV.as_version := 1 |}.
Definition report : RV.ReportRow := {|
  RV.rp_id := "rr"; RV.rp_company_id := "co"; RV.rp_assignment_id := "ra"; RV.rp_reviewer_run_id := "run";
  RV.rp_reviewed_artifact_id := "doc"; RV.rp_reviewed_sha256 := sha; RV.rp_verdict := "needs_changes";
  RV.rp_report_artifact_id := "doc"; RV.rp_created_at := "t"; RV.rp_version := 1 |}.
Definition issue : RV.IssueRow := {|
  RV.is_id := "ri"; RV.is_company_id := "co"; RV.is_review_report_id := "rr"; RV.is_severity := "high";
  RV.is_category := "c"; RV.is_description := "d"; RV.is_expected := "e"; RV.is_actual := "a";
  RV.is_suggested_fix := "f"; RV.is_evidence_refs := JList []; RV.is_status := "open"; RV.is_assignee := None;
  RV.is_verifier := None; RV.is_rejection_reason := None; RV.is_superseded_by := None; RV.is_created_at := "t";
  RV.is_updated_at := "t"; RV.is_version := 1 |}.
Definition db (reports : list RV.ReportRow) (issues : list RV.IssueRow) : DB :=
  let d := chain "assigned" [] in
  let r := reviews_of d in
  with_reviews {|
    RV.review_assignments := [assignment]; RV.review_reports := reports; RV.review_issues := issues;
    RV.resolution_evidence := []; RV.idem_rows := []; RV.event_rows := []; RV.outbox_rows := [];
    RV.routing := RV.routing r; RV.artifacts := RV.artifacts r; RV.artifact_contributors := [];
    RV.employees := RV.employees r; RV.agent_runs := []; RV.companies := ["co"]; RV.ledger := RV.ledger r |} d.
Definition new (content : string) : NewArtifact := {|
  na_company_task_id := "ct"; na_artifact_type := "document"; na_content := content; na_filename := "doc.md";
  na_mime_type := "text/markdown"; na_created_by_employee_id := "emp"; na_supersedes_artifact_id := Some "doc" |}.
Definition create (content : string) (d : DB) : result Published * DB :=
  create_artifact uuid4 "now" digest "co" (new content) d.
Definition publish (d : DB) : result string * DB :=
  _artifact_create uuid4 "now" digest (λ _, "") "co" (new "new") d.
End Demo.

(** The review of the old version is stale, and its reviewer has the new version to review. *)
Lemma artifact_created_witness :
  let after := Demo.create "new" (Demo.db [] []) in
  map RV.as_status (RV.review_assignments (reviews_of after.2)) = ["stale"] ∧
  map (λ a, (RV.ar_id a, RV.ar_is_current a)) (RV.artifacts (reviews_of after.2)) = [("doc", 0%Z); ("u0", 1%Z)] ∧
  pu_deduplicated <$> match (Demo.create "old" (Demo.db [] [])).1 with Ok p => Some p | Err _ => None end = Some true ∧
  map (λ a, (RV.as_artifact_id a, RV.as_reviewer_employee_id a, RV.as_status a))
    (RV.review_assignments (reviews_of (Demo.publish (Demo.db [] [])).2)) =
    [("doc", "rev", "stale"); ("u0", "rev", "assigned")] ∧
  after.2 = with_artifact "now" "co" "u0" Demo.sha' (Demo.new "new") (drawn 1 (Demo.db [] [])).
Proof.
  intros after. do 4 (split; [by vm_compute|]).
  destruct (artifact_created PlanStore.Demo.uuid4 "now" Demo.digest "co" (Demo.new "new") (Demo.db [] [])
    {| pu_id := "u0"; pu_content_sha256 := Demo.sha'; pu_deduplicated := false; pu_superseded := true |} after.2)
    as [(a & _ & _ & _ & H & _)|(_ & _ & H & _)]; [by vm_compute|by vm_compute|discriminate H|exact H].
Defined.

Lemma versions_stay_linear_witness :
  let after := Demo.publish (Demo.db [] []) in
  versions_ok (RV.artifacts (reviews_of after.2)) ∧
  map RV.ar_id <$> get_artifact_version_chain 3 "co" "u0" after.2 = Some ["u0"; "doc"].
Proof.
  intros after. split; [|by vm_compute].
  apply (versions_stay_linear PlanStore.Demo.uuid4 "now" Demo.digest (λ _, "") "co" (Demo.new "new") (Demo.db [] [])
    "u0" after.2); [by vm_compute| |by vm_compute|by vm_compute].
  intros l1 a l2 old Heq Hold. destruct l1 as [|b [|c l1]]; [|discriminate Heq|discriminate Heq].
  injection Heq as <- <-. discriminate Hold.
Defined.

Lemma reviewed_version_stays_witness :
  let before := Demo.db [Demo.report] [Demo.issue] in
  (Demo.create "new" before).1 = Err (IntegrityErr "review_issues") ∧ ∃ e, (Demo.create "new" before).1 = Err e.
Proof.
  intros before. split; [by vm_compute|].
  apply (reviewed_version_stays PlanStore.Demo.uuid4 "now" Demo.digest "co" (Demo.new "new") before "doc"
    (PlanStore.Demo.artifact "doc" "document") Demo.issue); [by vm_compute..|by left|by vm_compute|].
  intros b Hb _. simpl in Hb. apply list_elem_of_singleton in Hb as ->. by vm_compute.
Defined.

Lemma content_roundtrip_witness :
  let r := create_artifact_with_manifest PlanStore.Demo.uuid4 "now" Demo.digest "co" (Demo.new "new")
    [(PlanStore.Demo.sha, "old")] (Demo.db [] []) in
  get_artifact_content "co" "u0" r.1 r.2.2 = Some "new" ∧ cas_read PlanStore.Demo.sha r.1 = Some "old".
Proof.
  intros r. split; [|by vm_compute].
  refine (proj1 (content_roundtrip PlanStore.Demo.uuid4 "now" Demo.digest "co" (Demo.new "new") [(PlanStore.Demo.sha, "old")]
    (Demo.db [] []) r.1 {| pu_id := "u0"; pu_content_sha256 := Demo.sha'; pu_deduplicated := false; pu_superseded := true |}
    r.2.2 _ _ _ _)); [by vm_compute| | |by vm_compute].
  - split; [by apply NoDup_singleton|]. intros sha c Hc. apply list_elem_of_singleton in Hc. by injection Hc as -> ->.
  - intros c Hc. apply list_elem_of_singleton in Hc as ->. intros Hsha. by vm_compute in Hsha.
Defined.
