(* ===== verification/PreparePlan.v ===== *)
(** * Resources of a plan ([orchestration/confirm_plan.py], first part)

    What confirmation finds out, before it writes anything, about every employee a plan
    names: whether the employee, the profile, the catalog release, the runtime binding, the
    workspace and the capabilities are there.  [repr] is Python's.  Members of a list are
    told apart as JSON values.

    The lemmas: resources that all fit mean that every department task of the plan is
    [task_ready]. *)

From S2P Require Import Prelude PyEnum PyStr Sql UnitOfWork Zoom WorkStore PlanStore RunBuilder Dispatch.

(** What later dispatch uses of an employee that is there. *)
Record EmployeeProfile := {
  ep_profile_version_id : string;
  ep_binding : list (string * json);
  ep_routing_policy : json;
  ep_profile_type : string;
  ep_capability_tags : list string;
  ep_adapter_type : string;
  ep_model_id : string }.

(** One entry of the [resources] dict; an employee that is missing has no profile. *)
Record Resource := {
  re_department_id : string;
  re_profile : option EmployeeProfile;
  re_capability_checks : list (list string);
  re_available : bool;
  re_checks : list json }.

Definition resources : Type := list (string * Resource).

Section Prepare.
Context (repr : json → string).

(** [tuple(sorted({v for v in values if isinstance(v, str) and v.strip()}))] *)
Definition required_tags (values : json) : list string :=
  sorted_set (List.filter (λ s, negb (strip s =? "")) (strings_of values)).

(* [sidecar/ibreeze/orchestration/confirm_plan.py:37-69 _apply_capability_preflight] *)
Definition _apply_capability_preflight (r : Resource) (required_values : json) : Resource * bool :=
  let required := required_tags required_values in
  if required ∈? re_capability_checks r then (r, re_available r) else
  let tags := match re_profile r with Some p => ep_capability_tags p | None => [] end in
  let missing := sorted_set (List.filter (λ s, negb (s ∈? tags)) required) in
  let ok := match missing with [] => true | _ => false end in
  let r' := {|
    re_department_id := re_department_id r; re_profile := re_profile r;
    re_capability_checks := required :: re_capability_checks r;
    re_available := re_available r && ok;
    re_checks := re_checks r ++ [availability "capability_tags" ok
      (if ok then String.concat "," required else "missing:" +:+ String.concat "," missing)] |} in
  (r', re_available r').

(* [sidecar/ibreeze/orchestration/confirm_plan.py:123-128 _active_catalog_release] *)
Definition _active_catalog_release (db : DB) : option string :=
  (λ r, r.1.1) <$> head (sort_by (λ a b, String.leb b.2 a.2)
    (List.filter (λ r, r.1.2 =? "active") (catalog_releases (refs db)))).

(** The checks and whether all of them passed; the database answers. *)
(* [sidecar/ibreeze/orchestration/confirm_plan.py:87-120 _run_availability_checks] *)
Definition _run_availability_checks (db : DB) : list json * bool :=
  match _active_catalog_release db with
  | None => ([availability "db_health" true ""; availability "catalog_release" false "No active catalog release"], false)
  | Some release => ([availability "db_health" true ""; availability "catalog_release" true release], true)
  end.

(** The employee joined with the version of its base profile and the profile. *)
Definition employee_row (employee company : string) (db : DB)
    : option (RV.Employee * option ProfileVersion * option Profile) :=
  e ← List.find (λ e, (RV.em_id e =? employee) && (RV.em_company_id e =? company)) (RV.employees (reviews_of db));
  let v := List.find (λ v, vr_id v =? RV.em_base_profile_version_id e) (profile_versions (refs db)) in
  Some (e, v, v' ← v; List.find (λ p, pf_id p =? vr_profile_id v') (base_profiles (refs db))).

(** [a or b] *)
Definition json_or (a b : json) : json := if json_truthy a then a else b.

(** The adapter, the model and whether the binding is complete. *)
(* [sidecar/ibreeze/orchestration/confirm_plan.py:289-315 _prepare_employee_resources (runtime binding)] *)
Definition resolve_binding (profile_type : string) (binding : list (string * json)) : string * string * bool :=
  let text j := strip (py_str repr j) in
  if profile_type =? "agent_cli" then
    let agent := text (json_or (field binding "agent_cli")
      (json_or (field binding "agent_key") (json_or (field binding "adapter_type") (JStr "")))) in
    (if agent ∈? ["codex_cli"; "claude_code"; "opencode"] then agent else "codex_cli", agent, negb (agent =? ""))
  else if profile_type =? "api_model" then
    let model := text (json_or (field binding "api_model") (json_or (field binding "model") (JStr ""))) in
    let given k := text (json_or (field binding k) (JStr "")) in
    ("api_model", model, negb (model =? "") && negb (given "credential_ref" =? "") &&
       negb (given "provider_release_id" =? "") && negb (given "model_binding_id" =? "") &&
       negb (given "provider_protocol" =? ""))
  else ("", "", false).

(** The resource of an employee looked at for the first time. *)
(* [sidecar/ibreeze/orchestration/confirm_plan.py:191-354 _prepare_employee_resources (employee)] *)
Definition new_resource (company department employee release grant : string) (required : json) (db : DB) : Resource :=
  match employee_row employee company db with
  | None => {| re_department_id := department; re_profile := None; re_capability_checks := [];
               re_available := false; re_checks := [availability "employee" false "EMPLOYEE_NOT_FOUND"] |}
  | Some (e, v, p) =>
      let employee_ok := RV.em_status e =? "active" in
      let department_ok := RV.em_department_id e =? department in
      let profile_ok := is_text (vr_status <$> v) "published" && is_text (pf_status <$> p) "active" in
      let catalog_ok := is_text (vr_catalog_release_id <$> v) release in
      let binding := match v with Some v => binding_of (vr_runtime_binding v) | None => [] end in
      let profile_type := match v with Some v => vr_profile_type v | None => "" end in
      let '(adapter, model, binding_ok) := resolve_binding profile_type binding in
      let grant_ok := negb (grant =? "") in
      let r := {|
        re_department_id := department;
        re_profile := Some {|
          ep_profile_version_id := RV.em_base_profile_version_id e; ep_binding := binding;
          ep_routing_policy := match v with Some v => vr_routing_policy v | None => JObj [] end;
          ep_profile_type := profile_type;
          ep_capability_tags := match v with Some v => strings_of (vr_capability_tags v) | None => [] end;
          ep_adapter_type := adapter; ep_model_id := model |};
        re_capability_checks := [];
        re_available := employee_ok && department_ok && profile_ok && catalog_ok && binding_ok && grant_ok;
        re_checks := [
          availability "employee_status" employee_ok (RV.em_status e);
          availability "department_membership" department_ok
            (if department_ok then department else "EMPLOYEE_DEPARTMENT_MISMATCH");
          availability "profile_version" profile_ok (text_or (vr_status <$> v) "missing");
          availability "catalog_release" catalog_ok (text_or (vr_catalog_release_id <$> v) "missing");
          availability "runtime_binding" binding_ok (if profile_type =? "" then "missing" else profile_type);
          availability "workspace_grant" grant_ok (if grant_ok then grant else "missing")] |} in
      (_apply_capability_preflight r required).1
  end.

(** The resources with one employee looked at, and whether all is available so far. *)
(* [sidecar/ibreeze/orchestration/confirm_plan.py:182-355 _prepare_employee_resources (employee loop)] *)
Definition look_at (company department release grant : string) (required : json) (db : DB)
    (acc : resources * bool) (employee : string) : resources * bool :=
  let '(rs, ok) := acc in
  match dict_get rs employee with
  | Some r =>
      if re_department_id r =? department then
        let '(r', available) := _apply_capability_preflight r required in
        (dict_set rs employee r', available && ok)
      else (rs, false)
  | None =>
      let r := new_resource company department employee release grant required db in
      (dict_set rs employee r, ok && re_available r)
  end.

(** A plan whose shape does not fit has no resources. *)
Inductive prepared := Unfit | Fit (rs : resources) (ok : bool).

(* [sidecar/ibreeze/orchestration/confirm_plan.py:168-355 _prepare_employee_resources (deliverable loop)] *)
Fixpoint look_at_deliverables (company department release grant : string) (required : json) (db : DB)
    (ds : list json) (rs : resources) (ok : bool) : result prepared :=
  match ds with
  | [] => Ok (Fit rs ok)
  | JObj d :: ds =>
      match field_or d "contributor_employee_ids" (JList []) with
      | JList (c :: cs) =>
          let reviewers := match field_or d "reviewer_employee_ids" (JList []) with JList l => l | _ => [] end in
          ensure (forallb hashable (c :: cs ++ reviewers)) (TypeErr "unhashable type");;
          let ids := map (py_str repr) (unique (c :: cs ++ reviewers)) in
          let '(rs, ok) := fold_left (look_at company department release grant required db) ids (rs, ok) in
          look_at_deliverables company department release grant required db ds rs ok
      | _ => Ok Unfit
      end
  | _ :: _ => Ok Unfit
  end.

(* [sidecar/ibreeze/orchestration/confirm_plan.py:149-357 _prepare_employee_resources] *)
Fixpoint _prepare_employee_resources (company release grant : string) (db : DB)
    (tasks : list json) (rs : resources) (ok : bool) : result prepared :=
  match tasks with
  | [] => Ok (Fit rs ok)
  | JObj t :: tasks =>
      let department := py_str repr (field_or t "department_id" (JStr "")) in
      let required := field_or t "required_capability_tags" (JList []) in
      let ok := ok && match List.find (λ d, (dp_id d =? department) && (dp_company_id d =? company))
                              (departments (refs db)) with
                      | Some d => (dp_status d =? "active") && negb (dp_current_revision_id d =? "")
                      | None => false
                      end in
      match field_or t "deliverables" (JList []) with
      | JList (d :: ds) =>
          r ← look_at_deliverables company department release grant required db (d :: ds) rs ok;
          match r with
          | Unfit => Ok Unfit
          | Fit rs ok => _prepare_employee_resources company release grant db tasks rs ok
          end
      | _ => Ok Unfit
      end
  | _ :: _ => Ok Unfit
  end.
End Prepare.

(** ** What a plan that fits can rely on *)

(** The employee is active, in the department, and its profile is published, of the
    release, with a complete binding. *)
Definition employee_ready (repr : json → string) (company department release grant employee : string) (db : DB) : Prop :=
  ∃ e v p, employee_row employee company db = Some (e, Some v, Some p) ∧
    RV.em_status e = "active" ∧ RV.em_department_id e = department ∧
    vr_status v = "published" ∧ pf_status p = "active" ∧ vr_catalog_release_id v = release ∧
    (resolve_binding repr (vr_profile_type v) (binding_of (vr_runtime_binding v))).2 = true ∧ grant ≠ "".

(** Its profile has every capability asked for. *)
Definition covers (company employee : string) (required : json) (db : DB) : Prop :=
  ∀ e v p, employee_row employee company db = Some (e, Some v, p) →
  ∀ s, s ∈ required_tags required → s ∈ strings_of (vr_capability_tags v).

Definition department_open (company department : string) (db : DB) : Prop :=
  ∃ d, List.find (λ d, (dp_id d =? department) && (dp_company_id d =? company)) (departments (refs db)) = Some d ∧
    dp_status d = "active" ∧ dp_current_revision_id d ≠ "".

(** Everyone whom a deliverable names. *)
Definition named (d : list (string * json)) (cs : list json) : list json :=
  cs ++ match field_or d "reviewer_employee_ids" (JList []) with JList l => l | _ => [] end.

Section Ready.
Context (repr : json → string) (company release grant : string) (db : DB).

Notation ready department employee := (employee_ready repr company department release grant employee db).

(** What is known of an entry of [resources]. *)
Record entry_ok (employee : string) (r : Resource) : Prop := {
  en_ready : re_available r = true → ready (re_department_id r) employee;
  en_tags : ∀ e v p, employee_row employee company db = Some (e, Some v, p) →
    ∃ ep, re_profile r = Some ep ∧ ep_capability_tags ep = strings_of (vr_capability_tags v);
  en_checked : re_available r = true → ∀ tags, tags ∈ re_capability_checks r →
    ∀ e v p, employee_row employee company db = Some (e, Some v, p) →
    ∀ s, s ∈ tags → s ∈ strings_of (vr_capability_tags v) }.

Lemma preflight_ok employee r required r' ok : entry_ok employee r →
  _apply_capability_preflight r required = (r', ok) →
  entry_ok employee r' ∧ ok = re_available r' ∧ re_department_id r' = re_department_id r ∧
  (ok = true → re_available r = true ∧ covers company employee required db).
Proof.
  intros [Hready Htags Hchecked]. unfold _apply_capability_preflight.
  destruct (required_tags required ∈? re_capability_checks r) eqn:Hin.
  - intros [= <- <-]. bools. split_and!; [by split|done..|]. intros Ha. split; [done|].
    intros e v p He s Hs. by eapply Hchecked.
  - set (tags := match re_profile r with Some p => ep_capability_tags p | None => [] end).
    set (missing := sorted_set _). intros [= <- <-]. simpl.
    assert (Hmiss : match missing with [] => true | _ :: _ => false end = true →
      ∀ e v p, employee_row employee company db = Some (e, Some v, p) →
      ∀ s, s ∈ required_tags required → s ∈ strings_of (vr_capability_tags v)).
    { intros Hm e v p He s Hs. destruct (Htags e v p He) as (ep & Hep & Ht). rewrite <-Ht.
      destruct (decide (s ∈ ep_capability_tags ep)) as [|Hno]; [done|exfalso].
      destruct missing eqn:Hmm; [|done]. apply (not_elem_of_nil s). rewrite <-Hmm. unfold missing.
      rewrite sorted_set_elem. apply list_elem_of_In, filter_In. split; [by apply list_elem_of_In|].
      unfold tags. rewrite Hep. by rewrite not_elem_of_mem. }
    split_and!; [|done|done|].
    + split; simpl; [|done|].
      * intros Ha. bools. by apply Hready.
      * intros Ha ts Hts. bools. apply elem_of_cons in Hts as [->|Hts]; [by apply Hmiss|by apply Hchecked].
    + intros Ha. bools. split; [done|exact (Hmiss ltac:(done))].
Qed.

Lemma new_resource_ok department employee required :
  let r := new_resource repr company department employee release grant required db in
  entry_ok employee r ∧ re_department_id r = department ∧
  (re_available r = true → ready department employee ∧ covers company employee required db).
Proof.
  simpl. unfold new_resource. destruct (employee_row employee company db) as [[[e v] p]|] eqn:He.
  2:{ split_and!; [|done..]. by split; rewrite ?He. }
  destruct (resolve_binding _ _ _) as [[adapter model] binding_ok] eqn:Hb.
  match goal with |- context [_apply_capability_preflight ?r required] => set (r0 := r) end.
  assert (Hr0 : entry_ok employee r0).
  { split; simpl.
    - intros Ha. bools. repeat match goal with H : is_text _ _ = true |- _ => apply is_text_iff in H end.
      destruct v as [v|]; [|done]. destruct p as [p|]; [|done]. simpl in *. simplify_eq.
      exists e, v, p. rewrite Hb. split_and!; done.
    - intros e' v' p' He'. rewrite He in He'. simplify_eq. by eexists.
    - by intros _ tags ?%not_elem_of_nil. }
  destruct (_apply_capability_preflight r0 required) as [r ok] eqn:Hp.
  destruct (preflight_ok employee r0 required r ok Hr0 Hp) as (Hr & -> & Hd & Hok). simpl. rewrite Hd.
  split_and!; [done..|]. intros Ha. destruct (Hok Ha) as [Ha0 Hc]. split; [|done]. by apply (en_ready _ _ Hr0).
Qed.

Definition entries_ok (rs : resources) : Prop := ∀ e r, dict_get rs e = Some r → entry_ok e r.

Lemma entries_ok_set rs e r : entries_ok rs → entry_ok e r → entries_ok (dict_set rs e r).
Proof. intros Hrs Hr e' r'. rewrite dict_get_set. case_decide; [intros [= <-]; by subst|apply Hrs]. Qed.

Lemma look_at_ok department required rs ok employee rs' ok' : entries_ok rs →
  look_at repr company department release grant required db (rs, ok) employee = (rs', ok') →
  entries_ok rs' ∧ (ok' = true → ok = true ∧ ready department employee ∧ covers company employee required db).
Proof.
  intros Hrs. unfold look_at. destruct (dict_get rs employee) as [r|] eqn:Hg.
  - destruct (re_department_id r =? department) eqn:Hd; [|by intros [= <- <-]]. bools. subst department.
    destruct (_apply_capability_preflight r required) as [r' available] eqn:Hp. intros [= <- <-].
    destruct (preflight_ok employee r required r' available (Hrs _ _ Hg) Hp) as (Hr & _ & _ & Hav).
    split; [by apply entries_ok_set|]. intros Ha. bools. destruct (Hav ltac:(done)) as [Ha' Hc].
    split_and!; [done| |done]. by apply (en_ready _ _ (Hrs _ _ Hg)).
  - intros [= <- <-]. destruct (new_resource_ok department employee required) as (Hr & Hd & Hav).
    split; [by apply entries_ok_set|]. intros Ha. bools. split; [done|by apply Hav].
Qed.

Lemma look_at_all_ok department required employees : ∀ rs ok rs' ok', entries_ok rs →
  fold_left (look_at repr company department release grant required db) employees (rs, ok) = (rs', ok') →
  entries_ok rs' ∧ (ok' = true → ok = true ∧
    ∀ e, e ∈ employees → ready department e ∧ covers company e required db).
Proof.
  induction employees as [|e l IH]; intros rs ok rs' ok' Hrs Hf.
  - injection Hf as <- <-. split; [done|]. intros ->. split; [done|]. by intros e ?%not_elem_of_nil.
  - cbn [fold_left] in Hf. destruct (look_at _ _ _ _ _ _ _ (rs, ok) e) as [rs1 ok1] eqn:H1.
    destruct (look_at_ok _ _ _ _ _ _ _ Hrs H1) as [Hrs1 Hok1].
    destruct (IH _ _ _ _ Hrs1 Hf) as [Hrs' Hok']. split; [done|]. intros Ha.
    destruct (Hok' Ha) as [Ha1 Hl]. destruct (Hok1 Ha1) as [Ha0 He]. split; [done|].
    intros e' [->|Hin]%elem_of_cons; [done|by apply Hl].
Qed.

(** Whom a deliverable names, ready for the department and the capabilities. *)
Definition deliverable_ready (department : string) (required : json) (d : json) : Prop :=
  ∃ f cs, d = JObj f ∧ field_or f "contributor_employee_ids" (JList []) = JList cs ∧ cs ≠ [] ∧
    ∀ j, j ∈ named f cs → ready department (py_str repr j) ∧ covers company (py_str repr j) required db.

Lemma deliverables_ready department required ds : ∀ rs ok rs' ok', entries_ok rs →
  look_at_deliverables repr company department release grant required db ds rs ok = Ok (Fit rs' ok') →
  entries_ok rs' ∧ (ok' = true → ok = true ∧ Forall (deliverable_ready department required) ds).
Proof.
  induction ds as [|d ds IH]; intros rs ok rs' ok' Hrs Hl.
  - injection Hl as <- <-. split; [done|]. intros ->. by split; [|constructor].
  - cbn [look_at_deliverables] in Hl. destruct d as [| | | | | |f]; try done.
    destruct (field_or f "contributor_employee_ids" (JList [])) as [| | | | |[|c cs]|] eqn:Hc; try done.
    apply result_bind_ok in Hl as ([] & _ & Hl).
    cbv zeta in Hl. destruct (fold_left _ _ _) as [rs1 ok1] eqn:Hf in Hl.
    destruct (look_at_all_ok _ _ _ _ _ _ _ Hrs Hf) as [Hrs1 Hok1].
    destruct (IH _ _ _ _ Hrs1 Hl) as [Hrs' Hok']. split; [done|]. intros Ha.
    destruct (Hok' Ha) as [Ha1 Hds]. destruct (Hok1 Ha1) as [Ha0 He]. split; [done|]. constructor; [|done].
    exists f, (c :: cs). split_and!; [done..|]. intros j Hj. apply He, list_elem_of_fmap.
    exists j. split; [done|]. by rewrite elem_of_unique.
Qed.

(** A department task whose department is open and whose deliverables are ready. *)
Definition task_ready (t : json) : Prop :=
  ∃ o ds, t = JObj o ∧ field_or o "deliverables" (JList []) = JList ds ∧ ds ≠ [] ∧
    let department := py_str repr (field_or o "department_id" (JStr "")) in
    department_open company department db ∧
    Forall (deliverable_ready department (field_or o "required_capability_tags" (JList []))) ds.

Lemma prepared_ready tasks : ∀ rs ok rs' ok', entries_ok rs →
  _prepare_employee_resources repr company release grant db tasks rs ok = Ok (Fit rs' ok') →
  entries_ok rs' ∧ (ok' = true → ok = true ∧ Forall task_ready tasks).
Proof.
  induction tasks as [|t tasks IH]; intros rs ok rs' ok' Hrs Hl.
  - injection Hl as <- <-. split; [done|]. intros ->. by split; [|constructor].
  - cbn [_prepare_employee_resources] in Hl. cbv zeta in Hl. destruct t as [| | | | | |o]; try done.
    destruct (field_or o "deliverables" (JList [])) as [| | | | |[|d ds]|] eqn:Hd; try done.
    apply result_bind_ok in Hl as ([|rs1 ok1] & Hds & Hl); [done|].
    destruct (deliverables_ready _ _ _ _ _ _ _ Hrs Hds) as [Hrs1 Hok1].
    destruct (IH _ _ _ _ Hrs1 Hl) as [Hrs' Hok']. split; [done|]. intros Ha.
    destruct (Hok' Ha) as [Ha1 Hts]. destruct (Hok1 Ha1) as [Ha0 Hall]. apply andb_true_iff in Ha0 as [-> Hopen].
    split; [done|]. constructor; [|done]. exists o, (d :: ds). cbv zeta. split_and!; [done..| |done].
    destruct (List.find _ _) as [dp|] eqn:Hdp in Hopen; [|done]. bools. by exists dp.
Qed.
End Ready.
