(* ===== verification/ConfirmPlan.v ===== *)
(** * Plan confirmation ([orchestration/confirm_plan.py], second part)

    [confirm_and_dispatch], the one way from a plan that awaits confirmation to work that
    can be run: it validates the request, looks at the resources (PreparePlan) and then
    writes the department tasks, the employee tasks with their review specifications, the
    runs of those that can start, the plan artifact and the four status edges of the
    company task.

    [repr] and [int_of_float] are Python's; [sha256] is the digest of a text and
    [text_size] its length in bytes.

    The theorems: a confirmation that goes through moves the task, the plan and all the
    rows of the work at once, and only with its resources there; any other answer leaves
    no trace; and a plan in which a task depends on an earlier one never goes through. *)

From S2P Require Import Prelude PyEnum PyStr PyText PyFloat Sql UnitOfWork Zoom WorkStore.
From S2P Require Import Gates PlanStore RunBuilder Dispatch PreparePlan.

(* [sidecar/ibreeze/orchestration/confirm_plan.py:72-79 ConfirmPlanCommand] *)
Record ConfirmPlanCommand := {
  cm_company_id : string;
  cm_company_task_id : string;
  cm_plan_artifact_id : string;
  cm_plan_sha256 : string;
  cm_expected_version : Z;
  cm_workspace_grant_ids : list string }.

(* [sidecar/ibreeze/orchestration/confirm_plan.py:82-84 ConfirmPlanResult] *)
Record ConfirmPlanResult := { cf_status : string; cf_company_task_version : Z }.

(** *** The table of review specifications *)

Definition review_strategies : list string :=
  ["independent_drafts"; "section_partition"; "primary_with_peer_review"; "sequential_refinement"].

#[export] Program Instance plan_specs_table : Table DB RV.SpecRow := {|
  table_name := "deliverable_review_specs";
  rows db := RV.deliverable_review_specs (RV.ledger (reviews_of db));
  set_rows l db :=
    let g := RV.ledger (reviews_of db) in
    with_reviews (with_review_tables (RV.artifacts (reviews_of db)) {|
      RV.review_report_scores := RV.review_report_scores g; RV.reviewer_stats := RV.reviewer_stats g;
      RV.review_verdicts := RV.review_verdicts g; RV.deliverable_review_specs := l |} (reviews_of db)) db;
  row_ok s := (RV.sp_review_strategy s ∈? review_strategies) &&
    (1 <=? RV.sp_review_rounds s)%Z && (RV.sp_review_rounds s <=? 10)%Z;
  clash a b := (RV.sp_id a =? RV.sp_id b) ||
    ((RV.sp_company_id a =? RV.sp_company_id b) && (RV.sp_company_task_id a =? RV.sp_company_task_id b) &&
     (RV.sp_artifact_type a =? RV.sp_artifact_type b));
  refs_ok db s := department_task_ref (RV.sp_department_task_id s) (RV.sp_company_id s) db |}.
Solve All Obligations with solve_plan.

Section Confirm.
Context (uuid4 : nat → string) (now expires_at : string) (sha256 : json → string) (text_size : json → Z).
Context (repr : json → string) (int_of_float : string → result Z).
Context (resolve_candidate_bindings : Resolver).

(** [json.loads(text)[...]] of the plan, member by member *)

(** Reads [for x in j.get(key, [])]. *)
Definition members (j : json) (key : string) : result (list json) :=
  v ← attr_get j key (JList []); iterate v.

(** The artifact types of the deliverables, up to the first one that is a duplicate. *)
(* [sidecar/ibreeze/orchestration/confirm_plan.py:453-459 confirm_and_dispatch (duplicate artifact types)] *)
Fixpoint scan_deliverables (ds : list json) (seen : list string) : result (list string) :=
  match ds with
  | [] => Ok seen
  | d :: ds =>
      v ← attr_get d "artifact_type" (JStr "artifact");
      let atype := py_str repr v in
      ensure (negb (atype ∈? seen)) (ValueError "DUPLICATE_DELIVERABLE_ARTIFACT_TYPE");;
      scan_deliverables ds (atype :: seen)
  end.
Fixpoint scan_types (tasks : list json) (seen : list string) : result (list string) :=
  match tasks with
  | [] => Ok seen
  | t :: tasks => ds ← members t "deliverables"; seen ← scan_deliverables ds seen; scan_types tasks seen
  end.

(** What the whole confirmation has frozen by the time it writes. *)
Record Frozen := {
  fz_company : string;
  fz_task : string;
  fz_company_revision : string;
  fz_workspace : string;
  fz_repository : string;
  fz_grant : string;
  fz_conversation : string;
  fz_release : string;
  fz_resources : resources }.

Definition ready_workspace (company task : string) (db : DB) : option Workspace :=
  List.find (λ w, (tw_company_task_id w =? task) && (tw_company_id w =? company) && (tw_status w =? "active") &&
    existsb (λ g, (wg_id g =? tw_workspace_grant_id w) && (wg_company_id g =? tw_company_id w) &&
                  (wg_status g =? "active")) (workspace_grants (refs db))) (task_workspaces (work db)).

(** [str(v) for v in values if isinstance(v, str)] *)
Definition texts (j : json) : result (list string) :=
  match iterate j with Ok l => Ok (strings_of (JList l)) | Err e => Err e end.

Definition employee_task_row (fz : Frozen) (id department_task employee objective : string) (criteria : json)
    (status : string) (resume : option string) : TS.EmployeeTask := {|
  TS.et_id := id; TS.et_company_id := fz_company fz; TS.et_department_task_id := department_task;
  TS.et_employee_id := employee; TS.et_task_kind := "standard"; TS.et_objective := objective;
  TS.et_acceptance_criteria_json := criteria; TS.et_status := status; TS.et_resume_state := resume;
  TS.et_created_at := now; TS.et_updated_at := now; TS.et_version := 1 |}.

(** Of the objects the loops read, what they take from a department task. *)
Record Section_ := {
  sn_department_task : string;
  sn_department : string;
  sn_objective : string;
  sn_initial : string;
  sn_criteria : json;
  sn_capability_tags : json }.

Definition run_spec_for (fz : Frozen) (sn : Section_) (task employee revision : string) (p : EmployeeProfile)
    (checks : json) (tags : list string) : RunSpec := {|
  rs_company_id := fz_company fz; rs_company_task_id := fz_task fz;
  rs_department_task_id := sn_department_task sn; rs_department_id := sn_department sn;
  rs_employee_task_id := task; rs_employee_id := employee; rs_conversation_id := fz_conversation fz;
  rs_task_workspace_id := fz_workspace fz; rs_workspace_repository_root := fz_repository fz;
  rs_workspace_grant_id := fz_grant fz; rs_company_revision_id := fz_company_revision fz;
  rs_department_revision_id := revision; rs_profile_version_id := ep_profile_version_id p;
  rs_catalog_release_id := fz_release fz; rs_runtime_binding := JObj (ep_binding p);
  rs_adapter_type := ep_adapter_type p; rs_model_id := ep_model_id p; rs_objective := sn_objective sn;
  rs_availability_expires_at := expires_at; rs_run_purpose := "task_execution"; rs_priority := 0;
  rs_checks := checks; rs_now := Some now; rs_routing_policy := ep_routing_policy p;
  rs_routing_policy_sha256 := Some (sha256 (ep_routing_policy p)); rs_routing_classifier_version := None;
  rs_candidate_bindings := None; rs_candidate_bindings_sha256 := None;
  rs_profile_type := ep_profile_type p; rs_required_capability_tags := tags |}.

Definition dispatch_spec_row (fz : Frozen) (sn : Section_) (task employee revision : string) (p : EmployeeProfile)
    (tags : list string) : DispatchSpec := {|
  ds_employee_task_id := task; ds_company_id := fz_company fz; ds_company_task_id := fz_task fz;
  ds_department_task_id := sn_department_task sn; ds_employee_id := employee;
  ds_profile_version_id := ep_profile_version_id p; ds_catalog_release_id := fz_release fz;
  ds_runtime_binding := JObj (ep_binding p); ds_routing_policy := ep_routing_policy p;
  ds_required_capability_tags := JList (map JStr tags); ds_adapter_type := ep_adapter_type p;
  ds_model_id := ep_model_id p; ds_task_workspace_id := fz_workspace fz;
  ds_company_revision_id := fz_company_revision fz; ds_department_revision_id := revision;
  ds_conversation_id := fz_conversation fz; ds_workspace_repository_root := fz_repository fz;
  ds_workspace_grant_id := fz_grant fz; ds_created_at := now |}.

(** The task of one contributor; the next one of a sequential deliverable waits for it. *)
(* [sidecar/ibreeze/orchestration/confirm_plan.py:622-759 confirm_and_dispatch (contributor loop body)] *)
Definition assign_contributor (fz : Frozen) (sn : Section_) (sequential : bool) (previous : option string)
    (employee : string) : tx DB string :=
  id ← draw uuid4;
  let previous := if sequential then previous else None in
  let deferred := negb (previous =?o None) in
  let waits := deferred || negb (sn_initial sn =? "ready") in
  insert_row (employee_task_row fz id (sn_department_task sn) employee (sn_objective sn) (sn_criteria sn)
    (if waits then "waiting_resource" else "assigned") (if waits then Some "assigned" else None));;
  match previous with
  | Some p => insert_row {| ed_employee_task_id := id; ed_depends_on_task_id := p;
                            ed_company_id := fz_company fz; ed_created_at := now |}
  | None => mret tt
  end;;
  r ← found (dict_get (fz_resources fz) employee) (KeyErr employee);
  p ← found (re_profile r) (KeyErr "profile_version_id");
  revision ← gets (λ db, List.find (λ d, (dp_id d =? sn_department sn) && (dp_company_id d =? fz_company fz))
                           (departments (refs db)));
  revision ← found (dp_current_revision_id <$> revision) (ValueError "DEPARTMENT_REVISION_NOT_FOUND");
  check (negb (revision =? "")) (ValueError "DEPARTMENT_REVISION_NOT_FOUND");;
  tags ← lift (texts (sn_capability_tags sn));
  (if deferred
   then insert_row (dispatch_spec_row fz sn id employee revision p tags)
   else build_run uuid4 now sha256 resolve_candidate_bindings
          (run_spec_for fz sn id employee revision p (JList (re_checks r)) tags);; mret tt);;
  mret id.

(** [previous_task_id] goes from one contributor to the next. *)
Fixpoint assign_contributors (fz : Frozen) (sn : Section_) (sequential : bool) (previous : option string)
    (employees : list string) : tx DB (list string) :=
  match employees with
  | [] => mret []
  | e :: employees =>
      id ← assign_contributor fz sn sequential previous e;
      ids ← assign_contributors fz sn sequential (Some id) employees;
      mret (id :: ids)
  end.

(* [sidecar/ibreeze/orchestration/confirm_plan.py:578-759 confirm_and_dispatch (deliverable loop body)] *)
Definition write_deliverable (fz : Frozen) (sn : Section_) (deliv : json) : tx DB (list string) :=
  contributors ← lift (members deliv "contributor_employee_ids");
  let contributor_ids := map (py_str repr) contributors in
  strategy ← lift (attr_get deliv "review_strategy" (JStr "independent_drafts"));
  let strategy := py_str repr (json_or strategy (JStr "independent_drafts")) in
  let strategy := if strategy ∈? review_strategies then strategy else "independent_drafts" in
  spec_id ← draw uuid4;
  atype ← lift (attr_get deliv "artifact_type" (JStr "artifact"));
  reviewers ← lift (members deliv "reviewer_employee_ids");
  rounds ← lift (attr_get deliv "review_rounds" (JInt 2));
  rounds ← lift (py_to_int int_of_float (json_or rounds (JInt 2)));
  insert_or_ignore {| RV.sp_id := spec_id; RV.sp_company_id := fz_company fz; RV.sp_company_task_id := fz_task fz;
    RV.sp_artifact_type := py_str repr atype; RV.sp_review_rounds := rounds;
    RV.sp_confidence_threshold := f0_70; RV.sp_department_task_id := sn_department_task sn;
    RV.sp_review_strategy := strategy; RV.sp_contributor_employee_ids := JList (map JStr contributor_ids);
    RV.sp_reviewer_employee_ids := JList (map (λ j, JStr (py_str repr j)) reviewers) |};;
  let contributor_ids := if strategy =? "primary_with_peer_review" then take 1 contributor_ids else contributor_ids in
  assign_contributors fz sn (strategy =? "sequential_refinement") None contributor_ids.

(** [local_ref_to_dept_task] *)
Definition local_refs : Type := list (json * string).

(* [sidecar/ibreeze/orchestration/confirm_plan.py:568-575 confirm_and_dispatch (dependency loop body)] *)
Definition write_dependency (fz : Frozen) (department_task : string) (known : local_refs) (ref : json) : tx DB unit :=
  check (hashable ref) (TypeErr "unhashable type");;
  match dict_get known ref with
  | Some upstream =>
      if upstream =? "" then mret tt else
      insert_or_ignore {| TS.dep_company_id := fz_company fz; TS.dep_company_task_id := fz_task fz;
        TS.dep_department_task_id := department_task; TS.dep_depends_on_task_id := upstream |};; mret tt
  | None => mret tt
  end.

(** [any(d in local_ref_to_dept_task for d in deps)] *)
Fixpoint has_upstream (known : local_refs) (deps : list json) : result bool :=
  match deps with
  | [] => Ok false
  | d :: deps => ensure (hashable d) (TypeErr "unhashable type");;
                 if d ∈? dict_keys known then Ok true else has_upstream known deps
  end.

Definition department_task_row (fz : Frozen) (id department stage objective : string) (deliverables criteria : json)
    (status : string) : TS.DepartmentTask := {|
  TS.dt_id := id; TS.dt_company_id := fz_company fz; TS.dt_company_task_id := fz_task fz;
  TS.dt_department_id := department; TS.dt_stage_key := stage; TS.dt_objective := objective;
  TS.dt_deliverables_json := deliverables; TS.dt_acceptance_criteria_json := criteria;
  TS.dt_status := status; TS.dt_resume_state := None; TS.dt_created_at := now; TS.dt_updated_at := now;
  TS.dt_completed_at := None; TS.dt_version := 1 |}.

(** The created employee tasks, and the local references with this task's. *)
(* [sidecar/ibreeze/orchestration/confirm_plan.py:533-759 confirm_and_dispatch (department task loop body)] *)
Definition write_department_task (fz : Frozen) (known : local_refs) (dt_def : json) : tx DB (local_refs * list string) :=
  id ← draw uuid4;
  local_ref ← lift (attr_get dt_def "local_ref" (JStr ""));
  department ← lift (attr_get dt_def "department_id" (JStr ""));
  objective ← lift (attr_get dt_def "objective" (JStr ""));
  deps ← lift (members dt_def "dependency_refs");
  upstream ← lift (has_upstream known deps);
  let initial := if (upstream : bool) then "waiting_dependency" else "ready" in
  deliverables ← lift (attr_get dt_def "deliverables" (JList []));
  criteria ← lift (attr_get dt_def "acceptance_criteria" (JList []));
  department ← lift (sql_text department);
  stage ← lift (sql_text local_ref);
  objective ← lift (sql_text objective);
  insert_row (department_task_row fz id department stage objective deliverables criteria initial);;
  let known := dict_set known local_ref id in
  for_each (write_dependency fz id known) deps;;
  tags ← lift (attr_get dt_def "required_capability_tags" (JList []));
  deliverables ← lift (iterate deliverables);
  created ← for_each (write_deliverable fz {|
    sn_department_task := id; sn_department := department; sn_objective := objective; sn_initial := initial;
    sn_criteria := criteria; sn_capability_tags := tags |}) deliverables;
  mret (known, concat created).

Fixpoint write_department_tasks (fz : Frozen) (known : local_refs) (tasks : list json) : tx DB (list string) :=
  match tasks with
  | [] => mret []
  | t :: tasks =>
      '(known, created) ← write_department_task fz known t;
      more ← write_department_tasks fz known tasks;
      mret (created ++ more)
  end.

(* [sidecar/ibreeze/orchestration/confirm_plan.py:360-387 _insert_domain_event] *)
Definition _insert_domain_event (id company atype aggregate : string) (version : Z) (etype : string) (payload : json)
    (trace : string) : tx DB unit :=
  insert_row {|
    ev_event := {| event_id := id; event_type := etype; aggregate_type := atype; aggregate_id := aggregate;
                   aggregate_version := version; company_id := Some company; payload_json := payload;
                   trace_id := trace |};
    ev_occurred_at := now |}.

(* [sidecar/ibreeze/orchestration/confirm_plan.py:390-403 _insert_outbox] *)
Definition _insert_outbox (id event topic : string) (payload : json) : tx DB unit :=
  insert_row {|
    ob_id := id; ob_domain_event_id := event; ob_topic := topic; ob_payload := Dumped payload;
    ob_status := "pending"; ob_attempts := 0; ob_next_attempt_at := now; ob_last_error := None;
    ob_created_at := now; ob_delivered_at := None |}.

(* [sidecar/ibreeze/orchestration/confirm_plan.py:795-800 confirm_and_dispatch (status_path)] *)
Definition status_path : list (string * string) := [
  ("awaiting_user_confirmation", "approved"); ("approved", "dispatching");
  ("dispatching", "checking_resources"); ("checking_resources", "executing")].

Definition set_status (status : string) (version : Z) (t : TS.CompanyTask) : TS.CompanyTask := {|
  TS.ct_id := TS.ct_id t; TS.ct_company_id := TS.ct_company_id t;
  TS.ct_supersedes_task_id := TS.ct_supersedes_task_id t;
  TS.ct_company_conversation_id := TS.ct_company_conversation_id t;
  TS.ct_user_message_event_id := TS.ct_user_message_event_id t; TS.ct_title := TS.ct_title t;
  TS.ct_status := status; TS.ct_resume_state := TS.ct_resume_state t;
  TS.ct_active_plan_id := TS.ct_active_plan_id t; TS.ct_created_at := TS.ct_created_at t;
  TS.ct_updated_at := now; TS.ct_completed_at := TS.ct_completed_at t;
  TS.ct_ceo_confirmed_at := TS.ct_ceo_confirmed_at t; TS.ct_version := version |}.

Definition the_task (company task : string) (t : TS.CompanyTask) : bool :=
  (TS.ct_id t =? task) && (TS.ct_company_id t =? company).

(* [sidecar/ibreeze/orchestration/confirm_plan.py:809-853 confirm_and_dispatch (status edges)] *)
Fixpoint walk_status (company task trace : string) (path : list (string * string)) (version : Z) : tx DB Z :=
  match path with
  | [] => mret version
  | (from_state, to_state) :: path =>
      let next := (version + 1)%Z in
      rowcount ← update (λ t, the_task company task t && ((TS.ct_status t =? from_state) && (TS.ct_version t =? version)%Z))
        (set_status to_state next);
      check (rowcount =? 1)%Z (ValueError "OPTIMISTIC_LOCK_CONFLICT");;
      let payload := sorted_obj [
        ("company_id", JStr company); ("aggregate_id", JStr task); ("version", JInt next);
        ("from_state", JStr from_state); ("to_state", JStr to_state)] in
      event ← draw uuid4;
      _insert_domain_event event company "company_task" task next "company_task.status_changed" payload trace;;
      outbox ← draw uuid4;
      _insert_outbox outbox event "company_task.status_changed" payload;;
      walk_status company task trace path next
  end.

Definition approve (p : TS.PlanVersion) : TS.PlanVersion := {|
  TS.pv_id := TS.pv_id p; TS.pv_company_task_id := TS.pv_company_task_id p;
  TS.pv_company_id := TS.pv_company_id p; TS.pv_version_number := TS.pv_version_number p;
  TS.pv_canonical_json := TS.pv_canonical_json p; TS.pv_content_sha256 := TS.pv_content_sha256 p;
  TS.pv_generated_by_run_id := TS.pv_generated_by_run_id p; TS.pv_status := "approved";
  TS.pv_created_at := TS.pv_created_at p; TS.pv_confirmed_at := Some now |}.

(** The plan that awaits confirmation, the latest if there are several. *)
Definition awaiting_plan (company task : string) (db : DB) : option TS.PlanVersion :=
  head (sort_by (λ a b, (TS.pv_version_number b <=? TS.pv_version_number a)%Z)
    (List.filter (λ p, (TS.pv_company_task_id p =? task) && (TS.pv_company_id p =? company) &&
                       (TS.pv_status p =? "awaiting_user_confirmation")) (plan_versions db))).

(** Everything that is written once the resources are there. *)
(* [sidecar/ibreeze/orchestration/confirm_plan.py:761-858 confirm_and_dispatch (artifact, plan and status)] *)
Definition dispatch_plan (fz : Frozen) (artifact : string) (plan : TS.PlanVersion) (goal : json) (version : Z)
    (tasks : list json) : tx DB ConfirmPlanResult :=
  trace ← draw uuid4;
  write_department_tasks fz [] tasks;;
  insert_row {|
    RV.ar_id := artifact; RV.ar_company_id := fz_company fz; RV.ar_company_task_id := fz_task fz;
    RV.ar_artifact_type := "manifest"; RV.ar_object_sha256 := sha256 (TS.pv_canonical_json plan);
    RV.ar_is_current := 1; RV.ar_created_by_type := "user"; RV.ar_created_by_run_id := None;
    RV.ar_logical_name := "company-plan"; RV.ar_object_size := text_size (TS.pv_canonical_json plan);
    RV.ar_media_type := "application/json";
    RV.ar_metadata := sorted_obj [
      ("plan_version_id", JStr (TS.pv_id plan)); ("version_number", JInt (TS.pv_version_number plan));
      ("goal", goal); ("company_task_id", JStr (fz_task fz))];
    RV.ar_supersedes_artifact_id := None; RV.ar_created_at := now |};;
  rowcount ← update (λ p, (TS.pv_id p =? TS.pv_id plan) && (TS.pv_company_id p =? fz_company fz) &&
                          (TS.pv_status p =? "awaiting_user_confirmation")) approve;
  check (rowcount =? 1)%Z (ValueError "OPTIMISTIC_LOCK_CONFLICT");;
  version ← walk_status (fz_company fz) (fz_task fz) trace status_path version;
  mret {| cf_status := "confirmed"; cf_company_task_version := version |}.

(* [sidecar/ibreeze/orchestration/confirm_plan.py:406-524 confirm_and_dispatch] *)
Definition confirm_and_dispatch (command : ConfirmPlanCommand) : tx DB ConfirmPlanResult :=
  let company := cm_company_id command in
  let task := cm_company_task_id command in
  row ← select_one (the_task company task);
  row ← found row (ValueError "RESOURCE_NOT_FOUND");
  if TS.ct_status row =? "executing"
  then mret {| cf_status := "already_confirmed"; cf_company_task_version := TS.ct_version row |} else
  check (TS.ct_status row =? "awaiting_user_confirmation") (ValueError "STATE_TRANSITION_INVALID");;
  check (TS.ct_version row =? cm_expected_version command)%Z (ValueError "OPTIMISTIC_LOCK_CONFLICT");;
  plan ← gets (awaiting_plan company task);
  plan ← found plan (ValueError "NO_AWAITING_PLAN");
  check (TS.pv_content_sha256 plan =? cm_plan_sha256 command) (ValueError "PLAN_SHA256_MISMATCH");;
  tasks ← lift (attr_get (TS.pv_canonical_json plan) "department_tasks" (JList []));
  goal ← lift (attr_get (TS.pv_canonical_json plan) "goal" (JStr ""));
  tasks ← lift (match tasks with JList (t :: l) => Ok (t :: l) | _ => Err (ValueError "PLAN_INVALID") end);
  lift (scan_types tasks []);;
  revision ← gets (λ db, dict_get (company_revision_of (refs db)) company);
  revision ← found revision (ValueError "RESOURCE_NOT_FOUND");
  check (negb (revision =? "")) (ValueError "COMPANY_REVISION_NOT_FOUND");;
  workspace ← gets (ready_workspace company task);
  workspace ← found workspace (ValueError "TASK_WORKSPACE_NOT_READY");
  let grant := tw_workspace_grant_id workspace in
  check (Nat.eqb (length (cm_workspace_grant_ids command)) 0 || (grant ∈? cm_workspace_grant_ids command))
    (ValueError "WORKSPACE_GRANT_MISMATCH");;
  let waiting := {| cf_status := "waiting_resource"; cf_company_task_version := cm_expected_version command |} in
  release ← gets _active_catalog_release;
  match release with
  | None => mret waiting
  | Some release =>
      checks ← gets _run_availability_checks;
      if negb checks.2 then mret waiting else
      prepared ← gets (λ db, _prepare_employee_resources repr company release grant db tasks [] true);
      prepared ← lift prepared;
      match prepared with
      | Fit rs true =>
          dispatch_plan {|
            fz_company := company; fz_task := task; fz_company_revision := revision;
            fz_workspace := tw_id workspace; fz_repository := tw_repository_root workspace; fz_grant := grant;
            fz_conversation := TS.ct_company_conversation_id row; fz_release := release; fz_resources := rs |}
            (cm_plan_artifact_id command) plan goal (TS.ct_version row) tasks
      | _ => mret waiting
      end
  end.
End Confirm.

(** ** What confirmation adds *)

(** An employee task with what comes with it: the edge and the frozen specification of a
    segment that waits, or the run and the queue entry of one that can start. *)
Record Item := {
  it_task : TS.EmployeeTask;
  it_edge : option EmployeeDependency;
  it_spec : option DispatchSpec;
  it_run : option RV.ReviewRun;
  it_queue : option Scheduler.QueueItem }.

Definition it_id (i : Item) : string := TS.et_id (it_task i).

(** It can start: one queued run of its own and one ready queue entry for that run. *)
Definition starts (i : Item) : Prop :=
  TS.et_status (it_task i) = "assigned" ∧ TS.et_resume_state (it_task i) = None ∧
  it_edge i = None ∧ it_spec i = None ∧
  ∃ r q, it_run i = Some r ∧ it_queue i = Some q ∧
    RV.rn_employee_task_id r = Some (it_id i) ∧ RV.rn_employee_id r = TS.et_employee_id (it_task i) ∧
    RV.rn_department_task_id r = Some (TS.et_department_task_id (it_task i)) ∧ RV.rn_status r = "queued" ∧
    Scheduler.q_work_item_id q = it_id i ∧ Scheduler.q_run_id q = Some (RV.rn_id r) ∧ Scheduler.q_status q = "ready".

(** It waits for the task [p], with its specification frozen. *)
Definition waits_for (p : string) (i : Item) : Prop :=
  TS.et_status (it_task i) = "waiting_resource" ∧ TS.et_resume_state (it_task i) = Some "assigned" ∧
  it_run i = None ∧ it_queue i = None ∧
  ∃ d s, it_edge i = Some d ∧ it_spec i = Some s ∧
    ed_employee_task_id d = it_id i ∧ ed_depends_on_task_id d = p ∧ ed_company_id d = TS.et_company_id (it_task i) ∧
    ds_employee_task_id s = it_id i ∧ ds_company_id s = TS.et_company_id (it_task i) ∧
    ds_employee_id s = TS.et_employee_id (it_task i) ∧
    ds_department_task_id s = TS.et_department_task_id (it_task i).

(** The items of a deliverable: all of them start, or each waits for the one before. *)
Fixpoint chained (sequential : bool) (previous : option string) (items : list Item) (employees : list string) : Prop :=
  match items, employees with
  | [], [] => True
  | i :: items, e :: employees =>
      TS.et_employee_id (it_task i) = e ∧
      match previous with
      | Some p => if sequential then waits_for p i else starts i
      | None => starts i
      end ∧
      chained sequential (Some (it_id i)) items employees
  | _, _ => False
  end.

(** Only department tasks and items are added, and what they consist of. *)
Record grown (db0 : DB) (departments : list TS.DepartmentTask) (items : list Item) (db : DB) : Prop := {
  gr_departments : department_tasks (work db) = department_tasks (work db0) ++ departments;
  gr_tasks : employee_tasks (work db) = employee_tasks (work db0) ++ map it_task items;
  gr_edges : employee_task_dependencies db = employee_task_dependencies db0 ++ omap it_edge items;
  gr_specs : dispatch_specs db = dispatch_specs db0 ++ omap it_spec items;
  gr_runs : RV.agent_runs (reviews_of db) = RV.agent_runs (reviews_of db0) ++ omap it_run items;
  gr_queue : runtime_queue db = runtime_queue db0 ++ omap it_queue items;
  gr_company : company_tasks (work db) = company_tasks (work db0);
  gr_plans : plan_versions db = plan_versions db0;
  gr_events : RV.event_rows (reviews_of db) = RV.event_rows (reviews_of db0);
  gr_outbox : RV.outbox_rows (reviews_of db) = RV.outbox_rows (reviews_of db0);
  gr_refs : refs db = refs db0 }.

Lemma grown_refl db : grown db [] [] db.
Proof. split; simpl; by rewrite ?app_nil_r. Qed.

Lemma grown_trans db0 d1 i1 db1 d2 i2 db2 :
  grown db0 d1 i1 db1 → grown db1 d2 i2 db2 → grown db0 (d1 ++ d2) (i1 ++ i2) db2.
Proof.
  intros [] []. split; try congruence; rewrite ?map_app, ?omap_app, app_assoc; congruence.
Qed.

Lemma grown_drawn db n : grown db [] [] (drawn n db).
Proof. destruct db as [[[]]]. split; simpl; by rewrite ?app_nil_r. Qed.

(** It belongs to the department task being written. *)
Definition belongs (fz : Frozen) (sn : Section_) (i : Item) : Prop :=
  TS.et_department_task_id (it_task i) = sn_department_task sn ∧ TS.et_company_id (it_task i) = fz_company fz.

Section Writes.
Context (uuid4 : nat → string) (now expires_at : string) (sha256 : json → string).
Context (repr : json → string) (int_of_float : string → result Z).
Context (resolve_candidate_bindings : Resolver).
Implicit Types db : DB.

Notation assign_contributor := (assign_contributor uuid4 now expires_at sha256 resolve_candidate_bindings).
Notation assign_contributors := (assign_contributors uuid4 now expires_at sha256 resolve_candidate_bindings).

Lemma assign_contributor_ok fz sn sequential previous e db id db' :
  sn_initial sn = "ready" →
  assign_contributor fz sn sequential previous e db = (Ok id, db') →
  ∃ i, it_id i = id ∧ TS.et_employee_id (it_task i) = e ∧ grown db [] [i] db' ∧ belongs fz sn i ∧
    match (if sequential then previous else None) with Some p => waits_for p i | None => starts i end.
Proof.
  intros Hin Hrun. unfold ConfirmPlan.assign_contributor in Hrun. rewrite Hin in Hrun. simpl negb in Hrun.
  rewrite orb_false_r in Hrun.
  set (prev := if sequential then previous else None) in *.
  apply tx_bind_ok in Hrun as (? & ? & [-> ->]%draw_ok & Hrun).
  apply tx_bind_ok in Hrun as ([] & ? & [-> _]%insert_appended & Hrun).
  destruct prev as [p|]; simpl in Hrun.
  - apply tx_bind_ok in Hrun as ([] & ? & [-> _]%insert_appended & Hrun).
    apply tx_bind_ok in Hrun as (r & ? & [Hr ->]%found_ok & Hrun).
    apply tx_bind_ok in Hrun as (pr & ? & [Hpr ->]%found_ok & Hrun).
    apply tx_bind_ok in Hrun as (? & ? & [-> ->]%gets_ok & Hrun).
    apply tx_bind_ok in Hrun as (rev & ? & [Hrev ->]%found_ok & Hrun).
    apply tx_bind_ok in Hrun as ([] & ? & [_ ->]%check_ok & Hrun).
    apply tx_bind_ok in Hrun as (tags & ? & Htags & Hrun). unfold lift in Htags. injection Htags as _ <-.
    apply tx_bind_ok in Hrun as ([] & ? & [-> _]%insert_appended & [-> ->]%mret_ok).
    destruct db as [[[]]]. eexists {| it_task := _; it_edge := Some _; it_spec := Some _; it_run := None; it_queue := None |}.
    split; [|split; [|split; [|split]]]; cycle 2.
    + split; simpl; rewrite ?app_nil_r; reflexivity.
    + done.
    + repeat split. by eexists _, _.
    + done.
    + done.
  - apply tx_bind_ok in Hrun as ([] & ? & [_ ->]%mret_ok & Hrun).
    apply tx_bind_ok in Hrun as (r & ? & [Hr ->]%found_ok & Hrun).
    apply tx_bind_ok in Hrun as (pr & ? & [Hpr ->]%found_ok & Hrun).
    apply tx_bind_ok in Hrun as (? & ? & [-> ->]%gets_ok & Hrun).
    apply tx_bind_ok in Hrun as (rev & ? & [Hrev ->]%found_ok & Hrun).
    apply tx_bind_ok in Hrun as ([] & ? & [_ ->]%check_ok & Hrun).
    apply tx_bind_ok in Hrun as (tags & ? & Htags & Hrun). unfold lift in Htags. injection Htags as _ <-.
    apply tx_bind_ok in Hrun as ([] & ? & Hb & [-> ->]%mret_ok).
    apply tx_bind_ok in Hb as (b & ? & Hb & [_ ->]%mret_ok).
    apply build_run_ok in Hb as (c & g & _ & -> & _).
    destruct db as [[[]]]. eexists {| it_task := _; it_edge := None; it_spec := None; it_run := Some _; it_queue := Some _ |}.
    split; [|split; [|split; [|split]]]; cycle 2.
    + split; simpl; rewrite ?app_nil_r; reflexivity.
    + done.
    + repeat split. by eexists _, _.
    + done.
    + done.
Qed.

Lemma assign_contributors_ok fz sn sequential l : sn_initial sn = "ready" → ∀ previous db ids db',
  assign_contributors fz sn sequential previous l db = (Ok ids, db') →
  ∃ items, grown db [] items db' ∧ chained sequential previous items l ∧ Forall (belongs fz sn) items.
Proof.
  intros Hin. induction l as [|e l IH]; intros previous db ids db' Hrun.
  - apply mret_ok in Hrun as [-> ->]. exists []. split; [apply grown_refl|done].
  - simpl in Hrun. apply tx_bind_ok in Hrun as (id & db1 & Hone & Hrun).
    apply tx_bind_ok in Hrun as (more & db2 & Hl & [-> ->]%mret_ok).
    apply assign_contributor_ok in Hone as (i & Hid & He & Hg & Hb & Hi); [|done].
    apply IH in Hl as (items & Hgs & Hc & Hbs). exists (i :: items). split; [|split].
    + exact (grown_trans _ _ _ _ _ _ _ Hg Hgs).
    + simpl. rewrite Hid. split_and!; [done| |done]. by destruct previous, sequential.
    + by constructor.
Qed.

(** Whether a deliverable is made in sequence, and by whom. *)
Definition deliverable_plan (deliv : json) : result (bool * list string) :=
  contributors ← members deliv "contributor_employee_ids";
  strategy ← attr_get deliv "review_strategy" (JStr "independent_drafts");
  let strategy := py_str repr (json_or strategy (JStr "independent_drafts")) in
  let ids := map (py_str repr) contributors in
  Ok (strategy =? "sequential_refinement", if strategy =? "primary_with_peer_review" then take 1 ids else ids).

(** The items of one deliverable. *)
Definition made_of (fz : Frozen) (sn : Section_) (deliv : json) (items : list Item) : Prop :=
  ∃ sequential employees, deliverable_plan deliv = Ok (sequential, employees) ∧
    chained sequential None items employees ∧ Forall (belongs fz sn) items.

Lemma spec_grown (s : RV.SpecRow) n db db' : insert_or_ignore s db = (Ok n, db') → grown db [] [] db'.
Proof.
  intros [->| ->]%insert_or_ignore_appended; [apply grown_refl|].
  destruct db as [[[]]]. split; simpl; by rewrite ?app_nil_r.
Qed.

Lemma write_deliverable_ok fz sn deliv db ids db' : sn_initial sn = "ready" →
  write_deliverable uuid4 now expires_at sha256 repr int_of_float resolve_candidate_bindings fz sn deliv db = (Ok ids, db') →
  ∃ items, grown db [] items db' ∧ made_of fz sn deliv items.
Proof.
  intros Hin Hrun. unfold write_deliverable in Hrun.
  apply tx_bind_ok in Hrun as (cs & ? & Hcs & Hrun). unfold lift in Hcs. injection Hcs as Hcs <-.
  apply tx_bind_ok in Hrun as (st & ? & Hst & Hrun). unfold lift in Hst. injection Hst as Hst <-.
  cbv zeta in Hrun. set (strategy := py_str repr (json_or st _)) in *.
  set (known := if strategy ∈? review_strategies then strategy else "independent_drafts") in *.
  apply tx_bind_ok in Hrun as (? & ? & [-> ->]%draw_ok & Hrun).
  do 4 (apply tx_bind_ok in Hrun as (? & ? & [= _ <-] & Hrun)).
  apply tx_bind_ok in Hrun as (n & db1 & Hspec%spec_grown & Hrun).
  apply assign_contributors_ok in Hrun as (items & Hg & Hc & Hb); [|done].
  exists items. split.
  - exact (grown_trans _ _ _ _ _ _ _ (grown_trans _ _ _ _ _ _ _ (grown_drawn db 1) Hspec) Hg).
  - assert ((known =? "sequential_refinement") = (strategy =? "sequential_refinement") ∧
      (known =? "primary_with_peer_review") = (strategy =? "primary_with_peer_review")) as [Hk1 Hk2].
    { unfold known. destruct (strategy ∈? review_strategies) eqn:Hm; [done|]. bools.
      split; symmetry; apply String.eqb_neq; intros ->; apply Hm; set_solver. }
    rewrite Hk1, Hk2 in Hc. eexists _, _. split; [|done].
    unfold deliverable_plan. rewrite Hcs. simpl. rewrite Hst. reflexivity.
Qed.

Lemma write_deliverables_ok fz sn ds : sn_initial sn = "ready" → ∀ db ids db',
  for_each (write_deliverable uuid4 now expires_at sha256 repr int_of_float resolve_candidate_bindings fz sn) ds db =
    (Ok ids, db') →
  ∃ groups, grown db [] (concat groups) db' ∧ Forall2 (made_of fz sn) ds groups.
Proof.
  intros Hin. induction ds as [|d ds IH]; intros db ids db' Hrun.
  - apply mret_ok in Hrun as [-> ->]. exists []. split; [apply grown_refl|constructor].
  - simpl in Hrun. apply tx_bind_ok in Hrun as (id & db1 & Hone & Hrun).
    apply tx_bind_ok in Hrun as (more & db2 & Hl & [-> ->]%mret_ok).
    apply write_deliverable_ok in Hone as (items & Hg & Hm); [|done].
    apply IH in Hl as (groups & Hgs & Hms). exists (items :: groups). split; [|by constructor].
    exact (grown_trans _ _ _ _ _ _ _ Hg Hgs).
Qed.

Lemma dependencies_grown fz id known deps : ∀ db us db',
  for_each (write_dependency fz id known) deps db = (Ok us, db') → grown db [] [] db'.
Proof.
  induction deps as [|d deps IH]; intros db us db' Hrun.
  - apply mret_ok in Hrun as [_ ->]. apply grown_refl.
  - simpl in Hrun. apply tx_bind_ok in Hrun as ([] & db1 & Hone & Hrun).
    apply tx_bind_ok in Hrun as (more & db2 & Hl & [_ ->]%mret_ok). apply IH in Hl.
    refine (grown_trans _ [] [] _ [] [] _ _ Hl). unfold write_dependency in Hone.
    apply tx_bind_ok in Hone as ([] & ? & [_ ->]%check_ok & Hone).
    destruct (dict_get known d) as [up|]; [|apply mret_ok in Hone as [_ ->]; apply grown_refl].
    destruct (up =? ""); [apply mret_ok in Hone as [_ ->]; apply grown_refl|].
    apply tx_bind_ok in Hone as (n & ? & Hi & [_ ->]%mret_ok).
    apply insert_or_ignore_appended in Hi as [->| ->]; [apply grown_refl|].
    destruct db as [[[]]]. split; simpl; by rewrite ?app_nil_r.
Qed.

Lemma has_upstream_false known deps : has_upstream known deps = Ok false → ∀ d, d ∈ deps → d ∉ dict_keys known.
Proof.
  induction deps as [|x deps IH]; simpl; [intros _ d []%not_elem_of_nil|].
  intros H. apply result_bind_ok in H as ([] & _ & H). destruct (x ∈? dict_keys known) eqn:Hx; [done|].
  intros d [->|Hd]%elem_of_cons; [by bools|by apply IH].
Qed.

(** The items of one department task. *)
Definition written_as (fz : Frozen) (t : json) (row : TS.DepartmentTask) (items : list Item) : Prop :=
  ∃ sn ds groups, sn_department_task sn = TS.dt_id row ∧ members t "deliverables" = Ok ds ∧
    Forall2 (made_of fz sn) ds groups ∧ items = concat groups.

Lemma write_department_task_ok fz known t db known' ids db' :
  write_department_task uuid4 now expires_at sha256 repr int_of_float resolve_candidate_bindings fz known t db =
    (Ok (known', ids), db') →
  ∃ row items deps local_ref id,
    members t "dependency_refs" = Ok deps ∧ has_upstream known deps = Ok false ∧
    attr_get t "local_ref" (JStr "") = Ok local_ref ∧ known' = dict_set known local_ref id ∧
    TS.dt_status row = "ready" ∧ TS.dt_company_id row = fz_company fz ∧ TS.dt_company_task_id row = fz_task fz ∧
    written_as fz t row items ∧ grown db [row] items db'.
Proof.
  intros Hrun. unfold write_department_task in Hrun.
  apply tx_bind_ok in Hrun as (? & ? & [-> ->]%draw_ok & Hrun).
  apply tx_bind_ok in Hrun as (local_ref & ? & [= Hlocal <-] & Hrun).
  do 2 (apply tx_bind_ok in Hrun as (? & ? & [= _ <-] & Hrun)).
  apply tx_bind_ok in Hrun as (deps & ? & [= Hdeps <-] & Hrun).
  apply tx_bind_ok in Hrun as (upstream & ? & [= Hup <-] & Hrun). cbv zeta in Hrun.
  apply tx_bind_ok in Hrun as (deliverables & ? & [= Hdel <-] & Hrun).
  apply tx_bind_ok in Hrun as (criteria & ? & [= _ <-] & Hrun).
  do 3 (apply tx_bind_ok in Hrun as (? & ? & [= _ <-] & Hrun)).
  apply tx_bind_ok in Hrun as ([] & db1 & (-> & Hrow & _)%insert_appended & Hrun).
  assert (upstream = false) as ->.
  { destruct upstream; [|done]. exfalso. revert Hrow. unfold row_ok. simpl. unfold TS.department_task_ok. simpl. done. }
  apply tx_bind_ok in Hrun as (? & db2 & Hd%dependencies_grown & Hrun).
  apply tx_bind_ok in Hrun as (? & ? & [= _ <-] & Hrun).
  apply tx_bind_ok in Hrun as (ds & ? & [= Hds <-] & Hrun).
  apply tx_bind_ok in Hrun as (created & db3 & Hws & [[= -> ->] ->]%mret_ok).
  apply write_deliverables_ok in Hws as (groups & Hg & Hgs); [|done].
  match type of Hd with grown (appended ?r _) _ _ _ => exists r end.
  exists (concat groups), deps, local_ref, (uuid4 (uuids db)). split_and!; try done.
  - eexists _, ds, groups. split_and!; [..|exact Hgs|done]; [done|].
    unfold members. rewrite Hdel. exact Hds.
  - refine (grown_trans db [_] [] _ [] (concat groups) _ _ (grown_trans _ _ _ _ _ _ _ Hd Hg)).
    clear. destruct db as [[[]]]. split; simpl; by rewrite ?app_nil_r.
Qed.

(** No task refers to one written before it. *)
Fixpoint independent (known : list json) (tasks : list json) : Prop :=
  match tasks with
  | [] => True
  | t :: tasks => ∃ deps local_ref, members t "dependency_refs" = Ok deps ∧
      attr_get t "local_ref" (JStr "") = Ok local_ref ∧ (∀ d, d ∈ deps → d ∉ known) ∧
      independent (local_ref :: known) tasks
  end.

Lemma independent_mono tasks : ∀ known known', (∀ d, d ∈ known' → d ∈ known) →
  independent known tasks → independent known' tasks.
Proof.
  induction tasks as [|t tasks IH]; intros known known' Hk; simpl; [done|].
  intros (deps & r & H1 & H2 & H3 & H4). exists deps, r. split_and!; [done..|by intros d Hd Hin; apply (H3 d Hd), Hk|].
  apply (IH (r :: known)); [|done]. intros d. rewrite !elem_of_cons. intros [->|Hd]; [by left|right; by apply Hk].
Qed.

Lemma write_department_tasks_ok fz tasks : ∀ known db ids db',
  write_department_tasks uuid4 now expires_at sha256 repr int_of_float resolve_candidate_bindings fz known tasks db =
    (Ok ids, db') →
  independent (dict_keys known) tasks ∧
  ∃ rows groups, grown db rows (concat groups) db' ∧ length rows = length tasks ∧
    Forall (λ r, TS.dt_status r = "ready" ∧ TS.dt_company_id r = fz_company fz ∧
                 TS.dt_company_task_id r = fz_task fz) rows ∧
    Forall2 (λ t rg, written_as fz t rg.1 rg.2) tasks (zip rows groups) ∧ length groups = length rows.
Proof.
  induction tasks as [|t tasks IH]; intros known db ids db' Hrun.
  - apply mret_ok in Hrun as [-> ->]. split; [done|]. exists [], []. split_and!; [apply grown_refl|done..| |done].
    constructor.
  - simpl in Hrun. apply tx_bind_ok in Hrun as ([known' created] & db1 & Hone & Hrun).
    apply tx_bind_ok in Hrun as (more & db2 & Hl & [-> ->]%mret_ok).
    apply write_department_task_ok in Hone
      as (row & items & deps & r & id & Hdeps & Hup & Hr & -> & Hs & Hc & Ht & Hw & Hg).
    apply IH in Hl as (Hind & rows & groups & Hgs & Hlen & Hall & Hws & Hlen'). split.
    + exists deps, r. split_and!; [done..|by apply has_upstream_false|].
      eapply independent_mono; [|exact Hind]. intros d. rewrite dict_keys_set, elem_of_cons. done.
    + exists (row :: rows), (items :: groups). simpl.
      split_and!; [exact (grown_trans _ _ _ _ _ _ _ Hg Hgs)|by rewrite Hlen| | |by rewrite Hlen'];
        [by constructor|by constructor].
Qed.
End Writes.

(** *** The status edges *)

(** The events of the edges from [version] on, the first of them with the [n]-th identifier. *)
Fixpoint edge_events (uuid4 : nat → string) (now company task trace : string) (path : list (string * string))
    (version : Z) (n : nat) : list EventRow * list OutboxRow :=
  match path with
  | [] => ([], [])
  | (from_state, to_state) :: path =>
      let next := (version + 1)%Z in
      let payload := sorted_obj [
        ("company_id", JStr company); ("aggregate_id", JStr task); ("version", JInt next);
        ("from_state", JStr from_state); ("to_state", JStr to_state)] in
      let '(events, outbox) := edge_events uuid4 now company task trace path next (S (S n)) in
      ({| ev_event := {| event_id := uuid4 n; event_type := "company_task.status_changed";
            aggregate_type := "company_task"; aggregate_id := task; aggregate_version := next;
            company_id := Some company; payload_json := payload; trace_id := trace |};
          ev_occurred_at := now |} :: events,
       {| ob_id := uuid4 (S n); ob_domain_event_id := uuid4 n; ob_topic := "company_task.status_changed";
          ob_payload := Dumped payload; ob_status := "pending"; ob_attempts := 0; ob_next_attempt_at := now;
          ob_last_error := None; ob_created_at := now; ob_delivered_at := None |} :: outbox)
  end.

(** Two databases with the same work: only company tasks, events and plan status may differ. *)
Record same_work (db db' : DB) : Prop := {
  sw_departments : department_tasks (work db') = department_tasks (work db);
  sw_tasks : employee_tasks (work db') = employee_tasks (work db);
  sw_edges : employee_task_dependencies db' = employee_task_dependencies db;
  sw_specs : dispatch_specs db' = dispatch_specs db;
  sw_runs : RV.agent_runs (reviews_of db') = RV.agent_runs (reviews_of db);
  sw_queue : runtime_queue db' = runtime_queue db;
  sw_refs : refs db' = refs db }.

Lemma same_work_trans db1 db2 db3 : same_work db1 db2 → same_work db2 db3 → same_work db1 db3.
Proof. intros [] []. split; congruence. Qed.

Section Walk.
Context (uuid4 : nat → string) (now : string).
Implicit Types db : DB.

Lemma set_status_twice s v s' v' t : set_status now s' v' (set_status now s v t) = set_status now s' v' t.
Proof. done. Qed.

(** One edge: the row was there in the state and version the edge starts from. *)
Lemma edge_ok company task from_state to_state version db n db' : table_ok (R := TS.CompanyTask) db = true →
  update (λ t, the_task company task t && ((TS.ct_status t =? from_state) && (TS.ct_version t =? version)%Z))
    (set_status now to_state (version + 1)%Z) db = (Ok n, db') → n = 1 →
  table_ok (R := TS.CompanyTask) db' = true ∧
  (∃ r, List.find (the_task company task) (company_tasks (work db)) = Some r ∧
        TS.ct_status r = from_state ∧ TS.ct_version r = version) ∧
  company_tasks (work db') = updated (the_task company task) (set_status now to_state (version + 1)%Z)
    (company_tasks (work db)) ∧
  db' = set_rows (R := TS.CompanyTask) (company_tasks (work db')) db.
Proof.
  intros Hok Hu ->. apply update_keyed in Hu as Hu'; [|done|].
  2:{ intros a b Ha Hb. unfold the_task in *. bools. simpl. apply String.eqb_eq. congruence. }
  destruct Hu' as (Hok' & Hdb' & [(?&_)|(_ & r & Hr & Hp & Hw)]); [done|]. split; [done|].
  assert (Hrt : the_task company task r = true) by (by bools).
  assert (Hfind : List.find (the_task company task) (rows db) = Some r ∧
    where_ (the_task company task) (rows db) = [r]).
  { apply (find_unique (DB := DB)); try done; [by apply table_no_clash|].
    intros a b Ha Hb. unfold the_task in *. bools. simpl. apply String.eqb_eq. congruence. }
  destruct Hfind as [Hfind Hw']. split; [exists r; split; [done|]; bools; split; [done|lia]|].
  rewrite Hdb'. destruct db as [[[]]]. simpl. split; [|done].
  apply updated_ext. intros x Hx. simpl in *.
  destruct (the_task company task x) eqn:Hxt; [|done]. assert (x = r) as ->; [|by rewrite Hrt in Hp].
  assert (Hin : x ∈ where_ (the_task company task) company_tasks) by (by apply elem_where).
  rewrite Hw' in Hin. by apply list_elem_of_singleton in Hin.
Qed.

Lemma walk_status_ok company task trace path : ∀ version db v db', table_ok (R := TS.CompanyTask) db = true →
  walk_status uuid4 now company task trace path version db = (Ok v, db') →
  v = (version + Z.of_nat (length path))%Z ∧ same_work db db' ∧ plan_versions db' = plan_versions db ∧
  company_tasks (work db') = match last path with
    | Some (_, to_state) => updated (the_task company task) (set_status now to_state v) (company_tasks (work db))
    | None => company_tasks (work db)
    end ∧
  (RV.event_rows (reviews_of db') = RV.event_rows (reviews_of db) ++
     (edge_events uuid4 now company task trace path version (uuids db)).1) ∧
  (RV.outbox_rows (reviews_of db') = RV.outbox_rows (reviews_of db) ++
     (edge_events uuid4 now company task trace path version (uuids db)).2) ∧
  match path with
  | [] => True
  | (from_state, _) :: _ => ∃ r, List.find (the_task company task) (company_tasks (work db)) = Some r ∧
      TS.ct_status r = from_state ∧ TS.ct_version r = version
  end.
Proof.
  induction path as [|[from_state to_state] path IH]; intros version db v db' Hok Hrun.
  - apply mret_ok in Hrun as [-> ->]. simpl. rewrite !app_nil_r. split_and!; try done. lia.
  - simpl in Hrun. apply tx_bind_ok in Hrun as (n & db1 & Hu & Hrun).
    apply tx_bind_ok in Hrun as ([] & ? & [Hn ->]%check_ok & Hrun). apply Z.eqb_eq in Hn.
    destruct (edge_ok _ _ _ _ _ _ _ _ Hok Hu Hn) as (Hok1 & Hr & Hct & Hdb1).
    apply tx_bind_ok in Hrun as (ev & ? & [-> ->]%draw_ok & Hrun).
    apply tx_bind_ok in Hrun as ([] & ? & [-> _]%insert_appended & Hrun).
    apply tx_bind_ok in Hrun as (ob & ? & [-> ->]%draw_ok & Hrun).
    apply tx_bind_ok in Hrun as ([] & ? & [-> _]%insert_appended & Hrun).
    apply IH in Hrun as (-> & Hsame & Hplans & Hct' & Hev & Hob & _).
    2:{ clear -Hok1. destruct db1 as [[[]]]. exact Hok1. }
    split_and!; [simpl length; lia|..|exact Hr].
    + refine (same_work_trans _ _ _ _ Hsame). rewrite Hdb1. destruct db as [[[]]]. by split.
    + rewrite Hplans, Hdb1. by destruct db as [[[]]].
    + rewrite Hct'. clear Hct' Hev Hob Hsame Hplans. destruct db1 as [[[]]]. simpl in *. rewrite Hct.
      destruct path as [|[f' t'] path]; [simpl; do 2 f_equal; lia|].
      change (last ((from_state, to_state) :: (f', t') :: path)) with (last ((f', t') :: path)).
      destruct (last ((f', t') :: path)) as [[f'' t'']|] eqn:Hl; [|by apply last_None in Hl].
      unfold updated. rewrite map_map. apply map_ext. intros x.
      destruct (the_task company task x) eqn:Hx; [|by rewrite Hx].
      replace (the_task company task (set_status now to_state (version + 1) x)) with true by done.
      rewrite set_status_twice. done.
    + rewrite Hev, Hdb1. clear. destruct db as [[[]]]. simpl.
      destruct (edge_events _ _ _ _ _ _ _ _) as [??]. simpl. by rewrite <-app_assoc.
    + rewrite Hob, Hdb1. clear. destruct db as [[[]]]. simpl.
      destruct (edge_events _ _ _ _ _ _ _ _) as [??]. simpl. by rewrite <-app_assoc.
Qed.
End Walk.

(** ** Confirmation as a whole *)

(** What has been found out when confirmation starts to write. *)
Record admitted (repr : json → string) (command : ConfirmPlanCommand) (db : DB) (row : TS.CompanyTask)
    (plan : TS.PlanVersion) (goal : json) (tasks : list json) (fz : Frozen) : Prop := {
  ad_task : List.find (the_task (cm_company_id command) (cm_company_task_id command)) (company_tasks (work db)) = Some row;
  ad_awaiting : TS.ct_status row = "awaiting_user_confirmation";
  ad_version : TS.ct_version row = cm_expected_version command;
  ad_plan : awaiting_plan (cm_company_id command) (cm_company_task_id command) db = Some plan;
  ad_digest : TS.pv_content_sha256 plan = cm_plan_sha256 command;
  ad_members : attr_get (TS.pv_canonical_json plan) "department_tasks" (JList []) = Ok (JList tasks);
  ad_some : tasks ≠ [];
  ad_types : ∃ seen, scan_types repr tasks [] = Ok seen;
  ad_company : fz_company fz = cm_company_id command;
  ad_company_task : fz_task fz = cm_company_task_id command;
  ad_workspace : ∃ w, ready_workspace (fz_company fz) (fz_task fz) db = Some w ∧
    fz_workspace fz = tw_id w ∧ fz_repository fz = tw_repository_root w ∧ fz_grant fz = tw_workspace_grant_id w ∧
    (cm_workspace_grant_ids command = [] ∨ fz_grant fz ∈ cm_workspace_grant_ids command);
  ad_release : _active_catalog_release db = Some (fz_release fz);
  ad_resources : _prepare_employee_resources repr (fz_company fz) (fz_release fz) (fz_grant fz) db tasks [] true =
    Ok (Fit (fz_resources fz) true) }.

(** The identities of what is added, in the tables it is added to. *)
Record dispatched (now : string) (command : ConfirmPlanCommand) (plan : TS.PlanVersion) (db : DB)
    (rows : list TS.DepartmentTask) (items : list Item) (version : Z) (db' : DB) : Prop := {
  di_departments : department_tasks (work db') = department_tasks (work db) ++ rows;
  di_tasks : employee_tasks (work db') = employee_tasks (work db) ++ map it_task items;
  di_edges : employee_task_dependencies db' = employee_task_dependencies db ++ omap it_edge items;
  di_specs : dispatch_specs db' = dispatch_specs db ++ omap it_spec items;
  di_runs : RV.agent_runs (reviews_of db') = RV.agent_runs (reviews_of db) ++ omap it_run items;
  di_queue : runtime_queue db' = runtime_queue db ++ omap it_queue items;
  di_company : company_tasks (work db') =
    updated (the_task (cm_company_id command) (cm_company_task_id command)) (set_status now "executing" version)
      (company_tasks (work db));
  di_plans : plan_versions db' =
    updated (λ p, (TS.pv_id p =? TS.pv_id plan) && (TS.pv_company_id p =? cm_company_id command) &&
                  (TS.pv_status p =? "awaiting_user_confirmation")) (approve now) (plan_versions db);
  di_refs : refs db' = refs db }.

Section Whole.
Context (uuid4 : nat → string) (now expires_at : string) (sha256 : json → string) (text_size : json → Z).
Context (repr : json → string) (int_of_float : string → result Z).
Context (resolve_candidate_bindings : Resolver).
Implicit Types db : DB.

Notation confirm := (confirm_and_dispatch uuid4 now expires_at sha256 text_size repr int_of_float resolve_candidate_bindings).
Notation dispatch := (dispatch_plan uuid4 now expires_at sha256 text_size repr int_of_float resolve_candidate_bindings).

Lemma the_task_key company task (a b : TS.CompanyTask) :
  the_task company task a = true → the_task company task b = true → clash (DB := DB) a b = true.
Proof. unfold the_task. intros. bools. simpl. apply String.eqb_eq. congruence. Qed.

(** Everything [dispatch_plan] writes. *)
Lemma dispatch_plan_ok command fz artifact plan goal version tasks db r db' :
  table_ok (R := TS.CompanyTask) db = true →
  fz_company fz = cm_company_id command → fz_task fz = cm_company_task_id command →
  dispatch fz artifact plan goal version tasks db = (Ok r, db') →
  r = {| cf_status := "confirmed"; cf_company_task_version := (version + 4)%Z |} ∧ independent [] tasks ∧
  ∃ rows groups n,
    dispatched now command plan db rows (concat groups) (version + 4)%Z db' ∧
    length rows = length tasks ∧ length groups = length rows ∧
    Forall (λ d, TS.dt_status d = "ready" ∧ TS.dt_company_id d = fz_company fz ∧
                 TS.dt_company_task_id d = fz_task fz) rows ∧
    Forall2 (λ t rg, written_as repr fz t rg.1 rg.2) tasks (zip rows groups) ∧
    (let edges := edge_events uuid4 now (fz_company fz) (fz_task fz) (uuid4 (uuids db)) status_path version n in
     RV.event_rows (reviews_of db') = RV.event_rows (reviews_of db) ++ edges.1 ∧
     RV.outbox_rows (reviews_of db') = RV.outbox_rows (reviews_of db) ++ edges.2).
Proof.
  intros Hok Hc Ht Hrun. unfold dispatch_plan in Hrun.
  apply tx_bind_ok in Hrun as (trace & ? & [-> ->]%draw_ok & Hrun).
  apply tx_bind_ok in Hrun as (ids & db1 & Hw & Hrun).
  apply write_department_tasks_ok in Hw as (Hind & rows & groups & Hg & Hlen & Hrows & Hws & Hlen').
  apply tx_bind_ok in Hrun as ([] & ? & [-> _]%insert_appended & Hrun).
  apply tx_bind_ok in Hrun as (n & db2 & Hu & Hrun).
  apply tx_bind_ok in Hrun as ([] & ? & [_ ->]%check_ok & Hrun).
  apply tx_bind_ok in Hrun as (v & db3 & Hv & [-> ->]%mret_ok).
  apply update_ok in Hu as (_ & _ & _ & ->).
  apply (grown_trans _ _ _ _ _ _ _ (grown_drawn db 1)) in Hg. rewrite !app_nil_l in Hg. destruct Hg.
  apply walk_status_ok in Hv.
  2:{ clear -Hok gr_company0. unfold table_ok in *. destruct db as [[[]]], db1 as [[[]]]. simpl in *. by subst. }
  destruct Hv as (-> & [] & Hplans & Hct & Hev & Hob & _). split; [by simpl|]. split; [done|].
  match type of Hev with context [edge_events ?u ?w ?c ?t ?tr ?p ?v ?n] =>
    exists rows, groups, n; change (uuid4 (uuids db)) with tr; set (edges := edge_events u w c t tr p v n) in * end.
  clearbody edges. cbv zeta. split_and!; [|done..| |]; [|rewrite Hev|rewrite Hob].
  - simpl in Hct. rewrite Hc, Ht in Hct. rewrite Hc in Hplans. clear Hev Hob Hrows Hws Hind.
    destruct db1 as [[[]]]. simpl in *.
    split; simpl; try congruence. by rewrite Hct, gr_company0.
  - clear -gr_events0. destruct db1 as [[[]]]. simpl in *. by rewrite gr_events0.
  - clear -gr_outbox0. destruct db1 as [[[]]]. simpl in *. by rewrite gr_outbox0.
Qed.

Definition waiting (command : ConfirmPlanCommand) : ConfirmPlanResult :=
  {| cf_status := "waiting_resource"; cf_company_task_version := cm_expected_version command |}.

(** Confirmation answers at once, waits, or writes. *)
Lemma confirm_cases command db r db' : confirm command db = (Ok r, db') →
  ∃ row, List.find (the_task (cm_company_id command) (cm_company_task_id command)) (company_tasks (work db)) = Some row ∧
  ((TS.ct_status row = "executing" ∧ db' = db ∧
      r = {| cf_status := "already_confirmed"; cf_company_task_version := TS.ct_version row |}) ∨
   (TS.ct_status row = "awaiting_user_confirmation" ∧ TS.ct_version row = cm_expected_version command ∧
      db' = db ∧ r = waiting command) ∨
   ∃ plan goal tasks fz, admitted repr command db row plan goal tasks fz ∧
     dispatch fz (cm_plan_artifact_id command) plan goal (TS.ct_version row) tasks db = (Ok r, db')).
Proof.
  intros Hrun. unfold confirm_and_dispatch in Hrun.
  apply tx_bind_ok in Hrun as (o & ? & Hs & Hrun). apply select_one_ok in Hs as [-> ->].
  apply tx_bind_ok in Hrun as (row & ? & [Hrow ->]%found_ok & Hrun). exists row.
  assert (List.find (the_task (cm_company_id command) (cm_company_task_id command)) (company_tasks (work db)) = Some row)
    as Hfind by exact Hrow. split; [done|].
  destruct (TS.ct_status row =? "executing") eqn:Hex.
  { apply mret_ok in Hrun as [-> ->]. left. by bools. }
  right.
  apply tx_bind_ok in Hrun as ([] & ? & [Hst ->]%check_ok & Hrun).
  apply tx_bind_ok in Hrun as ([] & ? & [Hv ->]%check_ok & Hrun).
  apply String.eqb_eq in Hst. apply Z.eqb_eq in Hv.
  apply tx_bind_ok in Hrun as (? & ? & [-> ->]%gets_ok & Hrun).
  apply tx_bind_ok in Hrun as (plan & ? & [Hplan ->]%found_ok & Hrun).
  apply tx_bind_ok in Hrun as ([] & ? & [Hsha%String.eqb_eq ->]%check_ok & Hrun).
  apply tx_bind_ok in Hrun as (ts & ? & [= Hts <-] & Hrun).
  apply tx_bind_ok in Hrun as (goal & ? & [= _ <-] & Hrun).
  apply tx_bind_ok in Hrun as (tasks & ? & [= Htasks <-] & Hrun).
  apply tx_bind_ok in Hrun as (seen & ? & [= Hseen <-] & Hrun).
  apply tx_bind_ok in Hrun as (? & ? & [-> ->]%gets_ok & Hrun).
  apply tx_bind_ok in Hrun as (revision & ? & [Hrev ->]%found_ok & Hrun).
  apply tx_bind_ok in Hrun as ([] & ? & [_ ->]%check_ok & Hrun).
  apply tx_bind_ok in Hrun as (? & ? & [-> ->]%gets_ok & Hrun).
  apply tx_bind_ok in Hrun as (w & ? & [Hw ->]%found_ok & Hrun).
  cbv zeta in Hrun. apply tx_bind_ok in Hrun as ([] & ? & [Hgrant ->]%check_ok & Hrun).
  apply tx_bind_ok in Hrun as (? & ? & [-> ->]%gets_ok & Hrun).
  destruct (_active_catalog_release db) as [release|] eqn:Hrel.
  2:{ apply mret_ok in Hrun as [-> ->]. by left. }
  apply tx_bind_ok in Hrun as (? & ? & [-> ->]%gets_ok & Hrun).
  destruct (negb _); [apply mret_ok in Hrun as [-> ->]; by left|].
  apply tx_bind_ok in Hrun as (? & ? & [-> ->]%gets_ok & Hrun).
  apply tx_bind_ok in Hrun as (p & ? & [= Hp <-] & Hrun).
  destruct p as [|rs [|]]; [apply mret_ok in Hrun as [-> ->]; by left| |apply mret_ok in Hrun as [-> ->]; by left].
  right. exists plan, goal, tasks. eexists. split; [|exact Hrun].
  destruct ts as [| | | | |[|t l]|]; try done. injection Htasks as <-.
  split; simpl; try done; [by exists seen|]. exists w. split_and!; try done.
  apply orb_true_iff in Hgrant as [Hg|Hg]; [left; by destruct (cm_workspace_grant_ids command)|right; by bools].
Qed.

(** C8. A confirmation that answers "confirmed" has admitted the plan that awaits
    confirmation, under the digest and the version the caller names, and moves everything
    at once: the company task is executing four versions later, one status event and one
    outbox row per edge on the way, the plan is approved, each department task of the plan
    has a row that is ready, and each contributor of each deliverable has a task that
    either starts, with a queued run and a ready queue entry of its own, or, in a
    sequential deliverable, waits for the contributor before with its specification
    frozen. *)
Theorem confirm_dispatches command db r db' : table_ok (R := TS.CompanyTask) db = true →
  confirm command db = (Ok r, db') → cf_status r = "confirmed" →
  ∃ row plan goal tasks fz rows groups n, admitted repr command db row plan goal tasks fz ∧
    cf_company_task_version r = (cm_expected_version command + 4)%Z ∧
    dispatched now command plan db rows (concat groups) (cf_company_task_version r) db' ∧
    length rows = length tasks ∧ length groups = length rows ∧
    Forall (λ d, TS.dt_status d = "ready" ∧ TS.dt_company_id d = cm_company_id command ∧
                 TS.dt_company_task_id d = cm_company_task_id command) rows ∧
    Forall2 (λ t rg, written_as repr fz t rg.1 rg.2) tasks (zip rows groups) ∧
    (let edges := edge_events uuid4 now (cm_company_id command) (cm_company_task_id command) (uuid4 (uuids db))
       status_path (cm_expected_version command) n in
     RV.event_rows (reviews_of db') = RV.event_rows (reviews_of db) ++ edges.1 ∧
     RV.outbox_rows (reviews_of db') = RV.outbox_rows (reviews_of db) ++ edges.2).
Proof.
  intros Hok Hrun Hst. apply confirm_cases in Hrun as (row & _ & [(_ & _ & ->)|[(_ & _ & _ & ->)|Hd]]); [done..|].
  destruct Hd as (plan & goal & tasks & fz & Had & Hd).
  apply (dispatch_plan_ok command) in Hd as (-> & _ & rows & groups & n & Hdi & Hl & Hl' & Hrows & Hws & Hevs); [|done|by destruct Had..].
  exists row, plan, goal, tasks, fz, rows, groups, n.
  rewrite (ad_version _ _ _ _ _ _ _ _ Had) in *. rewrite (ad_company _ _ _ _ _ _ _ _ Had),
    (ad_company_task _ _ _ _ _ _ _ _ Had) in *. by split_and!.
Qed.

(** A confirmation that answers anything but "confirmed" leaves no trace: it answers
    "already_confirmed" with the version of the task exactly when the task is executing, and
    otherwise "waiting_resource" with the version the caller expected, which the task has. *)
Lemma confirm_no_trace command db r db' :
  confirm command db = (Ok r, db') → cf_status r ≠ "confirmed" →
  db' = db ∧ ∃ row,
    List.find (the_task (cm_company_id command) (cm_company_task_id command)) (company_tasks (work db)) = Some row ∧
    cf_company_task_version r = TS.ct_version row ∧
    (cf_status r = "already_confirmed" ∧ TS.ct_status row = "executing" ∨
     cf_status r = "waiting_resource" ∧ TS.ct_status row = "awaiting_user_confirmation" ∧
       TS.ct_version row = cm_expected_version command).
Proof.
  intros Hrun Hst. apply confirm_cases in Hrun as (row & Hrow & [(Hex & -> & ->)|[(Haw & Hv & -> & ->)|Hd]]).
  - split; [done|]. exists row. split_and!; [done..|by left].
  - split; [done|]. exists row. split_and!; [done..|by right].
  - destruct Hd as (plan & goal & tasks & fz & Had & Hd). exfalso. apply Hst. unfold dispatch_plan in Hd.
    do 5 (apply tx_bind_ok in Hd as (? & ? & _ & Hd)). by apply tx_bind_ok in Hd as (v & ? & _ & [-> _]%mret_ok).
Qed.

(** A task that names an earlier one. *)
Definition names_earlier (tasks : list json) : Prop :=
  ∃ earlier t later u ref deps, tasks = earlier ++ t :: later ∧ u ∈ earlier ∧
    attr_get u "local_ref" (JStr "") = Ok ref ∧ members t "dependency_refs" = Ok deps ∧ ref ∈ deps.

Lemma independent_no_earlier tasks : ∀ known, independent known tasks →
  ∀ earlier t later ref deps, tasks = earlier ++ t :: later →
  (ref ∈ known ∨ ∃ u, u ∈ earlier ∧ attr_get u "local_ref" (JStr "") = Ok ref) →
  members t "dependency_refs" = Ok deps → ref ∉ deps.
Proof.
  induction tasks as [|x tasks IH]; intros known Hind earlier t later ref deps Heq Href Hdeps; [by destruct earlier|].
  destruct Hind as (deps' & r & Hdeps' & Hr & Hno & Hind). destruct earlier as [|y earlier]; injection Heq as -> ->.
  - rewrite Hdeps in Hdeps'. injection Hdeps' as ->. intros Hin. apply (Hno ref Hin).
    destruct Href as [|(u & []%not_elem_of_nil & _)]; done.
  - apply (IH (r :: known) Hind earlier t later ref deps eq_refl); [|done].
    destruct Href as [Hk|(u & [->|Hu]%elem_of_cons & Hur)].
    + left. by right.
    + left. rewrite Hr in Hur. injection Hur as ->. by left.
    + right. by exists u.
Qed.

(** A plan in which a department task depends on one listed before it is never
    confirmed: whatever the database holds, the answer is not "confirmed" (the waiting
    department task breaks a constraint of its table). *)
Lemma dependent_plan_never_confirmed command db plan tasks r db' :
  awaiting_plan (cm_company_id command) (cm_company_task_id command) db = Some plan →
  attr_get (TS.pv_canonical_json plan) "department_tasks" (JList []) = Ok (JList tasks) →
  names_earlier tasks → table_ok (R := TS.CompanyTask) db = true →
  confirm command db = (Ok r, db') → cf_status r ≠ "confirmed".
Proof.
  intros Hplan Htasks (earlier & t & later & u & ref & deps & Heq & Hu & Hur & Hdeps & Href) Hok Hrun Hst.
  apply confirm_cases in Hrun as (row & _ & [(_ & _ & ->)|[(_ & _ & _ & ->)|Hd]]); [done..|].
  destruct Hd as (plan' & goal & tasks' & fz & Had & Hd).
  apply (dispatch_plan_ok command) in Hd as (_ & Hind & _); [|done|by destruct Had..].
  destruct Had. rewrite Hplan in ad_plan0. injection ad_plan0 as <-. rewrite Htasks in ad_members0.
  injection ad_members0 as <-. apply (independent_no_earlier _ _ Hind _ _ _ ref deps Heq); [|done..].
  right. by exists u.
Qed.

(** Nothing is dispatched without its resources: a confirmed plan has an active
    workspace under an active grant that the caller allows, an active catalog release,
    and for each department task an open department in which every contributor and
    reviewer is an active employee with a published profile of that release, a complete
    runtime binding and every capability the task asks for. *)
Lemma confirm_needs_resources command db r db' :
  confirm command db = (Ok r, db') → cf_status r = "confirmed" →
  ∃ plan tasks w release,
    awaiting_plan (cm_company_id command) (cm_company_task_id command) db = Some plan ∧
    attr_get (TS.pv_canonical_json plan) "department_tasks" (JList []) = Ok (JList tasks) ∧
    w ∈ task_workspaces (work db) ∧ tw_company_task_id w = cm_company_task_id command ∧
    tw_company_id w = cm_company_id command ∧ tw_status w = "active" ∧
    (∃ g, g ∈ workspace_grants (refs db) ∧ wg_id g = tw_workspace_grant_id w ∧ wg_status g = "active") ∧
    (cm_workspace_grant_ids command = [] ∨ tw_workspace_grant_id w ∈ cm_workspace_grant_ids command) ∧
    _active_catalog_release db = Some release ∧
    Forall (task_ready repr (cm_company_id command) release (tw_workspace_grant_id w) db) tasks.
Proof.
  intros Hrun Hst. apply confirm_cases in Hrun as (row & _ & [(_ & _ & ->)|[(_ & _ & _ & ->)|Hd]]); [done..|].
  destruct Hd as (plan & goal & tasks & fz & [] & _). destruct ad_workspace0 as (w & Hw & _ & _ & Hg & Hgrants).
  exists plan, tasks, w, (fz_release fz).
  apply find_some in Hw as [Hin%list_elem_of_In Hw]. bools.
  match goal with H : existsb _ _ = true |- _ => apply existsb_elem in H as (g & Hgin & Hgok) end. bools.
  rewrite Hg in *. split_and!; try congruence; [by exists g|].
  eapply prepared_ready in ad_resources0 as [_ Hready]; [|by intros e x Hx].
  rewrite <-ad_company0. by apply Hready.
Qed.
End Whole.

(** A plan of one document made by two employees in sequence, or of two such tasks. *)
Module Demo.
Import PlanStore.Demo.
Definition repr (j : json) : string := "".
Definition deliverable : json := JObj [
  ("artifact_type", JStr "document"); ("contributor_employee_ids", JList [JStr "emp"; JStr "rev"]);
  ("reviewer_employee_ids", JList [JStr "rev"]); ("review_strategy", JStr "sequential_refinement")].
Definition plan_task (ref : string) (deps tags : list string) (deliverable : json) : json := JObj [
  ("local_ref", JStr ref); ("department_id", JStr "dep1"); ("objective", JStr "write");
  ("dependency_refs", JList (map JStr deps)); ("required_capability_tags", JList (map JStr tags));
  ("deliverables", JList [deliverable])].
Definition plan (tasks : list json) : TS.PlanVersion := {|
  TS.pv_id := "plan"; TS.pv_company_task_id := "ct"; TS.pv_company_id := "co"; TS.pv_version_number := 1;
  TS.pv_canonical_json := JObj [("goal", JStr "g"); ("department_tasks", JList tasks)];
  TS.pv_content_sha256 := sha; TS.pv_generated_by_run_id := "run"; TS.pv_status := "awaiting_user_confirmation";
  TS.pv_created_at := "t"; TS.pv_confirmed_at := None |}.
Definition db (status : string) (tags : list string) (tasks : list json) : DB := {|
  work := work_tables status [] [] []; plan_versions := [plan tasks]; task_dependencies := [];
  employee_task_dependencies := []; dispatch_specs := []; availability_snapshots := []; execution_snapshots := [];
  runtime_queue := []; refs := references tags; uuids := 0 |}.
Definition command : ConfirmPlanCommand := {|
  cm_company_id := "co"; cm_company_task_id := "ct"; cm_plan_artifact_id := "art"; cm_plan_sha256 := sha;
  cm_expected_version := 1; cm_workspace_grant_ids := ["wg"] |}.
Definition int_of_float (s : string) : result Z := Ok 0%Z.
Definition confirm : tx DB ConfirmPlanResult :=
  confirm_and_dispatch uuid4 "now" "soon" (λ _, sha) (λ _, 1%Z) repr int_of_float Dispatch.Demo.no_candidates command.
Definition one : list json := [plan_task "t1" [] ["python"] deliverable].
Definition two (deps : list string) : list json := [
  plan_task "t1" [] ["python"] deliverable;
  plan_task "t2" deps ["python"] (JObj [("artifact_type", JStr "report");
    ("contributor_employee_ids", JList [JStr "emp"])])].
End Demo.

(** Of two contributors in sequence the first starts and the second waits. *)
Lemma confirm_dispatches_witness :
  let before := Demo.db "awaiting_user_confirmation" ["python"] Demo.one in
  let after := Demo.confirm before in
  map TS.et_status (employee_tasks (work after.2)) = ["assigned"; "waiting_resource"] ∧
  length (runtime_queue after.2) = 1%nat ∧
  ∃ plan rows groups, dispatched "now" Demo.command plan before rows (concat groups) 5 after.2.
Proof.
  intros before after. split; [by vm_compute|]. split; [by vm_compute|].
  destruct (confirm_dispatches PlanStore.Demo.uuid4 "now" "soon" (λ _, PlanStore.Demo.sha) (λ _, 1%Z) Demo.repr
    Demo.int_of_float Dispatch.Demo.no_candidates Demo.command before
    {| cf_status := "confirmed"; cf_company_task_version := 5 |} after.2)
    as (row & plan & goal & tasks & fz & rows & groups & n & _ & _ & H & _); [by vm_compute|by vm_compute|done|].
  exists plan, rows, groups. exact H.
Defined.

(** A missing capability makes it wait, and a confirmed plan is not confirmed again. *)
Lemma confirm_no_trace_witness :
  let poor := Demo.db "awaiting_user_confirmation" [] Demo.one in
  let done := Demo.db "executing" ["python"] Demo.one in
  (Demo.confirm poor).1 = Ok {| cf_status := "waiting_resource"; cf_company_task_version := 1 |} ∧
  (Demo.confirm poor).2 = poor ∧
  (Demo.confirm done).1 = Ok {| cf_status := "already_confirmed"; cf_company_task_version := 1 |}.
Proof.
  intros poor done. split; [by vm_compute|]. split; [|by vm_compute].
  apply (confirm_no_trace PlanStore.Demo.uuid4 "now" "soon" (λ _, PlanStore.Demo.sha) (λ _, 1%Z) Demo.repr
    Demo.int_of_float Dispatch.Demo.no_candidates Demo.command poor
    {| cf_status := "waiting_resource"; cf_company_task_version := 1 |} (Demo.confirm poor).2); [by vm_compute|discriminate].
Defined.

(** The same plan is confirmed without the dependency and fails with it; it waits when the
    capability is missing, which is where the answer is seen. *)
Lemma dependent_plan_never_confirmed_witness :
  let poor := Demo.db "awaiting_user_confirmation" [] (Demo.two ["t1"]) in
  (Demo.confirm (Demo.db "awaiting_user_confirmation" ["python"] (Demo.two []))).1 =
    Ok {| cf_status := "confirmed"; cf_company_task_version := 5 |} ∧
  (Demo.confirm (Demo.db "awaiting_user_confirmation" ["python"] (Demo.two ["t1"]))).1 =
    Err (IntegrityErr "department_tasks") ∧
  cf_status {| cf_status := "waiting_resource"; cf_company_task_version := 1 |} ≠ "confirmed".
Proof.
  intros poor. split; [by vm_compute|]. split; [by vm_compute|].
  apply (dependent_plan_never_confirmed PlanStore.Demo.uuid4 "now" "soon" (λ _, PlanStore.Demo.sha) (λ _, 1%Z) Demo.repr
    Demo.int_of_float Dispatch.Demo.no_candidates Demo.command poor (Demo.plan (Demo.two ["t1"])) (Demo.two ["t1"])
    {| cf_status := "waiting_resource"; cf_company_task_version := 1 |} (Demo.confirm poor).2);
    [by vm_compute|done| |by vm_compute|by vm_compute].
  eexists [_], _, [], _, (JStr "t1"), [JStr "t1"]. split_and!; [done|by left|done|done|by left].
Defined.

Lemma confirm_needs_resources_witness :
  let before := Demo.db "awaiting_user_confirmation" ["python"] Demo.one in
  ∃ tasks, Forall (task_ready Demo.repr "co" "rel" "wg" before) tasks ∧ length tasks = 1%nat.
Proof.
  intros before.
  destruct (confirm_needs_resources PlanStore.Demo.uuid4 "now" "soon" (λ _, PlanStore.Demo.sha) (λ _, 1%Z) Demo.repr
    Demo.int_of_float Dispatch.Demo.no_candidates Demo.command before
    {| cf_status := "confirmed"; cf_company_task_version := 5 |} (Demo.confirm before).2)
    as (plan & tasks & w & release & Hp & Ht & Hw & _ & _ & _ & _ & _ & Hrel & Hall); [by vm_compute|done|].
  exists tasks. simpl in Hw. apply list_elem_of_singleton in Hw as ->.
  injection Hrel as <-. split; [exact Hall|]. injection Hp as <-. injection Ht as <-. done.
Defined.

(** A blank capability passes the check of confirmation and spoils the frozen
    specification: once the first contributor is accepted the second one fails. *)
Example blank_capability_fails_later :
  let plan := [Demo.plan_task "t1" [] ["python"; " "] Demo.deliverable] in
  let confirmed := (Demo.confirm (Demo.db "awaiting_user_confirmation" ["python"] plan)).2 in
  let accepted := (update (λ t, TS.et_id t =? "u3") (λ t, {|
    TS.et_id := TS.et_id t; TS.et_company_id := TS.et_company_id t;
    TS.et_department_task_id := TS.et_department_task_id t; TS.et_employee_id := TS.et_employee_id t;
    TS.et_task_kind := TS.et_task_kind t; TS.et_objective := TS.et_objective t;
    TS.et_acceptance_criteria_json := TS.et_acceptance_criteria_json t; TS.et_status := "accepted";
    TS.et_resume_state := None; TS.et_created_at := TS.et_created_at t; TS.et_updated_at := "now";
    TS.et_version := 2 |}) confirmed).2 in
  map TS.et_status (employee_tasks (work accepted)) = ["accepted"; "waiting_resource"] ∧
  Dispatch.Demo.statuses (Dispatch.Demo.advance "u3" accepted).2 = ["accepted"; "failed"].
Proof. by vm_compute. Qed.
