(* ===== verification/AuditLog.v ===== *)
(** * Audit logs

    The table [audit_logs] and its two writers: [audit.py], and [security/audit.py],
    which chains the rows of a company by digests and drops repeated entries.  A
    [detail] is a JSON value; [json.dumps] with sorted keys is the value with its fields in
    order.  The chained digest is a function of the previous digest and the row data
    (their texts, joined by a bar that no digest contains); the digest of a text in a
    redaction is another function.

    The theorems: both redactions keep the values of sensitive keys out, in nested
    objects, the one of [audit.py] in lists too; [log_audit] keeps the chain of its
    company, and two chains with the same last digest hold the same data; [append_audit]
    breaks every chain it touches; and reading page by page misses nothing. *)

From S2P Require Import Prelude PyOrder PyStr Sql UnitOfWork.

(** ** The table *)

Record AuditRow := {
  row_sequence : Z;
  au_id : string;
  au_company_id : option string;
  au_actor_type : string;
  au_actor_id : option string;
  au_action : string;
  au_resource_type : string;
  au_resource_id : option string;
  au_outcome : string;
  au_detail : json;
  au_trace_id : string;
  au_created_at : string;
  au_hash : string;
  au_prev_hash : string }.

Record DB := {
  audit_logs : list AuditRow;
  last_sequence : Z;          (** what [AUTOINCREMENT] remembers *)
  companies : list string }.

#[export] Program Instance audit_table : Table DB AuditRow := {|
  table_name := "audit_logs"; rows := audit_logs;
  set_rows l db := {| audit_logs := l; last_sequence := last_sequence db; companies := companies db |};
  row_ok r := (au_actor_type r ∈? ["user"; "employee"; "system"]) &&
              (au_outcome r ∈? ["success"; "denied"; "failed"]);
  clash a b := (row_sequence a =? row_sequence b)%Z || (au_id a =? au_id b);
  refs_ok db r := match au_company_id r with Some c => c ∈? companies db | None => true end |}.
Solve All Obligations with intros; repeat match goal with db : DB |- _ => destruct db end; reflexivity.

(** [INSERT] into a table with [AUTOINCREMENT]; the new sequence number is [lastrowid]. *)
Definition insert_audit (row : Z → AuditRow) : tx DB Z :=
  seq ← gets (λ db, last_sequence db + 1)%Z;
  insert_row (row seq);;
  modify (λ db, {| audit_logs := audit_logs db; last_sequence := seq; companies := companies db |});;
  mret seq.

Definition by_sequence : AuditRow → AuditRow → comparison := on row_sequence Z.compare.

(** ** Redaction *)

(** [s.lower()], as far as it can end in ASCII text: the capital letters, and the Kelvin
    sign, become small letters, and no other character becomes one. *)
Definition lower_char (c : string) : string :=
  match c with
  | String b EmptyString =>
      let n := Ascii.nat_of_ascii b in
      if Nat.leb 65 n && Nat.leb n 90 then String (byte (n + 32)) EmptyString else c
  | _ => if c =? bytes [226; 132; 170]%nat then "k" else c
  end.
Definition lower (s : string) : string := unchars (map lower_char (chars s)).

(** [json.dumps(..., sort_keys=True)] *)
Fixpoint dumps_sorted (j : json) : json :=
  match j with
  | JObj fields => sorted_obj (map (λ kv, (kv.1, dumps_sorted kv.2)) fields)
  | JList items => JList (map dumps_sorted items)
  | _ => j
  end.

Section Writers.
Context (env : Ambient).
(** [hashlib.sha256(text).hexdigest()], of a text and of [prev_hash + "|" + row_data]. *)
Context (sha256 : string → string) (chain_digest : string * json → string).

(* [sidecar/ibreeze/audit.py:17-28 _SENSITIVE_KEYS] *)
Definition _SENSITIVE_KEYS : list string :=
  ["password"; "token"; "refresh_token"; "api_key"; "secret"; "authorization"; "content"; "file_content"].

(* [sidecar/ibreeze/audit.py:35-45 _sanitize] *)
Fixpoint _sanitize (value : json) (key : string) : json :=
  if lower key ∈? _SENSITIVE_KEYS then
    match value with
    | JStr s => if s =? "" then JObj [("redacted", JBool true)]
                else JObj [("redacted", JBool true); ("sha256", JStr (sha256 s))]
    | _ => JObj [("redacted", JBool true)]
    end
  else match value with
       | JObj fields => JObj (map (λ kv, (kv.1, _sanitize kv.2 kv.1)) fields)
       | JList items => JList (map (λ item, _sanitize item "") items)
       | _ => value
       end.

(** The response repeats the row; its sequence number is what the table adds. *)
(* [sidecar/ibreeze/audit.py:48-101 append_audit] *)
Definition append_audit (company_id : option string) (actor_type : string) (actor_id : option string)
    (action resource_type : string) (resource_id : option string) (outcome : string) (detail : json)
    (trace_id : string) : tx DB Z :=
  insert_audit (λ seq, {|
    row_sequence := seq; au_id := uuid4 env 0; au_company_id := company_id;
    au_actor_type := actor_type; au_actor_id := actor_id; au_action := action;
    au_resource_type := resource_type; au_resource_id := resource_id; au_outcome := outcome;
    au_detail := dumps_sorted (_sanitize detail ""); au_trace_id := trace_id;
    au_created_at := now_text env; au_hash := ""; au_prev_hash := "" |}).

(* [sidecar/ibreeze/audit.py:104-140 list_audit] *)
Definition list_audit (company_id : option string) (after_sequence limit : Z) : tx DB (list AuditRow) :=
  l ← select (λ r, match company_id with Some _ => sql_eq (au_company_id r) company_id | None => true end &&
                   (after_sequence <? row_sequence r)%Z);
  mret (limited limit (sort_key by_sequence l)).

(** *** security/audit.py *)

(* [sidecar/ibreeze/security/audit.py:15-30 _SENSITIVE_KEYS] *)
Definition SECURITY_SENSITIVE_KEYS : list string :=
  ["password"; "token"; "api_key"; "authorization"; "cookie"; "secret"; "credential"; "access_token";
   "refresh_token"; "private_key"; "jwt"; "bearer"].

Definition truncated (s : string) : string :=
  if (100 <? py_len s)%Z
  then py_take 100 s +:+ "...[truncated, sha256=" +:+ py_take 16 (sha256 s) +:+ "]" else s.

(** Of an object; an empty one becomes [None]. *)
(* [sidecar/ibreeze/security/audit.py:33-47 _sanitize] *)
Fixpoint sanitize_detail (data : json) : json :=
  match data with
  | JObj [] => JNull
  | JObj fields => JObj (map (λ kv, (kv.1,
      if lower kv.1 ∈? SECURITY_SENSITIVE_KEYS then JStr "[REDACTED]"
      else match kv.2 with
           | JStr s => JStr (truncated s)
           | JObj _ => sanitize_detail kv.2
           | v => v
           end)) fields)
  | _ => data
  end.

(* [sidecar/ibreeze/security/audit.py:58-58 GENESIS_HASH] *)
Definition GENESIS_HASH : string := String.concat "" (repeat "0" 64).

(** The rows of a company, the latest first. *)
Definition latest_first (company_id : option string) (db : DB) : list AuditRow :=
  sort_key (on row_sequence (backwards Z.compare))
    (where_ (λ r, sql_eq (au_company_id r) company_id) (audit_logs db)).

(* [sidecar/ibreeze/security/audit.py:67-74 _get_prev_hash] *)
Definition _get_prev_hash (company_id : option string) (db : DB) : string :=
  match head (latest_first company_id db) with Some r => au_hash r | None => GENESIS_HASH end.

Definition opt_str (o : option string) : json := match o with Some s => JStr s | None => JNull end.

(** What the chain covers of a row. *)
(* [sidecar/ibreeze/security/audit.py:111-122 log_audit] *)
Definition row_data (r : AuditRow) : json := sorted_obj [
  ("company_id", opt_str (au_company_id r)); ("actor_type", JStr (au_actor_type r));
  ("actor_id", opt_str (au_actor_id r)); ("action", JStr (au_action r));
  ("resource_type", JStr (au_resource_type r)); ("resource_id", opt_str (au_resource_id r));
  ("outcome", JStr (au_outcome r))].

Definition with_hashes (h prev : string) (r : AuditRow) : AuditRow := {|
  row_sequence := row_sequence r; au_id := au_id r; au_company_id := au_company_id r;
  au_actor_type := au_actor_type r; au_actor_id := au_actor_id r; au_action := au_action r;
  au_resource_type := au_resource_type r; au_resource_id := au_resource_id r;
  au_outcome := au_outcome r; au_detail := au_detail r; au_trace_id := au_trace_id r;
  au_created_at := au_created_at r; au_hash := h; au_prev_hash := prev |}.

(** [detail] is an object or [None]. *)
(* [sidecar/ibreeze/security/audit.py:77-148 log_audit] *)
Definition log_audit (company_id actor_id : option string) (actor_type action resource_type : string)
    (resource_id : option string) (outcome : string) (detail : json) (trace_id : string) : tx DB string :=
  existing ← gets (λ db, existsb (λ r, (au_trace_id r =? trace_id) && (au_action r =? action) &&
                                       sql_eq (au_resource_id r) resource_id) (audit_logs db));
  if negb (trace_id =? "") && existing then mret ""
  else
    let log_id := uuid4 env 0 in
    let sanitized := match sanitize_detail detail with JNull => JObj [] | j => j end in
    let row seq := {|
      row_sequence := seq; au_id := log_id; au_company_id := company_id;
      au_actor_type := actor_type; au_actor_id := actor_id; au_action := action;
      au_resource_type := resource_type; au_resource_id := resource_id; au_outcome := outcome;
      au_detail := dumps_sorted sanitized; au_trace_id := trace_id; au_created_at := now_text env;
      au_hash := ""; au_prev_hash := "" |} in
    prev_hash ← gets (_get_prev_hash company_id);
    let chain_hash := chain_digest (prev_hash, row_data (row 0)) in
    insert_audit (λ seq, with_hashes chain_hash prev_hash (row seq));;
    mret log_id.

(* [sidecar/ibreeze/security/audit.py:151-186 list_audit_logs] *)
Definition list_audit_logs (company_id actor_id action resource_type : option string)
    (after_sequence limit : Z) : tx DB (list AuditRow) :=
  let given f (o : option string) r := match o with Some _ => sql_eq (f r) o | None => true end in
  l ← select (λ r, (after_sequence <? row_sequence r)%Z && given au_company_id company_id r &&
                   given au_actor_id actor_id r && given (Some ∘ au_action) action r &&
                   given (Some ∘ au_resource_type) resource_type r);
  mret (limited limit (sort_key by_sequence l)).
End Writers.

(** ** Sequences *)

Definition in_sequence (a b : AuditRow) : Prop := (row_sequence a < row_sequence b)%Z.

Record audit_ok (db : DB) : Prop := {
  ao_sorted : StronglySorted in_sequence (audit_logs db);
  ao_bounds r : r ∈ audit_logs db → (0 < row_sequence r ≤ last_sequence db)%Z }.

Lemma insert_audit_ok row db n db' :
  insert_audit row db = (Ok n, db') →
  n = (last_sequence db + 1)%Z ∧ audit_logs db' = audit_logs db ++ [row n] ∧ last_sequence db' = n ∧
  companies db' = companies db.
Proof.
  unfold insert_audit. intros H. apply tx_bind_ok in H as (seq & ? & [-> ->]%gets_ok & H).
  apply tx_bind_ok in H as (u & db1 & (_ & _ & _ & ->)%insert_ok & H).
  apply tx_bind_ok in H as (u' & db2 & ->%modify_ok & [-> ->]%mret_ok). done.
Qed.

Lemma sorted_where p l : StronglySorted in_sequence l → StronglySorted in_sequence (where_ p l).
Proof.
  unfold where_. induction 1 as [|r l Hl IH Hr]; simpl; [constructor|]. destruct (p r); [|done].
  constructor; [done|]. rewrite Forall_forall in *. intros x [Hx _]%list_elem_of_In%filter_In.
  by apply Hr, list_elem_of_In.
Qed.

Lemma insert_audit_audit_ok row db n db' :
  (∀ seq, row_sequence (row seq) = seq) → audit_ok db → (0 ≤ last_sequence db)%Z →
  insert_audit row db = (Ok n, db') → audit_ok db'.
Proof.
  intros Hrow [H1 H2] Hpos (-> & E1 & E2 & _)%insert_audit_ok. split; rewrite E1.
  - apply StronglySorted_app. split_and!; [|done|repeat constructor].
    intros a b Ha ->%list_elem_of_singleton. unfold in_sequence. rewrite Hrow. apply H2 in Ha. lia.
  - intros r [Hr| ->%list_elem_of_singleton]%elem_of_app; rewrite E2.
    + specialize (H2 r Hr). lia.
    + rewrite Hrow. lia.
Qed.

#[local] Instance ordering_by_sequence : Ordering by_sequence.
Proof. unfold by_sequence. apply _. Qed.
#[local] Instance ordering_latest : Ordering (on row_sequence (backwards Z.compare)).
Proof. apply _. Qed.

Lemma sequence_inj l a b : StronglySorted in_sequence l → a ∈ l → b ∈ l →
  row_sequence a = row_sequence b → a = b.
Proof.
  induction 1 as [|r l _ IH Hr]; [by intros ?%elem_of_nil|]. rewrite Forall_forall in Hr.
  intros [->|Ha]%elem_of_cons [->|Hb]%elem_of_cons; [done|..]; auto; unfold in_sequence in Hr; intros Heq.
  - specialize (Hr b Hb). lia.
  - specialize (Hr a Ha). lia.
Qed.

(** Rows in sequence are sorted; the latest one is the last. *)
Lemma sort_sequence l : StronglySorted in_sequence l → sort_key by_sequence l = l.
Proof.
  intros Hl. pose proof (sort_key_sorted by_sequence l) as Hs.
  apply (StronglySorted_unique_strong (λ a b, (row_sequence a ≤ row_sequence b)%Z)).
  - intros a b Ha Hb H1 H2. apply elem_of_sort_by in Ha. apply (sequence_inj l); [done..|lia].
  - induction Hs as [|r s _ IH Hr]; constructor; [done|]. eapply Forall_impl; [exact Hr|].
    intros x Hx%leb_of_iff. unfold by_sequence, on in Hx. by apply Z.compare_le_iff.
  - clear Hs. induction Hl as [|r l _ IH Hr]; constructor; [done|]. eapply Forall_impl; [exact Hr|].
    unfold in_sequence. intros. lia.
  - unfold sort_key. apply sort_by_perm.
Qed.

Lemma latest_last l : StronglySorted in_sequence l →
  head (sort_key (on row_sequence (backwards Z.compare)) l) = last l.
Proof.
  intros Hl. destruct (last l) as [z|] eqn:Hz.
  - apply last_Some in Hz as [l' ->].
    destruct (head _) as [x|] eqn:Hx.
    + assert (x ∈ l' ++ [z]) as Hin by (apply head_Some_elem_of in Hx; by apply elem_of_sort_by in Hx).
      pose proof (sort_key_head _ _ _ z Hx ltac:(apply elem_of_app; right; left)) as Hle.
      change (row_sequence z ≤ row_sequence x)%Z in Hle.
      apply elem_of_app in Hin as [Hin|Hin]; [|by apply list_elem_of_singleton in Hin as ->].
      apply StronglySorted_app in Hl as (Hall & _). specialize (Hall x z Hin ltac:(left)).
      unfold in_sequence in Hall. lia.
    + exfalso. destruct (sort_key _ _) eqn:Hs; [|done]. apply sort_by_nil in Hs. by destruct l'.
  - apply last_None in Hz as ->. done.
Qed.

(** ** The chain of a company *)

Section Chains.
Context (chain_digest : string * json → string).

Definition company_rows (c : string) (db : DB) : list AuditRow :=
  where_ (λ r, sql_eq (au_company_id r) (Some c)) (audit_logs db).

(** Every row carries its predecessor's digest and the digest over it and its own data. *)
Fixpoint chain (prev : string) (l : list AuditRow) : Prop :=
  match l with
  | [] => True
  | r :: l => au_prev_hash r = prev ∧ au_hash r = chain_digest (prev, row_data r) ∧ chain (au_hash r) l
  end.

Definition last_hash (prev : string) (l : list AuditRow) : string :=
  match last l with Some r => au_hash r | None => prev end.

Lemma last_hash_cons prev r l : last_hash prev (r :: l) = last_hash (au_hash r) l.
Proof. unfold last_hash. rewrite last_cons. by destruct (last l). Qed.

Lemma chain_snoc prev l r : chain prev (l ++ [r]) ↔
  chain prev l ∧ au_prev_hash r = last_hash prev l ∧ au_hash r = chain_digest (last_hash prev l, row_data r).
Proof.
  revert prev. induction l as [|x l IH]; intros prev; simpl.
  - unfold last_hash. simpl. tauto.
  - rewrite IH, last_hash_cons. tauto.
Qed.

Lemma prev_hash_last c db : audit_ok db →
  _get_prev_hash (Some c) db = last_hash GENESIS_HASH (company_rows c db).
Proof.
  intros [Hs _]. unfold _get_prev_hash, latest_first, last_hash.
  rewrite latest_last by by apply sorted_where. done.
Qed.

Lemma company_rows_snoc c db db' r : audit_logs db' = audit_logs db ++ [r] →
  company_rows c db' = if sql_eq (au_company_id r) (Some c) then company_rows c db ++ [r] else company_rows c db.
Proof.
  unfold company_rows, where_. intros ->. rewrite List.filter_app. simpl.
  destruct (sql_eq _ _); [done|apply app_nil_r].
Qed.

Context (env : Ambient) (sha256 : string → string).

Lemma log_audit_ok company actor_id actor_type action rtype rid outcome detail trace db id db' :
  log_audit env sha256 chain_digest company actor_id actor_type action rtype rid outcome detail trace db
    = (Ok id, db') →
  (id = "" ∧ db' = db ∧ trace ≠ "" ∧ ∃ r, r ∈ audit_logs db ∧ au_trace_id r = trace ∧
     au_action r = action ∧ sql_eq (au_resource_id r) rid = true) ∨
  ∃ row n, insert_audit row db = (Ok n, db') ∧ id = uuid4 env 0 ∧ (∀ seq, row_sequence (row seq) = seq) ∧
    ∀ seq, au_company_id (row seq) = company ∧ au_trace_id (row seq) = trace ∧
      au_action (row seq) = action ∧ au_resource_id (row seq) = rid ∧
      au_prev_hash (row seq) = _get_prev_hash company db ∧
      au_hash (row seq) = chain_digest (_get_prev_hash company db, row_data (row seq)) ∧
      au_detail (row seq) =
        dumps_sorted (match sanitize_detail sha256 detail with JNull => JObj [] | j => j end).
Proof.
  unfold log_audit. intros H. apply tx_bind_ok in H as (existing & ? & [-> ->]%gets_ok & H).
  destruct (_ && existsb _ _) eqn:He.
  - apply mret_ok in H as [-> ->]. left. apply andb_true_iff in He as [Ht He].
    apply negb_true_iff, String.eqb_neq in Ht. apply existsb_exists in He as (r & Hin & Hr).
    rewrite !andb_true_iff, !String.eqb_eq in Hr. destruct Hr as [[? ?] ?].
    split_and!; [done..|]. exists r. split; [by apply list_elem_of_In|done].
  - right. apply tx_bind_ok in H as (prev & ? & [-> ->]%gets_ok & H).
    apply tx_bind_ok in H as (n & db1 & Hi & [-> ->]%mret_ok). eexists _, n.
    split; [exact Hi|]. done.
Qed.

Record audit_db_ok (db : DB) : Prop := {
  ad_ok : audit_ok db;
  ad_sequence : (0 ≤ last_sequence db)%Z }.

(** [log_audit] keeps every chain: whatever it logs, for a company or for none, the
    rows of each company that formed a chain from the genesis digest still do, with at most
    one row more; and the sequence numbers stay in order.  A repeated entry (the same
    trace, action and resource) is dropped and changes nothing. *)
Lemma log_audit_keeps_chains company actor_id actor_type action rtype rid outcome detail trace db id db' :
  audit_db_ok db →
  log_audit env sha256 chain_digest company actor_id actor_type action rtype rid outcome detail trace db
    = (Ok id, db') →
  audit_db_ok db' ∧
  (∀ c, chain GENESIS_HASH (company_rows c db) → chain GENESIS_HASH (company_rows c db')) ∧
  (∀ c, company_rows c db' = company_rows c db ∨
        company = Some c ∧ ∃ r, company_rows c db' = company_rows c db ++ [r]) ∧
  (id = "" ∧ db' = db ∨ ∃ r, audit_logs db' = audit_logs db ++ [r] ∧ id = uuid4 env 0) ∧
  (trace ≠ "" → rid ≠ None →
   log_audit env sha256 chain_digest company actor_id actor_type action rtype rid outcome detail trace db'
     = (Ok "", db')).
Proof.
  intros [Hok Hpos] Hrun. pose proof Hrun as Hrun'.
  apply log_audit_ok in Hrun' as [(-> & -> & _)|(row & n & Hi & -> & Hseq & Hrow)].
  { split; [by split|]. split; [auto|]. split; [auto|]. split; [auto|]. intros _ _. exact Hrun. }
  pose proof (insert_audit_audit_ok _ _ _ _ Hseq Hok Hpos Hi) as Hok'.
  apply insert_audit_ok in Hi as (-> & E1 & E2 & _).
  set (r := row (last_sequence db + 1)%Z) in *.
  destruct (Hrow (last_sequence db + 1)%Z) as (Hc & Ht & Ha & Hr & Hp & Hh & _). fold r in Hc, Ht, Ha, Hr, Hp, Hh.
  split; [split; [done|lia]|]. split; [|split; [|split]].
  - intros c Hchain. rewrite (company_rows_snoc _ _ _ _ E1). rewrite Hc.
    destruct company as [c'|]; simpl; [|done]. destruct (String.eqb_spec c' c) as [->|]; [|done].
    apply chain_snoc. rewrite <-prev_hash_last by done. done.
  - intros c. rewrite (company_rows_snoc _ _ _ _ E1), Hc. destruct company as [c'|]; simpl; [|auto].
    destruct (String.eqb_spec c' c) as [->|]; [|auto]. right. eauto.
  - right. by exists r.
  - intros Htr Hrid. unfold log_audit. erewrite tx_bind_run by reflexivity.
    assert (existsb (λ r, (au_trace_id r =? trace) && (au_action r =? action) &&
      sql_eq (au_resource_id r) rid) (audit_logs db') = true) as ->.
    { apply existsb_exists. exists r. rewrite E1. split; [apply in_or_app; right; by left|].
      rewrite Ht, Ha, Hr, !String.eqb_refl. simpl. destruct rid; [|done]. apply String.eqb_refl. }
    apply String.eqb_neq in Htr. by rewrite Htr.
Qed.

(** The chain shows tampering: two chains from the genesis digest that end in the same
    digest hold the same data, row by row, or they exhibit two inputs with the same digest,
    or an input whose digest is the genesis digest. *)
Lemma chain_tamper_evident l l' :
  chain GENESIS_HASH l → chain GENESIS_HASH l' →
  last_hash GENESIS_HASH l = last_hash GENESIS_HASH l' →
  map row_data l = map row_data l' ∨
  (∃ x y, x ≠ y ∧ chain_digest x = chain_digest y) ∨ ∃ x, chain_digest x = GENESIS_HASH.
Proof.
  revert l'. induction l as [|r l IH] using rev_ind; intros l' Hl Hl' Heq;
    destruct l' as [|r' l' _] using rev_ind; [by left|..].
  - apply chain_snoc in Hl' as (_ & _ & Hh). right. right. unfold last_hash in Heq. rewrite last_snoc in Heq.
    simpl in Heq. rewrite Hh in Heq. eauto.
  - apply chain_snoc in Hl as (_ & _ & Hh). right. right. unfold last_hash in Heq. rewrite last_snoc in Heq.
    simpl in Heq. rewrite Hh in Heq. eauto.
  - apply chain_snoc in Hl as (Hl & _ & Hh). apply chain_snoc in Hl' as (Hl' & _ & Hh').
    unfold last_hash in Heq. rewrite !last_snoc, Hh, Hh' in Heq.
    destruct (decide (row_data r = row_data r')) as [Hr|Hr].
    2: { right. left. do 2 eexists. split; [|exact Heq]. congruence. }
    destruct (decide (last_hash GENESIS_HASH l = last_hash GENESIS_HASH l')) as [Hp|Hp].
    2: { right. left. do 2 eexists. split; [|exact Heq]. congruence. }
    destruct (IH l' Hl Hl' Hp) as [Hm|?]; [left|by right]. rewrite !map_app, Hm. simpl. by rewrite Hr.
Qed.
End Chains.

(** ** Redacted details *)

(** No field under a sensitive key, in objects at any depth, and with [lists] in the
    members of lists too, holds anything but a redaction. *)
Fixpoint clean (keys : list string) (redaction : json → bool) (lists : bool) (j : json) : bool :=
  match j with
  | JObj fields => forallb (λ kv, if lower kv.1 ∈? keys then redaction kv.2
                                  else clean keys redaction lists kv.2) fields
  | JList items => negb lists || forallb (clean keys redaction lists) items
  | _ => true
  end.

Definition is_marker (j : json) : bool :=
  match j with
  | JObj [("redacted", JBool true)] => true
  | JObj [("redacted", JBool true); ("sha256", JStr _)] => true
  | _ => false
  end.
Definition is_redacted_text (j : json) : bool := bool_decide (j = JStr "[REDACTED]").

(** Sorting the fields changes nothing about that. *)
Lemma clean_dumps keys redaction lists j :
  (∀ v, redaction v = true → redaction (dumps_sorted v) = true) →
  clean keys redaction lists j = true → clean keys redaction lists (dumps_sorted j) = true.
Proof.
  intros Hred. induction j using json_rect'; try done; simpl.
  - destruct lists; simpl; [|done]. rewrite forallb_map, !forallb_forall, Forall_forall in *.
    intros Hall x Hx. apply H; [by apply list_elem_of_In|by apply Hall].
  - rewrite forallb_sort_by, forallb_map, !forallb_forall, Forall_forall in *.
    intros Hall kv Hx. specialize (Hall kv Hx). cbn [fst snd]. destruct (_ ∈? _); [by apply Hred|].
    apply H; [by apply list_elem_of_In|done].
Qed.

Lemma marker_dumps v : is_marker v = true → is_marker (dumps_sorted v) = true.
Proof.
  destruct v as [| | | | | |fields]; try done. simpl.
  repeat match goal with |- context [match ?x with _ => _ end = true → _] => destruct x; try done end.
Qed.

Section Redaction.
Context (env : Ambient) (sha256 : string → string) (chain_digest : string * json → string).

Lemma sanitize_marker v key : lower key ∈? _SENSITIVE_KEYS = true → is_marker (_sanitize sha256 v key) = true.
Proof. intros Hk. destruct v; simpl; rewrite Hk; try done. by destruct (s =? ""). Qed.

Lemma sanitize_clean v key : clean _SENSITIVE_KEYS is_marker true (_sanitize sha256 v key) = true.
Proof.
  revert key. induction v using json_rect'; intros key; simpl; destruct (lower key ∈? _SENSITIVE_KEYS); try done.
  - by destruct (s =? "").
  - simpl. rewrite forallb_map, forallb_forall, Forall_forall in *. intros x Hx. by apply H, list_elem_of_In.
  - simpl. rewrite forallb_map, forallb_forall, Forall_forall in *. intros [k v] Hx. cbn [fst snd].
    destruct (lower k ∈? _SENSITIVE_KEYS) eqn:Hk; [by apply sanitize_marker|].
    apply (H (k, v)). by apply list_elem_of_In.
Qed.

Lemma sanitize_detail_clean v :
  clean SECURITY_SENSITIVE_KEYS is_redacted_text false (sanitize_detail sha256 v) = true.
Proof.
  induction v as [| | | | | |fields IH] using json_rect'; try done.
  destruct fields as [|f fields]; [done|]. cbn [sanitize_detail clean].
  rewrite forallb_map, forallb_forall. rewrite Forall_forall in IH. intros [k v] Hx. cbn [fst snd].
  destruct (lower k ∈? SECURITY_SENSITIVE_KEYS) eqn:Hk; [by unfold is_redacted_text; apply bool_decide_eq_true|].
  apply list_elem_of_In in Hx. specialize (IH _ Hx). by destruct v.
Qed.

(** What is written is redacted.  In the details that [append_audit] stores, no field
    with a sensitive name, at any depth and in lists too, holds anything but a marker with
    at most a digest; in those that [log_audit] stores, no field of nested objects with a
    sensitive name holds anything but the word REDACTED. *)
Lemma details_redacted company actor_type actor_id action rtype rid outcome detail trace :
  (∀ db n db', append_audit env sha256 company actor_type actor_id action rtype rid outcome detail trace db
      = (Ok n, db') →
    ∃ r, audit_logs db' = audit_logs db ++ [r] ∧ clean _SENSITIVE_KEYS is_marker true (au_detail r) = true) ∧
  (∀ db id db', log_audit env sha256 chain_digest company actor_id actor_type action rtype rid outcome detail
      trace db = (Ok id, db') → db' ≠ db →
    ∃ r, audit_logs db' = audit_logs db ++ [r] ∧
      clean SECURITY_SENSITIVE_KEYS is_redacted_text false (au_detail r) = true).
Proof.
  split; intros db n db' Hrun.
  - apply insert_audit_ok in Hrun as (_ & E & _). eexists. split; [exact E|].
    apply clean_dumps; [exact marker_dumps|apply sanitize_clean].
  - intros Hne. apply log_audit_ok in Hrun as [(_ & ? & _)|(row & k & Hi & _ & _ & Hrow)]; [done|].
    apply insert_audit_ok in Hi as (_ & E & _). eexists. split; [exact E|].
    destruct (Hrow k) as (_ & _ & _ & _ & _ & _ & ->).
    apply clean_dumps; [|pose proof (sanitize_detail_clean detail); by destruct (sanitize_detail sha256 detail)].
    unfold is_redacted_text. intros v Hv. apply bool_decide_eq_true in Hv as ->. done.
Qed.

(** A row that [append_audit] adds for a company breaks that company's chain: its digest
    is empty, and no digest is. *)
Lemma append_breaks_chain company actor_type actor_id action rtype rid outcome detail trace db n db' :
  (∀ x, chain_digest x ≠ "") →
  append_audit env sha256 (Some company) actor_type actor_id action rtype rid outcome detail trace db
    = (Ok n, db') →
  ¬ chain chain_digest GENESIS_HASH (company_rows company db').
Proof.
  intros Hne (_ & E & _)%insert_audit_ok. rewrite (company_rows_snoc _ _ _ _ E). simpl.
  rewrite String.eqb_refl. intros (_ & _ & Hh)%chain_snoc. simpl in Hh. symmetry in Hh. exact (Hne _ Hh).
Qed.

(** ** Reading page by page *)

(** Pages of [limit] rows, each after the last row of the one before. *)
Fixpoint pages (fuel : nat) (company : option string) (after limit : Z) (db : DB) : list AuditRow :=
  match fuel with
  | O => []
  | S fuel =>
      match (list_audit company after limit db).1 with
      | Ok page => match last page with
                   | Some r => page ++ pages fuel company (row_sequence r) limit db
                   | None => []
                   end
      | Err _ => []
      end
  end.

Definition of_company (company : option string) (r : AuditRow) : bool :=
  match company with Some _ => sql_eq (au_company_id r) company | None => true end.

Lemma where_after_drop l n r :
  StronglySorted in_sequence l → last (take n l) = Some r →
  where_ (λ x, row_sequence r <? row_sequence x)%Z l = drop n l.
Proof.
  intros Hl Hr. rewrite <-(take_drop n l) in Hl at 1. rewrite <-(take_drop n l) at 1.
  apply StronglySorted_app in Hl as (Hall & Ht & _). unfold in_sequence in *.
  apply last_Some in Hr as [l' El]. rewrite El in *. apply StronglySorted_app in Ht as (Hle & _).
  unfold where_. rewrite List.filter_app.
  rewrite (filter_none _ (l' ++ [r])), (filter_all _ (drop n l)); [done|..]; apply Forall_forall.
  - intros x Hx. apply Z.ltb_lt, Hall; [|done]. apply elem_of_app. right. left.
  - intros x [Hx| ->%list_elem_of_singleton]%elem_of_app; apply Z.ltb_ge; [|lia].
    specialize (Hle x r Hx ltac:(left)). lia.
Qed.

Lemma where_where {A} (p q : A → bool) l : where_ p (where_ q l) = where_ (λ x, q x && p x) l.
Proof.
  unfold where_. induction l as [|x l IH]; simpl; [done|]. destruct (q x); simpl; [|done].
  by rewrite IH.
Qed.

Lemma list_audit_run company after limit db : audit_ok db → (0 < limit)%Z →
  list_audit company after limit db =
    (Ok (take (Z.to_nat limit) (where_ (λ r, after <? row_sequence r)%Z
           (where_ (of_company company) (audit_logs db)))), db).
Proof.
  intros [Hs _] Hl. unfold list_audit. rewrite where_where. erewrite tx_bind_run by reflexivity.
  unfold limited. destruct (Z.ltb_spec limit 0); [lia|].
  change (rows db) with (audit_logs db). rewrite sort_sequence by by apply sorted_where. done.
Qed.

Lemma pages_ok fuel company after limit db : audit_ok db → (0 < limit)%Z →
  (length (where_ (λ r, after <? row_sequence r)%Z (where_ (of_company company) (audit_logs db))) < fuel)%nat →
  pages fuel company after limit db =
    where_ (λ r, after <? row_sequence r)%Z (where_ (of_company company) (audit_logs db)).
Proof.
  intros Hok Hl. pose proof (sorted_where (of_company company) _ (ao_sorted _ Hok)) as Hs.
  set (l := where_ (of_company company) (audit_logs db)) in *.
  revert after. induction fuel as [|fuel IH]; intros after Hf; [lia|]. cbn [pages].
  rewrite list_audit_run by done. cbn [fst]. fold l. set (n := Z.to_nat limit).
  pose proof (sorted_where (λ r, after <? row_sequence r)%Z _ Hs) as Hm.
  destruct (last (take n (where_ _ l))) as [r|] eqn:Hr.
  - pose proof (where_after_drop _ _ _ Hm Hr) as Hd.
    assert ((after < row_sequence r)%Z) as Har.
    { apply last_Some_elem_of, elem_of_take in Hr as (i & Hi & _).
      apply list_elem_of_lookup_2 in Hi. apply elem_where in Hi as [_ Hi]. by apply Z.ltb_lt. }
    assert (where_ (λ x, row_sequence r <? row_sequence x)%Z l = drop n (where_ (λ r, after <? row_sequence r)%Z l))
      as Hnext.
    { rewrite <-Hd, where_where. unfold where_. apply List.filter_ext. intros x.
      destruct (Z.ltb_spec (row_sequence r) (row_sequence x)), (Z.ltb_spec after (row_sequence x)); try done; lia. }
    rewrite IH; rewrite Hnext; [apply take_drop|]. rewrite length_drop. subst n.
    assert (where_ (λ r, after <? row_sequence r)%Z l ≠ []) as Hne.
    { intros E. rewrite E in Hr. by rewrite take_nil in Hr. }
    destruct (where_ _ l); [done|]. simpl in *. lia.
  - apply last_None in Hr. destruct (where_ _ l) as [|x m] eqn:E; [done|].
    unfold n in Hr. destruct (Z.to_nat limit) eqn:En; [lia|done].
Qed.
End Redaction.

(** Reading page by page misses nothing and repeats nothing: when every page starts after
    the last row of the one before, the pages put together are the rows of the company (or
    of all companies) in sequence, whatever the positive page size. *)
Lemma pages_complete fuel company limit db :
  audit_ok db → (0 < limit)%Z → (length (audit_logs db) < fuel)%nat →
  pages fuel company 0 limit db = where_ (of_company company) (audit_logs db) ∧
  ∀ after page, (list_audit company after limit db).1 = Ok page → (length page ≤ Z.to_nat limit)%nat.
Proof.
  intros Hok Hl Hf. assert (where_ (λ r, 0 <? row_sequence r)%Z (where_ (of_company company) (audit_logs db)) =
    where_ (of_company company) (audit_logs db)) as Hall.
  { unfold where_ at 1. apply filter_all, Forall_forall. intros r [Hr _]%elem_where.
    apply Z.ltb_lt. by apply (ao_bounds _ Hok). }
  split.
  - rewrite pages_ok, Hall; [done..|]. rewrite Hall. unfold where_.
    pose proof (List.filter_length_le (of_company company) (audit_logs db)). lia.
  - intros after page. rewrite list_audit_run by done. intros [= <-]. rewrite length_take. lia.
Qed.

(** ** A small log *)

Module AuditDemo.
Definition env (tag : string) : Ambient := {|
  now_text := "2025-01-01T00:00:00Z"; expiry_text _ := "2025-01-08T00:00:00Z";
  now_ms := "2025-01-01T00:00:00.000Z"; now_sql := "2025-01-01 00:00:00";
  uuid4 n := tag +:+ String (Ascii.ascii_of_nat (48 + n)) "" |}.
Definition empty : DB := {| audit_logs := []; last_sequence := 0; companies := ["co"; "other"] |}.
(** A digest no other input has. *)
Definition digest (x : string * json) : string := "#" +:+ x.1 +:+ (if decide (x.2 = JNull) then "" else "|").
Definition log (tag company action : string) (detail : json) : tx DB string :=
  log_audit (env tag) id digest (Some company) (Some "u") "user" action "task" (Some "t") "success" detail tag.
Definition detail : json := JObj [("Token", JStr "xyz"); ("inner", JObj [("jwt", JStr "abc"); ("n", JInt 1)])].
Definition steps : tx DB string :=
  log "a" "co" "task.create" detail;; log "b" "other" "task.create" JNull;; log "c" "co" "task.read" detail.
Definition db3 : DB := (steps empty).2.
End AuditDemo.

Example demo_chain :
  map au_hash (company_rows "co" AuditDemo.db3) =
    ["#" +:+ GENESIS_HASH +:+ "|"; "##" +:+ GENESIS_HASH +:+ "||"] ∧
  map au_detail (company_rows "co" AuditDemo.db3) =
    let d := JObj [("Token", JStr "[REDACTED]"); ("inner", JObj [("jwt", JStr "[REDACTED]"); ("n", JInt 1)])] in
    [d; d].
Proof. vm_compute. done. Qed.

(** The redaction of [log_audit] does not look into lists. *)
Example secret_in_list :
  sanitize_detail id (JObj [("users", JList [JObj [("password", JStr "hunter2")]])]) =
    JObj [("users", JList [JObj [("password", JStr "hunter2")]])] ∧
  clean SECURITY_SENSITIVE_KEYS is_redacted_text true
    (sanitize_detail id (JObj [("users", JList [JObj [("password", JStr "hunter2")]])])) = false.
Proof. done. Qed.

(** Two rows of no company: the second starts again from the genesis digest. *)
Example system_rows_never_chain :
  let go tag := log_audit (AuditDemo.env tag) id AuditDemo.digest None None "system" "boot" "app" None "success"
                  JNull tag in
  map au_prev_hash (audit_logs ((go "a";; go "b") AuditDemo.empty).2) = [GENESIS_HASH; GENESIS_HASH] ∧
  length (audit_logs ((go "a";; go "a") AuditDemo.empty).2) = 1%nat.
Proof. vm_compute. done. Qed.

(** The chain covers neither the detail nor the time of a row. *)
Lemma chain_ignores_detail chain_digest detail created trace r :
  let r' := {| row_sequence := row_sequence r; au_id := au_id r; au_company_id := au_company_id r;
    au_actor_type := au_actor_type r; au_actor_id := au_actor_id r; au_action := au_action r;
    au_resource_type := au_resource_type r; au_resource_id := au_resource_id r; au_outcome := au_outcome r;
    au_detail := detail; au_trace_id := trace; au_created_at := created; au_hash := au_hash r;
    au_prev_hash := au_prev_hash r |} in
  ∀ prev before after, chain chain_digest prev (before ++ r :: after) → chain chain_digest prev (before ++ r' :: after).
Proof.
  intros r' prev before. revert prev. induction before as [|x l IH]; intros prev after; simpl; [done|].
  intros (? & ? & ?). split_and!; auto.
Qed.

Lemma demo_audit_ok : audit_db_ok AuditDemo.db3.
Proof.
  split; [split|vm_compute; discriminate].
  - vm_compute. repeat constructor.
  - intros r Hr. vm_compute in Hr. repeat (apply elem_of_cons in Hr as [->|Hr]; [vm_compute; split; congruence|]).
    by apply elem_of_nil in Hr.
Qed.

Lemma log_audit_keeps_chains_witness :
  ∃ id db', AuditDemo.log "d" "co" "task.read" AuditDemo.detail AuditDemo.db3 = (Ok id, db') ∧
    id = "d0" ∧ chain AuditDemo.digest GENESIS_HASH (company_rows "co" AuditDemo.db3) ∧
    chain AuditDemo.digest GENESIS_HASH (company_rows "co" db') ∧ length (company_rows "co" db') = 3%nat.
Proof.
  do 2 eexists. split; [vm_compute; reflexivity|]. split; [done|].
  assert (chain AuditDemo.digest GENESIS_HASH (company_rows "co" AuditDemo.db3)) as H by by vm_compute.
  split; [exact H|]. split; [|done].
  refine (proj1 (proj2 (log_audit_keeps_chains AuditDemo.digest (AuditDemo.env "d") id (Some "co") (Some "u") "user"
    "task.read" "task" (Some "t") "success" AuditDemo.detail "d" AuditDemo.db3 _ _ demo_audit_ok _)) "co" H).
  vm_compute; reflexivity.
Defined.

Lemma chain_tamper_evident_witness :
  let l := company_rows "co" AuditDemo.db3 in
  map row_data l = map row_data l ∨
  (∃ x y, x ≠ y ∧ AuditDemo.digest x = AuditDemo.digest y) ∨ ∃ x, AuditDemo.digest x = GENESIS_HASH.
Proof.
  intros l. apply (chain_tamper_evident AuditDemo.digest l l); [by vm_compute..|reflexivity].
Defined.

Lemma append_breaks_chain_witness :
  ∃ n db', append_audit (AuditDemo.env "d") id (Some "co") "user" (Some "u") "task.read" "task" (Some "t") "success"
      AuditDemo.detail "d" AuditDemo.db3 = (Ok n, db') ∧ n = 4%Z ∧
    ¬ chain AuditDemo.digest GENESIS_HASH (company_rows "co" db').
Proof.
  do 2 eexists. split; [vm_compute; reflexivity|]. split; [done|].
  refine (append_breaks_chain (AuditDemo.env "d") id AuditDemo.digest "co" "user" (Some "u") "task.read" "task"
    (Some "t") "success" AuditDemo.detail "d" AuditDemo.db3 4 _ _ _); [done|vm_compute; reflexivity].
Defined.

Lemma details_redacted_witness :
  ∃ r, r ∈ audit_logs (AuditDemo.log "d" "co" "task.read" AuditDemo.detail AuditDemo.db3).2 ∧
    clean SECURITY_SENSITIVE_KEYS is_redacted_text false (au_detail r) = true.
Proof.
  destruct (proj2 (details_redacted (AuditDemo.env "d") id AuditDemo.digest (Some "co") "user" (Some "u") "task.read"
    "task" (Some "t") "success" AuditDemo.detail "d") AuditDemo.db3 "d0"
    (AuditDemo.log "d" "co" "task.read" AuditDemo.detail AuditDemo.db3).2) as (r & E & Hr).
  - vm_compute. reflexivity.
  - intros H%(f_equal last_sequence). vm_compute in H. discriminate H.
  - exists r. split; [|exact Hr]. rewrite E. apply elem_of_app. right. left.
Defined.

Lemma pages_complete_witness :
  map au_id (pages 4 (Some "co") 0 1 AuditDemo.db3) = ["a0"; "c0"].
Proof.
  rewrite (proj1 (pages_complete 4 (Some "co") 1 AuditDemo.db3 (ad_ok _ demo_audit_ok) ltac:(done)
    ltac:(vm_compute; lia))). vm_compute. reflexivity.
Defined.
