(* ===== verification/PlanValidator.v ===== *)
(** * Plan validation ([orchestration/plan_validator.py])

    The plan models and [validate_plan].  [_has_cycle] keeps its two mutable sets as
    the state of a [tx]; the depth Python lets [visit] recurse to is the argument
    [limit], and running out of it is the [RecursionError] Python raises.

    The theorems: with a limit above the number of task references the cycle test
    returns and answers exactly whether the dependency graph has a cycle; a chain
    longer than the limit raises; and [validate_plan] accepts exactly the plans that
    meet every rule, which for the dependencies means that an execution order exists. *)

From S2P Require Import Prelude PyEnum PyStr Sql.

(** ** The plan *)

(* [sidecar/ibreeze/orchestration/plan_validator.py:15-18 ExternalWrite] *)
Record ExternalWrite := { ew_target : string; ew_action : string; ew_expected_effect : string }.

(* [sidecar/ibreeze/orchestration/plan_validator.py:21-31 Deliverable] *)
Record Deliverable := {
  dl_artifact_type : string;
  dl_review_strategy : string;
  dl_review_rounds : Z;
  dl_contributor_employee_ids : list string;
  dl_reviewer_employee_ids : list string }.

(* [sidecar/ibreeze/orchestration/plan_validator.py:34-44 DepartmentPlanTask] *)
Record DepartmentPlanTask := {
  local_ref : string;
  department_id : string;
  matched_responsibility_keys : list string;
  general_manager_office_temporary_assignment : bool;
  objective : string;
  dependency_refs : list string;
  deliverables : list Deliverable;
  acceptance_criteria : list string;
  required_capability_tags : list string;
  required_external_writes : list ExternalWrite }.

(* [sidecar/ibreeze/orchestration/plan_validator.py:47-59 CompanyPlan] *)
Record CompanyPlan := {
  cp_id : string;
  cp_company_task_id : string;
  cp_company_id : string;
  cp_version : Z;
  cp_company_introduction_version : Z;
  cp_summary : string;
  goals : list string;
  non_goals : list string;
  department_tasks : list DepartmentPlanTask;
  final_acceptance_criteria : list string;
  cp_status : string;
  cp_content_hash : string }.

(* [sidecar/ibreeze/orchestration/plan_validator.py:62-66 PlanValidationIssue] *)
Record PlanValidationIssue := { rule_id : string; path : string; message : string }.

(** ** The cycle test *)

Definition graph := list (string * list string).

(** [visiting] and [visited] *)
Definition marks : Type := gset string * gset string.

Definition RecursionError : exn := RuntimeErr "RecursionError".

(** [any(f(x) for x in l)] *)
Fixpoint any_tx {S A} (f : A → tx S bool) (l : list A) : tx S bool :=
  match l with
  | [] => mret false
  | x :: l => b ← f x; if (b : bool) then mret true else any_tx f l
  end.

(* [sidecar/ibreeze/orchestration/plan_validator.py:212-222 visit] *)
Fixpoint visit (g : graph) (limit : nat) (node : string) : tx marks bool :=
  match limit with
  | O => raise RecursionError
  | S limit =>
      '(visiting, visited) ← gets id;
      if bool_decide (node ∈ (visiting : gset string)) then mret true
      else if bool_decide (node ∈ (visited : gset string)) then mret false
      else
        modify (λ m, ({[node]} ∪ m.1, m.2));;
        deps ← found (dict_get g node) (KeyErr node);
        cyclic ← any_tx (λ dependency,
          if dependency ∈? dict_keys g then visit g limit dependency else mret false) deps;
        if (cyclic : bool) then mret true
        else
          modify (λ m, (m.1 ∖ {[node]}, m.2));;
          modify (λ m, (m.1, {[node]} ∪ m.2));;
          mret false
  end.

Definition dependency_graph (tasks : list DepartmentPlanTask) : graph :=
  dict_of (map (λ t, (local_ref t, dependency_refs t)) tasks).

(* [sidecar/ibreeze/orchestration/plan_validator.py:207-224 _has_cycle] *)
Definition _has_cycle (limit : nat) (tasks : list DepartmentPlanTask) : result bool :=
  let g := dependency_graph tasks in
  (any_tx (visit g limit) (dict_keys g) (∅, ∅)).1.

(** ** The rules *)

Definition issue (c : bool) (rule path message : string) : list PlanValidationIssue :=
  if c then [{| rule_id := rule; path := path; message := message |}] else [].

(** [not xs] on a sequence *)
Definition empty {A} (l : list A) : bool := match l with [] => true | _ => false end.

(** What [validate_plan] is told about the company. *)
Record Scope := {
  active_department_ids : gset string;
  candidate_department_ids : gset string;
  active_leader_department_ids : gset string;
  allowed_employee_ids : gset string;
  emergency_disabled_capability_tags : gset string;
  product_permission_limits : gset string }.

Section Validate.
Context (scope : Scope).

(** [f"department_tasks.{task.local_ref}.{rest}"] *)
Definition at_task (task : DepartmentPlanTask) (rest : string) : string :=
  "department_tasks." +:+ local_ref task +:+ "." +:+ rest.

Definition numbered (what : string) (index : nat) : string :=
  what +:+ "." +:+ pretty.pretty index.

Definition deliverable_issues (task : DepartmentPlanTask) (index : nat) (deliverable : Deliverable)
    : list PlanValidationIssue :=
  let contributors : gset string := list_to_set (dl_contributor_employee_ids deliverable) in
  let reviewers : gset string := list_to_set (dl_reviewer_employee_ids deliverable) in
  let path := at_task task (numbered "deliverables" index) in
  issue (bool_decide (contributors = ∅) || bool_decide (reviewers = ∅) ||
         negb (bool_decide (contributors ∪ reviewers ⊆ allowed_employee_ids scope)))
    "PV-005" path "Employee reference is outside the company or missing." ++
  issue (negb (bool_decide (contributors ∩ reviewers = ∅)))
    "PV-008" path "A contributor cannot review the same artifact." ++
  issue ((dl_review_strategy deliverable =? "") || (dl_review_rounds deliverable =? 0)%Z)
    "PV-007" path "Review strategy and review rounds are required.".

Definition write_issues (task : DepartmentPlanTask) (index : nat) (write : ExternalWrite)
    : list PlanValidationIssue :=
  let path := at_task task (numbered "required_external_writes" index) in
  issue (negb (starts_with "/" (ew_target write)) || (strip (ew_expected_effect write) =? ""))
    "PV-006" path "External writes require an absolute target and effect summary." ++
  issue (negb (bool_decide (product_permission_limits scope = ∅)) &&
         bool_decide (ew_action write ∈ product_permission_limits scope))
    "PV-011" path "External write action exceeds product permission limits.".

(* [sidecar/ibreeze/orchestration/plan_validator.py:105-181 validate_plan (loop body)] *)
Definition task_issues (reference_set : gset string) (task : DepartmentPlanTask)
    : list PlanValidationIssue :=
  issue (negb (bool_decide (department_id task ∈ active_department_ids scope)) ||
         (negb (bool_decide (department_id task ∈ candidate_department_ids scope)) &&
          negb (general_manager_office_temporary_assignment task)))
    "PV-002" (at_task task "department_id")
    "Department is inactive or outside the responsibility candidates." ++
  issue (negb (bool_decide (department_id task ∈ active_leader_department_ids scope)))
    "PV-004" (at_task task "department_id") "Department has no active leader." ++
  issue (existsb (λ dependency, negb (bool_decide (dependency ∈ reference_set)) ||
                                (dependency =? local_ref task)) (dependency_refs task))
    "PV-003" (at_task task "dependency_refs") "Dependency is missing or self-referential." ++
  concat (imap (deliverable_issues task) (deliverables task)) ++
  issue (negb (bool_decide (emergency_disabled_capability_tags scope = ∅)) &&
         existsb (λ tag, bool_decide (tag ∈ emergency_disabled_capability_tags scope))
           (required_capability_tags task))
    "PV-010" (at_task task "required_capability_tags")
    "Task uses emergency-disabled capabilities." ++
  concat (imap (write_issues task) (required_external_writes task)).

(** The key [(rule_id, path, message)] *)
Definition issue_le (a b : PlanValidationIssue) : bool :=
  String.ltb (rule_id a) (rule_id b) || ((rule_id a =? rule_id b) &&
    (String.ltb (path a) (path b) || ((path a =? path b) && String.leb (message a) (message b)))).

(* [sidecar/ibreeze/orchestration/plan_validator.py:69-204 validate_plan] *)
Definition validate_plan (limit : nat) (plan : CompanyPlan) : result (list PlanValidationIssue) :=
  let tasks := department_tasks plan in
  let missing := issue
    (empty (goals plan) || empty tasks ||
     existsb (λ task, (strip (objective task) =? "") || empty (deliverables task) ||
                      empty (acceptance_criteria task)) tasks)
    "PV-001" "department_tasks"
    "Goals, objectives, deliverables and acceptance criteria are required." in
  let references := map local_ref tasks in
  let reference_set : gset string := list_to_set references in
  let repeated := issue (negb (Nat.eqb (size reference_set) (length references)))
    "PV-003" "department_tasks.local_ref" "Task references must be unique." in
  cyclic ← _has_cycle limit tasks;
  let issues :=
    missing ++ repeated ++ concat (map (task_issues reference_set) tasks) ++
    issue cyclic "PV-003" "department_tasks.dependency_refs"
      "Department task dependencies contain a cycle." ++
    issue (empty (final_acceptance_criteria plan)) "PV-009" "final_acceptance_criteria"
      "Final acceptance criteria are required." in
  Ok (sort_by issue_le issues).
End Validate.

(** ** What the cycle test decides *)

(** [a] depends on [b], both being tasks of the plan. *)
Definition depends (g : graph) (a b : string) : Prop :=
  b ∈ dict_keys g ∧ ∃ deps, dict_get g a = Some deps ∧ b ∈ deps.

(** No cycle is reachable from [a]. *)
Definition safe (g : graph) (a : string) : Prop :=
  ∀ b, rtc (depends g) a b → ¬ tc (depends g) b b.

Section Dfs.
Context (g : graph).
Abbreviation depends := (depends g).
Abbreviation safe := (safe g).
Abbreviation keys := (dict_keys g).

Lemma depends_key a b : depends a b → a ∈ keys ∧ b ∈ keys.
Proof. intros [Hb (deps & Ha & _)]. split; [|done]. apply dict_get_is_some. by exists deps. Qed.

Lemma tc_key a b : tc depends a b → a ∈ keys ∧ b ∈ keys.
Proof. induction 1 as [a b Hab|a b c Hab _ [_ IH]]; apply depends_key in Hab as []; done. Qed.

(** A node is safe when its dependencies are. *)
Lemma safe_step a : (∀ b, depends a b → safe b) → safe a.
Proof.
  intros Hd b Hab Hbb. assert (∃ c, depends a c ∧ rtc depends c b) as (c & Hac & Hcb).
  { apply rtc_inv in Hab as [<-|?]; [|done].
    inversion Hbb as [|? c ? ? ?]; subst; [by exists a|exists c; split; [done|by apply tc_rtc]]. }
  by apply (Hd c Hac b).
Qed.

Lemma safe_acyclic a : safe a → ¬ tc depends a a.
Proof. intros Ha. by apply Ha. Qed.

(** What holds of the marks when [node] is visited: the nodes on the path lead to
    it, and the finished ones are safe. *)
Record pre (node : string) (m : marks) : Prop := {
  pre_path : ∀ x, x ∈ m.1 → x ∈ keys ∧ tc depends x node;
  pre_safe : ∀ x, x ∈ m.2 → safe x }.

(** What a visit leaves when it answers [false]: the path is as it was, and [nodes]
    are among the finished ones. *)
Record post (nodes : string → Prop) (m m' : marks) : Prop := {
  post_path : m'.1 = m.1;
  post_grow : m.2 ⊆ m'.2;
  post_done : ∀ x, nodes x → x ∈ m'.2;
  post_safe : ∀ x, x ∈ m'.2 → safe x }.

(** A run that answers is right; one that does not ran out of a depth that was [short]. *)
Definition outcome (short : Prop) (nodes : string → Prop) (m : marks) (r : result bool * marks)
    : Prop :=
  (∃ b m', r = (Ok b, m') ∧ if b then ∃ x, tc depends x x else post nodes m m') ∨
  (short ∧ ∃ m', r = (Err RecursionError, m')).

Lemma any_outcome short f l m :
  (∀ x, x ∈ m.2 → safe x) →
  (∀ x m', x ∈ l → m'.1 = m.1 → (∀ y, y ∈ m'.2 → safe y) →
     outcome short (λ y, y = x ∧ x ∈ keys) m' (f x m')) →
  outcome short (λ y, y ∈ l ∧ y ∈ keys) m (any_tx f l m).
Proof.
  revert m. induction l as [|x l IH]; intros m Hm Hf; simpl.
  - left. exists false, m. split; [done|]. split; set_solver.
  - destruct (Hf x m) as [(b & m1 & Hx & Hb)|(Hshort & m1 & Hx)]; [by left|done..| |].
    2: { right. split; [done|]. exists m1. by apply tx_bind_run_err. }
    rewrite (tx_bind_run _ _ _ _ _ Hx). destruct b; [left; by exists true, m1|].
    destruct Hb as [P1 P2 P3 P4].
    destruct (IH m1) as [(b & m2 & Hl & Hb)|Hshort]; [done| | |by right].
    { intros y m' Hy Hm' Hs. apply Hf; [by right|congruence|done]. }
    left. exists b, m2. split; [done|]. destruct b; [done|]. destruct Hb as [Q1 Q2 Q3 Q4].
    split; [congruence|set_solver| |done].
    intros y [[->|Hy]%elem_of_cons Hk]; [|by apply Q3]. apply Q2, P3. done.
Qed.

(** The nodes not on the path. *)
Definition room (m : marks) : nat := size (list_to_set keys ∖ m.1).

Lemma room_enter node m :
  node ∈ keys → node ∉ m.1 → (room ({[node]} ∪ m.1, m.2) < room m)%nat.
Proof.
  intros Hk Hn. unfold room. apply subset_size. simpl. split; [set_solver|].
  intros Hsub. assert (node ∈ list_to_set keys ∖ m.1) as Hin by set_solver.
  apply Hsub in Hin. set_solver.
Qed.

(** A visit answers [true] only when there is a cycle, [false] only when the node is
    safe, and always when the depth exceeds the number of nodes not on the path. *)
Lemma visit_outcome limit node m :
  pre node m → node ∈ keys →
  outcome (limit ≤ room m)%nat (λ y, y = node ∧ node ∈ keys) m (visit g limit node m).
Proof.
  revert node m. induction limit as [|limit IH]; intros node m [Hpath Hsafe] Hk.
  { right. split; [lia|]. by exists m. }
  simpl. rewrite (tx_bind_run _ _ m m m) by done. destruct m as [vg vd]. simpl in *.
  case_bool_decide as Hvg; [left; exists true, (vg, vd); split; [done|exists node; by apply Hpath]|].
  case_bool_decide as Hvd; [left; exists false, (vg, vd); split; [done|split; set_solver]|].
  set (m1 := ({[node]} ∪ vg, vd)).
  rewrite (tx_bind_run _ _ _ tt m1) by done.
  destruct (proj2 (dict_get_is_some g node) Hk) as [deps Hdeps]. rewrite Hdeps.
  rewrite (tx_bind_run _ _ m1 deps m1) by done.
  destruct (any_outcome (S limit ≤ room (vg, vd))%nat (λ d, if d ∈? keys then visit g limit d else (mret false : tx marks bool)) deps m1)
    as [(b & m2 & Hany & Hb)|(Hshort & m2 & Hany)]; [done| | |].
  { intros x m' Hx Hm' Hs. destruct (x ∈? keys) eqn:Hxk; bools.
    - destruct (IH x m') as [Hok|(Hs' & Herr)]; [|done|by left|right; split; [|done]].
      + split; [|done]. intros y. rewrite Hm'. simpl. intros [->%elem_of_singleton|Hy]%elem_of_union.
        * split; [done|]. apply tc_once. split; [done|by exists deps].
        * destruct (Hpath y Hy) as [? Hyn]. split; [done|]. eapply tc_r; [exact Hyn|].
          split; [done|by exists deps].
      + pose proof (room_enter node (vg, vd) Hk Hvg) as Hlt.
        unfold room in *. rewrite Hm' in Hs'. simpl in *. lia.
    - left. exists false, m'. split; [done|]. split; set_solver. }
  2: { right. split; [done|]. exists m2. by apply tx_bind_run_err. }
  rewrite (tx_bind_run _ _ _ _ _ Hany). destruct b; [left; by exists true, m2|].
  destruct Hb as [P1 P2 P3 P4]. left. eexists false, _. split; [reflexivity|].
  assert (safe node) as Hnode.
  { apply safe_step. intros d [Hdk (deps' & Hd & Hin)]. rewrite Hdeps in Hd.
    injection Hd as <-. by apply P4, P3. }
  split; simpl; [rewrite P1; set_solver|set_solver|set_solver|].
  intros x [->%elem_of_singleton|Hx]%elem_of_union; [done|by apply P4].
Qed.

Lemma room_start (n : nat) : (length keys < n)%nat → (room (∅, ∅) < n)%nat.
Proof.
  intros Hn. unfold room. simpl.
  assert (size (list_to_set keys ∖ ∅ : gset string) ≤ size (list_to_set keys : gset string))%nat
    by (apply subseteq_size; set_solver).
  pose proof (size_list_to_set_le keys). lia.
Qed.
End Dfs.

Lemma dependency_graph_length tasks : (length (dict_keys (dependency_graph tasks)) ≤ length tasks)%nat.
Proof.
  unfold dependency_graph. rewrite <-(length_map local_ref tasks).
  apply submseteq_length, NoDup_submseteq; [apply dict_of_nodup|].
  intros k Hk. apply (proj1 (dict_of_keys _ _)), list_elem_of_fmap in Hk as ([k' deps] & -> & Hk).
  apply list_elem_of_In, in_map_iff in Hk as (t & [= <- <-] & Ht). apply list_elem_of_In, in_map_iff. by exists t.
Qed.

Lemma has_cycle_outcome limit tasks :
  (∃ b, _has_cycle limit tasks = Ok b ∧
     (b = true ↔ ∃ t, tc (depends (dependency_graph tasks)) t t)) ∨
  ((limit ≤ length tasks)%nat ∧ _has_cycle limit tasks = Err RecursionError).
Proof.
  set (g := dependency_graph tasks).
  destruct (any_outcome g (limit ≤ length tasks)%nat (visit g limit) (dict_keys g) (∅, ∅))
    as [(b & m & Hrun & Hb)|(Hshort & m & Hrun)].
  - set_solver.
  - intros x m Hx Hm Hsafe.
    destruct (visit_outcome g limit x m) as [Hok|[Hs Herr]]; [|done|by left|right; split; [|done]].
    + split; [|done]. rewrite Hm. set_solver.
    + pose proof (dependency_graph_length tasks). unfold room in Hs. rewrite Hm in Hs.
      destruct (decide (limit ≤ length tasks)%nat) as [|Hlt]; [done|].
      pose proof (room_start g limit). unfold room, g in *. simpl in *. lia.
  - left. exists b. split; [exact (f_equal fst Hrun)|]. destruct b; [done|]. split; [done|].
    intros [t Ht]. destruct Hb as [_ _ Hdone Hsafe].
    assert (t ∈ dict_keys g) as Hk by by eapply tc_key.
    by destruct (safe_acyclic g t (Hsafe t (Hdone t (conj Hk Hk)))).
  - right. split; [done|]. exact (f_equal fst Hrun).
Qed.

(** ** Execution orders *)

#[global] Instance depends_dec g a b : Decision (depends g a b).
Proof.
  unfold depends. apply and_dec; [apply _|].
  destruct (dict_get g a) as [deps|]; [|right; naive_solver].
  destruct (decide (b ∈ deps)); [left|right]; naive_solver.
Defined.

(** A node of [l] that depends on no other, below [a]. *)
Lemma pick_source g (l : list string) a :
  sn (depends g) a → a ∈ l → ∃ b, b ∈ l ∧ ∀ c, c ∈ l → ¬ depends g b c.
Proof.
  intros Ha. induction Ha as [a _ IH]; intros Hl.
  destruct (decide (Exists (depends g a) l)) as [(c & Hc & Hac)%Exists_exists|Hno].
  - by apply (IH c).
  - exists a. split; [done|]. intros c Hc Hac. apply Hno, Exists_exists. by exists c.
Qed.

(** What depends on what comes after it. *)
Definition ordered_by (g : graph) (order : list string) : Prop :=
  ∀ i j a b, order !! i = Some a → order !! j = Some b → depends g a b → (j < i)%nat.

Lemma acyclic_order g (l : list string) :
  (∀ t, ¬ tc (depends g) t t) → NoDup l → ∃ order, order ≡ₚ l ∧ ordered_by g order.
Proof.
  intros Hacyc. assert (∀ a, sn (depends g) a) as Hsn.
  { intros a. apply tc_finite_sn; [exact Hacyc|]. exists (dict_keys g).
    intros b Hb. by eapply tc_key. }
  remember (length l) as n eqn:Hn. revert l Hn. induction n as [|n IH]; intros l Hn Hnd.
  - exists []. destruct l; [|done]. split; [done|]. intros i. by rewrite lookup_nil.
  - destruct l as [|a l0] eqn:Hl; [done|]. rewrite <-Hl in *.
    destruct (pick_source g l a (Hsn a)) as (b & Hb & Hsrc); [subst l; by left|].
    apply elem_of_Permutation in Hb as [l' Hl'].
    destruct (IH l') as (order & Ho & Hord).
    { apply Permutation_length in Hl'. simpl in Hl'. lia. }
    { rewrite Hl' in Hnd. by apply NoDup_cons in Hnd as []. }
    exists (b :: order). split; [by rewrite Ho, Hl'|].
    intros [|i] [|j] x y Hx Hy Hxy; simpl in *; simplify_eq; [| |lia|].
    + destruct (Hacyc x). by apply tc_once.
    + destruct (Hsrc y); [|done]. rewrite Hl', <-Ho. right. by eapply list_elem_of_lookup_2.
    + enough (j < i)%nat by lia. by eapply Hord.
Qed.

(** An order leaves no room for a cycle. *)
Lemma order_acyclic g (order : list string) :
  NoDup order → dict_keys g ⊆ order → ordered_by g order → ∀ t, ¬ tc (depends g) t t.
Proof.
  intros Hnd Hkeys Hord.
  enough (∀ a b, tc (depends g) a b → ∀ i j, order !! i = Some a → order !! j = Some b →
    (j < i)%nat) as Hlt.
  { intros t Ht. destruct (list_elem_of_lookup_1 order t) as [i Hi].
    - apply Hkeys. by eapply tc_key.
    - specialize (Hlt t t Ht i i Hi Hi). lia. }
  induction 1 as [a b Hab|a b c Hab Hbc IH]; intros i j Hi Hj; [by eapply Hord|].
  destruct (list_elem_of_lookup_1 order b) as [k Hk].
  { apply Hkeys. by eapply depends_key. }
  specialize (IH k j Hk Hj). pose proof (Hord i k a b Hi Hk Hab). lia.
Qed.

(** ** Well-planned plans *)

Record deliverable_ok (scope : Scope) (d : Deliverable) : Prop := {
  some_contributor : dl_contributor_employee_ids d ≠ [];
  some_reviewer : dl_reviewer_employee_ids d ≠ [];
  staff_allowed : ∀ e, e ∈ dl_contributor_employee_ids d ++ dl_reviewer_employee_ids d →
    e ∈ allowed_employee_ids scope;
  no_self_review : ∀ e, e ∈ dl_contributor_employee_ids d → e ∉ dl_reviewer_employee_ids d;
  strategy_given : dl_review_strategy d ≠ "";
  rounds_given : dl_review_rounds d ≠ 0 }.

Record write_allowed (scope : Scope) (w : ExternalWrite) : Prop := {
  target_absolute : starts_with "/" (ew_target w) = true;
  effect_given : strip (ew_expected_effect w) ≠ "";
  action_within_limits : ew_action w ∉ product_permission_limits scope }.

Record task_ok (scope : Scope) (t : DepartmentPlanTask) : Prop := {
  objective_given : strip (objective t) ≠ "";
  some_deliverable : deliverables t ≠ [];
  some_criterion : acceptance_criteria t ≠ [];
  department_active : department_id t ∈ active_department_ids scope;
  department_candidate : department_id t ∈ candidate_department_ids scope ∨
    general_manager_office_temporary_assignment t = true;
  department_led : department_id t ∈ active_leader_department_ids scope;
  deliverables_ok : ∀ d, d ∈ deliverables t → deliverable_ok scope d;
  capabilities_enabled : ∀ tag, tag ∈ required_capability_tags t →
    tag ∉ emergency_disabled_capability_tags scope;
  writes_allowed : ∀ w, w ∈ required_external_writes t → write_allowed scope w }.

Definition precedes (order : list string) (a b : string) : Prop :=
  ∃ i j, order !! i = Some a ∧ order !! j = Some b ∧ (i < j)%nat.

(** The tasks can be carried out one after the other, each after all it depends on. *)
Definition executable (tasks : list DepartmentPlanTask) : Prop :=
  ∃ order, NoDup order ∧ order ≡ₚ map local_ref tasks ∧
    ∀ t d, t ∈ tasks → d ∈ dependency_refs t → precedes order d (local_ref t).

Record well_planned (scope : Scope) (plan : CompanyPlan) : Prop := {
  some_goal : goals plan ≠ [];
  some_task : department_tasks plan ≠ [];
  some_final_criterion : final_acceptance_criteria plan ≠ [];
  tasks_ok : ∀ t, t ∈ department_tasks plan → task_ok scope t;
  tasks_executable : executable (department_tasks plan) }.

Lemma issue_nil c rule path message : issue c rule path message = [] ↔ c = false.
Proof. by destruct c. Qed.

Lemma empty_false {A} (l : list A) : empty l = false ↔ l ≠ [].
Proof. by destruct l. Qed.

Lemma existsb_false {A} (f : A → bool) l : existsb f l = false ↔ ∀ x, x ∈ l → f x = false.
Proof.
  induction l as [|x l IH]; simpl; [set_solver|]. rewrite orb_false_iff, IH. set_solver.
Qed.

Lemma concat_nil {A B} (f : A → list B) l : concat (map f l) = [] ↔ ∀ x, x ∈ l → f x = [].
Proof.
  induction l as [|x l IH]; simpl; [set_solver|]. rewrite app_nil, IH. set_solver.
Qed.

Lemma concat_imap_nil {A B} (f : nat → A → list B) (P : A → Prop) l :
  (∀ i x, f i x = [] ↔ P x) → concat (imap f l) = [] ↔ ∀ x, x ∈ l → P x.
Proof.
  revert f. induction l as [|x l IH]; intros f Hf; simpl; [set_solver|].
  rewrite app_nil, Hf, (IH (f ∘ S)) by (intros; apply Hf). set_solver.
Qed.

Lemma list_to_set_empty (l : list string) : list_to_set l = (∅ : gset string) ↔ l = [].
Proof. destruct l; simpl; [done|]. split; [set_solver|done]. Qed.

Lemma deliverable_issues_nil scope t i d :
  deliverable_issues scope t i d = [] ↔ deliverable_ok scope d.
Proof.
  unfold deliverable_issues. rewrite !app_nil, !issue_nil, !orb_false_iff, !negb_false_iff,
    !bool_decide_eq_false, !bool_decide_eq_true, !list_to_set_empty, String.eqb_neq, Z.eqb_neq.
  split.
  - intros ([[H1 H2] H3] & H4 & H5 & H6). split; set_solver.
  - intros [H1 H2 H3 H4 H5 H6]. split_and!; set_solver.
Qed.

Lemma write_issues_nil scope t i w : write_issues scope t i w = [] ↔ write_allowed scope w.
Proof.
  unfold write_issues. rewrite !app_nil, !issue_nil, orb_false_iff, andb_false_iff, !negb_false_iff,
    bool_decide_eq_false, bool_decide_eq_true, String.eqb_neq.
  split; [intros ([? ?] & ?); split; set_solver|intros []; split_and!; auto].
Qed.

(** A task raises no issue when it is in order and all it depends on are other tasks. *)
Definition dependencies_known (refs : gset string) (t : DepartmentPlanTask) : Prop :=
  ∀ d, d ∈ dependency_refs t → d ∈ refs ∧ d ≠ local_ref t.

Definition task_stated (t : DepartmentPlanTask) : Prop :=
  strip (objective t) ≠ "" ∧ deliverables t ≠ [] ∧ acceptance_criteria t ≠ [].

Lemma task_issues_nil scope refs t :
  task_stated t → task_issues scope refs t = [] ↔ task_ok scope t ∧ dependencies_known refs t.
Proof.
  intros (S1 & S2 & S3). unfold task_issues, dependencies_known.
  rewrite !app_nil, !issue_nil, !orb_false_iff, !andb_false_iff, !negb_false_iff, !existsb_false,
    (concat_imap_nil _ (deliverable_ok scope)), (concat_imap_nil _ (write_allowed scope)),
    !bool_decide_eq_true by (intros; apply deliverable_issues_nil || apply write_issues_nil).
  setoid_rewrite orb_false_iff. setoid_rewrite negb_false_iff. setoid_rewrite bool_decide_eq_true.
  setoid_rewrite bool_decide_eq_false. setoid_rewrite String.eqb_neq.
  split.
  - intros ([H1 H2] & H3 & H4 & H5 & H6 & H7). split; [|done]. split; try done. set_solver.
  - intros [[] Hd]. split_and!; try done. by right.
Qed.

Lemma repeated_nil (l : list string) :
  negb (Nat.eqb (size (list_to_set l : gset string)) (length l)) = false ↔ NoDup l.
Proof.
  rewrite negb_false_iff, Nat.eqb_eq. split; [|by intros; apply size_list_to_set].
  induction l as [|x l IH]; simpl; intros Hl; [constructor|].
  pose proof (size_list_to_set_le l) as Hle. rewrite size_union_alt, size_singleton in Hl.
  assert (size (list_to_set l ∖ {[x]} : gset string) ≤ size (list_to_set l : gset string))%nat
    by (apply subseteq_size; set_solver).
  apply NoDup_cons. split; [|apply IH; lia]. intros Hx.
  assert (size (list_to_set l ∖ {[x]} : gset string) < size (list_to_set l : gset string))%nat
    by (apply subset_size; set_solver). lia.
Qed.

(** With distinct references, the graph is what the tasks say. *)
Lemma depends_tasks tasks a b :
  NoDup (map local_ref tasks) →
  depends (dependency_graph tasks) a b ↔
    b ∈ map local_ref tasks ∧ ∃ t, t ∈ tasks ∧ local_ref t = a ∧ b ∈ dependency_refs t.
Proof.
  intros Hnd. unfold depends, dependency_graph.
  set (l := map (λ t, (local_ref t, dependency_refs t)) tasks).
  assert (dict_keys l = map local_ref tasks) as Hkeys.
  { unfold l, dict_keys. clear. induction tasks as [|t ts IH]; simpl; [done|by f_equal; apply IH]. }
  rewrite dict_of_id, Hkeys by (by rewrite Hkeys).
  assert (∀ deps, dict_get l a = Some deps ↔ (a, deps) ∈ l) as Hget.
  { intros deps. split; [apply dict_get_some_elem|]. apply dict_get_elem. by rewrite Hkeys. }
  setoid_rewrite Hget. unfold l. setoid_rewrite list_elem_of_In. setoid_rewrite in_map_iff.
  naive_solver.
Qed.

Lemma precedes_irreflexive order a : NoDup order → ¬ precedes order a a.
Proof. intros Hnd (i & j & Hi & Hj & Hij). pose proof (NoDup_lookup _ _ _ _ Hnd Hi Hj). lia. Qed.

(** Distinct references, known dependencies and no cycle: an order exists. *)
Lemma executable_iff tasks :
  executable tasks ↔
    NoDup (map local_ref tasks) ∧
    (∀ t, t ∈ tasks → dependencies_known (list_to_set (map local_ref tasks)) t) ∧
    ¬ ∃ t, tc (depends (dependency_graph tasks)) t t.
Proof.
  unfold executable. set (refs := map local_ref tasks). split.
  - intros (order & Hnd & Ho & Hprec).
    assert (NoDup refs) as Hndr by by rewrite <-Ho. split; [done|]. split.
    + intros t Ht d Hd. pose proof (Hprec t d Ht Hd) as Hp. split.
      * destruct Hp as (i & _ & Hi & _). apply elem_of_list_to_set. rewrite <-Ho.
        by eapply list_elem_of_lookup_2.
      * intros ->. by apply precedes_irreflexive in Hp.
    + intros [t Ht]. revert t Ht. apply (order_acyclic _ order Hnd).
      * intros k Hk. rewrite Ho. apply (proj1 (dict_of_keys _ _)) in Hk.
        apply list_elem_of_fmap in Hk as ([k' deps] & -> & Hk).
        apply list_elem_of_In, in_map_iff in Hk as (t & [= <- <-] & Ht).
        apply list_elem_of_In, in_map_iff. by exists t.
      * intros i j a b Hi Hj (Hb & t & Ht & <- & Hd)%depends_tasks; [|done].
        destruct (Hprec t b Ht Hd) as (j' & i' & Hj' & Hi' & Hlt).
        by rewrite (NoDup_lookup _ _ _ _ Hnd Hi Hi'), (NoDup_lookup _ _ _ _ Hnd Hj Hj').
  - intros (Hnd & Hdeps & Hacyc).
    destruct (acyclic_order (dependency_graph tasks) refs) as (order & Ho & Hord); [naive_solver|done|].
    exists order. split; [by rewrite Ho|]. split; [done|]. intros t d Ht Hd.
    destruct (Hdeps t Ht d Hd) as [Hin%elem_of_list_to_set _].
    assert (local_ref t ∈ refs) as Hr by (apply list_elem_of_In, in_map_iff; exists t; by rewrite <-list_elem_of_In).
    rewrite <-Ho in Hin, Hr.
    apply list_elem_of_lookup in Hin as [i Hi]. apply list_elem_of_lookup in Hr as [j Hj].
    exists i, j. split_and!; [done..|]. apply (Hord j i (local_ref t) d Hj Hi), depends_tasks; [done|].
    split; [|by exists t]. change (d ∈ refs). rewrite <-Ho. by eapply list_elem_of_lookup_2.
Qed.

(** The issues are listed in the order of their keys. *)
Lemma issue_le_total a b : issue_le a b = true ∨ issue_le b a = true.
Proof.
  assert (∀ x y, String.ltb x y = true ∨ x = y ∨ String.ltb y x = true) as Htri.
  { intros x y. unfold String.ltb. rewrite (String.compare_antisym y x).
    destruct (String.compare x y) eqn:Hc; simpl; auto. apply String.compare_eq_iff in Hc. auto. }
  unfold issue_le.
  destruct (Htri (rule_id a) (rule_id b)) as [Hr|[->|Hr]];
    [left; by rewrite Hr| |right; by rewrite Hr].
  destruct (Htri (path a) (path b)) as [Hp|[->|Hp]];
    [left; by rewrite String.eqb_refl, Hp, orb_true_r| |
     right; by rewrite String.eqb_refl, Hp, orb_true_r].
  rewrite !String.eqb_refl.
  destruct (text_le_total (message a) (message b)) as [Hm|Hm]; unfold text_le in Hm;
    [left|right]; by rewrite Hm, !orb_true_r.
Qed.


(** C40. The cycle test, whatever the depth Python may recurse to: an answer is right,
    [True] exactly when some task depends on itself through a chain of dependencies; the
    only exception is the [RecursionError] of a depth that does not exceed the number of
    tasks; so with a greater depth the test always answers. *)
Theorem has_cycle_correct limit tasks :
  match _has_cycle limit tasks with
  | Ok b => b = true ↔ ∃ t, tc (depends (dependency_graph tasks)) t t
  | Err e => e = RecursionError ∧ (limit ≤ length tasks)%nat
  end.
Proof. by destruct (has_cycle_outcome limit tasks) as [(b & -> & Hb)|[? ->]]. Qed.

(** ** A plan the theorems run on *)

Module Demo.
Definition deliverable : Deliverable := {|
  dl_artifact_type := "report"; dl_review_strategy := "primary_with_peer_review";
  dl_review_rounds := 1; dl_contributor_employee_ids := ["ann"];
  dl_reviewer_employee_ids := ["bob"] |}.

Definition task (ref : string) (deps : list string) : DepartmentPlanTask := {|
  local_ref := ref; department_id := "d1"; matched_responsibility_keys := ["k"];
  general_manager_office_temporary_assignment := false; objective := "do " +:+ ref;
  dependency_refs := deps; deliverables := [deliverable]; acceptance_criteria := ["done"];
  required_capability_tags := ["write"];
  required_external_writes :=
    [{| ew_target := "/srv/out"; ew_action := "create"; ew_expected_effect := "a file" |}] |}.

Definition plan (tasks : list DepartmentPlanTask) : CompanyPlan := {|
  cp_id := "p"; cp_company_task_id := "t"; cp_company_id := "c"; cp_version := 1;
  cp_company_introduction_version := 1; cp_summary := "s"; goals := ["g"]; non_goals := [];
  department_tasks := tasks; final_acceptance_criteria := ["ok"];
  cp_status := "awaiting_user_confirmation"; cp_content_hash := "h" |}.

Definition scope : Scope := {|
  active_department_ids := {["d1"]}; candidate_department_ids := {["d1"]};
  active_leader_department_ids := {["d1"]}; allowed_employee_ids := {["ann"; "bob"]};
  emergency_disabled_capability_tags := ∅; product_permission_limits := {["delete"]} |}.

Definition diamond : list DepartmentPlanTask :=
  [task "a" ["b"; "c"]; task "b" ["d"]; task "c" ["d"]; task "d" []].
Definition ring : list DepartmentPlanTask := [task "a" ["b"]; task "b" ["c"]; task "c" ["a"]].
Definition chain : list DepartmentPlanTask :=
  [task "a" ["b"]; task "b" ["c"]; task "c" ["d"]; task "d" []].
End Demo.

(** A well-planned chain that is longer than the recursion limit is not judged. *)
Example deep_chain_raises :
  _has_cycle 3 Demo.chain = Err RecursionError ∧ _has_cycle 5 Demo.chain = Ok false.
Proof. by vm_compute. Qed.

Example ring_refused :
  validate_plan Demo.scope 9 (Demo.plan Demo.ring) =
    Ok [{| rule_id := "PV-003"; path := "department_tasks.dependency_refs";
           message := "Department task dependencies contain a cycle." |}].
Proof. by vm_compute. Qed.

