(* ===== verification/JsonText.v ===== *)
(** * JSON text

    What the program uses of Python's [json] and of [str.encode]/[bytes.decode]: the compact
    [json.dumps(value, ensure_ascii=False, separators=(",", ":"))], [json.loads], and the
    check of UTF-8.

    A [str] is its UTF-8 encoding, in which a lone surrogate is the three bytes that encode
    its number, as [surrogatepass] would; strict UTF-8 has no such bytes.  The text of a
    float is its [repr], and [float_repr] is [repr] after [float]; [limit] is how deep
    Python lets calls nest.  Numbers are subject to the limit on the digits of an [int].

    The theorems: [loads] gives back what [dumps] has printed, and it always ends. *)

From S2P Require Import Prelude PyEnum PyStr.

#[local] Open Scope string_scope.

Notation ascii := Ascii.ascii.

Definition code (c : ascii) : Z := Z.of_N (Ascii.N_of_ascii c).
Definition chr (n : Z) : ascii := Ascii.ascii_of_N (Z.to_N n).
Definition isb (n : Z) (c : ascii) : bool := (code c =? n)%Z.

Definition JSONDecodeError : exn := ValueError "JSONDecodeError".
Definition RecursionError : exn := RuntimeErr "RecursionError".
Definition too_many_digits : exn := ValueError "Exceeds the limit (4300 digits) for integer string conversion".
Definition MAX_DIGITS : Z := 4300.

(** ** Printing *)

Definition hex_digit (n : Z) : ascii := chr (if (n <? 10)%Z then 48 + n else 87 + n).

(** The escape of one byte; bytes of other characters stand for themselves. *)
Definition escape_char (c : ascii) : string :=
  let n := code c in
  let short k := String (chr 92) (String (chr k) "") in
  if (n =? 34)%Z then short 34
  else if (n =? 92)%Z then short 92
  else if (n =? 10)%Z then short 110
  else if (n =? 13)%Z then short 114
  else if (n =? 9)%Z then short 116
  else if (n =? 12)%Z then short 102
  else if (n =? 8)%Z then short 98
  else if (n <? 32)%Z then
    short 117 +:+ "00" +:+ String (hex_digit (n / 16)) (String (hex_digit (n mod 16)) "")
  else String c "".

Fixpoint escape (s : string) : string :=
  match s with EmptyString => "" | String c s => escape_char c +:+ escape s end.

Definition quote (s : string) : string := String (chr 34) (escape s +:+ String (chr 34) "").

Definition print_int (n : Z) : result string :=
  let digits := pretty.pretty (Z.abs n) in
  ensure (Z.of_nat (String.length digits) <=? MAX_DIGITS)%Z too_many_digits;;
  Ok (if (n <? 0)%Z then String (chr 45) digits else digits).

(** [float.__repr__], but for the numbers that are none. *)
Definition print_float (t : string) : string :=
  if t =? "nan" then "NaN" else if t =? "inf" then "Infinity" else if t =? "-inf" then "-Infinity" else t.

Fixpoint joined (l : list string) : string :=
  match l with
  | [] => ""
  | [s] => s
  | s :: l => s +:+ String (chr 44) (joined l)
  end.

Fixpoint dump (depth : nat) (j : json) : result string :=
  match j, depth with
  | JNull, _ => Ok "null"
  | JBool b, _ => Ok (if b then "true" else "false")
  | JInt n, _ => print_int n
  | JFloat t, _ => Ok (print_float t)
  | JStr s, _ => Ok (quote s)
  | (JList _ | JObj _), O => Err RecursionError
  | JList l, S depth =>
      parts ← each (dump depth) l;
      Ok (String (chr 91) (joined parts +:+ String (chr 93) ""))
  | JObj fields, S depth =>
      parts ← each (λ kv, t ← dump depth kv.2; Ok (quote kv.1 +:+ String (chr 58) t)) fields;
      Ok (String (chr 123) (joined parts +:+ String (chr 125) ""))
  end.

(** ** Reading *)

Definition is_ws (c : ascii) : bool := isb 32 c || isb 9 c || isb 10 c || isb 13 c.

Fixpoint skip_ws (s : string) : string :=
  match s with String c s' => if is_ws c then skip_ws s' else s | EmptyString => "" end.

Definition is_digit (c : ascii) : bool := (48 <=? code c)%Z && (code c <=? 57)%Z.

Fixpoint span_digits (s : string) : string * string :=
  match s with
  | String c s' => if is_digit c then let '(d, r) := span_digits s' in (String c d, r) else ("", s)
  | EmptyString => ("", "")
  end.

Fixpoint digits_value (acc : Z) (s : string) : Z :=
  match s with String c s => digits_value (acc * 10 + (code c - 48)) s | EmptyString => acc end.

(** The digits before the point: one zero, or digits without a leading one. *)
Definition int_part (s : string) : option (string * string) :=
  match s with
  | String c s' =>
      if isb 48 c then Some ("0", s')
      else if is_digit c then Some (span_digits s) else None
  | EmptyString => None
  end.

(** A point with digits after it. *)
Definition fraction (s : string) : string * string :=
  match s with
  | String c s' => if isb 46 c then match span_digits s' with
                                   | ("", _) => ("", s)
                                   | (d, r) => (String c d, r)
                                   end else ("", s)
  | EmptyString => ("", "")
  end.

(** An exponent with digits in it. *)
Definition exponent (s : string) : string * string :=
  match s with
  | String e s' =>
      if isb 101 e || isb 69 e then
        let '(sign, s'') := match s' with
          | String c r => if isb 43 c || isb 45 c then (String c "", r) else ("", s')
          | EmptyString => ("", "")
          end in
        match span_digits s'' with
        | ("", _) => ("", s)
        | (d, r) => (String e (sign +:+ d), r)
        end
      else ("", s)
  | EmptyString => ("", "")
  end.

Section Reading.
Context (float_repr : string → string).

Definition number (s : string) : result (json * string) :=
  let '(neg, s0) := match s with
    | String c s' => if isb 45 c then (true, s') else (false, s)
    | EmptyString => (false, "") end in
  match int_part s0 with
  | None => Err JSONDecodeError
  | Some (i, s1) =>
      let '(f, s2) := fraction s1 in
      let '(e, s3) := exponent s2 in
      if (f =? "") && (e =? "") then
        ensure (Z.of_nat (String.length i) <=? MAX_DIGITS)%Z too_many_digits;;
        Ok (JInt (if neg then - digits_value 0 i else digits_value 0 i), s3)
      else Ok (JFloat (float_repr ((if neg then String (chr 45) "" else "") +:+ i +:+ f +:+ e)), s3)
  end.

Definition hex_value (c : ascii) : option Z :=
  let n := code c in
  if (48 <=? n)%Z && (n <=? 57)%Z then Some (n - 48)
  else if (97 <=? n)%Z && (n <=? 102)%Z then Some (n - 87)
  else if (65 <=? n)%Z && (n <=? 70)%Z then Some (n - 55)
  else None.

Definition hex4 (a b c d : ascii) : option Z :=
  a ← hex_value a; b ← hex_value b; c ← hex_value c; d ← hex_value d;
  Some (((a * 16 + b) * 16 + c) * 16 + d).

Definition utf8 (n : Z) : string :=
  let tail k := chr (128 + (n / 64 ^ k) mod 64) in
  if (n <? 128)%Z then String (chr n) ""
  else if (n <? 2048)%Z then String (chr (192 + n / 64)) (String (tail 0) "")
  else if (n <? 65536)%Z then String (chr (224 + n / 4096)) (String (tail 1) (String (tail 0) ""))
  else String (chr (240 + n / 262144)) (String (tail 2) (String (tail 1) (String (tail 0) ""))).

Definition high_surrogate (n : Z) : bool := (55296 <=? n)%Z && (n <=? 56319)%Z.
Definition low_surrogate (n : Z) : bool := (56320 <=? n)%Z && (n <=? 57343)%Z.
Definition join_surrogates (h l : Z) : Z := 65536 + (h - 55296) * 1024 + (l - 56320).

Definition simple_escape (c : ascii) : option ascii :=
  if isb 34 c || isb 92 c || isb 47 c then Some c
  else if isb 98 c then Some (chr 8) else if isb 102 c then Some (chr 12)
  else if isb 110 c then Some (chr 10) else if isb 114 c then Some (chr 13)
  else if isb 116 c then Some (chr 9) else None.

(** The rest of a string literal after its opening quote. *)
Fixpoint string_rest (s : string) : result (string * string) :=
  match s with
  | EmptyString => Err JSONDecodeError
  | String c s1 =>
      if isb 34 c then Ok ("", s1)
      else if isb 92 c then
        match s1 with
        | EmptyString => Err JSONDecodeError
        | String e s2 =>
            if isb 117 e then
              match s2 with
              | String a (String b (String c (String d s6))) =>
                  match hex4 a b c d with
                  | None => Err JSONDecodeError
                  | Some n =>
                      if high_surrogate n then
                        match s6 with
                        | String x (String u (String a (String b (String c (String d s12))))) =>
                            if isb 92 x && isb 117 u then
                              match hex4 a b c d with
                              | None => Err JSONDecodeError
                              | Some l =>
                                  if low_surrogate l
                                  then '(t, r) ← string_rest s12; Ok (utf8 (join_surrogates n l) +:+ t, r)
                                  else '(t, r) ← string_rest s6; Ok (utf8 n +:+ t, r)
                              end
                            else '(t, r) ← string_rest s6; Ok (utf8 n +:+ t, r)
                        | _ => '(t, r) ← string_rest s6; Ok (utf8 n +:+ t, r)
                        end
                      else '(t, r) ← string_rest s6; Ok (utf8 n +:+ t, r)
                  end
              | _ => Err JSONDecodeError
              end
            else
              match simple_escape e with
              | Some x => '(t, r) ← string_rest s2; Ok (String x t, r)
              | None => Err JSONDecodeError
              end
        end
      else if (code c <? 32)%Z then Err JSONDecodeError
      else '(t, r) ← string_rest s1; Ok (String c t, r)
  end.

(** [s] after the word, if it begins with it. *)
Fixpoint after_word (w s : string) : option string :=
  match w, s with
  | EmptyString, _ => Some s
  | String a w, String b s => if Ascii.eqb a b then after_word w s else None
  | _, EmptyString => None
  end.

Definition words : list (string * json) := [
  ("null", JNull); ("true", JBool true); ("false", JBool false); ("NaN", JFloat "nan");
  ("Infinity", JFloat "inf"); ("-Infinity", JFloat "-inf")].

Fixpoint word (l : list (string * json)) (s : string) : option (json * string) :=
  match l with
  | [] => None
  | (w, j) :: l => match after_word w s with Some r => Some (j, r) | None => word l s end
  end.

(** The fuel of the recursion ran out; enough of it is given below. *)
Definition OUT_OF_FUEL : exn := RuntimeErr "fuel".

Fixpoint value (fuel depth : nat) (s : string) : result (json * string) :=
  match fuel with
  | O => Err OUT_OF_FUEL
  | S fuel =>
      match s with
      | EmptyString => Err JSONDecodeError
      | String c s1 =>
          if isb 34 c then '(t, r) ← string_rest s1; Ok (JStr t, r)
          else if isb 91 c then
            match depth with
            | O => Err RecursionError
            | S depth =>
                match skip_ws s1 with
                | String x r => if isb 93 x then Ok (JList [], r)
                                else '(l, r) ← items fuel depth (skip_ws s1); Ok (JList l, r)
                | EmptyString => Err JSONDecodeError
                end
            end
          else if isb 123 c then
            match depth with
            | O => Err RecursionError
            | S depth =>
                match skip_ws s1 with
                | String x r => if isb 125 x then Ok (JObj [], r)
                                else '(l, r) ← members fuel depth (skip_ws s1); Ok (JObj (dict_of l), r)
                | EmptyString => Err JSONDecodeError
                end
            end
          else match word words s with Some jr => Ok jr | None => number s end
      end
  end
with items (fuel depth : nat) (s : string) : result (list json * string) :=
  match fuel with
  | O => Err OUT_OF_FUEL
  | S fuel =>
      '(j, r) ← value fuel depth s;
      match skip_ws r with
      | String x r =>
          if isb 93 x then Ok ([j], r)
          else if isb 44 x then '(l, r) ← items fuel depth (skip_ws r); Ok (j :: l, r)
          else Err JSONDecodeError
      | EmptyString => Err JSONDecodeError
      end
  end
with members (fuel depth : nat) (s : string) : result (list (string * json) * string) :=
  match fuel with
  | O => Err OUT_OF_FUEL
  | S fuel =>
      match s with
      | String q s1 =>
          if isb 34 q then
            '(k, r) ← string_rest s1;
            match skip_ws r with
            | String x r =>
                if isb 58 x then
                  '(j, r) ← value fuel depth (skip_ws r);
                  match skip_ws r with
                  | String x r =>
                      if isb 125 x then Ok ([(k, j)], r)
                      else if isb 44 x then '(l, r) ← members fuel depth (skip_ws r); Ok ((k, j) :: l, r)
                      else Err JSONDecodeError
                  | EmptyString => Err JSONDecodeError
                  end
                else Err JSONDecodeError
            | EmptyString => Err JSONDecodeError
            end
          else Err JSONDecodeError
      | EmptyString => Err JSONDecodeError
      end
  end.

Definition enough (s : string) : nat := 2 + 2 * String.length s.

Definition BOM : string := bytes [239; 187; 191]%nat.

(** [json.loads(s)] *)
Definition loads (limit : nat) (s : string) : result json :=
  if starts_with BOM s then Err JSONDecodeError else
  let s := skip_ws s in
  '(j, r) ← value (enough s) limit s;
  match skip_ws r with EmptyString => Ok j | _ => Err JSONDecodeError end.
End Reading.

(** ** UTF-8 *)

Definition cont (c : ascii) : bool := (128 <=? code c)%Z && (code c <=? 191)%Z.
Definition within (lo hi : Z) (c : ascii) : bool := (lo <=? code c)%Z && (code c <=? hi)%Z.

(** What [bytes.decode("utf-8")] accepts: the shortest forms, without surrogates. *)
Fixpoint utf8_ok (s : string) : bool :=
  match s with
  | EmptyString => true
  | String a s1 =>
      if (code a <? 128)%Z then utf8_ok s1
      else match s1 with
      | EmptyString => false
      | String b s2 =>
          if within 194 223 a then cont b && utf8_ok s2
          else match s2 with
          | EmptyString => false
          | String c s3 =>
              if isb 224 a then within 160 191 b && cont c && utf8_ok s3
              else if isb 237 a then within 128 159 b && cont c && utf8_ok s3
              else if within 225 239 a then cont b && cont c && utf8_ok s3
              else match s3 with
              | EmptyString => false
              | String d s4 =>
                  if isb 240 a then within 144 191 b && cont c && cont d && utf8_ok s4
                  else if within 241 243 a then cont b && cont c && cont d && utf8_ok s4
                  else if isb 244 a then within 128 143 b && cont c && cont d && utf8_ok s4
                  else false
              end
          end
      end
  end.

(** ** Scanning what was printed *)

#[local] Arguments String.append !_ _ : simpl nomatch.
#[local] Arguments quote : simpl never.

Lemma isb_chr n c : isb n c = true → c = chr n.
Proof.
  unfold isb, code, chr. intros <-%Z.eqb_eq. by rewrite N2Z.id, Ascii.ascii_N_embedding.
Qed.

(** What may follow a value: the end of the text, or what separates or closes. *)
Definition delim (s : string) : bool :=
  match s with EmptyString => true | String c _ => isb 44 c || isb 93 c || isb 125 c end.

Lemma escape_char_rest c s r :
  string_rest s = Ok r → string_rest (escape_char c +:+ s) = Ok (String c r.1, r.2).
Proof. destruct r as [t r]. intros Hs. destruct c as [[] [] [] [] [] [] [] []]; simpl; rewrite Hs; reflexivity. Qed.

Lemma escape_rest s r : string_rest (escape s +:+ String (chr 34) r) = Ok (s, r).
Proof.
  induction s as [|c s IH]; [done|]. simpl. rewrite <-app_str_assoc.
  by rewrite (escape_char_rest _ _ _ IH).
Qed.

(** *** Digits *)

#[local] Ltac Zify.zify_post_hook ::= Z.to_euclidean_division_equations.

Definition all_digits (s : string) : Prop := Forall (λ c, is_digit c = true) (String.list_ascii_of_string s).

Lemma digits_value_app acc d e : digits_value acc (d +:+ e) = digits_value (digits_value acc d) e.
Proof. revert acc. induction d as [|c d IH]; intros acc; simpl; [done|apply IH]. Qed.

Lemma pretty_N_char_digit x :
  (x < 10)%N → is_digit (pretty.pretty_N_char x) = true ∧ code (pretty.pretty_N_char x) = (48 + Z.of_N x)%Z.
Proof.
  intros Hx. assert (x ∈ [0; 1; 2; 3; 4; 5; 6; 7; 8; 9])%N as Hin by (repeat rewrite elem_of_cons; lia).
  repeat (apply elem_of_cons in Hin as [->|Hin]; [done|]). set_solver.
Qed.

(** The decimal digits of a positive number. *)
Lemma pretty_go x s :
  (0 < x)%N → ∃ c d, pretty.pretty_N_go x s = String c d +:+ s ∧ isb 48 c = false ∧
    all_digits (String c d) ∧ digits_value 0 (String c d) = Z.of_N x.
Proof.
  revert s. induction (N.lt_wf_0 x) as [x _ IH]; intros s Hx. rewrite pretty.pretty_N_go_step by done.
  destruct (pretty_N_char_digit (x mod 10)) as [Hd Hc]; [lia|].
  destruct (decide (x < 10)%N) as [Hlt|].
  - rewrite N.div_small, N.mod_small in * by done. rewrite pretty.pretty_N_go_0.
    exists (pretty.pretty_N_char x), "". split_and!; [done| |by repeat constructor|simpl; lia].
    unfold isb. rewrite Hc. apply Z.eqb_neq. lia.
  - destruct (IH (x / 10)%N) with (s := String (pretty.pretty_N_char (x mod 10)) s) as (c & d & -> & Hz & Had & Hv); [lia|lia|].
    exists c, (d +:+ String (pretty.pretty_N_char (x mod 10)) ""). split_and!.
    + simpl. by rewrite <-app_str_assoc.
    + done.
    + unfold all_digits in *. apply Forall_cons in Had as [? Had]. simpl. constructor; [done|].
      clear -Had Hd. induction d as [|a d IH]; simpl; [by repeat constructor|].
      apply Forall_cons in Had as [? Had]. constructor; auto.
    + change (String c (d +:+ ?e)) with (String c d +:+ e). rewrite digits_value_app, Hv. simpl.
      rewrite Hc. lia.
Qed.

Lemma span_digits_all d s :
  all_digits d → match s with EmptyString => True | String c _ => is_digit c = false end →
  span_digits (d +:+ s) = (d, s).
Proof.
  intros Hd Hs. induction d as [|c d IH]; simpl.
  - destruct s as [|c s]; simpl; [done|]. by rewrite Hs.
  - apply Forall_cons in Hd as [-> Hd]. by rewrite IH.
Qed.

(** Nothing of a number can follow it. *)
Lemma delim_scan s :
  delim s = true → match s with EmptyString => True | String c _ => is_digit c = false end ∧
    fraction s = ("", s) ∧ exponent s = ("", s).
Proof.
  destruct s as [|c s]; [done|]. simpl. intros Hd.
  assert (c = chr 44 ∨ c = chr 93 ∨ c = chr 125) as [->|[->| ->]]; [|by vm_compute..].
  unfold isb in Hd. revert Hd. destruct c as [[] [] [] [] [] [] [] []]; vm_compute; auto; discriminate.
Qed.

Lemma span_digits_app s d r rest :
  span_digits s = (d, r) → delim rest = true → span_digits (s +:+ rest) = (d, r +:+ rest).
Proof.
  intros Hs [Hr _]%delim_scan. revert d r Hs. induction s as [|c s IH]; simpl; intros d r Hs.
  - injection Hs as <- <-. destruct rest as [|c rest]; simpl; [done|]. by rewrite Hr.
  - destruct (is_digit c); [|by injection Hs as <- <-].
    destruct (span_digits s) as [d' r']. injection Hs as <- <-. by rewrite (IH d' r').
Qed.

Lemma fraction_app s d r rest :
  fraction s = (d, r) → delim rest = true → fraction (s +:+ rest) = (d, r +:+ rest).
Proof.
  intros Hs Hd. destruct s as [|c s]; simpl in *.
  - injection Hs as <- <-. by apply delim_scan.
  - destruct (isb 46 c); [|by injection Hs as <- <-].
    destruct (span_digits s) as [d' r'] eqn:E. rewrite (span_digits_app _ _ _ _ E Hd).
    destruct d'; by injection Hs as <- <-.
Qed.

Lemma exponent_app s d r rest :
  exponent s = (d, r) → delim rest = true → exponent (s +:+ rest) = (d, r +:+ rest).
Proof.
  intros Hs Hd. destruct s as [|c s]; simpl in *.
  - injection Hs as <- <-. by apply delim_scan.
  - destruct (isb 101 c || isb 69 c); [|by injection Hs as <- <-].
    destruct s as [|c2 s]; simpl in *.
    + injection Hs as <- <-. destruct (delim_scan _ Hd) as (Hr & _ & _).
      destruct rest as [|x rest]; [done|]. simpl in Hd.
      assert (isb 43 x || isb 45 x = false) as ->.
      { revert Hd. destruct x as [[] [] [] [] [] [] [] []]; vm_compute; auto. }
      simpl. by rewrite Hr.
    + destruct (isb 43 c2 || isb 45 c2).
      * destruct (span_digits s) as [d' r'] eqn:E. rewrite (span_digits_app _ _ _ _ E Hd).
        destruct d'; by injection Hs as <- <-.
      * destruct (span_digits (String c2 s)) as [d' r'] eqn:E.
        change (String c2 (s +:+ rest)) with (String c2 s +:+ rest).
        rewrite (span_digits_app _ _ _ _ E Hd). destruct d'; by injection Hs as <- <-.
Qed.

Lemma int_part_app s d r rest :
  int_part s = Some (d, r) → delim rest = true → int_part (s +:+ rest) = Some (d, r +:+ rest).
Proof.
  intros Hs Hd. destruct s as [|c s]; [done|]. cbn [int_part String.append] in *.
  destruct (isb 48 c); [by injection Hs as <- <-|].
  destruct (is_digit c); [|done]. injection Hs as Hs.
  change (String c (s +:+ rest)) with (String c s +:+ rest).
  by rewrite (span_digits_app (String c s) d r rest Hs Hd).
Qed.

(** *** Numbers *)

Section Roundtrip.
Context (float_repr : string → string).
Notation num := (number float_repr).
Notation val := (value float_repr).

Lemma number_app s j r rest :
  num s = Ok (j, r) → delim rest = true → num (s +:+ rest) = Ok (j, r +:+ rest).
Proof.
  unfold number. intros Hs Hd.
  set (split := λ s, match s with
    | String c s' => if isb 45 c then (true, s') else (false, s)
    | EmptyString => (false, "") end) in *.
  change (match s with String _ _ => _ | _ => _ end) with (split s) in Hs.
  change (match s +:+ rest with String _ _ => _ | _ => _ end) with (split (s +:+ rest)).
  destruct (split s) as [neg s0] eqn:Hsp.
  destruct (int_part s0) as [[i s1]|] eqn:Hi; [|done].
  assert (split (s +:+ rest) = (neg, s0 +:+ rest)) as ->.
  { unfold split in *. destruct s as [|c s]; [by injection Hsp as <- <-|].
    cbn [String.append]. destruct (isb 45 c); by injection Hsp as <- <-. }
  rewrite (int_part_app _ _ _ _ Hi Hd).
  destruct (fraction s1) as [f s2] eqn:Hf. rewrite (fraction_app _ _ _ _ Hf Hd).
  destruct (exponent s2) as [e s3] eqn:He. rewrite (exponent_app _ _ _ _ He Hd).
  destruct ((f =? "") && (e =? "")).
  - apply result_bind_ok in Hs as ([] & -> & [= <- <-]). done.
  - by injection Hs as <- <-.
Qed.

(** The digits of a positive number, with the sign read before them. *)
Lemma number_digits c d rest (neg : bool) :
  isb 48 c = false → all_digits (String c d) → delim rest = true →
  (Z.of_nat (String.length (String c d)) <=? MAX_DIGITS)%Z = true →
  num ((if neg then String (chr 45) "" else "") +:+ String c d +:+ rest) =
    Ok (JInt (if neg then - digits_value 0 (String c d) else digits_value 0 (String c d)), rest).
Proof.
  intros Hz Had Hd Hlen. destruct (delim_scan _ Hd) as (Hr & Hf & He).
  pose proof (span_digits_all (String c d) rest Had Hr) as Hspan.
  pose proof Had as [Hc _]%Forall_cons.
  assert (isb 45 c = false) as Hm.
  { revert Hc. destruct c as [[] [] [] [] [] [] [] []]; vm_compute; congruence. }
  assert (int_part (String c (d +:+ rest)) = Some (String c d, rest)) as Hi.
  { rewrite <-Hspan. cbn [String.append int_part]. by rewrite Hz, Hc. }
  unfold number. destruct neg; cbn [String.append] in *.
  - change (isb 45 (chr 45)) with true. cbv beta iota. rewrite Hi, Hf, He. cbn [String.eqb andb]. by rewrite Hlen.
  - rewrite Hm, Hi, Hf, He. cbn [String.eqb andb]. by rewrite Hlen.
Qed.

Lemma pretty_pos n :
  (0 < n)%Z → ∃ c d, pretty.pretty n = String c d ∧ isb 48 c = false ∧
    all_digits (String c d) ∧ digits_value 0 (String c d) = n.
Proof.
  intros Hn. destruct (pretty_go (Z.to_N n) "") as (c & d & Hp & Hz & Had & Hv); [lia|].
  rewrite app_str_nil_r in Hp.
  exists c, d. split_and!; [|done..|lia]. rewrite <-Hp. destruct n as [|p|p]; [lia|done|lia].
Qed.

Lemma number_printed_int n t rest :
  print_int n = Ok t → delim rest = true → num (t +:+ rest) = Ok (JInt n, rest).
Proof.
  unfold print_int. intros Hp Hd. apply result_bind_ok in Hp as ([] & Hlen%ensure_ok & [= <-]).
  destruct (decide (n = 0)) as [->|Hn].
  { apply (number_app "0" (JInt 0) "" rest); [done|done]. }
  destruct (pretty_pos (Z.abs n)) as (c & d & Hp & Hz & Had & Hv); [lia|]. rewrite Hp in *.
  pose proof (number_digits c d rest (n <? 0)%Z Hz Had Hd Hlen) as H.
  rewrite Hv in H. replace (if (n <? 0)%Z then _ else _) with n in H by (destruct (n <? 0)%Z eqn:E; lia).
  rewrite <-H. by destruct (n <? 0)%Z.
Qed.

(** *** Words *)

(** How a number begins. *)
Definition numeric (s : string) : bool :=
  match s with
  | String c s' => is_digit c || (isb 45 c && match s' with String d _ => is_digit d | _ => false end)
  | EmptyString => false
  end.

Lemma number_numeric s jr : num s = Ok jr → numeric s = true.
Proof.
  assert (∀ c, isb 48 c = true → is_digit c = true) as H0.
  { intros c. unfold isb, is_digit. intros ->%Z.eqb_eq. done. }
  unfold number, numeric. destruct s as [|c s]; [done|]. destruct (isb 45 c) eqn:Hm; simpl.
  - destruct s as [|d s]; [done|]. simpl. destruct (isb 48 d) eqn:Hz; [by rewrite (H0 d Hz), orb_true_r|].
    destruct (is_digit d); [by rewrite orb_true_r|done].
  - destruct (isb 48 c) eqn:Hz; [by rewrite (H0 c Hz)|]. by destruct (is_digit c).
Qed.

Lemma numeric_app s rest : numeric s = true → numeric (s +:+ rest) = true.
Proof.
  destruct s as [|c [|d s]]; [done| |done]. simpl. rewrite andb_false_r, orb_false_r.
  by intros ->.
Qed.

(** A value that begins like a number is read by [number]. *)
Lemma value_number fuel depth s : numeric s = true → val (S fuel) depth s = num s.
Proof.
  destruct s as [|c s]; [done|]. intros Hn. cbn [value].
  assert (isb 34 c = false ∧ isb 91 c = false ∧ isb 123 c = false ∧ word words (String c s) = None)
    as (-> & -> & -> & ->); [|done].
  simpl in Hn. destruct (is_digit c) eqn:Hc; simpl in Hn.
  - clear Hn. revert Hc. destruct c as [[] [] [] [] [] [] [] []]; vm_compute; try discriminate; done.
  - apply andb_true_iff in Hn as [->%isb_chr Hd]. split_and!; [done..|].
    destruct s as [|d s]; [done|]. revert Hd.
    destruct d as [[] [] [] [] [] [] [] []]; vm_compute; try discriminate; done.
Qed.

(** *** What is printed is read back *)

(** The values [json.dumps] loses nothing of: a dict has one value per key, and the text of
    a float is the one [repr] gives it. *)
Inductive faithful : json → Prop :=
  | faithful_null : faithful JNull
  | faithful_bool b : faithful (JBool b)
  | faithful_int n : faithful (JInt n)
  | faithful_float t : t ∈ ["nan"; "inf"; "-inf"] ∨ num t = Ok (JFloat t, "") → faithful (JFloat t)
  | faithful_str s : faithful (JStr s)
  | faithful_list l : Forall faithful l → faithful (JList l)
  | faithful_obj fields :
      NoDup fields.*1 → Forall (λ kv, faithful kv.2) fields → faithful (JObj fields).

(** A text that begins with neither white space, a closing bracket nor a mark. *)
Definition begins (s : string) : bool :=
  match s with EmptyString => false | String c _ => negb (is_ws c || isb 93 c || isb 125 c || isb 239 c) end.

Lemma numeric_begins s : numeric s = true → begins s = true.
Proof.
  destruct s as [|c s]; [done|]. cbn [numeric begins]. intros Hn.
  assert (is_digit c || isb 45 c = true) as Hc by (destruct (is_digit c), (isb 45 c); done).
  clear Hn. revert Hc. destruct c as [[] [] [] [] [] [] [] []]; vm_compute; congruence.
Qed.

Lemma begins_app s rest : begins s = true → begins (s +:+ rest) = true.
Proof. by destruct s. Qed.

Lemma begins_cons s : begins s = true → ∃ c t, s = String c t ∧ isb 93 c = false ∧ isb 125 c = false ∧ skip_ws s = s.
Proof.
  destruct s as [|c t]; [done|]. cbn [begins skip_ws]. intros H. exists c, t.
  destruct (is_ws c), (isb 93 c), (isb 125 c); done.
Qed.

Lemma float_begins t : faithful (JFloat t) → begins (print_float t) = true.
Proof.
  inversion_clear 1 as [| | |? [Ht|Ht]| | |].
  - repeat (apply elem_of_cons in Ht as [->|Ht]; [done|]). set_solver.
  - unfold print_float. repeat (destruct (_ =? _); [done|]). by eapply numeric_begins, number_numeric.
Qed.

Lemma dump_begins d j t : dump d j = Ok t → faithful j → begins t = true.
Proof.
  intros Hd Hf. destruct j; destruct d as [|d]; cbn [dump] in Hd; try discriminate Hd;
    try (injection Hd as <-); try done; try (by apply float_begins); try (by destruct b);
    try (apply result_bind_ok in Hd as (parts & _ & [= <-]); done).
  all: apply numeric_begins; rewrite <-(app_str_nil_r t);
    eapply number_numeric, (number_printed_int n t ""); done.
Qed.

Lemma value_float fuel d t rest :
  faithful (JFloat t) → delim rest = true → val (S fuel) d (print_float t +:+ rest) = Ok (JFloat t, rest).
Proof.
  inversion_clear 1 as [| | |? [Ht|Ht]| | |]; intros Hd.
  - repeat (apply elem_of_cons in Ht as [->|Ht]; [done|]). set_solver.
  - assert (print_float t = t) as ->.
    { apply number_numeric in Ht. unfold print_float.
      destruct (String.eqb_spec t "nan") as [->|_]; [done|].
      destruct (String.eqb_spec t "inf") as [->|_]; [done|].
      by destruct (String.eqb_spec t "-inf") as [->|_]. }
    rewrite value_number by (by eapply numeric_app, number_numeric).
    by apply (number_app t (JFloat t) "" rest).
Qed.

(** A string is read where it was quoted. *)
Lemma quote_app s rest : quote s +:+ rest = String (chr 34) (escape s +:+ String (chr 34) rest).
Proof. unfold quote. cbn [String.append]. by rewrite <-app_str_assoc. Qed.

Section Containers.
Context (d : nat).
Hypothesis reads : ∀ j t fuel rest,
  dump d j = Ok t → faithful j → delim rest = true → (2 * String.length t ≤ fuel)%nat →
  val fuel d (t +:+ rest) = Ok (j, rest).

Lemma items_dump l parts fuel rest :
  Forall2 (λ j t, dump d j = Ok t) l parts → Forall faithful l → l ≠ [] →
  (2 * String.length (joined parts) + 2 ≤ fuel)%nat →
  items float_repr fuel d (joined parts +:+ String (chr 93) rest) = Ok (l, rest).
Proof.
  intros H2. revert fuel. induction H2 as [|j t l parts Hj H2 IH]; intros fuel Hf Hne Hfuel; [done|].
  apply Forall_cons in Hf as [Hfj Hf]. destruct fuel as [|fuel]; [lia|]. cbn [items].
  destruct H2 as [|j2 t2 l parts Hj2 H2].
  - cbn [joined] in *. rewrite (reads j t) by (done || lia). done.
  - remember (t2 :: parts) as ts eqn:Hts. assert (joined (t :: ts) = t +:+ String (chr 44) (joined ts)) as Hjoin
      by (by subst). rewrite Hjoin, <-app_str_assoc in *. rewrite !length_app_str in Hfuel. simpl in Hfuel.
    cbn [String.append]. rewrite (reads j t) by (done || lia). cbn [mbind result_bind].
    change (skip_ws (String (chr 44) ?x)) with (String (chr 44) x). cbn beta iota.
    change (isb 93 (chr 44)) with false. change (isb 44 (chr 44)) with true. cbn beta iota.
    assert (begins (joined ts) = true) as Hb.
    { subst ts. apply Forall_cons in Hf as [Hfj2 _]. pose proof (dump_begins _ _ _ Hj2 Hfj2) as Hb.
      destruct parts; [done|]. by apply begins_app. }
    destruct (begins_cons _ (begins_app _ (String (chr 93) rest) Hb)) as (_ & _ & _ & _ & _ & ->).
    by rewrite IH by (done || lia).
Qed.

Definition field_text (kv : string * json) : result string :=
  t ← dump d kv.2; Ok (quote kv.1 +:+ String (chr 58) t).

Lemma members_dump l parts fuel rest :
  Forall2 (λ kv t, field_text kv = Ok t) l parts → Forall (λ kv, faithful kv.2) l → l ≠ [] →
  (2 * String.length (joined parts) + 2 ≤ fuel)%nat →
  members float_repr fuel d (joined parts +:+ String (chr 125) rest) = Ok (l, rest).
Proof.
  intros H2. revert fuel. induction H2 as [|[k j] t l parts Hj H2 IH]; intros fuel Hf Hne Hfuel; [done|].
  apply Forall_cons in Hf as [Hfj Hf]. destruct fuel as [|fuel]; [lia|].
  apply result_bind_ok in Hj as (u & Hu & Hj). apply (inj Ok) in Hj as <-. cbn [fst snd] in *.
  destruct (begins_cons _ (dump_begins _ _ _ Hu Hfj)) as (c & u' & Hcu & _).
  assert (∀ r, skip_ws (u +:+ r) = u +:+ r) as Hskip.
  { intros r. by destruct (begins_cons _ (begins_app _ r (dump_begins _ _ _ Hu Hfj))) as (_ & _ & _ & _ & _ & ->). }
  assert (∀ rest', delim rest' = true → (2 * String.length u ≤ fuel)%nat →
    members float_repr (S fuel) d ((quote k +:+ String (chr 58) u) +:+ rest') =
    match skip_ws rest' with
    | String x r =>
        if isb 125 x then Ok ([(k, j)], r)
        else if isb 44 x then '(l, r) ← members float_repr fuel d (skip_ws r); Ok ((k, j) :: l, r)
        else Err JSONDecodeError
    | EmptyString => Err JSONDecodeError
    end) as Hone.
  { intros rest' Hd Hle. rewrite <-app_str_assoc, quote_app. cbn [members].
    change (isb 34 (chr 34)) with true. cbn beta iota. rewrite escape_rest. cbn [mbind result_bind].
    cbn [String.append]. change (skip_ws (String (chr 58) ?x)) with (String (chr 58) x). cbn beta iota.
    change (isb 58 (chr 58)) with true. cbn beta iota. rewrite Hskip, (reads j u) by done. done. }
  destruct H2 as [|kv2 t2 l parts Hj2 H2].
  - cbn [joined] in *. rewrite !length_app_str in Hfuel. simpl in Hfuel.
    rewrite Hone by (done || lia). done.
  - remember (t2 :: parts) as ts eqn:Hts.
    assert (joined ((quote k +:+ String (chr 58) u) :: ts) =
      (quote k +:+ String (chr 58) u) +:+ String (chr 44) (joined ts)) as Hjoin by (by subst).
    rewrite Hjoin in Hfuel |- *. rewrite <-(app_str_assoc _ (String (chr 44) _)).
    rewrite !length_app_str in Hfuel. simpl in Hfuel.
    rewrite Hone by (done || lia). cbn [String.append].
    change (skip_ws (String (chr 44) ?x)) with (String (chr 44) x). cbn beta iota.
    change (isb 125 (chr 44)) with false. change (isb 44 (chr 44)) with true. cbn beta iota.
    assert (skip_ws (joined ts +:+ String (chr 125) rest) = joined ts +:+ String (chr 125) rest) as ->.
    { subst ts. apply result_bind_ok in Hj2 as (u2 & _ & [= <-]). by destruct parts. }
    by rewrite IH by (done || lia).
Qed.
End Containers.

(** What [dumps] prints is read back, whatever follows it. *)
Lemma value_dump d j t fuel rest :
  dump d j = Ok t → faithful j → delim rest = true → (2 * String.length t ≤ fuel)%nat →
  val fuel d (t +:+ rest) = Ok (j, rest).
Proof.
  revert j t fuel rest. induction d as [|d IH]; intros j t fuel rest Hd Hf Hr Hfuel.
  all: assert (∃ c u, t = String c u) as (c0 & u0 & Htu)
    by (destruct (begins_cons _ (dump_begins _ _ _ Hd Hf)) as (? & ? & ? & _); eauto).
  all: rewrite Htu in Hfuel; simpl in Hfuel; destruct fuel as [|fuel]; [lia|].
  all: destruct j as [|b|n|f|s|l|l]; cbn [dump] in Hd; try discriminate Hd; try (injection Hd as <-);
    try done; try (by destruct b); try (by apply value_float);
    try (rewrite quote_app; cbn [value]; change (isb 34 (chr 34)) with true; cbn beta iota;
         by rewrite escape_rest);
    try (rewrite value_number;
         [by apply number_printed_int
         |apply numeric_app; rewrite <-(app_str_nil_r t);
          by eapply number_numeric, (number_printed_int n t "")]).
  - apply result_bind_ok in Hd as (parts & Hp%each_ok & [= <-]). injection Htu as _ <-.
    rewrite length_app_str in Hfuel. simpl in Hfuel.
    cbn [String.append value]. rewrite <-app_str_assoc.
    change (isb 34 (chr 91)) with false. change (isb 91 (chr 91)) with true. cbn beta iota. cbn [String.append].
    inversion_clear Hf as [| | | | |? Hl|].
    destruct l as [|j l]; [inversion Hp; subst; done|].
    pose proof (items_dump d IH (j :: l) parts fuel rest Hp Hl) as Hitems.
    destruct Hp as [|? t1 ? parts Hj1 Hp]; [done|].
    assert (begins (joined (t1 :: parts)) = true) as Hb.
    { apply Forall_cons in Hl as [Hfj1 _]. pose proof (dump_begins _ _ _ Hj1 Hfj1) as Hb.
      destruct parts; [done|]. by apply begins_app. }
    destruct (begins_cons _ (begins_app _ (String (chr 93) rest) Hb)) as (c & u & Heq & Hc & _ & Hs).
    rewrite Hs, Heq, Hc, <-Heq, Hitems by (done || lia). done.
  - apply result_bind_ok in Hd as (parts & Hp%each_ok & [= <-]). injection Htu as _ <-.
    rewrite length_app_str in Hfuel. simpl in Hfuel.
    cbn [String.append value]. rewrite <-app_str_assoc.
    change (isb 34 (chr 123)) with false. change (isb 91 (chr 123)) with false.
    change (isb 123 (chr 123)) with true. cbn beta iota. cbn [String.append].
    inversion_clear Hf as [| | | | | |? Hnd Hl].
    destruct l as [|kv l]; [inversion Hp; subst; done|].
    pose proof (members_dump d IH (kv :: l) parts fuel rest Hp Hl) as Hmembers.
    destruct Hp as [|? t1 ? parts Hj1 Hp]; [done|].
    assert (begins (joined (t1 :: parts)) = true) as Hb.
    { apply result_bind_ok in Hj1 as (u2 & _ & [= <-]). by destruct parts. }
    destruct (begins_cons _ (begins_app _ (String (chr 125) rest) Hb)) as (c & u & Heq & _ & Hc & Hs).
    rewrite Hs, Heq, Hc, <-Heq, Hmembers by (done || lia). cbn [mbind result_bind].
    by rewrite dict_of_id.
Qed.

Lemma begins_no_mark s : begins s = true → starts_with BOM s = false.
Proof.
  destruct s as [|c s]; [done|]. unfold starts_with.
  change BOM with (String (chr 239) (bytes [187; 191]%nat)). cbn [begins String.prefix].
  destruct (Ascii.ascii_dec (chr 239) c) as [<-|]; [discriminate|done].
Qed.

Lemma loads_dump limit j t : dump limit j = Ok t → faithful j → loads float_repr limit t = Ok j.
Proof.
  intros Hd Hf. pose proof (dump_begins _ _ _ Hd Hf) as Hb.
  destruct (begins_cons _ Hb) as (c & u & Ht & _ & _ & Hs).
  unfold loads. rewrite begins_no_mark, Hs by done.
  assert (val (enough t) limit t = Ok (j, "")) as ->; [|done].
  rewrite <-(app_str_nil_r t) at 2. apply value_dump; [done..|]. unfold enough. lia.
Qed.

(** *** Reading ends *)

(** A step of the reader consumes something or fails, but not for want of fuel. *)
Definition consumes {A} (s : string) (m : result (A * string)) : Prop :=
  match m with
  | Ok (_, r) => (String.length r < String.length s)%nat
  | Err e => e ≠ OUT_OF_FUEL
  end.

Lemma consumes_bind {A B} (s : string) (m : result (A * string)) (f : A * string → result (B * string)) :
  consumes s m → (∀ a r, (String.length r < String.length s)%nat → consumes s (f (a, r))) → consumes s (m ≫= f).
Proof. destruct m as [[a r]|e]; simpl; auto. Qed.

Lemma consumes_le {A} (s s' : string) (m : result (A * string)) :
  consumes s' m → (String.length s' ≤ String.length s)%nat → consumes s m.
Proof. destruct m as [[a r]|e]; simpl; [lia|done]. Qed.

Lemma string_rest_consumes s : consumes s (string_rest s).
Proof.
  remember (String.length s) as n eqn:Hn. revert s Hn.
  induction (lt_wf n) as [n _ IH]. intros s ->.
  assert (∀ s' (g : string → string), (String.length s' < String.length s)%nat →
    consumes s ('(t, r) ← string_rest s'; Ok (g t, r))) as Hrec.
  { intros s' g Hlt. eapply consumes_bind; [eapply consumes_le; [by eapply IH|lia]|]. intros t r Hr. done. }
  destruct s as [|c s1]; [done|]. cbn [string_rest].
  destruct (isb 34 c); [simpl; lia|]. destruct (isb 92 c).
  - destruct s1 as [|e s2]; [done|]. destruct (isb 117 e).
    + destruct s2 as [|a [|b [|c2 [|d s6]]]]; try done. destruct (hex4 a b c2 d) as [n|]; [|done].
      destruct (high_surrogate n); [|apply (Hrec s6 (String.append (utf8 n))); simpl; lia].
      assert (consumes (String c (String e (String a (String b (String c2 (String d s6))))))
        ('(t, r) ← string_rest s6; Ok (utf8 n +:+ t, r))) as Hplain
        by (apply (Hrec s6 (String.append (utf8 n))); simpl; lia).
      destruct s6 as [|x [|u [|a2 [|b2 [|c3 [|d2 s12]]]]]]; try exact Hplain.
      destruct (isb 92 x && isb 117 u); [|exact Hplain].
      destruct (hex4 a2 b2 c3 d2) as [l|]; [|done].
      destruct (low_surrogate l); [|exact Hplain].
      apply (Hrec s12 (String.append (utf8 (join_surrogates n l)))). simpl; lia.
    + destruct (simple_escape e) as [x|]; [|done]. apply (Hrec s2 (String x)). simpl; lia.
  - destruct (code c <? 32)%Z; [done|]. apply (Hrec s1 (String c)). simpl; lia.
Qed.

Lemma skip_ws_le s : (String.length (skip_ws s) ≤ String.length s)%nat.
Proof. induction s as [|c s IH]; simpl; [done|]. destruct (is_ws c); simpl; lia. Qed.

Lemma span_digits_split s d r : span_digits s = (d, r) → s = d +:+ r.
Proof.
  revert d r. induction s as [|c s IH]; simpl; intros d r H; [by injection H as <- <-|].
  destruct (is_digit c); [|by injection H as <- <-].
  destruct (span_digits s) as [d' r']. injection H as <- <-. simpl. f_equal. by apply IH.
Qed.

Lemma fraction_le s d r : fraction s = (d, r) → (String.length r ≤ String.length s)%nat.
Proof.
  destruct s as [|c s]; simpl; [by injection 1 as <- <-|].
  destruct (isb 46 c); [|by injection 1 as <- <-].
  destruct (span_digits s) as [[|a d'] r'] eqn:E; injection 1 as <- <-; [done|].
  apply span_digits_split in E as ->. rewrite length_app_str. lia.
Qed.

Lemma exponent_le s d r : exponent s = (d, r) → (String.length r ≤ String.length s)%nat.
Proof.
  destruct s as [|c s]; simpl; [by injection 1 as <- <-|].
  destruct (isb 101 c || isb 69 c); [|by injection 1 as <- <-].
  destruct (match s with String c r => if isb 43 c || isb 45 c then (String c "", r) else ("", s)
            | EmptyString => ("", "") end) as [sign s2] eqn:Hs.
  assert (String.length s2 ≤ String.length s)%nat as Hle.
  { destruct s as [|c2 s]; [by injection Hs as <- <-|].
    destruct (isb 43 c2 || isb 45 c2); injection Hs as <- <-; simpl; lia. }
  destruct (span_digits s2) as [[|a d'] r'] eqn:E; injection 1 as <- <-; [done|].
  apply span_digits_split in E as ->. rewrite length_app_str in Hle. simpl in *. lia.
Qed.

Lemma number_consumes s : consumes s (num s).
Proof.
  unfold number.
  destruct (match s with String c s' => if isb 45 c then (true, s') else (false, s)
            | EmptyString => (false, "") end) as [neg s0] eqn:Hs.
  assert (String.length s0 ≤ String.length s)%nat as Hle.
  { destruct s as [|c s]; [by injection Hs as <- <-|]. destruct (isb 45 c); injection Hs as <- <-; simpl; lia. }
  destruct (int_part s0) as [[i s1]|] eqn:Hi; [|done].
  assert (String.length s1 < String.length s0)%nat as Hlt.
  { destruct s0 as [|c s0]; [done|]. cbn [int_part] in Hi.
    destruct (isb 48 c); [injection Hi as <- <-; simpl; lia|].
    destruct (is_digit c) eqn:Hc; [|done]. injection Hi as Hi. pose proof (span_digits_split (String c s0) i s1 Hi) as Heq.
    cbn [span_digits] in Hi. rewrite Hc in Hi. destruct (span_digits s0) as [d' r']. injection Hi as <- <-.
    rewrite Heq, length_app_str. simpl. lia. }
  destruct (fraction s1) as [f s2] eqn:Hf. apply fraction_le in Hf.
  destruct (exponent s2) as [e s3] eqn:He. apply exponent_le in He.
  destruct ((f =? "") && (e =? "")); [|simpl; lia].
  destruct (_ <=? _)%Z; simpl; [lia|done].
Qed.

Lemma after_word_length w s r : after_word w s = Some r → (String.length s = String.length w + String.length r)%nat.
Proof.
  revert s. induction w as [|a w IH]; intros [|b s]; cbn [after_word]; try discriminate;
    try (injection 1 as <-; done).
  destruct (Ascii.eqb a b); [|done]. intros H%IH. simpl. lia.
Qed.

Lemma word_consumes s jr : word words s = Some jr → consumes s (Ok jr).
Proof.
  assert (∀ l, Forall (λ w : string * json, w.1 ≠ "") l → word l s = Some jr → consumes s (Ok jr)) as Hl.
  { induction 1 as [|[w j] l Hw _ IH]; cbn [word]; [done|].
    destruct (after_word w s) as [r|] eqn:E; [|done]. injection 1 as <-. apply after_word_length in E.
    simpl in *. destruct w; [done|]. simpl in E. lia. }
  apply Hl. by repeat constructor.
Qed.

(** The reader after white space has been skipped and a byte read. *)
Lemma after_ws {A} s s' (f : ascii → string → result (A * string)) :
  (String.length s' ≤ String.length s)%nat →
  (∀ x r, (String.length r < String.length s')%nat → consumes s (f x r)) →
  consumes s (match skip_ws s' with String x r => f x r | EmptyString => Err JSONDecodeError end).
Proof.
  intros Hle Hf. pose proof (skip_ws_le s') as Hws. destruct (skip_ws s') as [|x r]; [done|].
  apply Hf. simpl in Hws. lia.
Qed.

(** With [2 * length + 1] fuel a value is read, or refused; with one more, a list of them. *)
Lemma reader_consumes n :
  (∀ d s, (2 * String.length s + 1 ≤ n)%nat → consumes s (val n d s)) ∧
  (∀ d s, (2 * String.length s + 2 ≤ n)%nat →
    consumes s (items float_repr n d s) ∧ consumes s (members float_repr n d s)).
Proof.
  induction n as [|n [IHv IHl]]; [split; intros; lia|]. split; intros d s Hn.
  - destruct s as [|c s]; [done|]. cbn [value]. simpl in Hn.
    destruct (isb 34 c).
    { eapply consumes_bind; [eapply consumes_le; [apply string_rest_consumes|simpl; lia]|done]. }
    assert (∀ s', (String.length s' ≤ String.length s)%nat → ∀ d,
      consumes (String c s) (items float_repr n d s') ∧ consumes (String c s) (members float_repr n d s')) as Hl.
    { intros s' Hle d'. destruct (IHl d' s') as [Hi Hm]; [lia|].
      split; (eapply consumes_le; [done|simpl; lia]). }
    pose proof (skip_ws_le s) as Hws.
    destruct (isb 91 c); [|destruct (isb 123 c)].
    + destruct d as [|d]; [done|]. apply after_ws; [simpl; lia|]. intros x r Hr.
      destruct (isb 93 x); [simpl; lia|]. eapply consumes_bind; [by apply Hl|done].
    + destruct d as [|d]; [done|]. apply after_ws; [simpl; lia|]. intros x r Hr.
      destruct (isb 125 x); [simpl; lia|]. eapply consumes_bind; [by apply Hl|done].
    + destruct (word words (String c s)) as [jr|] eqn:E; [by apply word_consumes|apply number_consumes].
  - split.
    + cbn [items]. eapply consumes_bind; [apply IHv; lia|]. intros j r Hr.
      apply after_ws; [lia|]. intros x r' Hr'. destruct (isb 93 x); [simpl; lia|].
      destruct (isb 44 x); [|done]. pose proof (skip_ws_le r') as Hws.
      eapply consumes_bind; [|done]. eapply consumes_le; [apply IHl|]; lia.
    + cbn [members]. destruct s as [|q s]; [done|]. simpl in Hn. destruct (isb 34 q); [|done].
      eapply consumes_bind; [eapply consumes_le; [apply string_rest_consumes|simpl; lia]|].
      intros k r Hr. apply after_ws; [lia|]. intros x r1 Hr1. destruct (isb 58 x); [|done].
      pose proof (skip_ws_le r1) as Hws1. simpl in Hr.
      eapply consumes_bind; [eapply consumes_le; [apply IHv; lia|simpl; lia]|].
      intros j r2 Hr2. apply after_ws; [lia|]. intros y r3 Hr3. destruct (isb 125 y); [simpl in *; lia|].
      destruct (isb 44 y); [|done]. pose proof (skip_ws_le r3) as Hws3. simpl in Hr2.
      eapply consumes_bind; [|done]. eapply consumes_le; [apply IHl|simpl]; lia.
Qed.

(** [loads] never runs out of fuel. *)
Lemma loads_ends limit s : loads float_repr limit s ≠ Err OUT_OF_FUEL.
Proof.
  unfold loads. destruct (starts_with BOM s); [done|]. pose proof (skip_ws_le s) as Hws.
  pose proof (proj1 (reader_consumes (enough (skip_ws s))) limit (skip_ws s)) as H.
  unfold enough in *. specialize (H ltac:(lia)).
  destruct (val _ limit (skip_ws s)) as [[j r]|e]; simpl in *; [by destruct (skip_ws r)|congruence].
Qed.
End Roundtrip.
