(* ===== verification/Frame.v ===== *)
(** * Frames ([rpc/frame.py])

    A message is a JSON object as compact UTF-8 text behind its length, four bytes, most
    significant first.  A reader is the bytes the peer will still send before it closes; a
    writer is the bytes sent so far.  [limit] is how deep Python lets calls nest and
    [float_repr] the text [repr] gives a float, as in [JsonText].

    The theorems: frames written one after the other are read back one by one, whatever
    follows them; and a frame is refused, for whatever reason, without reading past its
    end, and without reading its body at all if it is announced as too large. *)

From S2P Require Import Prelude PyEnum PyStr JsonText.

#[local] Open Scope string_scope.

Definition InvalidLengthError : exn := FrameErr "zero-length frame".
Definition TooLargeError : exn := FrameErr "frame too large".
Definition NotAnObjectError : exn := FrameErr "top-level value is no object".
Definition ConnectionClosedError (where_ : string) : exn := FrameErr ("connection closed while reading " +:+ where_).
Definition UnicodeEncodeError : exn := ValueError "UnicodeEncodeError".
Definition invalid_utf8 : exn := FrameErr "invalid utf-8".

(* [sidecar/ibreeze/rpc/frame.py:6-6 MAX_FRAME_BYTES] *)
Definition MAX_FRAME_BYTES : Z := 16 * 1024 * 1024.

(** [struct.pack(">I", n)], for [0 <= n < 2 ** 32] *)
Definition pack (n : Z) : string :=
  let b k := chr ((n / 256 ^ k) mod 256) in
  String (b 3) (String (b 2) (String (b 1) (String (b 0) ""))).

(** [struct.unpack(">I", header)[0]] *)
Definition unpack (header : string) : Z :=
  fold_left (λ n c, n * 256 + code c)%Z (String.list_ascii_of_string header) 0%Z.

Definition bytes_length (s : string) : Z := Z.of_nat (String.length s).

Section Frames.
Context (float_repr : string → string) (limit : nat).

(* [sidecar/ibreeze/rpc/frame.py:29-36 encode_frame] *)
Definition encode_frame (obj : list (string * json)) : result string :=
  payload ← dump limit (JObj obj);
  ensure (utf8_ok payload) UnicodeEncodeError;;
  let length := bytes_length payload in
  ensure (negb (length =? 0)%Z) InvalidLengthError;;
  ensure (negb (MAX_FRAME_BYTES <? length)%Z) TooLargeError;;
  Ok (pack length +:+ payload).

Fixpoint str_take (n : nat) (s : string) : string :=
  match n, s with S n, String c s => String c (str_take n s) | _, _ => "" end.
Fixpoint str_drop (n : nat) (s : string) : string :=
  match n, s with S n, String _ s => str_drop n s | _, _ => s end.

(** [await reader.readexactly(n)]; at the end of the stream what is left is consumed. *)
Definition readexactly (n : Z) (incomplete : exn) : tx string string := λ s,
  if (n <=? bytes_length s)%Z then (Ok (str_take (Z.to_nat n) s), str_drop (Z.to_nat n) s)
  else (Err incomplete, "").

(* [sidecar/ibreeze/rpc/frame.py:39-60 read_frame] *)
Definition read_frame : tx string (list (string * json)) :=
  header ← readexactly 4 (ConnectionClosedError "header");
  let length := unpack header in
  check (negb (length =? 0)%Z) InvalidLengthError;;
  check (negb (MAX_FRAME_BYTES <? length)%Z) TooLargeError;;
  body ← readexactly length (ConnectionClosedError "body");
  check (utf8_ok body) invalid_utf8;;
  obj ← lift (loads float_repr limit body);
  match obj with
  | JObj fields => mret fields
  | _ => raise NotAnObjectError
  end.

(* [sidecar/ibreeze/rpc/frame.py:63-66 write_frame] *)
Definition write_frame (obj : list (string * json)) : tx string unit :=
  data ← lift (encode_frame obj);
  modify (λ sent, sent +:+ data).

(** ** Bytes *)

Lemma code_chr n : (0 ≤ n < 256)%Z → code (chr n) = n.
Proof.
  intros Hn. unfold code, chr. rewrite Ascii.N_ascii_embedding by lia. lia.
Qed.

Lemma unpack_pack n : (0 ≤ n < 2 ^ 32)%Z → unpack (pack n) = n.
Proof.
  intros Hn. unfold unpack, pack. cbn [String.list_ascii_of_string fold_left].
  rewrite !code_chr by (apply Z.mod_pos_bound; lia).
  change (256 ^ 3)%Z with 16777216%Z. change (256 ^ 2)%Z with 65536%Z.
  change (256 ^ 1)%Z with 256%Z. change (256 ^ 0)%Z with 1%Z. rewrite Z.div_1_r.
  Z.to_euclidean_division_equations. lia.
Qed.

Lemma str_take_app s r : str_take (String.length s) (s +:+ r) = s.
Proof. induction s as [|c s IH]; [by destruct r|]. change (String c s +:+ r) with (String c (s +:+ r)). simpl. by f_equal. Qed.

Lemma str_drop_app s r : str_drop (String.length s) (s +:+ r) = r.
Proof. induction s as [|c s IH]; [by destruct r|]. exact IH. Qed.

Lemma readexactly_app s r e : readexactly (bytes_length s) e (s +:+ r) = (Ok s, r).
Proof.
  unfold readexactly, bytes_length. rewrite length_app_str.
  destruct (_ <=? _)%Z eqn:H; [|apply Z.leb_gt in H; lia]. by rewrite Nat2Z.id, str_take_app, str_drop_app.
Qed.

Lemma pack_length n r : bytes_length (pack n +:+ r) = (4 + bytes_length r)%Z.
Proof. unfold bytes_length. rewrite length_app_str. change (String.length (pack n)) with 4%nat. lia. Qed.

(** A frame is read back, whatever follows it. *)
Lemma read_encoded obj data rest :
  faithful float_repr (JObj obj) → encode_frame obj = Ok data → read_frame (data +:+ rest) = (Ok obj, rest).
Proof.
  unfold encode_frame. intros Hf He. res_inv. rename x into payload.
  match goal with H : utf8_ok payload = true |- _ => rename H into Hutf end.
  match goal with H : negb (_ <? _)%Z = true |- _ => rename H into Hmax end.
  match goal with H : negb (_ =? _)%Z = true |- _ => rename H into Hzero end.
  assert (0 ≤ bytes_length payload < 2 ^ 32)%Z as Hn.
  { unfold bytes_length, MAX_FRAME_BYTES in *. apply negb_true_iff, Z.ltb_ge in Hmax. lia. }
  unfold read_frame. rewrite <-app_str_assoc.
  rewrite (tx_bind_run _ _ _ _ _ (readexactly_app (pack (bytes_length payload)) (payload +:+ rest) _)).
  cbv zeta. rewrite unpack_pack, Hzero, Hmax by done.
  rewrite !(tx_bind_run _ _ _ _ _ (check_run _ _)).
  rewrite (tx_bind_run _ _ _ _ _ (readexactly_app payload rest _)), Hutf.
  rewrite (tx_bind_run _ _ _ _ _ (check_run _ _)).
  unfold mbind at 1, tx_bind at 1, lift. erewrite loads_dump by done. done.
Qed.

Lemma write_frames objs us sent sent' :
  for_each write_frame objs sent = (Ok us, sent') →
  ∃ data, each encode_frame objs = Ok data ∧ sent' = sent +:+ unchars data.
Proof.
  revert us sent. induction objs as [|o objs IH]; intros us sent H.
  - injection H as <- <-. exists []. by rewrite app_str_nil_r.
  - cbn [for_each] in H. apply tx_bind_ok in H as ([] & s1 & Ho & H).
    apply tx_bind_ok in H as (us' & s2 & Hos & [= <- <-]).
    apply tx_bind_ok in Ho as (d & s3 & Hd & Ho). unfold lift in Hd. injection Hd as Hd <-.
    unfold modify in Ho. injection Ho as <-.
    apply IH in Hos as (data & Hdata & ->). exists (d :: data). cbn [each]. rewrite Hd, Hdata.
    split; [done|]. rewrite unchars_cons. by rewrite app_str_assoc.
Qed.

(** C35. What one side writes the other side reads: after any number of objects have been
    written to a fresh connection, reading as many frames gives those objects, in their
    order, and leaves exactly what was sent after them. *)
Theorem frames_roundtrip objs us sent rest :
  Forall (λ o, faithful float_repr (JObj o)) objs →
  for_each write_frame objs "" = (Ok us, sent) →
  for_each (λ _, read_frame) objs (sent +:+ rest) = (Ok objs, rest).
Proof.
  intros Hf Hw. apply write_frames in Hw as (data & Hd & ->). change ("" +:+ ?x) with x. clear us.
  revert data Hd. induction Hf as [|o objs Ho _ IH]; intros data Hd; [by injection Hd as <-|].
  cbn [each] in Hd. apply result_bind_ok in Hd as (d & Hd1 & Hd).
  apply result_bind_ok in Hd as (data' & Hd2 & [= <-]). cbn [for_each].
  rewrite unchars_cons. rewrite <-app_str_assoc.
  rewrite (tx_bind_run _ _ _ _ _ (read_encoded o d _ Ho Hd1)).
  by rewrite (tx_bind_run _ _ _ _ _ (IH data' Hd2)).
Qed.

Lemma str_take_drop n s : str_take n s +:+ str_drop n s = s.
Proof. revert s. induction n as [|n IH]; intros [|c s]; try done. exact (f_equal (String c) (IH s)). Qed.

Lemma str_take_length n s : (n ≤ String.length s)%nat → String.length (str_take n s) = n.
Proof. revert s. induction n as [|n IH]; intros [|c s]; simpl; try done; try lia. intros H. f_equal. apply IH. lia. Qed.

(** The two outcomes of waiting for [n] bytes. *)
Lemma readexactly_cases n e s :
  (0 ≤ n)%Z →
  (∃ taken s', readexactly n e s = (Ok taken, s') ∧ s = taken +:+ s' ∧ bytes_length taken = n) ∨
  readexactly n e s = (Err e, "").
Proof.
  intros Hn. unfold readexactly. destruct (n <=? bytes_length s)%Z eqn:H; [left|by right].
  apply Z.leb_le in H. unfold bytes_length in *. eexists _, _. split; [done|].
  split; [symmetry; apply str_take_drop|]. rewrite str_take_length; lia.
Qed.

Lemma code_bound c : (0 ≤ code c < 256)%Z.
Proof. unfold code. pose proof (Ascii.N_ascii_bounded c). lia. Qed.

Lemma unpack_bound header : bytes_length header = 4%Z → (0 ≤ unpack header < 2 ^ 32)%Z ∧ pack (unpack header) = header.
Proof.
  destruct header as [|a [|b [|c [|d [|x h]]]]]; intros Hl; try discriminate Hl.
  2:{ unfold bytes_length in Hl. simpl in Hl. lia. }
  pose proof (code_bound a). pose proof (code_bound b). pose proof (code_bound c). pose proof (code_bound d).
  unfold unpack. cbn [String.list_ascii_of_string fold_left]. set (n := (_ + code d)%Z).
  split; [subst n; lia|]. assert (∀ x, chr (code x) = x) as Hchr.
  { intros x. unfold chr, code. by rewrite N2Z.id, Ascii.ascii_N_embedding. }
  unfold pack. change (256 ^ 3)%Z with 16777216%Z. change (256 ^ 2)%Z with 65536%Z.
  change (256 ^ 1)%Z with 256%Z. change (256 ^ 0)%Z with 1%Z. rewrite Z.div_1_r.
  assert (n / 16777216 mod 256 = code a ∧ n / 65536 mod 256 = code b ∧ n / 256 mod 256 = code c ∧
    n mod 256 = code d)%Z as (-> & -> & -> & ->); [|by rewrite !Hchr].
  subst n. split_and!; Z.to_euclidean_division_equations; lia.
Qed.

(** Reading a frame never looks past it.  An object comes from exactly the bytes of one
    frame, at most 16 MiB of them behind the header, that are its JSON text; if there is
    none, then either the peer has stopped in the middle of the frame, or what has been
    consumed is a header and at most as much as it announces, and nothing but the header if
    that is too much.  Reading always ends. *)
Lemma read_frame_stays_in_frame stream :
  match read_frame stream with
  | (Ok obj, rest) => ∃ body,
      stream = pack (bytes_length body) +:+ body +:+ rest ∧
      (0 < bytes_length body ≤ MAX_FRAME_BYTES)%Z ∧ loads float_repr limit body = Ok (JObj obj)
  | (Err e, rest) => e ≠ OUT_OF_FUEL ∧
      ((∃ where_, e = ConnectionClosedError where_ ∧ rest = "") ∨
       ∃ n body, stream = pack n +:+ body +:+ rest ∧ (bytes_length body ≤ n)%Z ∧
         ((n = 0 ∨ MAX_FRAME_BYTES < n)%Z → body = ""))
  end.
Proof.
  unfold read_frame.
  destruct (readexactly_cases 4 (ConnectionClosedError "header") stream) as [(header & s1 & Hr & -> & Hlen)|Hr];
    [done| |rewrite (tx_bind_run_err _ _ _ _ _ Hr); split; [done|left; by eexists]].
  rewrite (tx_bind_run _ _ _ _ _ Hr). cbv zeta.
  destruct (unpack_bound header Hlen) as [Hn Hp]. set (n := unpack header) in *. rewrite <-Hp.
  destruct (n =? 0)%Z eqn:Hz.
  { apply Z.eqb_eq in Hz. split; [done|]. right. exists n, "".
    split_and!; [done|unfold bytes_length; simpl; lia|done]. }
  apply Z.eqb_neq in Hz. cbn [negb]. rewrite (tx_bind_run _ _ _ _ _ (check_run _ _)).
  destruct (MAX_FRAME_BYTES <? n)%Z eqn:Hm.
  { split; [done|]. right. exists n, "". split_and!; [done|unfold bytes_length; simpl; lia|done]. }
  apply Z.ltb_ge in Hm. cbn [negb]. rewrite (tx_bind_run _ _ _ _ _ (check_run _ _)).
  destruct (readexactly_cases n (ConnectionClosedError "body") s1) as [(body & s2 & Hb & -> & Hbl)|Hb];
    [lia| |rewrite (tx_bind_run_err _ _ _ _ _ Hb); split; [done|left; by eexists]].
  rewrite (tx_bind_run _ _ _ _ _ Hb).
  assert (∀ e : exn, e ≠ OUT_OF_FUEL → e ≠ OUT_OF_FUEL ∧
    ((∃ where_, e = ConnectionClosedError where_ ∧ s2 = "") ∨
     ∃ n' body', pack n +:+ body +:+ s2 = pack n' +:+ body' +:+ s2 ∧ (bytes_length body' ≤ n')%Z ∧
       ((n' = 0 ∨ MAX_FRAME_BYTES < n')%Z → body' = ""))) as Hfail.
  { intros e He. split; [done|]. right. exists n, body. split_and!; [done|lia|lia]. }
  destruct (utf8_ok body); [|by apply Hfail]. rewrite (tx_bind_run _ _ _ _ _ (check_run _ _)).
  pose proof (loads_ends float_repr limit body) as Hends.
  unfold mbind at 1, tx_bind at 1, lift. destruct (loads float_repr limit body) as [j|e] eqn:Hl.
  - destruct j; try by apply Hfail. exists body. rewrite Hbl. split_and!; try done; lia.
  - apply Hfail. congruence.
Qed.
End Frames.

(** ** A connection *)

Module Demo.
(** Texts of floats are kept as they are. *)
Definition keep (t : string) : string := t.

Definition messages : list (list (string * json)) := [
  [("jsonrpc", JStr "2.0"); ("id", JStr "1"); ("params", JObj [("x", JList [JInt (-12); JFloat "1.5"; JNull])])];
  [("text", JStr (String (chr 10) (String (chr 34) (bytes [195; 169]%nat))))]].

Definition sent : string := Eval vm_compute in (for_each (write_frame 10) messages "").2.
End Demo.

Example surrogates_are_refused :
  encode_frame 10 [("text", JStr (bytes [237; 160; 128]%nat))] = Err UnicodeEncodeError.
Proof. vm_compute. reflexivity. Qed.

Example refused_frames :
  map (λ s, (read_frame Demo.keep 10 s).1)
    [pack 2 +:+ "[]"; pack 0; pack (MAX_FRAME_BYTES + 1); pack 3 +:+ "{}"; pack 1 +:+ "{"; pack 1 +:+ bytes [200]%nat] =
  [Err NotAnObjectError; Err InvalidLengthError; Err TooLargeError; Err (ConnectionClosedError "body");
   Err JSONDecodeError; Err invalid_utf8].
Proof. vm_compute. reflexivity. Qed.

Ltac solve_faithful :=
  repeat match goal with
  | |- faithful _ (JFloat _) => constructor; right; vm_compute; reflexivity
  | |- faithful _ _ => constructor
  | |- Forall _ _ => constructor
  | |- NoDup _ => apply (bool_decide_eq_true _); vm_compute; reflexivity
  | _ => progress cbn beta
  end.

Lemma frames_roundtrip_witness :
  for_each (λ _, read_frame Demo.keep 10) Demo.messages (Demo.sent +:+ "rest") = (Ok Demo.messages, "rest").
Proof.
  refine (frames_roundtrip Demo.keep 10 Demo.messages [tt; tt] Demo.sent "rest" _ _).
  - solve_faithful.
  - vm_compute. reflexivity.
Defined.
