(* ===== verification/RpcSchema.v ===== *)
(** * The contracts of the RPC boundary ([rpc/public_contracts.py])

    The hand-written validator of the JSON-Schema subset the public methods are described
    in, and the look-up of a method in the registry.  A schema is a JSON value, as the code
    has it; [files] are the documents of [packages/rpc-schema], [fullmatch] is
    [re.fullmatch], [num_lt] and [num_eq] compare numbers one of which is a float, and
    [limit] is how deep Python lets calls nest.

    A [ContractValidationError] is a [ValueError]; nothing else in the validator raises one.

    The theorems: on schemas without the oddities below the validator decides what such a
    schema means; but one that has [oneOf] is not looked at any further, so that some
    public methods take any parameters at all. *)

From S2P Require Import Prelude PyEnum PyStr PyText JsonText.

#[local] Open Scope string_scope.

(** [sub in s] *)
Definition contains (sub s : string) : bool := match String.index 0 sub s with Some _ => true | None => false end.

Definition as_int (j : json) : option Z :=
  match j with JInt n => Some n | JBool b => Some (if b then 1%Z else 0%Z) | _ => None end.

Definition is_number (j : json) : bool :=
  match j with JInt _ | JBool _ | JFloat _ => true | _ => false end.

Section Validation.
Context (repr : json → string) (num_lt num_eq : json → json → bool).
Context (fullmatch : string → string → result bool) (files : string → option json).

(** [a == b] *)
Fixpoint py_eq (a b : json) {struct a} : bool :=
  match a, b with
  | JNull, JNull => true
  | JStr s, JStr t => s =? t
  | JList l, JList m =>
      (fix go (l m : list json) : bool :=
         match l, m with
         | [], [] => true
         | x :: l, y :: m => py_eq x y && go l m
         | _, _ => false
         end) l m
  | JObj d, JObj e =>
      Nat.eqb (length d) (length e) &&
      (fix go (d : list (string * json)) : bool :=
         match d with
         | [] => true
         | kv :: d => (kv.1 ∈? e.*1) && py_eq kv.2 (field e kv.1) && go d
         end) d
  | _, _ =>
      match as_int a, as_int b with
      | Some m, Some n => (m =? n)%Z
      | _, _ => is_number a && is_number b && num_eq a b
      end
  end.

(** [a < b], where [a] is a number. *)
Definition py_lt (a b : json) : result bool :=
  match as_int a, as_int b with
  | Some m, Some n => Ok (m <? n)%Z
  | _, _ => if is_number a && is_number b then Ok (num_lt a b) else Err (TypeErr "'<' not supported")
  end.

(** [value in container] *)
Definition py_in (value container : json) : result bool :=
  match container with
  | JList l => Ok (existsb (py_eq value) l)
  | JStr s => match value with JStr t => Ok (contains t s) | _ => Err (TypeErr "'in <string>'") end
  | JObj d => if hashable value then Ok (match value with JStr t => t ∈? d.*1 | _ => false end)
              else Err (TypeErr "unhashable type")
  | _ => Err (TypeErr "not iterable")
  end.

(** [j[part]], for a string [part] *)
Definition subscript (j : json) (part : string) : result json :=
  match j with
  | JObj d => item d part
  | JList _ | JStr _ => Err (TypeErr "indices must be integers")
  | _ => Err (TypeErr "not subscriptable")
  end.

Fixpoint walk (j : json) (parts : list string) : result json :=
  match parts with [] => Ok j | part :: parts => j ← subscript j part; walk j parts end.

(* [sidecar/ibreeze/rpc/public_contracts.py:26-34 _load] *)
Definition _load (name : string) : option json := files name.

(* [sidecar/ibreeze/rpc/public_contracts.py:37-48 _resolve] *)
Definition _resolve (schema : list (string * json)) (base : string) : result (list (string * json)) :=
  match field schema "$ref" with
  | JStr ref =>
      if starts_with "#/" ref then
        match _load base with
        | None => Ok schema
        | Some value =>
            value ← walk value (split_on (chr 47) (String.substring 2 (String.length ref) ref));
            Ok (match value with JObj d => d | _ => schema end)
        end
      else Ok schema
  | _ => Ok schema
  end.

(* [sidecar/ibreeze/rpc/public_contracts.py:51-52 _fail] *)
Definition _fail (path message : string) : result unit :=
  Err (ValueError ((if path =? "" then "$" else path) +:+ ": " +:+ message)).

(** [for branch in l: try: check(branch); return except ContractValidationError: pass] *)
Fixpoint some_passes (check : json → result unit) (l : list json) : result bool :=
  match l with
  | [] => Ok false
  | branch :: l =>
      match check branch with
      | Ok _ => Ok true
      | Err (ValueError _) => some_passes check l
      | Err e => Err e
      end
  end.

Fixpoint all_pass {A} (check : A → result unit) (l : list A) : result unit :=
  match l with [] => Ok tt | x :: l => check x;; all_pass check l end.

Definition one_of (check : json → result unit) (branches : json) (path message : string) : result unit :=
  l ← iterate branches;
  passed ← some_passes check l;
  if passed : bool then Ok tt else _fail path message.

(** [if cond: _fail(path, message)] *)
Definition fail_if (cond : bool) (path message : string) : result unit :=
  if cond then _fail path message else Ok tt.

(** A bound of the schema, where it has one. *)
Definition bound (schema : list (string * json)) (key : string) (violated : json → result bool)
    (path message : string) : result unit :=
  if key ∈? schema.*1 then
    v ← violated (field schema key); fail_if v path message
  else Ok tt.

(* [sidecar/ibreeze/rpc/public_contracts.py:96-103 _validate] *)
Definition check_keys (strict_additional : bool) (d schema : list (string * json)) (path : string)
    : result unit :=
  required ← iterate (field_or schema "required" (JList []));
  all_pass (λ name,
    ensure (hashable name) (TypeErr "unhashable type");;
    fail_if (negb (match name with JStr n => n ∈? d.*1 | _ => false end))
      (path +:+ "." +:+ py_str repr name) "is required") required;;
  if strict_additional && bool_decide (field schema "additionalProperties" = JBool false) then
    properties ← iterate (field_or schema "properties" (JObj []));
    ensure (forallb hashable properties) (TypeErr "unhashable type");;
    match sort_by String.leb (List.filter (λ k, negb (JStr k ∈? properties)) d.*1) with
    | [] => Ok tt
    | k :: _ => _fail (path +:+ "." +:+ k) "additional property is not allowed"
    end
  else Ok tt.

(* [sidecar/ibreeze/rpc/public_contracts.py:122-131 _validate] *)
Definition check_string (s : string) (schema : list (string * json)) (path : string) : result unit :=
  short ← py_lt (JInt (py_len s)) (field_or schema "minLength" (JInt 0));
  long ← (if short : bool then Ok true
          else py_lt (field_or schema "maxLength" (JInt (2 ^ 31 - 1))) (JInt (py_len s)));
  fail_if long path "length is outside allowed range";;
  (let pattern := field schema "pattern" in
   if json_truthy pattern then
     match pattern with
     | JStr p => matches ← fullmatch p s; fail_if (negb matches) path "does not match pattern"
     | _ => Err (TypeErr "first argument must be string or compiled pattern")
     end
   else Ok tt);;
  if bool_decide (field schema "format" = JStr "uuid")
  then fail_if (negb (is_uuid s)) path "must be a UUID"
  else Ok tt.

(* [sidecar/ibreeze/rpc/public_contracts.py:55-146 _validate] *)
Fixpoint _validate (fuel : nat) (strict_additional : bool) (base : string)
    (value schema : json) (path : string) : result unit :=
  match fuel with
  | O => Err RecursionError
  | S fuel =>
      let again := _validate fuel strict_additional base in
      match schema with
      | JObj schema =>
          schema ← _resolve schema base;
          if "oneOf" ∈? schema.*1 then
            one_of (λ branch, again value branch path) (field schema "oneOf") path "does not match oneOf"
          else if "anyOf" ∈? schema.*1 then
            one_of (λ branch, again value branch path) (field schema "anyOf") path "does not match anyOf"
          else
          fail_if (("const" ∈? schema.*1) && negb (py_eq value (field schema "const"))) path "must equal const";;
          (if "enum" ∈? schema.*1 then
             known ← py_in value (field schema "enum");
             fail_if (negb known) path "value is not in enum"
           else Ok tt);;
          match field schema "type" with
          | JList kinds =>
              one_of (λ branch, again value (JObj (dict_set schema "type" branch)) path) (JList kinds)
                path ("must match one of " +:+ repr (JList kinds))
          | JStr kind =>
              if kind =? "object" then
                match value with
                | JObj d =>
                    check_keys strict_additional d schema path;;
                    match field_or schema "properties" (JObj []) with
                    | JObj properties =>
                        all_pass (λ '(name, child),
                          if name ∈? d.*1 then again (field d name) child (path +:+ "." +:+ name) else Ok tt)
                          properties
                    | _ => Err (AttributeErr "items")
                    end
                | _ => _fail path "must be an object"
                end
              else if kind =? "array" then
                match value with
                | JList l =>
                    bound schema "minItems" (py_lt (JInt (Z.of_nat (length l)))) path "has too few items";;
                    bound schema "maxItems" (λ m, py_lt m (JInt (Z.of_nat (length l)))) path "has too many items";;
                    match field schema "items" with
                    | JObj items =>
                        all_pass (λ '(index, x),
                          again x (JObj items) (path +:+ "[" +:+ pretty.pretty index +:+ "]"))
                          (zip (seq 0 (length l)) l)
                    | _ => Ok tt
                    end
                | _ => _fail path "must be an array"
                end
              else if kind =? "string" then
                match value with
                | JStr s => check_string s schema path
                | _ => _fail path "must be a string"
                end
              else if kind =? "integer" then
                match value with
                | JInt n =>
                    bound schema "minimum" (py_lt value) path "is below minimum";;
                    bound schema "maximum" (λ m, py_lt m value) path "is above maximum"
                | _ => _fail path "must be an integer"
                end
              else if kind =? "number" then
                fail_if (match value with JInt _ | JFloat _ => false | _ => true end) path "must be a number"
              else if kind =? "boolean" then
                fail_if (match value with JBool _ => false | _ => true end) path "must be a boolean"
              else if kind =? "null" then
                fail_if (negb (bool_decide (value = JNull))) path "must be null"
              else Ok tt
          | _ => Ok tt
          end
      | _ => Err (AttributeErr "get")
      end
  end.

(** ** The registry *)

(** [next((item for item in registry["methods"] if item["method"] == method), None)] *)
Fixpoint find_entry (method : string) (l : list json) : result (option json) :=
  match l with
  | [] => Ok None
  | entry :: l =>
      m ← subscript entry "method";
      if py_eq m (JStr method) then Ok (Some entry) else find_entry method l
  end.

Definition entry_of (method : string) : result (option json) :=
  match _load "registry.v1.json" with
  | None => Ok None
  | Some registry => methods ← subscript registry "methods"; l ← iterate methods; find_entry method l
  end.

(* [sidecar/ibreeze/rpc/public_contracts.py:149-158 _method_schema] *)
Definition _method_schema (method suffix : string) : result (option (json * string)) :=
  entry ← entry_of method;
  match entry with
  | None => Ok None
  | Some entry =>
      filename ← subscript entry (if suffix =? "request" then "request_schema" else "response_schema");
      match filename with
      | JStr filename => Ok ((λ schema, (schema, filename)) <$> _load filename)
      | _ => Err (TypeErr "unsupported operand type(s) for /")
      end
  end.

(* [sidecar/ibreeze/rpc/public_contracts.py:161-174 method_is_write] *)
Definition method_is_write (method : string) : result (option bool) :=
  entry ← entry_of method;
  match entry with
  | Some (JObj entry) => Ok (Some (py_eq (field entry "kind") (JStr "write")))
  | _ => Ok None
  end.

(** The methods with an entry, for diagnostics; the module fails to load if it cannot be
    computed. *)
(* [sidecar/ibreeze/rpc/public_contracts.py:181-193 PUBLIC_METHODS] *)
Definition PUBLIC_METHODS : result (gset string) :=
  let registry := match _load "registry.v1.json" with
                  | Some registry => if json_truthy registry then registry else JObj []
                  | None => JObj []
                  end in
  methods ← attr_get registry "methods" (JList []);
  l ← iterate methods;
  Ok (list_to_set (["system.handshake"; "system.health"; "system.shutdown"] ++
    omap (λ entry, match entry with
                   | JObj d => match field d "method" with JStr m => Some m | _ => None end
                   | _ => None
                   end) l)).

Section Requests.
Context (limit : nat).

(* [sidecar/ibreeze/rpc/public_contracts.py:196-201 validate_request] *)
Definition validate_request (method : string) (params : list (string * json)) : result unit :=
  resolved ← _method_schema method "request";
  match resolved with
  | None => Ok tt
  | Some (schema, filename) => _validate limit true filename (JObj params) schema "$"
  end.

(* [sidecar/ibreeze/rpc/public_contracts.py:204-209 validate_response] *)
Definition validate_response (method : string) (r : json) : result unit :=
  resolved ← _method_schema method "response";
  match resolved with
  | None => Ok tt
  | Some (schema, filename) => _validate limit false filename r schema "$"
  end.
End Requests.
End Validation.

(** ** What a schema means

    The schemas the registry uses, without the combinations the validator gives another
    meaning to. *)

Inductive Schema :=
  | AnySchema
  | ObjSchema (properties : list (string * Schema)) (required : list string) (closed : bool)
  | ArrSchema (items : Schema) (least most : option Z)
  | StrSchema (least most : option Z) (pattern : option string) (uuid : bool)
  | IntSchema (least most : option Z)
  | NumSchema | BoolSchema | NullSchema
  | EnumSchema (members : list string)
  | OneOfSchema (branches : list Schema).

Definition keyword (key : string) (o : option json) : list (string * json) :=
  match o with Some j => [(key, j)] | None => [] end.

(** The schema as a document. *)
Fixpoint encode (s : Schema) : list (string * json) :=
  match s with
  | AnySchema => []
  | ObjSchema properties required closed =>
      [("type", JStr "object"); ("additionalProperties", JBool (negb closed));
       ("properties", JObj (map (λ p, (p.1, JObj (encode p.2))) properties));
       ("required", JList (map JStr required))]
  | ArrSchema items least most =>
      [("type", JStr "array"); ("items", JObj (encode items))] ++
      keyword "minItems" (JInt <$> least) ++ keyword "maxItems" (JInt <$> most)
  | StrSchema least most pattern uuid =>
      [("type", JStr "string")] ++ keyword "minLength" (JInt <$> least) ++
      keyword "maxLength" (JInt <$> most) ++ keyword "pattern" (JStr <$> pattern) ++
      keyword "format" (if uuid then Some (JStr "uuid") else None)
  | IntSchema least most =>
      [("type", JStr "integer")] ++ keyword "minimum" (JInt <$> least) ++ keyword "maximum" (JInt <$> most)
  | NumSchema => [("type", JStr "number")]
  | BoolSchema => [("type", JStr "boolean")]
  | NullSchema => [("type", JStr "null")]
  | EnumSchema members => [("enum", JList (map JStr members))]
  | OneOfSchema branches => [("oneOf", JList (map (λ s, JObj (encode s)) branches))]
  end.

Definition every {A} (P : A → Prop) (l : list A) : Prop := foldr (λ x rest, P x ∧ rest) True l.
Definition some {A} (P : A → Prop) (l : list A) : Prop := foldr (λ x rest, P x ∨ rest) False l.

Definition at_least (least : option Z) (n : Z) : Prop := match least with Some m => (m ≤ n)%Z | None => True end.
Definition at_most (most : option Z) (n : Z) : Prop := match most with Some m => (n ≤ m)%Z | None => True end.

Section Meaning.
Context (repr : json → string) (num_lt num_eq : json → json → bool).
Context (fullmatch : string → string → result bool) (files : string → option json).

(** The values a schema describes; [strict] is whether properties it does not name count
    against a closed object.  A string is never longer than [2 ** 31 - 1]. *)
Fixpoint conforms (strict : bool) (s : Schema) (v : json) : Prop :=
  match s, v with
  | AnySchema, _ => True
  | ObjSchema properties required closed, JObj d =>
      (∀ n, n ∈ required → n ∈ d.*1) ∧
      (strict = true → closed = true → ∀ k, k ∈ d.*1 → k ∈ properties.*1) ∧
      every (λ p, p.1 ∈ d.*1 → conforms strict p.2 (field d p.1)) properties
  | ArrSchema items least most, JList l =>
      at_least least (Z.of_nat (length l)) ∧ at_most most (Z.of_nat (length l)) ∧
      ∀ x, x ∈ l → conforms strict items x
  | StrSchema least most pattern uuid, JStr t =>
      at_least least (py_len t) ∧ (py_len t ≤ default (2 ^ 31 - 1) most)%Z ∧
      (∀ p, pattern = Some p → p ≠ "" → fullmatch p t = Ok true) ∧ (uuid = true → is_uuid t = true)
  | IntSchema least most, JInt n => at_least least n ∧ at_most most n
  | NumSchema, (JInt _ | JFloat _) => True
  | BoolSchema, JBool _ => True
  | NullSchema, JNull => True
  | EnumSchema members, JStr t => t ∈ members
  | OneOfSchema branches, _ => some (λ s, conforms strict s v) branches
  | _, _ => False
  end.

(** Its patterns are regular expressions. *)
Fixpoint compiles (s : Schema) : Prop :=
  match s with
  | ObjSchema properties _ _ => every (λ p, compiles p.2) properties
  | ArrSchema items _ _ => compiles items
  | StrSchema _ _ (Some p) _ => ∀ t, is_Some (match fullmatch p t with Ok b => Some b | Err _ => None end)
  | OneOfSchema branches => every compiles branches
  | _ => True
  end.

Fixpoint schema_depth (s : Schema) : nat :=
  S (match s with
     | ObjSchema properties _ _ => foldr (λ p n, schema_depth p.2 `max` n) 0%nat properties
     | ArrSchema items _ _ => schema_depth items
     | OneOfSchema branches => foldr (λ s n, schema_depth s `max` n) 0%nat branches
     | _ => 0
     end)%nat.

(** [m] passes if [P] holds, and raises a [ContractValidationError] if it does not. *)
Definition decided (P : Prop) (m : result unit) : Prop :=
  (P ∧ m = Ok tt) ∨ (¬ P ∧ ∃ message, m = Err (ValueError message)).

Lemma decided_iff P Q m : (P ↔ Q) → decided P m → decided Q m.
Proof. unfold decided. intros <-. done. Qed.

Lemma decided_then P Q m k : decided P m → (P → decided Q k) → decided (P ∧ Q) (m;; k).
Proof.
  intros [[HP ->]|[HP [e ->]]] Hk.
  - destruct (Hk HP) as [[HQ ->]|[HQ [e ->]]]; [by left|]. right. split; [tauto|by exists e].
  - right. split; [tauto|by exists e].
Qed.

Lemma decided_fail_if b path message : decided (b = false) (fail_if b path message).
Proof. destruct b; [right; split; [done|by eexists]|by left]. Qed.

Lemma decided_ok : decided True (Ok tt).
Proof. by left. Qed.

Lemma decided_all_pass {A B} (f : B → A) (P : B → Prop) (check : A → result unit) l :
  (∀ x, x ∈ l → decided (P x) (check (f x))) → decided (∀ x, x ∈ l → P x) (all_pass check (map f l)).
Proof.
  induction l as [|x l IH]; intros Hl; [left; split; [set_solver|done]|]. cbn [map all_pass].
  eapply decided_iff; [|apply (decided_then (P x) (∀ y, y ∈ l → P y)); [apply Hl; by left|]].
  - split; [intros [Hx Hr] y [->|Hy]%elem_of_cons; auto|]. intros H. split; intros; apply H; [by left|by right].
  - intros _. apply IH. intros y Hy. apply Hl. by right.
Qed.

Lemma decided_one_of {A} (f : A → json) (P : A → Prop) (check : json → result unit) l path message :
  (∀ x, x ∈ l → decided (P x) (check (f x))) →
  decided (∃ x, x ∈ l ∧ P x) (one_of check (JList (map f l)) path message).
Proof.
  unfold one_of. cbn [iterate mbind result_bind].
  induction l as [|x l IH]; intros Hl; cbn [map some_passes].
  { right. split; [set_solver|by eexists]. }
  destruct (Hl x) as [[HP ->]|[HP [e ->]]]; [by left| |].
  - left. split; [exists x; split; [by left|done]|done].
  - eapply decided_iff; [|apply IH; intros y Hy; apply Hl; by right].
    split; [intros (y & Hy & HPy); exists y; split; [by right|done]|].
    intros (y & [->|Hy]%elem_of_cons & HPy); [done|]. by exists y.
Qed.

Lemma every_iff {A} (P : A → Prop) l : every P l ↔ ∀ x, x ∈ l → P x.
Proof. induction l as [|x l IH]; simpl; [set_solver|]. setoid_rewrite elem_of_cons. naive_solver. Qed.

Lemma some_iff {A} (P : A → Prop) l : some P l ↔ ∃ x, x ∈ l ∧ P x.
Proof. induction l as [|x l IH]; simpl; [set_solver|]. setoid_rewrite elem_of_cons. naive_solver. Qed.

Lemma deepest {A} (f : A → nat) l n :
  (foldr (λ x n, f x `max` n) 0 l ≤ n)%nat → ∀ x, x ∈ l → (f x ≤ n)%nat.
Proof.
  induction l as [|y l IH]; simpl; [set_solver|]. intros Hn x [->|Hx]%elem_of_cons; [lia|].
  apply IH; [lia|done].
Qed.

Notation validate := (_validate repr num_lt num_eq fullmatch files).

Lemma resolve_plain schema base : field schema "$ref" = JNull → _resolve files schema base = Ok schema.
Proof. unfold _resolve. by intros ->. Qed.

Lemma py_lt_int m n : py_lt num_lt (JInt m) (JInt n) = Ok (m <? n)%Z.
Proof. done. Qed.

Lemma decided_least least key schema n path message :
  (∀ m, least = Some m → key ∈ schema.*1 ∧ field schema key = JInt m) →
  (least = None → key ∉ schema.*1) →
  decided (at_least least n) (bound schema key (py_lt num_lt (JInt n)) path message).
Proof.
  intros Hs Hn. unfold bound, mem. destruct least as [m|].
  - destruct (Hs m eq_refl) as [Hk ->]. rewrite bool_decide_true by done.
    rewrite py_lt_int. cbn [mbind result_bind].
    eapply decided_iff; [|apply decided_fail_if]. simpl. rewrite Z.ltb_ge. lia.
  - rewrite bool_decide_false by auto. apply decided_ok.
Qed.

Lemma decided_most most key schema n path message :
  (∀ m, most = Some m → key ∈ schema.*1 ∧ field schema key = JInt m) →
  (most = None → key ∉ schema.*1) →
  decided (at_most most n) (bound schema key (λ m, py_lt num_lt m (JInt n)) path message).
Proof.
  intros Hs Hn. unfold bound, mem. destruct most as [m|].
  - destruct (Hs m eq_refl) as [Hk ->]. rewrite bool_decide_true by done.
    rewrite py_lt_int. cbn [mbind result_bind].
    eapply decided_iff; [|apply decided_fail_if]. simpl. rewrite Z.ltb_ge. lia.
  - rewrite bool_decide_false by auto. apply decided_ok.
Qed.

(** A string against the four things a schema can ask of it. *)
Lemma decided_string strict least most pattern uuid t path :
  compiles (StrSchema least most pattern uuid) →
  decided (conforms strict (StrSchema least most pattern uuid) (JStr t))
    (check_string num_lt fullmatch t (encode (StrSchema least most pattern uuid)) path).
Proof.
  intros Hc. unfold check_string. set (schema := encode _).
  assert (field_or schema "minLength" (JInt 0) = JInt (default 0%Z least)) as ->
    by (by destruct least, most, pattern, uuid).
  assert (field_or schema "maxLength" (JInt (2 ^ 31 - 1)) = JInt (default (2 ^ 31 - 1)%Z most)) as ->
    by (by destruct least, most, pattern, uuid).
  assert (field schema "pattern" = from_option JStr JNull pattern) as ->
    by (by destruct least, most, pattern, uuid).
  assert (field schema "format" = if uuid then JStr "uuid" else JNull) as ->
    by (by destruct least, most, pattern, uuid).
  clearbody schema. pose proof (py_len_nonneg t) as Ht. rewrite !py_lt_int. cbn [mbind result_bind].
  set (P := (at_least least (py_len t) ∧ (py_len t ≤ default (2 ^ 31 - 1) most)%Z)).
  apply (decided_iff (P ∧ ((∀ p, pattern = Some p → p ≠ "" → fullmatch p t = Ok true) ∧
    (uuid = true → is_uuid t = true)))); [simpl; subst P; tauto|].
  assert (∀ k, (long ← (if py_len t <? default 0 least then Ok true else
      Ok (default (2 ^ 31 - 1) most <? py_len t));
    fail_if long path "length is outside allowed range";; k)%Z =
    (fail_if ((py_len t <? default 0 least) || (default (2 ^ 31 - 1) most <? py_len t))%Z path
      "length is outside allowed range";; k)) as -> by (intros; by destruct (py_len t <? default 0 least)%Z).
  apply decided_then.
  { eapply decided_iff; [|apply decided_fail_if]. subst P. rewrite orb_false_iff, !Z.ltb_ge.
    destruct least; simpl; intuition lia. }
  intros _. apply decided_then.
  - destruct pattern as [p|]; cbn [from_option json_truthy].
    2:{ left. split; [by intros ?|done]. }
    destruct (String.eqb_spec p "") as [->|Hp]; cbn [negb].
    { left. split; [by intros ? [= <-]|done]. }
    destruct (Hc t) as [b Hb]. destruct (fullmatch p t) as [b'|] eqn:Hm; [|done]. injection Hb as <-.
    cbn [mbind result_bind]. eapply decided_iff; [|apply decided_fail_if]. rewrite negb_false_iff.
    split; [intros -> q [= <-] _; done|]. intros H. specialize (H p eq_refl Hp). congruence.
  - intros _. destruct uuid.
    + rewrite bool_decide_true by done. eapply decided_iff; [|apply decided_fail_if].
      rewrite negb_false_iff. tauto.
    + rewrite bool_decide_false by done. left. done.
Qed.

Lemma plain_keys s :
  match s with OneOfSchema _ => True | _ => ("oneOf" ∈? (encode s).*1) = false end ∧
  ("anyOf" ∈? (encode s).*1) = false ∧ ("const" ∈? (encode s).*1) = false ∧
  field (encode s) "$ref" = JNull ∧
  match s with EnumSchema _ => True | _ => ("enum" ∈? (encode s).*1) = false end.
Proof.
  destruct s as [|ps req closed|items [least|] [most|]|[least|] [most|] [p|] []|[least|] [most|]| | | | |]; done.
Qed.

Lemma decided_keys strict d ps req closed path :
  decided ((∀ n, n ∈ req → n ∈ d.*1) ∧ (strict = true → closed = true → ∀ k, k ∈ d.*1 → k ∈ ps.*1))
    (check_keys repr strict d (encode (ObjSchema ps req closed)) path).
Proof.
  unfold check_keys. set (schema := encode _).
  change (field_or schema "required" _) with (JList (map JStr req)).
  change (field_or schema "properties" _) with (JObj (map (λ p, (p.1, JObj (encode p.2))) ps)).
  change (field schema "additionalProperties") with (JBool (negb closed)). clearbody schema.
  cbn [iterate mbind result_bind]. apply decided_then.
  - apply decided_all_pass. intros n Hn. cbn [hashable ensure mbind result_bind].
    eapply decided_iff; [|apply decided_fail_if]. unfold mem. by rewrite negb_false_iff, bool_decide_eq_true.
  - intros _. destruct strict; cbn [andb]; [|left; split; [by intros|done]].
    destruct closed; cbn [negb]; [rewrite bool_decide_true by done|rewrite bool_decide_false by done; left; split; [by intros|done]].
    assert (map JStr (map (λ p, (p.1, JObj (encode p.2))) ps).*1 = map JStr ps.*1) as ->.
    { clear. induction ps as [|p ps IH]; [done|]. exact (f_equal (cons (JStr p.1)) IH). }
    assert (forallb hashable (map JStr ps.*1) = true) as ->
      by (apply forallb_forall; by intros x (n & <- & _)%in_map_iff).
    cbn [ensure mbind result_bind].
    assert (∀ k, JStr k ∈ map JStr ps.*1 ↔ k ∈ ps.*1) as Hmap.
    { intros k. rewrite !list_elem_of_In, in_map_iff. naive_solver. }
    pose proof (sort_by_perm String.leb (List.filter (λ k, negb (JStr k ∈? map JStr ps.*1)) d.*1)) as Hperm.
    assert (∀ k, k ∈ List.filter (λ k, negb (JStr k ∈? map JStr ps.*1)) d.*1 ↔ k ∈ d.*1 ∧ k ∉ ps.*1) as Hf.
    { intros k. rewrite list_elem_of_In, filter_In, <-list_elem_of_In. unfold mem.
      rewrite negb_true_iff, bool_decide_eq_false, Hmap. done. }
    destruct (sort_by _ _) as [|k ks].
    + left. split; [|done]. intros _ _ k Hk. destruct (decide (k ∈ ps.*1)); [done|].
      apply Permutation_nil in Hperm. assert (k ∈ ([] : list string)) as Hbad; [|set_solver].
      rewrite <-Hperm. by apply Hf.
    + right. split; [|by eexists]. intros H. assert (k ∈ d.*1 ∧ k ∉ ps.*1) as [Hk Hnk].
      { apply Hf. rewrite <-Hperm. by left. }
      by apply Hnk, H.
Qed.

Section Parts.
Context (fuel : nat) (strict : bool) (base : string).
Hypothesis IH : ∀ s v path, (schema_depth s ≤ fuel)%nat → compiles s →
  decided (conforms strict s v) (validate fuel strict base v (JObj (encode s)) path).

(** A property's value is checked where there is one. *)
Lemma decided_properties d ps path :
  (∀ p, p ∈ ps → (schema_depth p.2 ≤ fuel)%nat ∧ compiles p.2) →
  decided (∀ p, p ∈ ps → p.1 ∈ d.*1 → conforms strict p.2 (field d p.1))
    (all_pass (λ '(name, child),
       if name ∈? d.*1 then validate fuel strict base (field d name) child (path +:+ "." +:+ name) else Ok tt)
      (map (λ p, (p.1, JObj (encode p.2))) ps)).
Proof.
  intros Hps. induction ps as [|[k s] ps IHps]; [left; split; [set_solver|done]|]. cbn [map all_pass].
  eapply decided_iff; [|eapply (decided_then (k ∈ d.*1 → conforms strict s (field d k)));
    [|intros _; apply IHps; intros p Hp; apply Hps; by right]].
  - setoid_rewrite elem_of_cons. split; [intros [H1 H2] p [->|Hp]; auto|].
    intros H. split; [apply (H (k, s)); by left|]. intros p Hp. apply H. by right.
  - unfold mem. case_bool_decide as Hk; [|by left]. cbn [fst snd].
    destruct (Hps (k, s)) as [Hd Hc]; [by left|].
    eapply decided_iff; [|by apply IH]. tauto.
Qed.

Lemma decided_items l items path :
  (schema_depth items ≤ fuel)%nat → compiles items →
  decided (∀ x, x ∈ l → conforms strict items x)
    (all_pass (λ '(index, x),
       validate fuel strict base x (JObj (encode items)) (path +:+ "[" +:+ pretty.pretty index +:+ "]"))
      (zip (seq 0 (length l)) l)).
Proof.
  intros Hd Hc. generalize 0%nat. induction l as [|x l IHl]; intros n; [left; split; [set_solver|done]|].
  cbn [length seq zip zip_with all_pass].
  eapply decided_iff; [|apply (decided_then (conforms strict items x)); [by apply IH|intros _; apply (IHl (S n))]].
  setoid_rewrite elem_of_cons. naive_solver.
Qed.

End Parts.

(** The validator decides what a schema means: with enough depth for the schema it accepts
    the values the schema describes, and refuses all others with a contract error. *)
Lemma validate_decides fuel strict base s v path :
  (schema_depth s ≤ fuel)%nat → compiles s →
  decided (conforms strict s v) (validate fuel strict base v (JObj (encode s)) path).
Proof.
  revert s v path. induction fuel as [|fuel IH]; intros s v path Hd Hc; [destruct s; simpl in Hd; lia|].
  cbn [_validate]. destruct (plain_keys s) as (Hone & Hany & Hconst & Href & Henum).
  rewrite resolve_plain by done. cbn [mbind result_bind]. rewrite Hany, Hconst. cbn [mbind result_bind andb fail_if].
  destruct s as [|ps req closed|items least most|least most pattern uuid|least most| | | |members|branches];
    rewrite ?Hone, ?Henum; cbn [mbind result_bind].
  - apply decided_ok.
  - change (field _ "type") with (JStr "object"). destruct v as [| | | | | |d]; try (right; split; [tauto|by eexists]).
    change (String.eqb "object" "object") with true. cbn beta iota. 
    cbn [conforms]. eapply decided_iff; [rewrite every_iff; symmetry; apply and_assoc|].
    apply decided_then; [apply decided_keys|]. intros _.
    change (field_or _ "properties" _) with (JObj (map (λ p, (p.1, JObj (encode p.2))) ps)).
    apply decided_properties; [done|]. simpl in Hd, Hc. rewrite every_iff in Hc.
    intros p Hp. split; [|by apply Hc]. apply (deepest (λ p, schema_depth p.2) ps); [lia|done].
  - change (field _ "type") with (JStr "array"). simpl in Hd, Hc.
    destruct v as [| | | | |l|]; try (right; split; [tauto|by eexists]). cbn [conforms].
    change (String.eqb "array" "object") with false. change (String.eqb "array" "array") with true. cbn beta iota.
    apply decided_then; [apply decided_least|intros _; apply decided_then; [apply decided_most|intros _]].
    5:{ change (field _ "items") with (JObj (encode items)). apply decided_items; [done|lia|done]. }
    all: destruct least, most; intros; simplify_eq; first [split; [set_solver|done]|set_solver].
  - change (field _ "type") with (JStr "string"). destruct v; try (right; split; [tauto|by eexists]).
    by apply decided_string.
  - change (field _ "type") with (JStr "integer"). destruct v; try (right; split; [tauto|by eexists]).
    apply decided_then; [apply decided_least|intros _; apply decided_most];
      destruct least, most; intros; simplify_eq; first [split; [set_solver|done]|set_solver].
  - destruct v; first [apply decided_ok|right; split; [tauto|by eexists]].
  - destruct v; first [apply decided_ok|right; split; [tauto|by eexists]].
  - destruct v; first [apply decided_ok|right; split; [tauto|by eexists]].
  - change ("enum" ∈? _) with true. change (field _ "type") with JNull. cbn beta iota.
    change (field _ "enum") with (JList (map JStr members)). cbn [py_in mbind result_bind].
    eapply (decided_iff (conforms strict (EnumSchema members) v ∧ True)); [tauto|].
    apply decided_then; [|intros _; apply decided_ok].
    eapply decided_iff; [|apply decided_fail_if]. rewrite negb_false_iff, existsb_exists.
    split.
    + intros (x & (m & <- & Hm)%in_map_iff & Heq). destruct v; try discriminate Heq. simpl in Heq. apply String.eqb_eq in Heq as ->.
      by apply list_elem_of_In.
    + destruct v as [| | | |s| |]; cbn [conforms]; try tauto. intros Hm. exists (JStr s). split; [|apply String.eqb_refl].
      apply in_map. by apply list_elem_of_In.
  - cbn [conforms]. change ("oneOf" ∈? _) with true. cbn beta iota.
    change (field _ "oneOf") with (JList (map (λ s, JObj (encode s)) branches)).
    simpl in Hd, Hc. rewrite every_iff in Hc.
    eapply decided_iff; [symmetry; apply some_iff|].
    apply decided_one_of. intros s Hs. apply IH; [|by apply Hc].
    eapply (deepest schema_depth); [|done]; lia.
Qed.

Context (limit : nat).


(** A branch that says nothing the validator looks for. *)
Definition blind (branch : list (string * json)) : bool :=
  forallb (λ k, negb (k ∈? branch.*1)) ["$ref"; "oneOf"; "anyOf"; "const"; "enum"; "type"].

Lemma field_absent d k : k ∉ d.*1 → field d k = JNull.
Proof.
  induction d as [|[k' v] d IH]; [done|]. cbn [field fmap list_fmap fst]. rewrite not_elem_of_cons.
  intros [Hk Hd]. assert ((k' =? k) = false) as -> by (apply String.eqb_neq; congruence). by apply IH.
Qed.

Lemma validate_blind fuel strict base v branch path :
  blind branch = true → validate (S fuel) strict base v (JObj branch) path = Ok tt.
Proof.
  unfold blind. intros Hb. rewrite forallb_forall in Hb.
  assert (∀ k, k ∈ ["$ref"; "oneOf"; "anyOf"; "const"; "enum"; "type"] → (k ∈? branch.*1) = false) as Hk.
  { intros k Hk%list_elem_of_In. by apply negb_true_iff, Hb. }
  assert (∀ k, k ∈ ["$ref"; "oneOf"; "anyOf"; "const"; "enum"; "type"] → field branch k = JNull) as Hf.
  { intros k Hin. apply field_absent. specialize (Hk k Hin). unfold mem in Hk. by apply bool_decide_eq_false in Hk. }
  cbn [_validate]. rewrite resolve_plain by (apply Hf; set_solver). cbn [mbind result_bind].
  rewrite !Hk by set_solver. cbn [andb fail_if mbind result_bind]. by rewrite Hf by set_solver.
Qed.

(** A request schema with [oneOf] is no schema at all.  The validator returns with the
    first branch that passes, and a branch that only lists required names passes always,
    because they are looked at only where the branch has a type.  So the method takes any
    parameters: none of the required ones, unknown ones, values of any type. *)
Lemma one_of_hides_the_schema method schema filename branch branches params :
  _method_schema num_eq files method "request" = Ok (Some (JObj schema, filename)) →
  field schema "$ref" = JNull → "oneOf" ∈ schema.*1 →
  field schema "oneOf" = JList (JObj branch :: branches) → blind branch = true →
  (2 ≤ limit)%nat →
  validate_request repr num_lt num_eq fullmatch files limit method params = Ok tt.
Proof.
  unfold validate_request. intros -> Hr Hk Ho Hb Hl. cbn [mbind result_bind].
  destruct limit as [|[|n]]; [lia|lia|].
  change (validate (S (S n)) ?a ?b ?c ?d ?e) with (_validate repr num_lt num_eq fullmatch files (S (S n)) a b c d e).
  remember (S n) as m eqn:Hm. cbn [_validate]. rewrite resolve_plain by done. cbn [mbind result_bind].
  assert (("oneOf" ∈? schema.*1) = true) as -> by (by unfold mem; rewrite bool_decide_true).
  rewrite Ho. unfold one_of. cbn [iterate mbind result_bind some_passes]. subst m.
  by rewrite validate_blind.
Qed.
End Meaning.

Example registry_lookup :
  let files := λ name, if name =? "registry.v1.json" then Some (JObj [("methods", JList
    [JObj [("method", JStr "a.list"); ("kind", JStr "read")];
     JObj [("method", JStr "a.set"); ("kind", JStr "write")]])]) else None in
  map (method_is_write (λ _ _, false) files) ["a.list"; "a.set"; "b"] =
    [Ok (Some false); Ok (Some true); Ok None].
Proof. vm_compute. reflexivity. Qed.

(** ** Two methods of the registry *)

Module Demo.
Definition no_floats (a b : json) : bool := false.
Definition no_repr (j : json) : string := "".
Definition any_match (p t : string) : result bool := Ok true.

Definition uuid : json := JObj [("type", JStr "string"); ("format", JStr "uuid")].

(** [methods/knowledge.remove.request.schema.json] *)
Definition knowledge_remove : list (string * json) := [
  ("title", JStr "KnowledgeRemoveRequest"); ("type", JStr "object");
  ("properties", JObj [("company_id", uuid); ("knowledge_id", uuid); ("source_id", uuid)]);
  ("additionalProperties", JBool false);
  ("oneOf", JList [JObj [("required", JList [JStr "knowledge_id"])]; JObj [("required", JList [JStr "source_id"])]]);
  ("required", JList [JStr "company_id"])].

Definition id_schema : Schema := StrSchema None None None true.
Definition list_request : Schema :=
  ObjSchema [("company_id", id_schema); ("limit", IntSchema (Some 1) (Some 200))] ["company_id"] true.
Definition list_response : Schema :=
  ObjSchema [("items", ArrSchema id_schema None None); ("next", OneOfSchema [StrSchema None None None false; NullSchema])]
    ["items"; "next"] true.

Definition entry (method request response : string) : json := JObj [
  ("method", JStr method); ("request_schema", JStr request); ("response_schema", JStr response)].

Definition files (name : string) : option json :=
  dict_get [("registry.v1.json", JObj [("methods", JList [
               entry "knowledge.remove" "remove.request" "remove.response";
               entry "artifact.list" "list.request" "list.response"])]);
            ("remove.request", JObj knowledge_remove);
            ("list.request", JObj (encode list_request)); ("list.response", JObj (encode list_response))] name.

Definition request : string → list (string * json) → result unit :=
  validate_request no_repr no_floats no_floats any_match files 50.
Definition response : string → json → result unit :=
  validate_response no_repr no_floats no_floats any_match files 50.

Definition an_id : json := JStr "12345678-1234-5678-1234-567812345678".
Definition page : json := JObj [("items", JList [an_id]); ("next", JNull); ("total", JInt 1)].
End Demo.

Example requests_checked :
  map (Demo.request "artifact.list")
    [[("company_id", Demo.an_id)]; []; [("company_id", JInt 1)]; [("company_id", Demo.an_id); ("limit", JBool true)];
     [("company_id", Demo.an_id); ("limit", JInt 201)]; [("company_id", Demo.an_id); ("z", JNull); ("b", JNull)]] =
  [Ok tt; Err (ValueError "$.company_id: is required"); Err (ValueError "$.company_id: must be a string");
   Err (ValueError "$.limit: must be an integer"); Err (ValueError "$.limit: is above maximum");
   Err (ValueError "$.b: additional property is not allowed")].
Proof. vm_compute. reflexivity. Qed.


(** Removing knowledge without a company, an id, or sense. *)
Lemma one_of_hides_the_schema_witness :
  Demo.request "knowledge.remove" [("limit", JStr "everything")] = Ok tt.
Proof.
  apply (one_of_hides_the_schema Demo.no_repr Demo.no_floats Demo.no_floats Demo.any_match Demo.files 50
    "knowledge.remove" Demo.knowledge_remove "remove.request"
    [("required", JList [JStr "knowledge_id"])] [JObj [("required", JList [JStr "source_id"])]]);
    [vm_compute; reflexivity|reflexivity|set_solver|reflexivity|vm_compute; reflexivity|lia].
Defined.
