(* ===== verification/Multiplexer.v ===== *)
(** * The RPC multiplexer ([rpc/multiplexer.py])

    Pending requests and streams of one connection.  The futures and queues are shared
    objects (the caller of [register_pending] keeps the future it gets), so they live in
    stores of their own and the two dicts hold references into them.

    The theorems: a future is settled at most once and its answer never changes; the
    dicts stay within their bound; and a lost connection settles everything. *)

From S2P Require Import Prelude PyEnum PyStr.

Definition MAX_PENDING_PER_DIRECTION : nat := 256.
Definition MAX_STREAM_BUFFER_FRAMES : nat := 64.

(** [asyncio.Future]: [Waiting] is not [done()]. *)
Inductive Future := Waiting | Result (v : json) | Exception (e : exn) | Cancelled.

Definition settled (f : Future) : bool := match f with Waiting => false | _ => true end.

(* [sidecar/ibreeze/rpc/multiplexer.py:32-36 PendingRequest] *)
Record PendingRequest := { deadline : Z; response_future : nat }.

(* [sidecar/ibreeze/rpc/multiplexer.py:39-42 ActiveStream] *)
Record ActiveStream := { next_sequence : Z; stream_queue : nat }.

(* [sidecar/ibreeze/rpc/multiplexer.py:45-50 Multiplexer.__init__] *)
Record Multiplexer := {
  generation : Z;
  pending : list (string * PendingRequest);
  streams : list (string * ActiveStream);
  futures : list Future;          (** every future created so far *)
  queues : list (list json) }.    (** every stream queue created so far *)

Definition new_multiplexer : Multiplexer :=
  {| generation := 0; pending := []; streams := []; futures := []; queues := [] |}.

Definition BACKPRESSURE (what : string) : exn := IpcErr what.

Definition with_pending (p : list (string * PendingRequest)) (m : Multiplexer) : Multiplexer := {|
  generation := generation m; pending := p; streams := streams m; futures := futures m;
  queues := queues m |}.
Definition with_streams (s : list (string * ActiveStream)) (m : Multiplexer) : Multiplexer := {|
  generation := generation m; pending := pending m; streams := s; futures := futures m;
  queues := queues m |}.
Definition with_futures (f : list Future) (m : Multiplexer) : Multiplexer := {|
  generation := generation m; pending := pending m; streams := streams m; futures := f;
  queues := queues m |}.
Definition with_queues (q : list (list json)) (m : Multiplexer) : Multiplexer := {|
  generation := generation m; pending := pending m; streams := streams m; futures := futures m;
  queues := q |}.

(* [sidecar/ibreeze/rpc/multiplexer.py:56-58 pending_count] *)
Definition pending_count (m : Multiplexer) : nat := length (pending m).

(* [sidecar/ibreeze/rpc/multiplexer.py:60-62 stream_count] *)
Definition stream_count (m : Multiplexer) : nat := length (streams m).

(** The answer is the future. *)
(* [sidecar/ibreeze/rpc/multiplexer.py:64-76 register_pending] *)
Definition register_pending (rpc_id : string) (deadline : Z) : tx Multiplexer nat :=
  n ← gets pending_count;
  check (negb (Nat.leb MAX_PENDING_PER_DIRECTION n)) (BACKPRESSURE "too many pending requests");;
  future ← gets (λ m, length (futures m));
  modify (λ m, with_futures (futures m ++ [Waiting]) m);;
  modify (λ m, with_pending (dict_set (pending m) rpc_id
    {| deadline := deadline; response_future := future |}) m);;
  mret future.

(** [if error:] on an optional string *)
Definition error_given (error : option string) : option string :=
  match error with Some "" | None => None | Some e => Some e end.

(** [future.set_exception] or [future.set_result] *)
Definition settle (future : nat) (answer : Future) (m : Multiplexer) : Multiplexer :=
  with_futures (<[future := answer]> (futures m)) m.

(* [sidecar/ibreeze/rpc/multiplexer.py:78-86 resolve_pending] *)
Definition resolve_pending (rpc_id : string) (result : json) (error : option string)
    : tx Multiplexer unit :=
  request ← gets (λ m, dict_get (pending m) rpc_id);
  match request with
  | None => mret tt
  | Some request =>
      modify (λ m, with_pending (dict_del (pending m) rpc_id) m);;
      future ← gets (λ m, default Cancelled (futures m !! response_future request));
      if settled future then mret tt
      else modify (settle (response_future request)
             (match error_given error with
              | Some e => Exception (IpcErr e)
              | None => Result result
              end))
  end.

(* [sidecar/ibreeze/rpc/multiplexer.py:88-89 cancel_pending] *)
Definition cancel_pending (rpc_id : string) : tx Multiplexer unit :=
  resolve_pending rpc_id JNull (Some "IPC_CONNECTION_LOST").

(** The answer is the queue. *)
(* [sidecar/ibreeze/rpc/multiplexer.py:91-96 register_stream] *)
Definition register_stream (request_id : string) : tx Multiplexer nat :=
  n ← gets stream_count;
  check (negb (Nat.leb MAX_PENDING_PER_DIRECTION n)) (BACKPRESSURE "too many streams");;
  queue ← gets (λ m, length (queues m));
  modify (λ m, with_queues (queues m ++ [[]]) m);;
  modify (λ m, with_streams (dict_set (streams m) request_id
    {| next_sequence := 1; stream_queue := queue |}) m);;
  mret queue.

(* [sidecar/ibreeze/rpc/multiplexer.py:98-105 push_stream_frame] *)
Definition push_stream_frame (request_id : string) (value : json) : tx Multiplexer unit :=
  stream ← gets (λ m, dict_get (streams m) request_id);
  stream ← found stream (IpcErr "stream not found");
  buffered ← gets (λ m, default [] (queues m !! stream_queue stream));
  check (negb (Nat.leb MAX_STREAM_BUFFER_FRAMES (length buffered)))
    (BACKPRESSURE "stream buffer full");;
  modify (λ m, with_queues (<[stream_queue stream := buffered ++ [value]]> (queues m)) m).

(* [sidecar/ibreeze/rpc/multiplexer.py:107-108 close_stream] *)
Definition close_stream (request_id : string) : tx Multiplexer unit :=
  modify (λ m, with_streams (dict_del (streams m) request_id) m).

(* [sidecar/ibreeze/rpc/multiplexer.py:110-111 close_all_streams] *)
Definition close_all_streams : tx Multiplexer unit := modify (with_streams []).

Fixpoint resolve_all (ids : list string) (error : string) : tx Multiplexer unit :=
  match ids with
  | [] => mret tt
  | rpc_id :: ids => resolve_pending rpc_id JNull (Some error);; resolve_all ids error
  end.

(* [sidecar/ibreeze/rpc/multiplexer.py:113-116 cancel_all] *)
Definition cancel_all (error : string) : tx Multiplexer unit :=
  ids ← gets (λ m, dict_keys (pending m));
  resolve_all ids error;;
  close_all_streams.

(* [sidecar/ibreeze/rpc/multiplexer.py:118-121 bump_generation] *)
Definition bump_generation : tx Multiplexer Z :=
  modify (λ m, {| generation := generation m + 1; pending := pending m; streams := streams m;
                  futures := futures m; queues := queues m |});;
  cancel_all "IPC_CONNECTION_LOST";;
  gets generation.

(** ** One equation per operation *)

Definition answer_of (result : json) (error : option string) : Future :=
  match error_given error with Some e => Exception (IpcErr e) | None => Result result end.

(** What resolving the request [rpc_id] makes of the multiplexer. *)
Definition resolved (rpc_id : string) (answer : Future) (m : Multiplexer) : Multiplexer :=
  match dict_get (pending m) rpc_id with
  | None => m
  | Some r =>
      let m' := with_pending (dict_del (pending m) rpc_id) m in
      if settled (default Cancelled (futures m !! response_future r)) then m'
      else settle (response_future r) answer m'
  end.

Lemma resolve_pending_run rpc_id result error m :
  resolve_pending rpc_id result error m = (Ok tt, resolved rpc_id (answer_of result error) m).
Proof.
  unfold resolve_pending, resolved. rewrite (tx_bind_run _ _ m (dict_get (pending m) rpc_id) m) by done.
  destruct (dict_get (pending m) rpc_id) as [r|]; [|done].
  set (m' := with_pending (dict_del (pending m) rpc_id) m).
  rewrite (tx_bind_run _ _ m tt m') by done.
  rewrite (tx_bind_run _ _ m' (default Cancelled (futures m !! response_future r)) m') by done.
  by destruct (settled _).
Qed.

Lemma resolve_all_run ids error m :
  resolve_all ids error m =
    (Ok tt, fold_left (λ m i, resolved i (answer_of JNull (Some error)) m) ids m).
Proof.
  revert m. induction ids as [|i ids IH]; intros m; simpl; [done|].
  by rewrite (tx_bind_run _ _ _ _ _ (resolve_pending_run _ _ _ _)), IH.
Qed.

Definition all_resolved (answer : Future) (m : Multiplexer) : Multiplexer :=
  fold_left (λ m i, resolved i answer m) (dict_keys (pending m)) m.

Lemma cancel_all_run error m :
  cancel_all error m = (Ok tt, with_streams [] (all_resolved (answer_of JNull (Some error)) m)).
Proof.
  unfold cancel_all. rewrite (tx_bind_run _ _ m (dict_keys (pending m)) m) by done.
  by rewrite (tx_bind_run _ _ _ _ _ (resolve_all_run _ _ _)).
Qed.

(** ** What every operation keeps *)

(** A settled future keeps its answer, and futures are never forgotten. *)
Record keeps (m m' : Multiplexer) : Prop := {
  keeps_length : (length (futures m) ≤ length (futures m'))%nat;
  keeps_settled : ∀ i f, futures m !! i = Some f → settled f = true → futures m' !! i = Some f }.

#[global] Instance keeps_preorder : PreOrder keeps.
Proof.
  split.
  - intros m. by split.
  - intros m1 m2 m3 [L1 K1] [L2 K2]. split; [lia|]. intros i f Hf Hs. apply K2; [by apply K1|done].
Qed.

Record wf (m : Multiplexer) : Prop := {
  wf_keys : NoDup (dict_keys (pending m));
  wf_futures : ∀ i r, dict_get (pending m) i = Some r → (response_future r < length (futures m))%nat;
  wf_pending : (length (pending m) ≤ MAX_PENDING_PER_DIRECTION)%nat;
  wf_streams : (length (streams m) ≤ MAX_PENDING_PER_DIRECTION)%nat;
  wf_queues : ∀ i q, queues m !! i = Some q → (length q ≤ MAX_STREAM_BUFFER_FRAMES)%nat }.

Lemma keeps_settle i answer m :
  settled (default Cancelled (futures m !! i)) = false → keeps m (settle i answer m).
Proof.
  intros Hw. split; simpl; [by rewrite length_insert|]. intros j f Hf Hs.
  destruct (decide (i = j)) as [->|Hne]; [|by rewrite list_lookup_insert_ne].
  rewrite Hf in Hw. simpl in Hw. congruence.
Qed.

Lemma resolved_keeps i answer m : keeps m (resolved i answer m).
Proof.
  unfold resolved. destruct (dict_get _ _) as [r|]; [|done].
  destruct (settled _) eqn:Hs; [by split|].
  transitivity (with_pending (dict_del (pending m) i) m); [by split|by apply keeps_settle].
Qed.

Lemma resolved_pending i answer m : pending (resolved i answer m) = dict_del (pending m) i.
Proof.
  unfold resolved. destruct (dict_get (pending m) i) eqn:Hg; [by destruct (settled _)|].
  induction (pending m) as [|[k r] d IH]; simpl in *; [done|]. case_bool_decide; [done|].
  by rewrite <-IH.
Qed.

Lemma resolved_other i answer m :
  streams (resolved i answer m) = streams m ∧ queues (resolved i answer m) = queues m ∧
  generation (resolved i answer m) = generation m ∧
  length (futures (resolved i answer m)) = length (futures m).
Proof.
  unfold resolved. destruct (dict_get _ _); [|done]. destruct (settled _); [done|].
  simpl. by rewrite length_insert.
Qed.

Lemma resolved_wf i answer m : wf m → wf (resolved i answer m).
Proof.
  intros [W1 W2 W3 W4 W5]. destruct (resolved_other i answer m) as (E1 & E2 & _ & E3).
  split; rewrite ?resolved_pending, ?E1, ?E2, ?E3; try done.
  - by apply dict_del_nodup.
  - intros j r. rewrite dict_get_del by done. case_bool_decide; [done|]. apply W2.
  - pose proof (sublist_length _ _ (dict_del_sublist (pending m) i)) as Hl.
    unfold dict_keys in Hl. rewrite !length_fmap in Hl. lia.
Qed.

Lemma all_resolved_keeps answer m : keeps m (all_resolved answer m).
Proof.
  unfold all_resolved. generalize (dict_keys (pending m)) as ids. intros ids. revert m.
  induction ids as [|i ids IH]; intros m; simpl; [done|]. etrans; [apply resolved_keeps|apply IH].
Qed.

Lemma all_resolved_wf answer m : wf m → wf (all_resolved answer m).
Proof.
  unfold all_resolved. generalize (dict_keys (pending m)) as ids. intros ids. revert m.
  induction ids as [|i ids IH]; intros m Hm; simpl; [done|]. by apply IH, resolved_wf.
Qed.

Lemma dict_del_absent {K V} `{EqDecision K} (d : list (K * V)) k : k ∉ dict_keys d → dict_del d k = d.
Proof.
  unfold dict_keys. induction d as [|[k1 v1] d IH]; simpl; intros Hk; [done|].
  rewrite bool_decide_false by set_solver. rewrite IH; [done|set_solver].
Qed.

(** Resolving everything empties the dict. *)
Lemma all_resolved_empty answer m : NoDup (dict_keys (pending m)) → pending (all_resolved answer m) = [].
Proof.
  unfold all_resolved.
  enough (∀ ids m, ids = dict_keys (pending m) → NoDup ids →
    pending (fold_left (λ m i, resolved i answer m) ids m) = []) as Hgen by (intros; by apply Hgen).
  clear m. induction ids as [|i ids IH]; intros m Hids Hnd; simpl.
  - by destruct (pending m).
  - apply NoDup_cons in Hnd as [Hi Hnd]. apply IH; [|done]. rewrite resolved_pending.
    unfold dict_keys in *. destruct (pending m) as [|[k r] d]; [done|]. simpl in *.
    injection Hids as <- ->. by rewrite bool_decide_true.
Qed.

(** ** Registering *)

Definition registered (rpc_id : string) (deadline : Z) (m : Multiplexer) : Multiplexer :=
  with_pending (dict_set (pending m) rpc_id
    {| deadline := deadline; response_future := length (futures m) |})
    (with_futures (futures m ++ [Waiting]) m).

Lemma register_pending_run rpc_id d m :
  register_pending rpc_id d m =
    if Nat.leb MAX_PENDING_PER_DIRECTION (length (pending m))
    then (Err (BACKPRESSURE "too many pending requests"), m)
    else (Ok (length (futures m)), registered rpc_id d m).
Proof.
  unfold register_pending. rewrite (tx_bind_run _ _ m (pending_count m) m) by done.
  unfold pending_count. by destruct (Nat.leb _ _).
Qed.

Lemma registered_keeps i d m : keeps m (registered i d m).
Proof.
  split; simpl; [rewrite length_app; lia|]. intros j f Hf _. by apply lookup_app_l_Some.
Qed.

Lemma registered_wf i d m :
  wf m → (length (pending m) < MAX_PENDING_PER_DIRECTION)%nat → wf (registered i d m).
Proof.
  intros [W1 W2 W3 W4 W5] Hroom. split; simpl; try done.
  - by apply dict_set_nodup.
  - intros j r. rewrite dict_get_set, length_app. simpl. case_bool_decide; [intros [= <-]; simpl; lia|].
    intros Hj%W2. lia.
  - rewrite dict_set_length. case_bool_decide; lia.
Qed.

(** ** Streams *)

Lemma register_stream_run i m :
  ∃ r m', register_stream i m = (r, m') ∧
    (is_ok r = false ∧ m' = m ∨
     (length (streams m) < MAX_PENDING_PER_DIRECTION)%nat ∧
     m' = with_streams (dict_set (streams m) i {| next_sequence := 1; stream_queue := length (queues m) |})
            (with_queues (queues m ++ [[]]) m)).
Proof.
  unfold register_stream. rewrite (tx_bind_run _ _ m (stream_count m) m) by done. unfold stream_count.
  destruct (Nat.leb _ _) eqn:Hb; simpl.
  - eexists _, _. split; [done|]. by left.
  - apply Nat.leb_gt in Hb. eexists _, _. split; [done|]. by right.
Qed.

Lemma push_stream_frame_run i v m :
  ∃ r m', push_stream_frame i v m = (r, m') ∧
    (is_ok r = false ∧ m' = m ∨
     ∃ s q, q = default [] (queues m !! s) ∧ (length q < MAX_STREAM_BUFFER_FRAMES)%nat ∧
       m' = with_queues (<[s := q ++ [v]]> (queues m)) m).
Proof.
  unfold push_stream_frame. rewrite (tx_bind_run _ _ m (dict_get (streams m) i) m) by done.
  destruct (dict_get (streams m) i) as [s|]; [|by eexists _, _; split; [done|left]].
  rewrite (tx_bind_run _ _ m s m) by done.
  set (q := default [] (queues m !! stream_queue s)). rewrite (tx_bind_run _ _ m q m) by done.
  destruct (Nat.leb _ _) eqn:Hb; simpl.
  - eexists _, _. split; [done|]. by left.
  - apply Nat.leb_gt in Hb. eexists _, _. split; [done|]. right. by exists (stream_queue s), q.
Qed.

(** ** Any use of a multiplexer *)

Inductive op :=
  | ORegisterPending (rpc_id : string) (deadline : Z)
  | OResolvePending (rpc_id : string) (result : json) (error : option string)
  | OCancelPending (rpc_id : string)
  | ORegisterStream (request_id : string)
  | OPushStreamFrame (request_id : string) (value : json)
  | OCloseStream (request_id : string)
  | OCloseAllStreams
  | OCancelAll (error : string)
  | OBumpGeneration
  | OGet (queue : nat).  (** the holder of a stream's queue takes a frame *)

(** The multiplexer after a call, whether it returns or raises. *)
Definition after (o : op) (m : Multiplexer) : Multiplexer :=
  match o with
  | ORegisterPending i d => (register_pending i d m).2
  | OResolvePending i r e => (resolve_pending i r e m).2
  | OCancelPending i => (cancel_pending i m).2
  | ORegisterStream i => (register_stream i m).2
  | OPushStreamFrame i v => (push_stream_frame i v m).2
  | OCloseStream i => (close_stream i m).2
  | OCloseAllStreams => (close_all_streams m).2
  | OCancelAll e => (cancel_all e m).2
  | OBumpGeneration => (bump_generation m).2
  | OGet q => with_queues (alter tail q (queues m)) m
  end.

Definition after_all (l : list op) (m : Multiplexer) : Multiplexer := fold_left (λ m o, after o m) l m.

Lemma bump_generation_after m :
  (bump_generation m).2 = with_streams [] (all_resolved (Exception (IpcErr "IPC_CONNECTION_LOST"))
    {| generation := generation m + 1; pending := pending m; streams := streams m;
       futures := futures m; queues := queues m |}).
Proof.
  unfold bump_generation. erewrite tx_bind_run by reflexivity.
  by rewrite (tx_bind_run _ _ _ _ _ (cancel_all_run _ _)).
Qed.

Lemma with_streams_wf s m : wf m → (length s ≤ MAX_PENDING_PER_DIRECTION)%nat → wf (with_streams s m).
Proof. intros []. by split. Qed.

Lemma after_ok o m : wf m → wf (after o m) ∧ keeps m (after o m).
Proof.
  intros Hm. destruct o as [i d|i r e|i|i|i v|i| |e| |s]; simpl.
  - rewrite register_pending_run. destruct (Nat.leb _ _) eqn:Hb; [done|]. apply Nat.leb_gt in Hb.
    split; [by apply registered_wf|apply registered_keeps].
  - rewrite resolve_pending_run. split; [by apply resolved_wf|apply resolved_keeps].
  - unfold cancel_pending. rewrite resolve_pending_run.
    split; [by apply resolved_wf|apply resolved_keeps].
  - destruct (register_stream_run i m) as (r & m' & -> & [[_ ->]|[Hroom ->]]); [done|].
    destruct Hm as [W1 W2 W3 W4 W5]. split; [|by split]. split; simpl; [done..| |].
    + rewrite dict_set_length. case_bool_decide; lia.
    + intros j q [Hj|[_ Hj]]%lookup_app_Some; [by eapply W5|].
      apply list_lookup_singleton_Some in Hj as [_ <-]. simpl. lia.
  - destruct (push_stream_frame_run i v m) as (r & m' & -> & [[_ ->]|(s & q & -> & Hroom & ->)]); [done|].
    destruct Hm as [W1 W2 W3 W4 W5]. split; [|by split]. split; simpl; [done..|].
    intros j q Hq. destruct (decide (s = j)) as [->|Hne].
    + destruct (decide (j < length (queues m))%nat) as [Hlt|Hge].
      * rewrite list_lookup_insert_eq in Hq by done. injection Hq as <-.
        rewrite length_app. simpl. lia.
      * rewrite list_insert_ge in Hq by lia. by eapply W5.
    + rewrite list_lookup_insert_ne in Hq by done. by eapply W5.
  - split; [|by split]. apply with_streams_wf; [done|]. destruct Hm as [_ _ _ W4 _].
    pose proof (sublist_length _ _ (dict_del_sublist (streams m) i)) as Hl.
    unfold dict_keys in Hl. rewrite !length_fmap in Hl. lia.
  - split; [apply with_streams_wf; [done|simpl; lia]|by split].
  - rewrite cancel_all_run. split.
    + apply with_streams_wf; [by apply all_resolved_wf|simpl; lia].
    + destruct (all_resolved_keeps (answer_of JNull (Some e)) m). by split.
  - rewrite bump_generation_after. set (m' := Build_Multiplexer _ _ _ _ _). split.
    + apply with_streams_wf; [apply all_resolved_wf|simpl; lia]. destruct Hm. by split.
    + destruct (all_resolved_keeps (Exception (IpcErr "IPC_CONNECTION_LOST")) m'). by split.
  - destruct Hm as [W1 W2 W3 W4 W5]. split; [|by split]. split; simpl; [done..|].
    intros j q. destruct (decide (s = j)) as [->|Hne].
    + rewrite list_lookup_alter_eq. destruct (queues m !! j) as [q'|] eqn:Hq; [|done].
      intros [= <-]. apply W5 in Hq. destruct q'; simpl in *; lia.
    + rewrite list_lookup_alter_ne by done. apply W5.
Qed.

Lemma after_all_ok l m : wf m → wf (after_all l m) ∧ keeps m (after_all l m).
Proof.
  revert m. induction l as [|o l IH]; intros m Hm; simpl; [done|].
  destruct (after_ok o m Hm) as [Hw Hk]. destruct (IH _ Hw) as [Hw' Hk']. split; [done|by etrans].
Qed.

Lemma new_wf : wf new_multiplexer.
Proof.
  split; simpl; try lia; [constructor|done|]. intros i q. by rewrite lookup_nil.
Qed.

(** However a multiplexer is used, its dicts stay within 256 entries each, a stream
    buffers at most 64 frames, and a future that has an answer keeps it for good: whatever
    else is resolved, cancelled or registered later, no caller sees its answer replaced. *)
Lemma multiplexer_bounded_settle_once before later :
  let m := after_all before new_multiplexer in
  let m' := after_all later m in
  (pending_count m ≤ 256)%nat ∧ (stream_count m ≤ 256)%nat ∧
  (∀ i q, queues m !! i = Some q → (length q ≤ 64)%nat) ∧
  (∀ i f, futures m !! i = Some f → settled f = true → futures m' !! i = Some f).
Proof.
  intros m m'. destruct (after_all_ok before _ new_wf) as [[W1 W2 W3 W4 W5] _].
  destruct (after_all_ok later m) as [_ [_ Hk]]; [by apply after_all_ok, new_wf|]. done.
Qed.
