(* ===== verification/RpcSession.v ===== *)
(** * RPC sessions ([rpc/session.py])

    Reverse calls over one connection.  [call] is a coroutine that waits twice, on the
    write and on its future, so a session is a state machine: [calls] records how far
    every call has come, and an [event] is what happens between two waits: a call starts,
    its frame is written or fails to be, its future is settled or its deadline passes, its
    task is cancelled, a response frame arrives, the connection is lost.

    The theorems: every call that waits can still be answered, a call that has ended holds
    no slot, and a lost connection answers every waiting call; but a call whose task is
    cancelled keeps its slot, and an error response without a message is a success. *)

From S2P Require Import Prelude PyEnum PyStr Sql Multiplexer.

Section Session.
(** [repr] of a list or a dict, which [str] shows it by *)
Context (repr : json → string).

(* [sidecar/ibreeze/rpc/session.py:73-82 IpcSession.resolve_response] *)
Definition resolve_response (value : list (string * json)) : tx Multiplexer unit :=
  match field value "id" with
  | JStr rpc_id =>
      if "error" ∈? value.*1
      then let message := match field value "error" with
                          | JObj error => field_or error "message" (JStr "IPC_ERROR")
                          | _ => JStr "IPC_ERROR"
                          end in
           resolve_pending rpc_id JNull (Some (py_str repr message))
      else resolve_pending rpc_id (field value "result") None
  | _ => mret tt
  end.

(** How far a call has come: waiting for its frame to be written, for its answer, or ended. *)
Inductive phase := Writing | Awaiting | Returned (v : json) | Raised (e : exn) | Killed.

Record Call := { call_id : string; call_future : nat; call_phase : phase }.

(* [sidecar/ibreeze/rpc/session.py:31-48 IpcSession.__init__] *)
Record IpcSession := { mux : Multiplexer; calls : list Call; cancelled : bool }.

Definition with_mux (m : Multiplexer) (s : IpcSession) : IpcSession :=
  {| mux := m; calls := calls s; cancelled := cancelled s |}.

Definition set_phase (i : string) (p : phase) (s : IpcSession) : IpcSession := {|
  mux := mux s; cancelled := cancelled s;
  calls := map (λ c, if call_id c =? i
                     then {| call_id := i; call_future := call_future c; call_phase := p |}
                     else c) (calls s) |}.

Definition the_call (i : string) (s : IpcSession) : option Call :=
  List.find (λ c, call_id c =? i) (calls s).

Definition future_of (c : Call) (s : IpcSession) : Future :=
  default Cancelled (futures (mux s) !! call_future c).

Inductive event :=
  | Start (rpc_id : string) (deadline now : Z)
  | Written (rpc_id : string)
  | WriteFailed (rpc_id : string) (e : exn)
  | Answered (rpc_id : string)
  | DeadlinePassed (rpc_id : string)
  | TaskCancelled (rpc_id : string)
  | Response (value : list (string * json))
  | ConnectionLost.

(** [call] up to its first wait; ids are fresh UUIDs.  A call that raises here leaves
    nothing behind. *)
(* [sidecar/ibreeze/rpc/session.py:84-110 IpcSession.call] *)
Definition start_call (rpc_id : string) (deadline now : Z) (s : IpcSession) : option IpcSession :=
  if rpc_id ∈? map call_id (calls s) then None
  else if (deadline - now <=? 0)%Z then Some s
  else match register_pending rpc_id deadline (mux s) with
       | (Ok future, m) => Some {| mux := m; cancelled := cancelled s;
           calls := calls s ++ [{| call_id := rpc_id; call_future := future; call_phase := Writing |}] |}
       | (Err _, m) => Some (with_mux m s)
       end.

(** The wait for the write ends. *)
(* [sidecar/ibreeze/rpc/session.py:112-120 IpcSession.call] *)
Definition write_ended (rpc_id : string) (failure : option exn) (s : IpcSession)
    : option IpcSession :=
  c ← the_call rpc_id s;
  match call_phase c, failure with
  | Writing, None => Some (set_phase rpc_id Awaiting s)
  | Writing, Some e =>
      Some (set_phase rpc_id (Raised e) (with_mux (cancel_pending rpc_id (mux s)).2 s))
  | _, _ => None
  end.

(** The wait for the answer ends with the future. *)
(* [sidecar/ibreeze/rpc/session.py:122-126 IpcSession.call] *)
Definition answered (rpc_id : string) (s : IpcSession) : option IpcSession :=
  c ← the_call rpc_id s;
  match call_phase c, future_of c s with
  | Awaiting, Result v => Some (set_phase rpc_id (Returned v) s)
  | Awaiting, Exception e => Some (set_phase rpc_id (Raised e) s)
  | _, _ => None
  end.

(** [wait_for] cancels the future it gives up on. *)
(* [sidecar/ibreeze/rpc/session.py:127-129 IpcSession.call] *)
Definition deadline_passed (rpc_id : string) (s : IpcSession) : option IpcSession :=
  c ← the_call rpc_id s;
  match call_phase c, future_of c s with
  | Awaiting, Waiting =>
      let m := settle (call_future c) Cancelled (mux s) in
      Some (set_phase rpc_id (Raised (IpcErr "deadline exceeded"))
              (with_mux (cancel_pending rpc_id m).2 s))
  | _, _ => None
  end.

(** [CancelledError] passes both handlers of [call]; a future it was waiting for is
    cancelled with it. *)
Definition task_cancelled (rpc_id : string) (s : IpcSession) : option IpcSession :=
  c ← the_call rpc_id s;
  match call_phase c with
  | Writing => Some (set_phase rpc_id Killed s)
  | Awaiting =>
      Some (set_phase rpc_id Killed
              (if settled (future_of c s) then s
               else with_mux (settle (call_future c) Cancelled (mux s)) s))
  | _ => None
  end.

(* [sidecar/ibreeze/rpc/session.py:54-59 IpcSession.cancel] *)
Definition cancel (s : IpcSession) : IpcSession :=
  {| mux := (cancel_all "IPC_CONNECTION_LOST" (mux s)).2; calls := calls s; cancelled := true |}.

Definition step (e : event) (s : IpcSession) : option IpcSession :=
  match e with
  | Start i d now => start_call i d now s
  | Written i => write_ended i None s
  | WriteFailed i e => write_ended i (Some e) s
  | Answered i => answered i s
  | DeadlinePassed i => deadline_passed i s
  | TaskCancelled i => task_cancelled i s
  | Response value => Some (with_mux (resolve_response value (mux s)).2 s)
  | ConnectionLost => Some (cancel s)
  end.

Fixpoint run (l : list event) (s : IpcSession) : option IpcSession :=
  match l with [] => Some s | e :: l => s' ← step e s; run l s' end.

Definition new_session : IpcSession := {| mux := new_multiplexer; calls := []; cancelled := false |}.

(** ** What holds of every session *)

Definition live (p : phase) : bool := match p with Writing | Awaiting => true | _ => false end.
Definition ended (p : phase) : bool := match p with Returned _ | Raised _ => true | _ => false end.

(** The call holds a slot of the multiplexer. *)
Definition holds_slot (c : Call) (m : Multiplexer) : Prop :=
  ∃ r, dict_get (pending m) (call_id c) = Some r ∧ response_future r = call_future c.

(** The call's future has the answer of a response or of a lost connection. *)
Definition has_answer (c : Call) (m : Multiplexer) : Prop :=
  ∃ f, futures m !! call_future c = Some f ∧ settled f = true ∧ f ≠ Cancelled.

Record inv (s : IpcSession) : Prop := {
  inv_wf : wf (mux s);
  inv_ids : NoDup (map call_id (calls s));
  inv_futures : NoDup (map call_future (calls s));
  inv_created : ∀ c, c ∈ calls s → (call_future c < length (futures (mux s)))%nat;
  inv_owner : ∀ i r, dict_get (pending (mux s)) i = Some r →
    ∃ c, c ∈ calls s ∧ call_id c = i ∧ call_future c = response_future r ∧
      ended (call_phase c) = false;
  inv_live : ∀ c, c ∈ calls s → live (call_phase c) = true →
    (has_answer c (mux s) ∧ dict_get (pending (mux s)) (call_id c) = None) ∨
    (holds_slot c (mux s) ∧ futures (mux s) !! call_future c = Some Waiting) }.

Lemma the_call_some i s c : the_call i s = Some c → c ∈ calls s ∧ call_id c = i.
Proof. intros [Hc Hi]%find_some. apply list_elem_of_In in Hc. by bools. Qed.

(** One call per id, one future per call. *)
Lemma same_id s c c' :
  inv s → c ∈ calls s → c' ∈ calls s → call_id c = call_id c' → c = c'.
Proof. intros Hs. by apply nodup_map_inj, inv_ids. Qed.

Lemma resolved_lookup_other i answer m j :
  (∀ r, dict_get (pending m) i = Some r → response_future r ≠ j) →
  futures (resolved i answer m) !! j = futures m !! j.
Proof.
  intros Hne. unfold resolved. destruct (dict_get _ _) as [r|]; [|done].
  destruct (settled _); [done|]. simpl. apply list_lookup_insert_ne. by apply Hne.
Qed.

Lemma resolved_lookup i answer m r :
  dict_get (pending m) i = Some r → futures m !! response_future r = Some Waiting →
  futures (resolved i answer m) !! response_future r = Some answer.
Proof.
  intros Hr Hf. unfold resolved. rewrite Hr, Hf. simpl. apply list_lookup_insert_eq.
  by eapply lookup_lt_Some.
Qed.

(** Resolving any request keeps the invariant. *)
Lemma inv_resolved i answer s :
  settled answer = true → answer ≠ Cancelled → inv s → inv (with_mux (resolved i answer (mux s)) s).
Proof.
  intros Ha Hn Hs. pose proof Hs as [W I F C O L].
  destruct (resolved_other i answer (mux s)) as (_ & _ & _ & Hlen).
  destruct (resolved_keeps i answer (mux s)) as [_ Hkeep].
  split; cbn [mux calls with_mux]; rewrite ?resolved_pending, ?Hlen; try done.
  - by apply resolved_wf.
  - intros j r. rewrite dict_get_del by apply W. case_bool_decide; [done|]. apply O.
  - intros c Hc Hl. destruct (L c Hc Hl) as [[(f & Hf & Hset & Hnc) Hgone]|[(r & Hr & Hrf) Hw]].
    { left. split; [exists f; split_and!; auto|]. rewrite dict_get_del by apply W.
      by case_bool_decide. }
    destruct (decide (call_id c = i)) as [<-|Hne].
    + left. split; [|rewrite dict_get_del by apply W; by rewrite bool_decide_true].
      exists answer. split_and!; [|done..]. rewrite <-Hrf in *. by apply resolved_lookup.
    + right. split.
      * exists r. rewrite resolved_pending, dict_get_del by apply W.
        by rewrite bool_decide_false by done.
      * rewrite resolved_lookup_other; [done|]. intros r' Hr' Heq.
        destruct (O i r' Hr') as (c' & Hc' & Hid & Hfut & _). apply Hne.
        assert (c = c') as ->; [|done].
        eapply (nodup_map_inj call_future); [exact F|done..|congruence].
Qed.

Lemma set_phase_elem i p s c :
  c ∈ calls (set_phase i p s) ↔ ∃ c0, c0 ∈ calls s ∧
    c = (if call_id c0 =? i
         then {| call_id := i; call_future := call_future c0; call_phase := p |} else c0).
Proof.
  simpl. rewrite list_elem_of_In, in_map_iff. setoid_rewrite list_elem_of_In. naive_solver.
Qed.

Lemma set_phase_ids i p s : map call_id (calls (set_phase i p s)) = map call_id (calls s).
Proof.
  simpl. rewrite map_map. apply map_ext. intros c.
  destruct (call_id c =? i) eqn:Hi; [|done]. by bools.
Qed.

Lemma set_phase_futures i p s : map call_future (calls (set_phase i p s)) = map call_future (calls s).
Proof. simpl. rewrite map_map. apply map_ext. intros c. by destruct (call_id c =? i). Qed.

(** Moving a call on keeps the invariant: an ended call must have left the multiplexer,
    and only a live call may stay live. *)
Lemma inv_set_phase i p s :
  inv s → (ended p = true → dict_get (pending (mux s)) i = None) →
  (live p = true → ∀ c, c ∈ calls s → call_id c = i → live (call_phase c) = true) →
  inv (set_phase i p s).
Proof.
  intros [W I F C O L] Hend Hlive. split; rewrite ?set_phase_ids, ?set_phase_futures; try done.
  - intros c (c0 & Hc0 & ->)%set_phase_elem. pose proof (C c0 Hc0). by destruct (call_id c0 =? i).
  - intros j r Hr. destruct (O j r Hr) as (c & Hc & Hid & Hf & He).
    exists (if call_id c =? i
            then {| call_id := i; call_future := call_future c; call_phase := p |} else c).
    split; [apply set_phase_elem; by exists c|].
    destruct (call_id c =? i) eqn:Hi; bools; [|done]. simpl. split_and!; [congruence|done|].
    apply not_true_iff_false. intros He'. specialize (Hend He').
    change (dict_get (pending (mux s)) j = Some r) in Hr. congruence.
  - intros c (c0 & Hc0 & ->)%set_phase_elem. destruct (call_id c0 =? i) eqn:Hi; bools; [|by apply L].
    simpl. intros Hl. pose proof (L c0 Hc0 (Hlive Hl c0 Hc0 Hi)) as HL.
    unfold has_answer, holds_slot in *. simpl. by rewrite <-Hi.
Qed.

(** Cancelling the future of a call that is not live. *)
Lemma inv_settle_dead c s :
  inv s → c ∈ calls s → live (call_phase c) = false → future_of c s = Waiting →
  inv (with_mux (settle (call_future c) Cancelled (mux s)) s).
Proof.
  intros [W I F C O L] Hc Hdead Hw.
  destruct (keeps_settle (call_future c) Cancelled (mux s)) as [_ Hkeep].
  { unfold future_of in Hw. by rewrite Hw. }
  split; cbn [mux calls with_mux]; try done.
  - destruct W as [W1 W2 W3 W4 W5]. split; simpl; try done. intros i r Hr.
    rewrite length_insert. by apply (W2 i).
  - intros c' Hc'. simpl. rewrite length_insert. by apply C.
  - intros c' Hc' Hl. destruct (L c' Hc' Hl) as [[(f & Hf & Hset & Hnc) Hgone]|[Hslot Hf]].
    + left. split; [|done]. exists f. split_and!; auto.
    + right. split; [exact Hslot|]. simpl. rewrite list_lookup_insert_ne; [done|].
      intros Heq. assert (c = c') as ->; [|congruence].
      by eapply (nodup_map_inj call_future).
Qed.

Lemma inv_new : inv new_session.
Proof. split; simpl; try set_solver; [apply new_wf|constructor|constructor]. Qed.

Lemma inv_cancel_pending i s : inv s → inv (with_mux (cancel_pending i (mux s)).2 s).
Proof. intros Hs. unfold cancel_pending. rewrite resolve_pending_run. by apply inv_resolved. Qed.

Lemma inv_resolve_all answer ids s :
  settled answer = true → answer ≠ Cancelled → inv s →
  inv (with_mux (fold_left (λ m i, resolved i answer m) ids (mux s)) s).
Proof.
  intros Ha Hn. revert s. induction ids as [|i ids IH]; intros s Hs; simpl; [by destruct s|].
  apply (IH (with_mux (resolved i answer (mux s)) s)). by apply inv_resolved.
Qed.

Lemma inv_cancel s : inv s → inv (cancel s).
Proof.
  intros Hs. unfold cancel. rewrite cancel_all_run. unfold all_resolved.
  destruct (inv_resolve_all (answer_of JNull (Some "IPC_CONNECTION_LOST"))
    (dict_keys (pending (mux s))) s) as [W I F C O L]; [done..|].
  split; try done. apply with_streams_wf; [done|simpl; lia].
Qed.

Lemma cancel_pending_gone i m : NoDup (dict_keys (pending m)) →
  dict_get (pending (cancel_pending i m).2) i = None.
Proof.
  intros Hm. unfold cancel_pending. rewrite resolve_pending_run. cbn [snd].
  rewrite resolved_pending, dict_get_del by done. by rewrite bool_decide_true.
Qed.

(** What a response frame settles, and with what. *)
Definition response_of (value : list (string * json)) : option (string * Future) :=
  match field value "id" with
  | JStr rpc_id => Some (rpc_id,
      if "error" ∈? value.*1
      then answer_of JNull (Some (py_str repr
             match field value "error" with
             | JObj error => field_or error "message" (JStr "IPC_ERROR")
             | _ => JStr "IPC_ERROR"
             end))
      else answer_of (field value "result") None)
  | _ => None
  end.

Lemma resolve_response_run value m :
  resolve_response value m =
    (Ok tt, match response_of value with Some (i, answer) => resolved i answer m | None => m end).
Proof.
  unfold resolve_response, response_of. destruct (field value "id"); try done.
  destruct (_ ∈? _); apply resolve_pending_run.
Qed.

Lemma answer_of_settled result error :
  settled (answer_of result error) = true ∧ answer_of result error ≠ Cancelled.
Proof. unfold answer_of. by destruct (error_given error). Qed.

Lemma response_of_settled value i answer :
  response_of value = Some (i, answer) → settled answer = true ∧ answer ≠ Cancelled.
Proof.
  unfold response_of. destruct (field value "id"); try done.
  intros [= <- <-]. destruct (_ ∈? _); apply answer_of_settled.
Qed.

Lemma inv_start i d now s s' : inv s → start_call i d now s = Some s' → inv s'.
Proof.
  intros Hs. unfold start_call. destruct (_ ∈? _) eqn:Hfresh; [done|]. bools.
  destruct (_ <=? 0)%Z; [by intros [= <-]|]. rewrite register_pending_run.
  destruct (Nat.leb _ _) eqn:Hroom; [intros [= <-]; by destruct s|]. apply Nat.leb_gt in Hroom.
  intros [= <-]. pose proof Hs as [W I F C O L].
  assert (∀ c, c ∈ calls s → call_id c ≠ i) as Hne.
  { intros c Hc <-. apply Hfresh. by apply list_elem_of_In, in_map, list_elem_of_In. }
  split; cbn [mux calls].
  - by apply registered_wf.
  - rewrite map_app. simpl. apply NoDup_app. split_and!; [done| |apply NoDup_singleton].
    intros x Hx ->%list_elem_of_singleton. done.
  - rewrite map_app. simpl. apply NoDup_app. split_and!; [done| |apply NoDup_singleton].
    intros x Hx ->%list_elem_of_singleton.
    apply list_elem_of_In, in_map_iff in Hx as (c & Heq & Hc%list_elem_of_In%C). lia.
  - simpl. rewrite length_app. simpl.
    intros c [Hc%C| ->%list_elem_of_singleton]%elem_of_app; simpl; lia.
  - intros j r. simpl. rewrite dict_get_set. case_bool_decide as Hij.
    + intros [= <-]. subst j. eexists. split; [by apply elem_of_app; right; left|]. done.
    + intros (c & Hc & ?)%O. exists c. split; [apply elem_of_app; by left|done].
  - intros c [Hc| ->%list_elem_of_singleton]%elem_of_app Hl.
    + destruct (L c Hc Hl) as [[(f & Hf & ?) Hgone]|[(r & Hr & ?) Hw]].
      * left. split; [exists f; split; [by apply lookup_app_l_Some|done]|].
        simpl. rewrite dict_get_set, bool_decide_false; [done|]. by apply not_eq_sym, Hne.
      * right. split; [|by apply lookup_app_l_Some]. exists r. split; [|done].
        simpl. rewrite dict_get_set, bool_decide_false; [done|]. by apply not_eq_sym, Hne.
    + right. split.
      * exists {| deadline := d; response_future := length (futures (mux s)) |}.
        split; [|done]. simpl. by rewrite dict_get_set, bool_decide_true.
      * simpl. by rewrite lookup_app_r, Nat.sub_diag.
Qed.

Lemma set_phase_twice i p q s : set_phase i p (set_phase i q s) = set_phase i p s.
Proof.
  unfold set_phase. simpl. f_equal. rewrite map_map. apply map_ext. intros c.
  destruct (call_id c =? i) eqn:Hi; simpl; [by rewrite String.eqb_refl|by rewrite Hi].
Qed.

(** Giving up on a waiting future: the call is dead before its future is cancelled. *)
Lemma inv_give_up i c s :
  inv s → the_call i s = Some c → future_of c s = Waiting →
  inv (with_mux (settle (call_future c) Cancelled (mux s)) (set_phase i Killed s)).
Proof.
  intros Hs [Hc Hi]%the_call_some Hw.
  assert (inv (set_phase i Killed s)) as Hk by (by apply inv_set_phase).
  apply (inv_settle_dead {| call_id := i; call_future := call_future c; call_phase := Killed |}
    (set_phase i Killed s)); [done| |done|done].
  apply set_phase_elem. exists c. split; [done|]. by rewrite Hi, String.eqb_refl.
Qed.

Lemma inv_step e s s' : inv s → step e s = Some s' → inv s'.
Proof.
  intros Hs. destruct e as [i d now|i|i e|i|i|i|value|]; simpl.
  - by apply inv_start.
  - unfold write_ended. destruct (the_call i s) as [c|] eqn:Hc; [|done]. simpl.
    destruct (call_phase c) eqn:Hp; try done. intros [= <-].
    apply the_call_some in Hc as [Hc Hi]. apply inv_set_phase; [done..|].
    intros _ c' Hc' Hi'. assert (c' = c) as ->; [|by rewrite Hp].
    eapply same_id; [done..|congruence].
  - unfold write_ended. destruct (the_call i s) as [c|] eqn:Hc; [|done]. simpl.
    destruct (call_phase c) eqn:Hp; try done. intros [= <-].
    apply inv_set_phase; [by apply inv_cancel_pending| |done].
    intros _. apply cancel_pending_gone, Hs.
  - unfold answered. destruct (the_call i s) as [c|] eqn:Hc; [|done]. simpl.
    destruct (call_phase c) eqn:Hp; try done. pose proof Hc as [Hin Hi]%the_call_some.
    assert (settled (future_of c s) = true → dict_get (pending (mux s)) i = None) as Hgone.
    { intros Hset. destruct (inv_live _ Hs c Hin) as [[_ Hgone]|[_ Hw]]; [by rewrite Hp|congruence|].
      unfold future_of in Hset. by rewrite Hw in Hset. }
    destruct (future_of c s); try done; intros [= <-];
      (apply inv_set_phase; [done|intros _; by apply Hgone|done]).
  - unfold deadline_passed. destruct (the_call i s) as [c|] eqn:Hc; [|done]. simpl.
    destruct (call_phase c) eqn:Hp; try done. destruct (future_of c s) eqn:Hf; try done.
    intros [= <-]. pose proof (inv_give_up i c s Hs Hc Hf) as Hg.
    pose proof (inv_cancel_pending i _ Hg) as Hg'.
    rewrite <-(set_phase_twice i _ Killed). apply (inv_set_phase i _ _ Hg'); [|done].
    intros _. apply cancel_pending_gone, Hg.
  - unfold task_cancelled. destruct (the_call i s) as [c|] eqn:Hc; [|done]. simpl.
    destruct (call_phase c) eqn:Hp; try done.
    + intros [= <-]. by apply inv_set_phase.
    + intros [= <-]. destruct (settled (future_of c s)) eqn:Hf; [by apply inv_set_phase|].
      apply (inv_give_up i c s Hs Hc). by destruct (future_of c s).
  - intros [= <-]. rewrite resolve_response_run. cbn [snd].
    destruct (response_of value) as [[i answer]|] eqn:Hr; [|by destruct s].
    apply response_of_settled in Hr as []. by apply inv_resolved.
  - intros [= <-]. by apply inv_cancel.
Qed.

Lemma inv_run l s s' : inv s → run l s = Some s' → inv s'.
Proof.
  revert s. induction l as [|e l IH]; intros s Hs; simpl; [by intros [= <-]|].
  destruct (step e s) as [s1|] eqn:He; [|done]. simpl. apply IH. by eapply inv_step.
Qed.

Lemma the_call_in s c : inv s → c ∈ calls s → the_call (call_id c) s = Some c.
Proof.
  intros Hs Hc. unfold the_call. destruct (List.find _ _) as [c'|] eqn:Hf.
  - apply find_some in Hf as [Hc' Hid%String.eqb_eq]. f_equal. eapply same_id; try done.
    by apply list_elem_of_In.
  - apply list_elem_of_In in Hc. apply (find_none _ _ Hf) in Hc. by rewrite String.eqb_refl in Hc.
Qed.

(** A waiting call without a slot has its answer. *)
Lemma answerable s c :
  inv s → c ∈ calls s → call_phase c = Awaiting → dict_get (pending (mux s)) (call_id c) = None →
  is_Some (answered (call_id c) s).
Proof.
  intros Hs Hc Hp Hgone. unfold answered. rewrite the_call_in by done. simpl. rewrite Hp.
  destruct (inv_live _ Hs c Hc) as [[(f & Hf & Hset & Hnc) _]|[(r & Hr & _) _]]; [by rewrite Hp| |congruence].
  unfold future_of. rewrite Hf. simpl. by destruct f.
Qed.

(** C39. No caller is left behind.  However calls, writes, deadlines, cancellations,
    responses and disconnects interleave: a call that has returned or raised holds no slot
    of the multiplexer any more; a call that waits is answered by the response with its
    id, whenever it comes; and losing the connection empties the multiplexer and answers
    every call that waits. *)
Theorem session_answers_every_call l s :
  run l new_session = Some s →
  (∀ c, c ∈ calls s → ended (call_phase c) = true → dict_get (pending (mux s)) (call_id c) = None) ∧
  (∀ c value, c ∈ calls s → call_phase c = Awaiting → field value "id" = JStr (call_id c) →
     is_Some (answered (call_id c) (with_mux (resolve_response value (mux s)).2 s))) ∧
  pending (mux (cancel s)) = [] ∧
  (∀ c, c ∈ calls s → call_phase c = Awaiting → is_Some (answered (call_id c) (cancel s))).
Proof.
  intros Hs%(inv_run _ _ _ inv_new). pose proof Hs as [W I _ _ O _].
  assert (pending (mux (cancel s)) = []) as Hnil.
  { unfold cancel. rewrite cancel_all_run. apply all_resolved_empty, W. }
  split_and!; [|..|exact Hnil|].
  - intros c Hc He. destruct (dict_get _ _) as [r|] eqn:Hr; [|done].
    destruct (O _ r Hr) as (c' & Hc' & Hid & _ & He').
    by rewrite (same_id s c c'), He' in He.
  - intros c value Hc Hp Hid. apply answerable; [by apply (inv_step (Response value) s)|done..|].
    cbn [mux with_mux]. rewrite resolve_response_run. unfold response_of. rewrite Hid. cbn [snd].
    rewrite resolved_pending, dict_get_del by apply W. by rewrite bool_decide_true.
  - intros c Hc Hp. apply answerable; [by apply inv_cancel|done..|]. by rewrite Hnil.
Qed.

(** The events that free the slot of [i]. *)
Definition frees (i : string) (e : event) : Prop :=
  match e with
  | Response value => field value "id" = JStr i
  | ConnectionLost => True
  | _ => False
  end.

Definition stuck (i : string) (s : IpcSession) : Prop :=
  dict_get (pending (mux s)) i ≠ None ∧ ∃ c, the_call i s = Some c ∧ call_phase c = Killed.

Lemma the_call_set_phase i j p s : i ≠ j → the_call i (set_phase j p s) = the_call i s.
Proof.
  intros Hne. unfold the_call, set_phase. simpl. induction (calls s) as [|c l IH]; simpl; [done|].
  destruct (call_id c =? j) eqn:Hj; simpl.
  - bools. rewrite (proj2 (String.eqb_neq j i)), (proj2 (String.eqb_neq (call_id c) i)) by congruence.
    exact IH.
  - by destruct (call_id c =? i).
Qed.

Lemma the_call_set_same i p s c :
  the_call i s = Some c →
  the_call i (set_phase i p s) =
    Some {| call_id := i; call_future := call_future c; call_phase := p |}.
Proof.
  unfold the_call, set_phase. simpl. induction (calls s) as [|c0 l IH]; simpl; [done|].
  destruct (call_id c0 =? i) eqn:Hi; simpl.
  - rewrite String.eqb_refl. by intros [= <-].
  - rewrite Hi. exact IH.
Qed.

Lemma stuck_set_phase i j p s : stuck i s → i ≠ j → stuck i (set_phase j p s).
Proof. intros [Hp Hc] Hne. split; [done|]. by rewrite the_call_set_phase. Qed.

Lemma stuck_resolved i j answer s :
  wf (mux s) → stuck i s → i ≠ j → stuck i (with_mux (resolved j answer (mux s)) s).
Proof.
  intros W [Hp Hc] Hne. split; [|done]. cbn [mux with_mux].
  rewrite resolved_pending, dict_get_del by apply W. by rewrite bool_decide_false by congruence.
Qed.

Lemma stuck_step i e s s' : inv s → stuck i s → ¬ frees i e → step e s = Some s' → stuck i s'.
Proof.
  intros Hs Hst Hfree. pose proof Hst as [Hp (ci & Hci & Hk)].
  assert (∀ j c, the_call j s = Some c → call_phase c ≠ Killed → i ≠ j) as Hne by congruence.
  destruct e as [j d now|j|j e|j|j|j|value|]; simpl in *.
  - unfold start_call. destruct (_ ∈? _) eqn:Hfresh; [done|]. bools.
    destruct (_ <=? 0)%Z; [by intros [= <-]|]. rewrite register_pending_run.
    destruct (Nat.leb _ _); [intros [= <-]; by destruct s|]. intros [= <-]. split; simpl.
    + rewrite dict_get_set. by case_bool_decide.
    + exists ci. split; [|done]. unfold the_call in *. simpl. by apply find_app_some.
  - unfold write_ended. destruct (the_call j s) as [c|] eqn:Hc; [|done]. simpl.
    destruct (call_phase c) eqn:Hph; try done. intros [= <-].
    apply stuck_set_phase; [done|]. apply (Hne j c Hc). congruence.
  - unfold write_ended. destruct (the_call j s) as [c|] eqn:Hc; [|done]. simpl.
    destruct (call_phase c) eqn:Hph; try done. intros [= <-].
    assert (i ≠ j) by (apply (Hne j c Hc); congruence). apply stuck_set_phase; [|done].
    unfold cancel_pending. rewrite resolve_pending_run. by apply stuck_resolved; [apply Hs|..].
  - unfold answered. destruct (the_call j s) as [c|] eqn:Hc; [|done]. simpl.
    destruct (call_phase c) eqn:Hph; try done.
    assert (i ≠ j) by (apply (Hne j c Hc); congruence).
    destruct (future_of c s); try done; intros [= <-]; by apply stuck_set_phase.
  - unfold deadline_passed. destruct (the_call j s) as [c|] eqn:Hc; [|done]. simpl.
    destruct (call_phase c) eqn:Hph; try done. destruct (future_of c s) eqn:Hf; try done.
    assert (i ≠ j) by (apply (Hne j c Hc); congruence). intros [= <-].
    apply stuck_set_phase; [|done]. unfold cancel_pending. rewrite resolve_pending_run.
    set (m := settle _ _ _). apply (stuck_resolved i j _ (with_mux m s)); [|done..].
    apply (inv_give_up j c s Hs Hc Hf).
  - unfold task_cancelled. destruct (the_call j s) as [c|] eqn:Hc; [|done]. simpl.
    destruct (call_phase c) eqn:Hph; try done; intros [= <-];
      (apply stuck_set_phase; [|apply (Hne j c Hc); congruence]); [done|].
    by destruct (settled _).
  - intros [= <-]. rewrite resolve_response_run. cbn [snd].
    destruct (response_of value) as [[j answer]|] eqn:Hr; [|by destruct s].
    apply stuck_resolved; [apply Hs|done|]. intros <-. apply Hfree. unfold response_of in Hr.
    destruct (field value "id"); try done. by injection Hr as <- _.
  - done.
Qed.

(** A cancelled caller leaks its slot.  When the task of a call that holds a slot is
    cancelled, neither handler of [call] runs, and the slot stays taken whatever happens
    next, until the peer answers that very call or the connection is lost. *)
Lemma cancelled_call_keeps_slot l s i c s1 later s2 :
  run l new_session = Some s →
  the_call i s = Some c → holds_slot c (mux s) →
  step (TaskCancelled i) s = Some s1 →
  Forall (λ e, ¬ frees i e) later → run later s1 = Some s2 →
  dict_get (pending (mux s2)) i ≠ None.
Proof.
  intros Hs%(inv_run _ _ _ inv_new) Hc (r & Hr & _) Hk Hlater Hrun.
  pose proof (inv_step _ _ _ Hs Hk) as Hs1. pose proof Hc as [_ Hi]%the_call_some. subst i.
  assert (stuck (call_id c) s1) as Hst.
  { simpl in Hk. unfold task_cancelled in Hk. rewrite Hc in Hk. simpl in Hk.
    destruct (call_phase c); try done; injection Hk as <-; split.
    - simpl. congruence.
    - eexists. by split; [apply the_call_set_same|].
    - simpl. destruct (settled _); simpl; congruence.
    - eexists. split; [apply (the_call_set_same _ _ _ c); by destruct (settled _)|done]. }
  clear Hk Hs Hc Hr. revert s1 Hs1 Hst Hrun. induction Hlater as [|e later Hf Hlater IH];
    intros s1 Hs1 Hst; simpl; [intros [= <-]; apply Hst|].
  destruct (step e s1) as [s3|] eqn:He; [|done]. simpl. apply IH; [by eapply inv_step|].
  by eapply stuck_step.
Qed.

(** An error response whose message is empty is taken for a success: the call that
    waits for it returns [None]. *)
Theorem empty_error_is_success l s c value error :
  run l new_session = Some s →
  c ∈ calls s → call_phase c = Awaiting → holds_slot c (mux s) →
  field value "id" = JStr (call_id c) → ("error" ∈? value.*1) = true →
  field value "error" = JObj error → ("message" ∈? error.*1) = true → field error "message" = JStr "" →
  let s' := with_mux (resolve_response value (mux s)).2 s in
  answered (call_id c) s' = Some (set_phase (call_id c) (Returned JNull) s').
Proof.
  intros Hs%(inv_run _ _ _ inv_new) Hc Hp (r & Hr & Hrf) Hid Herr Hobj Hmsg Hempty s'.
  destruct (inv_live _ Hs c Hc) as [[_ Hgone]|[_ Hw]]; [by rewrite Hp|congruence|].
  unfold answered. change (the_call (call_id c) s') with (the_call (call_id c) s).
  rewrite the_call_in by done. simpl. rewrite Hp.
  assert (future_of c s' = Result JNull) as ->; [|done].
  unfold future_of, s'. cbn [mux with_mux]. rewrite resolve_response_run. unfold response_of.
  rewrite Hid, Herr, Hobj. unfold field_or. rewrite Hmsg, Hempty. cbn [snd].
  rewrite <-Hrf in *. by rewrite (resolved_lookup _ _ _ r Hr Hw).
Qed.
End Session.

(** ** Sessions the theorems run on *)

Module Demo.
Definition no_repr (j : json) : string := "".

(** One call that waits for its answer, one whose frame is still to be written. *)
Definition opening : list event := [Start "a" 10 0; Written "a"; Start "b" 10 0].
Definition session : IpcSession := default new_session (run no_repr opening new_session).
Definition waiting : Call := {| call_id := "a"; call_future := 0; call_phase := Awaiting |}.

Definition later : list event :=
  [Written "b"; Response [("id", JStr "b"); ("result", JInt 1)]; Answered "b"; Start "c" 20 5].
Definition killed : IpcSession := default new_session (step no_repr (TaskCancelled "a") session).
Definition later_session : IpcSession := default new_session (run no_repr later killed).

Definition empty_error : list (string * json) :=
  [("id", JStr "a"); ("error", JObj [("code", JInt (-32000)); ("message", JStr "")])].

(** [n] calls whose tasks are cancelled. *)
Definition leak (n : nat) : list event :=
  concat (map (λ k, let i := pretty.pretty k in [Start i 10 0; TaskCancelled i]) (seq 0 n)).
End Demo.

Lemma session_answers_every_call_witness :
  is_Some (answered "a" (cancel Demo.session)) ∧ pending (mux (cancel Demo.session)) = [].
Proof.
  destruct (session_answers_every_call Demo.no_repr Demo.opening Demo.session) as (_ & _ & Hnil & Hans);
    [by vm_compute|].
  split; [|exact Hnil]. apply (Hans Demo.waiting); [|done]. vm_compute. repeat constructor.
Defined.

Lemma cancelled_call_keeps_slot_witness : dict_get (pending (mux Demo.later_session)) "a" ≠ None.
Proof.
  apply (cancelled_call_keeps_slot Demo.no_repr Demo.opening Demo.session "a" Demo.waiting Demo.killed
    Demo.later); [by vm_compute|by vm_compute| |by vm_compute| |by vm_compute].
  - exists {| deadline := 10; response_future := 0 |}. by vm_compute.
  - repeat (apply Forall_cons_2; [by vm_compute|]). by apply Forall_nil_2.
Defined.

Lemma empty_error_is_success_witness :
  let s' := with_mux (resolve_response Demo.no_repr Demo.empty_error (mux Demo.session)).2 Demo.session in
  answered "a" s' = Some (set_phase "a" (Returned JNull) s').
Proof.
  apply (empty_error_is_success Demo.no_repr Demo.opening Demo.session Demo.waiting Demo.empty_error
    [("code", JInt (-32000)); ("message", JStr "")]); try by vm_compute.
  - vm_compute. repeat constructor.
  - exists {| deadline := 10; response_future := 0 |}. by vm_compute.
Defined.

(** Cancelled callers alone exhaust the multiplexer. *)
Example leaked_slots_exhaust :
  match run Demo.no_repr (Demo.leak 256) new_session with
  | Some s => (register_pending "next" 10 (mux s)).1 = Err (BACKPRESSURE "too many pending requests")
  | None => False
  end.
Proof. by vm_compute. Qed.
