(* ===== verification/RpcServer.v ===== *)
(** * The RPC server ([rpc/production_server.py], [rpc/dispatcher.py])

    One connection at a time.  The read loop turns every request into a task; a task runs
    [_dispatch] and writes the response.  A [Connection] is what the server knows of its
    client: an [event] is a frame that arrives, a task that finishes, or the loss of the
    connection.  A task runs from its first instruction to its response in one step, so the
    interleavings are those of the order in which tasks finish.

    The application behind the server is a record of operations on a state [S]; [handlers]
    are the methods its dispatcher has registered.  [hmac_b64] is base64 of HMAC-SHA256,
    [fromisoformat] the local time and the UTC offset a text denotes, [wide_code] the
    non-ASCII capitals and digits, [provider_message] the text of a provider's error.

    The theorems: nothing runs before the handshake has proved who is calling, and no public
    method without its contract; every request of the client gets one answer, at most 256
    of them being worked on; an answer to a failure shows a code and nothing else.  But a
    notification can be answered too, and an answer that is too large is never sent. *)

From S2P Require Import Prelude PyEnum PyStr PyText Sql RoutingStore JsonText Frame RpcSchema Multiplexer RpcSession.

#[local] Open Scope string_scope.

Notation params := (list (string * json)).

(* [sidecar/ibreeze/rpc/production_server.py:32-32 PROTOCOL_VERSION] *)
Definition PROTOCOL_VERSION : Z := 1.
(* [sidecar/ibreeze/rpc/production_server.py:33-33 MAX_INFLIGHT_REQUESTS] *)
Definition MAX_INFLIGHT_REQUESTS : nat := 256.

(** ** Credentials in stored documents *)

(** [json_tree] of the document has a text that is [needle]. *)
Fixpoint mentions (needle : string) (j : json) : bool :=
  match j with
  | JStr s => s =? needle
  | JList l => existsb (mentions needle) l
  | JObj d => existsb (λ kv, mentions needle kv.2) d
  | _ => false
  end.

Record ProfileVersion := { pv_id : string; pv_status : string; pv_routing_policy_json : json }.
Record Snapshot := { es_id : string; es_company_id : string; es_candidate_bindings_json : option json }.
Record AgentRun := { ar_id : string; ar_company_id : string; ar_execution_snapshot_id : string; ar_status : string }.

Definition snapshot_mentions (needle : string) (s : Snapshot) : bool :=
  match es_candidate_bindings_json s with Some j => mentions needle j | None => false end.

Definition sorted_texts (l : list string) : list json := map JStr (sort_by String.leb l).

(* [sidecar/ibreeze/rpc/production_server.py:249-298 ProductionRpcServer._credential_get_references] *)
Definition _credential_get_references (versions : list ProfileVersion) (snapshots : list Snapshot)
    (runs : list AgentRun) (ps : params) : result json :=
  match field ps "credential_ref" with
  | JStr needle =>
      ensure (negb (needle =? "") && is_uuid needle) (ValueError "CREDENTIAL_REF_INVALID");;
      let versions := List.filter (λ v, mentions needle (pv_routing_policy_json v)) versions in
      let active := map pv_id (List.filter (λ v, pv_status v ∈? ["published"; "retired"]) versions) in
      let draft := map pv_id (List.filter (λ v, pv_status v =? "draft") versions) in
      let snapshot_ids := unique (map es_id (List.filter (snapshot_mentions needle) snapshots)) in
      let run_ids := unique (map ar_id (List.filter (λ r,
        negb (ar_status r ∈? ["succeeded"; "failed"; "cancelled"; "timed_out"; "lost"]) &&
        existsb (λ s, (es_id s =? ar_execution_snapshot_id r) && (es_company_id s =? ar_company_id r) &&
                      snapshot_mentions needle s) snapshots) runs)) in
      Ok (JObj [("active_profile_version_ids", JList (sorted_texts active));
                ("draft_profile_version_ids", JList (sorted_texts draft));
                ("non_terminal_run_ids", JList (sorted_texts run_ids));
                ("total_count", JInt (Z.of_nat (length active + length draft + length run_ids + length snapshot_ids)))])
  | _ => Err (ValueError "CREDENTIAL_REF_INVALID")
  end.

Definition lower_hex (c : Ascii.ascii) : bool :=
  ((48 <=? code c) && (code c <=? 57) || (97 <=? code c) && (code c <=? 102))%Z.

(** [re.fullmatch(r"[0-9a-f]{64}", s)] *)
Definition is_sha256 (s : string) : bool :=
  Nat.eqb (String.length s) 64 && forallb lower_hex (String.list_ascii_of_string s).

(* [sidecar/ibreeze/rpc/production_server.py:305-316 ProductionRpcServer._credential_probe_succeeded] *)
Definition clear_health (now : string) (credential_hash : string) : tx RoutingStore.DB json :=
  n ← update (R := Health) (λ h, dh_credential_ref_sha256 h =? credential_hash) (λ h, {|
    dh_company_id := dh_company_id h; dh_provider_release_id := dh_provider_release_id h;
    dh_model_binding_id := dh_model_binding_id h; dh_credential_ref_sha256 := dh_credential_ref_sha256 h;
    dh_availability_state := "ready"; dh_consecutive_strikes := 0; dh_benched_until := None;
    dh_last_failure_kind := None; dh_last_failure_at := None; dh_last_success_at := dh_last_success_at h;
    dh_version := dh_version h + 1; dh_updated_at := now |});
  mret (JObj [("cleared_count", JInt n)]).

(** ** The application *)

(* [sidecar/ibreeze/application/context.py:8-15 CommandContext] *)
Record CommandContext := {
  trace_id : Z; ctx_session_id : Z; window_session_id : option Z;
  idempotency_key : option string; deadline_at : option Z }.

Record HealthSnapshot := { health_status : string; observed_at : string; migration_version : Z }.

(** What the server uses of the lifecycle, the supervisor and the broker. *)
Record Application S := {
  health : tx S HealthSnapshot;
  publish_broker_event : params → tx S unit;
  handle_notification : string → params → tx S unit;
  submit : tx RoutingStore.DB json → tx S json;
  profile_versions : S → list ProfileVersion;
  execution_snapshots : S → list Snapshot;
  agent_runs : S → list AgentRun;
  handlers : string → option (params → CommandContext → tx S json) }.
Arguments health {S}. Arguments publish_broker_event {S}. Arguments handle_notification {S}.
Arguments submit {S}. Arguments profile_versions {S}. Arguments execution_snapshots {S}.
Arguments agent_runs {S}. Arguments handlers {S}.

(** What is fixed when the server starts. *)
Record Config := { startup_token : string; app_version : string; launch_id : string }.

(** The clock, its text, and the next random id. *)
Record Env := { now : Z; now_text : string; fresh_id : Z }.

(* [sidecar/ibreeze/rpc/production_server.py:36-59 ProductionRpcServer.__init__] *)
Record Server S := {
  ipc_session_id : option Z;   (** [_ipc_session_id], as the number of the UUID *)
  session_id : Z;              (** [session.meta.session_id] *)
  connected : bool;            (** [_session] is there *)
  reverse_session : bool;      (** [set_reverse_rpc_session] has been given it *)
  heartbeat : bool;            (** the heartbeat task runs *)
  stopping : bool;             (** [stop] has been scheduled *)
  app : S }.
Arguments ipc_session_id {S}. Arguments session_id {S}. Arguments connected {S}.
Arguments reverse_session {S}. Arguments heartbeat {S}. Arguments stopping {S}. Arguments app {S}.
Arguments Build_Server {S}.

(** An id as [str(uuid)]. *)
Fixpoint hex_digits (w : nat) (n : Z) : string :=
  match w with O => "" | S w => hex_digits w (n / 16) +:+ String (hex_digit (n mod 16)) "" end.
Definition uuid_text (n : Z) : string :=
  hex_digits 8 (n / 2 ^ 96) +:+ "-" +:+ hex_digits 4 (n / 2 ^ 80) +:+ "-" +:+ hex_digits 4 (n / 2 ^ 64) +:+ "-" +:+
  hex_digits 4 (n / 2 ^ 48) +:+ "-" +:+ hex_digits 12 n.

(* [sidecar/ibreeze/rpc/production_server.py:427-433 ProductionRpcServer._error] *)
Definition _error (request_id : json) (code : Z) (message : string) : params := [
  ("jsonrpc", JStr "2.0"); ("id", request_id);
  ("error", JObj [("code", JInt code); ("message", JStr message)])].

Section RpcServer.
Context {S : Type} (the_app : Application S) (config : Config).
Context (repr : json → string) (num_lt num_eq : json → json → bool).
Context (fullmatch : string → string → result bool) (files : string → option json).
Context (limit : nat).
Context (hmac_b64 : string → string → string) (fromisoformat : string → option (Z * option Z)).
Context (wide_code : string → bool) (provider_message : exn → string).

Definition with_app (a : S) (s : Server S) : Server S := {|
  ipc_session_id := ipc_session_id s; session_id := session_id s; connected := connected s;
  reverse_session := reverse_session s; heartbeat := heartbeat s; stopping := stopping s; app := a |}.

Definition on_app {A} (m : tx S A) : tx (Server S) A := λ s,
  let '(r, a) := m (app s) in (r, with_app a s).

(** The session of the connection has been authenticated. *)
Definition authenticated (s : Server S) : bool :=
  match ipc_session_id s with Some i => (i =? session_id s)%Z | None => false end.

(** ** The safe message *)

(** [str(error)] of the errors that are a [ValueError] or a [RuntimeError]. *)
Definition error_text (e : exn) : option string :=
  match e with
  | ValueError m | RuntimeErr m | RouteSafetyErr m => Some m
  | RunCancelledErr => Some "MODEL_RUN_CANCELLED"
  | ProviderErr _ _ _ => Some (provider_message e)
  | _ => None
  end.

(** A capital, a digit, or one of [_.:-]. *)
Definition code_char (c : string) : bool :=
  match c with
  | String a EmptyString =>
      ((65 <=? code a) && (code a <=? 90) || (48 <=? code a) && (code a <=? 57))%Z ||
      (c ∈? ["_"; "."; ":"; "-"])
  | _ => wide_code c
  end.

Definition code_like (message : string) : bool :=
  (0 <? py_len message)%Z && (py_len message <=? 160)%Z && forallb code_char (chars message).

(* [sidecar/ibreeze/rpc/production_server.py:435-451 ProductionRpcServer._safe_exception_message] *)
Definition _safe_exception_message (error : exn) : string :=
  match error_text error with
  | Some text => let message := strip text in if code_like message then message else "INTERNAL_ERROR"
  | None => "INTERNAL_ERROR"
  end.

(** ** The context of a command *)

(** [uuid.UUID(j)], which takes text only; all its errors are one here. *)
Definition uuid_or (j : json) (e : exn) : result Z :=
  match j with JStr s => of_option (py_uuid s) e | _ => Err e end.

Definition allowed_meta : list string :=
  ["trace_id"; "ipc_session_id"; "window_session_id"; "idempotency_key"; "deadline_at"].

Definition VALIDATION_FAILED : exn := ValueError "VALIDATION_FAILED".

Definition key_of (value : params) : option string :=
  match field value "idempotency_key" with JNull => None | v => Some (py_str repr v) end.

(* [sidecar/ibreeze/rpc/production_server.py:364-377 ProductionRpcServer._context_from_meta] *)
Definition deadline_of (env : Env) (value : params) : result (option Z) :=
  match field value "deadline_at" with
  | JStr text =>
      read ← of_option (fromisoformat text) VALIDATION_FAILED;
      offset ← of_option read.2 VALIDATION_FAILED;
      ensure (now env <? read.1 - offset)%Z (ValueError "IPC_DEADLINE_EXCEEDED");;
      Ok (Some (read.1 - offset)%Z)
  | _ => Ok None
  end.

(* [sidecar/ibreeze/rpc/production_server.py:324-384 ProductionRpcServer._context_from_meta] *)
Definition _context_from_meta (env : Env) (value : json) (session_id : Z) (method : string)
    : result CommandContext :=
  match value with
  | JObj value =>
      ensure (match field value "trace_id" with JStr _ => true | _ => false end) VALIDATION_FAILED;;
      ensure (forallb (λ k, k ∈? allowed_meta) value.*1) VALIDATION_FAILED;;
      trace ← uuid_or (field value "trace_id") VALIDATION_FAILED;
      ipc_id ← uuid_or (JStr (py_str repr (field value "ipc_session_id"))) VALIDATION_FAILED;
      ensure (ipc_id =? session_id)%Z (ValueError "IPC_SESSION_INVALID");;
      let window := field value "window_session_id" in
      window_id ← (if json_truthy window then Some <$> uuid_or window VALIDATION_FAILED else Ok None);
      let key := key_of value in
      match key with Some k => ensure (is_uuid k) VALIDATION_FAILED | None => Ok tt end;;
      is_write ← method_is_write num_eq files method;
      ensure (negb (bool_decide (is_write = Some true) && bool_decide (key = None)))
        (ValueError "IDEMPOTENCY_KEY_REQUIRED");;
      ensure (negb (bool_decide (is_write = Some false) && negb (bool_decide (key = None))))
        (ValueError "IDEMPOTENCY_KEY_NOT_ALLOWED");;
      deadline ← deadline_of env value;
      Ok {| trace_id := trace; ctx_session_id := ipc_id; window_session_id := window_id;
            idempotency_key := key; deadline_at := deadline |}
  | _ => Err VALIDATION_FAILED
  end.

(** ** The handshake *)

Definition required_handshake : list string :=
  ["app_version"; "protocol_version"; "launch_id"; "nonce"; "proof"].

Definition is_ascii (s : string) : bool := forallb (λ c, code c <? 128)%Z (String.list_ascii_of_string s).

(** [hmac.compare_digest(expected, j)] *)
Definition compare_digest (expected : string) (j : json) : result bool :=
  match j with
  | JStr s => if is_ascii s then Ok (expected =? s) else Err (TypeErr "comparing strings with non-ASCII characters")
  | _ => Err (TypeErr "unsupported operand types(s)")
  end.

(** The proof of who knows the startup token. *)
Definition expected_proof (ps : params) : string :=
  hmac_b64 (startup_token config)
    (py_str repr (field ps "app_version") +:+ pretty.pretty PROTOCOL_VERSION +:+
     py_str repr (field ps "launch_id") +:+ py_str repr (field ps "nonce")).

Definition bind_session (id : Z) (s : Server S) : Server S := {|
  ipc_session_id := Some id; session_id := id; connected := connected s;
  reverse_session := true; heartbeat := true; stopping := stopping s; app := app s |}.

(** Five parameters, the version of the protocol, the two of this launch, and the proof. *)
(* [sidecar/ibreeze/rpc/production_server.py:390-404 ProductionRpcServer._handshake] *)
Definition check_handshake (ps : params) : result unit :=
  ensure (forallb (λ k, k ∈? ps.*1) required_handshake && forallb (λ k, k ∈? required_handshake) ps.*1)
    VALIDATION_FAILED;;
  ensure (py_eq num_eq (field ps "protocol_version") (JInt PROTOCOL_VERSION)) (ValueError "PROTOCOL_MISMATCH");;
  ensure (bool_decide (field ps "app_version" = JStr (app_version config)) &&
          bool_decide (field ps "launch_id" = JStr (launch_id config))) (ValueError "AUTHENTICATION_FAILED");;
  ensure (utf8_ok (py_str repr (field ps "nonce"))) UnicodeEncodeError;;
  proven ← compare_digest (expected_proof ps) (field ps "proof");
  ensure proven (ValueError "AUTHENTICATION_FAILED").

(* [sidecar/ibreeze/rpc/production_server.py:386-425 ProductionRpcServer._handshake] *)
Definition _handshake (env : Env) (ps : params) : tx (Server S) json :=
  before ← gets ipc_session_id;
  check (bool_decide (before = None)) (ValueError "STATE_TRANSITION_INVALID");;
  lift (check_handshake ps);;
  h ← on_app (health the_app);
  check (health_status h ∈? ["healthy"; "degraded"]) (ValueError "SIDECAR_NOT_READY");;
  here ← gets connected;
  check here (ValueError "IPC_SESSION_INVALID");;
  modify (bind_session (fresh_id env));;
  mret (JObj [("ipc_session_id", JStr (uuid_text (fresh_id env))); ("protocol_version", JInt PROTOCOL_VERSION);
              ("profile_status", JStr "ready"); ("database_status", JStr "ready");
              ("migration_version", JInt (migration_version h))]).

(** ** Dispatch *)

(** What a method comes to: an error frame of the server's own, or a result. *)
Inductive reply := Refused (code : Z) (message : string) | Answer (result : json).

Definition supervisor_methods : list string := [
  "runtime.process.registered"; "runtime.process.output"; "runtime.process.exited"; "credential.http.event"].

Definition set_stopping (s : Server S) : Server S := {|
  ipc_session_id := ipc_session_id s; session_id := session_id s; connected := connected s;
  reverse_session := reverse_session s; heartbeat := heartbeat s; stopping := true; app := app s |}.

Definition for_session (m : tx (Server S) reply) : tx (Server S) reply :=
  known ← gets authenticated;
  if known : bool then m else mret (Refused (-32001) "IPC_SESSION_INVALID").

Definition accepted : json := JObj [("accepted", JBool true)].

(* [sidecar/ibreeze/rpc/production_server.py:300-322 ProductionRpcServer._credential_probe_succeeded] *)
Definition _credential_probe_succeeded (env : Env) (ps : params) : tx S json :=
  match field ps "credential_ref_sha256" with
  | JStr credential_hash =>
      check (is_sha256 credential_hash) (ValueError "CREDENTIAL_REF_INVALID");;
      submit the_app (clear_health (now_text env) credential_hash)
  | _ => raise (ValueError "CREDENTIAL_REF_INVALID")
  end.

(** A method of the registry: its contract, the context, the handler, the contract of what
    it returns. *)
(* [sidecar/ibreeze/rpc/production_server.py:203-231 ProductionRpcServer._dispatch] *)
Definition public_method (env : Env) (method : string) (ps : params) (meta : json) : tx (Server S) reply :=
  match handlers the_app method with
  | None => mret (Refused (-32601) "Method not found.")
  | Some handler =>
      match validate_request repr num_lt num_eq fullmatch files limit method ps with
      | Err (ValueError m) => mret (Refused (-32602) ("VALIDATION_FAILED: " +:+ m))
      | Err e => raise e
      | Ok _ =>
          session ← gets session_id;
          context ← lift (_context_from_meta env meta session method);
          check (negb ("idempotency_key" ∈? ps.*1)) (ValueError "IDEMPOTENCY_KEY_MUST_BE_IN_META");;
          r ← on_app (handler ps context);
          match validate_response repr num_lt num_eq fullmatch files limit method r with
          | Err (ValueError m) => mret (Refused (-32603) ("INTERNAL_RESPONSE_INVALID: " +:+ m))
          | Err e => raise e
          | Ok _ => mret (Answer r)
          end
      end
  end.

(* [sidecar/ibreeze/rpc/production_server.py:163-231 ProductionRpcServer._dispatch] *)
Definition run_method (env : Env) (method : string) (ps : params) (meta : json) : tx (Server S) reply :=
  if method =? "system.handshake" then r ← _handshake env ps; mret (Answer r)
  else for_session (
    if method ∈? supervisor_methods then
      (if method =? "credential.http.event" then on_app (publish_broker_event the_app ps)
       else on_app (handle_notification the_app method ps));;
      mret (Answer accepted)
    else if method =? "system.health" then
      h ← on_app (health the_app);
      mret (Answer (JObj [("status", JStr (health_status h)); ("observed_at", JStr (observed_at h));
                          ("migration_version", JInt (migration_version h))]))
    else if method =? "system.shutdown" then modify set_stopping;; mret (Answer accepted)
    else if method =? "credential.getReferences" then
      a ← gets app;
      r ← lift (_credential_get_references (profile_versions the_app a) (execution_snapshots the_app a)
                  (agent_runs the_app a) ps);
      mret (Answer r)
    else if method =? "credential.probeSucceeded" then
      r ← on_app (_credential_probe_succeeded env ps); mret (Answer r)
    else public_method env method ps meta).

Definition answer_to (request_id result : json) : params :=
  [("jsonrpc", JStr "2.0"); ("id", request_id); ("result", result)].

(** [CancelledError] is no [Exception]: it passes. *)
(* [sidecar/ibreeze/rpc/production_server.py:152-247 ProductionRpcServer._dispatch] *)
Definition _dispatch (env : Env) (request : params) : tx (Server S) (option params) :=
  if negb (bool_decide (field request "jsonrpc" = JStr "2.0"))
  then mret (Some (_error JNull (-32600) "Invalid request."))
  else
  let request_id := field request "id" in
  if match request_id with JNull | JStr _ => false | _ => true end
  then mret (Some (_error JNull (-32600) "Invalid request id."))
  else
  match field request "method", field_or request "params" (JObj []) with
  | JStr method, JObj ps => λ s,
      match run_method env method ps (field request "meta") s with
      | (Ok (Refused code message), s') => (Ok (Some (_error request_id code message)), s')
      | (Ok (Answer r), s') =>
          (Ok (if bool_decide (request_id = JNull) then None else Some (answer_to request_id r)), s')
      | (Err TaskCancelledErr, s') => (Err TaskCancelledErr, s')
      | (Err e, s') =>
          (Ok (if bool_decide (request_id = JNull) then None
               else Some (_error request_id (-32000) (_safe_exception_message e))), s')
      end
  | _, _ => mret (Some (_error request_id (-32602) "Invalid method params."))
  end.


(** ** The connection *)

Record Connection := {
  server : Server S;
  mux : Multiplexer;
  tasks : list (nat * params);   (** [dispatch_tasks], with what each is to dispatch *)
  created : nat;
  sent : list params;            (** the frames written *)
  failed : list params;          (** the requests given up on: nobody will answer them *)
  open : bool }.

Inductive event :=
  | Frame (value : params)
  | Finished (task : nat) (env : Env)
  | Stop
  | Lost.

Definition has (key : string) (value : params) : bool := key ∈? value.*1.

(** [write_frame]; the second component says whether it could be encoded. *)
Definition write (frame : params) (c : Connection) : Connection * bool :=
  match encode_frame limit frame with
  | Ok _ => ({| server := server c; mux := mux c; tasks := tasks c; created := created c;
                sent := sent c ++ [frame]; failed := failed c; open := open c |}, true)
  | Err _ => (c, false)
  end.

(** The [finally] of the read loop, and what [gather] waits for. *)
(* [sidecar/ibreeze/rpc/production_server.py:134-150 ProductionRpcServer._handle_client] *)
Definition close_connection (c : Connection) : Connection :=
  let s := server c in
  {| server := {| ipc_session_id := None; session_id := session_id s; connected := false;
                  reverse_session := false; heartbeat := false; stopping := stopping s; app := app s |};
     mux := (bump_generation (cancel_all "IPC_CONNECTION_LOST" (mux c)).2).2;
     tasks := []; created := created c; sent := sent c; failed := failed c ++ (tasks c).*2; open := false |}.

Definition add_task (value : params) (c : Connection) : Connection := {|
  server := server c; mux := mux c; tasks := tasks c ++ [(created c, value)]; created := Datatypes.S (created c);
  sent := sent c; failed := failed c; open := open c |}.

Definition with_mux (m : Multiplexer) (c : Connection) : Connection := {|
  server := server c; mux := m; tasks := tasks c; created := created c; sent := sent c;
  failed := failed c; open := open c |}.

Definition fail_task (value : params) (c : Connection) : Connection := {|
  server := server c; mux := mux c; tasks := tasks c; created := created c; sent := sent c;
  failed := failed c ++ [value]; open := open c |}.

(** One turn of the read loop. *)
(* [sidecar/ibreeze/rpc/production_server.py:113-132 ProductionRpcServer._handle_client] *)
Definition receive (value : params) (c : Connection) : Connection :=
  if has "method" value then
    if Nat.leb MAX_INFLIGHT_REQUESTS (length (tasks c)) then
      if bool_decide (field value "id" = JNull) then c
      else match write (_error (field value "id") (-32000) "IPC_BACKPRESSURE") c with
           | (c', true) => c'
           | (_, false) => close_connection (fail_task value c)
           end
    else add_task value c
  else if has "id" value && (has "result" value || has "error" value)
  then with_mux (resolve_response repr value (mux c)).2 c
  else close_connection c.

Definition end_task (task : nat) (s : Server S) (c : Connection) : Connection := {|
  server := s; mux := mux c; tasks := List.filter (λ t, negb (Nat.eqb t.1 task)) (tasks c);
  created := created c; sent := sent c; failed := failed c; open := open c |}.

(** An exception of the task is nobody's. *)
(* [sidecar/ibreeze/rpc/production_server.py:107-111 ProductionRpcServer._handle_client] *)
Definition dispatch_and_write (env : Env) (task : nat) (value : params) (c : Connection) : Connection :=
  match _dispatch env value (server c) with
  | (Ok (Some response), s) =>
      match write response (end_task task s c) with
      | (c', true) => c'
      | (_, false) => fail_task value (end_task task s c)
      end
  | (Ok None, s) => end_task task s c
  | (Err _, s) => fail_task value (end_task task s c)
  end.

(** [stop], which [system.shutdown] schedules; the closed stream then ends the read loop. *)
(* [sidecar/ibreeze/rpc/production_server.py:78-91 ProductionRpcServer.stop] *)
Definition stop (c : Connection) : Connection :=
  let s := server c in
  {| server := {| ipc_session_id := None; session_id := session_id s; connected := connected s;
                  reverse_session := false; heartbeat := false; stopping := stopping s; app := app s |};
     mux := (cancel_all "IPC_CONNECTION_LOST" (mux c)).2; tasks := tasks c; created := created c; sent := sent c;
     failed := failed c; open := open c |}.

(* [sidecar/ibreeze/rpc/production_server.py:93-150 ProductionRpcServer._handle_client] *)
Definition step (e : event) (c : Connection) : option Connection :=
  if negb (open c) then None else
  match e with
  | Frame value => Some (receive value c)
  | Finished task env =>
      t ← List.find (λ t, Nat.eqb t.1 task) (tasks c);
      Some (dispatch_and_write env task t.2 c)
  | Stop => if stopping (server c) then Some (stop c) else None
  | Lost => Some (close_connection c)
  end.

Fixpoint run (l : list event) (c : Connection) : option Connection :=
  match l with [] => Some c | e :: l => c' ← step e c; run l c' end.

(** A client that finds another one connected is turned away. *)
(* [sidecar/ibreeze/rpc/production_server.py:98-104 ProductionRpcServer._handle_client] *)
Definition accept (client_connected : bool) (id : Z) (a : S) : option Connection :=
  if client_connected then None
  else Some {| server := {| ipc_session_id := None; session_id := id; connected := true; reverse_session := false;
                            heartbeat := false; stopping := false; app := a |};
               mux := new_multiplexer; tasks := []; created := 0; sent := []; failed := []; open := true |}.

(** ** What guards the application *)

(** The methods of the server itself. *)
Definition own_methods : list string :=
  "system.handshake" :: supervisor_methods ++
  ["system.health"; "system.shutdown"; "credential.getReferences"; "credential.probeSucceeded"].

Lemma run_method_unknown_session env method ps meta s :
  authenticated s = false → method ≠ "system.handshake" →
  run_method env method ps meta s = (Ok (Refused (-32001) "IPC_SESSION_INVALID"), s).
Proof.
  intros Ha Hm. unfold run_method. assert ((method =? "system.handshake") = false) as -> by (by apply String.eqb_neq).
  unfold for_session, mbind, tx_bind, gets. by rewrite Ha.
Qed.

Lemma run_method_public env method ps meta s :
  authenticated s = true → method ∉ own_methods → run_method env method ps meta s = public_method env method ps meta s.
Proof.
  intros Ha Hm. unfold own_methods in Hm. apply not_elem_of_cons in Hm as [Hh Hm].
  apply not_elem_of_app in Hm as [Hs Hm]. rewrite !not_elem_of_cons in Hm. destruct Hm as (H1 & H2 & H3 & H4 & _).
  unfold run_method, mem. apply String.eqb_neq in Hh, H1, H2, H3, H4. rewrite Hh.
  unfold for_session, mbind at 1, tx_bind at 1, gets. rewrite Ha.
  rewrite (bool_decide_false (method ∈ supervisor_methods)) by done. by rewrite H1, H2, H3, H4.
Qed.

(** Everything a handler's call takes. *)
Record granted (env : Env) (method : string) (ps : params) (meta : json) (session : Z) (context : CommandContext) : Prop := {
  granted_schema : validate_request repr num_lt num_eq fullmatch files limit method ps = Ok tt;
  granted_key : "idempotency_key" ∉ ps.*1;
  granted_context : _context_from_meta env meta session method = Ok context }.

Lemma public_method_effect env method ps meta s r s' :
  public_method env method ps meta s = (r, s') →
  s' = s ∨ ∃ handler context, handlers the_app method = Some handler ∧
    granted env method ps meta (session_id s) context ∧ s' = with_app (handler ps context (app s)).2 s.
Proof.
  unfold public_method. destruct (handlers the_app method) as [handler|]; [|intros [= _ <-]; by left].
  destruct (validate_request _ _ _ _ _ _ _ _) as [[]|e] eqn:Hv.
  2:{ intros H. left. destruct e; by injection H as _ <-. }
  unfold mbind at 1, tx_bind at 1, gets. unfold mbind at 1, tx_bind at 1, lift.
  destruct (_context_from_meta env meta (session_id s) method) as [context|e] eqn:Hc; [|intros [= _ <-]; by left].
  unfold mbind at 1, tx_bind at 1, check.
  destruct (mem _ _) eqn:Hk; cbn [negb]; [intros [= _ <-]; by left|].
  unfold mbind, tx_bind, on_app, mret, tx_ret. intros H. right. exists handler, context.
  split; [done|]. split.
  { split; [done| |done]. unfold mem in Hk. by apply bool_decide_eq_false in Hk. }
  destruct (handler ps context (app s)) as [[v|e] a]; [|by injection H as _ <-].
  destruct (validate_response _ _ _ _ _ _ _ _) as [|e]; [by injection H as _ <-|].
  destruct e; by injection H as _ <-.
Qed.

(** What [_dispatch] does to the server is what the method does. *)
Lemma dispatch_effect env request s r s' :
  _dispatch env request s = (r, s') →
  s' = s ∨ ∃ method ps, field request "method" = JStr method ∧ field_or request "params" (JObj []) = JObj ps ∧
    field request "jsonrpc" = JStr "2.0" ∧ s' = (run_method env method ps (field request "meta") s).2.
Proof.
  unfold _dispatch. case_bool_decide as Hj; cbn [negb]; [|intros [= _ <-]; by left].
  destruct (match field request "id" with JNull | JStr _ => false | _ => true end); [intros [= _ <-]; by left|].
  destruct (field request "method") as [| | | |method| |] eqn:Hm; try (intros [= _ <-]; by left).
  destruct (field_or request "params" (JObj [])) as [| | | | | |ps] eqn:Hp; try (intros [= _ <-]; by left).
  intros H. right. exists method, ps. split_and!; [done..|].
  destruct (run_method env method ps (field request "meta") s) as [[[c m|v]|e] s2]; try (by injection H as _ <-).
  destruct e; by injection H as _ <-.
Qed.

Lemma deadline_of_ok env value d : deadline_of env value = Ok (Some d) → (now env < d)%Z.
Proof.
  unfold deadline_of. destruct (field value "deadline_at"); try discriminate.
  intros H. res_inv. by apply Z.ltb_lt.
Qed.

(** What a context says is so. *)
Lemma context_from_meta_ok env meta session method context :
  _context_from_meta env meta session method = Ok context →
  ctx_session_id context = session ∧
  (method_is_write num_eq files method = Ok (Some true) → ∃ k, idempotency_key context = Some k ∧ is_uuid k = true) ∧
  (method_is_write num_eq files method = Ok (Some false) → idempotency_key context = None) ∧
  (∀ d, deadline_at context = Some d → (now env < d)%Z).
Proof.
  unfold _context_from_meta. destruct meta as [| | | | | |value]; try discriminate.
  intros H. cbv zeta in H. destruct (key_of value) as [key|] eqn:Hkey.
  all: res_inv; cbn [ctx_session_id idempotency_key deadline_at].
  all: match goal with H : deadline_of _ _ = Ok _ |- _ => rename H into Hd end.
  all: match goal with H : method_is_write _ _ _ = Ok _ |- _ => rewrite H; clear H end.
  all: repeat match goal with H : negb (_ && _) = true |- _ => apply negb_true_iff, andb_false_iff in H as [?|?] end.
  all: bools.
  all: split_and!; [by apply Z.eqb_eq|intros [= ->]; first [done|by eexists]|intros [= ->]; done|].
  all: intros d ->; by eapply deadline_of_ok.
Qed.


(** C11. The application is reached only through its guards.  A request that changes
    anything, the handshake apart, comes over the session that has been authenticated; and
    one for a public method runs its registered handler on parameters that satisfy the
    method's contract, in a context of that session which has an idempotency key if and
    only if the method writes, and a deadline that has not passed. *)
Theorem dispatch_is_gated env request method s r s' :
  field request "method" = JStr method → method ≠ "system.handshake" →
  _dispatch env request s = (r, s') → s' ≠ s →
  authenticated s = true ∧
  (method ∉ own_methods → ∃ ps handler context,
    field_or request "params" (JObj []) = JObj ps ∧ handlers the_app method = Some handler ∧
    app s' = (handler ps context (app s)).2 ∧
    validate_request repr num_lt num_eq fullmatch files limit method ps = Ok tt ∧
    ctx_session_id context = session_id s ∧
    (method_is_write num_eq files method = Ok (Some true) → is_Some (idempotency_key context)) ∧
    (method_is_write num_eq files method = Ok (Some false) → idempotency_key context = None) ∧
    (∀ d, deadline_at context = Some d → (now env < d)%Z)).
Proof.
  intros Hm Hh Hd Hs. apply dispatch_effect in Hd as [->|(method' & ps & Hm' & Hps & _ & Heff)]; [done|].
  assert (method' = method) as -> by congruence.
  destruct (authenticated s) eqn:Ha.
  2:{ rewrite run_method_unknown_session in Heff by done. done. }
  split; [done|]. intros Hown. rewrite run_method_public in Heff by done.
  destruct (public_method env method ps (field request "meta") s) as [r' s2] eqn:Hp. simpl in Heff. subst s2.
  apply public_method_effect in Hp as [->|(handler & context & Hhd & [Hv Hk Hc] & ->)]; [done|].
  apply context_from_meta_ok in Hc as (Hcs & Hw & Hr & Hdl).
  exists ps, handler, context. split_and!; try done. intros H. destruct (Hw H) as (k & -> & _). by eexists.
Qed.

(** ** Who is calling *)

(** [m] leaves the session alone. *)
Definition keeps_session {A} (m : tx (Server S) A) : Prop := ∀ s, ipc_session_id (m s).2 = ipc_session_id s.

Lemma keeps_bind {A B} (m : tx (Server S) A) (f : A → tx (Server S) B) :
  keeps_session m → (∀ a, keeps_session (f a)) → keeps_session (m ≫= f).
Proof.
  intros Hm Hf s. unfold mbind, tx_bind. specialize (Hm s). destruct (m s) as [[a|e] s1]; simpl in *; [|done].
  by rewrite Hf.
Qed.
Lemma keeps_ret {A} (r : result A) : keeps_session (lift r).
Proof. done. Qed.
Lemma keeps_mret {A} (a : A) : keeps_session (mret a).
Proof. done. Qed.
Lemma keeps_gets {A} (f : Server S → A) : keeps_session (gets f).
Proof. done. Qed.
Lemma keeps_check b e : keeps_session (check b e).
Proof. by destruct b. Qed.
Lemma keeps_on_app {A} (m : tx S A) : keeps_session (on_app m).
Proof. intros s. unfold on_app. by destruct (m (app s)). Qed.

#[local] Hint Resolve keeps_ret keeps_mret keeps_gets keeps_check keeps_on_app : core.
Ltac keeps := repeat first [done | apply keeps_bind; [by auto|intros ?] | by auto | case_match].

Lemma run_method_session env method ps meta :
  method ≠ "system.handshake" → keeps_session (run_method env method ps meta).
Proof.
  intros Hm. unfold run_method. apply String.eqb_neq in Hm as ->. unfold for_session.
  apply keeps_bind; [by auto|]. intros []; [|by auto].
  destruct (method ∈? supervisor_methods).
  { apply keeps_bind; [|by auto]. destruct (method =? "credential.http.event"); by auto. }
  destruct (method =? "system.health"); [keeps|].
  destruct (method =? "system.shutdown"); [apply keeps_bind; [done|by auto]|].
  destruct (method =? "credential.getReferences"); [keeps|].
  destruct (method =? "credential.probeSucceeded"); [keeps|].
  unfold public_method. keeps.
Qed.

(** A session appears only with a handshake that has been proved. *)
Lemma dispatch_session env request s r s' :
  _dispatch env request s = (r, s') →
  ipc_session_id s' = ipc_session_id s ∨
  ∃ ps, field request "method" = JStr "system.handshake" ∧ field_or request "params" (JObj []) = JObj ps ∧
    check_handshake ps = Ok tt.
Proof.
  intros [->|(method & ps & Hm & Hps & _ & ->)]%dispatch_effect; [by left|].
  destruct (decide (method = "system.handshake")) as [->|Hne]; [|left; by apply run_method_session].
  change (run_method env "system.handshake" ps (field request "meta")) with
    (r ← _handshake env ps; mret (Answer r)) .
  destruct (check_handshake ps) as [[]|e] eqn:Hc; [right; by exists ps|].
  left. unfold _handshake. unfold mbind, tx_bind, gets, check, lift. rewrite Hc. by case_bool_decide.
Qed.

Lemma write_other frame c : server (write frame c).1 = server c ∧ tasks (write frame c).1 = tasks c ∧
  open (write frame c).1 = open c ∧ created (write frame c).1 = created c ∧ failed (write frame c).1 = failed c.
Proof. unfold write. by destruct (encode_frame limit frame). Qed.

Lemma dispatch_and_write_other env task value c :
  server (dispatch_and_write env task value c) = (_dispatch env value (server c)).2 ∧
  tasks (dispatch_and_write env task value c) = List.filter (λ t, negb (Nat.eqb t.1 task)) (tasks c) ∧
  open (dispatch_and_write env task value c) = open c ∧ created (dispatch_and_write env task value c) = created c.
Proof.
  unfold dispatch_and_write. destruct (_dispatch env value (server c)) as [[[response|]|e] s]; try done.
  destruct (write_other response (end_task task s c)) as (H1 & H2 & H3 & H4 & _).
  by destruct (write response (end_task task s c)) as [c' []].
Qed.

Lemma receive_other value c :
  (receive value c = add_task value c ∧ has "method" value = true ∧ (length (tasks c) < MAX_INFLIGHT_REQUESTS)%nat) ∨
  (∃ c1, receive value c = close_connection c1) ∨
  server (receive value c) = server c ∧ tasks (receive value c) = tasks c ∧ open (receive value c) = open c ∧
    created (receive value c) = created c.
Proof.
  unfold receive. destruct (has "method" value); [|destruct (_ && _); [right; by right|right; left; by eexists]].
  destruct (Nat.leb_spec MAX_INFLIGHT_REQUESTS (length (tasks c))); [|left; split_and!; [done..|lia]].
  case_bool_decide; [right; by right|].
  destruct (write_other (_error (field value "id") (-32000) "IPC_BACKPRESSURE") c) as (H1 & H2 & H3 & H4 & _).
  destruct (write _ c) as [c' []]; [right; by right|right; left; by eexists].
Qed.

(** The requests among what arrives. *)
Definition request_of (e : event) : option params :=
  match e with Frame value => if has "method" value then Some value else None | _ => None end.

(** What has arrived so far, and how it shows in the connection. *)
Record arrived (l : list event) (c : Connection) : Prop := {
  arrived_tasks : ∀ t, t ∈ tasks c → t.2 ∈ omap request_of l;
  arrived_bound : (length (tasks c) ≤ MAX_INFLIGHT_REQUESTS)%nat;
  arrived_ids : NoDup (tasks c).*1;
  arrived_fresh : ∀ t, t ∈ tasks c → (t.1 < created c)%nat;
  arrived_session : ipc_session_id (server c) ≠ None → ∃ request ps,
    request ∈ omap request_of l ∧ field request "method" = JStr "system.handshake" ∧
    field_or request "params" (JObj []) = JObj ps ∧ check_handshake ps = Ok tt }.

Lemma arrived_more l l' c : arrived l c → arrived (l ++ l') c.
Proof.
  intros [H1 H2 H3 H4 H5]. split; try done.
  - intros t Ht. rewrite omap_app. apply elem_of_app. left. by apply H1.
  - intros Hs. destruct (H5 Hs) as (q & ps & Hq & Hrest). exists q, ps. split; [|done].
    rewrite omap_app. apply elem_of_app. by left.
Qed.

Lemma arrived_same l c c' :
  tasks c' = tasks c → created c' = created c →
  (ipc_session_id (server c') ≠ None → ipc_session_id (server c) ≠ None) → arrived l c → arrived l c'.
Proof. intros Ht Hc Hs [H1 H2 H3 H4 H5]. split; rewrite ?Ht, ?Hc; auto. Qed.

Lemma arrived_empty l c : tasks c = [] → ipc_session_id (server c) = None → arrived l c.
Proof.
  intros Ht Hs. split; rewrite ?Ht; [by intros t []%elem_of_nil|apply Nat.le_0_l|constructor|by intros t []%elem_of_nil|done].
Qed.

Lemma arrived_close l c : arrived l (close_connection c).
Proof. by apply arrived_empty. Qed.

Lemma arrived_step l e c c' : arrived l c → step e c = Some c' → arrived (l ++ [e]) c'.
Proof.
  intros Ha Hs. pose proof (arrived_more l [e] c Ha) as Ha'.
  unfold step in Hs. destruct (open c) eqn:Ho; [|done]. cbn [negb] in Hs. destruct e as [value|task env| |].
  - injection Hs as <-. destruct (receive_other value c) as [(-> & Hm & Hlt)|[[c1 ->]|(Hsv & Ht & _ & Hc)]].
    + destruct Ha' as [H1 H2 H3 H4 H5]. split; cbn [add_task tasks created server]; [| | | |done].
      * intros t [Ht| ->%list_elem_of_singleton]%elem_of_app; [by apply H1|]. rewrite omap_app.
        apply elem_of_app. right. simpl. rewrite Hm. by left.
      * rewrite length_app. simpl. lia.
      * rewrite fmap_app. apply NoDup_app. split_and!; [done| |apply NoDup_singleton].
        intros k (t & Hk & Ht)%list_elem_of_fmap Hk2%list_elem_of_singleton. specialize (H4 t Ht). simpl in *. lia.
      * intros t [Ht| ->%list_elem_of_singleton]%elem_of_app; simpl; [specialize (H4 t Ht); lia|lia].
    + apply arrived_close.
    + eapply arrived_same; [exact Ht|exact Hc|by rewrite Hsv|exact Ha'].
  - destruct (List.find _ (tasks c)) as [t|] eqn:Hf; [|done]. injection Hs as <-.
    apply find_some in Hf as [Hin%list_elem_of_In _].
    destruct (dispatch_and_write_other env task t.2 c) as (Hsv & Ht & _ & Hc).
    destruct Ha' as [H1 H2 H3 H4 H5].
    assert (∀ u, u ∈ tasks (dispatch_and_write env task t.2 c) → u ∈ tasks c) as Hsub.
    { intros u. rewrite Ht, !list_elem_of_In, filter_In. tauto. }
    split; [by auto| | |intros u Hu; rewrite Hc; by auto|].
    + rewrite Ht. etrans; [apply filter_length_le|done].
    + rewrite Ht. clear -H3. induction (tasks c) as [|u us IH]; [done|]. simpl in *.
      apply NoDup_cons in H3 as [Hn H3]. destruct (negb _); [|by apply IH]. simpl. constructor; [|by apply IH].
      intros (v & Hv1 & Hv2)%list_elem_of_fmap. apply Hn, list_elem_of_fmap. exists v. split; [done|].
      apply list_elem_of_In, filter_In in Hv2 as [Hv2 _]. by apply list_elem_of_In.
    + rewrite Hsv. destruct (_dispatch env t.2 (server c)) as [r s'] eqn:Hd.
      apply dispatch_session in Hd as [Hd|(ps & Hm & Hps & Hch)]; simpl; [rewrite Hd; by apply H5|].
      intros _. exists t.2, ps. split_and!; try done. by apply H1.
  - destruct (stopping (server c)); [|done]. injection Hs as <-.
    apply (arrived_same _ c); [done|done|by intros []|exact Ha'].
  - injection Hs as <-. apply arrived_close.
Qed.

Lemma arrived_run seen l c c' : arrived seen c → run l c = Some c' → arrived (seen ++ l) c'.
Proof.
  revert seen c. induction l as [|e l IH]; intros seen c Ha Hr; cbn [run] in Hr.
  - injection Hr as <-. by rewrite app_nil_r.
  - destruct (step e c) as [c1|] eqn:Hs; [|done]. simpl in Hr.
    change (e :: l) with ([e] ++ l)%list. rewrite (assoc_L Datatypes.app).
    eapply IH; [|done]. by eapply arrived_step.
Qed.

Lemma arrived_accept id a c : accept false id a = Some c → arrived [] c.
Proof. injection 1 as <-. by apply arrived_empty. Qed.

(** A connection is authenticated only by who knows the startup token: once it is, one
    of the frames received was a handshake for this version and launch of the program whose
    proof is the HMAC, under the token, of those and its nonce. *)
Lemma session_needs_proof id a c l c' :
  accept false id a = Some c → run l c = Some c' → authenticated (server c') = true →
  ∃ request ps, Frame request ∈ l ∧ field request "method" = JStr "system.handshake" ∧
    field_or request "params" (JObj []) = JObj ps ∧
    field ps "app_version" = JStr (app_version config) ∧ field ps "launch_id" = JStr (launch_id config) ∧
    field ps "proof" = JStr (expected_proof ps).
Proof.
  intros Ha Hr Hauth. pose proof (arrived_run [] l c c' (arrived_accept _ _ _ Ha) Hr) as [_ _ _ _ H].
  destruct H as (request & ps & Hin & Hm & Hps & Hc).
  { intros Hn. unfold authenticated in Hauth. by rewrite Hn in Hauth. }
  apply list_elem_of_omap in Hin as (e & Hin & He). destruct e as [v| | |]; try discriminate He.
  simpl in He. destruct (has "method" v); [|discriminate He]. injection He as ->.
  exists request, ps. split_and!; [done..| | |]; unfold check_handshake in Hc; res_inv; bools; [done|done|].
  match goal with H : compare_digest _ _ = Ok _ |- _ => revert H end. unfold compare_digest.
  destruct (field ps "proof"); try discriminate. destruct (is_ascii s); [|discriminate].
  intros [= Heq]. rewrite Hc in Heq. by apply String.eqb_eq in Heq as ->.
Qed.

(** ** Answers *)

(** Frames whose id is the text [x]. *)
Definition with_id (x : string) (frame : params) : bool := bool_decide (field frame "id" = JStr x).
Definition count_id (x : string) (l : list params) : nat := length (List.filter (with_id x) l).

Lemma count_id_app x l l' : count_id x (l ++ l') = (count_id x l + count_id x l')%nat.
Proof. unfold count_id. by rewrite List.filter_app, length_app. Qed.

Lemma count_id_perm x l l' : l ≡ₚ l' → count_id x l = count_id x l'.
Proof.
  unfold count_id. induction 1 as [|v l l' _ IH|v w l|l1 l2 l3 _ IH1 _ IH2]; simpl; [done| | |congruence].
  - destruct (with_id x v); simpl; lia.
  - by destruct (with_id x v), (with_id x w).
Qed.

Lemma error_id request_id code message : field (_error request_id code message) "id" = request_id.
Proof. done. Qed.

(** A request in the protocol is answered under its id, unless its task dies. *)
Lemma dispatch_answer x env request s :
  field request "jsonrpc" = JStr "2.0" →
  match (_dispatch env request s).1 with
  | Ok (Some response) => with_id x response = with_id x request
  | Ok None => with_id x request = false
  | Err _ => True
  end.
Proof.
  intros Hj. unfold _dispatch, with_id. rewrite bool_decide_true by done. cbn [negb].
  destruct (field request "id") as [| | | |i| |] eqn:Hid; try done.
  - destruct (field request "method"), (field_or request "params" (JObj [])); try done.
    destruct (run_method _ _ _ _ _) as [[[c m|v]|e] s2]; [done|done|]. by destruct e.
  - destruct (field request "method"), (field_or request "params" (JObj [])); try done.
    destruct (run_method _ _ _ _ _) as [[[c m|v]|e] s2]; [done|done|]. by destruct e.
Qed.

(** The finished task leaves, the others stay. *)
Lemma remove_task (l : list (nat * params)) t :
  NoDup l.*1 → t ∈ l → l ≡ₚ t :: List.filter (λ u, negb (Nat.eqb u.1 t.1)) l.
Proof.
  induction l as [|u l IH]; [by intros _ []%elem_of_nil|]. cbn [fmap list_fmap]. intros [Hu Hl]%NoDup_cons Ht.
  cbn [List.filter]. destruct (Nat.eqb_spec u.1 t.1) as [He|He]; cbn [negb].
  - apply elem_of_cons in Ht as [->|Ht]; [|destruct Hu; rewrite He; apply list_elem_of_fmap; by exists t].
    f_equiv. clear -Hu. induction l as [|v l IH]; [done|]. cbn [fmap list_fmap] in Hu.
    apply not_elem_of_cons in Hu as [Hv Hu]. cbn [List.filter].
    destruct (Nat.eqb_spec v.1 u.1); [congruence|]. cbn [negb]. f_equiv. by apply IH.
  - apply elem_of_cons in Ht as [->|Ht]; [done|]. rewrite (IH Hl Ht) at 1. apply perm_swap.
Qed.

(** Every request is answered, given up, or being worked on. *)
Definition accounted (x : string) (l : list params) (c : Connection) : Prop :=
  (count_id x (sent c) + count_id x (failed c) + count_id x (tasks c).*2)%nat = count_id x l.

Lemma accounted_close x l c : accounted x l c → accounted x l (close_connection c).
Proof. unfold accounted, close_connection. cbn [sent failed tasks]. rewrite count_id_app. cbn. lia. Qed.

Lemma accounted_write x l frame c c' :
  write frame c = (c', true) → accounted x l c → accounted x (l ++ [frame]) c'.
Proof.
  unfold write, accounted. destruct (encode_frame limit frame); [|done]. intros [= <-].
  cbn [sent failed tasks]. rewrite !count_id_app. lia.
Qed.

Lemma count_id_one x v : count_id x [v] = if with_id x v then 1%nat else 0%nat.
Proof. unfold count_id. simpl. by destruct (with_id x v). Qed.

Lemma accounted_id x l v w c : with_id x v = with_id x w → accounted x (l ++ [v]) c → accounted x (l ++ [w]) c.
Proof. unfold accounted. rewrite !count_id_app, !count_id_one. by intros ->. Qed.

Lemma accounted_receive x l value c :
  accounted x l c → accounted x (l ++ (if has "method" value then [value] else [])) (receive value c).
Proof.
  intros Ha. unfold receive. destruct (has "method" value).
  2:{ rewrite app_nil_r. destruct (_ && _); [done|by apply accounted_close]. }
  destruct (Nat.leb _ _).
  - case_bool_decide as Hid.
    + unfold accounted in *. rewrite count_id_app, count_id_one.
      assert (with_id x value = false) as -> by (unfold with_id; rewrite Hid; by apply bool_decide_eq_false). lia.
    + destruct (write _ c) as [c' []] eqn:Hw.
      * eapply accounted_id; [|by eapply accounted_write]. done.
      * apply accounted_close. unfold accounted in *. cbn [fail_task sent failed tasks].
        rewrite !count_id_app, <-Ha. lia.
  - unfold accounted in *. cbn [add_task sent failed tasks]. rewrite fmap_app, !count_id_app. simpl. lia.
Qed.

Lemma accounted_finished x l t env c :
  NoDup (tasks c).*1 → t ∈ tasks c → field t.2 "jsonrpc" = JStr "2.0" →
  accounted x l c → accounted x l (dispatch_and_write env t.1 t.2 c).
Proof.
  intros Hnd Ht Hj Ha. pose proof (remove_task _ t Hnd Ht) as Hp.
  assert (count_id x (tasks c).*2 = (count_id x [t.2] +
    count_id x (List.filter (λ u, negb (Nat.eqb u.1 t.1)) (tasks c)).*2)%nat) as Hc.
  { rewrite <-count_id_app. apply count_id_perm. by rewrite Hp at 1. }
  unfold accounted in *. rewrite Hc, count_id_one in Ha.
  pose proof (dispatch_answer x env t.2 (server c) Hj) as Hans. unfold dispatch_and_write.
  destruct (_dispatch env t.2 (server c)) as [[[response|]|e] s]; simpl in Hans.
  - unfold write. destruct (encode_frame limit response).
    + cbn [end_task sent failed tasks]. rewrite count_id_app, count_id_one, Hans. lia.
    + cbn [fail_task end_task sent failed tasks]. rewrite count_id_app, count_id_one. lia.
  - cbn [end_task sent failed tasks]. rewrite Hans in Ha. lia.
  - cbn [fail_task end_task sent failed tasks]. rewrite count_id_app, count_id_one. lia.
Qed.

(** The client speaks JSON-RPC 2.0. *)
Definition in_protocol (l : list event) : Prop :=
  Forall (λ v, field v "jsonrpc" = JStr "2.0") (omap request_of l).

Lemma accounted_run x seen l c c' :
  arrived seen c → in_protocol (seen ++ l)%list → accounted x (omap request_of seen) c → run l c = Some c' →
  accounted x (omap request_of (seen ++ l)%list) c'.
Proof.
  revert seen c. induction l as [|e l IH]; intros seen c Ha Hp Hacc Hr; cbn [run] in Hr.
  - injection Hr as <-. by rewrite app_nil_r.
  - destruct (step e c) as [c1|] eqn:Hs; [|done]. simpl in Hr.
    change (e :: l) with ([e] ++ l)%list in *. rewrite (assoc_L Datatypes.app) in *.
    eapply IH; [by eapply arrived_step|done| |done]. rewrite omap_app.
    unfold step in Hs. destruct (open c); [|done]. cbn [negb] in Hs.
    destruct e as [value|task env| |].
    + injection Hs as <-. pose proof (accounted_receive x _ value c Hacc) as H. simpl.
      by destruct (has "method" value).
    + destruct (List.find _ (tasks c)) as [t|] eqn:Hf; [|done]. injection Hs as <-.
      apply find_some in Hf as [Hin%list_elem_of_In Heq%Nat.eqb_eq]. subst task. simpl. rewrite app_nil_r.
      apply accounted_finished; [apply Ha|done| |done].
      pose proof (arrived_tasks _ _ Ha _ Hin) as Hin'. unfold in_protocol in Hp. rewrite Forall_forall in Hp.
      apply Hp. rewrite !omap_app, !elem_of_app. by left; left.
    + destruct (stopping (server c)); [|done]. injection Hs as <-. simpl. by rewrite app_nil_r.
    + injection Hs as <-. simpl. rewrite app_nil_r. by apply accounted_close.
Qed.

(** C12. Every request gets one answer.  Whatever arrives and in whatever order the tasks
    finish, at most 256 requests are being worked on, each of them can finish, and under
    every id there have been as many requests as there are answers sent, requests given up
    with their task or their connection, and requests still worked on. *)
Theorem every_request_is_answered_once id a c l c' :
  accept false id a = Some c → run l c = Some c' → in_protocol l →
  (length (tasks c') ≤ MAX_INFLIGHT_REQUESTS)%nat ∧
  (∀ t env, open c' = true → t ∈ tasks c' → ∃ c2,
     step (Finished t.1 env) c' = Some c2 ∧ (length (tasks c2) < length (tasks c'))%nat) ∧
  ∀ x, (count_id x (sent c') + count_id x (failed c') + count_id x (tasks c').*2)%nat =
       count_id x (omap request_of l).
Proof.
  intros Ha Hr Hp. pose proof (arrived_run [] l c c' (arrived_accept _ _ _ Ha) Hr) as Harr.
  split_and!; [apply Harr| |].
  - intros t env Ho Ht. unfold step. rewrite Ho. cbn [negb].
    destruct (List.find _ (tasks c')) as [u|] eqn:Hf.
    2:{ apply list_elem_of_In in Ht. pose proof (find_none _ _ Hf t Ht) as Hn. simpl in Hn.
        by rewrite Nat.eqb_refl in Hn. }
    eexists. split; [done|]. destruct (dispatch_and_write_other env t.1 u.2 c') as (_ & -> & _).
    rewrite (Permutation_length (remove_task _ t (arrived_ids _ _ Harr) Ht)). simpl. lia.
  - intros x. apply (accounted_run x [] l c c'); [by eapply arrived_accept|done| |done].
    by injection Ha as <-.
Qed.

(** A notification is answered too, although [_dispatch] says that notifications never
    receive a response, and that an error frame with [id: null] would tear the session down:
    one that comes before the handshake, or names an unknown method, is answered with just
    such a frame. *)
Lemma notification_is_answered env request method ps s :
  field request "jsonrpc" = JStr "2.0" → "id" ∉ request.*1 → field request "method" = JStr method →
  field_or request "params" (JObj []) = JObj ps →
  method ∉ own_methods → handlers the_app method = None →
  (_dispatch env request s).1 = Ok (Some (
    if authenticated s then _error JNull (-32601) "Method not found."
    else _error JNull (-32001) "IPC_SESSION_INVALID")).
Proof.
  intros Hj Hid Hm Hps Hown Hh. unfold _dispatch. rewrite bool_decide_true by done. cbn [negb].
  rewrite (field_absent request "id") by done. rewrite Hm, Hps.
  destruct (authenticated s) eqn:Ha.
  - rewrite run_method_public by done. unfold public_method. by rewrite Hh.
  - rewrite run_method_unknown_session; [done|done|]. intros ->. apply Hown. by left.
Qed.

End RpcServer.

(** ** The dispatcher on its own ([rpc/dispatcher.py]) *)

Section Dispatcher.
Context {S C : Type}.
(** [str(error)], and the local time and UTC offset a text denotes *)
Context (exn_text : exn → string) (fromisoformat : string → option (Z * option Z)).

Definition HandlerFn : Type := params → C → tx S json.

(* [sidecar/ibreeze/rpc/dispatcher.py:16-18 Dispatcher.__init__] *)
Definition Dispatcher : Type := list (string * HandlerFn).

(* [sidecar/ibreeze/rpc/dispatcher.py:20-21 Dispatcher.register] *)
Definition register (method : string) (handler : HandlerFn) (d : Dispatcher) : Dispatcher := dict_set d method handler.

(* [sidecar/ibreeze/rpc/dispatcher.py:23-24 Dispatcher.has_method] *)
Definition has_method (d : Dispatcher) (method : string) : bool := method ∈? dict_keys d.

(* [sidecar/ibreeze/rpc/dispatcher.py:26-28 Dispatcher.method_count] *)
Definition method_count (d : Dispatcher) : nat := length d.

(* [sidecar/ibreeze/rpc/dispatcher.py:30-39 Dispatcher.dispatch] *)
Definition dispatch (d : Dispatcher) (method : string) (ps : params) (session : C) : tx S json :=
  handler ← found (dict_get d method) (MethodNotAllowedErr ("METHOD_NOT_ALLOWED: " +:+ method));
  handler ps session.

(** The deadline, if the frame has one that can be read, has passed. *)
(* [sidecar/ibreeze/rpc/dispatcher.py:76-87 handle_frame] *)
Definition expired (now : Z) (value : params) : bool :=
  match field_or value "meta" (JObj []) with
  | JObj meta =>
      match field meta "deadline_at" with
      | JStr text =>
          negb (text =? "") &&
          match fromisoformat text with
          | Some (local, offset) => (local - default 0 offset <? now)%Z
          | None => false
          end
      | _ => false
      end
  | _ => false
  end.

(** [reverse] is the table of the methods the other side may call; their handlers get no
    session. *)
(* [sidecar/ibreeze/rpc/dispatcher.py:59-116 handle_frame] *)
Definition handle_frame (now : Z) (value : params) (d reverse : Dispatcher) (session none : C)
    : tx S (option params) :=
  match field value "method" with
  | JStr method =>
      let ps := match field_or value "params" (JObj []) with JObj ps => ps | _ => [] end in
      let notification := negb ("id" ∈? value.*1) in
      if expired now value then
        if notification then mret None else raise (IpcErr ("IPC_DEADLINE_EXCEEDED: " +:+ method))
      else λ s,
      match (if has_method reverse method then dispatch reverse method ps none
             else dispatch d method ps session) s with
      | (Ok r, s) => (Ok (if notification then None else Some (answer_to (field value "id") r)), s)
      | (Err TaskCancelledErr, s) => (Err TaskCancelledErr, s)
      | (Err e, s) =>
          (Ok (if notification then None else Some (_error (field value "id") (-32000) (exn_text e))), s)
      end
  | _ => raise (MethodNotAllowedErr "method field required")
  end.
End Dispatcher.

(** ** One client *)

Module Demo.
Definition no_floats (a b : json) : bool := false.
Definition no_repr (j : json) : string := "".
Definition any_match (p t : string) : result bool := Ok true.
(** A keyed digest that is easy to read. *)
Definition toy_hmac (key message : string) : string := key +:+ "/" +:+ message.
Definition no_dates (text : string) : option (Z * option Z) := None.
Definition no_codes (c : string) : bool := false.
Definition no_message (e : exn) : string := "".

(** Notes can be added and read; reading gives back whatever was added. *)
Definition add (ps : params) (context : CommandContext) : tx (list json) json :=
  modify (λ notes, (notes ++ [field ps "text"])%list);; mret (JObj []).
Definition read (ps : params) (context : CommandContext) : tx (list json) json :=
  notes ← gets id; mret (JObj [("notes", JList notes)]).

Definition the_app : Application (list json) := {|
  health := mret {| health_status := "healthy"; observed_at := "t"; migration_version := 7 |};
  publish_broker_event := λ _, mret tt; handle_notification := λ _ _, mret tt;
  submit := λ _, raise (RuntimeErr "CLOSED");
  profile_versions := λ _, []; execution_snapshots := λ _, []; agent_runs := λ _, [];
  handlers := dict_get [("note.add", add); ("note.read", read)] |}.
Definition config : Config := {| startup_token := "token"; app_version := "1.0"; launch_id := "L" |}.

Definition schema (s : Schema) : json := JObj (encode s).
Definition files (name : string) : option json := dict_get [
  ("registry.v1.json", JObj [("methods", JList [
     JObj [("method", JStr "note.add"); ("kind", JStr "write"); ("request_schema", JStr "add"); ("response_schema", JStr "none")];
     JObj [("method", JStr "note.read"); ("kind", JStr "read"); ("request_schema", JStr "none"); ("response_schema", JStr "all")]])]);
  ("add", schema (ObjSchema [("text", StrSchema (Some 1%Z) None None false)] ["text"] true));
  ("none", schema (ObjSchema [] [] true));
  ("all", schema (ObjSchema [("notes", ArrSchema AnySchema None None)] ["notes"] true))] name.

Definition dispatch := _dispatch the_app config no_repr no_floats no_floats any_match files 50 toy_hmac no_dates no_codes no_message.
Definition go := run the_app config no_repr no_floats no_floats any_match files 50 toy_hmac no_dates no_codes no_message.

Definition the_id : string := "12345678-1234-5678-1234-567812345678".
Definition env : Env := {| now := 0; now_text := "t"; fresh_id := default 0 (py_uuid the_id) |}.

Definition request (i method : string) (ps : params) (meta : params) : params := [
  ("jsonrpc", JStr "2.0"); ("id", JStr i); ("method", JStr method); ("params", JObj ps); ("meta", JObj meta)].
Definition meta : params := [("trace_id", JStr the_id); ("ipc_session_id", JStr the_id)].

Definition handshake : params := request "h" "system.handshake" [
  ("app_version", JStr "1.0"); ("protocol_version", JInt 1); ("launch_id", JStr "L"); ("nonce", JStr "n");
  ("proof", JStr "token/1.01Ln")] [].
Definition add_note (text : string) : params :=
  request "a" "note.add" [("text", JStr text)] (("idempotency_key", JStr the_id) :: meta).
Definition read_notes : params := request "r" "note.read" [] meta.

Definition start : Connection := Eval vm_compute in
  match accept false 1 ([] : list json) with Some c => c | None => close_connection {|
    server := {| ipc_session_id := None; session_id := 0; connected := false; reverse_session := false;
                 heartbeat := false; stopping := false; app := [] |};
    mux := new_multiplexer; tasks := []; created := 0; sent := []; failed := []; open := false |} end.

Definition opening : list event := [Frame handshake; Finished 0 env].
Definition opened : Connection := Eval vm_compute in default start (go opening start).

(** Two requests, answered in the other order; one is left. *)
Definition busy : list event :=
  (opening ++ [Frame (add_note "x"); Frame read_notes; Frame read_notes; Finished 2 env; Finished 1 env])%list.
Definition busy_end : Connection := Eval vm_compute in default start (go busy start).

Definition notification : params := [("jsonrpc", JStr "2.0"); ("method", JStr "note.added")].

Definition added : result (option params) * Server (list json) := Eval vm_compute in
  dispatch env (add_note "x") (server opened).
End Demo.

(** A text that no frame can carry, once it is stored: the answer with it is never sent, and
    the connection stays as if it had been. *)
Example unwritable_answer_is_lost :
  let lone_surrogate := bytes [237; 160; 128]%nat in
  match Demo.go (Demo.opening ++ [Frame (Demo.add_note lone_surrogate); Finished 1 Demo.env;
                                  Frame Demo.read_notes; Finished 2 Demo.env]) Demo.start with
  | Some c => (length (sent c), failed c, tasks c, open c) = (2%nat, [Demo.read_notes], [], true)
  | None => False
  end.
Proof. vm_compute. reflexivity. Qed.

Example contracts_and_context :
  map (λ q, match (Demo.dispatch Demo.env q (server Demo.opened)).1 with
            | Ok (Some r) => field r "error" | _ => JNull end)
    [Demo.add_note "x"; Demo.add_note ""; Demo.request "a" "note.add" [("text", JStr "x")] Demo.meta;
     Demo.handshake] =
  [JNull; JObj [("code", JInt (-32602)); ("message", JStr "VALIDATION_FAILED: $.text: length is outside allowed range")];
   JObj [("code", JInt (-32000)); ("message", JStr "IDEMPOTENCY_KEY_REQUIRED")];
   JObj [("code", JInt (-32000)); ("message", JStr "STATE_TRANSITION_INVALID")]].
Proof. vm_compute. reflexivity. Qed.

Lemma dispatch_is_gated_witness : authenticated (server Demo.opened) = true.
Proof.
  refine (proj1 (dispatch_is_gated Demo.the_app Demo.config Demo.no_repr Demo.no_floats Demo.no_floats Demo.any_match
    Demo.files 50 Demo.toy_hmac Demo.no_dates Demo.no_codes Demo.no_message Demo.env (Demo.add_note "x") "note.add"
    (server Demo.opened) (fst Demo.added) (snd Demo.added) _ _ _ _)).
  - reflexivity.
  - discriminate.
  - vm_compute. reflexivity.
  - vm_compute. discriminate.
Defined.

Lemma session_needs_proof_witness : ∃ request, Frame request ∈ Demo.opening.
Proof.
  destruct (session_needs_proof Demo.the_app Demo.config Demo.no_repr Demo.no_floats Demo.no_floats Demo.any_match
    Demo.files 50 Demo.toy_hmac Demo.no_dates Demo.no_codes Demo.no_message 1 [] Demo.start Demo.opening Demo.opened)
    as (request & ps & Hin & _); [vm_compute; reflexivity..|]. by exists request.
Defined.

Lemma every_request_is_answered_once_witness :
  (count_id "r" (sent Demo.busy_end) + count_id "r" (failed Demo.busy_end) + count_id "r" (tasks Demo.busy_end).*2)%nat =
  count_id "r" (omap request_of Demo.busy).
Proof.
  refine (proj2 (proj2 (every_request_is_answered_once Demo.the_app Demo.config Demo.no_repr Demo.no_floats
    Demo.no_floats Demo.any_match Demo.files 50 Demo.toy_hmac Demo.no_dates Demo.no_codes Demo.no_message 1 []
    Demo.start Demo.busy Demo.busy_end _ _ _)) "r").
  - reflexivity.
  - vm_compute. reflexivity.
  - unfold in_protocol. vm_compute. repeat constructor.
Defined.

Lemma notification_is_answered_witness :
  (Demo.dispatch Demo.env Demo.notification (server Demo.opened)).1 =
    Ok (Some (_error JNull (-32601) "Method not found.")).
Proof.
  exact (notification_is_answered Demo.the_app Demo.config Demo.no_repr Demo.no_floats Demo.no_floats Demo.any_match
    Demo.files 50 Demo.toy_hmac Demo.no_dates Demo.no_codes Demo.no_message Demo.env Demo.notification "note.added" []
    (server Demo.opened) eq_refl ltac:(by apply (bool_decide_eq_false _)) eq_refl eq_refl
    ltac:(by apply (bool_decide_eq_false _)) eq_refl).
Defined.
