(* ===== verification/ModelLoop.v ===== *)
(** * The model loop ([runtime/model_loop.py])

    [ModelRuntime.run] talks to a model, a permission checker, tools and a verifier, none
    of which is part of it.  A run is a [prog]: a tree whose nodes are requests to this
    environment and whose branches are its answers; [interp] plays it against any
    environment and records the conversation as a list of events.

    The theorems hold in every environment: the model is asked at most [max_turns] times,
    with well-formed conversations only; a tool runs only if it is registered and right
    after its permission check did not deny it; the result counts what happened; and a
    check that answers [ask] has the effect of one that allows. *)

From S2P Require Import Prelude PyEnum PyStr.

(** ** Data *)

Module ToolPermission.
(* [sidecar/ibreeze/runtime/model_loop.py:12-15 ToolPermission] *)
Inductive t := ALLOW | DENY | ASK.

(* [sidecar/ibreeze/runtime/model_loop.py:12-15 ToolPermission values] *)
Definition val (p : t) : string := match p with ALLOW => "allow" | DENY => "deny" | ASK => "ask" end.

#[export] Instance t_eq_dec : EqDecision t.
Proof. solve_decision. Defined.

#[export] Program Instance t_enum : StrEnum t := {| members := [ALLOW; DENY; ASK]; value := val |}.
Next Obligation. solve_enum_complete. Qed.
Next Obligation. solve_enum_inj. Qed.
End ToolPermission.
Import (hints) ToolPermission.

Definition arguments := list (string * json).

(* [sidecar/ibreeze/runtime/model_loop.py:18-22 ToolCall] *)
Record ToolCall := { tc_id : string; tc_name : string; tc_arguments : arguments }.

(* [sidecar/ibreeze/runtime/model_loop.py:25-29 ModelTurn] *)
Record ModelTurn := {
  mt_content : string;
  mt_tool_calls : list ToolCall;
  mt_usage : list (string * json) }.

(* [sidecar/ibreeze/runtime/model_loop.py:40-47 Checkpoint] *)
Record Checkpoint := {
  cp_turn_number : Z;
  cp_tool_call_id : string;
  cp_tool_name : string;
  cp_arguments : arguments;
  cp_result : json;
  cp_approved : bool }.

(* [sidecar/ibreeze/runtime/model_loop.py:32-37 AgentLoopResult] *)
Record AgentLoopResult := {
  alr_content : string;
  alr_turns : Z;
  alr_tool_executions : Z;
  alr_checkpoints : list Checkpoint }.

(** The dicts of [messages], by role. *)
Inductive Message :=
  | System (content : string)
  | User (content : string)
  | Assistant (content : string) (tool_calls : list ToolCall)
  | ToolResult (tool_call_id : string) (content : text).

(** ** Requests to the environment *)

Inductive ext : Type → Type :=
  | Complete (messages : list Message) (tool_names : list string) : ext ModelTurn
  | CheckPermission (name : string) (args : arguments) : ext ToolPermission.t
  | RunTool (name : string) (args : arguments) : ext json
  | Verify (name : string) (res : json) : ext bool.

Inductive prog (A : Type) : Type :=
  | Ret (a : A)
  | Throw (e : exn)
  | Ask {X} (q : ext X) (k : X → prog A).
Arguments Ret {A} a.
Arguments Throw {A} e.
Arguments Ask {A X} q k.

#[global] Instance prog_ret : MRet prog := λ A a, Ret a.
#[global] Instance prog_bind : MBind prog := λ A B f,
  fix go (p : prog A) : prog B :=
    match p with
    | Ret a => f a
    | Throw e => Throw e
    | Ask q k => Ask q (λ x, go (k x))
    end.

Definition ask {X} (q : ext X) : prog X := Ask q Ret.
Definition require (b : bool) (e : exn) : prog unit := if b then Ret tt else Throw e.

(** One exchange with the environment: the request and its answer, which may be an
    exception of the code that was asked. *)
Inductive event :=
  | Completed (messages : list Message) (tool_names : list string) (r : result ModelTurn)
  | Checked (name : string) (args : arguments) (r : result ToolPermission.t)
  | Ran (name : string) (args : arguments) (r : result json)
  | Verified (name : string) (res : json) (r : result bool).

Definition record {X} (q : ext X) : result X → event :=
  match q with
  | Complete ms names => Completed ms names
  | CheckPermission n a => Checked n a
  | RunTool n a => Ran n a
  | Verify n r => Verified n r
  end.

(** Any environment: its answers may depend on all that happened before. *)
Definition environment : Type := ∀ X, list event → ext X → result X.

Fixpoint interp {A} (env : environment) (p : prog A) (log : list event) : result A * list event :=
  match p with
  | Ret a => (Ok a, log)
  | Throw e => (Err e, log)
  | Ask q k =>
      let r := env _ log q in
      match r with
      | Ok x => interp env (k x) (log ++ [record q r])
      | Err e => (Err e, log ++ [record q r])
      end
  end.

(** ** The runtime *)

(** What the constructor stores; of the tools, their names. *)
(* [sidecar/ibreeze/runtime/model_loop.py:66-73 ModelRuntime.__init__] *)
Record ModelRuntime := {
  tools : list string;
  max_turns : Z;
  permission_checker : bool;   (** whether one was given *)
  verifier : bool }.

(* [sidecar/ibreeze/runtime/model_loop.py:74-81 ModelRuntime.__init__] *)
Definition new_runtime (tools : list string) (max_turns : Z) (checker verifier : bool)
    : result ModelRuntime :=
  ensure (negb (max_turns <? 1)%Z) (ValueError "max_turns must be positive");;
  Ok {| tools := tools; max_turns := max_turns; permission_checker := checker;
        verifier := verifier |}.

Record loop_state := {
  messages : list Message;
  executions : Z;
  checkpoints : list Checkpoint }.

Section Run.
Context (self : ModelRuntime).

(* [sidecar/ibreeze/runtime/model_loop.py:186-193 ModelRuntime._check_permission] *)
Definition _check_permission (name : string) (args : arguments) : prog ToolPermission.t :=
  if permission_checker self then ask (CheckPermission name args) else Ret ToolPermission.ALLOW.

Definition error_of (code name : string) (more : list (string * json)) : json :=
  JObj ([("error", JStr code); ("tool_name", JStr name)] ++ more).

(** [result if isinstance(result, str) else json.dumps(...)] *)
Definition content_of (res : json) : text :=
  match res with JStr s => Raw s | _ => Dumped res end.

(** The result of a call that was not denied, and the tools run so far. *)
(* [sidecar/ibreeze/runtime/model_loop.py:146-163 ModelRuntime.run] *)
Definition execute (call : ToolCall) (executions : Z) : prog (json * Z) :=
  if tc_name call ∈? tools self then
    res ← ask (RunTool (tc_name call) (tc_arguments call));
    verified ← (if verifier self then ask (Verify (tc_name call) res) else Ret true);
    Ret (if (verified : bool) then res
         else error_of "VERIFICATION_FAILED" (tc_name call) [("original_result", res)],
         executions + 1)
  else Ret (error_of "TOOL_NOT_ALLOWED" (tc_name call) [], executions).

(** One tool call: the permission, the tool, the checkpoint and the reply. *)
(* [sidecar/ibreeze/runtime/model_loop.py:129-182 ModelRuntime.run] *)
Definition handle_call (turn_number : Z) (call : ToolCall) (st : loop_state) : prog loop_state :=
  approved ← _check_permission (tc_name call) (tc_arguments call);
  let denied := bool_decide (approved = ToolPermission.DENY) in
  '(res, executions) ←
    (if denied then Ret (error_of "TOOL_PERMISSION_DENIED" (tc_name call) [], executions st)
     else execute call (executions st));
  Ret {| messages := messages st ++ [ToolResult (tc_id call) (content_of res)];
         executions := executions;
         checkpoints := checkpoints st ++ [{|
           cp_turn_number := turn_number; cp_tool_call_id := tc_id call;
           cp_tool_name := tc_name call; cp_arguments := tc_arguments call;
           cp_result := res; cp_approved := negb denied |}] |}.

(* [sidecar/ibreeze/runtime/model_loop.py:123-127 ModelRuntime.run] *)
Fixpoint handle_calls (turn_number : Z) (seen_ids : list string) (calls : list ToolCall)
    (st : loop_state) : prog loop_state :=
  match calls with
  | [] => Ret st
  | call :: calls =>
      require (negb (tc_id call ∈? seen_ids)) (ValueError "MODEL_TOOL_CALL_ID_DUPLICATE");;
      st ← handle_call turn_number call st;
      handle_calls turn_number (tc_id call :: seen_ids) calls st
  end.

(** [for turn_number in range(turn_number, turn_number + n)] *)
(* [sidecar/ibreeze/runtime/model_loop.py:96-121 ModelRuntime.run] *)
Fixpoint turns (n : nat) (turn_number : Z) (st : loop_state) : prog AgentLoopResult :=
  match n with
  | O => Throw (ValueError "AGENT_MAX_TURNS_EXCEEDED")
  | S n =>
      turn ← ask (Complete (messages st) (sort_by String.leb (tools self)));
      let st := {| messages := messages st ++ [Assistant (mt_content turn) (mt_tool_calls turn)];
                   executions := executions st; checkpoints := checkpoints st |} in
      match mt_tool_calls turn with
      | [] => Ret {| alr_content := mt_content turn; alr_turns := turn_number;
                     alr_tool_executions := executions st; alr_checkpoints := checkpoints st |}
      | calls =>
          st ← handle_calls turn_number [] calls st;
          turns n (turn_number + 1) st
      end
  end.

(* [sidecar/ibreeze/runtime/model_loop.py:83-94 ModelRuntime.run] *)
Definition run (system_prompt user_message : string) : prog AgentLoopResult :=
  turns (Z.to_nat (max_turns self)) 1
    {| messages := [System system_prompt; User user_message]; executions := 0;
       checkpoints := [] |}.
End Run.

(** ** Reasoning about a run

    [triple I P p Q]: played from a log that satisfies [P], in any environment, [p] leaves
    a log that satisfies [I] even if it raises, and [Q] of its result if it returns. *)

Section Triples.
Context (I : list event → Prop).

Definition triple {A} (P : list event → Prop) (p : prog A) (Q : A → list event → Prop) : Prop :=
  ∀ env log, P log →
    I (interp env p log).2 ∧ ∀ a, (interp env p log).1 = Ok a → Q a (interp env p log).2.

Lemma triple_ret {A} P (a : A) (Q : A → list event → Prop) :
  (∀ log, P log → I log ∧ Q a log) → triple P (Ret a) Q.
Proof. intros H env log Hp. destruct (H log Hp). split; [done|]. by intros ? [= <-]. Qed.

Lemma triple_throw {A} P e (Q : A → list event → Prop) :
  (∀ log, P log → I log) → triple P (Throw e) Q.
Proof. intros H env log Hp. split; [by apply H|done]. Qed.

Lemma triple_ask {X} P (q : ext X) Q :
  (∀ log r, P log → I (log ++ [record q r])) →
  (∀ log x, P log → Q x (log ++ [record q (Ok x)])) →
  triple P (ask q) Q.
Proof.
  intros H1 H2 env log Hp. simpl. destruct (env X log q) as [x|e]; simpl; split; auto; [|done].
  intros ? [= <-]. auto.
Qed.

Lemma interp_bind {A B} env (p : prog A) (f : A → prog B) log :
  interp env (p ≫= f) log =
    match interp env p log with
    | (Ok a, log') => interp env (f a) log'
    | (Err e, log') => (Err e, log')
    end.
Proof.
  revert log. induction p as [a|e|X q k IH]; intros log; [done..|].
  simpl. destruct (env X log q); [apply IH|done].
Qed.

Lemma triple_bind {A B} P (p : prog A) (f : A → prog B) M Q :
  triple P p M → (∀ a, triple (M a) (f a) Q) → triple P (p ≫= f) Q.
Proof.
  intros Hp Hf env log HP. rewrite interp_bind. destruct (Hp env log HP) as [Hi HM].
  destruct (interp env p log) as [[a|e] log']; simpl in *; [by apply Hf, HM|by split].
Qed.

Lemma triple_require {A} P b e (p : prog A) Q :
  (∀ log, P log → I log) → triple (λ log, P log ∧ b = true) p Q →
  triple P (require b e ≫= λ _, p) Q.
Proof.
  intros Hi Hp env log HP. unfold require. destruct b; simpl.
  - apply Hp. by split.
  - split; [by apply Hi|done].
Qed.

Lemma triple_weaken {A} P P' (p : prog A) Q Q' :
  triple P' p Q' → (∀ log, P log → P' log) → (∀ a log, Q' a log → Q a log) → triple P p Q.
Proof. intros H HP HQ env log Hl. destruct (H env log (HP log Hl)). split; auto. Qed.
End Triples.

(** ** What every run keeps *)

(** The results of the calls, in their order. *)
Definition answers (calls : list ToolCall) (replies : list Message) : Prop :=
  Forall2 (λ c m, ∃ r, m = ToolResult (tc_id c) r) calls replies.

(** What a model may be sent: the prompts, then rounds of tool calls with distinct ids,
    each answered by exactly its results. *)
Inductive conversation : list Message → Prop :=
  | opening s u : conversation [System s; User u]
  | round l content calls replies :
      conversation l → calls ≠ [] → NoDup (map tc_id calls) → answers calls replies →
      conversation (l ++ Assistant content calls :: replies).

Section Safe.
Context (self : ModelRuntime).

(** An event that may follow the events [before]. *)
Definition allowed (before : list event) (e : event) : Prop :=
  match e with
  | Completed ms names _ => conversation ms ∧ names = sort_by String.leb (tools self)
  | Ran name args _ =>
      name ∈ tools self ∧
      (permission_checker self = true →
       ∃ p, last before = Some (Checked name args (Ok p)) ∧ p ≠ ToolPermission.DENY)
  | Checked _ _ _ | Verified _ _ _ => True
  end.

Definition is_completed (e : event) : bool := match e with Completed _ _ _ => true | _ => false end.
Definition is_ran (e : event) : bool := match e with Ran _ _ _ => true | _ => false end.
Definition count (f : event → bool) (log : list event) : nat := length (List.filter f log).

(** The log of a run, complete or interrupted. *)
Record safe (log : list event) : Prop := {
  safe_allowed : ∀ i e, log !! i = Some e → allowed (take i log) e;
  safe_bounded : (count is_completed log ≤ Z.to_nat (max_turns self))%nat }.

Lemma count_snoc f log e : count f (log ++ [e]) = (count f log + if f e then 1 else 0)%nat.
Proof. unfold count. rewrite List.filter_app, length_app. simpl. by destruct (f e). Qed.

Lemma safe_snoc log e :
  safe log → allowed log e → (is_completed e = true → (count is_completed log < Z.to_nat (max_turns self))%nat) →
  safe (log ++ [e]).
Proof.
  intros [Ha Hb] He Hc. split.
  - intros i e' [Hi|[Hi He']]%lookup_app_Some.
    + rewrite take_app_le by (apply lookup_lt_Some in Hi; lia). by apply Ha.
    + apply list_lookup_singleton_Some in He' as [Hi0 <-].
      by rewrite take_app_length' by lia.
  - rewrite count_snoc. destruct (is_completed e); [|lia]. specialize (Hc eq_refl). lia.
Qed.

(** A checkpoint says what the check answered. *)
Definition checkpoint_true (log : list event) (c : Checkpoint) : Prop :=
  permission_checker self = true →
  ∃ p, Checked (cp_tool_name c) (cp_arguments c) (Ok p) ∈ log ∧
    cp_approved c = bool_decide (p ≠ ToolPermission.DENY).

(** The state of the loop accounts for the log. *)
Record accounts (st : loop_state) (log : list event) : Prop := {
  acc_safe : safe log;
  acc_executions : executions st = Z.of_nat (count is_ran log);
  acc_checkpoints : ∀ c, c ∈ checkpoints st → checkpoint_true log c }.

(** What a request that is neither a completion nor a tool run leaves unchanged. *)
Lemma accounts_snoc st log e :
  accounts st log → allowed log e → is_completed e = false → is_ran e = false →
  accounts st (log ++ [e]).
Proof.
  intros [A1 A2 A3] He Hc Hr. split.
  - apply safe_snoc; [done..|congruence].
  - by rewrite count_snoc, Hr, Nat.add_0_r.
  - intros c Hc' Hp. destruct (A3 c Hc' Hp) as (p & Hin & ?). exists p. split; [set_solver|done].
Qed.

Lemma checkpoint_true_snoc log e c : checkpoint_true log c → checkpoint_true (log ++ [e]) c.
Proof. intros Hc Hp. destruct (Hc Hp) as (p & ? & ?). exists p. split; [set_solver|done]. Qed.

(** The state after the check of [call], when [k] completions have been asked for. *)
Definition checked (k : nat) (st : loop_state) (call : ToolCall) (approved : ToolPermission.t)
    (log : list event) : Prop :=
  accounts st log ∧ count is_completed log = k ∧
  (permission_checker self = true →
   last log = Some (Checked (tc_name call) (tc_arguments call) (Ok approved))) ∧
  (permission_checker self = false → approved = ToolPermission.ALLOW).

Lemma check_triple k st call :
  triple safe (λ log, accounts st log ∧ count is_completed log = k)
    (_check_permission self (tc_name call) (tc_arguments call)) (checked k st call).
Proof.
  unfold _check_permission. destruct (permission_checker self) eqn:Hp.
  - apply triple_ask.
    + intros log r [Hacc _]. by apply (accounts_snoc st).
    + intros log x [Hacc Hk]. split_and!; [by apply accounts_snoc| | |congruence].
      * rewrite count_snoc. simpl. lia.
      * intros _. by rewrite last_snoc.
  - apply triple_ret. intros log [Hacc Hk]. split; [apply Hacc|]. split_and!; [done..|congruence|done].
Qed.

(** The state before the checkpoint of [call]: only the tool runs are ahead of [st]. *)
Definition executed (k : nat) (st : loop_state) (call : ToolCall) (denied : bool) (executions : Z)
    (log : list event) : Prop :=
  safe log ∧ count is_completed log = k ∧ executions = Z.of_nat (count is_ran log) ∧
  (∀ c, c ∈ checkpoints st → checkpoint_true log c) ∧
  (permission_checker self = true → ∃ p, denied = bool_decide (p = ToolPermission.DENY) ∧
     Checked (tc_name call) (tc_arguments call) (Ok p) ∈ log).

Lemma checked_executed k st call approved log :
  checked k st call approved log →
  executed k st call (bool_decide (approved = ToolPermission.DENY)) (executions st) log.
Proof.
  intros ([A1 A2 A3] & Hk & Hlast & _). split_and!; [done..|]. intros Hp. exists approved.
  split; [done|]. apply last_Some_elem_of. auto.
Qed.

Lemma executed_snoc k st call denied n log e :
  executed k st call denied n log → allowed log e → is_completed e = false →
  executed k st call denied (n + if is_ran e then 1 else 0) (log ++ [e]).
Proof.
  intros (E1 & E2 & -> & E4 & E5) He Hc. split_and!.
  - apply safe_snoc; [done..|congruence].
  - rewrite count_snoc, Hc. lia.
  - rewrite count_snoc. destruct (is_ran e); lia.
  - intros c Hin. by apply checkpoint_true_snoc, E4.
  - intros Hp. destruct (E5 Hp) as (p & ? & ?). exists p. split; [done|set_solver].
Qed.

Lemma execute_triple k st call approved :
  approved ≠ ToolPermission.DENY →
  triple safe (checked k st call approved) (execute self call (executions st))
    (λ r, executed k st call false r.2).
Proof.
  intros Hd. unfold execute.
  assert (bool_decide (approved = ToolPermission.DENY) = false) as Hf by by apply bool_decide_eq_false.
  assert (∀ log, checked k st call approved log → executed k st call false (executions st) log) as Hex.
  { intros log. rewrite <-Hf. apply checked_executed. }
  destruct (_ ∈? _) eqn:Htool; bools.
  - assert (∀ log r, checked k st call approved log →
      allowed log (Ran (tc_name call) (tc_arguments call) r)) as Hal.
    { intros log r (_ & _ & Hlast & _). split; [done|]. intros Hp. exists approved. auto. }
    eapply triple_bind with (M := λ _ log, executed k st call false (executions st + 1) log).
    + apply triple_ask.
      * intros log r Hch. apply safe_snoc; [apply Hch|by apply Hal|done].
      * intros log x Hch. apply (executed_snoc _ _ _ _ (executions st) log (Ran _ _ (Ok x))); [|by apply Hal|done].
        by apply Hex.
    + intros res. eapply triple_bind with (M := λ _ log, executed k st call false (executions st + 1) log).
      * destruct (verifier self).
        -- apply triple_ask.
           ++ intros log r He. by apply (executed_snoc _ _ _ _ _ _ (Verified (tc_name call) res r) He).
           ++ intros log x He. rewrite <-(Z.add_0_r (executions st + 1)).
              by apply (executed_snoc _ _ _ _ _ _ (Verified (tc_name call) res (Ok x)) He).
        -- apply triple_ret. intros log He. split; [apply He|done].
      * intros b. apply triple_ret. intros log He. split; [apply He|done].
  - apply triple_ret. intros log Hch. split; [apply Hch|]. by apply Hex.
Qed.

Lemma permission_triple k st call approved :
  triple safe (checked k st call approved)
    (if bool_decide (approved = ToolPermission.DENY)
     then Ret (error_of "TOOL_PERMISSION_DENIED" (tc_name call) [], executions st)
     else execute self call (executions st))
    (λ r, executed k st call (bool_decide (approved = ToolPermission.DENY)) r.2).
Proof.
  case_bool_decide as Hd; [|by apply (execute_triple k st call approved)].
  apply triple_ret. intros log Hch. split; [apply Hch|].
  rewrite <-(bool_decide_true (approved = ToolPermission.DENY)) by done. by apply checked_executed.
Qed.

(** [st] after [base] and the replies to [calls], [k] completions having been asked for. *)
Definition replied (k : nat) (base : list Message) (calls : list ToolCall) (st : loop_state)
    (log : list event) : Prop :=
  accounts st log ∧ count is_completed log = k ∧
  ∃ replies, messages st = base ++ replies ∧ answers calls replies.

Lemma handle_call_triple k turn call st base before :
  triple safe (replied k base before st) (handle_call self turn call st)
    (replied k base (before ++ [call])).
Proof.
  intros env log (Hacc & Hk & replies & Hmsgs & Hans).
  enough (triple safe (λ log, accounts st log ∧ count is_completed log = k)
    (handle_call self turn call st) (replied k base (before ++ [call]))) as H by by apply H.
  unfold handle_call. eapply triple_bind; [apply check_triple|]. intros approved.
  eapply triple_bind; [apply permission_triple|]. intros [res n]. apply triple_ret.
  intros log' (E1 & E2 & E3 & E4 & E5). split; [done|]. split_and!; [|done|].
  - split; [done..|]. cbn [checkpoints]. intros c [Hc| ->%list_elem_of_singleton]%elem_of_app; [by apply E4|].
    intros Hp. destruct (E5 Hp) as (p & -> & Hin). exists p. split; [done|]. cbn [cp_approved].
    by rewrite <-bool_decide_not.
  - eexists. cbn [messages]. rewrite Hmsgs, <-(assoc app). split; [done|].
    apply Forall2_app; [done|]. apply Forall2_cons. split; [by eexists|done].
Qed.

Lemma handle_calls_triple k turn seen calls st base before :
  NoDup (map tc_id before) → (∀ i, i ∈ seen ↔ i ∈ map tc_id before) →
  triple safe (replied k base before st) (handle_calls self turn seen calls st)
    (λ st' log, replied k base (before ++ calls) st' log ∧ NoDup (map tc_id (before ++ calls))).
Proof.
  revert seen st before. induction calls as [|call calls IH]; intros seen st before Hnd Hseen; simpl.
  - apply triple_ret. intros log Hr. rewrite app_nil_r. split; [apply Hr|done].
  - apply triple_require; [intros log Hr; apply Hr|].
    destruct (tc_id call ∈? seen) eqn:Hin; bools; [by intros env log [_ ?]|].
    eapply triple_weaken; [|intros log [Hr _]; exact Hr|intros a log H; exact H].
    eapply triple_bind; [apply handle_call_triple|]. intros st'.
    replace (before ++ call :: calls) with ((before ++ [call]) ++ calls) by (by rewrite <-(assoc app)).
    apply IH.
    + rewrite map_app. simpl. apply NoDup_app. split_and!; [done| |apply NoDup_singleton].
      intros i Hi ->%list_elem_of_singleton. by apply Hin, Hseen.
    + intros i. rewrite elem_of_cons, map_app, elem_of_app, Hseen. simpl.
      rewrite list_elem_of_singleton. naive_solver.
Qed.

(** The result accounts for what happened. *)
Definition faithful (res : AgentLoopResult) (log : list event) : Prop :=
  alr_turns res = Z.of_nat (count is_completed log) ∧
  alr_tool_executions res = Z.of_nat (count is_ran log) ∧
  ∀ c, c ∈ alr_checkpoints res → checkpoint_true log c.

Lemma turns_triple n k st :
  (k + n = Z.to_nat (max_turns self))%nat →
  triple safe (λ log, accounts st log ∧ count is_completed log = k ∧ conversation (messages st))
    (turns self n (Z.of_nat k + 1) st) faithful.
Proof.
  revert k st. induction n as [|n IH]; intros k st Hn; cbn [turns].
  { apply triple_throw. intros log (Hacc & _). apply Hacc. }
  set (names := sort_by String.leb (tools self)).
  eapply triple_bind with (M := λ _ log,
    accounts st log ∧ count is_completed log = S k ∧ conversation (messages st)).
  - apply triple_ask.
    + intros log r (Hacc & Hk & Hconv). apply safe_snoc; [apply Hacc|by split|]. simpl. lia.
    + intros log x (Hacc & Hk & Hconv). pose proof Hacc as [A1 A2 A3]. split_and!; [|by rewrite count_snoc, Hk; simpl; lia|done].
      split.
      * apply safe_snoc; [done|by split|]. simpl. lia.
      * rewrite count_snoc. simpl. lia.
      * intros c Hc. by apply checkpoint_true_snoc, A3.
  - intros turn. destruct (mt_tool_calls turn) as [|call calls] eqn:Hcalls.
    + apply triple_ret. intros log ([A1 A2 A3] & Hk & _). split; [done|]. split_and!; simpl; [lia|done|done].
    + set (base := messages st ++ [Assistant (mt_content turn) (call :: calls)]).
      set (st1 := Build_loop_state _ _ _).
      intros env log ([A1 A2 A3] & Hk & Hconv).
      enough (triple safe (replied (S k) base [] st1)
        (handle_calls self (Z.of_nat k + 1) [] (call :: calls) st1 ≫=
           λ st, turns self n (Z.of_nat k + 1 + 1) st) faithful) as H.
      { apply H. split_and!; [by split|done|]. exists []. split; [by rewrite app_nil_r|constructor]. }
      eapply triple_bind; [apply handle_calls_triple; [constructor|done]|].
      intros st2. replace (Z.of_nat k + 1 + 1) with (Z.of_nat (S k) + 1) by lia.
      eapply triple_weaken; [apply (IH (S k)); lia| |done].
      intros log' [(Hacc & Hk' & replies & Hmsgs & Hans) Hnd]. split_and!; [done..|].
      rewrite Hmsgs. unfold base. rewrite <-(assoc app). simpl. by apply round.
Qed.

Lemma run_triple s u : triple safe (λ log, log = []) (run self s u) faithful.
Proof.
  unfold run. eapply triple_weaken; [apply (turns_triple _ 0); lia| |done].
  intros log ->. split_and!; [|done|apply opening]. split; [|done|set_solver].
  split; [intros i e; by rewrite lookup_nil|unfold count; simpl; lia].
Qed.
End Safe.


(** The answer [ask] is not asked.  A call whose permission check answers [ask] is run
    like one that was allowed, with no approval in between, and its checkpoint says it was
    approved. *)
Lemma ask_runs_the_tool self (env : environment) turn call st log out :
  permission_checker self = true → verifier self = false → tc_name call ∈ tools self →
  env _ log (CheckPermission (tc_name call) (tc_arguments call)) = Ok ToolPermission.ASK →
  let log1 := log ++ [Checked (tc_name call) (tc_arguments call) (Ok ToolPermission.ASK)] in
  env _ log1 (RunTool (tc_name call) (tc_arguments call)) = Ok out →
  interp env (handle_call self turn call st) log =
    (Ok {| messages := messages st ++ [ToolResult (tc_id call) (content_of out)];
           executions := executions st + 1;
           checkpoints := checkpoints st ++ [{|
             cp_turn_number := turn; cp_tool_call_id := tc_id call; cp_tool_name := tc_name call;
             cp_arguments := tc_arguments call; cp_result := out; cp_approved := true |}] |},
     log1 ++ [Ran (tc_name call) (tc_arguments call) (Ok out)]).
Proof.
  intros Hp Hv Ht Hask log1 Hrun. unfold handle_call. rewrite interp_bind.
  unfold _check_permission. rewrite Hp. cbn [interp ask]. rewrite Hask. cbn [interp].
  rewrite interp_bind, bool_decide_false by done. unfold execute.
  assert ((tc_name call ∈? tools self) = true) as -> by by apply bool_decide_eq_true.
  rewrite interp_bind. cbn [interp ask record]. fold log1. rewrite Hrun, Hv. done.
Qed.

(** ** An environment the theorems run on *)

Module Demo.
Definition call : ToolCall := {| tc_id := "c1"; tc_name := "bash"; tc_arguments := [("cmd", JStr "ls")] |}.

(** A model that calls a tool, then answers; a checker that says [ask]. *)
Definition env : environment := λ X log q,
  match q in ext X return result X with
  | Complete ms _ =>
      Ok (if Nat.eqb (count is_completed log) 0
          then {| mt_content := "let me see"; mt_tool_calls := [call]; mt_usage := [] |}
          else {| mt_content := "done"; mt_tool_calls := []; mt_usage := [] |})
  | CheckPermission _ _ => Ok ToolPermission.ASK
  | RunTool _ _ => Ok (JStr "files")
  | Verify _ _ => Ok true
  end.

Definition runtime : ModelRuntime :=
  {| tools := ["grep"; "bash"]; max_turns := 2; permission_checker := true; verifier := false |}.
Definition start : loop_state := {| messages := []; executions := 0; checkpoints := [] |}.
End Demo.

Example demo_run :
  (interp Demo.env (run Demo.runtime "s" "u") []).1 =
    Ok {| alr_content := "done"; alr_turns := 2; alr_tool_executions := 1;
          alr_checkpoints := [{| cp_turn_number := 1; cp_tool_call_id := "c1"; cp_tool_name := "bash";
            cp_arguments := [("cmd", JStr "ls")]; cp_result := JStr "files"; cp_approved := true |}] |}.
Proof. by vm_compute. Qed.

Lemma ask_runs_the_tool_witness :
  (interp Demo.env (handle_call Demo.runtime 1 Demo.call Demo.start) []).2 =
    [Checked "bash" [("cmd", JStr "ls")] (Ok ToolPermission.ASK);
     Ran "bash" [("cmd", JStr "ls")] (Ok (JStr "files"))].
Proof.
  pose proof (ask_runs_the_tool Demo.runtime Demo.env 1 Demo.call Demo.start [] (JStr "files")) as H.
  rewrite H; [done|done|done| |done|done]. right. left.
Defined.
