(* ===== verification/RoutingPolicy.v ===== *)
(** * Routing policies

    [routing/canonical_json.py] and [routing/policy.py]: the canonical text of a
    policy and the validation that turns a JSON object into a
    [ValidatedRoutingPolicy].

    Canonical text is represented by the tree [json.dumps] prints.  [py_repr] is
    [str] on JSON values that are not strings, [py_int_of_float] is [int] on floats.

    The theorem: what validation accepts is exactly the well-formed policies. *)

From S2P Require Import Prelude PyEnum PyOrder PyStr PyText Routing.
Import (hints) RoutingMode.

(** ** canonical_json.py *)

(* [sidecar/ibreeze/routing/canonical_json.py:7-15 _reject_float] *)
Fixpoint _reject_float (value : json) : result unit :=
  match value with
  | JFloat _ => Err (ValueError "ROUTING_POLICY_FLOAT_FORBIDDEN")
  | JObj fields =>
      (fix go (l : list (string * json)) : result unit :=
         match l with [] => Ok tt | kv :: l => _reject_float kv.2;; go l end) fields
  | JList items =>
      (fix go (l : list json) : result unit :=
         match l with [] => Ok tt | j :: l => _reject_float j;; go l end) items
  | _ => Ok tt
  end.

(** The order of UTF-16 code units on characters given in UTF-8: the supplementary
    planes (four bytes, surrogate pairs from D800 up) come before U+E000 and above. *)
Definition utf16_class (c : string) : Z :=
  match c with
  | EmptyString => 0
  | String b _ =>
      let n := Ascii.nat_of_ascii b in
      if Nat.leb 240 n then 1 else if Nat.leb 238 n then 2 else 0
  end.

Definition utf16_char_compare : string → string → comparison :=
  on (λ c, (utf16_class c, c)) (lex Z.compare String.compare).
Definition utf16_compare : string → string → comparison := on chars (lex_list utf16_char_compare).

(* [sidecar/ibreeze/routing/canonical_json.py:18-34 _canonicalize] *)
Fixpoint _canonicalize (value : json) : json :=
  match value with
  | JObj fields =>
      JObj (sort_key (on fst utf16_compare) (map (λ kv, (kv.1, _canonicalize kv.2)) fields))
  | JList items => JList (map _canonicalize items)
  | _ => value
  end.

(* [sidecar/ibreeze/routing/canonical_json.py:38-40 canonical_json] *)
Definition canonical_json (value : json) : result json :=
  _reject_float value;; Ok (_canonicalize value).

(** *** What the canonical text does not depend on *)

#[local] Instance ordering_utf16_char : Ordering utf16_char_compare.
Proof. unfold utf16_char_compare. apply _. Qed.
#[local] Instance separating_utf16_char : Separating utf16_char_compare.
Proof. apply separating_on; [apply _|]. by intros x y [= _ ->]. Qed.
#[local] Instance ordering_utf16 : Ordering utf16_compare.
Proof. unfold utf16_compare. apply _. Qed.
#[local] Instance separating_utf16 : Separating utf16_compare.
Proof.
  apply separating_on; [apply _|]. intros x y Heq.
  by rewrite <-(unchars_chars x), <-(unchars_chars y), Heq.
Qed.

(** The same JSON value with the fields of its objects, at any depth, in another order. *)
Inductive reordered : json → json → Prop :=
  | reordered_refl j : reordered j j
  | reordered_trans j1 j2 j3 : reordered j1 j2 → reordered j2 j3 → reordered j1 j3
  | reordered_fields l l' : NoDup (map fst l) → l ≡ₚ l' → reordered (JObj l) (JObj l')
  | reordered_value l1 k j j' l2 :
      reordered j j' → reordered (JObj (l1 ++ (k, j) :: l2)) (JObj (l1 ++ (k, j') :: l2))
  | reordered_item l1 j j' l2 :
      reordered j j' → reordered (JList (l1 ++ j :: l2)) (JList (l1 ++ j' :: l2)).

Definition no_floats : list json → result unit :=
  fix go l := match l with [] => Ok tt | j :: l => _reject_float j;; go l end.

Lemma reject_list l : _reject_float (JList l) = no_floats l.
Proof. done. Qed.
Lemma reject_obj l : _reject_float (JObj l) = no_floats (map snd l).
Proof. simpl. induction l as [|kv l IH]; simpl; [done|]. by rewrite IH. Qed.

Lemma no_floats_app l1 l2 : no_floats (l1 ++ l2) = (no_floats l1;; no_floats l2).
Proof. induction l1 as [|j l1 IH]; simpl; [done|]. by destruct (_reject_float j). Qed.

Lemma no_floats_perm l l' : l ≡ₚ l' → no_floats l = no_floats l'.
Proof.
  assert (∀ j e, _reject_float j = Err e → e = ValueError "ROUTING_POLICY_FLOAT_FORBIDDEN") as Hone.
  { assert (∀ l, Forall (λ j, ∀ e, _reject_float j = Err e → e = ValueError "ROUTING_POLICY_FLOAT_FORBIDDEN") l →
      ∀ e, no_floats l = Err e → e = ValueError "ROUTING_POLICY_FLOAT_FORBIDDEN") as Hl.
    { intros ks; induction 1 as [|j ks Hj _ IH]; simpl; [done|]. intros e He.
      apply result_bind_err in He as [He|(? & _ & He)]; auto. }
    intros j. induction j using json_rect'; intros e He; try done; [by injection He|..].
    - rewrite reject_list in He. by eapply Hl.
    - rewrite reject_obj in He. eapply Hl, He. by apply List.Forall_map. }
  induction 1 as [|j l l' _ IH|j j' l|]; simpl; [done|by rewrite IH| |congruence].
  destruct (_reject_float j) as [[]|e] eqn:H1, (_reject_float j') as [[]|e'] eqn:H2; simpl; try done.
  by rewrite (Hone _ _ H1), (Hone _ _ H2).
Qed.

(** Canonical text depends on the value only: two JSON values that differ in the
    order of object fields, at any depth, have the same canonical text or are both
    refused, and so have the same digest. *)
Lemma canonical_json_reordered j j' : reordered j j' → canonical_json j = canonical_json j'.
Proof.
  intros Hr. assert (_reject_float j = _reject_float j' ∧ _canonicalize j = _canonicalize j') as [H1 H2].
  - induction Hr as [|? ? ? _ [] _ []|l l' Hnd Hp|l1 k j j' l2 _ [Hj Hc]|l1 j j' l2 _ [Hj Hc]];
      [done|split; congruence|..].
    + rewrite !reject_obj. split; [by apply no_floats_perm, Permutation_map|].
      simpl. f_equal. apply sort_key_canonical; [apply _| |by apply Permutation_map].
      intros x y Hx Hy Hxy.
      apply (cmp_eq (cmp := utf16_compare)) in Hxy.
      eapply (nodup_map_inj fst); [|done..]. rewrite map_map. by simpl.
    + rewrite !reject_obj, !map_app, !no_floats_app. simpl. rewrite Hj. split; [done|].
      by rewrite !map_app; simpl; rewrite Hc.
    + rewrite !reject_list, !no_floats_app. simpl. rewrite Hj. split; [done|].
      by rewrite !map_app; simpl; rewrite Hc.
  - unfold canonical_json. by rewrite H1, H2.
Qed.

(** ** policy.py *)

(* [sidecar/ibreeze/routing/policy.py:11-11 _ROLES] *)
Definition _ROLES : list string := ["single"; "proposer"; "aggregator"; "fallback"].

(* [sidecar/ibreeze/routing/policy.py:14-23 CandidatePolicy] *)
Record CandidatePolicy := {
  candidate_id : string;
  provider_release_id : string;
  model_binding_id : string;
  credential_ref : string;
  enabled : bool;
  eligible_roles : list string;
  routing_enabled : bool;
  credential_secret_version : Z }.

(* [sidecar/ibreeze/routing/policy.py:26-32 EnsemblePolicy] *)
Record EnsemblePolicy := {
  max_proposers : Z;
  min_successful_proposers : Z;
  proposer_timeout_seconds : Z;
  aggregator_timeout_seconds : Z;
  proposer_max_retries : Z }.

(** The digest is a function of the canonical text, so the text stands for both. *)
(* [sidecar/ibreeze/routing/policy.py:35-43 ValidatedRoutingPolicy] *)
Record ValidatedRoutingPolicy := {
  canonical : json;
  mode : RoutingMode.t;
  anchor_candidate_id : string;
  candidates : list CandidatePolicy;
  fallback_order : list string;
  ensemble : EnsemblePolicy }.

(* [sidecar/ibreeze/routing/policy.py:46-47 _issue] *)
Definition _issue (code : string) : exn := ValueError code.

Notation INVALID := (_issue "ROUTING_POLICY_INVALID").

(** [try: m except (KeyError, TypeError, ValueError): raise e] *)
Definition guarded {A} (m : result A) (e : exn) : result A :=
  match m with
  | Err (KeyErr _) | Err (TypeErr _) | Err (ValueError _) => Err e
  | _ => m
  end.

(** [1] equals [True] and [1.0]. *)
Definition equals_1 (j : json) : bool :=
  match j with
  | JInt n => (n =? 1)%Z
  | JBool b => b
  | JFloat t => t =? "1.0"
  | _ => false
  end.

Definition quorum_for (proposers : Z) : Z :=
  default 2 (dict_get [(2, 2); (3, 2); (4, 3)] proposers).

Section Policy.
Context (py_repr : json → string) (py_int_of_float : string → result Z).

(** [str(j)] *)
Definition to_str (j : json) : string := match j with JStr s => s | _ => py_repr j end.

(* [sidecar/ibreeze/routing/policy.py:50-56 _require_uuid] *)
Definition _require_uuid (value : json) : result string :=
  let text := to_str value in
  ensure (is_uuid text) INVALID;; Ok text.

(** The policy's parts before the candidates are looked at: the body of the [try]. *)
(* [sidecar/ibreeze/routing/policy.py:75-88 validate_routing_policy] *)
Definition parse_parts (data : list (string * json))
    : result (RoutingMode.t * string * json * list string * list (string * json)) :=
  raw_mode ← item data "mode";
  mode ← of_option (of_value (to_str raw_mode)) (ValueError "RoutingMode");
  raw_anchor ← item data "anchor_candidate_id";
  anchor ← _require_uuid raw_anchor;
  raw_candidates ← item data "candidates";
  raw_fallback_order ← item data "fallback_order";
  fallback_order ← match raw_fallback_order with
                   | JList l => guarded (each _require_uuid l) (_issue "ROUTING_FALLBACK_INVALID")
                   | _ => Err INVALID
                   end;
  raw_ensemble ← item data "ensemble";
  ensemble_raw ← match raw_ensemble with JObj d => Ok d | _ => Err INVALID end;
  Ok (mode, anchor, raw_candidates, fallback_order, ensemble_raw).

(* [sidecar/ibreeze/routing/policy.py:74-94 validate_routing_policy] *)
Definition read_parts (data : list (string * json))
    : result (RoutingMode.t * string * json * list string * list (string * json)) :=
  match parse_parts data with
  | Err (ValueError code) =>
      if code =? "ROUTING_FALLBACK_INVALID" then Err (ValueError code) else Err INVALID
  | parts => guarded parts INVALID
  end.

(* [sidecar/ibreeze/routing/policy.py:102-116 validate_routing_policy] *)
Definition read_candidate (d : list (string * json)) : result CandidatePolicy :=
  guarded (
    raw_id ← item d "candidate_id";
    candidate_id ← _require_uuid raw_id;
    raw_roles ← item d "eligible_roles";
    roles ← iterate raw_roles;
    raw_provider ← item d "provider_release_id";
    provider ← _require_uuid raw_provider;
    raw_binding ← item d "model_binding_id";
    binding ← _require_uuid raw_binding;
    raw_credential ← item d "credential_ref";
    credential ← _require_uuid raw_credential;
    raw_enabled ← item d "enabled";
    raw_routing_enabled ← item d "routing_enabled";
    version ← py_to_int py_int_of_float (if "credential_secret_version" ∈? d.*1
                      then field d "credential_secret_version" else JInt 1);
    Ok {| candidate_id := candidate_id; provider_release_id := provider;
          model_binding_id := binding; credential_ref := credential;
          enabled := json_truthy raw_enabled; eligible_roles := map to_str roles;
          routing_enabled := json_truthy raw_routing_enabled;
          credential_secret_version := version |}) INVALID.

(** A value the catalog pins, if it does, is the candidate's. *)
Definition pinned (expected : json) (actual : string) : bool :=
  match expected with JNull => true | j => to_str j =? actual end.

(* [sidecar/ibreeze/routing/policy.py:100-141 validate_routing_policy (loop body)] *)
Definition check_candidate (catalog_release : option (list (string * list (string * json))))
    (seen : list string) (raw : json) : result CandidatePolicy :=
  d ← match raw with JObj d => Ok d | _ => Err INVALID end;
  candidate ← read_candidate d;
  let cid := candidate_id candidate in
  let roles := eligible_roles candidate in
  ensure (negb ((cid =? "") || (cid ∈? seen))) (_issue "ROUTING_CANDIDATE_DUPLICATE");;
  ensure (negb ((provider_release_id candidate =? "") || (model_binding_id candidate =? "") ||
                (credential_ref candidate =? "") || (credential_secret_version candidate <? 1)%Z)) INVALID;;
  ensure (negb (Nat.eqb (length roles) 0) && forallb (λ r, r ∈? _ROLES) roles &&
          bool_decide (NoDup roles)) (_issue "ROUTING_ROLE_INSUFFICIENT");;
  ensure (routing_enabled candidate) (_issue "ROUTING_CANDIDATE_DISABLED");;
  ensure (enabled candidate) (_issue "ROUTING_CANDIDATE_DISABLED");;
  match catalog_release with
  | None => Ok candidate
  | Some catalog =>
      binding ← of_option (dict_get catalog cid) (_issue "ROUTING_CANDIDATE_OUTSIDE_RELEASE");
      ensure (pinned (field binding "provider_release_id") (provider_release_id candidate))
        (_issue "ROUTING_CANDIDATE_OUTSIDE_RELEASE");;
      ensure (pinned (field binding "model_binding_id") (model_binding_id candidate))
        (_issue "ROUTING_CANDIDATE_OUTSIDE_RELEASE");;
      Ok candidate
  end.

(* [sidecar/ibreeze/routing/policy.py:97-143 validate_routing_policy (loop)] *)
Fixpoint check_candidates (catalog_release : option (list (string * list (string * json))))
    (seen : list string) (raws : list json) : result (list CandidatePolicy) :=
  match raws with
  | [] => Ok []
  | raw :: raws =>
      c ← check_candidate catalog_release seen raw;
      cs ← check_candidates catalog_release (seen ++ [candidate_id c]) raws;
      Ok (c :: cs)
  end.

(* [sidecar/ibreeze/routing/policy.py:162-171 validate_routing_policy] *)
Definition read_ensemble (d : list (string * json)) : result EnsemblePolicy :=
  guarded (
    a ← (j ← item d "max_proposers"; py_to_int py_int_of_float j);
    b ← (j ← item d "min_successful_proposers"; py_to_int py_int_of_float j);
    c ← (j ← item d "proposer_timeout_seconds"; py_to_int py_int_of_float j);
    e ← (j ← item d "aggregator_timeout_seconds"; py_to_int py_int_of_float j);
    f ← (j ← item d "proposer_max_retries"; py_to_int py_int_of_float j);
    Ok {| max_proposers := a; min_successful_proposers := b; proposer_timeout_seconds := c;
          aggregator_timeout_seconds := e; proposer_max_retries := f |}) INVALID.

(** [sum(role in item.eligible_roles for item in candidates if item.enabled)] *)
Definition role_count (role : string) (cs : list CandidatePolicy) : Z :=
  Z.of_nat (length (List.filter (λ c, enabled c && (role ∈? eligible_roles c)) cs)).

(** [item in by_id and role in by_id[item].eligible_roles] *)
Definition has_role (by_id : list (string * CandidatePolicy)) (role id : string) : bool :=
  match dict_get by_id id with Some c => role ∈? eligible_roles c | None => false end.

(** What the candidates, the anchor and the fallback order must satisfy together. *)
(* [sidecar/ibreeze/routing/policy.py:144-161 validate_routing_policy] *)
Definition check_roles (mode : RoutingMode.t) (anchor : string) (fallback_order : list string)
    (candidates : list CandidatePolicy) : result unit :=
  let by_id := dict_of (map (λ c, (candidate_id c, c)) candidates) in
  anchor_candidate ← of_option (dict_get by_id anchor) (_issue "ROUTING_ANCHOR_MISSING");
  ensure (enabled anchor_candidate) (_issue "ROUTING_ANCHOR_MISSING");;
  ensure (("single" ∈? eligible_roles anchor_candidate) &&
          ("fallback" ∈? eligible_roles anchor_candidate)) (_issue "ROUTING_ROLE_INSUFFICIENT");;
  ensure (bool_decide (NoDup fallback_order) && negb (Nat.eqb (length fallback_order) 0))
    (_issue "ROUTING_FALLBACK_INVALID");;
  ensure (forallb (has_role by_id "fallback") fallback_order) (_issue "ROUTING_FALLBACK_INVALID");;
  ensure (anchor ∈? fallback_order) (_issue "ROUTING_FALLBACK_INVALID");;
  ensure (negb (negb (bool_decide (mode = RoutingMode.FIXED)) && Nat.ltb (length candidates) 2))
    (_issue "ROUTING_CANDIDATE_COUNT_INVALID");;
  ensure (negb (bool_decide (mode = RoutingMode.SELECTIVE_ENSEMBLE) &&
                ((role_count "proposer" candidates <? 2)%Z ||
                 (role_count "aggregator" candidates <? 1)%Z))) (_issue "ROUTING_ROLE_INSUFFICIENT").

(* [sidecar/ibreeze/routing/policy.py:172-184 validate_routing_policy] *)
Definition check_ensemble (mode : RoutingMode.t) (proposer_count : Z) (e : EnsemblePolicy)
    : result unit :=
  let bad := _issue "ROUTING_ENSEMBLE_INVALID" in
  ensure ((2 <=? max_proposers e)%Z && (max_proposers e <=? 4)%Z &&
          (1 <=? min_successful_proposers e)%Z &&
          (min_successful_proposers e <=? max_proposers e)%Z) bad;;
  ensure ((10 <=? proposer_timeout_seconds e)%Z && (proposer_timeout_seconds e <=? 300)%Z) bad;;
  ensure ((10 <=? aggregator_timeout_seconds e)%Z && (aggregator_timeout_seconds e <=? 480)%Z) bad;;
  ensure ((0 <=? proposer_max_retries e)%Z && (proposer_max_retries e <=? 2)%Z) bad;;
  if bool_decide (mode = RoutingMode.SELECTIVE_ENSEMBLE) then
    let effective_proposers := Z.min proposer_count (max_proposers e) in
    ensure (negb (min_successful_proposers e <? quorum_for effective_proposers)%Z) bad
  else Ok tt.

(* [sidecar/ibreeze/routing/policy.py:59-194 validate_routing_policy] *)
Definition validate_routing_policy (raw : option (list (string * json))) (profile_type : string)
    (catalog_release : option (list (string * list (string * json))))
    : result ValidatedRoutingPolicy :=
  let data := default [] raw in
  let given := negb (Nat.eqb (length data) 0) in
  ensure (negb (profile_type =? "agent_cli"))
    (_issue (if given then "ROUTING_POLICY_FORBIDDEN" else "ROUTING_POLICY_NOT_APPLICABLE"));;
  ensure ((profile_type =? "api_model") && given) (_issue "ROUTING_POLICY_REQUIRED");;
  ensure (equals_1 (field data "schema_version")) INVALID;;
  '(mode, anchor, raw_candidates, fallback_order, ensemble_raw) ← read_parts data;
  raws ← match raw_candidates with JList l => Ok l | _ => Err INVALID end;
  ensure (Nat.leb 1 (length raws) && Nat.leb (length raws) 12) INVALID;;
  candidates ← check_candidates catalog_release [] raws;
  check_roles mode anchor fallback_order candidates;;
  ensemble ← read_ensemble ensemble_raw;
  check_ensemble mode (role_count "proposer" candidates) ensemble;;
  canonical ← canonical_json (JObj data);
  Ok {| canonical := canonical; mode := mode; anchor_candidate_id := anchor;
        candidates := candidates; fallback_order := fallback_order; ensemble := ensemble |}.
End Policy.

(** ** Well-formed policies *)

Definition candidate_ok (c : CandidatePolicy) : Prop :=
  is_uuid (candidate_id c) = true ∧ is_uuid (provider_release_id c) = true ∧
  is_uuid (model_binding_id c) = true ∧ is_uuid (credential_ref c) = true ∧
  enabled c = true ∧ routing_enabled c = true ∧ (1 ≤ credential_secret_version c)%Z ∧
  eligible_roles c ≠ [] ∧ NoDup (eligible_roles c) ∧ (∀ r, r ∈ eligible_roles c → r ∈ _ROLES).

(** [c] is the candidate [id] and may play [role]. *)
Definition plays (cs : list CandidatePolicy) (role id : string) : Prop :=
  ∃ c, c ∈ cs ∧ candidate_id c = id ∧ role ∈ eligible_roles c.

Definition playing (role : string) (cs : list CandidatePolicy) : list CandidatePolicy :=
  List.filter (λ c, role ∈? eligible_roles c) cs.

Record policy_ok (p : ValidatedRoutingPolicy) : Prop := {
  ok_size : (1 ≤ length (candidates p) ≤ 12)%nat;
  ok_ids : NoDup (map candidate_id (candidates p));
  ok_candidates : ∀ c, c ∈ candidates p → candidate_ok c;
  ok_anchor : plays (candidates p) "single" (anchor_candidate_id p);
  ok_anchor_first : anchor_candidate_id p ∈ fallback_order p;
  ok_fallback : NoDup (fallback_order p) ∧
                ∀ id, id ∈ fallback_order p → plays (candidates p) "fallback" id;
  ok_smart : mode p ≠ RoutingMode.FIXED → (2 ≤ length (candidates p))%nat;
  ok_bounds : let e := ensemble p in
    (2 ≤ max_proposers e ≤ 4 ∧ 1 ≤ min_successful_proposers e ≤ max_proposers e ∧
     10 ≤ proposer_timeout_seconds e ≤ 300 ∧ 10 ≤ aggregator_timeout_seconds e ≤ 480 ∧
     0 ≤ proposer_max_retries e ≤ 2)%Z;
  ok_ensemble : mode p = RoutingMode.SELECTIVE_ENSEMBLE →
    (2 ≤ length (playing "proposer" (candidates p)))%nat ∧
    (1 ≤ length (playing "aggregator" (candidates p)))%nat ∧
    (quorum_for (Z.min (Z.of_nat (length (playing "proposer" (candidates p)))) (max_proposers (ensemble p)))
      ≤ min_successful_proposers (ensemble p))%Z }.

(** The candidate is in the release, with the provider and the model pinned there. *)
Definition in_release (py_repr : json → string)
    (catalog : option (list (string * list (string * json)))) (c : CandidatePolicy) : Prop :=
  ∀ release, catalog = Some release → ∃ binding, dict_get release (candidate_id c) = Some binding ∧
    pinned py_repr (field binding "provider_release_id") (provider_release_id c) = true ∧
    pinned py_repr (field binding "model_binding_id") (model_binding_id c) = true.

(** A policy as the JSON object that says it. *)
Definition json_of_candidate (c : CandidatePolicy) : json := JObj [
  ("candidate_id", JStr (candidate_id c)); ("provider_release_id", JStr (provider_release_id c));
  ("model_binding_id", JStr (model_binding_id c)); ("credential_ref", JStr (credential_ref c));
  ("enabled", JBool (enabled c)); ("eligible_roles", JList (map JStr (eligible_roles c)));
  ("routing_enabled", JBool (routing_enabled c));
  ("credential_secret_version", JInt (credential_secret_version c))].

Definition ensemble_fields (p : ValidatedRoutingPolicy) : list (string * json) := [
  ("max_proposers", JInt (max_proposers (ensemble p)));
  ("min_successful_proposers", JInt (min_successful_proposers (ensemble p)));
  ("proposer_timeout_seconds", JInt (proposer_timeout_seconds (ensemble p)));
  ("aggregator_timeout_seconds", JInt (aggregator_timeout_seconds (ensemble p)));
  ("proposer_max_retries", JInt (proposer_max_retries (ensemble p)))].

Definition json_of_policy (p : ValidatedRoutingPolicy) : list (string * json) := [
  ("schema_version", JInt 1); ("mode", JStr (value (mode p)));
  ("anchor_candidate_id", JStr (anchor_candidate_id p));
  ("candidates", JList (map json_of_candidate (candidates p)));
  ("fallback_order", JList (map JStr (fallback_order p)));
  ("ensemble", JObj (ensemble_fields p))].

Lemma item_run d key : (key ∈? d.*1) = true → item d key = Ok (field d key).
Proof. unfold item. by intros ->. Qed.

Lemma guarded_ok {A} (m : result A) e a : guarded m e = Ok a ↔ m = Ok a.
Proof. destruct m as [|[]]; simpl; naive_solver. Qed.

Ltac policy_inv :=
  repeat (res_inv; try match goal with H : guarded _ _ = Ok _ |- _ => apply guarded_ok in H end).

Section Sound.
Context (py_repr : json → string) (py_int_of_float : string → result Z).
Context (catalog : option (list (string * list (string * json)))).

Lemma _require_uuid_ok j id : _require_uuid py_repr j = Ok id → is_uuid id = true.
Proof. unfold _require_uuid. intros H. policy_inv. done. Qed.

Lemma check_candidate_ok seen raw c :
  check_candidate py_repr py_int_of_float catalog seen raw = Ok c →
  candidate_ok c ∧ candidate_id c ∉ seen ∧ in_release py_repr catalog c.
Proof.
  unfold check_candidate. intros H.
  apply result_bind_ok in H as (d & _ & H). apply result_bind_ok in H as (c' & Hc & H).
  apply result_bind_ok in H as (? & Hid & H). apply result_bind_ok in H as (? & Hne & H).
  apply result_bind_ok in H as (? & Hroles & H). apply result_bind_ok in H as (? & Hr & H).
  apply result_bind_ok in H as (? & He & H). apply ensure_ok in Hid, Hne, Hroles, Hr, He.
  assert (c' = c ∧ in_release py_repr catalog c') as [-> Hrel].
  { unfold in_release. destruct catalog as [release|]; policy_inv; split; try done.
    intros ? [= <-]. eauto. }
  bools. split_and!; [|done..]. unfold read_candidate in Hc. policy_inv.
  repeat match goal with H : _require_uuid _ _ = Ok _ |- _ => apply _require_uuid_ok in H end.
  simpl in *. split_and!; simpl; try done; try lia.
  - by intros Hnil; rewrite Hnil in *.
  - rewrite forallb_forall in *. intros r Hin.
    assert ((r ∈? _ROLES) = true) as Hb by (match goal with H : ∀ x, In x _ → _ |- _ => apply H end;
      by apply list_elem_of_In). by bools.
Qed.

Lemma check_candidates_ok seen raws cs :
  check_candidates py_repr py_int_of_float catalog seen raws = Ok cs →
  length cs = length raws ∧ NoDup (map candidate_id cs) ∧
  (∀ c, c ∈ cs → candidate_ok c ∧ candidate_id c ∉ seen ∧ in_release py_repr catalog c).
Proof.
  revert seen cs. induction raws as [|raw raws IH]; intros seen cs H; cbn [check_candidates] in H; policy_inv.
  - split_and!; [done|constructor|set_solver].
  - match goal with
    | Hc : check_candidate _ _ _ _ _ = Ok ?c, Hcs : check_candidates _ _ _ _ _ = Ok ?cs |- _ =>
        apply check_candidate_ok in Hc as Hok; apply IH in Hcs as (Hl & Hnd & Hall)
    end.
    split_and!; simpl; [by f_equal| |].
    + constructor; [|done]. rewrite list_elem_of_In, in_map_iff. intros (c' & Heq & Hin).
      apply list_elem_of_In, Hall in Hin as (_ & Hni & _). apply Hni. rewrite Heq. set_solver.
    + intros c' [->|Hin]%elem_of_cons; [done|]. apply Hall in Hin as (? & ? & ?). set_solver.
Qed.
End Sound.

Section Together.
Context (cs : list CandidatePolicy).
Hypothesis ids_distinct : NoDup (map candidate_id cs).
Hypothesis all_enabled : ∀ c, c ∈ cs → enabled c = true.

Let by_id := dict_of (map (λ c, (candidate_id c, c)) cs).

Lemma by_id_get id c : dict_get by_id id = Some c ↔ c ∈ cs ∧ candidate_id c = id.
Proof. by apply dict_by_key. Qed.

Lemma has_role_iff role id : has_role by_id role id = true ↔ plays cs role id.
Proof.
  unfold has_role, plays. split.
  - destruct (dict_get by_id id) as [c|] eqn:Hc; [|done]. intros Hr.
    apply by_id_get in Hc as [? <-]. bools. eauto.
  - intros (c & Hin & <- & Hr). rewrite (proj2 (by_id_get _ c)) by done. by apply bool_decide_eq_true.
Qed.

Lemma role_count_playing role : role_count role cs = Z.of_nat (length (playing role cs)).
Proof.
  unfold role_count, playing. do 2 f_equal. apply filter_ext_in. intros c Hc.
  by rewrite all_enabled by by apply list_elem_of_In.
Qed.

Definition together (mode : RoutingMode.t) (anchor : string) (fallback_order : list string) : Prop :=
  plays cs "single" anchor ∧ anchor ∈ fallback_order ∧
  (NoDup fallback_order ∧ ∀ id, id ∈ fallback_order → plays cs "fallback" id) ∧
  (mode ≠ RoutingMode.FIXED → (2 ≤ length cs)%nat) ∧
  (mode = RoutingMode.SELECTIVE_ENSEMBLE →
    (2 ≤ length (playing "proposer" cs))%nat ∧ (1 ≤ length (playing "aggregator" cs))%nat).

Lemma check_roles_iff mode anchor fallback_order :
  check_roles mode anchor fallback_order cs = Ok tt ↔ together mode anchor fallback_order.
Proof.
  unfold check_roles, together. fold by_id. rewrite !role_count_playing. split.
  - intros H. policy_inv. bools.
    match goal with H : dict_get by_id _ = Some _ |- _ => apply by_id_get in H as [? <-] end.
    rewrite forallb_forall in *. split_and!; try done.
    + eexists. eauto.
    + intros id Hid. apply has_role_iff. match goal with H : ∀ x, In x _ → _ |- _ => apply H end.
      by apply list_elem_of_In.
    + intros Hm. match goal with H : _ && Nat.ltb _ _ = false |- _ =>
        rewrite bool_decide_false in H by done; simpl in H; by apply Nat.ltb_ge in H end.
    + intros ->. match goal with H : _ && (_ || _) = false |- _ =>
        rewrite bool_decide_true in H by done; simpl in H end. bools. lia.
  - intros ((c & Hc & <- & Hs) & Ha & [Hnd Hf] & Hm & He).
    destruct (Hf _ Ha) as (c' & Hc' & Heq & Hfb).
    assert (c' = c) as -> by (by eapply (nodup_map_inj candidate_id cs)).
    rewrite (proj2 (by_id_get _ c)) by done. simpl. rewrite (all_enabled c) by done. simpl.
    res_guards.
    + unfold mem. by rewrite !bool_decide_true.
    + rewrite bool_decide_true by done. by destruct fallback_order; [set_solver|].
    + apply forallb_forall. intros id Hid. by apply has_role_iff, Hf, list_elem_of_In.
    + by apply bool_decide_eq_true.
    + destruct (bool_decide_reflect (mode = RoutingMode.FIXED)) as [|n]; [done|].
      apply Hm in n. by rewrite (proj2 (Nat.ltb_ge _ _)).
    + destruct mode; simpl; try done. destruct (He eq_refl) as [? ?].
      rewrite !(proj2 (Z.ltb_ge _ _)) by lia. done.
Qed.
End Together.

Definition bounds (mode : RoutingMode.t) (proposers : Z) (e : EnsemblePolicy) : Prop :=
  (2 ≤ max_proposers e ≤ 4 ∧ 1 ≤ min_successful_proposers e ≤ max_proposers e ∧
   10 ≤ proposer_timeout_seconds e ≤ 300 ∧ 10 ≤ aggregator_timeout_seconds e ≤ 480 ∧
   0 ≤ proposer_max_retries e ≤ 2)%Z ∧
  (mode = RoutingMode.SELECTIVE_ENSEMBLE →
    (quorum_for (Z.min proposers (max_proposers e)) ≤ min_successful_proposers e)%Z).

Lemma check_ensemble_iff mode proposers e :
  check_ensemble mode proposers e = Ok tt ↔ bounds mode proposers e.
Proof.
  unfold check_ensemble, bounds. split.
  - intros H. policy_inv. bools. split; [lia|]. intros ->. rewrite bool_decide_true in H by done.
    policy_inv. bools. lia.
  - intros [(? & ? & ? & ? & ?) Hq].
    rewrite !(proj2 (Z.leb_le _ _)) by lia. simpl. case_bool_decide as Hm; [|done].
    apply Hq in Hm. by rewrite (proj2 (Z.ltb_ge _ _)).
Qed.

(** The policy with the canonical text of the object that says it. *)
Definition said (p : ValidatedRoutingPolicy) : ValidatedRoutingPolicy := {|
  canonical := _canonicalize (JObj (json_of_policy p)); mode := mode p;
  anchor_candidate_id := anchor_candidate_id p; candidates := candidates p;
  fallback_order := fallback_order p; ensemble := ensemble p |}.

#[local] Arguments is_uuid : simpl never.

Section Exact.
Context (py_repr : json → string) (py_int_of_float : string → result Z).
Notation validate := (validate_routing_policy py_repr py_int_of_float).

Lemma policy_accepted raw profile_type catalog p :
  validate raw profile_type catalog = Ok p →
  policy_ok p ∧ ∀ c, c ∈ candidates p → in_release py_repr catalog c.
Proof.
  unfold validate_routing_policy. intros H.
  do 3 (apply result_bind_ok in H as (? & _ & H)).
  apply result_bind_ok in H as ([[[[mode anchor] raws] fallback_order] raw_ensemble] & _ & H).
  apply result_bind_ok in H as (l & _ & H). apply result_bind_ok in H as (? & Hlen & H).
  apply result_bind_ok in H as (cs & Hcs & H). apply result_bind_ok in H as ([] & Ht & H).
  apply result_bind_ok in H as (e & _ & H). apply result_bind_ok in H as ([] & He & H).
  apply result_bind_ok in H as (text & _ & [= <-]).
  apply check_candidates_ok in Hcs as (Hl & Hnd & Hcs).
  assert (∀ c, c ∈ cs → enabled c = true) as Hen by (intros c Hc; by apply Hcs).
  apply check_roles_iff in Ht as (Hs & Ha & Hf & Hm & Hp); [|done..].
  apply check_ensemble_iff in He as [Hb Hq]. rewrite role_count_playing in Hq by done.
  apply ensure_ok, andb_true_iff in Hlen as [H1%Nat.leb_le H2%Nat.leb_le].
  split; [|by intros c Hc; apply Hcs].
  split; simpl; try done; [lia|by intros c Hc; apply Hcs|naive_solver].
Qed.

(** C37. Validation establishes the type of policies: whatever JSON object, profile type
    and catalog release it is given, what it accepts has 1 to 12 enabled candidates with
    distinct UUIDs and known roles, an anchor that may run alone and is in the fallback
    order, a fallback order of distinct fallback candidates, two candidates for the smart
    modes, two proposers, an aggregator and a sufficient quorum for the ensemble, and
    limits within their bounds; and every candidate is the one the release pins. *)
Theorem validated_policy_ok raw profile_type catalog p :
  validate raw profile_type catalog = Ok p →
  policy_ok p ∧ ∀ c, c ∈ candidates p → in_release py_repr catalog c.
Proof. apply policy_accepted. Qed.

Lemma require_uuid_str id : is_uuid id = true → _require_uuid py_repr (JStr id) = Ok id.
Proof. intros Hid. unfold _require_uuid. cbn. by rewrite Hid. Qed.

Lemma each_uuid ids :
  (∀ id, id ∈ ids → is_uuid id = true) → each (_require_uuid py_repr) (map JStr ids) = Ok ids.
Proof.
  induction ids as [|id ids IH]; intros Hids; [done|]. cbn [each map].
  rewrite require_uuid_str by (apply Hids; set_solver). cbn.
  by rewrite IH by set_solver.
Qed.

Lemma map_to_str l : map (to_str py_repr) (map JStr l) = l.
Proof. induction l; simpl; congruence. Qed.

Definition fields_of_candidate (c : CandidatePolicy) : list (string * json) :=
  match json_of_candidate c with JObj d => d | _ => [] end.

Lemma read_candidate_said c :
  candidate_ok c → read_candidate py_repr py_int_of_float (fields_of_candidate c) = Ok c.
Proof.
  intros (H1 & H2 & H3 & H4 & _). unfold read_candidate, fields_of_candidate. cbn [json_of_candidate].
  repeat (rewrite item_run by reflexivity; cbn -[_require_uuid item mem];
          rewrite ?require_uuid_str by done; cbn -[_require_uuid item mem]).
  rewrite map_to_str. by destruct c.
Qed.

Lemma check_candidate_said seen c :
  candidate_ok c → candidate_id c ∉ seen →
  check_candidate py_repr py_int_of_float None seen (json_of_candidate c) = Ok c.
Proof.
  intros Hc Hseen. unfold check_candidate.
  change (json_of_candidate c) with (JObj (fields_of_candidate c)). cbn [mbind result_bind].
  rewrite read_candidate_said by done.
  destruct Hc as (H1 & H2 & H3 & H4 & He & Hr & Hv & Hne & Hnd & Hroles). cbn -[mem].
  assert (∀ id, is_uuid id = true → (id =? "") = false) as Hempty.
  { intros id Hid. destruct (String.eqb_spec id ""); [|done]. by subst. }
  rewrite !Hempty by done. rewrite (proj2 (Z.ltb_ge _ _)) by lia.
  rewrite He, Hr, (bool_decide_true (NoDup _)) by done.
  res_guards; try done.
  - unfold mem. by rewrite bool_decide_false.
  - apply andb_true_iff. split; [|done]. apply andb_true_iff. split.
    + by destruct (eligible_roles c).
    + apply forallb_forall. intros r Hin. by apply bool_decide_eq_true, Hroles, list_elem_of_In.
Qed.

Lemma check_candidates_said seen cs :
  NoDup (map candidate_id cs) → (∀ c, c ∈ cs → candidate_ok c ∧ candidate_id c ∉ seen) →
  check_candidates py_repr py_int_of_float None seen (map json_of_candidate cs) = Ok cs.
Proof.
  revert seen. induction cs as [|c cs IH]; intros seen Hnd Hcs; [done|].
  cbn [map check_candidates]. destruct (Hcs c) as [Hc Hni]; [set_solver|].
  rewrite check_candidate_said by done. simpl. apply NoDup_cons in Hnd as [Hnew Hnd].
  rewrite IH; [done|done|]. intros c' Hc'. destruct (Hcs c') as [Hok Hns]; [set_solver|].
  split; [done|]. apply not_elem_of_app. split; [done|].
  intros Heq%list_elem_of_singleton. apply Hnew. rewrite <-Heq.
  by apply list_elem_of_In, in_map, list_elem_of_In.
Qed.

Lemma read_parts_said p :
  policy_ok p →
  read_parts py_repr (json_of_policy p) = Ok (mode p, anchor_candidate_id p,
    JList (map json_of_candidate (candidates p)), fallback_order p, ensemble_fields p).
Proof.
  intros [_ _ Hcs Ha _ [_ Hf] _ _ _].
  assert (∀ role id, plays (candidates p) role id → is_uuid id = true) as Huuid.
  { intros role id (c & Hc & <- & _). by destruct (Hcs c Hc) as [Hu _]. }
  assert (each (_require_uuid py_repr) (map JStr (fallback_order p)) = Ok (fallback_order p)) as He
    by (apply each_uuid; intros id Hid; exact (Huuid _ _ (Hf id Hid))).
  enough (parse_parts py_repr (json_of_policy p) = Ok (mode p, anchor_candidate_id p,
    JList (map json_of_candidate (candidates p)), fallback_order p, ensemble_fields p)) as Hp
    by by unfold read_parts; rewrite Hp.
  unfold parse_parts.
  repeat (apply result_bind_ok; eexists; split;
    [solve [by apply item_run | by apply of_option_ok, of_value_value | by apply guarded_ok
           | exact (require_uuid_str _ (Huuid _ _ Ha)) | done]|]).
  done.
Qed.

Lemma no_float_strs l : no_floats (map JStr l) = Ok tt.
Proof. by induction l. Qed.

Lemma no_float_candidates cs : no_floats (map json_of_candidate cs) = Ok tt.
Proof.
  induction cs as [|c cs IH]; [done|]. cbn [map].
  change (no_floats (json_of_candidate c :: map json_of_candidate cs)) with
    (((no_floats (map JStr (eligible_roles c));; Ok tt) : result unit);; no_floats (map json_of_candidate cs)).
  by rewrite no_float_strs, IH.
Qed.

Lemma canonical_said p :
  canonical_json (JObj (json_of_policy p)) = Ok (_canonicalize (JObj (json_of_policy p))).
Proof.
  unfold canonical_json.
  change (_reject_float (JObj (json_of_policy p))) with
    ((no_floats (map json_of_candidate (candidates p));;
      (no_floats (map JStr (fallback_order p));; Ok tt)) : result unit).
  by rewrite no_float_candidates, no_float_strs.
Qed.

(** Validation loses nothing and refuses nothing well formed: a well-formed policy,
    written as a JSON object, is read back as itself. *)
Lemma policy_roundtrip p :
  policy_ok p → validate (Some (json_of_policy p)) "api_model" None = Ok (said p).
Proof.
  intros [Hlen Hids Hcs Ha Haf Hf Hm Hb He].
  unfold validate_routing_policy. cbn [default from_option id].
  res_guards; [done..|]. rewrite read_parts_said by done. cbn [mbind result_bind].
  res_guards; [rewrite length_map; by rewrite !(proj2 (Nat.leb_le _ _)) by lia|].
  assert (∀ c, c ∈ candidates p → enabled c = true) as Hen by (intros c Hc; by apply Hcs).
  rewrite check_candidates_said; [|done|set_solver]. cbn [mbind result_bind].
  rewrite (proj2 (check_roles_iff _ Hids Hen _ _ _)) by (split_and!; naive_solver).
  cbn [mbind result_bind].
  assert (read_ensemble py_int_of_float (ensemble_fields p) = Ok (ensemble p)) as ->.
  { unfold read_ensemble, ensemble_fields. rewrite !item_run by reflexivity. by destruct (ensemble p). }
  cbn [mbind result_bind]. rewrite (proj2 (check_ensemble_iff _ _ _)).
  - cbn [mbind result_bind]. by rewrite canonical_said.
  - rewrite role_count_playing by done. split; [exact Hb|naive_solver].
Qed.
End Exact.

(** ** A policy the theorems run on *)

Module Demo.
Definition id (n : string) : string := "00000000-0000-4000-8000-00000000000" +:+ n.
Definition repr (j : json) : string := "".
Definition int_of_float (t : string) : result Z := Err (ValueError t).

Definition candidate (n : string) (roles : list string) : CandidatePolicy := {|
  candidate_id := id n; provider_release_id := id "1"; model_binding_id := id n;
  credential_ref := id "1"; enabled := true; eligible_roles := roles; routing_enabled := true;
  credential_secret_version := 1 |}.

Definition policy : ValidatedRoutingPolicy := {|
  canonical := JNull; mode := RoutingMode.SELECTIVE_ENSEMBLE; anchor_candidate_id := id "1";
  candidates := [candidate "1" ["single"; "fallback"; "proposer"];
                 candidate "2" ["proposer"; "aggregator"; "fallback"]];
  fallback_order := [id "2"; id "1"];
  ensemble := {| max_proposers := 3; min_successful_proposers := 2;
    proposer_timeout_seconds := 60; aggregator_timeout_seconds := 120; proposer_max_retries := 1 |} |}.
End Demo.

Lemma demo_validates :
  validate_routing_policy Demo.repr Demo.int_of_float (Some (json_of_policy Demo.policy)) "api_model" None
  = Ok (said Demo.policy).
Proof. vm_compute. reflexivity. Qed.

Lemma validated_policy_ok_witness :
  policy_ok (said Demo.policy) ∧
  ∀ c, c ∈ candidates (said Demo.policy) → in_release Demo.repr None c.
Proof. exact (validated_policy_ok Demo.repr Demo.int_of_float _ _ _ _ demo_validates). Defined.

Lemma demo_policy_ok : policy_ok Demo.policy.
Proof.
  split; simpl; try lia; try done.
  - repeat constructor; set_solver.
  - intros c Hc. elem_cases Hc; subst; split_and!; try done; try (by repeat constructor; set_solver);
      intros r Hr; elem_cases Hr; subst; unfold _ROLES; set_solver.
  - eexists. split; [by left|]. split; [done|]. unfold Demo.candidate. simpl. set_solver.
  - set_solver.
  - split; [repeat constructor; set_solver|]. intros i Hi.
    elem_cases Hi; subst.
    + exists (Demo.candidate "2" ["proposer"; "aggregator"; "fallback"]). split_and!; set_solver.
    + exists (Demo.candidate "1" ["single"; "fallback"; "proposer"]). split_and!; set_solver.
Qed.

Lemma policy_roundtrip_witness :
  validate_routing_policy Demo.repr Demo.int_of_float (Some (json_of_policy Demo.policy)) "api_model" None
  = Ok (said Demo.policy).
Proof. apply (policy_roundtrip Demo.repr Demo.int_of_float Demo.policy). exact demo_policy_ok. Defined.

Lemma canonical_json_reordered_witness :
  canonical_json (JList [JObj [("b", JInt 1); ("a", JInt 2)]]) =
  canonical_json (JList [JObj [("a", JInt 2); ("b", JInt 1)]]).
Proof.
  apply canonical_json_reordered. apply (reordered_item [] _ _ []).
  apply reordered_fields; [repeat constructor; set_solver|apply Permutation_swap].
Defined.
