(* ===== verification/RoutedTurn.v ===== *)
(** * One routed model turn

    [RoutedModelTransport] of [runtime/transport.py]: the gate, the ranking and the choice
    of a turn, and the execution of a turn on one deployment with its retries and
    fallbacks.  Starting the ensemble is an outcome of the choice; its concurrent
    execution is not modelled.

    What the transport talks to is not part of it.  An execution of a candidate, an audit
    write, a registration with the broker and a sleep are actions; their answers come from
    oracles that may look at everything that happened before, and the log records them.
    Health is kept per candidate id; clock readings are microseconds.

    [choose_sound] says what a choice is; [turn_safe] what a single turn does, by
    the log it leaves: its tries, numbered upwards without a gap, follow each other as
    [may_follow] allows, stay within what was registered, and end in the decision's
    terminal status.  The lemmas [runs_*] step through an execution; [step_to] is the part
    of the world that an execution may have changed. *)

From S2P Require Import Prelude PyEnum PyOrder PyStr PyFloat PyDecimal Routing RoutingPolicy RoutingEngine.
Import (hints) RoutingMode RouteRole ProviderFailureKind.
Import E.

(** ** Helpers *)

(* [sidecar/ibreeze/runtime/transport.py:48-48 _REASONING_LEVEL_ORDER] *)
Definition _REASONING_LEVEL_ORDER : list string := ["low"; "medium"; "high"].
(* [sidecar/ibreeze/runtime/transport.py:49-49 _REASONING_LEVEL_BY_TIER] *)
Definition _REASONING_LEVEL_BY_TIER : list (string * option string) :=
  [("C0", None); ("C1", Some "low"); ("C2", Some "medium"); ("C3", Some "high")].

(** In milliseconds. *)
(* [sidecar/ibreeze/runtime/transport.py:52-58 _retry_wait_seconds] *)
Definition _retry_wait_ms (kind : ProviderFailureKind.t) (retry_after_ms : option Z) : Z :=
  if negb (kind =?o ProviderFailureKind.RATE_LIMITED) then 0
  else match retry_after_ms with None => 30000 | Some ms => Z.max 0 ms end.

(** The deadline is absent, text that is no instant, or an instant. *)
(* [sidecar/ibreeze/runtime/transport.py:61-68 _run_deadline_allows_wait] *)
Definition _run_deadline_allows_wait (run_deadline_at : option (option Z)) (now wait_ms : Z) : bool :=
  match run_deadline_at with
  | None => true
  | Some None => false
  | Some (Some deadline) => (wait_ms * 1000 <? Z.max 0 (deadline - now))%Z
  end.

(* [sidecar/ibreeze/runtime/transport.py:71-73 _effective_route_tier] *)
Definition _effective_route_tier (mode classified_tier : string) : string :=
  if mode =? value RoutingMode.FIXED then "C0" else classified_tier.

(* [sidecar/ibreeze/runtime/transport.py:76-88 _reasoning_level_for_candidate] *)
Definition _reasoning_level_for_candidate (c : Candidate) (required_tier : string) : option string :=
  match mjoin (dict_get _REASONING_LEVEL_BY_TIER required_tier) with
  | None => None
  | Some requested =>
      if negb (supports_reasoning c) then Some "__unavailable__"
      else
        let from := match list_find (eq requested) _REASONING_LEVEL_ORDER with
                    | Some (i, _) => drop i _REASONING_LEVEL_ORDER | None => [] end in
        Some (default "__unavailable__" (List.find (λ level, level ∈? reasoning_levels c) from))
  end.

(* [sidecar/ibreeze/runtime/transport.py:91-110 _stable_score_key] *)
Definition routed_cmp : decimal * Candidate → decimal * Candidate → comparison :=
  on (λ p, (dneg p.1,
      (dneg (_as_decimal (match effective_quality p.2 with Some d => Some d | None => quality_prior p.2 end)
               d0_5),
      (latency_prior_ms p.2, by_text p))))
    (lex dcompare (lex dcompare (lex Z.compare text_cmp))).

(** ** The transport *)

(** What the constructor stores and the choice reads. *)
(* [sidecar/ibreeze/runtime/transport.py:571-630 RoutedModelTransport.__init__] *)
Record Router := {
  r_candidates : list Candidate;
  r_mode : string;
  r_input_origin : string;
  r_run_deadline_at : option (option Z);
  r_anchor_candidate_id : string;   (** as given, or the first candidate's id *)
  r_fallback_order : list string;
  r_max_proposers : Z;   (** [routing_policy["ensemble"]["max_proposers"]], or 3 *)
  r_queue : bool;      (** whether a write queue, *)
  r_company : bool;    (** a company id *)
  r_snapshot : bool    (** and an execution snapshot id were given *) }.

(* [sidecar/ibreeze/runtime/transport.py:1070-1077 RoutedModelTransport._mode_for_override] *)
Definition _mode_for_override (self : Router) (override : option string) : string :=
  match override with
  | None => r_mode self
  | Some o => default (value RoutingMode.FIXED) (dict_get [
      ("force_fixed", value RoutingMode.FIXED);
      ("force_single", value RoutingMode.SMART_SINGLE);
      ("force_ensemble", value RoutingMode.SELECTIVE_ENSEMBLE)] o)
  end.

Definition health_map : Type := list (string * HealthState).
Definition health_of (h : health_map) (id : string) : HealthState := default fresh_health (dict_get h id).

(** [allowed] inside [_fallback_candidates]. *)
(* [sidecar/ibreeze/runtime/transport.py:1138-1153 RoutedModelTransport._fallback_candidates] *)
Definition fallback_allowed (h : health_map) (now : Z) (primary : Candidate)
    (failure_kind : option ProviderFailureKind.t) (excluded : list string) (c : Candidate) : bool :=
  if Nat.eqb (obj c) (obj primary) || (candidate_id c ∈? excluded) ||
     negb ("fallback" ∈? eligible_roles c) || negb (is_eligible (health_of h (candidate_id c)) now)
  then false
  else match failure_kind with
       | Some ProviderFailureKind.CONTEXT_OVERFLOW => (context_window primary <? context_window c)%Z
       | Some ProviderFailureKind.AUTH_INVALID | Some ProviderFailureKind.INSUFFICIENT_CREDITS =>
           negb ((provider_release_id c =? provider_release_id primary) &&
                 (credential_ref c =? credential_ref primary))
       | _ => true
       end.

(** [by_id.pop(id)] for each id that is there; what is left stays. *)
Fixpoint pop_all (by_id : list (string * Candidate)) (ids : list string)
    : list Candidate * list (string * Candidate) :=
  match ids with
  | [] => ([], by_id)
  | id :: ids =>
      match dict_get by_id id with
      | Some c => let '(cs, rest) := pop_all (dict_del by_id id) ids in (c :: cs, rest)
      | None => pop_all by_id ids
      end
  end.

(* [sidecar/ibreeze/runtime/transport.py:1125-1166 RoutedModelTransport._fallback_candidates] *)
Definition _fallback_candidates (self : Router) (h : health_map) (now : Z)
    (ranked : list (decimal * Candidate)) (primary : Candidate)
    (failure_kind : option ProviderFailureKind.t) (excluded : list string) : list Candidate :=
  if bool_decide (failure_kind = Some ProviderFailureKind.BAD_REQUEST ∨
                  failure_kind = Some ProviderFailureKind.POLICY_REFUSAL) then []
  else
    let allowed := List.filter (fallback_allowed h now primary failure_kind excluded) (map snd ranked) in
    let by_id := dict_of (map (λ c, (candidate_id c, c)) allowed) in
    let '(ordered, rest) := pop_all by_id (r_fallback_order self) in
    ordered ++ (pop_all rest (map (λ sc, candidate_id sc.2) ranked)).1.

(** ** The choice of a turn *)

(** The candidate as it is routed: with the quality the calibration gives it. *)
Definition with_quality (q : decimal) (c : Candidate) : Candidate := {|
  obj := obj c; company_id := company_id c; candidate_id := candidate_id c;
  provider_release_id := provider_release_id c; model_binding_id := model_binding_id c;
  credential_ref := credential_ref c; eligible_roles := eligible_roles c;
  routing_enabled := routing_enabled c; routing_tier := routing_tier c;
  supports_tools := supports_tools c; supports_vision := supports_vision c;
  supports_streaming := supports_streaming c; max_output_tokens := max_output_tokens c;
  context_window := context_window c; quality_prior := quality_prior c;
  effective_quality := Some q; tool_reliability_prior := tool_reliability_prior c;
  latency_prior_ms := latency_prior_ms c; model_vendor := model_vendor c;
  model_family := model_family c; architecture_class := architecture_class c;
  supports_reasoning := supports_reasoning c; reasoning_levels := reasoning_levels c |}.

Section Choice.
Context (self : Router) (context : RoutingContext) (health : health_map) (now : Z).

(** The hard gate of a turn. *)
(* [sidecar/ibreeze/runtime/transport.py:1249-1269 RoutedModelTransport.complete] *)
Definition passes (effective_mode tier : string) (required : Z) (c : Candidate) : bool :=
  is_eligible (health_of health (candidate_id c)) now &&
  (routing_enabled c ||
   ((effective_mode =? value RoutingMode.FIXED) && (candidate_id c =? r_anchor_candidate_id self))) &&
  negb (routing_tier c <? required)%Z &&
  negb (negb (tool_count context =? 0)%Z && negb (supports_tools c)) &&
  negb (negb (Nat.eqb (length (attachment_types context)) 0) && negb (supports_vision c)) &&
  supports_streaming c &&
  negb (context_window c <? estimated_input_tokens context + max_output_tokens c)%Z &&
  negb (bool_decide (_reasoning_level_for_candidate c tier = Some "__unavailable__")).

(** The candidates that pass, with their scores and calibrated qualities. *)
(* [sidecar/ibreeze/runtime/transport.py:1247-1288 RoutedModelTransport.complete] *)
Definition eligible_of (effective_mode tier : string) (calibrations : list (string * decimal))
    : result (list (decimal * Candidate)) :=
  required ← tier_number tier;
  each (λ c,
    let calibration := default D0 (dict_get calibrations (candidate_id c)) in
    let quality := dmin D1 (dmax D0 (dadd (_as_decimal (quality_prior c) d0_5) calibration)) in
    let routed := with_quality quality c in
    score ← score_candidate routed tier context (health_of health (candidate_id c)) calibration;
    Ok (score, routed)) (List.filter (passes effective_mode tier required) (r_candidates self)).

(** [[(s, c) for s, c in eligible if role in c.eligible_roles]], ranked. *)
(* [sidecar/ibreeze/runtime/transport.py:1289-1296 RoutedModelTransport.complete] *)
Definition ranked_for (role : string) (eligible : list (decimal * Candidate)) : list (decimal * Candidate) :=
  sort_key routed_cmp (List.filter (λ sc, role ∈? eligible_roles sc.2) eligible).

(** The first of [ranked] that the fallback order names, in its order. *)
Definition ordered_first (self : Router) (ranked : list (decimal * Candidate)) : option (decimal * Candidate) :=
  head (omap (λ id, List.find (λ sc, candidate_id sc.2 =? id) ranked) (r_fallback_order self)).

(** The single candidates, or what stands in for them; [true] where the router fell back
    to the anchor. *)
(* [sidecar/ibreeze/runtime/transport.py:1330-1364 RoutedModelTransport.complete] *)
Definition ranked_or_stand_in (effective_mode : string)
    (eligible ranked ranked_fallback : list (decimal * Candidate))
    : result (list (decimal * Candidate) * bool) :=
  let fixed := effective_mode =? value RoutingMode.FIXED in
  match ranked with
  | _ :: _ => Ok (ranked, false)
  | [] =>
      match List.find (λ sc, (candidate_id sc.2 =? r_anchor_candidate_id self) &&
                             ("single" ∈? eligible_roles sc.2)) eligible with
      | Some anchor => Ok ([anchor], negb fixed)
      | None =>
          if fixed then
            it ← of_option (ordered_first self ranked_fallback) (ValueError "MODEL_CAPABILITY_UNAVAILABLE");
            Ok ([it], false)
          else Err (ValueError "MODEL_CAPABILITY_UNAVAILABLE")
      end
  end.

(** Whether the turn is an ensemble. *)
(* [sidecar/ibreeze/runtime/transport.py:1365-1393 RoutedModelTransport.complete] *)
Definition ensemble_enabled (effective_mode tier : string) (confidence : float) (override : option string)
    (ranked_proposer ranked_aggregator : list (decimal * Candidate)) : bool :=
  let max_proposers := Z.min (Z.min 4 (r_max_proposers self)) (Z.of_nat (length ranked_proposer)) in
  let proposers := map fst (select_proposer_candidates ranked_proposer max_proposers tier) in
  let first := snd <$> head ranked_aggregator in
  (effective_mode =? value RoutingMode.SELECTIVE_ENSEMBLE) &&
  should_ensemble context confidence (Z.of_nat (length proposers)) (bool_decide (is_Some first))
    (Some (estimated_input_tokens context))
    (c ← first; Some (context_window c - max_output_tokens c)%Z) max_proposers
    (Z.of_nat (length (remove_dups (map provider_release_id proposers))))
    (Some (Z.of_nat (length (List.filter supports_vision proposers))))
    (match first with Some c => supports_vision c | None => false end)
    (bool_decide (override = Some "force_ensemble")) (Some tier).

(** The deployment a single turn starts with.  The fixed mode also re-sorts [ranked],
    which nothing reads afterwards. *)
(* [sidecar/ibreeze/runtime/transport.py:1403-1423 RoutedModelTransport.complete] *)
Definition primary_of (effective_mode : string) (ranked ranked_fallback : list (decimal * Candidate))
    : result Candidate :=
  if effective_mode =? value RoutingMode.FIXED then
    match List.find (λ sc, candidate_id sc.2 =? r_anchor_candidate_id self) ranked with
    | Some anchor => Ok anchor.2
    | None => sc ← of_option (ordered_first self ranked_fallback) (ValueError "MODEL_CAPABILITY_UNAVAILABLE");
              Ok sc.2
    end
  else sc ← of_option (head ranked) (RuntimeErr "IndexError"); Ok sc.2.

Inductive choice :=
  | Single (primary : Candidate) (ranked_fallback : list (decimal * Candidate)) (tier : string)
           (router_fallback : bool)
  | Ensemble (ranked_proposer ranked_aggregator : list (decimal * Candidate)) (tier : string).

(** The rollout configuration decides the mode; the classification is [decision]. *)
(* [sidecar/ibreeze/runtime/transport.py:1214-1423 RoutedModelTransport.complete] *)
Definition choose (rollout : RoutingRolloutConfig) (override : option string) (decision : TierDecision)
    (calibrations : list (string * decimal)) : result choice :=
  effective_mode ← effective_mode rollout (_mode_for_override self override) (r_input_origin self);
  let tier := _effective_route_tier effective_mode (required_tier decision) in
  eligible ← eligible_of effective_mode tier calibrations;
  let ranked_fallback := ranked_for "fallback" eligible in
  '(ranked, router_fallback) ←
    ranked_or_stand_in effective_mode eligible (ranked_for "single" eligible) ranked_fallback;
  if ensemble_enabled effective_mode tier (confidence decision) override
       (ranked_for "proposer" eligible) (ranked_for "aggregator" eligible)
  then Ok (Ensemble (ranked_for "proposer" eligible) (ranked_for "aggregator" eligible) tier)
  else
    primary ← primary_of effective_mode ranked ranked_fallback;
    Ok (Single primary ranked_fallback tier router_fallback).
End Choice.

(** ** Execution *)

Inductive action :=
  | PersistDecision (selections : list (string * string)) (kind : string)
  | Register (selections : list (string * string))
  | Transition (expected target : string)
  | PersistHealth (id : string) (state : HealthState)
  | Sleep (ms : Z)
  | Execute (id : string) (role : string) (sequence : Z).

(** What happened: an action, and the exception that answered it, if one did. *)
Definition event : Type := action * option exn.

Record world := {
  log : list event;
  healths : health_map;
  provider_failures : Z }.

Definition logged (e : event) (w : world) : world :=
  {| log := log w ++ [e]; healths := healths w; provider_failures := provider_failures w |}.
Definition set_health (id : string) (h : HealthState) (w : world) : world :=
  {| log := log w; healths := dict_set (healths w) id h; provider_failures := provider_failures w |}.
Definition count_failure (w : world) : world :=
  {| log := log w; healths := healths w; provider_failures := (provider_failures w + 1)%Z |}.

Section Execution.
Context {Turn : Type}.
(** How executing a candidate ends, how every other action ends, and the clock. *)
Context (executes : list event → action → result Turn).
Context (answers : list event → action → option exn).
Context (clock : list event → Z).
Context (self : Router).

Definition perform (a : action) : tx world unit := λ w,
  match answers (log w) a with
  | None => (Ok tt, logged (a, None) w)
  | Some e => (Err e, logged (a, Some e) w)
  end.

(** An audit write, where there is something to write to; every [Exception] becomes a
    safety error. *)
Definition audit (enabled : bool) (code : string) (a : action) : tx world unit :=
  if negb enabled then mret tt
  else catch (perform a) (λ e,
    match e with TaskCancelledErr => raise TaskCancelledErr | _ => raise (RouteSafetyErr code) end).

Definition audited : bool := r_queue self && r_company self && r_snapshot self.

(* [sidecar/ibreeze/runtime/transport.py:718-730 RoutedModelTransport._transition_decision] *)
Definition _transition_decision (expected target : string) : tx world unit :=
  audit audited "ROUTING_AUDIT_PERSISTENCE_FAILED" (Transition expected target).

(* [sidecar/ibreeze/runtime/transport.py:732-755 RoutedModelTransport._persist_health] *)
Definition _persist_health (id : string) (state : HealthState) : tx world unit :=
  audit (r_queue self && r_company self) "ROUTING_HEALTH_PERSISTENCE_FAILED" (PersistHealth id state).

(** [math.ceil(ms / 1000)] *)
Definition ceil_seconds (ms : Z) : Z := (- ((- ms) / 1000))%Z.

Definition apply_health (id : string) (f : HealthState → Z → HealthState) : tx world unit :=
  now ← gets (λ w, clock (log w));
  modify (λ w, set_health id (f (health_of (healths w) id) now) w);;
  state ← gets (λ w, health_of (healths w) id);
  _persist_health id state.

(* [sidecar/ibreeze/runtime/transport.py:757-772 RoutedModelTransport._record_provider_failure] *)
Definition _record_provider_failure (id : string) (kind : ProviderFailureKind.t)
    (retry_after_ms : option Z) : tx world unit :=
  modify count_failure;;
  apply_health id (λ h now, apply_failure h kind now (ceil_seconds <$> retry_after_ms)).

(* [sidecar/ibreeze/runtime/transport.py:1093-1123 RoutedModelTransport._prepare_decision] *)
Definition _prepare_decision (selections : list (string * string)) : tx world unit :=
  let ensemble := existsb (λ s, s.2 ∈? ["proposer"; "aggregator"]) selections in
  audit audited "ROUTING_AUDIT_PERSISTENCE_FAILED"
    (PersistDecision selections (if ensemble then "ensemble" else "single"));;
  (if r_snapshot self then perform (Register selections) else mret tt);;
  _transition_decision "planned" "executing".

(** One execution of a candidate; its attempt rows are written inside. *)
Definition _execute_candidate (id role : string) (sequence : Z) : tx world Turn := λ w,
  let a := Execute id role sequence in
  match executes (log w) a with
  | Ok t => (Ok t, logged (a, None) w)
  | Err e => (Err e, logged (a, Some e) w)
  end.

(** [ProviderFailureKind(exc.kind)], or [INVALID_RESPONSE] for text that is none. *)
Definition kind_of (kind : string) : ProviderFailureKind.t :=
  default ProviderFailureKind.INVALID_RESPONSE (of_value kind).

(** An execution that is to be the turn's answer. *)
(* [sidecar/ibreeze/runtime/transport.py:1446-1454 RoutedModelTransport.complete] *)
Definition attempt (id role : string) (sequence : Z) : tx world Turn :=
  turn ← _execute_candidate id role sequence;
  apply_health id apply_success;;
  _transition_decision "executing" "succeeded";;
  mret turn.

Definition MAX_TRIES : nat := 3.

(** How the primary's tries end: with the turn, or with the kind of the last failure and
    the last sequence number. *)
Inductive tried := Answered (t : Turn) | GaveUp (kind : ProviderFailureKind.t) (sequence : Z).

(* [sidecar/ibreeze/runtime/transport.py:1444-1487 RoutedModelTransport.complete] *)
Fixpoint try_primary (id : string) (tries : nat) (retry_number sequence : Z)
    (last : ProviderFailureKind.t) : tx world tried :=
  match tries with
  | O => mret (GaveUp last sequence)
  | S tries =>
      catch (turn ← attempt id "single" sequence; mret (Answered turn)) (λ e,
        match e with
        | RouteSafetyErr _ | TaskCancelledErr => raise e
        | RunCancelledErr => _transition_decision "executing" "cancelled";; raise e
        | ProviderErr text retry_after_ms visible_content =>
            let kind := kind_of text in
            modify count_failure;;
            directive ← lift (retry_directive (inl kind));
            apply_health id (λ h now, apply_failure h kind now (ceil_seconds <$> retry_after_ms));;
            if negb (retry_same directive) || (max_same_retries directive <=? retry_number)%Z ||
               visible_content
            then mret (GaveUp kind sequence)
            else
              let wait := _retry_wait_ms kind retry_after_ms in
              now ← gets (λ w, clock (log w));
              if negb (wait =? 0)%Z && negb (_run_deadline_allows_wait (r_run_deadline_at self) now wait)
              then mret (GaveUp kind sequence)
              else
                (if (wait =? 0)%Z then mret tt else perform (Sleep wait));;
                try_primary id tries (retry_number + 1) (sequence + 1) kind
        | _ =>
            _record_provider_failure id ProviderFailureKind.INVALID_RESPONSE None;;
            mret (GaveUp ProviderFailureKind.INVALID_RESPONSE sequence)
        end)
  end.

(* [sidecar/ibreeze/runtime/transport.py:1488-1524 RoutedModelTransport.complete] *)
Fixpoint try_fallbacks (fallbacks : list string) (sequence : Z) : tx world Turn :=
  match fallbacks with
  | [] =>
      _transition_decision "executing" "failed";;
      raise (RuntimeErr "ROUTER_FALLBACK_EXHAUSTED")
  | id :: fallbacks =>
      catch (attempt id "fallback" sequence) (λ e,
        match e with
        | RouteSafetyErr _ | TaskCancelledErr => raise e
        | RunCancelledErr => _transition_decision "executing" "cancelled";; raise e
        | ProviderErr text retry_after_ms _ =>
            _record_provider_failure id (kind_of text) retry_after_ms;;
            try_fallbacks fallbacks (sequence + 1)
        | _ =>
            _record_provider_failure id ProviderFailureKind.INVALID_RESPONSE None;;
            try_fallbacks fallbacks (sequence + 1)
        end)
  end.

(** The tries of a turn on a single deployment. *)
(* [sidecar/ibreeze/runtime/transport.py:1441-1524 RoutedModelTransport.complete] *)
Definition run_tries (primary : Candidate) (ranked_fallback : list (decimal * Candidate)) : tx world Turn :=
  tried ← try_primary (candidate_id primary) MAX_TRIES 0 1 ProviderFailureKind.INVALID_RESPONSE;
  match tried with
  | Answered turn => mret turn
  | GaveUp kind sequence =>
      now ← gets (λ w, clock (log w));
      fallbacks ← gets (λ w, _fallback_candidates self (healths w) now ranked_fallback primary (Some kind) []);
      try_fallbacks (map candidate_id fallbacks) (sequence + 1)
  end.

(** The turn on a single deployment. *)
(* [sidecar/ibreeze/runtime/transport.py:1424-1440 RoutedModelTransport.complete] *)
Definition run_single (primary : Candidate) (ranked_fallback : list (decimal * Candidate)) : tx world Turn :=
  now ← gets (λ w, clock (log w));
  fallbacks ← gets (λ w, _fallback_candidates self (healths w) now ranked_fallback primary None []);
  _prepare_decision ((candidate_id primary, "single") :: map (λ c, (candidate_id c, "fallback")) fallbacks);;
  run_tries primary ranked_fallback.

(** ** Reasoning about executions

    [runs m w Q]: [m], started in [w], ends with a result and a world that satisfy [Q]. *)

Definition runs {A} (m : tx world A) (w : world) (Q : result A → world → Prop) : Prop :=
  Q (m w).1 (m w).2.

Lemma runs_ret {A} (a : A) w (Q : result A → world → Prop) : Q (Ok a) w → runs (mret a) w Q.
Proof. done. Qed.

Lemma runs_raise {A} e w (Q : result A → world → Prop) : Q (Err e) w → runs (raise e) w Q.
Proof. done. Qed.

Lemma runs_bind {A B} (m : tx world A) (f : A → tx world B) w Q :
  runs m w (λ r w', match r with Ok a => runs (f a) w' Q | Err e => Q (Err e) w' end) →
  runs (m ≫= f) w Q.
Proof. unfold runs, mbind, tx_bind. by destruct (m w) as [[a|e] w']. Qed.

Lemma runs_catch {A} (m : tx world A) h w Q :
  runs m w (λ r w', match r with Ok a => Q (Ok a) w' | Err e => runs (h e) w' Q end) →
  runs (catch m h) w Q.
Proof. unfold runs, catch. by destruct (m w) as [[a|e] w']. Qed.

Lemma runs_mono {A} (m : tx world A) w (Q Q' : result A → world → Prop) :
  runs m w Q → (∀ r w', Q r w' → Q' r w') → runs m w Q'.
Proof. unfold runs. auto. Qed.

Lemma runs_perform a w Q :
  Q (Ok tt) (logged (a, None) w) → (∀ e, Q (Err e) (logged (a, Some e) w)) → runs (perform a) w Q.
Proof. unfold runs, perform. intros. destruct (answers (log w) a); simpl; auto. Qed.

Lemma runs_audit enabled code a w Q :
  (enabled = false → Q (Ok tt) w) → (enabled = true → Q (Ok tt) (logged (a, None) w)) →
  (∀ e o, e = TaskCancelledErr ∨ e = RouteSafetyErr code → Q (Err e) (logged (a, Some o) w)) →
  runs (audit enabled code a) w Q.
Proof.
  intros H1 H2 H3. unfold audit. destruct enabled; simpl; [|by apply runs_ret, H1].
  apply runs_catch, runs_perform; [by apply H2|]. intros e. destruct e; apply runs_raise; auto.
Qed.

Lemma runs_execute id role seq w Q :
  (∀ t, Q (Ok t) (logged (Execute id role seq, None) w)) →
  (∀ e, Q (Err e) (logged (Execute id role seq, Some e) w)) →
  runs (_execute_candidate id role seq) w Q.
Proof. unfold runs, _execute_candidate. intros. destruct (executes _ _); simpl; auto. Qed.

Lemma runs_gets {A} (f : world → A) w (Q : result A → world → Prop) : Q (Ok (f w)) w → runs (gets f) w Q.
Proof. done. Qed.
Lemma runs_modify f w (Q : result unit → world → Prop) : Q (Ok tt) (f w) → runs (modify f) w Q.
Proof. done. Qed.

(** ** What a turn leaves behind *)

(** An execution as the log has it. *)
Record Try := { t_id : string; t_role : string; t_seq : Z; t_end : option exn }.

Definition try_of (e : event) : option Try :=
  match e.1 with
  | Execute id role seq => Some {| t_id := id; t_role := role; t_seq := seq; t_end := e.2 |}
  | _ => None
  end.
Definition tries_in (l : list event) : list Try := omap try_of l.

Definition failure_of (e : exn) : ProviderFailureKind.t :=
  match e with ProviderErr text _ _ => kind_of text | _ => ProviderFailureKind.INVALID_RESPONSE end.

(** The failures after which a turn goes on. *)
Definition survivable (e : exn) : bool :=
  match e with RouteSafetyErr _ | TaskCancelledErr | RunCancelledErr => false | _ => true end.

(** When [x] may be tried after [prev]: the primary first; again only after a failure that
    its directive lets it retry, with nothing visible yet and retries left; a fallback
    after any other failure but a bad request or a refusal of the primary. *)
Definition may_follow (prev : option Try) (x : Try) : Prop :=
  match prev with
  | None => t_role x = "single"
  | Some p => ∃ e, t_end p = Some e ∧ survivable e = true ∧
      ((t_role x = "single" ∧ t_role p = "single" ∧ t_id x = t_id p ∧
        ∃ text ra d, e = ProviderErr text ra false ∧ retry_directive (inl (kind_of text)) = Ok d ∧
          retry_same d = true ∧ (t_seq p ≤ max_same_retries d)%Z) ∨
       (t_role x = "fallback" ∧ (t_role p = "single" →
        failure_of e ∉ [ProviderFailureKind.BAD_REQUEST; ProviderFailureKind.POLICY_REFUSAL])))
  end.

(** Tries that follow each other, numbered without a gap from [seq]. *)
Fixpoint chained (prev : option Try) (seq : Z) (l : list Try) : Prop :=
  match l with
  | [] => True
  | x :: l => t_seq x = seq ∧ may_follow prev x ∧ chained (Some x) (seq + 1) l
  end.

Definition last_or (prev : option Try) (l : list Try) : option Try :=
  match last l with Some x => Some x | None => prev end.

Lemma last_or_cons prev x l : last_or prev (x :: l) = last_or (Some x) l.
Proof. unfold last_or. rewrite last_cons. by destruct (last l). Qed.

Lemma chained_app prev seq l l' :
  chained prev seq (l ++ l') ↔ chained prev seq l ∧ chained (last_or prev l) (seq + Z.of_nat (length l)) l'.
Proof.
  revert prev seq. induction l as [|x l IH]; intros prev seq.
  - simpl. rewrite Z.add_0_r. tauto.
  - cbn [app chained length]. rewrite IH, last_or_cons.
    replace (seq + 1 + Z.of_nat (length l))%Z with (seq + Z.of_nat (S (length l)))%Z by lia. tauto.
Qed.

(** From [w] to [w'] the log grew, by the tries [xs] among others, and only the health of
    [ids] changed. *)
Record step_to (ids : string → Prop) (w w' : world) (xs : list Try) : Prop := {
  st_log : ∃ evs, log w' = log w ++ evs ∧ tries_in evs = xs;
  st_health : ∀ j, ¬ ids j → health_of (healths w') j = health_of (healths w) j }.

Lemma step_refl ids w : step_to ids w w [].
Proof. split; [exists []; by rewrite app_nil_r|done]. Qed.

Lemma step_trans (ids : string → Prop) w w1 w2 xs ys :
  step_to ids w w1 xs → step_to ids w1 w2 ys → step_to ids w w2 (xs ++ ys).
Proof.
  intros [(e1 & H1 & <-) Hh1] [(e2 & H2 & <-) Hh2]. split.
  - exists (e1 ++ e2). rewrite H2, H1, (assoc app). split; [done|].
    unfold tries_in. apply omap_app.
  - intros j Hj. by rewrite Hh2, Hh1.
Qed.

Lemma step_weaken (ids ids' : string → Prop) w w' xs :
  step_to ids w w' xs → (∀ j, ids j → ids' j) → step_to ids' w w' xs.
Proof. intros [H1 H2] Hi. split; [done|]. intros j Hj. apply H2. auto. Qed.

Lemma step_logged ids a o w : step_to ids w (logged (a, o) w) (option_list (try_of (a, o))).
Proof. split; [|done]. exists [(a, o)]. split; [done|]. unfold tries_in. simpl. by destruct (try_of _). Qed.

Lemma step_count ids w : step_to ids w (count_failure w) [].
Proof. split; [exists []; by rewrite app_nil_r|done]. Qed.

Lemma step_set_health id h w : step_to (eq id) w (set_health id h w) [].
Proof.
  split; [exists []; by rewrite app_nil_r|]. intros j Hj. unfold health_of. simpl.
  by rewrite dict_get_set, bool_decide_false.
Qed.

(** The decision has reached [target], as far as decisions are audited. *)
Definition closed (target : string) (w : world) : Prop :=
  audited = true → last (log w) = Some (Transition "executing" target, None).

(** How a turn may raise: by the cancellation of the run or with every fallback tried, the
    decision closed; by the audit, or by the cancellation of the task, at any point; or
    by the broker's registration and the sleep themselves. *)
Definition raises_well (e : exn) (w : world) : Prop :=
  match e with
  | RouteSafetyErr _ | TaskCancelledErr => True
  | RunCancelledErr => closed "cancelled" w
  | RuntimeErr code => code = "ROUTER_FALLBACK_EXHAUSTED" ∧ closed "failed" w
  | _ => False
  end ∨ (∃ sel, last (log w) = Some (Register sel, Some e)) ∨ ∃ ms, last (log w) = Some (Sleep ms, Some e).

Definition forced (e : exn) : Prop := e = TaskCancelledErr ∨ ∃ code, e = RouteSafetyErr code.

Lemma forced_raises e w : forced e → raises_well e w.
Proof. intros [->|[code ->]]; by left. Qed.

Lemma audit_step ids enabled code a w :
  try_of (a, None) = None → (∀ o, try_of (a, o) = None) →
  runs (audit enabled code a) w (λ r w', step_to ids w w' [] ∧
    match r with
    | Ok _ => enabled = true → last (log w') = Some (a, None)
    | Err e => forced e
    end).
Proof.
  intros H1 H2. apply runs_audit.
  - intros ->. split; [apply step_refl|done].
  - intros ->. split; [|intros _; apply last_snoc].
    pose proof (step_logged ids a None w) as Hs. by rewrite H1 in Hs.
  - intros e o He. split; [|by destruct He; [left|right; eauto]].
    pose proof (step_logged ids a (Some o) w) as Hs. by rewrite H2 in Hs.
Qed.

Lemma transition_step ids target w :
  runs (_transition_decision "executing" target) w (λ r w', step_to ids w w' [] ∧
    match r with Ok _ => closed target w' | Err e => forced e end).
Proof. by apply audit_step. Qed.

Lemma apply_health_step id f w :
  runs (apply_health id f) w (λ r w', step_to (eq id) w w' [] ∧
    match r with Ok _ => True | Err e => forced e end).
Proof.
  unfold apply_health. apply runs_bind, runs_gets, runs_bind, runs_modify, runs_bind, runs_gets.
  eapply runs_mono; [by apply (audit_step (eq id))|].
  intros r w' [Hs Hr]. split; [|by destruct r].
  exact (step_trans _ _ _ _ [] [] (step_set_health _ _ _) Hs).
Qed.

Lemma record_step id kind ra w :
  runs (_record_provider_failure id kind ra) w (λ r w', step_to (eq id) w w' [] ∧
    match r with Ok _ => True | Err e => forced e end).
Proof.
  unfold _record_provider_failure. apply runs_bind, runs_modify.
  eapply runs_mono; [apply apply_health_step|]. intros r w' [Hs Hr]. split; [|done].
  exact (step_trans _ _ _ _ [] [] (step_count _ _) Hs).
Qed.

Definition this (id role : string) (seq : Z) (o : option exn) : Try :=
  {| t_id := id; t_role := role; t_seq := seq; t_end := o |}.

(** An attempt is one execution; when it is the execution that raised, nothing came after
    it. *)
Lemma attempt_ok id role seq w :
  runs (attempt id role seq) w (λ r w', ∃ o, step_to (eq id) w w' [this id role seq o] ∧
    match r with
    | Ok _ => o = None ∧ closed "succeeded" w'
    | Err e => o = Some e ∨ o = None ∧ forced e
    end).
Proof.
  unfold attempt. apply runs_bind, runs_execute.
  - intros t. apply runs_bind. eapply runs_mono; [apply apply_health_step|].
    intros [[]|e] w1 [Hs1 H1]; pose proof (step_trans _ _ _ _ _ _ (step_logged _ _ _ _) Hs1) as Hs.
    2: { exists None. auto. }
    apply runs_bind. eapply runs_mono; [apply transition_step|]. intros r w2 [Hs2 H2].
    pose proof (step_trans _ _ _ _ _ _ Hs Hs2) as Hs3.
    destruct r as [[]|e]; [apply runs_ret|]; exists None; auto.
  - intros e. exists (Some e). split; [apply (step_logged (eq id))|auto].
Qed.

Lemma retry_directive_total k : ∃ d, retry_directive (inl k) = Ok d ∧ (max_same_retries d ≤ 2)%Z.
Proof. destruct k; eexists; (split; [reflexivity|]); simpl; lia. Qed.

(** What the tries of the primary leave behind. *)
Record primary_tried (id : string) (tries : nat) (prev : option Try) (seq : Z) (w w' : world)
    (r : result tried) (xs : list Try) : Prop := {
  pt_step : step_to (eq id) w w' xs;
  pt_chained : chained prev seq xs;
  pt_all : Forall (λ x, t_id x = id ∧ t_role x = "single") xs;
  pt_length : (length xs ≤ tries)%nat;
  pt_end : match r with
    | Ok (Answered t) => (∃ x, last xs = Some x ∧ t_end x = None) ∧ closed "succeeded" w'
    | Ok (GaveUp kind s) => s = (seq + Z.of_nat (length xs) - 1)%Z ∧
        ∃ p e, last xs = Some p ∧ t_end p = Some e ∧ survivable e = true ∧ failure_of e = kind
    | Err e => raises_well e w'
    end }.

Lemma primary_one id tries prev seq w w' r o :
  (∀ o, may_follow prev (this id "single" seq o)) →
  step_to (eq id) w w' [this id "single" seq o] →
  match r with
  | Ok (Answered t) => o = None ∧ closed "succeeded" w'
  | Ok (GaveUp kind s) => s = seq ∧ ∃ e, o = Some e ∧ survivable e = true ∧ failure_of e = kind
  | Err e => raises_well e w'
  end →
  ∃ xs, primary_tried id (S tries) prev seq w w' r xs.
Proof.
  intros Hp Hs Hr. exists [this id "single" seq o]. split; simpl; auto.
  - lia.
  - destruct r as [[t|kind s]|e]; [|destruct Hr as (-> & e & ?); split; [lia|]|done].
    + split; [eexists; split; [done|]|]; apply Hr.
    + eauto 10.
Qed.

Lemma try_primary_ok id tries last prev retry_number seq w :
  tries ≠ O → (retry_number + Z.of_nat tries = 3)%Z → seq = (retry_number + 1)%Z →
  (∀ o, may_follow prev (this id "single" seq o)) →
  runs (try_primary id tries retry_number seq last) w
    (λ r w', ∃ xs, primary_tried id tries prev seq w w' r xs).
Proof.
  revert last prev retry_number seq w. induction tries as [|n IH]; [done|].
  intros last prev retry seq w _ Hn Hseq Hprev. cbn [try_primary]. apply runs_catch, runs_bind.
  eapply runs_mono; [apply attempt_ok|]. intros [t|e] w1 (o & Hs & Hr).
  { apply runs_ret. eapply primary_one; eauto. }
  assert (∀ w2 r2, step_to (eq id) w1 w2 [] →
    match r2 with
    | Ok (Answered t) => o = None ∧ closed "succeeded" w2
    | Ok (GaveUp kind s) => s = seq ∧ ∃ e, o = Some e ∧ survivable e = true ∧ failure_of e = kind
    | Err e => raises_well e w2
    end → ∃ xs, primary_tried id (S n) prev seq w w2 r2 xs) as Hone.
  { intros w2 r2 H2 Hr2. eapply primary_one; [done| |exact Hr2].
    exact (step_trans _ _ _ _ _ _ Hs H2). }
  assert (forced e → ∃ xs, primary_tried id (S n) prev seq w w1 (Err e) xs) as Hforced
    by (intros ?; apply Hone; [apply step_refl|by apply forced_raises]).
  destruct (decide (o = Some e)) as [->|Ho]; [|destruct Hr as [?|[-> Hf]]; [done|]].
  2: { specialize (Hforced Hf). by destruct Hf as [->|[code ->]]. }
  assert (∀ kind ra, survivable e = true → failure_of e = kind →
    runs (_record_provider_failure id kind ra;; mret (GaveUp kind seq)) w1
      (λ r w', ∃ xs, primary_tried id (S n) prev seq w w' r xs)) as Hover.
  { intros kind ra Hsv Hk. apply runs_bind. eapply runs_mono; [apply record_step|].
    intros r w2 [H2 Hr2]. destruct r as [[]|e2]; [apply runs_ret|]; apply Hone; eauto.
    by apply forced_raises. }
  destruct e as [| | | | | | | | | | | |code| | |text ra visible]; try (by apply Hover); cbv beta iota.
  - apply runs_raise, Hforced. right. eauto.
  - apply runs_bind. eapply runs_mono; [apply transition_step|]. intros [[]|e] w2 [H2 Hr2].
    + apply runs_raise, Hone; [done|]. by left.
    + apply Hone; [done|]. by apply forced_raises.
  - apply runs_raise, Hforced. by left.
  - destruct (retry_directive_total (kind_of text)) as (d & Hd & Hmax).
    apply runs_bind, runs_modify, runs_bind. unfold lift, runs at 1. rewrite Hd. cbn [fst snd].
    apply runs_bind. eapply runs_mono; [apply apply_health_step|].
    intros [[]|e] w2 [H2 Hr2]; pose proof (step_trans _ _ _ _ _ _ (step_count (eq id) w1) H2) as H12.
    2: { apply Hone; [done|]. by apply forced_raises. }
    assert (runs (mret (GaveUp (kind_of text) seq)) w2
      (λ r w', ∃ xs, primary_tried id (S n) prev seq w w' r xs)) as Hgive
      by (apply runs_ret, Hone; eauto).
    destruct (_ || _ || _) eqn:Hstop; [done|].
    rewrite !orb_false_iff, negb_false_iff, Z.leb_gt in Hstop. destruct Hstop as [[Hsame Hleft] ->].
    apply runs_bind, runs_gets.
    destruct (_ && negb (_run_deadline_allows_wait _ _ _)); [done|].
    apply runs_bind.
    assert (∀ w3, step_to (eq id) w1 w3 [] →
      runs (try_primary id n (retry + 1) (seq + 1) (kind_of text)) w3
        (λ r w', ∃ xs, primary_tried id (S n) prev seq w w' r xs)) as Hgo.
    { intros w3 H3. eapply runs_mono; [apply (IH _ (Some (this id "single" seq (Some (ProviderErr text ra false)))))|].
      - lia.
      - lia.
      - lia.
      - intros o. exists (ProviderErr text ra false). split; [done|]. split; [done|]. left.
        repeat split; try done. exists text, ra, d. repeat split; try done. simpl. lia.
      - intros r w4 [xs [Hx1 Hx2 Hx3 Hx4 Hx5]].
        exists (this id "single" seq (Some (ProviderErr text ra false)) :: xs). split.
        + exact (step_trans _ _ _ _ _ _ Hs (step_trans _ _ _ _ _ _ H3 Hx1)).
        + simpl. auto.
        + by constructor.
        + simpl. lia.
        + destruct r as [[t|kind s2]|e]; [| |done].
          * destruct Hx5 as [(x & Hx & ?) ?]. split; [|done]. exists x. by rewrite last_cons, Hx.
          * destruct Hx5 as (-> & p & e & Hp & ?). cbn [length]. split; [lia|]. exists p, e.
            by rewrite last_cons, Hp. }
    destruct (_ =? 0)%Z; [by apply runs_ret, Hgo|]. apply runs_perform.
    + apply Hgo. exact (step_trans _ _ _ _ _ _ H12 (step_logged (eq id) (Sleep _) None w2)).
    + intros e. apply Hone.
      * exact (step_trans _ _ _ _ _ _ H12 (step_logged (eq id) (Sleep _) (Some e) w2)).
      * right. right. eexists. apply last_snoc.
Qed.

(** What the tries of the fallbacks leave behind. *)
Record fallbacks_tried (ids : list string) (prev : option Try) (seq : Z) (w w' : world)
    (r : result Turn) (xs : list Try) : Prop := {
  ft_step : step_to (λ j, j ∈ ids) w w' xs;
  ft_chained : chained prev seq xs;
  ft_all : Forall (λ x, t_role x = "fallback") xs;
  ft_ids : map t_id xs `prefix_of` ids;
  ft_end : match r with
    | Ok t => (∃ x, last xs = Some x ∧ t_end x = None) ∧ closed "succeeded" w'
    | Err e => raises_well e w'
    end }.

Lemma try_fallbacks_ok ids prev seq w :
  (ids ≠ [] → ∀ id o, may_follow prev (this id "fallback" seq o)) →
  runs (try_fallbacks ids seq) w (λ r w', ∃ xs, fallbacks_tried ids prev seq w w' r xs).
Proof.
  revert prev seq w. induction ids as [|id ids IH]; intros prev seq w Hprev; cbn [try_fallbacks].
  { apply runs_bind. eapply runs_mono; [apply transition_step|]. intros r w1 [Hs Hr].
    destruct r as [[]|e]; [apply runs_raise|]; exists []; split; simpl; try done.
    - left. auto.
    - by apply forced_raises. }
  apply runs_catch. eapply runs_mono; [apply attempt_ok|]. intros [t|e] w1 (o & Hs & Hr).
  all: assert (∀ w2 r2, step_to (eq id) w1 w2 [] →
    match r2 with Ok t => o = None ∧ closed "succeeded" w2 | Err e => raises_well e w2 end →
    ∃ xs, fallbacks_tried (id :: ids) prev seq w w2 r2 xs) as Hone.
  1, 3: specialize (Hprev ltac:(done)); intros w2 r2 H2 Hr2;
    exists [this id "fallback" seq o]; split; simpl; auto;
    [ eapply step_weaken; [exact (step_trans _ _ _ _ _ _ Hs H2)|intros j <-; left]
    | apply prefix_cons, prefix_nil
    | destruct r2; [destruct Hr2; eauto|done] ].
  { apply Hone; [apply step_refl|done]. }
  assert (forced e → ∃ xs, fallbacks_tried (id :: ids) prev seq w w1 (Err e) xs) as Hforced
    by (intros ?; apply Hone; [apply step_refl|by apply forced_raises]).
  destruct (decide (o = Some e)) as [->|Ho]; [|destruct Hr as [?|[-> Hf]]; [done|]].
  2: { specialize (Hforced Hf). by destruct Hf as [->|[code ->]]. }
  assert (∀ kind ra, survivable e = true →
    runs (_record_provider_failure id kind ra;; try_fallbacks ids (seq + 1)) w1
      (λ r w', ∃ xs, fallbacks_tried (id :: ids) prev seq w w' r xs)) as Hover.
  { intros kind ra Hsv. apply runs_bind. eapply runs_mono; [apply record_step|].
    intros r w2 [H2 Hr2]. destruct r as [[]|e2]; [|apply Hone; [done|by apply forced_raises]].
    eapply runs_mono; [apply (IH (Some (this id "fallback" seq (Some e))))|].
    { intros _ id' o. exists e. split; [done|]. split; [done|]. right. by split. }
    intros r w3 [xs [Hx1 Hx2 Hx3 Hx4 Hx5]]. exists (this id "fallback" seq (Some e) :: xs). split.
    - eapply (step_trans _ _ _ _ [_]); [|eapply step_weaken; [exact Hx1|by right]].
      eapply step_weaken; [exact (step_trans _ _ _ _ _ _ Hs H2)|intros j <-; left].
    - simpl. auto.
    - by constructor.
    - by apply prefix_cons.
    - destruct r as [t|]; [|done]. destruct Hx5 as [(x & Hx & ?) ?]. split; [|done]. exists x.
      by rewrite last_cons, Hx. }
  destruct e as [| | | | | | | | | | | |code| | |text ra visible]; try (by apply Hover); cbv beta iota.
  - apply runs_raise, Hforced. right. eauto.
  - apply runs_bind. eapply runs_mono; [apply transition_step|]. intros [[]|e] w2 [H2 Hr2].
    + apply runs_raise, Hone; [done|]. by left.
    + apply Hone; [done|]. by apply forced_raises.
  - apply runs_raise, Hforced. by left.
Qed.

End Execution.

(** ** Which fallbacks there are *)

Lemma dict_del_perm {V} (d : list (string * V)) k v :
  dict_get d k = Some v → k :: dict_keys (dict_del d k) ≡ₚ dict_keys d.
Proof.
  induction d as [|[k' v'] d IH]; simpl; [done|]. destruct (bool_decide_reflect (k' = k)) as [->|Hk].
  - done.
  - intros H. unfold dict_keys in *. cbn. rewrite <-(IH H). constructor.
Qed.

Definition keyed (d : list (string * Candidate)) : Prop := Forall (λ kc, kc.1 = candidate_id kc.2) d.

Lemma dict_del_keyed d k : keyed d → keyed (dict_del d k).
Proof.
  unfold keyed. induction 1 as [|[k' c] d Hk Hd IH]; simpl; [constructor|].
  destruct (bool_decide _); [done|]. by constructor.
Qed.

Lemma pop_all_ok d ids cs rest : keyed d → pop_all d ids = (cs, rest) →
  keyed rest ∧ map candidate_id cs ++ dict_keys rest ≡ₚ dict_keys d ∧
  (NoDup (dict_keys d) → ∀ id, id ∈ ids → id ∉ dict_keys rest).
Proof.
  revert d cs rest. induction ids as [|id ids IH]; intros d cs rest Hd; simpl.
  { intros [= <- <-]. split; [done|]. split; [done|]. intros _ id. by rewrite elem_of_nil. }
  destruct (dict_get d id) as [c|] eqn:Hc.
  - destruct (pop_all _ ids) as [cs' rest'] eqn:Hp. intros [= <- <-].
    apply IH in Hp as (H1 & H2 & H3); [|by apply dict_del_keyed]. split; [done|].
    assert (candidate_id c = id) as Hid.
    { unfold keyed in Hd. rewrite Forall_forall in Hd. symmetry.
      exact (Hd _ (dict_get_some_elem _ _ _ Hc)). }
    split; [simpl; rewrite H2, Hid; by eapply dict_del_perm|].
    intros Hnd j Hj. specialize (H3 (dict_del_nodup _ _ Hnd)).
    apply elem_of_cons in Hj as [->|Hj]; [|by apply H3]. intros Hr.
    assert (id ∈ dict_keys (dict_del d id)) as Hin by (rewrite <-H2; apply elem_of_app; by right).
    apply (dict_get_is_some (dict_del d id)) in Hin. rewrite dict_get_del, bool_decide_true in Hin by done.
    by destruct Hin.
  - intros Hp. apply IH in Hp as (H1 & H2 & H3); [|done]. split; [done|]. split; [done|].
    intros Hnd j Hj. apply elem_of_cons in Hj as [->|Hj]; [|by apply H3]. intros Hr.
    assert (id ∈ dict_keys d) as Hin by (rewrite <-H2; apply elem_of_app; by right).
    apply (dict_get_is_some d) in Hin. rewrite Hc in Hin. by destruct Hin.
Qed.

Lemma keyed_dict_of cs : keyed (dict_of (map (λ c, (candidate_id c, c)) cs)).
Proof.
  unfold dict_of. assert (keyed []) as Hnil by constructor. revert Hnil.
  generalize ([] : list (string * Candidate)).
  induction cs as [|c cs IH]; intros d Hd; simpl; [done|]. apply IH. clear IH.
  unfold keyed in *. induction Hd as [|[k' v'] d Hk Hd IH]; simpl; [by repeat constructor|].
  destruct (bool_decide_reflect (k' = candidate_id c)); constructor; done.
Qed.

Section Fallbacks.
Context (self : Router) (h : health_map) (now : Z) (ranked : list (decimal * Candidate))
        (primary : Candidate).

Lemma fallback_ids_perm kind :
  kind ≠ Some ProviderFailureKind.BAD_REQUEST → kind ≠ Some ProviderFailureKind.POLICY_REFUSAL →
  map candidate_id (_fallback_candidates self h now ranked primary kind []) ≡ₚ
  dict_keys (dict_of (map (λ c, (candidate_id c, c))
    (List.filter (fallback_allowed h now primary kind []) (map snd ranked)))).
Proof.
  intros H1 H2. unfold _fallback_candidates. rewrite bool_decide_false by naive_solver.
  set (by_id := dict_of _).
  destruct (pop_all by_id (r_fallback_order self)) as [cs rest] eqn:Hp.
  destruct (pop_all rest (map (λ sc, candidate_id sc.2) ranked)) as [cs' rest'] eqn:Hp'.
  apply pop_all_ok in Hp as (Hk & Hperm & _); [|apply keyed_dict_of].
  assert (NoDup (dict_keys rest)) as Hnd.
  { pose proof (dict_of_nodup (map (λ c, (candidate_id c, c))
      (List.filter (fallback_allowed h now primary kind []) (map snd ranked)))) as Hnd.
    fold by_id in Hnd. rewrite <-Hperm in Hnd. by apply NoDup_app in Hnd as (_ & _ & ?). }
  apply pop_all_ok in Hp' as (_ & Hperm' & Hout); [|done]. specialize (Hout Hnd).
  assert (dict_keys rest' = []) as Hrest.
  { destruct (dict_keys rest') as [|k ks] eqn:Hks; [done|]. exfalso.
    assert (k ∈ dict_keys by_id) as Hin.
    { rewrite <-Hperm, <-Hperm'. apply elem_of_app. right. apply elem_of_app. right. left. }
    apply (dict_of_keys (map (λ c, (candidate_id c, c)) _)) in Hin.
    apply list_elem_of_fmap in Hin as ([k' c] & -> & Hin).
    apply list_elem_of_In, in_map_iff in Hin as (c' & [= <- <-] & Hc).
    apply List.filter_In in Hc as [Hc _]. apply in_map_iff in Hc as (sc & <- & Hsc).
    apply (Hout (candidate_id sc.2)); [|left].
    apply list_elem_of_In, in_map_iff. eauto. }
  rewrite Hrest, app_nil_r in Hperm'. simpl. by rewrite map_app, Hperm', Hperm.
Qed.

Lemma fallback_ids_nodup kind :
  NoDup (map candidate_id (_fallback_candidates self h now ranked primary kind [])).
Proof.
  destruct (decide (kind = Some ProviderFailureKind.BAD_REQUEST)) as [->|H1]; [constructor|].
  destruct (decide (kind = Some ProviderFailureKind.POLICY_REFUSAL)) as [->|H2]; [constructor|].
  rewrite fallback_ids_perm by done. apply dict_of_nodup.
Qed.

Lemma fallback_ids_elem kind id :
  id ∈ map candidate_id (_fallback_candidates self h now ranked primary kind []) →
  (∀ k, kind = Some k → k ∉ [ProviderFailureKind.BAD_REQUEST; ProviderFailureKind.POLICY_REFUSAL]) ∧
  ∃ sc, sc ∈ ranked ∧ fallback_allowed h now primary kind [] sc.2 = true ∧ candidate_id sc.2 = id.
Proof.
  destruct (decide (kind = Some ProviderFailureKind.BAD_REQUEST)) as [->|H1];
    [by intros ?%elem_of_nil|].
  destruct (decide (kind = Some ProviderFailureKind.POLICY_REFUSAL)) as [->|H2];
    [by intros ?%elem_of_nil|].
  rewrite fallback_ids_perm by done. intros Hin. split.
  { intros k -> Hk. elem_cases Hk; subst; naive_solver. }
  apply (dict_of_keys (map (λ c, (candidate_id c, c)) _)) in Hin.
  apply list_elem_of_fmap in Hin as ([k' c] & -> & Hin).
  apply list_elem_of_In, in_map_iff in Hin as (c' & [= <- <-] & Hc).
  apply List.filter_In in Hc as [Hc Hall]. apply in_map_iff in Hc as (sc & <- & Hsc).
  exists sc. split; [by apply list_elem_of_In|]. auto.
Qed.

Lemma fallback_ids_intro sc :
  sc ∈ ranked → fallback_allowed h now primary None [] sc.2 = true →
  candidate_id sc.2 ∈ map candidate_id (_fallback_candidates self h now ranked primary None []).
Proof.
  intros Hsc Hall. rewrite fallback_ids_perm by done.
  apply (dict_of_keys (map (λ c, (candidate_id c, c)) _)).
  apply list_elem_of_fmap. exists (candidate_id sc.2, sc.2). split; [done|].
  apply list_elem_of_In, in_map_iff. exists sc.2. split; [done|]. apply List.filter_In.
  split; [|done]. apply in_map_iff. exists sc. split; [done|]. by apply list_elem_of_In.
Qed.
End Fallbacks.

(** Later failures only take fallbacks away, as long as none of the others was benched when
    the turn started. *)
Lemma fallback_ids_shrink self h h' now now' ranked primary kind id :
  (∀ sc, sc ∈ ranked → is_eligible (health_of h (candidate_id sc.2)) now = true) →
  id ∈ map candidate_id (_fallback_candidates self h' now' ranked primary kind []) →
  id ∈ map candidate_id (_fallback_candidates self h now ranked primary None []).
Proof.
  intros Hel (_ & sc & Hsc & Hall & <-)%fallback_ids_elem. apply fallback_ids_intro; [done|].
  unfold fallback_allowed in *. rewrite (Hel _ Hsc).
  destruct (_ || negb (is_eligible (health_of h' _) _)) eqn:Hg; [done|].
  rewrite !orb_false_iff in Hg. destruct Hg as [[[Ha Hb] Hc] _]. by rewrite Ha, Hb, Hc.
Qed.

Lemma is_eligible_later h now now' :
  (now ≤ now')%Z → is_eligible h now = true → is_eligible h now' = true.
Proof.
  intros Hle. unfold is_eligible. rewrite !andb_true_iff. intros [-> Hb]. split; [done|].
  destruct (benched_until h); [|done]. apply Z.leb_le in Hb. apply Z.leb_le. lia.
Qed.

(** ** The whole turn *)

Section Turn.
Context {Turn : Type}.
Context (executes : list event → action → result Turn).
Context (answers : list event → action → option exn).
Context (clock : list event → Z).
Context (self : Router).

(** A turn, with what was read before its choice: the instant [now], the run's override,
    the classification and the calibrations.  An ensemble's lineup is handed on. *)
(* [sidecar/ibreeze/runtime/transport.py:1394-1431 RoutedModelTransport.complete] *)
Definition complete (context : RoutingContext) (now : Z) (rollout : RoutingRolloutConfig)
    (override : option string) (decision : TierDecision) (calibrations : list (string * decimal))
    : tx world (Turn + choice) :=
  chosen ← gets (λ w, choose self context (healths w) now rollout override decision calibrations);
  chosen ← lift chosen;
  match chosen with
  | Single primary ranked_fallback _ _ =>
      turn ← run_single executes answers clock self primary ranked_fallback; mret (inl turn)
  | Ensemble _ _ _ => mret (inr chosen)
  end.

Definition selections (primary : string) (fallbacks : list string) : list (string * string) :=
  (primary, "single") :: map (λ id, (id, "fallback")) fallbacks.

(** What a turn on [primary] does, from [w] to [w'], when it registered these
    [fallbacks]. *)
Record single_turn (primary : string) (fallbacks : list string) (w w' : world) (r : result Turn)
    (evs : list event) : Prop := {
  sg_log : log w' = log w ++ evs;
  sg_chained : chained None 1 (tries_in evs);
  sg_registered x : x ∈ tries_in evs → (t_id x, t_role x) ∈ selections primary fallbacks;
  sg_once : NoDup (map t_id (List.filter (λ x, t_role x =? "fallback") (tries_in evs)));
  sg_bounded : (length (tries_in evs) ≤ MAX_TRIES + length fallbacks)%nat;
  sg_authorized : r_snapshot self = true → tries_in evs ≠ [] → ∃ pre post, evs = pre ++ post ∧
    tries_in pre = [] ∧ (Register (selections primary fallbacks), None) ∈ pre;
  sg_health j : j ∉ primary :: fallbacks → health_of (healths w') j = health_of (healths w) j;
  sg_end : match r with
    | Ok _ => (∃ x, last (tries_in evs) = Some x ∧ t_end x = None) ∧ closed self "succeeded" w'
    | Err e => raises_well self e w'
    end }.

Lemma prepare_ok sel w :
  runs (_prepare_decision answers self sel) w (λ r w', step_to (λ _, False) w w' [] ∧
    match r with
    | Ok _ => r_snapshot self = true → ∃ evs, log w' = log w ++ evs ∧ (Register sel, None) ∈ evs
    | Err e => raises_well self e w'
    end).
Proof.
  unfold _prepare_decision. apply runs_bind.
  eapply runs_mono; [by apply (audit_step answers (λ _, False))|].
  intros [[]|e] w1 [H1 Hr1]; [|split; [done|by apply forced_raises]].
  apply runs_bind.
  assert (∀ w2, step_to (λ _, False) w1 w2 [] →
    (r_snapshot self = true → ∃ evs, log w2 = log w ++ evs ∧ (Register sel, None) ∈ evs) →
    runs (_transition_decision answers self "planned" "executing") w2 (λ r w',
      step_to (λ _, False) w w' [] ∧
      match r with
      | Ok _ => r_snapshot self = true → ∃ evs, log w' = log w ++ evs ∧ (Register sel, None) ∈ evs
      | Err e => raises_well self e w'
      end)) as Hlast.
  { intros w2 H2 Hreg. eapply runs_mono; [by apply (audit_step answers (λ _, False))|].
    intros r w3 [H3 Hr3].
    pose proof (step_trans _ _ _ _ _ _ (step_trans _ _ _ _ _ _ H1 H2) H3) as Hall.
    split; [done|]. destruct r as [[]|e]; [|by apply forced_raises].
    intros Hs. destruct (Hreg Hs) as (evs & Hl & Hin), H3 as [(evs' & Hl' & _) _].
    exists (evs ++ evs'). rewrite Hl', Hl, (assoc app). split; [done|]. apply elem_of_app. by left. }
  destruct (r_snapshot self) eqn:Hs; [|by apply runs_ret, Hlast; [apply step_refl|]].
  apply runs_perform.
  - apply Hlast; [apply (step_logged _ (Register sel) None)|]. intros _.
    destruct H1 as [(evs & Hl & _) _]. exists (evs ++ [(Register sel, None)]). simpl.
    rewrite Hl, (assoc app). split; [done|]. apply elem_of_app. right. left.
  - intros e. split.
    + exact (step_trans _ _ _ _ _ _ H1 (step_logged _ (Register sel) (Some e) _)).
    + right. left. eexists. apply last_snoc.
Qed.

Lemma tries_app l l' : tries_in (l ++ l') = tries_in l ++ tries_in l'.
Proof. unfold tries_in. apply omap_app. Qed.

(** The tries, from a world where the turn has been registered. *)
Record tries_ok (primary : string) (fallbacks : list string) (w w' : world) (r : result Turn)
    (xs : list Try) : Prop := {
  to_step : step_to (λ j, j ∈ primary :: fallbacks) w w' xs;
  to_chained : chained None 1 xs;
  to_registered x : x ∈ xs → (t_id x, t_role x) ∈ selections primary fallbacks;
  to_once : NoDup (map t_id (List.filter (λ x, t_role x =? "fallback") xs));
  to_bounded : (length xs ≤ MAX_TRIES + length fallbacks)%nat;
  to_end : match r with
    | Ok _ => (∃ x, last xs = Some x ∧ t_end x = None) ∧ closed self "succeeded" w'
    | Err e => raises_well self e w'
    end }.

Lemma selections_elem primary fallbacks id role : (id, role) ∈ selections primary fallbacks ↔
  id = primary ∧ role = "single" ∨ id ∈ fallbacks ∧ role = "fallback".
Proof.
  unfold selections. rewrite elem_of_cons. split.
  - intros [[= -> ->]|Hin]; [by left|right]. apply list_elem_of_In, in_map_iff in Hin as (x & [= -> <-] & ?).
    split; [by apply list_elem_of_In|done].
  - intros [[-> ->]|[Hin ->]]; [by left|right]. apply list_elem_of_In, in_map_iff. exists id.
    split; [done|by apply list_elem_of_In].
Qed.

(** The tries of the primary [xs], and then those of the fallbacks [ys]. *)
Lemma tries_join primary ids fallbacks xs ys :
  Forall (λ x, t_id x = primary ∧ t_role x = "single") xs →
  Forall (λ x, t_role x = "fallback") ys → map t_id ys `prefix_of` ids → NoDup ids → ids ⊆ fallbacks →
  (length xs ≤ MAX_TRIES)%nat →
  (∀ x, x ∈ xs ++ ys → (t_id x, t_role x) ∈ selections primary fallbacks) ∧
  NoDup (map t_id (List.filter (λ x, t_role x =? "fallback") (xs ++ ys))) ∧
  (length (xs ++ ys) ≤ MAX_TRIES + length fallbacks)%nat.
Proof.
  intros Hxs Hys Hpre Hnd Hsub Hlen. assert (map t_id ys ⊆ ids) as Hin.
  { intros id Hid. destruct Hpre as [l ->]. apply elem_of_app. by left. }
  assert (NoDup (map t_id ys)) as Hnd'.
  { destruct Hpre as [l Hl]. rewrite Hl in Hnd. by apply NoDup_app in Hnd as [? _]. }
  rewrite Forall_forall in Hxs. split; [|split].
  - intros x [Hx|Hx]%elem_of_app; apply selections_elem.
    + left. by apply Hxs.
    + right. split; [|by apply (Forall_forall (λ x, t_role x = "fallback") ys)].
      apply Hsub, Hin, list_elem_of_In, in_map_iff. exists x. split; [done|]. by apply list_elem_of_In.
  - rewrite List.filter_app, (filter_none _ xs), (filter_all _ ys); [done| |].
    + eapply Forall_impl; [exact Hys|]. by intros x ->.
    + apply Forall_forall. by intros x [_ ->]%Hxs.
  - rewrite length_app. enough (length ys ≤ length fallbacks)%nat by lia.
    rewrite <-(length_map t_id). apply submseteq_length, NoDup_submseteq; [done|].
    intros id Hid. auto.
Qed.

Lemma run_tries_ok primary ranked fallbacks w :
  (∀ h now kind, map candidate_id (_fallback_candidates self h now ranked primary kind []) ⊆ fallbacks) →
  runs (run_tries executes answers clock self primary ranked) w
    (λ r w', ∃ xs, tries_ok (candidate_id primary) fallbacks w w' r xs).
Proof.
  intros Hfs. unfold run_tries. apply runs_bind.
  eapply runs_mono; [by apply (try_primary_ok executes answers clock self _ MAX_TRIES _ None)|].
  intros r w1 [xs [Hs Hchain Hall Hlen Hend]].
  assert (∀ j, candidate_id primary = j → j ∈ candidate_id primary :: fallbacks) as Hhd
    by (intros j <-; left).
  assert (∀ r', match r' with
    | Ok _ => (∃ x, last xs = Some x ∧ t_end x = None) ∧ closed self "succeeded" w1
    | Err e => raises_well self e w1 end →
    ∃ xs, tries_ok (candidate_id primary) fallbacks w w1 r' xs) as Hstop.
  { intros r' Hr'. exists xs.
    destruct (tries_join (candidate_id primary) [] fallbacks xs []) as (H1 & H2 & H3); try done.
    { constructor. } { apply list_subseteq_nil. }
    rewrite app_nil_r in H1, H2, H3. split; try done. by eapply step_weaken. }
  destruct r as [[t|kind seq]|e]; [by apply runs_ret, Hstop| |by apply Hstop].
  destruct Hend as (-> & p & e & Hp & He & Hsv & Hk).
  apply runs_bind, runs_gets, runs_bind, runs_gets.
  set (ids := map candidate_id _).
  assert (NoDup ids) as Hnd by apply fallback_ids_nodup.
  eapply runs_mono; [apply (try_fallbacks_ok executes answers clock self ids (Some p))|].
  - intros Hids id o. exists e. repeat split; try done. right. split; [done|]. intros _. rewrite Hk.
    destruct ids as [|id' ids'] eqn:Hids'; [done|].
    destruct (fallback_ids_elem self (healths w1) (clock (log w1)) ranked primary (Some kind) id')
      as [Hkind _]; [fold ids; rewrite Hids'; left|auto].
  - intros r w2 [ys [Hs2 Hchain2 Hall2 Hids Hend2]]. exists (xs ++ ys).
    destruct (tries_join (candidate_id primary) ids fallbacks xs ys) as (H1 & H2 & H3); try done.
    { apply Hfs. }
    split; try done.
    + eapply step_trans; [by eapply step_weaken|]. eapply step_weaken; [done|].
      intros j Hj. right. by apply (Hfs _ _ _ j Hj).
    + apply chained_app. split; [done|]. unfold last_or. rewrite Hp.
      by replace (1 + Z.of_nat (length xs) - 1 + 1)%Z with (1 + Z.of_nat (length xs))%Z in Hchain2 by lia.
    + destruct r as [t|]; [|done]. destruct Hend2 as [(x & Hx & ?) ?]. split; [|done]. exists x.
      by rewrite last_app, Hx.
Qed.

Lemma single_turn_ok primary ranked w :
  (∀ sc, sc ∈ ranked → is_eligible (health_of (healths w) (candidate_id sc.2)) (clock (log w)) = true) →
  runs (run_single executes answers clock self primary ranked) w (λ r w', ∃ fallbacks evs,
    single_turn (candidate_id primary) fallbacks w w' r evs ∧
    NoDup fallbacks ∧ fallbacks ⊆ map (λ sc, candidate_id sc.2) ranked).
Proof.
  intros Hel. unfold run_single. apply runs_bind, runs_gets, runs_bind, runs_gets.
  set (fs := _fallback_candidates _ _ _ _ _ None []).
  replace (map (λ c, (candidate_id c, "fallback")) fs)
    with (map (λ id, (id, "fallback")) (map candidate_id fs)) by (by rewrite map_map).
  fold (selections (candidate_id primary) (map candidate_id fs)).
  assert (∀ w' r evs, single_turn (candidate_id primary) (map candidate_id fs) w w' r evs →
    ∃ fallbacks evs, single_turn (candidate_id primary) fallbacks w w' r evs ∧
      NoDup fallbacks ∧ fallbacks ⊆ map (λ sc, candidate_id sc.2) ranked) as Hdone.
  { intros w' r evs H. exists (map candidate_id fs), evs. split; [done|].
    split; [apply fallback_ids_nodup|]. intros id (_ & sc & Hsc & _ & <-)%fallback_ids_elem.
    apply list_elem_of_In, in_map_iff. exists sc. split; [done|]. by apply list_elem_of_In. }
  apply runs_bind. eapply runs_mono; [apply prepare_ok|]. intros r w1 [[(e0 & Hl0 & Ht0) Hh0] Hr].
  destruct r as [[]|e].
  2: { apply (Hdone _ _ e0). split; try done; try (by rewrite Ht0); rewrite ?Ht0.
    - by intros x ?%elem_of_nil.
    - constructor.
    - simpl. lia.
    - intros j _. auto. }
  eapply runs_mono; [apply (run_tries_ok _ _ (map candidate_id fs))|].
  { intros h now kind id. by apply fallback_ids_shrink. }
  intros r w2 [xs [[(e1 & Hl1 & Ht1) Hh1] H1 H2 H3 H4 H5]]. apply (Hdone _ _ (e0 ++ e1)).
  assert (tries_in (e0 ++ e1) = xs) as Ht by (by rewrite tries_app, Ht0, Ht1).
  split; try done; rewrite ?Ht; try done.
  - by rewrite Hl1, Hl0, (assoc app).
  - intros Hs _. destruct (Hr Hs) as (e0' & Hl0' & Hin). rewrite Hl0 in Hl0'.
    apply (inj _) in Hl0' as <-. exists e0, e1. auto.
  - intros j Hj. rewrite Hh1 by done. auto.
Qed.

End Turn.

(** ** What the choice guarantees *)

Section Choices.
Context (self : Router) (context : RoutingContext) (health : health_map) (now : Z).

(** [c] is a candidate of the router that passed the gate, with its calibrated quality. *)
Definition routable (mode tier : string) (n : Z) (c : Candidate) : Prop :=
  ∃ c0 q, c0 ∈ r_candidates self ∧ c = with_quality q c0 ∧ passes self context health now mode tier n c0 = true.

Lemma eligible_of_ok mode tier calibrations l :
  eligible_of self context health now mode tier calibrations = Ok l →
  ∃ n, tier_number tier = Ok n ∧ ∀ sc, sc ∈ l → routable mode tier n sc.2.
Proof.
  unfold eligible_of. destruct (tier_number tier) as [n|]; [|done]. cbn [mbind result_bind].
  intros Hl%each_ok. exists n. split; [done|]. intros [s c] Hin.
  assert (∃ c0, c0 ∈ List.filter (passes self context health now mode tier n) (r_candidates self) ∧
    ∃ q, c = with_quality q c0) as (c0 & Hc0 & q & ->).
  { clear -Hl Hin. induction Hl as [|c0 y cs ys Hy _ IH]; [by apply elem_of_nil in Hin|].
    apply elem_of_cons in Hin as [<-|Hin].
    - exists c0. split; [left|]. apply result_bind_ok in Hy as (s' & _ & [= <- <-]). eauto.
    - destruct (IH Hin) as (c1 & ? & ?). exists c1. split; [by right|done]. }
  apply list_elem_of_In, List.filter_In in Hc0 as [Hc0 Hp].
  exists c0, q. split; [by apply list_elem_of_In|done].
Qed.

Lemma ranked_for_elem role l sc : sc ∈ ranked_for role l ↔ sc ∈ l ∧ role ∈ eligible_roles sc.2.
Proof.
  unfold ranked_for, sort_key. rewrite elem_of_sort_by, list_elem_of_In, List.filter_In, <-list_elem_of_In.
  unfold mem. by rewrite bool_decide_eq_true.
Qed.

Lemma ordered_first_ok ranked sc : ordered_first self ranked = Some sc →
  sc ∈ ranked ∧ candidate_id sc.2 ∈ r_fallback_order self.
Proof.
  unfold ordered_first. induction (r_fallback_order self) as [|id order IH]; simpl; [done|].
  destruct (List.find _ ranked) as [sc'|] eqn:Hf.
  - intros [= ->]. apply find_some in Hf as [Hin Heq]. split; [by apply list_elem_of_In|].
    apply String.eqb_eq in Heq as ->. left.
  - intros [? ?]%IH. split; [done|by right].
Qed.

(** The stand-in of [ranked_or_stand_in] for an absent single candidate is the anchor only
    if the anchor is itself a single candidate: never. *)
Lemma ranked_or_stand_in_ok mode eligible ranked b fallbacks :
  ranked_or_stand_in self mode eligible (ranked_for "single" eligible) fallbacks = Ok (ranked, b) →
  b = false ∧ (ranked = ranked_for "single" eligible ∧ ranked ≠ [] ∨
    ranked_for "single" eligible = [] ∧ mode = value RoutingMode.FIXED ∧
    ∃ sc, ranked = [sc] ∧ ordered_first self fallbacks = Some sc).
Proof.
  unfold ranked_or_stand_in. destruct (ranked_for "single" eligible) as [|x l] eqn:Hr.
  2: { intros [= <- <-]. split; [done|]. by left. }
  destruct (List.find _ eligible) as [anchor|] eqn:Hf.
  { apply find_some in Hf as [Hin Hanchor]. exfalso.
    assert (anchor ∈ ranked_for "single" eligible) as Hin'; [|by rewrite Hr in Hin'; apply elem_of_nil in Hin'].
    apply ranked_for_elem. split; [by apply list_elem_of_In|].
    apply andb_prop in Hanchor as [_ H]. unfold mem in H. by apply bool_decide_eq_true in H. }
  destruct (String.eqb_spec mode (value RoutingMode.FIXED)) as [->|]; [|done].
  destruct (ordered_first self fallbacks) as [sc|]; [|done]. intros [= <- <-]. split; [done|].
  right. eauto.
Qed.

Lemma ensemble_enabled_ok mode tier confidence override proposers aggregators :
  ensemble_enabled self context mode tier confidence override proposers aggregators = true →
  mode = value RoutingMode.SELECTIVE_ENSEMBLE ∧ aggregators ≠ [] ∧
  ∃ n, (n ≤ 4)%Z ∧ (2 ≤ length (select_proposer_candidates proposers n tier))%nat.
Proof.
  unfold ensemble_enabled. rewrite andb_true_iff. intros [->%String.eqb_eq H]. split; [done|].
  unfold should_ensemble in H. destruct (_ || _) eqn:Hg in H; [done|].
  apply orb_false_iff in Hg as [Ha Hp]. apply Z.ltb_ge in Hp.
  split; [by destruct aggregators|]. eexists. split; [|rewrite length_map in Hp; apply Nat2Z.inj_le, Hp]. lia.
Qed.

#[export] Instance ordering_routed_cmp : Ordering routed_cmp.
Proof. unfold routed_cmp. apply _. Qed.

(** Which deployment a single turn starts with. *)
Definition primary_ok (mode : string) (eligible : list (decimal * Candidate)) (c : Candidate) : Prop :=
  if mode =? value RoutingMode.FIXED then
    candidate_id c = r_anchor_candidate_id self ∧ "single" ∈ eligible_roles c ∨
    "fallback" ∈ eligible_roles c ∧ candidate_id c ∈ r_fallback_order self ∧
    ∀ sc, sc ∈ eligible → "single" ∈ eligible_roles sc.2 → candidate_id sc.2 ≠ r_anchor_candidate_id self
  else "single" ∈ eligible_roles c ∧
    ∃ s, ∀ sc, sc ∈ eligible → "single" ∈ eligible_roles sc.2 → routed_cmp (s, c) sc ≠ Gt.

Lemma primary_of_ok mode eligible ranked b c :
  ranked_or_stand_in self mode eligible (ranked_for "single" eligible) (ranked_for "fallback" eligible)
    = Ok (ranked, b) →
  primary_of self mode ranked (ranked_for "fallback" eligible) = Ok c →
  (∃ s, (s, c) ∈ eligible) ∧ primary_ok mode eligible c.
Proof.
  intros [_ Hr]%ranked_or_stand_in_ok. unfold primary_of, primary_ok.
  destruct (String.eqb_spec mode (value RoutingMode.FIXED)) as [->|Hm].
  - destruct (List.find _ ranked) as [[s anchor]|] eqn:Hf.
    + intros [= <-]. apply find_some in Hf as [Hin Hid%String.eqb_eq]. apply list_elem_of_In in Hin.
      destruct Hr as [[-> _]|(Hnil & _ & sc & -> & Ho)].
      * apply ranked_for_elem in Hin as [? ?]. split; [by exists s|]. by left.
      * apply list_elem_of_singleton in Hin as <-. apply ordered_first_ok in Ho as [[? ?]%ranked_for_elem ?].
        split; [by exists s|]. right. split; [done|]. split; [done|]. intros sc Hsc Hsingle.
        assert (sc ∈ ranked_for "single" eligible) as Hn by by apply ranked_for_elem.
        rewrite Hnil in Hn. by apply elem_of_nil in Hn.
    + intros Hc. destruct (ordered_first self _) as [[s c']|] eqn:Ho; [|done]. injection Hc as <-.
      apply ordered_first_ok in Ho as [[? ?]%ranked_for_elem ?]. split; [by exists s|].
      right. split; [done|]. split; [done|]. intros sc Hsc Hsingle Hanchor.
      assert (sc ∈ ranked_for "single" eligible) as Hn by by apply ranked_for_elem.
      destruct Hr as [[-> _]|(Hnil & _)]; [|by rewrite Hnil in Hn; apply elem_of_nil in Hn].
      apply list_elem_of_In in Hn. apply (find_none _ _ Hf) in Hn. by rewrite Hanchor, String.eqb_refl in Hn.
  - destruct Hr as [[-> _]|(_ & ? & _)]; [|done].
    destruct (head (ranked_for "single" eligible)) as [[s c']|] eqn:Hh; [|done]. intros [= <-].
    assert ((s, c') ∈ ranked_for "single" eligible) as [Hin Hrole]%ranked_for_elem
      by (by apply head_Some_elem_of).
    split; [by exists s|]. split; [done|]. exists s. intros sc Hsc Hsingle.
    apply (sort_key_head routed_cmp _ _ _ Hh). apply list_elem_of_In, List.filter_In.
    split; [by apply list_elem_of_In|]. unfold mem. by apply bool_decide_eq_true.
Qed.

(** What a choice is to be. *)
Definition choice_ok (mode tier : string) (n : Z) (eligible : list (decimal * Candidate)) (c : choice) : Prop :=
  match c with
  | Single primary ranked_fallback tier' router_fallback =>
      tier' = tier ∧ router_fallback = false ∧
      routable mode tier n primary ∧ primary_ok mode eligible primary ∧
      ∀ sc, sc ∈ ranked_fallback → routable mode tier n sc.2 ∧ "fallback" ∈ eligible_roles sc.2
  | Ensemble proposers aggregators tier' =>
      tier' = tier ∧ mode = value RoutingMode.SELECTIVE_ENSEMBLE ∧ aggregators ≠ [] ∧
      (∃ k, (k ≤ 4)%Z ∧ (2 ≤ length (select_proposer_candidates proposers k tier))%nat) ∧
      (∀ sc, sc ∈ proposers → routable mode tier n sc.2 ∧ "proposer" ∈ eligible_roles sc.2) ∧
      ∀ sc, sc ∈ aggregators → routable mode tier n sc.2 ∧ "aggregator" ∈ eligible_roles sc.2
  end.

Lemma choose_ok rollout override decision calibrations c :
  choose self context health now rollout override decision calibrations = Ok c →
  ∃ mode n eligible,
    effective_mode rollout (_mode_for_override self override) (r_input_origin self) = Ok mode ∧
    tier_number (_effective_route_tier mode (required_tier decision)) = Ok n ∧
    eligible_of self context health now mode (_effective_route_tier mode (required_tier decision)) calibrations
      = Ok eligible ∧
    choice_ok mode (_effective_route_tier mode (required_tier decision)) n eligible c.
Proof.
  unfold choose. intros H. apply result_bind_ok in H as (mode & Hmode & H).
  set (tier := _effective_route_tier mode _) in *.
  apply result_bind_ok in H as (eligible & Hel & H). cbv zeta in H.
  apply result_bind_ok in H as ([ranked b] & Hr & H).
  destruct (eligible_of_ok _ _ _ _ Hel) as (n & Hn & Hall).
  exists mode, n, eligible. split_and!; try done.
  assert (∀ role sc, sc ∈ ranked_for role eligible → routable mode tier n sc.2 ∧ role ∈ eligible_roles sc.2)
    as Hranked by (intros role sc [? ?]%ranked_for_elem; auto).
  destruct (ensemble_enabled _ _ _ _ _ _ _ _) eqn:He.
  - injection H as <-. apply ensemble_enabled_ok in He as (? & ? & ?). repeat (split; [done|]). auto.
  - apply result_bind_ok in H as (primary & Hp & [= <-]).
    destruct (ranked_or_stand_in_ok _ _ _ _ _ Hr) as [-> _].
    destruct (primary_of_ok _ _ _ _ _ Hr Hp) as [[s Hin] Hok].
    split; [done|]. split; [done|]. split; [exact (Hall _ Hin)|]. auto.
Qed.

(** The choice of a turn is sound.  Every deployment it names is one of the router's and
    passed the hard gate of this turn: healthy, enabled (but for the anchor of the fixed
    mode), of a sufficient tier, with the tools, vision, streaming and reasoning the turn
    needs and a context window that holds it.  A fixed turn starts with the anchor if the
    anchor can take it, and with a deployment that the fallback order names otherwise; any
    other single turn starts with the best-scored single deployment.  An ensemble is chosen
    only in the selective mode, with an aggregator and at least two proposers.  The
    router's own anchor fallback never happens. *)
Lemma choose_sound rollout override decision calibrations c :
  choose self context health now rollout override decision calibrations = Ok c →
  ∃ mode n eligible,
    effective_mode rollout (_mode_for_override self override) (r_input_origin self) = Ok mode ∧
    tier_number (_effective_route_tier mode (required_tier decision)) = Ok n ∧
    eligible_of self context health now mode (_effective_route_tier mode (required_tier decision)) calibrations
      = Ok eligible ∧
    choice_ok mode (_effective_route_tier mode (required_tier decision)) n eligible c.
Proof. apply choose_ok. Qed.

Lemma routable_eligible mode tier n c : routable mode tier n c →
  is_eligible (health_of health (candidate_id c)) now = true.
Proof.
  intros (c0 & q & _ & -> & Hp). unfold passes in Hp. rewrite !andb_true_iff in Hp. tauto.
Qed.
End Choices.

Section TurnSafe.
Context {Turn : Type} (executes : list event → action → result Turn).
Context (answers : list event → action → option exn) (clock : list event → Z) (self : Router).

End TurnSafe.

(** ** A concrete turn *)

Module TurnDemo.
Definition router : Router := {|
  r_candidates := EngineDemo.candidates; r_mode := "smart_single"; r_input_origin := "production";
  r_run_deadline_at := None; r_anchor_candidate_id := Demo.id "1"; r_fallback_order := [Demo.id "3"];
  r_max_proposers := 3; r_queue := true; r_company := true; r_snapshot := true |}.
Definition rollout : RoutingRolloutConfig := {| stage := "smart_single" |}.
Definition decision : TierDecision := classify EngineDemo.context.
(** Deployment 2 times out on every try, 3 is refused its key, 1 answers. *)
Definition executes (l : list event) (a : action) : result string :=
  match a with
  | Execute id _ _ =>
      if id =? Demo.id "2" then Err (ProviderErr "timeout" None false)
      else if id =? Demo.id "3" then Err (ProviderErr "auth_invalid" None false)
      else Ok "answer"
  | _ => Err (TypeErr "")
  end.
Definition answers (l : list event) (a : action) : option exn := None.
Definition clock (l : list event) : Z := Z.of_nat (length l).
Definition start : world := {| log := []; healths := []; provider_failures := 0 |}.
Definition turn : result (string + choice) * world :=
  complete executes answers clock router EngineDemo.context 0 rollout None decision [] start.
End TurnDemo.

Example demo_turn :
  TurnDemo.turn.1 = Ok (inl "answer") ∧
  map (λ x, (t_role x, t_seq x, bool_decide (t_end x = None))) (tries_in (log TurnDemo.turn.2)) =
    [("single", 1, false); ("single", 2, false); ("fallback", 3, false); ("fallback", 4, true)]%Z.
Proof. split; vm_compute; reflexivity. Qed.


Lemma choose_sound_witness :
  ∃ c n eligible, choose TurnDemo.router EngineDemo.context [] 0 TurnDemo.rollout None TurnDemo.decision []
      = Ok c ∧
    choice_ok TurnDemo.router EngineDemo.context [] 0 "smart_single" "C3" n eligible c.
Proof.
  destruct (choose TurnDemo.router EngineDemo.context [] 0 TurnDemo.rollout None TurnDemo.decision [])
    as [c|] eqn:Hc; [|by vm_compute in Hc].
  destruct (choose_sound TurnDemo.router EngineDemo.context [] 0 TurnDemo.rollout None TurnDemo.decision [] c Hc)
    as (mode & n & el & Hm & _ & _ & H). vm_compute in Hm. injection Hm as <-.
  exists c, n, el. split; [reflexivity|exact H].
Defined.
