(* ===== verification/OrgStore.v ===== *)
(** * The tables of the organisation

    Companies, departments, employees, their revisions and conversations with the columns
    and constraints of [001_initial.sql], beside what their services read of the tables of
    other components: the status of a company's runs, approvals, reviews and workspaces
    ([Activity]) and the assignments of an employee.

    The foreign keys of [companies] and [departments] are [DEFERRABLE INITIALLY DEFERRED]
    and [PRAGMA defer_foreign_keys] ([defer_fk]) defers the others: [refs_ok] is what an
    [INSERT] checks, [commit_ok] what the end of the transaction checks of every row. *)

From S2P Require Import Prelude PyStr Sql UnitOfWork Zoom.
From S2P Require TaskStore.

Module TS := TaskStore.

(** ** Rows *)

Record ProfileVersion := { pf_id : string; pf_status : string }.

Record Company := {
  co_id : string;
  co_normalized_name : string;
  co_current_revision_id : string;
  co_general_manager_office_id : string;
  co_general_manager_employee_id : string;
  co_company_conversation_id : string;
  co_status : string;
  co_created_at : string;
  co_updated_at : string;
  co_version : Z }.

Record CompanyRevision := {
  cr_id : string;
  cr_company_id : string;
  cr_revision_number : Z;
  cr_name : string;
  cr_introduction : string;
  cr_content_sha256 : string;
  cr_created_by_type : string;
  cr_created_at : string }.

Record Department := {
  dp_id : string;
  dp_company_id : string;
  dp_department_type : string;
  dp_normalized_name : string;
  dp_current_revision_id : string;
  dp_leader_employee_id : string;
  dp_department_conversation_id : string;
  dp_status : string;
  dp_created_at : string;
  dp_updated_at : string;
  dp_version : Z }.

Record DepartmentRevision := {
  dr_id : string;
  dr_department_id : string;
  dr_company_id : string;
  dr_revision_number : Z;
  dr_name : string;
  dr_function_description : string;
  dr_content_sha256 : string;
  dr_created_at : string }.

(** The six JSON columns, which [create_company] alone writes, always hold [[]]. *)
Record Responsibility := {
  rs_id : string;
  rs_department_id : string;
  rs_company_id : string;
  rs_responsibility_key : string;
  rs_name : string;
  rs_description : string;
  rs_created_at : string;
  rs_updated_at : string }.

Record Employee := {
  em_id : string;
  em_company_id : string;
  em_department_id : string;
  em_display_name : string;
  em_normalized_display_name : string;
  em_base_profile_version_id : string;
  em_workflow_role : string;
  em_status : string;
  em_created_at : string;
  em_updated_at : string;
  em_version : Z }.

Record Conversation := {
  cv_id : string;
  cv_company_id : string;
  cv_conversation_type : string;
  cv_department_id : option string;
  cv_status : string;
  cv_created_at : string }.

Record Message := {
  ms_id : string;
  ms_company_id : string;
  ms_conversation_id : string;
  ms_task_id : option string;
  ms_source_event_id : string;
  ms_sender_type : string;
  ms_sender_employee_id : option string;
  ms_message_type : string;
  ms_content : string;
  ms_artifact_refs_json : string;
  ms_created_at : string }.

(** What the services read of a row that belongs to another component. *)
Record Activity := { ac_company_id : string; ac_status : string }.
Record Assignment := { as_employee_id : string; as_status : string }.

Record Work := {
  agent_runs : list Activity;
  human_approvals : list Activity;
  review_assignments : list Activity;
  task_workspaces : list Activity;
  employee_tasks : list Assignment }.

Record DB := {
  defer_fk : bool;
  profile_versions : list ProfileVersion;
  companies : list Company;
  company_revisions : list CompanyRevision;
  departments : list Department;
  department_revisions : list DepartmentRevision;
  department_responsibilities : list Responsibility;
  employees : list Employee;
  conversations : list Conversation;
  messages : list Message;
  company_tasks : list TS.CompanyTask;
  work : Work;
  idem_rows : list IdemRow;
  event_rows : list EventRow;
  outbox_rows : list OutboxRow }.

(** [PRAGMA defer_foreign_keys = ...] *)
Definition set_defer (l : bool) (db : DB) : DB := {|
    defer_fk := l; profile_versions := profile_versions db; companies := companies db;
    company_revisions := company_revisions db; departments := departments db;
    department_revisions := department_revisions db;
    department_responsibilities := department_responsibilities db; employees := employees db;
    conversations := conversations db; messages := messages db; company_tasks := company_tasks db;
    work := work db; idem_rows := idem_rows db; event_rows := event_rows db;
    outbox_rows := outbox_rows db |}.

(** ** Constraints *)

(** The parents a row's foreign keys ask for. *)
Definition has_company (db : DB) (id : string) : bool := existsb (λ c, co_id c =? id) (companies db).
Definition has_revision (db : DB) (id company : string) : bool :=
  existsb (λ r, (cr_id r =? id) && (cr_company_id r =? company)) (company_revisions db).
Definition has_department (db : DB) (id company : string) : bool :=
  existsb (λ d, (dp_id d =? id) && (dp_company_id d =? company)) (departments db).
Definition has_department_revision (db : DB) (id department company : string) : bool :=
  existsb (λ r, (dr_id r =? id) && (dr_department_id r =? department) && (dr_company_id r =? company))
    (department_revisions db).
Definition has_employee (db : DB) (id company : string) : bool :=
  existsb (λ e, (em_id e =? id) && (em_company_id e =? company)) (employees db).
Definition has_conversation (db : DB) (id company : string) : bool :=
  existsb (λ v, (cv_id v =? id) && (cv_company_id v =? company)) (conversations db).
Definition has_profile (db : DB) (id : string) : bool :=
  existsb (λ p, pf_id p =? id) (profile_versions db).
Definition has_event (db : DB) (id : string) : bool :=
  existsb (λ e, event_id (ev_event e) =? id) (event_rows db).
Definition has_event_of (db : DB) (id company : string) : bool :=
  existsb (λ e, (event_id (ev_event e) =? id) && (company_id (ev_event e) =?o Some company)) (event_rows db).
Definition has_task (db : DB) (id company : string) : bool :=
  existsb (λ t, (TS.ct_id t =? id) && (TS.ct_company_id t =? company)) (company_tasks db).

(** [NULL] refers to nothing. *)
Definition null_or (p : string → bool) (o : option string) : bool :=
  match o with None => true | Some x => p x end.

Definition between (lo hi : Z) (s : string) : bool := (lo <=? py_len s)%Z && (py_len s <=? hi)%Z.

Ltac solve_lens := intros; repeat match goal with db : DB |- _ => destruct db end; reflexivity.

Definition company_fk (db : DB) (c : Company) : bool :=
  has_revision db (co_current_revision_id c) (co_id c) &&
  has_department db (co_general_manager_office_id c) (co_id c) &&
  has_employee db (co_general_manager_employee_id c) (co_id c) &&
  has_conversation db (co_company_conversation_id c) (co_id c).

#[export] Program Instance companies_table : Table DB Company := {|
  table_name := "companies"; rows := companies;
  set_rows l db := {|
    defer_fk := defer_fk db; profile_versions := profile_versions db; companies := l;
    company_revisions := company_revisions db; departments := departments db;
    department_revisions := department_revisions db;
    department_responsibilities := department_responsibilities db; employees := employees db;
    conversations := conversations db; messages := messages db; company_tasks := company_tasks db;
    work := work db; idem_rows := idem_rows db; event_rows := event_rows db;
    outbox_rows := outbox_rows db |};
  row_ok := λ c, (co_status c ∈? ["active"; "archived"]) && (1 <=? co_version c)%Z;
  clash a b := (co_id a =? co_id b) || (co_normalized_name a =? co_normalized_name b);
  refs_ok db r := true |}.
Solve All Obligations with solve_lens.

Definition company_revision_fk (db : DB) (r : CompanyRevision) : bool := has_company db (cr_company_id r).

#[export] Program Instance company_revisions_table : Table DB CompanyRevision := {|
  table_name := "company_revisions"; rows := company_revisions;
  set_rows l db := {|
    defer_fk := defer_fk db; profile_versions := profile_versions db; companies := companies db;
    company_revisions := l; departments := departments db;
    department_revisions := department_revisions db;
    department_responsibilities := department_responsibilities db; employees := employees db;
    conversations := conversations db; messages := messages db; company_tasks := company_tasks db;
    work := work db; idem_rows := idem_rows db; event_rows := event_rows db;
    outbox_rows := outbox_rows db |};
  row_ok := λ r, (1 <=? cr_revision_number r)%Z && between 1 100 (cr_name r) && between 1 20000 (cr_introduction r) &&
    (py_len (cr_content_sha256 r) =? 64)%Z && (cr_created_by_type r ∈? ["user"; "system"]);
  clash a b := (cr_id a =? cr_id b) ||
    ((cr_company_id a =? cr_company_id b) && (cr_revision_number a =? cr_revision_number b)%Z);
  refs_ok db r := defer_fk db || company_revision_fk db r |}.
Solve All Obligations with solve_lens.

Definition department_fk (db : DB) (d : Department) : bool :=
  has_department_revision db (dp_current_revision_id d) (dp_id d) (dp_company_id d) &&
  has_employee db (dp_leader_employee_id d) (dp_company_id d) &&
  has_conversation db (dp_department_conversation_id d) (dp_company_id d).

Definition GM_OFFICE : string := "general_manager_office".
Definition is_office (d : Department) : bool := dp_department_type d =? GM_OFFICE.

(** [uq_company_gm_office]: one general manager office per company. *)
#[export] Program Instance departments_table : Table DB Department := {|
  table_name := "departments"; rows := departments;
  set_rows l db := {|
    defer_fk := defer_fk db; profile_versions := profile_versions db; companies := companies db;
    company_revisions := company_revisions db; departments := l;
    department_revisions := department_revisions db;
    department_responsibilities := department_responsibilities db; employees := employees db;
    conversations := conversations db; messages := messages db; company_tasks := company_tasks db;
    work := work db; idem_rows := idem_rows db; event_rows := event_rows db;
    outbox_rows := outbox_rows db |};
  row_ok := λ d, (dp_department_type d ∈? [GM_OFFICE; "standard"]) && (dp_status d ∈? ["active"; "archived"]) &&
    (1 <=? dp_version d)%Z;
  clash a b := (dp_id a =? dp_id b) ||
    ((dp_company_id a =? dp_company_id b) &&
       ((dp_normalized_name a =? dp_normalized_name b) || (is_office a && is_office b)));
  refs_ok db r := defer_fk db || has_company db (dp_company_id r) |}.
Solve All Obligations with solve_lens.

Definition department_revision_fk (db : DB) (r : DepartmentRevision) : bool :=
  has_company db (dr_company_id r) && has_department db (dr_department_id r) (dr_company_id r).

#[export] Program Instance department_revisions_table : Table DB DepartmentRevision := {|
  table_name := "department_revisions"; rows := department_revisions;
  set_rows l db := {|
    defer_fk := defer_fk db; profile_versions := profile_versions db; companies := companies db;
    company_revisions := company_revisions db; departments := departments db;
    department_revisions := l; department_responsibilities := department_responsibilities db;
    employees := employees db; conversations := conversations db; messages := messages db;
    company_tasks := company_tasks db; work := work db; idem_rows := idem_rows db;
    event_rows := event_rows db; outbox_rows := outbox_rows db |};
  row_ok := λ r, (1 <=? dr_revision_number r)%Z && between 1 100 (dr_name r) &&
    between 1 10000 (dr_function_description r) && (py_len (dr_content_sha256 r) =? 64)%Z;
  clash a b := (dr_id a =? dr_id b) ||
    ((dr_department_id a =? dr_department_id b) && (dr_revision_number a =? dr_revision_number b)%Z);
  refs_ok db r := defer_fk db || department_revision_fk db r |}.
Solve All Obligations with solve_lens.

Definition responsibility_fk (db : DB) (r : Responsibility) : bool :=
  has_department db (rs_department_id r) (rs_company_id r).

#[export] Program Instance responsibilities_table : Table DB Responsibility := {|
  table_name := "department_responsibilities"; rows := department_responsibilities;
  set_rows l db := {|
    defer_fk := defer_fk db; profile_versions := profile_versions db; companies := companies db;
    company_revisions := company_revisions db; departments := departments db;
    department_revisions := department_revisions db; department_responsibilities := l;
    employees := employees db; conversations := conversations db; messages := messages db;
    company_tasks := company_tasks db; work := work db; idem_rows := idem_rows db;
    event_rows := event_rows db; outbox_rows := outbox_rows db |};
  row_ok := λ _, true;
  clash a b := (rs_id a =? rs_id b) ||
    ((rs_department_id a =? rs_department_id b) && (rs_responsibility_key a =? rs_responsibility_key b));
  refs_ok db r := defer_fk db || responsibility_fk db r |}.
Solve All Obligations with solve_lens.

Definition employee_fk (db : DB) (e : Employee) : bool :=
  has_profile db (em_base_profile_version_id e) && has_department db (em_department_id e) (em_company_id e).

Definition GENERAL_MANAGER : string := "general_manager".

#[export] Program Instance employees_table : Table DB Employee := {|
  table_name := "employees"; rows := employees;
  set_rows l db := {|
    defer_fk := defer_fk db; profile_versions := profile_versions db; companies := companies db;
    company_revisions := company_revisions db; departments := departments db;
    department_revisions := department_revisions db;
    department_responsibilities := department_responsibilities db; employees := l;
    conversations := conversations db; messages := messages db; company_tasks := company_tasks db;
    work := work db; idem_rows := idem_rows db; event_rows := event_rows db;
    outbox_rows := outbox_rows db |};
  row_ok := λ e, between 1 100 (em_display_name e) &&
    (em_workflow_role e ∈? [GENERAL_MANAGER; "department_leader"; "member"]) &&
    (em_status e ∈? ["active"; "draining"; "inactive"; "unavailable"]) && (1 <=? em_version e)%Z;
  clash a b := (em_id a =? em_id b) ||
    ((em_department_id a =? em_department_id b) &&
     (em_normalized_display_name a =? em_normalized_display_name b));
  refs_ok db r := defer_fk db || employee_fk db r |}.
Solve All Obligations with solve_lens.

Definition conversation_fk (db : DB) (v : Conversation) : bool :=
  has_company db (cv_company_id v) && null_or (λ d, has_department db d (cv_company_id v)) (cv_department_id v).

(** [NULL] departments do not clash. *)
#[export] Program Instance conversations_table : Table DB Conversation := {|
  table_name := "conversations"; rows := conversations;
  set_rows l db := {|
    defer_fk := defer_fk db; profile_versions := profile_versions db; companies := companies db;
    company_revisions := company_revisions db; departments := departments db;
    department_revisions := department_revisions db;
    department_responsibilities := department_responsibilities db; employees := employees db;
    conversations := l; messages := messages db; company_tasks := company_tasks db;
    work := work db; idem_rows := idem_rows db; event_rows := event_rows db;
    outbox_rows := outbox_rows db |};
  row_ok := λ v, (cv_conversation_type v ∈? ["company"; "department"]) && (cv_status v ∈? ["active"; "archived"]);
  clash a b := (cv_id a =? cv_id b) ||
    ((cv_company_id a =? cv_company_id b) && (cv_conversation_type a =? cv_conversation_type b) &&
     sql_eq (cv_department_id a) (cv_department_id b));
  refs_ok db r := defer_fk db || conversation_fk db r |}.
Solve All Obligations with solve_lens.

Definition message_fk (db : DB) (m : Message) : bool :=
  has_conversation db (ms_conversation_id m) (ms_company_id m) &&
  has_event_of db (ms_source_event_id m) (ms_company_id m) &&
  null_or (λ t, has_task db t (ms_company_id m)) (ms_task_id m) &&
  null_or (λ e, has_employee db e (ms_company_id m)) (ms_sender_employee_id m).

#[export] Program Instance messages_table : Table DB Message := {|
  table_name := "conversation_messages"; rows := messages;
  set_rows l db := {|
    defer_fk := defer_fk db; profile_versions := profile_versions db; companies := companies db;
    company_revisions := company_revisions db; departments := departments db;
    department_revisions := department_revisions db;
    department_responsibilities := department_responsibilities db; employees := employees db;
    conversations := conversations db; messages := l; company_tasks := company_tasks db;
    work := work db; idem_rows := idem_rows db; event_rows := event_rows db;
    outbox_rows := outbox_rows db |};
  row_ok := λ m, ms_sender_type m ∈? ["user"; "employee"; "system"];
  clash a b := (ms_id a =? ms_id b) || (ms_source_event_id a =? ms_source_event_id b);
  refs_ok db r := defer_fk db || message_fk db r |}.
Solve All Obligations with solve_lens.

(** The plan a task points at belongs to another component. *)
Definition task_fk (db : DB) (t : TS.CompanyTask) : bool :=
  has_company db (TS.ct_company_id t) &&
  has_conversation db (TS.ct_company_conversation_id t) (TS.ct_company_id t) &&
  has_event_of db (TS.ct_user_message_event_id t) (TS.ct_company_id t) &&
  null_or (λ p, has_task db p (TS.ct_company_id t)) (TS.ct_supersedes_task_id t).

#[export] Program Instance org_tasks_table : Table DB TS.CompanyTask := {|
  table_name := "company_tasks"; rows := company_tasks;
  set_rows l db := {|
    defer_fk := defer_fk db; profile_versions := profile_versions db; companies := companies db;
    company_revisions := company_revisions db; departments := departments db;
    department_revisions := department_revisions db;
    department_responsibilities := department_responsibilities db; employees := employees db;
    conversations := conversations db; messages := messages db; company_tasks := l;
    work := work db; idem_rows := idem_rows db; event_rows := event_rows db;
    outbox_rows := outbox_rows db |};
  row_ok := TS.company_task_ok;
  clash a b := TS.ct_id a =? TS.ct_id b;
  refs_ok db r := defer_fk db || task_fk db r |}.
Solve All Obligations with solve_lens.

#[export] Program Instance org_idem_table : Table DB IdemRow := {|
  table_name := "idempotency"; rows := idem_rows;
  set_rows l db := {|
    defer_fk := defer_fk db; profile_versions := profile_versions db; companies := companies db;
    company_revisions := company_revisions db; departments := departments db;
    department_revisions := department_revisions db;
    department_responsibilities := department_responsibilities db; employees := employees db;
    conversations := conversations db; messages := messages db; company_tasks := company_tasks db;
    work := work db; idem_rows := l; event_rows := event_rows db; outbox_rows := outbox_rows db |};
  row_ok := λ r, idem_status r ∈? ["processing"; "completed"; "failed"];
  clash a b := idempotency_key a =? idempotency_key b;
  refs_ok db r := true |}.
Solve All Obligations with solve_lens.

Definition event_fk (db : DB) (e : EventRow) : bool :=
  match company_id (ev_event e) with Some c => has_company db c | None => false end.

#[export] Program Instance org_events_table : Table DB EventRow := {|
  table_name := "domain_events"; rows := event_rows;
  set_rows l db := {|
    defer_fk := defer_fk db; profile_versions := profile_versions db; companies := companies db;
    company_revisions := company_revisions db; departments := departments db;
    department_revisions := department_revisions db;
    department_responsibilities := department_responsibilities db; employees := employees db;
    conversations := conversations db; messages := messages db; company_tasks := company_tasks db;
    work := work db; idem_rows := idem_rows db; event_rows := l; outbox_rows := outbox_rows db |};
  row_ok := λ e, negb (company_id (ev_event e) =?o None);
  clash a b := event_id (ev_event a) =? event_id (ev_event b);
  refs_ok db r := defer_fk db || event_fk db r |}.
Solve All Obligations with solve_lens.

Definition outbox_fk (db : DB) (o : OutboxRow) : bool := has_event db (ob_domain_event_id o).

#[export] Program Instance org_outbox_table : Table DB OutboxRow := {|
  table_name := "outbox_events"; rows := outbox_rows;
  set_rows l db := {|
    defer_fk := defer_fk db; profile_versions := profile_versions db; companies := companies db;
    company_revisions := company_revisions db; departments := departments db;
    department_revisions := department_revisions db;
    department_responsibilities := department_responsibilities db; employees := employees db;
    conversations := conversations db; messages := messages db; company_tasks := company_tasks db;
    work := work db; idem_rows := idem_rows db; event_rows := event_rows db; outbox_rows := l |};
  row_ok := λ o, ob_status o ∈? ["pending"; "processing"; "delivered"; "failed"];
  clash a b := ob_id a =? ob_id b;
  refs_ok db r := defer_fk db || outbox_fk db r |}.
Solve All Obligations with solve_lens.

#[export] Program Instance org_event_db : EventDb DB := {|
  idem_table := org_idem_table; event_table := org_events_table; outbox_table := org_outbox_table |}.
Solve All Obligations with intros; done.

(** ** Transactions *)

(** Every foreign key of every row. *)
Definition commit_ok (db : DB) : bool :=
  forallb (company_fk db) (companies db) && forallb (company_revision_fk db) (company_revisions db) &&
  forallb (λ d, has_company db (dp_company_id d) && department_fk db d) (departments db) &&
  forallb (department_revision_fk db) (department_revisions db) &&
  forallb (responsibility_fk db) (department_responsibilities db) &&
  forallb (employee_fk db) (employees db) && forallb (conversation_fk db) (conversations db) &&
  forallb (message_fk db) (messages db) && forallb (task_fk db) (company_tasks db) &&
  forallb (event_fk db) (event_rows db) && forallb (outbox_fk db) (outbox_rows db).

(** The transaction of the write queue around a handler: it commits what the handler
    wrote when the foreign keys hold, and the pragma ends with it. *)
Definition committed {A} (m : tx DB A) : tx DB A := λ db,
  match m db with
  | (Ok a, db') =>
      if commit_ok db' then (Ok a, set_defer false db')
      else (Err (IntegrityErr "FOREIGN KEY constraint failed"), db)
  | (Err e, _) => (Err e, db)
  end.

(** [try: m finally: fin], where [fin] raises nothing. *)
Definition finally {A} (m : tx DB A) (fin : DB → DB) : tx DB A := λ db,
  let '(r, db') := m db in (r, fin db').

(** What every committed database satisfies of its rows: [CHECK] and [UNIQUE]. *)
Record tables_ok (db : DB) : Prop := {
  ok_companies : table_ok (R := Company) db = true;
  ok_company_revisions : table_ok (R := CompanyRevision) db = true;
  ok_departments : table_ok (R := Department) db = true;
  ok_department_revisions : table_ok (R := DepartmentRevision) db = true;
  ok_responsibilities : table_ok (R := Responsibility) db = true;
  ok_employees : table_ok (R := Employee) db = true;
  ok_conversations : table_ok (R := Conversation) db = true;
  ok_messages : table_ok (R := Message) db = true;
  ok_tasks : table_ok (R := TS.CompanyTask) db = true;
  ok_events : table_ok (R := EventRow) db = true;
  ok_outbox : table_ok (R := OutboxRow) db = true }.

(** A database with a published and a retired profile version and nothing else. *)
Module Demo.
Definition no_work : Work := {|
  agent_runs := []; human_approvals := []; review_assignments := []; task_workspaces := [];
  employee_tasks := [] |}.
Definition empty : DB := {|
  defer_fk := false;
  profile_versions := [{| pf_id := "pv1"; pf_status := "published" |};
                       {| pf_id := "pv0"; pf_status := "retired" |}];
  companies := []; company_revisions := []; departments := []; department_revisions := [];
  department_responsibilities := []; employees := []; conversations := []; messages := [];
  company_tasks := []; work := no_work; idem_rows := []; event_rows := []; outbox_rows := [] |}.
(** Identifiers of the [k]-th call. *)
Definition ids (k : string) (n : nat) : string := k +:+ pretty.pretty (Z.of_nat n).
Definition clock (n : nat) : string := "2026-01-01T00:00:00.00000" +:+ pretty.pretty (Z.of_nat n) +:+ "Z".
Definition sha (j : json) : string := bytes (repeat 97%nat 64).
End Demo.
