(* ===== verification/Company.v ===== *)
(** * Companies

    [company.py]: founding a company with its office, its general manager and their
    conversations, renaming it, archiving it and listing companies.  A response has the
    columns of the row; its instants are kept as the text the row holds.

    NFKC normalisation and lower-casing are arguments, [uuid n] is the [n]-th fresh
    identifier of the call and [now n] its [n]-th reading of the clock. *)

From S2P Require Import Prelude PyStr Sql UnitOfWork OrgStore.
From S2P Require TaskStore.

#[local] Open Scope string_scope.

Definition IndexError : exn := RuntimeErr "IndexError".
Definition assertion (b : bool) (what : string) : tx DB unit := check b (RuntimeErr ("AssertionError: " +:+ what)).

(** A query that has a row. *)
Definition present {A} (o : option A) : bool := match o with Some _ => true | None => false end.

(** [value if value else default] *)
Definition or_else (o : option string) (dflt : string) : string :=
  match o with Some s => if s =? "" then dflt else s | None => dflt end.

(** ** Requests *)

(* [sidecar/ibreeze/schemas.py:371-378 CompanyCreate] *)
Record CompanyCreate := {
  cc_name : string;
  cc_introduction : string;
  cc_general_manager_name : string;
  cc_base_profile_version_id : string }.

(* [sidecar/ibreeze/schemas.py:381-387 CompanyUpdate] *)
Record CompanyUpdate := {
  cu_name : option string;
  cu_introduction : option string;
  cu_expected_version : Z }.

(** ** Names *)

(** [re.sub(r'\s+', ' ', s)] *)
Fixpoint collapse_from (space : bool) (l : list string) : list string :=
  match l with
  | [] => []
  | c :: l =>
      if is_space c then (if space then collapse_from true l else " " :: collapse_from true l)
      else c :: collapse_from false l
  end.

Definition collapse (s : string) : string := unchars (collapse_from false (chars s)).

Section Company.
Context (nfkc lower : string → string) (sha256 : json → string).

(* [sidecar/ibreeze/company.py:35-37 _normalize_name] *)
Definition _normalize_name (name : string) : string := lower (collapse (strip (nfkc name))).

Context (uuid : nat → string) (now : nat → string).

(** ** Events

    The domain event of a command and its outbox row, with the identifiers from the
    [n]-th on. *)
Definition event_rows_of (n : nat) (at_ company type id : string) (version : Z) (event : string)
    (payload : json) : EventRow * OutboxRow :=
  ({| ev_event := {| event_id := uuid n; event_type := event; aggregate_type := type; aggregate_id := id;
        aggregate_version := version; company_id := Some company; payload_json := payload;
        trace_id := uuid (1 + n) |};
      ev_occurred_at := at_ |},
   {| ob_id := uuid (2 + n); ob_domain_event_id := uuid n; ob_topic := event; ob_payload := Dumped payload;
      ob_status := "pending"; ob_attempts := 0; ob_next_attempt_at := at_; ob_last_error := None;
      ob_created_at := at_; ob_delivered_at := None |}).

(* [sidecar/ibreeze/company.py:374-389 create_company] *)
Definition write_event (n : nat) (at_ company type id : string) (version : Z) (event : string)
    (payload : json) : tx DB unit :=
  let '(e, o) := event_rows_of n at_ company type id version event payload in
  insert_row e;; insert_row o.

(** ** Reading *)

(* [sidecar/ibreeze/company.py:78-83 get_company] *)
Definition get_company (company : string) : tx DB Company :=
  row ← select_one (λ c, co_id c =? company);
  found row (ValueError "RESOURCE_NOT_FOUND").

(** [ORDER BY created_at DESC, id DESC] *)
Definition newest_first {R} (created id : R → string) (a b : R) : bool :=
  text_lt (created b) (created a) || ((created a =? created b) && text_le (id b) (id a)).
(** [created_at < ? OR (created_at = ? AND id < ?)] *)
Definition older {R} (created id : R → string) (after : string * string) (r : R) : bool :=
  text_lt (created r) after.1 || ((created r =? after.1) && text_lt (id r) after.2).

(** A page of the rows that satisfy [p], newest first, from after a cursor on. *)
Definition page_of {R} `{!Table DB R} (created id : R → string) (p : R → bool) (limit : Z)
    (after : option (string * string)) : tx DB (list R) :=
  l ← select (λ r, p r && match after with Some c => older created id c r | None => true end);
  mret (limited limit (sort_by (newest_first created id) l)).

(* [sidecar/ibreeze/company.py:86-105 list_companies] *)
Definition list_companies (limit : Z) (after : option (string * string)) : tx DB (list Company) :=
  page_of co_created_at co_id (λ _, true) limit after.

(** ** Founding *)

Definition OFFICE_NAME : string := "总经理办公室".
Definition OFFICE_DESCRIPTION : string :=
  "接收用户任务，依据公司介绍完成需求梳理、计划编排、部门分派、跨部门 Review、问题处理和最终汇报".

(** The eight identifiers, in the order they are drawn. *)
Definition company_uuid : string := uuid 0.
Definition company_revision_uuid : string := uuid 1.
Definition office_uuid : string := uuid 2.
Definition office_revision_uuid : string := uuid 3.
Definition gm_employee_uuid : string := uuid 4.
Definition company_conversation_uuid : string := uuid 5.
Definition office_conversation_uuid : string := uuid 6.
Definition office_responsibility_uuid : string := uuid 7.

(* [sidecar/ibreeze/company.py:168-185 create_company] *)
Definition new_company (data : CompanyCreate) : Company := {|
  co_id := company_uuid; co_normalized_name := _normalize_name (cc_name data);
  co_current_revision_id := company_revision_uuid; co_general_manager_office_id := office_uuid;
  co_general_manager_employee_id := gm_employee_uuid;
  co_company_conversation_id := company_conversation_uuid; co_status := "active";
  co_created_at := now 0; co_updated_at := now 0; co_version := 1 |}.

Definition revision_content (name introduction : string) : json :=
  sorted_obj [("name", JStr name); ("introduction", JStr introduction)].

(* [sidecar/ibreeze/company.py:187-208 create_company] *)
Definition new_company_revision (data : CompanyCreate) : CompanyRevision := {|
  cr_id := company_revision_uuid; cr_company_id := company_uuid; cr_revision_number := 1;
  cr_name := cc_name data; cr_introduction := cc_introduction data;
  cr_content_sha256 := sha256 (revision_content (cc_name data) (cc_introduction data));
  cr_created_by_type := "user"; cr_created_at := now 0 |}.

(* [sidecar/ibreeze/company.py:210-228 create_company] *)
Definition new_office : Department := {|
  dp_id := office_uuid; dp_company_id := company_uuid; dp_department_type := GM_OFFICE;
  dp_normalized_name := _normalize_name OFFICE_NAME; dp_current_revision_id := office_revision_uuid;
  dp_leader_employee_id := gm_employee_uuid; dp_department_conversation_id := office_conversation_uuid;
  dp_status := "active"; dp_created_at := now 0; dp_updated_at := now 0; dp_version := 1 |}.

Definition department_content (name description : string) : json :=
  sorted_obj [("name", JStr name); ("function_description", JStr description)].

(* [sidecar/ibreeze/company.py:230-256 create_company] *)
Definition new_office_revision : DepartmentRevision := {|
  dr_id := office_revision_uuid; dr_department_id := office_uuid; dr_company_id := company_uuid;
  dr_revision_number := 1; dr_name := OFFICE_NAME; dr_function_description := OFFICE_DESCRIPTION;
  dr_content_sha256 := sha256 (department_content OFFICE_NAME OFFICE_DESCRIPTION);
  dr_created_at := now 0 |}.

(* [sidecar/ibreeze/company.py:258-269 create_company] *)
Definition new_responsibility : Responsibility := {|
  rs_id := office_responsibility_uuid; rs_department_id := office_uuid; rs_company_id := company_uuid;
  rs_responsibility_key := "general_management"; rs_name := "全局管理"; rs_description := "统筹管理所有部门";
  rs_created_at := now 0; rs_updated_at := now 0 |}.

(* [sidecar/ibreeze/company.py:271-290 create_company] *)
Definition new_manager (data : CompanyCreate) : Employee := {|
  em_id := gm_employee_uuid; em_company_id := company_uuid; em_department_id := office_uuid;
  em_display_name := cc_general_manager_name data;
  em_normalized_display_name := _normalize_name (cc_general_manager_name data);
  em_base_profile_version_id := cc_base_profile_version_id data; em_workflow_role := GENERAL_MANAGER;
  em_status := "active"; em_created_at := now 0; em_updated_at := now 0; em_version := 1 |}.

(* [sidecar/ibreeze/company.py:292-298 create_company] *)
Definition new_company_conversation : Conversation := {|
  cv_id := company_conversation_uuid; cv_company_id := company_uuid; cv_conversation_type := "company";
  cv_department_id := None; cv_status := "active"; cv_created_at := now 0 |}.

(* [sidecar/ibreeze/company.py:300-306 create_company] *)
Definition new_office_conversation : Conversation := {|
  cv_id := office_conversation_uuid; cv_company_id := company_uuid; cv_conversation_type := "department";
  cv_department_id := Some office_uuid; cv_status := "active"; cv_created_at := now 0 |}.

(** The six invariants the transaction asserts before it ends. *)
(* [sidecar/ibreeze/company.py:308-360 create_company] *)
Definition assert_founded : tx DB unit :=
  r ← select_one (λ r, (cr_id r =? company_revision_uuid) && (cr_company_id r =? company_uuid));
  assertion (present r) "invariant 1";;
  offices ← select (λ d, (dp_company_id d =? company_uuid) && is_office d && (dp_status d =? "active"));
  assertion (Nat.eqb (length offices) 1) "invariant 2";;
  e ← select_one (λ e, (em_id e =? gm_employee_uuid) && (em_company_id e =? company_uuid) &&
    (em_department_id e =? office_uuid) && (em_workflow_role e =? GENERAL_MANAGER));
  assertion (present e) "invariant 3";;
  d ← select_one (λ d, (dp_id d =? office_uuid) && (dp_company_id d =? company_uuid));
  assertion (match d with Some d => dp_leader_employee_id d =? gm_employee_uuid | None => false end) "invariant 4";;
  v ← select_one (λ v, (cv_id v =? company_conversation_uuid) && (cv_company_id v =? company_uuid) &&
    (cv_conversation_type v =? "company") && bool_decide (cv_department_id v = None));
  assertion (present v) "invariant 5";;
  w ← select_one (λ v, (cv_id v =? office_conversation_uuid) && (cv_company_id v =? company_uuid) &&
    (cv_conversation_type v =? "department") && sql_eq (cv_department_id v) (Some office_uuid));
  assertion (present w) "invariant 6".

(** The founding event. *)
(* [sidecar/ibreeze/company.py:363-371 create_company] *)
Definition founding_payload (data : CompanyCreate) : json :=
  JObj [("company_id", JStr company_uuid); ("name", JStr (cc_name data));
        ("introduction", JStr (cc_introduction data))].

(** The [finally] of the commands: the pragma is switched off if it is on. *)
(* [sidecar/ibreeze/company.py:408-413 create_company] *)
Definition restore_defer (db : DB) : DB := if defer_fk db then set_defer false db else db.

(* [sidecar/ibreeze/company.py:108-404 create_company] *)
Definition create_company (in_transaction : bool) (data : CompanyCreate) : tx DB Company :=
  check (negb (cc_base_profile_version_id data =? "")) (ValueError "BASE_PROFILE_VERSION_REQUIRED");;
  profiles ← gets (λ db, where_ (λ p, (pf_id p =? cc_base_profile_version_id data) &&
    (pf_status p =? "published")) (profile_versions db));
  check (negb (Nat.eqb (length profiles) 0)) (ValueError "BASE_PROFILE_NOT_PUBLISHED");;
  taken ← select_one (λ c, co_normalized_name c =? _normalize_name (cc_name data));
  check (negb (present taken)) (ValueError "NAME_EXISTS");;
  check in_transaction (RuntimeErr "WRITE_QUEUE_REQUIRED");;
  deferred ← gets defer_fk;
  check (negb deferred) (RuntimeErr "defer_foreign_keys is already ON");;
  modify (set_defer true);;
  finally (
    insert_row (new_company data);;
    insert_row (new_company_revision data);;
    insert_row new_office;;
    insert_row new_office_revision;;
    insert_row new_responsibility;;
    insert_row (new_manager data);;
    insert_row new_company_conversation;;
    insert_row new_office_conversation;;
    assert_founded;;
    write_event 8 (now 0) company_uuid "company" company_uuid 1 "company.created" (founding_payload data);;
    mret (new_company data)) restore_defer.

(** ** Renaming *)

(** [SELECT COALESCE(MAX(revision_number), 0) + 1] *)
Definition next_number (numbers : list Z) : Z := foldr Z.max 0 numbers + 1.

(* [sidecar/ibreeze/company.py:502-510 rename_company] *)
Definition renamed (revision name at_ : string) (version : Z) (c : Company) : Company := {|
  co_id := co_id c; co_normalized_name := name; co_current_revision_id := revision;
  co_general_manager_office_id := co_general_manager_office_id c;
  co_general_manager_employee_id := co_general_manager_employee_id c;
  co_company_conversation_id := co_company_conversation_id c; co_status := co_status c;
  co_created_at := co_created_at c; co_updated_at := at_; co_version := version |}.

(* [sidecar/ibreeze/company.py:416-562 rename_company] *)
Definition rename_company (in_transaction : bool) (company : string) (data : CompanyUpdate)
    (expected_version : Z) : tx DB Company :=
  let wanted := or_else (cu_name data) "" in
  let normalized_name := if wanted =? "" then "" else _normalize_name wanted in
  check in_transaction (RuntimeErr "WRITE_QUEUE_REQUIRED");;
  modify (set_defer true);;
  finally (
    row ← select_one (λ c, (co_id c =? company) && (co_version c =? expected_version)%Z);
    c ← found row (ValueError "VERSION_CONFLICT");
    check (co_status c =? "active") (ValueError "COMPANY_ARCHIVED");;
    dup ← select_one (λ o, (co_normalized_name o =? normalized_name) && negb (co_id o =? company));
    check ((normalized_name =? "") || negb (present dup)) (ValueError "NAME_EXISTS");;
    rev ← select_one (λ r, cr_id r =? co_current_revision_id c);
    rev ← found rev IndexError;
    let name := or_else (cu_name data) (cr_name rev) in
    let introduction := or_else (cu_introduction data) (cr_introduction rev) in
    numbers ← gets (λ db, map cr_revision_number (where_ (λ r, cr_company_id r =? company) (company_revisions db)));
    insert_row {| cr_id := uuid 0; cr_company_id := company; cr_revision_number := next_number numbers;
      cr_name := name; cr_introduction := introduction;
      cr_content_sha256 := sha256 (revision_content name introduction); cr_created_by_type := "user";
      cr_created_at := now 0 |};;
    let version := (co_version c + 1)%Z in
    update (λ x, (co_id x =? company) && (co_version x =? co_version c)%Z)
      (renamed (uuid 0) (_normalize_name name) (now 0) version);;
    write_event 1 (now 0) company "company" company version "company.renamed"
      (JObj [("company_id", JStr company); ("old_name", JStr (cr_name rev)); ("new_name", JStr name)]);;
    mret (renamed (uuid 0) (_normalize_name name) (now 0) version c)) restore_defer.

(** ** Archiving *)

Definition busy (terminal : list string) (company : string) (l : list Activity) : bool :=
  existsb (λ a, (ac_company_id a =? company) && negb (ac_status a ∈? terminal)) l.

(* [sidecar/ibreeze/company.py:633-638 archive_company] *)
Definition archived_company (at_ : string) (version : Z) (c : Company) : Company := {|
  co_id := co_id c; co_normalized_name := co_normalized_name c;
  co_current_revision_id := co_current_revision_id c;
  co_general_manager_office_id := co_general_manager_office_id c;
  co_general_manager_employee_id := co_general_manager_employee_id c;
  co_company_conversation_id := co_company_conversation_id c; co_status := "archived";
  co_created_at := co_created_at c; co_updated_at := at_; co_version := version |}.
(* [sidecar/ibreeze/company.py:639-642 archive_company] *)
Definition archived_department (at_ : string) (d : Department) : Department := {|
  dp_id := dp_id d; dp_company_id := dp_company_id d; dp_department_type := dp_department_type d;
  dp_normalized_name := dp_normalized_name d; dp_current_revision_id := dp_current_revision_id d;
  dp_leader_employee_id := dp_leader_employee_id d;
  dp_department_conversation_id := dp_department_conversation_id d; dp_status := "archived";
  dp_created_at := dp_created_at d; dp_updated_at := at_; dp_version := dp_version d |}.
(* [sidecar/ibreeze/company.py:643-646 archive_company] *)
Definition archived_conversation (v : Conversation) : Conversation := {|
  cv_id := cv_id v; cv_company_id := cv_company_id v; cv_conversation_type := cv_conversation_type v;
  cv_department_id := cv_department_id v; cv_status := "archived"; cv_created_at := cv_created_at v |}.
(* [sidecar/ibreeze/company.py:647-650 archive_company] *)
Definition deactivated (at_ : string) (e : Employee) : Employee := {|
  em_id := em_id e; em_company_id := em_company_id e; em_department_id := em_department_id e;
  em_display_name := em_display_name e; em_normalized_display_name := em_normalized_display_name e;
  em_base_profile_version_id := em_base_profile_version_id e; em_workflow_role := em_workflow_role e;
  em_status := "inactive"; em_created_at := em_created_at e; em_updated_at := at_;
  em_version := em_version e |}.

Definition ENDED_TASKS : list string := ["completed"; "cancelled"; "failed"; "rejected"].
Definition ENDED_RUNS : list string := ["succeeded"; "cancelled"; "timed_out"; "failed"; "lost"].
Definition ENDED_REVIEWS : list string := ["submitted"; "stale"; "cancelled"].
Definition ENDED_WORKSPACES : list string := ["applied"; "abandoned"].
Definition OPEN_APPROVALS : list string := ["pending"; "allowed"].

(* [sidecar/ibreeze/company.py:565-685 archive_company] *)
Definition archive_company (company : string) (expected_version : Z) : tx DB Company :=
  let quiet (p : DB → bool) :=
    b ← gets p; check (negb b) (ValueError "STATE_TRANSITION_INVALID") in
  row ← select_one (λ c, (co_id c =? company) && (co_version c =? expected_version)%Z);
  c ← found row (ValueError "OPTIMISTIC_LOCK_CONFLICT");
  check (co_status c =? "active") (ValueError "STATE_TRANSITION_INVALID");;
  quiet (λ db, existsb (λ t, (TS.ct_company_id t =? company) && negb (TS.ct_status t ∈? ENDED_TASKS))
    (company_tasks db));;
  quiet (λ db, busy ENDED_RUNS company (agent_runs (work db)));;
  quiet (λ db, existsb (λ a, (ac_company_id a =? company) && (ac_status a ∈? OPEN_APPROVALS))
    (human_approvals (work db)));;
  quiet (λ db, busy ENDED_REVIEWS company (review_assignments (work db)));;
  quiet (λ db, busy ENDED_WORKSPACES company (task_workspaces (work db)));;
  let version := (expected_version + 1)%Z in
  update (λ x, (co_id x =? company) && (co_version x =? expected_version)%Z) (archived_company (now 0) version);;
  update (λ d, dp_company_id d =? company) (archived_department (now 0));;
  update (λ v, cv_company_id v =? company) archived_conversation;;
  update (λ e, em_company_id e =? company) (deactivated (now 0));;
  write_event 0 (now 0) company "company" company version "company.archived"
    (sorted_obj [("company_id", JStr company); ("aggregate_id", JStr company); ("aggregate_version", JInt version)]);;
  get_company company.

End Company.
