(* ===== verification/Employees.v ===== *)
(** * Departments and employees

    [employee.py]: the commands on the departments and employees of an active company.
    Every command that names an [expected_version] updates the row only at that version. *)

From S2P Require Import Prelude PyStr Sql UnitOfWork OrgStore Company.

#[local] Open Scope string_scope.

(** ** Requests *)

(* [sidecar/ibreeze/schemas.py:423-427 DepartmentCreate] *)
Record DepartmentCreate := {
  dc_name : string;
  dc_function_description : string;
  dc_leader_name : string;
  dc_base_profile_version_id : string }.

(* [sidecar/ibreeze/schemas.py:430-433 DepartmentUpdate] *)
Record DepartmentUpdate := {
  du_name : option string;
  du_function_description : option string;
  du_expected_version : Z }.

(* [sidecar/ibreeze/schemas.py:34-37 WorkflowRole] *)
Definition WorkflowRole : list string := [GENERAL_MANAGER; "department_leader"; "member"].

(* [sidecar/ibreeze/schemas.py:40-44 EmployeeStatus] *)
Definition EmployeeStatus : list string := ["active"; "draining"; "inactive"; "unavailable"].

(* [sidecar/ibreeze/schemas.py:487-490 EmployeeCreate] *)
Record EmployeeCreate := {
  ec_display_name : string;
  ec_base_profile_version_id : string;
  ec_workflow_role : string }.

(* [sidecar/ibreeze/schemas.py:493-495 EmployeeUpdateDisplay] *)
Record EmployeeUpdateDisplay := {
  ed_display_name : string;
  ed_expected_version : Z }.

Section Employees.
Context (nfkc lower : string → string) (sha256 : json → string).
Context (uuid : nat → string) (now : nat → string).

(** ** Guards *)

(* [sidecar/ibreeze/employee.py:77-84 _published_profile] *)
Definition _published_profile (version : string) : tx DB unit :=
  found_ ← gets (λ db, existsb (λ p, (pf_id p =? version) && (pf_status p =? "published")) (profile_versions db));
  check found_ (ValueError "PROFILE_VERSION_INVALID").

(* [sidecar/ibreeze/employee.py:87-96 _active_company] *)
Definition _active_company (company : string) : tx DB unit :=
  row ← select_one (λ c, co_id c =? company);
  c ← found row (ValueError "RESOURCE_NOT_FOUND");
  check (co_status c =? "active") (ValueError "COMPANY_ARCHIVED").

(** The identifiers from the [n]-th on, the clock at [at_]. *)
(* [sidecar/ibreeze/employee.py:99-146 _append_event] *)
Definition _append_event (n : nat) (at_ company type id : string) (version : Z) (event : string)
    (extra : list (string * json)) : tx DB unit :=
  write_event uuid n at_ company type id version event
    (sorted_obj ([("company_id", JStr company); ("aggregate_id", JStr id); ("aggregate_version", JInt version)]
      ++ extra)%list).

(** ** Departments *)

(* [sidecar/ibreeze/employee.py:263-275 get_department] *)
Definition get_department (company department : string) : tx DB Department :=
  row ← select_one (λ d, (dp_id d =? department) && (dp_company_id d =? company));
  found row (ValueError "RESOURCE_NOT_FOUND").

(* [sidecar/ibreeze/employee.py:278-298 list_departments] *)
Definition list_departments (company : string) (limit : Z) (after : option (string * string))
    : tx DB (list Department) :=
  page_of dp_created_at dp_id (λ d, dp_company_id d =? company) limit after.

(** The identifiers are drawn in this order. *)
(* [sidecar/ibreeze/employee.py:176-193 create_department] *)
Definition new_department (company : string) (data : DepartmentCreate) : Department := {|
  dp_id := uuid 0; dp_company_id := company; dp_department_type := "standard";
  dp_normalized_name := _normalize_name nfkc lower (dc_name data); dp_current_revision_id := uuid 1;
  dp_leader_employee_id := uuid 2; dp_department_conversation_id := uuid 3; dp_status := "active";
  dp_created_at := now 0; dp_updated_at := now 0; dp_version := 1 |}.

(* [sidecar/ibreeze/employee.py:194-216 create_department] *)
Definition new_department_revision (company : string) (data : DepartmentCreate) : DepartmentRevision := {|
  dr_id := uuid 1; dr_department_id := uuid 0; dr_company_id := company; dr_revision_number := 1;
  dr_name := dc_name data; dr_function_description := dc_function_description data;
  dr_content_sha256 := sha256 (department_content (dc_name data) (dc_function_description data));
  dr_created_at := now 0 |}.

(* [sidecar/ibreeze/employee.py:217-234 create_department] *)
Definition new_leader (company : string) (data : DepartmentCreate) : Employee := {|
  em_id := uuid 2; em_company_id := company; em_department_id := uuid 0;
  em_display_name := dc_leader_name data;
  em_normalized_display_name := _normalize_name nfkc lower (dc_leader_name data);
  em_base_profile_version_id := dc_base_profile_version_id data; em_workflow_role := "department_leader";
  em_status := "active"; em_created_at := now 0; em_updated_at := now 0; em_version := 1 |}.

(* [sidecar/ibreeze/employee.py:235-241 create_department] *)
Definition new_department_conversation (company : string) : Conversation := {|
  cv_id := uuid 3; cv_company_id := company; cv_conversation_type := "department";
  cv_department_id := Some (uuid 0); cv_status := "active"; cv_created_at := now 0 |}.

(* [sidecar/ibreeze/employee.py:149-260 create_department] *)
Definition create_department (in_transaction : bool) (company : string) (data : DepartmentCreate)
    : tx DB Department :=
  _active_company company;;
  _published_profile (dc_base_profile_version_id data);;
  check in_transaction (RuntimeErr "WRITE_QUEUE_REQUIRED");;
  modify (set_defer true);;
  finally (
    taken ← select_one (λ d, (dp_company_id d =? company) &&
      (dp_normalized_name d =? _normalize_name nfkc lower (dc_name data)));
    check (negb (present taken)) (ValueError "NAME_EXISTS");;
    insert_row (new_department company data);;
    insert_row (new_department_revision company data);;
    insert_row (new_leader company data);;
    insert_row (new_department_conversation company);;
    _append_event 4 (now 1) company "department" (uuid 0) 1 "department.created"
      [("leader_employee_id", JStr (uuid 2))];;
    get_department company (uuid 0)) restore_defer.

(* [sidecar/ibreeze/employee.py:360-373 update_department] *)
Definition redescribed (name revision at_ : string) (version : Z) (d : Department) : Department := {|
  dp_id := dp_id d; dp_company_id := dp_company_id d; dp_department_type := dp_department_type d;
  dp_normalized_name := name; dp_current_revision_id := revision;
  dp_leader_employee_id := dp_leader_employee_id d;
  dp_department_conversation_id := dp_department_conversation_id d; dp_status := dp_status d;
  dp_created_at := dp_created_at d; dp_updated_at := at_; dp_version := version |}.

(** The department joined with its current revision; without one the join has no row. *)
(* [sidecar/ibreeze/employee.py:301-384 update_department] *)
Definition update_department (company department : string) (data : DepartmentUpdate) : tx DB Department :=
  _active_company company;;
  row ← select_one (λ d, (dp_id d =? department) && (dp_company_id d =? company) &&
    (dp_version d =? du_expected_version data)%Z);
  d ← found row (ValueError "OPTIMISTIC_LOCK_CONFLICT");
  rev ← select_one (λ r, dr_id r =? dp_current_revision_id d);
  rev ← found rev (ValueError "OPTIMISTIC_LOCK_CONFLICT");
  check (dp_status d =? "active") (ValueError "STATE_TRANSITION_INVALID");;
  let name := or_else (du_name data) (dr_name rev) in
  let description := or_else (du_function_description data) (dr_function_description rev) in
  let normalized_name := _normalize_name nfkc lower name in
  taken ← select_one (λ x, (dp_company_id x =? company) && (dp_normalized_name x =? normalized_name) &&
    negb (dp_id x =? department));
  check (negb (present taken)) (ValueError "NAME_EXISTS");;
  numbers ← gets (λ db, map dr_revision_number
    (where_ (λ r, dr_department_id r =? department) (department_revisions db)));
  insert_row {| dr_id := uuid 0; dr_department_id := department; dr_company_id := company;
    dr_revision_number := next_number numbers; dr_name := name; dr_function_description := description;
    dr_content_sha256 := sha256 (department_content name description); dr_created_at := now 0 |};;
  let version := (du_expected_version data + 1)%Z in
  update (λ x, (dp_id x =? department) && (dp_company_id x =? company) &&
      (dp_version x =? du_expected_version data)%Z)
    (redescribed normalized_name (uuid 0) (now 0) version);;
  _append_event 1 (now 1) company "department" department version "department.updated" [];;
  get_department company department.

(** ** Employees *)

(* [sidecar/ibreeze/employee.py:449-461 get_employee] *)
Definition get_employee (company employee : string) : tx DB Employee :=
  row ← select_one (λ e, (em_id e =? employee) && (em_company_id e =? company));
  found row (ValueError "RESOURCE_NOT_FOUND").

(* [sidecar/ibreeze/employee.py:464-508 list_employees] *)
Definition list_employees (company : string) (department : option string) (limit : Z)
    (after : option (string * string)) : tx DB (list Employee) :=
  page_of em_created_at em_id (λ e, (em_company_id e =? company) &&
    match department with Some d => em_department_id e =? d | None => true end) limit after.

(* [sidecar/ibreeze/employee.py:415-433 create_employee] *)
Definition new_member (company department : string) (data : EmployeeCreate) : Employee := {|
  em_id := uuid 0; em_company_id := company; em_department_id := department;
  em_display_name := ec_display_name data;
  em_normalized_display_name := _normalize_name nfkc lower (ec_display_name data);
  em_base_profile_version_id := ec_base_profile_version_id data; em_workflow_role := "member";
  em_status := "active"; em_created_at := now 0; em_updated_at := now 0; em_version := 1 |}.

(* [sidecar/ibreeze/employee.py:387-446 create_employee] *)
Definition create_employee (in_transaction : bool) (company department : string) (data : EmployeeCreate)
    : tx DB Employee :=
  _active_company company;;
  _published_profile (ec_base_profile_version_id data);;
  check (ec_workflow_role data =? "member") (ValueError "STATE_TRANSITION_INVALID");;
  check in_transaction (RuntimeErr "WRITE_QUEUE_REQUIRED");;
  d ← select_one (λ d, (dp_id d =? department) && (dp_company_id d =? company) && (dp_status d =? "active"));
  check (present d) (ValueError "RESOURCE_NOT_FOUND");;
  taken ← select_one (λ e, (em_department_id e =? department) &&
    (em_normalized_display_name e =? _normalize_name nfkc lower (ec_display_name data)));
  check (negb (present taken)) (ValueError "NAME_EXISTS");;
  insert_row (new_member company department data);;
  _append_event 1 (now 1) company "employee" (uuid 0) 1 "employee.created"
    [("department_id", JStr department)];;
  get_employee company (uuid 0).

(** [UPDATE employees SET ..., updated_at=?, version=?]: the columns a command changes. *)
Definition changed_employee (department display normalized profile role status at_ : string) (version : Z)
    (e : Employee) : Employee := {|
  em_id := em_id e; em_company_id := em_company_id e; em_department_id := department;
  em_display_name := display; em_normalized_display_name := normalized;
  em_base_profile_version_id := profile; em_workflow_role := role; em_status := status;
  em_created_at := em_created_at e; em_updated_at := at_; em_version := version |}.

Definition with_name (display normalized at_ : string) (version : Z) (e : Employee) : Employee :=
  changed_employee (em_department_id e) display normalized (em_base_profile_version_id e)
    (em_workflow_role e) (em_status e) at_ version e.
Definition with_profile (profile at_ : string) (e : Employee) : Employee :=
  changed_employee (em_department_id e) (em_display_name e) (em_normalized_display_name e) profile
    (em_workflow_role e) (em_status e) at_ (em_version e + 1) e.
Definition with_status (status at_ : string) (e : Employee) : Employee :=
  changed_employee (em_department_id e) (em_display_name e) (em_normalized_display_name e)
    (em_base_profile_version_id e) (em_workflow_role e) status at_ (em_version e + 1) e.
Definition with_department (department at_ : string) (e : Employee) : Employee :=
  changed_employee department (em_display_name e) (em_normalized_display_name e)
    (em_base_profile_version_id e) (em_workflow_role e) (em_status e) at_ (em_version e + 1) e.
Definition with_role (role at_ : string) (e : Employee) : Employee :=
  changed_employee (em_department_id e) (em_display_name e) (em_normalized_display_name e)
    (em_base_profile_version_id e) role (em_status e) at_ (em_version e + 1) e.

Definition employee_at (company employee : string) (version : Z) (e : Employee) : bool :=
  (em_id e =? employee) && (em_company_id e =? company) && (em_version e =? version)%Z.

(* [sidecar/ibreeze/employee.py:511-560 update_employee_display_name] *)
Definition update_employee_display_name (company employee : string) (data : EmployeeUpdateDisplay)
    : tx DB Employee :=
  _active_company company;;
  let normalized_name := _normalize_name nfkc lower (ed_display_name data) in
  row ← select_one (employee_at company employee (ed_expected_version data));
  e ← found row (ValueError "OPTIMISTIC_LOCK_CONFLICT");
  taken ← select_one (λ x, (em_department_id x =? em_department_id e) &&
    (em_normalized_display_name x =? normalized_name) && negb (em_id x =? employee));
  check (negb (present taken)) (ValueError "NAME_EXISTS");;
  let version := (ed_expected_version data + 1)%Z in
  update (employee_at company employee (ed_expected_version data))
    (with_name (ed_display_name data) normalized_name (now 0) version);;
  _append_event 0 (now 1) company "employee" employee version "employee.updated" [];;
  get_employee company employee.

(** [UPDATE ... WHERE version=?] with the test of the row count, the event and the answer,
    which three commands share. *)
Definition swap_employee (company employee : string) (expected_version : Z) (change : Employee → Employee)
    (event : string) (extra : list (string * json)) : tx DB Employee :=
  n ← update (employee_at company employee expected_version) change;
  check (n =? 1)%Z (ValueError "OPTIMISTIC_LOCK_CONFLICT");;
  _append_event 0 (now 1) company "employee" employee (expected_version + 1) event extra;;
  get_employee company employee.

(* [sidecar/ibreeze/employee.py:563-595 update_employee_base_profile] *)
Definition update_employee_base_profile (company employee profile : string) (expected_version : Z)
    : tx DB Employee :=
  _active_company company;;
  _published_profile profile;;
  swap_employee company employee expected_version (with_profile profile (now 0)) "employee.updated"
    [("base_profile_version_id", JStr profile)].

(* [sidecar/ibreeze/employee.py:598-605 _has_active_assignment] *)
Definition _has_active_assignment (employee : string) : tx DB bool :=
  gets (λ db, existsb (λ a, (as_employee_id a =? employee) &&
    negb (as_status a ∈? ["accepted"; "cancelled"; "failed"])) (employee_tasks (work db))).

(* [sidecar/ibreeze/employee.py:608-638 update_employee_status] *)
Definition update_employee_status (company employee status : string) (expected_version : Z) : tx DB Employee :=
  _active_company company;;
  e ← get_employee company employee;
  check (negb (em_workflow_role e =? GENERAL_MANAGER)) (ValueError "STATE_TRANSITION_INVALID");;
  assigned ← if status ∈? ["inactive"; "unavailable"] then _has_active_assignment employee else mret false;
  check (negb assigned) (ValueError "EMPLOYEE_HAS_ACTIVE_ASSIGNMENT");;
  swap_employee company employee expected_version (with_status status (now 0)) "employee.status_changed"
    [("status", JStr status)].

(* [sidecar/ibreeze/employee.py:641-692 transfer_employee] *)
Definition transfer_employee (company employee department : string) (expected_version : Z) : tx DB Employee :=
  _active_company company;;
  e ← get_employee company employee;
  check (negb (em_workflow_role e =? GENERAL_MANAGER)) (ValueError "STATE_TRANSITION_INVALID");;
  assigned ← _has_active_assignment employee;
  check (negb assigned) (ValueError "EMPLOYEE_HAS_ACTIVE_ASSIGNMENT");;
  d ← select_one (λ d, (dp_id d =? department) && (dp_company_id d =? company) && (dp_status d =? "active"));
  check (present d) (ValueError "RESOURCE_NOT_FOUND");;
  swap_employee company employee expected_version (with_department department (now 0)) "employee.transferred"
    [("from_department_id", JStr (em_department_id e)); ("to_department_id", JStr department)].

(* [sidecar/ibreeze/employee.py:713-723 set_department_leader] *)
Definition led_by (employee at_ : string) (d : Department) : Department := {|
  dp_id := dp_id d; dp_company_id := dp_company_id d; dp_department_type := dp_department_type d;
  dp_normalized_name := dp_normalized_name d; dp_current_revision_id := dp_current_revision_id d;
  dp_leader_employee_id := employee;
  dp_department_conversation_id := dp_department_conversation_id d; dp_status := dp_status d;
  dp_created_at := dp_created_at d; dp_updated_at := at_; dp_version := (dp_version d + 1)%Z |}.

(* [sidecar/ibreeze/employee.py:695-747 set_department_leader] *)
Definition set_department_leader (company department employee : string) (expected_version : Z)
    : tx DB Department :=
  d ← get_department company department;
  check (negb (is_office d)) (ValueError "STATE_TRANSITION_INVALID");;
  e ← get_employee company employee;
  check ((em_department_id e =? department) && (em_status e =? "active")) (ValueError "LEADER_PROFILE_UNAVAILABLE");;
  if dp_leader_employee_id d =? employee then mret d else
  n ← update (λ x, (dp_id x =? department) && (dp_company_id x =? company) && (dp_version x =? expected_version)%Z)
    (led_by employee (now 0));
  check (n =? 1)%Z (ValueError "OPTIMISTIC_LOCK_CONFLICT");;
  update (λ x, (em_id x =? dp_leader_employee_id d) && (em_company_id x =? company)) (with_role "member" (now 1));;
  update (λ x, (em_id x =? employee) && (em_company_id x =? company)) (with_role "department_leader" (now 2));;
  _append_event 0 (now 3) company "department" department (expected_version + 1) "department.leader_changed"
    [("leader_employee_id", JStr employee)];;
  get_department company department.

End Employees.
