(* ===== verification/Conversations.v ===== *)
(** * Conversations

    [conversation.py]: the conversations of a company, their messages, and the intake of a
    user message, which starts a task, supersedes one or asks for another plan. *)

From S2P Require Import Prelude PyStr Sql UnitOfWork OrgStore Company.
From S2P Require TaskStore.

#[local] Open Scope string_scope.

(* [sidecar/ibreeze/schemas.py:537-542 SubmitUserMessageRequest] *)
Record SubmitUserMessageRequest := {
  sm_company_id : string;
  sm_conversation_id : string;
  sm_content : string;
  sm_target_task_id : option string;
  sm_supersedes_task_id : option string }.

(* [sidecar/ibreeze/schemas.py:545-550 SubmitUserMessageResponse] *)
Record SubmitUserMessageResponse := {
  sr_message_id : string;
  sr_company_task_id : string;
  sr_task_status : string;
  sr_intake_mode : string;
  sr_analysis_queued : bool }.

(** The code points [str.splitlines] ends a line at. *)
Definition line_breaks : list string :=
  map bytes [[10]; [11]; [12]; [13]; [28]; [29]; [30]; [194; 133]; [226; 128; 168]; [226; 128; 169]]%nat.

Fixpoint until_break (l : list string) : list string :=
  match l with
  | [] => []
  | c :: l => if c ∈? line_breaks then [] else c :: until_break l
  end.

(** [s.splitlines()[0]] *)
Definition first_line (s : string) : result string :=
  if s =? "" then Err IndexError else Ok (unchars (until_break (chars s))).

(** [bool(value)] of an optional text. *)
Definition given (o : option string) : bool := negb (or_else o "" =? "").

Section Conversations.
Context (uuid : nat → string) (now : nat → string).

(* [sidecar/ibreeze/conversation.py:63-76 get_company_conversation] *)
Definition get_company_conversation (company : string) : tx DB Conversation :=
  row ← gets (λ db, List.find (λ v, (cv_company_id v =? company) &&
    existsb (λ c, (co_company_conversation_id c =? cv_id v) && (co_id c =? company)) (companies db))
    (conversations db));
  found row (ValueError "RESOURCE_NOT_FOUND").

(* [sidecar/ibreeze/conversation.py:79-93 get_department_conversation] *)
Definition get_department_conversation (company department : string) : tx DB Conversation :=
  row ← gets (λ db, List.find (λ v, (cv_company_id v =? company) &&
    existsb (λ d, (dp_department_conversation_id d =? cv_id v) && (dp_id d =? department) &&
      (dp_company_id d =? company)) (departments db))
    (conversations db));
  found row (ValueError "RESOURCE_NOT_FOUND").

(** [ORDER BY created_at ASC, id ASC] *)
Definition oldest_first (a b : Message) : bool :=
  text_lt (ms_created_at a) (ms_created_at b) ||
  ((ms_created_at a =? ms_created_at b) && text_le (ms_id a) (ms_id b)).
(** [created_at > ? OR (created_at = ? AND id > ?)] *)
Definition newer (after : string * string) (m : Message) : bool :=
  text_lt after.1 (ms_created_at m) || ((ms_created_at m =? after.1) && text_lt after.2 (ms_id m)).

(* [sidecar/ibreeze/conversation.py:96-126 list_messages] *)
Definition list_messages (company conversation : string) (limit : Z) (after : option (string * string))
    : tx DB (list Message) :=
  l ← select (λ m, (ms_company_id m =? company) && (ms_conversation_id m =? conversation) &&
    match after with Some c => newer c m | None => true end);
  mret (limited limit (sort_by oldest_first l)).

(* [sidecar/ibreeze/conversation.py:129-138 list_conversations] *)
Definition list_conversations (company : string) : tx DB (list Conversation) :=
  l ← select (λ v, cv_company_id v =? company);
  mret (sort_by (λ a b, text_le (cv_created_at b) (cv_created_at a)) l).

(** The title is not used. *)
(* [sidecar/ibreeze/conversation.py:141-165 create_conversation] *)
Definition create_conversation (company title : string) : tx DB Conversation :=
  row ← select_one (λ c, co_id c =? company);
  check (match row with Some c => co_status c =? "active" | None => false end)
    (ValueError "RESOURCE_NOT_FOUND");;
  let v := {| cv_id := uuid 0; cv_company_id := company; cv_conversation_type := "company";
              cv_department_id := None; cv_status := "active"; cv_created_at := now 0 |} in
  insert_row v;; mret v.

(* [sidecar/ibreeze/conversation.py:168-185 archive_conversation] *)
Definition archive_conversation (company conversation : string) : tx DB string :=
  row ← select_one (λ v, (cv_id v =? conversation) && (cv_company_id v =? company));
  found row (ValueError "RESOURCE_NOT_FOUND");;
  update (λ v, (cv_id v =? conversation) && (cv_company_id v =? company)) archived_conversation;;
  mret (now 0).

(** ** Intake *)

(* [sidecar/ibreeze/conversation.py:279-284 submit_user_message] *)
Definition revision_requested (at_ : string) (version : Z) (t : TS.CompanyTask) : TS.CompanyTask := {|
  TS.ct_id := TS.ct_id t; TS.ct_company_id := TS.ct_company_id t;
  TS.ct_supersedes_task_id := TS.ct_supersedes_task_id t;
  TS.ct_company_conversation_id := TS.ct_company_conversation_id t;
  TS.ct_user_message_event_id := TS.ct_user_message_event_id t; TS.ct_title := TS.ct_title t;
  TS.ct_status := "revision_requested"; TS.ct_resume_state := TS.ct_resume_state t;
  TS.ct_active_plan_id := TS.ct_active_plan_id t; TS.ct_created_at := TS.ct_created_at t;
  TS.ct_updated_at := at_; TS.ct_completed_at := TS.ct_completed_at t;
  TS.ct_ceo_confirmed_at := TS.ct_ceo_confirmed_at t; TS.ct_version := version |}.

(* [sidecar/ibreeze/conversation.py:286-303 submit_user_message] *)
Definition draft_task (id event title : string) (data : SubmitUserMessageRequest) : TS.CompanyTask := {|
  TS.ct_id := id; TS.ct_company_id := sm_company_id data;
  TS.ct_supersedes_task_id := sm_supersedes_task_id data;
  TS.ct_company_conversation_id := sm_conversation_id data; TS.ct_user_message_event_id := event;
  TS.ct_title := title; TS.ct_status := "draft"; TS.ct_resume_state := None;
  TS.ct_active_plan_id := None; TS.ct_created_at := now 0; TS.ct_updated_at := now 0;
  TS.ct_completed_at := None; TS.ct_ceo_confirmed_at := None; TS.ct_version := 1 |}.

(* [sidecar/ibreeze/conversation.py:304-319 submit_user_message] *)
Definition user_message (id task event : string) (data : SubmitUserMessageRequest) : Message := {|
  ms_id := id; ms_company_id := sm_company_id data; ms_conversation_id := sm_conversation_id data;
  ms_task_id := Some task; ms_source_event_id := event; ms_sender_type := "user";
  ms_sender_employee_id := None; ms_message_type := "user_message"; ms_content := sm_content data;
  ms_artifact_refs_json := "[]"; ms_created_at := now 0 |}.

Definition AWAITING_USER : list string := ["awaiting_user_confirmation"; "revision_requested"].
Definition SUPERSEDABLE : list string := ["cancelled"; "failed"].

(** What the message starts: the task, its next version, its status and the intake mode,
    and the first identifier not drawn yet. *)
(* [sidecar/ibreeze/conversation.py:213-248 submit_user_message] *)
Definition intake (data : SubmitUserMessageRequest) : tx DB (string * Z * string * string * nat) :=
  if given (sm_target_task_id data) then
    let target := or_else (sm_target_task_id data) "" in
    task ← select_one (λ t, (TS.ct_id t =? target) && (TS.ct_company_id t =? sm_company_id data));
    t ← found task (ValueError "STATE_TRANSITION_INVALID");
    check (TS.ct_status t ∈? AWAITING_USER) (ValueError "STATE_TRANSITION_INVALID");;
    mret (target, TS.ct_version t + 1, "revision_requested", "plan_revision", 2%nat)
  else if given (sm_supersedes_task_id data) then
    prior ← select_one (λ t, (TS.ct_id t =? or_else (sm_supersedes_task_id data) "") &&
      (TS.ct_company_id t =? sm_company_id data));
    p ← found prior (ValueError "STATE_TRANSITION_INVALID");
    check (TS.ct_status p ∈? SUPERSEDABLE) (ValueError "STATE_TRANSITION_INVALID");;
    mret (uuid 2, 1, "draft", "superseding_task", 3%nat)
  else mret (uuid 2, 1, "draft", "new_task", 3%nat).

(* [sidecar/ibreeze/conversation.py:188-334 submit_user_message] *)
Definition submit_user_message (data : SubmitUserMessageRequest) : tx DB SubmitUserMessageResponse :=
  let company := sm_company_id data in
  check (negb (given (sm_target_task_id data) && given (sm_supersedes_task_id data)))
    (ValueError "VALIDATION_FAILED");;
  co ← select_one (λ c, co_id c =? company);
  cv ← select_one (λ v, (cv_id v =? sm_conversation_id data) && (cv_company_id v =? company));
  c ← found co (ValueError "RESOURCE_NOT_FOUND");
  v ← found cv (ValueError "RESOURCE_NOT_FOUND");
  check (co_status c =? "active") (ValueError "COMPANY_ARCHIVED");;
  check ((cv_conversation_type v =? "company") && bool_decide (cv_department_id v = None))
    (ValueError "COMPANY_SCOPE_VIOLATION");;
  plan ← intake data;
  let '(task, version, status, mode, n) := plan in
  let payload := sorted_obj [("company_id", JStr company); ("aggregate_id", JStr task);
    ("aggregate_version", JInt version); ("conversation_id", JStr (sm_conversation_id data));
    ("message_id", JStr (uuid 1))] in
  insert_row {| ev_event := {| event_id := uuid 0; event_type := "conversation.user_message_submitted";
      aggregate_type := "company_task"; aggregate_id := task; aggregate_version := version;
      company_id := Some company; payload_json := payload; trace_id := uuid n |};
    ev_occurred_at := now 0 |};;
  (if given (sm_target_task_id data) then
     update (λ t, (TS.ct_id t =? task) && (TS.ct_company_id t =? company)) (revision_requested (now 0) version);;
     mret tt
   else
     title ← lift (first_line (strip (sm_content data)));
     insert_row (draft_task task (uuid 0) (py_take 200 title) data));;
  insert_row (user_message (uuid 1) task (uuid 0) data);;
  insert_row {| ob_id := uuid (1 + n); ob_domain_event_id := uuid 0;
    ob_topic := "company_task.analysis.requested"; ob_payload := Dumped payload; ob_status := "pending";
    ob_attempts := 0; ob_next_attempt_at := now 0; ob_last_error := None; ob_created_at := now 0;
    ob_delivered_at := None |};;
  mret {| sr_message_id := uuid 1; sr_company_task_id := task; sr_task_status := status;
          sr_intake_mode := mode; sr_analysis_queued := true |}.

End Conversations.
