(* ===== verification/Organisation.v ===== *)
(** * What the organisation's commands keep

    Every command of [Company] and [Employees] as a step of the database, the invariants
    that [create_company] asserts as invariants of all reachable databases, and what each
    command does and refuses. *)

From S2P Require Import Prelude PyStr Sql Zoom UnitOfWork OrgStore Company Employees Conversations.

#[local] Open Scope string_scope.

(** ** Running the statements *)

Lemma write_event_ok uuid n at_ company type id v event payload db u db' :
  write_event uuid n at_ company type id v event payload db = (Ok u, db') →
  let '(e, o) := event_rows_of uuid n at_ company type id v event payload in
  db' = set_rows (outbox_rows db ++ [o])%list (set_rows (event_rows db ++ [e])%list db).
Proof.
  unfold write_event. cbn. intros (u1 & db1 & H1 & H2)%tx_bind_ok.
  apply insert_ok in H1 as (_ & _ & _ & ->). by apply insert_ok in H2 as (_ & _ & _ & ->).
Qed.

Lemma finally_ok {A} (m : tx DB A) fin db a db' :
  finally m fin db = (Ok a, db') ↔ ∃ db1, m db = (Ok a, db1) ∧ db' = fin db1.
Proof. unfold finally. destruct (m db) as [r db1]. split; [intros [= -> <-]; eauto|intros (db2 & [= -> ->] & ->); done]. Qed.

Lemma committed_ok {A} (m : tx DB A) db a db' :
  committed m db = (Ok a, db') ↔ ∃ db1, m db = (Ok a, db1) ∧ commit_ok db1 = true ∧ db' = set_defer false db1.
Proof.
  unfold committed. destruct (m db) as [[x|e] db1]; [|split; [done|by intros (? & ? & _)]].
  destruct (commit_ok db1) eqn:E; split; try done.
  - intros [= -> <-]. eauto.
  - by intros (db2 & [= -> ->] & _ & ->).
  - intros (db2 & [= -> ->] & ? & _). congruence.
Qed.

Lemma present_some {A} (o : option A) : present o = true → ∃ a, o = Some a.
Proof. destruct o; [eauto|done]. Qed.

Ltac org_inv1 :=
  match goal with
  | H : write_event _ _ _ _ _ _ _ _ _ _ = (Ok _, _) |- _ => apply write_event_ok in H; cbn in H; subst
  | H : _append_event _ _ _ _ _ _ _ _ _ _ = (Ok _, _) |- _ => unfold _append_event in H
  | H : finally _ _ _ = (Ok _, _) |- _ => apply finally_ok in H; destruct H as (?&H&->)
  | H : insert_row _ _ = (Ok _, _) |- _ => apply insert_ok in H; destruct H as (?&?&?&->)
  | H : update _ _ _ = (Ok _, _) |- _ => apply update_ok in H; destruct H as (?&?&->&->)
  | H : get_company _ _ = (Ok _, _) |- _ => unfold get_company in H
  | H : get_department _ _ _ = (Ok _, _) |- _ => unfold get_department in H
  | H : get_employee _ _ _ = (Ok _, _) |- _ => unfold get_employee in H
  | H : _active_company _ _ = (Ok _, _) |- _ => unfold _active_company in H
  | H : _published_profile _ _ = (Ok _, _) |- _ => unfold _published_profile in H
  | H : assertion _ _ _ = (Ok _, _) |- _ => unfold assertion in H
  | H : (if ?b then mret _ else _) _ = (Ok _, _) |- _ => destruct b eqn:?
  | H : (if ?b then gets _ else _) _ = (Ok _, _) |- _ => destruct b eqn:?
  end.
Ltac org_inv := repeat (first [org_inv1 | sql_inv1 | tx_inv1]; simplify_eq/=).


(** ** Rows in place

    What a command makes of a table is its old rows, some of them changed in place, and
    then the new ones. *)

Lemma Forall2_updated {R} (K : R → R → Prop) (p : R → bool) f l :
  (∀ r, K r r) → (∀ r, r ∈ l → p r = true → K r (f r)) → Forall2 K l (updated p f l).
Proof.
  intros Hrefl Hf. induction l as [|r l IH]; simpl; constructor.
  - destruct (p r) eqn:Hp; [|done]. apply Hf; [by left|done].
  - apply IH. intros x Hx. apply Hf. by right.
Qed.

Lemma Forall2_compose {R} (K : R → R → Prop) l1 l2 l3 :
  (∀ a b c, K a b → K b c → K a c) → Forall2 K l1 l2 → Forall2 K l2 l3 → Forall2 K l1 l3.
Proof.
  intros Htr H. revert l3. induction H as [|x y l1 l2 Hxy _ IH]; intros l3 H3; inversion H3; subst; constructor; eauto.
Qed.

Lemma Forall2_refl {R} (K : R → R → Prop) l : (∀ r, K r r) → Forall2 K l l.
Proof. intros Hrefl. induction l; constructor; auto. Qed.

Section Grown.
Context {R : Type} (K : R → R → Prop).

(** [l'] is [l] with rows changed as [K] allows, and [new] after them. *)
Definition grown (l new l' : list R) : Prop := ∃ m, Forall2 K l m ∧ l' = (m ++ new)%list.

Lemma grown_forward l new l' r : grown l new l' → r ∈ l → ∃ r', r' ∈ l' ∧ K r r'.
Proof.
  intros (m & Hm & ->) Hr. apply list_elem_of_lookup_1 in Hr as [i Hi].
  destruct (Forall2_lookup_l _ _ _ _ _ Hm Hi) as (r' & Hr' & HK). exists r'. split; [|done].
  apply elem_of_app. left. by eapply list_elem_of_lookup_2.
Qed.

Lemma grown_backward l new l' r' : grown l new l' → r' ∈ l' → r' ∈ new ∨ ∃ r, r ∈ l ∧ K r r'.
Proof.
  intros (m & Hm & ->) [Hr|Hr]%elem_of_app; [right|by left].
  apply list_elem_of_lookup_1 in Hr as [i Hi].
  destruct (Forall2_lookup_r _ _ _ _ _ Hm Hi) as (r & Hr & HK). exists r. split; [|done].
  by eapply list_elem_of_lookup_2.
Qed.

Lemma grown_new l new l' r : grown l new l' → r ∈ new → r ∈ l'.
Proof. intros (m & _ & ->) Hr. apply elem_of_app. by right. Qed.

Hypothesis K_refl : ∀ r, K r r.

Lemma grown_same l : grown l [] l.
Proof. exists l. rewrite app_nil_r. split; [by apply Forall2_refl|done]. Qed.

Lemma grown_app l new : grown l new (l ++ new).
Proof. exists l. split; [by apply Forall2_refl|done]. Qed.

Lemma grown_updated p f l : (∀ r, r ∈ l → p r = true → K r (f r)) → grown l [] (updated p f l).
Proof. intros Hf. exists (updated p f l). rewrite app_nil_r. split; [by apply Forall2_updated|done]. Qed.
End Grown.

(** ** What no command changes

    [active] tells which companies are active afterwards, [member] who is no general
    manager. *)

Record keeps_department (active member : string → Prop) (d d' : Department) : Prop := {
  kd_id : dp_id d' = dp_id d;
  kd_company : dp_company_id d' = dp_company_id d;
  kd_office : is_office d' = is_office d;
  kd_conversation : dp_department_conversation_id d' = dp_department_conversation_id d;
  kd_status : active (dp_company_id d) → dp_status d' = dp_status d;
  kd_leader : dp_leader_employee_id d' = dp_leader_employee_id d ∨
    is_office d = false ∧ member (dp_leader_employee_id d') }.

Record keeps_employee (e e' : Employee) : Prop := {
  ke_id : em_id e' = em_id e;
  ke_company : em_company_id e' = em_company_id e;
  ke_role : em_workflow_role e' = GENERAL_MANAGER ↔ em_workflow_role e = GENERAL_MANAGER;
  ke_department : em_workflow_role e = GENERAL_MANAGER → em_department_id e' = em_department_id e }.

Record keeps_conversation (v v' : Conversation) : Prop := {
  kv_id : cv_id v' = cv_id v;
  kv_company : cv_company_id v' = cv_company_id v;
  kv_type : cv_conversation_type v' = cv_conversation_type v;
  kv_department : cv_department_id v' = cv_department_id v }.

(** An archived company stays archived. *)
Record keeps_company (c c' : Company) : Prop := {
  kc_id : co_id c' = co_id c;
  kc_office : co_general_manager_office_id c' = co_general_manager_office_id c;
  kc_manager : co_general_manager_employee_id c' = co_general_manager_employee_id c;
  kc_conversation : co_company_conversation_id c' = co_company_conversation_id c;
  kc_active : co_status c' = "active" → co_status c = "active" }.

#[export] Instance keeps_department_refl active member : Reflexive (keeps_department active member).
Proof. split; auto. Qed.
#[export] Instance keeps_employee_refl : Reflexive keeps_employee.
Proof. by split. Qed.
#[export] Instance keeps_conversation_refl : Reflexive keeps_conversation.
Proof. by split. Qed.
#[export] Instance keeps_company_refl : Reflexive keeps_company.
Proof. by split. Qed.

(** ** The invariants *)

(** The six queries of [create_company], about any company. *)
Definition company_sound (db : DB) (c : Company) : bool :=
  has_revision db (co_current_revision_id c) (co_id c) &&
  match where_ (λ d, (dp_company_id d =? co_id c) && is_office d && (dp_status d =? "active")) (departments db) with
  | [d] => (dp_id d =? co_general_manager_office_id c) &&
      (dp_leader_employee_id d =? co_general_manager_employee_id c) &&
      existsb (λ v, (cv_id v =? dp_department_conversation_id d) && (cv_company_id v =? co_id c) &&
        (cv_conversation_type v =? "department") && sql_eq (cv_department_id v) (Some (dp_id d)))
        (conversations db)
  | _ => false
  end &&
  existsb (λ e, (em_id e =? co_general_manager_employee_id c) && (em_company_id e =? co_id c) &&
    (em_department_id e =? co_general_manager_office_id c) && (em_workflow_role e =? GENERAL_MANAGER))
    (employees db) &&
  existsb (λ v, (cv_id v =? co_company_conversation_id c) && (cv_company_id v =? co_id c) &&
    (cv_conversation_type v =? "company") && bool_decide (cv_department_id v = None)) (conversations db).

(** The same with the rows named. *)
Record sound (db : DB) (c : Company) (office : Department) (manager : Employee) (room hall : Conversation)
    : Prop := {
  so_office : office ∈ departments db ∧ dp_id office = co_general_manager_office_id c ∧
    dp_company_id office = co_id c ∧ is_office office = true ∧ dp_status office = "active" ∧
    dp_leader_employee_id office = co_general_manager_employee_id c;
  so_room : room ∈ conversations db ∧ cv_id room = dp_department_conversation_id office ∧
    cv_company_id room = co_id c ∧ cv_conversation_type room = "department" ∧
    cv_department_id room = Some (dp_id office);
  so_manager : manager ∈ employees db ∧ em_id manager = co_general_manager_employee_id c ∧
    em_company_id manager = co_id c ∧ em_department_id manager = co_general_manager_office_id c ∧
    em_workflow_role manager = GENERAL_MANAGER;
  so_hall : hall ∈ conversations db ∧ cv_id hall = co_company_conversation_id c ∧
    cv_company_id hall = co_id c ∧ cv_conversation_type hall = "company" ∧ cv_department_id hall = None }.

Definition active_in (db : DB) (company : string) : Prop :=
  ∃ c, c ∈ companies db ∧ co_id c = company ∧ co_status c = "active".

(** What holds between commands: the constraints, the invariants of every active company,
    and what keeps them: a general manager sits in an office, and no standard department is
    led by one. *)
Record org_ok (db : DB) : Prop := {
  og_tables : tables_ok db;
  og_commit : commit_ok db = true;
  og_sound c : c ∈ companies db → co_status c = "active" → ∃ o m r h, sound db c o m r h;
  og_manager e : e ∈ employees db → em_workflow_role e = GENERAL_MANAGER →
    ∃ d, d ∈ departments db ∧ dp_id d = em_department_id e ∧ is_office d = true;
  og_leader d e : d ∈ departments db → is_office d = false → e ∈ employees db →
    em_id e = dp_leader_employee_id d → em_workflow_role e ≠ GENERAL_MANAGER }.

(** An employee who is no general manager. *)
Definition plain (db : DB) (employee : string) : Prop :=
  ∃ e, e ∈ employees db ∧ em_id e = employee ∧ em_workflow_role e ≠ GENERAL_MANAGER.

(** What a command does to the rows: [cs], [ds], [es] and [vs] are the new ones. *)
Record evolves (db db' : DB) (cs : list Company) (ds : list Department) (es : list Employee)
    (vs : list Conversation) : Prop := {
  ev_companies : grown keeps_company (companies db) cs (companies db');
  ev_departments : grown (keeps_department (active_in db') (plain db)) (departments db) ds (departments db');
  ev_employees : grown keeps_employee (employees db) es (employees db');
  ev_conversations : grown keeps_conversation (conversations db) vs (conversations db') }.

Lemma employee_unique db e e' :
  tables_ok db → e ∈ employees db → e' ∈ employees db → em_id e = em_id e' → e = e'.
Proof.
  intros Ht He He' Hid. eapply (unique_row (DB := DB) (R := Employee) (λ x, em_id x =? em_id e') (rows db)).
  - apply (table_no_clash (R := Employee)), ok_employees, Ht.
  - intros a b Ha Hb. bools. cbn. rewrite Ha, Hb, String.eqb_refl. done.
  - done.
  - by apply String.eqb_eq.
  - done.
  - apply String.eqb_refl.
Qed.

Lemma department_unique db d d' :
  tables_ok db → d ∈ departments db → d' ∈ departments db → dp_id d = dp_id d' → d = d'.
Proof.
  intros Ht He He' Hid. eapply (unique_row (DB := DB) (R := Department) (λ x, dp_id x =? dp_id d') (rows db)).
  - apply (table_no_clash (R := Department)), ok_departments, Ht.
  - intros a b Ha Hb. bools. cbn. rewrite Ha, Hb, String.eqb_refl. done.
  - done.
  - by apply String.eqb_eq.
  - done.
  - apply String.eqb_refl.
Qed.

Lemma company_unique db c c' :
  tables_ok db → c ∈ companies db → c' ∈ companies db → co_id c = co_id c' → c = c'.
Proof.
  intros Ht He He' Hid. eapply (unique_row (DB := DB) (R := Company) (λ x, co_id x =? co_id c') (rows db)).
  - apply (table_no_clash (R := Company)), ok_companies, Ht.
  - intros a b Ha Hb. bools. cbn. rewrite Ha, Hb, String.eqb_refl. done.
  - done.
  - by apply String.eqb_eq.
  - done.
  - apply String.eqb_refl.
Qed.

(** The foreign key of a leader. *)
Lemma leader_there db d :
  commit_ok db = true → d ∈ departments db → ∃ e, e ∈ employees db ∧ em_id e = dp_leader_employee_id d.
Proof.
  unfold commit_ok. intros H Hd. andbs. rewrite forallb_forall in H8.
  specialize (H8 d (proj1 (list_elem_of_In _ _) Hd)). unfold department_fk in H8. andbs.
  unfold has_employee in *. apply existsb_elem in H12 as (e & He & Hb). bools. eauto.
Qed.

Lemma evolves_ok db db' cs ds es vs :
  evolves db db' cs ds es vs → org_ok db → tables_ok db' → commit_ok db' = true →
  (∀ c, c ∈ cs → co_status c = "active" → ∃ o m r h, sound db' c o m r h) →
  (∀ e, e ∈ es → em_workflow_role e = GENERAL_MANAGER →
     ∃ d, d ∈ departments db' ∧ dp_id d = em_department_id e ∧ is_office d = true) →
  (∀ d e, d ∈ ds → is_office d = false → e ∈ employees db' → em_id e = dp_leader_employee_id d →
     em_workflow_role e ≠ GENERAL_MANAGER) →
  org_ok db'.
Proof.
  intros [Hc Hd He Hv] [Ht Hcm Hs Hm Hg] Ht' Hcm' Hcs Hes Hds. split; [done..| | |].
  - intros c' Hin Hact. destruct (grown_backward _ _ _ _ _ Hc Hin) as [Hnew|(c & Hinc & K)]; [by apply Hcs|].
    destruct (Hs c Hinc (kc_active _ _ K Hact)) as
      (o & m & r & h & [(Ho & Ho1 & Ho2 & Ho3 & Ho4 & Ho5) (Hr & Hr1 & Hr2 & Hr3 & Hr4)
        (Hmm & Hm1 & Hm2 & Hm3 & Hm4) (Hh & Hh1 & Hh2 & Hh3 & Hh4)]).
    destruct (grown_forward _ _ _ _ _ Hd Ho) as (o' & Ho' & [Ko1 Ko2 Ko3 Ko4 Ko5 Ko6]).
    destruct (grown_forward _ _ _ _ _ Hv Hr) as (r' & Hr' & [Kr1 Kr2 Kr3 Kr4]).
    destruct (grown_forward _ _ _ _ _ He Hmm) as (m' & Hm' & [Km1 Km2 Km3 Km4]).
    destruct (grown_forward _ _ _ _ _ Hv Hh) as (h' & Hh' & [Kh1 Kh2 Kh3 Kh4]).
    destruct K as [Kc1 Kc2 Kc3 Kc4 _].
    assert (active_in db' (dp_company_id o)) as Hact' by (exists c'; split_and!; [done|congruence|done]).
    exists o', m', r', h'. split; split_and!; try done; try congruence.
    + rewrite Ko5; done.
    + destruct Ko6 as [->|[Hno _]]; congruence.
    + rewrite Km4; [congruence|done].
    + by apply Km3.
  - intros e' Hin Hgm. destruct (grown_backward _ _ _ _ _ He Hin) as [Hnew|(e & Hine & [K1 K2 K3 K4])]; [by apply Hes|].
    assert (em_workflow_role e = GENERAL_MANAGER) as Hgm0 by by apply K3.
    destruct (Hm e Hine Hgm0) as (d & Hdin & Hd1 & Hd2).
    destruct (grown_forward _ _ _ _ _ Hd Hdin) as (d' & Hd' & [Kd1 Kd2 Kd3 _ _ _]).
    exists d'. rewrite K4 by done. split_and!; [done|congruence|congruence].
  - intros d' e' Hd' Hoff He' Hid Hgm.
    destruct (grown_backward _ _ _ _ _ Hd Hd') as [Hnew|(d & Hdin & K)]; [by eapply Hds|].
    assert (is_office d = false) as Hoffd by (rewrite <-(kd_office _ _ _ _ K); done).
    assert (∃ e, e ∈ employees db ∧ em_id e = dp_leader_employee_id d' ∧
      em_workflow_role e ≠ GENERAL_MANAGER) as (e & Hine & Heid & Hng).
    { destruct (kd_leader _ _ _ _ K) as [->|[_ Hex]]; [|done].
      destruct (leader_there db d Hcm Hdin) as (e & Hine & Heid). exists e. split_and!; [done..|].
      by eapply Hg. }
    destruct (grown_forward _ _ _ _ _ He Hine) as (e2 & He2 & [K1 _ K3 _]).
    assert (e2 = e') as -> by (eapply employee_unique; [done..|congruence]).
    by apply Hng, K3.
Qed.

(** ** The constraints of the tables *)

(** A table of the organisation whose contents may change by itself. *)
Class OrgTable R `{!Table DB R} := tables_set l (db : DB) :
  tables_ok db → table_ok (R := R) (set_rows l db) = true → tables_ok (set_rows l db).

Ltac solve_org_table := intros l db [] H; destruct db; split; first [exact H|assumption].

#[export] Instance companies_org : OrgTable Company. Proof. solve_org_table. Qed.
#[export] Instance company_revisions_org : OrgTable CompanyRevision. Proof. solve_org_table. Qed.
#[export] Instance departments_org : OrgTable Department. Proof. solve_org_table. Qed.
#[export] Instance department_revisions_org : OrgTable DepartmentRevision. Proof. solve_org_table. Qed.
#[export] Instance responsibilities_org : OrgTable Responsibility. Proof. solve_org_table. Qed.
#[export] Instance employees_org : OrgTable Employee. Proof. solve_org_table. Qed.
#[export] Instance conversations_org : OrgTable Conversation. Proof. solve_org_table. Qed.
#[export] Instance messages_org : OrgTable Message. Proof. solve_org_table. Qed.
#[export] Instance tasks_org : OrgTable TS.CompanyTask. Proof. solve_org_table. Qed.
#[export] Instance events_org : OrgTable EventRow. Proof. solve_org_table. Qed.
#[export] Instance outbox_org : OrgTable OutboxRow. Proof. solve_org_table. Qed.

Class OrgRows R `{!Table DB R} := rows_well (db : DB) : tables_ok db → table_ok (R := R) db = true.
#[export] Instance companies_well : OrgRows Company := ok_companies.
#[export] Instance company_revisions_well : OrgRows CompanyRevision := ok_company_revisions.
#[export] Instance departments_well : OrgRows Department := ok_departments.
#[export] Instance department_revisions_well : OrgRows DepartmentRevision := ok_department_revisions.
#[export] Instance responsibilities_well : OrgRows Responsibility := ok_responsibilities.
#[export] Instance employees_well : OrgRows Employee := ok_employees.
#[export] Instance conversations_well : OrgRows Conversation := ok_conversations.
#[export] Instance messages_well : OrgRows Message := ok_messages.
#[export] Instance tasks_well : OrgRows TS.CompanyTask := ok_tasks.
#[export] Instance events_well : OrgRows EventRow := ok_events.
#[export] Instance outbox_well : OrgRows OutboxRow := ok_outbox.

Definition keeps_tables {A} (m : tx DB A) : Prop :=
  ∀ db a db', tables_ok db → m db = (Ok a, db') → tables_ok db'.

Lemma keeps_tables_bind {A B} (m : tx DB A) (f : A → tx DB B) :
  keeps_tables m → (∀ a, keeps_tables (f a)) → keeps_tables (m ≫= f).
Proof. intros Hm Hf db b db' Hdb (a & db1 & H1 & H2)%tx_bind_ok. by eapply Hf, H2; eapply Hm, H1. Qed.

Lemma keeps_pure {A} (m : tx DB A) : (∀ db a db', m db = (Ok a, db') → db' = db) → keeps_tables m.
Proof. intros Hm db a db' Hdb ->%Hm. done. Qed.

Lemma keeps_insert {R} `{!Table DB R, !OrgTable R, !OrgRows R} (r : R) : keeps_tables (insert_row r).
Proof.
  intros db a db' Hdb H. pose proof (insert_table_ok _ _ _ _ H (table_rows_ok _ (rows_well _ Hdb))) as Ht.
  apply insert_ok in H as (_ & _ & _ & ->). by apply tables_set.
Qed.

Lemma keeps_update {R} `{!Table DB R, !OrgTable R, !OrgRows R} p (f : R → R) : keeps_tables (update p f).
Proof.
  intros db a db' Hdb H. pose proof (update_table_ok _ _ _ _ _ H (table_rows_ok _ (rows_well _ Hdb))) as Ht.
  apply update_ok in H as (_ & _ & _ & ->). by apply tables_set.
Qed.

Lemma tables_defer b db : tables_ok db → tables_ok (set_defer b db).
Proof. intros []. by destruct db. Qed.

Lemma keeps_defer b : keeps_tables (modify (set_defer b)).
Proof. intros db a db' Hdb ->%modify_ok. by apply tables_defer. Qed.

Lemma keeps_finally {A} (m : tx DB A) : keeps_tables m → keeps_tables (finally m restore_defer).
Proof.
  intros Hm db a db' Hdb (db1 & H & ->)%finally_ok. unfold restore_defer.
  destruct (defer_fk db1); [apply tables_defer|]; by eapply Hm.
Qed.

Lemma keeps_committed {A} (m : tx DB A) : keeps_tables m → keeps_tables (committed m).
Proof. intros Hm db a db' Hdb (db1 & H & _ & ->)%committed_ok. apply tables_defer. by eapply Hm. Qed.

(** Decomposes a command into its statements. *)
Ltac keep :=
  match goal with
  | |- keeps_tables (_ ≫= _) => apply keeps_tables_bind; [|intros ?]
  | |- keeps_tables (insert_row _) => apply keeps_insert
  | |- keeps_tables (update _ _) => apply keeps_update
  | |- keeps_tables (modify (set_defer _)) => apply keeps_defer
  | |- keeps_tables (finally _ restore_defer) => apply keeps_finally
  | |- keeps_tables (if ?b then _ else _) => destruct b
  | |- keeps_tables (let '(_, _) := ?x in _) => destruct x as [? ?]
  | |- keeps_tables (write_event _ _ _ _ _ _ _ _ _) => unfold write_event; cbn [event_rows_of]
  | |- keeps_tables (lift _) => apply keeps_pure; intros ???; unfold lift; intros [= _ <-]; done
  | |- keeps_tables _ => apply keeps_pure; by intros ???; intros; sql_inv
  end.

Section Tables.
Context (nfkc lower : string → string) (sha256 : json → string) (uuid now : nat → string).

Lemma keeps_append n at_ company type id v event extra :
  keeps_tables (_append_event uuid n at_ company type id v event extra).
Proof. unfold _append_event. repeat keep. Qed.

Lemma keeps_get_employee company employee : keeps_tables (get_employee company employee).
Proof. unfold get_employee. repeat keep. Qed.
Lemma keeps_get_department company department : keeps_tables (get_department company department).
Proof. unfold get_department. repeat keep. Qed.

Lemma keeps_swap company employee v change event extra :
  keeps_tables (swap_employee uuid now company employee v change event extra).
Proof.
  unfold swap_employee. repeat first [apply keeps_append|apply keeps_get_employee|keep].
Qed.

Lemma keeps_create_company data : keeps_tables (create_company nfkc lower sha256 uuid now true data).
Proof. unfold create_company, assert_founded, assertion. repeat keep. Qed.
End Tables.

(** ** Commands *)

Inductive Command :=
  | CreateCompany (data : CompanyCreate)
  | RenameCompany (company : string) (data : CompanyUpdate) (version : Z)
  | ArchiveCompany (company : string) (version : Z)
  | CreateDepartment (company : string) (data : DepartmentCreate)
  | UpdateDepartment (company department : string) (data : DepartmentUpdate)
  | SetLeader (company department employee : string) (version : Z)
  | CreateEmployee (company department : string) (data : EmployeeCreate)
  | RenameEmployee (company employee : string) (data : EmployeeUpdateDisplay)
  | SetProfile (company employee profile : string) (version : Z)
  | SetStatus (company employee status : string) (version : Z)
  | Transfer (company employee department : string) (version : Z)
  | CreateConversation (company title : string)
  | ArchiveConversation (company conversation : string)
  | SubmitMessage (data : SubmitUserMessageRequest).

Section Commands.
Context (nfkc lower : string → string) (sha256 : json → string).

(** One command with the identifiers and clock readings of its call, its answer dropped. *)
Definition run (uuid now : nat → string) (c : Command) : tx DB unit :=
  match c with
  | CreateCompany data => create_company nfkc lower sha256 uuid now true data;; mret tt
  | RenameCompany company data v => rename_company nfkc lower sha256 uuid now true company data v;; mret tt
  | ArchiveCompany company v => archive_company uuid now company v;; mret tt
  | CreateDepartment company data => create_department nfkc lower sha256 uuid now true company data;; mret tt
  | UpdateDepartment company department data =>
      update_department nfkc lower sha256 uuid now company department data;; mret tt
  | SetLeader company department employee v => set_department_leader uuid now company department employee v;; mret tt
  | CreateEmployee company department data =>
      create_employee nfkc lower uuid now true company department data;; mret tt
  | RenameEmployee company employee data =>
      update_employee_display_name nfkc lower uuid now company employee data;; mret tt
  | SetProfile company employee profile v =>
      update_employee_base_profile uuid now company employee profile v;; mret tt
  | SetStatus company employee status v => update_employee_status uuid now company employee status v;; mret tt
  | Transfer company employee department v => transfer_employee uuid now company employee department v;; mret tt
  | CreateConversation company title => create_conversation uuid now company title;; mret tt
  | ArchiveConversation company conversation => archive_conversation now company conversation;; mret tt
  | SubmitMessage data => submit_user_message uuid now data;; mret tt
  end.

(** A command that commits; one that fails leaves the database as it was. *)
Inductive step (db db' : DB) : Prop :=
  | step_run uuid now c u : committed (run uuid now c) db = (Ok u, db') → step db db'.

(** A new database: profiles, but no company yet. *)
Definition blank (db : DB) : Prop := tables_ok db ∧ commit_ok db = true ∧ companies db = [].

Definition reachable (db : DB) : Prop := ∃ db0, blank db0 ∧ rtc step db0 db.

Lemma keeps_run uuid now c : keeps_tables (run uuid now c).
Proof.
  destruct c; unfold run, create_company, assert_founded, assertion, rename_company, archive_company,
    get_company, create_department, update_department, set_department_leader, create_employee,
    update_employee_display_name, update_employee_base_profile, update_employee_status, transfer_employee,
    create_conversation, archive_conversation, submit_user_message, intake, _active_company,
    _published_profile, _has_active_assignment;
  repeat first [apply keeps_append|apply keeps_get_employee|apply keeps_get_department|apply keeps_swap|keep].
Qed.

(** ** What each command does *)

Section Evolution.
Context (uuid now : nat → string).

(** Discharges the components of [evolves] whose table is untouched or only longer. *)
Ltac evolve :=
  match goal with
  | |- grown _ ?l [] ?l => apply grown_same; intros ?; reflexivity
  | |- grown _ ?l ?new (?l ++ ?new) => apply grown_app; intros ?; reflexivity
  | |- grown _ ?l [] (updated _ _ ?l) => apply grown_updated; [intros ?; reflexivity|intros ? ? ?; by split]
  end.

Lemma employee_row (db : DB) company employee e :
  List.find (λ e, (em_id e =? employee) && (em_company_id e =? company)) (employees db) = Some e →
  e ∈ employees db ∧ em_id e = employee ∧ em_company_id e = company.
Proof. intros [Hin%list_elem_of_In Hb]%find_some. by bools. Qed.

Lemma department_row (db : DB) company department d :
  List.find (λ d, (dp_id d =? department) && (dp_company_id d =? company)) (departments db) = Some d →
  d ∈ departments db ∧ dp_id d = department ∧ dp_company_id d = company.
Proof. intros [Hin%list_elem_of_In Hb]%find_some. by bools. Qed.

Lemma guarded_employee db company employee v f e :
  org_ok db → List.find (λ e, (em_id e =? employee) && (em_company_id e =? company)) (employees db) = Some e →
  em_workflow_role e ≠ GENERAL_MANAGER →
  (∀ x, em_id (f x) = em_id x ∧ em_company_id (f x) = em_company_id x ∧ em_workflow_role (f x) = em_workflow_role x) →
  grown keeps_employee (employees db) [] (updated (employee_at company employee v) f (employees db)).
Proof.
  intros Hok (Hin & Hid & _)%employee_row Hrole Hf.
  apply grown_updated; [intros ?; reflexivity|]. intros x Hx Hb. unfold employee_at in Hb. bools.
  assert (e = x) as -> by (eapply employee_unique; [apply Hok|done..|congruence]).
  destruct (Hf x) as (? & ? & Hr). split; [done..| |done]. by rewrite Hr.
Qed.

Lemma transfer_evolves company employee department v db r db' :
  org_ok db → transfer_employee uuid now company employee department v db = (Ok r, db') →
  evolves db db' [] [] [] [].
Proof.
  intros Hok H. unfold transfer_employee, swap_employee, _has_active_assignment in H. org_inv.
  split; cbn; try evolve. eapply guarded_employee; [done..|by bools|done].
Qed.

Lemma status_evolves company employee status v db r db' :
  org_ok db → update_employee_status uuid now company employee status v db = (Ok r, db') →
  evolves db db' [] [] [] [].
Proof.
  intros Hok H. unfold update_employee_status, swap_employee, _has_active_assignment in H. org_inv.
  all: split; cbn; try evolve; by (eapply guarded_employee; [done..|by bools|done]).
Qed.

Lemma profile_evolves company employee profile v db r db' :
  update_employee_base_profile uuid now company employee profile v db = (Ok r, db') →
  evolves db db' [] [] [] [].
Proof.
  intros H. unfold update_employee_base_profile, swap_employee in H. org_inv.
  split; cbn; try evolve.
Qed.

Lemma rename_employee_evolves company employee data db r db' :
  update_employee_display_name nfkc lower uuid now company employee data db = (Ok r, db') →
  evolves db db' [] [] [] [].
Proof.
  intros H. unfold update_employee_display_name in H. org_inv. split; cbn; try evolve.
Qed.

Lemma create_employee_evolves company department data db r db' :
  create_employee nfkc lower uuid now true company department data db = (Ok r, db') →
  evolves db db' [] [] [new_member nfkc lower uuid now company department data] [].
Proof.
  intros H. unfold create_employee in H. org_inv. split; cbn; try evolve.
Qed.

Lemma update_department_evolves company department data db r db' :
  update_department nfkc lower sha256 uuid now company department data db = (Ok r, db') →
  evolves db db' [] [] [] [].
Proof.
  intros H. unfold update_department in H. org_inv. split; cbn; try evolve.
  apply grown_updated; [intros ?; reflexivity|]. intros d _ _. split; auto.
Qed.

Lemma create_department_evolves company data db r db' :
  create_department nfkc lower sha256 uuid now true company data db = (Ok r, db') →
  evolves db db' [] [new_department nfkc lower uuid now company data]
    [new_leader nfkc lower uuid now company data] [new_department_conversation uuid now company].
Proof.
  intros H. unfold create_department in H. org_inv. unfold restore_defer. cbn. split; cbn; try evolve.
Qed.

Lemma create_company_evolves data db r db' :
  create_company nfkc lower sha256 uuid now true data db = (Ok r, db') →
  evolves db db' [new_company nfkc lower uuid now data] [new_office nfkc lower uuid now]
    [new_manager nfkc lower uuid now data] [new_company_conversation uuid now; new_office_conversation uuid now].
Proof.
  intros H. unfold create_company, assert_founded in H. org_inv. unfold restore_defer. cbn. split; cbn; try evolve.
  rewrite <-app_assoc. apply grown_app. intros ?; reflexivity.
Qed.

Lemma rename_company_evolves company data v db r db' :
  rename_company nfkc lower sha256 uuid now true company data v db = (Ok r, db') →
  evolves db db' [] [] [] [].
Proof.
  intros H. unfold rename_company in H. org_inv. unfold restore_defer. cbn. split; cbn; try evolve.
Qed.

Lemma archive_company_evolves company v db r db' :
  org_ok db → archive_company uuid now company v db = (Ok r, db') → evolves db db' [] [] [] [].
Proof.
  intros Hok H. unfold archive_company in H. org_inv. split; cbn; try evolve.
  apply grown_updated; [intros ?; reflexivity|]. intros d Hd Hb. bools. subst. split; try done; [|by left].
  intros (c' & Hc' & Hid & Hact). exfalso. cbn in Hc'.
  match goal with H : List.find _ (companies db) = Some ?c |- _ => rename c into c0; rename H into Hc0 end.
  apply find_some in Hc0 as [Hc0%list_elem_of_In Hb]. bools.
  apply elem_updated in Hc' as [[Hc' Hno]|(y & _ & _ & ->)]; [|done].
  assert (c0 = c') as -> by (eapply company_unique; [apply Hok|done..|congruence]).
  apply andb_false_iff in Hno as [Hno|Hno]; [apply String.eqb_neq in Hno|]; congruence.
Qed.

Lemma keeps_employee_trans a b c : keeps_employee a b → keeps_employee b c → keeps_employee a c.
Proof.
  intros [A1 A2 A3 A4] [B1 B2 B3 B4]. split; try congruence; [by rewrite B3|].
  intros H. rewrite B4 by (by apply A3). by apply A4.
Qed.

Lemma with_role_keeps role at_ e :
  em_workflow_role e ≠ GENERAL_MANAGER → role ≠ GENERAL_MANAGER → keeps_employee e (with_role role at_ e).
Proof. intros. by split. Qed.

Lemma member_no_manager db company department employee d e :
  org_ok db → List.find (λ d, (dp_id d =? department) && (dp_company_id d =? company)) (departments db) = Some d →
  is_office d = false →
  List.find (λ e, (em_id e =? employee) && (em_company_id e =? company)) (employees db) = Some e →
  em_department_id e = department → em_workflow_role e ≠ GENERAL_MANAGER.
Proof.
  intros Hok (Hd & Hdid & _)%department_row Hoff (He & _)%employee_row Hdep Hgm.
  destruct (og_manager _ Hok e He Hgm) as (d' & Hd' & Hid & Hoff').
  assert (d' = d) as -> by (eapply department_unique; [apply Hok|done..|congruence]). congruence.
Qed.

Lemma set_leader_evolves company department employee v db r db' :
  org_ok db → set_department_leader uuid now company department employee v db = (Ok r, db') →
  evolves db db' [] [] [] [].
Proof.
  intros Hok H. unfold set_department_leader in H. org_inv; [split; cbn; evolve|]. bools. subst.
  match goal with H1 : List.find _ (departments db) = Some ?y, H2 : List.find _ (employees db) = Some ?z |- _ =>
    rename y into d; rename z into e; rename H1 into Hd; rename H2 into He end.
  assert (em_workflow_role e ≠ GENERAL_MANAGER) as Hrole by by eapply member_no_manager.
  pose proof (department_row _ _ _ _ Hd) as (Hdin & Hdid & Hdco).
  pose proof (employee_row _ _ _ _ He) as (Hein & Heid & Heco).
  split; cbn; try evolve.
  - apply grown_updated; [intros ?; reflexivity|]. intros x Hx Hb. bools.
    assert (x = d) as -> by (eapply department_unique; [apply Hok|done..|congruence]).
    split; try done. right. split; [done|]. exists e. done.
  - exists (updated (λ x, (em_id x =? employee) && (em_company_id x =? company)) (with_role "department_leader" (now 2))
      (updated (λ x, (em_id x =? dp_leader_employee_id d) && (em_company_id x =? company))
        (with_role "member" (now 1)) (employees db))).
    rewrite app_nil_r. split; [|done]. eapply Forall2_compose; [apply keeps_employee_trans|..];
      apply Forall2_updated; try (intros ?; reflexivity); intros x Hx Hb; cbn in Hb; bools.
    + apply with_role_keeps; [|done]. by apply (og_leader _ Hok d x).
    + apply with_role_keeps; [|done].
      apply elem_updated in Hx as [[Hx _]|(y & _ & _ & ->)]; [|done].
      assert (x = e) as -> by (eapply employee_unique; [apply Hok|done..|congruence]). done.
Qed.

Lemma create_conversation_evolves company title db r db' :
  create_conversation uuid now company title db = (Ok r, db') → ∃ v, evolves db db' [] [] [] [v].
Proof.
  intros H. unfold create_conversation in H. org_inv.
  eexists. split; cbn; try evolve. apply grown_app. intros ?; reflexivity.
Qed.

Lemma archive_conversation_evolves company conversation db r db' :
  archive_conversation now company conversation db = (Ok r, db') → evolves db db' [] [] [] [].
Proof. intros H. unfold archive_conversation in H. org_inv. split; cbn; try evolve. Qed.

(** A statement of the intake leaves the organisation alone. *)
Definition aside {A} (m : tx DB A) : Prop := ∀ db a db', m db = (Ok a, db') →
  companies db' = companies db ∧ departments db' = departments db ∧ employees db' = employees db ∧
  conversations db' = conversations db.

Lemma aside_bind {A B} (m : tx DB A) (f : A → tx DB B) : aside m → (∀ a, aside (f a)) → aside (m ≫= f).
Proof.
  intros Hm Hf db b db' (a & db1 & H1 & H2)%tx_bind_ok.
  destruct (Hm _ _ _ H1) as (? & ? & ? & ?), (Hf _ _ _ _ H2) as (? & ? & ? & ?). split_and!; congruence.
Qed.

Ltac aside1 :=
  match goal with
  | |- aside (_ ≫= _) => apply aside_bind; [|intros ?]
  | |- aside (if ?b then _ else _) => destruct b
  | |- aside (let '(_, _) := ?x in _) => destruct x as [? ?]
  | |- aside (lift _) => intros ???; unfold lift; intros [= _ <-]; done
  | |- aside _ => by intros ???; intros; org_inv
  end.

Lemma submit_evolves data db r db' :
  submit_user_message uuid now data db = (Ok r, db') → evolves db db' [] [] [] [].
Proof.
  assert (aside (submit_user_message uuid now data)) as Hm
    by (unfold submit_user_message, intake; repeat aside1).
  intros (Hc & Hd & He & Hv)%Hm. split; rewrite ?Hc, ?Hd, ?He, ?Hv; evolve.
Qed.

Lemma new_company_sound data db r db' :
  create_company nfkc lower sha256 uuid now true data db = (Ok r, db') →
  sound db' (new_company nfkc lower uuid now data) (new_office nfkc lower uuid now)
    (new_manager nfkc lower uuid now data) (new_office_conversation uuid now) (new_company_conversation uuid now).
Proof.
  intros [_ Hd He Hv]%create_company_evolves.
  split; split_and!; try done; (eapply grown_new; [eassumption|]); set_solver.
Qed.
End Evolution.

Lemma org_defer b db : org_ok db → org_ok (set_defer b db).
Proof.
  intros [Ht Hc Hs Hm Hl]. split; [by apply tables_defer|by destruct db..| |by destruct db|by destruct db].
  intros c Hin Hact. assert (c ∈ companies db) as Hin' by by destruct db.
  destruct (Hs c Hin' Hact) as (o & m & r & h & []). exists o, m, r, h. by destruct db.
Qed.

Lemma evolves_quiet db db' vs :
  org_ok db → tables_ok db' → commit_ok db' = true → evolves db db' [] [] [] vs → org_ok db'.
Proof.
  intros. eapply evolves_ok; [done..| | |].
  - by intros ? ?%not_elem_of_nil.
  - by intros ? ?%not_elem_of_nil.
  - by intros ? ? ?%not_elem_of_nil.
Qed.

Lemma step_org_ok db db' : org_ok db → step db db' → org_ok db'.
Proof.
  intros Hok [uuid now c u (db1 & Hrun & Hcm & ->)%committed_ok]. apply org_defer.
  pose proof (keeps_run uuid now c db u db1 (og_tables _ Hok) Hrun) as Ht.
  destruct c; unfold run in Hrun; apply tx_bind_ok in Hrun as (a & db2 & Hrun & [_ ->]%mret_ok).
  - pose proof (new_company_sound _ _ _ _ _ _ Hrun) as Hs. apply create_company_evolves in Hrun as Hev.
    eapply evolves_ok; [done..| | |].
    + intros c ->%list_elem_of_singleton _. eauto.
    + intros e ->%list_elem_of_singleton _. exists (new_office nfkc lower uuid now).
      split_and!; [apply Hs|done..].
    + by intros d e ->%list_elem_of_singleton.
  - by apply rename_company_evolves, evolves_quiet in Hrun.
  - by apply archive_company_evolves, evolves_quiet in Hrun.
  - pose proof (create_department_evolves _ _ _ _ _ _ _ Hrun) as Hev. eapply evolves_ok; [done..| | |].
    + by intros ? ?%not_elem_of_nil.
    + by intros e ->%list_elem_of_singleton.
    + intros d e ->%list_elem_of_singleton _ He Hid.
      assert (e = new_leader nfkc lower uuid now company data) as ->; [|done].
      eapply employee_unique; [done..| |done]. eapply grown_new; [apply Hev|]. by left.
  - by apply update_department_evolves, evolves_quiet in Hrun.
  - by apply set_leader_evolves, evolves_quiet in Hrun.
  - apply create_employee_evolves in Hrun. eapply evolves_ok; [done..| | |].
    + by intros ? ?%not_elem_of_nil.
    + by intros e ->%list_elem_of_singleton.
    + by intros ? ? ?%not_elem_of_nil.
  - by apply rename_employee_evolves, evolves_quiet in Hrun.
  - by apply profile_evolves, evolves_quiet in Hrun.
  - by apply status_evolves, evolves_quiet in Hrun.
  - by apply transfer_evolves, evolves_quiet in Hrun.
  - apply create_conversation_evolves in Hrun as [v Hrun]. by apply evolves_quiet in Hrun.
  - by apply archive_conversation_evolves, evolves_quiet in Hrun.
  - by apply submit_evolves, evolves_quiet in Hrun.
Qed.

Lemma blank_org_ok db : blank db → org_ok db.
Proof.
  intros (Ht & Hc & Hn). assert (departments db = []) as Hd.
  { destruct (departments db) as [|d l] eqn:E; [done|]. unfold commit_ok in Hc. andbs.
    rewrite forallb_forall in H8. specialize (H8 d). rewrite E in H8.
    specialize (H8 ltac:(by left)). andbs. unfold has_company in *. by rewrite Hn in *. }
  assert (employees db = []) as He.
  { destruct (employees db) as [|e l] eqn:E; [done|]. unfold commit_ok in Hc. andbs.
    rewrite forallb_forall in H5. specialize (H5 e). rewrite E in H5.
    specialize (H5 ltac:(by left)). unfold employee_fk, has_department in *. andbs. by rewrite Hd in *. }
  split; [done..| | |].
  - rewrite Hn. by intros c ?%not_elem_of_nil.
  - rewrite He. by intros c ?%not_elem_of_nil.
  - rewrite Hd. by intros c ? ?%not_elem_of_nil.
Qed.

Lemma reachable_org_ok db : reachable db → org_ok db.
Proof.
  intros (db0 & Hb%blank_org_ok & Hsteps). induction Hsteps; [done|]. by apply IHHsteps, (step_org_ok x).
Qed.
End Commands.
