(* ===== verification/OrgProperties.v ===== *)
(** * Properties of the organisation

    The theorems about the commands of [Organisation]: the invariants of reachable
    databases, optimistic locking, archiving, the histories that only grow, and what the guards
    leave open. *)

From S2P Require Import Prelude PyStr Sql Zoom UnitOfWork OrgStore Company Employees Conversations Organisation.

#[local] Open Scope string_scope.

(** ** The invariants *)

Lemma sound_company_sound db c o m r h :
  tables_ok db → commit_ok db = true → c ∈ companies db → sound db c o m r h → company_sound db c = true.
Proof.
  intros Ht Hc Hin [(Ho & Ho1 & Ho2 & Ho3 & Ho4 & Ho5) (Hr & Hr1 & Hr2 & Hr3 & Hr4)
    (Hm & Hm1 & Hm2 & Hm3 & Hm4) (Hh & Hh1 & Hh2 & Hh3 & Hh4)].
  unfold company_sound. andbs.
  - unfold commit_ok in Hc. andbs. rewrite forallb_forall in H.
    specialize (H c (proj1 (list_elem_of_In _ _) Hin)). unfold company_fk in H. by andbs.
  - destruct (find_unique (DB := DB) (R := Department)
      (λ d, (dp_company_id d =? co_id c) && is_office d && (dp_status d =? "active")) (rows db) o) as [_ Hw].
    + apply (table_no_clash (R := Department)), ok_departments, Ht.
    + intros a b Ha Hb. cbn in *. bools. apply orb_true_iff. right.
      apply andb_true_iff. split; [apply String.eqb_eq; congruence|].
      apply orb_true_iff. right. by apply andb_true_iff.
    + done.
    + cbn. by rewrite Ho2, Ho3, Ho4, !String.eqb_refl.
    + change (rows db) with (departments db) in Hw. rewrite Hw, Ho1, Ho5, !String.eqb_refl. cbn. apply existsb_elem. exists r. split; [done|].
      rewrite Hr1, Hr2, Hr3, Hr4, <-Ho1, !String.eqb_refl. cbn. by rewrite String.eqb_refl.
  - apply existsb_elem. exists m. by rewrite Hm1, Hm2, Hm3, Hm4, !String.eqb_refl.
  - apply existsb_elem. exists h. by rewrite Hh1, Hh2, Hh3, Hh4, !String.eqb_refl, bool_decide_eq_true_2.
Qed.

(** A company is founded, given two departments, and its first leader is moved. *)
Module Demo.
Import OrgStore.Demo.
Definition id_name (s : string) : string := s.
Definition founding : CompanyCreate := {|
  cc_name := "Acme  Corp"; cc_introduction := "We build."; cc_general_manager_name := "Gina";
  cc_base_profile_version_id := "pv1" |}.
Definition department (name leader : string) : DepartmentCreate := {|
  dc_name := name; dc_function_description := "does things"; dc_leader_name := leader;
  dc_base_profile_version_id := "pv1" |}.
Definition play (k : string) (c : Command) (db : DB) : result unit * DB :=
  committed (run id_name id_name sha (ids k) clock c) db.
Definition db1 : DB := (play "a" (CreateCompany founding) empty).2.
Definition db2 : DB := (play "b" (CreateDepartment "a0" (department "Build" "Lea")) db1).2.
Definition db3 : DB := (play "c" (CreateDepartment "a0" (department "Test" "Tom")) db2).2.
Definition db4 : DB := (play "d" (Transfer "a0" "b2" "c0" 1) db3).2.
Definition db5 : DB := (play "e" (SetStatus "a0" "b2" "inactive" 2) db4).2.

Lemma empty_blank : blank empty.
Proof. split; [by split|done]. Qed.

Lemma play_step k c db : (play k c db).1 = Ok tt → step id_name id_name sha db (play k c db).2.
Proof.
  intros H. apply (step_run _ _ _ _ _ (ids k) clock c tt). unfold play in *.
  by destruct (committed _ db) as [r db'] eqn:E; simpl in H; subst.
Qed.
Lemma reach1 : reachable id_name id_name sha db1.
Proof. exists empty. split; [exact empty_blank|]. eapply rtc_l; [|apply rtc_refl]. apply play_step. vm_compute. reflexivity. Qed.
Lemma reach_step k c db :
  reachable id_name id_name sha db → (play k c db).1 = Ok tt → reachable id_name id_name sha (play k c db).2.
Proof. intros (db0 & Hb & Hs) H. exists db0. split; [done|]. eapply rtc_r; [done|by apply play_step]. Qed.
Lemma reach3 : reachable id_name id_name sha db3.
Proof. do 2 (apply reach_step; [|vm_compute; reflexivity]). exact reach1. Qed.
Lemma steps35 : rtc (step id_name id_name sha) db3 db5.
Proof.
  refine (rtc_l _ db3 db4 db5 (play_step "d" (Transfer "a0" "b2" "c0" 1) db3 _) _); [vm_compute; reflexivity|].
  refine (rtc_l _ db4 db5 db5 (play_step "e" (SetStatus "a0" "b2" "inactive" 2) db4 _) _); [vm_compute; reflexivity|].
  apply rtc_refl.
Qed.
Lemma reach5 : reachable id_name id_name sha db5.
Proof. do 2 (apply reach_step; [|vm_compute; reflexivity]). exact reach3. Qed.
End Demo.



(** ** Optimistic locking *)

(** The row a command names with the version it expects. *)
Inductive Target :=
  | TheCompany (company : string)
  | TheDepartment (company department : string)
  | TheEmployee (company employee : string).

Definition guarded (c : Command) : option (Target * Z) :=
  match c with
  | RenameCompany company _ v | ArchiveCompany company v => Some (TheCompany company, v)
  | UpdateDepartment company department data => Some (TheDepartment company department, du_expected_version data)
  | SetLeader company department _ v => Some (TheDepartment company department, v)
  | RenameEmployee company employee data => Some (TheEmployee company employee, ed_expected_version data)
  | SetProfile company employee _ v | SetStatus company employee _ v | Transfer company employee _ v =>
      Some (TheEmployee company employee, v)
  | _ => None
  end.

Definition version_of (db : DB) (t : Target) : option Z :=
  match t with
  | TheCompany company => co_version <$> List.find (λ c, co_id c =? company) (companies db)
  | TheDepartment company department =>
      dp_version <$> List.find (λ d, (dp_id d =? department) && (dp_company_id d =? company)) (departments db)
  | TheEmployee company employee =>
      em_version <$> List.find (λ e, (em_id e =? employee) && (em_company_id e =? company)) (employees db)
  end.

(** A row found at its version, before and after the update that names both. *)
Lemma versioned {R} `{!Table DB R} (key : R → bool) (version : R → Z) f v (db : DB) y :
  table_ok (R := R) db = true → (∀ a b, key a = true → key b = true → clash a b = true) →
  (∀ a, key (f a) = key a) → y ∈ rows db → key y = true → version y = v →
  List.find key (rows db) = Some y ∧
  List.find key (updated (λ x, key x && (version x =? v)%Z) f (rows db)) = Some (f y).
Proof.
  intros Hok Hkey Hf Hy Hky Hv. assert (Hcl := table_no_clash _ Hok).
  destruct (find_unique (DB := DB) key (rows db) y) as [Hfind _]; [done..|]. split; [done|].
  rewrite (updated_ext _ key f).
  - apply find_updated; [done|]. intros x. by rewrite Hf.
  - intros x Hx. destruct (key x) eqn:Hkx; [|done].
    assert (x = y) as -> by by eapply (unique_row (DB := DB) key (rows db)).
    rewrite Hv. by apply Z.eqb_refl.
Qed.

(** The row the [SELECT ... WHERE version=?] of a command found. *)
Ltac the_row p y :=
  match goal with H : List.find p _ = Some ?z |- _ =>
    rename z into y; apply find_some in H as [Hy%list_elem_of_In Hyp] end.

Section Locking.
Context (nfkc lower : string → string) (sha256 : json → string) (uuid now : nat → string).

Lemma employee_key company employee (a b : Employee) :
  (em_id a =? employee) && (em_company_id a =? company) = true →
  (em_id b =? employee) && (em_company_id b =? company) = true → clash (DB := DB) a b = true.
Proof. intros Ha Hb. bools. cbn. apply orb_true_iff. left. apply String.eqb_eq. congruence. Qed.
Lemma department_key company department (a b : Department) :
  (dp_id a =? department) && (dp_company_id a =? company) = true →
  (dp_id b =? department) && (dp_company_id b =? company) = true → clash (DB := DB) a b = true.
Proof. intros Ha Hb. bools. cbn. apply orb_true_iff. left. apply String.eqb_eq. congruence. Qed.
Lemma company_key company (a b : Company) :
  (co_id a =? company) = true → (co_id b =? company) = true → clash (DB := DB) a b = true.
Proof. intros Ha Hb. bools. cbn. apply orb_true_iff. left. apply String.eqb_eq. congruence. Qed.

Definition bumped (db db' : DB) (t : Target) (v : Z) : Prop :=
  version_of db t = Some v ∧ version_of db' t = Some (v + 1).

Lemma where_one {R} (p : R → bool) l : (Z.of_nat (length (where_ p l)) =? 1)%Z = true → ∃ y, y ∈ l ∧ p y = true.
Proof.
  destruct (where_ p l) as [|y w] eqn:E; [done|]. intros _. exists y.
  assert (y ∈ where_ p l) as ?%elem_where by (rewrite E; by left). done.
Qed.

Lemma employee_bumped company employee v f db db' y :
  tables_ok db → employees db' = updated (employee_at company employee v) f (employees db) →
  (∀ x, em_id (f x) = em_id x ∧ em_company_id (f x) = em_company_id x) →
  (∀ x, em_version x = v → em_version (f x) = v + 1)%Z →
  y ∈ employees db → employee_at company employee v y = true →
  bumped db db' (TheEmployee company employee) v.
Proof.
  intros Ht He Hf Hv Hy Hp. unfold employee_at in Hp. apply andb_true_iff in Hp as [Hk Hver]. apply Z.eqb_eq in Hver.
  destruct (versioned (λ e, (em_id e =? employee) && (em_company_id e =? company)) em_version f v db y)
    as [H1 H2]; [apply Ht|apply employee_key| |done..|].
  { intros a. by destruct (Hf a) as [-> ->]. }
  unfold bumped, version_of. rewrite He. cbn [rows employees_table] in H1, H2. unfold employee_at. rewrite H1, H2. cbn.
  rewrite Hver, (Hv y Hver). done.
Qed.

Lemma department_bumped company department v f db db' y :
  tables_ok db →
  departments db' = updated (λ x, (dp_id x =? department) && (dp_company_id x =? company) && (dp_version x =? v)%Z)
    f (departments db) →
  (∀ x, dp_id (f x) = dp_id x ∧ dp_company_id (f x) = dp_company_id x) →
  (∀ x, dp_version x = v → dp_version (f x) = v + 1)%Z →
  y ∈ departments db → (dp_id y =? department) && (dp_company_id y =? company) && (dp_version y =? v)%Z = true →
  bumped db db' (TheDepartment company department) v.
Proof.
  intros Ht He Hf Hv Hy Hp. apply andb_true_iff in Hp as [Hk Hver]. apply Z.eqb_eq in Hver.
  destruct (versioned (λ d, (dp_id d =? department) && (dp_company_id d =? company)) dp_version f v db y)
    as [H1 H2]; [apply Ht|apply department_key| |done..|].
  { intros a. by destruct (Hf a) as [-> ->]. }
  unfold bumped, version_of. rewrite He. cbn [rows departments_table] in H1, H2. rewrite H1, H2. cbn.
  rewrite Hver, (Hv y Hver). done.
Qed.

Lemma company_bumped company v f db db' y :
  tables_ok db →
  companies db' = updated (λ x, (co_id x =? company) && (co_version x =? v)%Z) f (companies db) →
  (∀ x, co_id (f x) = co_id x) → (∀ x, co_version x = v → co_version (f x) = v + 1)%Z →
  y ∈ companies db → (co_id y =? company) && (co_version y =? v)%Z = true →
  bumped db db' (TheCompany company) v.
Proof.
  intros Ht He Hf Hv Hy Hp. apply andb_true_iff in Hp as [Hk Hver]. apply Z.eqb_eq in Hver.
  destruct (versioned (λ c, co_id c =? company) co_version f v db y)
    as [H1 H2]; [apply Ht|apply company_key| |done..|].
  { intros a. by rewrite Hf. }
  unfold bumped, version_of. rewrite He. cbn [rows companies_table] in H1, H2. rewrite H1, H2. cbn.
  rewrite Hver, (Hv y Hver). done.
Qed.

(** The row of an [UPDATE ... WHERE version=?] that changed one. *)
Ltac swapped :=
  match goal with H : (Z.of_nat _ =? 1)%Z = true |- _ => apply where_one in H as (y & Hy & Hp) end;
  eapply employee_bumped; [done|reflexivity|done| |eassumption|eassumption]; intros ? E; cbn; by rewrite E.

Lemma run_bumped c t v db u db' :
  tables_ok db → guarded c = Some (t, v) → run nfkc lower sha256 uuid now c db = (Ok u, db') →
  bumped db db' t v ∨
  ∃ company department employee, c = SetLeader company department employee v ∧ db' = db ∧
    dp_leader_employee_id <$> List.find (λ d, (dp_id d =? department) && (dp_company_id d =? company))
      (departments db) = Some employee.
Proof.
  intros Ht Hg Hrun. destruct c; try discriminate Hg; injection Hg as <- <-; unfold run in Hrun;
    apply tx_bind_ok in Hrun as (a & db2 & Hrun & [_ ->]%mret_ok).
  - left. unfold rename_company in Hrun. org_inv. the_row (λ c : Company, (co_id c =? company) && (co_version c =? version)%Z) y.
    assert (version = co_version y) as -> by (apply andb_true_iff in Hyp as [_ E]; by apply Z.eqb_eq in E).
    unfold restore_defer. cbn. eapply company_bumped; [done|reflexivity|done|done|exact Hy|exact Hyp].
  - left. unfold archive_company in Hrun. org_inv. the_row (λ c : Company, (co_id c =? company) && (co_version c =? version)%Z) y.
    eapply company_bumped; [done|reflexivity|done|done|exact Hy|exact Hyp].
  - left. unfold update_department in Hrun. org_inv.
    the_row (λ d : Department, (dp_id d =? department) && (dp_company_id d =? company) &&
      (dp_version d =? du_expected_version data)%Z) y.
    eapply department_bumped; [done|reflexivity|done|done|exact Hy|exact Hyp].
  - unfold set_department_leader in Hrun. org_inv.
    + right. exists company, department, employee. split_and!; [done..|]. rewrite H. cbn. by bools; subst.
    + left. match goal with H : (Z.of_nat _ =? 1)%Z = true |- _ => apply where_one in H as (y & Hy & Hp) end.
      eapply department_bumped; [done|reflexivity|done| |exact Hy|exact Hp]. intros z Hz. cbn. by rewrite Hz.
  - left. unfold update_employee_display_name in Hrun. org_inv.
    the_row (employee_at company employee (ed_expected_version data)) y.
    eapply employee_bumped; [done|reflexivity|done|done|exact Hy|exact Hyp].
  - left. unfold update_employee_base_profile, swap_employee in Hrun. org_inv. swapped.
  - left. unfold update_employee_status, swap_employee, _has_active_assignment in Hrun. org_inv; swapped.
  - left. unfold transfer_employee, swap_employee, _has_active_assignment in Hrun. org_inv. swapped.
Qed.
End Locking.



(** ** Archiving *)

Definition idle (db : DB) (company : string) : bool :=
  negb (existsb (λ t, (TS.ct_company_id t =? company) && negb (TS.ct_status t ∈? ENDED_TASKS)) (company_tasks db)) &&
  negb (busy ENDED_RUNS company (agent_runs (work db))) &&
  negb (existsb (λ a, (ac_company_id a =? company) && (ac_status a ∈? OPEN_APPROVALS)) (human_approvals (work db))) &&
  negb (busy ENDED_REVIEWS company (review_assignments (work db))) &&
  negb (busy ENDED_WORKSPACES company (task_workspaces (work db))).

(** The rows of other companies. *)
Definition others {R} (company_of : R → string) (company : string) (l : list R) : list R :=
  where_ (λ r, negb (company_of r =? company)) l.

Lemma others_updated {R} (company_of : R → string) company p f (l : list R) :
  (∀ r, p r = true → company_of r = company ∧ company_of (f r) = company) →
  others company_of company (updated p f l) = others company_of company l.
Proof.
  intros Hp. unfold others, where_. induction l as [|r l IH]; simpl; [done|]. destruct (p r) eqn:E.
  - destruct (Hp r E) as [-> ->]. by rewrite String.eqb_refl.
  - by rewrite IH.
Qed.

Lemma all_updated {R} (p q : R → bool) f (l : list R) :
  (∀ r, p r = true → q (f r) = true) → forallb q (where_ p (updated p f l)) = true.
Proof.
  intros Hq. apply forallb_forall. intros x Hx%list_elem_of_In. apply elem_where in Hx as [Hx Hpx].
  apply elem_updated in Hx as [[_ Hno]|(y & _ & Hy & ->)]; [congruence|auto].
Qed.

(** What is left of a company. *)
Definition all_archived (db : DB) (company : string) : bool :=
  forallb (λ c, co_status c =? "archived") (where_ (λ c, co_id c =? company) (companies db)) &&
  forallb (λ d, dp_status d =? "archived") (where_ (λ d, dp_company_id d =? company) (departments db)) &&
  forallb (λ v, cv_status v =? "archived") (where_ (λ v, cv_company_id v =? company) (conversations db)) &&
  forallb (λ e, em_status e =? "inactive") (where_ (λ e, em_company_id e =? company) (employees db)).

(** The command names a company, and may only run while it is active. *)
Definition needs_active (c : Command) : option string :=
  match c with
  | CreateCompany _ | SetLeader _ _ _ _ | ArchiveConversation _ _ => None
  | RenameCompany company _ _ | ArchiveCompany company _ | CreateDepartment company _
  | UpdateDepartment company _ _ | CreateEmployee company _ _ | RenameEmployee company _ _
  | SetProfile company _ _ _ | SetStatus company _ _ _ | Transfer company _ _ _
  | CreateConversation company _ => Some company
  | SubmitMessage data => Some (sm_company_id data)
  end.

Section Archive.
Context (nfkc lower : string → string) (sha256 : json → string) (uuid now : nat → string).

Lemma archive_ok company v db c db' :
  tables_ok db → archive_company uuid now company v db = (Ok c, db') →
  idle db company = true ∧ all_archived db' company = true ∧ co_id c = company ∧ co_status c = "archived" ∧
  others co_id company (companies db') = others co_id company (companies db) ∧
  others dp_company_id company (departments db') = others dp_company_id company (departments db) ∧
  others cv_company_id company (conversations db') = others cv_company_id company (conversations db) ∧
  others em_company_id company (employees db') = others em_company_id company (employees db).
Proof.
  intros Ht H. unfold archive_company in H. org_inv.
  the_row (λ c : Company, (co_id c =? company) && (co_version c =? v)%Z) y.
  apply find_some in H as [Hc%list_elem_of_In Hid]. apply String.eqb_eq in Hid.
  assert (∀ x, x ∈ updated (λ x, (co_id x =? company) && (co_version x =? v)%Z) (archived_company (now 0) (v + 1))
    (companies db) → co_id x = company → co_status x = "archived") as Hall.
  { intros x [[Hx Hno]|(z & _ & _ & ->)]%elem_updated Hxid; [|done].
    apply andb_true_iff in Hyp as [Hyid Hyv]. apply String.eqb_eq in Hyid. apply Z.eqb_eq in Hyv.
    assert (y = x) as -> by (eapply company_unique; [done..|congruence]).
    exfalso. apply andb_false_iff in Hno as [Hno|Hno]; [apply String.eqb_neq in Hno|apply Z.eqb_neq in Hno]; congruence. }
  split; [unfold idle; by andbs|]. split.
  { unfold all_archived. cbn. andbs; try by apply all_updated.
    apply forallb_forall. intros x Hx%list_elem_of_In. apply elem_where in Hx as [Hx Hxid].
    apply String.eqb_eq, Hall; [done|by apply String.eqb_eq]. }
  split_and!; [done|by apply Hall|..]; apply others_updated; intros x Hx; cbn; by bools.
Qed.

Ltac found_active :=
  match goal with H : List.find _ (companies _) = Some ?y |- _ =>
    apply find_some in H as [?%list_elem_of_In ?]; exists y; bools; split_and!; [done|congruence|congruence] end.

Lemma needs_active_ok company c db u db' :
  needs_active c = Some company → run nfkc lower sha256 uuid now c db = (Ok u, db') → active_in db company.
Proof.
  intros Hn Hrun. destruct c; try discriminate Hn; injection Hn as <-; unfold run in Hrun;
    apply tx_bind_ok in Hrun as (a & db2 & Hrun & [_ ->]%mret_ok).
  - unfold rename_company in Hrun. org_inv. found_active.
  - unfold archive_company in Hrun. org_inv. found_active.
  - unfold create_department in Hrun. org_inv. found_active.
  - unfold update_department in Hrun. org_inv. found_active.
  - unfold create_employee in Hrun. org_inv. found_active.
  - unfold update_employee_display_name in Hrun. org_inv. found_active.
  - unfold update_employee_base_profile, swap_employee in Hrun. org_inv. found_active.
  - unfold update_employee_status, swap_employee, _has_active_assignment in Hrun. org_inv; found_active.
  - unfold transfer_employee, swap_employee, _has_active_assignment in Hrun. org_inv. found_active.
  - unfold create_conversation in Hrun. org_inv.
    destruct (List.find _ (companies db)) as [y|] eqn:?; [found_active|done].
  - unfold submit_user_message in Hrun. org_inv. found_active.
Qed.
End Archive.

Lemma committed_err {A} (m : tx DB A) db e db' : committed m db = (Err e, db') → db' = db.
Proof.
  unfold committed. destruct (m db) as [[a|e'] db1]; [|naive_solver]. destruct (commit_ok db1); naive_solver.
Qed.



(** ** What the guards leave open *)

(** The leader of an active department may be transferred to another department and
    deactivated: in a reachable database an active department is led by an inactive member
    of another one. *)
Lemma leaders_may_leave :
  reachable Demo.id_name Demo.id_name OrgStore.Demo.sha Demo.db5 ∧
  ∃ d e, d ∈ departments Demo.db5 ∧ dp_status d = "active" ∧ is_office d = false ∧
    e ∈ employees Demo.db5 ∧ em_id e = dp_leader_employee_id d ∧ em_department_id e ≠ dp_id d ∧
    em_status e = "inactive" ∧ em_workflow_role e = "department_leader".
Proof.
  split; [exact Demo.reach5|]. do 2 eexists.
  split; [vm_compute; right; left|]. split; [reflexivity|]. split; [reflexivity|].
  split; [vm_compute; right; left|]. split_and!; done.
Qed.

(** A transfer into a department that has an employee of the same name fails on the
    table's constraint, not with the code the other commands answer. *)
Lemma transfer_name_clash :
  let '(_, db) := Demo.play "c" (CreateDepartment "a0" (Demo.department "Test" "Lea")) Demo.db2 in
  (Demo.play "d" (Transfer "a0" "b2" "c0" 1) db).1 = Err (IntegrityErr "employees").
Proof. vm_compute. reflexivity. Qed.

(** A message to an archived conversation starts a task. *)
Lemma archived_conversation_takes_messages :
  let '(_, db) := Demo.play "c" (ArchiveConversation "a0" "a5") Demo.db1 in
  (Demo.play "d" (SubmitMessage {| sm_company_id := "a0"; sm_conversation_id := "a5"; sm_content := "hello";
     sm_target_task_id := None; sm_supersedes_task_id := None |}) db).1 = Ok tt.
Proof. vm_compute. reflexivity. Qed.

(** A blank message fails with [IndexError], after its event was written. *)
Lemma blank_message_fails :
  (Demo.play "d" (SubmitMessage {| sm_company_id := "a0"; sm_conversation_id := "a5"; sm_content := "  ";
     sm_target_task_id := None; sm_supersedes_task_id := None |}) Demo.db1).1 = Err IndexError.
Proof. vm_compute. reflexivity. Qed.

(** ** History *)

(** What is only ever appended to. *)
Record appended (db db' : DB) : Prop := {
  ap_company_revisions : company_revisions db `prefix_of` company_revisions db';
  ap_department_revisions : department_revisions db `prefix_of` department_revisions db';
  ap_messages : messages db `prefix_of` messages db';
  ap_events : event_rows db `prefix_of` event_rows db';
  ap_outbox : outbox_rows db `prefix_of` outbox_rows db' }.

#[export] Instance appended_refl : Reflexive appended.
Proof. by split. Qed.
#[export] Instance appended_trans : Transitive appended.
Proof. intros a b c [] []. split; by etrans. Qed.

Definition appends {A} (m : tx DB A) : Prop := ∀ db a db', m db = (Ok a, db') → appended db db'.

Lemma appends_bind {A B} (m : tx DB A) (f : A → tx DB B) : appends m → (∀ a, appends (f a)) → appends (m ≫= f).
Proof. intros Hm Hf db b db' (a & db1 & H1 & H2)%tx_bind_ok. etrans; [by eapply Hm|by eapply Hf]. Qed.

Lemma appends_defer b : appends (modify (set_defer b)).
Proof. intros db a db' ->%modify_ok. by destruct db. Qed.

Lemma appends_finally {A} (m : tx DB A) : appends m → appends (finally m restore_defer).
Proof.
  intros Hm db a db' (db1 & H & ->)%finally_ok. etrans; [by eapply Hm|]. unfold restore_defer.
  by destruct db1 as [[] ?].
Qed.

Ltac appending :=
  match goal with
  | |- appends (_ ≫= _) => apply appends_bind; [|intros ?]
  | |- appends (insert_row _) =>
      intros ? ? ? (_ & _ & _ & ->)%insert_ok; split; cbn; first [reflexivity|by apply prefix_app_r]
  | |- appends (update _ _) => intros ? ? ? (_ & _ & _ & ->)%update_ok; by split
  | |- appends (modify (set_defer _)) => apply appends_defer
  | |- appends (finally _ restore_defer) => apply appends_finally
  | |- appends (if ?b then _ else _) => destruct b
  | |- appends (let '(_, _) := ?x in _) => destruct x as [? ?]
  | |- appends (lift _) => intros ???; unfold lift; intros [= _ <-]; done
  | |- appends _ => by intros ???; intros; sql_inv
  end.

Lemma run_appends nfkc lower sha256 uuid now c : appends (run nfkc lower sha256 uuid now c).
Proof.
  destruct c; unfold run, create_company, assert_founded, assertion, rename_company, archive_company,
    get_company, create_department, update_department, set_department_leader, create_employee,
    update_employee_display_name, update_employee_base_profile, update_employee_status, transfer_employee,
    create_conversation, archive_conversation, submit_user_message, intake, _active_company, swap_employee,
    _published_profile, _has_active_assignment, _append_event, write_event, get_employee, get_department;
  cbn [event_rows_of]; repeat appending.
Qed.


