(* ===== verification/Founding.v ===== *)
(** * Founding succeeds

    [create_company] on a database whose constraints hold: with a published profile, a new
    name, texts of the admitted lengths and unused identifiers, every statement of the
    transaction goes through, its six assertions hold and it commits. *)

From S2P Require Import Prelude PyStr Sql Zoom UnitOfWork OrgStore Company Employees Conversations Organisation OrgProperties.

#[local] Open Scope string_scope.

(** ** Foreign keys, row by row *)

Record linked (db : DB) : Prop := {
  lk_companies c : c ∈ companies db → company_fk db c = true;
  lk_company_revisions r : r ∈ company_revisions db → company_revision_fk db r = true;
  lk_departments d : d ∈ departments db → has_company db (dp_company_id d) && department_fk db d = true;
  lk_department_revisions r : r ∈ department_revisions db → department_revision_fk db r = true;
  lk_responsibilities r : r ∈ department_responsibilities db → responsibility_fk db r = true;
  lk_employees e : e ∈ employees db → employee_fk db e = true;
  lk_conversations v : v ∈ conversations db → conversation_fk db v = true;
  lk_messages m : m ∈ messages db → message_fk db m = true;
  lk_tasks t : t ∈ company_tasks db → task_fk db t = true;
  lk_events e : e ∈ event_rows db → event_fk db e = true;
  lk_outbox o : o ∈ outbox_rows db → outbox_fk db o = true }.

Lemma forallb_elem {A} (p : A → bool) l : forallb p l = true ↔ ∀ x, x ∈ l → p x = true.
Proof. rewrite forallb_forall. by setoid_rewrite <-list_elem_of_In. Qed.

Lemma commit_linked db : commit_ok db = true ↔ linked db.
Proof.
  unfold commit_ok. rewrite !andb_true_iff, !forallb_elem. split.
  - intros [[[[[[[[[[]]]]]]]]]]. by split.
  - intros []. by split_and!.
Qed.

(** A database that has more rows offers more parents. *)
Record offers (db db' : DB) : Prop := {
  of_profiles : profile_versions db' = profile_versions db;
  of_companies : companies db ⊆ companies db';
  of_company_revisions : company_revisions db ⊆ company_revisions db';
  of_departments : departments db ⊆ departments db';
  of_department_revisions : department_revisions db ⊆ department_revisions db';
  of_employees : employees db ⊆ employees db';
  of_conversations : conversations db ⊆ conversations db';
  of_events : event_rows db ⊆ event_rows db';
  of_tasks : company_tasks db ⊆ company_tasks db' }.

Lemma existsb_more {A} (p : A → bool) l l' : l ⊆ l' → existsb p l = true → existsb p l' = true.
Proof. rewrite !existsb_elem. intros Hl (x & Hx & Hp). eauto. Qed.

Lemma null_or_more (p q : string → bool) o :
  (∀ x, p x = true → q x = true) → null_or p o = true → null_or q o = true.
Proof. destruct o; simpl; auto. Qed.

Section Offers.
Context (db db' : DB) (Ho : offers db db').

Lemma has_more :
  (∀ c, has_company db c = true → has_company db' c = true) ∧
  (∀ i c, has_revision db i c = true → has_revision db' i c = true) ∧
  (∀ i c, has_department db i c = true → has_department db' i c = true) ∧
  (∀ i d c, has_department_revision db i d c = true → has_department_revision db' i d c = true) ∧
  (∀ i c, has_employee db i c = true → has_employee db' i c = true) ∧
  (∀ i c, has_conversation db i c = true → has_conversation db' i c = true) ∧
  (∀ i, has_profile db i = true → has_profile db' i = true) ∧
  (∀ i, has_event db i = true → has_event db' i = true) ∧
  (∀ i c, has_event_of db i c = true → has_event_of db' i c = true) ∧
  (∀ i c, has_task db i c = true → has_task db' i c = true).
Proof.
  destruct Ho. split_and!; intros *; try (by apply existsb_more).
  unfold has_profile. by rewrite of_profiles0.
Qed.

(** Its old rows keep their parents. *)
Lemma fk_more :
  (∀ c, company_fk db c = true → company_fk db' c = true) ∧
  (∀ r, company_revision_fk db r = true → company_revision_fk db' r = true) ∧
  (∀ d, has_company db (dp_company_id d) && department_fk db d = true →
     has_company db' (dp_company_id d) && department_fk db' d = true) ∧
  (∀ r, department_revision_fk db r = true → department_revision_fk db' r = true) ∧
  (∀ r, responsibility_fk db r = true → responsibility_fk db' r = true) ∧
  (∀ e, employee_fk db e = true → employee_fk db' e = true) ∧
  (∀ v, conversation_fk db v = true → conversation_fk db' v = true) ∧
  (∀ m, message_fk db m = true → message_fk db' m = true) ∧
  (∀ t, task_fk db t = true → task_fk db' t = true) ∧
  (∀ e, event_fk db e = true → event_fk db' e = true) ∧
  (∀ o, outbox_fk db o = true → outbox_fk db' o = true).
Proof.
  destruct has_more as (H1 & H2 & H3 & H4 & H5 & H6 & H7 & H8 & H9 & H10).
  unfold company_fk, company_revision_fk, department_fk, department_revision_fk, responsibility_fk, employee_fk,
    conversation_fk, message_fk, task_fk, event_fk, outbox_fk.
  split_and!; intros x Hx; andbs; auto; try (destruct (company_id (ev_event x)); auto; done);
    (eapply null_or_more; [|eassumption]; cbn; auto).
Qed.
End Offers.

(** An [INSERT] of a row that clashes with none. *)
Lemma insert_new {R} `{!Table DB R} (r : R) (db : DB) :
  row_ok r = true → no_clash (rows db) = true → (∀ x, x ∈ rows db → clash x r = false) →
  refs_ok (set_rows (rows db ++ [r]) db) r = true →
  insert_row r db = (Ok tt, set_rows (rows db ++ [r]) db).
Proof. intros. apply insert_ok. split_and!; [done|by apply no_clash_snoc|done..]. Qed.

(** ** Founding *)

Section Founding.
Context (nfkc lower : string → string) (sha256 : json → string) (uuid now : nat → string) (data : CompanyCreate).
Context (db : DB).

(** The identifiers the call draws are new. *)
Record unused : Prop := {
  un_company c : c ∈ companies db → co_id c ≠ uuid 0;
  un_company_revision r : r ∈ company_revisions db → cr_id r ≠ uuid 1;
  un_office d : d ∈ departments db → dp_id d ≠ uuid 2;
  un_office_revision r : r ∈ department_revisions db → dr_id r ≠ uuid 3;
  un_manager e : e ∈ employees db → em_id e ≠ uuid 4;
  un_conversation v : v ∈ conversations db → cv_id v ≠ uuid 5;
  un_office_conversation v : v ∈ conversations db → cv_id v ≠ uuid 6;
  un_both : uuid 5 ≠ uuid 6;
  un_responsibility r : r ∈ department_responsibilities db → rs_id r ≠ uuid 7;
  un_event e : e ∈ event_rows db → event_id (ev_event e) ≠ uuid 8;
  un_outbox o : o ∈ outbox_rows db → ob_id o ≠ uuid 10 }.

(** What the schema of the request and the caller guarantee. *)
Record can_found : Prop := {
  cf_tables : tables_ok db;
  cf_linked : linked db;
  cf_defer : defer_fk db = false;
  cf_profile : ∃ p, p ∈ profile_versions db ∧ pf_id p = cc_base_profile_version_id data ∧ pf_status p = "published";
  cf_given : cc_base_profile_version_id data ≠ "";
  cf_name : between 1 100 (cc_name data) = true;
  cf_introduction : between 1 20000 (cc_introduction data) = true;
  cf_manager : between 1 100 (cc_general_manager_name data) = true;
  cf_sha j : py_len (sha256 j) = 64%Z;
  cf_new c : c ∈ companies db → co_normalized_name c ≠ _normalize_name nfkc lower (cc_name data);
  cf_unused : unused }.

Definition founding_event : EventRow * OutboxRow :=
  event_rows_of uuid 8 (now 0) (uuid 0) "company" (uuid 0) 1 "company.created" (founding_payload uuid data).

(** The database with the company's rows, before and after its event. *)
Definition inserted : DB := {|
  defer_fk := true; profile_versions := profile_versions db;
  companies := companies db ++ [new_company nfkc lower uuid now data];
  company_revisions := company_revisions db ++ [new_company_revision sha256 uuid now data];
  departments := departments db ++ [new_office nfkc lower uuid now];
  department_revisions := department_revisions db ++ [new_office_revision sha256 uuid now];
  department_responsibilities := department_responsibilities db ++ [new_responsibility uuid now];
  employees := employees db ++ [new_manager nfkc lower uuid now data];
  conversations := (conversations db ++ [new_company_conversation uuid now]) ++ [new_office_conversation uuid now];
  messages := messages db; company_tasks := company_tasks db; work := work db; idem_rows := idem_rows db;
  event_rows := event_rows db; outbox_rows := outbox_rows db |}.

Definition founded : DB :=
  set_rows (outbox_rows db ++ [founding_event.2]) (set_rows (event_rows db ++ [founding_event.1]) inserted).

Hypothesis Hcan : can_found.

Lemma no_rows_of_new_company :
  (∀ r, r ∈ company_revisions db → cr_company_id r ≠ uuid 0) ∧
  (∀ d, d ∈ departments db → dp_company_id d ≠ uuid 0) ∧
  (∀ v, v ∈ conversations db → cv_company_id v ≠ uuid 0) ∧
  (∀ r, r ∈ department_revisions db → dr_department_id r ≠ uuid 2) ∧
  (∀ r, r ∈ department_responsibilities db → rs_department_id r ≠ uuid 2) ∧
  (∀ e, e ∈ employees db → em_department_id e ≠ uuid 2).
Proof.
  destruct Hcan as [_ [L1 L2 L3 L4 L5 L6 L7 _ _ _ _] _ _ _ _ _ _ _ _ [U1 _ U3 _ _ _ _ _ _ _ _]].
  assert (∀ i, has_company db i = true → i ≠ uuid 0) as Hc.
  { intros i (c & Hc & Hi%String.eqb_eq)%existsb_elem ->. by apply (U1 c). }
  assert (∀ i c, has_department db i c = true → i ≠ uuid 2) as Hd.
  { intros i c (d & Hd & Hb)%existsb_elem ->. bools. by apply (U3 d). }
  split_and!; intros x Hx.
  - by apply Hc, L2.
  - specialize (L3 x Hx). andbs. by apply Hc.
  - specialize (L7 x Hx). unfold conversation_fk in L7. andbs. by apply Hc.
  - specialize (L4 x Hx). unfold department_revision_fk in L4. andbs. by eapply Hd.
  - specialize (L5 x Hx). by eapply Hd.
  - specialize (L6 x Hx). unfold employee_fk in L6. andbs. by eapply Hd.
Qed.

Lemma present_elem {A} (p : A → bool) l x : x ∈ l → p x = true → present (List.find p l) = true.
Proof.
  intros Hx Hp. destruct (List.find p l) eqn:E; [done|]. exfalso.
  pose proof (find_none _ _ E x (proj1 (list_elem_of_In _ _) Hx)). congruence.
Qed.

(** A new row is the only one a condition on its fresh key selects. *)
Lemma where_fresh {A} (p : A → bool) l x : (∀ y, y ∈ l → p y = false) → p x = true → where_ p (l ++ [x]) = [x].
Proof.
  intros Hl Hx. unfold where_. rewrite List.filter_app. simpl. rewrite Hx.
  rewrite filter_none; [done|]. apply Forall_forall. auto.
Qed.

(** The old rows do not clash with a new one: their keys differ. *)
Ltac differ :=
  let x := fresh "x" in let Hx := fresh "Hx" in let Hc := fresh "Hc" in
  intros x Hx; apply not_true_iff_false; intros Hc; cbn in Hc;
  repeat match type of Hc with _ || _ = true => apply orb_true_iff in Hc as [Hc|Hc] end; bools;
  match goal with U : ∀ y, y ∈ _ → _ ≠ _ |- _ => by apply (U x Hx) end.

(** One [INSERT] of the transaction. *)
Ltac inserting :=
  etrans; [apply tx_bind_run, insert_new; [|by apply table_no_clash|differ|reflexivity]|].

Ltac by_elem r := eapply (present_elem _ _ r); [set_solver|cbn; rewrite !String.eqb_refl; done].

Lemma assertions_hold : assert_founded uuid inserted = (Ok tt, inserted).
Proof.
  destruct no_rows_of_new_company as (_ & N2 & _).
  destruct Hcan as [_ _ _ _ _ _ _ _ _ _ [_ _ U3 _ _ _ _ _ _ _ _]].
  unfold assert_founded, assertion.
  etrans; [apply tx_bind_run; by apply select_one_ok|]. etrans; [apply tx_bind_run|].
  { apply check_ok. split; [|done]. by_elem (new_company_revision sha256 uuid now data). }
  etrans; [apply tx_bind_run; by apply select_ok|]. etrans; [apply tx_bind_run|].
  { apply check_ok. split; [|done]. cbn [rows departments_table inserted departments]. rewrite where_fresh; [done| |].
    - intros y Hy. unfold company_uuid, office_uuid. rewrite (proj2 (String.eqb_neq _ _) (N2 y Hy)). done.
    - cbn. by rewrite !String.eqb_refl. }
  etrans; [apply tx_bind_run; by apply select_one_ok|]. etrans; [apply tx_bind_run|].
  { apply check_ok. split; [|done]. by_elem (new_manager nfkc lower uuid now data). }
  etrans; [apply tx_bind_run; by apply select_one_ok|]. etrans; [apply tx_bind_run|].
  { apply check_ok. split; [|done]. cbn [rows departments_table inserted departments].
    rewrite find_where, where_fresh.
    - cbn. by rewrite String.eqb_refl.
    - intros y Hy. unfold company_uuid, office_uuid. rewrite (proj2 (String.eqb_neq _ _) (U3 y Hy)). done.
    - cbn. by rewrite !String.eqb_refl. }
  etrans; [apply tx_bind_run; by apply select_one_ok|]. etrans; [apply tx_bind_run|].
  { apply check_ok. split; [|done]. by_elem (new_company_conversation uuid now). }
  etrans; [apply tx_bind_run; by apply select_one_ok|].
  apply check_ok. split; [|done]. by_elem (new_office_conversation uuid now).
  Unshelve. all: exact tt.
Qed.

Lemma founding_inserts :
  (insert_row (new_company nfkc lower uuid now data);;
   insert_row (new_company_revision sha256 uuid now data);;
   insert_row (new_office nfkc lower uuid now);;
   insert_row (new_office_revision sha256 uuid now);;
   insert_row (new_responsibility uuid now);;
   insert_row (new_manager nfkc lower uuid now data);;
   insert_row (new_company_conversation uuid now);;
   insert_row (new_office_conversation uuid now);;
   assert_founded uuid;;
   write_event uuid 8 (now 0) (company_uuid uuid) "company" (company_uuid uuid) 1 "company.created"
     (founding_payload uuid data);;
   mret (new_company nfkc lower uuid now data)) (set_defer true db) = (Ok (new_company nfkc lower uuid now data), founded).
Proof.
  destruct no_rows_of_new_company as (N1 & N2 & N3 & N4 & N5 & N6).
  destruct Hcan as [[T1 T2 T3 T4 T5 T6 T7 _ _ T10 T11] _ _ _ _ F1 F2 F3 F4 F5 [U1 U2 U3 U4 U5 U6 U7 U8 U9 U10 U11]].
  inserting; [reflexivity|]. inserting; [cbn; by rewrite F1, F2, F4|]. inserting; [reflexivity|].
  inserting; [cbn; by rewrite F4|]. inserting; [reflexivity|]. inserting; [cbn; by rewrite F3|].
  inserting; [reflexivity|].
  etrans; [apply tx_bind_run, insert_new; [reflexivity|..|reflexivity]|].
  { apply no_clash_snoc; [by apply table_no_clash|differ]. }
  { intros x [Hx| ->%list_elem_of_singleton]%elem_of_app.
    - revert x Hx. differ.
    - cbn. apply orb_false_iff. split; [by apply String.eqb_neq|by rewrite String.eqb_refl]. }
  match goal with |- _ ?s = _ => change s with inserted end.
  etrans; [apply tx_bind_run, assertions_hold|]. etrans; [apply tx_bind_run|].
  { unfold write_event. cbn [event_rows_of].
    etrans; [apply tx_bind_run, insert_new; [done|by apply table_no_clash|differ|reflexivity]|].
    apply insert_new; [done|by apply table_no_clash|differ|reflexivity]. }
  done.
Qed.

Lemma create_company_run :
  create_company nfkc lower sha256 uuid now true data db =
    (Ok (new_company nfkc lower uuid now data), set_defer false founded).
Proof.
  pose proof founding_inserts as Hins.
  destruct Hcan as [_ _ Hdef (p & Hp & Hpid & Hpub) Hgiven _ _ _ _ Hnew _]. unfold create_company.
  etrans; [apply tx_bind_run, check_ok; split; [by apply negb_true_iff, String.eqb_neq|reflexivity]|].
  etrans; [apply tx_bind_run; by apply gets_ok|].
  etrans; [apply tx_bind_run, check_ok; split; [|reflexivity]|].
  { destruct (where_ _ (profile_versions db)) as [|q w] eqn:E; [|done]. exfalso.
    rewrite where_nil in E. specialize (E p Hp). by rewrite Hpid, Hpub, !String.eqb_refl in E. }
  etrans; [apply tx_bind_run; by apply select_one_ok|].
  etrans; [apply tx_bind_run, check_ok; split; [|reflexivity]|].
  { apply negb_true_iff. destruct (List.find _ _) as [c|] eqn:E; [|done]. exfalso.
    apply find_some in E as [Hc%list_elem_of_In E%String.eqb_eq]. by apply (Hnew c). }
  etrans; [apply tx_bind_run, check_ok; split; reflexivity|].
  etrans; [apply tx_bind_run; by apply gets_ok|].
  etrans; [apply tx_bind_run, check_ok; split; [done|reflexivity]|].
  etrans; [apply tx_bind_run; by apply modify_ok|].
  apply finally_ok. exists founded. split; [exact Hins|done].
  Unshelve. all: exact tt.
Qed.

Lemma founded_offers : offers db (set_defer false founded).
Proof. split; cbn; try done; intros x Hx; rewrite ?elem_of_app; auto. Qed.

Ltac parent r := apply existsb_elem; exists r; split; [cbn; rewrite ?elem_of_app, ?list_elem_of_singleton; auto|cbn; rewrite ?String.eqb_refl; reflexivity].

Lemma founded_linked : linked (set_defer false founded).
Proof.
  destruct (fk_more _ _ founded_offers) as (M1 & M2 & M3 & M4 & M5 & M6 & M7 & M8 & M9 & M10 & M11).
  destruct Hcan as [_ [L1 L2 L3 L4 L5 L6 L7 L8 L9 L10 L11] _ (p & Hp & Hpid & _) _ _ _ _ _ _ _].
  assert (has_company (set_defer false founded) (uuid 0) = true) as Hco by parent (new_company nfkc lower uuid now data).
  assert (has_department (set_defer false founded) (uuid 2) (uuid 0) = true) as Hde by parent (new_office nfkc lower uuid now).
  split; intros x Hx; cbn in Hx; try (by auto); apply elem_of_app in Hx as [Hx|Hx]; try (by auto).
  - apply list_elem_of_singleton in Hx as ->. unfold company_fk.
    andbs; [parent (new_company_revision sha256 uuid now data)|done|
      parent (new_manager nfkc lower uuid now data)|parent (new_company_conversation uuid now)].
  - by apply list_elem_of_singleton in Hx as ->.
  - apply list_elem_of_singleton in Hx as ->. unfold department_fk.
    andbs; [done|parent (new_office_revision sha256 uuid now)|
      parent (new_manager nfkc lower uuid now data)|parent (new_office_conversation uuid now)].
  - apply list_elem_of_singleton in Hx as ->. unfold department_revision_fk. by andbs.
  - by apply list_elem_of_singleton in Hx as ->.
  - apply list_elem_of_singleton in Hx as ->. unfold employee_fk. andbs; [|done].
    apply existsb_elem. exists p. split; [done|]. by apply String.eqb_eq.
  - apply elem_of_app in Hx as [Hx|Hx]; [by auto|]. apply list_elem_of_singleton in Hx as ->.
    unfold conversation_fk. by andbs.
  - apply list_elem_of_singleton in Hx as ->. unfold conversation_fk. by andbs.
  - by apply list_elem_of_singleton in Hx as ->.
  - apply list_elem_of_singleton in Hx as ->. unfold outbox_fk. parent (founding_event.1).
Qed.
End Founding.

(** The demo founding meets its conditions. *)
Lemma demo_can_found :
  can_found Demo.id_name Demo.id_name OrgStore.Demo.sha (OrgStore.Demo.ids "a") Demo.founding OrgStore.Demo.empty.
Proof.
  split; [by split|by apply commit_linked|done| |done..| | ].
  - exists {| pf_id := "pv1"; pf_status := "published" |}. split; [by left|done].
  - by intros c ?%not_elem_of_nil.
  - split; first [by intros c ?%not_elem_of_nil|done].
Qed.

(** C23. Founding a company succeeds and is whole.  On any database whose constraints hold,
    with a published profile, a name no company has after normalisation, texts of the
    lengths the request schema admits and unused identifiers, the transaction goes through,
    its assertions and its deferred foreign keys hold at the commit, the pragma is off
    again, and exactly the company, its revision, its office with revision and
    responsibility, its general manager, the two conversations, one event and one outbox row
    have been added; the six invariants hold of the new company. *)
Theorem create_company_founds nfkc lower sha256 uuid now data db :
  can_found nfkc lower sha256 uuid data db →
  let c := new_company nfkc lower uuid now data in
  let db' := set_defer false (founded nfkc lower sha256 uuid now data db) in
  committed (create_company nfkc lower sha256 uuid now true data) db = (Ok c, db') ∧
  tables_ok db' ∧ commit_ok db' = true ∧ company_sound db' c = true.
Proof.
  intros Hcan c db'. pose proof (create_company_run _ _ _ _ now _ _ Hcan) as Hrun.
  assert (commit_ok db' = true) as Hcm by by apply commit_linked, founded_linked.
  assert (tables_ok db') as Ht by (eapply keeps_create_company, Hrun; apply Hcan).
  split_and!; [|done..|].
  - apply committed_ok. exists db'. split_and!; [exact Hrun|done|done].
  - eapply sound_company_sound; [done..| |by eapply new_company_sound].
    cbn. apply elem_of_app. right. by left.
Qed.

Lemma create_company_founds_witness :
  company_sound (set_defer false (founded Demo.id_name Demo.id_name OrgStore.Demo.sha (OrgStore.Demo.ids "a")
    OrgStore.Demo.clock Demo.founding OrgStore.Demo.empty))
    (new_company Demo.id_name Demo.id_name (OrgStore.Demo.ids "a") OrgStore.Demo.clock Demo.founding) = true.
Proof.
  exact (proj2 (proj2 (proj2 (create_company_founds Demo.id_name Demo.id_name OrgStore.Demo.sha
    (OrgStore.Demo.ids "a") OrgStore.Demo.clock Demo.founding OrgStore.Demo.empty demo_can_found)))).
Defined.
