(* ===== verification/Intake.v ===== *)
(** * The intake of a user message

    What [submit_user_message] writes, on each of its three ways, and the pages in which
    companies, departments, employees and messages are read. *)

From S2P Require Import Prelude PyStr PyOrder Sql Zoom UnitOfWork OrgStore Company Employees Conversations Organisation OrgProperties.
From S2P Require TaskStore.

#[local] Open Scope string_scope.
#[local] Open Scope list_scope.

Definition task_is (id company : string) (t : TS.CompanyTask) : bool :=
  (TS.ct_id t =? id) && (TS.ct_company_id t =? company).

(** How the tasks change, by the intake mode of the answer. *)
Definition intake_tasks (uuid now : nat → string) (data : SubmitUserMessageRequest) (mode task : string)
    (version : Z) (before after : list TS.CompanyTask) : Prop :=
  let company := sm_company_id data in
  if mode =? "plan_revision" then
    sm_target_task_id data = Some task ∧
    ∃ t, List.find (task_is task company) before = Some t ∧ TS.ct_status t ∈ AWAITING_USER ∧
      version = (TS.ct_version t + 1)%Z ∧
      after = updated (task_is task company) (revision_requested (now 0%nat) version) before
  else
    task = uuid 2%nat ∧ version = 1 ∧ given (sm_target_task_id data) = false ∧
    (mode = "new_task" ∧ given (sm_supersedes_task_id data) = false ∨
     mode = "superseding_task" ∧ ∃ old t, sm_supersedes_task_id data = Some old ∧
       List.find (task_is old company) before = Some t ∧ TS.ct_status t ∈ SUPERSEDABLE) ∧
    ∃ line, first_line (strip (sm_content data)) = Ok line ∧
      after = before ++ [draft_task now (uuid 2%nat) (uuid 0%nat) (py_take 200 line) data].

Section Intake.
Context (uuid now : nat → string) (data : SubmitUserMessageRequest).

Lemma given_some o : given o = true → o = Some (or_else o "").
Proof. destruct o as [s|]; unfold given; cbn; [|done]. by destruct (s =? ""). Qed.

Lemma intake_ok db task version status mode n db1 :
  intake uuid data db = (Ok (task, version, status, mode, n), db1) →
  db1 = db ∧
  if given (sm_target_task_id data) then
    mode = "plan_revision" ∧ status = "revision_requested" ∧ sm_target_task_id data = Some task ∧
    ∃ t, List.find (task_is task (sm_company_id data)) (company_tasks db) = Some t ∧
      TS.ct_status t ∈ AWAITING_USER ∧ version = (TS.ct_version t + 1)%Z
  else
    task = uuid 2%nat ∧ version = 1 ∧ status = "draft" ∧
    (mode = "new_task" ∧ given (sm_supersedes_task_id data) = false ∨
     mode = "superseding_task" ∧ ∃ old t, sm_supersedes_task_id data = Some old ∧
       List.find (task_is old (sm_company_id data)) (company_tasks db) = Some t ∧ TS.ct_status t ∈ SUPERSEDABLE).
Proof.
  unfold intake. destruct (given (sm_target_task_id data)) eqn:Hg.
  - intros H. sql_inv. apply mret_ok in H as [[= -> -> -> -> ->] ->]. bools. apply given_some in Hg.
    split_and!; try done. eauto 10.
  - destruct (given (sm_supersedes_task_id data)) eqn:Hs; intros H; sql_inv;
      apply mret_ok in H as [[= -> -> -> -> ->] ->]; bools; split_and!; try done.
    + right. apply given_some in Hs. split; [done|]. eauto 10.
    + by left.
Qed.
End Intake.

(** C21. The intake of a user message.  A message is taken only in a conversation of an
    active company that belongs to no department; it adds exactly one message, one event
    and one outbox row asking for an analysis, all three of one task, and answers with that
    task.  For a message about a task, the task was waiting for the user or already under
    revision, and it alone is changed, to revision requested at its next version; any other
    message starts one draft task named after the first line of the text, after a failed or
    cancelled task when it names one to supersede. *)
Theorem message_intake uuid now data db r db' :
  submit_user_message uuid now data db = (Ok r, db') →
  let company := sm_company_id data in
  let task := sr_company_task_id r in
  active_in db company ∧
  (∃ v, v ∈ conversations db ∧ cv_id v = sm_conversation_id data ∧ cv_company_id v = company ∧
     cv_conversation_type v = "company" ∧ cv_department_id v = None) ∧
  messages db' = messages db ++ [user_message now (uuid 1%nat) task (uuid 0%nat) data] ∧
  sr_message_id r = uuid 1%nat ∧
  ∃ e o, event_rows db' = event_rows db ++ [e] ∧ outbox_rows db' = outbox_rows db ++ [o] ∧
    event_id (ev_event e) = uuid 0%nat ∧ aggregate_id (ev_event e) = task ∧
    ob_domain_event_id o = uuid 0%nat ∧ ob_topic o = "company_task.analysis.requested" ∧
    ob_payload o = Dumped (payload_json (ev_event e)) ∧ ob_status o = "pending" ∧
    (sr_task_status r = if sr_intake_mode r =? "plan_revision" then "revision_requested" else "draft") ∧
    intake_tasks uuid now data (sr_intake_mode r) task (aggregate_version (ev_event e))
      (company_tasks db) (company_tasks db').
Proof.
  intros H company task. unfold submit_user_message in H.
  apply tx_bind_ok in H as (? & ? & [Hboth ->]%check_ok & H).
  apply tx_bind_ok in H as (co & ? & [-> ->]%select_one_ok & H).
  apply tx_bind_ok in H as (cv & ? & [-> ->]%select_one_ok & H).
  apply tx_bind_ok in H as (c & ? & [Hc ->]%found_ok & H).
  apply tx_bind_ok in H as (v & ? & [Hv ->]%found_ok & H).
  apply tx_bind_ok in H as (? & ? & [Hact ->]%check_ok & H).
  apply tx_bind_ok in H as (? & ? & [Hkind ->]%check_ok & H).
  apply tx_bind_ok in H as ([[[[t version] status] mode] n] & ? & [-> Hin]%intake_ok & H).
  apply find_some in Hc as [Hc%list_elem_of_In Hid], Hv as [Hv%list_elem_of_In Hvid].
  split; [exists c; split_and!; [done|by apply String.eqb_eq..]|].
  split; [exists v; bools; split_and!; done|].
  destruct (given (sm_target_task_id data)) eqn:Hg.
  - destruct Hin as (-> & -> & Htarget & task0 & Htask & Hst & ->). org_inv.
    split_and!; [done..|]. do 2 eexists. split_and!; try done. unfold intake_tasks. cbn.
    split; [done|]. exists task0. by split_and!.
  - destruct Hin as (-> & -> & -> & Hmode). org_inv. unfold lift in *. simplify_eq/=.
    split_and!; [done..|]. do 2 eexists. split_and!; try done.
    + by destruct Hmode as [[-> _]|[-> _]].
    + unfold intake_tasks. cbn. destruct Hmode as [[-> ?]|[-> ?]]; cbn; split_and!; eauto.
Qed.

(** ** Pages

    A cursor names the last row of a page by its creation time and identifier; the next page
    holds the rows strictly after it. *)

Lemma NoDup_List_filter {A} (q : A → bool) l : NoDup l → NoDup (List.filter q l).
Proof.
  induction 1 as [|x l Hx _ IH]; simpl; [constructor|]. destruct (q x); [|done]. constructor; [|done].
  intros Hin%list_elem_of_In. apply filter_In in Hin as [Hin _]. by apply Hx, list_elem_of_In.
Qed.

Section Pages.
Context {R : Type} (cmp : R → R → comparison) `{!Ordering cmp}.

Definition after (r x : R) : bool := match cmp r x with Lt => true | _ => false end.

(** Distinct rows do not tie. *)
Definition distinct (l : list R) : Prop := NoDup l ∧ ∀ x y, x ∈ l → y ∈ l → cmp x y = Eq → x = y.

Lemma sort_filter (q : R → bool) l :
  distinct l → sort_key cmp (List.filter q l) = List.filter q (sort_key cmp l).
Proof.
  intros [_ Htie]. assert (∀ x, x ∈ List.filter q l → x ∈ l) as Hsub
    by (intros x Hx; apply list_elem_of_In, filter_In in Hx as [Hx _]; by apply list_elem_of_In).
  apply (StronglySorted_unique_strong (ordered (leb_of cmp))).
  - intros x y Hx%elem_of_sort_by%Hsub Hy%list_elem_of_In Hxy Hyx.
    apply filter_In in Hy as [Hy%list_elem_of_In%elem_of_sort_by _]. apply Htie; [done..|].
    unfold ordered, leb_of in *. rewrite (cmp_flip cmp x y) in Hyx. by destruct (cmp x y).
  - by apply sort_key_sorted.
  - pose proof (sort_key_sorted cmp l) as Hs. induction Hs as [|x l' Hs IH Hx]; simpl; [constructor|].
    destruct (q x); [|done]. constructor; [done|]. rewrite Forall_forall in *.
    intros y Hy%list_elem_of_In. apply filter_In in Hy as [Hy _]. by apply Hx, list_elem_of_In.
  - unfold sort_key. rewrite sort_by_perm. apply filter_perm. by rewrite sort_by_perm.
Qed.

Lemma filter_after l i r :
  NoDup l → (∀ x y, x ∈ l → y ∈ l → cmp x y = Eq → x = y) → StronglySorted (ordered (leb_of cmp)) l →
  l !! i = Some r → List.filter (after r) l = drop (S i) l.
Proof.
  intros Hnd Htie Hs. revert i. induction Hs as [|x l Hs IH Hx]; intros i Hi; [done|].
  apply NoDup_cons in Hnd as [Hnx Hnd]. rewrite Forall_forall in Hx. unfold ordered in Hx.
  destruct i as [|i]; simpl in Hi.
  - injection Hi as ->. simpl. assert (after r r = false) as -> by (unfold after; by rewrite cmp_refl).
    rewrite filter_all; [done|]. apply Forall_forall. intros y Hy. unfold after.
    specialize (Hx y Hy). apply leb_of_iff in Hx. destruct (cmp r y) eqn:E; [|done..].
    exfalso. apply Hnx. by rewrite (Htie r y ltac:(left) ltac:(by right) E).
  - assert (r ∈ l) as Hr by by eapply list_elem_of_lookup_2.
    assert (after r x = false) as Hax.
    { unfold after. rewrite (cmp_flip cmp x r). specialize (Hx r Hr). apply leb_of_iff in Hx.
      by destruct (cmp x r). }
    simpl. rewrite Hax. rewrite IH with (i := i); [done|done| |done].
    intros y z Hy Hz. apply Htie; by right.
Qed.

(** The rows after the [i]-th of the sorted ones are those that come after it. *)
Lemma sorted_after (q : R → bool) l i r :
  distinct l → sort_key cmp (List.filter q l) !! i = Some r →
  sort_key cmp (List.filter (λ x, q x && after r x) l) = drop (S i) (sort_key cmp (List.filter q l)).
Proof.
  intros Hd Hi. destruct Hd as [Hnd Htie].
  assert (List.filter (λ x, q x && after r x) l = List.filter (after r) (List.filter q l)) as ->.
  { clear. induction l as [|x l IH]; simpl; [done|]. destruct (q x); simpl; [|done]. by rewrite IH. }
  assert (distinct (List.filter q l)) as Hq.
  { split; [by apply NoDup_List_filter|]. intros x y Hx Hy.
    apply list_elem_of_In, filter_In in Hx as [Hx _], Hy as [Hy _]. by apply Htie; apply list_elem_of_In. }
  rewrite sort_filter by done. apply filter_after; [| |by apply sort_key_sorted|done].
  - unfold sort_key. rewrite sort_by_perm. apply Hq.
  - intros x y Hx%elem_of_sort_by Hy%elem_of_sort_by. by apply Hq.
Qed.
End Pages.

(** Reading a list by pages: the first page starts at its head, and the page after the
    [i]-th element right behind it. *)
Definition paged {R} (read : option (string * string) → tx DB (list R)) (key : R → string * string)
    (limit : Z) (all : list R) (db : DB) : Prop :=
  read None db = (Ok (limited limit all), db) ∧
  ∀ i r, all !! i = Some r → read (Some (key r)) db = (Ok (limited limit (drop (S i) all)), db).

Section Cursors.
Context {R : Type} (created id : R → string).

Definition cursor (r : R) : string * string := (created r, id r).
Definition oldest : R → R → comparison := on cursor (lex String.compare String.compare).
Definition newest : R → R → comparison := on cursor (backwards (lex String.compare String.compare)).

#[local] Instance oldest_ordering : Ordering oldest.
Proof. unfold oldest. apply _. Qed.
#[local] Instance newest_ordering : Ordering newest.
Proof. unfold newest. apply _. Qed.

Lemma compare_eqb a b : (a =? b) = match String.compare a b with Eq => true | _ => false end.
Proof.
  destruct (String.compare a b) eqn:E.
  - apply String.compare_eq_iff in E as ->. apply String.eqb_refl.
  - apply String.eqb_neq. intros ->. by rewrite (cmp_refl String.compare) in E.
  - apply String.eqb_neq. intros ->. by rewrite (cmp_refl String.compare) in E.
Qed.

Lemma newest_first_leb a b : newest_first created id a b = leb_of newest a b.
Proof.
  unfold newest_first, leb_of, newest, on, backwards, lex, cursor, text_lt, text_le, String.ltb, String.leb. cbn.
  rewrite compare_eqb, (cmp_flip String.compare (created b) (created a)).
  destruct (String.compare (created b) (created a)); cbn; [|done..]. by destruct (String.compare (id b) (id a)).
Qed.

Lemma older_after r x : older created id (cursor r) x = after newest r x.
Proof.
  unfold older, after, newest, on, backwards, lex, cursor, text_lt, String.ltb. cbn.
  rewrite compare_eqb. destruct (String.compare (created x) (created r)); cbn; [|done..].
  by destruct (String.compare (id x) (id r)).
Qed.

Lemma ties (l : list R) (cmp : R → R → comparison) :
  cmp = oldest ∨ cmp = newest → NoDup l → (∀ x y, x ∈ l → y ∈ l → id x = id y → x = y) → distinct cmp l.
Proof.
  intros Hcmp Hnd Hid. split; [done|]. intros x y Hx Hy E. apply Hid; [done..|].
  destruct Hcmp as [->| ->]; unfold oldest, newest, on, backwards, lex, cursor in E; cbn in E.
  - destruct (String.compare (created x) (created y)); [|done..]. by apply String.compare_eq_iff.
  - destruct (String.compare (created y) (created x)); [|done..]. symmetry. by apply String.compare_eq_iff.
Qed.

Lemma page_of_paged `{!Table DB R} (p : R → bool) limit (db : DB) :
  NoDup (rows db) → (∀ x y : R, x ∈ rows db → y ∈ rows db → id x = id y → x = y) →
  paged (page_of created id p limit) cursor limit (sort_key newest (List.filter p (rows db))) db.
Proof.
  intros Hnd Hid. assert (∀ l, sort_by (newest_first created id) l = sort_key newest l) as Hsort.
  { intros l. unfold sort_key. induction l as [|x l IH]; simpl; [done|]. rewrite IH.
    generalize (sort_by (leb_of newest) l) as m. induction m as [|y m IHm]; simpl; [done|].
    rewrite newest_first_leb. by rewrite IHm. }
  split; [|intros i r Hi]; unfold page_of, select, gets, mbind, tx_bind, mret, tx_ret; rewrite Hsort; unfold where_.
  - do 4 f_equal. apply List.filter_ext. intros x. by rewrite andb_true_r.
  - rewrite (List.filter_ext _ (λ x, p x && after newest r x)) by (intros x; by rewrite older_after).
    rewrite (sorted_after newest p (rows db) i r); [done|by apply ties; [right|..]|done].
Qed.
End Cursors.

Section Reads.
Context (db : DB).

Lemma clash_nodup {R} `{!Table DB R} : (∀ r, clash r r = true) → no_clash (rows db) = true → NoDup (rows db).
Proof.
  intros Hr Hl. induction (rows db) as [|r l IH]; [constructor|]. simpl in Hl. andbs. constructor; [|auto].
  intros Hin. apply negb_true_iff, existsb_none with (x := r) in H; [|done]. by rewrite Hr in H.
Qed.

Lemma read_paged {R} `{!Table DB R} (created id : R → string) p limit :
  table_ok (R := R) db = true → (∀ a b : R, id a = id b → clash a b = true) →
  paged (page_of created id p limit) (cursor created id) limit
    (sort_key (newest created id) (List.filter p (rows db))) db.
Proof.
  intros Hok Hid. assert (Hcl := table_no_clash _ Hok). apply page_of_paged.
  - apply clash_nodup; [|done]. intros r. by apply Hid.
  - intros x y Hx Hy Heq. eapply (unique_row (DB := DB) (λ r, id r =? id y) (rows db)); try done.
    + intros a b Ha Hb. bools. apply Hid. congruence.
    + by apply String.eqb_eq.
    + apply String.eqb_refl.
Qed.

Lemma oldest_first_leb a b : oldest_first a b = leb_of (oldest ms_created_at ms_id) a b.
Proof.
  unfold oldest_first, leb_of, oldest, on, lex, cursor, text_lt, text_le, String.ltb, String.leb. cbn.
  rewrite compare_eqb. destruct (String.compare (ms_created_at a) (ms_created_at b)); cbn; [|done..].
  by destruct (String.compare (ms_id a) (ms_id b)).
Qed.

Lemma newer_after r x : newer (cursor ms_created_at ms_id r) x = after (oldest ms_created_at ms_id) r x.
Proof.
  unfold newer, after, oldest, on, lex, cursor, text_lt, String.ltb. cbn.
  rewrite compare_eqb, (cmp_flip String.compare (ms_created_at r) (ms_created_at x)).
  destruct (String.compare (ms_created_at r) (ms_created_at x)); cbn; [|done..].
  by destruct (String.compare (ms_id r) (ms_id x)).
Qed.

Lemma list_messages_paged company conversation limit :
  table_ok (R := Message) db = true →
  paged (list_messages company conversation limit) (cursor ms_created_at ms_id) limit
    (sort_key (oldest ms_created_at ms_id) (List.filter (λ m, (ms_company_id m =? company) &&
       (ms_conversation_id m =? conversation)) (messages db))) db.
Proof.
  intros Hok. assert (Hcl := table_no_clash _ Hok).
  assert (∀ a b : Message, ms_id a = ms_id b → clash (DB := DB) a b = true) as Hid
    by (intros a b Hab; cbn; apply orb_true_iff; left; by apply String.eqb_eq).
  assert (distinct (oldest ms_created_at ms_id) (messages db)) as Hd.
  { apply (ties ms_created_at ms_id); [by left|exact (clash_nodup (R := Message) (λ r, Hid r r eq_refl) Hcl)|].
    intros x y Hx Hy Heq. eapply (unique_row (DB := DB) (R := Message) (λ r, ms_id r =? ms_id y) (rows db)); try done.
    + intros a b Ha Hb. bools. apply Hid. congruence.
    + by apply String.eqb_eq.
    + apply String.eqb_refl. }
  assert (∀ l, sort_by oldest_first l = sort_key (oldest ms_created_at ms_id) l) as Hsort.
  { intros l. unfold sort_key. induction l as [|x l IH]; simpl; [done|]. rewrite IH.
    generalize (sort_by (leb_of (oldest ms_created_at ms_id)) l) as m. induction m as [|y m IHm]; simpl; [done|].
    rewrite oldest_first_leb. by rewrite IHm. }
  split; [|intros i r Hi]; unfold list_messages, select, gets, mbind, tx_bind, mret, tx_ret; rewrite Hsort; unfold where_.
  - do 4 f_equal. apply List.filter_ext. intros x. by rewrite andb_true_r.
  - rewrite (List.filter_ext _ (λ x, ((ms_company_id x =? company) && (ms_conversation_id x =? conversation)) &&
      after (oldest ms_created_at ms_id) r x)) by (intros x; by rewrite newer_after).
    pose proof (oldest_ordering ms_created_at ms_id).
    by rewrite (sorted_after (oldest ms_created_at ms_id) _ (messages db) i r).
Qed.

(** Reading page by page.  Companies, departments and employees are listed newest
    first, messages oldest first; the first page is the head of that list, and the page
    after a cursor made of a row's creation time and identifier continues right behind that
    row, so that no row is shown twice or left out. *)
Lemma cursor_pages company department conversation limit :
  tables_ok db →
  paged (list_companies limit) (cursor co_created_at co_id) limit
    (sort_key (newest co_created_at co_id) (companies db)) db ∧
  paged (list_departments company limit) (cursor dp_created_at dp_id) limit
    (sort_key (newest dp_created_at dp_id) (List.filter (λ d, dp_company_id d =? company) (departments db))) db ∧
  paged (list_employees company department limit) (cursor em_created_at em_id) limit
    (sort_key (newest em_created_at em_id) (List.filter (λ e, (em_company_id e =? company) &&
       match department with Some d => em_department_id e =? d | None => true end) (employees db))) db ∧
  paged (list_messages company conversation limit) (cursor ms_created_at ms_id) limit
    (sort_key (oldest ms_created_at ms_id) (List.filter (λ m, (ms_company_id m =? company) &&
       (ms_conversation_id m =? conversation)) (messages db))) db.
Proof.
  intros Ht. split_and!.
  - pose proof (read_paged co_created_at co_id (λ _, true) limit (ok_companies _ Ht)) as H.
    rewrite filter_all in H by by apply Forall_forall. apply H.
    intros a b Hab. cbn. apply orb_true_iff. left. by apply String.eqb_eq.
  - apply (read_paged dp_created_at dp_id _ limit (ok_departments _ Ht)).
    intros a b Hab. cbn. apply orb_true_iff. left. by apply String.eqb_eq.
  - apply (read_paged em_created_at em_id _ limit (ok_employees _ Ht)).
    intros a b Hab. cbn. apply orb_true_iff. left. by apply String.eqb_eq.
  - apply list_messages_paged, Ht.
Qed.
End Reads.

(** The employees of the demo company, one and two at a time. *)
Lemma cursor_pages_witness :
  (em_id <$> (sort_key (newest em_created_at em_id) (List.filter (λ e, (em_company_id e =? "a0") && true)
     (employees Demo.db5)))) = ["c2"; "b2"; "a4"] ∧
  ∃ e, em_id e = "c2" ∧
    list_employees "a0" None 1 (Some (cursor em_created_at em_id e)) Demo.db5 =
      (Ok (limited 1 (drop 1 (sort_key (newest em_created_at em_id)
         (List.filter (λ e, (em_company_id e =? "a0") && true) (employees Demo.db5))))), Demo.db5).
Proof.
  split; [vm_compute; reflexivity|].
  eexists. split; [|apply (proj2 (proj1 (proj2 (proj2 (cursor_pages Demo.db5 "a0" None "a5" 1
    (og_tables _ (reachable_org_ok _ _ _ _ Demo.reach5)))))) 0%nat)]; [|vm_compute; reflexivity]. reflexivity.
Defined.

Lemma message_intake_witness :
  let data := {| sm_company_id := "a0"; sm_conversation_id := "a5"; sm_content := " Build it
now "; sm_target_task_id := None; sm_supersedes_task_id := None |} in
  match submit_user_message (OrgStore.Demo.ids "m") OrgStore.Demo.clock data Demo.db1 with
  | (Ok r, db') => sr_intake_mode r = "new_task" ∧ sr_message_id r = "m1" ∧
      TS.ct_title <$> company_tasks db' = ["Build it"]
  | (Err _, _) => False
  end.
Proof.
  intros data. destruct (submit_user_message _ _ data Demo.db1) as [[r|e] db'] eqn:E;
    [|exfalso; vm_compute in E; discriminate E].
  destruct (message_intake _ _ _ _ _ _ E) as (_ & _ & _ & H & _).
  split; [vm_compute in E; injection E as <- _; reflexivity|]. split; [exact H|].
  vm_compute in E. injection E as _ <-. reflexivity.
Defined.
