(* ===== verification/Permissions.v ===== *)
(** * Permissions

    [runtime/permission_gateway.py]: whether a tool call is allowed, denied or asked about;
    [security/rbac.py]: what a role may do.  A rule table is a dict in insertion order. *)

From S2P Require Import Prelude PyEnum PyStr PyText Sql.

#[local] Open Scope string_scope.

(** ** Merged dicts *)

Section Dict.
Context {V : Type}.
Implicit Types (d : list (string * V)).

(** [{**d, **e}] *)
Definition dict_update d (e : list (string * V)) : list (string * V) :=
  fold_left (λ d kv, dict_set d kv.1 kv.2) e d.

(** The last binding of a key in [e] wins, then [d]'s. *)
Lemma dict_get_update d e k :
  dict_get (dict_update d e) k = match dict_get (rev e) k with Some v => Some v | None => dict_get d k end.
Proof.
  unfold dict_update. rewrite <-fold_left_rev_right. induction (rev e) as [|[k' v] l IH]; simpl; [done|].
  rewrite dict_get_set, IH. by case_bool_decide.
Qed.

(** The keys of [d] keep their places in front. *)
Lemma dict_set_keys k v d : ∃ new, (dict_set d k v).*1 = (d.*1 ++ new)%list.
Proof.
  induction d as [|[k0 v0] d [new IH]]; simpl; [by exists [k]|]. case_bool_decide; simpl.
  - exists []. by rewrite app_nil_r.
  - exists new. exact (f_equal (cons k0) IH).
Qed.

Lemma dict_update_keys d e : ∃ new, (dict_update d e).*1 = (d.*1 ++ new)%list.
Proof.
  unfold dict_update. revert d. induction e as [|[k v] e IH]; intros d; simpl; [exists []; by rewrite app_nil_r|].
  destruct (IH (dict_set d k v)) as [new Hnew], (dict_set_keys k v d) as [n Hn].
  exists (n ++ new)%list. rewrite Hn in Hnew. by rewrite app_assoc.
Qed.

Lemma dict_update_nodup d e : NoDup d.*1 → NoDup (dict_update d e).*1.
Proof.
  unfold dict_update. revert d. induction e as [|[k v] e IH]; intros d Hd; simpl; [done|].
  apply IH. by apply (dict_set_nodup d).
Qed.
End Dict.

(** ** runtime/permission_gateway.py *)

(* [sidecar/ibreeze/runtime/permission_gateway.py:8-11 PermissionDecision] *)
Definition ALLOW : string := "allow".
Definition DENY : string := "deny".
Definition ASK : string := "ask".

(* [sidecar/ibreeze/runtime/permission_gateway.py:15-25 DEFAULT_RULES] *)
Definition DEFAULT_RULES : list (string * string) :=
  [("read", ALLOW); ("write", ALLOW); ("edit", ALLOW); ("glob", ALLOW); ("grep", ALLOW);
   ("bash", ASK); ("shell", ASK); ("delete", ASK); ("exec", ASK)].

(* [sidecar/ibreeze/runtime/permission_gateway.py:28-48 check_permission] *)
Definition check_permission (tool_name : string) (custom_rules : list (string * string)) : string :=
  let rules := dict_update DEFAULT_RULES custom_rules in
  match dict_get rules tool_name with
  | Some decision => decision
  | None =>
      match List.find (λ r, starts_with r.1 tool_name) rules with
      | Some r => r.2
      | None => ASK
      end
  end.

(* [sidecar/ibreeze/runtime/permission_gateway.py:51-53 is_denied] *)
Definition is_denied (tool_name : string) (custom_rules : list (string * string)) : bool :=
  check_permission tool_name custom_rules =? DENY.

(* [sidecar/ibreeze/runtime/permission_gateway.py:56-58 requires_approval] *)
Definition requires_approval (tool_name : string) (custom_rules : list (string * string)) : bool :=
  check_permission tool_name custom_rules =? ASK.

(** ** security/rbac.py *)

(* [sidecar/ibreeze/security/rbac.py:8-11 Role] *)
Inductive Role := ADMIN | USER | GUEST.

Definition role_value (r : Role) : string :=
  match r with ADMIN => "admin" | USER => "user" | GUEST => "guest" end.

(* [sidecar/ibreeze/security/rbac.py:14-88 _PERMISSIONS] *)
Definition _PERMISSIONS (r : Role) : list string :=
  match r with
  | ADMIN =>
      ["company.create"; "company.read"; "company.update"; "company.archive"; "department.create";
       "department.read"; "department.update"; "department.archive"; "employee.create"; "employee.read";
       "employee.update"; "employee.transfer"; "task.read"; "task.update"; "task.cancel"; "review.read";
       "review.submit"; "review.resolve"; "knowledge.read"; "knowledge.import"; "knowledge.remove";
       "artifact.read"; "artifact.create"; "backup.create"; "backup.restore"; "backup.read";
       "settings.read"; "settings.update"; "audit.read"; "admin.*"]
  | USER =>
      ["company.read"; "department.read"; "department.create"; "department.update"; "department.delete";
       "employee.read"; "employee.create"; "employee.update"; "employee.delete"; "employee.transfer";
       "employee.pause"; "employee.resume"; "task.read"; "task.create"; "task.update"; "task.cancel";
       "task.confirm"; "review.read"; "review.submit"; "review.assign"; "review.resolve";
       "knowledge.read"; "knowledge.import"; "knowledge.archive"; "artifact.read"; "artifact.create";
       "backup.read"; "backup.create"; "backup.restore"; "workspace.read"; "workspace.create";
       "settings.read"; "settings.update"; "audit.read"]
  | GUEST => ["company.read"; "department.read"; "knowledge.read"]
  end.

(** [action.split(".")[0]] *)
Definition resource_of (action : string) : string :=
  match split_on (byte 46) action with r :: _ => r | [] => "" end.

(* [sidecar/ibreeze/security/rbac.py:91-97 check_permission] *)
Definition role_may (role : Role) (action : string) : bool :=
  (action ∈? _PERMISSIONS role) || ((resource_of action +:+ ".*") ∈? _PERMISSIONS role).

(* [sidecar/ibreeze/security/rbac.py:100-103 require_permission] *)
Definition require_permission (role : Role) (action : string) : result unit :=
  ensure (role_may role action) (PermissionErr ("Role " +:+ role_value role +:+ " lacks permission for " +:+ action)).

(** ** Precedence of the rules *)

(** The decision of a key in the merged table. *)
Definition rule_of (custom : list (string * string)) (key : string) : option string :=
  match dict_get (rev custom) key with Some d => Some d | None => dict_get DEFAULT_RULES key end.

Definition prefix_of_tool (tool key : string) : bool := starts_with key tool.

Lemma find_fst {V} (p : string → bool) (d : list (string * V)) :
  fst <$> List.find (λ r, p r.1) d = List.find p d.*1.
Proof. induction d as [|[k v] d IH]; simpl; [done|]. by destruct (p k). Qed.

(** Which rule decides about a tool call.  An exact rule decides, the last custom one
    before the default; without one, if a default rule's name is a prefix of the tool's, the
    first such default name decides, with the custom decision for exactly that name if there
    is one, so that no custom rule with a longer prefix can deny what a default prefix
    allows; only a tool no default name is a prefix of gets to the other custom prefixes;
    and a tool nothing matches is asked about. *)
Lemma permission_precedence tool custom :
  (∀ d, rule_of custom tool = Some d → check_permission tool custom = d) ∧
  (∀ key, rule_of custom tool = None →
     List.find (prefix_of_tool tool) DEFAULT_RULES.*1 = Some key →
     Some (check_permission tool custom) = rule_of custom key) ∧
  (rule_of custom tool = None → List.find (prefix_of_tool tool) DEFAULT_RULES.*1 = None →
     (∃ key, key ∈ custom.*1 ∧ prefix_of_tool tool key = true ∧
        Some (check_permission tool custom) = rule_of custom key) ∨
     (∀ key, key ∈ custom.*1 → prefix_of_tool tool key = false) ∧ check_permission tool custom = ASK).
Proof.
  set (rules := dict_update DEFAULT_RULES custom).
  assert (∀ k, dict_get rules k = rule_of custom k) as Hget by (intros k; apply dict_get_update).
  assert (NoDup rules.*1) as Hnd by (apply dict_update_nodup, (bool_decide_unpack _); vm_compute; exact I).
  assert (∀ r, List.find (λ r, starts_with r.1 tool) rules = Some r →
    rule_of custom tool = None → Some (check_permission tool custom) = rule_of custom r.1) as Hfound.
  { intros [k d] Hr Hno. unfold check_permission. fold rules. rewrite Hget, Hno, Hr. simpl.
    apply find_some in Hr as [Hin%list_elem_of_In _]. rewrite <-Hget. symmetry. by apply dict_get_elem. }
  split_and!.
  - intros d Hd. unfold check_permission. fold rules. by rewrite Hget, Hd.
  - intros key Hno Hkey.
    destruct (dict_update_keys DEFAULT_RULES custom) as [new Hnew]. fold rules in Hnew.
    assert (fst <$> List.find (λ r, starts_with r.1 tool) rules = Some key) as Hf.
    { etrans; [exact (find_fst (prefix_of_tool tool) rules)|]. rewrite Hnew. by apply find_app_some. }
    destruct (List.find _ rules) as [r|] eqn:Hr; [|done]. injection Hf as <-. by apply Hfound.
  - intros Hno Hdef. destruct (List.find (λ r, starts_with r.1 tool) rules) as [[k d]|] eqn:Hr.
    + left. exists k. pose proof Hr as [Hin%list_elem_of_In Hp]%find_some. split_and!; [|done|by apply (Hfound (k, d))].
      apply (dict_get_elem _ _ _ Hnd) in Hin. rewrite Hget in Hin. unfold rule_of in Hin.
      destruct (dict_get (rev custom) k) as [d'|] eqn:Hc.
      * apply dict_get_some_elem, list_elem_of_In, in_rev, list_elem_of_In in Hc. apply list_elem_of_fmap. by exists (k, d').
      * exfalso. apply dict_get_some_elem in Hin. pose proof (find_none _ _ Hdef k) as Hn. unfold prefix_of_tool in Hn.
        simpl in Hp. rewrite Hn in Hp; [done|]. apply list_elem_of_In, list_elem_of_fmap. by exists (k, d).
    + right. split; [|unfold check_permission; fold rules; by rewrite Hget, Hno, Hr].
      intros key ([k d] & -> & Hin)%list_elem_of_fmap. simpl.
      destruct (dict_get rules k) as [v|] eqn:Hv.
      * apply dict_get_some_elem, list_elem_of_In in Hv. exact (find_none _ _ Hr _ Hv).
      * exfalso. rewrite Hget in Hv. unfold rule_of in Hv. destruct (dict_get (rev custom) k) eqn:Hc; [done|].
        apply eq_None_not_Some in Hc. apply Hc, dict_get_is_some, list_elem_of_fmap. exists (k, d). split; [done|].
        apply list_elem_of_In. rewrite <-in_rev. by apply list_elem_of_In.
Qed.

Lemma permission_precedence_witness :
  check_permission "read" [("read", DENY)] = DENY ∧
  Some (check_permission "read_secret_file" [("read_secret", DENY)]) = Some ALLOW.
Proof.
  destruct (permission_precedence "read" [("read", DENY)]) as (H & _).
  destruct (permission_precedence "read_secret_file" [("read_secret", DENY)]) as (_ & H' & _).
  split; [exact (H DENY eq_refl)|exact (H' "read" eq_refl eq_refl)].
Defined.

(** ** Roles *)

Fixpoint last_byte (s : string) : option Ascii.ascii :=
  match s with EmptyString => None | String c s => match last_byte s with Some d => Some d | None => Some c end end.

Lemma wildcard_last s : last_byte (s +:+ ".*") = Some (byte 42).
Proof. induction s as [|c s IH]; [done|]. change (String c s +:+ ".*") with (String c (s +:+ ".*")). simpl. by rewrite IH. Qed.

(** A wildcard permission of a role other than the administrator's does not exist. *)
Lemma no_wildcard r action : r ≠ ADMIN → ((resource_of action +:+ ".*") ∈? _PERMISSIONS r) = false.
Proof.
  intros Hr. apply bool_decide_eq_false. intros Hin.
  assert (Forall (λ p, last_byte p ≠ Some (byte 42)) (_PERMISSIONS r)) as Hall
    by (destruct r; [done|..]; repeat constructor; vm_compute; discriminate).
  rewrite Forall_forall in Hall. apply Hall in Hin. by rewrite wildcard_last in Hin.
Qed.

(** What roles may do.  A user or a guest may do exactly the actions listed for the role;
    an administrator those and every action on the resource admin.  A guest may do nothing
    that users and administrators may not, but an administrator may not do everything a user
    may: creating, confirming and assigning work is for users only. *)
Lemma role_permissions :
  (∀ r action, r ≠ ADMIN → role_may r action = (action ∈? _PERMISSIONS r)) ∧
  (∀ action, role_may ADMIN action = (action ∈? _PERMISSIONS ADMIN) || ((resource_of action +:+ ".*") ∈? ["admin.*"])) ∧
  (∀ action, role_may GUEST action = true → role_may USER action = true ∧ role_may ADMIN action = true) ∧
  List.filter (λ a, negb (role_may ADMIN a)) (_PERMISSIONS USER) =
    ["department.delete"; "employee.delete"; "employee.pause"; "employee.resume"; "task.create"; "task.confirm";
     "review.assign"; "knowledge.archive"; "workspace.read"; "workspace.create"].
Proof.
  split_and!.
  - intros r a Hr. unfold role_may. by rewrite no_wildcard, orb_false_r.
  - intros a. unfold role_may. f_equal. apply eq_true_iff_eq. unfold mem. rewrite !bool_decide_eq_true. split.
    + intros Hin. assert (Forall (λ p, last_byte p = Some (byte 42) → p = "admin.*") (_PERMISSIONS ADMIN)) as Hall
        by (repeat constructor; vm_compute; done).
      rewrite Forall_forall in Hall. rewrite (Hall _ Hin (wildcard_last _)). by left.
    + intros ->%list_elem_of_singleton. vm_compute. repeat first [left|right].
  - intros a. unfold role_may at 1. rewrite no_wildcard, orb_false_r by done. intros H. bools.
    elem_cases H; subst; by vm_compute.
  - vm_compute. reflexivity.
Qed.

Lemma role_permissions_witness :
  role_may USER "task.confirm" = true ∧ role_may ADMIN "task.confirm" = false ∧ role_may ADMIN "admin.users" = true.
Proof.
  destruct role_permissions as (H1 & H2 & _). split; [|split].
  - rewrite (H1 USER "task.confirm" ltac:(done)). vm_compute. reflexivity.
  - rewrite H2. vm_compute. reflexivity.
  - rewrite H2. vm_compute. reflexivity.
Defined.
