(* ===== verification/Budget.v ===== *)
(** * Token budgets

    [runtime/token_budget.py] and [runtime/context_engine.py].  The budget multiplies by the
    doubles nearest to 0.2 and 0.1 and truncates. *)

From Stdlib Require Import QArith Qround Lqa.
From S2P Require Import Prelude PyStr PyFloat PyIeee.

#[local] Open Scope string_scope.
#[local] Open Scope Z_scope.

(** ** runtime/token_budget.py *)

Definition f0_20 : float := dbl 3602879701896397 18014398509481984.
Definition f0_10 : float := dbl 3602879701896397 36028797018963968.

(** [int(x)] truncates. *)
Definition truncate (x : float) : Z := if Qle_bool 0 x then Qfloor x else Qceiling x.

(** [int(n * x)]: an [int] becomes the double nearest to it. *)
Definition scaled_int (n : Z) (x : float) : Z := truncate (fmul (rnd (inject_Z n)) x).

Record Budget := { bu_context_window : Z; output_reserve : Z; system_reserve : Z; user_budget : Z }.

(* [sidecar/ibreeze/runtime/token_budget.py:20-41 calculate_budget] *)
Definition calculate_budget (context_window max_output_tokens : Z) : Budget :=
  let output := Z.min max_output_tokens (scaled_int context_window f0_20) in
  let available := context_window - output in
  let system := scaled_int available f0_10 in
  {| bu_context_window := context_window; output_reserve := output; system_reserve := system;
     user_budget := available - system |}.

(** [text[:n]] and [text[-n:]] for any [n]; [text[-0:]] is the whole text. *)
Definition slice_to (n : Z) (s : string) : string :=
  let l := chars s in
  unchars (take (Z.to_nat (if n <? 0 then Z.of_nat (length l) + n else n)) l).
Definition slice_from (n : Z) (s : string) : string :=
  let l := chars s in
  unchars (drop (Z.to_nat (if n <? 0 then Z.of_nat (length l) + n else n)) l).

(* [sidecar/ibreeze/runtime/token_budget.py:44-52 truncate_to_budget] *)
Definition truncate_to_budget (text : string) (max_tokens : Z) (from_end : bool) : string :=
  let estimated_tokens := Z.max (py_len text / 4) 1 in
  if estimated_tokens <=? max_tokens then text
  else
    let max_chars := max_tokens * 4 in
    if from_end then slice_to max_chars text else slice_from (- max_chars) text.

(** ** The arithmetic is exact

    Up to a window of [2^46] tokens, multiplying by the double and truncating is division. *)

Lemma nonneg_Q n : 0 <= n -> (0 <= inject_Z n)%Q.
Proof. intros Hn. change 0%Q with (inject_Z 0). by rewrite <- Zle_Qle. Qed.

Lemma double_Z n : 0 <= n <= 2 ^ 53 -> is_double (inject_Z n).
Proof.
  intros Hn. exists n, 0%Z. split; [done|]. split; [unfold EMIN; lia|].
  rewrite Qabs.Qabs_pos; [|apply nonneg_Q; lia]. change (two_to 0) with 1%Q. ring.
Qed.

Lemma double_31 k : 0 <= k <= 2 ^ 47 -> is_double (inject_Z k + (31 # 32)).
Proof.
  intros Hk. exists (32 * k + 31)%Z, (-5)%Z. split; [lia|]. split; [unfold EMIN; lia|].
  rewrite Qabs.Qabs_pos.
  - change (two_to (-5)) with (1 # 32)%Q. rewrite inject_Z_plus, inject_Z_mult. field.
  - assert (0 <= inject_Z k)%Q by (apply nonneg_Q; lia). lra.
Qed.

Lemma truncate_between k x : 0 <= k -> (inject_Z k <= x)%Q -> (x <= inject_Z k + (31 # 32))%Q -> truncate x = k.
Proof.
  intros Hk Hlo Hhi. assert (0 <= inject_Z k)%Q by (apply nonneg_Q; lia).
  unfold truncate. rewrite (proj2 (Qle_bool_iff 0 x)) by lra.
  assert (inject_Z (Qfloor x) <= x)%Q by apply Qfloor_le.
  assert (x < inject_Z (Qfloor x + 1))%Q by apply Qlt_floor.
  assert (Qfloor x < k + 1)%Z; [|assert (k < Qfloor x + 1)%Z; [|lia]].
  - rewrite Zlt_Qlt. rewrite inject_Z_plus. change (inject_Z 1) with 1%Q. lra.
  - rewrite Zlt_Qlt. lra.
Qed.

(** [f] is the double just above [1/d]. *)
Lemma scaled_div n d f :
  (d = 5 /\ f = f0_20) \/ (d = 10 /\ f = f0_10) -> 0 <= n <= 2 ^ 46 -> scaled_int n f = n / d.
Proof.
  intros Hd Hn. set (k := n / d).
  assert (0 <= k <= 2 ^ 46 /\ d * k <= n <= d * k + (d - 1)) as (Hk & Hlo & Hhi).
  { unfold k. destruct Hd as [[-> _]|[-> _]];
      [pose proof (Z.div_mod n 5); pose proof (Z.mod_pos_bound n 5)
      |pose proof (Z.div_mod n 10); pose proof (Z.mod_pos_bound n 10)]; lia. }
  assert (inject_Z n <= inject_Z (2 ^ 46))%Q as Hq by (rewrite <- Zle_Qle; lia).
  assert (0 <= inject_Z n)%Q as Hq0 by (apply nonneg_Q; lia).
  assert (rnd (inject_Z n) == inject_Z n)%Q as Hrn by (apply rnd_exact, double_Z; lia).
  assert (inject_Z k <= rnd (inject_Z n) * f /\ rnd (inject_Z n) * f <= inject_Z k + (31 # 32))%Q as [H1 H2].
  { rewrite Hrn. rewrite Zle_Qle in Hlo, Hhi. rewrite inject_Z_plus, inject_Z_mult in Hhi. rewrite inject_Z_mult in Hlo.
    change (inject_Z (2 ^ 46)) with (70368744177664 # 1)%Q in Hq.
    destruct Hd as [[-> ->]|[-> ->]]; unfold f0_20, f0_10, dbl;
      [change (inject_Z 5) with (5 # 1)%Q in *; change (inject_Z (5 - 1)) with (4 # 1)%Q in *|
       change (inject_Z 10) with (10 # 1)%Q in *; change (inject_Z (10 - 1)) with (9 # 1)%Q in *]; split; lra. }
  destruct (rnd_between (inject_Z k) (inject_Z k + (31 # 32)) (rnd (inject_Z n) * f)) as [H3 H4];
    [apply double_Z; lia|apply double_31; lia|exact H1|exact H2|].
  unfold scaled_int, fmul. apply truncate_between; [lia|exact H3|exact H4].
Qed.

Lemma part_of n d : 0 <= n -> 0 < d -> 0 <= n / d <= n.
Proof. intros Hn Hd. split; [by apply Z.div_pos|apply Z.div_le_upper_bound; nia]. Qed.



(** With a budget of nothing, keeping the end of a text keeps all of it. *)
Lemma truncate_nothing_keeps_all : truncate_to_budget "too long" 0 true = "" /\
  truncate_to_budget "too long" 0 false = "too long".
Proof. by vm_compute. Qed.

(** ** runtime/context_engine.py *)

Record Msg := { msg_role : string; msg_content : string; msg_tokens : Z; msg_pinned : bool }.

Record ContextEngine := { max_tokens : Z; used_tokens : Z; messages : list Msg }.

(* [sidecar/ibreeze/runtime/context_engine.py:11-14 ContextEngine] *)
Definition context_engine (max_tokens : Z) : ContextEngine :=
  {| max_tokens := max_tokens; used_tokens := 0; messages := [] |}.

(** A [str] is held as its UTF-8 encoding. *)
(* [sidecar/ibreeze/runtime/context_engine.py:66-68 ContextEngine._estimate_tokens] *)
Definition estimate_tokens (text : string) : Z := Z.of_nat (String.length text) / 4 + 32.

(* [sidecar/ibreeze/runtime/context_engine.py:16-20 ContextEngine.add_message] *)
Definition add_message (role content : string) (estimated_tokens : option Z) (ce : ContextEngine) : ContextEngine :=
  let tokens := match estimated_tokens with
                | Some n => if n =? 0 then estimate_tokens content else n
                | None => estimate_tokens content
                end in
  {| max_tokens := max_tokens ce; used_tokens := used_tokens ce + tokens;
     messages := messages ce ++
       [{| msg_role := role; msg_content := content; msg_tokens := tokens; msg_pinned := false |}] |}.

(* [sidecar/ibreeze/runtime/context_engine.py:22-26 ContextEngine.add_system_prompt] *)
Definition add_system_prompt (content : string) (ce : ContextEngine) : ContextEngine :=
  let tokens := estimate_tokens content in
  {| max_tokens := max_tokens ce; used_tokens := used_tokens ce + tokens;
     messages := {| msg_role := "system"; msg_content := content; msg_tokens := tokens; msg_pinned := true |}
                 :: messages ce |}.

(* [sidecar/ibreeze/runtime/context_engine.py:28-30 ContextEngine.add_tool_result] *)
Definition add_tool_result (content : string) (ce : ContextEngine) : ContextEngine :=
  add_message "tool" content None ce.

(** The loop of [get_context], newest message first: the messages kept, newest first. *)
Fixpoint fitting (budget : Z) (newest_first : list Msg) : list Msg :=
  match newest_first with
  | [] => []
  | m :: l =>
      if msg_pinned m || (msg_tokens m <=? budget) then m :: fitting (budget - msg_tokens m) l
      else fitting budget l
  end.

(* [sidecar/ibreeze/runtime/context_engine.py:32-40 ContextEngine.get_context] *)
Definition get_context (ce : ContextEngine) : list (string * string) :=
  map (fun m => (msg_role m, msg_content m)) (rev (fitting (max_tokens ce) (rev (messages ce)))).

(* [sidecar/ibreeze/runtime/context_engine.py:42-49 ContextEngine.get_token_usage] *)
Definition get_token_usage (ce : ContextEngine) : Z * Z * Z * Z :=
  (max_tokens ce, used_tokens ce, Z.max (max_tokens ce - used_tokens ce) 0, Z.of_nat (length (messages ce))).

(** The inner [for] loop over the messages after the first, last one first. *)
Fixpoint pop_last_unpinned (l : list Msg) : option (Msg * list Msg) :=
  match l with
  | [] => None
  | m :: l' =>
      match pop_last_unpinned l' with
      | Some (x, r) => Some (x, m :: r)
      | None => if msg_pinned m then None else Some (m, l')
      end
  end.

Definition drop_one (ce : ContextEngine) : option (Z * ContextEngine) :=
  if max_tokens ce <? used_tokens ce then
    match messages ce with
    | [] => None
    | first :: rest =>
        match pop_last_unpinned rest with
        | Some (m, rest') =>
            Some (msg_tokens m, {| max_tokens := max_tokens ce; used_tokens := used_tokens ce - msg_tokens m;
                                   messages := first :: rest' |})
        | None => None
        end
    end
  else None.

(** Every round of the [while] loop drops a message: as many rounds as messages are enough. *)
Fixpoint drop_rounds (rounds : nat) (ce : ContextEngine) : Z * ContextEngine :=
  match rounds with
  | O => (0, ce)
  | S n => match drop_one ce with
           | Some (t, ce') => let '(removed, ce'') := drop_rounds n ce' in (t + removed, ce'')
           | None => (0, ce)
           end
  end.

(* [sidecar/ibreeze/runtime/context_engine.py:51-63 ContextEngine.truncate_to_budget] *)
Definition drop_to_budget (ce : ContextEngine) : Z * ContextEngine := drop_rounds (length (messages ce)) ce.

(** *** Accounting and truncation *)

Inductive CeOp : Type :=
| AddMessage (role content : string) (estimated_tokens : option Z)
| AddSystemPrompt (content : string)
| AddToolResult (content : string)
| DropToBudget.

Definition ce_step (ce : ContextEngine) (op : CeOp) : ContextEngine :=
  match op with
  | AddMessage role content e => add_message role content e ce
  | AddSystemPrompt content => add_system_prompt content ce
  | AddToolResult content => add_tool_result content ce
  | DropToBudget => (drop_to_budget ce).2
  end.

Definition tokens_of (l : list Msg) : Z := foldr (fun m n => msg_tokens m + n) 0 l.

Lemma tokens_of_app l1 l2 : tokens_of (l1 ++ l2) = tokens_of l1 + tokens_of l2.
Proof. unfold tokens_of. induction l1 as [|m l IH]; simpl; lia. Qed.

Lemma pop_spec l :
  match pop_last_unpinned l with
  | None => Forall (fun m => msg_pinned m = true) l
  | Some (x, r) =>
      exists l1 l2, l = (l1 ++ x :: l2)%list /\ r = (l1 ++ l2)%list /\ msg_pinned x = false /\
        Forall (fun m => msg_pinned m = true) l2
  end.
Proof.
  induction l as [|m l IH]; simpl; [done|].
  destruct (pop_last_unpinned l) as [[x r]|].
  - destruct IH as (l1 & l2 & -> & -> & Hx & H2). by exists (m :: l1), l2.
  - destruct (msg_pinned m) eqn:E; [by constructor|]. by exists [], l.
Qed.

Definition within (ce : ContextEngine) : Prop :=
  used_tokens ce <= max_tokens ce \/ Forall (fun m => msg_pinned m = true) (tail (messages ce)).

Lemma drop_one_spec ce :
  used_tokens ce = tokens_of (messages ce) ->
  match drop_one ce with
  | None => within ce
  | Some (t, ce') =>
      used_tokens ce' = tokens_of (messages ce') /\ t = used_tokens ce - used_tokens ce' /\
      max_tokens ce' = max_tokens ce /\ length (messages ce) = S (length (messages ce')) /\
      sublist (messages ce') (messages ce) /\ head (messages ce') = head (messages ce) /\
      filter (fun m => msg_pinned m = true) (messages ce') = filter (fun m => msg_pinned m = true) (messages ce)
  end.
Proof.
  intros Hu. unfold drop_one, within. destruct (Z.ltb_spec (max_tokens ce) (used_tokens ce)); [|by left].
  destruct (messages ce) as [|first rest] eqn:E; [right; apply Forall_nil_2|].
  pose proof (pop_spec rest) as HP. destruct (pop_last_unpinned rest) as [[x r]|]; [|by right].
  destruct HP as (l1 & l2 & -> & -> & Hx & _).
  cbn [used_tokens max_tokens messages head]. rewrite Hu. unfold tokens_of. cbn [foldr].
  fold (tokens_of (l1 ++ x :: l2)). fold (tokens_of (l1 ++ l2)). rewrite !tokens_of_app. cbn [tokens_of foldr].
  fold (tokens_of l2). cbn [length]. rewrite !length_app. cbn [length].
  split_and!; try lia; try done.
  - constructor. apply sublist_app; [done|]. by constructor.
  - rewrite !filter_cons, !filter_app, filter_cons. rewrite (decide_False (P := msg_pinned x = true)) by congruence. done.
Qed.

Lemma drop_rounds_spec n : forall ce,
  used_tokens ce = tokens_of (messages ce) -> (length (messages ce) <= n)%nat ->
  let '(removed, ce') := drop_rounds n ce in
  used_tokens ce' = tokens_of (messages ce') /\ removed = used_tokens ce - used_tokens ce' /\
  max_tokens ce' = max_tokens ce /\ within ce' /\
  sublist (messages ce') (messages ce) /\ head (messages ce') = head (messages ce) /\
  filter (fun m => msg_pinned m = true) (messages ce') = filter (fun m => msg_pinned m = true) (messages ce).
Proof.
  induction n as [|n IH]; intros ce Hu Hl; simpl.
  - split_and!; try done; [lia|]. right. destruct (messages ce); [constructor|simpl in Hl; lia].
  - pose proof (drop_one_spec ce Hu) as HD. destruct (drop_one ce) as [[t ce']|]; [|split_and!; done || lia].
    destruct HD as (Hu' & Ht & Hm & Hlen & Hs & Hh & Hf). specialize (IH ce' Hu' ltac:(lia)).
    destruct (drop_rounds n ce') as [removed ce'']. destruct IH as (H1 & H2 & H3 & H4 & H5 & H6 & H7).
    split_and!; try done; [lia|lia|by etrans|congruence|congruence].
Qed.

Lemma ce_steps_used max ops : let ce := fold_left ce_step ops (context_engine max) in
  used_tokens ce = tokens_of (messages ce) /\ max_tokens ce = max.
Proof.
  induction ops as [|op ops IH] using rev_ind; [done|]. rewrite fold_left_app. cbn [fold_left].
  destruct IH as [Hu Hm]. set (ce := fold_left ce_step ops (context_engine max)) in *.
  destruct op as [r c e|c|c|]; cbn [ce_step].
  - cbn. rewrite tokens_of_app. cbn. split; [lia|done].
  - cbn. fold (tokens_of (messages ce)). split; [lia|done].
  - cbn. rewrite tokens_of_app. cbn. split; [lia|done].
  - pose proof (drop_rounds_spec _ ce Hu (Nat.le_refl _)) as HD. unfold drop_to_budget.
    destruct (drop_rounds (length (messages ce)) ce) as [removed ce']. cbn.
    destruct HD as (H1 & _ & H2 & _). split; [done|congruence].
Qed.

Lemma fitting_sublist l : forall b, sublist (fitting b l) l.
Proof. induction l as [|m l IH]; intros b; simpl; [constructor|]. destruct (_ || _); by constructor. Qed.

Lemma fitting_pinned l : forall b m, m ∈ l -> msg_pinned m = true -> m ∈ fitting b l.
Proof.
  induction l as [|x l IH]; intros b m Hin Hp; simpl; [by apply elem_of_nil in Hin|].
  apply elem_of_cons in Hin as [->|Hin]; [rewrite Hp; simpl; set_solver|].
  destruct (_ || _); [set_solver|auto].
Qed.

Lemma fitting_all l : forall b, Forall (fun m => 0 <= msg_tokens m) l -> tokens_of l <= b -> fitting b l = l.
Proof.
  induction l as [|m l IH]; intros b Hn Hb; simpl; [done|]. apply Forall_cons in Hn as [H0 Hn].
  unfold tokens_of in Hb. cbn [foldr] in Hb. fold (tokens_of l) in Hb.
  assert (0 <= tokens_of l) by (clear -Hn; unfold tokens_of; induction Hn; cbn [foldr]; lia).
  rewrite (proj2 (Z.leb_le (msg_tokens m) b)), orb_true_r by lia. f_equal. apply IH; [done|lia].
Qed.

Lemma fitting_bound l : forall b, 0 <= b -> Forall (fun m => msg_pinned m = false) l -> tokens_of (fitting b l) <= b.
Proof.
  induction l as [|m l IH]; intros b Hb Hp; simpl; [done|]. apply Forall_cons in Hp as [H0 Hp].
  rewrite H0. simpl. destruct (Z.leb_spec (msg_tokens m) b); [|by apply IH].
  unfold tokens_of. cbn [foldr]. fold (tokens_of (fitting (b - msg_tokens m) l)).
  specialize (IH (b - msg_tokens m) ltac:(lia) Hp). lia.
Qed.

Lemma rev_as_reverse {A} (l : list A) : rev l = reverse l.
Proof. apply rev_alt. Qed.

Lemma sublist_rev {A} (l k : list A) : sublist l k -> sublist (rev l) (rev k).
Proof.
  induction 1 as [|x l k _ IH|x l k _ IH]; cbn [rev]; [done| |].
  - by apply sublist_app.
  - by apply sublist_inserts_r.
Qed.

(** The context window.  Whatever is added and truncated, the engine's counter is the sum
    of the tokens of its messages; truncation ends, either within the budget or with nothing
    but pinned messages left after the first, removes from the counter what it reports, and
    keeps the first message, every pinned message and the order of the rest; and the context
    is all the messages when they fit, never loses a pinned message, and without pinned
    messages costs at most the budget. *)
Lemma context_accounted max ops :
  let ce := fold_left ce_step ops (context_engine max) in
  let '(removed, ce') := drop_to_budget ce in
  let kept := rev (fitting max (rev (messages ce))) in
  used_tokens ce = tokens_of (messages ce) /\
  removed = used_tokens ce - used_tokens ce' /\
  (used_tokens ce' <= max \/ Forall (fun m => msg_pinned m = true) (tail (messages ce'))) /\
  sublist (messages ce') (messages ce) /\ head (messages ce') = head (messages ce) /\
  filter (fun m => msg_pinned m = true) (messages ce') = filter (fun m => msg_pinned m = true) (messages ce) /\
  get_context ce = map (fun m => (msg_role m, msg_content m)) kept /\ sublist kept (messages ce) /\
  Forall (fun m => msg_pinned m = true -> m ∈ kept) (messages ce) /\
  (Forall (fun m => 0 <= msg_tokens m) (messages ce) -> used_tokens ce <= max -> kept = messages ce) /\
  (0 <= max -> Forall (fun m => msg_pinned m = false) (messages ce) -> tokens_of kept <= max).
Proof.
  intros ce. destruct (ce_steps_used max ops) as [Hu Hm]. fold ce in Hu, Hm.
  pose proof (drop_rounds_spec _ ce Hu (Nat.le_refl _)) as HD. unfold drop_to_budget.
  destruct (drop_rounds (length (messages ce)) ce) as [removed ce']. cbn zeta.
  destruct HD as (_ & H1 & H2 & H3 & H4 & H5 & H6).
  assert (forall l, tokens_of (rev l) = tokens_of l) as Hrev.
  { intros l. induction l as [|m l IH]; [done|]. cbn [rev]. rewrite tokens_of_app, IH. unfold tokens_of. simpl. lia. }
  split_and!; try done.
  - unfold within in H3. by rewrite H2, Hm in H3.
  - unfold get_context. by rewrite Hm.
  - rewrite <- (rev_involutive (messages ce)) at 2. apply sublist_rev, fitting_sublist.
  - apply Forall_forall. intros m Hin Hp. rewrite rev_as_reverse, elem_of_reverse. apply fitting_pinned; [|done].
    by rewrite rev_as_reverse, elem_of_reverse.
  - intros Hn Hle. rewrite fitting_all; [by rewrite rev_involutive|by apply Forall_rev|]. rewrite Hrev. lia.
  - intros Hmax Hp. rewrite Hrev. apply fitting_bound; [done|by apply Forall_rev].
Qed.

(** Truncation starts at the newest message, the last one included, and a message too long for
    the rest of the window is skipped while older ones stay in the context. *)
Definition small : ContextEngine :=
  fold_left ce_step [AddMessage "user" "first" (Some 40); AddMessage "user" "second" (Some 50);
                     AddMessage "user" "latest" (Some 60)] (context_engine 100).

Lemma truncation_drops_newest :
  map msg_content (messages (drop_to_budget small).2) = ["first"; "second"] /\
  get_context small = [("user", "first"); ("user", "latest")].
Proof. by vm_compute. Qed.

Lemma context_accounted_witness :
  rev (fitting 200 (rev (messages small))) = messages small /\ used_tokens small = 150.
Proof.
  pose proof (context_accounted 200 [AddMessage "user" "first" (Some 40); AddMessage "user" "second" (Some 50);
    AddMessage "user" "latest" (Some 60)]) as H.
  split; [|reflexivity]. unfold small. cbn zeta in H.
  destruct (drop_to_budget _) as [removed ce'] in H.
  destruct H as (_ & _ & _ & _ & _ & _ & _ & _ & _ & H & _). apply H; [|vm_compute; discriminate].
  repeat constructor; vm_compute; discriminate.
Defined.
