(* ===== verification/Matcher.v ===== *)
(** * Matching departments to a piece of work

    [orchestration/department_matcher.py]: how well each department's responsibility covers
    what the work needs, in float arithmetic, and the order of the candidates. *)

From Stdlib Require Import QArith Qabs Lqa.
From stdpp Require Import gmap.
From S2P Require Import Prelude PyFloat PyIeee PyOrder.

#[local] Open Scope string_scope.

(* [sidecar/ibreeze/orchestration/department_matcher.py:9-17 DepartmentResponsibilityProfile] *)
Record DepartmentResponsibilityProfile := {
  pr_department_id : string; pr_responsibility_key : string; accepted_task_types : gset string;
  capability_tags : gset string; deliverable_types : gset string; quality_gates : gset string;
  pr_created_at : Z }.

(* [sidecar/ibreeze/orchestration/department_matcher.py:20-27 DepartmentCandidate] *)
Record DepartmentCandidate := {
  ca_department_id : string; ca_responsibility_key : string; score : float;
  matched_capabilities : list string; matched_deliverables : list string;
  matched_quality_gates : list string }.

(* [sidecar/ibreeze/orchestration/department_matcher.py:30-33 _coverage] *)
Definition _coverage (required available : gset string) : float :=
  if decide (required = ∅) then f1
  else fdiv (inject_Z (Z.of_nat (size (required ∩ available)))) (inject_Z (Z.of_nat (size required))).

(** [round(x, 6)] *)
Definition round6 (x : float) : float :=
  let k := nearest (Qabs x * 1000000)%Q in
  rnd (if Qle_bool 0 x then inject_Z k / 1000000 else inject_Z (- k) / 1000000)%Q.

(** [tuple(sorted(s))] *)
Definition sorted_tuple (s : gset string) : list string := sort_by String.leb (elements s).

Record Needs := {
  task_type : string; required_capabilities : gset string; required_deliverables : gset string;
  required_quality_gates : gset string }.

(* [sidecar/ibreeze/orchestration/department_matcher.py:46-58 match_departments] *)
Definition raw_score (n : Needs) (p : DepartmentResponsibilityProfile) : float :=
  let task_match := if decide (task_type n ∈ accepted_task_types p) then f1 else f0 in
  let capability := _coverage (required_capabilities n) (capability_tags p) in
  let deliverable := _coverage (required_deliverables n) (deliverable_types p) in
  let quality := _coverage (required_quality_gates n) (quality_gates p) in
  fadd (fadd (fadd (fmul 40%Q task_match) (fmul 30%Q capability)) (fmul 20%Q deliverable)) (fmul 10%Q quality).

(* [sidecar/ibreeze/orchestration/department_matcher.py:63-70 match_departments] *)
Definition candidate (n : Needs) (p : DepartmentResponsibilityProfile) : DepartmentCandidate :=
  {| ca_department_id := pr_department_id p; ca_responsibility_key := pr_responsibility_key p;
     score := round6 (raw_score n p);
     matched_capabilities := sorted_tuple (required_capabilities n ∩ capability_tags p);
     matched_deliverables := sorted_tuple (required_deliverables n ∩ deliverable_types p);
     matched_quality_gates := sorted_tuple (required_quality_gates n ∩ quality_gates p) |}.

(* [sidecar/ibreeze/orchestration/department_matcher.py:44-74 match_departments] *)
Fixpoint scored (n : Needs) (profiles : list DepartmentResponsibilityProfile) : list (DepartmentCandidate * Z) :=
  match profiles with
  | [] => []
  | p :: ps =>
      if flt (raw_score n p) 60%Q then scored n ps
      else (candidate n p, pr_created_at p) :: scored n ps
  end.

Definition rank (item : DepartmentCandidate * Z) : Q * (Z * string) :=
  ((- score item.1)%Q, (item.2, ca_department_id item.1)).

(* [sidecar/ibreeze/orchestration/department_matcher.py:75-81 match_departments] *)
Definition by_rank : DepartmentCandidate * Z → DepartmentCandidate * Z → comparison :=
  on rank (lex Qcompare (lex Z.compare String.compare)).

(* [sidecar/ibreeze/orchestration/department_matcher.py:36-82 match_departments] *)
Definition match_departments (profiles : list DepartmentResponsibilityProfile) (n : Needs)
    : list DepartmentCandidate :=
  map fst (sort_key by_rank (scored n profiles)).

(** ** Coverage *)

#[export] Instance ordering_Q : Ordering Qcompare.
Proof.
  split; intros *; [symmetry; apply Qcompare_antisym|].
  rewrite <- !Qle_alt. apply Qle_trans.
Qed.

Lemma double_nat n : (Z.of_nat n <= 2 ^ 53)%Z → is_double (inject_Z (Z.of_nat n)).
Proof.
  intros Hn. exists (Z.of_nat n), 0%Z. split; [lia|]. split; [unfold EMIN; lia|].
  rewrite Qabs_pos; [change (two_to 0) with 1%Q; ring|]. change 0%Q with (inject_Z 0). rewrite <- Zle_Qle. lia.
Qed.

Lemma ratio_between (k n : nat) : (k ≤ n)%nat → n ≠ 0%nat →
  (0 <= inject_Z (Z.of_nat k) / inject_Z (Z.of_nat n) <= 1)%Q.
Proof.
  intros Hk Hn. assert (0 < inject_Z (Z.of_nat n))%Q as Hp by (change 0%Q with (inject_Z 0); rewrite <- Zlt_Qlt; lia).
  split; [apply Qle_shift_div_l|apply Qle_shift_div_r]; try done; rewrite ?Qmult_0_l, ?Qmult_1_l.
  - change 0%Q with (inject_Z 0). rewrite <- Zle_Qle. lia.
  - rewrite <- Zle_Qle. lia.
Qed.

Lemma coverage_unit required available : (0 <= _coverage required available <= 1)%Q.
Proof.
  unfold _coverage. destruct (decide (required = ∅)) as [|Hne]; [by vm_compute; split|].
  assert (size required ≠ 0%nat) as Hs by by intros ?%size_empty_inv%leibniz_equiv.
  assert (size (required ∩ available) ≤ size required)%nat as Hle by (apply subseteq_size; set_solver).
  destruct (ratio_between _ _ Hle Hs) as [H0 H1].
  apply (rnd_between 0 1); [exact double_0|exact double_1|done|done].
Qed.

Lemma self_ratio n : n ≠ 0%nat → (inject_Z (Z.of_nat n) / inject_Z (Z.of_nat n) == 1)%Q.
Proof. intros Hn. apply Qmult_inv_r. unfold Qeq. simpl. lia. Qed.

Lemma coverage_full required available : required ⊆ available → (_coverage required available == 1%Q)%Q.
Proof.
  intros Hsub. unfold _coverage. destruct (decide (required = ∅)) as [|Hne]; [done|].
  replace (required ∩ available) with required by set_solver.
  assert (size required ≠ 0%nat) as Hs by by intros ?%size_empty_inv%leibniz_equiv.
  unfold fdiv. transitivity (inject_Z (Z.of_nat (size required)) / inject_Z (Z.of_nat (size required)))%Q;
    [|by apply self_ratio]. apply rnd_exact.
  destruct double_1 as (m & e & H1 & H2 & H3). exists m, e. split_and!; [lia|lia|done|].
  rewrite <- H3. apply Qabs_wd, self_ratio, Hs.
Qed.

(** With fewer than [2^20] requirements, a missing one costs at least [2^-20]. *)
Definition almost : Q := (1048575 # 1048576)%Q.

Lemma coverage_partial required available :
  (Z.of_nat (size required) <= 2 ^ 20)%Z → ¬ required ⊆ available → (_coverage required available <= almost)%Q.
Proof.
  intros Hlim Hsub. unfold _coverage. destruct (decide (required = ∅)) as [->|Hne]; [set_solver|].
  assert (size (required ∩ available) < size required)%nat as Hlt by (apply subset_size; set_solver).
  assert (inject_Z (Z.of_nat (size (required ∩ available))) / inject_Z (Z.of_nat (size required)) <= almost)%Q as H.
  { assert (0 < inject_Z (Z.of_nat (size required)))%Q as Hp
      by (change 0%Q with (inject_Z 0); rewrite <- Zlt_Qlt; lia).
    apply Qle_shift_div_r; [done|]. unfold almost, Qle. simpl. lia. }
  unfold fdiv. eapply Qle_trans; [by apply rnd_mono|by vm_compute].
Qed.

Lemma fadd_mono a b c d : (a <= c → b <= d → fadd a b <= fadd c d)%Q.
Proof. intros H1 H2. apply rnd_mono. by apply Qplus_le_compat. Qed.
Lemma fmul_mono k a b : (0 <= k → a <= b → fmul k a <= fmul k b)%Q.
Proof. intros Hk H. apply rnd_mono. rewrite !(Qmult_comm k). by apply Qmult_le_compat_r. Qed.

(** ** The candidates *)

Definition covers (n : Needs) (p : DepartmentResponsibilityProfile) : Prop :=
  required_capabilities n ⊆ capability_tags p ∧ required_deliverables n ⊆ deliverable_types p ∧
  required_quality_gates n ⊆ quality_gates p.

#[local] Instance covers_dec n p : Decision (covers n p).
Proof. unfold covers. apply _. Defined.

Definition needs_small (n : Needs) : Prop :=
  (Z.of_nat (size (required_capabilities n)) <= 2 ^ 20)%Z ∧
  (Z.of_nat (size (required_deliverables n)) <= 2 ^ 20)%Z ∧
  (Z.of_nat (size (required_quality_gates n)) <= 2 ^ 20)%Z.

(** The score is monotone in its four parts. *)
Definition total (m c d q : Q) : float :=
  fadd (fadd (fadd (fmul 40%Q m) (fmul 30%Q c)) (fmul 20%Q d)) (fmul 10%Q q).

#[local] Opaque rnd.

Lemma total_mono m c d q m' c' d' q' :
  (m <= m' → c <= c' → d <= d' → q <= q' → total m c d q <= total m' c' d' q')%Q.
Proof. intros. unfold total. repeat apply fadd_mono; by apply fmul_mono. Qed.

Definition matched (n : Needs) (p : DepartmentResponsibilityProfile) : float :=
  if decide (task_type n ∈ accepted_task_types p) then f1 else f0.

Lemma matched_unit n p : (0 <= matched n p <= 1)%Q.
Proof. unfold matched. by destruct (decide _). Qed.

Lemma raw_total n p : raw_score n p =
  total (matched n p) (_coverage (required_capabilities n) (capability_tags p))
    (_coverage (required_deliverables n) (deliverable_types p))
    (_coverage (required_quality_gates n) (quality_gates p)).
Proof. reflexivity. Qed.

Lemma raw_score_bounds n p : (0 <= raw_score n p <= 100)%Q.
Proof.
  destruct (matched_unit n p), (coverage_unit (required_capabilities n) (capability_tags p)),
    (coverage_unit (required_deliverables n) (deliverable_types p)),
    (coverage_unit (required_quality_gates n) (quality_gates p)).
  rewrite raw_total.
  split; [apply (Qle_trans _ (total 0 0 0 0)); [by vm_compute|]|apply (Qle_trans _ (total 1 1 1 1)); [|by vm_compute]];
    by apply total_mono.
Qed.

Lemma raw_score_covers n p : covers n p →
  (raw_score n p == if decide (task_type n ∈ accepted_task_types p) then 100 else 60)%Q.
Proof.
  intros (Hc & Hd & Hq). apply coverage_full in Hc, Hd, Hq.
  assert (∀ x y k, x == y → fmul k x == fmul k y)%Q as Hmul.
  { intros x y k E. apply Qle_antisym; apply rnd_mono; rewrite E; apply Qle_refl. }
  assert (∀ x y x' y', x == y → x' == y' → fadd x x' == fadd y y')%Q as Hadd.
  { intros x y x' y' E E'. apply Qle_antisym; apply rnd_mono; rewrite E, E'; apply Qle_refl. }
  rewrite raw_total.
  transitivity (total (matched n p) 1 1 1); [|by unfold matched; destruct (decide _)].
  unfold total. repeat apply Hadd; by apply Hmul.
Qed.

(** Without the task type, a gap anywhere leaves the score under the threshold. *)
Lemma raw_score_gap n p : needs_small n → task_type n ∉ accepted_task_types p → ¬ covers n p →
  (raw_score n p < 60)%Q.
Proof.
  intros (S1 & S2 & S3) Ht Hgap.
  destruct (coverage_unit (required_capabilities n) (capability_tags p)) as [_ U1],
    (coverage_unit (required_deliverables n) (deliverable_types p)) as [_ U2],
    (coverage_unit (required_quality_gates n) (quality_gates p)) as [_ U3].
  assert (matched n p <= 0)%Q as U0 by (unfold matched; by rewrite decide_False).
  rewrite raw_total.
  destruct (decide (required_capabilities n ⊆ capability_tags p)) as [H1|H1%(coverage_partial _ _ S1)];
    [destruct (decide (required_deliverables n ⊆ deliverable_types p)) as [H2|H2%(coverage_partial _ _ S2)];
      [destruct (decide (required_quality_gates n ⊆ quality_gates p)) as [H3|H3%(coverage_partial _ _ S3)]|]|];
    [by destruct Hgap|..].
  - apply (Qle_lt_trans _ (total 0 1 1 almost)); [by apply total_mono|by vm_compute].
  - apply (Qle_lt_trans _ (total 0 1 almost 1)); [by apply total_mono|by vm_compute].
  - apply (Qle_lt_trans _ (total 0 almost 1 1)); [by apply total_mono|by vm_compute].
Qed.

Lemma flt_iff a b : flt a b = true ↔ (a < b)%Q.
Proof.
  unfold flt, fle. rewrite negb_true_iff. destruct (Qle_bool b a) eqn:E.
  - apply Qle_bool_iff in E. split; [done|]. intros H. exfalso. by apply (Qle_not_lt _ _ E).
  - split; [|done]. intros _. apply Qnot_le_lt. intros H%Qle_bool_iff. congruence.
Qed.

Lemma round6_mono x y : (0 <= x → x <= y → round6 x <= round6 y)%Q.
Proof.
  intros Hx Hxy. assert (0 <= y)%Q as Hy by by eapply Qle_trans.
  unfold round6. rewrite !(proj2 (Qle_bool_iff 0 _)) by done. rewrite !Qabs_pos by done.
  apply rnd_mono. apply Qmult_le_compat_r; [|discriminate]. rewrite <- Zle_Qle. apply nearest_mono.
  by apply Qmult_le_compat_r.
Qed.

Lemma round6_eq x y : (0 <= x → x == y → round6 x == round6 y)%Q.
Proof.
  intros Hx E. apply Qle_antisym; (apply round6_mono; [|rewrite E; apply Qle_refl]); [done|by rewrite <- E].
Qed.

Lemma elem_of_scored n ps c t :
  (c, t) ∈ scored n ps ↔
  ∃ p, p ∈ ps ∧ (60 <= raw_score n p)%Q ∧ c = candidate n p ∧ t = pr_created_at p.
Proof.
  induction ps as [|p ps IH]; simpl; [split; [by intros ?%elem_of_nil|by intros (p & ?%elem_of_nil & _)]|].
  destruct (flt (raw_score n p) 60%Q) eqn:E.
  - rewrite IH. apply flt_iff in E. split; intros (q & Hq & H60 & Hr); exists q;
      [rewrite elem_of_cons; naive_solver|].
    apply elem_of_cons in Hq as [->|]; [|naive_solver]. exfalso. by apply (Qle_not_lt _ _ H60).
  - assert (60 <= raw_score n p)%Q.
    { apply Qnot_lt_le. intros Hlt%flt_iff. congruence. }
    rewrite elem_of_cons, IH. split.
    + intros [[= -> ->]|(q & Hq & Hr)]; [exists p|exists q]; rewrite elem_of_cons; naive_solver.
    + intros (q & [->|Hq]%elem_of_cons & H60 & -> & ->); [by left|right; by exists q].
Qed.

(** Department matching.  In the code's float arithmetic: every candidate comes from one of
    the profiles with a score between 60 and 100 and lists, sorted, exactly what the work needs
    and the department has; a department that accepts the task type and covers everything is
    a candidate with 100; one that does not accept the task type is a candidate exactly when
    it covers everything, with 60 (for needs of up to 2^20 entries each); and the candidates
    come best score first, then oldest department, then smallest id. *)
Lemma departments_matched n profiles : needs_small n →
  let result := match_departments profiles n in
  (∀ c, c ∈ result → ∃ p, p ∈ profiles ∧ c = candidate n p ∧ (60 <= score c <= 100)%Q ∧
     (∀ t, t ∈ matched_capabilities c ↔ t ∈ required_capabilities n ∧ t ∈ capability_tags p) ∧
     StronglySorted (ordered String.leb) (matched_capabilities c)) ∧
  (∀ p, p ∈ profiles → task_type n ∈ accepted_task_types p → covers n p →
     candidate n p ∈ result ∧ (score (candidate n p) == 100)%Q) ∧
  (∀ p, p ∈ profiles → task_type n ∉ accepted_task_types p →
     ((60 <= raw_score n p)%Q ↔ covers n p) ∧
     (covers n p → candidate n p ∈ result ∧ (score (candidate n p) == 60)%Q)) ∧
  (∃ ranked, result = map fst ranked ∧ ranked ≡ₚ scored n profiles ∧
     StronglySorted (ordered (leb_of by_rank)) ranked).
Proof.
  intros Hs result. assert (∀ c, c ∈ result ↔ ∃ t, (c, t) ∈ scored n profiles) as Hin.
  { intros c. unfold result, match_departments. rewrite list_elem_of_fmap. unfold sort_key.
    setoid_rewrite elem_of_sort_by. split.
    - intros ([c' t] & -> & H). by exists t.
    - intros [t H]. by exists (c, t). }
  assert (∀ p, p ∈ profiles → covers n p →
    candidate n p ∈ result ∧
    (score (candidate n p) == if decide (task_type n ∈ accepted_task_types p) then 100 else 60)%Q) as Hcov.
  { intros p Hp Hc. pose proof (raw_score_covers n p Hc) as Hr. split.
    - apply Hin. exists (pr_created_at p). apply elem_of_scored. exists p. split_and!; try done.
      rewrite Hr. by destruct (decide _).
    - cbn [score candidate]. rewrite (round6_eq _ _ (proj1 (raw_score_bounds n p)) Hr).
      destruct (decide _); by vm_compute. }
  split_and!.
  - intros c (t & (p & Hp & H60 & -> & _)%elem_of_scored)%Hin. exists p. destruct (raw_score_bounds n p).
    split_and!; try done; cbn [score candidate].
    + apply (Qle_trans _ (round6 60%Q)); [by vm_compute|by apply round6_mono].
    + apply (Qle_trans _ (round6 100%Q)); [by apply round6_mono|by vm_compute].
    + intros t'. cbn. unfold sorted_tuple. rewrite elem_of_sort_by, elem_of_elements. set_solver.
    + cbn. unfold sorted_tuple. apply sort_by_strongly_sorted; intros; rewrite !string_leb_of in *;
        [apply leb_of_total, _|by eapply (leb_of_trans String.compare)].
  - intros p Hp Ht Hc. destruct (Hcov p Hp Hc) as [H1 H2]. by rewrite decide_True in H2.
  - intros p Hp Ht. split; [split|].
    + intros H60. destruct (decide (covers n p)) as [|Hno]; [done|]. exfalso.
      by apply (Qle_not_lt _ _ H60), raw_score_gap.
    + intros Hc. rewrite (raw_score_covers n p Hc). by rewrite decide_False.
    + intros Hc. destruct (Hcov p Hp Hc) as [H1 H2]. by rewrite decide_False in H2.
  - exists (sort_key by_rank (scored n profiles)). split_and!; [done|apply sort_by_perm|].
    apply sort_key_sorted. unfold by_rank. apply _.
Qed.

Definition engineering : DepartmentResponsibilityProfile :=
  {| pr_department_id := "eng"; pr_responsibility_key := "engineering";
     accepted_task_types := {["code"]}; capability_tags := {["python"; "sql"]};
     deliverable_types := {["patch"]}; quality_gates := {["review"]}; pr_created_at := 1 |}.
Definition writing : DepartmentResponsibilityProfile :=
  {| pr_department_id := "doc"; pr_responsibility_key := "writing";
     accepted_task_types := {["prose"]}; capability_tags := {["python"; "english"]};
     deliverable_types := {["patch"]}; quality_gates := {["review"]}; pr_created_at := 0 |}.
Definition a_patch : Needs :=
  {| task_type := "code"; required_capabilities := {["python"]}; required_deliverables := {["patch"]};
     required_quality_gates := {["review"]} |}.

Lemma departments_matched_witness :
  needs_small a_patch ∧ candidate a_patch engineering ∈ match_departments [writing; engineering] a_patch.
Proof.
  assert (needs_small a_patch) as Hs by (split; [|split]; vm_compute; discriminate).
  split; [exact Hs|].
  destruct (departments_matched a_patch [writing; engineering] Hs) as (_ & H & _).
  apply (H engineering); [apply list_elem_of_further, list_elem_of_here| |].
  - change ("code" ∈@{gset string} {["code"]}). by apply elem_of_singleton.
  - apply (bool_decide_unpack _). vm_compute. exact I.
Defined.

Example matched_order :
  map (λ c, (ca_department_id c, Qred (score c))) (match_departments [writing; engineering] a_patch)
  = [("eng", 100%Q); ("doc", 60%Q)].
Proof. by vm_compute. Qed.
