(* ===== verification/ClockOrder.v ===== *)
(** * Comparing instants as text

    The database orders and compares instants by their text ([ORDER BY created_at],
    [expires_at < ?]).  For the years Python's [datetime] has, the text of [_now] compares the
    way the instants do: the calendar of [Clock.civil] is monotone, checked day by day over one
    400-year cycle, and fixed-width decimals compare like the numbers they print. *)

From S2P Require Import Prelude PyOrder Sql Clock.

#[local] Open Scope Z_scope.

(** ** Fixed-width decimals *)

Lemma digit_compare a b : 0 <= a < 10 → 0 <= b < 10 →
  String.compare (String (Ascii.ascii_of_nat (48 + Z.to_nat a)) "")
                 (String (Ascii.ascii_of_nat (48 + Z.to_nat b)) "") = (a ?= b).
Proof.
  intros Ha Hb. cbn [String.compare]. unfold Ascii.compare.
  assert (∀ d, 0 <= d < 10 → Ascii.N_of_ascii (Ascii.ascii_of_nat (48 + Z.to_nat d)) = Z.to_N (48 + d)) as Hd.
  { intros d Hd. unfold Ascii.ascii_of_nat. rewrite Ascii.N_ascii_embedding by lia. lia. }
  rewrite !Hd, Z2N.inj_compare by lia.
  destruct (Z.compare_spec (48 + a) (48 + b)), (Z.compare_spec a b); done || lia.
Qed.

Lemma div_compare a b : 0 <= a → 0 <= b →
  (a ?= b) = match a / 10 ?= b / 10 with Eq => a mod 10 ?= b mod 10 | c => c end.
Proof.
  intros Ha Hb. pose proof (Z.div_mod a 10). pose proof (Z.div_mod b 10).
  pose proof (Z.mod_pos_bound a 10). pose proof (Z.mod_pos_bound b 10).
  destruct (Z.compare_spec (a / 10) (b / 10)); destruct (Z.compare_spec (a mod 10) (b mod 10));
    destruct (Z.compare_spec a b); try done; lia.
Qed.

Lemma pad_compare w : ∀ a b, 0 <= a < 10 ^ Z.of_nat w → 0 <= b < 10 ^ Z.of_nat w →
  String.compare (pad w a) (pad w b) = (a ?= b).
Proof.
  induction w as [|w IH]; intros a b Ha Hb.
  - change (10 ^ Z.of_nat 0) with 1 in *. replace a with 0 by lia. by replace b with 0 by lia.
  - cbn [pad]. rewrite compare_app by by rewrite !pad_length.
    rewrite Nat2Z.inj_succ, Z.pow_succ_r in Ha, Hb by lia.
    assert (∀ n, 0 <= n < 10 * 10 ^ Z.of_nat w → 0 <= n / 10 < 10 ^ Z.of_nat w) as Hdiv.
    { intros n Hn. split; [apply Z.div_pos; lia|apply Z.div_lt_upper_bound; lia]. }
    rewrite IH by (apply Hdiv; lia). rewrite (div_compare a b) by lia.
    rewrite digit_compare by (apply Z.mod_pos_bound; lia). done.
Qed.

(** ** The calendar *)

(** A date as one number, in the order of its text. *)
Definition date_key (d : Z * Z * Z) : Z := d.1.1 * 10000 + d.1.2 * 100 + d.2.

Definition CYCLE : Z := 146097.

(** [civil] counts years from the first of March: the year of the cycle, the first day of a
    year, and month and day of a day of the year. *)
Definition days_less_leaps (doe : Z) : Z := doe - doe / 1460 + doe / 36524 - doe / 146096.
Definition year_of (doe : Z) : Z := days_less_leaps doe / 365.
Definition first_day (y : Z) : Z := 365 * y + y / 4 - y / 100.
Definition year_end (y : Z) : Z := if (y =? 399)%Z then CYCLE else first_day (y + 1).
Definition month_day (doy : Z) : Z * Z :=
  let mp := (5 * doy + 2) / 153 in
  (if (mp <? 10)%Z then mp + 3 else mp - 9, doy - (153 * mp + 2) / 5 + 1).
Definition day_key (doy : Z) : Z :=
  let '(m, d) := month_day doy in (if (m <=? 2)%Z then 10000 else 0) + m * 100 + d.

(** The tables: 400 years, 366 days. *)
Definition upto (n : nat) : list Z := map Z.of_nat (seq 0 n).

Lemma upto_all p n : forallb p (upto n) = true → ∀ i, 0 <= i < Z.of_nat n → p i = true.
Proof.
  intros Hp i Hi. rewrite forallb_forall in Hp. apply Hp, in_map_iff. exists (Z.to_nat i).
  rewrite in_seq. split; lia.
Qed.

Lemma years_ok : forallb (λ y, (year_of (first_day y) =? y) && (year_of (year_end y - 1) =? y) &&
  (year_end y - first_day y <=? 366) && (0 <=? first_day y) && (year_end y <=? CYCLE)) (upto 400) = true.
Proof. vm_compute. reflexivity. Qed.

Lemma days_ok : forallb (λ doy, let '(m, d) := month_day doy in
  (1 <=? m) && (m <=? 12) && (1 <=? d) && (d <=? 31) && (301 <=? day_key doy) && (day_key doy <=? 10229) &&
  ((doy =? 365) || (day_key doy <? day_key (doy + 1)))) (upto 366) = true.
Proof. vm_compute. reflexivity. Qed.

Lemma leaps_mono doe : 0 <= doe < CYCLE → days_less_leaps doe <= days_less_leaps (doe + 1).
Proof.
  intros Hd. unfold days_less_leaps, CYCLE in *.
  pose proof (Z.div_mod doe 1460). pose proof (Z.mod_pos_bound doe 1460).
  pose proof (Z.div_mod (doe + 1) 1460). pose proof (Z.mod_pos_bound (doe + 1) 1460).
  pose proof (Z.div_mod doe 36524). pose proof (Z.mod_pos_bound doe 36524).
  pose proof (Z.div_mod (doe + 1) 36524). pose proof (Z.mod_pos_bound (doe + 1) 36524).
  pose proof (Z.div_mod doe 146096). pose proof (Z.mod_pos_bound doe 146096).
  pose proof (Z.div_mod (doe + 1) 146096). pose proof (Z.mod_pos_bound (doe + 1) 146096). lia.
Qed.

Lemma leaps_le d e : 0 <= d → d <= e → e <= CYCLE → days_less_leaps d <= days_less_leaps e.
Proof.
  intros H0 Hde He. replace e with (d + Z.of_nat (Z.to_nat (e - d))) in * by lia.
  induction (Z.to_nat (e - d)) as [|n IH]; [by rewrite Z.add_0_r|].
  replace (d + Z.of_nat (S n)) with (d + Z.of_nat n + 1) in * by lia.
  etrans; [apply IH; lia|apply leaps_mono; lia].
Qed.

Lemma year_exists doe : 0 <= doe < CYCLE → ∃ y, 0 <= y < 400 ∧ first_day y <= doe < year_end y.
Proof.
  intros Hd. assert (∀ n : nat, (n <= 400)%nat → (n = 400%nat ∨ doe < first_day (Z.of_nat n)) →
    ∃ y, 0 <= y < 400 ∧ first_day y <= doe < year_end y) as Hn.
  { induction n as [|n IH]; intros Hn Hf; [change (first_day (Z.of_nat 0)) with 0 in Hf; lia|].
    destruct (decide (doe < first_day (Z.of_nat n))); [apply IH; [lia|by right]|].
    exists (Z.of_nat n). rewrite Nat2Z.inj_succ in Hf. unfold Z.succ, year_end in *.
    destruct (Z.eqb_spec (Z.of_nat n) 399); lia. }
  apply (Hn 400%nat); [lia|by left].
Qed.

Lemma year_of_spec doe : 0 <= doe < CYCLE →
  0 <= year_of doe < 400 ∧ 0 <= doe - first_day (year_of doe) < 366.
Proof.
  intros Hd. destruct (year_exists doe Hd) as (y & Hy & Hf).
  pose proof years_ok as Hg. apply (upto_all _ 400) with (i := y) in Hg; [|done].
  cbn beta in Hg. bools. rewrite Z.eqb_eq in *. assert (year_of doe = y) as ->; [|lia].
  assert (year_of (first_day y) <= year_of doe <= year_of (year_end y - 1)); [|lia].
  unfold year_of. split; apply Z.div_le_mono; try lia; apply leaps_le; lia.
Qed.

Lemma day_key_ok doy : 0 <= doy < 366 →
  let '(m, d) := month_day doy in 1 <= m <= 12 ∧ 1 <= d <= 31 ∧ 301 <= day_key doy <= 10229.
Proof.
  intros Hd. pose proof days_ok as Hg. apply (upto_all _ 366) with (i := doy) in Hg; [|done].
  cbn beta in Hg. destruct (month_day doy) as [m d]. bools. lia.
Qed.

Lemma day_key_mono d e : 0 <= d → d < e → e < 366 → day_key d < day_key e.
Proof.
  intros H0 Hde He. replace e with (d + 1 + Z.of_nat (Z.to_nat (e - d - 1))) in * by lia.
  assert (∀ x, 0 <= x < 365 → day_key x < day_key (x + 1)) as Hs.
  { intros x Hx. pose proof days_ok as Hg. apply (upto_all _ 366) with (i := x) in Hg; [|lia]. cbn beta in Hg. destruct (month_day x) as [m d']. bools.
    rename select (_ || _ = true) into Ho. apply orb_true_iff in Ho as [?%Z.eqb_eq|?%Z.ltb_lt]; lia. }
  induction (Z.to_nat (e - d - 1)) as [|n IH]; [rewrite Z.add_0_r; apply Hs; lia|].
  replace (d + 1 + Z.of_nat (S n)) with (d + 1 + Z.of_nat n + 1) in * by lia.
  etrans; [apply IH; lia|apply Hs; lia].
Qed.

(** [civil] in these terms. *)
Lemma civil_parts days :
  let doe := (days + 719468) mod CYCLE in
  let '(m, d) := month_day (doe - first_day (year_of doe)) in
  civil days = (year_of doe + (days + 719468) / CYCLE * 400 + (if (m <=? 2)%Z then 1 else 0), m, d).
Proof.
  unfold civil, month_day, year_of, first_day, days_less_leaps, CYCLE. set (z := days + 719468). cbn zeta.
  replace (z - z / 146097 * 146097) with (z mod 146097) by (pose proof (Z.div_mod z 146097); lia). reflexivity.
Qed.

Lemma civil_key days : let doe := (days + 719468) mod CYCLE in
  date_key (civil days) = (days + 719468) / CYCLE * 4000000 + year_of doe * 10000 + day_key (doe - first_day (year_of doe)).
Proof.
  pose proof (civil_parts days) as Hc. cbn zeta in Hc. unfold day_key. destruct (month_day _) as [m d].
  rewrite Hc. unfold date_key. cbn [fst snd]. destruct (m <=? 2)%Z; lia.
Qed.

Lemma civil_range days : let '(_, m, d) := civil days in 1 <= m <= 12 ∧ 1 <= d <= 31.
Proof.
  pose proof (civil_parts days) as Hc. cbn zeta in Hc.
  destruct (year_of_spec ((days + 719468) mod CYCLE)) as [_ Hd]; [by apply Z.mod_pos_bound|].
  apply day_key_ok in Hd. destruct (month_day _) as [m d]. rewrite Hc. naive_solver.
Qed.

Lemma civil_mono d e : d < e → date_key (civil d) < date_key (civil e).
Proof.
  intros Hde. rewrite !civil_key. set (x := d + 719468). set (y := e + 719468). assert (x < y) as Hxy by lia.
  assert (0 <= x mod CYCLE < CYCLE ∧ 0 <= y mod CYCLE < CYCLE) as [Hx Hy] by by split; apply Z.mod_pos_bound.
  pose proof (Z.div_mod x CYCLE). pose proof (Z.div_mod y CYCLE).
  destruct (year_of_spec _ Hx) as [Y1 D1], (year_of_spec _ Hy) as [Y2 D2].
  pose proof (day_key_ok _ D1) as K1. pose proof (day_key_ok _ D2) as K2.
  do 2 destruct (month_day _) as [? ?]. assert (x / CYCLE <= y / CYCLE) as Hq by (apply Z.div_le_mono; [done|lia]).
  destruct (decide (x / CYCLE = y / CYCLE)) as [Eq|]; [|unfold CYCLE in *; lia]. rewrite Eq in *.
  assert (x mod CYCLE < y mod CYCLE) as Hm by (unfold CYCLE in *; lia).
  assert (year_of (x mod CYCLE) <= year_of (y mod CYCLE)) as Hyr.
  { unfold year_of. apply Z.div_le_mono; [done|]. apply leaps_le; lia. }
  destruct (decide (year_of (x mod CYCLE) = year_of (y mod CYCLE))) as [Ey|]; [|lia]. rewrite Ey in *.
  assert (day_key (x mod CYCLE - first_day (year_of (y mod CYCLE))) <
    day_key (y mod CYCLE - first_day (year_of (y mod CYCLE)))) by (apply day_key_mono; lia). lia.
Qed.

Lemma civil_compare d e : (date_key (civil d) ?= date_key (civil e)) = (d ?= e).
Proof.
  destruct (Z.compare_spec d e) as [->|H%civil_mono|H%civil_mono]; [apply Z.compare_refl|..];
    [by apply Z.compare_lt_iff|by apply Z.compare_gt_iff].
Qed.

(** ** The text of an instant *)

(** The days of the years 1 to 9999. *)
Definition MIN_DAY : Z := -719162.
Definition MAX_DAY : Z := 2932896.
Definition in_calendar (us : Z) : Prop := MIN_DAY * US_PER_DAY <= us < (MAX_DAY + 1) * US_PER_DAY.

Example calendar_ends : (date_text (MIN_DAY * US_PER_DAY), date_text ((MAX_DAY + 1) * US_PER_DAY - 1)) =
  ("0001-01-01", "9999-12-31")%string.
Proof. vm_compute. reflexivity. Qed.

Lemma civil_le d e : d <= e → date_key (civil d) <= date_key (civil e).
Proof. intros Hde. destruct (decide (d = e)) as [->|]; [lia|]. pose proof (civil_mono d e). lia. Qed.

Lemma civil_year d : MIN_DAY <= d <= MAX_DAY → let '(y, _, _) := civil d in 1 <= y <= 9999.
Proof.
  intros Hd. pose proof (civil_le MIN_DAY d) as H1. pose proof (civil_le d MAX_DAY) as H2.
  assert (date_key (civil MIN_DAY) = 10101 ∧ date_key (civil MAX_DAY) = 99991231) as [E1 E2] by by vm_compute.
  rewrite E1 in H1. rewrite E2 in H2. pose proof (civil_range d) as Hr.
  destruct (civil d) as [[y m] dd]. unfold date_key in *. cbn [fst snd] in *. lia.
Qed.

(** Lexicographic comparison of numbers, as one. *)
Lemma lex_compare a b x y n : 0 <= x < n → 0 <= y < n →
  (a * n + x ?= b * n + y) = match a ?= b with Eq => x ?= y | c => c end.
Proof.
  intros Hx Hy. assert (∀ c d, c < d → c * n + n <= d * n) as Hstep.
  { intros c d Hcd. replace (c * n + n) with ((c + 1) * n) by lia. apply Z.mul_le_mono_nonneg_r; lia. }
  destruct (Z.compare_spec a b) as [->|H%Hstep|H%Hstep].
  - apply Zcompare_plus_compat.
  - apply Z.compare_lt_iff. lia.
  - apply Z.compare_gt_iff. lia.
Qed.

Lemma lex_compare_eq t u a b x y n : t = a * n + x → u = b * n + y → 0 <= x < n → 0 <= y < n →
  (t ?= u) = match a ?= b with Eq => x ?= y | c => c end.
Proof. intros -> ->. apply lex_compare. Qed.

Lemma compare_sep a b x y sep : String.length a = String.length b →
  String.compare (a +:+ sep +:+ x) (b +:+ sep +:+ y) =
    match String.compare a b with Eq => String.compare x y | c => c end.
Proof.
  intros Hab. rewrite compare_app by done. destruct (String.compare a b); try done.
  rewrite compare_app by done. by rewrite (cmp_refl String.compare).
Qed.

Lemma date_compare t u : in_calendar t → in_calendar u →
  String.compare (date_text t) (date_text u) = (t / US_PER_DAY ?= u / US_PER_DAY).
Proof.
  assert (∀ v, in_calendar v → MIN_DAY <= v / US_PER_DAY <= MAX_DAY) as Hday.
  { intros v [H1 H2]. split; [apply Z.div_le_lower_bound; [done|]; lia|].
    apply Z.lt_succ_r, Z.div_lt_upper_bound; [done|]. unfold Z.succ. lia. }
  intros Ht%Hday Hu%Hday. unfold date_text. rewrite <- civil_compare.
  pose proof (civil_year _ Ht). pose proof (civil_year _ Hu). pose proof (civil_range (t / US_PER_DAY)).
  pose proof (civil_range (u / US_PER_DAY)).
  destruct (civil (t / _)) as [[y m] d], (civil (u / _)) as [[y' m'] d'].
  rewrite !compare_sep by by rewrite !pad_length. rewrite !pad_compare by lia.
  unfold date_key. cbn [fst snd]. replace (y * 10000 + m * 100 + d) with ((y * 100 + m) * 100 + d) by lia.
  replace (y' * 10000 + m' * 100 + d') with ((y' * 100 + m') * 100 + d') by lia.
  rewrite !lex_compare by lia. by destruct (y ?= y').
Qed.

Lemma time_length us : String.length (time_text us) = 8%nat.
Proof. unfold time_text. by rewrite !length_app_str, !pad_length. Qed.

Lemma time_compare t u : String.compare (time_text t) (time_text u) =
  ((t mod US_PER_DAY) / 1000000 ?= (u mod US_PER_DAY) / 1000000).
Proof.
  unfold time_text. cbn zeta.
  assert (∀ v, 0 <= (v mod US_PER_DAY) / 1000000 < 86400) as Hs.
  { intros v. pose proof (Z.mod_pos_bound v US_PER_DAY eq_refl). unfold US_PER_DAY in *.
    split; [apply Z.div_pos; lia|apply Z.div_lt_upper_bound; lia]. }
  generalize (Hs t), (Hs u). generalize (t mod US_PER_DAY / 1000000), (u mod US_PER_DAY / 1000000).
  intros a b H H0.
  assert (∀ s, 0 <= s < 86400 → s = (s / 3600 * 60 + s / 60 mod 60) * 60 + s mod 60 ∧
    0 <= s / 3600 < 24 ∧ 0 <= s / 60 mod 60 < 60 ∧ 0 <= s mod 60 < 60) as Hhms.
  { intros s Hsec. pose proof (Z.div_mod s 60). pose proof (Z.mod_pos_bound s 60).
    pose proof (Z.div_mod (s / 60) 60). pose proof (Z.mod_pos_bound (s / 60) 60).
    assert (s / 3600 = s / 60 / 60) as -> by by rewrite Z.div_div. lia. }
  destruct (Hhms a H) as (Ea & ? & ? & ?), (Hhms b H0) as (Eb & ? & ? & ?).
  rewrite !compare_sep by by rewrite !pad_length. rewrite !pad_compare by lia.
  rewrite (lex_compare_eq _ _ _ _ _ _ _ Ea Eb), lex_compare by lia.
  by destruct (a / 3600 ?= b / 3600), (a / 60 mod 60 ?= b / 60 mod 60).
Qed.

Lemma iso_compare t u : in_calendar t → in_calendar u → String.compare (iso_text t) (iso_text u) = (t ?= u).
Proof.
  intros Ht Hu. unfold iso_text. rewrite !compare_sep by by rewrite ?date_length, ?time_length.
  rewrite date_compare, time_compare by done.
  rewrite compare_app, (cmp_refl String.compare) by by rewrite !pad_length.
  rewrite pad_compare by by apply Z.mod_pos_bound.
  assert (∀ v, v = (v / US_PER_DAY * 86400 + v mod US_PER_DAY / 1000000) * 1000000 + v mod 1000000 ∧
    0 <= v mod US_PER_DAY / 1000000 < 86400) as Hv.
  { intros v. pose proof (Z.div_mod v US_PER_DAY ltac:(done)). pose proof (Z.mod_pos_bound v US_PER_DAY eq_refl).
    set (w := v mod US_PER_DAY) in *. pose proof (Z.div_mod w 1000000 ltac:(done)).
    pose proof (Z.mod_pos_bound w 1000000 eq_refl). unfold US_PER_DAY in *.
    assert (v mod 1000000 = w mod 1000000) as ->; [|lia]. symmetry.
    apply (Z.mod_unique _ _ (86400 * (v / 86400000000) + w / 1000000)); lia. }
  destruct (Hv t) as [Et ?], (Hv u) as [Eu ?].
  rewrite (lex_compare_eq _ _ _ _ _ _ _ Et Eu), lex_compare by (done || by apply Z.mod_pos_bound).
  destruct (t / US_PER_DAY ?= u / US_PER_DAY); try done. by destruct (t mod US_PER_DAY / 1000000 ?= u mod US_PER_DAY / 1000000), (t mod 1000000 ?= u mod 1000000).
Qed.

Lemma iso_lt t u : in_calendar t → in_calendar u → text_lt (iso_text t) (iso_text u) = (t <? u)%Z.
Proof. intros Ht Hu. unfold text_lt, String.ltb. rewrite iso_compare by done. by unfold Z.ltb. Qed.

Lemma iso_inj t u : in_calendar t → in_calendar u → iso_text t = iso_text u → t = u.
Proof.
  intros Ht Hu E. apply Z.compare_eq. rewrite <- iso_compare by done. rewrite E. apply (cmp_refl String.compare).
Qed.


