(* ===== verification/Approvals.v ===== *)
(** * Human approvals

    [approvals/service.py]: asking for an external write or for the one retry of an uncertain
    tool call, deciding, listing what is pending and expiring what is stale, over the table
    [human_approvals] of [001_initial.sql].  Identifiers and clock readings are arguments, and
    [sha256] is the digest of a target's text, which the target determines; a [ttl_seconds] that
    leaves the calendar of [datetime] is not modelled. *)

From S2P Require Import Prelude PyEnum PyStr PyText PyOrder Sql Clock ClockOrder StateMachine.

(** ** The table *)

Record Approval := {
  ha_id : string;
  ha_company_id : string;
  ha_run_id : string;
  ha_approval_type : string;
  ha_target : json;
  ha_target_sha256 : string;
  ha_status : string;
  ha_requested_at : string;
  ha_expires_at : string;
  ha_resolved_at : option string;
  ha_consumed_at : option string;
  ha_version : Z }.

(** [agent_runs] is the key [(id, company_id)] that approvals refer to. *)
Record DB := { agent_runs : list (string * string); human_approvals : list Approval }.

Definition is_set (o : option string) : bool := match o with Some _ => true | None => false end.

#[export] Program Instance approvals_table : Table DB Approval := {|
  table_name := "human_approvals"; rows := human_approvals;
  set_rows l db := {| agent_runs := agent_runs db; human_approvals := l |};
  row_ok a := (ha_approval_type a ∈? ["external_write"; "uncertain_recovery"]) &&
    (py_len (ha_target_sha256 a) =? 64)%Z && (1 <=? ha_version a)%Z &&
    (if ha_status a =? "pending" then negb (is_set (ha_resolved_at a)) && negb (is_set (ha_consumed_at a))
     else if ha_status a ∈? ["allowed"; "denied"; "expired"]
          then is_set (ha_resolved_at a) && negb (is_set (ha_consumed_at a))
     else (ha_status a =? "consumed") && is_set (ha_resolved_at a) && is_set (ha_consumed_at a));
  clash a b := ha_id a =? ha_id b;
  refs_ok db a := bool_decide ((ha_run_id a, ha_company_id a) ∈ agent_runs db) |}.
Solve All Obligations with by intros [].

(** ** Validation *)

Definition hex_digits : list string :=
  ["0"; "1"; "2"; "3"; "4"; "5"; "6"; "7"; "8"; "9"; "a"; "b"; "c"; "d"; "e"; "f"].

(* [sidecar/ibreeze/approvals/service.py:22-22 _SHA256_RE] *)
Definition sha256_re (s : string) : bool :=
  (py_len s =? 64)%Z && forallb (λ c, c ∈? hex_digits) (chars s).

(* [sidecar/ibreeze/approvals/service.py:21-21 _EXTERNAL_WRITE_OPERATIONS] *)
Definition _EXTERNAL_WRITE_OPERATIONS : list string :=
  ["create_file"; "replace_file"; "delete_file"; "create_directory"].

(** [code] is [f"{field.upper()}_INVALID"]. *)
(* [sidecar/ibreeze/approvals/service.py:25-31 _validate_sha256] *)
Definition _validate_sha256 (value : option string) (required : bool) (code : string) : tx DB unit :=
  match value with
  | None => check (negb required) (ValueError code)
  | Some v => check (sha256_re v) (ValueError code)
  end.

(* [sidecar/ibreeze/approvals/service.py:34-38 _validate_uuid] *)
Definition _validate_uuid (value code : string) : tx DB unit := check (is_uuid value) (ValueError code).

(** [value.replace(...)], which writes the offset out *)
Definition replace_z (s : string) : string := unchars (map (λ c, if c =? "Z" then "+00:00" else c) (chars s)).

Section Approvals.
(** [fromisoformat] is the local time and the UTC offset of a text, if it is one. *)
Context (sha256 : json → string) (fromisoformat : string → option (Z * option Z)).

(* [sidecar/ibreeze/approvals/service.py:41-47 _validate_timestamp] *)
Definition _validate_timestamp (value code : string) : tx DB unit :=
  match fromisoformat (replace_z value) with
  | Some (_, Some _) => mret tt
  | _ => raise (ValueError code)
  end.

(** The clock readings are the first and the second of the call. *)
(* [sidecar/ibreeze/approvals/service.py:97-111 request_external_write_approval] *)
Definition pending_row (id company run approval_type : string) (target : json) (now expiry : Z) : Approval := {|
  ha_id := id; ha_company_id := company; ha_run_id := run; ha_approval_type := approval_type;
  ha_target := target; ha_target_sha256 := sha256 target; ha_status := "pending";
  ha_requested_at := iso_text now; ha_expires_at := iso_text expiry; ha_resolved_at := None;
  ha_consumed_at := None; ha_version := 1 |}.

Definition opt_json (o : option string) : json := match o with Some s => JStr s | None => JNull end.

Record ExternalWrite := {
  xw_run_id : string; xw_workspace_grant_id : string; xw_target_realpath : string; xw_operation : string;
  xw_expected_old_sha256 : option string; xw_source_sha256 : option string; xw_ttl_seconds : Z }.

(** The keys are sorted. *)
(* [sidecar/ibreeze/approvals/service.py:85-96 request_external_write_approval] *)
Definition write_target (w : ExternalWrite) : json := JObj [
  ("expected_old_sha256", opt_json (xw_expected_old_sha256 w)); ("operation", JStr (xw_operation w));
  ("source_sha256", opt_json (xw_source_sha256 w)); ("target_realpath", JStr (xw_target_realpath w));
  ("workspace_grant_id", JStr (xw_workspace_grant_id w))].

(* [sidecar/ibreeze/approvals/service.py:54-122 request_external_write_approval] *)
Definition request_external_write_approval (id : string) (now now' : Z) (company : string) (w : ExternalWrite)
    : tx DB string :=
  let op := xw_operation w in
  check (String.prefix "/" (xw_target_realpath w)) (ValueError "TARGET_PATH_INVALID");;
  check (op ∈? _EXTERNAL_WRITE_OPERATIONS) (ValueError "OPERATION_INVALID");;
  _validate_sha256 (xw_expected_old_sha256 w) (negb (op =? "create_file")) "EXPECTED_OLD_SHA256_INVALID";;
  _validate_sha256 (xw_source_sha256 w) (op ∈? ["create_file"; "replace_file"]) "SOURCE_SHA256_INVALID";;
  check (negb ((op ∈? ["delete_file"; "create_directory"]) && is_set (xw_source_sha256 w)))
    (ValueError "SOURCE_SHA256_INVALID");;
  insert_row (pending_row id company (xw_run_id w) "external_write" (write_target w) now
    (now' + xw_ttl_seconds w * 1000000));;
  mret id.

Record UncertainCall := {
  uc_run_id : string; uc_tool_execution_id : string; uc_input_sha256 : string; uc_prior_started_at : string;
  uc_ttl_seconds : Z }.

(* [sidecar/ibreeze/approvals/service.py:149-156 request_uncertain_recovery_approval] *)
Definition retry_target (c : UncertainCall) : json := JObj [
  ("action", JStr "retry_once"); ("input_sha256", JStr (uc_input_sha256 c));
  ("prior_started_at", JStr (uc_prior_started_at c)); ("run_id", JStr (uc_run_id c));
  ("tool_execution_id", JStr (uc_tool_execution_id c))].

(* [sidecar/ibreeze/approvals/service.py:125-179 request_uncertain_recovery_approval] *)
Definition request_uncertain_recovery_approval (id : string) (now now' : Z) (company : string) (c : UncertainCall)
    : tx DB string :=
  _validate_uuid (uc_run_id c) "RUN_ID_INVALID";;
  _validate_uuid (uc_tool_execution_id c) "TOOL_EXECUTION_ID_INVALID";;
  _validate_sha256 (Some (uc_input_sha256 c)) true "INPUT_SHA256_INVALID";;
  _validate_timestamp (uc_prior_started_at c) "PRIOR_STARTED_AT_INVALID";;
  insert_row (pending_row id company (uc_run_id c) "uncertain_recovery" (retry_target c) now
    (now' + uc_ttl_seconds c * 1000000));;
  mret id.

Definition the_approval (company id : string) (a : Approval) : bool :=
  (ha_id a =? id) && (ha_company_id a =? company).

Definition settled (status : string) (now : Z) (a : Approval) : Approval := {|
  ha_id := ha_id a; ha_company_id := ha_company_id a; ha_run_id := ha_run_id a;
  ha_approval_type := ha_approval_type a; ha_target := ha_target a; ha_target_sha256 := ha_target_sha256 a;
  ha_status := status; ha_requested_at := ha_requested_at a; ha_expires_at := ha_expires_at a;
  ha_resolved_at := Some (iso_text now); ha_consumed_at := ha_consumed_at a; ha_version := ha_version a |}.

(* [sidecar/ibreeze/approvals/service.py:204-209 resolve_approval] *)
Definition decision_status (decision : string) : result string :=
  if decision ∈? ["approve"; "approved"; "allow"; "allowed"] then Ok "allowed"
  else if decision ∈? ["deny"; "denied"; "reject"; "rejected"] then Ok "denied"
  else Err (ValueError "VALIDATION_FAILED").

(* [sidecar/ibreeze/approvals/service.py:182-221 resolve_approval] *)
Definition resolve_approval (now : Z) (company approval_id decision : string) : tx DB string :=
  row ← select_one (the_approval company approval_id);
  a ← found row (ValueError "RESOURCE_NOT_FOUND");
  check (ha_status a =? "pending") (ValueError "STATE_TRANSITION_INVALID");;
  new_status ← lift (decision_status decision);
  update (the_approval company approval_id) (settled new_status now);;
  mret new_status.

Definition listed (company : string) (approval_type : option string) (a : Approval) : bool :=
  (ha_company_id a =? company) &&
  ((ha_status a =? "pending") || ((ha_status a =? "allowed") && negb (is_set (ha_consumed_at a)))) &&
  match approval_type with Some t => ha_approval_type a =? t | None => true end.

(** Each row with [execution_pending]. *)
(* [sidecar/ibreeze/approvals/service.py:224-252 list_pending_approvals] *)
Definition list_pending_approvals (company : string) (approval_type : option string) (limit : Z)
    : tx DB (list (Approval * bool)) :=
  l ← select (listed company approval_type);
  mret (map (λ a, (a, ha_status a =? "allowed"))
    (limited limit (sort_by (λ a b, text_le (ha_requested_at a) (ha_requested_at b)) l))).

(* [sidecar/ibreeze/approvals/service.py:255-269 expire_stale_approvals] *)
Definition expire_stale_approvals (now : Z) (company : string) : tx DB Z :=
  update (λ a, (ha_company_id a =? company) && (ha_status a =? "pending") && text_lt (ha_expires_at a) (iso_text now))
    (settled "expired" now).
End Approvals.

(** ** The commands

    [Approve] stands for every decision. *)
Inductive Command : Type :=
| AskWrite (id : string) (now now' : Z) (company : string) (w : ExternalWrite)
| AskRetry (id : string) (now now' : Z) (company : string) (c : UncertainCall)
| Resolve (now : Z) (company id decision : string)
| Expire (now : Z) (company : string).

Definition rolled_back {A} (db : DB) (r : result A * DB) : DB :=
  match r with (Ok _, db') => db' | (Err _, _) => db end.

Section Runs.
Context (sha256 : json → string) (fromisoformat : string → option (Z * option Z)).

(** The state after a command; a command that fails is rolled back. *)
Definition run (c : Command) (db : DB) : DB :=
  match c with
  | AskWrite id now now' company w => rolled_back db (request_external_write_approval sha256 id now now' company w db)
  | AskRetry id now now' company c =>
      rolled_back db (request_uncertain_recovery_approval sha256 fromisoformat id now now' company c db)
  | Resolve now company id decision => rolled_back db (resolve_approval now company id decision db)
  | Expire now company => rolled_back db (expire_stale_approvals now company db)
  end.
End Runs.

(** ** What becomes of an approval *)

(** The columns that are written once. *)
Definition same_request (a b : Approval) : Prop :=
  ha_id b = ha_id a ∧ ha_company_id b = ha_company_id a ∧ ha_run_id b = ha_run_id a ∧
  ha_approval_type b = ha_approval_type a ∧ ha_target b = ha_target a ∧
  ha_target_sha256 b = ha_target_sha256 a ∧ ha_requested_at b = ha_requested_at a ∧
  ha_expires_at b = ha_expires_at a ∧ ha_version b = ha_version a.

(** A row after a command: as it was, or decided along an edge of the transition table. *)
Definition moved (a b : Approval) : Prop :=
  b = a ∨ (same_request a b ∧ ha_status a = "pending" ∧ is_set (ha_resolved_at b) = true ∧
    ha_status b ∈ ["allowed"; "denied"; "expired"] ∧
    can_transition "HumanApproval" (ha_status a) (ha_status b) None = Ok true).

Definition follows (db db' : DB) : Prop :=
  table_ok (R := Approval) db' = true ∧
  ∃ new, (Forall2 moved (human_approvals db) (take (length (human_approvals db)) (human_approvals db')) ∧
          drop (length (human_approvals db)) (human_approvals db') = new) ∧
    Forall (λ a, ha_status a = "pending" ∧ ha_version a = 1%Z ∧ (ha_run_id a, ha_company_id a) ∈ agent_runs db) new.

Lemma Forall2_map {A} (P : A → A → Prop) (f : A → A) l : (∀ a, P a (f a)) → Forall2 P l (map f l).
Proof. intros Hf. induction l; simpl; by constructor. Qed.

Lemma moved_refl l : Forall2 moved l l.
Proof. induction l; constructor; [by left|done]. Qed.

Lemma follows_refl db : table_ok (R := Approval) db = true → follows db db.
Proof.
  intros Hok. split; [done|]. exists []. rewrite firstn_all, drop_all. split; [split; [apply moved_refl|done]|constructor].
Qed.

Lemma decided_table_ok p status now db n db' :
  table_ok (R := Approval) db = true → (∀ a, p a = true → ha_status a = "pending") →
  status ∈ ["allowed"; "denied"; "expired"] →
  update p (settled status now) db = (Ok n, db') → follows db db'.
Proof.
  intros Hok Hp Hs Hu. pose proof Hu as Hrun. apply update_ok in Hu as (_ & _ & _ & ->). split.
  - apply table_ok_updated; [done..|]. intros a Ha Hpa. pose proof (table_ok_row _ _ Hok Ha) as Hrow.
    specialize (Hp a Hpa). revert Hrow. simpl. rewrite Hp. simpl.
    intros [Hrow [_ Hc]%andb_true_iff]%andb_true_iff. rewrite Hrow, Hc.
    assert ((status =? "pending") = false ∧ (status ∈? ["allowed"; "denied"; "expired"]) = true) as [-> ->].
    { split; [|by apply bool_decide_eq_true_2]. repeat (apply elem_of_cons in Hs as [->|Hs]; [done|]). by apply elem_of_nil in Hs. }
    done.
  - exists []. unfold updated. cbn [rows set_rows approvals_table human_approvals].
    assert (length (map (λ r, if p r then settled status now r else r) (human_approvals db)) =
      length (human_approvals db)) as Hlen by apply length_map.
    rewrite <- Hlen at 1. rewrite firstn_all, <- Hlen, drop_all. split; [split; [|done]|constructor].
    apply Forall2_map. intros a. destruct (p a) eqn:Hpa; [|by left].
    right. specialize (Hp a Hpa). split_and!; [done..|]. rewrite Hp.
    repeat (apply elem_of_cons in Hs as [->|Hs]; [by vm_compute|]). by apply elem_of_nil in Hs.
Qed.

Lemma asked_follows db row u db' :
  table_ok (R := Approval) db = true → ha_status row = "pending" → ha_version row = 1%Z →
  insert_row row db = (Ok u, db') → follows db db'.
Proof.
  intros Hok Hs Hv Hi. split; [eapply insert_table_ok; [exact Hi|by apply table_rows_ok]|].
  apply insert_ok in Hi as (_ & _ & Hr & ->). exists [row]. cbn [rows set_rows approvals_table human_approvals].
  rewrite take_app_length, drop_app_length. split; [split; [apply moved_refl|done]|].
  constructor; [|constructor]. split_and!; [done..|]. by apply bool_decide_eq_true in Hr.
Qed.

Section Follows.
Context (sha256 : json → string) (fromisoformat : string → option (Z * option Z)).

Lemma resolve_run now company id decision db r db' :
  resolve_approval now company id decision db = (Ok r, db') →
  decision_status decision = Ok r ∧
  ∃ a n, List.find (the_approval company id) (human_approvals db) = Some a ∧ ha_status a = "pending" ∧
    update (the_approval company id) (settled r now) db = (Ok n, db').
Proof.
  unfold resolve_approval. intros Hrun. sql_inv.
  rename select (lift _ _ = _) into Hd. unfold lift in Hd. injection Hd as Hd <-. bools. eauto 10.
Qed.

Lemma the_approval_one company id db a b : table_ok (R := Approval) db = true →
  a ∈ human_approvals db → b ∈ human_approvals db →
  the_approval company id a = true → the_approval company id b = true → a = b.
Proof.
  intros Hok Ha Hb Hpa Hpb. eapply (unique_row (R := Approval) (DB := DB) (the_approval company id) (human_approvals db));
    try done; [exact (table_no_clash db Hok)|].
  unfold the_approval. intros x y Hx Hy. bools. simpl. apply String.eqb_eq. congruence.
Qed.

Lemma run_follows c db : table_ok (R := Approval) db = true → follows db (run sha256 fromisoformat c db).
Proof.
  intros Hok. destruct c as [id now now' company w|id now now' company u|now company id decision|now company]; simpl.
  - destruct (request_external_write_approval _ _ _ _ _ _ _) as [[r|e] db'] eqn:Hrun; [|by apply follows_refl].
    unfold request_external_write_approval, _validate_sha256 in Hrun. simpl.
    repeat (case_match; simplify_eq/=; try done); sql_inv;
      (eapply asked_follows; [exact Hok| | |eassumption]; done).
  - destruct (request_uncertain_recovery_approval _ _ _ _ _ _ _ _) as [[r|e] db'] eqn:Hrun; [|by apply follows_refl].
    unfold request_uncertain_recovery_approval, _validate_sha256, _validate_uuid, _validate_timestamp in Hrun. simpl.
    repeat (case_match; simplify_eq/=; try done); sql_inv;
      (eapply asked_follows; [exact Hok| | |eassumption]; done).
  - destruct (resolve_approval _ _ _ _ _) as [[r|e] db'] eqn:Hrun; [|by apply follows_refl]. simpl.
    apply resolve_run in Hrun as (Hd & a & n & Ha & Hs & Hu). apply find_some in Ha as [Hin%list_elem_of_In Hpa].
    eapply (decided_table_ok (λ x, the_approval company id x && (ha_status x =? "pending")) r now db n); [done| | |].
    + intros x Hx. by bools.
    + unfold decision_status in Hd. destruct (decision ∈? _); [|destruct (decision ∈? _)]; simplify_eq/=; set_solver.
    + rewrite <- Hu. unfold update. assert (∀ l, (∀ x, x ∈ l → x ∈ human_approvals db) →
        where_ (λ x, the_approval company id x && (ha_status x =? "pending")) l = where_ (the_approval company id) l ∧
        updated (λ x, the_approval company id x && (ha_status x =? "pending")) (settled r now) l =
        updated (the_approval company id) (settled r now) l) as Hsame.
      { intros l Hl. assert (∀ x, x ∈ l → the_approval company id x && (ha_status x =? "pending") = the_approval company id x) as Hx.
        { intros x Hx. destruct (the_approval company id x) eqn:E; [|done]. simpl.
          rewrite (the_approval_one company id db x a) by auto. by rewrite Hs. }
        split; [|by apply updated_ext]. unfold where_. apply List.filter_ext_in. intros x Hx'%list_elem_of_In. auto. }
      destruct (Hsame (rows db)) as [-> ->]; [done|]. done.
  - destruct (expire_stale_approvals _ _ _) as [[r|e] db'] eqn:Hrun; [|by apply follows_refl]. simpl.
    eapply (decided_table_ok _ "expired"); [done| | |exact Hrun]; [|set_solver]. intros x Hx. cbn in Hx. by bools.
Qed.
End Follows.

(** C20. Deciding an approval.  Whatever the approval service is asked to do, the table keeps its
    constraints and no approval is lost; what was requested - run, operation, target and its
    digest, expiry - never changes; an approval that is no longer pending never changes at all;
    one that is decided moves along an edge of the H.7 transition table and gets its time; and
    new approvals are pending and belong to a run of the company. *)
Theorem approvals_decided_once sha256 fromisoformat c db :
  table_ok (R := Approval) db = true →
  let db' := run sha256 fromisoformat c db in
  table_ok (R := Approval) db' = true ∧
  Forall2 moved (human_approvals db) (take (length (human_approvals db)) (human_approvals db')) ∧
  (∀ a i, human_approvals db !! i = Some a → ha_status a ≠ "pending" → human_approvals db' !! i = Some a) ∧
  Forall (λ a, ha_status a = "pending" ∧ ha_version a = 1%Z ∧ (ha_run_id a, ha_company_id a) ∈ agent_runs db)
    (drop (length (human_approvals db)) (human_approvals db')).
Proof.
  intros Hok db'. destruct (run_follows sha256 fromisoformat c db Hok) as (Hok' & new & [Hmoved <-] & Hnew).
  split_and!; [done..| |done]. intros a i Ha Hs.
  destruct (Forall2_lookup_l _ _ _ _ _ Hmoved Ha) as (b & Hb & Hab).
  destruct Hab as [->|(_ & Hp & _)]; [|done]. by apply lookup_take_Some in Hb as [Hb _].
Qed.

(** ** Requests *)

(** What the operation needs: the old state but for a new file, the new content for a file
    that is written. *)
Definition hashes_fit (op : string) (old source : option string) : bool :=
  match old with Some s => sha256_re s | None => op =? "create_file" end &&
  match source with
  | Some s => sha256_re s && (op ∈? ["create_file"; "replace_file"])
  | None => negb (op ∈? ["create_file"; "replace_file"])
  end.

Definition write_valid (w : ExternalWrite) : bool :=
  String.prefix "/" (xw_target_realpath w) && (xw_operation w ∈? _EXTERNAL_WRITE_OPERATIONS) &&
  hashes_fit (xw_operation w) (xw_expected_old_sha256 w) (xw_source_sha256 w).

Lemma insert_pending sha256 id company run type target now expiry db :
  table_ok (R := Approval) db = true → py_len (sha256 target) = 64%Z → type ∈? ["external_write"; "uncertain_recovery"] = true →
  insert_row (pending_row sha256 id company run type target now expiry) db =
    if bool_decide ((run, company) ∈ agent_runs db) && forallb (λ a, negb (ha_id a =? id)) (human_approvals db)
    then (Ok tt, {| agent_runs := agent_runs db;
                    human_approvals := human_approvals db ++ [pending_row sha256 id company run type target now expiry] |})
    else (Err (IntegrityErr "human_approvals"), db).
Proof.
  intros Hok Hsha Ht. unfold insert_row. set (row := pending_row _ _ _ _ _ _ _ _).
  assert (row_ok (DB := DB) row = true) as Hrow by (cbn; by rewrite Ht, Hsha).
  rewrite Hrow. cbn [andb set_rows rows approvals_table refs_ok human_approvals agent_runs table_name].
  change (ha_run_id row, ha_company_id row) with (run, company).
  assert (no_clash (DB := DB) (human_approvals db ++ [row]) = forallb (λ a, negb (ha_id a =? id)) (human_approvals db)) as ->.
  { pose proof (table_no_clash db Hok) as Hc. cbn [rows approvals_table] in Hc. revert Hc.
    induction (human_approvals db) as [|a l IH]; [done|]. simpl. rewrite existsb_app. simpl. intros Hc. bools.
    rewrite IH by done. rewrite H. simpl. by rewrite orb_false_r. }
  by rewrite andb_comm.
Qed.

Lemma request_validated sha256 id now now' company w db :
  let rest := (insert_row (pending_row sha256 id company (xw_run_id w) "external_write" (write_target w) now
                 (now' + xw_ttl_seconds w * 1000000));; mret id) in
  if write_valid w then request_external_write_approval sha256 id now now' company w db = rest db
  else ∃ code, request_external_write_approval sha256 id now now' company w db = (Err (ValueError code), db).
Proof.
  unfold write_valid, request_external_write_approval, _validate_sha256, hashes_fit. cbn zeta.
  destruct (String.prefix _ _); [|by eexists]. destruct (xw_operation w ∈? _EXTERNAL_WRITE_OPERATIONS) eqn:E; [|by eexists].
  unfold mem in E. apply bool_decide_eq_true in E. destruct w as [r g t op o n ttl]. cbn in *.
  repeat (apply elem_of_cons in E as [->|E];
    [destruct o as [o|], n as [n|]; cbn; try destruct (sha256_re o); cbn; try destruct (sha256_re n); cbn;
     first [reflexivity|by eexists]|]).
  by apply elem_of_nil in E.
Qed.

(** Requesting an external write.  It succeeds exactly when the path is absolute, the
    operation one of the four, the digests are there and well formed as the operation needs
    them, the run belongs to the company and the identifier is new; then it appends one
    pending approval whose target holds all of it; otherwise nothing is written. *)
Lemma external_write_requested sha256 id now now' company w db :
  table_ok (R := Approval) db = true → (∀ j, py_len (sha256 j) = 64%Z) →
  let row := pending_row sha256 id company (xw_run_id w) "external_write" (write_target w) now
               (now' + xw_ttl_seconds w * 1000000) in
  if write_valid w && bool_decide ((xw_run_id w, company) ∈ agent_runs db) &&
     forallb (λ a, negb (ha_id a =? id)) (human_approvals db)
  then request_external_write_approval sha256 id now now' company w db =
       (Ok id, {| agent_runs := agent_runs db; human_approvals := human_approvals db ++ [row] |})
  else ∃ e, request_external_write_approval sha256 id now now' company w db = (Err e, db).
Proof.
  intros Hok Hsha row. pose proof (request_validated sha256 id now now' company w db) as Hv. cbn zeta in Hv.
  destruct (write_valid w); [|destruct Hv as [code Hv]; simpl; eauto]. rewrite Hv.
  assert (∀ m : tx DB unit, (m;; mret id) db = match m db with (Ok _, d) => (Ok id, d) | (Err e, d) => (Err e, d) end) as Hb.
  { intros m. unfold mbind, tx_bind, mret, tx_ret. by destruct (m db) as [[[]|] ?]. }
  rewrite Hb, insert_pending by done. simpl. destruct (_ && _); [done|by eexists].
Qed.

(** ** Expiry *)

(** Expiring approvals.  With the expiries written by [iso_text], exactly the pending
    approvals of the company whose instant of expiry has passed become expired, at the time of
    the call; the count returned is theirs; every other approval, the allowed ones included,
    stays as it is. *)
Lemma approvals_expired now company db :
  table_ok (R := Approval) db = true → in_calendar now →
  ∀ expiry : Approval → Z,
  (∀ a, a ∈ human_approvals db → ha_expires_at a = iso_text (expiry a) ∧ in_calendar (expiry a)) →
  let stale a := (ha_company_id a =? company) && (ha_status a =? "pending") && (expiry a <? now)%Z in
  expire_stale_approvals now company db =
    (Ok (Z.of_nat (length (List.filter stale (human_approvals db)))),
     {| agent_runs := agent_runs db;
        human_approvals := map (λ a, if stale a then settled "expired" now a else a) (human_approvals db) |}).
Proof.
  intros Hok Hnow expiry Hexp stale. unfold expire_stale_approvals.
  set (p := λ a, _ && text_lt (ha_expires_at a) (iso_text now)).
  assert (∀ a, a ∈ human_approvals db → p a = stale a) as Hp.
  { intros a Ha. destruct (Hexp a Ha) as [E Hcal]. unfold p, stale. by rewrite E, iso_lt. }
  apply update_ok. cbn [rows set_rows approvals_table].
  assert (updated p (settled "expired" now) (human_approvals db) =
    map (λ a, if stale a then settled "expired" now a else a) (human_approvals db)) as Hup.
  { rewrite (updated_ext p stale) by done. reflexivity. }
  rewrite Hup. split_and!; try done.
  - apply forallb_forall. intros x (a & <- & Ha)%in_map_iff. unfold where_ in Ha. apply filter_In in Ha as [Ha Hpa].
    pose proof (table_ok_row db a Hok (proj2 (list_elem_of_In _ _) Ha)) as Hrow. unfold p in Hpa. bools.
    revert Hrow. simpl. rewrite (eq_trans H1 eq_refl : ha_status a = "pending"). simpl.
    intros [Hrow [_ Hc]%andb_true_iff]%andb_true_iff. by rewrite Hrow, Hc.
  - rewrite <- Hup, no_clash_updated by done. exact (table_no_clash db Hok).
  - f_equal. f_equal. apply List.filter_ext_in. intros a Ha. rewrite Hp; [done|by apply list_elem_of_In].
Qed.

(** ** A company with one approval *)

Module Demo.
Definition digest (_ : json) : string := String.concat "" (List.repeat "0" 64).
Definition write : ExternalWrite := {|
  xw_run_id := "run"; xw_workspace_grant_id := "grant"; xw_target_realpath := "/tmp/new.txt";
  xw_operation := "create_file"; xw_expected_old_sha256 := None; xw_source_sha256 := Some (digest JNull);
  xw_ttl_seconds := 300 |}.
Definition T0 : Z := 1709210096123456.
Definition asked : Approval :=
  pending_row digest "a1" "co" "run" "external_write" (write_target write) T0 (T0 + 300000000).
Definition db : DB := {| agent_runs := [("run", "co")]; human_approvals := [asked] |}.
Definition no_time : string → option (Z * option Z) := λ _, None.
End Demo.

Lemma approvals_decided_once_witness :
  table_ok (R := Approval) Demo.db = true ∧
  table_ok (R := Approval) (run Demo.digest Demo.no_time (Resolve Demo.T0 "co" "a1" "approve") Demo.db) = true.
Proof.
  assert (table_ok (R := Approval) Demo.db = true) as H by by vm_compute.
  split; [exact H|].
  exact (proj1 (approvals_decided_once Demo.digest Demo.no_time (Resolve Demo.T0 "co" "a1" "approve") Demo.db H)).
Defined.

Lemma external_write_requested_witness :
  let db := {| agent_runs := [("run", "co")]; human_approvals := [] |} in
  table_ok (R := Approval) db = true ∧
  request_external_write_approval Demo.digest "a1" Demo.T0 Demo.T0 "co" Demo.write db = (Ok "a1", Demo.db).
Proof.
  cbn zeta. split; [by vm_compute|].
  pose proof (external_write_requested Demo.digest "a1" Demo.T0 Demo.T0 "co" Demo.write
    {| agent_runs := [("run", "co")]; human_approvals := [] |} eq_refl (λ j, eq_refl)) as H.
  vm_compute in H. vm_compute. exact H.
Defined.

Lemma approvals_expired_witness :
  table_ok (R := Approval) Demo.db = true ∧
  fst (expire_stale_approvals (Demo.T0 + 300000001) "co" Demo.db) = Ok 1%Z.
Proof.
  split; [by vm_compute|].
  rewrite (approvals_expired (Demo.T0 + 300000001) "co" Demo.db eq_refl ltac:(split; vm_compute; congruence)
    (λ _, (Demo.T0 + 300000000)%Z)).
  - by vm_compute.
  - intros a Ha. apply list_elem_of_singleton in Ha as ->. split; [reflexivity|split; vm_compute; congruence].
Defined.

(** An approval whose time has passed can still be granted until something expires it, and then
    no command takes it back: the service knows neither the edge to [expired] nor the one to
    [consumed] that the transition table has for it. *)
Lemma late_approval_granted :
  fst (resolve_approval (Demo.T0 + 86400000000) "co" "a1" "approve" Demo.db) = Ok "allowed".
Proof. by vm_compute. Qed.

Lemma allowed_for_good sha256 fromisoformat c db i a :
  table_ok (R := Approval) db = true → human_approvals db !! i = Some a → ha_status a = "allowed" →
  human_approvals (run sha256 fromisoformat c db) !! i = Some a.
Proof.
  intros Hok Ha Hs. destruct (run_follows sha256 fromisoformat c db Hok) as (_ & new & [Hmoved _] & _).
  destruct (Forall2_lookup_l _ _ _ _ _ Hmoved Ha) as (b & Hb & [->|(_ & Hp & _)]).
  - by apply lookup_take_Some in Hb as [Hb _].
  - congruence.
Qed.
