(* ===== verification/Profiles.v ===== *)
(** * Employee base profiles

    [profile/service.py] over the tables [employee_base_profiles], [employee_base_profile_versions]
    and [profile_skill_bindings] of [001_initial.sql] and [006_intelligent_routing.sql], with their
    triggers: drafts, their skills, validation against the pinned catalog release, publication and
    retirement; and the parts of [application/public_rpc.py] in front of it.

    A column that holds JSON is the value that text denotes.  [repr], [int_of_float], [lower] and
    the digest [sha256] are arguments, and [between] is the range check of SQLite on a value that
    is no integer. *)

From S2P Require Import Prelude PyEnum PyStr PyText Sql RoutingPolicy.

(** ** The tables *)

Record Profile := {
  bp_id : string;
  bp_company_id : string;
  bp_name : string;
  bp_normalized_name : string;
  bp_description : string;
  bp_current_version_id : option string;
  bp_status : string;
  bp_created_at : string;
  bp_updated_at : string;
  bp_version : Z }.

Record Version := {
  pv_id : string;
  pv_profile_id : string;
  pv_version_number : Z;
  pv_name : string;
  pv_description : string;
  pv_profile_type : string;
  pv_runtime_binding : json;
  pv_routing_policy : json;
  pv_system_prompt : string;
  pv_capability_tags : json;
  pv_tool_policy : json;
  pv_timeout_seconds : json;
  pv_max_retries : json;
  pv_workspace_policy : string;
  pv_catalog_release_id : string;
  pv_content_sha256 : string;
  pv_status : string;
  pv_created_at : string;
  pv_published_at : option string }.

Record SkillBinding := {
  sb_profile_version_id : string;
  sb_skill_id : string;
  sb_skill_version_id : string;
  sb_skill_version : string;
  sb_package_sha256 : string;
  sb_load_order : Z }.

(** [None] is content that is no JSON. *)
Record Resource := { re_release_id : string; re_resource_type : string; re_content : option json }.
Record EmployeeRef := { er_id : string; er_company_id : string; er_base_profile_version_id : string }.

Record DB := {
  companies : list string;
  employees : list EmployeeRef;
  catalog_cache_releases : list string;
  catalog_cache_resources : list Resource;
  profiles : list Profile;
  versions : list Version;
  bindings : list SkillBinding }.

Ltac solve_lens := intros; repeat match goal with db : DB |- _ => destruct db end; reflexivity.

Class RangeCheck := between : Z → Z → string → bool.

Definition is_set {A} (o : option A) : bool := match o with Some _ => true | None => false end.

(** [CHECK(column BETWEEN lo AND hi)] *)
Definition in_range `{RangeCheck} (lo hi : Z) (j : json) : bool :=
  match j with
  | JInt n => (lo <=? n)%Z && (n <=? hi)%Z
  | JBool b => (lo <=? (if b then 1 else 0))%Z && ((if b then 1 else 0) <=? hi)%Z
  | JFloat t | JStr t => between lo hi t
  | _ => false
  end.

Definition name_fits (s : string) : bool := (1 <=? py_len s)%Z && (py_len s <=? 100)%Z.

#[export] Program Instance profiles_table : Table DB Profile := {|
  table_name := "employee_base_profiles"; rows := profiles;
  set_rows l db := {| companies := companies db; employees := employees db;
    catalog_cache_releases := catalog_cache_releases db; catalog_cache_resources := catalog_cache_resources db;
    profiles := l; versions := versions db; bindings := bindings db |};
  row_ok p := name_fits (bp_name p) && (bp_status p ∈? ["active"; "retired"]) && (1 <=? bp_version p)%Z;
  clash a b := (bp_id a =? bp_id b) ||
    ((bp_company_id a =? bp_company_id b) && (bp_normalized_name a =? bp_normalized_name b));
  refs_ok db p := bp_company_id p ∈? companies db |}.
Solve All Obligations with solve_lens.

(** With the index of one draft for each profile. *)
#[export] Program Instance versions_table `{RangeCheck} : Table DB Version := {|
  table_name := "employee_base_profile_versions"; rows := versions;
  set_rows l db := {| companies := companies db; employees := employees db;
    catalog_cache_releases := catalog_cache_releases db; catalog_cache_resources := catalog_cache_resources db;
    profiles := profiles db; versions := l; bindings := bindings db |};
  row_ok v := (1 <=? pv_version_number v)%Z && name_fits (pv_name v) &&
    (pv_profile_type v ∈? ["agent_cli"; "api_model"]) && in_range 1 86400 (pv_timeout_seconds v) &&
    in_range 0 5 (pv_max_retries v) && (pv_workspace_policy v =? "workspace_rw_external_ro") &&
    (py_len (pv_content_sha256 v) =? 64)%Z &&
    (if pv_status v =? "draft" then negb (is_set (pv_published_at v))
     else (pv_status v ∈? ["published"; "retired"]) && is_set (pv_published_at v));
  clash a b := (pv_id a =? pv_id b) || ((pv_profile_id a =? pv_profile_id b) &&
    ((pv_version_number a =? pv_version_number b)%Z || ((pv_status a =? "draft") && (pv_status b =? "draft"))));
  refs_ok db v := (pv_profile_id v ∈? map bp_id (profiles db)) &&
    (pv_catalog_release_id v ∈? catalog_cache_releases db) |}.
Solve All Obligations with solve_lens.

#[export] Program Instance bindings_table : Table DB SkillBinding := {|
  table_name := "profile_skill_bindings"; rows := bindings;
  set_rows l db := {| companies := companies db; employees := employees db;
    catalog_cache_releases := catalog_cache_releases db; catalog_cache_resources := catalog_cache_resources db;
    profiles := profiles db; versions := versions db; bindings := l |};
  row_ok b := (py_len (sb_package_sha256 b) =? 64)%Z && (0 <=? sb_load_order b)%Z;
  clash a b := (sb_profile_version_id a =? sb_profile_version_id b) &&
    ((sb_skill_version_id a =? sb_skill_version_id b) || (sb_load_order a =? sb_load_order b)%Z);
  refs_ok db b := sb_profile_version_id b ∈? map pv_id (versions db) |}.
Solve All Obligations with solve_lens.

(** *** Triggers *)

Definition set_status (status : string) (v : Version) : Version := {|
  pv_id := pv_id v; pv_profile_id := pv_profile_id v; pv_version_number := pv_version_number v;
  pv_name := pv_name v; pv_description := pv_description v; pv_profile_type := pv_profile_type v;
  pv_runtime_binding := pv_runtime_binding v; pv_routing_policy := pv_routing_policy v;
  pv_system_prompt := pv_system_prompt v; pv_capability_tags := pv_capability_tags v;
  pv_tool_policy := pv_tool_policy v; pv_timeout_seconds := pv_timeout_seconds v;
  pv_max_retries := pv_max_retries v; pv_workspace_policy := pv_workspace_policy v;
  pv_catalog_release_id := pv_catalog_release_id v; pv_content_sha256 := pv_content_sha256 v;
  pv_status := status; pv_created_at := pv_created_at v; pv_published_at := pv_published_at v |}.

#[export] Instance version_eq_dec : EqDecision Version.
Proof. solve_decision. Defined.

(** [employee_profile_version_published_guard]: a published version can only retire. *)
Definition guard_ok (old new : Version) : bool :=
  if pv_status old ∈? ["published"; "retired"]
  then (pv_status old =? "published") && bool_decide (new = set_status "retired" old)
  else true.

Definition update_versions `{RangeCheck} (p : Version → bool) (f : Version → Version) : tx DB Z :=
  selected ← select p;
  check (forallb (λ v, guard_ok v (f v)) selected) (IntegrityErr "published profile version content is immutable");;
  update p f.

(** The guards of [profile_skill_bindings]: the version, if there is one, is a draft. *)
Definition skills_mutable (version : string) (db : DB) : bool :=
  match List.find (λ v, pv_id v =? version) (versions db) with
  | Some v => pv_status v =? "draft"
  | None => true
  end.
Definition SKILLS_FROZEN : exn := IntegrityErr "only draft profile version skills are mutable".

Definition insert_binding (b : SkillBinding) : tx DB unit :=
  free ← gets (skills_mutable (sb_profile_version_id b));
  check free SKILLS_FROZEN;;
  insert_row b.

Definition delete_bindings (p : SkillBinding → bool) : tx DB Z :=
  selected ← select p;
  db ← gets (λ db, db);
  check (forallb (λ b, skills_mutable (sb_profile_version_id b) db) selected) SKILLS_FROZEN;;
  delete_rows p.

(** ** The operations *)

Section Profiles.
Context `{RangeCheck} (repr : json → string) (int_of_float : string → result Z) (lower : string → string)
  (sha256 : string → string).

Definition opt_json (o : option string) : json := match o with Some s => JStr s | None => JNull end.
Definition opt_truthy (o : option string) : bool := match o with Some s => negb (s =? "") | None => false end.
Definition as_obj (j : json) : option (list (string * json)) := match j with JObj d => Some d | _ => None end.

(** Parameters are bound before any constraint is looked at. *)
Definition bindable (j : json) : bool := match j with JList _ | JObj _ => false | _ => true end.

Record DraftRequest := {
  rq_employee_id : string;
  rq_agent_cli : option string;
  rq_api_model : option string;
  rq_base_profile : list (string * json);
  rq_credential_ref : option string;
  rq_provider_release_id : option string;
  rq_model_binding_id : option string;
  rq_provider_protocol : option string;
  rq_routing_policy : option (list (string * json)) }.

(* [sidecar/ibreeze/profile/service.py:65-72 create_draft] *)
Definition runtime_binding (r : DraftRequest) : list (string * json) := [
  ("agent_cli", opt_json (rq_agent_cli r)); ("api_model", opt_json (rq_api_model r));
  ("credential_ref", opt_json (rq_credential_ref r)); ("provider_release_id", opt_json (rq_provider_release_id r));
  ("model_binding_id", opt_json (rq_model_binding_id r)); ("provider_protocol", opt_json (rq_provider_protocol r))].

(* [sidecar/ibreeze/profile/service.py:73-84 create_draft] *)
Definition draft_policy (r : DraftRequest) : result (string * json) :=
  let profile_type := if opt_truthy (rq_agent_cli r) then "agent_cli" else "api_model" in
  let given := match rq_routing_policy r with Some (_ :: _) => true | _ => false end in
  if profile_type =? "api_model" then
    let raw_policy := if given then JObj (default [] (rq_routing_policy r))
                      else field (rq_base_profile r) "routing_policy" in
    validated ← validate_routing_policy repr int_of_float (as_obj raw_policy) profile_type None;
    Ok (profile_type, canonical validated)
  else if given then Err (ValueError "ROUTING_POLICY_FORBIDDEN")
  else Ok (profile_type, JObj []).

(* [sidecar/ibreeze/profile/service.py:25-144 create_draft] *)
Definition create_draft (profile_id version_id now company : string) (r : DraftRequest) : tx DB (string * string) :=
  let get k dflt := field_or (rq_base_profile r) k dflt in
  employee ← gets (λ db, existsb (λ e, (er_id e =? rq_employee_id r) && (er_company_id e =? company)) (employees db));
  check employee (ValueError "EMPLOYEE_NOT_FOUND");;
  existing ← select_one (λ v, (pv_profile_id v =? profile_id) && (pv_status v =? "draft"));
  check (negb (is_set existing)) (ValueError "DRAFT_ALREADY_EXISTS");;
  let normalized_name := lower (strip (py_str repr (get "name" (JStr "")))) in
  '(profile_type, policy) ← lift (draft_policy r);
  let name := get "name" (JStr "") in let description := get "description" (JStr "") in
  check (bindable name && bindable description) (BindErr "type is not supported");;
  name' ← lift (sql_text name); description' ← lift (sql_text description);
  insert_row {| bp_id := profile_id; bp_company_id := company; bp_name := name';
    bp_normalized_name := normalized_name; bp_description := description'; bp_current_version_id := None;
    bp_status := "active"; bp_created_at := now; bp_updated_at := now; bp_version := 1 |};;
  let prompt := get "system_prompt" (JStr "") in let timeout := get "timeout_seconds" (JInt 3600) in
  let retries := get "max_retries" (JInt 3) in let release := get "catalog_release_id" (JStr "") in
  let digest := get "content_sha256" (JStr "") in
  check (forallb bindable [prompt; timeout; retries; release; digest]) (BindErr "type is not supported");;
  prompt' ← lift (sql_text prompt); release' ← lift (sql_text release); digest' ← lift (sql_text digest);
  insert_row {| pv_id := version_id; pv_profile_id := profile_id; pv_version_number := 1; pv_name := name';
    pv_description := description'; pv_profile_type := profile_type;
    pv_runtime_binding := sorted_obj (runtime_binding r); pv_routing_policy := policy; pv_system_prompt := prompt';
    pv_capability_tags := get "capability_tags" (JList []); pv_tool_policy := get "tool_policy" (JObj []);
    pv_timeout_seconds := timeout; pv_max_retries := retries; pv_workspace_policy := "workspace_rw_external_ro";
    pv_catalog_release_id := release'; pv_content_sha256 := digest'; pv_status := "draft"; pv_created_at := now;
    pv_published_at := None |};;
  update (λ p, bp_id p =? profile_id) (λ p, {|
    bp_id := bp_id p; bp_company_id := bp_company_id p; bp_name := bp_name p;
    bp_normalized_name := bp_normalized_name p; bp_description := bp_description p;
    bp_current_version_id := Some version_id; bp_status := bp_status p; bp_created_at := bp_created_at p;
    bp_updated_at := now; bp_version := bp_version p |});;
  mret (profile_id, version_id).

(** [JOIN employee_base_profiles p ON p.id=v.profile_id ... p.company_id=?] *)
Definition of_company (company : string) (db : DB) (profile : string) : bool :=
  existsb (λ p, (bp_id p =? profile) && (bp_company_id p =? company)) (profiles db).

(** The version and the company as the lookups and the guarded [UPDATE]s find them. *)
Definition selected (company id status : string) (db : DB) (v : Version) : bool :=
  (pv_id v =? id) && (pv_status v =? status) && of_company company db (pv_profile_id v).

Definition find_version (company id status : string) : tx DB (option Version) :=
  gets (λ db, List.find (selected company id status db) (versions db)).

Record DraftUpdate := {
  up_agent_cli : option string;
  up_api_model : option string;
  up_credential_ref : option string;
  up_provider_release_id : option string;
  up_model_binding_id : option string;
  up_provider_protocol : option string;
  up_routing_policy : option (list (string * json)) }.

Definition with_binding (binding : json) (policy : option json) (v : Version) : Version := {|
  pv_id := pv_id v; pv_profile_id := pv_profile_id v; pv_version_number := pv_version_number v;
  pv_name := pv_name v; pv_description := pv_description v; pv_profile_type := pv_profile_type v;
  pv_runtime_binding := binding; pv_routing_policy := default (pv_routing_policy v) policy;
  pv_system_prompt := pv_system_prompt v; pv_capability_tags := pv_capability_tags v;
  pv_tool_policy := pv_tool_policy v; pv_timeout_seconds := pv_timeout_seconds v;
  pv_max_retries := pv_max_retries v; pv_workspace_policy := pv_workspace_policy v;
  pv_catalog_release_id := pv_catalog_release_id v; pv_content_sha256 := pv_content_sha256 v;
  pv_status := pv_status v; pv_created_at := pv_created_at v; pv_published_at := pv_published_at v |}.

(* [sidecar/ibreeze/profile/service.py:184-199 update_draft] *)
Definition merged_binding (binding : json) (u : DraftUpdate) : result json :=
  let updates := List.filter (λ kv, opt_truthy kv.2) [
    ("agent_cli", up_agent_cli u); ("api_model", up_api_model u); ("credential_ref", up_credential_ref u);
    ("provider_release_id", up_provider_release_id u); ("model_binding_id", up_model_binding_id u);
    ("provider_protocol", up_provider_protocol u)] in
  match binding with
  | JObj d => Ok (sorted_obj (fold_left (λ d kv, dict_set d kv.1 (opt_json kv.2)) updates d))
  | _ => match updates with [] => Err (AttributeErr "items") | _ => Err (TypeErr "item assignment") end
  end.

(* [sidecar/ibreeze/profile/service.py:147-218 update_draft] *)
Definition update_draft (company draft_id : string) (u : DraftUpdate) : tx DB string :=
  draft ← find_version company draft_id "draft";
  d ← found draft (ValueError "DRAFT_NOT_FOUND");
  policy ← match up_routing_policy u with
           | None => mret None
           | Some raw =>
               check (negb (pv_profile_type d =? "agent_cli")) (ValueError "ROUTING_POLICY_FORBIDDEN");;
               validated ← lift (validate_routing_policy repr int_of_float (Some raw) (pv_profile_type d) None);
               mret (Some (canonical validated))
           end;
  binding ← lift (merged_binding (pv_runtime_binding d) u);
  db ← gets (λ db, db);
  update_versions (selected company draft_id "draft" db) (with_binding binding policy);;
  mret draft_id.

(* [sidecar/ibreeze/profile/service.py:221-244 get_profile] *)
Definition get_profile (company profile_id : string) : tx DB (option (Profile * list Version)) :=
  profile ← select_one (λ p, (bp_id p =? profile_id) && (bp_company_id p =? company));
  match profile with
  | None => mret None
  | Some p =>
      l ← select (λ v, pv_profile_id v =? profile_id);
      mret (Some (p, sort_by (λ a b, (pv_version_number b <=? pv_version_number a)%Z) l))
  end.

Definition newest_first (a b : Profile) : bool :=
  String.ltb (bp_created_at b) (bp_created_at a) ||
  ((bp_created_at a =? bp_created_at b) && text_le (bp_id b) (bp_id a)).

(** The join yields a profile once for every row of the employee. *)
(* [sidecar/ibreeze/profile/service.py:247-269 list_profiles] *)
Definition list_profiles (company : string) (employee_id : option string) : tx DB (list Profile) :=
  db ← gets (λ db, db);
  mret (sort_by newest_first
    (match employee_id with
     | None => where_ (λ p, bp_company_id p =? company) (profiles db)
     | Some e => flat_map (λ p, List.map (λ _, p) (List.filter (λ r,
           sql_eq (Some (er_base_profile_version_id r)) (bp_current_version_id p) && (er_id r =? e) &&
           (er_company_id r =? company)) (employees db)))
         (where_ (λ p, bp_company_id p =? company) (profiles db))
     end)).

Definition find_draft (company profile_id : string) : tx DB (option Version) :=
  gets (λ db, List.find (λ v, (pv_profile_id v =? profile_id) && (pv_status v =? "draft") &&
    of_company company db (pv_profile_id v)) (versions db)).

(** [COALESCE(MAX(load_order), -1) + 1] *)
Definition next_order (version : string) (db : DB) : Z :=
  foldr (λ b m, Z.max (sb_load_order b + 1) m) 0%Z (where_ (λ b, sb_profile_version_id b =? version) (bindings db)).

(* [sidecar/ibreeze/profile/service.py:272-341 bind_skill] *)
Definition bind_skill (binding_id company profile_id skill_id skill_version package_sha256 : string) : tx DB Z :=
  draft ← find_draft company profile_id;
  d ← found draft (ValueError "DRAFT_NOT_FOUND");
  existing ← select_one (λ b, (sb_profile_version_id b =? pv_id d) && (sb_skill_id b =? skill_id));
  check (negb (is_set existing)) (ValueError "SKILL_ALREADY_BOUND");;
  order ← gets (next_order (pv_id d));
  let sha := if (py_len package_sha256 =? 64)%Z then package_sha256
             else sha256 (skill_id +:+ ":" +:+ skill_version) in
  insert_binding {| sb_profile_version_id := pv_id d; sb_skill_id := skill_id; sb_skill_version_id := binding_id;
    sb_skill_version := skill_version; sb_package_sha256 := sha; sb_load_order := order |};;
  mret order.

(* [sidecar/ibreeze/profile/service.py:344-375 unbind_skill] *)
Definition unbind_skill (company profile_id skill_id : string) : tx DB unit :=
  draft ← find_draft company profile_id;
  d ← found draft (ValueError "DRAFT_NOT_FOUND");
  n ← delete_bindings (λ b, (sb_profile_version_id b =? pv_id d) && (sb_skill_id b =? skill_id));
  check (negb (n =? 0)%Z) (ValueError "SKILL_NOT_BOUND").

(** *** Validation *)

(** Of every binding of every provider of the release, its provider and whether it routes; the
    last one counts. *)
(* [sidecar/ibreeze/profile/service.py:451-455 _catalog_policy_errors] *)
Definition provider_bindings (provider : list (string * json)) (known : list (string * (string * bool)))
    : result (list (string * (string * bool))) :=
  l ← iterate (field_or provider "model_bindings" (JList []));
  Ok (fold_left (λ known b,
        match b with
        | JObj d =>
            if json_truthy (field d "binding_id")
            then dict_set known (py_str repr (field d "binding_id"))
                   (py_str repr (field_or provider "id" (JStr "")),
                    json_truthy (field_or d "routing_enabled" (JBool false)))
            else known
        | _ => known
        end) l known).

(* [sidecar/ibreeze/profile/service.py:443-451 _catalog_policy_errors] *)
Fixpoint release_bindings (resources : list Resource) (known : list (string * (string * bool)))
    : result (list (string * (string * bool))) :=
  match resources with
  | [] => Ok known
  | r :: rest =>
      match re_content r with
      | Some (JObj provider) => known' ← provider_bindings provider known; release_bindings rest known'
      | _ => release_bindings rest known
      end
  end.

(* [sidecar/ibreeze/profile/service.py:457-469 _catalog_policy_errors] *)
Fixpoint candidate_errors (known : list (string * (string * bool))) (index : Z) (candidates : list json) : list string :=
  match candidates with
  | [] => []
  | c :: rest =>
      match c with
      | JObj d =>
          let '(provider_id, enabled) :=
            default ("", false) (dict_get known (py_str repr (field_or d "model_binding_id" (JStr "")))) in
          (if (provider_id =? "") ||
              negb (provider_id =? py_str repr (field_or d "provider_release_id" (JStr "")))
           then ["routing_candidate_outside_release:/candidates/" +:+ pretty.pretty index] else []) ++
          (if negb enabled || negb (json_truthy (field_or d "routing_enabled" (JBool false)))
           then ["routing_candidate_disabled:/candidates/" +:+ pretty.pretty index] else [])
      | _ => []
      end ++ candidate_errors known (index + 1) rest
  end.

(* [sidecar/ibreeze/profile/service.py:437-469 _catalog_policy_errors] *)
Definition _catalog_policy_errors (release_id : string) (policy : list (string * json)) (db : DB)
    : result (list string) :=
  known ← release_bindings (where_ (λ r, (re_release_id r =? release_id) && (re_resource_type r =? "provider"))
            (catalog_cache_resources db)) [];
  Ok (match field_or policy "candidates" (JList []) with
      | JList l => candidate_errors known 0 l
      | _ => []
      end).

Definition if_missing (bad : bool) (e : string) : list string := if bad then [e] else [].

Definition BINDING_FIELDS : list string :=
  ["credential_ref"; "provider_release_id"; "model_binding_id"; "provider_protocol"].

(** [isinstance(binding.get(field), str) and binding[field].strip()] *)
Definition filled (binding : list (string * json)) (f : string) : bool :=
  match field binding f with JStr s => negb (strip s =? "") | _ => false end.

(* [sidecar/ibreeze/profile/service.py:412-426 validate_draft] *)
Definition policy_errors (v : Version) (binding : list (string * json)) (db : DB) : result (list string) :=
  let fields := flat_map (λ f, if_missing (negb (filled binding f)) ("missing_" +:+ f)) BINDING_FIELDS in
  let policy := as_obj (pv_routing_policy v) in
  own ← match validate_routing_policy repr int_of_float policy "api_model" None with
        | Ok _ => Ok []
        | Err (ValueError code) => Ok [code]
        | Err e => Err e
        end;
  catalog ← match policy with
            | Some p => if pv_catalog_release_id v =? "" then Ok []
                        else _catalog_policy_errors (pv_catalog_release_id v) p db
            | None => Ok []
            end;
  Ok (fields ++ own ++ catalog).

(* [sidecar/ibreeze/profile/service.py:395-434 validate_draft] *)
Definition draft_errors (v : Version) (db : DB) : result (list string) :=
  let basic := if_missing (pv_name v =? "") "missing_name" ++
    if_missing (pv_description v =? "") "missing_description" ++
    if_missing (pv_system_prompt v =? "") "missing_system_prompt" ++
    if_missing (pv_catalog_release_id v =? "") "missing_catalog_release" in
  rest ← (if pv_profile_type v =? "api_model" then
            binding ← of_option (as_obj (pv_runtime_binding v)) (AttributeErr "get");
            policy_errors v binding db
          else if pv_profile_type v =? "agent_cli" then
            cli ← attr_get (pv_runtime_binding v) "agent_cli" (JStr "");
            Ok (if_missing (strip (py_str repr cli) =? "") "missing_agent_cli")
          else Ok []);
  Ok (basic ++ rest).

(* [sidecar/ibreeze/profile/service.py:378-434 validate_draft] *)
Definition validate_draft (company draft_id : string) : tx DB (list string) :=
  draft ← find_version company draft_id "draft";
  d ← found draft (ValueError "DRAFT_NOT_FOUND");
  db ← gets (λ db, db);
  lift (draft_errors d db).

(** *** Publication and retirement *)

(* [sidecar/ibreeze/profile/service.py:495-503 publish_draft] *)
Definition published (now : string) (v : Version) : Version := {|
  pv_id := pv_id v; pv_profile_id := pv_profile_id v; pv_version_number := pv_version_number v;
  pv_name := pv_name v; pv_description := pv_description v; pv_profile_type := pv_profile_type v;
  pv_runtime_binding := pv_runtime_binding v; pv_routing_policy := pv_routing_policy v;
  pv_system_prompt := pv_system_prompt v; pv_capability_tags := pv_capability_tags v;
  pv_tool_policy := pv_tool_policy v; pv_timeout_seconds := pv_timeout_seconds v;
  pv_max_retries := pv_max_retries v; pv_workspace_policy := pv_workspace_policy v;
  pv_catalog_release_id := pv_catalog_release_id v; pv_content_sha256 := pv_content_sha256 v;
  pv_status := "published"; pv_created_at := pv_created_at v; pv_published_at := Some now |}.

(* [sidecar/ibreeze/profile/service.py:505-510 publish_draft] *)
Definition set_current (version : option string) (status now : string) (p : Profile) : Profile := {|
  bp_id := bp_id p; bp_company_id := bp_company_id p; bp_name := bp_name p;
  bp_normalized_name := bp_normalized_name p; bp_description := bp_description p;
  bp_current_version_id := version; bp_status := status; bp_created_at := bp_created_at p;
  bp_updated_at := now; bp_version := bp_version p |}.

(* [sidecar/ibreeze/profile/service.py:472-516 publish_draft] *)
Definition publish_draft (now company draft_id : string) : tx DB string :=
  draft ← find_version company draft_id "draft";
  d ← found draft (ValueError "DRAFT_NOT_FOUND");
  errors ← validate_draft company draft_id;
  check (negb ((pv_profile_type d =? "api_model") && negb (bool_decide (errors = [])))) (ValueError "PROFILE_NOT_VALID");;
  db ← gets (λ db, db);
  update_versions (selected company draft_id "draft" db) (published now);;
  update (λ p, (bp_id p =? pv_profile_id d) && (bp_company_id p =? company))
    (λ p, set_current (Some draft_id) (bp_status p) now p);;
  mret draft_id.

(* [sidecar/ibreeze/profile/service.py:519-551 retire_version] *)
Definition retire_version (company version_id : string) : tx DB unit :=
  version ← find_version company version_id "published";
  check (is_set version) (ValueError "VERSION_NOT_PUBLISHED");;
  db ← gets (λ db, db);
  update_versions (selected company version_id "published" db) (set_status "retired");;
  mret tt.

Definition versions_of (company profile_id status : string) (db : DB) (v : Version) : bool :=
  (pv_profile_id v =? profile_id) && (pv_status v =? status) && of_company company db (pv_profile_id v).

(* [sidecar/ibreeze/profile/service.py:554-612 retire_profile] *)
Definition retire_profile (now company profile_id : string) : tx DB unit :=
  profile ← select_one (λ p, (bp_id p =? profile_id) && (bp_company_id p =? company));
  check (is_set profile) (ValueError "PROFILE_NOT_FOUND");;
  db ← gets (λ db, db);
  let draft := List.find (versions_of company profile_id "draft" db) (versions db) in
  (if is_set draft then update_versions (versions_of company profile_id "draft" db) (set_status "retired");; mret tt
   else mret tt);;
  update_versions (versions_of company profile_id "published" db) (set_status "retired");;
  update (λ p, (bp_id p =? profile_id) && (bp_company_id p =? company)) (set_current None "retired" now);;
  mret tt.

(** *** In front of the service ([application/public_rpc.py]) *)

Record PublicVersion := { pb_id : string; pb_status : string; pb_profile_type : string; pb_routing_policy : json }.
Record PublicProfile := {
  pp_profile_id : string; pp_display_name : string; pp_status : string; pp_version : Z;
  pp_profile_type : string; pp_current_version_id : option string; pp_routing_policy : json;
  pp_versions : list PublicVersion }.

(** [vs] is empty for a profile that comes without its versions. *)
(* [sidecar/ibreeze/application/public_rpc.py:69-104 _profile_public_response] *)
Definition _profile_public_response (p : Profile) (vs : list Version) : PublicProfile :=
  let versions := map (λ v, {| pb_id := pv_id v; pb_status := pv_status v; pb_profile_type := pv_profile_type v;
                              pb_routing_policy := pv_routing_policy v |}) vs in
  let current := match List.find (λ v, bp_current_version_id p =?o Some (pb_id v)) versions with
                 | Some v => Some v
                 | None => head versions
                 end in
  {| pp_profile_id := bp_id p; pp_display_name := bp_name p;
     pp_status := match current with Some v => pb_status v | None => "draft" end;
     pp_version := if (bp_version p =? 0)%Z then 1 else bp_version p;
     pp_profile_type := match current with Some v => pb_profile_type v | None => "api_model" end;
     pp_current_version_id := match current with
                              | Some v => if pb_id v =? "" then None else Some (pb_id v)
                              | None => match bp_current_version_id p with
                                        | Some c => if c =? "" then None else Some c
                                        | None => None
                                        end
                              end;
     pp_routing_policy := match current with Some v => pb_routing_policy v | None => JObj [] end;
     pp_versions := versions |}.

(** The projection of each profile and the status of its current version. *)
(* [sidecar/ibreeze/application/public_rpc.py:107-127 _profile_list_response] *)
Definition _profile_list_response (l : list Profile) : list (PublicProfile * string) :=
  map (λ p,
    let projected := _profile_public_response p [] in
    (projected,
     match List.find (λ v, pp_current_version_id projected =?o Some (pb_id v)) (pp_versions projected) with
     | Some v => pb_status v
     | None => pp_status projected
     end)) l.

(** The columns of the table after the migrations. *)
Definition version_columns : list string := [
  "id"; "profile_id"; "version_number"; "name"; "description"; "profile_type"; "runtime_binding_json";
  "system_prompt"; "capability_tags_json"; "tool_policy_json"; "timeout_seconds"; "max_retries";
  "workspace_policy"; "catalog_release_id"; "content_sha256"; "status"; "created_at"; "published_at";
  "routing_policy_json"].

(** The columns that the query of the preflight names. *)
(* [sidecar/ibreeze/application/public_rpc.py:247-252 _preflight_profile_credentials] *)
Definition load_draft_columns : list string := ["profile_type"; "routing_policy_json"; "id"; "company_id"; "status"].

(** SQLite refuses a statement that names a column that is not there. *)
(* [sidecar/ibreeze/application/public_rpc.py:247-254 _preflight_profile_credentials] *)
Definition load_draft (draft_id : string) : tx DB (option Version) :=
  match List.find (λ c, negb (c ∈? version_columns)) load_draft_columns with
  | Some c => raise (RuntimeErr ("no such column: " +:+ c))
  | None => select_one (λ v, (pv_id v =? draft_id) && (pv_status v =? "draft"))
  end.

(** [describe] is what Rust answers about a credential. *)
Context (describe : json → json → result (list (string * json))).

(* [sidecar/ibreeze/application/public_rpc.py:267-281 _preflight_profile_credentials] *)
Fixpoint check_credentials (candidates : list json) : result unit :=
  match candidates with
  | [] => Ok tt
  | JObj c :: rest =>
      description ← describe (field c "credential_ref") (field c "provider_release_id");
      ensure (bool_decide (field description "state" = JStr "ready")) (ValueError "CREDENTIAL_NOT_READY");;
      match field c "credential_secret_version" with
      | JNull => Ok tt
      | expected =>
          active ← py_to_int int_of_float (field_or description "active_secret_version" (JInt 0));
          wanted ← py_to_int int_of_float expected;
          ensure (active =? wanted)%Z (ValueError "CREDENTIAL_VERSION_MISMATCH")
      end;;
      check_credentials rest
  | _ :: rest => check_credentials rest
  end.

(* [sidecar/ibreeze/application/public_rpc.py:239-281 _preflight_profile_credentials] *)
Definition _preflight_profile_credentials (draft_id : string) : tx DB unit :=
  record ← load_draft draft_id;
  match record with
  | None => mret tt
  | Some v =>
      if pv_profile_type v =? "api_model" then
        match pv_routing_policy v with
        | JObj policy =>
            candidates ← lift (iterate (field_or policy "candidates" (JList [])));
            lift (check_credentials candidates)
        | _ => mret tt
        end
      else mret tt
  end.

(* [sidecar/ibreeze/application/public_rpc.py:643-650 register_public_handlers] *)
Definition profile_publish_handler (now company draft_id : string) : tx DB string :=
  _preflight_profile_credentials draft_id;;
  publish_draft now company draft_id.

(** Publishing a profile over RPC always fails. *)
Lemma publish_never_reached now company draft_id db :
  profile_publish_handler now company draft_id db = (Err (RuntimeErr "no such column: company_id"), db).
Proof. reflexivity. Qed.

(** The list reports every profile as a draft for an API model. *)
Lemma list_reports_drafts l :
  map (λ x, (pp_status x.1, pp_profile_type x.1, x.2)) (_profile_list_response l) =
  map (λ _, ("draft", "api_model", "draft")) l.
Proof. unfold _profile_list_response. rewrite map_map. done. Qed.
End Profiles.

(** ** Runs of the service *)

Inductive Command : Type :=
| CreateDraft (profile_id version_id now company : string) (r : DraftRequest)
| UpdateDraft (company draft_id : string) (u : DraftUpdate)
| BindSkill (binding_id company profile_id skill_id skill_version package_sha256 : string)
| UnbindSkill (company profile_id skill_id : string)
| PublishDraft (now company draft_id : string)
| RetireVersion (company version_id : string)
| RetireProfile (now company profile_id : string).

(** The deferred key of [current_version_id]. *)
Definition commit_ok (db : DB) : bool :=
  forallb (λ p, match bp_current_version_id p with Some v => v ∈? map pv_id (versions db) | None => true end)
    (profiles db).

Definition committed {A} (m : tx DB A) (db : DB) : DB :=
  match m db with (Ok _, db') => if commit_ok db' then db' else db | (Err _, _) => db end.

Section Runs.
Context `{RangeCheck} (repr : json → string) (int_of_float : string → result Z) (lower : string → string)
  (sha256 : string → string).

Definition run (c : Command) (db : DB) : DB :=
  match c with
  | CreateDraft p v now company r => committed (create_draft repr int_of_float lower p v now company r) db
  | UpdateDraft company id u => committed (update_draft repr int_of_float company id u) db
  | BindSkill b company p skill version sha => committed (bind_skill sha256 b company p skill version sha) db
  | UnbindSkill company p skill => committed (unbind_skill company p skill) db
  | PublishDraft now company id => committed (publish_draft repr int_of_float now company id) db
  | RetireVersion company id => committed (retire_version company id) db
  | RetireProfile now company p => committed (retire_profile now company p) db
  end.

Definition tables_ok (db : DB) : Prop :=
  table_ok (R := Profile) db = true ∧ table_ok (R := Version) db = true ∧ table_ok (R := SkillBinding) db = true.

(** What validation asks of a version for an API model. *)
Definition complete (v : Version) : Prop :=
  pv_name v ≠ "" ∧ pv_description v ≠ "" ∧ pv_system_prompt v ≠ "" ∧ pv_catalog_release_id v ≠ "" ∧
  (∃ d, pv_runtime_binding v = JObj d ∧ ∀ f, f ∈ BINDING_FIELDS → filled d f = true) ∧
  (∃ p policy, pv_routing_policy v = JObj p ∧
     validate_routing_policy repr int_of_float (Some p) "api_model" None = Ok policy).

(** What a command may do to a version. *)
Definition evolves (v v' : Version) : Prop :=
  pv_id v' = pv_id v ∧ pv_profile_id v' = pv_profile_id v ∧
  (pv_status v ≠ "draft" → v' = v ∨ (pv_status v = "published" ∧ v' = set_status "retired" v)) ∧
  (pv_status v = "draft" → pv_status v' = "draft" ∨
    (pv_status v' = "published" ∧ v' = published (default "" (pv_published_at v')) v ∧
     (pv_profile_type v = "api_model" → complete v))).

Lemma version_evolves_refl v : evolves v v.
Proof. split_and!; auto. Qed.

Lemma evolves_all l : Forall2 evolves l l.
Proof. induction l; constructor; [apply version_evolves_refl|done]. Qed.

Lemma update_versions_ok p f db n db' : update_versions p f db = (Ok n, db') →
  (∀ v, v ∈ versions db → p v = true → guard_ok v (f v) = true ∧ row_ok (DB := DB) (f v) = true) ∧
  no_clash (DB := DB) (updated p f (versions db)) = true ∧
  db' = set_rows (updated p f (versions db)) db.
Proof.
  unfold update_versions. intros Hrun. sql_inv. rename select (update _ _ _ = _) into Hu.
  apply update_ok in Hu as (Hrow & Hclash & _ & ->). split_and!; [|done..].
  intros v Hv Hp. rewrite forallb_map, forallb_forall in Hrow. rewrite forallb_forall in *.
  assert (In v (where_ p (versions db))) as Hin by (apply list_elem_of_In, elem_where; done).
  split; [by auto|by apply Hrow].
Qed.

(** The skills of a version that is no draft stay. *)
Definition frozen (db : DB) (b : SkillBinding) : Prop :=
  ∃ v, v ∈ versions db ∧ pv_id v = sb_profile_version_id b ∧ pv_status v ≠ "draft".

Definition step_ok (db db' : DB) : Prop :=
  tables_ok db' ∧
  (∃ old new, versions db' = old ++ new ∧ Forall2 evolves (versions db) old ∧
     Forall (λ v, pv_status v = "draft") new) ∧
  (∀ b, frozen db b → (b ∈ bindings db' ↔ b ∈ bindings db)).

Lemma profile_step_refl db : tables_ok db → step_ok db db.
Proof.
  intros Hok. split_and!; [done..| |done]. exists (versions db), []. rewrite app_nil_r.
  split_and!; [done| |constructor]. apply evolves_all.
Qed.

(** Commands that touch the profiles only. *)
Lemma step_profiles db db' : tables_ok db → tables_ok db' → versions db' = versions db → bindings db' = bindings db →
  step_ok db db'.
Proof.
  intros Hok Hok' Hv Hb. destruct (profile_step_refl db Hok) as (_ & (old & new & E & H1 & H2) & _).
  split_and!; [done| |by rewrite Hb]. exists old, new. by rewrite Hv.
Qed.

Lemma step_versions db p f n db' : tables_ok db →
  (∀ v, v ∈ versions db → p v = true → pv_status v = "draft" → row_ok (DB := DB) (f v) = true → evolves v (f v)) →
  update_versions p f db = (Ok n, db') → step_ok db db'.
Proof.
  intros (H1 & H2 & H3) Hev Hu. apply update_versions_ok in Hu as (Hsel & Hclash & ->). split_and!.
  - split_and!; [by destruct db| |by destruct db].
    unfold table_ok. rewrite rows_set_rows, Hclash, andb_true_r. apply forallb_forall.
    intros v Hv%list_elem_of_In%elem_updated. destruct Hv as [[Hv _]|(v0 & Hv & Hp & ->)].
    + by apply (table_ok_row db).
    + by apply Hsel.
  - exists (updated p f (versions db)), []. rewrite app_nil_r. split_and!; [by destruct db| |constructor].
    assert (∀ l, (∀ v, v ∈ l → v ∈ versions db) → Forall2 evolves l (updated p f l)) as Hl; [|by apply Hl].
    induction l as [|v l IH]; intros Hin; [constructor|]. simpl. constructor; [|apply IH; set_solver].
    destruct (p v) eqn:Hp; [|apply version_evolves_refl]. destruct (Hsel v) as [Hg Hrow]; [set_solver|done|].
    destruct (decide (pv_status v = "draft")) as [Hd|Hd]; [by apply Hev; [set_solver|..]|].
    unfold guard_ok in Hg. destruct (pv_status v ∈? _) eqn:Hs.
    + bools. rename select (pv_status v = _) into Hpub. rename select (f v = _) into Hf.
      rewrite Hf. split_and!; [done..| |by intros]. by right.
    + exfalso. assert (row_ok (DB := DB) v = true) as Hv by (apply (table_ok_row db); [done|set_solver]).
      simpl in Hv. rewrite (proj2 (String.eqb_neq _ _) Hd), Hs in Hv. by rewrite andb_false_r in Hv.
  - intros b _. by destruct db.
Qed.

Lemma committed_step {A} (m : tx DB A) db : tables_ok db →
  (∀ a db', m db = (Ok a, db') → step_ok db db') → step_ok db (committed m db).
Proof.
  intros Hok Hm. unfold committed. destruct (m db) as [[a|e] db'] eqn:E; [|by apply profile_step_refl].
  destruct (commit_ok db'); [by eapply Hm|by apply profile_step_refl].
Qed.

(** *** Command by command *)

Lemma evolves_draft v v' : pv_id v' = pv_id v → pv_profile_id v' = pv_profile_id v → pv_status v = "draft" →
  pv_status v' = "draft" → evolves v v'.
Proof. intros H1 H2 H3 H4. split_and!; try done. by left. Qed.

Lemma retired_needs_publication (v : Version) : pv_status v = "draft" →
  row_ok (DB := DB) v = true → row_ok (DB := DB) (set_status "retired" v) = true → False.
Proof.
  intros Hd H1 H2. simpl in H1, H2. rewrite Hd in H1. simpl in H1. bools.
  destruct (pv_published_at v); simplify_eq/=.
Qed.

Ltac run_inv1 :=
  match goal with
  | H : lift _ _ = (Ok _, _) |- _ => unfold lift in H; injection H as H <-
  | H : gets _ _ = (Ok _, _) |- _ =>
      apply gets_ok in H; first [destruct H as [-> ->] | destruct H as [H ->]; symmetry in H]
  | H : select_one _ _ = (Ok (Some _), _) |- _ => apply select_one_ok in H; destruct H as [H ->]; symmetry in H
  | H : select_one _ _ = (Ok None, _) |- _ => apply select_one_ok in H; destruct H as [H ->]; symmetry in H
  end.
Ltac run_inv := repeat (first [run_inv1 | sql_inv1 | tx_inv1]; simplify_eq/=).

Lemma update_draft_step company id u db a db' : tables_ok db →
  update_draft repr int_of_float company id u db = (Ok a, db') → step_ok db db'.
Proof.
  intros Hok Hrun. unfold update_draft, find_version in Hrun. run_inv.
  repeat (case_match; simplify_eq/=; try done); run_inv;
  (eapply step_versions; [exact Hok| |eassumption]; intros v _ Hv Hd _; by apply evolves_draft).
Qed.

Lemma skills_mutable_at db v : table_ok (R := Version) db = true → v ∈ versions db →
  skills_mutable (pv_id v) db = (pv_status v =? "draft").
Proof.
  intros Hok Hv. unfold skills_mutable.
  destruct (find_unique (R := Version) (DB := DB) (λ x, pv_id x =? pv_id v) (versions db) v)
    as [Hf _]; [exact (table_no_clash db Hok)| |done|by apply String.eqb_eq|by rewrite Hf].
  intros v1 v2 E1 E2. bools. simpl. replace (pv_id v1 =? pv_id v2) with true; [done|]. symmetry. apply String.eqb_eq. congruence.
Qed.

Lemma binding_step db b : tables_ok db → ∀ u db', insert_binding b db = (Ok u, db') → step_ok db db'.
Proof.
  intros Hok u db' Hrun. unfold insert_binding in Hrun. run_inv. rename select (insert_row _ _ = _) into Hi.
  destruct Hok as (H1 & H2 & H3). split_and!.
  - apply insert_ok in Hi as Hi'. destruct Hi' as (_ & _ & _ & ->). split_and!; [by destruct db..|].
    eapply insert_table_ok; [exact Hi|by apply table_rows_ok].
  - apply insert_ok in Hi as (_ & _ & _ & ->). exists (versions db), []. rewrite app_nil_r.
    split_and!; [by destruct db| |constructor]. apply evolves_all.
  - apply insert_ok in Hi as (_ & _ & _ & ->). intros b' (v & Hv & Hid & Hs). cbn [bindings set_rows bindings_table rows].
    rewrite elem_of_app, list_elem_of_singleton. split; [|by left]. intros [?| ->]; [done|]. exfalso.
    rename select (skills_mutable _ _ = true) into Hm. rewrite <- Hid, (skills_mutable_at db v) in Hm by done. by bools.
Qed.

Lemma delete_table_ok {D R} `{!Table D R} p (db : D) : table_ok db = true →
  table_ok (set_rows (where_ p (rows db)) db) = true.
Proof.
  unfold table_ok. rewrite rows_set_rows. generalize (rows db). intros l. unfold where_.
  induction l as [|b l IH]; [done|]. simpl.
  intros [[Hb Hl]%andb_true_iff [Hn Hc]%andb_true_iff]%andb_true_iff. rewrite Hl, Hc in IH. specialize (IH eq_refl).
  destruct (p b); [|done]. simpl. apply andb_true_iff in IH as [-> ->]. rewrite Hb. simpl. rewrite andb_true_r.
  apply negb_true_iff, not_true_iff_false. intros (y & [Hy _]%filter_In & Hy')%existsb_exists.
  apply negb_true_iff, not_true_iff_false in Hn. apply Hn, existsb_exists. eauto.
Qed.

Lemma delete_step p db : tables_ok db → ∀ n db', delete_bindings p db = (Ok n, db') → step_ok db db'.
Proof.
  intros Hok n db' Hrun. unfold delete_bindings in Hrun.
  apply tx_bind_ok in Hrun as (sel & d1 & [-> ->]%select_ok & Hrun).
  apply tx_bind_ok in Hrun as (d & d2 & [-> ->]%gets_ok & Hrun).
  apply tx_bind_ok in Hrun as (u & d3 & [Hall ->]%check_ok & [= _ <-]).
  destruct Hok as (H1 & H2 & H3). split_and!.
  - split_and!; [by destruct db..|].
    exact (delete_table_ok (R := SkillBinding) (λ b, negb (p b)) db H3).
  - exists (versions db), []. rewrite app_nil_r.
    split_and!; [by destruct db| |constructor]. apply evolves_all.
  - intros b (v & Hv & Hid & Hs). cbn [bindings set_rows bindings_table rows]. rewrite elem_where. split; [by intros []|].
    intros Hb. split; [done|]. destruct (p b) eqn:Hp; [|done]. exfalso. rewrite forallb_forall in Hall.
    specialize (Hall b). cbn beta in Hall. rewrite <- list_elem_of_In, elem_where in Hall. specialize (Hall (conj Hb Hp)).
    rewrite <- Hid, (skills_mutable_at db v) in Hall by done. by bools.
Qed.

Lemma step_trans_profiles db db1 p f n db' : step_ok db db1 → update (R := Profile) p f db1 = (Ok n, db') → step_ok db db'.
Proof.
  intros ((H1 & H2 & H3) & Hv & Hb) Hu. pose proof (update_table_ok _ _ _ _ _ Hu (table_rows_ok _ H1)) as H1'.
  apply update_ok in Hu as (_ & _ & _ & ->). split_and!; [|by destruct db1..].
  split_and!; [done|by destruct db1..].
Qed.

Lemma if_missing_nil b e : if_missing b e = [] → b = false.
Proof. by destruct b. Qed.

Lemma no_errors_complete v db : draft_errors repr int_of_float v db = Ok [] → pv_profile_type v = "api_model" → complete v.
Proof.
  intros He Ht. unfold draft_errors in He. rewrite Ht in He. simpl in He. unfold policy_errors in He.
  destruct (as_obj (pv_runtime_binding v)) as [d|] eqn:Hd; [|done]. simpl in He.
  destruct (validate_routing_policy repr int_of_float (as_obj (pv_routing_policy v)) "api_model" None) as [pol|e] eqn:Hv.
  - simpl in He. destruct (match as_obj (pv_routing_policy v) with Some p => _ | None => _ end) as [cat|] in He; [|done].
    simpl in He. injection He as He.
    repeat match goal with H : _ ++ _ = [] |- _ => apply app_eq_nil in H; destruct H end.
    repeat match goal with H : if_missing _ _ = [] |- _ => apply if_missing_nil in H; bools end.
    split_and!; try done.
    + exists d. split; [destruct (pv_runtime_binding v); simplify_eq/=; done|].
      intros f Hf. repeat (apply elem_of_cons in Hf as [->|Hf];
        [repeat match goal with H : negb _ = false |- _ => apply negb_false_iff in H end; done|]). by apply elem_of_nil in Hf.
    + destruct (as_obj (pv_routing_policy v)) as [p|] eqn:Hp; [|by vm_compute in Hv].
      exists p, pol. split; [destruct (pv_routing_policy v); simplify_eq/=; done|done].
  - destruct e; simpl in He; try done.
    destruct (match as_obj (pv_routing_policy v) with Some p => _ | None => _ end) as [cat|] in He; [|done].
    simpl in He. injection He as He. exfalso.
    repeat match goal with H : _ ++ _ = [] |- _ => apply app_eq_nil in H; destruct H end. done.
Qed.

Lemma selected_one company id status db v w : table_ok (R := Version) db = true →
  v ∈ versions db → w ∈ versions db → selected company id status db v = true → selected company id status db w = true → v = w.
Proof.
  intros Hok Hv Hw Hpv Hpw. eapply (unique_row (R := Version) (DB := DB) (selected company id status db) (versions db));
    try done; [exact (table_no_clash db Hok)|].
  unfold selected. intros x y Hx Hy. bools. simpl. apply orb_true_iff. left. apply String.eqb_eq. congruence.
Qed.

(** A publication that went through. *)
Lemma publish_run now company id db a db' : publish_draft repr int_of_float now company id db = (Ok a, db') →
  a = id ∧ ∃ d errors n db1 n', List.find (selected company id "draft" db) (versions db) = Some d ∧
    draft_errors repr int_of_float d db = Ok errors ∧ (pv_profile_type d = "api_model" → errors = []) ∧
    update_versions (selected company id "draft" db) (published now) db = (Ok n, db1) ∧
    update (λ p, (bp_id p =? pv_profile_id d) && (bp_company_id p =? company))
      (λ p, set_current (Some id) (bp_status p) now p) db1 = (Ok n', db').
Proof.
  intros Hrun. unfold publish_draft, find_version in Hrun. run_inv.
  rename select (validate_draft _ _ _ _ _ = _) into Hval. unfold validate_draft, find_version in Hval. run_inv.
  split; [done|]. eexists _, _, _, _, _. split_and!; [done|done| |done|done].
  rename select (negb (_ && _) = true) into Hc. intros Ht. rewrite Ht in Hc. simpl in Hc. by bools.
Qed.

Lemma publish_step now company id db a db' : tables_ok db →
  publish_draft repr int_of_float now company id db = (Ok a, db') → step_ok db db'.
Proof.
  intros Hok Hrun. apply publish_run in Hrun as (-> & d & errors & n & db1 & n' & Hd & He & Hnone & Hv & Hp).
  eapply step_trans_profiles; [|exact Hp]. eapply step_versions; [exact Hok| |exact Hv].
  apply find_some in Hd as [Hin%list_elem_of_In Hsel].
  intros v Hvin Hvs Hvd _. assert (v = d) as -> by (eapply selected_one; [apply Hok|done..]).
  split_and!; [done..| |]; [by intros []|]. intros _. right. split_and!; [done..|].
  intros Ht. rewrite (Hnone Ht) in He. by eapply no_errors_complete.
Qed.

Lemma retire_version_step company id db a db' : tables_ok db →
  retire_version company id db = (Ok a, db') → step_ok db db'.
Proof.
  intros Hok Hrun. unfold retire_version, find_version in Hrun. run_inv.
  eapply step_versions; [exact Hok| |eassumption]. intros v _ Hp Hd _. unfold selected in Hp. bools. congruence.
Qed.

(** Retiring a profile fails while it has a draft. *)
Lemma retire_profile_run now company id db a db' : tables_ok db →
  retire_profile now company id db = (Ok a, db') →
  (∀ v, v ∈ versions db → versions_of company id "draft" db v = false) ∧
  ∃ n db1 n', update_versions (versions_of company id "published" db) (set_status "retired") db = (Ok n, db1) ∧
    update (λ p, (bp_id p =? id) && (bp_company_id p =? company)) (set_current None "retired" now) db1 = (Ok n', db').
Proof.
  intros (_ & Hok & _) Hrun. unfold retire_profile in Hrun. run_inv.
  destruct (List.find (versions_of company id "draft" db) (versions db)) as [d|] eqn:Hd; simpl in *; run_inv.
  - exfalso. apply find_some in Hd as [Hin%list_elem_of_In Hp].
    rename select (update_versions (versions_of company id "draft" db) _ _ = _) into Hu.
    apply update_versions_ok in Hu as (Hsel & _). destruct (Hsel d Hin Hp) as [_ Hrow].
    unfold versions_of in Hp. bools. eapply retired_needs_publication; [|by apply (table_ok_row db)|exact Hrow]. done.
  - split; [|by eauto 10]. intros v Hv. apply not_true_iff_false. intros Hp.
    pose proof (find_none _ _ Hd v (proj1 (list_elem_of_In _ _) Hv)). congruence.
Qed.

Lemma retire_profile_step now company id db a db' : tables_ok db →
  retire_profile now company id db = (Ok a, db') → step_ok db db'.
Proof.
  intros Hok Hrun. apply retire_profile_run in Hrun as (_ & n & db1 & n' & Hu & Hp); [|done].
  eapply step_trans_profiles; [|exact Hp]. eapply step_versions; [exact Hok| |exact Hu].
  intros v _ Hv Hd _. unfold versions_of in Hv. bools. congruence.
Qed.

Lemma create_step pid vid now company r db a db' : tables_ok db →
  create_draft repr int_of_float lower pid vid now company r db = (Ok a, db') → step_ok db db'.
Proof.
  intros (H1 & H2 & H3) Hrun. unfold create_draft in Hrun. run_inv.
  repeat (case_match; simplify_eq/=); run_inv.
  rename select (insert_row (R := Profile) _ _ = _) into Hp. rename select (insert_row (R := Version) _ _ = _) into Hv.
  eapply step_trans_profiles; [|eassumption].
  pose proof (insert_table_ok _ _ _ _ Hp (table_rows_ok _ H1)) as H1'.
  apply insert_ok in Hp as (_ & _ & _ & ->).
  pose proof (insert_table_ok _ _ _ _ Hv (table_rows_ok (R := Version) db H2)) as H2'.
  apply insert_ok in Hv as (_ & _ & _ & ->). split_and!.
  - split_and!; [by destruct db|exact H2'|by destruct db].
  - eexists (versions db), [_]. split_and!; [by destruct db| |by repeat constructor].
    apply evolves_all.
  - intros b _. by destruct db.
Qed.

Lemma run_step c db : tables_ok db → step_ok db (run c db).
Proof.
  intros Hok. destruct c; simpl; apply committed_step; try done; intros a db' Hrun.
  - by eapply create_step.
  - by eapply update_draft_step.
  - unfold bind_skill, find_draft in Hrun. run_inv. by eapply binding_step.
  - unfold unbind_skill, find_draft in Hrun. run_inv. by eapply delete_step.
  - by eapply publish_step.
  - by eapply retire_version_step.
  - by eapply retire_profile_step.
Qed.
End Runs.

(** ** What the service promises *)

(** C19. Published profiles are immutable.  Whatever the profile service is asked to do, the tables
    keep their constraints, no version is lost or changes its identity, a version that is no
    draft stays as it is except that a published one may retire, and its skills stay the same;
    a draft can only stay a draft or be published as it is. *)
Theorem published_versions_frozen `{RangeCheck} repr int_of_float lower sha256 c db :
  tables_ok db →
  let db' := run repr int_of_float lower sha256 c db in
  tables_ok db' ∧
  (∀ i v, versions db !! i = Some v → ∃ v', versions db' !! i = Some v' ∧
     pv_id v' = pv_id v ∧ pv_profile_id v' = pv_profile_id v ∧
     (pv_status v ≠ "draft" → v' = v ∨ (pv_status v = "published" ∧ v' = set_status "retired" v)) ∧
     (pv_status v = "draft" → pv_status v' = "draft" ∨ ∃ now, v' = published now v)) ∧
  (∀ v b, v ∈ versions db → pv_status v ≠ "draft" → sb_profile_version_id b = pv_id v →
     (b ∈ bindings db' ↔ b ∈ bindings db)).
Proof.
  intros Hok db'. destruct (run_step repr int_of_float lower sha256 c db Hok) as (Hok' & (old & new & E & Hold & _) & Hb).
  split_and!; [done| |].
  - intros i v Hv. destruct (Forall2_lookup_l _ _ _ _ _ Hold Hv) as (v' & Hv' & H1 & H2 & H3 & H4).
    exists v'. split_and!; try done; [unfold db'; rewrite E; by apply lookup_app_l_Some|].
    intros Hd. destruct (H4 Hd) as [|(_ & Heq & _)]; [by left|right; eauto].
  - intros v b Hv Hs Hid. apply Hb. by exists v.
Qed.

(** C25. Published means validated.  In every state that the profile service reaches from a database
    without profiles, each version for an API model that is published or retired has a name, a
    description, a prompt and a catalog release, the four fields of its runtime binding filled,
    and a routing policy that [validate_routing_policy] accepts. *)
Theorem published_profiles_complete `{RangeCheck} repr int_of_float lower sha256 cs db0 :
  tables_ok db0 → versions db0 = [] →
  let db := fold_left (λ db c, run repr int_of_float lower sha256 c db) cs db0 in
  ∀ v, v ∈ versions db → pv_status v ≠ "draft" → pv_profile_type v = "api_model" → complete repr int_of_float v.
Proof.
  intros Hok0 Hempty. cbn zeta.
  assert (∀ cs, let db := fold_left (λ db c, run repr int_of_float lower sha256 c db) cs db0 in
    tables_ok db ∧ ∀ v, v ∈ versions db → pv_status v ≠ "draft" → pv_profile_type v = "api_model" →
      complete repr int_of_float v) as Hall; [|by apply Hall].
  clear cs. intros cs. induction cs as [|c cs IH] using rev_ind; simpl.
  - split; [done|]. rewrite Hempty. by intros v ?%elem_of_nil.
  - rewrite fold_left_app. simpl. destruct IH as [Hok IH]. set (db := fold_left _ cs db0) in *.
    destruct (run_step repr int_of_float lower sha256 c db Hok) as (Hok' & (old & new & E & Hold & Hnew) & _).
    split; [done|]. intros v Hv Hs Ht. rewrite E in Hv. apply elem_of_app in Hv as [Hv|Hv].
    + apply list_elem_of_lookup in Hv as [i Hi]. destruct (Forall2_lookup_r _ _ _ _ _ Hold Hi) as (w & Hw & _ & _ & H3 & H4).
      apply list_elem_of_lookup_2 in Hw. destruct (decide (pv_status w = "draft")) as [Hd|Hd].
      * destruct (H4 Hd) as [|(_ & Heq & Hc)]; [done|]. rewrite Heq in Ht |- *. exact (Hc Ht).
      * destruct (H3 Hd) as [->|(Hp & ->)]; [by apply IH|]. exact (IH w Hw Hd Ht).
    + rewrite Forall_forall in Hnew. by destruct Hs; apply Hnew.
Qed.

Section Publish.
Context `{RangeCheck} (repr : json → string) (int_of_float : string → result Z).

Lemma published_row_ok now v : row_ok (DB := DB) v = true → row_ok (DB := DB) (published now v) = true.
Proof. simpl. intros Hrow. apply andb_true_iff in Hrow as [Hrow _]. by rewrite Hrow. Qed.

Lemma publish_version_run now company id db d : tables_ok db →
  List.find (selected company id "draft" db) (versions db) = Some d →
  update_versions (selected company id "draft" db) (published now) db =
    (Ok 1%Z, set_rows (updated (selected company id "draft" db) (published now) (versions db)) db).
Proof.
  intros (H1 & H2 & H3) Hf. destruct (find_some _ _ Hf) as [Hin%list_elem_of_In Hsel].
  assert (where_ (selected company id "draft" db) (versions db) = [d]) as Hw.
  { destruct (find_unique (R := Version) (DB := DB) (selected company id "draft" db) (versions db) d) as [_ Hw]; try done;
      [exact (table_no_clash db H2)|].
    unfold selected. intros x y Hx Hy. bools. simpl. apply orb_true_iff. left. apply String.eqb_eq. congruence. }
  unfold update_versions. rewrite (tx_bind_run _ _ db [d] db); [|by apply select_ok; split; [symmetry; exact Hw|]].
  assert (pv_status d = "draft") as Hd by (unfold selected in Hsel; by bools).
  assert (guard_ok d (published now d) = true) as Hg by (unfold guard_ok; by rewrite Hd).
  rewrite (tx_bind_run _ _ db tt db); [|by simpl; rewrite Hg].
  apply update_ok. cbn [rows versions_table]. rewrite Hw. split_and!; [| |done|done].
  - cbn [forallb map]. rewrite published_row_ok; [done|]. by apply (table_ok_row db).
  - apply no_clash_updated_le; [..|exact (table_no_clash db H2)].
    + intros a b Ha. simpl. intros Hc. apply orb_true_iff in Hc as [Hc|Hc]; [by rewrite Hc|].
      apply andb_true_iff in Hc as [Hp Hc]. rewrite orb_false_r in Hc. by rewrite Hp, Hc, orb_true_r.
    + intros a b Hb. simpl. intros Hc. apply orb_true_iff in Hc as [Hc|Hc]; [by rewrite Hc|].
      apply andb_true_iff in Hc as [Hp Hc]. rewrite andb_false_r, orb_false_r in Hc. by rewrite Hp, Hc, orb_true_r.
Qed.

Lemma set_current_run q current status now db : tables_ok db → (∀ p, p ∈ profiles db → status p ∈ ["active"; "retired"]) →
  update q (λ p, set_current (current p) (status p) now p) db =
    (Ok (Z.of_nat (length (where_ q (profiles db)))),
     set_rows (updated q (λ p, set_current (current p) (status p) now p) (profiles db)) db).
Proof.
  intros (H1 & _ & _) Hs. apply update_ok. split_and!; [| |done..].
  - apply forallb_forall. intros x (p & <- & [Hp _]%filter_In)%in_map_iff.
    pose proof (table_ok_row db p H1 (proj2 (list_elem_of_In _ _) Hp)) as Hrow. revert Hrow. simpl.
    intros [[Hn _]%andb_true_iff Hv]%andb_true_iff. by rewrite Hn, Hv, (bool_decide_eq_true_2 _ (Hs p (proj2 (list_elem_of_In _ _) Hp)) : (_ ∈? _) = true).
  - rewrite no_clash_updated by done. exact (table_no_clash db H1).
Qed.
End Publish.

(** Publishing a draft.  The outcome in every case: without such a draft of the company, or
    when validation itself raises, that error; a draft for an API model with a validation error
    is refused; otherwise the draft alone becomes published, now, and the current version of
    its profile - for a draft that runs an agent CLI whatever validation found. *)
Lemma publish_draft_outcome `{RangeCheck} repr int_of_float now company id db :
  tables_ok db →
  let outcome := publish_draft repr int_of_float now company id db in
  match List.find (selected company id "draft" db) (versions db) with
  | None => outcome = (Err (ValueError "DRAFT_NOT_FOUND"), db)
  | Some d =>
      match draft_errors repr int_of_float d db with
      | Err e => outcome = (Err e, db)
      | Ok errors =>
          if (pv_profile_type d =? "api_model") && negb (bool_decide (errors = []))
          then outcome = (Err (ValueError "PROFILE_NOT_VALID"), db)
          else outcome = (Ok id, {|
            companies := companies db; employees := employees db;
            catalog_cache_releases := catalog_cache_releases db;
            catalog_cache_resources := catalog_cache_resources db;
            profiles := map (λ p, if (bp_id p =? pv_profile_id d) && (bp_company_id p =? company)
                                  then set_current (Some id) (bp_status p) now p else p) (profiles db);
            versions := map (λ v, if selected company id "draft" db v then published now v else v) (versions db);
            bindings := bindings db |})
      end
  end.
Proof.
  intros Hok outcome. unfold outcome, publish_draft, find_version.
  destruct (List.find (selected company id "draft" db) (versions db)) as [d|] eqn:Hd.
  2: { rewrite (tx_bind_run _ _ db None db); [|by apply gets_ok]. done. }
  rewrite (tx_bind_run _ _ db (Some d) db); [|by apply gets_ok].
  rewrite (tx_bind_run _ _ db d db); [|done].
  assert (validate_draft repr int_of_float company id db = (draft_errors repr int_of_float d db, db)) as Hval.
  { unfold validate_draft, find_version. rewrite (tx_bind_run _ _ db (Some d) db); [|by apply gets_ok].
    rewrite (tx_bind_run _ _ db d db); [|done]. rewrite (tx_bind_run _ _ db db db); done. }
  destruct (draft_errors repr int_of_float d db) as [errors|e]; [|by apply tx_bind_run_err].
  rewrite (tx_bind_run _ _ db errors db); [|done].
  destruct ((pv_profile_type d =? "api_model") && _); simpl negb; [done|].
  rewrite (tx_bind_run _ _ db tt db); [|done]. rewrite (tx_bind_run _ _ db db db); [|done].
  erewrite tx_bind_run; [|by eapply publish_version_run].
  erewrite tx_bind_run; [reflexivity|].
  rewrite (set_current_run _ (λ _, Some id)).
  - by destruct db.
  - destruct Hok as (H1 & H2 & H3). pose proof (publish_version_run now company id db d (conj H1 (conj H2 H3)) Hd) as Hrun.
    apply update_versions_ok in Hrun as (Hsel & Hclash & _). split_and!; [by destruct db| |by destruct db].
    unfold table_ok. rewrite rows_set_rows, Hclash, andb_true_r. apply forallb_forall.
    intros v Hv%list_elem_of_In%elem_updated. destruct Hv as [[Hv _]|(v0 & Hv & Hp & ->)].
    + by apply (table_ok_row db).
    + by apply Hsel.
  - intros p Hp. assert (row_ok (DB := DB) p = true) as Hrow.
    { apply (table_ok_row db); [apply Hok|]. by destruct db. }
    simpl in Hrow. bools. done.
Qed.

(** ** A profile, from draft to publication *)

Module Demo.
Import RoutingPolicy.
Definition policy : list (string * json) := json_of_policy RoutingPolicy.Demo.policy.
Definition between : RangeCheck := λ _ _ _, false.
Definition digest (_ : string) : string := String.concat "" (List.repeat "0" 64).
Definition lower (s : string) : string := s.

Definition db0 : DB := {|
  companies := ["co"]; employees := [{| er_id := "e"; er_company_id := "co"; er_base_profile_version_id := "x" |}];
  catalog_cache_releases := ["rel"];
  catalog_cache_resources := [{| re_release_id := "rel"; re_resource_type := "provider"; re_content := Some (JObj [
    ("id", JStr (RoutingPolicy.Demo.id "1"));
    ("model_bindings", JList [
      JObj [("binding_id", JStr (RoutingPolicy.Demo.id "1")); ("routing_enabled", JBool true)];
      JObj [("binding_id", JStr (RoutingPolicy.Demo.id "2")); ("routing_enabled", JBool true)]])]) |}];
  profiles := []; versions := []; bindings := [] |}.

Definition request : DraftRequest := {|
  rq_employee_id := "e"; rq_agent_cli := Some ""; rq_api_model := Some "gpt";
  rq_base_profile := [("name", JStr "Writer"); ("description", JStr "writes"); ("system_prompt", JStr "write");
    ("catalog_release_id", JStr "rel"); ("content_sha256", JStr (digest ""))];
  rq_credential_ref := Some "c"; rq_provider_release_id := Some "p"; rq_model_binding_id := Some "m";
  rq_provider_protocol := Some "openai_responses"; rq_routing_policy := Some policy |}.

Definition run := Profiles.run (H := between) RoutingPolicy.Demo.repr RoutingPolicy.Demo.int_of_float lower digest.
Definition create : Command := CreateDraft "pr" "v1" "2026-01-01" "co" request.
Definition drafted : DB := run create db0.
Definition publish : Command := PublishDraft "2026-01-02" "co" "v1".
Definition published_db : DB := run publish (run (BindSkill "b" "co" "pr" "s" "1.0" "") drafted).
End Demo.

Lemma demo_tables_ok : tables_ok (H := Demo.between) Demo.db0.
Proof. by split_and!; vm_compute. Qed.

Lemma published_versions_frozen_witness :
  tables_ok (H := Demo.between) Demo.db0 ∧ tables_ok (H := Demo.between) (Demo.run Demo.create Demo.db0).
Proof.
  split; [exact demo_tables_ok|]. exact (proj1 (published_versions_frozen (H := Demo.between) RoutingPolicy.Demo.repr
    RoutingPolicy.Demo.int_of_float Demo.lower Demo.digest Demo.create Demo.db0 demo_tables_ok)).
Defined.

Lemma demo_published : ∃ v, Demo.published_db = fold_left (λ db c, Demo.run c db)
    [Demo.create; BindSkill "b" "co" "pr" "s" "1.0" ""; Demo.publish] Demo.db0 ∧
  head (versions Demo.published_db) = Some v ∧ pv_status v = "published" ∧ pv_profile_type v = "api_model".
Proof. eexists. split; [reflexivity|]. vm_compute. split; [reflexivity|done]. Qed.

Lemma published_profiles_complete_witness :
  ∃ v, head (versions Demo.published_db) = Some v ∧
    complete RoutingPolicy.Demo.repr RoutingPolicy.Demo.int_of_float v.
Proof.
  destruct demo_published as (v & E & Hv & Hs & Ht). exists v. split; [exact Hv|].
  apply (published_profiles_complete (H := Demo.between) RoutingPolicy.Demo.repr RoutingPolicy.Demo.int_of_float
    Demo.lower Demo.digest [Demo.create; BindSkill "b" "co" "pr" "s" "1.0" ""; Demo.publish] Demo.db0 demo_tables_ok eq_refl).
  - change (v ∈ versions (fold_left (λ db c, Demo.run c db)
      [Demo.create; BindSkill "b" "co" "pr" "s" "1.0" ""; Demo.publish] Demo.db0)). rewrite <- E.
    by apply head_Some_elem_of.
  - rewrite Hs. discriminate.
  - exact Ht.
Defined.

Lemma demo_drafted_ok : tables_ok (H := Demo.between) Demo.drafted.
Proof. by split_and!; vm_compute. Qed.

Lemma publish_draft_outcome_witness :
  tables_ok (H := Demo.between) Demo.drafted ∧
  fst (publish_draft (H := Demo.between) RoutingPolicy.Demo.repr RoutingPolicy.Demo.int_of_float
    "2026-01-02" "co" "v1" Demo.drafted) = Ok "v1".
Proof.
  split; [exact demo_drafted_ok|].
  pose proof (publish_draft_outcome (H := Demo.between) RoutingPolicy.Demo.repr RoutingPolicy.Demo.int_of_float
    "2026-01-02" "co" "v1" Demo.drafted demo_drafted_ok) as Hout. cbn zeta in Hout.
  set (outcome := publish_draft _ _ _ _ _ _) in *. clearbody outcome. vm_compute in Hout. by rewrite Hout.
Defined.

(** A profile whose draft was never published cannot be retired. *)
Lemma draft_blocks_retirement :
  fst (retire_profile (H := Demo.between) "2026-01-02" "co" "pr" Demo.drafted) =
    Err (IntegrityErr "employee_base_profile_versions").
Proof. by vm_compute. Qed.

(** Without a catalog release or a digest in the request no draft is created: the defaults of
    the parameters break the constraints of the table. *)
Lemma defaults_refused :
  fst (create_draft (H := Demo.between) RoutingPolicy.Demo.repr RoutingPolicy.Demo.int_of_float Demo.lower
    "pr" "v1" "2026-01-01" "co" {|
      rq_employee_id := "e"; rq_agent_cli := Some "codex"; rq_api_model := Some "";
      rq_base_profile := [("name", JStr "Writer")]; rq_credential_ref := Some ""; rq_provider_release_id := Some "";
      rq_model_binding_id := Some ""; rq_provider_protocol := Some ""; rq_routing_policy := None |} Demo.db0) =
    Err (IntegrityErr "employee_base_profile_versions").
Proof. by vm_compute. Qed.
