(* ===== verification/BackendAuth.v ===== *)
(** * Accounts and sessions of the backend

    [auth/service.py], [auth/router.py], [users/service.py], [dependencies.py] and
    [db/session.py] of the backend API over the tables of [models/user.py] and
    [models/token_family.py]: sign-up and sign-in with lockout, refresh tokens that rotate within a
    family, sign-out, and what administrators do to accounts.

    Instants are numbers, [clock n] the n-th reading of the clock in a call.  Identifiers and
    raw refresh tokens are arguments.  So are the digest of a token, password hashing, Python's
    and PostgreSQL's [lower], [idna] and what the JWT library reads out of a token. *)

From S2P Require Import Prelude PyOrder PyStr Sql.

(** ** The tables *)

(* [apps/backend-api/src/ibreeze_backend/models/user.py:12-26 User] *)
Record User := {
  us_id : string;
  us_user_type : string;
  us_username : option string;
  us_email : option string;
  us_password_hash : string;
  us_display_name : string;
  us_status : string;
  us_protected : bool;
  us_must_change_password : bool;
  us_failed_login_count : Z;
  us_locked_until : option Z;
  us_last_login_at : option Z;
  us_version : Z;
  us_updated_at : Z }.

(* [apps/backend-api/src/ibreeze_backend/models/token_family.py:14-35 RefreshTokenFamily] *)
Record Family := {
  fm_id : string;
  fm_user_id : string;
  fm_device_id : string;
  fm_created_at : Z;
  fm_last_used_at : Z;
  fm_revoked_at : option Z;
  fm_revoke_reason : option string }.

(* [apps/backend-api/src/ibreeze_backend/models/token_family.py:38-69 RefreshToken] *)
Record Token := {
  tk_id : string;
  tk_family_id : string;
  tk_token_hash : string;
  tk_issued_at : Z;
  tk_expires_at : Z;
  tk_consumed_at : option Z;
  tk_replaced_by_id : option string;
  tk_revoked_at : option Z }.

Record DB := { users : list User; families : list Family; tokens : list Token }.

Ltac solve_lens := intros; repeat match goal with db : DB |- _ => destruct db end; reflexivity.

Class SqlLower := sql_lower : string → string.

Definition is_set {A} (o : option A) : bool := match o with Some _ => true | None => false end.

Definition same_lower `{SqlLower} (a b : option string) : bool :=
  match a, b with Some x, Some y => sql_lower x =? sql_lower y | _, _ => false end.

(* [apps/backend-api/src/ibreeze_backend/models/user.py:28-64 User] *)
#[export] Program Instance users_table `{SqlLower} : Table DB User := {|
  table_name := "users"; rows := users;
  set_rows l db := {| users := l; families := families db; tokens := tokens db |};
  row_ok u := (us_user_type u ∈? ["admin"; "app_user"]) && (us_status u ∈? ["active"; "disabled"]) &&
    (((us_user_type u =? "admin") && is_set (us_username u) && negb (is_set (us_email u))) ||
     ((us_user_type u =? "app_user") && is_set (us_email u) && negb (is_set (us_username u)))) &&
    (negb (us_protected u) || (us_user_type u =? "admin")) &&
    (0 <=? us_failed_login_count u)%Z && (1 <=? us_version u)%Z;
  clash a b := (us_id a =? us_id b) || same_lower (us_username a) (us_username b) ||
    same_lower (us_email a) (us_email b);
  refs_ok db u := true |}.
Solve All Obligations with solve_lens.

#[export] Program Instance families_table : Table DB Family := {|
  table_name := "refresh_token_families"; rows := families;
  set_rows l db := {| users := users db; families := l; tokens := tokens db |};
  row_ok f := true;
  clash a b := fm_id a =? fm_id b;
  refs_ok db f := fm_user_id f ∈? map us_id (users db) |}.
Solve All Obligations with solve_lens.

#[export] Program Instance tokens_table : Table DB Token := {|
  table_name := "refresh_tokens"; rows := tokens;
  set_rows l db := {| users := users db; families := families db; tokens := l |};
  row_ok t := true;
  clash a b := (tk_id a =? tk_id b) || (tk_token_hash a =? tk_token_hash b);
  refs_ok db t := tk_family_id t ∈? map fm_id (families db) |}.
Solve All Obligations with solve_lens.

(** [ON DELETE CASCADE] from a user to its families and their tokens. *)
Definition cascade (user_id : string) (db : DB) : DB :=
  let gone := map fm_id (List.filter (λ f, fm_user_id f =? user_id) (families db)) in {|
    users := List.filter (λ u, negb (us_id u =? user_id)) (users db);
    families := List.filter (λ f, negb (fm_user_id f =? user_id)) (families db);
    tokens := List.filter (λ t, negb (tk_family_id t ∈? gone)) (tokens db) |}.

(** ** auth/service.py *)

Definition APP_AUDIENCE := "ibreeze-desktop".
Definition ADMIN_AUDIENCE := "ibreeze-admin".
Definition SECOND : Z := 1000000.
(* [apps/backend-api/src/ibreeze_backend/auth/service.py:30-33 module] *)
Definition ACCESS_TOKEN_SECONDS : Z := 15 * 60.
Definition RESTRICTED_ACCESS_TOKEN_SECONDS : Z := 5 * 60.
Definition SESSION_SECONDS : Z := 30 * 24 * 60 * 60.
Definition MAX_ACTIVE_FAMILIES : nat := 20.

Definition expected_type (audience : string) : string :=
  if audience =? ADMIN_AUDIENCE then "admin" else "app_user".

(** *** Access tokens *)

Record Claims := {
  cl_aud : string; cl_sub : string; cl_user_type : string; cl_sid : string; cl_iat : Z; cl_nbf : Z;
  cl_exp : Z; cl_pwd_change_required : bool; cl_type : option string }.

Record Ticket := { ti_sub : string; ti_device_id : string; ti_iat : Z; ti_exp : Z }.

(* [apps/backend-api/src/ibreeze_backend/auth/service.py:92-112 create_access_token] *)
Definition create_access_token (now : Z) (u : User) (family_id audience : string) : Claims := {|
  cl_aud := audience; cl_sub := us_id u; cl_user_type := us_user_type u; cl_sid := family_id; cl_iat := now;
  cl_nbf := now - 60 * SECOND;
  cl_exp := now + (if us_must_change_password u then RESTRICTED_ACCESS_TOKEN_SECONDS
                   else ACCESS_TOKEN_SECONDS) * SECOND;
  cl_pwd_change_required := us_must_change_password u; cl_type := None |}.

(* [apps/backend-api/src/ibreeze_backend/auth/service.py:115-131 create_offline_session_ticket] *)
Definition create_offline_session_ticket (now : Z) (u : User) (device_id : string) : Ticket :=
  {| ti_sub := us_id u; ti_device_id := device_id; ti_iat := now; ti_exp := now + SESSION_SECONDS * SECOND |}.

Record Header := { hd_alg : option string; hd_typ : option string; hd_kid : option string }.

Section Verify.
(** [unverified_header] and [decode] are the JWT library: [decode] checks the signature, the
    audience, the issuer, the times with 60 seconds of leeway and that the claims are there. *)
Context (AUTH_KEY_ID : string) (unverified_header : string → option Header)
  (decode : string → string → option Claims).

(* [apps/backend-api/src/ibreeze_backend/auth/service.py:134-166 verify_access_token] *)
Definition verify_access_token (token expected_audience : string) : option Claims :=
  header ← unverified_header token;
  if negb ((hd_alg header =?o Some "EdDSA") && (hd_typ header =?o Some "JWT") && (hd_kid header =?o Some AUTH_KEY_ID))
  then None
  else
    payload ← decode token expected_audience;
    if negb (cl_user_type payload =? expected_type expected_audience) || is_set (cl_type payload) then None
    else Some payload.
End Verify.

(** *** The account in an answer *)

Record Session := {
  se_user_id : string; se_masked_identifier : string; se_access_token : Claims;
  se_access_token_expires_in : Z; se_family_id : string; se_pwd_change_required : bool;
  se_refresh_token : string; se_offline_session_ticket : option Ticket }.

Section Service.
Context `{SqlLower} (lower : string → string) (idna : string → result string)
  (token_hash : string → string) (hash_password : string → string)
  (verify : string → string → bool) (needs_update : string → bool).
Context (clock : nat → Z).

(** The last [at] of an address, if there is one: what stands before and behind it. *)
Fixpoint rpartition_at (l : list string) : option (list string * list string) :=
  match l with
  | [] => None
  | c :: l' =>
      match rpartition_at l' with
      | Some (a, b) => Some (c :: a, b)
      | None => if c =? "@" then Some ([], l') else None
      end
  end.

(* [apps/backend-api/src/ibreeze_backend/auth/service.py:69-80 _masked_identifier] *)
Definition _masked_identifier (u : User) : result string :=
  if us_user_type u =? "admin" then
    match chars (default "" (us_username u)) with
    | [] => Err (ValueError "Invalid admin identifier")
    | c :: _ => Ok (c +:+ "***")
    end
  else
    match rpartition_at (chars (default "" (us_email u))) with
    | Some (c :: _, (_ :: _) as domain) =>
        ascii ← idna (unchars domain);
        Ok (c +:+ "***@" +:+ lower ascii)
    | _ => Err (ValueError "Invalid application user email")
    end.

(* [apps/backend-api/src/ibreeze_backend/auth/service.py:333-354 _build_session_result] *)
Definition _build_session_result (u : User) (f_id f_device refresh_token audience : string) : result Session :=
  masked ← _masked_identifier u;
  Ok {| se_user_id := us_id u; se_masked_identifier := masked;
        se_access_token := create_access_token (clock 3) u f_id audience;
        se_access_token_expires_in :=
          if us_must_change_password u then RESTRICTED_ACCESS_TOKEN_SECONDS else ACCESS_TOKEN_SECONDS;
        se_family_id := f_id; se_pwd_change_required := us_must_change_password u;
        se_refresh_token := refresh_token;
        se_offline_session_ticket :=
          if (audience =? APP_AUDIENCE) && negb (us_must_change_password u)
          then Some (create_offline_session_ticket (clock 4) u f_device) else None |}.

(** *** Families *)

(* [apps/backend-api/src/ibreeze_backend/auth/service.py:174-182 _revoke_family] *)
Definition _revoke_family (reason : string) (now : Z) (f : Family) : Family :=
  match fm_revoked_at f with
  | Some _ => f
  | None => {| fm_id := fm_id f; fm_user_id := fm_user_id f; fm_device_id := fm_device_id f;
      fm_created_at := fm_created_at f; fm_last_used_at := fm_last_used_at f; fm_revoked_at := Some now;
      fm_revoke_reason := Some reason |}
  end.

Definition active_of (user_id : string) (f : Family) : bool :=
  (fm_user_id f =? user_id) && negb (is_set (fm_revoked_at f)).

(* [apps/backend-api/src/ibreeze_backend/auth/service.py:185-201 _revoke_all_user_families] *)
Definition _revoke_all_user_families (user_id reason : string) (now : Z) : tx DB Z :=
  update (active_of user_id) (_revoke_family reason now).

(** The oldest active families, all but nineteen. *)
Definition surplus (user_id : string) (l : list Family) : list Family :=
  let active := sort_by (λ a b, (fm_last_used_at a <=? fm_last_used_at b)%Z) (List.filter (active_of user_id) l) in
  take (length active + 1 - MAX_ACTIVE_FAMILIES) active.

(* [apps/backend-api/src/ibreeze_backend/auth/service.py:204-217 _enforce_family_limit] *)
Definition _enforce_family_limit (user_id : string) : tx DB Z :=
  victims ← gets (λ db, map fm_id (surplus user_id (families db)));
  update (λ f, fm_id f ∈? victims) (_revoke_family "family_limit" (clock 1)).

(* [apps/backend-api/src/ibreeze_backend/auth/service.py:220-244 _create_token_family] *)
Definition _create_token_family (family_id token_id raw_token user_id device_id : string) : tx DB unit :=
  _enforce_family_limit user_id;;
  insert_row {| fm_id := family_id; fm_user_id := user_id; fm_device_id := device_id; fm_created_at := clock 2;
    fm_last_used_at := clock 2; fm_revoked_at := None; fm_revoke_reason := None |};;
  insert_row {| tk_id := token_id; tk_family_id := family_id; tk_token_hash := token_hash raw_token;
    tk_issued_at := clock 2; tk_expires_at := clock 2 + SESSION_SECONDS * SECOND; tk_consumed_at := None;
    tk_replaced_by_id := None; tk_revoked_at := None |}.

(** *** Accounts *)

Definition INVALID_CREDENTIALS : exn := ValueError "Invalid credentials".

(* [apps/backend-api/src/ibreeze_backend/auth/service.py:247-267 register] *)
Definition register (user_id email password : string) : tx DB User :=
  let normalized_email := lower (strip email) in
  taken ← gets (λ db, existsb (λ u, sql_eq (option_map sql_lower (us_email u)) (Some normalized_email)) (users db));
  check (negb taken) (ValueError "Email already registered");;
  let u := {| us_id := user_id; us_user_type := "app_user"; us_username := None; us_email := Some normalized_email;
    us_password_hash := hash_password password; us_display_name := normalized_email; us_status := "active";
    us_protected := false; us_must_change_password := false; us_failed_login_count := 0; us_locked_until := None;
    us_last_login_at := None; us_version := 1; us_updated_at := clock 0 |} in
  insert_row u;;
  mret u.

(* [apps/backend-api/src/ibreeze_backend/auth/service.py:270-280 _find_login_user] *)
Definition _find_login_user (identifier audience : string) : tx DB (option User) :=
  let normalized := lower (strip identifier) in
  select_one (λ u, sql_eq (option_map sql_lower (if audience =? ADMIN_AUDIENCE then us_username u else us_email u))
    (Some normalized)).

Definition set_login (password_hash : string) (failed : Z) (locked last : option Z) (u : User) : User := {|
  us_id := us_id u; us_user_type := us_user_type u; us_username := us_username u; us_email := us_email u;
  us_password_hash := password_hash; us_display_name := us_display_name u; us_status := us_status u;
  us_protected := us_protected u; us_must_change_password := us_must_change_password u;
  us_failed_login_count := failed; us_locked_until := locked; us_last_login_at := last;
  us_version := us_version u; us_updated_at := clock 5 |}.

(** A wrong password, which counts before the error is raised. *)
(* [apps/backend-api/src/ibreeze_backend/auth/service.py:302-307 login] *)
Definition count_failure (u : User) : tx DB Z :=
  let n := us_failed_login_count u + 1 in
  update (λ x, us_id x =? us_id u)
    (if (5 <=? n)%Z
     then set_login (us_password_hash u) 0 (Some (clock 0 + 15 * 60 * SECOND)) (us_last_login_at u)
     else set_login (us_password_hash u) n (us_locked_until u) (us_last_login_at u)).

Definition locked (u : User) : bool :=
  match us_locked_until u with Some t => (clock 0 <? t)%Z | None => false end.

(* [apps/backend-api/src/ibreeze_backend/auth/service.py:283-321 login] *)
Definition login (family_id token_id raw_token identifier password audience device_id : string) : tx DB Session :=
  user ← _find_login_user identifier audience;
  u ← found user INVALID_CREDENTIALS;
  check ((us_user_type u =? expected_type audience) && (us_status u =? "active") && negb (locked u))
    INVALID_CREDENTIALS;;
  if negb (verify password (us_password_hash u)) then count_failure u;; raise INVALID_CREDENTIALS
  else
    let hash := if needs_update (us_password_hash u) then hash_password password else us_password_hash u in
    update (λ x, us_id x =? us_id u) (set_login hash 0 None (Some (clock 0)));;
    _create_token_family family_id token_id raw_token (us_id u) device_id;;
    lift (_build_session_result u family_id device_id raw_token audience).

(* [apps/backend-api/src/ibreeze_backend/auth/service.py:398-400 refresh_tokens] *)
Definition set_consumed (now : Z) (replacement : string) (t : Token) : Token := {|
  tk_id := tk_id t; tk_family_id := tk_family_id t; tk_token_hash := tk_token_hash t; tk_issued_at := tk_issued_at t;
  tk_expires_at := tk_expires_at t; tk_consumed_at := Some now; tk_replaced_by_id := Some replacement;
  tk_revoked_at := tk_revoked_at t |}.

Definition set_last_used (now : Z) (f : Family) : Family := {|
  fm_id := fm_id f; fm_user_id := fm_user_id f; fm_device_id := fm_device_id f; fm_created_at := fm_created_at f;
  fm_last_used_at := now; fm_revoked_at := fm_revoked_at f; fm_revoke_reason := fm_revoke_reason f |}.

(** [NoResultFound]: a token without its family, which the foreign key excludes. *)
Definition NO_RESULT : exn := RuntimeErr "NoResultFound".

(* [apps/backend-api/src/ibreeze_backend/auth/service.py:357-406 refresh_tokens] *)
Definition refresh_tokens (token_id raw_replacement refresh_token_raw expected_audience : string) : tx DB Session :=
  let now := clock 0 in
  stored ← select_one (λ t, tk_token_hash t =? token_hash refresh_token_raw);
  t ← found stored (ValueError "Invalid refresh token");
  family ← select_one (λ f, fm_id f =? tk_family_id t);
  f ← found family NO_RESULT;
  if is_set (fm_revoked_at f) || is_set (tk_revoked_at t) || (tk_expires_at t <=? now)%Z || is_set (tk_consumed_at t)
  then
    update (λ x, fm_id x =? fm_id f) (_revoke_family "replay_detected" now);;
    raise (ValueError "Refresh token replay detected")
  else
    user ← select_one (λ u, us_id u =? fm_user_id f);
    match user with
    | Some u =>
        if (us_status u =? "active") && (us_user_type u =? expected_type expected_audience) then
          insert_row {| tk_id := token_id; tk_family_id := fm_id f; tk_token_hash := token_hash raw_replacement;
            tk_issued_at := now; tk_expires_at := now + SESSION_SECONDS * SECOND; tk_consumed_at := None;
            tk_replaced_by_id := None; tk_revoked_at := None |};;
          update (λ x, tk_id x =? tk_id t) (set_consumed now token_id);;
          update (λ x, fm_id x =? fm_id f) (set_last_used now);;
          lift (_build_session_result u (fm_id f) (fm_device_id f) raw_replacement expected_audience)
        else
          update (λ x, fm_id x =? fm_id f) (_revoke_family "invalid_user" now);;
          raise (ValueError "Invalid refresh token")
    | None =>
        update (λ x, fm_id x =? fm_id f) (_revoke_family "invalid_user" now);;
        raise (ValueError "Invalid refresh token")
    end.

(** [claims] is what [verify_access_token] makes of the token. *)
(* [apps/backend-api/src/ibreeze_backend/auth/service.py:409-424 logout] *)
Definition logout (claims : option Claims) : tx DB bool :=
  match claims with
  | None => mret false
  | Some c =>
      family ← select_one (λ f, fm_id f =? cl_sid c);
      match family with
      | None => mret false
      | Some f => update (λ x, fm_id x =? fm_id f) (_revoke_family "logout" (clock 0));; mret true
      end
  end.

(* [apps/backend-api/src/ibreeze_backend/auth/service.py:427-428 logout_all] *)
Definition logout_all (user_id : string) : tx DB unit :=
  _revoke_all_user_families user_id "logout_all" (clock 0);; mret tt.

Definition set_password (password_hash : string) (must_change : bool) (now : Z) (u : User) : User := {|
  us_id := us_id u; us_user_type := us_user_type u; us_username := us_username u; us_email := us_email u;
  us_password_hash := password_hash; us_display_name := us_display_name u; us_status := us_status u;
  us_protected := us_protected u; us_must_change_password := must_change;
  us_failed_login_count := us_failed_login_count u; us_locked_until := us_locked_until u;
  us_last_login_at := us_last_login_at u; us_version := us_version u + 1; us_updated_at := now |}.

(* [apps/backend-api/src/ibreeze_backend/auth/service.py:431-463 change_password] *)
Definition change_password (family_id token_id raw_token user_id current_password new_password current_family_id
    audience : string) : tx DB Session :=
  user ← select_one (λ u, us_id u =? user_id);
  u ← found user (ValueError "Invalid password");
  check (verify current_password (us_password_hash u)) (ValueError "Invalid password");;
  family ← select_one (λ f, fm_id f =? current_family_id);
  f ← found family (ValueError "Invalid session");
  check (fm_user_id f =? us_id u) (ValueError "Invalid session");;
  let u' := set_password (hash_password new_password) false (clock 0) u in
  update (λ x, us_id x =? us_id u) (set_password (hash_password new_password) false (clock 0));;
  _revoke_all_user_families (us_id u) "password_changed" (clock 6);;
  _create_token_family family_id token_id raw_token (us_id u) (fm_device_id f);;
  lift (_build_session_result u' family_id (fm_device_id f) raw_token audience).

(** *** users/service.py *)

(* [apps/backend-api/src/ibreeze_backend/users/service.py:48-67 _ensure_identity_available] *)
Definition _ensure_identity_available (username email : option string) (exclude : option string) : tx DB unit :=
  let other u := match exclude with Some id => negb (us_id u =? id) | None => true end in
  let free (get : User → option string) (wanted : option string) db :=
    match wanted with
    | Some w => negb (existsb (λ u, sql_eq (option_map sql_lower (get u)) (Some (lower w)) && other u) (users db))
    | None => true
    end in
  ok ← gets (free us_username username);
  check ok (ValueError "Username already exists");;
  ok' ← gets (free us_email email);
  check ok' (ValueError "Email already exists").

(* [apps/backend-api/src/ibreeze_backend/users/service.py:70-106 create_admin_user] *)
Definition create_admin_user (user_id user_type : string) (username email : option string)
    (display_name password : string) : tx DB User :=
  let normalized_username := option_map strip username in
  let normalized_email := option_map (λ e, lower (strip e)) email in
  _ensure_identity_available normalized_username normalized_email None;;
  let u := {| us_id := user_id; us_user_type := user_type; us_username := normalized_username;
    us_email := normalized_email; us_password_hash := hash_password password; us_display_name := strip display_name;
    us_status := "active"; us_protected := false; us_must_change_password := false; us_failed_login_count := 0;
    us_locked_until := None; us_last_login_at := None; us_version := 1; us_updated_at := clock 0 |} in
  insert_row u;;
  mret u.

(* [apps/backend-api/src/ibreeze_backend/users/service.py:144-155 update_admin_user] *)
Definition set_identity (username email display_name status : option string) (u : User) : User := {|
  us_id := us_id u; us_user_type := us_user_type u;
  us_username := match username with Some _ => username | None => us_username u end;
  us_email := match email with Some _ => email | None => us_email u end;
  us_password_hash := us_password_hash u;
  us_display_name := match display_name with Some d => strip d | None => us_display_name u end;
  us_status := default (us_status u) status; us_protected := us_protected u;
  us_must_change_password := us_must_change_password u; us_failed_login_count := us_failed_login_count u;
  us_locked_until := us_locked_until u; us_last_login_at := us_last_login_at u;
  us_version := us_version u + 1; us_updated_at := clock 0 |}.

(* [apps/backend-api/src/ibreeze_backend/users/service.py:109-161 update_admin_user] *)
Definition update_admin_user (user_id : string) (username email display_name status : option string) : tx DB unit :=
  user ← select_one (λ u, us_id u =? user_id);
  u ← found user (ValueError "User not found");
  check (negb (us_protected u && (is_set username || is_set email || is_set status)))
    (ValueError "Cannot modify protected user");;
  check (negb ((us_user_type u =? "admin") && is_set email)) (ValueError "Cannot set email for admin user");;
  check (negb (negb (us_user_type u =? "admin") && is_set username)) (ValueError "Cannot set username for app_user");;
  let normalized_username := option_map strip username in
  let normalized_email := option_map (λ e, lower (strip e)) email in
  _ensure_identity_available normalized_username normalized_email (Some user_id);;
  (if (status =?o Some "disabled") && negb (us_status u =? "disabled")
   then _revoke_all_user_families user_id "user_disabled" (clock 1);; mret tt
   else mret tt);;
  update (λ x, us_id x =? user_id) (set_identity normalized_username normalized_email display_name status);;
  mret tt.

(* [apps/backend-api/src/ibreeze_backend/users/service.py:164-182 delete_admin_user] *)
Definition delete_admin_user (user_id : string) : tx DB unit :=
  user ← select_one (λ u, us_id u =? user_id);
  u ← found user (ValueError "User not found");
  check (negb (us_protected u)) (ValueError "Cannot delete protected user");;
  _revoke_all_user_families user_id "user_deleted" (clock 1);;
  modify (cascade user_id).

(* [apps/backend-api/src/ibreeze_backend/users/service.py:185-206 reset_password] *)
Definition reset_password (user_id new_password : string) : tx DB unit :=
  user ← select_one (λ u, us_id u =? user_id);
  found user (ValueError "User not found");;
  update (λ x, us_id x =? user_id) (set_password (hash_password new_password) true (clock 0));;
  _revoke_all_user_families user_id "password_reset" (clock 1);;
  mret tt.

(* [apps/backend-api/src/ibreeze_backend/users/service.py:209-222 revoke_sessions] *)
Definition revoke_sessions (user_id : string) : tx DB unit :=
  user ← select_one (λ u, us_id u =? user_id);
  found user (ValueError "User not found");;
  _revoke_all_user_families user_id "admin_revoked" (clock 1);;
  mret tt.

(** *** The request around a service call *)

(** The session of [Depends(get_db_session)]: what the endpoint raises rolls it back. *)
(* [apps/backend-api/src/ibreeze_backend/db/session.py:50-64 get_db_session] *)
Definition get_db_session {A} (endpoint : tx DB A) (db : DB) : result A * DB :=
  match endpoint db with
  | (Ok a, db') => (Ok a, db')
  | (Err e, _) => (Err e, db)
  end.

(** [raise_problem] *)
Definition problem (code : string) : exn := ValueError code.

(** [try: ... except ValueError as exc: raise_problem(...)] *)
Definition on_value_error {A} (code : string → string) (m : tx DB A) : tx DB A := λ db,
  match m db with
  | (Err (ValueError msg), db') => (Err (problem (code msg)), db')
  | r => r
  end.

(* [apps/backend-api/src/ibreeze_backend/auth/router.py:102-117 register_endpoint] *)
Definition register_endpoint (user_id email password : string) : DB → result User * DB :=
  get_db_session (on_value_error (λ _, "AUTH_EMAIL_EXISTS") (
    u ← register user_id email password;
    lift (_masked_identifier u);;
    mret u)).

(* [apps/backend-api/src/ibreeze_backend/auth/router.py:125-145 login_endpoint] *)
Definition login_endpoint (family_id token_id raw_token identifier password audience device_id : string)
    : DB → result Session * DB :=
  get_db_session (on_value_error (λ _, "AUTH_INVALID_CREDENTIALS")
    (login family_id token_id raw_token identifier password audience device_id)).

Definition refresh_code (msg : string) : string :=
  if msg =? "Refresh token replay detected" then "AUTH_TOKEN_REPLAY" else "AUTH_TOKEN_INVALID".

(* [apps/backend-api/src/ibreeze_backend/auth/router.py:148-168 refresh_endpoint] *)
Definition refresh_endpoint (token_id raw_replacement raw audience : string) : DB → result Session * DB :=
  get_db_session (on_value_error refresh_code (refresh_tokens token_id raw_replacement raw audience)).

(** The dependency [get_current_user]: [claims] is the verified token, [gate] whether the path is
    exempt from the password gate, [writes] whether an administrator's session is looked up. *)
(* [apps/backend-api/src/ibreeze_backend/dependencies.py:23-68 get_current_user] *)
Definition get_current_user (claims : option Claims) (audience : string) (gate writes : bool) : tx DB User :=
  c ← found claims (problem "AUTH_TOKEN_EXPIRED");
  check (negb (cl_sub c =? "")) (problem "AUTH_TOKEN_INVALID");;
  user ← select_one (λ u, us_id u =? cl_sub c);
  u ← found user (problem "AUTH_USER_DISABLED");
  check (us_status u =? "active") (problem "AUTH_USER_DISABLED");;
  check (us_user_type u =? expected_type audience) (problem "AUTH_TOKEN_INVALID");;
  check (negb (us_must_change_password u && negb gate)) (problem "AUTH_PASSWORD_CHANGE_REQUIRED");;
  live ← gets (λ db, existsb (λ f, (fm_id f =? cl_sid c) && active_of (us_id u) f) (families db));
  check (negb ((audience =? ADMIN_AUDIENCE) && writes) || live) (problem "AUTH_SESSION_REVOKED");;
  mret u.

(* [apps/backend-api/src/ibreeze_backend/auth/router.py:172-179 logout_endpoint] *)
Definition logout_endpoint (claims : option Claims) (audience : string) : DB → result bool * DB :=
  get_db_session (get_current_user claims audience true true;; logout claims).

(* [apps/backend-api/src/ibreeze_backend/auth/router.py:183-189 logout_all_endpoint] *)
Definition logout_all_endpoint (claims : option Claims) : DB → result unit * DB :=
  get_db_session (u ← get_current_user claims APP_AUDIENCE false true; logout_all (us_id u)).

(* [apps/backend-api/src/ibreeze_backend/auth/router.py:197-220 change_password_endpoint] *)
Definition change_password_endpoint (family_id token_id raw_token : string) (claims : option Claims)
    (current_password new_password audience : string) : DB → result Session * DB :=
  get_db_session (
    u ← get_current_user claims audience true true;
    c ← found claims (problem "AUTH_TOKEN_EXPIRED");
    on_value_error (λ msg, if msg =? "Invalid session" then "AUTH_INVALID_SESSION" else "AUTH_INVALID_CREDENTIALS")
      (change_password family_id token_id raw_token (us_id u) current_password new_password (cl_sid c) audience)).

(** A write request outside [/auth/] runs in the session of the idempotency middleware, which
    commits what a refused request has written; only a failed statement takes all of it back. *)
Definition shared_session {A} (endpoint : tx DB A) (db : DB) : result A * DB :=
  match endpoint db with
  | (Err (IntegrityErr t), _) => (Err (IntegrityErr t), db)
  | r => r
  end.

(* [apps/backend-api/src/ibreeze_backend/users/router.py:35-43 _raise] *)
Definition _raise (msg : string) : string :=
  if msg =? "User not found" then "USER_NOT_FOUND"
  else if msg ∈? ["Cannot modify protected user"; "Cannot delete protected user"]
  then "PROTECTED_USER_OPERATION_DENIED" else "USER_OPERATION_FAILED".

Definition admin_request {A} (claims : option Claims) (m : tx DB A) : DB → result A * DB :=
  shared_session (get_current_user claims ADMIN_AUDIENCE false true;; on_value_error _raise m).

(* [apps/backend-api/src/ibreeze_backend/users/router.py:47-73 create_user_endpoint] *)
Definition create_user_endpoint claims (user_id user_type : string) (username email : option string)
    (display_name password : string) : DB → result User * DB :=
  admin_request claims (create_admin_user user_id user_type username email display_name password).
(* [apps/backend-api/src/ibreeze_backend/users/router.py:110-131 update_user_endpoint] *)
Definition update_user_endpoint claims (user_id : string) (username email display_name status : option string)
    : DB → result unit * DB :=
  admin_request claims (update_admin_user user_id username email display_name status).
(* [apps/backend-api/src/ibreeze_backend/users/router.py:135-146 delete_user_endpoint] *)
Definition delete_user_endpoint claims (user_id : string) : DB → result unit * DB :=
  admin_request claims (delete_admin_user user_id).
(* [apps/backend-api/src/ibreeze_backend/users/router.py:150-168 reset_password_endpoint] *)
Definition reset_password_endpoint claims (user_id new_password : string) : DB → result unit * DB :=
  admin_request claims (reset_password user_id new_password).
(* [apps/backend-api/src/ibreeze_backend/users/router.py:172-184 revoke_sessions_endpoint] *)
Definition revoke_sessions_endpoint claims (user_id : string) : DB → result unit * DB :=
  admin_request claims (revoke_sessions user_id).
End Service.

(** ** Requests *)

Inductive Request : Type :=
| Register (user_id email password : string)
| Login (family_id token_id raw identifier password audience device_id : string)
| Refresh (token_id raw_replacement raw audience : string)
| Logout (claims : option Claims) (audience : string)
| LogoutAll (claims : option Claims)
| ChangePassword (family_id token_id raw : string) (claims : option Claims) (current new audience : string)
| CreateUser (claims : option Claims) (user_id user_type : string) (username email : option string)
    (display_name password : string)
| UpdateUser (claims : option Claims) (user_id : string) (username email display_name status : option string)
| DeleteUser (claims : option Claims) (user_id : string)
| ResetPassword (claims : option Claims) (user_id new_password : string)
| RevokeSessions (claims : option Claims) (user_id : string).

Section Requests.
Context `{SqlLower} (lower : string → string) (idna : string → result string)
  (token_hash : string → string) (hash_password : string → string)
  (verify : string → string → bool) (needs_update : string → bool).

(** The state after a request, answered at the times of [clock]. *)
Definition serve (r : Request) (clock : nat → Z) (db : DB) : DB :=
  match r with
  | Register i e p => snd (register_endpoint lower idna hash_password clock i e p db)
  | Login f t raw i p a d =>
      snd (login_endpoint lower idna token_hash hash_password verify needs_update clock f t raw i p a d db)
  | Refresh t raw' raw a => snd (refresh_endpoint lower idna token_hash clock t raw' raw a db)
  | Logout c a => snd (logout_endpoint clock c a db)
  | LogoutAll c => snd (logout_all_endpoint clock c db)
  | ChangePassword f t raw c cur new a =>
      snd (change_password_endpoint lower idna token_hash hash_password verify clock f t raw c cur new a db)
  | CreateUser c i ty u e d p => snd (create_user_endpoint lower hash_password clock c i ty u e d p db)
  | UpdateUser c i u e d s => snd (update_user_endpoint lower clock c i u e d s db)
  | DeleteUser c i => snd (delete_user_endpoint clock c i db)
  | ResetPassword c i p => snd (reset_password_endpoint hash_password clock c i p db)
  | RevokeSessions c i => snd (revoke_sessions_endpoint clock c i db)
  end.

(** The hash of the refresh token a request may hand out. *)
Definition hands_out (r : Request) : option string :=
  match r with
  | Login _ _ raw _ _ _ _ | Refresh _ raw _ _ | ChangePassword _ _ raw _ _ _ _ => Some (token_hash raw)
  | _ => None
  end.
End Requests.
