(* ===== verification/BackendSessions.v ===== *)
(** * What the backend's sessions guarantee

    Over every sequence of requests of [BackendAuth]: a refresh token works at most once, the
    sessions that a password change, a reset or a sign-out ends stay ended, an account has at
    most twenty live families, and a failed sign-in is forgotten.  [Invariant] reduces a property of
    all requests to what the few kinds of writes do to it. *)

From S2P Require Import Prelude PyOrder PyStr Sql BackendAuth.

(** ** From writes to requests *)

Definition keeps_ok {A} (P : DB → Prop) (m : tx DB A) : Prop := ∀ db a db', P db → m db = (Ok a, db') → P db'.

Definition reads {A} (m : tx DB A) : Prop := ∀ db, snd (m db) = db.

Lemma reads_bind {A B} (m : tx DB A) (k : A → tx DB B) : reads m → (∀ a, reads (k a)) → reads (m ≫= k).
Proof.
  intros Hm Hk db. unfold mbind, tx_bind. specialize (Hm db). destruct (m db) as [[a|e] d]; simpl in *; subst; [apply Hk|done].
Qed.
Lemma reads_check b e : reads (check b e).
Proof. intros db. by destruct b. Qed.
Lemma reads_found {A} (o : option A) e : reads (found o e).
Proof. intros db. by destruct o. Qed.
Lemma reads_current_user `{SqlLower} claims audience gate writes : reads (get_current_user claims audience gate writes).
Proof.
  unfold get_current_user. repeat (apply reads_bind; [first [apply reads_found|apply reads_check|done]|intros ?]). done.
Qed.

Section Keeps.
Context (P : DB → Prop).

Lemma keeps_ok_bind {A B} (m : tx DB A) (k : A → tx DB B) :
  keeps_ok P m → (∀ a, keeps_ok P (k a)) → keeps_ok P (m ≫= k).
Proof. intros Hm Hk db b db' Hdb (a & db1 & H1 & H2)%tx_bind_ok. eapply Hk, H2. by eapply Hm. Qed.

Lemma keeps_read {A} (m : tx DB A) : (∀ db, snd (m db) = db) → keeps_ok P m.
Proof. intros Hm db a db' Hdb E. specialize (Hm db). rewrite E in Hm. simpl in Hm. by subst. Qed.

Lemma keeps_ok_check b e : keeps_ok P (check b e).
Proof. apply keeps_read. intros db. by destruct b. Qed.
Lemma keeps_found {A} (o : option A) e : keeps_ok P (found o e).
Proof. apply keeps_read. intros db. by destruct o. Qed.
Lemma keeps_raise {A} e : keeps_ok P (raise e : tx DB A).
Proof. by intros db a db' _ E. Qed.
Lemma keeps_session {A} (m : tx DB A) db : keeps_ok P m → P db → P (snd (get_db_session m db)).
Proof. intros Hm Hdb. unfold get_db_session. destruct (m db) as [[a|e] db'] eqn:E; [by eapply Hm|done]. Qed.
Lemma keeps_value_error {A} code (m : tx DB A) : keeps_ok P m → keeps_ok P (on_value_error code m).
Proof.
  intros Hm db a db' Hdb E. unfold on_value_error in E. destruct (m db) as [[x|[]] d] eqn:Em; simplify_eq; by eapply Hm.
Qed.
End Keeps.

#[export] Hint Resolve keeps_ok_check keeps_found keeps_raise : keeps.
#[export] Hint Extern 1 (keeps_ok _ (gets _)) => apply keeps_read; reflexivity : keeps.
#[export] Hint Extern 1 (keeps_ok _ (select_one _)) => apply keeps_read; reflexivity : keeps.
#[export] Hint Extern 1 (keeps_ok _ (mret _)) => apply keeps_read; reflexivity : keeps.
#[export] Hint Extern 1 (keeps_ok _ (lift _)) => apply keeps_read; reflexivity : keeps.

Lemma session_ok {A} (m : tx DB A) db a db' : get_db_session m db = (Ok a, db') → m db = (Ok a, db').
Proof. unfold get_db_session. destruct (m db) as [[x|e] d]; congruence. Qed.
Lemma value_error_ok {A} code (m : tx DB A) db a db' : on_value_error code m db = (Ok a, db') → m db = (Ok a, db').
Proof. unfold on_value_error. destruct (m db) as [[x|[]] d]; congruence. Qed.

(** A request outside [/auth/] that is refused has written nothing. *)
Definition clean {A} (m : tx DB A) : Prop :=
  ∀ db e db', m db = (Err e, db') → db' = db ∨ ∃ t, e = IntegrityErr t.

Lemma clean_read_bind {A B} (m : tx DB A) (k : A → tx DB B) :
  (∀ db, snd (m db) = db) → (∀ a, clean (k a)) → clean (m ≫= k).
Proof.
  intros Hm Hk db e db' E. unfold mbind, tx_bind in E. specialize (Hm db).
  destruct (m db) as [[a|e'] d]; simpl in Hm; subst; [by eapply Hk|]. injection E as -> ->. by left.
Qed.

Lemma clean_read {A} (m : tx DB A) : (∀ db, snd (m db) = db) → clean m.
Proof. intros Hm db e db' E. specialize (Hm db). rewrite E in Hm. by left. Qed.

(** After a write only constraints fail. *)
Definition only_integrity {A} (m : tx DB A) : Prop := ∀ db e db', m db = (Err e, db') → ∃ t, e = IntegrityErr t.

Lemma only_integrity_bind {A B} (m : tx DB A) (k : A → tx DB B) :
  only_integrity m → (∀ a, only_integrity (k a)) → only_integrity (m ≫= k).
Proof.
  intros Hm Hk db e db' E. unfold mbind, tx_bind in E. destruct (m db) as [[a|e'] d] eqn:Em; [by eapply Hk|].
  injection E as -> ->. by eapply Hm.
Qed.
Lemma only_update {R} `{!Table DB R} p f : only_integrity (update (R := R) p f).
Proof. intros db e db' E. apply update_err in E as [_ ->]. eauto. Qed.
Lemma only_insert {R} `{!Table DB R} (r : R) : only_integrity (insert_row r).
Proof. intros db e db' E. apply insert_err in E as [_ ->]. eauto. Qed.
Lemma only_ok {A} (m : tx DB A) : (∀ db, ∃ a db', m db = (Ok a, db')) → only_integrity m.
Proof. intros Hm db e db' E. destruct (Hm db) as (a & d & E'). congruence. Qed.
Lemma clean_integrity {A} (m : tx DB A) : only_integrity m → clean m.
Proof. intros Hm db e db' E. right. by eapply Hm. Qed.

#[export] Hint Resolve only_update only_insert : keeps.
#[export] Hint Extern 1 (only_integrity (mret _)) => apply only_ok; intros db; by repeat eexists : keeps.
#[export] Hint Extern 1 (only_integrity (modify _)) => apply only_ok; intros db; by repeat eexists : keeps.

Section Invariant.
Context `{SqlLower} (lower : string → string) (idna : string → result string)
  (token_hash : string → string) (hash_password : string → string)
  (verify : string → string → bool) (needs_update : string → bool).

(** [P] holds under every kind of write; [allowed] are the hashes of new tokens. *)
Context (P : DB → Prop) (allowed : string → Prop).

Definition fresh_user (u : User) : Prop := us_failed_login_count u = 0%Z ∧ us_locked_until u = None.
Definition mild (f : User → User) : Prop := ∀ u,
  us_id (f u) = us_id u ∧
  ((us_failed_login_count (f u) = us_failed_login_count u ∧ us_locked_until (f u) = us_locked_until u) ∨ fresh_user (f u)).

Hypothesis Hadd_user : ∀ db u, fresh_user u → P db →
  P {| users := users db ++ [u]; families := families db; tokens := tokens db |}.
Hypothesis Hset_user : ∀ db p f, mild f → P db →
  P {| users := updated p f (users db); families := families db; tokens := tokens db |}.
Hypothesis Hrevoke : ∀ db p reason now, P db →
  P {| users := users db; families := updated p (_revoke_family reason now) (families db); tokens := tokens db |}.
Hypothesis Hused : ∀ db p now, P db →
  P {| users := users db; families := updated p (set_last_used now) (families db); tokens := tokens db |}.
Hypothesis Hcascade : ∀ db user, P db → P (cascade user db).
Hypothesis Hcreate : ∀ clock fid tid raw uid dev, allowed (token_hash raw) →
  keeps_ok P (_create_token_family token_hash clock fid tid raw uid dev).
Hypothesis Hissue : ∀ db t, allowed (tk_token_hash t) → tk_consumed_at t = None →
  tk_family_id t ∈ map fm_id (families db) → no_clash (DB := DB) (tokens db ++ [t]) = true → P db →
  P {| users := users db; families := families db; tokens := tokens db ++ [t] |}.
Hypothesis Hconsume : ∀ db p now replacement, P db →
  P {| users := users db; families := families db; tokens := updated p (set_consumed now replacement) (tokens db) |}.

Lemma keeps_set_user p f : mild f → keeps_ok P (update (R := User) p f).
Proof. intros Hf db n db' Hdb (_ & _ & _ & ->)%update_ok. by apply (Hset_user db). Qed.
Lemma keeps_add_user u : fresh_user u → keeps_ok P (insert_row u).
Proof. intros Hu db n db' Hdb (_ & _ & _ & ->)%insert_ok. by apply (Hadd_user db). Qed.
Lemma keeps_revoke p reason now : keeps_ok P (update p (_revoke_family reason now)).
Proof. intros db n db' Hdb (_ & _ & _ & ->)%update_ok. by apply (Hrevoke db). Qed.
Lemma keeps_used p now : keeps_ok P (update p (set_last_used now)).
Proof. intros db n db' Hdb (_ & _ & _ & ->)%update_ok. by apply (Hused db). Qed.
Lemma keeps_consume p now r : keeps_ok P (update p (set_consumed now r)).
Proof. intros db n db' Hdb (_ & _ & _ & ->)%update_ok. by apply (Hconsume db). Qed.
Lemma keeps_issue t : allowed (tk_token_hash t) → tk_consumed_at t = None → keeps_ok P (insert_row t).
Proof.
  intros Ha Hc db n db' Hdb (_ & Hcl & Hr & ->)%insert_ok. apply (Hissue db); try done.
  apply bool_decide_eq_true in Hr. exact Hr.
Qed.
Lemma keeps_cascade user : keeps_ok P (modify (cascade user)).
Proof. intros db [] db' Hdb E. apply modify_ok in E as ->. by apply Hcascade. Qed.

Hint Resolve keeps_add_user keeps_revoke keeps_used keeps_consume keeps_cascade keeps_set_user keeps_issue : keeps.

(** Steps through a service call. *)
Ltac keep :=
  repeat first
    [ solve [eauto with keeps]
    | apply keeps_value_error
    | apply keeps_ok_bind; [|intros ?]
    | match goal with
      | |- keeps_ok _ (if ?b then _ else _) => destruct b
      | |- keeps_ok _ (match ?o with _ => _ end) => destruct o
      end ].

Lemma keeps_current_user claims audience gate writes : keeps_ok P (get_current_user claims audience gate writes).
Proof. unfold get_current_user. keep. Qed.
Lemma keeps_login_user identifier audience : keeps_ok P (_find_login_user lower identifier audience).
Proof. unfold _find_login_user. eauto with keeps. Qed.
Lemma keeps_available u e x : keeps_ok P (_ensure_identity_available lower u e x).
Proof. unfold _ensure_identity_available. keep. Qed.
Lemma keeps_revoke_all user reason now : keeps_ok P (_revoke_all_user_families user reason now).
Proof. unfold _revoke_all_user_families. eauto with keeps. Qed.
Hint Resolve keeps_current_user keeps_login_user keeps_available keeps_revoke_all : keeps.

Lemma mild_password hash must now : mild (set_password hash must now).
Proof. intros u. by split; [|left]. Qed.
Lemma mild_identity clock u e d s : mild (set_identity clock u e d s).
Proof. intros x. by split; [|left]. Qed.
Lemma mild_login clock hash last : mild (set_login clock hash 0 None last).
Proof. intros x. by split; [|right]. Qed.
Hint Resolve mild_password mild_identity mild_login : keeps.

(** A failure is counted and then raised. *)
Lemma keeps_counted {A} clock u e : keeps_ok P (count_failure clock u;; raise e : tx DB A).
Proof. intros db x db' _ E. by apply tx_bind_ok in E as (? & ? & _ & E). Qed.
Hint Resolve keeps_counted : keeps.

Lemma keeps_login clock fid tid raw i p a d : allowed (token_hash raw) →
  keeps_ok P (login lower idna token_hash hash_password verify needs_update clock fid tid raw i p a d).
Proof.
  intros Hraw. unfold login. assert (∀ u dev, keeps_ok P (_create_token_family token_hash clock fid tid raw u dev)) by
    (intros; by apply Hcreate). keep.
Qed.

Lemma keeps_refresh clock tid raw' raw a : allowed (token_hash raw') →
  keeps_ok P (refresh_tokens lower idna token_hash clock tid raw' raw a).
Proof. intros Hraw. unfold refresh_tokens. keep. Qed.

Lemma keeps_change_password clock fid tid raw u cur new sid a : allowed (token_hash raw) →
  keeps_ok P (change_password lower idna token_hash hash_password verify clock fid tid raw u cur new sid a).
Proof.
  intros Hraw. unfold change_password. assert (∀ u dev, keeps_ok P (_create_token_family token_hash clock fid tid raw u dev)) by
    (intros; by apply Hcreate). keep.
Qed.

(** Requests outside [/auth/]: what they refuse they have not touched. *)
Lemma keeps_shared {A} claims (m : tx DB A) db : keeps_ok P m → clean m → P db → P (snd (admin_request claims m db)).
Proof.
  intros Hm Hc Hdb. unfold admin_request, shared_session.
  set (whole := get_current_user claims ADMIN_AUDIENCE false true;; on_value_error _raise m).
  destruct (whole db) as [[a|e] db'] eqn:E.
  - eapply (keeps_ok_bind P); [apply keeps_current_user|intros ?; by apply keeps_value_error|exact Hdb|exact E].
  - assert (clean whole) as Hall.
    { apply clean_read_bind; [apply reads_current_user|].
      intros _ d e' d' E'. unfold on_value_error in E'. destruct (m d) as [[x|e''] d''] eqn:Em; [done|].
      destruct (Hc _ _ _ Em) as [->|[t Ht]]; [left|right]; destruct e''; simplify_eq/=; eauto. }
    destruct (Hall _ _ _ E) as [->|[t ->]]; [by destruct e|done].
Qed.

Lemma clean_available u e x : reads (_ensure_identity_available lower u e x).
Proof. unfold _ensure_identity_available. repeat (apply reads_bind; [first [apply reads_check|done]|intros ?]). apply reads_check. Qed.

Ltac clear_off :=
  repeat first
    [ apply clean_read_bind; [first [apply reads_found|apply reads_check|apply clean_available|by intros ?]|intros ?] ];
  apply clean_integrity;
  repeat first
    [ solve [eauto with keeps]
    | apply only_integrity_bind; [|intros ?]
    | match goal with
      | |- only_integrity (if ?b then _ else _) => destruct b
      | |- only_integrity (match ?o with _ => _ end) => destruct o
      end ].

Lemma clean_create clock i t u e d p : clean (create_admin_user lower hash_password clock i t u e d p).
Proof. unfold create_admin_user. clear_off. Qed.
Lemma clean_update clock i u e d s : clean (update_admin_user lower clock i u e d s).
Proof. unfold update_admin_user, _revoke_all_user_families. clear_off. Qed.
Lemma clean_delete clock i : clean (delete_admin_user clock i).
Proof. unfold delete_admin_user, _revoke_all_user_families. clear_off. Qed.
Lemma clean_reset clock i p : clean (reset_password hash_password clock i p).
Proof. unfold reset_password, _revoke_all_user_families. clear_off. Qed.
Lemma clean_revoke clock i : clean (revoke_sessions clock i).
Proof. unfold revoke_sessions, _revoke_all_user_families. clear_off. Qed.

Lemma serve_keeps r clock db : (∀ h, hands_out token_hash r = Some h → allowed h) → P db →
  P (serve lower idna token_hash hash_password verify needs_update r clock db).
Proof.
  intros Hnew Hdb. destruct r; cbn [serve hands_out] in *;
    unfold register_endpoint, login_endpoint, refresh_endpoint, logout_endpoint, logout_all_endpoint,
      change_password_endpoint, create_user_endpoint, update_user_endpoint, delete_user_endpoint,
      reset_password_endpoint, revoke_sessions_endpoint.
  - apply keeps_session; [|done]. unfold register. keep. by apply keeps_add_user.
  - apply keeps_session; [|done]. apply keeps_value_error, keeps_login. by apply Hnew.
  - apply keeps_session; [|done]. apply keeps_value_error, keeps_refresh. by apply Hnew.
  - apply keeps_session; [|done]. unfold logout. keep.
  - apply keeps_session; [|done]. unfold logout_all. keep.
  - apply keeps_session; [|done]. keep.
  - apply keeps_shared; [|apply clean_create|done]. unfold create_admin_user. keep. by apply keeps_add_user.
  - apply keeps_shared; [|apply clean_update|done]. unfold update_admin_user. keep.
  - apply keeps_shared; [|apply clean_delete|done]. unfold delete_admin_user. keep.
  - apply keeps_shared; [|apply clean_reset|done]. unfold reset_password. keep.
  - apply keeps_shared; [|apply clean_revoke|done]. unfold revoke_sessions. keep.
Qed.
End Invariant.

(** ** Tokens that no longer work *)

(** What the foreign keys and the unique indexes say of tokens and families. *)
Definition sound (db : DB) : Prop :=
  (∀ t, t ∈ tokens db → tk_family_id t ∈ map fm_id (families db)) ∧
  no_clash (DB := DB) (tokens db) = true ∧ no_clash (DB := DB) (families db) = true.

Definition live (db : DB) (t : Token) : Prop :=
  tk_consumed_at t = None ∧ tk_revoked_at t = None ∧
  ∃ f, f ∈ families db ∧ fm_id f = tk_family_id t ∧ fm_revoked_at f = None.

(** No token with this hash works. *)
Definition dead (h : string) (db : DB) : Prop := ∀ t, t ∈ tokens db → tk_token_hash t = h → ¬ live db t.

(** An update of families that revokes, or touches, but never revives. *)
Lemma families_step h db p f : (∀ x, fm_id (f x) = fm_id x) → (∀ x, fm_revoked_at (f x) = None → fm_revoked_at x = None) →
  sound db ∧ dead h db →
  let db' := {| users := users db; families := updated p f (families db); tokens := tokens db |} in sound db' ∧ dead h db'.
Proof.
  intros Hid Hrev [(H1 & H2 & H3) Hd] db'. split; [split_and!; simpl; [|done|]|].
  - intros t Ht. replace (map fm_id (updated p f (families db))) with (map fm_id (families db)); [by apply H1|].
    unfold updated. rewrite map_map. apply map_ext. intros x. by destruct (p x).
  - rewrite no_clash_updated; [done|..]; intros a b; simpl; by rewrite Hid.
  - intros t Ht Hh (Hc & Hr & x & Hx & Hxid & Hxr). simpl in Hx. apply (Hd t Ht Hh). split_and!; [done..|].
    apply elem_updated in Hx as [[Hx _]|(y & Hy & _ & ->)]; [by exists x|].
    exists y. split_and!; [done|by rewrite <- Hid|by apply Hrev].
Qed.

Lemma revoke_id reason now x : fm_id (_revoke_family reason now x) = fm_id x.
Proof. unfold _revoke_family. by destruct (fm_revoked_at x). Qed.
Lemma revoke_revoked reason now x : fm_revoked_at (_revoke_family reason now x) = None → fm_revoked_at x = None.
Proof. unfold _revoke_family. destruct (fm_revoked_at x) eqn:E; simpl; congruence. Qed.
Lemma revoke_user reason now x : fm_user_id (_revoke_family reason now x) = fm_user_id x.
Proof. unfold _revoke_family. by destruct (fm_revoked_at x). Qed.

Lemma family_step h db f : no_clash (DB := DB) (families db ++ [f]) = true → sound db ∧ dead h db →
  let db' := {| users := users db; families := families db ++ [f]; tokens := tokens db |} in sound db' ∧ dead h db'.
Proof.
  intros Hcl [(H1 & H2 & H3) Hd] db'. split; [split_and!; simpl; [|done..]|].
  - intros t Ht. rewrite map_app. apply elem_of_app. left. by apply H1.
  - intros t Ht Hh (Hc & Hr & x & Hx & Hxid & Hxr). simpl in Hx. apply (Hd t Ht Hh). split_and!; [done..|].
    apply elem_of_app in Hx as [Hx|Hx]; [by exists x|]. apply list_elem_of_singleton in Hx as ->.
    exfalso. specialize (H1 t Ht). apply list_elem_of_fmap in H1 as (y & Hy & Hyin).
    pose proof (no_clash_last (DB := DB) _ _ Hcl y Hyin) as Hno. simpl in Hno. apply String.eqb_neq in Hno. congruence.
Qed.

Lemma token_step h db t : tk_token_hash t ≠ h → tk_family_id t ∈ map fm_id (families db) →
  no_clash (DB := DB) (tokens db ++ [t]) = true → sound db ∧ dead h db →
  let db' := {| users := users db; families := families db; tokens := tokens db ++ [t] |} in sound db' ∧ dead h db'.
Proof.
  intros Hne Hf Hcl [(H1 & H2 & H3) Hd] db'. split; [split_and!; simpl; [|done..]|].
  - intros x [Hx|Hx]%elem_of_app; [by apply H1|]. by apply list_elem_of_singleton in Hx as ->.
  - intros x [Hx|Hx]%elem_of_app Hh Hl; [by apply (Hd x)|]. by apply list_elem_of_singleton in Hx as ->.
Qed.

Lemma cascade_step h user d : sound d ∧ dead h d → sound (cascade user d) ∧ dead h (cascade user d).
Proof.
  intros [(H1 & H2 & H3) Hd]. split; [split_and!; simpl|].
  - intros t [Ht%list_elem_of_In Hg]%list_elem_of_In%filter_In. apply negb_true_iff, bool_decide_eq_false in Hg.
    specialize (H1 t Ht). apply list_elem_of_fmap in H1 as (f & Hf & Hfin). apply list_elem_of_fmap. exists f. split; [done|].
    apply list_elem_of_In, filter_In. split; [by apply list_elem_of_In|]. apply negb_true_iff, not_true_iff_false.
    intros Hu. apply Hg. rewrite Hf. apply list_elem_of_fmap. exists f. split; [done|].
    apply list_elem_of_In, filter_In. by rewrite <- list_elem_of_In.
  - by apply (no_clash_filter (DB := DB)).
  - by apply (no_clash_filter (DB := DB)).
  - intros t [Ht%list_elem_of_In _]%list_elem_of_In%filter_In Hh (Hc & Hrv & f & Hf & Hx). apply (Hd t Ht Hh).
    split_and!; [done..|]. simpl in Hf. apply list_elem_of_In, filter_In in Hf as [Hf%list_elem_of_In _]. by exists f.
Qed.

Section Dead.
Context `{SqlLower} (lower : string → string) (idna : string → result string)
  (token_hash : string → string) (hash_password : string → string)
  (verify : string → string → bool) (needs_update : string → bool).

Lemma create_keeps_dead h clock fid tid raw uid dev : token_hash raw ≠ h →
  keeps_ok (λ db, sound db ∧ dead h db) (_create_token_family token_hash clock fid tid raw uid dev).
Proof.
  intros Hraw db u db' Hdb Hrun. unfold _create_token_family, _enforce_family_limit in Hrun. sql_inv.
  rename select (update _ _ _ = _) into Hu. apply update_ok in Hu as (_ & _ & _ & ->).
  rename select (insert_row _ (set_rows _ _) = _) into Hf. apply insert_ok in Hf as (_ & Hcl & _ & ->).
  rename select (insert_row _ _ = _) into Ht. apply insert_ok in Ht as (_ & Hcl' & Hr & ->).
  apply (token_step h {| users := _; families := _; tokens := _ |}); [done|by apply bool_decide_eq_true in Hr|done|].
  apply (family_step h {| users := _; families := _; tokens := _ |}); [done|].
  apply families_step; [apply revoke_id|apply revoke_revoked|done].
Qed.

Lemma serve_keeps_dead h r clock db : hands_out token_hash r ≠ Some h → sound db ∧ dead h db →
  let db' := serve lower idna token_hash hash_password verify needs_update r clock db in sound db' ∧ dead h db'.
Proof.
  intros Hr. apply (serve_keeps lower idna token_hash hash_password verify needs_update
    (λ db, sound db ∧ dead h db) (λ h', h' ≠ h)).
  - by intros d u _ [(H1 & H2 & H3) Hd].
  - by intros d p f _ [(H1 & H2 & H3) Hd].
  - intros d p reason now Hd. apply families_step; [apply revoke_id|apply revoke_revoked|done].
  - intros d p now Hd. by apply families_step.
  - intros d user. apply cascade_step.
  - intros. by apply create_keeps_dead.
  - intros d t Hne _ Hf Hcl Hd. by apply token_step.
  - intros d p now rep [(H1 & H2 & H3) Hd]. split; [split_and!; simpl; [| |done]|].
    + intros t [[Ht _]|(y & Hy & _ & ->)]%elem_updated; [by apply H1|exact (H1 y Hy)].
    + by rewrite (no_clash_updated (DB := DB)).
    + intros t Ht Hh (Hc & Hrv & Hf). simpl in Ht. apply elem_updated in Ht as [[Ht _]|(y & Hy & _ & ->)]; [by apply (Hd t)|done].
  - intros h' Hh' ->. by apply Hr.
Qed.

(** A whole sequence, each request with its clock. *)
Definition serve_all (rs : list (Request * (nat → Z))) (db : DB) : DB :=
  fold_left (λ db r, serve lower idna token_hash hash_password verify needs_update r.1 r.2 db) rs db.

Lemma serve_all_dead h rs db : Forall (λ r, hands_out token_hash r.1 ≠ Some h) rs → sound db ∧ dead h db →
  sound (serve_all rs db) ∧ dead h (serve_all rs db).
Proof.
  intros Hrs. revert db. induction Hrs as [|[r clock] rs Hr _ IH]; intros db Hdb; [done|]. simpl. apply IH.
  by apply serve_keeps_dead.
Qed.

(** A dead token is refused, and nothing changes. *)
Lemma dead_refused clock tid raw' raw a db : dead (token_hash raw) db →
  ∃ e, refresh_endpoint lower idna token_hash clock tid raw' raw a db = (Err e, db).
Proof.
  intros Hd. unfold refresh_endpoint, get_db_session, on_value_error.
  destruct (refresh_tokens lower idna token_hash clock tid raw' raw a db) as [[s|e] db'] eqn:Hrun;
    [|destruct e; eauto]. exfalso.
  unfold refresh_tokens in Hrun. sql_inv.
  rename select (List.find _ (tokens db) = Some _) into Ht. apply find_some in Ht as [Ht%list_elem_of_In Hh%String.eqb_eq].
  rename select (List.find _ (families db) = Some _) into Hf. apply find_some in Hf as [Hf%list_elem_of_In Hid%String.eqb_eq].
  match type of Hrun with (if ?b then _ else _) _ = _ => destruct b eqn:Hb; [by sql_inv|] end.
  apply orb_false_iff in Hb as [[[Hb1 Hb2]%orb_false_iff _]%orb_false_iff Hb4].
  eapply (Hd _ Ht Hh). split_and!.
  - by destruct (tk_consumed_at _).
  - by destruct (tk_revoked_at _).
  - eexists. split_and!; [exact Hf|done|by destruct (fm_revoked_at _)].
Qed.

Lemma no_clash_hash l (t u : Token) : no_clash (DB := DB) l = true → t ∈ l → u ∈ l → tk_token_hash t = tk_token_hash u → t = u.
Proof.
  intros Hcl Ht Hu E. eapply (unique_row (DB := DB) (λ x, tk_token_hash x =? tk_token_hash t) l); try done.
  - intros a b Ha Hb. bools. simpl. apply orb_true_iff. right. apply String.eqb_eq. congruence.
  - by apply String.eqb_eq.
  - by apply String.eqb_eq.
Qed.

(** What a refresh that went through has done. *)
Lemma refreshed clock tid raw' raw a db s db' : sound db →
  refresh_endpoint lower idna token_hash clock tid raw' raw a db = (Ok s, db') →
  sound db' ∧ dead (token_hash raw) db'.
Proof.
  intros (H1 & H2 & H3) Hrun. unfold refresh_endpoint, get_db_session, on_value_error in Hrun.
  destruct (refresh_tokens lower idna token_hash clock tid raw' raw a db) as [[s'|[]] d] eqn:E; simplify_eq.
  unfold refresh_tokens in E. sql_inv.
  rename select (List.find _ (tokens db) = Some _) into Ht. apply find_some in Ht as [Ht%list_elem_of_In Hh%String.eqb_eq].
  match type of E with (if ?b then _ else _) _ = _ => destruct b; [by sql_inv|] end. sql_inv.
  match type of E with match ?o with _ => _ end _ = _ => destruct o as [u|]; [|by sql_inv] end.
  match type of E with (if ?b then _ else _) _ = _ => destruct b; [|by sql_inv] end. sql_inv.
  rename select (insert_row _ _ = _) into Hi. apply insert_ok in Hi as (_ & Hcl & Hr & ->).
  rename select (update _ (set_consumed _ _) _ = _) into Hc. apply update_ok in Hc as (_ & Hcl' & _ & ->).
  rename select (update _ (set_last_used _) _ = _) into Hl. apply update_ok in Hl as (_ & _ & _ & ->).
  unfold lift in E. injection E as _ <-.
  assert (∀ y, y ∈ tokens db → tk_token_hash y = token_hash raw → tk_id y = tk_id x) as Hone.
  { intros y Hy Hyh. f_equal. eapply no_clash_hash; [exact H2|done|done|congruence]. }
  apply (families_step _ {| users := _; families := _; tokens := _ |}); [done|done|]. simpl. split; [split_and!|]; simpl.
  - intros t Hin. apply elem_updated in Hin as [[Hin _]|(y & Hin & _ & ->)]; simpl;
      (apply elem_of_app in Hin as [Hin|Hin]; [by apply H1|]; apply list_elem_of_singleton in Hin as ->; simpl;
       by apply bool_decide_eq_true in Hr).
  - exact Hcl'.
  - done.
  - intros t Hin Hth (Hc & _). simpl in Hin. apply elem_updated in Hin as [[Hin Hno]|(y & _ & _ & ->)]; [|done].
    apply elem_of_app in Hin as [Hin|Hin].
    + rewrite (Hone t Hin Hth), String.eqb_refl in Hno. done.
    + apply list_elem_of_singleton in Hin as ->. simpl in Hth.
      pose proof (no_clash_last (DB := DB) _ _ Hcl x Ht) as Hno'. simpl in Hno'. apply orb_false_iff in Hno' as [_ Hno'].
      apply String.eqb_neq in Hno'. congruence.
Qed.
End Dead.

(** C17. A refresh token works once.  After a refresh with a token has succeeded, the same token is
    refused for good: whatever requests the backend serves in between and at whatever times, as
    long as none of them issues a token with the same hash, the next refresh with it fails and
    changes nothing. *)
Theorem refresh_token_once `{SqlLower} lower idna token_hash hash_password verify needs_update
    clock token_id replacement raw audience db session db1 rs :
  sound db →
  refresh_endpoint lower idna token_hash clock token_id replacement raw audience db = (Ok session, db1) →
  Forall (λ r, hands_out token_hash r.1 ≠ Some (token_hash raw)) rs →
  let db2 := serve_all lower idna token_hash hash_password verify needs_update rs db1 in
  ∀ clock' token_id' replacement' audience', ∃ e,
    refresh_endpoint lower idna token_hash clock' token_id' replacement' raw audience' db2 = (Err e, db2).
Proof.
  intros Hdb Hrun Hrs db2 clock' t' r' a'. apply dead_refused. apply serve_all_dead; [done|].
  by eapply refreshed.
Qed.

(** ** Signing out *)

(** The account whose sessions a request ends when it succeeds. *)
Definition signs_out (r : Request) : option string :=
  match r with
  | LogoutAll (Some c) | ChangePassword _ _ _ (Some c) _ _ _ => Some (cl_sub c)
  | DeleteUser _ i | ResetPassword _ i _ | RevokeSessions _ i => Some i
  | _ => None
  end.

Section SignOut.
Context `{SqlLower} (lower : string → string) (idna : string → result string)
  (token_hash : string → string) (hash_password : string → string)
  (verify : string → string → bool) (needs_update : string → bool).

Definition is_ok {A} (r : result A * DB) : bool := match fst r with Ok _ => true | Err _ => false end.

Definition succeeded (r : Request) (clock : nat → Z) (db : DB) : bool :=
  match r with
  | LogoutAll c => is_ok (logout_all_endpoint clock c db)
  | ChangePassword f t raw c cur new a =>
      is_ok (change_password_endpoint lower idna token_hash hash_password verify clock f t raw c cur new a db)
  | DeleteUser c i => is_ok (delete_user_endpoint clock c i db)
  | ResetPassword c i p => is_ok (reset_password_endpoint hash_password clock c i p db)
  | RevokeSessions c i => is_ok (revoke_sessions_endpoint clock c i db)
  | _ => false
  end.

(** [h] is the hash of a token of this account. *)
Definition owned (user h : string) (db : DB) : Prop := sound db ∧
  ∃ t f, t ∈ tokens db ∧ tk_token_hash t = h ∧ f ∈ families db ∧ fm_id f = tk_family_id t ∧ fm_user_id f = user.

Lemma owned_users user h db l : owned user h db → owned user h {| users := l; families := families db; tokens := tokens db |}.
Proof. by intros [(H1 & H2 & H3) Ho]. Qed.

(** Revoking the families of a user kills each of their tokens. *)
Lemma revoke_all_dead user h reason now db n db' : owned user h db →
  _revoke_all_user_families user reason now db = (Ok n, db') → sound db' ∧ dead h db'.
Proof.
  intros [Hs (t & f & Ht & <- & Hf & Hid & Hu)] Hrun. apply update_ok in Hrun as (_ & _ & _ & ->).
  destruct Hs as (H1 & H2 & H3). split; [split_and!; simpl|].
  - intros x Hx. replace (map fm_id (updated (active_of user) (_revoke_family reason now) (families db)))
      with (map fm_id (families db)); [by apply H1|].
    unfold updated. rewrite map_map. apply map_ext. intros y. destruct (active_of user y); [by rewrite revoke_id|done].
  - done.
  - rewrite no_clash_updated; [done|..]; intros a b; simpl; by rewrite revoke_id.
  - intros t' Ht' Hh (_ & _ & f' & Hf' & Hid' & Hr'). simpl in *.
    assert (t' = t) as -> by (eapply no_clash_hash; [exact H2|done..]).
    apply elem_updated in Hf' as [[Hf' Hact]|(y & Hy & Hact & ->)].
    + assert (f' = f) as ->.
      { eapply (unique_row (DB := DB) (λ x, fm_id x =? fm_id f) (families db)); try done.
        - intros a b Ha Hb. bools. simpl. apply String.eqb_eq. congruence.
        - apply String.eqb_eq. congruence.
        - by apply String.eqb_eq. }
      unfold active_of in Hact. by rewrite Hu, String.eqb_refl, Hr' in Hact.
    + unfold active_of in Hact. apply andb_true_iff in Hact as [_ Hact]. unfold _revoke_family in Hr'.
      destruct (fm_revoked_at y) eqn:E; [done|by simpl in Hr'].
Qed.

Lemma current_user_ok claims audience gate writes db u db' : get_current_user claims audience gate writes db = (Ok u, db') →
  db' = db ∧ ∃ c, claims = Some c ∧ us_id u = cl_sub c.
Proof.
  unfold get_current_user. intros Hrun. sql_inv.
  rename select (List.find _ (users _) = Some _) into Hf. apply find_some in Hf as [_ Hf%String.eqb_eq]. eauto.
Qed.

Lemma admin_ok {A} claims (m : tx DB A) db a db' : admin_request claims m db = (Ok a, db') → m db = (Ok a, db').
Proof.
  unfold admin_request, shared_session. intros E.
  destruct ((get_current_user claims ADMIN_AUDIENCE false true;; on_value_error _raise m) db) as [[x|e] d] eqn:Er;
    [|destruct e; discriminate E]. injection E as -> ->.
  apply tx_bind_ok in Er as (u & d' & [-> _]%current_user_ok & Hm).
  unfold on_value_error in Hm. destruct (m db) as [[y|[]] d'']; by simplify_eq.
Qed.

Lemma is_ok_run {A} (m : result A * DB) : is_ok m = true → ∃ a, m = (Ok a, snd m).
Proof. destruct m as [[a|e] d]; [by exists a|done]. Qed.

(** The success of such a request leaves no token of the account working. *)
Lemma signed_out user h r clock db : owned user h db → signs_out r = Some user → succeeded r clock db = true →
  hands_out token_hash r ≠ Some h →
  let db' := serve lower idna token_hash hash_password verify needs_update r clock db in sound db' ∧ dead h db'.
Proof.
  intros Ho Hr Hok Hnew. destruct r as [| | | |[c|]|f t raw [c|] cur new a| | |c i|c i p|c i]; try done;
    injection Hr as <-; cbn [succeeded serve hands_out] in *; apply is_ok_run in Hok as [x Hok];
    revert Hok; match goal with |- ?m = (_, snd ?m) → _ => generalize (snd m) as db'; intros db' Hok end.
  - apply session_ok, tx_bind_ok in Hok as (u & d & [-> (c' & [= <-] & Hu)]%current_user_ok & Hok).
    apply tx_bind_ok in Hok as (n & d & Hrev & Hok). injection Hok as _ ->. rewrite Hu in Hrev. by eapply revoke_all_dead.
  - apply session_ok, tx_bind_ok in Hok as (u & d & [-> (c' & [= <-] & Hu)]%current_user_ok & Hok).
    apply tx_bind_ok in Hok as (c' & d & [[= <-] ->]%found_ok & Hok).
    apply value_error_ok in Hok. unfold change_password in Hok. sql_inv.
    rename select (List.find _ (users db) = Some _) into Hf. apply find_some in Hf as [_ Hf%String.eqb_eq].
    rename select (update _ (set_password _ _ _) _ = _) into Hup. apply update_ok in Hup as (_ & _ & _ & ->).
    rename select (_create_token_family _ _ _ _ _ _ _ _ = _) into Hc. unfold lift in Hok. injection Hok as _ <-.
    rename select (_revoke_all_user_families _ _ _ _ = _) into Hrev. rewrite Hf, Hu in Hrev.
    eapply create_keeps_dead; [|eapply revoke_all_dead; [apply owned_users, Ho|exact Hrev]|exact Hc].
    intros E. apply Hnew. by rewrite E.
  - apply admin_ok in Hok. unfold delete_admin_user in Hok. sql_inv.
    eapply cascade_step, revoke_all_dead; [exact Ho|eassumption].
  - apply admin_ok in Hok. unfold reset_password in Hok. sql_inv.
    rename select (update _ (set_password _ _ _) _ = _) into Hup. apply update_ok in Hup as (_ & _ & _ & ->).
    eapply revoke_all_dead; [|eassumption]. by apply owned_users.
  - apply admin_ok in Hok. unfold revoke_sessions in Hok. sql_inv. eapply revoke_all_dead; [exact Ho|eassumption].
Qed.
End SignOut.

(** C18. The sessions a sign-out ends stay ended.  When an account signs out everywhere, changes its
    password, or an administrator deletes it, resets its password or revokes its sessions, and the
    request succeeds, then every refresh token the account held before is refused for good: by
    every later refresh, after any requests, at any time, as long as no new token has its hash. *)
Theorem sessions_ended `{SqlLower} lower idna token_hash hash_password verify needs_update
    user raw r clock rs db :
  owned user (token_hash raw) db → signs_out r = Some user →
  succeeded lower idna token_hash hash_password verify r clock db = true →
  Forall (λ r, hands_out token_hash r.1 ≠ Some (token_hash raw)) ((r, clock) :: rs) →
  let db' := serve_all lower idna token_hash hash_password verify needs_update ((r, clock) :: rs) db in
  ∀ clock' token_id replacement audience, ∃ e,
    refresh_endpoint lower idna token_hash clock' token_id replacement raw audience db' = (Err e, db').
Proof.
  intros Ho Hr Hok [Hnew Hrs]%Forall_cons db' clock' t raw' a. apply dead_refused. subst db'. simpl.
  apply serve_all_dead; [done|]. simpl in Hnew.
  by eapply signed_out.
Qed.

(** ** The number of families *)

Definition live_families (user : string) (db : DB) : list Family := List.filter (active_of user) (families db).
Definition within_limit (db : DB) : Prop := ∀ user, (length (live_families user db) <= MAX_ACTIVE_FAMILIES)%nat.

Lemma filter_filter_le {A} (p q : A → bool) l : (length (List.filter p (List.filter q l)) <= length (List.filter p l))%nat.
Proof. induction l as [|a l IH]; [done|]. simpl. destruct (q a); simpl; destruct (p a); simpl; lia. Qed.

Lemma filter_updated_le {A} (p q : A → bool) f l : (∀ x, p (f x) = true → p x = true) →
  (length (List.filter p (updated q f l)) <= length (List.filter p l))%nat.
Proof.
  intros Hf. induction l as [|a l IH]; [done|]. simpl. specialize (Hf a).
  destruct (q a), (p (f a)), (p a); simpl; try lia; by discriminate Hf.
Qed.

Lemma active_revoke user reason now x : active_of user (_revoke_family reason now x) = true → active_of user x = true.
Proof.
  unfold active_of. rewrite revoke_user. intros [-> Hr]%andb_true_iff.
  destruct (fm_revoked_at x) as [t|] eqn:E; [|done]. unfold _revoke_family in Hr. by rewrite E, E in Hr.
Qed.
Lemma active_used user now x : active_of user (set_last_used now x) = active_of user x.
Proof. done. Qed.

(** Ending the surplus leaves room for one more. *)
Lemma room_made user now l : (length (List.filter (active_of user)
  (updated (λ f, fm_id f ∈? map fm_id (surplus user l)) (_revoke_family "family_limit" now) l)) < MAX_ACTIVE_FAMILIES)%nat.
Proof.
  set (victim f := fm_id f ∈? map fm_id (surplus user l)).
  assert (List.filter (active_of user) (updated victim (_revoke_family "family_limit" now) l) =
    List.filter (λ f, negb (victim f)) (List.filter (active_of user) l)) as ->.
  { generalize victim as v. intros v. induction l as [|f l IH]; [done|]. simpl. destruct (v f) eqn:Hv; simpl.
    - replace (active_of user (_revoke_family "family_limit" now f)) with false; [|symmetry].
      + destruct (active_of user f); simpl; [by rewrite Hv|done].
      + unfold active_of, _revoke_family. destruct (fm_revoked_at f) eqn:E; simpl; [rewrite E|]; apply andb_false_r.
    - destruct (active_of user f); simpl; [by rewrite Hv, IH|done]. }
  unfold surplus in victim. cbn zeta in victim.
  set (s := sort_by _ (List.filter (active_of user) l)) in victim.
  assert (s ≡ₚ List.filter (active_of user) l) as Hs by apply sort_by_perm.
  rewrite <- (filter_perm _ _ _ Hs).
  set (k := (length s + 1 - MAX_ACTIVE_FAMILIES)%nat) in victim.
  assert (List.filter (λ f, negb (victim f)) (take k s) = []) as Hnone.
  { apply where_nil. intros f Hf. apply negb_false_iff, bool_decide_eq_true_2, list_elem_of_fmap. by exists f. }
  rewrite <- (take_drop k s), List.filter_app, Hnone. simpl. eapply Nat.le_lt_trans; [apply filter_length_le|].
  rewrite length_drop. subst k. unfold MAX_ACTIVE_FAMILIES. lia.
Qed.

Section Limit.
Context `{SqlLower} (lower : string → string) (idna : string → result string)
  (token_hash : string → string) (hash_password : string → string)
  (verify : string → string → bool) (needs_update : string → bool).

Lemma create_within clock fid tid raw user dev :
  keeps_ok within_limit (_create_token_family token_hash clock fid tid raw user dev).
Proof.
  intros db u db' Hdb Hrun. unfold _create_token_family, _enforce_family_limit in Hrun. sql_inv.
  rename select (update _ _ _ = _) into Hu. apply update_ok in Hu as (_ & _ & _ & ->).
  rename select (insert_row _ (set_rows _ _) = _) into Hf. apply insert_ok in Hf as (_ & _ & _ & ->).
  rename select (insert_row _ _ = _) into Ht. apply insert_ok in Ht as (_ & _ & _ & ->).
  intros v. unfold live_families. simpl. rewrite List.filter_app, length_app. simpl.
  destruct (active_of v _) eqn:Ha; simpl.
  - apply andb_true_iff in Ha as [<-%String.eqb_eq _]. simpl.
    pose proof (room_made user (clock 1%nat) (families db)). unfold MAX_ACTIVE_FAMILIES in *. lia.
  - rewrite Nat.add_0_r. etrans; [|apply (Hdb v)]. apply filter_updated_le, active_revoke.
Qed.

Lemma serve_within r clock db : within_limit db →
  within_limit (serve lower idna token_hash hash_password verify needs_update r clock db).
Proof.
  apply (serve_keeps lower idna token_hash hash_password verify needs_update within_limit (λ _, True)); try done.
  - intros d p reason now Hd v. etrans; [|apply (Hd v)]. apply filter_updated_le, active_revoke.
  - intros d p now Hd v. etrans; [|apply (Hd v)]. by apply filter_updated_le.
  - intros d user Hd v. etrans; [|apply (Hd v)]. apply filter_filter_le.
  - intros. apply create_within.
Qed.

(** A failed sign-in rolls back with its count. *)
Definition calm (db : DB) : Prop := Forall fresh_user (users db).

Lemma failures_forgotten r clock db : calm db → calm (serve lower idna token_hash hash_password verify needs_update r clock db).
Proof.
  apply (serve_keeps lower idna token_hash hash_password verify needs_update calm (λ _, True)); try done.
  - intros d u Hu Hd. apply Forall_app_2; [done|by constructor].
  - intros d p f Hf Hd. apply Forall_forall. intros u [[Hu _]|(y & Hy & _ & ->)]%elem_updated.
    + by eapply Forall_forall.
    + destruct (Hf y) as [_ [[E1 E2]|?]]; [|done]. unfold fresh_user. rewrite E1, E2.
      by eapply (proj1 (Forall_forall _ _) Hd).
  - intros d user Hd. apply Forall_forall. intros u [Hu%list_elem_of_In _]%list_elem_of_In%filter_In.
    by eapply (proj1 (Forall_forall _ _) Hd).
  - intros clock0 fid tid raw uid dev _ d u d' Hd Hrun. unfold _create_token_family, _enforce_family_limit in Hrun. sql_inv.
    rename select (update _ _ _ = _) into Hu. apply update_ok in Hu as (_ & _ & _ & ->).
    rename select (insert_row _ (set_rows _ _) = _) into Hf. apply insert_ok in Hf as (_ & _ & _ & ->).
    by rename select (insert_row _ _ = _) into Ht; apply insert_ok in Ht as (_ & _ & _ & ->).
Qed.
End Limit.

(** An account has at most twenty live families, whatever requests are served and in whatever
    order: a sign-in, or a change of password, first ends the families in excess. *)
Lemma family_limit `{SqlLower} lower idna token_hash hash_password verify needs_update rs db :
  within_limit db →
  ∀ user, (length (live_families user
    (serve_all lower idna token_hash hash_password verify needs_update rs db)) <= MAX_ACTIVE_FAMILIES)%nat.
Proof.
  revert db. induction rs as [|[r clock] rs IH]; intros db Hdb; [apply Hdb|]. simpl. apply IH. by apply serve_within.
Qed.

(** ** One account *)

Module Demo.
#[export] Instance same : SqlLower := λ s, s.
Definition at_ (t : Z) : nat → Z := λ n, (t * SECOND + Z.of_nat n)%Z.
Definition claims (user family : string) : Claims := {|
  cl_aud := APP_AUDIENCE; cl_sub := user; cl_user_type := "app_user"; cl_sid := family; cl_iat := 0; cl_nbf := 0;
  cl_exp := 0; cl_pwd_change_required := false; cl_type := None |}.

Definition signed_in : DB := serve_all (λ s, s) Ok (λ s, s) (λ s, s) String.eqb (λ _, false)
  [(Register "u1" " a@x.io" "pw", at_ 0); (Login "f1" "t1" "r1" "a@x.io" "pw" APP_AUDIENCE "d1", at_ 1)]
  {| users := []; families := []; tokens := [] |}.

Definition refresh (t : Z) (token_id replacement raw : string) : DB → result Session * DB :=
  refresh_endpoint (λ s, s) Ok (λ s, s) (at_ t) token_id replacement raw APP_AUDIENCE.

(** The refresh token rotates, and the old one is a replay. *)
Example rotates :
  let '(first, db) := refresh 2 "t2" "r2" "r1" signed_in in
  (s ← first; Ok (se_masked_identifier s, se_refresh_token s, se_access_token_expires_in s)) = Ok ("a***@x.io", "r2", 900) ∧
  refresh 3 "t3" "r3" "r1" db = (Err (problem "AUTH_TOKEN_REPLAY"), db).
Proof. vm_compute. split; reflexivity. Qed.
End Demo.
#[local] Existing Instance Demo.same.

Lemma refresh_token_once_witness :
  ∃ session db1 e, Demo.refresh 2 "t2" "r2" "r1" Demo.signed_in = (Ok session, db1) ∧
  let db2 := serve_all (λ s, s) Ok (λ s, s) (λ s, s) String.eqb (λ _, false)
    [(Login "f2" "t9" "r9" "a@x.io" "pw" APP_AUDIENCE "d2", Demo.at_ 3); (Refresh "t3" "r3" "r2" APP_AUDIENCE, Demo.at_ 4)] db1 in
  Demo.refresh 5 "t4" "r4" "r1" db2 = (Err e, db2).
Proof.
  destruct (Demo.refresh 2 "t2" "r2" "r1" Demo.signed_in) as [[session|e] db1] eqn:Hrun; [|vm_compute in Hrun; discriminate Hrun].
  exists session, db1.
  destruct (refresh_token_once (λ s, s) Ok (λ s, s) (λ s, s) String.eqb (λ _, false) (Demo.at_ 2) "t2" "r2" "r1" APP_AUDIENCE
    Demo.signed_in session db1
    [(Login "f2" "t9" "r9" "a@x.io" "pw" APP_AUDIENCE "d2", Demo.at_ 3); (Refresh "t3" "r3" "r2" APP_AUDIENCE, Demo.at_ 4)])
    with (clock' := Demo.at_ 5) (token_id' := "t4") (replacement' := "r4") (audience' := APP_AUDIENCE) as [e He].
  - split_and!; [|vm_compute; reflexivity..]. intros t Ht.
    assert (t = nth 0 (tokens Demo.signed_in) t) as -> by (apply list_elem_of_singleton in Ht; exact Ht).
    vm_compute. left.
  - exact Hrun.
  - repeat constructor; vm_compute; discriminate.
  - exists e. split; [reflexivity|exact He].
Defined.

Lemma sessions_ended_witness :
  let db' := serve_all (λ s, s) Ok (λ s, s) (λ s, s) String.eqb (λ _, false)
    [(LogoutAll (Some (Demo.claims "u1" "f1")), Demo.at_ 2); (Login "f2" "t9" "r9" "a@x.io" "pw" APP_AUDIENCE "d2", Demo.at_ 3)]
    Demo.signed_in in
  ∃ e, Demo.refresh 5 "t4" "r4" "r1" db' = (Err e, db').
Proof.
  apply (sessions_ended (λ s, s) Ok (λ s, s) (λ s, s) String.eqb (λ _, false) "u1" "r1"
    (LogoutAll (Some (Demo.claims "u1" "f1"))) (Demo.at_ 2)).
  - split.
    + split_and!; [|vm_compute; reflexivity..]. intros t Ht.
      assert (t = nth 0 (tokens Demo.signed_in) t) as -> by (apply list_elem_of_singleton in Ht; exact Ht).
      vm_compute. left.
    + do 2 eexists. split_and!; [apply list_elem_of_singleton; reflexivity|vm_compute; reflexivity|
        apply list_elem_of_singleton; reflexivity|vm_compute; reflexivity..].
  - reflexivity.
  - vm_compute. reflexivity.
  - repeat constructor; vm_compute; discriminate.
Defined.

Lemma family_limit_witness : (length (live_families "u1" Demo.signed_in) <= MAX_ACTIVE_FAMILIES)%nat.
Proof.
  refine (family_limit (λ s, s) Ok (λ s, s) (λ s, s) String.eqb (λ _, false) _ _ _ "u1"). intros user. vm_compute. lia.
Defined.
