(* ===== verification/SemVer.v ===== *)
(** * Versions and version ranges

    The semantic versions of [catalog/service.py] of the backend: the regular expression [_SEMVER]
    as a parser, the tuple order the service compares with, and half-open ranges.  [decimal] is
    [unicodedata.decimal], which both [\d] and [int] go by. *)

From S2P Require Import Prelude PyOrder PyStr PyText.

(** ** Reading a version *)

Definition SemVer : Type := Z * Z * Z * list string.

Definition ascii_code (c : string) : Z :=
  match c with String a EmptyString => Z.of_N (Ascii.N_of_ascii a) | _ => -1 end.

Definition between (lo hi n : Z) : bool := (lo <=? n)%Z && (n <=? hi)%Z.

Definition DOT : Ascii.ascii := Ascii.ascii_of_nat 46.

(** [[0-9A-Za-z-]] *)
Definition id_char (c : string) : bool :=
  let n := ascii_code c in between 48 57 n || between 65 90 n || between 97 122 n || (n =? 45)%Z.

(** Identifiers with dots between them, none of them empty. *)
Definition identifiers (s : string) : option (list string) :=
  let parts := split_on DOT s in
  if forallb (λ p, negb (p =? "") && forallb id_char (chars p)) parts then Some parts else None.

Section Parse.
Context (decimal : string → option Z).

Fixpoint digits_rest (acc : Z) (l : list string) : Z * list string :=
  match l with
  | c :: l' => match decimal c with Some d => digits_rest (10 * acc + d) l' | None => (acc, l) end
  | [] => (acc, [])
  end.

(** [0|[1-9]\d*] *)
Definition number (l : list string) : option (Z * list string) :=
  match l with
  | c :: l' =>
      if c =? "0" then Some (0, l')
      else if between 49 57 (ascii_code c) then Some (digits_rest (ascii_code c - 48) l') else None
  | [] => None
  end.

Definition dot (l : list string) : option (list string) :=
  match l with c :: l' => if c =? "." then Some l' else None | [] => None end.

(** Everything before the first [c], and what follows it. *)
Fixpoint cut (c : string) (l : list string) : list string * option (list string) :=
  match l with
  | x :: l' => if x =? c then ([], Some l') else let '(a, b) := cut c l' in (x :: a, b)
  | [] => ([], None)
  end.

(* [apps/backend-api/src/ibreeze_backend/catalog/service.py:40-44 _SEMVER] *)
Definition _SEMVER (s : string) : option SemVer :=
  '(major, l) ← number (chars s); l ← dot l;
  '(minor, l) ← number l; l ← dot l;
  '(patch, l) ← number l;
  let '(before, build) := cut "+" l in
  _ ← match build with Some b => identifiers (unchars b) | None => Some [] end;
  prerelease ← match before with
    | [] => Some []
    | c :: l' => if c =? "-" then identifiers (unchars l') else None
    end;
  Some (major, minor, patch, prerelease).

(* [apps/backend-api/src/ibreeze_backend/catalog/service.py:65-70 _semver] *)
Definition _semver (value : string) : result SemVer :=
  of_option (_SEMVER value) (ValueError "CATALOG_SEMVER_INVALID").

(** Python compares the tuples component by component. *)
Definition semver_compare : SemVer → SemVer → comparison :=
  lex (lex (lex Z.compare Z.compare) Z.compare) (lex_list String.compare).

Definition semver_lt (a b : SemVer) : bool := match semver_compare a b with Lt => true | _ => false end.
Definition semver_le (a b : SemVer) : bool := leb_of semver_compare a b.

(* [apps/backend-api/src/ibreeze_backend/catalog/service.py:73-75 _validate_range] *)
Definition _validate_range (minimum maximum : string) : result unit :=
  low ← _semver minimum;
  high ← _semver maximum;
  ensure (semver_lt low high) (ValueError "CATALOG_VERSION_RANGE_INVALID").

#[export] Instance semver_ordering : Ordering semver_compare.
Proof. unfold semver_compare. apply _. Qed.
#[export] Instance semver_separating : Separating semver_compare.
Proof. unfold semver_compare. apply _. Qed.

Lemma semver_lt_iff a b : semver_lt a b = true ↔ semver_compare a b = Lt.
Proof. unfold semver_lt. by destruct (semver_compare a b). Qed.
Lemma semver_le_iff a b : semver_le a b = true ↔ semver_compare a b ≠ Gt.
Proof. apply leb_of_iff. Qed.
Lemma semver_le_refl a : semver_le a a = true.
Proof. apply semver_le_iff. by rewrite (cmp_refl semver_compare). Qed.
Lemma semver_le_trans a b c : semver_le a b = true → semver_le b c = true → semver_le a c = true.
Proof. apply (leb_of_trans semver_compare). Qed.
Lemma semver_not_lt a b : semver_lt a b = false ↔ semver_le b a = true.
Proof.
  rewrite semver_le_iff, (cmp_flip semver_compare a b). unfold semver_lt.
  by destruct (semver_compare a b).
Qed.
Lemma semver_lt_le a b : semver_lt a b = true → semver_le a b = true.
Proof. rewrite semver_lt_iff, semver_le_iff. by intros ->. Qed.
Lemma semver_le_lt a b c : semver_le a b = true → semver_lt b c = true → semver_lt a c = true.
Proof.
  intros Hab Hbc. apply not_false_iff_true. intros Hca%semver_not_lt.
  assert (semver_le c b = true) as Hcb by (by eapply semver_le_trans).
  apply semver_not_lt in Hcb. congruence.
Qed.
Lemma semver_lt_le_trans a b c : semver_lt a b = true → semver_le b c = true → semver_lt a c = true.
Proof.
  intros Hab Hbc. apply not_false_iff_true. intros Hca%semver_not_lt.
  assert (semver_le b a = true) as Hba by (by eapply semver_le_trans).
  apply semver_not_lt in Hba. congruence.
Qed.

(** ** Ranges *)

(** A version is within a range. *)
Definition within (v : SemVer) (low high : SemVer) : bool := semver_le low v && semver_lt v high.

(** The test the service makes for two ranges. *)
Definition ranges_meet (a b c d : SemVer) : bool := semver_lt a d && semver_lt c b.

(** Of two ranges that are not empty, the test finds out whether they share a version. *)
Lemma ranges_meet_iff a b c d : semver_lt a b = true → semver_lt c d = true →
  ranges_meet a b c d = true ↔ ∃ v, within v a b = true ∧ within v c d = true.
Proof.
  intros Hab Hcd. unfold ranges_meet, within. split.
  - intros [Had Hcb]%andb_true_iff. destruct (semver_le a c) eqn:Hac.
    + exists c. by rewrite Hac, Hcb, semver_le_refl, Hcd.
    + exists a. rewrite semver_le_refl, Hab, Had. split; [done|]. rewrite andb_true_r.
      apply semver_lt_le. apply not_false_iff_true. intros E%semver_not_lt. congruence.
  - intros (v & [H1 H2]%andb_true_iff & [H3 H4]%andb_true_iff). apply andb_true_iff. split; by eapply semver_le_lt.
Qed.
End Parse.

(** The decimal digits of ASCII. *)
Definition ascii_decimal (c : string) : option Z :=
  if between 48 57 (ascii_code c) then Some (ascii_code c - 48) else None.

Example version : _semver ascii_decimal "1.20.3-rc.1+build-7" = Ok (1, 20, 3, ["rc"; "1"]).
Proof. reflexivity. Qed.
Example leading_zero : _semver ascii_decimal "1.02.3" = Err (ValueError "CATALOG_SEMVER_INVALID").
Proof. reflexivity. Qed.
Example no_patch : _semver ascii_decimal "1.2" = Err (ValueError "CATALOG_SEMVER_INVALID").
Proof. reflexivity. Qed.
Example empty_identifier : _semver ascii_decimal "1.2.3-" = Err (ValueError "CATALOG_SEMVER_INVALID").
Proof. reflexivity. Qed.

(** A release comes before its own candidates, and candidate 10 before candidate 9: semantic
    versions are ordered the other way round. *)
Lemma candidate_after_release :
  _validate_range ascii_decimal "1.0.0" "1.0.0-rc.1" = Ok tt ∧
  _validate_range ascii_decimal "1.0.0-rc.10" "1.0.0-rc.9" = Ok tt ∧
  _validate_range ascii_decimal "1.0.0-rc.1" "1.0.0" = Err (ValueError "CATALOG_VERSION_RANGE_INVALID").
Proof. split_and!; reflexivity. Qed.
