(* ===== verification/Catalog.v ===== *)
(** * The catalog of the backend

    [catalog/service.py] over the tables of [catalog/models.py]: agents with their version ranges,
    models, providers and the bindings between them, each a numbered revision that is a draft,
    validated or published.

    Columns the service only stores are kept; [updated_at] is not.  A prior is a [NUMERIC(5,4)],
    counted in ten-thousandths.  The triggers of the schema (a revision is inserted as a draft, a
    published one does not change) repeat what the service checks first.  Of the bodies, a field
    that is set to [null] is left out: every column is [NOT NULL].  URL parsing, [idna], [lower]
    and the digest of a JSON value are arguments, and so are new identifiers and the time. *)

From S2P Require Import Prelude PyOrder PyStr PyText Sql SemVer.

(** ** The tables *)

(* [apps/backend-api/src/ibreeze_backend/catalog/models.py:34-47 AgentCatalog] *)
Record Agent := {
  ag_id : string; ag_key : string; ag_catalog_revision : Z; ag_display_name : string; ag_description : string;
  ag_status : string; ag_version : Z; ag_created_at : Z }.

(* [apps/backend-api/src/ibreeze_backend/catalog/models.py:50-81 AgentVersionRange] *)
Record AgentVersion := {
  av_id : string; av_agent_id : string; av_min_version : string; av_max_version_exclusive : string;
  av_executable_names : list string; av_supported_platforms : list string; av_probe_argv : list string;
  av_capability_tags : list string; av_network_domains : list string; av_adapter_contract_version : Z;
  av_content_sha256 : string; av_published_at : option Z; av_created_at : Z }.

(* [apps/backend-api/src/ibreeze_backend/catalog/models.py:128-153 ModelCatalog] *)
Record Model := {
  md_id : string; md_provider_key : string; md_model_key : string; md_display_name : string;
  md_context_window : Z; md_max_output_tokens : Z; md_tokenizer_key : string; md_supports_tools : bool;
  md_supports_streaming : bool; md_supports_vision : bool; md_routing_tier : Z; md_quality_prior : Z;
  md_tool_reliability_prior : Z; md_latency_prior_ms : Z; md_model_family : string; md_model_vendor : string;
  md_architecture_class : string; md_supports_reasoning : bool; md_reasoning_levels : list string;
  md_input_price : Z; md_output_price : Z; md_routing_enabled : bool;
  md_catalog_revision : Z; md_status : string; md_version : Z; md_created_at : Z }.

(* [apps/backend-api/src/ibreeze_backend/catalog/models.py:156-179 ProviderCatalog] *)
Record Provider := {
  pv_id : string; pv_key : string; pv_display_name : string; pv_protocol : string; pv_base_url : string;
  pv_auth_scheme : string; pv_catalog_revision : Z; pv_status : string; pv_version : Z; pv_created_at : Z }.

(* [apps/backend-api/src/ibreeze_backend/catalog/models.py:182-210 AgentModelBinding] *)
Record AgentBinding := {
  ab_id : string; ab_agent_id : string; ab_model_id : string; ab_min_agent_version : string;
  ab_max_agent_version_exclusive : string; ab_created_at : Z }.

(* [apps/backend-api/src/ibreeze_backend/catalog/models.py:213-235 ProviderModelBinding] *)
Record ProviderBinding := {
  pb_id : string; pb_provider_id : string; pb_model_id : string; pb_provider_model_name : string;
  pb_request_defaults : list (string * json); pb_created_at : Z }.

Record DB := {
  agents : list Agent; agent_versions : list AgentVersion; models : list Model; providers : list Provider;
  agent_bindings : list AgentBinding; provider_bindings : list ProviderBinding }.

Ltac solve_lens := intros; repeat match goal with db : DB |- _ => destruct db end; reflexivity.

Definition STATUSES : list string := ["draft"; "validated"; "published"].

#[export] Program Instance agents_table : Table DB Agent := {|
  table_name := "agents"; rows := agents;
  set_rows l db := {| agents := l; agent_versions := agent_versions db; models := models db;
    providers := providers db; agent_bindings := agent_bindings db; provider_bindings := provider_bindings db |};
  row_ok a := (0 <? ag_catalog_revision a)%Z && (ag_status a ∈? STATUSES);
  clash a b := (ag_id a =? ag_id b) ||
    ((ag_key a =? ag_key b) && (ag_catalog_revision a =? ag_catalog_revision b)%Z);
  refs_ok db a := true |}.
Solve All Obligations with solve_lens.

#[export] Program Instance agent_versions_table : Table DB AgentVersion := {|
  table_name := "agent_versions"; rows := agent_versions;
  set_rows l db := {| agents := agents db; agent_versions := l; models := models db;
    providers := providers db; agent_bindings := agent_bindings db; provider_bindings := provider_bindings db |};
  row_ok v := negb (av_min_version v =? av_max_version_exclusive v);
  clash a b := (av_id a =? av_id b) || ((av_agent_id a =? av_agent_id b) &&
    (av_min_version a =? av_min_version b) && (av_max_version_exclusive a =? av_max_version_exclusive b));
  refs_ok db v := av_agent_id v ∈? map ag_id (agents db) |}.
Solve All Obligations with solve_lens.

(* [apps/backend-api/src/ibreeze_backend/catalog/models.py:84-126 ModelCatalog] *)
Definition model_row_ok (m : Model) : bool :=
  (0 <? md_catalog_revision m)%Z && (0 <? md_context_window m)%Z && (0 <? md_max_output_tokens m)%Z &&
  (0 <=? md_routing_tier m)%Z && (md_routing_tier m <=? 3)%Z &&
  (0 <=? md_quality_prior m)%Z && (md_quality_prior m <=? 10000)%Z &&
  (0 <=? md_tool_reliability_prior m)%Z && (md_tool_reliability_prior m <=? 10000)%Z &&
  (0 <? md_latency_prior_ms m)%Z && (md_architecture_class m ∈? ["dense"; "moe"; "hybrid"; "unknown"]) &&
  (0 <=? md_input_price m)%Z && (0 <=? md_output_price m)%Z &&
  (md_supports_reasoning m || Nat.eqb (length (md_reasoning_levels m)) 0) &&
  (negb (md_routing_enabled m) || (negb (md_model_family m =? "unknown") && negb (md_model_vendor m =? "unknown"))) &&
  (md_status m ∈? STATUSES).

#[export] Program Instance models_table : Table DB Model := {|
  table_name := "models"; rows := models;
  set_rows l db := {| agents := agents db; agent_versions := agent_versions db; models := l;
    providers := providers db; agent_bindings := agent_bindings db; provider_bindings := provider_bindings db |};
  row_ok := model_row_ok;
  clash a b := (md_id a =? md_id b) || ((md_provider_key a =? md_provider_key b) &&
    (md_model_key a =? md_model_key b) && (md_catalog_revision a =? md_catalog_revision b)%Z);
  refs_ok db m := true |}.
Solve All Obligations with solve_lens.

#[export] Program Instance providers_table : Table DB Provider := {|
  table_name := "api_providers"; rows := providers;
  set_rows l db := {| agents := agents db; agent_versions := agent_versions db; models := models db;
    providers := l; agent_bindings := agent_bindings db; provider_bindings := provider_bindings db |};
  row_ok p := (0 <? pv_catalog_revision p)%Z &&
    (pv_protocol p ∈? ["openai_responses"; "anthropic_messages"; "openai_chat_completions"]) &&
    (pv_auth_scheme p ∈? ["bearer"; "x-api-key"]) && (pv_status p ∈? STATUSES);
  clash a b := (pv_id a =? pv_id b) ||
    ((pv_key a =? pv_key b) && (pv_catalog_revision a =? pv_catalog_revision b)%Z);
  refs_ok db p := true |}.
Solve All Obligations with solve_lens.

#[export] Program Instance agent_bindings_table : Table DB AgentBinding := {|
  table_name := "agent_model_bindings"; rows := agent_bindings;
  set_rows l db := {| agents := agents db; agent_versions := agent_versions db; models := models db;
    providers := providers db; agent_bindings := l; provider_bindings := provider_bindings db |};
  row_ok b := true;
  clash a b := (ab_id a =? ab_id b) || ((ab_agent_id a =? ab_agent_id b) && (ab_model_id a =? ab_model_id b) &&
    (ab_min_agent_version a =? ab_min_agent_version b) &&
    (ab_max_agent_version_exclusive a =? ab_max_agent_version_exclusive b));
  refs_ok db b := (ab_agent_id b ∈? map ag_id (agents db)) && (ab_model_id b ∈? map md_id (models db)) |}.
Solve All Obligations with solve_lens.

#[export] Program Instance provider_bindings_table : Table DB ProviderBinding := {|
  table_name := "provider_model_bindings"; rows := provider_bindings;
  set_rows l db := {| agents := agents db; agent_versions := agent_versions db; models := models db;
    providers := providers db; agent_bindings := agent_bindings db; provider_bindings := l |};
  row_ok b := true;
  clash a b := (pb_id a =? pb_id b) || ((pb_provider_id a =? pb_provider_id b) && (pb_model_id a =? pb_model_id b));
  refs_ok db b := (pb_provider_id b ∈? map pv_id (providers db)) && (pb_model_id b ∈? map md_id (models db)) |}.
Solve All Obligations with solve_lens.

(** What the three kinds of revisions have in common. *)
(* [apps/backend-api/src/ibreeze_backend/catalog/service.py:60-62 MutableCatalogResource] *)
Class CatalogParent (R : Type) := { cp_id : R → string; cp_status : R → string; cp_version : R → Z }.
#[export] Instance agent_parent : CatalogParent Agent := {| cp_id := ag_id; cp_status := ag_status; cp_version := ag_version |}.
#[export] Instance model_parent : CatalogParent Model := {| cp_id := md_id; cp_status := md_status; cp_version := md_version |}.
#[export] Instance provider_parent : CatalogParent Provider :=
  {| cp_id := pv_id; cp_status := pv_status; cp_version := pv_version |}.

Section Parent.
Context {R : Type} `{!Table DB R} `{!CatalogParent R}.

Definition at_id (i : string) (r : R) : bool := cp_id r =? i.

(* [apps/backend-api/src/ibreeze_backend/catalog/service.py:711-720 _locked] *)
Definition _locked (resource_id : string) : tx DB R :=
  resource ← select_one (at_id resource_id);
  found resource (ValueError "CATALOG_RESOURCE_NOT_FOUND").

(* [apps/backend-api/src/ibreeze_backend/catalog/service.py:83-85 _assert_mutable] *)
Definition _assert_mutable (r : R) : tx DB unit :=
  check (negb (cp_status r =? "published")) (ValueError "CATALOG_REVISION_IMMUTABLE").

(* [apps/backend-api/src/ibreeze_backend/catalog/service.py:88-93 _assert_version] *)
Definition _assert_version (r : R) (expected_version : Z) : tx DB unit :=
  check (cp_version r =? expected_version)%Z (ValueError "OPTIMISTIC_LOCK_CONFLICT").
End Parent.

(** ** The service *)

Section Service.
Context (decimal : string → option Z) (lower : string → string) (idna : string → result string)
  (digest : json → string) (now : Z).

Notation _semver := (SemVer._semver decimal).
Notation _validate_range := (SemVer._validate_range decimal).

(** *** Checks of values *)

(** [str.rstrip(c)] *)
Definition rstrip (c : string) (s : string) : string :=
  unchars (rev ((fix go l := match l with x :: l' => if x =? c then go l' else l | [] => [] end) (rev (chars s)))).

(** A label of a domain: at most 63 of [[a-z0-9-]], no hyphen at either end. *)
Definition label_ok (s : string) : bool :=
  let l := chars s in
  let alnum c := let n := ascii_code c in between 48 57 n || between 97 122 n in
  match l with [] => false | c :: _ => alnum c && alnum (List.last l "") end &&
  forallb (λ c, alnum c || (c =? "-")) l && Nat.leb (length l) 63.

(* [apps/backend-api/src/ibreeze_backend/catalog/service.py:45-48 _DOMAIN] *)
Definition _DOMAIN (s : string) : bool :=
  let rest := if String.prefix "*." s then String.substring 2 (String.length s - 2) s else s in
  let labels := split_on DOT rest in
  Nat.leb 2 (length labels) && forallb label_ok labels && (py_len rest <=? 253)%Z.

(* [apps/backend-api/src/ibreeze_backend/catalog/service.py:129-138 _validate_domains] *)
Definition _validate_domains (domains : list string) : result (list string) :=
  normalized ← mapM (λ value,
    ascii ← idna (rstrip "." value);
    let domain := lower ascii in
    ensure (_DOMAIN domain) (ValueError "CATALOG_NETWORK_DOMAIN_INVALID");;
    Ok domain) domains;
  ensure (bool_decide (NoDup normalized)) (ValueError "CATALOG_NETWORK_DOMAIN_DUPLICATE");;
  Ok normalized.

(** [urlsplit], [ipaddress.ip_address] and [urlunsplit]; a port that is no number raises. *)
Record Url := {
  ur_scheme : string; ur_hostname : option string; ur_username : option string; ur_password : option string;
  ur_query : string; ur_fragment : string; ur_port : result (option Z); ur_path : string }.

Section Urls.
Context (urlsplit : string → result Url) (internal_address : string → bool) (urlunsplit : string → string → string).

(** [internal_address host] says that the host is an address of one of the six kinds refused. *)
(* [apps/backend-api/src/ibreeze_backend/catalog/service.py:96-126 _normalize_provider_url] *)
Definition _normalize_provider_url (value : string) : result string :=
  parsed ← urlsplit value;
  let hostname := default "" (ur_hostname parsed) in
  ensure ((ur_scheme parsed =? "https") && negb (hostname =? "") &&
      match ur_username parsed, ur_password parsed with None, None => true | _, _ => false end &&
      (ur_query parsed =? "") && (ur_fragment parsed =? ""))
    (ValueError "PROVIDER_BASE_URL_INVALID");;
  ascii ← match idna hostname with Ok a => Ok a | Err _ => Err (ValueError "PROVIDER_BASE_URL_INVALID") end;
  let host := lower ascii in
  ensure (negb (internal_address (strip_set "[]" host))) (ValueError "PROVIDER_BASE_URL_FORBIDDEN");;
  number ← ur_port parsed;
  let port := match number with Some n => ":" +:+ pretty.pretty n | None => "" end in
  Ok (urlunsplit (host +:+ port) (rstrip "/" (ur_path parsed))).
End Urls.

Definition normalised (m : Model) : Model := {|
  md_id := md_id m; md_provider_key := md_provider_key m; md_model_key := md_model_key m;
  md_display_name := md_display_name m; md_context_window := md_context_window m;
  md_max_output_tokens := md_max_output_tokens m; md_tokenizer_key := md_tokenizer_key m;
  md_supports_tools := md_supports_tools m; md_supports_streaming := md_supports_streaming m;
  md_supports_vision := md_supports_vision m; md_routing_tier := md_routing_tier m;
  md_quality_prior := md_quality_prior m; md_tool_reliability_prior := md_tool_reliability_prior m;
  md_latency_prior_ms := md_latency_prior_ms m;
  md_model_family := lower (strip (md_model_family m)); md_model_vendor := lower (strip (md_model_vendor m));
  md_architecture_class := md_architecture_class m; md_supports_reasoning := md_supports_reasoning m;
  md_reasoning_levels := List.filter (λ l, l ∈? md_reasoning_levels m) ["low"; "medium"; "high"];
  md_input_price := md_input_price m; md_output_price := md_output_price m; md_routing_enabled := md_routing_enabled m;
  md_catalog_revision := md_catalog_revision m; md_status := md_status m; md_version := md_version m;
  md_created_at := md_created_at m |}.

(** The checks before anything is assigned. *)
(* [apps/backend-api/src/ibreeze_backend/catalog/service.py:142-159 _validate_model_values] *)
Definition model_checks (m : Model) : result unit :=
  ensure ((8192 <=? md_context_window m)%Z && (1 <=? md_max_output_tokens m)%Z &&
    (md_max_output_tokens m <=? md_context_window m - 4096)%Z) (ValueError "MODEL_CAPABILITY_INVALID");;
  ensure (md_supports_streaming m) (ValueError "MODEL_STREAMING_REQUIRED");;
  ensure ((0 <=? md_routing_tier m)%Z && (md_routing_tier m <=? 3)%Z) (ValueError "MODEL_ROUTING_TIER_INVALID");;
  ensure ((0 <=? md_quality_prior m)%Z && (md_quality_prior m <=? 10000)%Z &&
    (0 <=? md_tool_reliability_prior m)%Z && (md_tool_reliability_prior m <=? 10000)%Z)
    (ValueError "MODEL_ROUTING_PRIOR_INVALID");;
  ensure (0 <? md_latency_prior_ms m)%Z (ValueError "MODEL_LATENCY_PRIOR_INVALID");;
  ensure (md_architecture_class m ∈? ["dense"; "moe"; "hybrid"; "unknown"])
    (ValueError "MODEL_ARCHITECTURE_CLASS_INVALID");;
  let levels := md_reasoning_levels m in
  ensure (bool_decide (NoDup levels) && forallb (λ l, l ∈? ["low"; "medium"; "high"]) levels)
    (ValueError "MODEL_REASONING_LEVELS_INVALID");;
  ensure (md_supports_reasoning m || Nat.eqb (length levels) 0) (ValueError "MODEL_REASONING_LEVELS_UNSUPPORTED").

(** The object is changed even where the last check raises. *)
(* [apps/backend-api/src/ibreeze_backend/catalog/service.py:141-169 _validate_model_values] *)
Definition _validate_model_values : tx Model unit :=
  m ← gets id;
  lift (model_checks m);;
  modify normalised;;
  m ← gets id;
  check (negb (md_routing_enabled m && ((md_model_family m =? "") || (md_model_vendor m =? "") ||
      (md_model_family m =? "unknown") || (md_model_vendor m =? "unknown"))))
    (ValueError "MODEL_ROUTING_IDENTITY_REQUIRED").

(** *** Agents *)

Definition set_agent (display_name description : option string) (status : string) (version : Z) (a : Agent) : Agent := {|
  ag_id := ag_id a; ag_key := ag_key a; ag_catalog_revision := ag_catalog_revision a;
  ag_display_name := default (ag_display_name a) display_name; ag_description := default (ag_description a) description;
  ag_status := status; ag_version := version; ag_created_at := ag_created_at a |}.

(** What every change to an agent or its children does to the agent. *)
Definition draft_again (a : Agent) : Agent := set_agent None None "draft" (ag_version a + 1) a.

(* [apps/backend-api/src/ibreeze_backend/catalog/service.py:172-183 create_agent] *)
Definition create_agent (new_id key display_name description : string) : tx DB Agent :=
  exists_ ← gets (λ db, existsb (λ a, ag_key a =? key) (agents db));
  check (negb exists_) (ValueError "CATALOG_LOGICAL_KEY_EXISTS");;
  let resource := {| ag_id := new_id; ag_key := key; ag_catalog_revision := 1; ag_display_name := display_name;
    ag_description := description; ag_status := "draft"; ag_version := 1; ag_created_at := now |} in
  insert_row resource;;
  mret resource.

(* [apps/backend-api/src/ibreeze_backend/catalog/service.py:186-188 get_agent] *)
Definition get_agent (resource_id : string) : tx DB (option Agent) := select_one (at_id resource_id).

(* [apps/backend-api/src/ibreeze_backend/catalog/service.py:191-193 list_agents] *)
Definition list_agents (limit : Z) : tx DB (list Agent) :=
  gets (λ db, limited limit (sort_by (λ a b, (ag_created_at b <=? ag_created_at a)%Z) (agents db))).

(* [apps/backend-api/src/ibreeze_backend/catalog/service.py:196-210 update_agent] *)
Definition update_agent (resource_id : string) (display_name description : option string) (expected_version : Z) : tx DB Agent :=
  resource ← _locked resource_id;
  _assert_mutable resource;;
  _assert_version resource expected_version;;
  let changed := set_agent display_name description "draft" (ag_version resource + 1) resource in
  update (at_id resource_id) (λ _, changed);;
  mret changed.

(** [DELETE], with the rows [ON DELETE CASCADE] takes along. *)
Definition delete_agent_row (i : string) (db : DB) : DB := {|
  agents := List.filter (λ a, negb (ag_id a =? i)) (agents db);
  agent_versions := List.filter (λ v, negb (av_agent_id v =? i)) (agent_versions db);
  models := models db; providers := providers db;
  agent_bindings := List.filter (λ b, negb (ab_agent_id b =? i)) (agent_bindings db);
  provider_bindings := provider_bindings db |}.

(* [apps/backend-api/src/ibreeze_backend/catalog/service.py:213-220 delete_agent] *)
Definition delete_agent (resource_id : string) (expected_version : Z) : tx DB unit :=
  resource ← _locked (R := Agent) resource_id;
  _assert_mutable resource;;
  _assert_version resource expected_version;;
  modify (delete_agent_row resource_id).

(** Two ranges of an agent share a platform and a version. *)
Definition meets (first second : AgentVersion) : result bool :=
  if negb (existsb (λ p, p ∈? av_supported_platforms second) (av_supported_platforms first)) then Ok false
  else
    low ← _semver (av_min_version first);
    high ← _semver (av_max_version_exclusive second);
    if negb (semver_lt low high) then Ok false
    else
      low' ← _semver (av_min_version second);
      high' ← _semver (av_max_version_exclusive first);
      Ok (semver_lt low' high').

Fixpoint check_pairs (versions : list AgentVersion) : result unit :=
  match versions with
  | [] => Ok tt
  | first :: rest =>
      mapM (λ second, m ← meets first second; ensure (negb m) (ValueError "AGENT_VERSION_RANGE_OVERLAP")) rest;;
      check_pairs rest
  end.

Definition check_version (v : AgentVersion) : result unit :=
  _validate_range (av_min_version v) (av_max_version_exclusive v);;
  _validate_domains (av_network_domains v);;
  Ok tt.

(* [apps/backend-api/src/ibreeze_backend/catalog/service.py:223-245 validate_agent] *)
Definition validate_agent (resource_id : string) : tx DB Agent :=
  resource ← _locked resource_id;
  _assert_mutable resource;;
  versions ← select (λ v, av_agent_id v =? resource_id);
  check (negb (Nat.eqb (length versions) 0)) (ValueError "AGENT_VERSION_REQUIRED");;
  lift (mapM check_version versions);;
  lift (check_pairs versions);;
  let changed := set_agent None None "validated" (ag_version resource) resource in
  update (at_id resource_id) (λ _, changed);;
  mret changed.

(** [max(...) or 0] *)
Definition max_revision (l : list Z) : Z := fold_right Z.max 0 l.

(* [apps/backend-api/src/ibreeze_backend/catalog/service.py:272-285 clone_agent_revision] *)
Definition copy_version (agent_id new_id : string) (v : AgentVersion) : AgentVersion := {|
  av_id := new_id; av_agent_id := agent_id; av_min_version := av_min_version v;
  av_max_version_exclusive := av_max_version_exclusive v; av_executable_names := av_executable_names v;
  av_supported_platforms := av_supported_platforms v; av_probe_argv := av_probe_argv v;
  av_capability_tags := av_capability_tags v; av_network_domains := av_network_domains v;
  av_adapter_contract_version := av_adapter_contract_version v; av_content_sha256 := av_content_sha256 v;
  av_published_at := None; av_created_at := now |}.

(* [apps/backend-api/src/ibreeze_backend/catalog/service.py:291-297 clone_agent_revision] *)
Definition copy_agent_binding (agent_id new_id : string) (b : AgentBinding) : AgentBinding := {|
  ab_id := new_id; ab_agent_id := agent_id; ab_model_id := ab_model_id b;
  ab_min_agent_version := ab_min_agent_version b;
  ab_max_agent_version_exclusive := ab_max_agent_version_exclusive b; ab_created_at := now |}.

(** [fresh n] is the n-th new identifier. *)
Fixpoint insert_all {R} `{!Table DB R} (copy : string → R → R) (fresh : nat → string) (l : list R) : tx DB unit :=
  match l with
  | [] => mret tt
  | r :: l' => insert_row (copy (fresh 0%nat) r);; insert_all copy (λ n, fresh (S n)) l'
  end.

(* [apps/backend-api/src/ibreeze_backend/catalog/service.py:248-299 clone_agent_revision] *)
Definition clone_agent_revision (fresh : nat → string) (resource_id : string) : tx DB Agent :=
  source ← _locked resource_id;
  check (ag_status source =? "published") (ValueError "CATALOG_REVISION_SOURCE_NOT_PUBLISHED");;
  revision ← gets (λ db, max_revision (map ag_catalog_revision
    (List.filter (λ a, ag_key a =? ag_key source) (agents db))) + 1);
  let clone := {| ag_id := fresh 0%nat; ag_key := ag_key source; ag_catalog_revision := revision;
    ag_display_name := ag_display_name source; ag_description := ag_description source; ag_status := "draft";
    ag_version := 1; ag_created_at := now |} in
  insert_row clone;;
  versions ← select (λ v, av_agent_id v =? ag_id source);
  insert_all (copy_version (ag_id clone)) (λ n, fresh (S n)) versions;;
  bindings ← select (λ b, ab_agent_id b =? ag_id source);
  insert_all (copy_agent_binding (ag_id clone)) (λ n, fresh (S (length versions + n))) bindings;;
  mret clone.

Record AgentVersionCreate := {
  vc_min_version : string; vc_max_version_exclusive : string; vc_executable_names : list string;
  vc_supported_platforms : list string; vc_probe_argv : list string; vc_capability_tags : list string;
  vc_network_domains : list string; vc_adapter_contract_version : Z }.

Definition strings (l : list string) : json := JList (map JStr l).

(* [apps/backend-api/src/ibreeze_backend/catalog/service.py:78-80 _content_sha256] *)
Definition _content_sha256 (payload : list (string * json)) : string := digest (sorted_obj payload).

(* [apps/backend-api/src/ibreeze_backend/catalog/service.py:302-321 create_agent_version] *)
Definition create_agent_version (new_id agent_id : string) (body : AgentVersionCreate) : tx DB AgentVersion :=
  agent ← _locked (R := Agent) agent_id;
  _assert_mutable agent;;
  lift (_validate_range (vc_min_version body) (vc_max_version_exclusive body));;
  domains ← lift (_validate_domains (vc_network_domains body));
  let payload := [
    ("min_version", JStr (vc_min_version body)); ("max_version_exclusive", JStr (vc_max_version_exclusive body));
    ("executable_names", strings (vc_executable_names body));
    ("supported_platforms", strings (vc_supported_platforms body)); ("probe_argv", strings (vc_probe_argv body));
    ("capability_tags", strings (vc_capability_tags body)); ("network_domains", strings domains);
    ("adapter_contract_version", JInt (vc_adapter_contract_version body))] in
  let version := {| av_id := new_id; av_agent_id := agent_id; av_min_version := vc_min_version body;
    av_max_version_exclusive := vc_max_version_exclusive body; av_executable_names := vc_executable_names body;
    av_supported_platforms := vc_supported_platforms body; av_probe_argv := vc_probe_argv body;
    av_capability_tags := vc_capability_tags body; av_network_domains := domains;
    av_adapter_contract_version := vc_adapter_contract_version body; av_content_sha256 := _content_sha256 payload;
    av_published_at := None; av_created_at := now |} in
  insert_row version;;
  update (at_id agent_id) draft_again;;
  mret version.

(* [apps/backend-api/src/ibreeze_backend/catalog/service.py:324-331 list_agent_versions] *)
Definition list_agent_versions (agent_id : string) : tx DB (list AgentVersion) :=
  gets (λ db, sort_by (λ a b, (av_created_at a <=? av_created_at b)%Z)
    (List.filter (λ v, av_agent_id v =? agent_id) (agent_versions db))).

(* [apps/backend-api/src/ibreeze_backend/catalog/service.py:334-354 delete_agent_version] *)
Definition delete_agent_version (agent_id version_id : string) : tx DB unit :=
  agent ← _locked (R := Agent) agent_id;
  _assert_mutable agent;;
  item ← select_one (λ v, (av_id v =? version_id) && (av_agent_id v =? agent_id));
  v ← found item (ValueError "CATALOG_CHILD_IMMUTABLE_OR_MISSING");
  check (match av_published_at v with None => true | Some _ => false end)
    (ValueError "CATALOG_CHILD_IMMUTABLE_OR_MISSING");;
  delete_rows (λ x, av_id x =? version_id);;
  update (at_id agent_id) draft_again;;
  mret tt.

(** *** Models *)

Record ModelCreate := {
  mc_provider_key : string; mc_model_key : string; mc_display_name : string; mc_context_window : Z;
  mc_max_output_tokens : Z; mc_tokenizer_key : string; mc_supports_tools : bool; mc_supports_streaming : bool;
  mc_supports_vision : bool; mc_routing_tier : Z; mc_quality_prior : Z; mc_tool_reliability_prior : Z;
  mc_latency_prior_ms : Z; mc_model_family : string; mc_model_vendor : string; mc_architecture_class : string;
  mc_supports_reasoning : bool; mc_reasoning_levels : list string; mc_input_price : Z; mc_output_price : Z;
  mc_routing_enabled : bool }.

Record ModelUpdate := {
  mu_display_name : option string; mu_context_window : option Z; mu_max_output_tokens : option Z;
  mu_tokenizer_key : option string; mu_supports_tools : option bool; mu_supports_streaming : option bool;
  mu_supports_vision : option bool; mu_routing_tier : option Z; mu_quality_prior : option Z;
  mu_tool_reliability_prior : option Z; mu_latency_prior_ms : option Z; mu_model_family : option string;
  mu_model_vendor : option string; mu_architecture_class : option string; mu_supports_reasoning : option bool;
  mu_reasoning_levels : option (list string); mu_input_price : option Z; mu_output_price : option Z;
  mu_routing_enabled : option bool }.

Definition new_model (new_id : string) (body : ModelCreate) : Model := {|
  md_id := new_id; md_provider_key := mc_provider_key body; md_model_key := mc_model_key body;
  md_display_name := mc_display_name body; md_context_window := mc_context_window body;
  md_max_output_tokens := mc_max_output_tokens body; md_tokenizer_key := mc_tokenizer_key body;
  md_supports_tools := mc_supports_tools body; md_supports_streaming := mc_supports_streaming body;
  md_supports_vision := mc_supports_vision body; md_routing_tier := mc_routing_tier body;
  md_quality_prior := mc_quality_prior body; md_tool_reliability_prior := mc_tool_reliability_prior body;
  md_latency_prior_ms := mc_latency_prior_ms body; md_model_family := mc_model_family body;
  md_model_vendor := mc_model_vendor body; md_architecture_class := mc_architecture_class body;
  md_supports_reasoning := mc_supports_reasoning body; md_reasoning_levels := mc_reasoning_levels body;
  md_input_price := mc_input_price body; md_output_price := mc_output_price body;
  md_routing_enabled := mc_routing_enabled body; md_catalog_revision := 1; md_status := "draft"; md_version := 1;
  md_created_at := now |}.

Definition set_model (body : ModelUpdate) (m : Model) : Model := {|
  md_id := md_id m; md_provider_key := md_provider_key m; md_model_key := md_model_key m;
  md_display_name := default (md_display_name m) (mu_display_name body);
  md_context_window := default (md_context_window m) (mu_context_window body);
  md_max_output_tokens := default (md_max_output_tokens m) (mu_max_output_tokens body);
  md_tokenizer_key := default (md_tokenizer_key m) (mu_tokenizer_key body);
  md_supports_tools := default (md_supports_tools m) (mu_supports_tools body);
  md_supports_streaming := default (md_supports_streaming m) (mu_supports_streaming body);
  md_supports_vision := default (md_supports_vision m) (mu_supports_vision body);
  md_routing_tier := default (md_routing_tier m) (mu_routing_tier body);
  md_quality_prior := default (md_quality_prior m) (mu_quality_prior body);
  md_tool_reliability_prior := default (md_tool_reliability_prior m) (mu_tool_reliability_prior body);
  md_latency_prior_ms := default (md_latency_prior_ms m) (mu_latency_prior_ms body);
  md_model_family := default (md_model_family m) (mu_model_family body);
  md_model_vendor := default (md_model_vendor m) (mu_model_vendor body);
  md_architecture_class := default (md_architecture_class m) (mu_architecture_class body);
  md_supports_reasoning := default (md_supports_reasoning m) (mu_supports_reasoning body);
  md_reasoning_levels := default (md_reasoning_levels m) (mu_reasoning_levels body);
  md_input_price := default (md_input_price m) (mu_input_price body);
  md_output_price := default (md_output_price m) (mu_output_price body);
  md_routing_enabled := default (md_routing_enabled m) (mu_routing_enabled body);
  md_catalog_revision := md_catalog_revision m; md_status := md_status m; md_version := md_version m;
  md_created_at := md_created_at m |}.

Definition set_model_status (status : string) (version : Z) (m : Model) : Model := {|
  md_id := md_id m; md_provider_key := md_provider_key m; md_model_key := md_model_key m;
  md_display_name := md_display_name m; md_context_window := md_context_window m;
  md_max_output_tokens := md_max_output_tokens m; md_tokenizer_key := md_tokenizer_key m;
  md_supports_tools := md_supports_tools m; md_supports_streaming := md_supports_streaming m;
  md_supports_vision := md_supports_vision m; md_routing_tier := md_routing_tier m;
  md_quality_prior := md_quality_prior m; md_tool_reliability_prior := md_tool_reliability_prior m;
  md_latency_prior_ms := md_latency_prior_ms m; md_model_family := md_model_family m;
  md_model_vendor := md_model_vendor m; md_architecture_class := md_architecture_class m;
  md_supports_reasoning := md_supports_reasoning m; md_reasoning_levels := md_reasoning_levels m;
  md_input_price := md_input_price m; md_output_price := md_output_price m;
  md_routing_enabled := md_routing_enabled m; md_catalog_revision := md_catalog_revision m; md_status := status;
  md_version := version; md_created_at := md_created_at m |}.

(** [_validate_model_values] applied to an object that is not in the session yet. *)
(* [apps/backend-api/src/ibreeze_backend/catalog/service.py:357-374 create_model] *)
Definition create_model (new_id : string) (body : ModelCreate) : tx DB Model :=
  exists_ ← gets (λ db, existsb (λ m, (md_provider_key m =? mc_provider_key body) &&
    (md_model_key m =? mc_model_key body)) (models db));
  check (negb exists_) (ValueError "CATALOG_LOGICAL_KEY_EXISTS");;
  let '(outcome, resource) := _validate_model_values (new_model new_id body) in
  lift outcome;;
  insert_row resource;;
  mret resource.

(* [apps/backend-api/src/ibreeze_backend/catalog/service.py:377-379 get_model] *)
Definition get_model (resource_id : string) : tx DB (option Model) := select_one (at_id resource_id).

(* [apps/backend-api/src/ibreeze_backend/catalog/service.py:382-385 list_models] *)
Definition list_models (limit : Z) : tx DB (list Model) :=
  gets (λ db, limited limit (sort_by (λ a b, (md_created_at b <=? md_created_at a)%Z) (models db))).

(** An object of the session that was changed but not yet flushed: its row is written when the
    session commits, without a check until then. *)
Definition dirty {R} `{!Table DB R} `{!CatalogParent R} (r : R) : tx DB unit :=
  modify (λ db, set_rows (updated (at_id (cp_id r)) (λ _, r) (rows db)) db).

(* [apps/backend-api/src/ibreeze_backend/catalog/service.py:388-403 update_model] *)
Definition update_model (resource_id : string) (body : ModelUpdate) (expected_version : Z) : tx DB Model :=
  resource ← _locked resource_id;
  _assert_mutable resource;;
  _assert_version resource expected_version;;
  let '(outcome, changed) := _validate_model_values (set_model body resource) in
  match outcome with
  | Err e => dirty changed;; raise e
  | Ok _ =>
      let changed := set_model_status "draft" (md_version changed + 1) changed in
      update (at_id resource_id) (λ _, changed);;
      mret changed
  end.

(** [DELETE]: a binding of the model keeps it. *)
Definition delete_model_row (i : string) : tx DB unit :=
  bound ← gets (λ db, existsb (λ b, ab_model_id b =? i) (agent_bindings db) ||
    existsb (λ b, pb_model_id b =? i) (provider_bindings db));
  check (negb bound) (IntegrityErr "models");;
  delete_rows (R := Model) (at_id i);;
  mret tt.

(* [apps/backend-api/src/ibreeze_backend/catalog/service.py:406-413 delete_model] *)
Definition delete_model (resource_id : string) (expected_version : Z) : tx DB unit :=
  resource ← _locked (R := Model) resource_id;
  _assert_mutable resource;;
  _assert_version resource expected_version;;
  delete_model_row resource_id.

(* [apps/backend-api/src/ibreeze_backend/catalog/service.py:416-422 validate_model] *)
Definition validate_model (resource_id : string) : tx DB Model :=
  resource ← _locked resource_id;
  _assert_mutable resource;;
  let '(outcome, changed) := _validate_model_values resource in
  match outcome with
  | Err e => dirty changed;; raise e
  | Ok _ =>
      let changed := set_model_status "validated" (md_version changed) changed in
      update (at_id resource_id) (λ _, changed);;
      mret changed
  end.

(* [apps/backend-api/src/ibreeze_backend/catalog/service.py:438-463 clone_model_revision] *)
Definition copy_model (new_id : string) (revision : Z) (m : Model) : Model := {|
  md_id := new_id; md_provider_key := md_provider_key m; md_model_key := md_model_key m;
  md_display_name := md_display_name m; md_context_window := md_context_window m;
  md_max_output_tokens := md_max_output_tokens m; md_tokenizer_key := md_tokenizer_key m;
  md_supports_tools := md_supports_tools m; md_supports_streaming := md_supports_streaming m;
  md_supports_vision := md_supports_vision m; md_routing_tier := md_routing_tier m;
  md_quality_prior := md_quality_prior m; md_tool_reliability_prior := md_tool_reliability_prior m;
  md_latency_prior_ms := md_latency_prior_ms m; md_model_family := md_model_family m;
  md_model_vendor := md_model_vendor m; md_architecture_class := md_architecture_class m;
  md_supports_reasoning := md_supports_reasoning m; md_reasoning_levels := md_reasoning_levels m;
  md_input_price := md_input_price m; md_output_price := md_output_price m;
  md_routing_enabled := md_routing_enabled m; md_catalog_revision := revision; md_status := "draft";
  md_version := 1; md_created_at := now |}.

(* [apps/backend-api/src/ibreeze_backend/catalog/service.py:425-466 clone_model_revision] *)
Definition clone_model_revision (fresh : nat → string) (resource_id : string) : tx DB Model :=
  source ← _locked resource_id;
  check (md_status source =? "published") (ValueError "CATALOG_REVISION_SOURCE_NOT_PUBLISHED");;
  revision ← gets (λ db, max_revision (map md_catalog_revision (List.filter (λ m,
    (md_provider_key m =? md_provider_key source) && (md_model_key m =? md_model_key source)) (models db))) + 1);
  let clone := copy_model (fresh 0%nat) revision source in
  insert_row clone;;
  mret clone.

(** *** Providers *)

Section Providers.
Context (urlsplit : string → result Url) (internal_address : string → bool) (urlunsplit : string → string → string).
Notation _normalize_provider_url := (_normalize_provider_url urlsplit internal_address urlunsplit).

Definition set_provider (display_name protocol base_url auth_scheme : option string) (status : string) (version : Z)
    (p : Provider) : Provider := {|
  pv_id := pv_id p; pv_key := pv_key p; pv_display_name := default (pv_display_name p) display_name;
  pv_protocol := default (pv_protocol p) protocol; pv_base_url := default (pv_base_url p) base_url;
  pv_auth_scheme := default (pv_auth_scheme p) auth_scheme; pv_catalog_revision := pv_catalog_revision p;
  pv_status := status; pv_version := version; pv_created_at := pv_created_at p |}.

Definition provider_draft_again (p : Provider) : Provider :=
  set_provider None None None None "draft" (pv_version p + 1) p.

(* [apps/backend-api/src/ibreeze_backend/catalog/service.py:469-482 create_provider] *)
Definition create_provider (new_id key display_name protocol base_url auth_scheme : string) : tx DB Provider :=
  exists_ ← gets (λ db, existsb (λ p, pv_key p =? key) (providers db));
  check (negb exists_) (ValueError "CATALOG_LOGICAL_KEY_EXISTS");;
  url ← lift (_normalize_provider_url base_url);
  let resource := {| pv_id := new_id; pv_key := key; pv_display_name := display_name; pv_protocol := protocol;
    pv_base_url := url; pv_auth_scheme := auth_scheme; pv_catalog_revision := 1; pv_status := "draft";
    pv_version := 1; pv_created_at := now |} in
  insert_row resource;;
  mret resource.

(* [apps/backend-api/src/ibreeze_backend/catalog/service.py:485-487 get_provider] *)
Definition get_provider (resource_id : string) : tx DB (option Provider) := select_one (at_id resource_id).

(* [apps/backend-api/src/ibreeze_backend/catalog/service.py:490-495 list_providers] *)
Definition list_providers (limit : Z) : tx DB (list Provider) :=
  gets (λ db, limited limit (sort_by (λ a b, (pv_created_at b <=? pv_created_at a)%Z) (providers db))).

(* [apps/backend-api/src/ibreeze_backend/catalog/service.py:498-515 update_provider] *)
Definition update_provider (resource_id : string) (display_name protocol base_url auth_scheme : option string)
    (expected_version : Z) : tx DB Provider :=
  resource ← _locked resource_id;
  _assert_mutable resource;;
  _assert_version resource expected_version;;
  base_url ← match base_url with
    | Some u => u' ← lift (_normalize_provider_url u); mret (Some u')
    | None => mret None
    end;
  let changed := set_provider display_name protocol base_url auth_scheme "draft" (pv_version resource + 1) resource in
  update (at_id resource_id) (λ _, changed);;
  mret changed.

Definition delete_provider_row (i : string) (db : DB) : DB := {|
  agents := agents db; agent_versions := agent_versions db; models := models db;
  providers := List.filter (λ p, negb (pv_id p =? i)) (providers db); agent_bindings := agent_bindings db;
  provider_bindings := List.filter (λ b, negb (pb_provider_id b =? i)) (provider_bindings db) |}.

(* [apps/backend-api/src/ibreeze_backend/catalog/service.py:518-525 delete_provider] *)
Definition delete_provider (resource_id : string) (expected_version : Z) : tx DB unit :=
  resource ← _locked (R := Provider) resource_id;
  _assert_mutable resource;;
  _assert_version resource expected_version;;
  modify (delete_provider_row resource_id).

(* [apps/backend-api/src/ibreeze_backend/catalog/service.py:528-534 validate_provider] *)
Definition validate_provider (resource_id : string) : tx DB Provider :=
  resource ← _locked resource_id;
  _assert_mutable resource;;
  url ← lift (_normalize_provider_url (pv_base_url resource));
  let changed := set_provider None None (Some url) None "validated" (pv_version resource) resource in
  update (at_id resource_id) (λ _, changed);;
  mret changed.
End Providers.

(* [apps/backend-api/src/ibreeze_backend/catalog/service.py:565-572 clone_provider_revision] *)
Definition copy_provider_binding (provider_id new_id : string) (b : ProviderBinding) : ProviderBinding := {|
  pb_id := new_id; pb_provider_id := provider_id; pb_model_id := pb_model_id b;
  pb_provider_model_name := pb_provider_model_name b; pb_request_defaults := pb_request_defaults b;
  pb_created_at := now |}.

(* [apps/backend-api/src/ibreeze_backend/catalog/service.py:537-574 clone_provider_revision] *)
Definition clone_provider_revision (fresh : nat → string) (resource_id : string) : tx DB Provider :=
  source ← _locked resource_id;
  check (pv_status source =? "published") (ValueError "CATALOG_REVISION_SOURCE_NOT_PUBLISHED");;
  revision ← gets (λ db, max_revision (map pv_catalog_revision
    (List.filter (λ p, pv_key p =? pv_key source) (providers db))) + 1);
  let clone := {| pv_id := fresh 0%nat; pv_key := pv_key source; pv_display_name := pv_display_name source;
    pv_protocol := pv_protocol source; pv_base_url := pv_base_url source; pv_auth_scheme := pv_auth_scheme source;
    pv_catalog_revision := revision; pv_status := "draft"; pv_version := 1; pv_created_at := now |} in
  insert_row clone;;
  bindings ← select (λ b, pb_provider_id b =? pv_id source);
  insert_all (copy_provider_binding (pv_id clone)) (λ n, fresh (S n)) bindings;;
  mret clone.

(** *** Bindings *)

(** The range of a binding lies within one range of the agent. *)
Fixpoint covered (low high : string) (versions : list AgentVersion) : result bool :=
  match versions with
  | [] => Ok false
  | item :: rest =>
      a ← _semver (av_min_version item);
      b ← _semver low;
      c ← (if semver_le a b
           then d ← _semver high; e ← _semver (av_max_version_exclusive item); Ok (semver_le d e)
           else Ok false);
      if c : bool then Ok true else covered low high rest
  end.

(* [apps/backend-api/src/ibreeze_backend/catalog/service.py:577-600 create_agent_model_binding] *)
Definition create_agent_model_binding (new_id agent_id model_id low high : string) : tx DB AgentBinding :=
  agent ← _locked (R := Agent) agent_id;
  _assert_mutable agent;;
  model ← get_model model_id;
  found model (ValueError "MODEL_NOT_FOUND");;
  lift (_validate_range low high);;
  versions ← list_agent_versions agent_id;
  inside ← lift (covered low high versions);
  check inside (ValueError "AGENT_MODEL_BINDING_RANGE_INVALID");;
  let item := {| ab_id := new_id; ab_agent_id := agent_id; ab_model_id := model_id; ab_min_agent_version := low;
    ab_max_agent_version_exclusive := high; ab_created_at := now |} in
  insert_row item;;
  update (at_id agent_id) draft_again;;
  mret item.

(* [apps/backend-api/src/ibreeze_backend/catalog/service.py:603-608 list_all_agent_model_bindings] *)
Definition list_all_agent_model_bindings (limit : Z) : tx DB (list AgentBinding) :=
  gets (λ db, limited limit (sort_by (λ a b, (ab_created_at b <=? ab_created_at a)%Z) (agent_bindings db))).

(* [apps/backend-api/src/ibreeze_backend/catalog/service.py:611-616 list_all_provider_model_bindings] *)
Definition list_all_provider_model_bindings (limit : Z) : tx DB (list ProviderBinding) :=
  gets (λ db, limited limit (sort_by (λ a b, (pb_created_at b <=? pb_created_at a)%Z) (provider_bindings db))).

(* [apps/backend-api/src/ibreeze_backend/catalog/service.py:619-629 list_agent_model_bindings] *)
Definition list_agent_model_bindings (agent_id : string) : tx DB (list AgentBinding) :=
  gets (λ db, sort_by (λ a b, (ab_created_at a <=? ab_created_at b)%Z)
    (List.filter (λ b, ab_agent_id b =? agent_id) (agent_bindings db))).

(* [apps/backend-api/src/ibreeze_backend/catalog/service.py:632-652 delete_agent_model_binding] *)
Definition delete_agent_model_binding (agent_id binding_id : string) : tx DB unit :=
  agent ← _locked (R := Agent) agent_id;
  _assert_mutable agent;;
  item ← select_one (λ b, (ab_id b =? binding_id) && (ab_agent_id b =? agent_id));
  found item (ValueError "CATALOG_BINDING_NOT_FOUND");;
  delete_rows (λ b, ab_id b =? binding_id);;
  update (at_id agent_id) draft_again;;
  mret tt.

(* [apps/backend-api/src/ibreeze_backend/catalog/service.py:49-58 _FORBIDDEN_REQUEST_KEYS] *)
Definition _FORBIDDEN_REQUEST_KEYS : list string :=
  ["model"; "stream"; "tools"; "messages"; "input"; "authorization"; "api_key"; "url"].

(* [apps/backend-api/src/ibreeze_backend/catalog/service.py:655-672 create_provider_model_binding] *)
Definition create_provider_model_binding (new_id provider_id model_id provider_model_name : string)
    (request_defaults : list (string * json)) : tx DB ProviderBinding :=
  provider ← _locked (R := Provider) provider_id;
  _assert_mutable provider;;
  model ← get_model model_id;
  found model (ValueError "MODEL_NOT_FOUND");;
  check (negb (existsb (λ key, key ∈? _FORBIDDEN_REQUEST_KEYS) (map (λ kv, lower kv.1) request_defaults)))
    (ValueError "PROVIDER_REQUEST_DEFAULTS_FORBIDDEN");;
  let item := {| pb_id := new_id; pb_provider_id := provider_id; pb_model_id := model_id;
    pb_provider_model_name := provider_model_name; pb_request_defaults := request_defaults; pb_created_at := now |} in
  insert_row item;;
  update (at_id provider_id) provider_draft_again;;
  mret item.

(* [apps/backend-api/src/ibreeze_backend/catalog/service.py:675-685 list_provider_model_bindings] *)
Definition list_provider_model_bindings (provider_id : string) : tx DB (list ProviderBinding) :=
  gets (λ db, sort_by (λ a b, (pb_created_at a <=? pb_created_at b)%Z)
    (List.filter (λ b, pb_provider_id b =? provider_id) (provider_bindings db))).

(* [apps/backend-api/src/ibreeze_backend/catalog/service.py:688-708 delete_provider_model_binding] *)
Definition delete_provider_model_binding (provider_id binding_id : string) : tx DB unit :=
  provider ← _locked (R := Provider) provider_id;
  _assert_mutable provider;;
  item ← select_one (λ b, (pb_id b =? binding_id) && (pb_provider_id b =? provider_id));
  found item (ValueError "CATALOG_BINDING_NOT_FOUND");;
  delete_rows (λ b, pb_id b =? binding_id);;
  update (at_id provider_id) provider_draft_again;;
  mret tt.
End Service.
