(* ===== verification/CatalogRequests.v ===== *)
(** * Requests to the catalog

    [catalog/router.py] with the bodies of [catalog/schemas.py]: every request that changes the
    catalog, in the session that the idempotency middleware commits whatever the answer is; and what
    holds of the catalog over all of them. *)

From S2P Require Import Prelude PyOrder PyStr PyText Sql SemVer BackendAuth Catalog.

(** ** Bodies *)

Definition long (lo hi : Z) (s : string) : bool := (lo <=? py_len s)%Z && (py_len s <=? hi)%Z.
Definition opt_long (lo hi : Z) (o : option string) : bool := match o with Some s => long lo hi s | None => true end.
Definition opt_ok {A} (f : A → bool) (o : option A) : bool := match o with Some a => f a | None => true end.

(** [^[a-z0-9][a-z0-9_-]*$] *)
Definition key_pattern (s : string) : bool :=
  let alnum c := let n := ascii_code c in between 48 57 n || between 97 122 n in
  match chars s with
  | [] => false
  | c :: l => alnum c && forallb (λ c, alnum c || (c =? "_") || (c =? "-")) l
  end.

(* [apps/backend-api/src/ibreeze_backend/catalog/schemas.py:17-20 AgentCreate] *)
Definition AgentCreate_ok (key display_name description : string) : bool :=
  long 1 64 key && key_pattern key && long 1 100 display_name && long 1 20000 description.

(* [apps/backend-api/src/ibreeze_backend/catalog/schemas.py:23-25 AgentUpdate] *)
Definition AgentUpdate_ok (display_name description : option string) : bool :=
  opt_long 1 100 display_name && opt_long 1 20000 description.

(* [apps/backend-api/src/ibreeze_backend/catalog/schemas.py:41-49 AgentVersionCreate] *)
Definition AgentVersionCreate_ok (b : AgentVersionCreate) : bool :=
  long 1 64 (vc_min_version b) && long 1 64 (vc_max_version_exclusive b) &&
  negb (Nat.eqb (length (vc_executable_names b)) 0) && negb (Nat.eqb (length (vc_supported_platforms b)) 0) &&
  negb (Nat.eqb (length (vc_probe_argv b)) 0) && (1 <=? vc_adapter_contract_version b)%Z.

(** A prior with at most four decimals. *)
Definition prior_ok (n : Z) : bool := (0 <=? n)%Z && (n <=? 10000)%Z.
Definition ARCHITECTURES : list string := ["dense"; "moe"; "hybrid"; "unknown"].
Definition LEVELS : list string := ["low"; "medium"; "high"].

(* [apps/backend-api/src/ibreeze_backend/catalog/schemas.py:92-98 normalize_reasoning_levels] *)
Definition normalize_reasoning_levels (value : list string) : option (list string) :=
  if forallb (λ l, l ∈? LEVELS) value && bool_decide (NoDup value)
  then Some (List.filter (λ l, l ∈? value) LEVELS) else None.

Section Bodies.
Context (lower : string → string).

(* [apps/backend-api/src/ibreeze_backend/catalog/schemas.py:84-90 normalize_identity] *)
Definition normalize_identity (value : string) : option string :=
  if long 1 100 value then
    let normalized := lower (strip value) in if normalized =? "" then None else Some normalized
  else None.

(** A field that may be missing. *)
Definition optional {A} (f : A → option A) (o : option A) : option (option A) :=
  match o with None => Some None | Some a => Some <$> f a end.

(* [apps/backend-api/src/ibreeze_backend/catalog/schemas.py:61-107 ModelCreate] *)
Definition ModelCreate_valid (b : ModelCreate) : option ModelCreate :=
  if long 1 64 (mc_provider_key b) && long 1 200 (mc_model_key b) && long 1 100 (mc_display_name b) &&
    (8192 <=? mc_context_window b)%Z && (1 <=? mc_max_output_tokens b)%Z && long 1 100 (mc_tokenizer_key b) &&
    between 0 3 (mc_routing_tier b) && prior_ok (mc_quality_prior b) && prior_ok (mc_tool_reliability_prior b) &&
    (0 <? mc_latency_prior_ms b)%Z && (mc_architecture_class b ∈? ARCHITECTURES) &&
    (0 <=? mc_input_price b)%Z && (0 <=? mc_output_price b)%Z
  then
    family ← normalize_identity (mc_model_family b);
    vendor ← normalize_identity (mc_model_vendor b);
    levels ← normalize_reasoning_levels (mc_reasoning_levels b);
    if negb (mc_supports_reasoning b) && negb (Nat.eqb (length levels) 0) then None
    else if mc_routing_enabled b && ((family =? "unknown") || (vendor =? "unknown")) then None
    else Some {|
      mc_provider_key := mc_provider_key b; mc_model_key := mc_model_key b; mc_display_name := mc_display_name b;
      mc_context_window := mc_context_window b; mc_max_output_tokens := mc_max_output_tokens b;
      mc_tokenizer_key := mc_tokenizer_key b; mc_supports_tools := mc_supports_tools b;
      mc_supports_streaming := mc_supports_streaming b; mc_supports_vision := mc_supports_vision b;
      mc_routing_tier := mc_routing_tier b; mc_quality_prior := mc_quality_prior b;
      mc_tool_reliability_prior := mc_tool_reliability_prior b; mc_latency_prior_ms := mc_latency_prior_ms b;
      mc_model_family := family; mc_model_vendor := vendor; mc_architecture_class := mc_architecture_class b;
      mc_supports_reasoning := mc_supports_reasoning b; mc_reasoning_levels := levels;
      mc_input_price := mc_input_price b; mc_output_price := mc_output_price b;
      mc_routing_enabled := mc_routing_enabled b |}
  else None.

(* [apps/backend-api/src/ibreeze_backend/catalog/schemas.py:111-154 ModelUpdate] *)
Definition ModelUpdate_valid (b : ModelUpdate) : option ModelUpdate :=
  if opt_long 1 100 (mu_display_name b) && opt_ok (λ n, 8192 <=? n)%Z (mu_context_window b) &&
    opt_ok (λ n, 1 <=? n)%Z (mu_max_output_tokens b) && opt_long 1 100 (mu_tokenizer_key b) &&
    opt_ok (between 0 3) (mu_routing_tier b) && opt_ok prior_ok (mu_quality_prior b) &&
    opt_ok prior_ok (mu_tool_reliability_prior b) && opt_ok (λ n, 0 <? n)%Z (mu_latency_prior_ms b) &&
    opt_ok (λ a, a ∈? ARCHITECTURES) (mu_architecture_class b) &&
    opt_ok (λ n, 0 <=? n)%Z (mu_input_price b) && opt_ok (λ n, 0 <=? n)%Z (mu_output_price b)
  then
    family ← optional normalize_identity (mu_model_family b);
    vendor ← optional normalize_identity (mu_model_vendor b);
    levels ← optional normalize_reasoning_levels (mu_reasoning_levels b);
    Some {|
      mu_display_name := mu_display_name b; mu_context_window := mu_context_window b;
      mu_max_output_tokens := mu_max_output_tokens b; mu_tokenizer_key := mu_tokenizer_key b;
      mu_supports_tools := mu_supports_tools b; mu_supports_streaming := mu_supports_streaming b;
      mu_supports_vision := mu_supports_vision b; mu_routing_tier := mu_routing_tier b;
      mu_quality_prior := mu_quality_prior b; mu_tool_reliability_prior := mu_tool_reliability_prior b;
      mu_latency_prior_ms := mu_latency_prior_ms b; mu_model_family := family; mu_model_vendor := vendor;
      mu_architecture_class := mu_architecture_class b; mu_supports_reasoning := mu_supports_reasoning b;
      mu_reasoning_levels := levels; mu_input_price := mu_input_price b; mu_output_price := mu_output_price b;
      mu_routing_enabled := mu_routing_enabled b |}
  else None.
End Bodies.

Definition PROTOCOLS : list string := ["openai_responses"; "anthropic_messages"; "openai_chat_completions"].
Definition AUTH_SCHEMES : list string := ["bearer"; "x-api-key"].

(* [apps/backend-api/src/ibreeze_backend/catalog/schemas.py:167-176 ProviderCreate] *)
Definition ProviderCreate_ok (key display_name protocol base_url auth_scheme : string) : bool :=
  long 1 64 key && key_pattern key && long 1 100 display_name && (protocol ∈? PROTOCOLS) &&
  long 1 2048 base_url && (auth_scheme ∈? AUTH_SCHEMES).

(* [apps/backend-api/src/ibreeze_backend/catalog/schemas.py:179-187 ProviderUpdate] *)
Definition ProviderUpdate_ok (display_name protocol base_url auth_scheme : option string) : bool :=
  opt_long 1 100 display_name && opt_ok (λ p, p ∈? PROTOCOLS) protocol && opt_long 1 2048 base_url &&
  opt_ok (λ a, a ∈? AUTH_SCHEMES) auth_scheme.

(* [apps/backend-api/src/ibreeze_backend/catalog/schemas.py:200-203 AgentModelBindingCreate] *)
Definition AgentModelBindingCreate_ok (low high : string) : bool := long 1 64 low && long 1 64 high.

(** ** The endpoints *)

(* [apps/backend-api/src/ibreeze_backend/catalog/router.py:77-87 _if_match] *)
Definition _if_match (value : option string) : result Z :=
  match value with
  | None => Err (problem "IF_MATCH_REQUIRED")
  | Some v =>
      match py_int 10 (strip_set (bytes [34%nat]) v) with
      | None => Err (problem "IF_MATCH_INVALID")
      | Some parsed => if (parsed <? 1)%Z then Err (problem "IF_MATCH_INVALID") else Ok parsed
      end
  end.

(** A refusal of the service becomes a problem with the same code, which the idempotency middleware
    answers and commits; every other exception rolls the session back. *)
(* [apps/backend-api/src/ibreeze_backend/catalog/router.py:90-105 _call] *)
Definition _call {A} (operation : tx Catalog.DB A) : tx Catalog.DB A := λ db,
  match operation db with
  | (Err (ValueError code), db') => (Err (problem code), db')
  | r => r
  end.

(** What the commit writes for the objects that were changed and not flushed. *)
Definition flush_ok (db : Catalog.DB) : bool := forallb row_ok (models db).

Definition shared {A} (m : tx Catalog.DB A) (db : Catalog.DB) : result A * Catalog.DB :=
  match m db with
  | (Ok a, db') => (Ok a, db')
  | (Err (ValueError c), db') => if flush_ok db' then (Err (ValueError c), db') else (Err (IntegrityErr "models"), db)
  | (Err e, _) => (Err e, db)
  end.

(** A body that pydantic refuses reaches no endpoint. *)
Definition INVALID_BODY : exn := problem "RequestValidationError".

Inductive CatalogRequest : Type :=
| CreateAgent (new_id key display_name description : string)
| UpdateAgent (id : string) (display_name description : option string) (if_match : option string)
| DeleteAgent (id : string) (if_match : option string)
| ValidateAgent (id : string)
| CloneAgent (fresh : nat → string) (id : string)
| CreateAgentVersion (new_id id : string) (body : AgentVersionCreate)
| DeleteAgentVersion (id version_id : string)
| CreateAgentBinding (new_id id model_id low high : string)
| DeleteAgentBinding (id binding_id : string)
| CreateModel (new_id : string) (body : ModelCreate)
| UpdateModel (id : string) (body : ModelUpdate) (if_match : option string)
| DeleteModel (id : string) (if_match : option string)
| ValidateModel (id : string)
| CloneModel (fresh : nat → string) (id : string)
| CreateProvider (new_id key display_name protocol base_url auth_scheme : string)
| UpdateProvider (id : string) (display_name protocol base_url auth_scheme : option string) (if_match : option string)
| DeleteProvider (id : string) (if_match : option string)
| ValidateProvider (id : string)
| CloneProvider (fresh : nat → string) (id : string)
| CreateProviderBinding (new_id id model_id provider_model_name : string) (request_defaults : list (string * json))
| DeleteProviderBinding (id binding_id : string).

Section Endpoints.
Context `{SqlLower} (decimal : string → option Z) (lower : string → string) (idna : string → result string)
  (digest : json → string) (urlsplit : string → result Url) (internal_address : string → bool)
  (urlunsplit : string → string → string).
Context (accounts : BackendAuth.DB) (claims : option Claims) (now : Z).

Notation normal_url f := (f urlsplit internal_address urlunsplit) (only parsing).

(* [apps/backend-api/src/ibreeze_backend/catalog/router.py:118-127 create_agent_endpoint] *)
Definition create_agent_endpoint (new_id key display_name description : string) : tx Catalog.DB Agent :=
  check (AgentCreate_ok key display_name description) INVALID_BODY;;
  _call (create_agent now new_id key display_name description).

(* [apps/backend-api/src/ibreeze_backend/catalog/router.py:156-167 update_agent_endpoint] *)
Definition update_agent_endpoint (i : string) (display_name description if_match : option string) : tx Catalog.DB Agent :=
  check (AgentUpdate_ok display_name description) INVALID_BODY;;
  expected ← lift (_if_match if_match);
  _call (update_agent i display_name description expected).

(* [apps/backend-api/src/ibreeze_backend/catalog/router.py:170-180 delete_agent_endpoint] *)
Definition delete_agent_endpoint (i : string) (if_match : option string) : tx Catalog.DB unit :=
  expected ← lift (_if_match if_match);
  _call (delete_agent i expected).

(* [apps/backend-api/src/ibreeze_backend/catalog/router.py:183-192 validate_agent_endpoint] *)
Definition validate_agent_endpoint (i : string) : tx Catalog.DB Agent := _call (validate_agent decimal lower idna i).

(* [apps/backend-api/src/ibreeze_backend/catalog/router.py:195-210 clone_agent_endpoint] *)
Definition clone_agent_endpoint (fresh : nat → string) (i : string) : tx Catalog.DB Agent :=
  _call (clone_agent_revision now fresh i).

(* [apps/backend-api/src/ibreeze_backend/catalog/router.py:213-229 create_agent_version_endpoint] *)
Definition create_agent_version_endpoint (new_id i : string) (body : AgentVersionCreate) : tx Catalog.DB AgentVersion :=
  check (AgentVersionCreate_ok body) INVALID_BODY;;
  _call (create_agent_version decimal lower idna digest now new_id i body).

(* [apps/backend-api/src/ibreeze_backend/catalog/router.py:244-257 delete_agent_version_endpoint] *)
Definition delete_agent_version_endpoint (i version_id : string) : tx Catalog.DB unit :=
  _call (delete_agent_version i version_id).

(* [apps/backend-api/src/ibreeze_backend/catalog/router.py:260-276 create_agent_binding_endpoint] *)
Definition create_agent_binding_endpoint (new_id i model_id low high : string) : tx Catalog.DB AgentBinding :=
  check (AgentModelBindingCreate_ok low high) INVALID_BODY;;
  _call (create_agent_model_binding decimal now new_id i model_id low high).

(* [apps/backend-api/src/ibreeze_backend/catalog/router.py:294-307 delete_agent_binding_endpoint] *)
Definition delete_agent_binding_endpoint (i binding_id : string) : tx Catalog.DB unit :=
  _call (delete_agent_model_binding i binding_id).

(* [apps/backend-api/src/ibreeze_backend/catalog/router.py:310-319 create_model_endpoint] *)
Definition create_model_endpoint (new_id : string) (body : ModelCreate) : tx Catalog.DB Model :=
  body ← found (ModelCreate_valid lower body) INVALID_BODY;
  _call (create_model lower now new_id body).

(* [apps/backend-api/src/ibreeze_backend/catalog/router.py:348-361 update_model_endpoint] *)
Definition update_model_endpoint (i : string) (body : ModelUpdate) (if_match : option string) : tx Catalog.DB Model :=
  body ← found (ModelUpdate_valid lower body) INVALID_BODY;
  expected ← lift (_if_match if_match);
  _call (update_model lower i body expected).

(* [apps/backend-api/src/ibreeze_backend/catalog/router.py:364-374 delete_model_endpoint] *)
Definition delete_model_endpoint (i : string) (if_match : option string) : tx Catalog.DB unit :=
  expected ← lift (_if_match if_match);
  _call (delete_model i expected).

(* [apps/backend-api/src/ibreeze_backend/catalog/router.py:377-386 validate_model_endpoint] *)
Definition validate_model_endpoint (i : string) : tx Catalog.DB Model := _call (validate_model lower i).

(* [apps/backend-api/src/ibreeze_backend/catalog/router.py:389-404 clone_model_endpoint] *)
Definition clone_model_endpoint (fresh : nat → string) (i : string) : tx Catalog.DB Model :=
  _call (clone_model_revision now fresh i).

(* [apps/backend-api/src/ibreeze_backend/catalog/router.py:407-420 create_provider_endpoint] *)
Definition create_provider_endpoint (new_id key display_name protocol base_url auth_scheme : string) : tx Catalog.DB Provider :=
  check (ProviderCreate_ok key display_name protocol base_url auth_scheme) INVALID_BODY;;
  _call (normal_url (create_provider lower idna now) new_id key display_name protocol base_url auth_scheme).

(* [apps/backend-api/src/ibreeze_backend/catalog/router.py:449-464 update_provider_endpoint] *)
Definition update_provider_endpoint (i : string) (display_name protocol base_url auth_scheme if_match : option string)
    : tx Catalog.DB Provider :=
  check (ProviderUpdate_ok display_name protocol base_url auth_scheme) INVALID_BODY;;
  expected ← lift (_if_match if_match);
  _call (normal_url (update_provider lower idna) i display_name protocol base_url auth_scheme expected).

(* [apps/backend-api/src/ibreeze_backend/catalog/router.py:467-477 delete_provider_endpoint] *)
Definition delete_provider_endpoint (i : string) (if_match : option string) : tx Catalog.DB unit :=
  expected ← lift (_if_match if_match);
  _call (delete_provider i expected).

(* [apps/backend-api/src/ibreeze_backend/catalog/router.py:480-491 validate_provider_endpoint] *)
Definition validate_provider_endpoint (i : string) : tx Catalog.DB Provider :=
  _call (normal_url (validate_provider lower idna) i).

(* [apps/backend-api/src/ibreeze_backend/catalog/router.py:494-509 clone_provider_endpoint] *)
Definition clone_provider_endpoint (fresh : nat → string) (i : string) : tx Catalog.DB Provider :=
  _call (clone_provider_revision now fresh i).

(* [apps/backend-api/src/ibreeze_backend/catalog/router.py:512-528 create_provider_binding_endpoint] *)
Definition create_provider_binding_endpoint (new_id i model_id provider_model_name : string)
    (request_defaults : list (string * json)) : tx Catalog.DB ProviderBinding :=
  check (long 1 200 provider_model_name) INVALID_BODY;;
  _call (create_provider_model_binding lower now new_id i model_id provider_model_name request_defaults).

(* [apps/backend-api/src/ibreeze_backend/catalog/router.py:549-568 delete_provider_binding_endpoint] *)
Definition delete_provider_binding_endpoint (i binding_id : string) : tx Catalog.DB unit :=
  _call (delete_provider_model_binding i binding_id).

(** The current user first, then the endpoint. *)
Definition admitted {A} (m : tx Catalog.DB A) (db : Catalog.DB) : Catalog.DB :=
  match fst (get_current_user claims ADMIN_AUDIENCE false true accounts) with
  | Err _ => db
  | Ok _ => snd (shared m db)
  end.

(** The catalog after a request. *)
Definition serve_catalog (r : CatalogRequest) : Catalog.DB → Catalog.DB :=
  match r with
  | CreateAgent n k d t => admitted (create_agent_endpoint n k d t)
  | UpdateAgent i d t v => admitted (update_agent_endpoint i d t v)
  | DeleteAgent i v => admitted (delete_agent_endpoint i v)
  | ValidateAgent i => admitted (validate_agent_endpoint i)
  | CloneAgent f i => admitted (clone_agent_endpoint f i)
  | CreateAgentVersion n i b => admitted (create_agent_version_endpoint n i b)
  | DeleteAgentVersion i v => admitted (delete_agent_version_endpoint i v)
  | CreateAgentBinding n i m l h => admitted (create_agent_binding_endpoint n i m l h)
  | DeleteAgentBinding i b => admitted (delete_agent_binding_endpoint i b)
  | CreateModel n b => admitted (create_model_endpoint n b)
  | UpdateModel i b v => admitted (update_model_endpoint i b v)
  | DeleteModel i v => admitted (delete_model_endpoint i v)
  | ValidateModel i => admitted (validate_model_endpoint i)
  | CloneModel f i => admitted (clone_model_endpoint f i)
  | CreateProvider n k d p u a => admitted (create_provider_endpoint n k d p u a)
  | UpdateProvider i d p u a v => admitted (update_provider_endpoint i d p u a v)
  | DeleteProvider i v => admitted (delete_provider_endpoint i v)
  | ValidateProvider i => admitted (validate_provider_endpoint i)
  | CloneProvider f i => admitted (clone_provider_endpoint f i)
  | CreateProviderBinding n i m p d => admitted (create_provider_binding_endpoint n i m p d)
  | DeleteProviderBinding i b => admitted (delete_provider_binding_endpoint i b)
  end.
End Endpoints.

(** ** An administrator *)

Module Demo.
#[export] Instance same : SqlLower := λ s, s.

Definition root : User := {|
  us_id := "root"; us_user_type := "admin"; us_username := Some "root"; us_email := None; us_password_hash := "h";
  us_display_name := "root"; us_status := "active"; us_protected := true; us_must_change_password := false;
  us_failed_login_count := 0; us_locked_until := None; us_last_login_at := None; us_version := 1; us_updated_at := 0 |}.
Definition accounts : BackendAuth.DB := {| users := [root];
  families := [{| fm_id := "f1"; fm_user_id := "root"; fm_device_id := "d1"; fm_created_at := 0; fm_last_used_at := 0;
    fm_revoked_at := None; fm_revoke_reason := None |}]; tokens := [] |}.
Definition token : option Claims := Some {|
  cl_aud := ADMIN_AUDIENCE; cl_sub := "root"; cl_user_type := "admin"; cl_sid := "f1"; cl_iat := 0; cl_nbf := 0;
  cl_exp := 900; cl_pwd_change_required := false; cl_type := None |}.

(** [https://host/path] *)
Definition split_url (s : string) : result Url :=
  match split_on (Ascii.ascii_of_nat 47) s with
  | scheme :: _ :: host :: _ => Ok {|
      ur_scheme := String.substring 0 (String.length scheme - 1) scheme; ur_hostname := Some host;
      ur_username := None; ur_password := None; ur_query := ""; ur_fragment := ""; ur_port := Ok None; ur_path := "" |}
  | _ => Err (ValueError "no URL")
  end.

Definition serve (r : CatalogRequest) : Catalog.DB → Catalog.DB :=
  serve_catalog ascii_decimal (λ s, s) Ok (λ _, "digest") split_url (λ h, h =? "10.0.0.1")
    (λ host path, "https://" +:+ host +:+ path) accounts token 7 r.

Definition empty : Catalog.DB := {|
  agents := []; agent_versions := []; models := []; providers := []; agent_bindings := []; provider_bindings := [] |}.

Definition range (low high : string) (platforms : list string) : AgentVersionCreate := {|
  vc_min_version := low; vc_max_version_exclusive := high; vc_executable_names := ["codex"];
  vc_supported_platforms := platforms; vc_probe_argv := ["codex"]; vc_capability_tags := []; vc_network_domains := ["api.openai.com"];
  vc_adapter_contract_version := 1 |}.

(** Two ranges that meet on no platform are validated; a third that meets one of them is not. *)
Definition one_agent : Catalog.DB :=
  fold_left (λ db r, serve r db)
    [CreateAgent "a1" "codex_cli" "Codex" "An agent"; CreateAgentVersion "v1" "a1" (range "1.0.0" "2.0.0" ["mac"]);
     CreateAgentVersion "v2" "a1" (range "1.5.0" "3.0.0" ["linux"]); ValidateAgent "a1"] empty.
Example one_agent_valid : map ag_status (agents one_agent) = ["validated"] ∧
  map ag_status (agents (serve (ValidateAgent "a1")
    (serve (CreateAgentVersion "v3" "a1" (range "1.9.0" "2.1.0" ["mac"])) one_agent))) = ["draft"].
Proof. vm_compute. split; reflexivity. Qed.

Definition gpt (output : Z) : ModelCreate := {|
  mc_provider_key := "openai"; mc_model_key := "gpt"; mc_display_name := "GPT"; mc_context_window := 32000;
  mc_max_output_tokens := output; mc_tokenizer_key := "o200k"; mc_supports_tools := true; mc_supports_streaming := true;
  mc_supports_vision := false; mc_routing_tier := 1; mc_quality_prior := 8000; mc_tool_reliability_prior := 9000;
  mc_latency_prior_ms := 1200; mc_model_family := "gpt"; mc_model_vendor := "openai"; mc_architecture_class := "dense";
  mc_supports_reasoning := false; mc_reasoning_levels := []; mc_input_price := 1; mc_output_price := 1;
  mc_routing_enabled := false |}.
Definition set_output (n : Z) : ModelUpdate := {|
  mu_display_name := None; mu_context_window := None; mu_max_output_tokens := Some n; mu_tokenizer_key := None;
  mu_supports_tools := None; mu_supports_streaming := None; mu_supports_vision := None; mu_routing_tier := None;
  mu_quality_prior := None; mu_tool_reliability_prior := None; mu_latency_prior_ms := None; mu_model_family := None;
  mu_model_vendor := None; mu_architecture_class := None; mu_supports_reasoning := None; mu_reasoning_levels := None;
  mu_input_price := None; mu_output_price := None; mu_routing_enabled := None |}.

Definition one_model : Catalog.DB := fold_left (λ db r, serve r db) [CreateModel "m1" (gpt 8000); ValidateModel "m1"] empty.
Definition shown (db : Catalog.DB) := map (λ m, (md_status m, md_version m, md_max_output_tokens m)) (models db).

(** An update that is refused with MODEL_CAPABILITY_INVALID is stored all the same, and the model
    stays validated at its version. *)
Lemma refused_update_is_kept :
  shown one_model = [("validated", 1, 8000)] ∧
  fst (update_model_endpoint (λ s, s) "m1" (set_output 30000) (Some "1") one_model) =
    Err (problem "MODEL_CAPABILITY_INVALID") ∧
  shown (serve (UpdateModel "m1" (set_output 30000) (Some "1")) one_model) = [("validated", 1, 30000)].
Proof. vm_compute. split_and!; reflexivity. Qed.
End Demo.
