(* ===== verification/CatalogProperties.v ===== *)
(** * What holds of the catalog

    Over every request the published part of the catalog does not change, neither by losing a
    revision nor by gaining one.  [Frozen] follows single writes, [triple] carries what it says
    through an operation and its failures. *)

From S2P Require Import Prelude PyOrder PyStr PyText Sql SemVer BackendAuth Catalog CatalogRequests.

#[local] Notation CDB := Catalog.DB.

(** ** Lists *)

Lemma filter_updated_same {A} (p q : A → bool) f l :
  (∀ a, a ∈ l → q a = true → p a = false ∧ p (f a) = false) → List.filter p (updated q f l) = List.filter p l.
Proof.
  intros H. induction l as [|a l IH]; [done|]. simpl. rewrite IH by (intros x Hx; apply H; by right).
  destruct (q a) eqn:Hq; [|done]. destruct (H a ltac:(left) Hq) as [-> ->]. done.
Qed.

Lemma filter_filter_same {A} (p q : A → bool) l :
  (∀ a, a ∈ l → p a = true → q a = true) → List.filter p (List.filter q l) = List.filter p l.
Proof.
  intros H. induction l as [|a l IH]; [done|]. simpl. specialize (IH (λ x Hx, H x (list_elem_of_further _ _ _ Hx))).
  destruct (q a) eqn:Hq; simpl; [by rewrite IH|]. rewrite IH. destruct (p a) eqn:Hp; [|done].
  rewrite (H a) in Hq; [done|left|done].
Qed.

Lemma filter_snoc {A} (p : A → bool) l a : p a = false → List.filter p (l ++ [a]) = List.filter p l.
Proof. intros H. rewrite List.filter_app. simpl. by rewrite H, app_nil_r. Qed.

(** ** The published part *)

Section Pub.
Context {R : Type} `{!Table CDB R} `{!CatalogParent R}.
Definition pub (r : R) : bool := cp_status r =? "published".
Definition pub_ids (l : list R) : list string := map cp_id (List.filter pub l).
Definition unpublished (i : string) (l : list R) : Prop := ∀ r, r ∈ l → cp_id r = i → pub r = false.

Lemma unpublished_ids i l : unpublished i l → (i ∈? pub_ids l) = false.
Proof.
  intros H. apply bool_decide_eq_false. intros (r & -> & Hr)%list_elem_of_fmap.
  apply list_elem_of_In, filter_In in Hr as [Hr%list_elem_of_In Hp]. by rewrite (H r Hr eq_refl) in Hp.
Qed.
End Pub.

Record Published := {
  p_agents : list Agent; p_versions : list AgentVersion; p_models : list Model; p_providers : list Provider;
  p_agent_bindings : list AgentBinding; p_provider_bindings : list ProviderBinding }.

(** The published revisions with what belongs to them. *)
Definition published_part (db : CDB) : Published := {|
  p_agents := List.filter pub (agents db);
  p_versions := List.filter (λ v, av_agent_id v ∈? pub_ids (agents db)) (agent_versions db);
  p_models := List.filter pub (models db);
  p_providers := List.filter pub (providers db);
  p_agent_bindings := List.filter (λ b, ab_agent_id b ∈? pub_ids (agents db)) (agent_bindings db);
  p_provider_bindings := List.filter (λ b, pb_provider_id b ∈? pub_ids (providers db)) (provider_bindings db) |}.

(** No two rows that a unique constraint forbids together. *)
Definition unique_rows (db : CDB) : Prop :=
  no_clash (agents db) = true ∧ no_clash (agent_versions db) = true ∧ no_clash (models db) = true ∧
  no_clash (providers db) = true ∧ no_clash (agent_bindings db) = true ∧ no_clash (provider_bindings db) = true.

Section Frozen.
Context (part : Published).

Definition good (db : CDB) : Prop := unique_rows db ∧ published_part db = part.

Lemma good_agents db l : good db → no_clash (DB := CDB) l = true → List.filter pub l = List.filter pub (agents db) →
  good (set_rows l db).
Proof.
  intros [(H1 & H2 & H3 & H4 & H5 & H6) Hp] Hc Hl. split; [by split_and!|]. rewrite <- Hp. unfold published_part, pub_ids.
  simpl. by rewrite Hl.
Qed.
Lemma good_models db l : good db → no_clash (DB := CDB) l = true → List.filter pub l = List.filter pub (models db) →
  good (set_rows l db).
Proof.
  intros [(H1 & H2 & H3 & H4 & H5 & H6) Hp] Hc Hl. split; [by split_and!|]. rewrite <- Hp. unfold published_part. simpl. by rewrite Hl.
Qed.
Lemma good_providers db l : good db → no_clash (DB := CDB) l = true → List.filter pub l = List.filter pub (providers db) →
  good (set_rows l db).
Proof.
  intros [(H1 & H2 & H3 & H4 & H5 & H6) Hp] Hc Hl. split; [by split_and!|]. rewrite <- Hp. unfold published_part, pub_ids.
  simpl. by rewrite Hl.
Qed.
Lemma good_versions db l : good db → no_clash (DB := CDB) l = true →
  List.filter (λ v, av_agent_id v ∈? pub_ids (agents db)) l =
    List.filter (λ v, av_agent_id v ∈? pub_ids (agents db)) (agent_versions db) → good (set_rows l db).
Proof.
  intros [(H1 & H2 & H3 & H4 & H5 & H6) Hp] Hc Hl. split; [by split_and!|]. rewrite <- Hp. unfold published_part. simpl. by rewrite Hl.
Qed.
Lemma good_agent_bindings db l : good db → no_clash (DB := CDB) l = true →
  List.filter (λ b, ab_agent_id b ∈? pub_ids (agents db)) l =
    List.filter (λ b, ab_agent_id b ∈? pub_ids (agents db)) (agent_bindings db) → good (set_rows l db).
Proof.
  intros [(H1 & H2 & H3 & H4 & H5 & H6) Hp] Hc Hl. split; [by split_and!|]. rewrite <- Hp. unfold published_part. simpl. by rewrite Hl.
Qed.
Lemma good_provider_bindings db l : good db → no_clash (DB := CDB) l = true →
  List.filter (λ b, pb_provider_id b ∈? pub_ids (providers db)) l =
    List.filter (λ b, pb_provider_id b ∈? pub_ids (providers db)) (provider_bindings db) → good (set_rows l db).
Proof.
  intros [(H1 & H2 & H3 & H4 & H5 & H6) Hp] Hc Hl. split; [by split_and!|]. rewrite <- Hp. unfold published_part. simpl. by rewrite Hl.
Qed.

(** *** Triples *)

(** From [P], whatever [m] answers the published part stays, and what it returns satisfies [Q]. *)
Definition triple {A} (P : CDB → Prop) (m : tx CDB A) (Q : A → CDB → Prop) : Prop :=
  ∀ db, good db → P db → good (snd (m db)) ∧ ∀ a, fst (m db) = Ok a → Q a (snd (m db)).

Lemma catalog_triple_bind {A B} P Q T (m : tx CDB A) (k : A → tx CDB B) :
  triple P m Q → (∀ a, triple (Q a) (k a) T) → triple P (m ≫= k) T.
Proof.
  intros Hm Hk db Hg HP. destruct (Hm db Hg HP) as [Hg' HQ]. unfold mbind, tx_bind.
  destruct (m db) as [[a|e] d]; simpl in *; [by apply Hk; [|apply HQ]|done].
Qed.

(** What does not write keeps everything. *)
Lemma triple_read {A} P (m : tx CDB A) : (∀ db, snd (m db) = db) → triple P m (λ a db, P db ∧ fst (m db) = Ok a).
Proof. intros Hm db Hg HP. rewrite !Hm. auto. Qed.

Lemma triple_conseq {A} (P P' : CDB → Prop) (Q Q' : A → CDB → Prop) (m : tx CDB A) :
  (∀ db, P' db → P db) → (∀ a db, Q a db → Q' a db) → triple P m Q → triple P' m Q'.
Proof. intros H1 H2 Hm db Hg HP. destruct (Hm db Hg (H1 db HP)) as [Hg' HQ]. split; [done|]. intros a Ha. by apply H2, HQ. Qed.

Lemma triple_skip {A B} P T (m : tx CDB A) (k : A → tx CDB B) :
  (∀ db, snd (m db) = db) → (∀ a, triple P (k a) T) → triple P (m ≫= k) T.
Proof.
  intros Hm Hk. eapply catalog_triple_bind; [by apply triple_read|]. intros a. eapply triple_conseq; [|done|apply Hk]. by intros db [].
Qed.

Lemma catalog_triple_ret {A} P (a : A) : triple P (mret a) (λ _ _, True).
Proof. by intros db Hg _. Qed.
End Frozen.

(** What holds of each of the three kinds of revisions. *)
Class ParentLaws (R : Type) `{!Table CDB R} `{!CatalogParent R} : Prop := {
  pl_id (a b : R) : cp_id a = cp_id b → clash (DB := CDB) a b = true;
  pl_unique db : unique_rows db → no_clash (rows db : list R) = true;
  pl_good part db (l : list R) : good part db → no_clash (DB := CDB) l = true →
    List.filter pub l = List.filter pub (rows db) → good part (set_rows l db) }.

#[export] Instance agent_laws : ParentLaws Agent.
Proof.
  split; simpl.
  - intros a b E. apply orb_true_iff. left. by apply String.eqb_eq.
  - by intros db (H & _).
  - apply good_agents.
Qed.
#[export] Instance model_laws : ParentLaws Model.
Proof.
  split; simpl.
  - intros a b E. apply orb_true_iff. left. by apply String.eqb_eq.
  - by intros db (_ & _ & H & _).
  - apply good_models.
Qed.
#[export] Instance provider_laws : ParentLaws Provider.
Proof.
  split; simpl.
  - intros a b E. apply orb_true_iff. left. by apply String.eqb_eq.
  - by intros db (_ & _ & _ & H & _).
  - apply good_providers.
Qed.

Section Writes.
Context (part : Published).
#[local] Notation triple := (triple part).

Section ParentWrites.
Context {R : Type} `{!Table CDB R} `{!CatalogParent R} `{!ParentLaws R}.

Lemma triple_guard {A} (P : CDB → Prop) i (k : R → tx CDB A) T :
  (∀ r, triple (λ db, P db ∧ unpublished i (rows db : list R) ∧ r ∈ rows db ∧ cp_id r = i ∧ pub r = false) (k r) T) →
  triple P (r ← _locked i; _assert_mutable r;; k r) T.
Proof.
  intros Hk db Hg HP. unfold _locked, _assert_mutable, select_one, gets, found, lift, check, raise, mbind, tx_bind. simpl.
  destruct (List.find (at_id i) (rows db)) as [r|] eqn:Hf; [|done]. simpl. apply find_some in Hf as [Hr%list_elem_of_In Hi%String.eqb_eq].
  destruct (cp_status r =? "published") eqn:Hs; [done|]. simpl. apply Hk; [done|]. split_and!; [done| |done..].
  intros r' Hr' Hi'. replace r' with r; [done|].
  eapply (unique_row (DB := CDB) (λ x, cp_id x =? i) (rows db)); [by apply pl_unique, Hg| |done| |done|].
  - intros a b Ha Hb. bools. apply pl_id. congruence.
  - by apply String.eqb_eq.
  - by apply String.eqb_eq.
Qed.

Lemma triple_update_parent i (f : R → R) : (∀ r, cp_id r = i → pub r = false → pub (f r) = false) →
  triple (λ db, unpublished i (rows db : list R)) (update (at_id i) f) (λ _ _, True).
Proof.
  intros Hf db Hg Hu. unfold update. destruct (_ && _) eqn:Hc; simpl; [|done]. split; [|done].
  apply andb_true_iff in Hc as [_ Hc]. apply pl_good; [done..|].
  apply filter_updated_same. intros r Hr Hi%String.eqb_eq. split; [by apply Hu|]. apply Hf; [done|by apply Hu].
Qed.

Lemma triple_insert_parent (P : CDB → Prop) (r : R) : pub r = false →
  (∀ db, good part db → P db → no_clash (DB := CDB) (rows db ++ [r]) = true → P (set_rows (rows db ++ [r]) db)) →
  triple P (insert_row r)
    (λ _ db, P db ∧ unpublished (cp_id r) (rows db : list R)).
Proof.
  intros Hr HP db Hg HPdb. unfold insert_row. destruct (_ && _) eqn:Hc; simpl; [|done].
  apply andb_true_iff in Hc as [Hc _]. apply andb_true_iff in Hc as [_ Hc]. split.
  - apply pl_good; [done..|]. by apply filter_snoc.
  - intros _ _. split; [by apply HP|]. rewrite rows_set_rows. intros x [Hx|Hx]%elem_of_app Hi.
    + exfalso. pose proof (no_clash_last (DB := CDB) _ _ Hc x Hx) as Hno. by rewrite (pl_id x r Hi) in Hno.
    + by apply list_elem_of_singleton in Hx as ->.
Qed.

Lemma triple_dirty (r : R) : triple (λ db, unpublished (cp_id r) (rows db : list R) ∧ pub r = false ∧
    ∀ x, x ∈ rows db → cp_id x = cp_id r → ∀ y, clash (DB := CDB) x y = clash (DB := CDB) r y ∧
      clash (DB := CDB) y x = clash (DB := CDB) y r) (dirty r) (λ _ _, True).
Proof.
  intros db Hg (Hu & Hr & Hsame). unfold dirty, modify. simpl. split; [|done]. apply pl_good; [done| |].
  - unfold updated. assert (Hun : no_clash (rows db : list R) = true) by apply pl_unique, Hg.
    revert Hun Hsame. generalize (rows db : list R) as l. clear Hu Hr. induction l as [|a l IH]; intros Hun Hsame; [done|]. simpl in *.
    apply andb_true_iff in Hun as [Hn Hun]. rewrite IH; [|done|intros x Hx; apply Hsame; by right]. rewrite andb_true_r.
    apply negb_true_iff, not_true_iff_false. intros (y & (z & <- & Hz)%in_map_iff & Hy)%existsb_exists.
    apply negb_true_iff, not_true_iff_false in Hn. apply Hn, existsb_exists. exists z. split; [done|].
    assert (z ∈ a :: l) as Hz' by (right; by apply list_elem_of_In).
    unfold at_id in *. destruct (cp_id a =? cp_id r) eqn:Ha; destruct (cp_id z =? cp_id r) eqn:Hzr; bools.
    + apply pl_id. congruence.
    + by rewrite (proj1 (Hsame a ltac:(left) Ha z)).
    + by rewrite (proj2 (Hsame z Hz' Hzr a)).
    + done.
  - apply filter_updated_same. intros x Hx Hi%String.eqb_eq. split; [by apply Hu|done].
Qed.
End ParentWrites.

(** The rows that belong to a revision. *)
Class ChildLaws (R : Type) `{!Table CDB R} (parent key : R → string) (published : CDB → list string) : Prop := {
  cl_key (a b : R) : key a = key b → clash (DB := CDB) a b = true;
  cl_unique db : unique_rows db → no_clash (rows db : list R) = true;
  cl_published db (l : list R) : published (set_rows l db) = published db;
  cl_good db (l : list R) : good part db → no_clash (DB := CDB) l = true →
    List.filter (λ r, parent r ∈? published db) l = List.filter (λ r, parent r ∈? published db) (rows db) →
    good part (set_rows l db) }.

#[export] Instance version_laws : ChildLaws AgentVersion av_agent_id av_id (λ db, pub_ids (agents db)).
Proof.
  split; simpl; [|by intros db (_ & H & _)|done|apply good_versions].
  intros a b E. apply orb_true_iff. left. by apply String.eqb_eq.
Qed.
#[export] Instance agent_binding_laws : ChildLaws AgentBinding ab_agent_id ab_id (λ db, pub_ids (agents db)).
Proof.
  split; simpl; [|by intros db (_ & _ & _ & _ & H & _)|done|apply good_agent_bindings].
  intros a b E. apply orb_true_iff. left. by apply String.eqb_eq.
Qed.
#[export] Instance provider_binding_laws : ChildLaws ProviderBinding pb_provider_id pb_id (λ db, pub_ids (providers db)).
Proof.
  split; simpl; [|by intros db (_ & _ & _ & _ & _ & H)|done|apply good_provider_bindings].
  intros a b E. apply orb_true_iff. left. by apply String.eqb_eq.
Qed.

Section ChildWrites.
Context {R : Type} `{!Table CDB R} (parent key : R → string) (published : CDB → list string)
  `{!ChildLaws R parent key published}.

Lemma triple_insert_child (P : CDB → Prop) (r : R) :
  (∀ db, P db → (parent r ∈? published db) = false) → (∀ db l, P db → P (set_rows (l : list R) db)) →
  triple P (insert_row r) (λ _ db, P db).
Proof.
  intros Hpar HP db Hg HPdb. unfold insert_row. destruct (_ && _) eqn:Hc; simpl; [|done].
  apply andb_true_iff in Hc as [Hc _]. apply andb_true_iff in Hc as [_ Hc]. split; [|intros ? _; by apply HP].
  apply cl_good; [done..|]. apply filter_snoc. by apply Hpar.
Qed.

Lemma triple_insert_all (P : CDB → Prop) (copy : string → R → R) fresh l :
  (∀ db i r, P db → (parent (copy i r) ∈? published db) = false) → (∀ db l, P db → P (set_rows (l : list R) db)) →
  triple P (insert_all copy fresh l) (λ _ db, P db).
Proof.
  intros Hpar HP. revert fresh. induction l as [|r l IH]; intros fresh; simpl.
  - intros db Hg HPdb. split; [done|]. by intros _ _.
  - eapply catalog_triple_bind; [apply triple_insert_child; [intros db; by apply Hpar|done]|]. intros ?. apply IH.
Qed.

(** Deleting a row by its key, when it belongs to a revision that is not published. *)
Lemma triple_delete_child (P : CDB → Prop) k :
  (∀ db, P db → ∃ r, r ∈ rows db ∧ key r = k ∧ (parent r ∈? published db) = false) →
  ∀ Q : CDB → Prop, (∀ db l, P db → Q (set_rows (l : list R) db)) →
  triple P (delete_rows (λ x : R, key x =? k)) (λ _ db, Q db).
Proof.
  intros Hfind Q HQ db Hg HPdb. unfold delete_rows. simpl. split; [|intros ? _; by apply HQ].
  destruct (Hfind db HPdb) as (r & Hr & Hk & Hpar). apply cl_good; [done|..].
  - apply no_clash_filter. by apply cl_unique, Hg.
  - apply filter_filter_same. intros a Ha Hpa. apply negb_true_iff, not_true_iff_false. intros Hka%String.eqb_eq.
    replace a with r in Hpa; [congruence|].
    eapply (unique_row (DB := CDB) (λ x, key x =? k) (rows db)); [by apply cl_unique, Hg| |done| |done|].
    + intros x y Hx Hy. bools. apply cl_key. congruence.
    + by apply String.eqb_eq.
    + by apply String.eqb_eq.
Qed.
End ChildWrites.

(** *** Every operation *)

Context (decimal : string → option Z) (lower : string → string) (idna : string → result string)
  (digest : json → string) (now : Z) (urlsplit : string → result Url) (internal_address : string → bool)
  (urlunsplit : string → string → string).

#[local] Notation keeps m := (triple (λ _, True) m (λ _ _, True)) (only parsing).

Lemma triple_end {A B} (P : CDB → Prop) (Q : A → CDB → Prop) (m : tx CDB A) (b : B) :
  triple P m Q → triple P (m;; mret b) (λ _ _, True).
Proof. intros Hm. eapply catalog_triple_bind; [exact Hm|]. intros a db Hg _. done. Qed.

Lemma triple_lift {A B} (P : CDB → Prop) (x : result A) (k : A → tx CDB B) T :
  (∀ a, triple P (k a) T) → triple P (lift x ≫= k) T.
Proof. intros Hk. by apply triple_skip. Qed.
Lemma triple_check {B} (P : CDB → Prop) b e (k : unit → tx CDB B) T :
  triple P (k tt) T → triple P (check b e ≫= k) T.
Proof. intros Hk. apply triple_skip; [by intros db; destruct b|by intros []]. Qed.
Lemma triple_check_true {B} (P : CDB → Prop) b e (k : unit → tx CDB B) T :
  (b = true → triple P (k tt) T) → triple P (check b e ≫= k) T.
Proof. intros Hk. destruct b; [by apply (Hk eq_refl)|]. by intros db Hg HP. Qed.

(** Past what an operation only looks at. *)
Ltac look :=
  repeat first
    [ apply triple_check
    | apply triple_lift; intros ?
    | apply triple_skip; [intros db; first [reflexivity|by (match goal with |- context [found ?o _ _] => destruct o end)]|intros ?] ].

Lemma touch {R} `{!Table CDB R} `{!CatalogParent R} `{!ParentLaws R} {B} i (f : R → R) (b : B) :
  (∀ r, cp_id r = i → pub r = false → pub (f r) = false) →
  triple (λ db, unpublished i (rows db : list R)) (update (at_id i) f;; mret b) (λ _ _, True).
Proof. intros Hf. eapply triple_end, triple_update_parent, Hf. Qed.

Lemma guard {R} `{!Table CDB R} `{!CatalogParent R} `{!ParentLaws R} {A} i (k : R → tx CDB A) :
  (∀ r, cp_id r = i → pub r = false →
    triple (λ db, unpublished i (rows db : list R) ∧ r ∈ rows db) (k r) (λ _ _, True)) →
  keeps (r ← _locked i; _assert_mutable r;; k r).
Proof.
  intros Hk. apply (triple_guard (R := R)). intros r db Hg (_ & Hu & Hr & Hi & Hp). by apply (Hk r Hi Hp).
Qed.

Lemma weaken {A} (P P' : CDB → Prop) (m : tx CDB A) T : triple P m T → (∀ db, P' db → P db) → triple P' m T.
Proof. intros Hm H db Hg HP. apply Hm; [done|by apply H]. Qed.

Lemma create_agent_keeps n k d t : keeps (create_agent now n k d t).
Proof. unfold create_agent. look. eapply triple_end, triple_insert_parent; done. Qed.

Lemma update_agent_keeps i d t v : keeps (update_agent i d t v).
Proof.
  unfold update_agent. apply guard. intros r Hi Hp. unfold _assert_version. look.
  eapply weaken; [apply touch; done|]. by intros db [].
Qed.

Lemma delete_agent_keeps i v : keeps (delete_agent i v).
Proof.
  unfold delete_agent. apply guard. intros r Hi Hp. unfold _assert_version. look.
  intros db Hg [Hu _]. split; [|done]. simpl. pose proof (unpublished_ids i (agents db) Hu) as Hids.
  assert (List.filter pub (List.filter (λ a, negb (ag_id a =? i)) (agents db)) = List.filter pub (agents db)) as Ha.
  { apply filter_filter_same. intros a Hin Hpa. apply negb_true_iff, String.eqb_neq. intros E. by rewrite (Hu a Hin E) in Hpa. }
  destruct Hg as [(H1 & H2 & H3 & H4 & H5 & H6) Hpart]. split.
  - split_and!; simpl; try done; by apply (no_clash_filter (DB := CDB)).
  - rewrite <- Hpart. unfold published_part, pub_ids. simpl. rewrite Ha. f_equal; apply filter_filter_same;
      intros x _ Hx; apply negb_true_iff, String.eqb_neq; intros E; rewrite E in Hx; exact (eq_true_false_abs _ Hx Hids).
Qed.

Lemma validate_agent_keeps i : keeps (validate_agent decimal lower idna i).
Proof.
  unfold validate_agent. apply guard. intros r Hi Hp. look.
  eapply weaken; [apply touch; done|]. by intros db [].
Qed.
Lemma unpublished_agent_children i db : unpublished i (agents db) → (i ∈? pub_ids (agents db)) = false.
Proof. apply unpublished_ids. Qed.

Lemma clone_agent_keeps fresh i : keeps (clone_agent_revision now fresh i).
Proof.
  unfold clone_agent_revision. unfold _locked. look.
  eapply catalog_triple_bind; [eapply (triple_insert_parent (R := Agent)); done|]. intros ?. simpl. look.
  eapply catalog_triple_bind; [eapply (triple_insert_all _ _ _ (λ db, True ∧ unpublished (fresh 0%nat) (agents db)))|].
  { intros db j v [_ Hu]. by apply unpublished_ids. }
  { done. }
  intros ?. look. eapply triple_end, (triple_insert_all _ _ _ (λ db, True ∧ unpublished (fresh 0%nat) (agents db))).
  { intros db j v [_ Hu]. by apply unpublished_ids. }
  { done. }
Qed.

Lemma create_version_keeps n i b : keeps (create_agent_version decimal lower idna digest now n i b).
Proof.
  unfold create_agent_version. apply guard. intros r Hi Hp. look.
  eapply catalog_triple_bind; [eapply (triple_insert_child _ _ _ (λ db, unpublished i (agents db) ∧ r ∈ agents db))|].
  { intros db [Hu _]. by apply unpublished_ids. }
  { done. }
  intros ?. eapply weaken; [by apply touch|]. by intros db [].
Qed.

(** A row that was looked up. *)
Lemma triple_found {R} `{!Table CDB R} {A} (P : CDB → Prop) p e (k : R → tx CDB A) T :
  (∀ x, triple (λ db, P db ∧ x ∈ rows db ∧ p x = true) (k x) T) → triple P (o ← select_one p; x ← found o e; k x) T.
Proof.
  intros Hk db Hg HP. unfold select_one, gets, found, lift, mbind, tx_bind. simpl.
  destruct (List.find p (rows db)) as [x|] eqn:Hf; [|done]. simpl. apply find_some in Hf as [Hx%list_elem_of_In Hpx].
  by apply Hk.
Qed.

(** Deleting the row that was looked up, then the parent. *)
Lemma remove_child {R} `{!Table CDB R} (parent key : R → string) (published : CDB → list string)
    `{!ChildLaws R parent key published} {Q} `{!Table CDB Q} `{!CatalogParent Q} `{!ParentLaws Q} (f : Q → Q) i k (x : R) :
  (∀ db, published db = pub_ids (rows db : list Q)) → (∀ db (l : list R), rows (set_rows l db) = (rows db : list Q)) →
  key x = k → parent x = i → (∀ r : Q, cp_id r = i → pub r = false → pub (f r) = false) →
  triple (λ db, unpublished i (rows db : list Q) ∧ x ∈ rows db)
    (delete_rows (λ y : R, key y =? k);; update (at_id i) f;; mret tt) (λ _ _, True).
Proof.
  intros Hpub Hrows Hk Hi Hf.
  eapply catalog_triple_bind; [eapply (triple_delete_child parent key published) with (Q := λ db, unpublished i (rows db : list Q))|].
  - intros db [Hu Hx]. exists x. split_and!; [done..|]. rewrite Hpub, Hi. by apply unpublished_ids.
  - intros db l [Hu _]. by rewrite Hrows.
  - intros ?. by apply touch.
Qed.

Lemma delete_version_keeps i v : keeps (delete_agent_version i v).
Proof.
  unfold delete_agent_version. apply guard. intros r Hi Hp. apply triple_found. intros x. look.
  destruct (bool_decide_reflect (av_id x = v ∧ av_agent_id x = i)) as [[Hv Ha]|Hno].
  - eapply weaken; [by apply (remove_child av_agent_id av_id (λ db, pub_ids (agents db)) (Q := Agent)) with (x := x)|].
    by intros db [[Hu _] [Hx _]].
  - intros db _ (_ & _ & Hx). bools. exfalso. by apply Hno.
Qed.

Lemma create_agent_binding_keeps n i m l h : keeps (create_agent_model_binding decimal now n i m l h).
Proof.
  unfold create_agent_model_binding, get_model, list_agent_versions. apply guard. intros r Hi Hp. look.
  eapply catalog_triple_bind; [eapply (triple_insert_child _ _ _ (λ db, unpublished i (agents db) ∧ r ∈ agents db))|].
  { intros db [Hu _]. by apply unpublished_ids. }
  { done. }
  intros ?. eapply weaken; [by apply touch|]. by intros db [].
Qed.

Lemma delete_agent_binding_keeps i b : keeps (delete_agent_model_binding i b).
Proof.
  unfold delete_agent_model_binding. apply guard. intros r Hi Hp. apply triple_found. intros x.
  destruct (bool_decide_reflect (ab_id x = b ∧ ab_agent_id x = i)) as [[Hv Ha]|Hno].
  - eapply weaken; [by apply (remove_child ab_agent_id ab_id (λ db, pub_ids (agents db)) (Q := Agent)) with (x := x)|].
    by intros db [[Hu _] [Hx _]].
  - intros db _ (_ & _ & Hx). bools. exfalso. by apply Hno.
Qed.

(** What a validated model keeps: everything it is told apart by. *)
Lemma values_kept m : let m' := snd (_validate_model_values lower m) in
  md_id m' = md_id m ∧ md_provider_key m' = md_provider_key m ∧ md_model_key m' = md_model_key m ∧
  md_catalog_revision m' = md_catalog_revision m ∧ md_status m' = md_status m ∧ md_version m' = md_version m.
Proof.
  unfold _validate_model_values, gets, lift, modify, mbind, tx_bind. simpl.
  destruct (model_checks m); simpl; [|done]. by destruct (negb _).
Qed.

Lemma create_model_keeps n b : keeps (create_model lower now n b).
Proof.
  unfold create_model. look. pose proof (values_kept (new_model now n b)) as Hv.
  destruct (_validate_model_values lower (new_model now n b)) as [o m]. simpl in Hv. destruct Hv as (_ & _ & _ & _ & Hs & _).
  look. eapply triple_end, triple_insert_parent; [|done]. unfold pub. simpl. by rewrite Hs.
Qed.

Lemma dirty_model r m i e : cp_id r = i → pub r = false →
  md_id m = md_id r → md_provider_key m = md_provider_key r → md_model_key m = md_model_key r →
  md_catalog_revision m = md_catalog_revision r → md_status m = md_status r →
  triple (λ db, unpublished i (models db) ∧ r ∈ models db) (dirty m;; raise e : tx CDB Model) (λ _ _, True).
Proof.
  intros Hi Hp H1 H2 H3 H4 H5. eapply catalog_triple_bind with (Q := λ _ _, True); [|by intros ? db Hg _].
  intros db Hg [Hu Hr]. apply (triple_dirty m db Hg). split_and!.
  - simpl. rewrite H1. by replace (md_id r) with i.
  - unfold pub in *. simpl in *. by rewrite H5.
  - intros x Hx Hxi y. assert (x = r) as ->.
    { eapply (unique_row (DB := CDB) (λ x, md_id x =? md_id r) (models db)); [exact (pl_unique (R := Model) db (proj1 Hg))| |done| |done|].
      - intros a b Ha Hb. bools. apply (pl_id (R := Model)). simpl. congruence.
      - simpl in Hxi. apply String.eqb_eq. congruence.
      - by apply String.eqb_eq. }
    simpl. by rewrite H1, H2, H3, H4.
Qed.

Lemma update_model_keeps i b v : keeps (update_model lower i b v).
Proof.
  unfold update_model. apply guard. intros r Hi Hp. unfold _assert_version. look.
  pose proof (values_kept (set_model b r)) as Hv.
  destruct (_validate_model_values lower (set_model b r)) as [o m]. simpl in Hv. destruct Hv as (H1 & H2 & H3 & H4 & H5 & _).
  destruct o; [|by apply (dirty_model r)]. eapply weaken; [by apply touch|]. by intros db [].
Qed.

Lemma delete_model_keeps i v : keeps (delete_model i v).
Proof.
  unfold delete_model, delete_model_row. apply guard. intros r Hi Hp. unfold _assert_version. look.
  eapply triple_end with (Q := λ _ _, True). intros db Hg [Hu _]. unfold delete_rows. simpl. split; [|done].
  apply good_models; [done|by apply (no_clash_filter (DB := CDB)), Hg|].
  apply filter_filter_same. intros m Hm Hpm. apply negb_true_iff, String.eqb_neq. intros E. by rewrite (Hu m Hm E) in Hpm.
Qed.

Lemma validate_model_keeps i : keeps (validate_model lower i).
Proof.
  unfold validate_model. apply guard. intros r Hi Hp. pose proof (values_kept r) as Hv.
  destruct (_validate_model_values lower r) as [o m]. simpl in Hv. destruct Hv as (H1 & H2 & H3 & H4 & H5 & _).
  destruct o; [|by apply (dirty_model r)]. eapply weaken; [by apply touch|]. by intros db [].
Qed.

Lemma clone_model_keeps fresh i : keeps (clone_model_revision now fresh i).
Proof. unfold clone_model_revision, _locked. look. eapply triple_end, triple_insert_parent; done. Qed.

Lemma create_provider_keeps n k d p u a :
  keeps (create_provider lower idna now urlsplit internal_address urlunsplit n k d p u a).
Proof. unfold create_provider. look. eapply triple_end, triple_insert_parent; done. Qed.

Lemma update_provider_keeps i d p u a v :
  keeps (update_provider lower idna urlsplit internal_address urlunsplit i d p u a v).
Proof.
  unfold update_provider. apply guard. intros r Hi Hp. unfold _assert_version. look.
  apply triple_skip; [intros db; destruct u as [u|]; [|done]; unfold lift, mbind, tx_bind; by destruct (_normalize_provider_url _ _ _ _ _ u)|].
  intros ?. eapply weaken; [by apply touch|]. by intros db [].
Qed.

Lemma delete_provider_keeps i v : keeps (delete_provider i v).
Proof.
  unfold delete_provider. apply guard. intros r Hi Hp. unfold _assert_version. look.
  intros db Hg [Hu _]. split; [|done]. simpl. pose proof (unpublished_ids i (providers db) Hu) as Hids.
  assert (List.filter pub (List.filter (λ a, negb (pv_id a =? i)) (providers db)) = List.filter pub (providers db)) as Ha.
  { apply filter_filter_same. intros a Hin Hpa. apply negb_true_iff, String.eqb_neq. intros E. by rewrite (Hu a Hin E) in Hpa. }
  destruct Hg as [(H1 & H2 & H3 & H4 & H5 & H6) Hpart]. split.
  - split_and!; simpl; try done; by apply (no_clash_filter (DB := CDB)).
  - rewrite <- Hpart. unfold published_part, pub_ids. simpl. rewrite Ha. f_equal; apply filter_filter_same;
      intros x _ Hx; apply negb_true_iff, String.eqb_neq; intros E; rewrite E in Hx; exact (eq_true_false_abs _ Hx Hids).
Qed.

Lemma validate_provider_keeps i : keeps (validate_provider lower idna urlsplit internal_address urlunsplit i).
Proof.
  unfold validate_provider. apply guard. intros r Hi Hp. look. eapply weaken; [by apply touch|]. by intros db [].
Qed.

Lemma clone_provider_keeps fresh i : keeps (clone_provider_revision now fresh i).
Proof.
  unfold clone_provider_revision, _locked. look.
  eapply catalog_triple_bind; [eapply (triple_insert_parent (R := Provider)); done|]. intros ?. simpl. look.
  eapply triple_end, (triple_insert_all _ _ _ (λ db, True ∧ unpublished (fresh 0%nat) (providers db))).
  { intros db j v [_ Hu]. by apply unpublished_ids. }
  { done. }
Qed.

Lemma create_provider_binding_keeps n i m p d : keeps (create_provider_model_binding lower now n i m p d).
Proof.
  unfold create_provider_model_binding, get_model. apply guard. intros r Hi Hp. look.
  eapply catalog_triple_bind; [eapply (triple_insert_child _ _ _ (λ db, unpublished i (providers db) ∧ r ∈ providers db))|].
  { intros db [Hu _]. by apply unpublished_ids. }
  { done. }
  intros ?. eapply weaken; [by apply touch|]. by intros db [].
Qed.

Lemma delete_provider_binding_keeps i b : keeps (delete_provider_model_binding i b).
Proof.
  unfold delete_provider_model_binding. apply guard. intros r Hi Hp. apply triple_found. intros x.
  destruct (bool_decide_reflect (pb_id x = b ∧ pb_provider_id x = i)) as [[Hv Ha]|Hno].
  - eapply weaken; [by apply (remove_child pb_provider_id pb_id (λ db, pub_ids (providers db)) (Q := Provider)) with (x := x)|].
    by intros db [[Hu _] [Hx _]].
  - intros db _ (_ & _ & Hx). bools. exfalso. by apply Hno.
Qed.
End Writes.

(** ** Every request *)

Section Requests.
Context `{SqlLower} (decimal : string → option Z) (lower : string → string) (idna : string → result string)
  (digest : json → string) (urlsplit : string → result Url) (internal_address : string → bool)
  (urlunsplit : string → string → string).

Lemma call_keeps {A} part (m : tx CDB A) :
  triple part (λ _, True) m (λ _ _, True) → triple part (λ _, True) (_call m) (λ _ _, True).
Proof.
  intros Hm db Hg HP. destruct (Hm db Hg HP) as [Hd _]. unfold _call. split; [|done].
  by destruct (m db) as [[a|[]] d].
Qed.

Lemma admitted_keeps {A} part accounts claims (m : tx CDB A) db :
  triple part (λ _, True) m (λ _ _, True) → good part db → good part (admitted accounts claims m db).
Proof.
  intros Hm Hg. unfold admitted. destruct (fst _); [|done]. destruct (Hm db Hg I) as [Hd _]. unfold shared.
  destruct (m db) as [[x|[]] d]; try done. simpl in *. by destruct (flush_ok d).
Qed.

Lemma serve_catalog_keeps part accounts claims now r db : good part db →
  good part (serve_catalog decimal lower idna digest urlsplit internal_address urlunsplit accounts claims now r db).
Proof.
  destruct r; intros Hg; cbn [serve_catalog]; apply admitted_keeps; try exact Hg;
    unfold create_agent_endpoint, update_agent_endpoint, delete_agent_endpoint, validate_agent_endpoint,
      clone_agent_endpoint, create_agent_version_endpoint, delete_agent_version_endpoint, create_agent_binding_endpoint,
      delete_agent_binding_endpoint, create_model_endpoint, update_model_endpoint, delete_model_endpoint,
      validate_model_endpoint, clone_model_endpoint, create_provider_endpoint, update_provider_endpoint,
      delete_provider_endpoint, validate_provider_endpoint, clone_provider_endpoint, create_provider_binding_endpoint,
      delete_provider_binding_endpoint;
    repeat first
      [ apply triple_check | apply triple_lift; intros ?
      | apply triple_skip; [intros ?; match goal with |- context [found ?o _ _] => by destruct o end|intros ?] ];
    apply call_keeps.
  - apply create_agent_keeps.
  - apply update_agent_keeps.
  - apply delete_agent_keeps.
  - apply validate_agent_keeps.
  - apply clone_agent_keeps.
  - apply create_version_keeps.
  - apply delete_version_keeps.
  - apply create_agent_binding_keeps.
  - apply delete_agent_binding_keeps.
  - apply create_model_keeps.
  - apply update_model_keeps.
  - apply delete_model_keeps.
  - apply validate_model_keeps.
  - apply clone_model_keeps.
  - apply create_provider_keeps.
  - apply update_provider_keeps.
  - apply delete_provider_keeps.
  - apply validate_provider_keeps.
  - apply clone_provider_keeps.
  - apply create_provider_binding_keeps.
  - apply delete_provider_binding_keeps.
Qed.

(** A request with the accounts, the token and the time it meets. *)
Record Served := { sv_accounts : BackendAuth.DB; sv_claims : option Claims; sv_now : Z; sv_request : CatalogRequest }.

Definition serve_catalog_all (rs : list Served) (db : CDB) : CDB :=
  fold_left (λ db s, serve_catalog decimal lower idna digest urlsplit internal_address urlunsplit
    (sv_accounts s) (sv_claims s) (sv_now s) (sv_request s) db) rs db.

Lemma serve_all_keeps part rs db : good part db → good part (serve_catalog_all rs db).
Proof. revert db. induction rs as [|s rs IH]; intros db Hg; [done|]. simpl. by apply IH, serve_catalog_keeps. Qed.
End Requests.

(** C16. The published part of the catalog is frozen.  Whatever requests the administrators send,
    accepted, refused or failing half-way, the agents, models and providers that are published, the
    version ranges and the bindings that belong to them, are the same rows afterwards as before:
    none is changed or lost, and none is added. *)
Theorem catalog_frozen `{SqlLower} decimal lower idna digest urlsplit internal_address urlunsplit rs db :
  unique_rows db →
  published_part (serve_catalog_all decimal lower idna digest urlsplit internal_address urlunsplit rs db) =
  published_part db.
Proof. intros Hu. by apply serve_all_keeps. Qed.

(** So a catalog in which nothing is published stays one: no request publishes anything, and no
    revision can ever be cloned. *)
Lemma nothing_gets_published `{SqlLower} decimal lower idna digest urlsplit internal_address urlunsplit rs db :
  unique_rows db →
  Forall (λ a, pub a = false) (agents db) → Forall (λ m, pub m = false) (models db) →
  Forall (λ p, pub p = false) (providers db) →
  let db' := serve_catalog_all decimal lower idna digest urlsplit internal_address urlunsplit rs db in
  Forall (λ a, pub a = false) (agents db') ∧ Forall (λ m, pub m = false) (models db') ∧
  Forall (λ p, pub p = false) (providers db').
Proof.
  intros Hu Ha Hm Hp db'.
  pose proof (serve_all_keeps decimal lower idna digest urlsplit internal_address urlunsplit (published_part db) rs db
    (conj Hu eq_refl)) as [_ E]. fold db' in E.
  assert (∀ {R} `{CatalogParent R} (l : list R), Forall (λ x, pub x = false) l ↔ List.filter pub l = []) as Hnil.
  { intros R ? l. rewrite (where_nil (R := R)). by rewrite Forall_forall. }
  rewrite !Hnil in *. injection E as -> _ -> -> _ _. done.
Qed.

(** ** A published agent *)

Module Frozen.
Definition published_agent : CDB := {|
  agents := map (set_agent None None "published" 1) (agents CatalogRequests.Demo.one_agent);
  agent_versions := agent_versions CatalogRequests.Demo.one_agent; models := []; providers := []; agent_bindings := [];
  provider_bindings := [] |}.
Definition sent (r : CatalogRequest) : Served := {|
  sv_accounts := CatalogRequests.Demo.accounts; sv_claims := CatalogRequests.Demo.token; sv_now := 9; sv_request := r |}.
Definition serving (rs : list CatalogRequest) : CDB → CDB :=
  serve_catalog_all (H := CatalogRequests.Demo.same) ascii_decimal (λ s, s) Ok (λ _, "digest") CatalogRequests.Demo.split_url
    (λ _, false) (λ host path, host +:+ path) (map sent rs).
End Frozen.

Lemma catalog_frozen_witness :
  let db := Frozen.serving [UpdateAgent "a1" (Some "New") None (Some "1"); DeleteAgentVersion "a1" "v1";
    CloneAgent (λ n, "c" +:+ pretty.pretty (Z.of_nat n)) "a1"; DeleteAgent "a1" (Some "1")] Frozen.published_agent in
  published_part db = published_part Frozen.published_agent ∧ map ag_status (agents db) = ["published"; "draft"].
Proof.
  split; [|vm_compute; reflexivity].
  apply (catalog_frozen (H := CatalogRequests.Demo.same)). vm_compute. split_and!; reflexivity.
Defined.
