(* ===== verification/CatalogAgents.v ===== *)
(** * Validated agents

    An agent that is not a draft was validated as it is: every change to it or to its version
    ranges makes it a draft again.  So its ranges never overlap on a platform, over every request. *)

From S2P Require Import Prelude PyOrder PyStr PyText Sql SemVer BackendAuth Catalog CatalogRequests CatalogProperties.

#[local] Notation CDB := Catalog.DB.

Section Sound.
Context (decimal : string → option Z).

(** The range offers its adapter for a version of the agent on a platform. *)
Definition offers (v : AgentVersion) (platform : string) (x : SemVer) : Prop :=
  platform ∈ av_supported_platforms v ∧ ∃ low high,
    _semver decimal (av_min_version v) = Ok low ∧ _semver decimal (av_max_version_exclusive v) = Ok high ∧
    within x low high = true.

(** There are ranges, and never two for the same version and platform. *)
Definition ranges_sound (versions : list AgentVersion) : Prop :=
  versions ≠ [] ∧
  (∀ v, v ∈ versions → ∃ low high, _semver decimal (av_min_version v) = Ok low ∧
    _semver decimal (av_max_version_exclusive v) = Ok high ∧ semver_lt low high = true) ∧
  ∀ i j v w platform x, versions !! i = Some v → versions !! j = Some w →
    offers v platform x → offers w platform x → i = j.

Definition versions_of (i : string) (db : CDB) : list AgentVersion :=
  List.filter (λ v, av_agent_id v =? i) (agent_versions db).

(** ** What validation establishes *)

Lemma range_valid low high : _validate_range decimal low high = Ok tt →
  ∃ a b, _semver decimal low = Ok a ∧ _semver decimal high = Ok b ∧ semver_lt a b = true.
Proof. unfold _validate_range. intros H. res_inv. eauto. Qed.

Lemma meets_spec v w a b c d :
  _semver decimal (av_min_version v) = Ok a → _semver decimal (av_max_version_exclusive v) = Ok b →
  _semver decimal (av_min_version w) = Ok c → _semver decimal (av_max_version_exclusive w) = Ok d →
  meets decimal v w =
    Ok (existsb (λ p, p ∈? av_supported_platforms w) (av_supported_platforms v) && ranges_meet a b c d).
Proof.
  intros Ha Hb Hc Hd. unfold meets, ranges_meet. rewrite Ha, Hb, Hc, Hd. simpl.
  destruct (existsb _ _); [|done]. simpl. by destruct (semver_lt a d).
Qed.

(** Two valid ranges meet exactly when some version on some platform is offered twice. *)
Lemma meets_iff v w : 
  _validate_range decimal (av_min_version v) (av_max_version_exclusive v) = Ok tt →
  _validate_range decimal (av_min_version w) (av_max_version_exclusive w) = Ok tt →
  ∃ m, meets decimal v w = Ok m ∧ (m = true ↔ ∃ platform x, offers v platform x ∧ offers w platform x).
Proof.
  intros (a & b & Ha & Hb & Hab)%range_valid (c & d & Hc & Hd & Hcd)%range_valid.
  eexists. split; [by apply meets_spec|]. rewrite andb_true_iff, existsb_exists, (ranges_meet_iff a b c d) by done. split.
  - intros [(p & Hp%list_elem_of_In & Hp'%bool_decide_eq_true) (x & Hx & Hx')]. exists p, x.
    split; (split; [done|]); eauto 10.
  - intros (p & x & (Hp & l1 & h1 & E1 & E2 & Hx) & (Hp' & l2 & h2 & E3 & E4 & Hx')). rewrite Ha in E1. rewrite Hb in E2. rewrite Hc in E3.
    rewrite Hd in E4. simplify_eq. split; [|by exists x].
    exists p. split; [by apply list_elem_of_In|by apply bool_decide_eq_true].
Qed.

Lemma mapM_ok {A B} (f : A → result B) l bs a : mapM f l = Ok bs → a ∈ l → ∃ b, f a = Ok b.
Proof.
  revert bs. induction l as [|x l IH]; intros bs Hm Ha; [by apply not_elem_of_nil in Ha|]. simpl in Hm. res_inv.
  apply elem_of_cons in Ha as [->|Ha]; [eauto|]. by eapply IH.
Qed.

Lemma validated_ranges lower idna versions us :
  versions ≠ [] → mapM (check_version decimal lower idna) versions = Ok us → check_pairs decimal versions = Ok tt →
  ranges_sound versions.
Proof.
  intros Hne Hm Hp.
  assert (∀ v, v ∈ versions → _validate_range decimal (av_min_version v) (av_max_version_exclusive v) = Ok tt) as Hv.
  { intros v Hin. destruct (mapM_ok _ _ _ _ Hm Hin) as [b Hb]. unfold check_version in Hb. res_inv.
    by match goal with H : _validate_range _ _ _ = Ok ?u |- _ => destruct u end. }
  clear Hm. split_and!; [done|intros v Hin; apply range_valid; by apply Hv|]. clear Hne.
  assert (∀ i j v w platform x, (i < j)%nat → versions !! i = Some v → versions !! j = Some w →
    offers v platform x → offers w platform x → False) as Hlt.
  { induction versions as [|a versions IH]; intros i j v w p x Hij Hi Hj Hov How; [done|].
    simpl in Hp. res_inv. destruct i as [|i].
    - injection Hi as ->. destruct j as [|j]; [lia|]. simpl in Hj. apply list_elem_of_lookup_2 in Hj.
      rename select (mapM _ versions = Ok _) into Hmap. destruct (mapM_ok _ _ _ _ Hmap Hj) as [u Hu]. res_inv.
      destruct (meets_iff v w) as (m & Hm & Hiff); [apply Hv; by left|apply Hv; by right|].
      assert (m = true) as -> by (apply Hiff; eauto). rewrite Hm in *. simplify_eq.
    - destruct j as [|j]; [lia|]. eapply (IH Hp); [intros; apply Hv; by right| |exact Hi|exact Hj|exact Hov|exact How]. lia. }
  intros i j v w p x Hi Hj Hov How. destruct (Nat.lt_trichotomy i j) as [H|[H|H]]; [exfalso|done|exfalso]; eauto.
Qed.

(** ** The invariant *)

(** Every agent but [o] that is not a draft has sound ranges. *)
Definition sound_but (o : option string) (db : CDB) : Prop :=
  no_clash (agents db) = true ∧ no_clash (agent_versions db) = true ∧
  ∀ a, a ∈ agents db → Some (ag_id a) ≠ o → ag_status a ≠ "draft" → ranges_sound (versions_of (ag_id a) db).
#[local] Notation inv := (sound_but None).

(** From [P], [m] ends in [Q]; what it refuses leaves the invariant, and other failures roll back. *)
Definition follows {A} (P : CDB → Prop) (m : tx CDB A) (Q : A → CDB → Prop) : Prop := ∀ db, P db →
  match m db with
  | (Ok a, d) => Q a d
  | (Err (ValueError _), d) => inv d
  | _ => True
  end.

Lemma follows_bind {A B} P Q T (m : tx CDB A) (k : A → tx CDB B) :
  follows P m Q → (∀ a, follows (Q a) (k a) T) → follows P (m ≫= k) T.
Proof.
  intros Hm Hk db HP. specialize (Hm db HP). unfold mbind, tx_bind. destruct (m db) as [[a|[]] d]; try done. by apply Hk.
Qed.

Lemma follows_skip {A B} (P : CDB → Prop) T (m : tx CDB A) (k : A → tx CDB B) :
  (∀ db, snd (m db) = db) → (∀ db, P db → inv db) → (∀ a, follows P (k a) T) → follows P (m ≫= k) T.
Proof.
  intros Hm HPi Hk. eapply (follows_bind P (λ _, P)); [|done]. intros db HP. specialize (Hm db).
  destruct (m db) as [[a|[]] d]; simpl in Hm; subst; try done. by apply HPi.
Qed.

(** A read whose answer matters. *)
Lemma follows_read {A B} (P : CDB → Prop) T (m : tx CDB A) (k : A → tx CDB B) :
  (∀ db, snd (m db) = db) → (∀ db, P db → inv db) →
  (∀ a, follows (λ db, P db ∧ m db = (Ok a, db)) (k a) T) → follows P (m ≫= k) T.
Proof.
  intros Hm HPi Hk. eapply (follows_bind P (λ a db, P db ∧ m db = (Ok a, db))); [|done]. intros db HP.
  pose proof (Hm db) as Hs. destruct (m db) as [[a|[]] d] eqn:E; simpl in Hs; subst; try done. by apply HPi.
Qed.

Lemma follows_end {A B} P Q T (m : tx CDB A) (b : B) :
  follows P m Q → (∀ a db, Q a db → T b db) → follows P (m;; mret b) T.
Proof. intros Hm HT. eapply follows_bind; [exact Hm|]. intros a db Hq. by apply (HT a). Qed.

Lemma follows_pre {A} (P P' : CDB → Prop) (m : tx CDB A) Q : follows P m Q → (∀ db, P' db → P db) → follows P' m Q.
Proof. intros Hm H db HP. by apply Hm, H. Qed.

(** Tables that have nothing to do with agents and their ranges. *)
Class Elsewhere (R : Type) `{!Table CDB R} : Prop := {
  ew_agents (l : list R) db : agents (set_rows l db) = agents db;
  ew_versions (l : list R) db : agent_versions (set_rows l db) = agent_versions db }.
#[local] Instance models_elsewhere : Elsewhere Model. Proof. done. Qed.
#[local] Instance providers_elsewhere : Elsewhere Provider. Proof. done. Qed.
#[local] Instance agent_bindings_elsewhere : Elsewhere AgentBinding. Proof. done. Qed.
#[local] Instance provider_bindings_elsewhere : Elsewhere ProviderBinding. Proof. done. Qed.

Section Elsewhere.
Context {R : Type} `{!Table CDB R} `{!Elsewhere R}.

Lemma sound_elsewhere o (l : list R) db : sound_but o db → sound_but o (set_rows l db).
Proof. unfold sound_but, versions_of. by rewrite ew_agents, ew_versions. Qed.

Lemma follows_insert (r : R) : follows inv (insert_row r) (λ _, inv).
Proof. intros db HP. unfold insert_row. destruct (_ && _); [|done]. by apply sound_elsewhere. Qed.
Lemma follows_update p (f : R → R) : follows inv (update p f) (λ _, inv).
Proof. intros db HP. unfold update. destruct (_ && _); [|done]. by apply sound_elsewhere. Qed.
Lemma follows_delete (p : R → bool) : follows inv (delete_rows p) (λ _, inv).
Proof. intros db HP. unfold delete_rows. by apply sound_elsewhere. Qed.
Lemma follows_dirty `{!CatalogParent R} (r : R) e {A} : follows inv (dirty r;; raise e : tx CDB A) (λ _, inv).
Proof.
  intros db HP. unfold dirty, modify, raise, mbind, tx_bind. destruct e; try done. by apply sound_elsewhere.
Qed.
End Elsewhere.

(** *** Writes to agents and ranges *)

Lemma follows_draft i f : (∀ a, ag_id a = i → ag_id (f a) = i ∧ ag_status (f a) = "draft") →
  follows (λ db, inv db ∨ sound_but (Some i) db) (update (at_id i) f) (λ _, inv).
Proof.
  intros Hf db HP. unfold update. destruct (_ && _) eqn:Hc; [|done]. apply andb_true_iff in Hc as [_ Hc].
  assert (sound_but (Some i) db) as (H1 & H2 & H3).
  { destruct HP as [(H1 & H2 & H3)|HP]; [|done]. split_and!; [done..|]. intros a Ha _. by apply H3. }
  split_and!; [done..|]. intros a Ha _ Hs. simpl in Ha. apply elem_updated in Ha as [[Ha Hi]|(b & Hb & Hi & ->)].
  - apply String.eqb_neq in Hi. apply H3; [done| |done]. simpl in Hi. congruence.
  - apply String.eqb_eq in Hi. by destruct (Hf b Hi) as [_ Hd].
Qed.

Lemma follows_validated i a : ag_id a = i →
  follows (λ db, inv db ∧ ranges_sound (versions_of i db)) (update (at_id i) (λ _, a)) (λ _, inv).
Proof.
  intros Hi db [(H1 & H2 & H3) Hv]. unfold update. destruct (_ && _) eqn:Hc; [|done]. apply andb_true_iff in Hc as [_ Hc].
  split_and!; [done..|]. intros b Hb _ Hs. simpl in Hb. apply elem_updated in Hb as [[Hb _]|(c & Hc' & _ & ->)].
  - by apply H3.
  - by rewrite Hi.
Qed.

(** The agents called [i] are drafts. *)
Definition drafts (i : string) (db : CDB) : Prop := ∀ a, a ∈ agents db → ag_id a = i → ag_status a = "draft".

Lemma follows_new_agent a : ag_status a = "draft" →
  follows inv (insert_row a) (λ _ db, inv db ∧ drafts (ag_id a) db).
Proof.
  intros Hd db (H1 & H2 & H3). unfold insert_row. destruct (_ && _) eqn:Hc; [|done].
  apply andb_true_iff in Hc as [[_ Hc]%andb_true_iff _]. split.
  - split_and!; [done..|]. intros b [Hb|Hb]%elem_of_app Hn Hs; [by apply H3|]. by apply list_elem_of_singleton in Hb as ->.
  - intros b [Hb|Hb]%elem_of_app Hi; [|by apply list_elem_of_singleton in Hb as ->].
    pose proof (no_clash_last (DB := CDB) _ _ Hc b Hb) as Hno. simpl in Hno. apply orb_false_iff in Hno as [Hno _].
    apply String.eqb_neq in Hno. done.
Qed.

Lemma versions_of_other i v db : av_agent_id v ≠ i →
  versions_of i (set_rows (agent_versions db ++ [v]) db) = versions_of i db.
Proof. intros Hne. unfold versions_of. simpl. apply filter_snoc. by apply String.eqb_neq. Qed.

Lemma follows_new_version v : follows inv (insert_row v) (λ _, sound_but (Some (av_agent_id v))).
Proof.
  intros db (H1 & H2 & H3). unfold insert_row. destruct (_ && _) eqn:Hc; [|done].
  apply andb_true_iff in Hc as [[_ Hc]%andb_true_iff _]. split_and!; [done..|]. intros a Ha Hn Hs.
  change (rows db) with (agent_versions db). rewrite versions_of_other; [by apply H3|congruence].
Qed.

Lemma follows_copies i copy fresh l : (∀ j v, av_agent_id (copy j v) = i) →
  follows (λ db, inv db ∧ drafts i db) (insert_all copy fresh l) (λ _ db, inv db ∧ drafts i db).
Proof.
  intros Hcopy. revert fresh. induction l as [|v l IH]; intros fresh; simpl; [by intros db HP|].
  eapply follows_bind; [|intros ?; apply IH]. intros db [HP Hd].
  pose proof (follows_new_version (copy (fresh 0%nat) v) db HP) as Hv. rewrite Hcopy in Hv.
  destruct (insert_row (copy (fresh 0%nat) v) db) as [[a|e] d] eqn:E.
  - apply insert_ok in E as (_ & _ & _ & ->). split; [|exact Hd]. destruct Hv as (H1 & H2 & H3). split_and!; [done..|].
    intros b Hb _ Hs. destruct (String.eqb_spec (ag_id b) i) as [E|E]; [by rewrite (Hd b Hb E) in Hs|].
    apply H3; [done|congruence|done].
  - apply insert_err in E as [_ ->]. done.
Qed.

Lemma follows_gone_version i k : follows (λ db, inv db ∧ ∃ v, v ∈ agent_versions db ∧ av_id v = k ∧ av_agent_id v = i)
  (delete_rows (λ v : AgentVersion, av_id v =? k)) (λ _, sound_but (Some i)).
Proof.
  intros db ((H1 & H2 & H3) & v & Hv & Hk & Hi). unfold delete_rows.
  split_and!; [done|by apply (no_clash_filter (DB := CDB))|]. intros a Ha Hn Hs. unfold versions_of. simpl.
  change (rows db) with (agent_versions db).
  rewrite (filter_filter_same (λ w, av_agent_id w =? ag_id a)); [by apply H3|].
  intros w Hw Hwa%String.eqb_eq. apply negb_true_iff, String.eqb_neq. intros Hwk. apply Hn. f_equal. rewrite <- Hwa, <- Hi. f_equal.
  eapply (unique_row (DB := CDB) (λ x, av_id x =? k) (agent_versions db)); [done| |done| |done|].
  - intros x y Hx Hy. bools. simpl. apply orb_true_iff. left. apply String.eqb_eq. congruence.
  - by apply String.eqb_eq.
  - by apply String.eqb_eq.
Qed.

Lemma follows_gone_agent i : follows inv (modify (delete_agent_row i)) (λ _, inv).
Proof.
  intros db (H1 & H2 & H3). unfold modify. split_and!; simpl; [by apply (no_clash_filter (DB := CDB))..|].
  intros a Ha _ Hs. apply list_elem_of_In, filter_In in Ha as [Ha%list_elem_of_In Hi]. apply negb_true_iff, String.eqb_neq in Hi.
  unfold versions_of. simpl. rewrite (filter_filter_same (λ w, av_agent_id w =? ag_id a)); [by apply H3|].
  intros w Hw Hwa%String.eqb_eq. apply negb_true_iff, String.eqb_neq. congruence.
Qed.

(** *** Every operation *)

Context (lower : string → string) (idna : string → result string)
  (digest : json → string) (now : Z) (urlsplit : string → result Url) (internal_address : string → bool)
  (urlunsplit : string → string → string).
#[local] Notation keeps m := (follows inv m (λ _, inv)) (only parsing).

Lemma follows_locked {R} `{!Table CDB R} `{!CatalogParent R} {A} i (k : R → tx CDB A) :
  (∀ r, cp_id r = i → keeps (k r)) → keeps (r ← _locked i; k r).
Proof.
  intros Hk db HP. unfold _locked, select_one, gets, found, lift, mbind, tx_bind. simpl.
  destruct (List.find (at_id i) (rows db)) as [r|] eqn:Hf; [|done]. simpl. apply find_some in Hf as [_ Hi%String.eqb_eq].
  by apply Hk.
Qed.

(** Past what an operation only looks at. *)
Ltac look1 :=
  apply follows_skip; [intros ?; first [reflexivity|
    match goal with
    | |- context [found ?o _ _] => by destruct o
    | |- context [check ?b _ _] => by destruct b
    end]|done|intros ?].
Ltac look := repeat look1.

Lemma end_draft {B} i f (b : B) : (∀ a, ag_id a = i → ag_id (f a) = i ∧ ag_status (f a) = "draft") →
  keeps (update (at_id i) f;; mret b).
Proof.
  intros Hf. eapply follows_end; [|intros ? ? H; exact H]. eapply follows_pre; [by apply follows_draft|]. by left.
Qed.

Lemma end_child {B} i f (b : B) : (∀ a, ag_id a = i → ag_id (f a) = i ∧ ag_status (f a) = "draft") →
  follows (sound_but (Some i)) (update (at_id i) f;; mret b) (λ _, inv).
Proof.
  intros Hf. eapply follows_end; [|intros ? ? H; exact H]. eapply follows_pre; [by apply follows_draft|]. by right.
Qed.

Lemma sound_create_agent n k d t : keeps (create_agent now n k d t).
Proof. unfold create_agent. look. eapply follows_end; [by apply follows_new_agent|]. by intros ? db []. Qed.

Lemma sound_update_agent i d t v : keeps (update_agent i d t v).
Proof. unfold update_agent, _assert_mutable, _assert_version. apply follows_locked. intros r Hi. look. by apply end_draft. Qed.

Lemma sound_delete_agent i v : keeps (delete_agent i v).
Proof. unfold delete_agent, _assert_mutable, _assert_version. apply follows_locked. intros r Hi. look. apply follows_gone_agent. Qed.

Lemma sound_validate_agent i : keeps (validate_agent decimal lower idna i).
Proof.
  unfold validate_agent, _assert_mutable. apply follows_locked. intros r Hi. look1.
  apply follows_read; [done..|]. intros versions.
  apply follows_read; [intros db; by destruct (negb _)|by intros db []|]. intros u.
  apply follows_read; [done|by intros db [[]]|]. intros us. apply follows_read; [done|by intros db [[[]]]|]. intros u'.
  eapply follows_end; [eapply follows_pre; [by apply (follows_validated i)|]|intros ? ? H; exact H].
  intros db [[[[HP Hs] Hc] Hm] Hp]. split; [done|]. apply select_ok in Hs as [-> _]. apply check_ok in Hc as [Hne _].
  unfold lift in Hm, Hp. injection Hm as Hm. injection Hp as Hp. eapply validated_ranges.
  - intros E. apply negb_true_iff, Nat.eqb_neq in Hne. apply Hne. change (length (versions_of i db) = 0%nat). by rewrite E.
  - exact Hm.
  - by destruct u'.
Qed.

Lemma sound_clone_agent fresh i : keeps (clone_agent_revision now fresh i).
Proof.
  unfold clone_agent_revision. apply follows_locked. intros r Hi. look.
  eapply follows_bind; [by apply follows_new_agent|]. intros ?.
  apply follows_skip; [done|by intros db []|]. intros versions.
  eapply follows_bind; [by apply follows_copies|]. intros ?.
  eapply follows_pre; [|by intros db [HP _]]. look.
  eapply follows_end; [|intros ? ? H; exact H].
  generalize (λ n : nat, fresh (S (length versions + n))). intros f. revert f.
  match goal with |- ∀ _, follows _ (insert_all _ _ ?l) _ => induction l as [|b l IH]; intros f; simpl; [by intros db HP|] end.
  eapply follows_bind; [apply follows_insert|]. intros ?. apply IH.
Qed.

Lemma sound_create_version n i b : keeps (create_agent_version decimal lower idna digest now n i b).
Proof.
  unfold create_agent_version, _assert_mutable. apply follows_locked. intros r Hi. look.
  eapply follows_bind; [apply follows_new_version|]. intros ?. by apply end_child.
Qed.

Lemma sound_delete_version i v : keeps (delete_agent_version i v).
Proof.
  unfold delete_agent_version, _assert_mutable. apply follows_locked. intros r Hi. look1.
  apply follows_read; [done..|]. intros item. apply follows_read; [intros db; by destruct item|by intros db []|]. intros x.
  apply follows_skip; [intros db; by destruct (av_published_at x)|by intros db [[]]|]. intros ?.
  eapply follows_bind; [|intros ?; by apply end_child]. eapply follows_pre; [apply follows_gone_version|].
  intros db [[HP Hs] Hf]. split; [done|]. apply select_one_ok in Hs as [-> _]. apply found_ok in Hf as [Hf _].
  apply find_some in Hf as [Hx%list_elem_of_In Hc]. bools. by exists x.
Qed.

Lemma sound_create_agent_binding n i m l h : keeps (create_agent_model_binding decimal now n i m l h).
Proof.
  unfold create_agent_model_binding, _assert_mutable, get_model, list_agent_versions. apply follows_locked. intros r Hi. look.
  eapply follows_bind; [apply follows_insert|]. intros ?. by apply end_draft.
Qed.

Lemma sound_delete_agent_binding i b : keeps (delete_agent_model_binding i b).
Proof.
  unfold delete_agent_model_binding, _assert_mutable. apply follows_locked. intros r Hi. look.
  eapply follows_bind; [apply follows_delete|]. intros ?. by apply end_draft.
Qed.

Ltac elsewhere := first [apply follows_insert|apply follows_update|apply follows_delete|apply follows_dirty].
Ltac end_elsewhere := eapply follows_end; [elsewhere|intros ? ? H; exact H].

Lemma sound_create_model n b : keeps (create_model lower now n b).
Proof. unfold create_model. look. destruct (_validate_model_values _ _). look. end_elsewhere. Qed.
Lemma sound_update_model i b v : keeps (update_model lower i b v).
Proof.
  unfold update_model, _assert_mutable, _assert_version. apply follows_locked. intros r _. look.
  destruct (_validate_model_values _ _) as [[] m]; [end_elsewhere|elsewhere].
Qed.
Lemma sound_delete_model i v : keeps (delete_model i v).
Proof.
  unfold delete_model, delete_model_row, _assert_mutable, _assert_version. apply follows_locked. intros r _. look. end_elsewhere.
Qed.
Lemma sound_validate_model i : keeps (validate_model lower i).
Proof.
  unfold validate_model, _assert_mutable. apply follows_locked. intros r _. look.
  destruct (_validate_model_values _ _) as [[] m]; [end_elsewhere|elsewhere].
Qed.
Lemma sound_clone_model fresh i : keeps (clone_model_revision now fresh i).
Proof. unfold clone_model_revision. apply follows_locked. intros r _. look. end_elsewhere. Qed.

Lemma sound_create_provider n k d p u a :
  keeps (create_provider lower idna now urlsplit internal_address urlunsplit n k d p u a).
Proof. unfold create_provider. look. end_elsewhere. Qed.
Lemma sound_update_provider i d p u a v :
  keeps (update_provider lower idna urlsplit internal_address urlunsplit i d p u a v).
Proof.
  unfold update_provider, _assert_mutable, _assert_version. apply follows_locked. intros r _. look.
  apply follows_skip; [intros db; destruct u as [u|]; [|done]; unfold lift, mbind, tx_bind; by destruct (_normalize_provider_url _ _ _ _ _ u)|done|].
  intros ?. end_elsewhere.
Qed.
Lemma sound_delete_provider i v : keeps (delete_provider i v).
Proof.
  unfold delete_provider, _assert_mutable, _assert_version. apply follows_locked. intros r _. look. by intros db HP.
Qed.
Lemma sound_validate_provider i : keeps (validate_provider lower idna urlsplit internal_address urlunsplit i).
Proof. unfold validate_provider, _assert_mutable. apply follows_locked. intros r _. look. end_elsewhere. Qed.
Lemma sound_clone_provider fresh i : keeps (clone_provider_revision now fresh i).
Proof.
  unfold clone_provider_revision. apply follows_locked. intros r _. look.
  eapply follows_bind; [apply follows_insert|]. intros ?. look.
  eapply follows_end; [|intros ? ? H; exact H]. generalize (λ n : nat, fresh (S n)). intros f. revert f.
  match goal with |- ∀ _, follows _ (insert_all _ _ ?l) _ => induction l as [|b l IH]; intros f; simpl; [by intros db HP|] end.
  eapply follows_bind; [apply follows_insert|]. intros ?. apply IH.
Qed.
Lemma sound_create_provider_binding n i m p d : keeps (create_provider_model_binding lower now n i m p d).
Proof.
  unfold create_provider_model_binding, _assert_mutable, get_model. apply follows_locked. intros r _. look.
  eapply follows_bind; [apply follows_insert|]. intros ?. end_elsewhere.
Qed.
Lemma sound_delete_provider_binding i b : keeps (delete_provider_model_binding i b).
Proof.
  unfold delete_provider_model_binding, _assert_mutable. apply follows_locked. intros r _. look.
  eapply follows_bind; [apply follows_delete|]. intros ?. end_elsewhere.
Qed.
End Sound.

(** ** Every request *)

Section Requests.
Context `{SqlLower} (decimal : string → option Z) (lower : string → string) (idna : string → result string)
  (digest : json → string) (urlsplit : string → result Url) (internal_address : string → bool)
  (urlunsplit : string → string → string).
#[local] Notation inv := (sound_but decimal None).
#[local] Notation follows := (follows decimal).

Lemma follows_call {A} (m : tx CDB A) : follows inv m (λ _, inv) → follows inv (_call m) (λ _, inv).
Proof. intros Hm db HP. specialize (Hm db HP). unfold _call. by destruct (m db) as [[a|[]] d]. Qed.

Lemma follows_admitted {A} accounts claims (m : tx CDB A) db :
  follows inv m (λ _, inv) → inv db → inv (admitted accounts claims m db).
Proof.
  intros Hm HP. unfold admitted. destruct (fst _); [|done]. specialize (Hm db HP). unfold shared.
  destruct (m db) as [[x|[]] d]; try done. by destruct (flush_ok d).
Qed.

Lemma serve_catalog_sound accounts claims now r db : inv db →
  inv (serve_catalog decimal lower idna digest urlsplit internal_address urlunsplit accounts claims now r db).
Proof.
  destruct r; intros HP; cbn [serve_catalog]; apply follows_admitted; try exact HP;
    unfold create_agent_endpoint, update_agent_endpoint, delete_agent_endpoint, validate_agent_endpoint,
      clone_agent_endpoint, create_agent_version_endpoint, delete_agent_version_endpoint, create_agent_binding_endpoint,
      delete_agent_binding_endpoint, create_model_endpoint, update_model_endpoint, delete_model_endpoint,
      validate_model_endpoint, clone_model_endpoint, create_provider_endpoint, update_provider_endpoint,
      delete_provider_endpoint, validate_provider_endpoint, clone_provider_endpoint, create_provider_binding_endpoint,
      delete_provider_binding_endpoint;
    repeat (apply follows_skip; [intros ?; first [reflexivity|
      match goal with |- context [found ?o _ _] => by destruct o | |- context [check ?b _ _] => by destruct b end]|done|intros ?]);
    apply follows_call.
  - apply sound_create_agent.
  - apply sound_update_agent.
  - apply sound_delete_agent.
  - apply sound_validate_agent.
  - apply sound_clone_agent.
  - apply sound_create_version.
  - apply sound_delete_version.
  - apply sound_create_agent_binding.
  - apply sound_delete_agent_binding.
  - apply sound_create_model.
  - apply sound_update_model.
  - apply sound_delete_model.
  - apply sound_validate_model.
  - apply sound_clone_model.
  - apply sound_create_provider.
  - apply sound_update_provider.
  - apply sound_delete_provider.
  - apply sound_validate_provider.
  - apply sound_clone_provider.
  - apply sound_create_provider_binding.
  - apply sound_delete_provider_binding.
Qed.
End Requests.


(** The search for overlaps is exact: among ranges that are valid one by one, it refuses just when
    some version is offered twice on some platform. *)
Lemma pairs_exact decimal versions :
  (∀ v, v ∈ versions → _validate_range decimal (av_min_version v) (av_max_version_exclusive v) = Ok tt) →
  check_pairs decimal versions = Ok tt ∨
  check_pairs decimal versions = Err (ValueError "AGENT_VERSION_RANGE_OVERLAP") ∧
  ∃ i j v w platform x, (i < j)%nat ∧ versions !! i = Some v ∧ versions !! j = Some w ∧
    offers decimal v platform x ∧ offers decimal w platform x.
Proof.
  induction versions as [|v l IH]; intros Hv; [by left|]. simpl.
  assert (∀ u, u ∈ l → _validate_range decimal (av_min_version u) (av_max_version_exclusive u) = Ok tt) as Hl
    by (intros; apply Hv; by right).
  assert ((∃ us, mapM (λ second, m ← meets decimal v second; ensure (negb m) (ValueError "AGENT_VERSION_RANGE_OVERLAP")) l = Ok us) ∨
    mapM (λ second, m ← meets decimal v second; ensure (negb m) (ValueError "AGENT_VERSION_RANGE_OVERLAP")) l =
      Err (ValueError "AGENT_VERSION_RANGE_OVERLAP") ∧ ∃ j w p x, l !! j = Some w ∧ offers decimal v p x ∧ offers decimal w p x)
    as [[us ->]|[-> (j & w & p & x & Hj & Ho1 & Ho2)]].
  - clear IH. induction l as [|w l IHl]; [by left; eexists|]. simpl.
    destruct (meets_iff decimal v w) as (m & -> & Hm); [apply Hv; left|apply Hl; left|]. simpl. destruct m; simpl.
    + right. split; [done|]. destruct (proj1 Hm eq_refl) as (p & x & Ho). by exists 0%nat, w, p, x.
    + destruct IHl as [[us ->]|[-> (j & w' & p & x & Hj & Ho)]].
      * intros u Hu. apply Hv. apply elem_of_cons in Hu as [->|Hu]; [left|by do 2 right].
      * intros u Hu. apply Hl. by right.
      * left. by eexists.
      * right. split; [done|]. by exists (S j), w', p, x.
  - simpl. destruct (IH Hl) as [->|[-> (i & j & v' & w & p & x & Hij & Hi & Hj & Ho)]]; [by left|]. right. split; [done|].
    exists (S i), (S j), v', w, p, x. split_and!; [lia|done..| |]; apply Ho.
  - right. split; [done|]. exists 0%nat, (S j), v, w, p, x. split_and!; try done. lia.
Qed.

